(* ===== verification/_CoqProject ===== *)
-Q . S2P
Prelude.v
Encoding.v
Json.v
Contracts.v
ContractsJson.v
LocaleJson.v
EvidenceLedger.v
Migrations.v
ReleaseInputs.v
Paths.v
WorkspaceMounts.v
ChangeControl.v
ChangeControlFacts.v
ChangeControlLife.v
TargetDeployments.v
Promotion.v
PromotionFacts.v
Sealing.v
ArtifactOutputs.v
Runner.v
RunnerFacts.v
RunnerLife.v
Identity.v
IdentityPolicy.v
IdentityFacts.v
IdentityLife.v
PolicyService.v
Extensions.v
ExtensionsFacts.v
ExtensionsDemo.v
CredentialMaterial.v
Governance.v
GovernanceFacts.v
GovernanceLife.v
GovernanceDemo.v
Collaboration.v
CollaborationFacts.v
CollaborationLife.v
CollaborationViews.v
CollaborationLanding.v
CollaborationDemo.v
Disclosure.v
DisclosureFacts.v
DisclosureSealed.v
PublicIntake.v
