(* ===== verification/Prelude.v ===== *)
(** * anyam, verified

    This library models the core of anyam, a TypeScript system in which agents
    and people propose Changes to a Project, land them in a canonical Project
    Revision, verify them on Runners, and promote sealed Releases to a Target,
    and proves the promises of its components.  Every definition is a
    translation of the code under src/ named with it; the comments of the files
    name functions by their names in the source.

    ** The program and the files

    - [Prelude] (this file): the monad of a method ([M S E A]: the host's
      counters, the object's state, a result or a thrown error, the writes made
      before a throw kept), its weakest-precondition rules ([wp], [wp_step],
      [readonly], [keeps], [yields]), the JavaScript values the source uses
      ([omap] for Map and plain objects, insertion order included; strings as
      code units), the [Host] (UUIDs, the clock, Date.parse, SHA-256, NFKC,
      localeCompare) and generic lemmas.
    - [Encoding]: kernel/encoding.ts, base64url over a modelled [btoa].
    - [Json]: the JSON values the program builds, the three serialisations it
      digests ([stableJson] of runner-proof.ts, [canonicalJson] of
      release-input.ts, [encode_json] of promotion.ts) and their injectivity up
      to the order of keys, from which every digest theorem follows.
    - [Contracts], [ContractsJson]: the records and unions of
      kernel/contracts.ts, their JSON images and the injectivity of those,
      [createProject], [createProjectRevision], [deriveProjectView].
    - [Paths]: normalization of POSIX paths, which the components that place
      files share; [LocaleJson]: the serialisation with keys sorted by
      localeCompare, which governance/profiles.ts and disclosure/hybrid.ts carry.
    - [EvidenceLedger]: kernel/evidence.ts, the ledger and Stage Gates.
    - [WorkspaceMounts]: kernel/workspace-mounts.ts, the mount validator.
    - [ChangeControl], [ChangeControlFacts], [ChangeControlLife]:
      change-control/local.ts, the coordinator of Workspaces, Changes, Conflicts and Landings.  It calls
      [WorkspaceMounts] to materialise a Workspace.
    - [Migrations], [ReleaseInputs], [TargetDeployments]: the pure parts of
      delivery/ (migration-plan.ts, release-input.ts, target-deployment.ts).
    - [Promotion], [PromotionFacts], [Sealing]: delivery/promotion.ts, the seal
      of a verified Release, which calls the three files above, and the
      coordinator that promotes it through an adapter, observes its health and
      rolls back.
    - [ArtifactOutputs]: packages/create-anyam/src/action-artifact-output.ts,
      the parser and validator of what an Action may output.
    - [Runner], [RunnerFacts], [RunnerLife]: execution/runner.ts with the
      signed context of execution/runner-proof.ts, the coordinator of external
      Runners, which calls [ArtifactOutputs] on every stored record and Result.
    - [Identity]: identity/realm.ts, the state of a Realm and every method of its
      identity and policy object but the decision: Principals, passkeys and OIDC,
      Sessions of humans and agents, Tasks, Capability Grants, delegation,
      credentials, revocation, recovery snapshots.
    - [IdentityPolicy]: the policy decision of the same object and what it means.
    - [IdentityFacts], [IdentityLife]: the invariant of every call, and the life
      of a Realm along calls, exports and recoveries.
    - [PolicyService]: the interface between the Realm's policy and the objects
      that ask it (a class of operations, a class of laws, the Realm's instances).
    - [Extensions], [ExtensionsFacts], [ExtensionsDemo]: extensions/registry.ts,
      the registry of extension manifests, installations and invocations, proved
      over any policy service and run over a Realm.
    - [CredentialMaterial]: the walk of the credential scanner,
      packages/create-anyam/src/credential-material.ts.
    - [Governance], [GovernanceFacts], [GovernanceLife], [GovernanceDemo]:
      governance/profiles.ts, the registry of Governance Profiles, their
      activation, evaluation and portable bundles, proved over any policy service
      and run over a Realm.
    - [Collaboration], [CollaborationFacts], [CollaborationLife],
      [CollaborationViews], [CollaborationDemo]: change-control/collaboration.ts,
      Integration Cohorts, their analyzers, findings, reviews, the gate of a
      Landing, and the projections for an audience.
    - [CollaborationLanding]: the coordinator of [ChangeControl] as its Landing
      authority, as qualification/team-simulation.ts connects them.
    - [Disclosure], [DisclosureFacts], [DisclosureSealed]: disclosure/hybrid.ts:
      public projections and their identities, what an audience is told of Intents,
      Pull Requests and Changes, Sealed Verifiers (which append to an
      [EvidenceLedger]), and Publication Changes.
    - [PublicIntake]: disclosure/public-intake.ts, the control of public
      contributions.

    ** What the theorems show

    - Change control: every interleaving of the methods keeps the records
      consistent, Workspaces and Conflicts included ([records_consistent]); published history is immutable; a Landing
      is all or nothing and lands the composition of its members; a Workspace
      stays below its mounts.
    - Collaboration: the gate allows exactly what its declarative reading
      [landable] allows ([evaluateLanding_exact]); what has landed was landable
      when its landing began, however the asynchronous methods interleave
      ([landed_was_landable], of the call that asked and the answer accepted); the
      records stay consistent; with the built-in analyzer a cohort is blocked exactly
      when two members share an effect; a projection depends on a hidden item only
      through the fields it does not blank ([projections_noninterference], which also
      says what stays visible); a Landing of the local change control is
      never lost ([land_through_change_control]).
    - Promotion: the Target's pointer moves only on a healthy, bound answer
      ([promotion_pointer]); executions settle, with a Promotion when the rollback
      decision accepts the Migration Plan of every Release ([executions_settle]); the event ledger is a run of the
      state machine; a seal is vouched for by the
      Evidence the Target requires, and its digest binds all of it.
    - Runner: the coordinator refines an abstract machine that only knows the
      states of each Job's Attempts ([coordinator_refines]); what is over is
      final; a Result is accepted once, and only signed and in context; no Job is
      stuck.
    - Contracts: a Project View fails closed and shows what was asked for
      ([deriveProjectView_fail_closed]).
    - The validators and parsers accept exactly what their theorems describe,
      parse what they print, and their digests bind their content when SHA-256
      does not collide.
    - Identity: the policy's answer is the declarative reading of its checks, the
      chains of delegation alive ([evaluate_exact]); a derived Grant
      adds no action, Source Space, effect, credential class or model provider and
      dies with the Grants above it ([delegation_attenuates], which names the
      dimensions that the code does not bound); lifetimes are bounded by what they
      hang from; a revocation ends everything below it for good, unless
      the Realm goes back to a snapshot or capture taken before it
      ([revocation_permanent]), and nothing is done in the name of what is dead.
    - Extensions: an invocation stays within the manifest, the installation and the
      policy ([invoke_exact]); the records stay consistent along every sequence of
      calls; what is retired never acts again.
    - Governance: an evaluation is the verdict of the observations on the controls
      and nothing else ([evaluation_exact]); an exported bundle is bound by its
      digest and replays to the same verdict in a registry that knows no other version
      of its profile ([export_replays]); the
      records stay anchored in registered profiles.

    - Disclosure: a public projection is exactly the public Source Spaces asked for
      ([public_projection_exact]), does not depend on anything else
      ([private_changes_invisible]), and its identity binds what it discloses
      ([projection_identity_binds]); a Sealed Verifier tells the public nothing of
      its private inputs ([sealed_private_inputs_hidden]); a Publication Change
      lands after a preview and keeps what it publishes ([publication_lifecycle]); a
      public intake lets in no more than its limit ([intake_bounded]).

    The step relations are [ChangeControlFacts.step] (calls and the three
    phases of rebaseChange: its beginning, the Workspace it waits for, its end), [PromotionFacts.step] (calls and adapter answers) and
    [RunnerFacts.step] (calls), [IdentityLife.step] (calls, exports, captures and
    recoveries) and [ExtensionsFacts.lives] and [GovernanceLife.gov_lives] (calls, and what the policy does on its own)
    and [CollaborationLife.col_step] (calls, the answers of analyzers and of the
    Landing authority, their failures); reachability is their closure from the initial state (for a Realm
    also under [IdentityLife.hydrate], which goes back to an earlier state as it
    was), and the invariants are proved for each step.

    ** How the code is modelled

    - A method is a computation over the record of its object's fields.  A Map is
      an [omap]; an object reached through a Map and mutated in place is an
      update of the map at its id, so aliases see it.
    - Asynchronous methods are split at each await: rebaseChange in a beginning,
      the creation of its Workspace and an end, with the values it keeps, a Promotion's execution in one stretch
      per answer of its adapter, createCohort at the answer of each analyzer, land
      at the answer of the authority and runSealedVerifier at the private callback, with the state between them open to any
      other call.  An adapter that calls back into the coordinator while it is being
      called is not modelled.
    - Errors keep the code and the affected object, and the texts a later line
      reads (those of extensions, governance, collaboration and disclosure are
      complete); elsewhere recovery advice and messages are dropped; receipts stored
      in records are kept to the letter.
    - A plain object with string keys is an [omap] too, in insertion order.  JavaScript
      would list keys that are array indices first and treat __proto__ apart: for the
      identifiers that are drawn here no such key arises, but a file of a public
      projection named 404 or __proto__ is placed by the model like any other.
    - Strings are lists of code units below 256, numbers integers.  Enum-typed
      inputs are taken to be well typed; Artifact declarations, which the code
      parses as unknown values, are JSON.
    - Not in the code base, hence parameters: the [Host]; [RunnerHost] (public
      keys, signatures, entropy); [RealmHost] (the injected clock as milliseconds,
      toISOString, entropy); [TextPatterns] (which texts the scanner's
      regular expressions recognise); the file system of the Workspaces; the
      delivery adapter.  The credential scanner of Target profiles
      (security/credential-material.ts, which re-exports the one of
      packages/create-anyam) is in the code base; Governance takes its walk from
      [CredentialMaterial], and [TargetDeployments], which only asks it about single
      texts, takes it as a parameter.  The only
      facts assumed of them are [FreshUUIDs] (two drawn UUIDs differ),
      [CollisionFree] (SHA-256 is injective), [MonotoneClock] (the clock does not
      go back) and [IsoDates] (a written date reads back), where a theorem says
      so, and the witnesses instantiate all of them.
    - Recursion is structural but for three loops of the Realm with fuel, each
      proved sufficient: a chain of delegation is followed for two more steps than
      there are records ([wp_chain_active]), and the sweeps that collect sessions
      and revoke Grants run once more than there are records
      ([delegated_loop_ok], [revoke_loop_ok]).  A run of a Promotion needs at most
      five answers because each answer lowers the rank of the point it waits at.

    ** Not modelled

    - src/ beyond the files above: portability and the GitHub
      integration, the Cloudflare services, installation, operations, qualification, the command line and the
      applications.  Most of it is HTTP, SQL, git and provider glue; the parts with
      rules of their own are listed in the manifest as planned.
    - containsKnownCredentialMaterial of identity/realm.ts, which walks arbitrary
      JSON for token-shaped text; it changes no state.
    - materializePublicProjection of disclosure/hybrid.ts, which writes a projection
      through a RepositoryDriver.
    - execution/local.ts spawns processes; only its two records are used here.
    - createCommand and createDomainEvent of kernel/contracts.ts.
    - The regular expressions of credential-material.ts over provider token
      formats, and its search for known secrets. *)

From Stdlib Require Export Ascii.
From Stdlib Require String.
From stdpp Require Export base tactics option list strings pretty numbers sorting relations.

#[export] Set Default Goal Selector "!".
#[local] Set Warnings "-clear-no-such-hyp,-postfix-notation-not-level-1".

Declare Scope anyam_scope.
Delimit Scope anyam_scope with anyam.
Open Scope anyam_scope.

(** * Record update

    [Eta] gives a record type its eta expansion; [r <| f := v |>] is then the
    copy of [r] whose field [f] is [v], the object spread [{ ...r, f: v }] of
    the source. *)

Class Eta (R : Type) := eta : R -> R.
Class Setter {R T : Type} (proj : R -> T) := setter : T -> R -> R.

Ltac build_setter :=
  match goal with
  | |- @Setter ?R ?T ?proj =>
      let e := constr:(_ : Eta R) in
      let h := (match e with ?f => eval red in f end) in
      exact (fun (v : T) (r : R) =>
        ltac:(let body := eval cbv beta in (h r) in
              let x := constr:(proj r) in
              let f := eval pattern x in body in
              match f with ?F _ => let b := eval cbv beta in (F v) in exact b end))
  end.
#[export] Hint Extern 0 (Setter _) => build_setter : typeclass_instances.

Definition set_field {R T : Type} (proj : R -> T) `{!Setter proj} (v : T) (r : R) : R :=
  setter v r.
Arguments set_field {R T} proj {_} v r /.
Arguments setter {R T} proj {_} v r /.

Notation "r <| f := v |>" := (set_field f v r)
  (at level 12, left associativity, f at level 9, format "r  <| f  :=  v |>") : anyam_scope.

(** * The JavaScript host

    What the source takes from its runtime and does not define: the random
    UUIDs of [node:crypto], the clock behind [new Date().toISOString()] (or an
    injected [now]), SHA-256, and the parts of the language whose result the
    standard leaves to the implementation or to the Unicode tables
    ([Date.parse] outside its own format, [String.prototype.normalize],
    [String.prototype.localeCompare]).  [randomUUID n] is the [n]-th UUID drawn
    and [clock n] the [n]-th reading of the clock. *)

Class Host := {
  randomUUID : nat -> string;
  clock : nat -> string;
  Date_parse : string -> option Z;
  sha256 : string -> string;
  normalizeNFKC : string -> string;
  localeCompare : string -> string -> comparison;
}.

(** What a theorem may assume of the host, when it needs to: two draws of a
    UUID differ, and two inputs of SHA-256 do not collide. *)

Class FreshUUIDs (H : Host) := randomUUID_inj : Inj (=) (=) (@randomUUID H).
Class CollisionFree (H : Host) := sha256_inj : Inj (=) (=) (@sha256 H).

(** * Effects

    A computation of the source reads and writes the object it is a method of,
    draws from the host, and returns or throws.  A throw keeps the writes made
    before it, as in JavaScript: the state is returned on both outcomes. *)

Inductive outcome (E A : Type) : Type :=
| Ok (a : A)
| Throw (e : E).
Arguments Ok {E A} a.
Arguments Throw {E A} e.

Record World := mkWorld { uuids_drawn : nat; clock_reads : nat }.

Definition M (S E A : Type) : Type := World -> S -> outcome E A * World * S.

#[export] Instance outcome_ret E : MRet (outcome E) := fun A a => Ok a.
#[export] Instance outcome_bind E : MBind (outcome E) := fun A B f m =>
  match m with Ok a => f a | Throw e => Throw e end.
#[export] Instance outcome_fmap E : FMap (outcome E) := fun A B f m =>
  match m with Ok a => Ok (f a) | Throw e => Throw e end.

#[export] Instance M_ret S E : MRet (M S E) := fun A a w s => (Ok a, w, s).
#[export] Instance M_bind S E : MBind (M S E) := fun A B f m w s =>
  match m w s with
  | (Ok a, w', s') => f a w' s'
  | (Throw e, w', s') => (Throw e, w', s')
  end.

Definition throw {S E A} (e : E) : M S E A := fun w s => (Throw e, w, s).
Definition get {S E} : M S E S := fun w s => (Ok s, w, s).
Definition gets {S E A} (f : S -> A) : M S E A := fun w s => (Ok (f s), w, s).
Definition modify {S E} (f : S -> S) : M S E () := fun w s => (Ok (), w, f s).
Definition throw_if {S E} (b : bool) (e : E) : M S E () :=
  if b then throw e else mret ().
Definition lift {S E A} (m : outcome E A) : M S E A := fun w s => (m, w, s).
Definition lift_err {S E E' A} (f : E' -> E) (m : outcome E' A) : M S E A :=
  fun w s => (match m with Ok a => Ok a | Throw e => Throw (f e) end, w, s).
(** [option] as a lookup that throws when the value is [undefined]. *)
Definition require {S E A} (o : option A) (e : E) : M S E A :=
  match o with Some a => mret a | None => throw e end.
(** [try { m } catch (error) { h(error) }]. *)
Definition try_catch {S E A} (m : M S E A) (h : E -> M S E A) : M S E A := fun w s =>
  match m w s with
  | (Ok a, w', s') => (Ok a, w', s')
  | (Throw e, w', s') => h e w' s'
  end.

(** The same computation with its error translated. *)
Definition map_err {S E E' A} (f : E' -> E) (m : M S E' A) : M S E A := fun w s =>
  match m w s with
  | (Ok a, w', s') => (Ok a, w', s')
  | (Throw e, w', s') => (Throw (f e), w', s')
  end.

Definition uuid `{Host} {S E} : M S E string := fun w s =>
  (Ok (randomUUID (uuids_drawn w)), mkWorld (1 + uuids_drawn w) (clock_reads w), s).
Definition now `{Host} {S E} : M S E string := fun w s =>
  (Ok (clock (clock_reads w)), mkWorld (uuids_drawn w) (1 + clock_reads w), s).

(** [for (const x of l) f(x)] for a body that only validates or updates. *)
Fixpoint for_each {S E A} (l : list A) (f : A -> M S E ()) : M S E () :=
  match l with
  | [] => mret ()
  | x :: l => f x ;; for_each l f
  end.
Fixpoint fold_each {S E A B} (l : list A) (f : B -> A -> M S E B) (b : B) : M S E B :=
  match l with
  | [] => mret b
  | x :: l => b' ← f b x; fold_each l f b'
  end.
Fixpoint map_each {S E A B} (l : list A) (f : A -> M S E B) : M S E (list B) :=
  match l with
  | [] => mret []
  | x :: l => y ← f x; ys ← map_each l f; mret (y :: ys)
  end.

(** * Strings

    A JavaScript string is a sequence of UTF-16 code units; the model covers
    the strings whose code units are below 256, one [ascii] each, on which the
    operations below are the language's. *)

(** A template literal: its chunks and interpolated values, concatenated. *)
Definition cat : list string -> string := foldr String.append "".
(** [values.join(sep)]. *)
Fixpoint join (sep : string) (l : list string) : string :=
  match l with
  | [] => ""
  | [x] => x
  | x :: l => x +:+ sep +:+ join sep l
  end.

Definition code (c : ascii) : N := N_of_ascii c.

(** White space and line terminators of ECMAScript below U+0100. *)
Definition is_white (c : ascii) : bool :=
  let n := code c in ((9 <=? n) && (n <=? 13) || (n =? 32) || (n =? 160))%N.

Fixpoint trim_start (s : string) : string :=
  match s with
  | String c s' => if is_white c then trim_start s' else s
  | EmptyString => EmptyString
  end.
Fixpoint trim_end (s : string) : string :=
  match s with
  | EmptyString => EmptyString
  | String c s' =>
      match trim_end s' with
      | EmptyString => if is_white c then EmptyString else String c EmptyString
      | t => String c t
      end
  end.
(** [s.trim()]. *)
Definition trim (s : string) : string := trim_end (trim_start s).
(** [s.trim().length === 0]. *)
Definition blank (s : string) : bool := String.eqb (trim s) "".

(** A string used as a condition: the empty one is falsy. *)
Definition truthy (s : string) : bool := negb (String.eqb s "").
(** The value of an optional string used as a condition: [undefined] and [""]
    are both falsy. *)
Definition truthy_opt (o : option string) : option string :=
  match o with Some s => if truthy s then Some s else None | None => None end.

Fixpoint string_map (f : ascii -> ascii) (s : string) : string :=
  match s with
  | EmptyString => EmptyString
  | String c s => String (f c) (string_map f s)
  end.
Fixpoint string_exists (p : ascii -> bool) (s : string) : bool :=
  match s with
  | EmptyString => false
  | String c s => p c || string_exists p s
  end.
Definition string_all (p : ascii -> bool) (s : string) : bool :=
  negb (string_exists (fun c => negb (p c)) s).

(** [s.replaceAll(a, b)] for two one-character strings. *)
Definition replace_char (a b : ascii) : string -> string :=
  string_map (fun c => if Ascii.eqb c a then b else c).

(** [s.toLowerCase()], on code units below 256. *)
Definition lower_char (c : ascii) : ascii :=
  let n := code c in
  if ((65 <=? n) && (n <=? 90) || (192 <=? n) && (n <=? 222) && negb (n =? 215))%N
  then ascii_of_N (n + 32) else c.
Definition toLowerCase : string -> string := string_map lower_char.

(** [s.split(c)] for a one-character separator: never the empty list. *)
Fixpoint split (c : ascii) (s : string) : list string :=
  match s with
  | EmptyString => [""]
  | String d s =>
      if Ascii.eqb d c then "" :: split c s
      else match split c s with
           | [] => [String d ""]
           | x :: l => String d x :: l
           end
  end.

(** [s.startsWith(p)]. *)
Definition starts_with (p s : string) : bool := String.prefix p s.
(** [s.includes(p)]. *)
Fixpoint includes (p s : string) : bool :=
  String.prefix p s || match s with EmptyString => false | String _ s => includes p s end.

(** [s.slice(0, i)] and [s.slice(i + 1)] at the last [i] where [c] occurs. *)
Fixpoint split_last (c : ascii) (s : string) : option (string * string) :=
  match s with
  | EmptyString => None
  | String d s =>
      match split_last c s with
      | Some (a, b) => Some (String d a, b)
      | None => if Ascii.eqb d c then Some ("", s) else None
      end
  end.

Definition char_nul : ascii := ascii_of_N 0.
Definition char_slash : ascii := "/"%char.
Definition char_backslash : ascii := "\"%char.

(** * Lists *)

(** [new Set(l).size !== l.length]. *)
Definition has_duplicates (l : list string) : bool :=
  negb (length (remove_dups l) =? length l)%nat.

(** [[...new Set(l)]]: the first occurrence of each. *)
Fixpoint set_of (l : list string) : list string :=
  match l with
  | [] => []
  | x :: l => x :: base.filter (fun y => y <> x) (set_of l)
  end.
(** [s.slice(0, n)]. *)
Definition slice_to (n : nat) (s : string) : string := String.substring 0 n s.

(** [l.includes(x)]. *)
Definition list_includes (l : list string) (x : string) : bool := bool_decide (x ∈ l).

(** [l.find(p)], and [[...l].reverse().find(p)]. *)
Definition find_first {A} (p : A -> bool) (l : list A) : option A :=
  head (base.filter (fun x => p x = true) l).
Definition find_last {A} (p : A -> bool) (l : list A) : option A :=
  last (base.filter (fun x => p x = true) l).

(** [l.sort(cmp)]: a stable sort. *)
Fixpoint sort_insert {A} (cmp : A -> A -> comparison) (x : A) (l : list A) : list A :=
  match l with
  | [] => [x]
  | y :: l' => match cmp x y with Gt => y :: sort_insert cmp x l' | _ => x :: l end
  end.
Definition sort_by {A} (cmp : A -> A -> comparison) (l : list A) : list A :=
  foldr (sort_insert cmp) [] l.
(** [strings.sort()]: by code units. *)
Definition sort_strings : list string -> list string := sort_by String.compare.

(** * Insertion-ordered maps

    [Map<string, V>], and an object used as a record of string keys: a key
    keeps the place of its first insertion.  (An object lists the keys that
    are array indices first, and has no ordinary key __proto__; here those are keys
    like any other.) *)

Definition omap (V : Type) : Type := list (string * V).

Fixpoint omap_get {V} (k : string) (m : omap V) : option V :=
  match m with
  | [] => None
  | (k', v) :: m => if decide (k = k') then Some v else omap_get k m
  end.
Fixpoint omap_set {V} (k : string) (v : V) (m : omap V) : omap V :=
  match m with
  | [] => [(k, v)]
  | (k', v') :: m => if decide (k = k') then (k', v) :: m else (k', v') :: omap_set k v m
  end.
Fixpoint omap_delete {V} (k : string) (m : omap V) : omap V :=
  match m with
  | [] => []
  | (k', v') :: m => if decide (k = k') then omap_delete k m else (k', v') :: omap_delete k m
  end.
Definition omap_has {V} (k : string) (m : omap V) : bool :=
  bool_decide (is_Some (omap_get k m)).
Definition omap_keys {V} (m : omap V) : list string := m.*1.
Definition omap_values {V} (m : omap V) : list V := m.*2.
(** [new Map(entries)], [Object.fromEntries(entries)]: the last entry of a key
    wins, at the place of the first. *)
Definition omap_from {V} (l : list (string * V)) : omap V :=
  foldl (fun m p => omap_set p.1 p.2 m) [] l.

Definition omap_wf {V} (m : omap V) : Prop := NoDup (omap_keys m).

(** * Reasoning about computations

    [wp m Q X w s]: from host [w] and state [s], [m] either returns with [Q]
    or throws with [X], and the state it leaves is the one [Q] or [X] sees. *)

Definition wp {S E A} (m : M S E A) (Q : A -> World -> S -> Prop)
    (X : E -> World -> S -> Prop) (w : World) (s : S) : Prop :=
  match m w s with
  | (Ok a, w', s') => Q a w' s'
  | (Throw e, w', s') => X e w' s'
  end.

Section wp.
Context {S E : Type}.
Implicit Types (w : World) (s : S).

Lemma wp_ret {A} (a : A) Q X w s : Q a w s → wp (mret a : M S E A) Q X w s.
Proof. done. Qed.
Lemma wp_throw {A} (e : E) Q X w s : X e w s → wp (throw e : M S E A) Q X w s.
Proof. done. Qed.
Lemma wp_bind {A B} (m : M S E A) (f : A → M S E B) Q X w s :
    wp m (λ a w' s', wp (f a) Q X w' s') X w s → wp (m ≫= f) Q X w s.
Proof. unfold wp, mbind, M_bind. by destruct (m w s) as [[[a|e] w'] s']. Qed.
Lemma wp_gets {A} (f : S → A) Q X w s : Q (f s) w s → wp (gets f : M S E A) Q X w s.
Proof. done. Qed.
Lemma wp_get Q X w s : Q s w s → wp (get : M S E S) Q X w s.
Proof. done. Qed.
Lemma wp_modify (f : S → S) Q X w s : Q () w (f s) → wp (modify f : M S E ()) Q X w s.
Proof. done. Qed.
Lemma wp_throw_if b (e : E) Q X w s :
    (b = true → X e w s) → (b = false → Q () w s) → wp (throw_if b e : M S E ()) Q X w s.
Proof. destruct b; unfold wp; simpl; auto. Qed.
Lemma wp_require {A} (o : option A) (e : E) Q X w s :
    (o = None → X e w s) → (∀ a, o = Some a → Q a w s) →
    wp (require o e : M S E A) Q X w s.
Proof. destruct o; unfold wp; simpl; auto. Qed.
Lemma wp_lift {A} (m : outcome E A) Q X w s :
    (∀ a, m = Ok a → Q a w s) → (∀ e, m = Throw e → X e w s) →
    wp (lift m : M S E A) Q X w s.
Proof. destruct m; unfold wp; simpl; auto. Qed.
Lemma wp_lift_err {E' A} (f : E' → E) (m : outcome E' A) Q X w s :
    (∀ a, m = Ok a → Q a w s) → (∀ e, m = Throw e → X (f e) w s) →
    wp (lift_err f m : M S E A) Q X w s.
Proof. destruct m; unfold wp; simpl; auto. Qed.
Lemma wp_uuid `{Host} Q X w s :
    Q (randomUUID (uuids_drawn w)) (mkWorld (1 + uuids_drawn w) (clock_reads w)) s →
    wp (uuid : M S E string) Q X w s.
Proof. done. Qed.
Lemma wp_now `{Host} Q X w s :
    Q (clock (clock_reads w)) (mkWorld (uuids_drawn w) (1 + clock_reads w)) s →
    wp (now : M S E string) Q X w s.
Proof. done. Qed.
Lemma wp_try_catch {A} (m : M S E A) (h : E → M S E A) Q X w s :
    wp m Q (λ e w' s', wp (h e) Q X w' s') w s → wp (try_catch m h) Q X w s.
Proof. unfold wp, try_catch. by destruct (m w s) as [[[a|e] w'] s']. Qed.

Lemma wp_map_err {E' A} (f : E' → E) (m : M S E' A) Q X w s :
    wp m Q (λ e w' s', X (f e) w' s') w s → wp (map_err f m) Q X w s.
Proof. unfold wp, map_err. by destruct (m w s) as [[[a|e] w'] s']. Qed.

Lemma wp_mono {A} (m : M S E A) (Q Q' : A → World → S → Prop)
      (X X' : E → World → S → Prop) w s :
    wp m Q X w s → (∀ a w' s', Q a w' s' → Q' a w' s') →
    (∀ e w' s', X e w' s' → X' e w' s') → wp m Q' X' w s.
Proof. unfold wp. destruct (m w s) as [[[a|e] w'] s']; auto. Qed.
Lemma wp_and {A} (m : M S E A) (Q Q' : A → World → S → Prop)
      (X X' : E → World → S → Prop) w s :
    wp m Q X w s → wp m Q' X' w s →
    wp m (λ a w' s', Q a w' s' ∧ Q' a w' s') (λ e w' s', X e w' s' ∧ X' e w' s') w s.
Proof. unfold wp. destruct (m w s) as [[[a|e] w'] s']; auto. Qed.
Lemma wp_run {A} (m : M S E A) Q X w s o w' s' :
    wp m Q X w s → m w s = (o, w', s') →
    match o with Ok a => Q a w' s' | Throw e => X e w' s' end.
Proof. unfold wp. intros H Hm. rewrite Hm in H. by destruct o. Qed.
Lemma wp_Ok {A} (m : M S E A) Q X w s a w' s' :
    wp m Q X w s → m w s = (Ok a, w', s') → Q a w' s'.
Proof. intros H Hm. exact (wp_run _ _ _ _ _ _ _ _ H Hm). Qed.
Lemma wp_Throw {A} (m : M S E A) Q X w s e w' s' :
    wp m Q X w s → m w s = (Throw e, w', s') → X e w' s'.
Proof. intros H Hm. exact (wp_run _ _ _ _ _ _ _ _ H Hm). Qed.

  (** The loop rule: an invariant of the body on both of its outcomes. *)
Lemma wp_for_each {A} (I : list A → World → S → Prop) (X : E → World → S → Prop)
      (l : list A) (f : A → M S E ()) Q w s :
    (∀ pre x post w s, l = pre ++ x :: post → I pre w s →
       wp (f x) (λ _ w' s', I (pre ++ [x]) w' s') X w s) →
    (∀ w' s', I l w' s' → Q () w' s') →
    I [] w s → wp (for_each l f) Q X w s.
Proof.
    intros Hf HQ HI.
    enough (Hgen : ∀ post pre w s, l = pre ++ post → I pre w s →
      wp (for_each post f) Q X w s) by (by apply (Hgen l [])).
    clear w s HI. intros post.
    induction post as [|x post IH]; intros pre w s Hl HI; simpl.
    - rewrite app_nil_r in Hl. subst. by apply wp_ret, HQ.
    - apply wp_bind. eapply wp_mono; [by eapply Hf| |done].
      intros [] w' s' HI'. eapply (IH (pre ++ [x])); [|done]. by rewrite <-app_assoc.
Qed.
(** A loop of validations: they all passed, or one of them threw. *)
Lemma wp_for_each_check {A} (P : A → Prop) (X : E → World → S → Prop)
      (l : list A) (f : A → M S E ()) Q w s :
    (∀ x, x ∈ l → wp (f x) (λ _ w' s', w' = w ∧ s' = s ∧ P x) X w s) →
    ((∀ x, x ∈ l → P x) → Q () w s) →
    wp (for_each l f) Q X w s.
Proof.
    intros Hf HQ.
    apply (wp_for_each (λ pre w' s', w' = w ∧ s' = s ∧ ∀ x, x ∈ pre → P x)).
    - intros pre x post w' s' -> (-> & -> & Hpre).
      eapply wp_mono; [apply Hf, elem_of_app; right; left| |done].
      intros _ w' s' (-> & -> & Hx). split_and!; [done|done|].
      intros y [Hy|Hy%list_elem_of_singleton]%elem_of_app; [auto|by subst].
    - intros w' s' (-> & -> & Hall). by apply HQ.
    - split_and!; [done|done|]. by intros x ?%elem_of_nil.
Qed.
Lemma wp_fold_each {A B} (I : list A → B → World → S → Prop) (X : E → World → S → Prop)
      (l : list A) (f : B → A → M S E B) b Q w s :
    (∀ pre x post b w s, l = pre ++ x :: post → I pre b w s →
       wp (f b x) (λ b' w' s', I (pre ++ [x]) b' w' s') X w s) →
    (∀ b w' s', I l b w' s' → Q b w' s') →
    I [] b w s → wp (fold_each l f b) Q X w s.
Proof.
    intros Hf HQ HI.
    enough (Hgen : ∀ post pre b w s, l = pre ++ post → I pre b w s →
      wp (fold_each post f b) Q X w s) by (by apply (Hgen l [])).
    clear b w s HI. intros post.
    induction post as [|x post IH]; intros pre b w s Hl HI; simpl.
    - rewrite app_nil_r in Hl. subst. by apply wp_ret, HQ.
    - apply wp_bind. eapply wp_mono; [by eapply Hf| |done].
      intros b' w' s' HI'. eapply (IH (pre ++ [x])); [|done]. by rewrite <-app_assoc.
Qed.
Lemma wp_map_each {A B} (P : A → B → Prop) (I : World → S → Prop)
      (X : E → World → S → Prop) (l : list A) (f : A → M S E B) Q w s :
    (∀ x w s, x ∈ l → I w s → wp (f x) (λ y w' s', P x y ∧ I w' s') X w s) →
    (∀ ys w' s', Forall2 P l ys → I w' s' → Q ys w' s') →
    I w s → wp (map_each l f) Q X w s.
Proof.
    revert Q w s. induction l as [|x l IH]; intros Q w s Hf HQ HI; simpl.
    - apply wp_ret, HQ; [constructor|done].
    - apply wp_bind. eapply wp_mono; [apply Hf; [left|done]| |done].
      intros y w' s' [HP HI']. apply wp_bind.
      apply IH; [intros; apply Hf; [by right|done]| |done].
      intros ys w'' s'' HPs HI''. apply wp_ret, HQ; [by constructor|done].
Qed.
End wp.

(** Symbolic execution of a computation of the embedding: one step per
    operation, a case per branch. *)
Ltac wp_step :=
  lazymatch goal with
  | |- wp (mbind _ _) _ _ _ _ => apply wp_bind
  | |- wp (mret _) _ _ _ _ => apply wp_ret
  | |- wp (throw _) _ _ _ _ => apply wp_throw
  | |- wp get _ _ _ _ => apply wp_get
  | |- wp (gets _) _ _ _ _ => apply wp_gets
  | |- wp (modify _) _ _ _ _ => apply wp_modify
  | |- wp (throw_if _ _) _ _ _ _ => apply wp_throw_if; intros ?
  | |- wp (require _ _) _ _ _ _ => apply wp_require; [intros ?|intros ? ?]
  | |- wp (lift _) _ _ _ _ => apply wp_lift; intros ? ?
  | |- wp (lift_err _ _) _ _ _ _ => apply wp_lift_err; intros ? ?
  | |- wp uuid _ _ _ _ => apply wp_uuid
  | |- wp now _ _ _ _ => apply wp_now
  | |- wp (map_err _ _) _ _ _ _ => apply wp_map_err
  | |- wp (try_catch _ _) _ _ _ _ => apply wp_try_catch
  | |- wp (match ?x with _ => _ end) _ _ _ _ => destruct x eqn:?
  | |- wp (let _ := _ in _) _ _ _ _ => cbv zeta
  end.
Ltac wp_steps := repeat (wp_step; cbv beta).

(** ** Computations that write nothing

    A validation reads the state and returns or throws: it leaves the state and
    the host as they were. *)

Definition readonly {S E A} (m : M S E A) : Prop := ∀ w s, ∃ o, m w s = (o, w, s).

Section readonly.
Context {S E : Type}.

Lemma readonly_ret {A} (a : A) : readonly (mret a : M S E A).
Proof. intros w s. by eexists. Qed.
Lemma readonly_throw {A} (e : E) : readonly (throw e : M S E A).
Proof. intros w s. by eexists. Qed.
Lemma readonly_gets {A} (f : S → A) : readonly (gets f : M S E A).
Proof. intros w s. by eexists. Qed.
Lemma readonly_get : readonly (get : M S E S).
Proof. intros w s. by eexists. Qed.
Lemma readonly_throw_if b (e : E) : readonly (throw_if b e : M S E ()).
Proof. intros w s. destruct b; by eexists. Qed.
Lemma readonly_require {A} (o : option A) (e : E) : readonly (require o e : M S E A).
Proof. intros w s. destruct o; by eexists. Qed.
Lemma readonly_lift {A} (o : outcome E A) : readonly (lift o : M S E A).
Proof. intros w s. by eexists. Qed.
Lemma readonly_lift_err {E' A} (f : E' → E) (o : outcome E' A) :
    readonly (lift_err f o : M S E A).
Proof. intros w s. by eexists. Qed.
Lemma readonly_bind {A B} (m : M S E A) (f : A → M S E B) :
    readonly m → (∀ a, readonly (f a)) → readonly (m ≫= f).
Proof.
    intros Hm Hf w s. destruct (Hm w s) as [o Ho]. unfold mbind, M_bind. rewrite Ho.
    destruct o as [a|e]; [apply Hf|by eexists].
Qed.
Lemma readonly_map_err {E' A} (f : E' → E) (m : M S E' A) : readonly m → readonly (map_err f m).
Proof.
    intros Hm w s. destruct (Hm w s) as [o Ho]. unfold map_err. rewrite Ho. destruct o; by eexists.
Qed.
Lemma readonly_for_each {A} (l : list A) (f : A → M S E ()) :
    (∀ x, readonly (f x)) → readonly (for_each l f).
Proof.
    intros Hf. induction l as [|x l IH]; simpl; [apply readonly_ret|].
    apply readonly_bind; [done|]. by intros [].
Qed.
Lemma readonly_fold_each {A B} (l : list A) (f : B → A → M S E B) b :
    (∀ b x, readonly (f b x)) → readonly (fold_each l f b).
Proof.
    intros Hf. revert b. induction l as [|x l IH]; intros b; simpl; [apply readonly_ret|].
    by apply readonly_bind.
Qed.
Lemma readonly_map_each {A B} (l : list A) (f : A → M S E B) :
    (∀ x, readonly (f x)) → readonly (map_each l f).
Proof.
    intros Hf. induction l as [|x l IH]; simpl; [apply readonly_ret|].
    apply readonly_bind; [done|]. intros y. apply readonly_bind; [done|]. intros. apply readonly_ret.
Qed.

Lemma wp_readonly {A} (m : M S E A) Q X w s :
    readonly m → (∀ a, m w s = (Ok a, w, s) → Q a w s) →
    (∀ e, m w s = (Throw e, w, s) → X e w s) → wp m Q X w s.
Proof. intros Hm HQ HX. unfold wp. destruct (Hm w s) as [[a|e] Ho]; rewrite Ho; auto. Qed.
(** What is known of a readonly computation's result, with the state it kept. *)
Lemma wp_readonly_spec {A} (m : M S E A) (Q : A → World → S → Prop)
      (X : E → World → S → Prop) Q' X' w s :
    readonly m → wp m Q X w s → (∀ a, Q a w s → Q' a w s) → (∀ e, X e w s → X' e w s) →
    wp m Q' X' w s.
Proof.
    intros Hm Hwp HQ HX. unfold wp in *. destruct (Hm w s) as [[a|e] Ho]; rewrite Ho in *; auto.
Qed.
End readonly.

Create HintDb anyam_ro discriminated.
#[export] Hint Resolve readonly_ret readonly_throw readonly_gets readonly_get readonly_throw_if
  readonly_require readonly_lift readonly_lift_err : anyam_ro.

Ltac solve_readonly :=
  repeat first
    [ progress (eauto with anyam_ro nocore)
    | progress intros
    | apply readonly_bind
    | apply readonly_map_err
    | apply readonly_for_each
    | apply readonly_fold_each
    | apply readonly_map_each
    | match goal with
      | |- readonly (match ?x with _ => _ end) => destruct x
      | |- readonly (let _ := _ in _) => cbv zeta
      end ].

(** ** Invariants

    [keeps I m]: [m] leads from states of [I] to states of [I], whether it
    returns or throws.  An invariant may speak of the draws made so far; one
    that later draws cannot break is [Drawable]. *)

Definition keeps {S E A} (I : World → S → Prop) (m : M S E A) : Prop :=
  ∀ w s, I w s → wp m (λ _ w' s', I w' s') (λ _ w' s', I w' s') w s.

Class Drawable {S} (I : World → S → Prop) :=
  drawable : ∀ u c w s, I w s → I (mkWorld (u + uuids_drawn w) (c + clock_reads w)) s.
#[export] Instance drawable_state {S} (P : S → Prop) : Drawable (λ _ s, P s).
Proof. by intros u c w s. Qed.

Section keeps.
Context {S E : Type} (I : World → S → Prop).

Lemma keeps_readonly {A} (m : M S E A) : readonly m → keeps I m.
Proof. intros Hm w s Hi. by apply wp_readonly. Qed.
Lemma keeps_bind {A B} (m : M S E A) (f : A → M S E B) :
  keeps I m → (∀ a, keeps I (f a)) → keeps I (m ≫= f).
Proof.
intros Hm Hf w s Hi. apply wp_bind. eapply wp_mono; [by apply Hm| |done].
intros a w' s' Hi'. by apply Hf.
Qed.
Lemma keeps_modify (f : S → S) : (∀ w s, I w s → I w (f s)) → keeps I (modify f : M S E ()).
Proof. intros Hf w s Hi. by apply wp_modify, Hf. Qed.
Lemma keeps_try_catch {A} (m : M S E A) (h : E → M S E A) :
  keeps I m → (∀ e, keeps I (h e)) → keeps I (try_catch m h).
Proof.
intros Hm Hh w s Hi. apply wp_try_catch. eapply wp_mono; [by apply Hm|done|].
intros e w' s' Hi'. by apply Hh.
Qed.
Lemma keeps_map_err {E' A} (f : E' → E) (m : M S E' A) : keeps I m → keeps I (map_err f m).
Proof. intros Hm w s Hi. apply wp_map_err. by apply Hm. Qed.
Lemma keeps_for_each {A} (l : list A) (f : A → M S E ()) :
  (∀ x, keeps I (f x)) → keeps I (for_each l f).
Proof.
intros Hf. induction l as [|x l IH]; simpl; [apply keeps_readonly, readonly_ret|].
apply keeps_bind; [done|]. by intros [].
Qed.
Lemma keeps_fold_each {A B} (l : list A) (f : B → A → M S E B) b :
  (∀ b x, keeps I (f b x)) → keeps I (fold_each l f b).
Proof.
intros Hf. revert b. induction l as [|x l IH]; intros b; simpl; [apply keeps_readonly, readonly_ret|].
by apply keeps_bind.
Qed.
Lemma keeps_uuid `{Host} `{!Drawable I} : keeps I (uuid : M S E string).
Proof. intros w s Hi. apply wp_uuid. by apply (drawable 1 0). Qed.
Lemma keeps_now `{Host} `{!Drawable I} : keeps I (now : M S E string).
Proof. intros w s Hi. apply wp_now. by apply (drawable 0 1). Qed.
End keeps.

(** [yields I Q m]: moreover, what [m] returns satisfies [Q]. *)

Definition yields {S E A} (I : World → S → Prop) (Q : A → Prop) (m : M S E A) : Prop :=
  ∀ w s, I w s → wp m (λ a w' s', I w' s' ∧ Q a) (λ _ w' s', I w' s') w s.

Section yields.
Context {S E : Type} (I : World → S → Prop).

Lemma yields_keeps {A} (Q : A → Prop) (m : M S E A) : yields I Q m → keeps I m.
Proof. intros Hm w s Hi. eapply wp_mono; [by apply Hm| |done]. by intros a w' s' []. Qed.
Lemma yields_ret {A} (Q : A → Prop) (a : A) : Q a → yields I Q (mret a : M S E A).
Proof. intros Ha w s Hi. by apply wp_ret. Qed.
Lemma yields_throw {A} (Q : A → Prop) (e : E) : yields I Q (throw e : M S E A).
Proof. intros w s Hi. by apply wp_throw. Qed.
Lemma yields_seq {A B} (Q : B → Prop) (m : M S E A) (f : A → M S E B) :
  keeps I m → (∀ a, yields I Q (f a)) → yields I Q (m ≫= f).
Proof.
intros Hm Hf w s Hi. apply wp_bind. eapply wp_mono; [by apply Hm| |done].
intros a w' s' Hi'. by apply Hf.
Qed.
Lemma yields_bind {A B} (P : A → Prop) (Q : B → Prop) (m : M S E A) (f : A → M S E B) :
  yields I P m → (∀ a, P a → yields I Q (f a)) → yields I Q (m ≫= f).
Proof.
intros Hm Hf w s Hi. apply wp_bind. eapply wp_mono; [by apply Hm| |done].
intros a w' s' [Hi' Ha]. by apply Hf.
Qed.
End yields.

Lemma keeps_and {S E A} (I J : World → S → Prop) (m : M S E A) :
  keeps I m →
  (∀ w s, I w s → J w s → wp m (λ _ w' s', J w' s') (λ _ w' s', J w' s') w s) →
  keeps (λ w s, I w s ∧ J w s) m.
Proof. intros Hm Hj w s [Hi H]. apply wp_and; [by apply Hm|by apply Hj]. Qed.

Create HintDb anyam_keeps discriminated.
Create HintDb anyam_moves discriminated.
#[export] Hint Resolve keeps_uuid keeps_now : anyam_keeps.
#[export] Hint Extern 5 (Drawable _) => typeclasses eauto : anyam_keeps.

(** Takes a computation apart down to the operations that the hint database
    knows to keep the invariant, or that write nothing. *)
Ltac solve_keeps :=
  repeat first
    [ progress intros
    | progress (eauto with anyam_keeps nocore)
    | apply keeps_readonly; solve [eauto with anyam_ro nocore]
    | apply keeps_bind
    | apply keeps_map_err
    | apply keeps_try_catch
    | apply keeps_for_each
    | apply keeps_fold_each
    | match goal with
      | |- keeps _ (match ?x with _ => _ end) => destruct x
      | |- keeps _ (let _ := _ in _) => cbv zeta
      end ].

(** ** Maps *)

Section omap_lemmas.
Context {V : Type}.
Implicit Types (m : omap V) (k : string) (v : V).

Lemma omap_get_set k k' v m :
    omap_get k' (omap_set k v m) = if decide (k = k') then Some v else omap_get k' m.
Proof.
    induction m as [|[k0 v0] m IH]; simpl; [repeat case_decide; congruence|].
    destruct (decide (k = k0)) as [->|]; simpl.
    - by destruct (decide (k' = k0)) as [->|]; repeat case_decide.
    - rewrite IH. destruct (decide (k' = k0)) as [->|]; [|done]. by rewrite decide_False.
Qed.
Lemma omap_get_set_eq k v m : omap_get k (omap_set k v m) = Some v.
Proof. rewrite omap_get_set. by rewrite decide_True. Qed.
Lemma omap_get_set_ne k k' v m : k ≠ k' → omap_get k' (omap_set k v m) = omap_get k' m.
Proof. intros. rewrite omap_get_set. by rewrite decide_False. Qed.

Lemma omap_set_same k v m : omap_get k m = Some v → omap_set k v m = m.
Proof.
induction m as [|[k0 v0] m IH]; simpl; [done|]. case_decide as Hk; [by intros [= ->]|].
intros H. f_equal. by apply IH.
Qed.
Lemma omap_get_delete k k' m :
    omap_get k' (omap_delete k m) = if decide (k = k') then None else omap_get k' m.
Proof.
    induction m as [|[k0 v0] m IH]; simpl; [by case_decide|].
    destruct (decide (k = k0)) as [->|Hk]; simpl.
    - rewrite IH. destruct (decide (k' = k0)) as [->|Hne]; by repeat case_decide.
    - rewrite IH. destruct (decide (k' = k0)) as [->|]; [|done]. by rewrite decide_False.
Qed.

Lemma omap_get_elem k v m : omap_get k m = Some v → (k, v) ∈ m.
Proof.
    induction m as [|[k0 v0] m IH]; simpl; [done|].
    case_decide; intros; simplify_eq; [left|right]; auto.
Qed.
Lemma omap_elem_get k v m : omap_wf m → (k, v) ∈ m → omap_get k m = Some v.
Proof.
    unfold omap_wf, omap_keys. induction m as [|[k0 v0] m IH]; simpl; [by intros ? ?%elem_of_nil|].
    intros [Hn Hm]%NoDup_cons [?|Hin]%elem_of_cons; simplify_eq; [by rewrite decide_True|].
    rewrite decide_False; [auto|]. intros ->. apply Hn.
    apply list_elem_of_fmap. by exists (k0, v).
Qed.
Lemma omap_get_None k m : omap_get k m = None ↔ k ∉ omap_keys m.
Proof.
    unfold omap_keys. induction m as [|[k0 v0] m IH]; simpl; [by split; [intros _ ?%elem_of_nil|]|].
    rewrite not_elem_of_cons. case_decide as Hk; [by split; [|intros []]|].
    rewrite IH. by split; [|intros []].
Qed.
Lemma omap_get_value k v m : omap_get k m = Some v → v ∈ omap_values m.
Proof. intros H%omap_get_elem. apply list_elem_of_fmap. by exists (k, v). Qed.
Lemma omap_value_get v m : omap_wf m → v ∈ omap_values m → ∃ k, omap_get k m = Some v.
Proof.
    intros Hwf ([k v'] & -> & Hin)%list_elem_of_fmap. exists k. by apply omap_elem_get.
Qed.

Lemma omap_keys_set k v m :
    omap_keys (omap_set k v m) =
      if decide (k ∈ omap_keys m) then omap_keys m else omap_keys m ++ [k].
Proof.
    unfold omap_keys. induction m as [|[k0 v0] m IH].
    { rewrite decide_False; [done|apply not_elem_of_nil]. }
    cbn [omap_set]. rewrite fmap_cons. destruct (decide (k = k0)) as [->|Hk].
    - rewrite decide_True; [done|left].
    - rewrite fmap_cons, IH. cbn [fst]. destruct (decide (k ∈ m.*1)).
      + rewrite decide_True; [done|by right].
      + rewrite decide_False; [done|]. by rewrite not_elem_of_cons.
Qed.
Lemma omap_set_wf k v m : omap_wf m → omap_wf (omap_set k v m).
Proof.
    unfold omap_wf. rewrite omap_keys_set. case_decide; [done|].
    intros. apply NoDup_app. split_and!; [done| |apply NoDup_singleton].
    intros x Hx ->%list_elem_of_singleton. done.
Qed.
Lemma omap_delete_wf k m : omap_wf m → omap_wf (omap_delete k m).
Proof.
    unfold omap_wf, omap_keys. induction m as [|[k0 v0] m IH]; simpl; [done|].
    intros [Hn Hm]%NoDup_cons. case_decide; simpl; [auto|].
    apply NoDup_cons. split; [|auto]. intros Hin. apply Hn. clear -Hin.
    induction m as [|[k1 v1] m IH]; simpl in *; [done|].
    case_decide; simpl in *; rewrite ?elem_of_cons in *; naive_solver.
Qed.
Lemma omap_nil_wf : omap_wf ([] : omap V).
Proof. apply NoDup_nil_2. Qed.

Lemma omap_values_set v' k v m :
    v' ∈ omap_values (omap_set k v m) → v' = v ∨ v' ∈ omap_values m.
Proof.
    unfold omap_values. induction m as [|[k0 v0] m IH]; simpl.
    - rewrite list_elem_of_singleton. auto.
    - case_decide; simpl; rewrite !elem_of_cons; naive_solver.
Qed.
Lemma omap_has_spec k m : omap_has k m = true ↔ is_Some (omap_get k m).
Proof. unfold omap_has. apply bool_decide_eq_true. Qed.

  (** A property of every binding, preserved by [omap_set] of a good value. *)
Definition omap_all (P : string → V → Prop) m : Prop := ∀ k v, omap_get k m = Some v → P k v.
Lemma omap_all_nil P : omap_all P [].
Proof. done. Qed.
Lemma omap_all_set P k v m : omap_all P m → P k v → omap_all P (omap_set k v m).
Proof. intros Hm Hv k' v'. rewrite omap_get_set. case_decide; naive_solver. Qed.
Lemma omap_all_delete P k m : omap_all P m → omap_all P (omap_delete k m).
Proof. intros Hm k' v'. rewrite omap_get_delete. case_decide; naive_solver. Qed.
Lemma omap_all_impl (P Q : string → V → Prop) m :
    omap_all P m → (∀ k v, P k v → Q k v) → omap_all Q m.
Proof. unfold omap_all. naive_solver. Qed.
End omap_lemmas.

Create HintDb anyam discriminated.
#[export] Hint Resolve omap_nil_wf omap_set_wf omap_delete_wf : anyam.
#[export] Hint Resolve omap_all_nil omap_all_set omap_all_delete : anyam.
Create Rewrite HintDb anyam_map.
#[export] Hint Rewrite @omap_get_set_eq : anyam_map.

Lemma omap_from_wf {V} (l : list (string * V)) : omap_wf (omap_from l).
Proof.
  unfold omap_from. enough (∀ m : omap V, omap_wf m → omap_wf (foldl (fun m p => omap_set p.1 p.2 m) m l)) by (auto with anyam).
  induction l as [|[k v] l IH]; simpl; auto with anyam.
Qed.

(** With pairwise distinct keys, [omap_from] is the list itself. *)
Lemma omap_set_fresh {V} k (v : V) m : k ∉ omap_keys m → omap_set k v m = m ++ [(k, v)].
Proof.
  unfold omap_keys. induction m as [|[k0 v0] m IH]; simpl; [done|].
  rewrite not_elem_of_cons. intros [? ?]. rewrite decide_False by done. by rewrite IH.
Qed.
Lemma omap_from_app {V} (l acc : list (string * V)) :
  NoDup (acc ++ l).*1 → foldl (fun m p => omap_set p.1 p.2 m) acc l = acc ++ l.
Proof.
  revert acc. induction l as [|[k v] l IH]; intros acc; simpl; [by rewrite app_nil_r|].
  intros Hnd. rewrite omap_set_fresh.
  - rewrite IH; rewrite <-app_assoc; done.
  - rewrite fmap_app in Hnd. apply NoDup_app in Hnd as (_ & Hd & _).
    intros Hin. eapply Hd; [done|]. left.
Qed.
Lemma omap_from_nodup {V} (l : list (string * V)) : NoDup l.*1 → omap_from l = l.
Proof. intros. by apply (omap_from_app l []). Qed.

(** ** Strings and lists *)

Lemma str_app_nil s : "" +:+ s = s.
Proof. done. Qed.
Lemma str_app_cons c s t : String c s +:+ t = String c (s +:+ t).
Proof. done. Qed.
Lemma str_app_nil_r s : s +:+ "" = s.
Proof. induction s as [|c s IH]; [done|]. by rewrite str_app_cons, IH. Qed.
Lemma str_app_assoc s t u : (s +:+ t) +:+ u = s +:+ (t +:+ u).
Proof. induction s as [|c s IH]; [done|]. by rewrite !str_app_cons, IH. Qed.
Lemma cat_nil : cat [] = "".
Proof. done. Qed.
Lemma cat_cons s l : cat (s :: l) = s +:+ cat l.
Proof. done. Qed.
Lemma join_one sep x : join sep [x] = x.
Proof. done. Qed.
Lemma join_cons sep x y l : join sep (x :: y :: l) = x +:+ sep +:+ join sep (y :: l).
Proof. done. Qed.
Create Rewrite HintDb anyam_str.
#[export] Hint Rewrite cat_cons cat_nil str_app_nil str_app_nil_r str_app_cons str_app_assoc
  : anyam_str.
Ltac str_simpl := autorewrite with anyam_str in *.

Lemma starts_with_app p s : starts_with p (p +:+ s) = true.
Proof.
unfold starts_with. induction p as [|c p IH]; [by destruct s|]. rewrite str_app_cons. simpl.
by destruct (ascii_dec c c).
Qed.

Lemma starts_with_spec p s : starts_with p s = true ↔ ∃ rest, s = p +:+ rest.
Proof.
split; [|by intros [rest ->]; apply starts_with_app]. revert s. unfold starts_with.
induction p as [|c p IH]; intros s; [by exists s|]. destruct s as [|d s]; [done|]. simpl.
destruct (ascii_dec c d) as [->|]; [|done]. intros [rest ->]%IH. exists rest. by rewrite str_app_cons.
Qed.

Lemma has_duplicates_spec l : has_duplicates l = false ↔ NoDup l.
Proof.
unfold has_duplicates. rewrite negb_false_iff, Nat.eqb_eq. split.
- intros Hl. assert (remove_dups l ⊆+ l) as Hs.
  { apply NoDup_submseteq; [apply NoDup_remove_dups|]. intros x. by rewrite elem_of_remove_dups. }
  apply submseteq_length_Permutation in Hs; [|lia]. rewrite <-Hs. apply NoDup_remove_dups.
- intros Hnd. apply Permutation_length, NoDup_Permutation; [apply NoDup_remove_dups|done|].
  intros x. apply elem_of_remove_dups.
Qed.

Lemma elem_of_set_of l x : x ∈ set_of l ↔ x ∈ l.
Proof.
induction l as [|y l IH]; simpl; [done|]. rewrite !elem_of_cons, list_elem_of_filter, IH.
destruct (decide (x = y)); naive_solver.
Qed.
Lemma NoDup_set_of l : NoDup (set_of l).
Proof.
induction l as [|x l IH]; simpl; constructor; [|by apply NoDup_filter].
rewrite list_elem_of_filter. naive_solver.
Qed.

Lemma list_includes_spec l x : list_includes l x = true ↔ x ∈ l.
Proof. apply bool_decide_eq_true. Qed.

Lemma truthy_spec s : truthy s = true ↔ s ≠ "".
Proof. unfold truthy. rewrite negb_true_iff, String.eqb_neq. done. Qed.
Lemma truthy_opt_Some o s : truthy_opt o = Some s ↔ o = Some s ∧ s ≠ "".
Proof.
destruct o as [s'|]; simpl; [|naive_solver].
destruct (truthy s') eqn:Ht; split; intros; destruct_and?; simplify_eq;
  rewrite ?truthy_spec in *; try done.
by apply not_true_iff_false in Ht; rewrite truthy_spec in Ht.
Qed.

Lemma truthy_Some x : x ≠ "" → truthy_opt (Some x) = Some x.
Proof. intros Hx. by apply truthy_opt_Some. Qed.
Lemma truthy_opt_id o s : truthy_opt o = Some s → truthy_opt (Some s) = Some s.
Proof. intros [_ Hs]%truthy_opt_Some. by apply truthy_opt_Some. Qed.

Lemma trim_start_head s : ∀ c t, trim_start s = String c t → is_white c = false.
Proof. induction s as [|c s IH]; simpl; [done|]. destruct (is_white c) eqn:Hc; naive_solver. Qed.
Lemma trim_start_fixed s :
  (∀ c t, s = String c t → is_white c = false) → trim_start s = s.
Proof. destruct s as [|c s]; simpl; [done|]. intros Hc. by rewrite (Hc c s). Qed.
Lemma trim_end_cons c s : trim_end (String c s) =
  match trim_end s with
  | EmptyString => if is_white c then EmptyString else String c EmptyString
  | t => String c t
  end.
Proof. done. Qed.
Lemma trim_end_idemp s : trim_end (trim_end s) = trim_end s.
Proof.
induction s as [|c s IH]; [done|]. rewrite trim_end_cons. destruct (trim_end s) as [|d t] eqn:Ht.
- destruct (is_white c) eqn:Hc; simpl; [done|]. by rewrite Hc.
- by rewrite trim_end_cons, IH.
Qed.
Lemma trim_end_head s c t : trim_end s = String c t → ∃ t', s = String c t'.
Proof.
destruct s as [|d s]; simpl; [done|].
destruct (trim_end s); [destruct (is_white d)|]; intros [=]; subst; eauto.
Qed.
Lemma trim_idemp s : trim (trim s) = trim s.
Proof.
unfold trim. rewrite (trim_start_fixed (trim_end _)); [apply trim_end_idemp|].
intros c t (t' & Ht)%trim_end_head. by apply trim_start_head in Ht.
Qed.
Lemma blank_trim s : blank (trim s) = blank s.
Proof. unfold blank. by rewrite trim_idemp. Qed.

Lemma find_first_Some {A} (p : A → bool) l x :
  find_first p l = Some x → x ∈ l ∧ p x = true.
Proof.
unfold find_first. intros Hh. apply head_Some in Hh as [l' Hl'].
assert (x ∈ base.filter (λ x, p x = true) l) as Hin by (rewrite Hl'; left).
apply list_elem_of_filter in Hin. naive_solver.
Qed.
Lemma find_first_None {A} (p : A → bool) l :
  find_first p l = None ↔ ∀ x, x ∈ l → p x = false.
Proof.
unfold find_first. rewrite head_None. split.
- intros Hl x Hx. destruct (p x) eqn:Hp; [|done].
  assert (x ∈ base.filter (λ x, p x = true) l) as Hin by (by apply list_elem_of_filter).
  rewrite Hl in Hin. by apply elem_of_nil in Hin.
- intros Hl. destruct (base.filter _ l) as [|x l'] eqn:Hf; [done|].
  assert (x ∈ base.filter (λ x, p x = true) l) as Hin by (rewrite Hf; left).
  apply list_elem_of_filter in Hin as [Hp Hx]. by rewrite Hl in Hp.
Qed.

Lemma sort_insert_Permutation {A} (cmp : A → A → comparison) x l :
  sort_insert cmp x l ≡ₚ x :: l.
Proof.
induction l as [|y l IH]; simpl; [done|]. destruct (cmp x y); [done|done|].
rewrite IH. apply Permutation_swap.
Qed.
Lemma sort_by_Permutation {A} (cmp : A → A → comparison) l : sort_by cmp l ≡ₚ l.
Proof.
induction l as [|x l IH]; simpl; [done|]. by rewrite sort_insert_Permutation, IH.
Qed.

(** An index of a list by a key that is unique in it:
    [new Map(l.map((x) => [key(x), x]))]. *)
Lemma omap_from_index {A} (key : A → string) (l : list A) k x :
  NoDup (key <$> l) →
  omap_get k (omap_from ((λ x, (key x, x)) <$> l)) = Some x ↔ x ∈ l ∧ key x = k.
Proof.
intros Hnd. assert (((λ x, (key x, x)) <$> l).*1 = key <$> l) as Hk
  by (by rewrite <-list_fmap_compose).
rewrite omap_from_nodup by (by rewrite Hk). split.
- intros (y & ? & Hy)%omap_get_elem%list_elem_of_fmap. by simplify_eq.
- intros [Hx <-]. apply omap_elem_get; [unfold omap_wf, omap_keys; by rewrite Hk|].
  apply list_elem_of_fmap. by exists x.
Qed.

(** [Object.fromEntries(l.flatMap((k) => f(k) === undefined ? [] : [[k, f(k)]]))]. *)
Definition omap_pick {V} (f : string → option V) (l : list string) : omap V :=
  omap_from (l ≫= λ k, match f k with Some v => [(k, v)] | None => [] end).

Lemma omap_get_pick {V} (f : string → option V) l k :
  omap_get k (omap_pick f l) = if decide (k ∈ l) then f k else None.
Proof.
unfold omap_pick, omap_from. set (step := foldl _).
enough (∀ m, (∀ k v, omap_get k m = Some v → f k = Some v) →
  omap_get k (step m (l ≫= λ k, match f k with Some v => [(k, v)] | None => [] end)) =
  if decide (k ∈ l) then f k else omap_get k m) as Hgen by (by rewrite Hgen).
unfold step. clear step. induction l as [|x l IH]; intros m Hm.
- rewrite decide_False; [done|apply not_elem_of_nil].
- rewrite bind_cons, foldl_app, IH.
  + destruct (decide (k ∈ l)); [by rewrite decide_True by (by right)|].
    destruct (decide (k = x)) as [->|Hne].
    * rewrite decide_True by left. destruct (f x) eqn:Hf; simpl.
      -- by rewrite omap_get_set_eq.
      -- destruct (omap_get x m) eqn:Hx; [|done]. apply Hm in Hx. congruence.
    * rewrite decide_False by (by rewrite not_elem_of_cons).
      destruct (f x); simpl; [by rewrite omap_get_set_ne|done].
  + destruct (f x) eqn:Hf; simpl; [|done]. intros k' v'. rewrite omap_get_set.
    destruct (decide (x = k')) as [->|]; [by intros [= ->]|auto].
Qed.

Lemma split_not_nil c s : split c s ≠ [].
Proof. destruct s as [|d s]; simpl; [done|]. destruct (Ascii.eqb d c), (split c s); done. Qed.
Lemma join_split c s : join (String c "") (split c s) = s.
Proof.
induction s as [|d s IH]; [done|]. cbn [split]. pose proof (split_not_nil c s) as Hn.
destruct (Ascii.eqb_spec d c) as [->|Hd].
- destruct (split c s) as [|x l]; [done|]. rewrite join_cons, IH. by str_simpl.
- destruct (split c s) as [|x l]; [done|]. destruct l as [|y l].
  + simpl in *. by rewrite IH.
  + rewrite join_cons in *. str_simpl. by rewrite IH.
Qed.

Lemma elem_of_fmap_snoc {A B} (f : A → B) l x y :
  y ∈ f <$> (l ++ [x]) ↔ y ∈ f <$> l ∨ y = f x.
Proof. rewrite fmap_app, elem_of_app. cbn. by rewrite list_elem_of_singleton. Qed.
Lemma NoDup_fmap_snoc {A B} (f : A → B) l x :
  NoDup (f <$> (l ++ [x])) ↔ NoDup (f <$> l) ∧ ¬ (f x ∈ f <$> l).
Proof.
rewrite fmap_app, NoDup_app. cbn. split.
- intros (Hl & Hd & _). split; [done|]. intros Hx. apply (Hd _ Hx). left.
- intros [Hl Hx]. split_and!; [done| |apply NoDup_singleton].
  intros y Hy Hy'%list_elem_of_singleton. by subst.
Qed.

(** ** Fallible functions *)

Lemma bind_Ok {E A B} (m : outcome E A) (f : A → outcome E B) b :
  m ≫= f = Ok b ↔ ∃ a, m = Ok a ∧ f a = Ok b.
Proof. destruct m; simpl; naive_solver. Qed.

(** Takes the conjunctions and existentials among the hypotheses apart. *)
Ltac destruct_and_ex :=
  repeat match goal with
  | H : _ ∧ _ |- _ => destruct H
  | H : ∃ _, _ |- _ => destruct H
  end.

(** Takes apart an equation between a sequence of fallible calls and a result. *)
Ltac bind_inv :=
  repeat match goal with
  | H : mbind _ _ = Ok _ |- _ =>
      let a := fresh "a" in let Ha := fresh "H" in
      apply bind_Ok in H as (a & Ha & H); cbv beta in H
  end.

Lemma existsb_false_iff {A} (p : A → bool) l : existsb p l = false ↔ ∀ x, x ∈ l → p x = false.
Proof.
induction l as [|x l IH]; simpl; [by split; [intros _ ? ?%elem_of_nil|]|].
rewrite orb_false_iff, IH. split.
- intros [? ?] y [->|]%elem_of_cons; auto.
- intros H. split; [apply H; left|]. intros y Hy. apply H. by right.
Qed.
Lemma remove_dups_single {A} `{EqDecision A} (l : list A) v :
  remove_dups l = [v] ↔ l ≠ [] ∧ ∀ x, x ∈ l → x = v.
Proof.
split.
- intros Hr. split; [by intros ->|]. intros x Hx. apply (elem_of_remove_dups l x) in Hx.
  rewrite Hr in Hx. by apply list_elem_of_singleton in Hx.
- intros [Hne Hall]. assert (∀ x, x ∈ remove_dups l → x = v) as Hr.
  { intros x Hx. apply Hall. by apply elem_of_remove_dups. }
  pose proof (NoDup_remove_dups l) as Hnd. destruct (remove_dups l) as [|x [|y k]] eqn:He.
  + destruct l as [|a l]; [done|]. assert (a ∈ remove_dups (a :: l)) as Ha
      by (apply elem_of_remove_dups; left). rewrite He in Ha. by apply elem_of_nil in Ha.
  + f_equal. apply Hr. left.
  + exfalso. apply NoDup_cons in Hnd as [Hx _]. apply Hx.
    rewrite (Hr x), (Hr y); [left|right; left|left].
Qed.

(** * A concrete host, for the witnesses

    The draws are numbered, the clock counts, dates are lengths, SHA-256 is the
    identity, and text is compared by code units. *)

Definition example_host : Host := {|
  randomUUID := pretty;
  clock := pretty;
  Date_parse := λ s, Some (Z.of_nat (String.length s));
  sha256 := λ s, s;
  normalizeNFKC := λ s, s;
  localeCompare := String.compare;
|}.

Lemma example_host_fresh : FreshUUIDs example_host.
Proof. intros x y. apply (inj pretty). Qed.
Lemma example_host_collision_free : CollisionFree example_host.
Proof. by intros x y. Qed.

Definition start : World := mkWorld 0 0.

Definition extends {V} (m m' : omap V) : Prop :=
  ∀ k v, omap_get k m = Some v → omap_get k m' = Some v.
#[export] Instance extends_preorder {V} : PreOrder (@extends V).
Proof. split; [by intros m k v|]. intros m1 m2 m3 H1 H2 k v Hk. auto. Qed.
Lemma extends_set_fresh {V} k (v : V) m : omap_get k m = None → extends m (omap_set k v m).
Proof. intros Hk k' v' Hk'. rewrite omap_get_set_ne; [done|]. intros ->. congruence. Qed.

(** ** Sorting by code units *)

Definition string_le (s t : string) : Prop := String.compare s t ≠ Gt.

Lemma ascii_compare_refl a : Ascii.compare a a = Eq.
Proof. unfold Ascii.compare. apply N.compare_refl. Qed.
Lemma string_compare_cons a s b t :
  String.compare (String a s) (String b t) =
    match Ascii.compare a b with Eq => String.compare s t | c => c end.
Proof. done. Qed.
Lemma ascii_compare_eq a b : Ascii.compare a b = Eq → a = b.
Proof. apply Ascii.compare_eq_iff. Qed.
Lemma string_compare_refl s : String.compare s s = Eq.
Proof. induction s; [done|]. by rewrite string_compare_cons, ascii_compare_refl. Qed.

#[export] Instance string_le_antisymm : AntiSymm (=) string_le.
Proof.
intros s t Hs Ht. unfold string_le in *. rewrite String.compare_antisym in Ht.
destruct (String.compare s t) eqn:He; [by apply String.compare_eq_iff|done|done].
Qed.
#[export] Instance string_le_total : Total string_le.
Proof.
intros s t. unfold string_le. rewrite (String.compare_antisym t s).
destruct (String.compare s t); [by left|by left|by right].
Qed.
#[export] Instance string_le_trans : Transitive string_le.
Proof.
intros s t u. unfold string_le. revert t u.
induction s as [|a s IH]; intros [|b t] [|c u]; try done.
rewrite !string_compare_cons. unfold Ascii.compare.
destruct (N.compare_spec (N_of_ascii a) (N_of_ascii b)),
  (N.compare_spec (N_of_ascii b) (N_of_ascii c)),
  (N.compare_spec (N_of_ascii a) (N_of_ascii c)); try done; try lia.
apply IH.
Qed.

Lemma sort_insert_Sorted x l : Sorted string_le l → Sorted string_le (sort_insert String.compare x l).
Proof.
induction l as [|y l IH]; simpl; [by repeat constructor|]. intros Hs.
destruct (String.compare x y) eqn:Hc.
- constructor; [done|]. constructor. unfold string_le. by rewrite Hc.
- constructor; [done|]. constructor. unfold string_le. by rewrite Hc.
- apply Sorted_inv in Hs as [Hs Hy]. constructor; [by apply IH|].
  assert (string_le y x) as Hyx by (unfold string_le; by rewrite String.compare_antisym, Hc).
  destruct l as [|z l]; simpl; [by constructor|]. apply HdRel_inv in Hy.
  destruct (String.compare x z); by constructor.
Qed.
Lemma sort_strings_Sorted l : Sorted string_le (sort_strings l).
Proof. induction l; [constructor|]. by apply sort_insert_Sorted. Qed.

(** Sorting forgets the order and nothing else. *)
Lemma sort_strings_eq l k : sort_strings l = sort_strings k ↔ l ≡ₚ k.
Proof.
split.
- intros He. by rewrite <-(sort_by_Permutation String.compare l), <-(sort_by_Permutation String.compare k),
    (He : sort_by _ l = sort_by _ k).
- intros Hp. apply (Sorted_unique string_le); [apply sort_strings_Sorted..|].
  unfold sort_strings. by rewrite !sort_by_Permutation.
Qed.

Lemma omap_from_keys {V} (l : list (string * V)) k :
  is_Some (omap_get k (omap_from l)) ↔ k ∈ l.*1.
Proof.
unfold omap_from. assert (∀ m, is_Some (omap_get k (foldl (λ m p, omap_set p.1 p.2 m) m l)) ↔
  k ∈ l.*1 ∨ is_Some (omap_get k m)) as ->.
- induction l as [|[k' v] l IH]; intros m; simpl; [rewrite elem_of_nil; tauto|].
  rewrite IH, omap_get_set, elem_of_cons. case_decide as Hk.
  + subst. split; [|eauto]. by left; left.
  + split; [intros [?|?]; auto|]. intros [[?|?]|?]; auto. by subst.
- split; [intros [?|[? ?]]; done|auto].
Qed.
