(* ===== verification/Encoding.v ===== *)
(** The encoding of random bytes as text, src/kernel/encoding.ts. *)

From S2P Require Import Prelude.

(** [btoa] on a string of bytes. *)
Definition base64_char (n : N) : ascii :=
  ascii_of_N (if n <? 26 then 65 + n else if n <? 52 then 71 + n
              else if n <? 62 then n - 4 else if n =? 62 then 43 else 47)%N.
Fixpoint btoa (s : string) : string :=
  match s with
  | EmptyString => ""
  | String a EmptyString =>
      let n := (code a * 16)%N in
      String (base64_char (n / 64)) (String (base64_char (n mod 64)) "==")
  | String a (String b EmptyString) =>
      let n := ((code a * 256 + code b) * 4)%N in
      String (base64_char (n / 4096)) (String (base64_char (n / 64 mod 64))
        (String (base64_char (n mod 64)) "="))
  | String a (String b (String c s)) =>
      let n := ((code a * 256 + code b) * 256 + code c)%N in
      String (base64_char (n / 262144)) (String (base64_char (n / 4096 mod 64))
        (String (base64_char (n / 64 mod 64)) (String (base64_char (n mod 64)) (btoa s))))
  end.
(** [s.replace(/c+$/, "")] for a character [c]. *)
Fixpoint strip_trailing (c : ascii) (s : string) : string :=
  match s with
  | EmptyString => EmptyString
  | String d s =>
      match strip_trailing c s with
      | EmptyString => if Ascii.eqb d c then EmptyString else String d EmptyString
      | t => String d t
      end
  end.
Definition base64Url (bytes : string) : string :=
  strip_trailing "=" (replace_char "/" "_" (replace_char "+" "-" (btoa bytes))).
