(* ===== verification/Json.v ===== *)
(** JSON values and the canonical encoding behind every digest of the code:
    [stableJson] of src/execution/runner-proof.ts, src/execution/runner.ts and
    src/delivery/promotion.ts, and [canonicalJson] of src/delivery/.  The keys
    of an object are sorted, so the encoding does not depend on the order in
    which an object was built; the theorems below show that nothing else is
    lost. *)

From S2P Require Import Prelude.

#[local] Set Warnings "-register-all".

(** * Values

    Numbers are the integers (the digested records hold no others). *)

Inductive json : Type :=
| JUndefined
| JNull
| JBool (b : bool)
| JNum (n : Z)
| JStr (s : string)
| JArr (l : list json)
| JObj (l : list (string * json)).

Section json_ind.
Context (P : json → Prop).
Context (Hundef : P JUndefined) (Hnull : P JNull) (Hbool : ∀ b, P (JBool b)).
Context (Hnum : ∀ n, P (JNum n)) (Hstr : ∀ s, P (JStr s)).
Context (Harr : ∀ l, Forall P l → P (JArr l)).
Context (Hobj : ∀ l, Forall (λ p, P p.2) l → P (JObj l)).
Fixpoint json_ind' (v : json) : P v :=
  match v with
  | JUndefined => Hundef
  | JNull => Hnull
  | JBool b => Hbool b
  | JNum n => Hnum n
  | JStr s => Hstr s
  | JArr l => Harr l ((fix go l := match l return Forall P l with
      | [] => Forall_nil_2 P
      | x :: l => Forall_cons_2 P x l (json_ind' x) (go l)
      end) l)
  | JObj l => Hobj l ((fix go l := match l return Forall (λ p, P p.2) l with
      | [] => Forall_nil_2 _
      | x :: l => Forall_cons_2 (λ p, P p.2) x l (json_ind' x.2) (go l)
      end) l)
  end.
End json_ind.

(** * [JSON.stringify] of a string *)

Definition char_quote : ascii := ascii_of_N 34.
Definition chr (n : N) : string := String (ascii_of_N n) "".

Definition hex_digit (n : N) : ascii :=
  ascii_of_N (if (n <? 10)%N then 48 + n else 87 + n)%N.
Definition escape_char (c : ascii) : string :=
  let n := code c in
  if (n =? 34)%N then String char_backslash (chr 34)
  else if (n =? 92)%N then String char_backslash (chr 92)
  else if (n =? 8)%N then String char_backslash "b"
  else if (n =? 9)%N then String char_backslash "t"
  else if (n =? 10)%N then String char_backslash "n"
  else if (n =? 12)%N then String char_backslash "f"
  else if (n =? 13)%N then String char_backslash "r"
  else if (n <? 32)%N then
    String char_backslash ("u00" +:+ String (hex_digit (n / 16)) (String (hex_digit (n mod 16)) ""))
  else String c "".
Fixpoint escape (s : string) : string :=
  match s with
  | EmptyString => EmptyString
  | String c s => escape_char c +:+ escape s
  end.
Definition quote (s : string) : string := cat [chr 34; escape s; chr 34].

(** * The encodings *)

Definition key_compare {A B} (a : string * A) (b : string * B) : comparison :=
  String.compare a.1 b.1.
Definition member (p : string * string) : string := cat [quote p.1; ":"; p.2].

(** [undef] is what [undefined] encodes to: the only difference between the
    two families of copies of this function in the source. *)
Fixpoint encode_json (undef : string) (v : json) : string :=
  match v with
  | JUndefined => undef
  | JNull => "null"
  | JBool b => if b then "true" else "false"
  | JNum n => pretty n
  | JStr s => quote s
  | JArr l => cat ["["; join "," (encode_json undef <$> l); "]"]
  | JObj l =>
      cat ["{"; join "," (member <$> sort_by key_compare
        ((fun p => (p.1, encode_json undef p.2)) <$> l)); "}"]
  end.

Definition stableJson : json → string := encode_json "undefined".
Definition canonicalJson : json → string := encode_json "null".

Definition digest_text `{Host} (s : string) : string := cat ["sha256:"; sha256 s].
(** [digest(value)] of src/delivery/promotion.ts. *)
Definition digest `{Host} (v : json) : string := digest_text (stableJson v).
(** [digest(value)] of src/delivery/release-input.ts, migration-plan.ts and
    target-deployment.ts. *)
Definition canonical_digest `{Host} (v : json) : string := digest_text (canonicalJson v).

(** * Building an object from a record

    [field] is a property that is always present, [opt_field] one spread in
    only when the value is defined. *)

Class ToJson (A : Type) := to_json : A → json.
#[global] Instance string_to_json : ToJson string := JStr.
#[global] Instance Z_to_json : ToJson Z := JNum.
#[global] Instance bool_to_json : ToJson bool := JBool.
#[global] Instance list_to_json `{ToJson A} : ToJson (list A) := λ l, JArr (to_json <$> l).
#[global] Instance omap_to_json `{ToJson A} : ToJson (omap A) :=
  λ m, JObj ((λ p, (p.1, to_json p.2)) <$> m).

Definition field `{ToJson A} (k : string) (a : A) : list (string * json) := [(k, to_json a)].
Definition opt_field `{ToJson A} (k : string) (o : option A) : list (string * json) :=
  match o with Some a => [(k, to_json a)] | None => [] end.
Definition object (fs : list (list (string * json))) : json := JObj (mjoin fs).

(** * The normal form: every object sorted by key *)

Fixpoint normal (v : json) : json :=
  match v with
  | JArr l => JArr (normal <$> l)
  | JObj l => JObj (sort_by key_compare ((fun p => (p.1, normal p.2)) <$> l))
  | _ => v
  end.

Fixpoint encode_plain (undef : string) (v : json) : string :=
  match v with
  | JUndefined => undef
  | JNull => "null"
  | JBool b => if b then "true" else "false"
  | JNum n => pretty n
  | JStr s => quote s
  | JArr l => cat ["["; join "," (encode_plain undef <$> l); "]"]
  | JObj l => cat ["{"; join "," ((fun p => member (p.1, encode_plain undef p.2)) <$> l); "}"]
  end.

(** * Sorting commutes with what does not touch the keys *)

Lemma sort_by_fmap {A B} (cmpA : A → A → comparison) (cmpB : B → B → comparison) (f : A → B) l :
  (∀ x y, cmpB (f x) (f y) = cmpA x y) → sort_by cmpB (f <$> l) = f <$> sort_by cmpA l.
Proof.
intros Hf. induction l as [|x l IH]; [done|]. rewrite fmap_cons. simpl. rewrite IH.
generalize (sort_by cmpA l). clear IH. intros l'.
induction l' as [|y l' IH']; [done|]. rewrite fmap_cons. simpl. rewrite Hf.
destruct (cmpA x y); simpl; [done|done|]. by rewrite IH'.
Qed.

Lemma encode_normal undef v : encode_json undef v = encode_plain undef (normal v).
Proof.
induction v as [| | | | |l IH|l IH] using json_ind'; simpl; try done.
- rewrite <-list_fmap_compose.
  rewrite (list_fmap_ext (encode_json undef) (encode_plain undef ∘ normal) l); [done|].
  intros i x Hx. by eapply (proj1 (Forall_lookup _ _) IH).
- set (f1 := λ p : string * json, (p.1, encode_plain undef p.2)).
  set (f2 := λ p : string * json, (p.1, normal p.2)).
  replace ((λ p, (p.1, encode_json undef p.2)) <$> l) with (f1 <$> (f2 <$> l)).
  + rewrite (sort_by_fmap key_compare key_compare f1) by done.
    by rewrite <-list_fmap_compose.
  + rewrite <-list_fmap_compose. apply list_fmap_ext. intros i x Hx. unfold f1, f2. simpl.
    f_equal. symmetry. by eapply (proj1 (Forall_lookup _ _) IH).
Qed.

(** * The plain encoding is injective

    Every encoding starts with a character that tells its constructor, a
    number ends where the next character is no digit, and an escaped string
    ends at its first quote. *)

Definition num_char (c : ascii) : bool :=
  let n := code c in ((48 <=? n) && (n <=? 57) || (n =? 45))%N.
Definition ends (r : string) : Prop :=
  match r with EmptyString => True | String c _ => num_char c = false end.
#[local] Arguments num_char : simpl never.
Fixpoint all_num (s : string) : Prop :=
  match s with EmptyString => True | String c s => num_char c = true ∧ all_num s end.

Lemma pretty_N_char_num x : num_char (pretty_N_char x) = true.
Proof. unfold pretty_N_char. by repeat case_match. Qed.
Lemma pretty_N_go_num x s :
  all_num s → all_num (pretty_N_go x s).
Proof.
revert s. induction (N.lt_wf_0 x) as [x _ IH]. intros s Hs.
destruct (decide (0 < x)%N) as [Hx|Hx].
- rewrite pretty_N_go_step by done. apply IH; [by apply N.div_lt|].
  split; [apply pretty_N_char_num|done].
- assert (x = 0%N) as -> by lia. by rewrite pretty_N_go_0.
Qed.
Lemma pretty_N_go_cons x c s : ∃ c' s', pretty_N_go x (String c s) = String c' s'.
Proof.
revert c s. induction (N.lt_wf_0 x) as [x _ IH]. intros c s.
destruct (decide (0 < x)%N) as [Hx|Hx].
- rewrite pretty_N_go_step by done. apply IH. by apply N.div_lt.
- assert (x = 0%N) as -> by lia. rewrite pretty_N_go_0. eauto.
Qed.
Lemma pretty_N_num (x : N) : all_num (pretty x) ∧ ∃ c s, pretty x = String c s.
Proof.
unfold pretty, pretty_N. case_decide; [naive_solver|]. split; [by apply pretty_N_go_num|].
rewrite pretty_N_go_step by lia. apply pretty_N_go_cons.
Qed.
Lemma pretty_Z_num (n : Z) : all_num (pretty n) ∧ ∃ c s, pretty n = String c s.
Proof.
destruct n as [|p|p]; unfold pretty, pretty_Z; [naive_solver|apply pretty_N_num|].
split; [split; [done|apply pretty_N_num]|eauto].
Qed.

Lemma all_num_inj s1 s2 r1 r2 :
  all_num s1 → all_num s2 → ends r1 → ends r2 → s1 +:+ r1 = s2 +:+ r2 → s1 = s2 ∧ r1 = r2.
Proof.
revert s2. induction s1 as [|c1 s1 IH]; intros [|c2 s2] H1 H2 Hr1 Hr2 Heq; str_simpl; simpl in *.
- done.
- subst. destruct H2. simpl in *. congruence.
- subst. destruct H1. simpl in *. congruence.
- injection Heq as -> Heq. destruct H1, H2.
  by destruct (IH s2) as [-> ->].
Qed.

(** One step of the inverse of [escape]. *)
Definition unhex (c : ascii) : N :=
  let n := code c in (if n <? 58 then n - 48 else n - 87)%N.
Definition unescape (s : string) : option (ascii * string) :=
  match s with
  | EmptyString => None
  | String c t =>
      if Ascii.eqb c char_quote then None
      else if Ascii.eqb c char_backslash then
        match t with
        | String "u" (String _ (String _ (String h (String l t)))) =>
            Some (ascii_of_N (unhex h * 16 + unhex l), t)
        | String "b" t => Some (ascii_of_N 8, t)
        | String "t" t => Some (ascii_of_N 9, t)
        | String "n" t => Some (ascii_of_N 10, t)
        | String "f" t => Some (ascii_of_N 12, t)
        | String "r" t => Some (ascii_of_N 13, t)
        | String d t => Some (d, t)
        | EmptyString => None
        end
      else Some (c, t)
  end.
Lemma unescape_escape c t : unescape (escape_char c +:+ t) = Some (c, t).
Proof. by destruct c as [[] [] [] [] [] [] [] []]. Qed.

Lemma escape_inj s1 s2 r1 r2 :
  escape s1 +:+ String char_quote r1 = escape s2 +:+ String char_quote r2 → s1 = s2 ∧ r1 = r2.
Proof.
revert s2. induction s1 as [|c1 s1 IH]; intros [|c2 s2] Heq; cbn [escape] in Heq; str_simpl;
  apply (f_equal unescape) in Heq as Hu; rewrite ?unescape_escape in Hu; try done.
- by injection Heq.
- injection Hu as -> Hu. by destruct (IH s2 Hu) as [-> ->].
Qed.
Lemma quote_inj s1 s2 r1 r2 : quote s1 +:+ r1 = quote s2 +:+ r2 → s1 = s2 ∧ r1 = r2.
Proof.
unfold quote, chr. str_simpl. intros Heq. injection Heq as Heq. by apply escape_inj.
Qed.

(** The first character of an encoding. *)
Definition head_of (v : json) (c : ascii) : Prop :=
  match v with
  | JUndefined => c = "u"%char
  | JNull => c = "n"%char
  | JBool b => c = (if b then "t" else "f")%char
  | JNum _ => num_char c = true
  | JStr _ => c = char_quote
  | JArr _ => c = "["%char
  | JObj _ => c = "{"%char
  end.
#[local] Abbreviation plain := (encode_plain "undefined").

Lemma plain_head v : ∃ c t, plain v = String c t ∧ head_of v c.
Proof.
destruct v as [| |[]|n|s|l|l]; simpl; unfold quote, chr; str_simpl; eauto.
destruct (pretty_Z_num n) as [Hall (c & t & Hp)]. rewrite Hp in *. destruct Hall. eauto.
Qed.
Lemma head_of_ends v c : head_of v c → c ≠ "]"%char ∧ c ≠ "}"%char.
Proof. destruct v as [| |[]| | | |]; simpl; intros Hc; split; intros ->; by try discriminate Hc. Qed.

(** The items of a list, between separators and before its closing bracket. *)
Lemma join_inj {A} (pr : A → string) (close : ascii) (l1 l2 : list A) r1 r2 :
  close ≠ ","%char → num_char close = false →
  Forall (λ a1, ∀ a2 r1 r2, ends r1 → ends r2 →
    pr a1 +:+ r1 = pr a2 +:+ r2 → a1 = a2 ∧ r1 = r2) l1 →
  (∀ a, ∃ c t, pr a = String c t ∧ c ≠ close) →
  join "," (pr <$> l1) +:+ String close r1 = join "," (pr <$> l2) +:+ String close r2 →
  l1 = l2 ∧ r1 = r2.
Proof.
intros Hcl Hn Hall Hhd. revert l2. induction Hall as [|a1 l1 Ha1 Hall IH]; intros l2 Heq.
- destruct l2 as [|a2 l2]; [by injection Heq|]. exfalso.
  destruct (Hhd a2) as (c & t & Ha2 & Hc). destruct l2; rewrite !fmap_cons, ?join_cons, ?join_one, Ha2 in Heq;
    str_simpl; simpl in Heq; congruence.
- destruct l2 as [|a2 l2].
  { exfalso. destruct (Hhd a1) as (c & t & Ha & Hc). destruct l1; rewrite !fmap_cons, ?join_cons, ?join_one, Ha in Heq;
      str_simpl; simpl in Heq; congruence. }
  destruct l1 as [|b1 l1], l2 as [|b2 l2];
    rewrite !fmap_cons, ?join_cons, ?join_one in Heq; str_simpl.
  + apply Ha1 in Heq as [-> Heq]; [|done|done]. by injection Heq as ->.
  + apply Ha1 in Heq as [-> Heq]; [|done|done]. congruence.
  + apply Ha1 in Heq as [-> Heq]; [|done|done]. congruence.
  + apply Ha1 in Heq as [-> Heq]; [|done|done]. injection Heq as Heq.
    by apply (IH (b2 :: l2)) in Heq as [-> ->].
Qed.

Lemma plain_inj v1 : ∀ v2 r1 r2, ends r1 → ends r2 →
  plain v1 +:+ r1 = plain v2 +:+ r2 → v1 = v2 ∧ r1 = r2.
Proof.
induction v1 as [| |b1|n1|s1|l1 IH|l1 IH] using json_ind'; intros v2 r1 r2 Hr1 Hr2 Heq.
all: match type of Heq with plain ?v +:+ _ = _ =>
  destruct (plain_head v) as (c1 & t1 & Hp1 & Hc1), (plain_head v2) as (c2 & t2 & Hp2 & Hc2) end.
all: assert (c1 = c2) as <- by (rewrite Hp1, Hp2 in Heq; str_simpl; congruence).
all: destruct v2 as [| |b2|n2|s2|l2|l2]; simpl in Hc1, Hc2; try subst c1; try discriminate;
  try (destruct b1; discriminate); try (destruct b2; discriminate);
  clear Hp1 Hp2; simpl in Heq; str_simpl.
- by injection Heq.
- by injection Heq.
- destruct b1, b2; try discriminate; str_simpl; by injection Heq.
- apply all_num_inj in Heq as [Hn ->]; [|apply pretty_Z_num|apply pretty_Z_num|done|done].
  by apply (inj pretty) in Hn as ->.
- by apply quote_inj in Heq as [-> ->].
- injection Heq as Heq. apply join_inj in Heq as [-> ->]; [done|done|done|done|].
  intros v. destruct (plain_head v) as (c & t & Hv & Hc). exists c, t.
  by apply head_of_ends in Hc as [? _].
- injection Heq as Heq. apply join_inj in Heq as [-> ->]; [done|done|done| |].
  + eapply Forall_impl; [exact IH|]. intros [k1 v1] Hv [k2 v2] q1 q2 Hq1 Hq2 Hkv.
    unfold member in Hkv. simpl in *. str_simpl. apply quote_inj in Hkv as [-> Hkv].
    injection Hkv as Hkv. by apply Hv in Hkv as [-> ->].
  + intros [k v]. unfold member, quote, chr. simpl. str_simpl. eauto.
Qed.

(** [stableJson] loses the order of the keys of objects and nothing else. *)
Lemma stableJson_normal v1 v2 : stableJson v1 = stableJson v2 ↔ normal v1 = normal v2.
Proof.
unfold stableJson. rewrite !encode_normal. split; [|by intros ->]. intros Heq.
apply (plain_inj _ _ "" ""); [done|done|]. by rewrite Heq.
Qed.

(** * What a digest binds

    The encodings determine the value of every key of an object, so a digest
    that does not collide determines the record it was computed from. *)

Lemma sort_insert_get {A} k (p : string * A) (l : list (string * A)) :
  omap_get k (sort_insert key_compare p l) = omap_get k (p :: l).
Proof.
induction l as [|q l IH]; [done|]. cbn [sort_insert].
destruct (key_compare p q) eqn:Hc; [done|done|]. destruct p as [k1 v1], q as [k2 v2].
assert (k1 ≠ k2) as Hne.
{ intros ->. unfold key_compare in Hc. simpl in Hc. by rewrite string_compare_refl in Hc. }
simpl in *. rewrite IH. repeat case_decide; congruence.
Qed.
Lemma sort_by_get {A} k (l : list (string * A)) : omap_get k (sort_by key_compare l) = omap_get k l.
Proof.
induction l as [|p l IH]; [done|]. change (sort_by key_compare (p :: l)) with
  (sort_insert key_compare p (sort_by key_compare l)).
rewrite sort_insert_get. destruct p as [k1 v1]. simpl. by rewrite IH.
Qed.
Lemma omap_get_fmap {A B} (f : A → B) k (l : omap A) :
  omap_get k ((λ p, (p.1, f p.2)) <$> l) = f <$> omap_get k l.
Proof.
induction l as [|[k1 v1] l IH]; [done|]. rewrite fmap_cons. simpl. by case_decide.
Qed.

Lemma object_get fs gs k : normal (object fs) = normal (object gs) →
  normal <$> omap_get k (mjoin fs) = normal <$> omap_get k (mjoin gs).
Proof.
unfold object. cbn [normal]. intros [= H]. apply (f_equal (omap_get k)) in H.
by rewrite !sort_by_get, !omap_get_fmap in H.
Qed.

(** A type whose JSON form determines its values, and one that never writes
    [undefined]. *)
Class JsonInj A `{ToJson A} := json_inj : ∀ x y : A, normal (to_json x) = normal (to_json y) → x = y.

Fixpoint no_undef (v : json) : bool :=
  match v with
  | JUndefined => false
  | JArr l => forallb no_undef l
  | JObj l => forallb (λ p, no_undef p.2) l
  | _ => true
  end.
Class JsonDef A `{ToJson A} := json_def : ∀ x : A, no_undef (to_json x) = true.

#[export] Instance string_json_inj : JsonInj string.
Proof. by intros x y [=]. Qed.
#[export] Instance Z_json_inj : JsonInj Z.
Proof. by intros x y [=]. Qed.
#[export] Instance bool_json_inj : JsonInj bool.
Proof. by intros x y [=]. Qed.
#[export] Instance list_json_inj `{JsonInj A} : JsonInj (list A).
Proof.
intros x y. unfold to_json, list_to_json. cbn [normal]. intros [= H1]. revert y H1.
induction x as [|a x IH]; intros [|b y] H1; try done. rewrite !fmap_cons in H1.
injection H1 as Ha Hx. f_equal; [by apply json_inj|by apply IH].
Qed.

#[export] Instance string_json_def : JsonDef string.
Proof. done. Qed.
#[export] Instance Z_json_def : JsonDef Z.
Proof. done. Qed.
#[export] Instance bool_json_def : JsonDef bool.
Proof. done. Qed.
#[export] Instance list_json_def `{JsonDef A} : JsonDef (list A).
Proof.
intros x. unfold to_json, list_to_json. cbn [no_undef]. induction x as [|a x IH]; [done|].
rewrite fmap_cons. simpl. by rewrite json_def, IH.
Qed.
#[export] Instance omap_json_def `{JsonDef A} : JsonDef (omap A).
Proof.
intros x. unfold to_json, omap_to_json. cbn [no_undef]. induction x as [|a x IH]; [done|].
rewrite fmap_cons. simpl. by rewrite json_def, IH.
Qed.

Lemma no_undef_object fs :
  no_undef (object fs) = forallb (forallb (λ p, no_undef p.2)) fs.
Proof.
unfold object. cbn [no_undef]. induction fs as [|f fs IH]; [done|]. simpl.
by rewrite List.forallb_app, IH.
Qed.
Lemma field_def `{JsonDef A} k (a : A) : forallb (λ p, no_undef p.2) (field k a) = true.
Proof. simpl. by rewrite json_def. Qed.
Lemma opt_field_def `{JsonDef A} k (o : option A) : forallb (λ p, no_undef p.2) (opt_field k o) = true.
Proof. destruct o; [apply field_def|done]. Qed.

(** Two objects with the same keys agree field by field. *)
Definition field_at (k : string) (f : list (string * json)) : Prop := f = [] ∨ ∃ v, f = [(k, v)].
Definition normal_fields (f : list (string * json)) : list (string * json) :=
  (λ p, (p.1, normal p.2)) <$> f.

Lemma field_at_field `{ToJson A} k (a : A) : field_at k (field k a).
Proof. right. by eexists. Qed.
Lemma field_at_opt_field `{ToJson A} k (o : option A) : field_at k (opt_field k o).
Proof. destruct o; [right; by eexists|by left]. Qed.
Lemma field_at_get k f ks fs : field_at k f → Forall2 field_at ks fs → k ∉ ks →
  f = match omap_get k (mjoin (f :: fs)) with Some v => [(k, v)] | None => [] end.
Proof.
intros [->|[v ->]] Hfs Hk; simpl; [|by rewrite decide_True]. induction Hfs as [|k' f' ks fs Hf' _ IH]; [done|].
apply not_elem_of_cons in Hk as [Hne Hk]. simpl.
destruct Hf' as [->|[v ->]]; simpl; [by apply IH|]. rewrite decide_False by done. by apply IH.
Qed.
Lemma field_at_rest k k' f fs : k ≠ k' → field_at k' f →
  omap_get k (mjoin (f :: fs)) = omap_get k (mjoin fs).
Proof. intros Hne [->|[v ->]]; simpl; [done|]. by rewrite decide_False. Qed.

Lemma fields_agree ks fs gs : Forall2 field_at ks fs → Forall2 field_at ks gs → NoDup ks →
  (∀ k, normal <$> omap_get k (mjoin fs) = normal <$> omap_get k (mjoin gs)) →
  Forall2 (λ f g, normal_fields f = normal_fields g) fs gs.
Proof.
intros Hfs. revert gs. induction Hfs as [|k f ks fs Hf Hfs IH]; intros gs Hgs Hnd Hget.
- inversion Hgs. constructor.
- inversion Hgs as [|? g ? gs' Hg Hgs']; subst. apply NoDup_cons in Hnd as [Hk Hnd]. constructor.
  + rewrite (field_at_get k f ks fs), (field_at_get k g ks gs') by done. specialize (Hget k).
    destruct (omap_get k (mjoin (f :: fs))), (omap_get k (mjoin (g :: gs'))); simplify_eq/=; [|done].
    by rewrite Hget.
  + apply IH; [done|done|]. intros k'. destruct (decide (k' = k)) as [->|Hne].
    * assert (∀ fs0, Forall2 field_at ks fs0 → omap_get k (mjoin fs0) = None) as Hno.
      { clear -Hk. intros fs0 Hfs0. induction Hfs0 as [|k' f' ks fs0 Hf' _ IH]; [done|].
        apply not_elem_of_cons in Hk as [Hne Hk]. rewrite (field_at_rest k k') by done. by apply IH. }
      by rewrite !Hno.
    * specialize (Hget k'). by rewrite !(field_at_rest k' k) in Hget by done.
Qed.
Lemma object_agree ks fs gs : Forall2 field_at ks fs → Forall2 field_at ks gs →
  bool_decide (NoDup ks) = true → normal (object fs) = normal (object gs) →
  Forall2 (λ f g, normal_fields f = normal_fields g) fs gs.
Proof.
intros Hf Hg Hnd%bool_decide_eq_true H. apply (fields_agree ks); [done..|].
intros k. by apply object_get.
Qed.
Lemma field_agree `{JsonInj A} k (x y : A) : normal_fields (field k x) = normal_fields (field k y) → x = y.
Proof. intros [= Hx]. by apply json_inj. Qed.
Lemma opt_field_agree `{JsonInj A} k (x y : option A) :
  normal_fields (opt_field k x) = normal_fields (opt_field k y) → x = y.
Proof. destruct x, y; intros [=]; [f_equal; by apply json_inj|done]. Qed.

(** The fields of an object, one by one, from the equality [H] of two objects
    built with the same keys [ks]. *)
Ltac json_field_agrees H :=
  first [apply field_agree in H | apply opt_field_agree in H | idtac].
Ltac json_fields H ks :=
  apply (object_agree ks) in H;
    [ repeat match type of H with
      | Forall2 _ (_ :: _) (_ :: _) =>
          let Hk := fresh "Hfield" in
          apply Forall2_cons_1 in H as [Hk H]; json_field_agrees Hk
      end; clear H
    | repeat (constructor; [first [apply field_at_field | apply field_at_opt_field]|]); constructor
    | repeat (constructor; [first [apply field_at_field | apply field_at_opt_field]|]); constructor
    | vm_compute; reflexivity ].
Ltac json_defined :=
  rewrite no_undef_object; cbn [forallb];
  rewrite ?field_def, ?opt_field_def; reflexivity.
Ltac enum_inj := intros [] []; cbn; congruence.
Ltac enum_def := intros []; reflexivity.

Lemma encode_no_undef u1 u2 v : no_undef v = true → encode_json u1 v = encode_json u2 v.
Proof.
induction v as [| | | | |l IH|l IH] using json_ind'; simpl; try done.
- intros Hl. do 2 f_equal. f_equal. apply list_fmap_ext. intros i x Hx.
  rewrite List.forallb_forall in Hl. eapply (proj1 (Forall_lookup _ _) IH); [done|].
  apply Hl, list_elem_of_In. by eapply list_elem_of_lookup_2.
- intros Hl. do 3 f_equal. f_equal. f_equal. apply list_fmap_ext. intros i x Hx. f_equal.
  rewrite List.forallb_forall in Hl. eapply (proj1 (Forall_lookup _ _) IH); [done|].
  apply (Hl x), list_elem_of_In. by eapply list_elem_of_lookup_2.
Qed.

Lemma canonicalJson_normal v1 v2 : no_undef v1 = true → no_undef v2 = true →
  canonicalJson v1 = canonicalJson v2 ↔ normal v1 = normal v2.
Proof.
intros H1 H2. unfold canonicalJson.
rewrite (encode_no_undef _ "undefined" v1), (encode_no_undef _ "undefined" v2) by done.
apply stableJson_normal.
Qed.

Lemma digest_text_inj `{HH : Host} s t : CollisionFree HH → digest_text s = digest_text t → s = t.
Proof.
intros Hcf. unfold digest_text, cat. simpl. rewrite !str_app_nil_r. intros H.
repeat injection H as H. by apply Hcf in H.
Qed.
Lemma digest_inj `{HH : Host} v1 v2 : CollisionFree HH → digest v1 = digest v2 → normal v1 = normal v2.
Proof. intros Hcf H%digest_text_inj; [|done]. by apply stableJson_normal. Qed.
Lemma canonical_digest_inj `{HH : Host} v1 v2 : CollisionFree HH →
  no_undef v1 = true → no_undef v2 = true →
  canonical_digest v1 = canonical_digest v2 → normal v1 = normal v2.
Proof. intros Hcf H1 H2 H%digest_text_inj; [|done]. by apply canonicalJson_normal. Qed.
