(* ===== verification/Contracts.v ===== *)
(** The kernel contracts: the records and unions of src/kernel/contracts.ts
    that the modelled components exchange, one Module per type with the fields
    and literals of the source, and its pure functions.  A [protocol] field
    whose type is a single literal is not stored; the JSON encodings write the
    literal.  Timestamps are strings and numbers are integers. *)

From S2P Require Import Prelude Json.

(** * Classifications *)

Module SourceSpaceClassification.
Inductive t := public | internal | restricted | result_only.
#[global] Instance t_eq_dec : EqDecision t.
Proof. solve_decision. Defined.
Definition show (x : t) : string :=
  match x with
  | public => "public"
  | internal => "internal"
  | restricted => "restricted"
  | result_only => "result-only"
  end.
End SourceSpaceClassification.
#[global] Instance SourceSpaceClassification_to_json : ToJson SourceSpaceClassification.t := λ x, JStr (SourceSpaceClassification.show x).

Module DisclosureClassification.
Inductive t := public | project | restricted.
#[global] Instance t_eq_dec : EqDecision t.
Proof. solve_decision. Defined.
Definition show (x : t) : string :=
  match x with
  | public => "public"
  | project => "project"
  | restricted => "restricted"
  end.
End DisclosureClassification.
#[global] Instance DisclosureClassification_to_json : ToJson DisclosureClassification.t := λ x, JStr (DisclosureClassification.show x).

Module EvidenceOutcome.
Inductive t := passed | failed | stale | indeterminate.
#[global] Instance t_eq_dec : EqDecision t.
Proof. solve_decision. Defined.
Definition show (x : t) : string :=
  match x with
  | passed => "passed"
  | failed => "failed"
  | stale => "stale"
  | indeterminate => "indeterminate"
  end.
End EvidenceOutcome.
#[global] Instance EvidenceOutcome_to_json : ToJson EvidenceOutcome.t := λ x, JStr (EvidenceOutcome.show x).

(** * Identities *)

Module ActorRef.
Record t := mk {
  principalId : string;
  actorId : string;
  sessionId : string;
  clientId : string;
}.
#[global] Instance eta : Eta t := fun r =>
  mk (principalId r) (actorId r) (sessionId r) (clientId r).
End ActorRef.
#[global] Instance ActorRef_to_json : ToJson ActorRef.t := λ r, object
  [field "principalId" (r.(ActorRef.principalId));
   field "actorId" (r.(ActorRef.actorId));
   field "sessionId" (r.(ActorRef.sessionId));
   field "clientId" (r.(ActorRef.clientId))].

Module DisclosurePolicyRef.
Record t := mk {
  projectionId : string;
  classification : DisclosureClassification.t;
}.
#[global] Instance eta : Eta t := fun r =>
  mk (projectionId r) (classification r).
End DisclosurePolicyRef.
#[global] Instance DisclosurePolicyRef_to_json : ToJson DisclosurePolicyRef.t := λ r, object
  [field "projectionId" (r.(DisclosurePolicyRef.projectionId));
   field "classification" (r.(DisclosurePolicyRef.classification))].

(** * Projects, revisions and views *)

Module Project.
Record t := mk {
  id : string;
  name : string;
  referenceType : string;
  sourceSpaceIds : list string;
}.
#[global] Instance eta : Eta t := fun r =>
  mk (id r) (name r) (referenceType r) (sourceSpaceIds r).
End Project.

Module SourceSpace.
Record t := mk {
  id : string;
  name : string;
  classification : SourceSpaceClassification.t;
  repositoryId : option string;
}.
#[global] Instance eta : Eta t := fun r =>
  mk (id r) (name r) (classification r) (repositoryId r).
End SourceSpace.

Module ProjectRevision.
Record t := mk {
  id : string;
  projectId : string;
  sourceSpaceSnapshots : omap string;
  parentProjectRevisionId : option string;
  landedChangeRevisionId : option string;
  landedChangeRevisionIds : option (list string);
  landingCohortId : option string;
}.
#[global] Instance eta : Eta t := fun r =>
  mk (id r) (projectId r) (sourceSpaceSnapshots r) (parentProjectRevisionId r)
    (landedChangeRevisionId r) (landedChangeRevisionIds r) (landingCohortId r).
End ProjectRevision.

Module ProjectView.
Record t := mk {
  id : string;
  projectId : string;
  projectRevisionId : string;
  projectionId : string;
  classification : DisclosureClassification.t;
  visibleSourceSpaceIds : list string;
  disclosedSourceSpaceSnapshots : omap string;
}.
#[global] Instance eta : Eta t := fun r =>
  mk (id r) (projectId r) (projectRevisionId r) (projectionId r) (classification r)
    (visibleSourceSpaceIds r) (disclosedSourceSpaceSnapshots r).
End ProjectView.

Module ProjectViewProjectionErrorCode.
Inductive t := revision_project_mismatch | unknown_source_space | source_space_not_in_project | missing_source_space_snapshot | duplicate_source_space | duplicate_source_space_catalog | disclosure_classification_mismatch.
#[global] Instance t_eq_dec : EqDecision t.
Proof. solve_decision. Defined.
Definition show (x : t) : string :=
  match x with
  | revision_project_mismatch => "revision-project-mismatch"
  | unknown_source_space => "unknown-source-space"
  | source_space_not_in_project => "source-space-not-in-project"
  | missing_source_space_snapshot => "missing-source-space-snapshot"
  | duplicate_source_space => "duplicate-source-space"
  | duplicate_source_space_catalog => "duplicate-source-space-catalog"
  | disclosure_classification_mismatch => "disclosure-classification-mismatch"
  end.
End ProjectViewProjectionErrorCode.
#[global] Instance ProjectViewProjectionErrorCode_to_json : ToJson ProjectViewProjectionErrorCode.t := λ x, JStr (ProjectViewProjectionErrorCode.show x).

(** * Actions and Verifiers *)

(** A declared resource: [string | number | boolean]. *)
Inductive Resource := res_string (s : string) | res_number (n : Z) | res_bool (b : bool).
#[global] Instance Resource_to_json : ToJson Resource := λ r,
  match r with res_string s => JStr s | res_number n => JNum n | res_bool b => JBool b end.

Module ArtifactOutput.
Record t := mk {
  path : string;
  type : string;
}.
#[global] Instance eta : Eta t := fun r =>
  mk (path r) (type r).
End ArtifactOutput.
#[global] Instance ArtifactOutput_to_json : ToJson ArtifactOutput.t := λ r, object
  [field "path" (r.(ArtifactOutput.path));
   field "type" (r.(ArtifactOutput.type))].

Module ActionArtifactOutputContract.
Record t := mk {
  protocol : string;
  outputs : list ArtifactOutput.t;
}.
#[global] Instance eta : Eta t := fun r =>
  mk (protocol r) (outputs r).
End ActionArtifactOutputContract.
#[global] Instance ActionArtifactOutputContract_to_json : ToJson ActionArtifactOutputContract.t := λ r, object
  [field "protocol" (r.(ActionArtifactOutputContract.protocol));
   field "outputs" (r.(ActionArtifactOutputContract.outputs))].

Module Action.
Record t := mk {
  id : string;
  moduleId : string;
  moduleRoot : string;
  dependencyIds : list string;
  command : string;
  inputGlobs : list string;
  outputPaths : list string;
  artifactOutputContract : option ActionArtifactOutputContract.t;
  network : list string;
  resources : omap Resource;
  contractDigest : string;
}.
#[global] Instance eta : Eta t := fun r =>
  mk (id r) (moduleId r) (moduleRoot r) (dependencyIds r) (command r) (inputGlobs r)
    (outputPaths r) (artifactOutputContract r) (network r) (resources r) (contractDigest r).
End Action.
#[global] Instance Action_to_json : ToJson Action.t := λ r, object
  [field "protocol" "anyam.action/v1";
   field "id" (r.(Action.id));
   field "moduleId" (r.(Action.moduleId));
   field "moduleRoot" (r.(Action.moduleRoot));
   field "dependencyIds" (r.(Action.dependencyIds));
   field "command" (r.(Action.command));
   field "inputGlobs" (r.(Action.inputGlobs));
   field "outputPaths" (r.(Action.outputPaths));
   opt_field "artifactOutputContract" (r.(Action.artifactOutputContract));
   field "network" (r.(Action.network));
   field "resources" (r.(Action.resources));
   field "contractDigest" (r.(Action.contractDigest))].

Module VerifierDisclosure.
Inductive t := full | result_only.
#[global] Instance t_eq_dec : EqDecision t.
Proof. solve_decision. Defined.
Definition show (x : t) : string :=
  match x with
  | full => "full"
  | result_only => "result-only"
  end.
End VerifierDisclosure.
#[global] Instance VerifierDisclosure_to_json : ToJson VerifierDisclosure.t := λ x, JStr (VerifierDisclosure.show x).

Module Verifier.
Record t := mk {
  id : string;
  actionId : string;
  disclosure : VerifierDisclosure.t;
  requiredFor : list string;
  contractDigest : string;
}.
#[global] Instance eta : Eta t := fun r =>
  mk (id r) (actionId r) (disclosure r) (requiredFor r) (contractDigest r).
End Verifier.
#[global] Instance Verifier_to_json : ToJson Verifier.t := λ r, object
  [field "protocol" "anyam.verifier/v1";
   field "id" (r.(Verifier.id));
   field "actionId" (r.(Verifier.actionId));
   field "disclosure" (r.(Verifier.disclosure));
   field "requiredFor" (r.(Verifier.requiredFor));
   field "contractDigest" (r.(Verifier.contractDigest))].

(** * Changes, Workspaces, Conflicts and Landings *)

Module ChangeStatus.
Inductive t := draft | active | submitted | landed | blocked | abandoned.
#[global] Instance t_eq_dec : EqDecision t.
Proof. solve_decision. Defined.
Definition show (x : t) : string :=
  match x with
  | draft => "draft"
  | active => "active"
  | submitted => "submitted"
  | landed => "landed"
  | blocked => "blocked"
  | abandoned => "abandoned"
  end.
End ChangeStatus.
#[global] Instance ChangeStatus_to_json : ToJson ChangeStatus.t := λ x, JStr (ChangeStatus.show x).

Module RemoteAuthor.
Record t := mk {
  name : string;
  email : option string;
}.
#[global] Instance eta : Eta t := fun r =>
  mk (name r) (email r).
End RemoteAuthor.

Module ChangeOrigin.
Record t := mk {
  kind : string;
  source : string;
  mirrorId : option string;
  remoteRepository : option string;
  remoteRef : option string;
  remoteCommit : option string;
  remoteAuthor : option RemoteAuthor.t;
  externalProposalKey : option string;
  externalProposalKind : option string;
  externalProposalHead : option string;
  externalProposalBase : option string;
  externalProposalInstallation : option string;
  externalProposalSourceIdentity : option string;
  externalDeliveryId : option string;
  disclosure : DisclosureClassification.t;
  receipt : string;
}.
#[global] Instance eta : Eta t := fun r =>
  mk (kind r) (source r) (mirrorId r) (remoteRepository r) (remoteRef r) (remoteCommit r)
    (remoteAuthor r) (externalProposalKey r) (externalProposalKind r) (externalProposalHead r)
    (externalProposalBase r) (externalProposalInstallation r)
    (externalProposalSourceIdentity r) (externalDeliveryId r) (disclosure r) (receipt r).
End ChangeOrigin.

Module Change.
Record t := mk {
  id : string;
  projectId : string;
  intentId : string;
  baseProjectRevisionId : string;
  status : ChangeStatus.t;
  latestRevisionId : option string;
  workspaceId : option string;
  revertsChangeRevisionId : option string;
  author : option ActorRef.t;
  origin : option ChangeOrigin.t;
}.
#[global] Instance eta : Eta t := fun r =>
  mk (id r) (projectId r) (intentId r) (baseProjectRevisionId r) (status r)
    (latestRevisionId r) (workspaceId r) (revertsChangeRevisionId r) (author r) (origin r).
End Change.

Module ChangeRevisionKind.
Inductive t := implementation | rebase | conflict_resolution | handoff | revert.
#[global] Instance t_eq_dec : EqDecision t.
Proof. solve_decision. Defined.
Definition show (x : t) : string :=
  match x with
  | implementation => "implementation"
  | rebase => "rebase"
  | conflict_resolution => "conflict-resolution"
  | handoff => "handoff"
  | revert => "revert"
  end.
End ChangeRevisionKind.
#[global] Instance ChangeRevisionKind_to_json : ToJson ChangeRevisionKind.t := λ x, JStr (ChangeRevisionKind.show x).

Module GitObjectFormat.
Inductive t := sha1 | sha256.
#[global] Instance t_eq_dec : EqDecision t.
Proof. solve_decision. Defined.
Definition show (x : t) : string :=
  match x with
  | sha1 => "sha1"
  | sha256 => "sha256"
  end.
End GitObjectFormat.
#[global] Instance GitObjectFormat_to_json : ToJson GitObjectFormat.t := λ x, JStr (GitObjectFormat.show x).

Module RepositoryObservation.
Record t := mk {
  repositoryId : string;
  sourceSpaceId : string;
  workspaceId : string;
  projectViewId : string;
  objectFormat : GitObjectFormat.t;
  symbolicRef : string;
  commitOid : string;
  treeOid : string;
  baseCommitOid : string;
  manifestDigest : string;
  observedAt : string;
  receipt : string;
}.
#[global] Instance eta : Eta t := fun r =>
  mk (repositoryId r) (sourceSpaceId r) (workspaceId r) (projectViewId r) (objectFormat r)
    (symbolicRef r) (commitOid r) (treeOid r) (baseCommitOid r) (manifestDigest r)
    (observedAt r) (receipt r).
End RepositoryObservation.

Module MirrorRepositoryObservation.
Record t := mk {
  repositoryId : string;
  sourceSpaceId : string;
  mirrorId : string;
  proposalKey : string;
  deliveryId : string;
  provider : string;
  remoteRepository : string;
  projectViewId : string;
  objectFormat : GitObjectFormat.t;
  symbolicRef : string;
  commitOid : string;
  treeOid : string;
  baseCommitOid : string;
  manifestDigest : string;
  observedAt : string;
  receipt : string;
}.
#[global] Instance eta : Eta t := fun r =>
  mk (repositoryId r) (sourceSpaceId r) (mirrorId r) (proposalKey r) (deliveryId r)
    (provider r) (remoteRepository r) (projectViewId r) (objectFormat r) (symbolicRef r)
    (commitOid r) (treeOid r) (baseCommitOid r) (manifestDigest r) (observedAt r) (receipt r).
End MirrorRepositoryObservation.

Module ChangeRevision.
Record t := mk {
  id : string;
  changeId : string;
  projectRevisionId : string;
  projectViewId : string;
  sequence : Z;
  parentRevisionId : option string;
  declaredEffects : list string;
  baseProjectRevisionId : option string;
  workspaceId : option string;
  sourceSpaceSnapshots : option (omap string);
  sourceSpaceObservations : option (omap RepositoryObservation.t);
  mirrorRepositoryObservations : option (omap MirrorRepositoryObservation.t);
  affectedSourceSpaceIds : option (list string);
  affectedModuleIds : option (list string);
  affectedTargetIds : option (list string);
  author : option ActorRef.t;
  conflictIds : option (list string);
  kind : option ChangeRevisionKind.t;
}.
#[global] Instance eta : Eta t := fun r =>
  mk (id r) (changeId r) (projectRevisionId r) (projectViewId r) (sequence r)
    (parentRevisionId r) (declaredEffects r) (baseProjectRevisionId r) (workspaceId r)
    (sourceSpaceSnapshots r) (sourceSpaceObservations r) (mirrorRepositoryObservations r)
    (affectedSourceSpaceIds r) (affectedModuleIds r) (affectedTargetIds r) (author r)
    (conflictIds r) (kind r).
End ChangeRevision.

Module WorkspaceMount.
Record t := mk {
  sourceSpaceId : string;
  snapshotId : string;
  mountPath : string;
}.
#[global] Instance eta : Eta t := fun r =>
  mk (sourceSpaceId r) (snapshotId r) (mountPath r).
End WorkspaceMount.

Module WorkspaceState.
Inductive t := active | blocked | closed.
#[global] Instance t_eq_dec : EqDecision t.
Proof. solve_decision. Defined.
Definition show (x : t) : string :=
  match x with
  | active => "active"
  | blocked => "blocked"
  | closed => "closed"
  end.
End WorkspaceState.
#[global] Instance WorkspaceState_to_json : ToJson WorkspaceState.t := λ x, JStr (WorkspaceState.show x).

Module Workspace.
Record t := mk {
  id : string;
  projectId : string;
  projectRevisionId : string;
  projectViewId : string;
  mounts : list WorkspaceMount.t;
  state : WorkspaceState.t;
  changeId : option string;
  pullRequestId : option string;
  actorId : option string;
}.
#[global] Instance eta : Eta t := fun r =>
  mk (id r) (projectId r) (projectRevisionId r) (projectViewId r) (mounts r) (state r)
    (changeId r) (pullRequestId r) (actorId r).
End Workspace.

Module ConflictKind.
Inductive t := textual | structural | semantic | schema | dependency | policy | disclosure.
#[global] Instance t_eq_dec : EqDecision t.
Proof. solve_decision. Defined.
Definition show (x : t) : string :=
  match x with
  | textual => "textual"
  | structural => "structural"
  | semantic => "semantic"
  | schema => "schema"
  | dependency => "dependency"
  | policy => "policy"
  | disclosure => "disclosure"
  end.
End ConflictKind.
#[global] Instance ConflictKind_to_json : ToJson ConflictKind.t := λ x, JStr (ConflictKind.show x).

Module ConflictState.
Inductive t := open | resolved.
#[global] Instance t_eq_dec : EqDecision t.
Proof. solve_decision. Defined.
Definition show (x : t) : string :=
  match x with
  | open => "open"
  | resolved => "resolved"
  end.
End ConflictState.
#[global] Instance ConflictState_to_json : ToJson ConflictState.t := λ x, JStr (ConflictState.show x).

Module Conflict.
Record t := mk {
  id : string;
  projectId : string;
  changeId : string;
  workspaceId : string;
  kind : ConflictKind.t;
  sourceSpaceIds : list string;
  paths : list string;
  description : string;
  state : ConflictState.t;
  resolutionRevisionId : option string;
}.
#[global] Instance eta : Eta t := fun r =>
  mk (id r) (projectId r) (changeId r) (workspaceId r) (kind r) (sourceSpaceIds r) (paths r)
    (description r) (state r) (resolutionRevisionId r).
End Conflict.

Module Landing.
Record t := mk {
  id : string;
  projectId : string;
  changeId : string;
  changeRevisionId : string;
  previousProjectRevisionId : string;
  projectRevisionId : string;
  receipt : string;
  cohortId : option string;
  changeIds : option (list string);
  changeRevisionIds : option (list string);
}.
#[global] Instance eta : Eta t := fun r =>
  mk (id r) (projectId r) (changeId r) (changeRevisionId r) (previousProjectRevisionId r)
    (projectRevisionId r) (receipt r) (cohortId r) (changeIds r) (changeRevisionIds r).
End Landing.

(** * Runs and Runners *)

Module RunStatus.
Inductive t := queued | running | succeeded | failed | indeterminate.
#[global] Instance t_eq_dec : EqDecision t.
Proof. solve_decision. Defined.
Definition show (x : t) : string :=
  match x with
  | queued => "queued"
  | running => "running"
  | succeeded => "succeeded"
  | failed => "failed"
  | indeterminate => "indeterminate"
  end.
End RunStatus.
#[global] Instance RunStatus_to_json : ToJson RunStatus.t := λ x, JStr (RunStatus.show x).

Module Run.
Record t := mk {
  id : string;
  actionId : string;
  projectRevisionId : string;
  projectViewId : string;
  runnerId : string;
  attemptId : option string;
  verifierId : option string;
  actionContractDigest : option string;
  artifactOutputContract : option ActionArtifactOutputContract.t;
  verifierContractDigest : option string;
  status : RunStatus.t;
  outputDigest : option string;
  changeRevisionId : option string;
  workspaceId : option string;
  inputDigests : option (list string);
  outputDigests : option (list string);
  effectDigests : option (list string);
  dependencyDigest : option string;
  toolchainDigest : option string;
  environmentDigest : option string;
  policyVersion : option string;
  targetId : option string;
  actor : option ActorRef.t;
  capabilityGrantId : option string;
  exitCode : option Z;
  stdoutDigest : option string;
  stderrDigest : option string;
}.
#[global] Instance eta : Eta t := fun r =>
  mk (id r) (actionId r) (projectRevisionId r) (projectViewId r) (runnerId r) (attemptId r)
    (verifierId r) (actionContractDigest r) (artifactOutputContract r)
    (verifierContractDigest r) (status r) (outputDigest r) (changeRevisionId r) (workspaceId r)
    (inputDigests r) (outputDigests r) (effectDigests r) (dependencyDigest r)
    (toolchainDigest r) (environmentDigest r) (policyVersion r) (targetId r) (actor r)
    (capabilityGrantId r) (exitCode r) (stdoutDigest r) (stderrDigest r).
End Run.

Module RunnerStatus.
Inductive t := enrolled | active | unavailable | disabled | quarantined.
#[global] Instance t_eq_dec : EqDecision t.
Proof. solve_decision. Defined.
Definition show (x : t) : string :=
  match x with
  | enrolled => "enrolled"
  | active => "active"
  | unavailable => "unavailable"
  | disabled => "disabled"
  | quarantined => "quarantined"
  end.
End RunnerStatus.
#[global] Instance RunnerStatus_to_json : ToJson RunnerStatus.t := λ x, JStr (RunnerStatus.show x).

Module RunnerNetworkEnforcement.
Inductive t := deny_all | cloudflare_sandbox | customer_egress_proxy.
#[global] Instance t_eq_dec : EqDecision t.
Proof. solve_decision. Defined.
Definition show (x : t) : string :=
  match x with
  | deny_all => "deny-all"
  | cloudflare_sandbox => "cloudflare-sandbox"
  | customer_egress_proxy => "customer-egress-proxy"
  end.
End RunnerNetworkEnforcement.
#[global] Instance RunnerNetworkEnforcement_to_json : ToJson RunnerNetworkEnforcement.t := λ x, JStr (RunnerNetworkEnforcement.show x).

Module RunnerPlatform.
Record t := mk {
  operatingSystem : string;
  architecture : string;
  isolation : string;
}.
#[global] Instance eta : Eta t := fun r =>
  mk (operatingSystem r) (architecture r) (isolation r).
End RunnerPlatform.
#[global] Instance RunnerPlatform_to_json : ToJson RunnerPlatform.t := λ r, object
  [field "operatingSystem" (r.(RunnerPlatform.operatingSystem));
   field "architecture" (r.(RunnerPlatform.architecture));
   field "isolation" (r.(RunnerPlatform.isolation))].

Module RunnerSecretUse.
Inductive t := brokered | none | unverified.
#[global] Instance t_eq_dec : EqDecision t.
Proof. solve_decision. Defined.
Definition show (x : t) : string :=
  match x with
  | brokered => "brokered"
  | none => "none"
  | unverified => "unverified"
  end.
End RunnerSecretUse.
#[global] Instance RunnerSecretUse_to_json : ToJson RunnerSecretUse.t := λ x, JStr (RunnerSecretUse.show x).

Module RunnerProfile.
Record t := mk {
  id : string;
  realmId : string;
  provider : string;
  publicKey : string;
  platform : RunnerPlatform.t;
  capabilities : list string;
  networkDestinations : list string;
  networkEnforcement : RunnerNetworkEnforcement.t;
  networkBoundaryReceipt : string;
  secretUse : RunnerSecretUse.t;
  canUploadArtifacts : bool;
  canUploadEvidence : bool;
  status : RunnerStatus.t;
  profileDigest : string;
  enrolledAt : string;
  updatedAt : string;
  receipt : string;
}.
#[global] Instance eta : Eta t := fun r =>
  mk (id r) (realmId r) (provider r) (publicKey r) (platform r) (capabilities r)
    (networkDestinations r) (networkEnforcement r) (networkBoundaryReceipt r) (secretUse r)
    (canUploadArtifacts r) (canUploadEvidence r) (status r) (profileDigest r) (enrolledAt r)
    (updatedAt r) (receipt r).
End RunnerProfile.

Module RunnerJobState.
Inductive t := queued | offered | claimed | running | cancel_requested | succeeded | failed | indeterminate | cancelled | expired | quarantined.
#[global] Instance t_eq_dec : EqDecision t.
Proof. solve_decision. Defined.
Definition show (x : t) : string :=
  match x with
  | queued => "queued"
  | offered => "offered"
  | claimed => "claimed"
  | running => "running"
  | cancel_requested => "cancel-requested"
  | succeeded => "succeeded"
  | failed => "failed"
  | indeterminate => "indeterminate"
  | cancelled => "cancelled"
  | expired => "expired"
  | quarantined => "quarantined"
  end.
End RunnerJobState.
#[global] Instance RunnerJobState_to_json : ToJson RunnerJobState.t := λ x, JStr (RunnerJobState.show x).

Module RunnerOutputLocations.
Record t := mk {
  logs : string;
  artifacts : string;
  evidence : string;
}.
#[global] Instance eta : Eta t := fun r =>
  mk (logs r) (artifacts r) (evidence r).
End RunnerOutputLocations.
#[global] Instance RunnerOutputLocations_to_json : ToJson RunnerOutputLocations.t := λ r, object
  [field "logs" (r.(RunnerOutputLocations.logs));
   field "artifacts" (r.(RunnerOutputLocations.artifacts));
   field "evidence" (r.(RunnerOutputLocations.evidence))].

Module RunnerJob.
Record t := mk {
  id : string;
  projectId : string;
  runId : string;
  actionId : string;
  actionContractDigest : string;
  verifierId : option string;
  verifierContractDigest : option string;
  projectRevisionId : string;
  projectViewId : string;
  sourceSpaceSnapshots : omap string;
  changeRevisionId : option string;
  workspaceId : option string;
  targetId : option string;
  inputManifestDigest : string;
  inputDigests : list string;
  outputPaths : list string;
  artifactOutputContract : option ActionArtifactOutputContract.t;
  effectDigests : list string;
  dependencyDigest : string;
  toolchainDigest : string;
  environmentDigest : string;
  policyVersion : string;
  authorizationEpoch : string;
  capabilityGrantId : string;
  actor : ActorRef.t;
  disclosure : DisclosurePolicyRef.t;
  runnerRequirements : list string;
  networkDestinations : list string;
  networkEnforcement : option RunnerNetworkEnforcement.t;
  networkBoundaryReceipt : option string;
  secretUseAliases : list string;
  outputLocations : RunnerOutputLocations.t;
  state : RunnerJobState.t;
  idempotencyKey : string;
  attemptIds : list string;
  currentAttemptId : string;
  currentRunnerId : option string;
  createdAt : string;
  updatedAt : string;
  recoveryAction : option string;
  receipt : string;
}.
#[global] Instance eta : Eta t := fun r =>
  mk (id r) (projectId r) (runId r) (actionId r) (actionContractDigest r) (verifierId r)
    (verifierContractDigest r) (projectRevisionId r) (projectViewId r) (sourceSpaceSnapshots r)
    (changeRevisionId r) (workspaceId r) (targetId r) (inputManifestDigest r) (inputDigests r)
    (outputPaths r) (artifactOutputContract r) (effectDigests r) (dependencyDigest r)
    (toolchainDigest r) (environmentDigest r) (policyVersion r) (authorizationEpoch r)
    (capabilityGrantId r) (actor r) (disclosure r) (runnerRequirements r)
    (networkDestinations r) (networkEnforcement r) (networkBoundaryReceipt r)
    (secretUseAliases r) (outputLocations r) (state r) (idempotencyKey r) (attemptIds r)
    (currentAttemptId r) (currentRunnerId r) (createdAt r) (updatedAt r) (recoveryAction r)
    (receipt r).
End RunnerJob.

(** [RunnerAttemptState] lists the same literals as [RunnerJobState]. *)
Module RunnerAttemptState.
Definition t := RunnerJobState.t.
End RunnerAttemptState.

Module RunnerAttempt.
Record t := mk {
  id : string;
  jobId : string;
  runId : string;
  runnerId : option string;
  state : RunnerAttemptState.t;
  leaseExpiresAt : string;
  challengeDigest : option string;
  jobCredentialDigest : option string;
  claimedAt : option string;
  lastHeartbeatAt : option string;
  completedAt : option string;
  resultDigest : option string;
  recoveryAction : option string;
  receipt : string;
}.
#[global] Instance eta : Eta t := fun r =>
  mk (id r) (jobId r) (runId r) (runnerId r) (state r) (leaseExpiresAt r) (challengeDigest r)
    (jobCredentialDigest r) (claimedAt r) (lastHeartbeatAt r) (completedAt r) (resultDigest r)
    (recoveryAction r) (receipt r).
End RunnerAttempt.

Module RunnerOutputKind.
Inductive t := log | artifact | evidence.
#[global] Instance t_eq_dec : EqDecision t.
Proof. solve_decision. Defined.
Definition show (x : t) : string :=
  match x with
  | log => "log"
  | artifact => "artifact"
  | evidence => "evidence"
  end.
End RunnerOutputKind.
#[global] Instance RunnerOutputKind_to_json : ToJson RunnerOutputKind.t := λ x, JStr (RunnerOutputKind.show x).

Module RunnerOutputReference.
Record t := mk {
  id : string;
  kind : RunnerOutputKind.t;
  runId : string;
  attemptId : string;
  location : string;
  outputPath : option string;
  digest : string;
  disclosure : DisclosurePolicyRef.t;
  receipt : string;
}.
#[global] Instance eta : Eta t := fun r =>
  mk (id r) (kind r) (runId r) (attemptId r) (location r) (outputPath r) (digest r)
    (disclosure r) (receipt r).
End RunnerOutputReference.

Module RunnerEvent.
Record t := mk {
  id : string;
  sequence : Z;
  type : string;
  runnerId : option string;
  jobId : option string;
  attemptId : option string;
  runId : option string;
  actor : option ActorRef.t;
  from : option RunnerJobState.t;
  to : option RunnerJobState.t;
  occurredAt : string;
  receipt : string;
}.
#[global] Instance eta : Eta t := fun r =>
  mk (id r) (sequence r) (type r) (runnerId r) (jobId r) (attemptId r) (runId r) (actor r)
    (from r) (to r) (occurredAt r) (receipt r).
End RunnerEvent.

(** * Evidence, Artifacts and Releases *)

Module EvidenceProducerKind.
Inductive t := run | review | policy | attestation.
#[global] Instance t_eq_dec : EqDecision t.
Proof. solve_decision. Defined.
Definition show (x : t) : string :=
  match x with
  | run => "run"
  | review => "review"
  | policy => "policy"
  | attestation => "attestation"
  end.
End EvidenceProducerKind.
#[global] Instance EvidenceProducerKind_to_json : ToJson EvidenceProducerKind.t := λ x, JStr (EvidenceProducerKind.show x).

Module EvidenceProducer.
Record t := mk {
  kind : EvidenceProducerKind.t;
  id : string;
  version : string;
}.
#[global] Instance eta : Eta t := fun r =>
  mk (kind r) (id r) (version r).
End EvidenceProducer.
#[global] Instance EvidenceProducer_to_json : ToJson EvidenceProducer.t := λ r, object
  [field "kind" (r.(EvidenceProducer.kind));
   field "id" (r.(EvidenceProducer.id));
   field "version" (r.(EvidenceProducer.version))].

Module Evidence.
Record t := mk {
  id : string;
  key : string;
  criterion : string;
  outcome : EvidenceOutcome.t;
  validityKey : string;
  actionId : string;
  verifierId : string;
  toolchainDigest : string;
  dependencyDigest : string;
  environmentDigest : string;
  inputDigests : list string;
  effectDigests : list string;
  outputDigest : string;
  createdAt : string;
  producer : EvidenceProducer.t;
  projectRevisionId : string;
  projectViewId : string;
  changeRevisionId : option string;
  runId : string;
  actor : ActorRef.t;
  runnerId : string;
  policyVersion : string;
  authorizationEpoch : string;
  capabilityGrantId : string;
  disclosure : DisclosurePolicyRef.t;
  receipt : string;
  invalidators : list string;
  owner : string;
  residualRiskId : option string;
  sourceSpaceSnapshots : option (omap string);
  actionContractDigest : option string;
  verifierContractDigest : option string;
  targetId : option string;
  workspaceId : option string;
}.
#[global] Instance eta : Eta t := fun r =>
  mk (id r) (key r) (criterion r) (outcome r) (validityKey r) (actionId r) (verifierId r)
    (toolchainDigest r) (dependencyDigest r) (environmentDigest r) (inputDigests r)
    (effectDigests r) (outputDigest r) (createdAt r) (producer r) (projectRevisionId r)
    (projectViewId r) (changeRevisionId r) (runId r) (actor r) (runnerId r) (policyVersion r)
    (authorizationEpoch r) (capabilityGrantId r) (disclosure r) (receipt r) (invalidators r)
    (owner r) (residualRiskId r) (sourceSpaceSnapshots r) (actionContractDigest r)
    (verifierContractDigest r) (targetId r) (workspaceId r).
End Evidence.
#[global] Instance Evidence_to_json : ToJson Evidence.t := λ r, object
  [field "protocol" "anyam.evidence/v1";
   field "id" (r.(Evidence.id));
   field "key" (r.(Evidence.key));
   field "criterion" (r.(Evidence.criterion));
   field "outcome" (r.(Evidence.outcome));
   field "validityKey" (r.(Evidence.validityKey));
   field "actionId" (r.(Evidence.actionId));
   field "verifierId" (r.(Evidence.verifierId));
   field "toolchainDigest" (r.(Evidence.toolchainDigest));
   field "dependencyDigest" (r.(Evidence.dependencyDigest));
   field "environmentDigest" (r.(Evidence.environmentDigest));
   field "inputDigests" (r.(Evidence.inputDigests));
   field "effectDigests" (r.(Evidence.effectDigests));
   field "outputDigest" (r.(Evidence.outputDigest));
   field "createdAt" (r.(Evidence.createdAt));
   field "producer" (r.(Evidence.producer));
   field "projectRevisionId" (r.(Evidence.projectRevisionId));
   field "projectViewId" (r.(Evidence.projectViewId));
   opt_field "changeRevisionId" (r.(Evidence.changeRevisionId));
   field "runId" (r.(Evidence.runId));
   field "actor" (r.(Evidence.actor));
   field "runnerId" (r.(Evidence.runnerId));
   field "policyVersion" (r.(Evidence.policyVersion));
   field "authorizationEpoch" (r.(Evidence.authorizationEpoch));
   field "capabilityGrantId" (r.(Evidence.capabilityGrantId));
   field "disclosure" (r.(Evidence.disclosure));
   field "receipt" (r.(Evidence.receipt));
   field "invalidators" (r.(Evidence.invalidators));
   field "owner" (r.(Evidence.owner));
   opt_field "residualRiskId" (r.(Evidence.residualRiskId));
   opt_field "sourceSpaceSnapshots" (r.(Evidence.sourceSpaceSnapshots));
   opt_field "actionContractDigest" (r.(Evidence.actionContractDigest));
   opt_field "verifierContractDigest" (r.(Evidence.verifierContractDigest));
   opt_field "targetId" (r.(Evidence.targetId));
   opt_field "workspaceId" (r.(Evidence.workspaceId))].

Module Artifact.
Record t := mk {
  id : string;
  type : string;
  digest : string;
  projectRevisionId : string;
  changeRevisionId : option string;
  runId : option string;
  actionId : option string;
  outputPath : option string;
  provenanceDigest : option string;
  disclosure : option DisclosurePolicyRef.t;
}.
#[global] Instance eta : Eta t := fun r =>
  mk (id r) (type r) (digest r) (projectRevisionId r) (changeRevisionId r) (runId r)
    (actionId r) (outputPath r) (provenanceDigest r) (disclosure r).
End Artifact.
#[global] Instance Artifact_to_json : ToJson Artifact.t := λ r, object
  [field "protocol" "anyam.artifact/v1";
   field "id" (r.(Artifact.id));
   field "type" (r.(Artifact.type));
   field "digest" (r.(Artifact.digest));
   field "projectRevisionId" (r.(Artifact.projectRevisionId));
   opt_field "changeRevisionId" (r.(Artifact.changeRevisionId));
   opt_field "runId" (r.(Artifact.runId));
   opt_field "actionId" (r.(Artifact.actionId));
   opt_field "outputPath" (r.(Artifact.outputPath));
   opt_field "provenanceDigest" (r.(Artifact.provenanceDigest));
   opt_field "disclosure" (r.(Artifact.disclosure))].

Module ReleaseStatus.
Inductive t := draft | ready | promoted | recalled.
#[global] Instance t_eq_dec : EqDecision t.
Proof. solve_decision. Defined.
Definition show (x : t) : string :=
  match x with
  | draft => "draft"
  | ready => "ready"
  | promoted => "promoted"
  | recalled => "recalled"
  end.
End ReleaseStatus.
#[global] Instance ReleaseStatus_to_json : ToJson ReleaseStatus.t := λ x, JStr (ReleaseStatus.show x).

Module ReleaseInputSet.
Record t := mk {
  protocol : string;
  buildDefinitionDigest : string;
  dependencyDigest : string;
  toolchainDigest : string;
  environmentDigest : string;
  artifactDigests : list string;
  inputClosureDigest : string;
}.
#[global] Instance eta : Eta t := fun r =>
  mk (protocol r) (buildDefinitionDigest r) (dependencyDigest r) (toolchainDigest r)
    (environmentDigest r) (artifactDigests r) (inputClosureDigest r).
End ReleaseInputSet.
#[global] Instance ReleaseInputSet_to_json : ToJson ReleaseInputSet.t := λ r, object
  [field "protocol" (r.(ReleaseInputSet.protocol));
   field "buildDefinitionDigest" (r.(ReleaseInputSet.buildDefinitionDigest));
   field "dependencyDigest" (r.(ReleaseInputSet.dependencyDigest));
   field "toolchainDigest" (r.(ReleaseInputSet.toolchainDigest));
   field "environmentDigest" (r.(ReleaseInputSet.environmentDigest));
   field "artifactDigests" (r.(ReleaseInputSet.artifactDigests));
   field "inputClosureDigest" (r.(ReleaseInputSet.inputClosureDigest))].

Module MigrationStrategy.
Inductive t := none | expand_contract | manual | custom.
#[global] Instance t_eq_dec : EqDecision t.
Proof. solve_decision. Defined.
Definition show (x : t) : string :=
  match x with
  | none => "none"
  | expand_contract => "expand-contract"
  | manual => "manual"
  | custom => "custom"
  end.
End MigrationStrategy.
#[global] Instance MigrationStrategy_to_json : ToJson MigrationStrategy.t := λ x, JStr (MigrationStrategy.show x).

Module MigrationCompatibility.
Inductive t := backward_compatible | bidirectional | forward_only | incompatible | unknown.
#[global] Instance t_eq_dec : EqDecision t.
Proof. solve_decision. Defined.
Definition show (x : t) : string :=
  match x with
  | backward_compatible => "backward-compatible"
  | bidirectional => "bidirectional"
  | forward_only => "forward-only"
  | incompatible => "incompatible"
  | unknown => "unknown"
  end.
End MigrationCompatibility.
#[global] Instance MigrationCompatibility_to_json : ToJson MigrationCompatibility.t := λ x, JStr (MigrationCompatibility.show x).

Module MigrationRollback.
Inductive t := safe | application_only | manual_data_action | blocked.
#[global] Instance t_eq_dec : EqDecision t.
Proof. solve_decision. Defined.
Definition show (x : t) : string :=
  match x with
  | safe => "safe"
  | application_only => "application-only"
  | manual_data_action => "manual-data-action"
  | blocked => "blocked"
  end.
End MigrationRollback.
#[global] Instance MigrationRollback_to_json : ToJson MigrationRollback.t := λ x, JStr (MigrationRollback.show x).

Module MigrationPlan.
Record t := mk {
  strategy : MigrationStrategy.t;
  beforeSchemaDigest : option string;
  afterSchemaDigest : option string;
  compatibility : MigrationCompatibility.t;
  rollback : MigrationRollback.t;
  migrationArtifactIds : list string;
  requiredEvidenceKeys : list string;
  planDigest : string;
}.
#[global] Instance eta : Eta t := fun r =>
  mk (strategy r) (beforeSchemaDigest r) (afterSchemaDigest r) (compatibility r) (rollback r)
    (migrationArtifactIds r) (requiredEvidenceKeys r) (planDigest r).
End MigrationPlan.
#[global] Instance MigrationPlan_to_json : ToJson MigrationPlan.t := λ r, object
  [field "protocol" "anyam.migration/v1";
   field "strategy" (r.(MigrationPlan.strategy));
   opt_field "beforeSchemaDigest" (r.(MigrationPlan.beforeSchemaDigest));
   opt_field "afterSchemaDigest" (r.(MigrationPlan.afterSchemaDigest));
   field "compatibility" (r.(MigrationPlan.compatibility));
   field "rollback" (r.(MigrationPlan.rollback));
   field "migrationArtifactIds" (r.(MigrationPlan.migrationArtifactIds));
   field "requiredEvidenceKeys" (r.(MigrationPlan.requiredEvidenceKeys));
   field "planDigest" (r.(MigrationPlan.planDigest))].

Module Release.
Record t := mk {
  id : string;
  projectRevisionId : string;
  artifactIds : list string;
  evidenceIds : list string;
  configurationDigests : list string;
  stateAssumptions : list string;
  policyVersion : string;
  status : ReleaseStatus.t;
  name : option string;
  changeRevisionId : option string;
  provenanceDigest : option string;
  inputSet : option ReleaseInputSet.t;
  migrationPlan : option MigrationPlan.t;
  receipt : option string;
}.
#[global] Instance eta : Eta t := fun r =>
  mk (id r) (projectRevisionId r) (artifactIds r) (evidenceIds r) (configurationDigests r)
    (stateAssumptions r) (policyVersion r) (status r) (name r) (changeRevisionId r)
    (provenanceDigest r) (inputSet r) (migrationPlan r) (receipt r).
End Release.
#[global] Instance Release_to_json : ToJson Release.t := λ r, object
  [field "protocol" "anyam.release/v1";
   field "id" (r.(Release.id));
   field "projectRevisionId" (r.(Release.projectRevisionId));
   field "artifactIds" (r.(Release.artifactIds));
   field "evidenceIds" (r.(Release.evidenceIds));
   field "configurationDigests" (r.(Release.configurationDigests));
   field "stateAssumptions" (r.(Release.stateAssumptions));
   field "policyVersion" (r.(Release.policyVersion));
   field "status" (r.(Release.status));
   opt_field "name" (r.(Release.name));
   opt_field "changeRevisionId" (r.(Release.changeRevisionId));
   opt_field "provenanceDigest" (r.(Release.provenanceDigest));
   opt_field "inputSet" (r.(Release.inputSet));
   opt_field "migrationPlan" (r.(Release.migrationPlan));
   opt_field "receipt" (r.(Release.receipt))].

(** * Targets *)

Module TargetState.
Inductive t := configured | healthy | degraded | unknown.
#[global] Instance t_eq_dec : EqDecision t.
Proof. solve_decision. Defined.
Definition show (x : t) : string :=
  match x with
  | configured => "configured"
  | healthy => "healthy"
  | degraded => "degraded"
  | unknown => "unknown"
  end.
End TargetState.
#[global] Instance TargetState_to_json : ToJson TargetState.t := λ x, JStr (TargetState.show x).

Module TargetEnvironment.
Inductive t := preview | development | staging | production | custom.
#[global] Instance t_eq_dec : EqDecision t.
Proof. solve_decision. Defined.
Definition show (x : t) : string :=
  match x with
  | preview => "preview"
  | development => "development"
  | staging => "staging"
  | production => "production"
  | custom => "custom"
  end.
End TargetEnvironment.
#[global] Instance TargetEnvironment_to_json : ToJson TargetEnvironment.t := λ x, JStr (TargetEnvironment.show x).

Module TargetChannel.
Inductive t := alpha | beta | stable | custom.
#[global] Instance t_eq_dec : EqDecision t.
Proof. solve_decision. Defined.
Definition show (x : t) : string :=
  match x with
  | alpha => "alpha"
  | beta => "beta"
  | stable => "stable"
  | custom => "custom"
  end.
End TargetChannel.
#[global] Instance TargetChannel_to_json : ToJson TargetChannel.t := λ x, JStr (TargetChannel.show x).

Module TargetDataClass.
Inductive t := synthetic | isolated | production_shaped | production | custom.
#[global] Instance t_eq_dec : EqDecision t.
Proof. solve_decision. Defined.
Definition show (x : t) : string :=
  match x with
  | synthetic => "synthetic"
  | isolated => "isolated"
  | production_shaped => "production-shaped"
  | production => "production"
  | custom => "custom"
  end.
End TargetDataClass.
#[global] Instance TargetDataClass_to_json : ToJson TargetDataClass.t := λ x, JStr (TargetDataClass.show x).

Module TargetResourceSharing.
Inductive t := isolated | owner_approved.
#[global] Instance t_eq_dec : EqDecision t.
Proof. solve_decision. Defined.
Definition show (x : t) : string :=
  match x with
  | isolated => "isolated"
  | owner_approved => "owner-approved"
  end.
End TargetResourceSharing.
#[global] Instance TargetResourceSharing_to_json : ToJson TargetResourceSharing.t := λ x, JStr (TargetResourceSharing.show x).

Module TargetPreviewStrategy.
Inductive t :=
| version_url
| isolated_target (targetId : string)
| custom_domain_version_override (hostname : string)
| staging_only (requiredEvidenceKeys : list string).
End TargetPreviewStrategy.
#[global] Instance TargetPreviewStrategy_to_json : ToJson TargetPreviewStrategy.t := λ p,
  match p with
  | TargetPreviewStrategy.version_url => object [field "kind" "version-url"]
  | TargetPreviewStrategy.isolated_target x =>
      object [field "kind" "isolated-target"; field "targetId" x]
  | TargetPreviewStrategy.custom_domain_version_override h =>
      object [field "kind" "custom-domain-version-override"; field "hostname" h]
  | TargetPreviewStrategy.staging_only ks =>
      object [field "kind" "staging-only"; field "requiredEvidenceKeys" ks]
  end.

Module TargetDeploymentProfile.
Record t := mk {
  environment : TargetEnvironment.t;
  channel : TargetChannel.t;
  audience : string;
  runtimeIdentity : string;
  routeIdentities : list string;
  bindingIdentities : list string;
  dataResourceIdentities : list string;
  configurationDigests : list string;
  secretUseAliases : list string;
  dataClass : TargetDataClass.t;
  resourceSharing : TargetResourceSharing.t;
  sharingPolicyDigest : option string;
  previewStrategy : TargetPreviewStrategy.t;
  profileDigest : string;
}.
#[global] Instance eta : Eta t := fun r =>
  mk (environment r) (channel r) (audience r) (runtimeIdentity r) (routeIdentities r)
    (bindingIdentities r) (dataResourceIdentities r) (configurationDigests r)
    (secretUseAliases r) (dataClass r) (resourceSharing r) (sharingPolicyDigest r)
    (previewStrategy r) (profileDigest r).
End TargetDeploymentProfile.
#[global] Instance TargetDeploymentProfile_to_json : ToJson TargetDeploymentProfile.t := λ r, object
  [field "protocol" "anyam.target-deployment/v1";
   field "environment" (r.(TargetDeploymentProfile.environment));
   field "channel" (r.(TargetDeploymentProfile.channel));
   field "audience" (r.(TargetDeploymentProfile.audience));
   field "runtimeIdentity" (r.(TargetDeploymentProfile.runtimeIdentity));
   field "routeIdentities" (r.(TargetDeploymentProfile.routeIdentities));
   field "bindingIdentities" (r.(TargetDeploymentProfile.bindingIdentities));
   field "dataResourceIdentities" (r.(TargetDeploymentProfile.dataResourceIdentities));
   field "configurationDigests" (r.(TargetDeploymentProfile.configurationDigests));
   field "secretUseAliases" (r.(TargetDeploymentProfile.secretUseAliases));
   field "dataClass" (r.(TargetDeploymentProfile.dataClass));
   field "resourceSharing" (r.(TargetDeploymentProfile.resourceSharing));
   opt_field "sharingPolicyDigest" (r.(TargetDeploymentProfile.sharingPolicyDigest));
   field "previewStrategy" (r.(TargetDeploymentProfile.previewStrategy));
   field "profileDigest" (r.(TargetDeploymentProfile.profileDigest))].

Module Target.
Record t := mk {
  id : string;
  projectId : string;
  name : string;
  adapterId : string;
  acceptedArtifactTypes : list string;
  requiredEvidenceKeys : list string;
  state : TargetState.t;
  currentReleaseId : option (option string);
  releaseHistory : option (list string);
  lastPromotionId : option string;
  deploymentProfile : option TargetDeploymentProfile.t;
}.
#[global] Instance eta : Eta t := fun r =>
  mk (id r) (projectId r) (name r) (adapterId r) (acceptedArtifactTypes r)
    (requiredEvidenceKeys r) (state r) (currentReleaseId r) (releaseHistory r)
    (lastPromotionId r) (deploymentProfile r).
End Target.
(** * Functions *)

Definition opaqueId `{Host} {S E} (prefix : string) : M S E string :=
  u ← uuid; mret (cat [prefix; ":"; u]).

(** The [n]-th id with a prefix, and the ids drawn so far. *)
Definition key `{Host} (prefix : string) (n : nat) : string := cat [prefix; ":"; randomUUID n].
Definition drawn `{Host} (prefix : string) (w : World) (k : string) : Prop :=
  ∃ n, (n < uuids_drawn w)%nat ∧ k = key prefix n.

Definition createProject (input : Project.t) : Project.t := input.

Module CreateProjectRevisionInput.
Record t := mk {
  projectId : string;
  sourceSpaceSnapshots : omap string;
  id : option string;
  parentProjectRevisionId : option string;
  landedChangeRevisionId : option string;
  landedChangeRevisionIds : option (list string);
  landingCohortId : option string;
}.
End CreateProjectRevisionInput.

Definition createProjectRevision `{Host} {S E} (input : CreateProjectRevisionInput.t) :
    M S E ProjectRevision.t :=
  rid ← match CreateProjectRevisionInput.id input with
        | Some i => mret i
        | None => opaqueId "project-revision"
        end;
  mret {|
    ProjectRevision.id := rid;
    ProjectRevision.projectId := CreateProjectRevisionInput.projectId input;
    ProjectRevision.sourceSpaceSnapshots := CreateProjectRevisionInput.sourceSpaceSnapshots input;
    ProjectRevision.parentProjectRevisionId :=
      truthy_opt (CreateProjectRevisionInput.parentProjectRevisionId input);
    ProjectRevision.landedChangeRevisionId :=
      truthy_opt (CreateProjectRevisionInput.landedChangeRevisionId input);
    ProjectRevision.landedChangeRevisionIds :=
      CreateProjectRevisionInput.landedChangeRevisionIds input;
    ProjectRevision.landingCohortId :=
      truthy_opt (CreateProjectRevisionInput.landingCohortId input);
  |}.

Module ProjectViewProjectionError.
Record t := mk {
  code : ProjectViewProjectionErrorCode.t;
  sourceSpaceId : option string;
}.
End ProjectViewProjectionError.

Module DeriveProjectViewInput.
Record t := mk {
  project : Project.t;
  revision : ProjectRevision.t;
  sourceSpaces : list SourceSpace.t;
  allowedSourceSpaceIds : list string;
  projectionId : string;
  classification : option DisclosureClassification.t;
}.
End DeriveProjectViewInput.

(** The body of the validation loop over [allowedSourceSpaceIds]. *)
Definition check_allowed {S} (input : DeriveProjectViewInput.t)
    (sourceSpaceById : omap SourceSpace.t) (id : string) :
    M S ProjectViewProjectionError.t () :=
  throw_if (negb (omap_has id sourceSpaceById))
    (ProjectViewProjectionError.mk ProjectViewProjectionErrorCode.unknown_source_space (Some id));;
  throw_if (negb (list_includes (Project.sourceSpaceIds (DeriveProjectViewInput.project input)) id))
    (ProjectViewProjectionError.mk ProjectViewProjectionErrorCode.source_space_not_in_project
      (Some id));;
  throw_if (negb (omap_has id
      (ProjectRevision.sourceSpaceSnapshots (DeriveProjectViewInput.revision input))))
    (ProjectViewProjectionError.mk ProjectViewProjectionErrorCode.missing_source_space_snapshot
      (Some id));;
  throw_if (bool_decide (DeriveProjectViewInput.classification input
                         = Some DisclosureClassification.public)
            && negb (bool_decide (SourceSpace.classification <$> omap_get id sourceSpaceById
                                  = Some SourceSpaceClassification.public)))
    (ProjectViewProjectionError.mk
      ProjectViewProjectionErrorCode.disclosure_classification_mismatch (Some id)).

Definition deriveProjectView `{Host} {S} (input : DeriveProjectViewInput.t) :
    M S ProjectViewProjectionError.t ProjectView.t :=
  let project := DeriveProjectViewInput.project input in
  let revision := DeriveProjectViewInput.revision input in
  let allowed := DeriveProjectViewInput.allowedSourceSpaceIds input in
  throw_if (negb (bool_decide (ProjectRevision.projectId revision = Project.id project)))
    (ProjectViewProjectionError.mk ProjectViewProjectionErrorCode.revision_project_mismatch None);;
  throw_if (has_duplicates (SourceSpace.id <$> DeriveProjectViewInput.sourceSpaces input))
    (ProjectViewProjectionError.mk
      ProjectViewProjectionErrorCode.duplicate_source_space_catalog None);;
  let sourceSpaceById :=
    omap_from ((fun space => (SourceSpace.id space, space))
               <$> DeriveProjectViewInput.sourceSpaces input) in
  throw_if (has_duplicates allowed)
    (ProjectViewProjectionError.mk ProjectViewProjectionErrorCode.duplicate_source_space None);;
  for_each allowed (check_allowed input sourceSpaceById);;
  let disclosed :=
    omap_pick (fun id => omap_get id (ProjectRevision.sourceSpaceSnapshots revision)) allowed in
  viewId ← opaqueId "project-view";
  mret {|
    ProjectView.id := viewId;
    ProjectView.projectId := Project.id project;
    ProjectView.projectRevisionId := ProjectRevision.id revision;
    ProjectView.projectionId := DeriveProjectViewInput.projectionId input;
    ProjectView.classification :=
      default DisclosureClassification.project (DeriveProjectViewInput.classification input);
    ProjectView.visibleSourceSpaceIds := allowed;
    ProjectView.disclosedSourceSpaceSnapshots := disclosed;
  |}.

(** * What a Project View discloses

    [authorized] is the composition [deriveProjectView] promises to accept: the
    revision belongs to the project, the catalog and the request name each
    Source Space once, and every requested one is known, owned, snapshotted
    and, in a public view, itself public. *)

Record authorized (input : DeriveProjectViewInput.t) : Prop := {
  authorized_project :
    ProjectRevision.projectId (DeriveProjectViewInput.revision input)
    = Project.id (DeriveProjectViewInput.project input);
  authorized_catalog : NoDup (SourceSpace.id <$> DeriveProjectViewInput.sourceSpaces input);
  authorized_unique : NoDup (DeriveProjectViewInput.allowedSourceSpaceIds input);
  authorized_each : ∀ id, id ∈ DeriveProjectViewInput.allowedSourceSpaceIds input →
    (∃ space, space ∈ DeriveProjectViewInput.sourceSpaces input ∧ SourceSpace.id space = id ∧
       (DeriveProjectViewInput.classification input = Some DisclosureClassification.public →
        SourceSpace.classification space = SourceSpaceClassification.public)) ∧
    id ∈ Project.sourceSpaceIds (DeriveProjectViewInput.project input) ∧
    is_Some (omap_get id
      (ProjectRevision.sourceSpaceSnapshots (DeriveProjectViewInput.revision input)));
}.

Lemma drawn_mono `{HH : Host} p w w' k : (uuids_drawn w ≤ uuids_drawn w')%nat → drawn p w k → drawn p w' k.
Proof. intros Hw (n & Hn & ->). exists n. split; [lia|done]. Qed.
Lemma key_inj `{HH : Host} p n m : FreshUUIDs HH → key p n = key p m → n = m.
Proof.
intros Hf H. apply Hf. unfold key, cat in H. simpl in H. rewrite !str_app_nil_r in H.
assert (∀ q (x y : string), q +:+ x = q +:+ y → x = y) as Happ.
{ induction q as [|b q IH]; intros x y; [done|]. rewrite !str_app_cons. intros [= Hq]. by apply IH. }
by apply Happ, (Happ ":") in H.
Qed.
Lemma drawn_fresh `{HH : Host} p w : FreshUUIDs HH → ¬ drawn p w (key p (uuids_drawn w)).
Proof. intros Hf (n & Hn & He%key_inj); [lia|done]. Qed.
Lemma wp_opaqueId `{Host} {S E} prefix (Q : string → World → S → Prop) (X : E → World → S → Prop) w s :
  Q (cat [prefix; ":"; randomUUID (uuids_drawn w)]) (mkWorld (1 + uuids_drawn w) (clock_reads w)) s →
  wp (opaqueId prefix) Q X w s.
Proof. done. Qed.

Section project_view.
Context `{HH : Host} {S : Type}.
Implicit Types (input : DeriveProjectViewInput.t) (s : S).

(** One iteration throws exactly when the space fails a condition of
    [authorized_each]. *)
Lemma check_allowed_spec input spaces id w s :
  wp (check_allowed input spaces id)
    (λ _ w' s', w' = w ∧ s' = s ∧
      (∃ space, omap_get id spaces = Some space ∧
       (DeriveProjectViewInput.classification input = Some DisclosureClassification.public →
        SourceSpace.classification space = SourceSpaceClassification.public)) ∧
      id ∈ Project.sourceSpaceIds (DeriveProjectViewInput.project input) ∧
      is_Some (omap_get id
        (ProjectRevision.sourceSpaceSnapshots (DeriveProjectViewInput.revision input))))
    (λ _ w' s', s' = s ∧
      ¬ ((∃ space, omap_get id spaces = Some space ∧
       (DeriveProjectViewInput.classification input = Some DisclosureClassification.public →
        SourceSpace.classification space = SourceSpaceClassification.public)) ∧
      id ∈ Project.sourceSpaceIds (DeriveProjectViewInput.project input) ∧
      is_Some (omap_get id
        (ProjectRevision.sourceSpaceSnapshots (DeriveProjectViewInput.revision input))))) w s.
Proof.
unfold check_allowed. wp_steps; rewrite ?negb_true_iff, ?negb_false_iff, ?andb_true_iff,
  ?andb_false_iff, ?negb_true_iff, ?negb_false_iff in *.
all: unfold omap_has, list_includes in *; rewrite ?bool_decide_eq_true, ?bool_decide_eq_false in *.
- split; [done|]. intros ((sp & Hsp & _) & _). eauto.
- naive_solver.
- naive_solver.
- split; [done|]. intros ((sp & Hsp & Hpub) & _). rewrite Hsp in *. simpl in *.
  destruct_and!. by rewrite Hpub in *.
- split_and!; try done. match goal with H : is_Some (omap_get id spaces) |- _ => destruct H as [sp Hsp] end.
  rewrite Hsp in *. simpl in *. exists sp. naive_solver.
Qed.

Lemma deriveProjectView_spec input w s :
  wp (deriveProjectView input)
    (λ view w' s', s' = s ∧ authorized input ∧
       ProjectView.projectId view = Project.id (DeriveProjectViewInput.project input) ∧
       ProjectView.projectRevisionId view =
         ProjectRevision.id (DeriveProjectViewInput.revision input) ∧
       ProjectView.classification view =
         default DisclosureClassification.project (DeriveProjectViewInput.classification input) ∧
       ProjectView.visibleSourceSpaceIds view = DeriveProjectViewInput.allowedSourceSpaceIds input ∧
       ∀ id, omap_get id (ProjectView.disclosedSourceSpaceSnapshots view) =
         if decide (id ∈ DeriveProjectViewInput.allowedSourceSpaceIds input)
         then omap_get id (ProjectRevision.sourceSpaceSnapshots (DeriveProjectViewInput.revision input))
         else None)
    (λ _ w' s', s' = s ∧ ¬ authorized input) w s.
Proof.
unfold deriveProjectView. cbv zeta.
wp_step. wp_step; [split; [done|]; intros []|wp_step].
{ by rewrite negb_true_iff, bool_decide_eq_false in *. }
wp_step; [split; [done|]; intros []|wp_step].
{ apply has_duplicates_spec in authorized_catalog0. congruence. }
wp_step; [split; [done|]; intros []|wp_step].
{ apply has_duplicates_spec in authorized_unique0. congruence. }
rewrite negb_false_iff, bool_decide_eq_true in *. rewrite !has_duplicates_spec in *.
apply (wp_for_each (λ pre w' s', s' = s ∧ ∀ id, id ∈ pre →
  (∃ space, space ∈ DeriveProjectViewInput.sourceSpaces input ∧ SourceSpace.id space = id ∧
       (DeriveProjectViewInput.classification input = Some DisclosureClassification.public →
        SourceSpace.classification space = SourceSpaceClassification.public)) ∧
    id ∈ Project.sourceSpaceIds (DeriveProjectViewInput.project input) ∧
    is_Some (omap_get id
      (ProjectRevision.sourceSpaceSnapshots (DeriveProjectViewInput.revision input))))).
- intros pre id post w' s' Hl [-> Hpre]. eapply wp_mono; [apply check_allowed_spec| |].
  + intros _ w'' s'' (-> & -> & (sp & Hsp & Hpub) & Hin & Hsnap). split; [done|].
    intros id' [?|Hx%list_elem_of_singleton]%elem_of_app; [auto|]. subst id'.
    apply omap_from_index in Hsp as [? ?]; [|done]. eauto 10.
  + intros _ w'' s'' [-> Hno]. split; [done|]. intros [_ _ _ Heach]. apply Hno.
    destruct (Heach id) as ((sp & Hsp & Hid & Hpub) & Hin & Hsnap).
    { rewrite Hl. apply elem_of_app. right. left. }
    split; [|done]. exists sp. split; [|done]. by apply omap_from_index.
- intros w' s' [-> Hall]. wp_step. apply wp_opaqueId. wp_step. split_and!; try done.
  intros id. cbn. rewrite omap_get_pick. done.
- split; [done|]. intros id Hid. by apply elem_of_nil in Hid.
Qed.
End project_view.

(** C10: [deriveProjectView] fails closed: it returns a view exactly of an authorized
    composition (the revision is the Project's, the catalog and the request name each
    Source Space once, and each requested one is in the catalog, in the Project and in
    the revision's snapshots, and in a public view itself public). The view is of that
    Project and revision and of the classification asked for, and shows the requested
    Source Spaces with their snapshots in the revision and nothing else; otherwise it
    throws, and no branch changes the caller's state. *)
Theorem deriveProjectView_fail_closed `{HH : Host} {S : Type} (input : DeriveProjectViewInput.t) w (s : S) :
  (authorized input ↔ ∃ view w', deriveProjectView input w s = (Ok view, w', s)) ∧
  (∀ o w' s', deriveProjectView input w s = (o, w', s') → s' = s) ∧
  ∀ view w' s', deriveProjectView input w s = (Ok view, w', s') →
    ProjectView.projectId view = Project.id (DeriveProjectViewInput.project input) ∧
    ProjectView.projectRevisionId view = ProjectRevision.id (DeriveProjectViewInput.revision input) ∧
    ProjectView.classification view =
      default DisclosureClassification.project (DeriveProjectViewInput.classification input) ∧
    ProjectView.visibleSourceSpaceIds view = DeriveProjectViewInput.allowedSourceSpaceIds input ∧
    ∀ id snapshot,
      omap_get id (ProjectView.disclosedSourceSpaceSnapshots view) = Some snapshot ↔
      id ∈ DeriveProjectViewInput.allowedSourceSpaceIds input ∧
      omap_get id (ProjectRevision.sourceSpaceSnapshots (DeriveProjectViewInput.revision input))
        = Some snapshot.
Proof.
pose proof (deriveProjectView_spec input w s) as Hspec. unfold wp in Hspec.
destruct (deriveProjectView input w s) as [[[view|e] w'] s'].
- destruct Hspec as (-> & Ha & Hp & Hr & Hcl & Hvis & Hsnap).
  split_and!; [naive_solver|by intros ? ? ? [= _ _ <-]|].
  intros ? ? ? [= <- <- <-]. split_and!; [done..|]. intros id snapshot. rewrite Hsnap.
  case_decide; naive_solver.
- destruct Hspec as [-> Hno]. split_and!; [|by intros ? ? ? [= _ _ <-]|done].
  split; [done|]. intros (? & ? & ?). done.
Qed.
