(* ===== verification/ContractsJson.v ===== *)
(** The JSON form of a contract record determines the record: the instances of
    [JsonInj] and [JsonDef] for the records and unions of Contracts.v that the
    code digests. *)

From S2P Require Import Prelude Json Contracts.

(** * Unions *)

#[export] Instance SourceSpaceClassification_json_inj : JsonInj SourceSpaceClassification.t.
Proof. enum_inj. Qed.
#[export] Instance SourceSpaceClassification_json_def : JsonDef SourceSpaceClassification.t.
Proof. enum_def. Qed.
#[export] Instance DisclosureClassification_json_inj : JsonInj DisclosureClassification.t.
Proof. enum_inj. Qed.
#[export] Instance DisclosureClassification_json_def : JsonDef DisclosureClassification.t.
Proof. enum_def. Qed.
#[export] Instance EvidenceOutcome_json_inj : JsonInj EvidenceOutcome.t.
Proof. enum_inj. Qed.
#[export] Instance EvidenceOutcome_json_def : JsonDef EvidenceOutcome.t.
Proof. enum_def. Qed.
#[export] Instance ProjectViewProjectionErrorCode_json_inj : JsonInj ProjectViewProjectionErrorCode.t.
Proof. enum_inj. Qed.
#[export] Instance ProjectViewProjectionErrorCode_json_def : JsonDef ProjectViewProjectionErrorCode.t.
Proof. enum_def. Qed.
#[export] Instance VerifierDisclosure_json_inj : JsonInj VerifierDisclosure.t.
Proof. enum_inj. Qed.
#[export] Instance VerifierDisclosure_json_def : JsonDef VerifierDisclosure.t.
Proof. enum_def. Qed.
#[export] Instance ChangeStatus_json_inj : JsonInj ChangeStatus.t.
Proof. enum_inj. Qed.
#[export] Instance ChangeStatus_json_def : JsonDef ChangeStatus.t.
Proof. enum_def. Qed.
#[export] Instance ChangeRevisionKind_json_inj : JsonInj ChangeRevisionKind.t.
Proof. enum_inj. Qed.
#[export] Instance ChangeRevisionKind_json_def : JsonDef ChangeRevisionKind.t.
Proof. enum_def. Qed.
#[export] Instance GitObjectFormat_json_inj : JsonInj GitObjectFormat.t.
Proof. enum_inj. Qed.
#[export] Instance GitObjectFormat_json_def : JsonDef GitObjectFormat.t.
Proof. enum_def. Qed.
#[export] Instance WorkspaceState_json_inj : JsonInj WorkspaceState.t.
Proof. enum_inj. Qed.
#[export] Instance WorkspaceState_json_def : JsonDef WorkspaceState.t.
Proof. enum_def. Qed.
#[export] Instance ConflictKind_json_inj : JsonInj ConflictKind.t.
Proof. enum_inj. Qed.
#[export] Instance ConflictKind_json_def : JsonDef ConflictKind.t.
Proof. enum_def. Qed.
#[export] Instance ConflictState_json_inj : JsonInj ConflictState.t.
Proof. enum_inj. Qed.
#[export] Instance ConflictState_json_def : JsonDef ConflictState.t.
Proof. enum_def. Qed.
#[export] Instance RunStatus_json_inj : JsonInj RunStatus.t.
Proof. enum_inj. Qed.
#[export] Instance RunStatus_json_def : JsonDef RunStatus.t.
Proof. enum_def. Qed.
#[export] Instance RunnerStatus_json_inj : JsonInj RunnerStatus.t.
Proof. enum_inj. Qed.
#[export] Instance RunnerStatus_json_def : JsonDef RunnerStatus.t.
Proof. enum_def. Qed.
#[export] Instance RunnerNetworkEnforcement_json_inj : JsonInj RunnerNetworkEnforcement.t.
Proof. enum_inj. Qed.
#[export] Instance RunnerNetworkEnforcement_json_def : JsonDef RunnerNetworkEnforcement.t.
Proof. enum_def. Qed.
#[export] Instance RunnerSecretUse_json_inj : JsonInj RunnerSecretUse.t.
Proof. enum_inj. Qed.
#[export] Instance RunnerSecretUse_json_def : JsonDef RunnerSecretUse.t.
Proof. enum_def. Qed.
#[export] Instance RunnerJobState_json_inj : JsonInj RunnerJobState.t.
Proof. enum_inj. Qed.
#[export] Instance RunnerJobState_json_def : JsonDef RunnerJobState.t.
Proof. enum_def. Qed.
#[export] Instance RunnerOutputKind_json_inj : JsonInj RunnerOutputKind.t.
Proof. enum_inj. Qed.
#[export] Instance RunnerOutputKind_json_def : JsonDef RunnerOutputKind.t.
Proof. enum_def. Qed.
#[export] Instance EvidenceProducerKind_json_inj : JsonInj EvidenceProducerKind.t.
Proof. enum_inj. Qed.
#[export] Instance EvidenceProducerKind_json_def : JsonDef EvidenceProducerKind.t.
Proof. enum_def. Qed.
#[export] Instance ReleaseStatus_json_inj : JsonInj ReleaseStatus.t.
Proof. enum_inj. Qed.
#[export] Instance ReleaseStatus_json_def : JsonDef ReleaseStatus.t.
Proof. enum_def. Qed.
#[export] Instance MigrationStrategy_json_inj : JsonInj MigrationStrategy.t.
Proof. enum_inj. Qed.
#[export] Instance MigrationStrategy_json_def : JsonDef MigrationStrategy.t.
Proof. enum_def. Qed.
#[export] Instance MigrationCompatibility_json_inj : JsonInj MigrationCompatibility.t.
Proof. enum_inj. Qed.
#[export] Instance MigrationCompatibility_json_def : JsonDef MigrationCompatibility.t.
Proof. enum_def. Qed.
#[export] Instance MigrationRollback_json_inj : JsonInj MigrationRollback.t.
Proof. enum_inj. Qed.
#[export] Instance MigrationRollback_json_def : JsonDef MigrationRollback.t.
Proof. enum_def. Qed.
#[export] Instance TargetState_json_inj : JsonInj TargetState.t.
Proof. enum_inj. Qed.
#[export] Instance TargetState_json_def : JsonDef TargetState.t.
Proof. enum_def. Qed.
#[export] Instance TargetEnvironment_json_inj : JsonInj TargetEnvironment.t.
Proof. enum_inj. Qed.
#[export] Instance TargetEnvironment_json_def : JsonDef TargetEnvironment.t.
Proof. enum_def. Qed.
#[export] Instance TargetChannel_json_inj : JsonInj TargetChannel.t.
Proof. enum_inj. Qed.
#[export] Instance TargetChannel_json_def : JsonDef TargetChannel.t.
Proof. enum_def. Qed.
#[export] Instance TargetDataClass_json_inj : JsonInj TargetDataClass.t.
Proof. enum_inj. Qed.
#[export] Instance TargetDataClass_json_def : JsonDef TargetDataClass.t.
Proof. enum_def. Qed.
#[export] Instance TargetResourceSharing_json_inj : JsonInj TargetResourceSharing.t.
Proof. enum_inj. Qed.
#[export] Instance TargetResourceSharing_json_def : JsonDef TargetResourceSharing.t.
Proof. enum_def. Qed.
#[export] Instance Resource_json_inj : JsonInj Resource.
Proof. enum_inj. Qed.
#[export] Instance Resource_json_def : JsonDef Resource.
Proof. enum_def. Qed.
#[export] Instance TargetPreviewStrategy_json_inj : JsonInj TargetPreviewStrategy.t.
Proof.
intros [] [] H; unfold to_json, TargetPreviewStrategy_to_json in H;
  try (apply (object_get _ _ "kind") in H; discriminate); [done|..].
- json_fields H ["kind"; "targetId"]. by subst.
- json_fields H ["kind"; "hostname"]. by subst.
- json_fields H ["kind"; "requiredEvidenceKeys"]. by subst.
Qed.
#[export] Instance TargetPreviewStrategy_json_def : JsonDef TargetPreviewStrategy.t.
Proof. intros []; unfold to_json, TargetPreviewStrategy_to_json; json_defined. Qed.

(** * Records *)

#[export] Instance ActorRef_json_def : JsonDef ActorRef.t.
Proof. intros x. unfold to_json, ActorRef_to_json. json_defined. Qed.
#[export] Instance ActorRef_json_inj : JsonInj ActorRef.t.
Proof.
intros [] [] H; unfold to_json, ActorRef_to_json in H.
json_fields H
  ["principalId"; "actorId"; "sessionId"; "clientId"].
cbn in *. subst. reflexivity.
Qed.
#[export] Instance DisclosurePolicyRef_json_def : JsonDef DisclosurePolicyRef.t.
Proof. intros x. unfold to_json, DisclosurePolicyRef_to_json. json_defined. Qed.
#[export] Instance DisclosurePolicyRef_json_inj : JsonInj DisclosurePolicyRef.t.
Proof.
intros [] [] H; unfold to_json, DisclosurePolicyRef_to_json in H.
json_fields H
  ["projectionId"; "classification"].
cbn in *. subst. reflexivity.
Qed.
#[export] Instance ArtifactOutput_json_def : JsonDef ArtifactOutput.t.
Proof. intros x. unfold to_json, ArtifactOutput_to_json. json_defined. Qed.
#[export] Instance ArtifactOutput_json_inj : JsonInj ArtifactOutput.t.
Proof.
intros [] [] H; unfold to_json, ArtifactOutput_to_json in H.
json_fields H
  ["path"; "type"].
cbn in *. subst. reflexivity.
Qed.
#[export] Instance ActionArtifactOutputContract_json_def : JsonDef ActionArtifactOutputContract.t.
Proof. intros x. unfold to_json, ActionArtifactOutputContract_to_json. json_defined. Qed.
#[export] Instance ActionArtifactOutputContract_json_inj : JsonInj ActionArtifactOutputContract.t.
Proof.
intros [] [] H; unfold to_json, ActionArtifactOutputContract_to_json in H.
json_fields H
  ["protocol"; "outputs"].
cbn in *. subst. reflexivity.
Qed.
#[export] Instance Action_json_def : JsonDef Action.t.
Proof. intros x. unfold to_json, Action_to_json. json_defined. Qed.
#[export] Instance Verifier_json_def : JsonDef Verifier.t.
Proof. intros x. unfold to_json, Verifier_to_json. json_defined. Qed.
#[export] Instance Verifier_json_inj : JsonInj Verifier.t.
Proof.
intros [] [] H; unfold to_json, Verifier_to_json in H.
json_fields H
  ["protocol"; "id"; "actionId"; "disclosure"; "requiredFor"; "contractDigest"].
cbn in *. subst. reflexivity.
Qed.
#[export] Instance RunnerPlatform_json_def : JsonDef RunnerPlatform.t.
Proof. intros x. unfold to_json, RunnerPlatform_to_json. json_defined. Qed.
#[export] Instance RunnerPlatform_json_inj : JsonInj RunnerPlatform.t.
Proof.
intros [] [] H; unfold to_json, RunnerPlatform_to_json in H.
json_fields H
  ["operatingSystem"; "architecture"; "isolation"].
cbn in *. subst. reflexivity.
Qed.
#[export] Instance RunnerOutputLocations_json_def : JsonDef RunnerOutputLocations.t.
Proof. intros x. unfold to_json, RunnerOutputLocations_to_json. json_defined. Qed.
#[export] Instance RunnerOutputLocations_json_inj : JsonInj RunnerOutputLocations.t.
Proof.
intros [] [] H; unfold to_json, RunnerOutputLocations_to_json in H.
json_fields H
  ["logs"; "artifacts"; "evidence"].
cbn in *. subst. reflexivity.
Qed.
#[export] Instance EvidenceProducer_json_def : JsonDef EvidenceProducer.t.
Proof. intros x. unfold to_json, EvidenceProducer_to_json. json_defined. Qed.
#[export] Instance EvidenceProducer_json_inj : JsonInj EvidenceProducer.t.
Proof.
intros [] [] H; unfold to_json, EvidenceProducer_to_json in H.
json_fields H
  ["kind"; "id"; "version"].
cbn in *. subst. reflexivity.
Qed.
#[export] Instance Evidence_json_def : JsonDef Evidence.t.
Proof. intros x. unfold to_json, Evidence_to_json. json_defined. Qed.
#[export] Instance Artifact_json_def : JsonDef Artifact.t.
Proof. intros x. unfold to_json, Artifact_to_json. json_defined. Qed.
#[export] Instance Artifact_json_inj : JsonInj Artifact.t.
Proof.
intros [] [] H; unfold to_json, Artifact_to_json in H.
json_fields H
  ["protocol"; "id"; "type"; "digest"; "projectRevisionId"; "changeRevisionId"; "runId";
  "actionId"; "outputPath"; "provenanceDigest"; "disclosure"].
cbn in *. subst. reflexivity.
Qed.
#[export] Instance ReleaseInputSet_json_def : JsonDef ReleaseInputSet.t.
Proof. intros x. unfold to_json, ReleaseInputSet_to_json. json_defined. Qed.
#[export] Instance ReleaseInputSet_json_inj : JsonInj ReleaseInputSet.t.
Proof.
intros [] [] H; unfold to_json, ReleaseInputSet_to_json in H.
json_fields H
  ["protocol"; "buildDefinitionDigest"; "dependencyDigest"; "toolchainDigest";
  "environmentDigest"; "artifactDigests"; "inputClosureDigest"].
cbn in *. subst. reflexivity.
Qed.
#[export] Instance MigrationPlan_json_def : JsonDef MigrationPlan.t.
Proof. intros x. unfold to_json, MigrationPlan_to_json. json_defined. Qed.
#[export] Instance MigrationPlan_json_inj : JsonInj MigrationPlan.t.
Proof.
intros [] [] H; unfold to_json, MigrationPlan_to_json in H.
json_fields H
  ["protocol"; "strategy"; "beforeSchemaDigest"; "afterSchemaDigest"; "compatibility";
  "rollback"; "migrationArtifactIds"; "requiredEvidenceKeys"; "planDigest"].
cbn in *. subst. reflexivity.
Qed.
#[export] Instance Release_json_def : JsonDef Release.t.
Proof. intros x. unfold to_json, Release_to_json. json_defined. Qed.
#[export] Instance Release_json_inj : JsonInj Release.t.
Proof.
intros [] [] H; unfold to_json, Release_to_json in H.
json_fields H
  ["protocol"; "id"; "projectRevisionId"; "artifactIds"; "evidenceIds"; "configurationDigests";
  "stateAssumptions"; "policyVersion"; "status"; "name"; "changeRevisionId"; "provenanceDigest";
  "inputSet"; "migrationPlan"; "receipt"].
cbn in *. subst. reflexivity.
Qed.
#[export] Instance TargetDeploymentProfile_json_def : JsonDef TargetDeploymentProfile.t.
Proof. intros x. unfold to_json, TargetDeploymentProfile_to_json. json_defined. Qed.
#[export] Instance TargetDeploymentProfile_json_inj : JsonInj TargetDeploymentProfile.t.
Proof.
intros [] [] H; unfold to_json, TargetDeploymentProfile_to_json in H.
json_fields H
  ["protocol"; "environment"; "channel"; "audience"; "runtimeIdentity"; "routeIdentities";
  "bindingIdentities"; "dataResourceIdentities"; "configurationDigests"; "secretUseAliases";
  "dataClass"; "resourceSharing"; "sharingPolicyDigest"; "previewStrategy"; "profileDigest"].
cbn in *. subst. reflexivity.
Qed.
