(* ===== verification/LocaleJson.v ===== *)
(** The serialization that several files of the source carry a copy of: the keys of
    every object are sorted by localeCompare, then JSON.stringify writes the value.
    Its digest binds the value up to the order of keys. *)

From S2P Require Import Prelude Json Contracts ContractsJson.

Section locale.
Context `{HH : Host}.

Definition locale_key {A} (p q : string * A) : comparison := localeCompare p.1 q.1.
Fixpoint stableValue (value : json) : json :=
  match value with
  | JArr l => JArr (stableValue <$> l)
  | JObj l => JObj (sort_by locale_key ((λ p, (p.1, stableValue p.2)) <$> l))
  | _ => value
  end.
End locale.

(** * What it binds *)

(** The keys of every object are distinct. *)
Fixpoint keys_ok (v : json) : bool :=
  match v with
  | JArr l => forallb keys_ok l
  | JObj l => bool_decide (NoDup l.*1) && forallb (λ p, keys_ok p.2) l
  | _ => true
  end.
Class JsonKeys A `{ToJson A} := json_keys : ∀ x : A, keys_ok (to_json x) = true.
#[export] Instance string_json_keys : JsonKeys string.
Proof. done. Qed.
#[export] Instance bool_json_keys : JsonKeys bool.
Proof. done. Qed.
#[export] Instance Z_json_keys : JsonKeys Z.
Proof. done. Qed.
#[export] Instance list_json_keys `{JsonKeys A} : JsonKeys (list A).
Proof.
intros x. unfold to_json, list_to_json. cbn [keys_ok]. induction x as [|a x IH]; [done|].
rewrite fmap_cons. simpl. by rewrite json_keys, IH.
Qed.

Lemma field_at_keys ks fs : Forall2 field_at ks fs → (mjoin fs).*1 `sublist_of` ks.
Proof.
induction 1 as [|k f ks fs Hf _ IH]; [done|]. simpl. rewrite fmap_app.
destruct Hf as [->|[v ->]]; simpl; [by apply sublist_cons|by apply sublist_skip].
Qed.
Lemma keys_ok_object ks fs : Forall2 field_at ks fs → bool_decide (NoDup ks) = true →
  forallb (forallb (λ p, keys_ok p.2)) fs = true → keys_ok (object fs) = true.
Proof.
intros Hf Hk%bool_decide_eq_true Hv. unfold object. cbn [keys_ok]. apply andb_true_iff. split.
- apply bool_decide_eq_true. eapply sublist_NoDup; [exact Hk|by apply field_at_keys].
- clear -Hv. induction fs as [|f fs IH]; [done|]. simpl in *. apply andb_true_iff in Hv as [? ?].
  rewrite List.forallb_app. apply andb_true_iff. auto.
Qed.
Lemma field_keys `{JsonKeys A} k (a : A) : forallb (λ p, keys_ok p.2) (field k a) = true.
Proof. simpl. by rewrite json_keys. Qed.
Lemma opt_field_keys `{JsonKeys A} k (o : option A) : forallb (λ p, keys_ok p.2) (opt_field k o) = true.
Proof. destruct o; [apply field_keys|done]. Qed.
(** The keys of an object built from fields, which are [ks]. *)
Ltac json_keyed ks :=
  apply (keys_ok_object ks);
    [ repeat (constructor; [first [apply field_at_field | apply field_at_opt_field]|]); constructor
    | vm_compute; reflexivity
    | cbn [forallb]; rewrite ?field_keys, ?opt_field_keys; reflexivity ].

(** Sorting pairs of distinct keys, in whatever order they come. *)
Lemma key_sort_unique (l k : list (string * json)) : NoDup l.*1 → l ≡ₚ k → sort_by key_compare l = sort_by key_compare k.
Proof.
intros Hnd Hp. set (le := λ p q : string * json, string_le p.1 q.1).
assert (∀ l, Sorted le (sort_by key_compare l)) as Hs.
{ clear. intros l. induction l as [|x l IH]; [constructor|]. simpl.
  assert (∀ l, Sorted le l → Sorted le (sort_insert key_compare x l)) as Hi; [|by apply Hi].
  clear. induction l as [|y l IH]; intros Hs; simpl; [by repeat constructor|].
  destruct (key_compare x y) eqn:Hc; [constructor; [done|]; constructor; unfold le, string_le, key_compare in *; congruence..|].
  apply Sorted_inv in Hs as [Hs Hy]. constructor; [by apply IH|].
  assert (le y x) as Hyx by (unfold le, string_le, key_compare in *; by rewrite String.compare_antisym, Hc).
  destruct l as [|z l]; simpl; [by constructor|]. apply HdRel_inv in Hy. destruct (key_compare x z); by constructor. }
assert (Transitive le) as Ht by (intros x y z; apply (string_le_trans x.1 y.1 z.1)).
apply (Sorted_unique_strong le); [|apply Hs..|by rewrite !sort_by_Permutation].
intros [kx vx] [ky vy] Hx Hy Hxy Hyx. rewrite sort_by_Permutation in Hx, Hy. rewrite <-Hp in Hy.
assert (kx = ky) as -> by (by apply (anti_symm string_le)).
apply (omap_elem_get ky vx l) in Hx; [|done]. apply (omap_elem_get ky vy l) in Hy; [|done]. congruence.
Qed.
Lemma normal_stableValue `{HH : Host} v : keys_ok v = true → normal (stableValue v) = normal v.
Proof.
induction v as [| | | | |l IH|l IH] using json_ind'; intros Hk; simpl; try done.
- f_equal. rewrite <-list_fmap_compose. apply list_fmap_ext. intros i x Hx. simpl in *.
  rewrite List.forallb_forall in Hk. eapply (proj1 (Forall_lookup _ _) IH); [done|].
  apply Hk, list_elem_of_In. by eapply list_elem_of_lookup_2.
- apply andb_true_iff in Hk as [Hnd%bool_decide_eq_true Hk]. f_equal.
  set (f := λ p : string * json, (p.1, stableValue p.2)). set (g := λ p : string * json, (p.1, normal p.2)).
  assert (g <$> (f <$> l) = g <$> l) as Hgf.
  { rewrite <-list_fmap_compose. apply list_fmap_ext. intros i x Hx. unfold f, g. simpl. f_equal.
    rewrite List.forallb_forall in Hk. eapply (proj1 (Forall_lookup _ _) IH); [done|].
    apply (Hk x), list_elem_of_In. by eapply list_elem_of_lookup_2. }
  rewrite <-Hgf. apply key_sort_unique; [|by rewrite sort_by_Permutation].
  rewrite <-list_fmap_compose. change (fst ∘ g) with (fst : string * json → string).
  rewrite sort_by_Permutation. unfold f. by rewrite <-list_fmap_compose.
Qed.

Lemma locale_digest_binds `{HH : Host} v1 v2 : CollisionFree HH → keys_ok v1 = true → keys_ok v2 = true →
  digest_text (encode_plain "undefined" (stableValue v1)) = digest_text (encode_plain "undefined" (stableValue v2)) → normal v1 = normal v2.
Proof.
intros Hcf H1 H2 Hd%digest_text_inj; [|done].
rewrite <-(normal_stableValue v1), <-(normal_stableValue v2) by done. f_equal.
apply (plain_inj _ _ "" ""); [done..|]. by rewrite Hd.
Qed.
