(* ===== verification/EvidenceLedger.v ===== *)
(** The Evidence ledger and the Stage Gate of src/kernel/evidence.ts: an
    append-only list of records, and the decision whether the latest record of
    every required key still stands. *)

From S2P Require Import Prelude Json Contracts.

(** * Data *)

Module EvidenceRequirement.
Record t := mk {
  key : string;
  currentValidityKey : string;
  expectedProjectRevisionId : option string;
  expectedProjectViewId : option string;
  expectedChangeRevisionId : option string;
  expectedTargetId : option string;
  expectedDisclosureClassification : option DisclosureClassification.t;
}.
#[global] Instance eta : Eta t := fun r =>
  mk (key r) (currentValidityKey r) (expectedProjectRevisionId r) (expectedProjectViewId r)
    (expectedChangeRevisionId r) (expectedTargetId r) (expectedDisclosureClassification r).
End EvidenceRequirement.

Module ResidualRiskStatus.
Inductive t := accepted | open.
#[global] Instance t_eq_dec : EqDecision t.
Proof. solve_decision. Defined.
End ResidualRiskStatus.

Module ResidualRisk.
Record t := mk {
  id : string;
  description : string;
  owner : string;
  mitigation : string;
  status : ResidualRiskStatus.t;
}.
End ResidualRisk.

Module BlockerKind.
Inductive t := missing | risk | outcome (o : EvidenceOutcome.t).
#[global] Instance t_eq_dec : EqDecision t.
Proof. solve_decision. Defined.
End BlockerKind.

Module GateBlocker.
Record t := mk {
  stageGate : string;
  evidenceKey : string;
  kind : BlockerKind.t;
  message : string;
}.
End GateBlocker.

Module StageGateStatus.
Inductive t := ready | blocked.
#[global] Instance t_eq_dec : EqDecision t.
Proof. solve_decision. Defined.
End StageGateStatus.

Module StageGateDecision.
Record t := mk {
  stageGate : string;
  status : StageGateStatus.t;
  blockers : list GateBlocker.t;
}.
End StageGateDecision.

(** * The ledger *)

(** [EvidenceAppendInput] is [Evidence] with [id] and [createdAt] optional:
    the two of [fields] are not read. *)
Module EvidenceAppendInput.
Record t := mk {
  fields : Evidence.t;
  id : option string;
  createdAt : option string;
}.
End EvidenceAppendInput.

Section ledger.
Context `{HH : Host} {E : Type}.

(** [EvidenceLedger.append]: the state is [records]. *)
Definition append (input : EvidenceAppendInput.t) : M (list Evidence.t) E Evidence.t :=
  recordId ← match EvidenceAppendInput.id input with
             | Some i => mret i
             | None => opaqueId "evidence"
             end;
  created ← match EvidenceAppendInput.createdAt input with
            | Some t => mret t
            | None => now
            end;
  let record := EvidenceAppendInput.fields input
    <| Evidence.id := recordId |> <| Evidence.createdAt := created |> in
  modify (fun records => records ++ [record]);;
  mret record.

(** [EvidenceLedger.list]. *)
Definition list_records : M (list Evidence.t) E (list Evidence.t) := get.
End ledger.

(** * The Stage Gate *)

(** [expected !== undefined && actual !== expected]. *)
Definition unexpected (expected actual : option string) : bool :=
  match expected with
  | Some e => negb (bool_decide (actual = Some e))
  | None => false
  end.

Definition contextMismatch (requirement : EvidenceRequirement.t) (record : Evidence.t) : bool :=
  unexpected (EvidenceRequirement.expectedProjectRevisionId requirement)
    (Some (Evidence.projectRevisionId record))
  || unexpected (EvidenceRequirement.expectedProjectViewId requirement)
       (Some (Evidence.projectViewId record))
  || unexpected (EvidenceRequirement.expectedChangeRevisionId requirement)
       (Evidence.changeRevisionId record)
  || unexpected (EvidenceRequirement.expectedTargetId requirement) (Evidence.targetId record)
  || match EvidenceRequirement.expectedDisclosureClassification requirement with
     | Some c => negb (bool_decide
         (DisclosurePolicyRef.classification (Evidence.disclosure record) = c))
     | None => false
     end.

Definition normalizedOutcome (requirement : EvidenceRequirement.t) (record : Evidence.t) :
    EvidenceOutcome.t :=
  let outcome :=
    if bool_decide (Evidence.outcome record = EvidenceOutcome.passed)
       && (negb (bool_decide (Evidence.validityKey record
                              = EvidenceRequirement.currentValidityKey requirement))
           || contextMismatch requirement record)
    then EvidenceOutcome.stale
    else Evidence.outcome record in
  if bool_decide (outcome = EvidenceOutcome.passed)
     && (blank (Evidence.receipt record) || blank (Evidence.owner record))
  then EvidenceOutcome.indeterminate
  else outcome.

(** [[...evidence].reverse().find((candidate) => candidate.key === key)]. *)
Definition latest (evidence : list Evidence.t) (key : string) : option Evidence.t :=
  find_last (fun candidate => bool_decide (Evidence.key candidate = key)) evidence.

Definition requirement_blockers (gateId : string) (evidence : list Evidence.t)
    (requirement : EvidenceRequirement.t) : list GateBlocker.t :=
  let key := EvidenceRequirement.key requirement in
  match latest evidence key with
  | None =>
      [GateBlocker.mk gateId key BlockerKind.missing
        (cat ["Evidence "; key; " is missing for Stage Gate "; gateId; "."])]
  | Some record =>
      let outcome := normalizedOutcome requirement record in
      if bool_decide (outcome = EvidenceOutcome.passed) then []
      else [GateBlocker.mk gateId key (BlockerKind.outcome outcome)
        (cat ["Evidence "; key; " is "; EvidenceOutcome.show outcome; " for Stage Gate ";
              gateId; "."])]
  end.

Definition risk_blockers (gateId : string) (risk : ResidualRisk.t) : list GateBlocker.t :=
  if bool_decide (ResidualRisk.status risk = ResidualRiskStatus.open)
     || blank (ResidualRisk.owner risk)
  then [GateBlocker.mk gateId (ResidualRisk.id risk) BlockerKind.risk
    (cat ["Residual Risk "; ResidualRisk.id risk; " is not accepted by Stage Gate "; gateId;
          "; owner and mitigation must be explicit."])]
  else [].

Definition evaluateStageGate (gateId : string) (requiredEvidence : list EvidenceRequirement.t)
    (evidence : list Evidence.t) (residualRisks : option (list ResidualRisk.t)) :
    StageGateDecision.t :=
  let blockers :=
    (requiredEvidence ≫= requirement_blockers gateId evidence)
    ++ (default [] residualRisks ≫= risk_blockers gateId) in
  StageGateDecision.mk gateId
    (if (length blockers =? 0)%nat then StageGateStatus.ready else StageGateStatus.blocked)
    blockers.

(** * What the gate promises *)

(** The context an expectation of a requirement fixes. *)
Definition expects (expected actual : option string) : Prop :=
  ∀ e, expected = Some e → actual = Some e.

(** Evidence that stands for a requirement. *)
Record stands (requirement : EvidenceRequirement.t) (record : Evidence.t) : Prop := {
  stands_passed : Evidence.outcome record = EvidenceOutcome.passed;
  stands_valid :
    Evidence.validityKey record = EvidenceRequirement.currentValidityKey requirement;
  stands_revision : expects (EvidenceRequirement.expectedProjectRevisionId requirement)
    (Some (Evidence.projectRevisionId record));
  stands_view : expects (EvidenceRequirement.expectedProjectViewId requirement)
    (Some (Evidence.projectViewId record));
  stands_change : expects (EvidenceRequirement.expectedChangeRevisionId requirement)
    (Evidence.changeRevisionId record);
  stands_target : expects (EvidenceRequirement.expectedTargetId requirement)
    (Evidence.targetId record);
  stands_disclosure : ∀ c,
    EvidenceRequirement.expectedDisclosureClassification requirement = Some c →
    DisclosurePolicyRef.classification (Evidence.disclosure record) = c;
  stands_receipt : blank (Evidence.receipt record) = false;
  stands_owner : blank (Evidence.owner record) = false;
}.

(** A ledger that meets a requirement: its last record of the key stands. *)
Definition meets (evidence : list Evidence.t) (requirement : EvidenceRequirement.t) : Prop :=
  ∃ before record after,
    evidence = before ++ record :: after ∧
    Evidence.key record = EvidenceRequirement.key requirement ∧
    (∀ later, later ∈ after → Evidence.key later ≠ EvidenceRequirement.key requirement) ∧
    stands requirement record.

Definition accepted_risk (risk : ResidualRisk.t) : Prop :=
  ResidualRisk.status risk = ResidualRiskStatus.accepted ∧ blank (ResidualRisk.owner risk) = false.

(** * Lemmas *)

Lemma unexpected_false expected actual : unexpected expected actual = false ↔ expects expected actual.
Proof.
unfold unexpected, expects. destruct expected as [e|]; [|naive_solver].
rewrite negb_false_iff, bool_decide_eq_true. naive_solver.
Qed.

Lemma contextMismatch_false requirement record :
  contextMismatch requirement record = false ↔
  expects (EvidenceRequirement.expectedProjectRevisionId requirement)
    (Some (Evidence.projectRevisionId record)) ∧
  expects (EvidenceRequirement.expectedProjectViewId requirement)
    (Some (Evidence.projectViewId record)) ∧
  expects (EvidenceRequirement.expectedChangeRevisionId requirement)
    (Evidence.changeRevisionId record) ∧
  expects (EvidenceRequirement.expectedTargetId requirement) (Evidence.targetId record) ∧
  ∀ c, EvidenceRequirement.expectedDisclosureClassification requirement = Some c →
    DisclosurePolicyRef.classification (Evidence.disclosure record) = c.
Proof.
unfold contextMismatch. rewrite !orb_false_iff, !unexpected_false.
destruct (EvidenceRequirement.expectedDisclosureClassification requirement) as [c|];
  rewrite ?negb_false_iff, ?bool_decide_eq_true; naive_solver.
Qed.

Lemma normalizedOutcome_passed requirement record :
  normalizedOutcome requirement record = EvidenceOutcome.passed ↔ stands requirement record.
Proof.
unfold normalizedOutcome.
destruct (decide (Evidence.outcome record = EvidenceOutcome.passed)) as [Hp|Hp].
- rewrite (bool_decide_eq_true_2 _ Hp). simpl.
  destruct (negb _ || _) eqn:Hstale.
  + simpl. split; [done|]. intros [_ Hv H1 H2 H3 H4 H5 _ _].
    apply orb_true_iff in Hstale as [Hstale|Hstale].
    * by rewrite (bool_decide_eq_true_2 _ Hv) in Hstale.
    * by rewrite (proj2 (contextMismatch_false requirement record)) in Hstale.
  + apply orb_false_iff in Hstale as [Hv Hc].
    rewrite negb_false_iff, bool_decide_eq_true in Hv. apply contextMismatch_false in Hc.
    rewrite Hp, bool_decide_eq_true_2 by done. simpl. destruct (blank _ || blank _) eqn:Hb.
    * split; [done|]. intros []. apply orb_true_iff in Hb as [Hb|Hb]; congruence.
    * apply orb_false_iff in Hb as [? ?]. destruct_and!. by split; [split|].
- rewrite (bool_decide_eq_false_2 (Evidence.outcome record = _)) by done. simpl.
  rewrite bool_decide_eq_false_2 by done. simpl. split; [done|]. by intros [? _].
Qed.

Lemma find_last_split {A} (p : A → bool) l x :
  find_last p l = Some x ↔
  ∃ before after, l = before ++ x :: after ∧ p x = true ∧ ∀ y, y ∈ after → p y = false.
Proof.
unfold find_last. induction l as [|y l IH] using rev_ind.
- split; [done|]. intros (b & a & Hl & _). by destruct b.
- rewrite filter_app. destruct (p y) eqn:Hp.
  + rewrite (filter_cons_True _ y []), filter_nil, last_snoc by done. split.
    * intros [= ->]. exists l, []. split_and!; [done|done|]. by intros z ?%elem_of_nil.
    * intros (b & a & Hl & Hx & Ha). destruct a as [|z a _] using rev_ind.
      -- by apply app_inj_tail in Hl as [_ ->].
      -- rewrite app_comm_cons, app_assoc in Hl. apply app_inj_tail in Hl as [_ ->].
         rewrite Ha in Hp; [done|]. apply elem_of_app. right. left.
  + rewrite (filter_cons_False _ y []), filter_nil, app_nil_r, IH by (by rewrite Hp). split.
    * intros (b & a & -> & Hx & Ha). exists b, (a ++ [y]).
      split_and!; [by rewrite app_comm_cons, app_assoc|done|].
      intros z [?|Hz%list_elem_of_singleton]%elem_of_app; [auto|by subst].
    * intros (b & a & Hl & Hx & Ha). destruct a as [|z a _] using rev_ind.
      -- apply app_inj_tail in Hl as [_ ->]. congruence.
      -- rewrite app_comm_cons, app_assoc in Hl. apply app_inj_tail in Hl as [-> ->].
         exists b, a. split_and!; [done|done|]. intros w Hw. apply Ha. apply elem_of_app. by left.
Qed.

Lemma requirement_blockers_nil gateId evidence requirement :
  requirement_blockers gateId evidence requirement = [] ↔ meets evidence requirement.
Proof.
unfold requirement_blockers, meets, latest. destruct (find_last _ evidence) as [record|] eqn:Hl.
- apply find_last_split in Hl as (b & a & -> & Hk & Ha).
  rewrite bool_decide_eq_true in Hk.
  assert (∀ later, later ∈ a → Evidence.key later ≠ EvidenceRequirement.key requirement) as Ha'.
  { intros y Hy. apply Ha in Hy. by rewrite bool_decide_eq_false in Hy. }
  case_bool_decide as Ho.
  + rewrite normalizedOutcome_passed in Ho. split; [|done]. intros _. by exists b, record, a.
  + split; [done|]. intros (b' & r' & a' & Heq & Hk' & Ha'' & Hs). exfalso.
    assert (find_last (λ c, bool_decide (Evidence.key c = EvidenceRequirement.key requirement))
      (b ++ record :: a) = Some r') as Hr'.
    { apply find_last_split. exists b', a'. split_and!; [done|by apply bool_decide_eq_true|].
      intros y Hy. apply bool_decide_eq_false. by apply Ha''. }
    assert (find_last (λ c, bool_decide (Evidence.key c = EvidenceRequirement.key requirement))
      (b ++ record :: a) = Some record) as Hr.
    { apply find_last_split. exists b, a. split_and!; [done|by apply bool_decide_eq_true|done]. }
    rewrite Hr in Hr'. injection Hr' as <-. by rewrite <-normalizedOutcome_passed in Hs.
- split; [done|]. intros (b & r & a & -> & Hk & Ha & _). exfalso.
  assert (find_last (λ c, bool_decide (Evidence.key c = EvidenceRequirement.key requirement))
    (b ++ r :: a) = Some r) as Hr.
  { apply find_last_split. exists b, a. split_and!; [done|by apply bool_decide_eq_true|].
    intros y Hy. apply bool_decide_eq_false. by apply Ha. }
  congruence.
Qed.

Lemma risk_blockers_nil gateId risk : risk_blockers gateId risk = [] ↔ accepted_risk risk.
Proof.
unfold risk_blockers, accepted_risk. case_bool_decide as Hs; simpl.
- rewrite Hs. naive_solver.
- destruct (blank _); [naive_solver|]. destruct (ResidualRisk.status risk); naive_solver.
Qed.

Lemma bind_nil_iff {A B} (f : A → list B) l : l ≫= f = [] ↔ ∀ x, x ∈ l → f x = [].
Proof.
induction l as [|x l IH]; [split; [by intros _ ? ?%elem_of_nil|done]|].
rewrite bind_cons. split.
- intros [Hx Hl]%app_eq_nil y [->|Hy]%elem_of_cons; [done|]. by apply IH.
- intros Hall. rewrite (Hall x) by left. apply IH. intros y Hy. apply Hall. by right.
Qed.

(** C37: a Stage Gate is ready exactly when the last record of every required key
    stands (it passed, its validity key is current, its context is the expected
    one, and it has a receipt and an owner) and every residual risk is marked
    accepted and names an owner.  The mitigation of a risk is not read, although
    the message of the blocker asks for one: [blank_mitigation_ready]. *)
Theorem evaluateStageGate_ready gateId requiredEvidence evidence residualRisks :
  StageGateDecision.status (evaluateStageGate gateId requiredEvidence evidence residualRisks)
    = StageGateStatus.ready ↔
  (∀ requirement, requirement ∈ requiredEvidence → meets evidence requirement) ∧
  (∀ risk, risk ∈ default [] residualRisks → accepted_risk risk).
Proof.
unfold evaluateStageGate. simpl. destruct (Nat.eqb_spec (length
  ((requiredEvidence ≫= requirement_blockers gateId evidence) ++
   (default [] residualRisks ≫= risk_blockers gateId))) 0) as [Hl|Hl].
- split; [intros _|done]. apply length_zero_iff_nil, app_eq_nil in Hl as [Hr Hs].
  pose proof (proj1 (bind_nil_iff _ _) Hr) as Hr'. pose proof (proj1 (bind_nil_iff _ _) Hs) as Hs'.
  split; intros x Hx.
  + by eapply requirement_blockers_nil, Hr'.
  + by eapply risk_blockers_nil, Hs'.
- split; [done|]. intros [Hr Hs]. exfalso. apply Hl, length_zero_iff_nil, app_nil.
  split; apply bind_nil_iff; intros x Hx.
  + by apply requirement_blockers_nil, Hr.
  + by apply risk_blockers_nil, Hs.
Qed.

(** An accepted risk with an owner and no mitigation leaves its gate ready. *)
Example blank_mitigation_ready :
  StageGateDecision.status (evaluateStageGate "gate-1" [] []
    (Some [ResidualRisk.mk "risk-1" "the backup is untested" "alice" ""
      ResidualRiskStatus.accepted])) = StageGateStatus.ready.
Proof. reflexivity. Qed.
