(* ===== verification/Migrations.v ===== *)
(** Migration Plans, src/delivery/migration-plan.ts: their normal form and
    digest, when a production-sensitive Target may consume one, and whether a
    failed Release may be rolled back without a human. *)

From S2P Require Import Prelude Json Contracts ContractsJson.

(** * Data *)

Module MigrationPlanErrorCode.
Inductive t := invalid | incomplete | incompatible.
#[global] Instance t_eq_dec : EqDecision t.
Proof. solve_decision. Defined.
End MigrationPlanErrorCode.

(** The input of [createMigrationPlan]: every field may be left out. *)
Module MigrationPlanInput.
Record t := mk {
  strategy : option MigrationStrategy.t;
  beforeSchemaDigest : option string;
  afterSchemaDigest : option string;
  compatibility : option MigrationCompatibility.t;
  rollback : option MigrationRollback.t;
  migrationArtifactIds : option (list string);
  requiredEvidenceKeys : option (list string);
  planDigest : option string;
}.
End MigrationPlanInput.

#[local] Abbreviation Fallible := (outcome MigrationPlanErrorCode.t).

(** * Normal form *)

Definition nonEmpty (value : string) : Fallible string :=
  if blank value then Throw MigrationPlanErrorCode.invalid else Ok (trim value).

Definition unique (values : list string) : Fallible (list string) :=
  if existsb blank values then Throw MigrationPlanErrorCode.invalid
  else
    let normalized := trim <$> values in
    if has_duplicates normalized then Throw MigrationPlanErrorCode.invalid else Ok normalized.

(** [...(digest ? { field: nonEmpty(digest) } : {})]. *)
Definition optional_digest (value : option string) : Fallible (option string) :=
  match truthy_opt value with
  | Some v => d ← nonEmpty v; Ok (Some d)
  | None => Ok None
  end.

(** The fields the digest covers: all but [planDigest]. *)
Definition plan_body (plan : MigrationPlan.t) : json :=
  object
    [field "protocol" "anyam.migration/v1";
     field "strategy" (MigrationPlan.strategy plan);
     opt_field "beforeSchemaDigest" (MigrationPlan.beforeSchemaDigest plan);
     opt_field "afterSchemaDigest" (MigrationPlan.afterSchemaDigest plan);
     field "compatibility" (MigrationPlan.compatibility plan);
     field "rollback" (MigrationPlan.rollback plan);
     field "migrationArtifactIds" (MigrationPlan.migrationArtifactIds plan);
     field "requiredEvidenceKeys" (MigrationPlan.requiredEvidenceKeys plan)].

Section plans.
Context `{HH : Host}.

Definition createMigrationPlan (input : MigrationPlanInput.t) : Fallible MigrationPlan.t :=
  let strategy := default MigrationStrategy.none (MigrationPlanInput.strategy input) in
  let none := bool_decide (strategy = MigrationStrategy.none) in
  let compatibility := default
    (if none then MigrationCompatibility.backward_compatible else MigrationCompatibility.unknown)
    (MigrationPlanInput.compatibility input) in
  let rollback := default
    (if none then MigrationRollback.safe else MigrationRollback.blocked)
    (MigrationPlanInput.rollback input) in
  migrationArtifactIds ← unique (default [] (MigrationPlanInput.migrationArtifactIds input));
  requiredEvidenceKeys ← unique (default [] (MigrationPlanInput.requiredEvidenceKeys input));
  if none && ((0 <? length migrationArtifactIds)%nat || (0 <? length requiredEvidenceKeys)%nat)
  then Throw MigrationPlanErrorCode.invalid
  else if bool_decide (strategy = MigrationStrategy.expand_contract)
          && (bool_decide (MigrationPlanInput.beforeSchemaDigest input = None)
              || bool_decide (MigrationPlanInput.afterSchemaDigest input = None)
              || negb (bool_decide (compatibility = MigrationCompatibility.bidirectional)))
  then Throw MigrationPlanErrorCode.incomplete
  else
    beforeSchemaDigest ← optional_digest (MigrationPlanInput.beforeSchemaDigest input);
    afterSchemaDigest ← optional_digest (MigrationPlanInput.afterSchemaDigest input);
    let body := MigrationPlan.mk strategy beforeSchemaDigest afterSchemaDigest compatibility
      rollback migrationArtifactIds requiredEvidenceKeys "" in
    let planDigest := canonical_digest (plan_body body) in
    match MigrationPlanInput.planDigest input with
    | Some received =>
        if String.eqb received planDigest then Ok (body <| MigrationPlan.planDigest := planDigest |>)
        else Throw MigrationPlanErrorCode.invalid
    | None => Ok (body <| MigrationPlan.planDigest := planDigest |>)
    end.

Definition defaultMigrationPlan : Fallible MigrationPlan.t :=
  createMigrationPlan (MigrationPlanInput.mk (Some MigrationStrategy.none) None None None None
    None None None).

(** A plan passed where an input is expected. *)
Definition as_input (plan : MigrationPlan.t) : MigrationPlanInput.t := {|
  MigrationPlanInput.strategy := Some (MigrationPlan.strategy plan);
  MigrationPlanInput.beforeSchemaDigest := MigrationPlan.beforeSchemaDigest plan;
  MigrationPlanInput.afterSchemaDigest := MigrationPlan.afterSchemaDigest plan;
  MigrationPlanInput.compatibility := Some (MigrationPlan.compatibility plan);
  MigrationPlanInput.rollback := Some (MigrationPlan.rollback plan);
  MigrationPlanInput.migrationArtifactIds := Some (MigrationPlan.migrationArtifactIds plan);
  MigrationPlanInput.requiredEvidenceKeys := Some (MigrationPlan.requiredEvidenceKeys plan);
  MigrationPlanInput.planDigest := Some (MigrationPlan.planDigest plan);
|}.

(** * Decisions *)

Definition productionSensitive (environment : string) (dataClass : option string) : bool :=
  String.eqb environment "production" || String.eqb environment "custom"
  || bool_decide (dataClass = Some "production")
  || bool_decide (dataClass = Some "production-shaped")
  || bool_decide (dataClass = Some "custom").

Definition assertMigrationPlanSafeForTarget (plan : MigrationPlan.t) (environment : string)
    (dataClass : option string) : Fallible () :=
  normalized ← createMigrationPlan (as_input plan);
  if negb (productionSensitive environment dataClass) then Ok ()
  else if bool_decide (MigrationPlan.compatibility normalized = MigrationCompatibility.unknown)
          || bool_decide (MigrationPlan.compatibility normalized
                          = MigrationCompatibility.incompatible)
  then Throw MigrationPlanErrorCode.incompatible
  else if bool_decide (MigrationPlan.rollback normalized = MigrationRollback.blocked)
  then Throw MigrationPlanErrorCode.incompatible
  else Ok ().

Inductive AutomaticMigrationRollbackDecision :=
| rollback_allowed (receipt : string)
| rollback_refused (recoveryAction receipt : string).

Definition application_compatible (compatibility : MigrationCompatibility.t) : bool :=
  bool_decide (compatibility = MigrationCompatibility.backward_compatible)
  || bool_decide (compatibility = MigrationCompatibility.bidirectional).

Definition automaticMigrationRollbackDecision (plan : MigrationPlan.t) :
    Fallible AutomaticMigrationRollbackDecision :=
  normalized ← createMigrationPlan (as_input plan);
  let rollback := MigrationPlan.rollback normalized in
  let compatibility := MigrationPlan.compatibility normalized in
  let planDigest := MigrationPlan.planDigest normalized in
  if bool_decide (rollback = MigrationRollback.safe)
  then Ok (rollback_allowed
    (cat ["migrationRollback=safe; automaticRollback=allowed; planDigest="; planDigest]))
  else if bool_decide (rollback = MigrationRollback.application_only)
          && application_compatible compatibility
  then Ok (rollback_allowed
    (cat ["migrationRollback=application-only; compatibility=";
          MigrationCompatibility.show compatibility; "; automaticRollback=allowed; planDigest=";
          planDigest]))
  else Ok (rollback_refused
    (if bool_decide (rollback = MigrationRollback.application_only)
     then "prove backward-compatible or bidirectional migration compatibility before allowing application rollback"
     else "complete the required data recovery action and attach fresh Evidence before retrying rollback")
    (cat ["migrationRollback="; MigrationRollback.show rollback; "; compatibility=";
          MigrationCompatibility.show compatibility; "; automaticRollback=blocked; planDigest=";
          planDigest])).
End plans.

(** * Normal form, proved *)

Section facts.
Context `{HH : Host}.

Lemma existsb_blank_trim l : existsb blank (trim <$> l) = existsb blank l.
Proof. induction l as [|x l IH]; [done|]. rewrite fmap_cons. simpl. by rewrite blank_trim, IH. Qed.
Lemma fmap_trim_idemp (l : list string) : trim <$> (trim <$> l) = trim <$> l.
Proof. rewrite <-list_fmap_compose. apply list_fmap_ext. intros. apply trim_idemp. Qed.

Lemma unique_Ok l l' : unique l = Ok l' ↔
  existsb blank l = false ∧ l' = trim <$> l ∧ NoDup l'.
Proof.
unfold unique. cbv zeta. rewrite <-has_duplicates_spec. destruct (existsb blank l); [by split; [|intros [? _]]|].
destruct (has_duplicates (trim <$> l)) eqn:Hd; split.
- done.
- intros (_ & -> & ?). congruence.
- by intros [= <-].
- by intros (_ & -> & _).
Qed.
Lemma unique_idemp l l' : unique l = Ok l' → unique l' = Ok l'.
Proof.
rewrite !unique_Ok. intros (Hb & -> & Hd). by rewrite existsb_blank_trim, fmap_trim_idemp.
Qed.
Lemma optional_digest_idemp o d : optional_digest o = Ok d → optional_digest d = Ok d.
Proof.
unfold optional_digest. destruct (truthy_opt o) as [v|] eqn:Ho; [|by intros [= <-]].
unfold nonEmpty. destruct (blank v) eqn:Hb; simpl; [done|]. intros [= <-].
assert (trim v ≠ "") as Hne by (by apply String.eqb_neq).
rewrite (proj2 (truthy_opt_Some (Some (trim v)) (trim v))) by done.
by rewrite blank_trim, Hb, trim_idemp.
Qed.

(** The plans [createMigrationPlan] returns. *)
Record normal_plan (plan : MigrationPlan.t) : Prop := {
  normal_artifacts : unique (MigrationPlan.migrationArtifactIds plan) =
    Ok (MigrationPlan.migrationArtifactIds plan);
  normal_evidence : unique (MigrationPlan.requiredEvidenceKeys plan) =
    Ok (MigrationPlan.requiredEvidenceKeys plan);
  normal_none : MigrationPlan.strategy plan = MigrationStrategy.none →
    MigrationPlan.migrationArtifactIds plan = [] ∧ MigrationPlan.requiredEvidenceKeys plan = [];
  normal_bidirectional : MigrationPlan.strategy plan = MigrationStrategy.expand_contract →
    MigrationPlan.compatibility plan = MigrationCompatibility.bidirectional;
  normal_before : optional_digest (MigrationPlan.beforeSchemaDigest plan) =
    Ok (MigrationPlan.beforeSchemaDigest plan);
  normal_after : optional_digest (MigrationPlan.afterSchemaDigest plan) =
    Ok (MigrationPlan.afterSchemaDigest plan);
  normal_digest : MigrationPlan.planDigest plan = canonical_digest (plan_body plan);
}.

(** What an expand/contract plan must still name once its digests are in
    normal form. *)
Definition schemas_named (plan : MigrationPlan.t) : Prop :=
  MigrationPlan.strategy plan = MigrationStrategy.expand_contract →
  is_Some (MigrationPlan.beforeSchemaDigest plan) ∧ is_Some (MigrationPlan.afterSchemaDigest plan).

Lemma plan_body_digest plan d : plan_body (plan <| MigrationPlan.planDigest := d |>) = plan_body plan.
Proof. done. Qed.

Lemma createMigrationPlan_normal input plan : createMigrationPlan input = Ok plan → normal_plan plan.
Proof.
unfold createMigrationPlan. cbv zeta. rewrite bind_Ok. intros (arts & Ha & H).
rewrite bind_Ok in H. destruct H as (evs & He & H).
destruct (bool_decide (_ = MigrationStrategy.none) && _) eqn:Hn; [done|].
destruct (bool_decide (_ = MigrationStrategy.expand_contract) && _) eqn:Hx; [done|].
rewrite bind_Ok in H. destruct H as (b & Hb & H). rewrite bind_Ok in H. destruct H as (a & Haf & H).
assert (plan = MigrationPlan.mk (default MigrationStrategy.none (MigrationPlanInput.strategy input)) b a
  (default (if bool_decide (default MigrationStrategy.none (MigrationPlanInput.strategy input) =
     MigrationStrategy.none) then MigrationCompatibility.backward_compatible
     else MigrationCompatibility.unknown) (MigrationPlanInput.compatibility input))
  (default (if bool_decide (default MigrationStrategy.none (MigrationPlanInput.strategy input) =
     MigrationStrategy.none) then MigrationRollback.safe else MigrationRollback.blocked)
     (MigrationPlanInput.rollback input)) arts evs (MigrationPlan.planDigest plan) ∧
  MigrationPlan.planDigest plan = canonical_digest (plan_body plan)) as [-> Hd].
{ destruct (MigrationPlanInput.planDigest input); [destruct (String.eqb _ _); [|done]|];
    by injection H as <-. }
clear H. split; simpl in *; try done.
- by eapply unique_idemp.
- by eapply unique_idemp.
- intros Hs. rewrite (bool_decide_eq_true_2 _ Hs) in Hn. simpl in Hn.
  apply orb_false_iff in Hn as [H1 H2]. by destruct arts, evs.
- intros Hs. rewrite (bool_decide_eq_true_2 _ Hs) in Hx. simpl in Hx.
  apply orb_false_iff in Hx as [_ Hx]. by rewrite negb_false_iff, bool_decide_eq_true in Hx.
- by eapply optional_digest_idemp.
- by eapply optional_digest_idemp.
Qed.

Lemma createMigrationPlan_as_input plan : normal_plan plan → schemas_named plan →
  createMigrationPlan (as_input plan) = Ok plan.
Proof.
intros [Ha He Hn Hx Hb Haf Hd] Hs. unfold createMigrationPlan, as_input, schemas_named in *.
destruct plan as [st bf af co rb arts evs dg]. simpl in *. rewrite Ha, He. simpl.
rewrite Hb, Haf. simpl. change (plan_body (MigrationPlan.mk st bf af co rb arts evs dg)) with
  (plan_body (MigrationPlan.mk st bf af co rb arts evs "")) in Hd.
rewrite <-Hd, String.eqb_refl.
destruct st; simpl in *; try done.
- by destruct Hn as [-> ->].
- destruct (Hs eq_refl) as [[b ->] [a ->]]. by rewrite Hx.
Qed.
Lemma as_input_normal plan p : createMigrationPlan (as_input plan) = Ok p → normal_plan plan → p = plan.
Proof.
intros Hc Hn. destruct (decide (MigrationPlan.strategy plan = MigrationStrategy.expand_contract)) as [He|He].
- assert (schemas_named plan) as Hs.
  { intros _. revert Hc. unfold createMigrationPlan, as_input. destruct Hn as [Ha Hv _ _ _ _ _].
    simpl. rewrite Ha, Hv, He. simpl.
    destruct (MigrationPlan.beforeSchemaDigest plan), (MigrationPlan.afterSchemaDigest plan);
      simpl; try done; eauto. }
  rewrite (createMigrationPlan_as_input plan) in Hc by done. by injection Hc.
- rewrite (createMigrationPlan_as_input plan) in Hc; [by injection Hc|done|]. by intros ?.
Qed.

Lemma plan_body_inj p q : normal (plan_body p) = normal (plan_body q) →
  p <| MigrationPlan.planDigest := "" |> = q <| MigrationPlan.planDigest := "" |>.
Proof.
destruct p, q. intros H. unfold plan_body in H.
json_fields H ["protocol"; "strategy"; "beforeSchemaDigest"; "afterSchemaDigest"; "compatibility";
  "rollback"; "migrationArtifactIds"; "requiredEvidenceKeys"].
cbn in *. congruence.
Qed.
Lemma plan_body_def p : no_undef (plan_body p) = true.
Proof. unfold plan_body. json_defined. Qed.
End facts.

(** A Migration Plan is a normal form: what [createMigrationPlan] returns, it
    returns again when given back, digest included, provided an expand/contract
    plan names both of its schemas. *)
Theorem createMigrationPlan_roundtrip `{HH : Host} input plan :
  createMigrationPlan input = Ok plan → schemas_named plan →
  createMigrationPlan (as_input plan) = Ok plan.
Proof. intros H. by apply createMigrationPlan_as_input, createMigrationPlan_normal with input. Qed.

(** A plan for the witnesses: expand/contract, with untrimmed input. *)
Definition example_input : MigrationPlanInput.t :=
  MigrationPlanInput.mk (Some MigrationStrategy.expand_contract) (Some " s1") (Some "s2 ")
    (Some MigrationCompatibility.bidirectional) (Some MigrationRollback.application_only)
    (Some ["m "]) None None.
Definition example_plan : MigrationPlan.t := Eval vm_compute in
  match @createMigrationPlan example_host example_input with
  | Ok p => p
  | Throw _ => MigrationPlan.mk MigrationStrategy.none None None
      MigrationCompatibility.unknown MigrationRollback.blocked [] [] ""
  end.

Lemma createMigrationPlan_roundtrip_witness :
  @createMigrationPlan example_host (as_input example_plan) = Ok example_plan.
Proof.
apply (@createMigrationPlan_roundtrip example_host example_input example_plan).
- vm_compute. reflexivity.
- intros _. split; eexists; reflexivity.
Defined.

(** An expand/contract plan accepted with an empty schema digest: the guard asks
    that the digests are given, the body drops the empty ones, and the plan is
    then refused wherever it is checked again. *)
Definition empty_schema_input : MigrationPlanInput.t :=
  MigrationPlanInput.mk (Some MigrationStrategy.expand_contract) (Some "") (Some "")
    (Some MigrationCompatibility.bidirectional) None None None None.
Definition empty_schema_plan : MigrationPlan.t := Eval vm_compute in
  match @createMigrationPlan example_host empty_schema_input with Ok p => p | Throw _ => example_plan end.
Lemma empty_schema_accepted :
  @createMigrationPlan example_host empty_schema_input = Ok empty_schema_plan ∧
  MigrationPlan.beforeSchemaDigest empty_schema_plan = None ∧
  @createMigrationPlan example_host (as_input empty_schema_plan) =
    Throw MigrationPlanErrorCode.incomplete.
Proof. split_and!; vm_compute; reflexivity. Qed.

(** the plan digest binds the plan: when SHA-256 does not collide, two
    accepted plans with one digest are the same plan. *)
Theorem planDigest_binds `{HH : Host} i1 i2 p q : CollisionFree HH →
  createMigrationPlan i1 = Ok p → createMigrationPlan i2 = Ok q →
  MigrationPlan.planDigest p = MigrationPlan.planDigest q → p = q.
Proof.
intros Hcf Hp%createMigrationPlan_normal Hq%createMigrationPlan_normal Hd.
pose proof Hd as Hdd. rewrite (normal_digest _ Hp), (normal_digest _ Hq) in Hd.
apply canonical_digest_inj in Hd; [|done|apply plan_body_def|apply plan_body_def].
apply plan_body_inj in Hd. destruct p, q. cbn in *. congruence.
Qed.

Lemma planDigest_binds_witness :
  MigrationPlan.planDigest example_plan = MigrationPlan.planDigest example_plan ∧
  example_plan = example_plan.
Proof.
split; [reflexivity|].
apply (@planDigest_binds example_host example_input (as_input example_plan) example_plan example_plan
  example_host_collision_free); vm_compute; reflexivity.
Defined.

(** A production-sensitive Target (production or custom environment;
    production, production-shaped or custom data) accepts an accepted plan
    exactly when its compatibility is known, is not incompatible, and its data
    rollback is not blocked; another Target accepts every such plan. *)
Theorem assertMigrationPlanSafe_exact `{HH : Host} input plan environment dataClass :
  createMigrationPlan input = Ok plan → schemas_named plan →
  assertMigrationPlanSafeForTarget plan environment dataClass = Ok () ↔
  (environment = "production" ∨ environment = "custom" ∨ dataClass = Some "production" ∨
   dataClass = Some "production-shaped" ∨ dataClass = Some "custom" →
   MigrationPlan.compatibility plan ≠ MigrationCompatibility.unknown ∧
   MigrationPlan.compatibility plan ≠ MigrationCompatibility.incompatible ∧
   MigrationPlan.rollback plan ≠ MigrationRollback.blocked).
Proof.
intros Hc Hs. unfold assertMigrationPlanSafeForTarget.
rewrite createMigrationPlan_as_input by (eauto using createMigrationPlan_normal). simpl.
assert (productionSensitive environment dataClass = true ↔
  (environment = "production" ∨ environment = "custom" ∨ dataClass = Some "production" ∨
   dataClass = Some "production-shaped" ∨ dataClass = Some "custom")) as Hp.
{ unfold productionSensitive. rewrite !orb_true_iff, !String.eqb_eq, !bool_decide_eq_true. tauto. }
rewrite <-Hp. destruct (productionSensitive _ _); simpl; [|by split].
destruct (MigrationPlan.compatibility plan), (MigrationPlan.rollback plan); simpl; naive_solver.
Qed.

Lemma assertMigrationPlanSafe_exact_witness :
  @assertMigrationPlanSafeForTarget example_host example_plan "production" None = Ok ().
Proof.
apply (@assertMigrationPlanSafe_exact example_host example_input example_plan).
- vm_compute. reflexivity.
- intros _. split; eexists; reflexivity.
- intros _. split_and!; discriminate.
Defined.

(** A failed Release is rolled back without a human exactly when its plan
    says the data rollback is safe, or that only the application need be rolled
    back and old and new versions are compatible. *)
Theorem automaticRollback_exact `{HH : Host} input plan :
  createMigrationPlan input = Ok plan → schemas_named plan →
  (∃ receipt, automaticMigrationRollbackDecision plan = Ok (rollback_allowed receipt)) ↔
  MigrationPlan.rollback plan = MigrationRollback.safe ∨
  (MigrationPlan.rollback plan = MigrationRollback.application_only ∧
   (MigrationPlan.compatibility plan = MigrationCompatibility.backward_compatible ∨
    MigrationPlan.compatibility plan = MigrationCompatibility.bidirectional)).
Proof.
intros Hc Hs. unfold automaticMigrationRollbackDecision.
rewrite createMigrationPlan_as_input by (eauto using createMigrationPlan_normal). simpl.
destruct (MigrationPlan.rollback plan), (MigrationPlan.compatibility plan); simpl; naive_solver.
Qed.

Lemma automaticRollback_exact_witness :
  ∃ receipt, @automaticMigrationRollbackDecision example_host example_plan =
    Ok (rollback_allowed receipt).
Proof.
apply (@automaticRollback_exact example_host example_input example_plan).
- vm_compute. reflexivity.
- intros _. split; eexists; reflexivity.
- right. split; [reflexivity|right; reflexivity].
Defined.
