(* ===== verification/ReleaseInputs.v ===== *)
(** The input closure of a Release, src/delivery/release-input.ts: derived from
    the Artifacts and the Evidence of one exact build, and checked against a
    closure recorded earlier. *)

From S2P Require Import Prelude Json Contracts ContractsJson.

(** * Data *)

Module ReleaseInputErrorCode.
Inductive t := missing | mismatch | invalid.
#[global] Instance t_eq_dec : EqDecision t.
Proof. solve_decision. Defined.
End ReleaseInputErrorCode.

#[local] Abbreviation Fallible := (outcome ReleaseInputErrorCode.t).

(** * Derivation *)

Definition required (value : string) : Fallible string :=
  if blank value then Throw ReleaseInputErrorCode.missing else Ok (trim value).

Definition normalizeDigests (values : list string) : Fallible (list string) :=
  if existsb blank values then Throw ReleaseInputErrorCode.invalid else Ok (trim <$> values).

(** The fields the digest covers: all but [inputClosureDigest]. *)
Definition input_body (inputSet : ReleaseInputSet.t) : json :=
  object
    [field "protocol" (ReleaseInputSet.protocol inputSet);
     field "buildDefinitionDigest" (ReleaseInputSet.buildDefinitionDigest inputSet);
     field "dependencyDigest" (ReleaseInputSet.dependencyDigest inputSet);
     field "toolchainDigest" (ReleaseInputSet.toolchainDigest inputSet);
     field "environmentDigest" (ReleaseInputSet.environmentDigest inputSet);
     field "artifactDigests" (ReleaseInputSet.artifactDigests inputSet)].

Section closures.
Context `{HH : Host}.

Definition releaseInput_protocol : string := "anyam.release-input/v1".

Definition createReleaseInputSet (buildDefinitionDigest dependencyDigest toolchainDigest
    environmentDigest : string) (artifactDigests : list string) : Fallible ReleaseInputSet.t :=
  b ← required buildDefinitionDigest;
  d ← required dependencyDigest;
  t ← required toolchainDigest;
  e ← required environmentDigest;
  a ← normalizeDigests artifactDigests;
  let body := ReleaseInputSet.mk releaseInput_protocol b d t e a "" in
  Ok (body <| ReleaseInputSet.inputClosureDigest := canonical_digest (input_body body) |>).

(** [field] is one of the three digests of an Evidence record. *)
Definition commonEvidenceDigest (evidence : list Evidence.t) (get_field : Evidence.t → string) :
    Fallible string :=
  if (length evidence =? 0)%nat then Throw ReleaseInputErrorCode.missing
  else match remove_dups (get_field <$> evidence) with
       | [value] => required value
       | _ => Throw ReleaseInputErrorCode.mismatch
       end.

Definition deriveReleaseInputSet (configurationDigests : list string) (artifacts : list Artifact.t)
    (evidence : list Evidence.t) : Fallible ReleaseInputSet.t :=
  if (length configurationDigests =? 0)%nat then Throw ReleaseInputErrorCode.missing
  else
    buildDefinitionDigest ←
      match configurationDigests with
      | [d] => required d
      | _ => Ok (canonical_digest (object [field "configurationDigests" configurationDigests]))
      end;
    dependencyDigest ← commonEvidenceDigest evidence Evidence.dependencyDigest;
    toolchainDigest ← commonEvidenceDigest evidence Evidence.toolchainDigest;
    environmentDigest ← commonEvidenceDigest evidence Evidence.environmentDigest;
    createReleaseInputSet buildDefinitionDigest dependencyDigest toolchainDigest environmentDigest
      (Artifact.digest <$> artifacts).

Definition assertReleaseInputSetMatches (inputSet : ReleaseInputSet.t)
    (configurationDigests : list string) (artifacts : list Artifact.t)
    (evidence : list Evidence.t) : Fallible () :=
  expected ← deriveReleaseInputSet configurationDigests artifacts evidence;
  if negb (String.eqb (ReleaseInputSet.protocol inputSet) releaseInput_protocol)
     || negb (String.eqb (ReleaseInputSet.inputClosureDigest inputSet)
                (ReleaseInputSet.inputClosureDigest expected))
  then Throw ReleaseInputErrorCode.mismatch
  else if
    negb (String.eqb (ReleaseInputSet.buildDefinitionDigest inputSet)
            (ReleaseInputSet.buildDefinitionDigest expected))
    || negb (String.eqb (ReleaseInputSet.dependencyDigest inputSet)
               (ReleaseInputSet.dependencyDigest expected))
    || negb (String.eqb (ReleaseInputSet.toolchainDigest inputSet)
               (ReleaseInputSet.toolchainDigest expected))
    || negb (String.eqb (ReleaseInputSet.environmentDigest inputSet)
               (ReleaseInputSet.environmentDigest expected))
    || negb (bool_decide (ReleaseInputSet.artifactDigests inputSet
                          = ReleaseInputSet.artifactDigests expected))
  then Throw ReleaseInputErrorCode.mismatch
  else Ok ().
End closures.

(** * The closure, proved *)

Section facts.
Context `{HH : Host}.

Lemma required_Ok v r : required v = Ok r ↔ blank v = false ∧ r = trim v.
Proof. unfold required. destruct (blank v); naive_solver. Qed.
Lemma normalizeDigests_Ok l r : normalizeDigests l = Ok r ↔
  (∀ v, v ∈ l → blank v = false) ∧ r = trim <$> l.
Proof.
unfold normalizeDigests. rewrite <-existsb_false_iff. destruct (existsb blank l); naive_solver.
Qed.

(** One value, shared by all the Evidence, of a digest that every record has. *)
Definition common (evidence : list Evidence.t) (get_field : Evidence.t → string) (v : string) : Prop :=
  evidence ≠ [] ∧ (∀ r, r ∈ evidence → get_field r = v) ∧ blank v = false.

Lemma commonEvidenceDigest_Ok evidence get_field d :
  commonEvidenceDigest evidence get_field = Ok d ↔
  ∃ v, common evidence get_field v ∧ d = trim v.
Proof.
unfold commonEvidenceDigest, common. destruct evidence as [|e l]; [naive_solver|]. cbn [length Nat.eqb].
split.
- destruct (remove_dups _) as [|v [|]] eqn:Hr; [done| |done]. rewrite required_Ok.
  apply remove_dups_single in Hr as [_ Hall]. intros [Hb ->]. exists v. split_and!; [done| |done|done].
  intros r Hr. apply Hall. apply list_elem_of_fmap. by exists r.
- intros (v & (_ & Hall & Hb) & ->).
  rewrite (proj2 (remove_dups_single (get_field <$> e :: l) v)); [by apply required_Ok|].
  split; [done|]. intros x (r & -> & Hr)%list_elem_of_fmap. by apply Hall.
Qed.

(** The closure a build determines. *)
Record closure_of (configurationDigests : list string) (artifacts : list Artifact.t)
    (evidence : list Evidence.t) (inputSet : ReleaseInputSet.t) : Prop := {
  closure_protocol : ReleaseInputSet.protocol inputSet = releaseInput_protocol;
  closure_build :
    match configurationDigests with
    | [] => False
    | [d] => blank d = false ∧ ReleaseInputSet.buildDefinitionDigest inputSet = trim d
    | ds => ReleaseInputSet.buildDefinitionDigest inputSet =
        trim (canonical_digest (object [field "configurationDigests" ds]))
    end;
  closure_dependency : ∃ v, common evidence Evidence.dependencyDigest v ∧
    ReleaseInputSet.dependencyDigest inputSet = trim v;
  closure_toolchain : ∃ v, common evidence Evidence.toolchainDigest v ∧
    ReleaseInputSet.toolchainDigest inputSet = trim v;
  closure_environment : ∃ v, common evidence Evidence.environmentDigest v ∧
    ReleaseInputSet.environmentDigest inputSet = trim v;
  closure_artifacts : (∀ a, a ∈ artifacts → blank (Artifact.digest a) = false) ∧
    ReleaseInputSet.artifactDigests inputSet = trim ∘ Artifact.digest <$> artifacts;
  closure_digest : ReleaseInputSet.inputClosureDigest inputSet =
    canonical_digest (input_body inputSet);
}.

Lemma createReleaseInputSet_Ok b d t e a p :
  createReleaseInputSet b d t e a = Ok p ↔
  blank b = false ∧ blank d = false ∧ blank t = false ∧ blank e = false ∧
  (∀ v, v ∈ a → blank v = false) ∧
  p = (let body := ReleaseInputSet.mk releaseInput_protocol (trim b) (trim d) (trim t) (trim e)
         (trim <$> a) "" in
       body <| ReleaseInputSet.inputClosureDigest := canonical_digest (input_body body) |>).
Proof.
unfold createReleaseInputSet, required, normalizeDigests. rewrite <-existsb_false_iff.
destruct (blank b), (blank d), (blank t), (blank e), (existsb blank a); simpl; naive_solver.
Qed.

Lemma not_blank_cons c s : is_white c = false → blank (String c s) = false.
Proof.
intros Hc. unfold blank, trim. cbn [trim_start]. rewrite Hc, trim_end_cons.
destruct (trim_end s); by rewrite ?Hc.
Qed.
Lemma digest_text_not_blank s : blank (digest_text s) = false.
Proof. by apply not_blank_cons. Qed.
Lemma blank_spec v : blank v = false ↔ trim v ≠ "".
Proof. unfold blank. by rewrite String.eqb_neq. Qed.

Lemma deriveReleaseInputSet_Ok ds arts evs p :
  deriveReleaseInputSet ds arts evs = Ok p ↔ closure_of ds arts evs p.
Proof.
unfold deriveReleaseInputSet. split.
- destruct ds as [|d ds]; [done|]. cbn [length Nat.eqb]. intros H. bind_inv.
  apply commonEvidenceDigest_Ok in H1 as (dv & Hd & ->), H2 as (tv & Ht & ->), H3 as (ev & He & ->).
  apply createReleaseInputSet_Ok in H as (Hb & _ & _ & _ & Ha & ->). rewrite !trim_idemp in *.
  split; try done.
  + destruct ds as [|d' ds]; simpl; [|by injection H0 as <-].
    apply required_Ok in H0 as [? ->]. by rewrite trim_idemp.
  + by exists dv.
  + by exists tv.
  + by exists ev.
  + split; [|simpl; by rewrite <-list_fmap_compose].
    intros x Hx. apply Ha. apply list_elem_of_fmap. by exists x.
- intros [Hp Hb (dv & Hd & Hd') (tv & Ht & Ht') (ev & He & He') [Ha Ha'] Hc].
  destruct ds as [|d ds]; [done|]. cbn [length Nat.eqb].
  assert (∃ b, match d :: ds with [d] => required d | _ => Ok (canonical_digest
    (object [field "configurationDigests" (d :: ds)])) end = Ok b ∧ blank b = false ∧
    trim b = ReleaseInputSet.buildDefinitionDigest p) as (b & -> & Hbb & Hbp).
  { destruct ds as [|d' ds].
    - destruct Hb as [Hb ->]. exists (trim d). rewrite blank_trim, trim_idemp.
      split_and!; [by apply required_Ok|done|done].
    - eexists. split_and!; [done|apply digest_text_not_blank|done]. }
  simpl. rewrite (proj2 (commonEvidenceDigest_Ok evs Evidence.dependencyDigest (trim dv))) by eauto.
  rewrite (proj2 (commonEvidenceDigest_Ok evs Evidence.toolchainDigest (trim tv))) by eauto.
  rewrite (proj2 (commonEvidenceDigest_Ok evs Evidence.environmentDigest (trim ev))) by eauto.
  simpl. apply createReleaseInputSet_Ok. rewrite !blank_trim, !trim_idemp.
  destruct Hd as (_ & _ & ?), Ht as (_ & _ & ?), He as (_ & _ & ?). split_and!; try done.
  + by intros v (x & -> & Hx)%list_elem_of_fmap; apply Ha.
  + destruct p. simpl in *. subst. rewrite <-list_fmap_compose. f_equal. exact Hc.
Qed.

Lemma assertReleaseInputSetMatches_Ok inputSet configurationDigests artifacts evidence :
  assertReleaseInputSetMatches inputSet configurationDigests artifacts evidence = Ok () ↔
  closure_of configurationDigests artifacts evidence inputSet.
Proof.
rewrite <-deriveReleaseInputSet_Ok. unfold assertReleaseInputSetMatches. split.
- intros H. bind_inv. rewrite H0. f_equal.
  assert (ReleaseInputSet.protocol a = releaseInput_protocol) as Hp.
  { by apply deriveReleaseInputSet_Ok in H0 as []. }
  destruct (negb _ || _) eqn:H1; [done|]. destruct (negb _ || _ || _ || _ || _) eqn:H2; [done|].
  rewrite !orb_false_iff, !negb_false_iff, !String.eqb_eq in *. destruct_and!.
  rewrite bool_decide_eq_true in *. destruct a, inputSet. simpl in *. congruence.
- intros H. rewrite H. simpl. apply deriveReleaseInputSet_Ok in H as [-> _ _ _ _ _ _].
  rewrite !String.eqb_refl, bool_decide_eq_true_2 by done. done.
Qed.
End facts.

(** A Release's input closure is derived exactly from a consistent build: a
    build definition, Evidence that agrees on one non-blank dependency,
    toolchain and environment digest, and non-blank Artifact digests; the
    closure records just these, with their digest. *)
Theorem deriveReleaseInputSet_exact `{HH : Host} configurationDigests artifacts evidence inputSet :
  deriveReleaseInputSet configurationDigests artifacts evidence = Ok inputSet ↔
  closure_of configurationDigests artifacts evidence inputSet.
Proof. apply deriveReleaseInputSet_Ok. Qed.

(** A recorded closure passes the check exactly when it is the closure the
    exact Artifacts, Evidence and build inputs determine, field by field. *)
Theorem assertReleaseInputSetMatches_exact `{HH : Host} inputSet configurationDigests artifacts evidence :
  assertReleaseInputSetMatches inputSet configurationDigests artifacts evidence = Ok () ↔
  closure_of configurationDigests artifacts evidence inputSet.
Proof. apply assertReleaseInputSetMatches_Ok. Qed.

(** the closure digest binds the closure: when SHA-256 does not collide, two
    derived closures with one digest are the same. *)
Theorem inputClosure_binds `{HH : Host} ds1 as1 es1 ds2 as2 es2 p q : CollisionFree HH →
  deriveReleaseInputSet ds1 as1 es1 = Ok p → deriveReleaseInputSet ds2 as2 es2 = Ok q →
  ReleaseInputSet.inputClosureDigest p = ReleaseInputSet.inputClosureDigest q → p = q.
Proof.
intros Hcf Hp%deriveReleaseInputSet_Ok Hq%deriveReleaseInputSet_Ok Hd.
pose proof Hd as Hdd. rewrite (closure_digest _ _ _ _ Hp), (closure_digest _ _ _ _ Hq) in Hd.
apply canonical_digest_inj in Hd; [|done|unfold input_body; json_defined..].
destruct p, q. unfold input_body in Hd.
json_fields Hd ["protocol"; "buildDefinitionDigest"; "dependencyDigest"; "toolchainDigest";
  "environmentDigest"; "artifactDigests"].
cbn in *. subst. reflexivity.
Qed.

(** A build for the witnesses. *)
Definition example_evidence : Evidence.t :=
  Evidence.mk "e1" "k" "c" EvidenceOutcome.passed "v" "a" "vf" "tool" "dep" "env" [] [] "out" "now"
    (EvidenceProducer.mk EvidenceProducerKind.run "r" "1") "pr1" "pv" None "run" (ActorRef.mk "u" "a" "s" "c")
    "runner" "p1" "1" "g" (DisclosurePolicyRef.mk "d" DisclosureClassification.project) "receipt" []
    "owner" None None None None (Some "t1") None.
Definition example_artifact : Artifact.t :=
  Artifact.mk "a1" "worker" "sha256:a1" "pr1" None None None None None None.

Lemma inputClosure_binds_witness :
  ∃ p, @deriveReleaseInputSet example_host ["cfg"] [example_artifact] [example_evidence] = Ok p ∧
       @deriveReleaseInputSet example_host [" cfg"] [example_artifact] [example_evidence] = Ok p.
Proof.
destruct (@deriveReleaseInputSet example_host ["cfg"] [example_artifact] [example_evidence]) as [p|] eqn:Hp.
2: { exfalso. revert Hp. vm_compute. discriminate. }
destruct (@deriveReleaseInputSet example_host [" cfg"] [example_artifact] [example_evidence]) as [q|] eqn:Hq.
2: { exfalso. revert Hq. vm_compute. discriminate. }
exists p. split; [reflexivity|]. f_equal. symmetry.
refine (@inputClosure_binds example_host _ _ _ _ _ _ _ _ example_host_collision_free Hp Hq _).
revert Hp Hq. vm_compute. intros [= <-] [= <-]. reflexivity.
Defined.
