(* ===== verification/Paths.v ===== *)
(** Paths of POSIX systems as node:path/posix normalizes them, which the
    components that place files use, and the canonical paths it returns. *)

From S2P Require Import Prelude.

(** * [posix.normalize] *)

(** One segment of [normalizeString] of node:path/posix, on the reversed stack
    of the segments kept. *)
Definition normalize_segment (allowAboveRoot : bool) (kept : list string) (segment : string) :
    list string :=
  if String.eqb segment "" || String.eqb segment "." then kept
  else if String.eqb segment ".." then
    match kept with
    | last :: rest => if String.eqb last ".." then ".." :: kept else rest
    | [] => if allowAboveRoot then [".."] else []
    end
  else segment :: kept.

Definition ends_with_slash (path : string) : bool :=
  match last (split char_slash path) with Some s => String.eqb s "" | None => false end.

(** [posix.normalize(path)]. *)
Definition posix_normalize (path : string) : string :=
  if String.eqb path "" then "."
  else
    let isAbsolute := starts_with "/" path in
    let trailingSeparator := ends_with_slash path in
    let body := join "/"
      (reverse (foldl (normalize_segment (negb isAbsolute)) [] (split char_slash path))) in
    if String.eqb body "" then
      if isAbsolute then "/" else if trailingSeparator then "./" else "."
    else
      cat [if isAbsolute then "/" else ""; body; if trailingSeparator then "/" else ""].

(** [.replace(/^\.\//, "")]. *)
Definition strip_dot_slash (s : string) : string :=
  match s with
  | String a (String b rest) =>
      if Ascii.eqb a "." && Ascii.eqb b char_slash then rest else s
  | _ => s
  end.

(** * Canonical paths *)

(** A segment that names an entry of its directory. *)
Definition plain_segment (segment : string) : Prop :=
  segment ≠ "" ∧ segment ≠ "." ∧ segment ≠ ".." ∧
  string_exists (fun c => Ascii.eqb c char_slash) segment = false.
Definition plain (segment : string) : bool :=
  negb (String.eqb segment "" || String.eqb segment "." || String.eqb segment "..").

(** A canonical file path: plain segments, and perhaps the mark of a directory. *)
Definition contained_path (p : string) : Prop :=
  ∃ segments trailing, segments ≠ [] ∧ Forall plain_segment segments ∧
    p = join "/" segments +:+ (if trailing : bool then "/" else "") ∧
    string_exists (fun c => Ascii.eqb c char_nul) p = false.

Lemma plain_segment_spec x :
  plain_segment x ↔ plain x = true ∧ string_exists (fun c => Ascii.eqb c char_slash) x = false.
Proof.
unfold plain, plain_segment. rewrite negb_true_iff, !orb_false_iff, !String.eqb_neq. tauto.
Qed.

Lemma split_app c a b : split c (a +:+ String c b) = split c a ++ split c b.
Proof.
induction a as [|d a IH]; cbn [split]; rewrite ?str_app_nil, ?str_app_cons; cbn [split].
- by rewrite Ascii.eqb_refl.
- rewrite IH. destruct (Ascii.eqb d c); [done|]. pose proof (split_not_nil c a).
  by destruct (split c a).
Qed.
Lemma split_plain c a : string_exists (λ d, Ascii.eqb d c) a = false → split c a = [a].
Proof.
induction a as [|d a IH]; [done|]. cbn [string_exists split]. rewrite orb_false_iff.
intros [-> Ha]. by rewrite IH.
Qed.
Lemma split_no_sep c a x : x ∈ split c a → string_exists (λ d, Ascii.eqb d c) x = false.
Proof.
revert x. induction a as [|d a IH]; intros x; cbn [split].
{ by intros ->%list_elem_of_singleton. }
destruct (Ascii.eqb d c) eqn:Hd.
- intros [->|?]%elem_of_cons; [done|auto].
- destruct (split c a) as [|y l].
  + intros ->%list_elem_of_singleton. cbn. by rewrite Hd.
  + intros [->|?]%elem_of_cons; [|apply IH; by right].
    cbn [string_exists]. rewrite Hd. apply IH. left.
Qed.
Lemma split_join segments : Forall plain_segment segments → segments ≠ [] →
  split char_slash (join "/" segments) = segments.
Proof.
induction segments as [|x l IH]; [done|]. intros [(_ & _ & _ & Hx) Hl]%Forall_cons _.
destruct l as [|y l]; [by apply split_plain|].
rewrite join_cons. change ("/" +:+ join "/" (y :: l)) with (String char_slash (join "/" (y :: l))).
rewrite split_app, (split_plain _ x) by done. by rewrite IH.
Qed.

(** Without [..], the stack keeps the segments that are not dots or empty. *)
Lemma normalize_plain above segments kept :
  Forall (λ x, x ≠ "..") segments →
  foldl (normalize_segment above) kept segments = reverse (List.filter plain segments) ++ kept.
Proof.
revert kept. induction segments as [|x l IH]; intros kept; [done|]. cbn [foldl List.filter].
intros [Hx Hl]%Forall_cons. rewrite IH by done. unfold normalize_segment, plain.
apply String.eqb_neq in Hx. rewrite Hx, orb_false_r.
destruct (String.eqb x "" || String.eqb x "."); simpl; [done|].
by rewrite reverse_cons, <-app_assoc.
Qed.

Lemma existsb_false {A} (p : A → bool) l : existsb p l = false ↔ Forall (λ x, p x = false) l.
Proof.
induction l as [|x l IH]; simpl; [by split|]. rewrite orb_false_iff, IH, Forall_cons. done.
Qed.
Lemma filter_plain_Forall s : Forall plain_segment (List.filter plain (split char_slash s)).
Proof.
apply Forall_forall. intros x Hx%list_elem_of_In%filter_In. destruct Hx as [Hx Hp].
apply plain_segment_spec. split; [done|]. by eapply split_no_sep, list_elem_of_In.
Qed.
Lemma filter_plain_id l : Forall plain_segment l → List.filter plain l = l.
Proof.
induction 1 as [|x l Hx Hl IH]; [done|]. simpl. apply plain_segment_spec in Hx as [Hx _].
by rewrite Hx, IH.
Qed.

Lemma join_plain_not_empty segments : Forall plain_segment segments → segments ≠ [] →
  join "/" segments ≠ "".
Proof.
destruct segments as [|x [|y l]]; [done| |]; intros [[Hx _] _]%Forall_cons _.
- done.
- rewrite join_cons. by destruct x.
Qed.

Lemma strip_dot_slash_plain segments t : Forall plain_segment segments → segments ≠ [] →
  strip_dot_slash (join "/" segments +:+ t) = join "/" segments +:+ t.
Proof.
destruct segments as [|x l]; [done|]. intros [(Hx & Hd & _ & Hs) _]%Forall_cons _.
destruct x as [|c [|d x]]; [done| |].
- destruct l as [|y l]; rewrite ?join_cons, ?join_one; str_simpl; unfold strip_dot_slash;
    destruct (Ascii.eqb_spec c ".") as [->|]; try done; by destruct t.
- cbn in Hs. rewrite !orb_false_iff in Hs. destruct Hs as (_ & Hs & _).
  destruct l; rewrite ?join_cons, ?join_one; str_simpl; unfold strip_dot_slash;
    rewrite Hs, andb_false_r; done.
Qed.

Lemma posix_normalize_plain replaced :
  replaced ≠ "" → Forall (λ x, x ≠ "..") (split char_slash replaced) →
  starts_with "/" (strip_dot_slash (posix_normalize replaced)) = false →
  strip_dot_slash (posix_normalize replaced) ≠ "" →
  strip_dot_slash (posix_normalize replaced) ≠ "." →
  List.filter plain (split char_slash replaced) ≠ [] ∧
  strip_dot_slash (posix_normalize replaced) =
    join "/" (List.filter plain (split char_slash replaced)) +:+
    (if ends_with_slash replaced then "/" else "").
Proof.
intros Hne Hdd. unfold posix_normalize. apply String.eqb_neq in Hne. rewrite Hne.
rewrite normalize_plain, app_nil_r, reverse_involutive by done.
pose proof (filter_plain_Forall replaced) as Hp.
destruct (List.filter plain (split char_slash replaced)) as [|x l] eqn:Hf.
{ cbn. destruct (starts_with "/" replaced), (ends_with_slash replaced); done. }
pose proof (join_plain_not_empty _ Hp (ltac:(done))) as Hj. apply String.eqb_neq in Hj.
rewrite Hj. unfold cat. cbn [foldr]. rewrite str_app_nil_r.
destruct (starts_with "/" replaced).
{ rewrite str_app_cons, str_app_nil. by destruct (join "/" (x :: l) +:+ _). }
rewrite str_app_nil, strip_dot_slash_plain by done. done.
Qed.

Lemma join_app a b : a ≠ [] → b ≠ [] →
  join "/" (a ++ b) = join "/" a +:+ "/" +:+ join "/" b.
Proof.
intros Ha Hb. induction a as [|x a IH]; [done|]. destruct a as [|y a].
- destruct b as [|z b]; [done|]. done.
- rewrite <-!app_comm_cons, !join_cons in *. rewrite IH by done. by str_simpl.
Qed.

Lemma split_canonical segments (trailing : bool) :
  Forall plain_segment segments → segments ≠ [] →
  split char_slash (join "/" segments +:+ (if trailing then "/" else "")) =
    segments ++ (if trailing then [""] else []).
Proof.
intros Hs Hne. destruct trailing.
- change "/" with (String char_slash "") at 2. rewrite split_app, split_join by done. done.
- by rewrite str_app_nil_r, app_nil_r, split_join.
Qed.

Lemma starts_with_slash c s : starts_with "/" (String c s) = Ascii.eqb c char_slash.
Proof.
unfold starts_with. cbn [String.prefix]. destruct (ascii_dec "/" c) as [<-|Hc].
- by destruct s.
- symmetry. apply Ascii.eqb_neq. intros ->. by apply Hc.
Qed.
Lemma starts_with_plain segments t :
  Forall plain_segment segments → segments ≠ [] →
  starts_with "/" (join "/" segments +:+ t) = false.
Proof.
destruct segments as [|x l]; [done|]. intros [(Hx & _ & _ & Hs) _]%Forall_cons _.
destruct x as [|c x]; [done|]. simpl in Hs. apply orb_false_iff in Hs as [Hc _].
destruct l; rewrite ?join_cons, ?join_one; str_simpl; by rewrite starts_with_slash.
Qed.

Lemma posix_normalize_canonical segments (trailing : bool) :
  Forall plain_segment segments → segments ≠ [] →
  let p := join "/" segments +:+ (if trailing then "/" else "") in
  posix_normalize p = p.
Proof.
intros Hp Hne p. unfold posix_normalize, ends_with_slash.
assert (p ≠ "") as Hpne.
{ pose proof (join_plain_not_empty _ Hp Hne). subst p. by destruct (join "/" segments). }
apply String.eqb_neq in Hpne. rewrite Hpne. subst p.
rewrite starts_with_plain, split_canonical by done.
assert (Forall (λ x, x ≠ "..") segments) as Hdd by (eapply Forall_impl; [done|]; by intros ? (_ & _ & ? & _)).
rewrite normalize_plain.
2: { apply Forall_app. split; [done|]. by destruct trailing; repeat constructor. }
rewrite app_nil_r, reverse_involutive, List.filter_app, filter_plain_id by done.
assert (List.filter plain (if trailing then [""] else []) = []) as -> by (by destruct trailing).
rewrite app_nil_r.
pose proof (join_plain_not_empty _ Hp Hne) as Hj. apply String.eqb_neq in Hj. rewrite Hj.
rewrite last_app. destruct trailing; simpl; [by str_simpl|].
destruct (last segments) as [x|] eqn:Hl; [|by str_simpl].
apply last_Some in Hl as [l' Hl']. rewrite Hl' in Hp. apply Forall_app in Hp as [_ Hp].
apply Forall_cons in Hp as [(Hx & _) _]. apply String.eqb_neq in Hx. rewrite Hx. by str_simpl.
Qed.
