(* ===== verification/WorkspaceMounts.v ===== *)
(** The mapping of Source Spaces to mount paths, src/kernel/workspace-mounts.ts:
    the validator shared by local materialization and the Authority.  Its
    inputs are values of type [unknown], here [json]. *)

From S2P Require Import Prelude Json Paths.

(** * Data *)

Module WorkspaceMountValidationCode.
Inductive t :=
| source_space_array_invalid | source_space_empty | source_space_duplicate
| mount_array_invalid | mount_count_mismatch | mount_invalid | mount_source_undisclosed
| mount_source_duplicate | mount_path_duplicate | mount_path_overlap.
#[global] Instance t_eq_dec : EqDecision t.
Proof. solve_decision. Defined.
End WorkspaceMountValidationCode.

Module WorkspaceMountCandidate.
Record t := mk { sourceSpaceId : string; mountPath : string }.
End WorkspaceMountCandidate.

Module WorkspaceMountValidationError.
Record t := mk {
  code : WorkspaceMountValidationCode.t;
  sourceSpaceId : option string;
  mountPath : option string;
  conflictingSourceSpaceId : option string;
  conflictingMountPath : option string;
}.
End WorkspaceMountValidationError.

#[local] Abbreviation invalid c :=
  (WorkspaceMountValidationError.mk c None None None None) (only parsing).

Section validate.
Context `{HH : Host} {S : Type}.
#[local] Abbreviation V := (M S WorkspaceMountValidationError.t).

(** * Paths *)

Definition requiredSourceSpaceId (value : json) : V string :=
  match value with
  | JStr s =>
      if blank s then throw (invalid WorkspaceMountValidationCode.source_space_empty)
      else mret (trim s)
  | _ => throw (invalid WorkspaceMountValidationCode.source_space_empty)
  end.

Definition ascii_letter (c : ascii) : bool :=
  let n := code c in ((65 <=? n) && (n <=? 90) || (97 <=? n) && (n <=? 122))%N.
(** [/^[A-Za-z]:/u]. *)
Definition drive_path (s : string) : bool :=
  match s with
  | String c (String d _) => ascii_letter c && Ascii.eqb d ":"
  | _ => false
  end.
Definition invalid_segment (segment : string) : bool :=
  String.eqb segment "" || String.eqb segment "." || String.eqb segment "..".

Definition canonical_text (value : string) : string :=
  normalizeNFKC (replace_char char_backslash char_slash value).
Definition relative_path (replaced : string) : bool :=
  negb (String.eqb replaced "" || drive_path replaced || starts_with "/" replaced
        || string_exists (fun c => Ascii.eqb c char_nul) replaced
        || existsb invalid_segment (split char_slash replaced)).

Definition normalizedMountPath (value : json) : V string :=
  match value with
  | JStr s =>
      let replaced := canonical_text s in
      if negb (relative_path replaced)
      then throw (WorkspaceMountValidationError.mk
        WorkspaceMountValidationCode.mount_invalid None (Some s) None None)
      else mret (join "/" (split char_slash replaced))
  | _ => throw (invalid WorkspaceMountValidationCode.mount_invalid)
  end.

Definition collisionKey (value : string) : string := toLowerCase (normalizeNFKC value).
Definition overlaps (left right : string) : bool :=
  let leftKey := collisionKey left in
  let rightKey := collisionKey right in
  String.eqb leftKey rightKey || starts_with (rightKey +:+ "/") leftKey
  || starts_with (leftKey +:+ "/") rightKey.

(** * The validator *)

(** One turn of the loop over [sourceSpaceIds]: the accumulator is both the
    array and the set. *)
Definition disclose (sourceSpaceIds : list string) (value : json) : V (list string) :=
  sourceSpaceId ← requiredSourceSpaceId value;
  throw_if (list_includes sourceSpaceIds sourceSpaceId)
    (WorkspaceMountValidationError.mk WorkspaceMountValidationCode.source_space_duplicate
      (Some sourceSpaceId) None None None);;
  mret (sourceSpaceIds ++ [sourceSpaceId]).

(** A property of a JavaScript object; [undefined] when it has none. *)
Definition property (value : json) (k : string) : json :=
  match value with JObj l => default JUndefined (omap_get k l) | _ => JUndefined end.

Definition overlap_error (current prior : WorkspaceMountCandidate.t) :
    WorkspaceMountValidationError.t :=
  WorkspaceMountValidationError.mk
    (if String.eqb (collisionKey (WorkspaceMountCandidate.mountPath prior))
                   (collisionKey (WorkspaceMountCandidate.mountPath current))
     then WorkspaceMountValidationCode.mount_path_duplicate
     else WorkspaceMountValidationCode.mount_path_overlap)
    (Some (WorkspaceMountCandidate.sourceSpaceId current))
    (Some (WorkspaceMountCandidate.mountPath current))
    (Some (WorkspaceMountCandidate.sourceSpaceId prior))
    (Some (WorkspaceMountCandidate.mountPath prior)).

(** One turn of the loop over [mounts].  [mountedPaths] is the array;
    [mountedSourceSpaces] holds the same candidates by Source Space. *)
Definition mount_one (sourceSpaceSet : list string)
    (acc : omap WorkspaceMountCandidate.t * list WorkspaceMountCandidate.t) (value : json) :
    V (omap WorkspaceMountCandidate.t * list WorkspaceMountCandidate.t) :=
  let (mountedSourceSpaces, mountedPaths) := acc in
  match value with
  | JObj _ =>
      sourceSpaceId ← requiredSourceSpaceId (property value "sourceSpaceId");
      mountPath ← normalizedMountPath (property value "mountPath");
      throw_if (negb (list_includes sourceSpaceSet sourceSpaceId))
        (WorkspaceMountValidationError.mk WorkspaceMountValidationCode.mount_source_undisclosed
          (Some sourceSpaceId) (Some mountPath) None None);;
      match omap_get sourceSpaceId mountedSourceSpaces with
      | Some priorSource =>
          throw (WorkspaceMountValidationError.mk
            WorkspaceMountValidationCode.mount_source_duplicate (Some sourceSpaceId)
            (Some mountPath) None (Some (WorkspaceMountCandidate.mountPath priorSource)))
      | None =>
          let current := WorkspaceMountCandidate.mk sourceSpaceId mountPath in
          match find_first (fun prior =>
              overlaps (WorkspaceMountCandidate.mountPath prior) mountPath) mountedPaths with
          | Some prior => throw (overlap_error current prior)
          | None =>
              mret (omap_set sourceSpaceId current mountedSourceSpaces,
                    mountedPaths ++ [current])
          end
      end
  | _ => throw (invalid WorkspaceMountValidationCode.mount_invalid)
  end.

Definition validateWorkspaceMounts (sourceSpaceIdsInput mounts : json) :
    V (list WorkspaceMountCandidate.t) :=
  match sourceSpaceIdsInput with
  | JArr ids =>
      match mounts with
      | JArr ms =>
          throw_if (length ids =? 0)%nat
            (invalid WorkspaceMountValidationCode.source_space_array_invalid);;
          sourceSpaceIds ← fold_each ids disclose [];
          mounted ← fold_each ms (mount_one sourceSpaceIds) ([], []);
          throw_if (negb (length ms =? length sourceSpaceIds)%nat)
            (invalid WorkspaceMountValidationCode.mount_count_mismatch);;
          for_each sourceSpaceIds (fun sourceSpaceId =>
            throw_if (negb (omap_has sourceSpaceId mounted.1))
              (WorkspaceMountValidationError.mk
                WorkspaceMountValidationCode.mount_count_mismatch
                (Some sourceSpaceId) None None None));;
          mret mounted.2
      | _ => throw (invalid WorkspaceMountValidationCode.mount_array_invalid)
      end
  | _ => throw (invalid WorkspaceMountValidationCode.source_space_array_invalid)
  end.

(** The positional envelope of the REST and MCP bootstrap. *)
Definition positional_mount (sourceSpaceId mountPath : json) : json :=
  JObj [("sourceSpaceId", sourceSpaceId); ("mountPath", mountPath)].
Definition validateWorkspaceMountPaths (sourceSpaceIdsInput mountPaths : json) :
    V (list WorkspaceMountCandidate.t) :=
  match sourceSpaceIdsInput, mountPaths with
  | JArr ids, JArr paths =>
      throw_if (negb (length paths =? length ids)%nat)
        (invalid WorkspaceMountValidationCode.mount_count_mismatch);;
      validateWorkspaceMounts (JArr ids) (JArr (zip_with positional_mount ids paths))
  | JArr _, _ => throw (invalid WorkspaceMountValidationCode.mount_array_invalid)
  | _, _ => throw (invalid WorkspaceMountValidationCode.source_space_array_invalid)
  end.
End validate.

(** * What the validator accepts

    [valid_mounts ids ms cs]: the mounts [ms] assign every disclosed Source
    Space of [ids] exactly one relative path, no two paths coincide or contain
    one another up to compatibility and case, and [cs] is [ms] in canonical
    form, in order.  Paths are read here by their segments, and not by the
    string comparisons of the code. *)

(** A path of plain segments below the directory it is mounted in: none is
    empty, a dot or two dots, and the first does not begin with a drive. *)
Definition relative (p : string) : Prop :=
  (∃ segments, segments ≠ [] ∧ Forall plain_segment segments ∧ p = join "/" segments) ∧
  (char_nul ∉ String.list_ascii_of_string p) ∧
  ∀ letter rest, p = String letter (String ":" rest) →
    ¬ ((65 <= code letter <= 90)%N ∨ (97 <= code letter <= 122)%N).

(** The text [y] is [x] with a slash for every backslash. *)
Definition slashed (x y : string) : Prop :=
  Forall2 (λ c d, d = if decide (c = char_backslash) then char_slash else c)
    (String.list_ascii_of_string x) (String.list_ascii_of_string y).

Definition id_of (value : json) (s : string) : Prop :=
  ∃ x, value = JStr x ∧ blank x = false ∧ s = trim x.

Section spec.
Context `{HH : Host}.

Definition mount_of (value : json) (c : WorkspaceMountCandidate.t) : Prop :=
  (∃ l, value = JObj l) ∧
  id_of (property value "sourceSpaceId") (WorkspaceMountCandidate.sourceSpaceId c) ∧
  ∃ x y, property value "mountPath" = JStr x ∧ slashed x y ∧
    WorkspaceMountCandidate.mountPath c = normalizeNFKC y ∧
    relative (WorkspaceMountCandidate.mountPath c).

(** The segments that tell a path from another: NFKC, then lower case. *)
Definition folded (p : string) : list string := split char_slash (toLowerCase (normalizeNFKC p)).
(** Neither path is the other or lies below it. *)
Definition apart (p q : string) : Prop :=
  ¬ folded p `prefix_of` folded q ∧ ¬ folded q `prefix_of` folded p.

Definition overlap_free (cs : list WorkspaceMountCandidate.t) : Prop :=
  ∀ before c after d, cs = before ++ c :: after → d ∈ before →
    apart (WorkspaceMountCandidate.mountPath d) (WorkspaceMountCandidate.mountPath c).

Record valid_mounts (ids ms : list json) (cs : list WorkspaceMountCandidate.t) : Prop := {
  valid_nonempty : ids ≠ [];
  valid_paths : Forall2 mount_of ms cs;
  valid_bijection : ∃ names, Forall2 id_of ids names ∧ NoDup names ∧
    Permutation (WorkspaceMountCandidate.sourceSpaceId <$> cs) names;
  valid_disjoint : overlap_free cs;
}.

Context {S : Type}.
Implicit Types (w : World) (s : S).

Lemma slashed_replace x y : slashed x y ↔ y = replace_char char_backslash char_slash x.
Proof.
unfold slashed, replace_char. revert y. induction x as [|c x IH]; intros [|d y]; simpl.
- by split.
- split; [by intros ?%Forall2_nil_inv_l|done].
- split; [by intros ?%Forall2_nil_inv_r|done].
- rewrite Forall2_cons, IH. destruct (Ascii.eqb_spec c char_backslash) as [->|Hc].
  + rewrite decide_True by done. split; [by intros [-> ->]|by intros [= -> ->]].
  + rewrite decide_False by done. split; [by intros [-> ->]|by intros [= -> ->]].
Qed.
Lemma slashed_canonical x p :
  (∃ y, slashed x y ∧ p = normalizeNFKC y) ↔ p = canonical_text x.
Proof.
unfold canonical_text. split.
- by intros (y & ->%slashed_replace & ->).
- intros ->. eexists. by rewrite slashed_replace.
Qed.

Lemma string_exists_list f x :
  string_exists f x = existsb f (String.list_ascii_of_string x).
Proof. induction x as [|c x IH]; [done|]. simpl. by rewrite IH. Qed.
Lemma string_exists_char c x :
  string_exists (λ d, Ascii.eqb d c) x = false ↔ (c ∉ String.list_ascii_of_string x).
Proof.
rewrite string_exists_list, existsb_false, Forall_forall. split.
- intros H Hc. by specialize (H c Hc); rewrite Ascii.eqb_refl in H.
- intros Hc d Hd. apply Ascii.eqb_neq. by intros ->.
Qed.

Lemma drive_path_spec p : drive_path p = false ↔
  ∀ letter rest, p = String letter (String ":" rest) →
    ¬ ((65 <= code letter <= 90)%N ∨ (97 <= code letter <= 122)%N).
Proof.
unfold drive_path, ascii_letter. split.
- intros H letter rest ->. revert H.
  rewrite Ascii.eqb_refl, andb_true_r, orb_false_iff, !andb_false_iff, !N.leb_gt. lia.
- intros H. destruct p as [|c [|d rest]]; [done..|]. destruct (Ascii.eqb_spec d ":") as [->|].
  + specialize (H c rest eq_refl).
    rewrite andb_true_r, orb_false_iff, !andb_false_iff, !N.leb_gt. lia.
  + apply andb_false_r.
Qed.

Lemma segments_plain p :
  existsb invalid_segment (split char_slash p) = false ↔ Forall plain_segment (split char_slash p).
Proof.
rewrite existsb_false, !Forall_forall. split; intros H x Hx; specialize (H x Hx).
- apply plain_segment_spec. split; [by apply negb_true_iff|by eapply split_no_sep].
- apply plain_segment_spec in H as [H _]. by apply negb_true_iff in H.
Qed.

Lemma relative_path_spec p : relative_path p = true ↔ relative p.
Proof.
unfold relative_path, relative.
rewrite negb_true_iff, !orb_false_iff, segments_plain, string_exists_char, drive_path_spec.
split.
- intros ((((Hne & Hd) & _) & Hn) & Hs). split_and!; [|done|done].
  exists (split char_slash p). split_and!; [apply split_not_nil|done|].
  symmetry. apply (join_split char_slash).
- intros ((segs & Hne & Hs & ->) & Hn & Hd). rewrite split_join by done. split_and!; try done.
  + by apply String.eqb_neq, join_plain_not_empty.
  + rewrite <-(str_app_nil_r (join "/" segs)). by apply starts_with_plain.
Qed.

Lemma split_inj c a b : split c a = split c b → a = b.
Proof. intros H. by rewrite <-(join_split c a), <-(join_split c b), H. Qed.
(** A path is another or lies below it when its segments begin with the other's. *)
Lemma below_segments a b :
  String.eqb a b || starts_with (b +:+ "/") a = true ↔
  split char_slash b `prefix_of` split char_slash a.
Proof.
rewrite orb_true_iff, String.eqb_eq, starts_with_spec. split.
- intros [->|[rest ->]]; [done|]. exists (split char_slash rest).
  rewrite <-split_app. f_equal. by str_simpl.
- intros [k Hk]. destruct k as [|x k].
  + left. rewrite app_nil_r in Hk. by apply split_inj in Hk.
  + right. exists (join "/" (x :: k)).
    rewrite <-(join_split char_slash a), Hk, join_app by (done || apply split_not_nil).
    change "/" with (String char_slash "") at 2. rewrite join_split. by str_simpl.
Qed.
Lemma overlaps_spec p q : overlaps p q = false ↔ apart p q.
Proof.
unfold overlaps, apart, folded, collisionKey. cbv zeta.
rewrite <-!below_segments, !not_true_iff_false, !orb_false_iff, (String.eqb_sym (toLowerCase (normalizeNFKC q))).
tauto.
Qed.

Lemma id_of_fun v x y : id_of v x → id_of v y → x = y.
Proof. intros (a & -> & _ & ->) (b & [= ->] & _ & ->). done. Qed.
Lemma mount_of_fun v c d : mount_of v c → mount_of v d → c = d.
Proof.
destruct c as [i p], d as [j q].
intros (_ & Hi & x & x' & Hx & ->%slashed_replace & Hp & _)
  (_ & Hj & y & y' & Hy & ->%slashed_replace & Hq & _). simpl in *. subst p q.
assert (x = y) as -> by congruence. f_equal. by eapply id_of_fun.
Qed.
Lemma Forall2_fun {A B} (R : A → B → Prop) l k1 k2 :
  (∀ a b c, R a b → R a c → b = c) → Forall2 R l k1 → Forall2 R l k2 → k1 = k2.
Proof.
intros HR H1. revert k2. induction H1 as [|a b l k1 Hab H1 IH]; intros k2 H2.
- by inversion H2.
- inversion H2; subst. f_equal; [by eapply HR|by apply IH].
Qed.

Lemma wp_requiredSourceSpaceId v w s :
  wp (requiredSourceSpaceId v)
    (λ x w' s', w' = w ∧ s' = s ∧ id_of v x)
    (λ _ w' s', ∀ x, ¬ id_of v x) w s.
Proof.
unfold requiredSourceSpaceId, id_of. destruct v as [| | | |x| |];
  try (apply wp_throw; by intros ? (? & [=] & _)).
destruct (blank x) eqn:Hb; [apply wp_throw|apply wp_ret]; [|by eauto 10].
intros y (z & [= ->] & Hz & _). congruence.
Qed.

Lemma wp_normalizedMountPath v w s :
  wp (normalizedMountPath v)
    (λ p w' s', w' = w ∧ s' = s ∧
      ∃ x y, v = JStr x ∧ slashed x y ∧ p = normalizeNFKC y ∧ relative p)
    (λ _ w' s', ¬ ∃ x y, v = JStr x ∧ slashed x y ∧ relative (normalizeNFKC y)) w s.
Proof.
unfold normalizedMountPath. destruct v as [| | | |x| |];
  try (apply wp_throw; by intros (? & ? & [=] & _)).
cbv zeta. destruct (relative_path (canonical_text x)) eqn:Hr; simpl.
- apply wp_ret. change "/" with (String char_slash ""). rewrite join_split.
  apply relative_path_spec in Hr. split_and!; [done..|].
  exists x, (replace_char char_backslash char_slash x). by rewrite slashed_replace.
- apply wp_throw. intros (z & y & [= ->] & ->%slashed_replace & Hy%relative_path_spec).
  unfold canonical_text in Hr. congruence.
Qed.

Lemma wp_disclose ids v w s :
  wp (disclose ids v)
    (λ ids' w' s', w' = w ∧ s' = s ∧ ∃ x, ids' = ids ++ [x] ∧ id_of v x ∧ x ∉ ids)
    (λ _ _ _, ¬ ∃ x, id_of v x ∧ x ∉ ids) w s.
Proof.
unfold disclose. wp_step. eapply wp_mono; [apply wp_requiredSourceSpaceId| |naive_solver].
intros x w' s' (-> & -> & Hx). cbv beta. wp_steps.
- intros (y & Hy & Hn). apply Hn. rewrite (id_of_fun _ _ _ Hy Hx). by apply list_includes_spec.
- split_and!; [done|done|]. exists x. split_and!; [done|done|].
  rewrite <-list_includes_spec. congruence.
Qed.

Lemma wp_disclose_all ids w s :
  wp (fold_each ids disclose [])
    (λ names w' s', w' = w ∧ s' = s ∧ Forall2 id_of ids names ∧ NoDup names)
    (λ _ _ _, ¬ ∃ names, Forall2 id_of ids names ∧ NoDup names) w s.
Proof.
apply (wp_fold_each (λ pre names w' s', w' = w ∧ s' = s ∧ Forall2 id_of pre names ∧ NoDup names)).
- intros pre v post names w' s' Hl (-> & -> & Hf & Hnd).
  eapply wp_mono; [apply wp_disclose| |].
  + intros _ w'' s'' (-> & -> & x & -> & Hx & Hn). split_and!; [done|done| |].
    * apply Forall2_app; [done|by constructor].
    * apply NoDup_app. split_and!; [done| |apply NoDup_singleton].
      intros y Hy Hy'%list_elem_of_singleton. by subst.
  + intros ? ? ? Hno (names' & Hf' & Hnd'). rewrite Hl in Hf'.
    apply Forall2_app_inv_l in Hf' as (n1 & n2 & Hf1 & Hf2 & ->).
    inversion Hf2 as [|? x ? n3 Hx Hf3]; subst. apply Hno. exists x. split; [done|].
    rewrite (Forall2_fun _ _ _ _ id_of_fun Hf Hf1). intros Hin.
    apply NoDup_app in Hnd' as (_ & Hd & _). apply (Hd x Hin). left.
- naive_solver.
- split_and!; [done|done|constructor|apply NoDup_nil_2].
Qed.

(** The accumulator of the loop over the mounts: the map indexes the array. *)
Definition mounted_inv (names : list string) (pre : list json)
    (acc : omap WorkspaceMountCandidate.t * list WorkspaceMountCandidate.t) : Prop :=
  Forall2 mount_of pre acc.2 ∧
  (∀ k, is_Some (omap_get k acc.1) ↔ k ∈ (WorkspaceMountCandidate.sourceSpaceId <$> acc.2)) ∧
  NoDup (WorkspaceMountCandidate.sourceSpaceId <$> acc.2) ∧
  (∀ k, k ∈ (WorkspaceMountCandidate.sourceSpaceId <$> acc.2) → k ∈ names) ∧
  overlap_free acc.2.

(** A candidate that the loop may append. *)
Definition mountable (names : list string) (cs : list WorkspaceMountCandidate.t) (v : json)
    (c : WorkspaceMountCandidate.t) : Prop :=
  mount_of v c ∧ WorkspaceMountCandidate.sourceSpaceId c ∈ names ∧
  ¬ (WorkspaceMountCandidate.sourceSpaceId c ∈ WorkspaceMountCandidate.sourceSpaceId <$> cs) ∧
  ∀ d, d ∈ cs →
    apart (WorkspaceMountCandidate.mountPath d) (WorkspaceMountCandidate.mountPath c).

Lemma overlap_free_snoc cs c :
  overlap_free (cs ++ [c]) ↔ overlap_free cs ∧ ∀ d, d ∈ cs →
    apart (WorkspaceMountCandidate.mountPath d) (WorkspaceMountCandidate.mountPath c).
Proof.
split.
- intros H. split; [|intros d Hd; by apply (H cs c [] d)].
  intros b x a d -> Hd. apply (H b x (a ++ [c]) d); [|done]. by rewrite <-app_assoc.
- intros [H Hc] b x a d Heq Hd. destruct a as [|y a _] using rev_ind.
  + apply app_inj_tail in Heq as [-> ->]. auto.
  + rewrite app_comm_cons, app_assoc in Heq. apply app_inj_tail in Heq as [-> _].
    by apply (H b x a d).
Qed.

Lemma wp_mount_one names pre acc v w s :
  mounted_inv names pre acc →
  wp (mount_one names acc v)
    (λ acc' w' s', w' = w ∧ s' = s ∧ mounted_inv names (pre ++ [v]) acc')
    (λ _ _ _, ¬ ∃ c, mountable names acc.2 v c) w s.
Proof.
intros Hinv. destruct acc as [m cs]. unfold mount_one.
destruct v as [| | | | | |l]; try (apply wp_throw; by intros (? & ((? & [=]) & _) & _)).
wp_step. eapply wp_mono; [apply wp_requiredSourceSpaceId| |].
2: { intros ? ? ? Hno (c & (_ & Hid & _) & _). by eapply Hno. }
intros i w' s' (-> & -> & Hi). wp_step. eapply wp_mono; [apply wp_normalizedMountPath| |].
2: { intros ? ? ? Hno (c & (_ & _ & x & y & Hx & Hy & Hp & Hr) & _). apply Hno.
     exists x, y. by rewrite <-Hp. }
intros p w' s' (-> & -> & x & y & Hx & Hy & Hp & Hr).
assert (∀ c, mount_of (JObj l) c → c = WorkspaceMountCandidate.mk i p) as Hc.
{ intros c Hc. apply (mount_of_fun (JObj l)); [done|]. split_and!; simpl; eauto 10. }
destruct Hinv as (Hf & Hm & Hnd & Hin & Ho). simpl in *.
wp_step. wp_step.
{ intros (c & Hc' & Hin' & _). rewrite (Hc c Hc') in Hin'. simpl in Hin'.
  apply list_includes_spec in Hin'. rewrite Hin' in *. done. }
rewrite negb_false_iff, list_includes_spec in *.
destruct (omap_get i m) as [prior|] eqn:Hg.
{ apply wp_throw. intros (c & Hc' & _ & Hn & _). rewrite (Hc c Hc') in Hn.
  apply Hn, Hm. simpl. by rewrite Hg. }
assert (i ∉ (WorkspaceMountCandidate.sourceSpaceId <$> cs)) as Hni.
{ intros Hi'%Hm. rewrite Hg in Hi'. by destruct Hi'. }
cbv zeta. destruct (find_first _ cs) as [prior|] eqn:Hfind.
- apply find_first_Some in Hfind as [Hpr Hov]. apply wp_throw.
  intros (c & Hc' & _ & _ & Hno). rewrite (Hc c Hc') in Hno. simpl in Hno.
  specialize (Hno prior). apply overlaps_spec in Hno; [congruence|done].
- rewrite find_first_None in Hfind.
  assert (∀ d, d ∈ cs → apart (WorkspaceMountCandidate.mountPath d) p) as Hap
    by (intros d Hd; by apply overlaps_spec, Hfind). apply wp_ret. split_and!; [done|done|]. unfold mounted_inv. cbn [fst snd].
  split_and!.
  + apply Forall2_app; [done|]. constructor; [|done]. split_and!; simpl; eauto 10.
  + intros k. rewrite omap_get_set, elem_of_fmap_snoc. simpl. case_decide as Hk.
    * subst. split; [by right|by eauto].
    * rewrite Hm. split; [by left|by intros [?|?]; [|congruence]].
  + by apply NoDup_fmap_snoc.
  + intros k. rewrite elem_of_fmap_snoc. intros [?|?]; [auto|by subst].
  + by apply overlap_free_snoc.
Qed.

Lemma wp_mount_all names ms w s :
  wp (fold_each ms (mount_one names) ([], []))
    (λ acc w' s', w' = w ∧ s' = s ∧ mounted_inv names ms acc)
    (λ _ _ _, ¬ ∃ cs, Forall2 mount_of ms cs ∧ overlap_free cs ∧
       NoDup (WorkspaceMountCandidate.sourceSpaceId <$> cs) ∧
       ∀ k, k ∈ (WorkspaceMountCandidate.sourceSpaceId <$> cs) → k ∈ names) w s.
Proof.
apply (wp_fold_each (λ pre acc w' s', w' = w ∧ s' = s ∧ mounted_inv names pre acc)).
- intros pre v post acc w' s' Hl (-> & -> & Hinv). eapply wp_mono; [by apply wp_mount_one|done|].
  intros ? ? ? Hno (cs & Hf & Ho & Hnd & Hin). rewrite Hl in Hf.
  apply Forall2_app_inv_l in Hf as (c1 & c2 & Hf1 & Hf2 & ->).
  inversion Hf2 as [|? c ? c3 Hc Hf3]; subst. apply Hno. exists c.
  destruct Hinv as (Hfa & _). rewrite (Forall2_fun _ _ _ _ mount_of_fun Hfa Hf1).
  split_and!; [done| | |].
  + apply Hin. rewrite fmap_app, elem_of_app. right. left.
  + rewrite fmap_app in Hnd. apply NoDup_app in Hnd as (_ & Hd & _).
    intros Hx. apply (Hd _ Hx). left.
  + intros d Hd. by apply (Ho c1 c c3 d).
- naive_solver.
- split_and!; [done|done|]. unfold mounted_inv. cbn [fst snd].
  split_and!; [constructor| |apply NoDup_nil_2|by intros ? ?%elem_of_nil|].
  + intros k. split; [by intros [? ?]|by intros ?%elem_of_nil].
  + intros b c a d Heq. by destruct b.
Qed.

Lemma readonly_requiredSourceSpaceId v : readonly (requiredSourceSpaceId (S:=S) v).
Proof. unfold requiredSourceSpaceId. solve_readonly. Qed.
Lemma readonly_normalizedMountPath v : readonly (normalizedMountPath (S:=S) v).
Proof. unfold normalizedMountPath. solve_readonly. Qed.
Hint Resolve readonly_requiredSourceSpaceId readonly_normalizedMountPath : anyam_ro.
Lemma readonly_disclose names v : readonly (disclose (S:=S) names v).
Proof. unfold disclose. solve_readonly. Qed.
Lemma readonly_mount_one names acc v : readonly (mount_one (S:=S) names acc v).
Proof. unfold mount_one. solve_readonly. Qed.
Hint Resolve readonly_disclose readonly_mount_one : anyam_ro.
Lemma readonly_validateWorkspaceMounts ids ms : readonly (validateWorkspaceMounts (S:=S) ids ms).
Proof. unfold validateWorkspaceMounts. solve_readonly. Qed.

Lemma wp_validateWorkspaceMounts ids ms w s :
  wp (validateWorkspaceMounts (JArr ids) (JArr ms))
    (λ cs' _ _, valid_mounts ids ms cs')
    (λ _ _ _, ¬ ∃ cs', valid_mounts ids ms cs') w s.
Proof.
unfold validateWorkspaceMounts. wp_step. wp_step.
{ intros (cs' & [Hne _ _ _]). apply Hne. by destruct ids. }
wp_step. eapply wp_mono; [apply wp_disclose_all| |].
2: { intros ? ? ? Hno (cs' & [_ _ (names & ? & ? & _) _]). eauto. }
intros names w' s' (-> & -> & Hf & Hnd). wp_step. eapply wp_mono; [apply wp_mount_all| |].
2: { intros ? ? ? Hno (cs' & [_ Hm (names' & Hf' & Hnd' & Hp) Ho]). apply Hno.
     rewrite (Forall2_fun _ _ _ _ id_of_fun Hf Hf'). exists cs'. split_and!; [done|done| |].
     - by rewrite Hp.
     - intros k. by rewrite Hp. }
intros [m cs'] w' s' (-> & -> & Hfm & Hm & Hndc & Hin & Ho). simpl in *. wp_step. wp_step.
{ intros (cs'' & [_ Hm'' (names' & Hf' & Hnd' & Hp) _]).
  rewrite (Forall2_fun _ _ _ _ id_of_fun Hf' Hf) in Hp. apply Permutation_length in Hp.
  rewrite length_fmap, <-(Forall2_length _ _ _ Hm'') in Hp. rewrite Hp, Nat.eqb_refl in *. done. }
rewrite negb_false_iff, Nat.eqb_eq in *.
assert ((WorkspaceMountCandidate.sourceSpaceId <$> cs') ≡ₚ names) as Hperm.
{ apply submseteq_length_Permutation; [by apply NoDup_submseteq|].
  rewrite length_fmap, <-(Forall2_length _ _ _ Hfm). lia. }
wp_step. apply (wp_for_each (λ _ w' s', w' = w ∧ s' = s)); [| |done].
+ intros pre k post w' s' Hl [-> ->]. wp_steps; [|done]. exfalso.
  assert (is_Some (omap_get k m)) as Hk%omap_has_spec.
  { apply Hm. rewrite Hperm, Hl. apply elem_of_app. right. left. }
  rewrite Hk in *. done.
+ intros w' s' [-> ->]. apply wp_ret. split; [|done|by eauto|done].
  intros ->. done.
Qed.
End spec.

#[export] Hint Resolve readonly_validateWorkspaceMounts : anyam_ro.

(** C36: [validateWorkspaceMounts] accepts exactly the mappings that give every
    disclosed Source Space one path of plain segments (none empty, a dot or two
    dots, no drive, no NUL), none of which is another or lies below it once
    both are folded to NFKC and lower case, and returns them with slashes for
    backslashes, in NFKC, in the order given; it writes nothing and draws
    nothing from the host.  NFKC is the host's. *)
Theorem validateWorkspaceMounts_accepts `{HH : Host} {S : Type} ids ms cs w (s : S) :
  validateWorkspaceMounts (JArr ids) (JArr ms) w s = (Ok cs, w, s) ↔ valid_mounts ids ms cs.
Proof.
pose proof (wp_validateWorkspaceMounts ids ms w s) as Hwp. unfold wp in Hwp.
destruct (readonly_validateWorkspaceMounts (JArr ids) (JArr ms) w s) as [[cs'|e] Ho].
- rewrite Ho in *. split; [by intros [= <-]|]. intros Hv'.
  by rewrite (Forall2_fun _ _ _ _ mount_of_fun (valid_paths _ _ _ Hwp) (valid_paths _ _ _ Hv')).
- rewrite Ho in *. split; [done|]. intros Hv. exfalso. eauto.
Qed.
