(* ===== verification/ChangeControl.v ===== *)
(** Local change control, src/change-control/local.ts: Workspaces materialized
    from a Project View, Changes and their immutable Change Revisions, explicit
    Conflicts, and the compare-and-swap Landing of an Integration Cohort.

    [Coordinator.t] is the state of a [LocalChangeCoordinator]; each method is a
    computation over it. *)

From S2P Require Import Prelude Json Contracts Paths WorkspaceMounts.

(** * Data *)

Module WorkspaceSource.
Record t := mk {
  sourceSpaceId : string;
  snapshotId : string;
  files : omap string;
}.
End WorkspaceSource.

Module ChangeControlErrorCode.
Inductive t :=
| project_mismatch | unknown_project_revision | workspace_not_found | workspace_state
| workspace_source_not_authorized | workspace_source_mismatch | workspace_source_missing
| workspace_source_duplicate | workspace_mount_invalid | workspace_mount_collision
| workspace_file_invalid | workspace_directory_exists | workspace_directory_not_empty
| change_not_found | change_workspace_mismatch | conflict_not_found | conflict_open
| conflict_change_mismatch | stale_canonical_revision | change_revision_not_found
| change_revision_not_latest | change_revision_base_mismatch | landing_source_space_invalid
| landing_blocked | revert_source_not_found.
#[global] Instance t_eq_dec : EqDecision t.
Proof. solve_decision. Defined.
End ChangeControlErrorCode.

Module ChangeControlError.
Record t := mk {
  code : ChangeControlErrorCode.t;
  affectedObject : string;
  conflictingIds : list string;
}.
End ChangeControlError.

(** What a method throws: a [ChangeControlError], or an error of the file
    system, rethrown as it is. *)
Inductive thrown := change_control (e : ChangeControlError.t) | file_system (e : string).

#[local] Abbreviation failure c o :=
  (change_control (ChangeControlError.mk c o [])) (only parsing).

(** * Source file paths *)

Section paths.
Context {S : Type}.

Definition normalizedFilePath (value : string) : M S thrown string :=
  let replaced := replace_char char_backslash char_slash value in
  let normalized := strip_dot_slash (posix_normalize replaced) in
  let containsTraversalSegment :=
    existsb (fun segment => String.eqb segment "..") (split char_slash replaced) in
  throw_if
    (String.eqb replaced "" || String.eqb normalized "" || String.eqb normalized "."
     || starts_with "/" normalized || containsTraversalSegment
     || String.eqb normalized ".." || starts_with "../" normalized
     || includes "/../" normalized
     || string_exists (fun c => Ascii.eqb c char_nul) normalized)
    (failure ChangeControlErrorCode.workspace_file_invalid "workspace-file");;
  mret normalized.

Definition mapWorkspaceMountValidationError (viewId : string)
    (error : WorkspaceMountValidationError.t) : thrown :=
  let code :=
    match WorkspaceMountValidationError.code error with
    | WorkspaceMountValidationCode.mount_source_undisclosed =>
        ChangeControlErrorCode.workspace_source_not_authorized
    | WorkspaceMountValidationCode.source_space_duplicate =>
        ChangeControlErrorCode.workspace_source_duplicate
    | WorkspaceMountValidationCode.mount_invalid
    | WorkspaceMountValidationCode.source_space_empty
    | WorkspaceMountValidationCode.source_space_array_invalid
    | WorkspaceMountValidationCode.mount_array_invalid =>
        ChangeControlErrorCode.workspace_mount_invalid
    | WorkspaceMountValidationCode.mount_count_mismatch =>
        ChangeControlErrorCode.workspace_source_missing
    | WorkspaceMountValidationCode.mount_source_duplicate
    | WorkspaceMountValidationCode.mount_path_duplicate
    | WorkspaceMountValidationCode.mount_path_overlap =>
        ChangeControlErrorCode.workspace_mount_collision
    end in
  failure code viewId.
End paths.

(** * Materialization *)

(** The file system behind materialization: whether [stat] finds the target
    directory, the creation of the staging directory, the write of one file
    below it after the files already written, and the final [rename].  Each may
    fail with an error, after which the staging directory is removed and the
    error rethrown. *)
Inductive stat_result := stat_found | stat_missing | stat_failed (e : string).
Class FileSystem := {
  stat : string → stat_result;
  make_staging : string → option string;
  write_file : list (string * string) → string → string → option string;
  publish : string → list (string * string) → option string;
}.

Module MaterializeWorkspaceInput.
Record t := mk {
  view : ProjectView.t;
  sources : list WorkspaceSource.t;
  mounts : list WorkspaceMountCandidate.t;
  directory : string;
  id : option string;
  actorId : option string;
}.
End MaterializeWorkspaceInput.

Module MaterializedWorkspace.
Record t := mk {
  workspace : Workspace.t;
  directory : string;
  (** the files below [directory], which the code writes and does not return *)
  tree : list (string * string);
}.
End MaterializedWorkspace.

Section materialize.
Context `{HH : Host} `{FS : FileSystem} {S : Type}.

Definition index_source (viewId : string) (sourceById : omap WorkspaceSource.t)
    (source : WorkspaceSource.t) : M S thrown (omap WorkspaceSource.t) :=
  throw_if (omap_has (WorkspaceSource.sourceSpaceId source) sourceById)
    (failure ChangeControlErrorCode.workspace_source_duplicate viewId);;
  mret (omap_set (WorkspaceSource.sourceSpaceId source) source sourceById).

Definition json_mount (mount : WorkspaceMountCandidate.t) : json :=
  JObj [("sourceSpaceId", JStr (WorkspaceMountCandidate.sourceSpaceId mount));
        ("mountPath", JStr (WorkspaceMountCandidate.mountPath mount))].

Definition resolve_mount (view : ProjectView.t) (sourceById : omap WorkspaceSource.t)
    (mountInput : WorkspaceMountCandidate.t) : M S thrown WorkspaceMount.t :=
  let sourceSpaceId := WorkspaceMountCandidate.sourceSpaceId mountInput in
  source ← require (omap_get sourceSpaceId sourceById)
    (failure ChangeControlErrorCode.workspace_source_missing (ProjectView.id view));
  let disclosedSnapshot :=
    omap_get sourceSpaceId (ProjectView.disclosedSourceSpaceSnapshots view) in
  throw_if (negb (bool_decide (Some (WorkspaceSource.snapshotId source) = disclosedSnapshot)))
    (failure ChangeControlErrorCode.workspace_source_mismatch sourceSpaceId);;
  mret (WorkspaceMount.mk sourceSpaceId (WorkspaceSource.snapshotId source)
          (WorkspaceMountCandidate.mountPath mountInput)).

(** [relative(staging, normalize(join(staging, mountPath, file)))]: the path of
    a staged file below the staging directory. *)
Definition staged_path (mountPath file : string) : string :=
  posix_normalize (cat [mountPath; "/"; file]).

(** The effect of a file system call: its error, when it has one, is thrown. *)
Definition system_call (result : option string) : M S thrown () :=
  match result with Some e => throw (file_system e) | None => mret () end.

Definition stage_file (mount : WorkspaceMount.t) (tree : list (string * string))
    (entry : string * string) : M S thrown (list (string * string)) :=
  file ← normalizedFilePath entry.1;
  let relativeDestination := staged_path (WorkspaceMount.mountPath mount) file in
  throw_if (starts_with ".." relativeDestination
            || string_exists (fun c => Ascii.eqb c char_nul) relativeDestination)
    (failure ChangeControlErrorCode.workspace_file_invalid (WorkspaceMount.sourceSpaceId mount));;
  system_call (write_file tree relativeDestination entry.2);;
  mret (tree ++ [(relativeDestination, entry.2)]).

Definition source_files (sourceById : omap WorkspaceSource.t) (mount : WorkspaceMount.t) :
    omap string :=
  match omap_get (WorkspaceMount.sourceSpaceId mount) sourceById with
  | Some source => WorkspaceSource.files source
  | None => []
  end.

Definition materializeWorkspace (project : Project.t) (input : MaterializeWorkspaceInput.t) :
    M S thrown MaterializedWorkspace.t :=
  let view := MaterializeWorkspaceInput.view input in
  let directory := MaterializeWorkspaceInput.directory input in
  throw_if (negb (String.eqb (ProjectView.projectId view) (Project.id project)))
    (failure ChangeControlErrorCode.project_mismatch "workspace");;
  sourceById ← fold_each (MaterializeWorkspaceInput.sources input)
    (index_source (ProjectView.id view)) [];
  validatedMounts ← map_err (mapWorkspaceMountValidationError (ProjectView.id view))
    (validateWorkspaceMounts (JArr (JStr <$> ProjectView.visibleSourceSpaceIds view))
       (JArr (json_mount <$> MaterializeWorkspaceInput.mounts input)));
  mounts ← map_each validatedMounts (resolve_mount view sourceById);
  for_each mounts (fun mount =>
    for_each (omap_keys (source_files sourceById mount)) (fun path =>
      normalizedFilePath path;; mret ()));;
  match stat directory with
  | stat_found => throw (failure ChangeControlErrorCode.workspace_directory_exists directory)
  | stat_failed e => throw (file_system e)
  | stat_missing => mret ()
  end;;
  system_call (make_staging directory);;
  tree ← fold_each mounts (fun tree mount =>
    fold_each (source_files sourceById mount) (stage_file mount) tree) [];
  system_call (publish directory tree);;
  workspaceId ← match MaterializeWorkspaceInput.id input with
                | Some i => mret i
                | None => opaqueId "workspace"
                end;
  mret {|
    MaterializedWorkspace.directory := directory;
    MaterializedWorkspace.tree := tree;
    MaterializedWorkspace.workspace := {|
      Workspace.id := workspaceId;
      Workspace.projectId := Project.id project;
      Workspace.projectRevisionId := ProjectView.projectRevisionId view;
      Workspace.projectViewId := ProjectView.id view;
      Workspace.mounts := mounts;
      Workspace.state := WorkspaceState.active;
      Workspace.changeId := None;
      Workspace.pullRequestId := None;
      Workspace.actorId := truthy_opt (MaterializeWorkspaceInput.actorId input);
    |};
  |}.
End materialize.

(** * The coordinator *)

Module Coordinator.
Record t := mk {
  project : Project.t;
  sourceSpaces : list SourceSpace.t;
  canonical : ProjectRevision.t;
  projectRevisions : omap ProjectRevision.t;
  workspaces : omap Workspace.t;
  changes : omap Change.t;
  revisions : omap ChangeRevision.t;
  conflicts : omap Conflict.t;
}.
#[global] Instance eta : Eta t := fun r =>
  mk (project r) (sourceSpaces r) (canonical r) (projectRevisions r) (workspaces r) (changes r)
    (revisions r) (conflicts r).
End Coordinator.

Module CreateChangeInput.
Record t := mk {
  intentId : string;
  workspaceId : string;
  id : option string;
  author : option ActorRef.t;
  origin : option ChangeOrigin.t;
}.
End CreateChangeInput.

Module RegisterConflictInput.
Record t := mk {
  changeId : string;
  workspaceId : string;
  kind : ConflictKind.t;
  sourceSpaceIds : list string;
  paths : list string;
  description : string;
  id : option string;
}.
End RegisterConflictInput.

Module PublishRevisionInput.
Record t := mk {
  changeId : string;
  workspaceId : option string;
  declaredEffects : list string;
  sourceSpaceSnapshots : option (omap string);
  conflictIds : option (list string);
  kind : option ChangeRevisionKind.t;
  actor : option ActorRef.t;
  affectedModuleIds : option (list string);
  affectedTargetIds : option (list string);
}.
End PublishRevisionInput.

Module RebaseChangeInput.
Record t := mk {
  changeId : string;
  view : ProjectView.t;
  sources : list WorkspaceSource.t;
  mounts : list WorkspaceMountCandidate.t;
  directory : string;
  actorId : option string;
  declaredEffects : list string;
}.
End RebaseChangeInput.

Module RevertChangeInput.
Record t := mk {
  landedChangeRevisionId : string;
  intentId : string;
  workspaceId : option string;
  id : option string;
}.
End RevertChangeInput.

Module LandingMember.
Record t := mk { changeId : string; changeRevisionId : string }.
End LandingMember.

Module LandCohortInput.
Record t := mk {
  cohortId : option string;
  members : list LandingMember.t;
  expectedCanonicalProjectRevisionId : string;
}.
End LandCohortInput.

Section coordinator.
Context `{HH : Host} `{FS : FileSystem}.
#[local] Abbreviation C := (M Coordinator.t thrown).

Definition construct (project : Project.t) (sourceSpaces : list SourceSpace.t)
    (canonicalRevision : ProjectRevision.t) : outcome thrown Coordinator.t :=
  if negb (String.eqb (ProjectRevision.projectId canonicalRevision) (Project.id project))
  then Throw (failure ChangeControlErrorCode.project_mismatch
                (ProjectRevision.id canonicalRevision))
  else Ok (Coordinator.mk project sourceSpaces canonicalRevision
             (omap_set (ProjectRevision.id canonicalRevision) canonicalRevision []) [] [] [] []).

Definition getWorkspace (workspaceId : string) : C (option Workspace.t) :=
  gets (fun s => omap_get workspaceId (Coordinator.workspaces s)).
Definition getChange (changeId : string) : C (option Change.t) :=
  gets (fun s => omap_get changeId (Coordinator.changes s)).
Definition getRevision (revisionId : string) : C (option ChangeRevision.t) :=
  gets (fun s => omap_get revisionId (Coordinator.revisions s)).
Definition listConflicts (changeId : string) : C (list Conflict.t) :=
  gets (fun s => base.filter (fun c => Conflict.changeId c = changeId)
                   (omap_values (Coordinator.conflicts s))).

(** [this.workspaces.set(w.id, w)], and its like for the other maps. *)
Definition set_workspace (w : Workspace.t) : C () :=
  modify (fun s => s <| Coordinator.workspaces :=
    omap_set (Workspace.id w) w (Coordinator.workspaces s) |>).
Definition set_change (c : Change.t) : C () :=
  modify (fun s => s <| Coordinator.changes :=
    omap_set (Change.id c) c (Coordinator.changes s) |>).
Definition set_revision (r : ChangeRevision.t) : C () :=
  modify (fun s => s <| Coordinator.revisions :=
    omap_set (ChangeRevision.id r) r (Coordinator.revisions s) |>).
Definition set_conflict (c : Conflict.t) : C () :=
  modify (fun s => s <| Coordinator.conflicts :=
    omap_set (Conflict.id c) c (Coordinator.conflicts s) |>).

Definition requireWorkspace (workspaceId : option string) : C Workspace.t :=
  i ← require (truthy_opt workspaceId)
    (failure ChangeControlErrorCode.workspace_not_found "change");
  known ← gets (fun s => omap_get i (Coordinator.workspaces s));
  require known (failure ChangeControlErrorCode.workspace_not_found i).

Definition requireChange (changeId : string) : C Change.t :=
  known ← gets (fun s => omap_get changeId (Coordinator.changes s));
  require known (failure ChangeControlErrorCode.change_not_found changeId).

(** ** Workspaces and Changes *)

Definition createWorkspace (input : MaterializeWorkspaceInput.t) : C MaterializedWorkspace.t :=
  let view := MaterializeWorkspaceInput.view input in
  known ← gets (fun s =>
    omap_get (ProjectView.projectRevisionId view) (Coordinator.projectRevisions s));
  projectRevision ← require known
    (failure ChangeControlErrorCode.unknown_project_revision (ProjectView.id view));
  project ← gets Coordinator.project;
  throw_if (negb (String.eqb (ProjectRevision.projectId projectRevision) (Project.id project)))
    (failure ChangeControlErrorCode.project_mismatch (ProjectView.id view));;
  for_each (ProjectView.visibleSourceSpaceIds view) (fun sourceSpaceId =>
    let disclosedSnapshot :=
      omap_get sourceSpaceId (ProjectView.disclosedSourceSpaceSnapshots view) in
    throw_if (negb (bool_decide
        (omap_get sourceSpaceId (ProjectRevision.sourceSpaceSnapshots projectRevision)
         = disclosedSnapshot)))
      (failure ChangeControlErrorCode.workspace_source_mismatch (ProjectView.id view)));;
  materialized ← materializeWorkspace project input;
  set_workspace (MaterializedWorkspace.workspace materialized);;
  mret materialized.

Definition createChange (input : CreateChangeInput.t) : C Change.t :=
  let workspaceId := CreateChangeInput.workspaceId input in
  known ← gets (fun s => omap_get workspaceId (Coordinator.workspaces s));
  workspace ← require known (failure ChangeControlErrorCode.workspace_not_found workspaceId);
  throw_if (negb (bool_decide (Workspace.state workspace = WorkspaceState.active)))
    (failure ChangeControlErrorCode.workspace_state (Workspace.id workspace));;
  throw_if (bool_decide (is_Some (truthy_opt (Workspace.changeId workspace))))
    (failure ChangeControlErrorCode.change_workspace_mismatch (Workspace.id workspace));;
  changeId ← match CreateChangeInput.id input with
             | Some i => mret i
             | None => opaqueId "change"
             end;
  project ← gets Coordinator.project;
  let change := {|
    Change.id := changeId;
    Change.projectId := Project.id project;
    Change.intentId := CreateChangeInput.intentId input;
    Change.baseProjectRevisionId := Workspace.projectRevisionId workspace;
    Change.status := ChangeStatus.active;
    Change.latestRevisionId := None;
    Change.workspaceId := Some (Workspace.id workspace);
    Change.revertsChangeRevisionId := None;
    Change.author := CreateChangeInput.author input;
    Change.origin := CreateChangeInput.origin input;
  |} in
  set_change change;;
  set_workspace (workspace <| Workspace.changeId := Some (Change.id change) |>);;
  mret change.

(** ** Conflicts *)

Definition check_conflict_space (project : Project.t) (change : Change.t) (workspace : Workspace.t)
    (sourceSpaceId : string) : C () :=
  throw_if (negb (list_includes (Project.sourceSpaceIds project) sourceSpaceId))
    (failure ChangeControlErrorCode.workspace_source_not_authorized (Change.id change));;
  throw_if (negb (existsb (fun mount => String.eqb (WorkspaceMount.sourceSpaceId mount) sourceSpaceId)
                    (Workspace.mounts workspace)))
    (failure ChangeControlErrorCode.workspace_source_not_authorized (Change.id change)).

Definition registerConflict (input : RegisterConflictInput.t) : C Conflict.t :=
  change ← requireChange (RegisterConflictInput.changeId input);
  workspace ← requireWorkspace (Some (RegisterConflictInput.workspaceId input));
  throw_if (negb (bool_decide (Change.workspaceId change = Some (Workspace.id workspace))))
    (failure ChangeControlErrorCode.change_workspace_mismatch (Change.id change));;
  project ← gets Coordinator.project;
  for_each (RegisterConflictInput.sourceSpaceIds input)
    (check_conflict_space project change workspace);;
  conflictId ← match RegisterConflictInput.id input with
               | Some i => mret i
               | None => opaqueId "conflict"
               end;
  paths ← map_each (RegisterConflictInput.paths input) normalizedFilePath;
  let conflict := {|
    Conflict.id := conflictId;
    Conflict.projectId := Project.id project;
    Conflict.changeId := Change.id change;
    Conflict.workspaceId := Workspace.id workspace;
    Conflict.kind := RegisterConflictInput.kind input;
    Conflict.sourceSpaceIds := RegisterConflictInput.sourceSpaceIds input;
    Conflict.paths := paths;
    Conflict.description := RegisterConflictInput.description input;
    Conflict.state := ConflictState.open;
    Conflict.resolutionRevisionId := None;
  |} in
  set_conflict conflict;;
  set_workspace (workspace <| Workspace.state := WorkspaceState.blocked |>);;
  mret conflict.

Definition is_open (conflict : Conflict.t) : bool :=
  bool_decide (Conflict.state conflict = ConflictState.open).

(** The note is dropped by the source too. *)
Definition resolveConflict (conflictId : string) : C Conflict.t :=
  known ← gets (fun s => omap_get conflictId (Coordinator.conflicts s));
  conflict ← require known (failure ChangeControlErrorCode.conflict_not_found conflictId);
  let updated := conflict <| Conflict.state := ConflictState.resolved |> in
  set_conflict updated;;
  workspace ← gets (fun s => omap_get (Conflict.workspaceId updated) (Coordinator.workspaces s));
  match workspace with
  | None => mret ()
  | Some workspace =>
      conflicts ← gets (fun s => omap_values (Coordinator.conflicts s));
      let hasOpenConflict := existsb (fun candidate =>
        String.eqb (Conflict.workspaceId candidate) (Workspace.id workspace)
        && is_open candidate) conflicts in
      set_workspace (workspace <| Workspace.state :=
        if hasOpenConflict then WorkspaceState.blocked else WorkspaceState.active |>)
  end;;
  mret updated.

(** ** Change Revisions *)

Definition relevant (changeId workspaceId : string) (conflict : Conflict.t) : bool :=
  String.eqb (Conflict.changeId conflict) changeId
  && String.eqb (Conflict.workspaceId conflict) workspaceId.

Definition check_named_conflict (change : Change.t) (workspace : Workspace.t)
    (conflictId : string) : C () :=
  known ← gets (fun s => omap_get conflictId (Coordinator.conflicts s));
  conflict ← require known (failure ChangeControlErrorCode.conflict_not_found (Change.id change));
  throw_if (negb (relevant (Change.id change) (Workspace.id workspace) conflict))
    (failure ChangeControlErrorCode.conflict_change_mismatch (Change.id change)).

(** The snapshots reported by a driver do not cover exactly the mounts. *)
Definition snapshots_invalid (workspace : Workspace.t) (requestedSnapshots : omap string) : bool :=
  let requestedIds := sort_strings (omap_keys requestedSnapshots) in
  let mountedIds := sort_strings (WorkspaceMount.sourceSpaceId <$> Workspace.mounts workspace) in
  negb (length requestedIds =? length mountedIds)%nat
  || existsb (fun p => negb (String.eqb p.1 p.2)) (zip requestedIds mountedIds)
  || existsb blank (omap_values requestedSnapshots).

Definition revision_snapshots (workspace : Workspace.t) (requested : option (omap string)) :
    omap string :=
  omap_from ((fun mount =>
    (WorkspaceMount.sourceSpaceId mount,
     default (WorkspaceMount.snapshotId mount)
       (requested ≫= omap_get (WorkspaceMount.sourceSpaceId mount))))
    <$> Workspace.mounts workspace).

Definition next_revision (input : PublishRevisionInput.t) (change : Change.t)
    (workspace : Workspace.t) (priorRevision : option ChangeRevision.t)
    (relevantConflicts : list Conflict.t) (revisionId : string) : ChangeRevision.t :=
  {|
    ChangeRevision.id := revisionId;
    ChangeRevision.changeId := Change.id change;
    ChangeRevision.projectRevisionId := Workspace.projectRevisionId workspace;
    ChangeRevision.projectViewId := Workspace.projectViewId workspace;
    ChangeRevision.sequence :=
      (default 0 (ChangeRevision.sequence <$> priorRevision) + 1)%Z;
    ChangeRevision.parentRevisionId := ChangeRevision.id <$> priorRevision;
    ChangeRevision.declaredEffects := PublishRevisionInput.declaredEffects input;
    ChangeRevision.baseProjectRevisionId := Some (Workspace.projectRevisionId workspace);
    ChangeRevision.workspaceId := Some (Workspace.id workspace);
    ChangeRevision.sourceSpaceSnapshots :=
      Some (revision_snapshots workspace (PublishRevisionInput.sourceSpaceSnapshots input));
    ChangeRevision.sourceSpaceObservations := None;
    ChangeRevision.mirrorRepositoryObservations := None;
    ChangeRevision.affectedSourceSpaceIds :=
      Some (WorkspaceMount.sourceSpaceId <$> Workspace.mounts workspace);
    ChangeRevision.affectedModuleIds := PublishRevisionInput.affectedModuleIds input;
    ChangeRevision.affectedTargetIds := PublishRevisionInput.affectedTargetIds input;
    ChangeRevision.author :=
      match PublishRevisionInput.actor input with
      | Some actor => Some actor
      | None => Change.author change
      end;
    ChangeRevision.conflictIds :=
      Some (default (Conflict.id <$> relevantConflicts) (PublishRevisionInput.conflictIds input));
    ChangeRevision.kind :=
      Some (default ChangeRevisionKind.implementation (PublishRevisionInput.kind input));
  |}.

Definition publishRevision (input : PublishRevisionInput.t) : C ChangeRevision.t :=
  change ← requireChange (PublishRevisionInput.changeId input);
  workspaceId ← require (truthy_opt
      match PublishRevisionInput.workspaceId input with
      | Some i => Some i
      | None => Change.workspaceId change
      end)
    (failure ChangeControlErrorCode.workspace_not_found (Change.id change));
  workspace ← requireWorkspace (Some workspaceId);
  throw_if (negb (bool_decide (Change.workspaceId change = Some (Workspace.id workspace))))
    (failure ChangeControlErrorCode.change_workspace_mismatch (Change.id change));;
  throw_if (bool_decide (Workspace.state workspace = WorkspaceState.closed))
    (failure ChangeControlErrorCode.workspace_state (Workspace.id workspace));;
  conflicts ← gets (fun s => omap_values (Coordinator.conflicts s));
  let relevantConflicts :=
    List.filter (relevant (Change.id change) (Workspace.id workspace)) conflicts in
  for_each (default [] (PublishRevisionInput.conflictIds input))
    (check_named_conflict change workspace);;
  let openConflicts := List.filter is_open relevantConflicts in
  throw_if (0 <? length openConflicts)%nat
    (change_control (ChangeControlError.mk ChangeControlErrorCode.conflict_open
      (Change.id change) (Conflict.id <$> openConflicts)));;
  revisions ← gets Coordinator.revisions;
  let priorRevision :=
    truthy_opt (Change.latestRevisionId change) ≫= fun i => omap_get i revisions in
  throw_if match PublishRevisionInput.sourceSpaceSnapshots input with
           | Some requestedSnapshots => snapshots_invalid workspace requestedSnapshots
           | None => false
           end
    (failure ChangeControlErrorCode.workspace_source_not_authorized (Change.id change));;
  revisionId ← opaqueId "change-revision";
  let revision := next_revision input change workspace priorRevision relevantConflicts revisionId in
  set_revision revision;;
  set_change (change <| Change.latestRevisionId := Some (ChangeRevision.id revision) |>
                     <| Change.status := ChangeStatus.submitted |>
                     <| Change.workspaceId := Some (Workspace.id workspace) |>);;
  for_each relevantConflicts (fun conflict =>
    if bool_decide (Conflict.state conflict = ConflictState.resolved)
    then set_conflict (conflict <| Conflict.resolutionRevisionId :=
           Some (ChangeRevision.id revision) |>)
    else mret ());;
  mret revision.

(** [rebaseChange] up to its [await] of [createWorkspace], and from there on:
    the Change read before is written back after. *)
Definition rebaseChange_begin (input : RebaseChangeInput.t) :
    C (Change.t * option Workspace.t) :=
  change ← requireChange (RebaseChangeInput.changeId input);
  previousWorkspace ← match truthy_opt (Change.workspaceId change) with
                      | Some i => w ← requireWorkspace (Some i); mret (Some w)
                      | None => mret None
                      end;
  mret (change, previousWorkspace).

Definition rebaseChange_finish (input : RebaseChangeInput.t) (change : Change.t)
    (previousWorkspace : option Workspace.t) (materialized : MaterializedWorkspace.t) :
    C (Workspace.t * ChangeRevision.t) :=
  let rebasedWorkspace := MaterializedWorkspace.workspace materialized
    <| Workspace.changeId := Some (Change.id change) |> in
  set_workspace rebasedWorkspace;;
  set_change (change
    <| Change.baseProjectRevisionId := Workspace.projectRevisionId rebasedWorkspace |>
    <| Change.workspaceId := Some (Workspace.id rebasedWorkspace) |>
    <| Change.status := ChangeStatus.active |>);;
  try_catch
    (revision ← publishRevision {|
       PublishRevisionInput.changeId := Change.id change;
       PublishRevisionInput.workspaceId := Some (Workspace.id rebasedWorkspace);
       PublishRevisionInput.declaredEffects := RebaseChangeInput.declaredEffects input;
       PublishRevisionInput.sourceSpaceSnapshots := None;
       PublishRevisionInput.conflictIds := None;
       PublishRevisionInput.kind := Some ChangeRevisionKind.rebase;
       PublishRevisionInput.actor := None;
       PublishRevisionInput.affectedModuleIds := None;
       PublishRevisionInput.affectedTargetIds := None;
     |};
     match previousWorkspace with
     | Some previous =>
         if negb (String.eqb (Workspace.id previous) (Workspace.id rebasedWorkspace))
         then set_workspace (previous <| Workspace.changeId := None |>
                                      <| Workspace.state := WorkspaceState.closed |>)
         else mret ()
     | None => mret ()
     end;;
     mret (rebasedWorkspace, revision))
    (fun error =>
      modify (fun s => s <| Coordinator.workspaces :=
        omap_delete (Workspace.id rebasedWorkspace) (Coordinator.workspaces s) |>);;
      set_change change;;
      throw error).

(** What [rebaseChange] asks of [createWorkspace]. *)
Definition rebase_workspace (input : RebaseChangeInput.t) : MaterializeWorkspaceInput.t := {|
  MaterializeWorkspaceInput.view := RebaseChangeInput.view input;
  MaterializeWorkspaceInput.sources := RebaseChangeInput.sources input;
  MaterializeWorkspaceInput.mounts := RebaseChangeInput.mounts input;
  MaterializeWorkspaceInput.directory := RebaseChangeInput.directory input;
  MaterializeWorkspaceInput.id := None;
  MaterializeWorkspaceInput.actorId := truthy_opt (RebaseChangeInput.actorId input);
|}.
Definition rebaseChange (input : RebaseChangeInput.t) : C (Workspace.t * ChangeRevision.t) :=
  begun ← rebaseChange_begin input;
  materialized ← createWorkspace (rebase_workspace input);
  rebaseChange_finish input begun.1 begun.2 materialized.

Definition handoffChange (changeId actorId : string) : C Workspace.t :=
  change ← requireChange changeId;
  workspace ← requireWorkspace (Change.workspaceId change);
  let updated := workspace <| Workspace.actorId := Some actorId |> in
  set_workspace updated;;
  mret updated.

Definition revertChange (input : RevertChangeInput.t) : C Change.t :=
  let landedId := RevertChangeInput.landedChangeRevisionId input in
  known ← gets (fun s => omap_get landedId (Coordinator.revisions s));
  landedRevision ← require known (failure ChangeControlErrorCode.revert_source_not_found landedId);
  lineage ← gets (fun s => omap_values (Coordinator.projectRevisions s));
  let wasLanded := existsb (fun revision =>
    bool_decide (ProjectRevision.landedChangeRevisionId revision
                 = Some (ChangeRevision.id landedRevision))) lineage in
  throw_if (negb wasLanded)
    (failure ChangeControlErrorCode.revert_source_not_found (ChangeRevision.id landedRevision));;
  workspace ← match truthy_opt (RevertChangeInput.workspaceId input) with
              | Some i => w ← requireWorkspace (Some i); mret (Some w)
              | None => mret None
              end;
  canonical ← gets Coordinator.canonical;
  match workspace with
  | Some workspace =>
      throw_if (negb (String.eqb (Workspace.projectRevisionId workspace)
                        (ProjectRevision.id canonical)))
        (failure ChangeControlErrorCode.change_revision_base_mismatch (Workspace.id workspace))
  | None => mret ()
  end;;
  changeId ← match RevertChangeInput.id input with
             | Some i => mret i
             | None => opaqueId "change-revert"
             end;
  project ← gets Coordinator.project;
  let change := {|
    Change.id := changeId;
    Change.projectId := Project.id project;
    Change.intentId := RevertChangeInput.intentId input;
    Change.baseProjectRevisionId :=
      default (ProjectRevision.id canonical) (Workspace.projectRevisionId <$> workspace);
    Change.status := ChangeStatus.active;
    Change.latestRevisionId := None;
    Change.workspaceId := Workspace.id <$> workspace;
    Change.revertsChangeRevisionId := Some (ChangeRevision.id landedRevision);
    Change.author := None;
    Change.origin := None;
  |} in
  set_change change;;
  mret change.

(** ** Landing *)

Definition landing_blocked (object : string) : thrown :=
  failure ChangeControlErrorCode.landing_blocked object.

(** One turn of the selection loop. *)
Definition select_member (member : LandingMember.t) : C (Change.t * ChangeRevision.t) :=
  change ← requireChange (LandingMember.changeId member);
  known ← gets (fun s => omap_get (LandingMember.changeRevisionId member) (Coordinator.revisions s));
  revision ← require known (failure ChangeControlErrorCode.change_revision_not_found
    (LandingMember.changeRevisionId member));
  throw_if (negb (String.eqb (ChangeRevision.changeId revision) (Change.id change)))
    (failure ChangeControlErrorCode.change_revision_not_found
      (LandingMember.changeRevisionId member));;
  throw_if (negb (bool_decide (Change.latestRevisionId change = Some (ChangeRevision.id revision))))
    (failure ChangeControlErrorCode.change_revision_not_latest (Change.id change));;
  conflicts ← gets (fun s => omap_values (Coordinator.conflicts s));
  let openConflicts := List.filter (fun conflict =>
    String.eqb (Conflict.changeId conflict) (Change.id change)
    && bool_decide (Some (Conflict.workspaceId conflict) = ChangeRevision.workspaceId revision)
    && is_open conflict) conflicts in
  throw_if (0 <? length openConflicts)%nat
    (change_control (ChangeControlError.mk ChangeControlErrorCode.landing_blocked
      (Change.id change) (Conflict.id <$> openConflicts)));;
  mret (change, revision).

Definition revision_base (revision : ChangeRevision.t) : string :=
  default (ChangeRevision.projectRevisionId revision)
    (ChangeRevision.baseProjectRevisionId revision).

Definition check_base (canonical : ProjectRevision.t) (selected : Change.t * ChangeRevision.t) : C () :=
  throw_if (negb (String.eqb (revision_base selected.2) (ProjectRevision.id canonical))
            || negb (String.eqb (Change.baseProjectRevisionId selected.1)
                       (ProjectRevision.id canonical)))
    (failure ChangeControlErrorCode.change_revision_base_mismatch (Change.id selected.1)).

(** One turn of the inner loop of the composition of snapshots. *)
Definition compose_snapshot (project : Project.t) (canonical : ProjectRevision.t)
    (cohortId : option string) (change : Change.t) (nextSnapshots : omap string)
    (entry : string * string) : C (omap string) :=
  let (sourceSpaceId, snapshotId) := entry in
  throw_if (negb (list_includes (Project.sourceSpaceIds project) sourceSpaceId))
    (failure ChangeControlErrorCode.landing_source_space_invalid (Change.id change));;
  throw_if match omap_get sourceSpaceId nextSnapshots with
           | Some existing =>
               negb (String.eqb existing snapshotId)
               && negb (bool_decide (Some existing =
                    omap_get sourceSpaceId (ProjectRevision.sourceSpaceSnapshots canonical)))
           | None => false
           end
    (landing_blocked (default (Change.id change) cohortId));;
  mret (omap_set sourceSpaceId snapshotId nextSnapshots).

Definition compose_member (project : Project.t) (canonical : ProjectRevision.t)
    (cohortId : option string) (nextSnapshots : omap string)
    (selected : Change.t * ChangeRevision.t) : C (omap string) :=
  fold_each (default [] (ChangeRevision.sourceSpaceSnapshots selected.2))
    (compose_snapshot project canonical cohortId selected.1) nextSnapshots.

Definition landCohort (input : LandCohortInput.t) : C Landing.t :=
  let members := LandCohortInput.members input in
  let cohortId := LandCohortInput.cohortId input in
  throw_if (length members =? 0)%nat (landing_blocked (default "landing" cohortId));;
  throw_if (has_duplicates (LandingMember.changeId <$> members))
    (landing_blocked (default "landing" cohortId));;
  selected ← map_each members select_member;
  canonical ← gets Coordinator.canonical;
  throw_if (negb (String.eqb (ProjectRevision.id canonical)
                    (LandCohortInput.expectedCanonicalProjectRevisionId input)))
    (failure ChangeControlErrorCode.stale_canonical_revision
      (default (default "" (head (Change.id ∘ fst <$> selected))) cohortId));;
  for_each selected (check_base canonical);;
  project ← gets Coordinator.project;
  nextSnapshots ← fold_each selected (compose_member project canonical cohortId)
    (ProjectRevision.sourceSpaceSnapshots canonical);
  let previousProjectRevisionId := ProjectRevision.id canonical in
  let changeIds := Change.id ∘ fst <$> selected in
  let changeRevisionIds := ChangeRevision.id ∘ snd <$> selected in
  next ← createProjectRevision {|
    CreateProjectRevisionInput.projectId := Project.id project;
    CreateProjectRevisionInput.sourceSpaceSnapshots := nextSnapshots;
    CreateProjectRevisionInput.id := None;
    CreateProjectRevisionInput.parentProjectRevisionId := Some previousProjectRevisionId;
    CreateProjectRevisionInput.landedChangeRevisionId := head changeRevisionIds;
    CreateProjectRevisionInput.landedChangeRevisionIds := Some changeRevisionIds;
    CreateProjectRevisionInput.landingCohortId := truthy_opt cohortId;
  |};
  modify (fun s => s
    <| Coordinator.projectRevisions :=
         omap_set (ProjectRevision.id next) next (Coordinator.projectRevisions s) |>
    <| Coordinator.canonical := next |>);;
  for_each selected (fun member =>
    set_change (member.1 <| Change.status := ChangeStatus.landed |>));;
  landingId ← opaqueId "landing";
  mret {|
    Landing.id := landingId;
    Landing.projectId := Project.id project;
    Landing.changeId := default "" (head changeIds);
    Landing.changeRevisionId := default "" (head changeRevisionIds);
    Landing.previousProjectRevisionId := previousProjectRevisionId;
    Landing.projectRevisionId := ProjectRevision.id next;
    Landing.cohortId := truthy_opt cohortId;
    Landing.changeIds := Some changeIds;
    Landing.changeRevisionIds := Some changeRevisionIds;
    Landing.receipt :=
      cat ["compare-and-swap=true; previous="; previousProjectRevisionId; "; next=";
           ProjectRevision.id next; "; changes="; join "," changeIds; "; cohort=";
           default "single-change" cohortId];
  |}.

Definition landChange (changeId changeRevisionId expectedCanonicalProjectRevisionId : string) :
    C Landing.t :=
  landCohort (LandCohortInput.mk None [LandingMember.mk changeId changeRevisionId]
    expectedCanonicalProjectRevisionId).
End coordinator.
