(* ===== verification/ChangeControlFacts.v ===== *)
(** Change control, proved: what a materialized Workspace contains, when a Change
    Revision may be published, what a Landing does, and what no interleaving of
    the coordinator's methods can break. *)

From S2P Require Import Prelude Json Contracts Paths WorkspaceMounts ChangeControl.

(** * Validations write nothing *)

Section frames.
Context `{HH : Host} `{FS : FileSystem}.

Lemma readonly_normalizedFilePath {S} p : readonly (normalizedFilePath (S:=S) p).
Proof. unfold normalizedFilePath. solve_readonly. Qed.
Hint Resolve readonly_normalizedFilePath : anyam_ro.
Lemma readonly_index_source {S} v m x : readonly (index_source (S:=S) v m x).
Proof. unfold index_source. solve_readonly. Qed.
Lemma readonly_resolve_mount {S} v m x : readonly (resolve_mount (S:=S) v m x).
Proof. unfold resolve_mount. solve_readonly. Qed.
Lemma readonly_system_call {S} r : readonly (system_call (S:=S) r).
Proof. unfold system_call. solve_readonly. Qed.
Hint Resolve readonly_index_source readonly_resolve_mount readonly_system_call : anyam_ro.
Lemma readonly_stage_file {S} m t e : readonly (stage_file (S:=S) m t e).
Proof. unfold stage_file. solve_readonly. Qed.
Hint Resolve readonly_stage_file : anyam_ro.

Lemma readonly_requireWorkspace i : readonly (requireWorkspace i).
Proof. unfold requireWorkspace. solve_readonly. Qed.
Lemma readonly_requireChange i : readonly (requireChange i).
Proof. unfold requireChange. solve_readonly. Qed.
Lemma readonly_check_conflict_space p c w i : readonly (check_conflict_space p c w i).
Proof. unfold check_conflict_space. solve_readonly. Qed.
Lemma readonly_check_named_conflict c w i : readonly (check_named_conflict c w i).
Proof. unfold check_named_conflict. solve_readonly. Qed.
Lemma readonly_check_base r x : readonly (check_base r x).
Proof. unfold check_base. solve_readonly. Qed.
Hint Resolve readonly_requireWorkspace readonly_requireChange readonly_check_conflict_space
  readonly_check_named_conflict readonly_check_base : anyam_ro.
Lemma readonly_select_member m : readonly (select_member m).
Proof. unfold select_member. solve_readonly. Qed.
Lemma readonly_compose_member p r k m x : readonly (compose_member p r k m x).
Proof. unfold compose_member, compose_snapshot. solve_readonly. Qed.
Lemma readonly_rebaseChange_begin i : readonly (rebaseChange_begin i).
Proof. unfold rebaseChange_begin. solve_readonly. Qed.
End frames.
#[export] Hint Resolve readonly_normalizedFilePath readonly_index_source readonly_resolve_mount
  readonly_system_call readonly_stage_file readonly_requireWorkspace readonly_requireChange
  readonly_check_conflict_space readonly_check_named_conflict readonly_check_base
  readonly_select_member readonly_compose_member readonly_rebaseChange_begin : anyam_ro.

(** * Landing

    [landable s input selected]: the cohort [input] may land on [s], as the
    Changes and Change Revisions [selected]. *)

Definition selectable (s : Coordinator.t) (member : LandingMember.t)
    (selected : Change.t * ChangeRevision.t) : Prop :=
  omap_get (LandingMember.changeId member) (Coordinator.changes s) = Some selected.1 ∧
  omap_get (LandingMember.changeRevisionId member) (Coordinator.revisions s) = Some selected.2 ∧
  ChangeRevision.changeId selected.2 = Change.id selected.1 ∧
  Change.latestRevisionId selected.1 = Some (ChangeRevision.id selected.2) ∧
  ∀ conflict, conflict ∈ omap_values (Coordinator.conflicts s) →
    Conflict.changeId conflict = Change.id selected.1 →
    ChangeRevision.workspaceId selected.2 = Some (Conflict.workspaceId conflict) →
    Conflict.state conflict ≠ ConflictState.open.

Definition based_on (base : string) (selected : Change.t * ChangeRevision.t) : Prop :=
  revision_base selected.2 = base ∧ Change.baseProjectRevisionId selected.1 = base.

(** The snapshots a cohort carries, in the order it composes them. *)
Definition carried (selected : list (Change.t * ChangeRevision.t)) : list (string * string) :=
  selected ≫= λ m, default [] (ChangeRevision.sourceSpaceSnapshots m.2).
Definition compose (base : omap string) (entries : list (string * string)) : omap string :=
  foldl (λ m e, omap_set e.1 e.2 m) base entries.
(** A Source Space of the project, that no earlier entry has moved elsewhere. *)
Definition composable (spaces : list string) (base : omap string)
    (entries : list (string * string)) : Prop :=
  ∀ before k v after, entries = before ++ (k, v) :: after →
    k ∈ spaces ∧
    ∀ existing, omap_get k (compose base before) = Some existing →
      existing = v ∨ omap_get k base = Some existing.

Record landable (s : Coordinator.t) (input : LandCohortInput.t)
    (selected : list (Change.t * ChangeRevision.t)) : Prop := {
  landable_members : LandCohortInput.members input ≠ [];
  landable_distinct : NoDup (LandingMember.changeId <$> LandCohortInput.members input);
  landable_selected : Forall2 (selectable s) (LandCohortInput.members input) selected;
  landable_expected : ProjectRevision.id (Coordinator.canonical s) =
    LandCohortInput.expectedCanonicalProjectRevisionId input;
  landable_based : ∀ m, m ∈ selected → based_on (ProjectRevision.id (Coordinator.canonical s)) m;
  landable_composable :
    composable (Project.sourceSpaceIds (Coordinator.project s))
      (ProjectRevision.sourceSpaceSnapshots (Coordinator.canonical s)) (carried selected);
}.

(** The canonical Project Revision that a Landing installs. *)
Definition landed_revision `{Host} (w : World) (s : Coordinator.t) (input : LandCohortInput.t)
    (selected : list (Change.t * ChangeRevision.t)) : ProjectRevision.t := {|
  ProjectRevision.id := cat ["project-revision"; ":"; randomUUID (uuids_drawn w)];
  ProjectRevision.projectId := Project.id (Coordinator.project s);
  ProjectRevision.sourceSpaceSnapshots :=
    compose (ProjectRevision.sourceSpaceSnapshots (Coordinator.canonical s)) (carried selected);
  ProjectRevision.parentProjectRevisionId :=
    truthy_opt (Some (LandCohortInput.expectedCanonicalProjectRevisionId input));
  ProjectRevision.landedChangeRevisionId := truthy_opt (head (ChangeRevision.id ∘ snd <$> selected));
  ProjectRevision.landedChangeRevisionIds := Some (ChangeRevision.id ∘ snd <$> selected);
  ProjectRevision.landingCohortId := truthy_opt (truthy_opt (LandCohortInput.cohortId input));
|}.

Definition mark_landed (changes : omap Change.t) (selected : list (Change.t * ChangeRevision.t)) :
    omap Change.t :=
  foldl (λ m x, omap_set (Change.id x.1) (x.1 <| Change.status := ChangeStatus.landed |>) m)
    changes selected.

Definition land `{Host} (w : World) (input : LandCohortInput.t)
    (selected : list (Change.t * ChangeRevision.t)) (s : Coordinator.t) : Coordinator.t :=
  let next := landed_revision w s input selected in
  s <| Coordinator.projectRevisions :=
         omap_set (ProjectRevision.id next) next (Coordinator.projectRevisions s) |>
    <| Coordinator.canonical := next |>
    <| Coordinator.changes := mark_landed (Coordinator.changes s) selected |>.

Section landing.
Context `{HH : Host} `{FS : FileSystem}.
Implicit Types (s : Coordinator.t).

Lemma selectable_fun s m x y : selectable s m x → selectable s m y → x = y.
Proof.
destruct x, y. intros (H1 & H2 & _) (H1' & H2' & _). simpl in *. congruence.
Qed.

Lemma filter_nil_iff {A} (p : A → bool) l : List.filter p l = [] ↔ ∀ x, x ∈ l → p x = false.
Proof.
induction l as [|x l IH]; simpl; [split; [by intros _ ? ?%elem_of_nil|done]|].
destruct (p x) eqn:Hp.
- split; [done|]. intros H. rewrite H in Hp by left. done.
- rewrite IH. split.
  + intros H y [->|]%elem_of_cons; auto.
  + intros H y Hy. apply H. by right.
Qed.
Lemma filter_pos {A} (p : A → bool) l :
  (0 <? length (List.filter p l))%nat = false ↔ ∀ x, x ∈ l → p x = false.
Proof. rewrite <-filter_nil_iff. destruct (List.filter p l); simpl; split; done. Qed.

Lemma wp_requireChange i Q X w s :
  (∀ c, omap_get i (Coordinator.changes s) = Some c → Q c w s) →
  (omap_get i (Coordinator.changes s) = None → ∀ e, X e w s) →
  wp (requireChange i) Q X w s.
Proof. intros HQ HX. unfold requireChange. wp_steps; auto. Qed.
Lemma wp_requireWorkspace i Q X w s :
  (∀ j x, i = Some j → omap_get j (Coordinator.workspaces s) = Some x → Q x w s) →
  (∀ e, X e w s) →
  wp (requireWorkspace i) Q X w s.
Proof.
intros HQ HX. unfold requireWorkspace. wp_steps; auto.
eapply HQ; [|done]. by eapply truthy_opt_Some.
Qed.

Lemma wp_select_member m w s :
  wp (select_member m) (λ x _ s', selectable s' m x) (λ _ _ s', ¬ ∃ x, selectable s' m x) w s.
Proof.
unfold select_member. wp_step. apply wp_requireChange.
2: { intros Hn _ ([c r] & Hc & _). simpl in *. congruence. }
intros c Hc. wp_steps.
- intros ([c' r] & _ & Hr & _). simpl in *. congruence.
- intros ([c' r] & Hc' & Hr & Hid & _). simplify_eq/=.
  rewrite Hid, String.eqb_refl in *. done.
- intros ([c' r] & Hc' & Hr & _ & Hl & _). simplify_eq/=.
  rewrite bool_decide_eq_true_2 in * by done. done.
- apply not_false_iff_true in H2. intros ([c' r] & Hc' & Hr & _ & _ & Hno). simplify_eq/=.
  apply H2, filter_pos. intros k Hk. unfold is_open. rewrite !andb_false_iff, String.eqb_neq.
  rewrite !bool_decide_eq_false.
  destruct (decide (Conflict.changeId k = Change.id c)) as [Hc'|]; [|by left; left].
  destruct (decide (Some (Conflict.workspaceId k) = ChangeRevision.workspaceId a));
    [right|by left; right]. by apply Hno.
- rewrite negb_false_iff, ?String.eqb_eq, ?bool_decide_eq_true in *.
  rewrite filter_pos in *. unfold selectable. split_and!; try done. simpl.
  intros k Hk Hkc Hkw Hopen. apply H2 in Hk. unfold is_open in Hk.
  by rewrite Hkc, String.eqb_refl, !bool_decide_eq_true_2 in Hk.
Qed.

Lemma compose_app base l k : compose base (l ++ k) = compose (compose base l) k.
Proof. apply foldl_app. Qed.
Lemma composable_app spaces base l k :
  composable spaces base (l ++ k) → composable spaces base l.
Proof. intros H b i v a ->. apply (H b i v (a ++ k)). by rewrite <-app_assoc. Qed.
Lemma composable_snoc spaces base l k v :
  composable spaces base (l ++ [(k, v)]) ↔
  composable spaces base l ∧ k ∈ spaces ∧
  ∀ existing, omap_get k (compose base l) = Some existing →
    existing = v ∨ omap_get k base = Some existing.
Proof.
split.
- intros H. split; [by eapply composable_app|]. by apply (H l k v []).
- intros (H & Hk & He) b i v' a Heq. destruct a as [|e a _] using rev_ind.
  + apply app_inj_tail in Heq as [-> [= -> ->]]. done.
  + rewrite app_comm_cons, app_assoc in Heq. apply app_inj_tail in Heq as [-> _].
    by apply (H b i v' a).
Qed.
Lemma carried_snoc l x :
  carried (l ++ [x]) = carried l ++ default [] (ChangeRevision.sourceSpaceSnapshots x.2).
Proof. unfold carried. rewrite bind_app. simpl. by rewrite app_nil_r. Qed.

(** Composing one member after the entries [done]. *)
Lemma wp_compose_member project canonical cohortId x l w s :
  let base := ProjectRevision.sourceSpaceSnapshots canonical in
  let spaces := Project.sourceSpaceIds project in
  let entries := default [] (ChangeRevision.sourceSpaceSnapshots x.2) in
  composable spaces base l →
  wp (compose_member project canonical cohortId (compose base l) x)
    (λ m _ _, composable spaces base (l ++ entries) ∧ m = compose base (l ++ entries))
    (λ _ _ _, ¬ composable spaces base (l ++ entries)) w s.
Proof.
intros base spaces entries Hl. unfold compose_member. fold entries.
apply (wp_fold_each (λ pre m _ _, composable spaces base (l ++ pre) ∧ m = compose base (l ++ pre))).
- intros pre [k v] post m w' s' Hen [Hc ->]. unfold compose_snapshot. fold base spaces.
  wp_steps.
  + rewrite negb_true_iff in *. intros Hall. rewrite Hen, (app_assoc l) in Hall.
    destruct (Hall (l ++ pre) k v post eq_refl) as [Hin _].
    apply list_includes_spec in Hin. congruence.
  + intros Hall. rewrite Hen, (app_assoc l) in Hall.
    destruct (Hall (l ++ pre) k v post eq_refl) as [_ Hex].
    destruct (omap_get k (compose base (l ++ pre))) as [ex|]; [|done].
    destruct (Hex ex eq_refl) as [->|Hb].
    * rewrite String.eqb_refl in *. done.
    * rewrite Hb, (bool_decide_eq_true_2 (Some ex = Some ex)), andb_false_r in * by done. done.
  + rewrite negb_false_iff, list_includes_spec in *. rewrite app_assoc, (compose_app base (l ++ pre)). split; [|done].
    apply composable_snoc. split_and!; [done|done|]. intros ex Hex. rewrite Hex in *.
    apply andb_false_iff in H0 as [Hx|Hx]; rewrite negb_false_iff in Hx.
    * left. by apply String.eqb_eq.
    * right. by rewrite bool_decide_eq_true in Hx.
- naive_solver.
- by rewrite app_nil_r.
Qed.

Lemma wp_compose_all project canonical cohortId selected w s :
  let base := ProjectRevision.sourceSpaceSnapshots canonical in
  let spaces := Project.sourceSpaceIds project in
  wp (fold_each selected (compose_member project canonical cohortId) base)
    (λ m _ _, composable spaces base (carried selected) ∧ m = compose base (carried selected))
    (λ _ _ _, ¬ composable spaces base (carried selected)) w s.
Proof.
intros base spaces.
apply (wp_fold_each (λ pre m _ _, composable spaces base (carried pre) ∧
  m = compose base (carried pre))).
- intros pre x post m w' s' Hl [Hc ->]. eapply wp_mono; [by apply wp_compose_member| |].
  + intros m ? ?. by rewrite carried_snoc.
  + intros ? ? ? Hno Hall. apply Hno. rewrite <-carried_snoc. eapply composable_app.
    unfold carried in *. rewrite <-bind_app, <-app_assoc. simpl. by rewrite <-Hl.
- naive_solver.
- split; [|done]. intros b i v a Heq. by destruct b.
Qed.

Lemma wp_check_based canonical selected w s :
  wp (for_each selected (check_base canonical))
    (λ _ _ _, ∀ m, m ∈ selected → based_on (ProjectRevision.id canonical) m)
    (λ _ _ _, ¬ ∀ m, m ∈ selected → based_on (ProjectRevision.id canonical) m) w s.
Proof.
apply (wp_for_each (λ pre _ _, ∀ m, m ∈ pre → based_on (ProjectRevision.id canonical) m)).
- intros pre x post w' s' Hl Hpre. unfold check_base, based_on. wp_steps.
  + intros Hall. destruct (Hall x) as [H1 H2]; [rewrite Hl; apply elem_of_app; right; left|].
    rewrite H1, H2, String.eqb_refl in *. done.
  + rewrite orb_false_iff, !negb_false_iff, !String.eqb_eq in *.
    intros m [?|Hm%list_elem_of_singleton]%elem_of_app; [by apply Hpre|by subst].
- naive_solver.
- by intros ? ?%elem_of_nil.
Qed.

Lemma run_mark_landed selected w s :
  for_each selected (λ member, set_change (member.1 <| Change.status := ChangeStatus.landed |>)) w s
  = (Ok (), w, s <| Coordinator.changes := mark_landed (Coordinator.changes s) selected |>).
Proof.
revert s. induction selected as [|x l IH]; intros s; [by destruct s|].
cbn [for_each]. unfold mbind, M_bind, set_change, modify at 1. rewrite IH. done.
Qed.
Lemma wp_mark_landed selected Q X w s :
  Q () w (s <| Coordinator.changes := mark_landed (Coordinator.changes s) selected |>) →
  wp (for_each selected (λ member, set_change (member.1 <| Change.status := ChangeStatus.landed |>)))
    Q X w s.
Proof. intros HQ. unfold wp. by rewrite run_mark_landed. Qed.

(** What a Landing reports. *)
Definition reports (w : World) (s : Coordinator.t) (input : LandCohortInput.t)
    (selected : list (Change.t * ChangeRevision.t)) (landing : Landing.t) : Prop :=
  Landing.projectId landing = Project.id (Coordinator.project s) ∧
  Landing.cohortId landing = truthy_opt (LandCohortInput.cohortId input) ∧
  Landing.previousProjectRevisionId landing =
    LandCohortInput.expectedCanonicalProjectRevisionId input ∧
  Landing.projectRevisionId landing = ProjectRevision.id (landed_revision w s input selected) ∧
  Landing.changeIds landing = Some (Change.id ∘ fst <$> selected) ∧
  Landing.changeRevisionIds landing = Some (ChangeRevision.id ∘ snd <$> selected).

Lemma landCohort_spec input w s :
  wp (landCohort input)
    (λ landing w' s', ∃ selected, landable s input selected ∧ s' = land w input selected s ∧
       reports w s input selected landing ∧ w' = mkWorld (2 + uuids_drawn w) (clock_reads w))
    (λ _ w' s', w' = w ∧ s' = s ∧ ¬ ∃ selected, landable s input selected) w s.
Proof.
unfold landCohort. cbv zeta. wp_step. wp_step.
{ split_and!; [done|done|]. intros (sel & [Hne _ _ _ _ _]). by destruct (LandCohortInput.members input). }
wp_step. wp_step.
{ split_and!; [done|done|]. intros (sel & [_ Hd _ _ _ _]). apply has_duplicates_spec in Hd. congruence. }
rewrite has_duplicates_spec in *. wp_step.
eapply wp_readonly_spec; [solve_readonly|apply (wp_map_each (λ m x, selectable s m x)
  (λ _ s', s' = s) (λ _ _ _, ¬ ∃ sel, Forall2 (selectable s) (LandCohortInput.members input) sel)
  _ _ (λ sel _ _, Forall2 (selectable s) (LandCohortInput.members input) sel))|..].
{ intros m w' s' Hm ->. eapply wp_readonly_spec; [solve_readonly|apply wp_select_member|done|].
  intros ? Hno (sel & Hsel). apply Hno. apply list_elem_of_lookup in Hm as [i Hi].
  destruct (Forall2_lookup_l _ _ _ _ _ Hsel Hi) as (x & _ & Hx). eauto. }
{ done. } { done. }
2: { intros e Hno. split_and!; [done|done|]. intros (sel & [_ _ Hsel _ _ _]). eauto. }
intros selected Hsel. cbv beta.
assert (∀ sel, landable s input sel → sel = selected) as Hfun.
{ intros sel []. eapply Forall2_fun; [|done|done]. intros ???. apply selectable_fun. }
wp_step. wp_step. wp_step. wp_step.
{ split_and!; [done|done|]. intros (sel & [_ _ _ He _ _]). rewrite He, String.eqb_refl in *. done. }
rewrite negb_false_iff, String.eqb_eq in *. wp_step.
eapply wp_readonly_spec; [solve_readonly|apply wp_check_based|..].
2: { intros ? Hno. split_and!; [done|done|]. intros (sel & Hsel'). apply Hno.
     rewrite <-(Hfun sel Hsel'). by destruct Hsel'. }
intros ? Hbased. wp_step. wp_step. wp_step.
eapply wp_readonly_spec; [solve_readonly|apply wp_compose_all|..].
2: { intros ? Hno. split_and!; [done|done|]. intros (sel & Hsel'). apply Hno.
     rewrite <-(Hfun sel Hsel'). by destruct Hsel'. }
intros m [Hcomp ->]. cbv beta. unfold createProjectRevision. wp_step. cbn [CreateProjectRevisionInput.id].
wp_step. apply wp_opaqueId. cbv beta. wp_step. wp_step. wp_step.
wp_step. apply wp_mark_landed. wp_step. apply wp_opaqueId. cbv beta. wp_step.
exists selected. split_and!; [by split; auto; destruct (LandCohortInput.members input)| |split_and!|done].
- unfold land, landed_revision. simpl. by rewrite H1.
- done.
- done.
- done.
- done.
- done.
- done.
Qed.
End landing.

(** * Paths stay below their mount *)

Section path_lemmas.

Lemma normalizedFilePath_result {S} v w (s : S) :
  wp (normalizedFilePath v)
    (λ p w' s', w' = w ∧ s' = s ∧ contained_path p)
    (λ _ w' s', w' = w ∧ s' = s) w s.
Proof.
unfold normalizedFilePath. cbv zeta. wp_step. wp_step; [done|]. apply wp_ret.
rewrite !orb_false_iff in *. destruct_and!. rewrite !String.eqb_neq in *. split_and!; [done|done|].
match goal with H : existsb _ _ = false |- _ => apply existsb_false in H; rename H into Hdd end.
assert (Forall (λ x, x ≠ "..") (split char_slash (replace_char char_backslash char_slash v))) as Hdd'.
{ eapply Forall_impl; [done|]. intros x. by rewrite String.eqb_neq. }
edestruct (posix_normalize_plain (replace_char char_backslash char_slash v)) as [Hf Hn]; [done..|].
eexists _, _. split_and!; [done|apply filter_plain_Forall|exact Hn|done].
Qed.

End path_lemmas.

(** ** Staged paths *)

Section staged_paths.

(** A canonical path below a valid mount is the two joined. *)
Lemma staged_path_below m f : relative m → contained_path f →
  staged_path m f = cat [m; "/"; f].
Proof.
intros ((ms & Hm & Hmp & ->) & _) (segs & t & Hne & Hp & -> & _). unfold staged_path.
assert (cat [join "/" ms; "/"; join "/" segs +:+ (if t then "/" else "")] =
  join "/" (ms ++ segs) +:+ (if t then "/" else "")) as ->.
- rewrite join_app by done. by str_simpl.
- apply posix_normalize_canonical; [by apply Forall_app|]. by intros [? ?]%app_eq_nil.
Qed.
End staged_paths.

(** * What materialization produces *)

(** The world only draws. *)
Definition w_le (w w' : World) : Prop := uuids_drawn w ≤ uuids_drawn w'.

Section materialized.
Context `{HH : Host} `{FS : FileSystem}.

(** A mount shows the snapshot of its Source Space that the view discloses, from
    the one source that carries it. *)
Definition mounts_source (input : MaterializeWorkspaceInput.t) (c : WorkspaceMountCandidate.t)
    (mount : WorkspaceMount.t) : Prop :=
  WorkspaceMount.sourceSpaceId mount = WorkspaceMountCandidate.sourceSpaceId c ∧
  WorkspaceMount.mountPath mount = WorkspaceMountCandidate.mountPath c ∧
  omap_get (WorkspaceMountCandidate.sourceSpaceId c)
    (ProjectView.disclosedSourceSpaceSnapshots (MaterializeWorkspaceInput.view input)) =
    Some (WorkspaceMount.snapshotId mount) ∧
  ∃ source, source ∈ MaterializeWorkspaceInput.sources input ∧
    WorkspaceSource.sourceSpaceId source = WorkspaceMount.sourceSpaceId mount ∧
    WorkspaceSource.snapshotId source = WorkspaceMount.snapshotId mount.

Definition below_mount (input : MaterializeWorkspaceInput.t) (mounts : list WorkspaceMount.t)
    (entry : string * string) : Prop :=
  ∃ mount source name file, mount ∈ mounts ∧ source ∈ MaterializeWorkspaceInput.sources input ∧
    WorkspaceSource.sourceSpaceId source = WorkspaceMount.sourceSpaceId mount ∧
    (name, entry.2) ∈ WorkspaceSource.files source ∧ contained_path file ∧
    entry.1 = cat [WorkspaceMount.mountPath mount; "/"; file].

Record materialized (project : Project.t) (input : MaterializeWorkspaceInput.t)
    (m : MaterializedWorkspace.t) : Prop := {
  mat_project :
    ProjectView.projectId (MaterializeWorkspaceInput.view input) = Project.id project;
  mat_mounts : ∃ cs,
    valid_mounts
      (JStr <$> ProjectView.visibleSourceSpaceIds (MaterializeWorkspaceInput.view input))
      (json_mount <$> MaterializeWorkspaceInput.mounts input) cs ∧
    Forall2 (mounts_source input) cs (Workspace.mounts (MaterializedWorkspace.workspace m));
  mat_tree : ∀ entry, entry ∈ MaterializedWorkspace.tree m →
    below_mount input (Workspace.mounts (MaterializedWorkspace.workspace m)) entry;
  mat_active : Workspace.state (MaterializedWorkspace.workspace m) = WorkspaceState.active;
  mat_unbound : Workspace.changeId (MaterializedWorkspace.workspace m) = None;
  mat_revision : Workspace.projectRevisionId (MaterializedWorkspace.workspace m) =
    ProjectView.projectRevisionId (MaterializeWorkspaceInput.view input);
  mat_owned : Workspace.projectId (MaterializedWorkspace.workspace m) = Project.id project;
  mat_absent : stat (MaterializeWorkspaceInput.directory input) = stat_missing;
}.

Context {S : Type}.

Definition indexed (sources : list WorkspaceSource.t) (m : omap WorkspaceSource.t) : Prop :=
  ∀ k source, omap_get k m = Some source →
    source ∈ sources ∧ WorkspaceSource.sourceSpaceId source = k.

Lemma wp_index_sources v sources w (s : S) :
  wp (fold_each sources (index_source v) [])
    (λ m w' s', w' = w ∧ s' = s ∧ indexed sources m) (λ _ w' s', w' = w ∧ s' = s) w s.
Proof.
apply (wp_fold_each (λ pre m w' s', w' = w ∧ s' = s ∧ indexed pre m)); [|done|done].
intros pre x post m w' s' Hl (-> & -> & Hm). unfold index_source. wp_steps; [done|].
split_and!; [done|done|]. intros k source. rewrite omap_get_set. case_decide as Hk.
- intros [= <-]. split; [|done]. apply elem_of_app. right. left.
- intros Hs%Hm. split; [apply elem_of_app; left|]; tauto.
Qed.

Lemma wp_resolve_mounts input sourceById cs w (s : S) :
  indexed (MaterializeWorkspaceInput.sources input) sourceById →
  wp (map_each cs (resolve_mount (MaterializeWorkspaceInput.view input) sourceById))
    (λ mounts w' s', w' = w ∧ s' = s ∧ Forall2 (mounts_source input) cs mounts)
    (λ _ w' s', w' = w ∧ s' = s) w s.
Proof.
intros Hidx.
apply (wp_map_each (mounts_source input) (λ w' s', w' = w ∧ s' = s)); [|naive_solver|done].
intros c w' s' _ [-> ->]. unfold resolve_mount. wp_steps; [done|done|].
rewrite negb_false_iff, bool_decide_eq_true in *. split; [|done].
match goal with H : omap_get _ sourceById = Some _ |- _ => apply Hidx in H as [? Hs] end.
split_and!; simpl; [done|done|done|]. eauto.
Qed.

Lemma wp_system_call r w (s : S) Q X :
  Q () w s → (∀ e, X e w s) → wp (system_call r) Q X w s.
Proof. intros HQ HX. unfold system_call. destruct r; [by apply wp_throw|by apply wp_ret]. Qed.

Lemma wp_stage_mount input sourceById mount mounts tree w (s : S) :
  indexed (MaterializeWorkspaceInput.sources input) sourceById →
  mount ∈ mounts → relative (WorkspaceMount.mountPath mount) →
  (∀ e, e ∈ tree → below_mount input mounts e) →
  wp (fold_each (source_files sourceById mount) (stage_file mount) tree)
    (λ tree' w' s', w' = w ∧ s' = s ∧ ∀ e, e ∈ tree' → below_mount input mounts e)
    (λ _ w' s', w' = w ∧ s' = s) w s.
Proof.
intros Hidx Hmt Hrel Htree.
apply (wp_fold_each (λ _ tree' w' s', w' = w ∧ s' = s ∧ ∀ e, e ∈ tree' → below_mount input mounts e));
  [|naive_solver|done].
clear tree Htree. intros pre [name content] post tree w' s' Hl (-> & -> & Htree). unfold stage_file.
wp_step. eapply wp_mono; [apply normalizedFilePath_result| |done].
intros file w' s' (-> & -> & Hfile). cbv beta zeta. wp_step. wp_step; [done|]. wp_step.
apply wp_system_call; [|done]. wp_step. split_and!; [done|done|].
intros e [He|He%list_elem_of_singleton]%elem_of_app; [by apply Htree|]. subst e.
unfold source_files in Hl. destruct (omap_get _ sourceById) as [source|] eqn:Hg; [|by destruct pre].
apply Hidx in Hg as [Hin Hid]. exists mount, source, name, file. cbn [fst snd].
split_and!; [done|done|done| |done|by apply staged_path_below].
rewrite Hl. apply elem_of_app. right. left.
Qed.

Lemma wp_materializeWorkspace project input w (s : S) :
  wp (materializeWorkspace project input)
    (λ m w' s', s' = s ∧ w_le w w' ∧ materialized project input m)
    (λ _ w' s', w' = w ∧ s' = s) w s.
Proof.
unfold materializeWorkspace. cbv zeta. wp_step. wp_step; [done|].
rewrite negb_false_iff, String.eqb_eq in *. wp_step.
eapply wp_mono; [apply wp_index_sources| |done]. intros sourceById ? ? (-> & -> & Hidx).
cbv beta. wp_step. wp_step.
eapply wp_readonly_spec; [apply readonly_validateWorkspaceMounts|apply wp_validateWorkspaceMounts| |done].
intros cs Hcs. cbv beta. wp_step.
eapply wp_mono; [by apply wp_resolve_mounts| |done]. intros mounts ? ? (-> & -> & Hmounts).
cbv beta. wp_step. apply wp_readonly; [solve_readonly| |done]. intros ? _. wp_step.
destruct (stat _) eqn:Hstat; [by apply wp_throw| |by apply wp_throw]. wp_step. wp_step.
apply wp_system_call; [|done]. wp_step.
assert (∀ mount, mount ∈ mounts → relative (WorkspaceMount.mountPath mount)) as Hrel.
{ intros mount [i Hi]%list_elem_of_lookup. destruct (Forall2_lookup_r _ _ _ _ _ Hmounts Hi) as (c & Hc & _ & -> & _).
  destruct (Forall2_lookup_r _ _ _ _ _ (valid_paths _ _ _ Hcs) Hc) as (v & _ & _ & _ & x & y & _ & _ & _ & Hr). done. }
apply (wp_fold_each (λ _ tree w' s', w' = w ∧ s' = s ∧ ∀ e, e ∈ tree → below_mount input mounts e)).
- intros pre mount post tree w' s' Hl (-> & -> & Htree).
  assert (mount ∈ mounts) by (rewrite Hl; apply elem_of_app; right; left).
  apply wp_stage_mount; auto.
- intros tree ? ? (-> & -> & Htree). wp_step. apply wp_system_call; [|done]. wp_step.
  destruct (MaterializeWorkspaceInput.id input); [wp_step; wp_step|apply wp_opaqueId; wp_step];
    (split_and!; [done|unfold w_le; simpl; lia|]); split; cbn; try done; by exists cs.
- split_and!; [done|done|]. by intros ? ?%elem_of_nil.
Qed.
End materialized.

(** * Every interleaving of the methods

    A coordinator answers calls one after the other, except that
    [rebaseChange] waits for [createWorkspace] with the Change it read still in
    hand: [pending] holds those rebases, with what [createWorkspace] answered once
    it has, and other calls run before and after that. *)

Inductive call :=
| call_createWorkspace (input : MaterializeWorkspaceInput.t)
| call_createChange (input : CreateChangeInput.t)
| call_registerConflict (input : RegisterConflictInput.t)
| call_resolveConflict (conflictId : string)
| call_publishRevision (input : PublishRevisionInput.t)
| call_handoffChange (changeId actorId : string)
| call_revertChange (input : RevertChangeInput.t)
| call_landCohort (input : LandCohortInput.t).

Module System.
Record t := mk {
  world : World;
  state : Coordinator.t;
  pending : list (RebaseChangeInput.t * Change.t * option Workspace.t * option MaterializedWorkspace.t);
}.
End System.

Section interleaving.
Context `{HH : Host} `{FS : FileSystem}.

Definition answer (c : call) : M Coordinator.t thrown () :=
  match c with
  | call_createWorkspace i => createWorkspace i;; mret ()
  | call_createChange i => createChange i;; mret ()
  | call_registerConflict i => registerConflict i;; mret ()
  | call_resolveConflict i => resolveConflict i;; mret ()
  | call_publishRevision i => publishRevision i;; mret ()
  | call_handoffChange i a => handoffChange i a;; mret ()
  | call_revertChange i => revertChange i;; mret ()
  | call_landCohort i => landCohort i;; mret ()
  end.

Inductive step : System.t → System.t → Prop :=
| step_call c w s p o w' s' :
    answer c w s = (o, w', s') →
    step (System.mk w s p) (System.mk w' s' p)
| step_rebase_begin i w s p change previous w' s' :
    rebaseChange_begin i w s = (Ok (change, previous), w', s') →
    step (System.mk w s p) (System.mk w' s' ((i, change, previous, None) :: p))
| step_rebase_create i w s p change previous o w' s' :
    (i, change, previous, None) ∈ p →
    createWorkspace (rebase_workspace i) w s = (o, w', s') →
    step (System.mk w s p)
      (System.mk w' s' (match o with
                        | Ok materialized => (i, change, previous, Some materialized) :: p
                        | Throw _ => p
                        end))
| step_rebase_finish i w s p change previous materialized o w' s' :
    (i, change, previous, Some materialized) ∈ p →
    rebaseChange_finish i change previous materialized w s = (o, w', s') →
    step (System.mk w s p) (System.mk w' s' p).

Definition revision_key (n : nat) : string := cat ["change-revision"; ":"; randomUUID n].
Definition project_revision_key (n : nat) : string := cat ["project-revision"; ":"; randomUUID n].

(** A Change names as latest a known Change Revision of its own. *)
Definition change_ok (revisions : omap ChangeRevision.t) (change : Change.t) : Prop :=
  ∀ i, Change.latestRevisionId change = Some i → ∃ revision,
    omap_get i revisions = Some revision ∧
    ChangeRevision.changeId revision = Change.id change.

(** A Change Revision continues its parent by one. *)
Definition chained (revisions : omap ChangeRevision.t) (revision : ChangeRevision.t) : Prop :=
  match ChangeRevision.parentRevisionId revision with
  | None => ChangeRevision.sequence revision = 1%Z
  | Some p => ∃ parent, omap_get p revisions = Some parent ∧
      ChangeRevision.changeId parent = ChangeRevision.changeId revision ∧
      ChangeRevision.sequence revision = (ChangeRevision.sequence parent + 1)%Z
  end.

(** The lineage of a Project Revision reaches the first one. *)
Inductive descends (root : string) (prs : omap ProjectRevision.t) : string → Prop :=
| descends_root : descends root prs root
| descends_parent k r p :
    omap_get k prs = Some r → ProjectRevision.parentProjectRevisionId r = Some p →
    descends root prs p → descends root prs k.

Definition landed_known (revisions : omap ChangeRevision.t) (r : ProjectRevision.t) : Prop :=
  ∃ ids, ProjectRevision.landedChangeRevisionIds r = Some ids ∧
    ∀ i, i ∈ ids → is_Some (omap_get i revisions).

Record inv (root : ProjectRevision.t) (w : World) (s : Coordinator.t) : Prop := {
  inv_root : omap_get (ProjectRevision.id root) (Coordinator.projectRevisions s) = Some root;
  inv_canonical : omap_get (ProjectRevision.id (Coordinator.canonical s))
    (Coordinator.projectRevisions s) = Some (Coordinator.canonical s);
  inv_lineage : ∀ k r, omap_get k (Coordinator.projectRevisions s) = Some r →
    ProjectRevision.id r = k ∧
    descends (ProjectRevision.id root) (Coordinator.projectRevisions s) k ∧
    (r = root ∨ (∃ n, n < uuids_drawn w ∧ k = project_revision_key n) ∧
       landed_known (Coordinator.revisions s) r);
  inv_changes : ∀ k c, omap_get k (Coordinator.changes s) = Some c →
    Change.id c = k ∧ change_ok (Coordinator.revisions s) c;
  inv_revisions : ∀ k r, omap_get k (Coordinator.revisions s) = Some r →
    ChangeRevision.id r = k ∧ (∃ n, n < uuids_drawn w ∧ k = revision_key n) ∧
    chained (Coordinator.revisions s) r;
}.

(** What never changes once recorded. *)
Record hist (s s' : Coordinator.t) : Prop := {
  hist_revisions : extends (Coordinator.revisions s) (Coordinator.revisions s');
  hist_projectRevisions :
    extends (Coordinator.projectRevisions s) (Coordinator.projectRevisions s');
}.

Definition good (root : ProjectRevision.t) (s : Coordinator.t) (w' : World) (s' : Coordinator.t) :
    Prop := inv root w' s' ∧ hist s s'.

Context (root : ProjectRevision.t).
Implicit Types (s : Coordinator.t).

#[global] Instance hist_preorder : PreOrder hist.
Proof.
split; [by intros s; split|]. intros s1 s2 s3 [] []. split; by etrans.
Qed.

Lemma descends_extends prs prs' i : extends prs prs' → descends (ProjectRevision.id root) prs i →
  descends (ProjectRevision.id root) prs' i.
Proof. intros He. induction 1; econstructor; eauto. Qed.
Lemma change_ok_extends revs revs' c : extends revs revs' → change_ok revs c → change_ok revs' c.
Proof. intros He Hc i Hi. destruct (Hc i Hi) as (r & ? & ?). eauto. Qed.
Lemma chained_extends revs revs' r : extends revs revs' → chained revs r → chained revs' r.
Proof.
intros He. unfold chained. destruct (ChangeRevision.parentRevisionId r); [|done].
intros (q & ? & ? & ?). eauto.
Qed.
Lemma landed_known_extends revs revs' r :
  extends revs revs' → landed_known revs r → landed_known revs' r.
Proof.
intros He (ids & ? & Hk). exists ids. split; [done|]. intros i Hi. destruct (Hk i Hi) as [x ?].
exists x. auto.
Qed.

(** A step that leaves Revisions, Project Revisions and the canonical one. *)
Record same_history (s s' : Coordinator.t) : Prop := {
  same_revisions : Coordinator.revisions s' = Coordinator.revisions s;
  same_projectRevisions : Coordinator.projectRevisions s' = Coordinator.projectRevisions s;
  same_canonical : Coordinator.canonical s' = Coordinator.canonical s;
}.

Lemma good_refl w w' s : inv root w s → w_le w w' → good root s w' s.
Proof.
intros [] Hw. unfold w_le in Hw. split; [|done]. split; [done|done| |done|].
- intros k r Hk. destruct (inv_lineage0 k r Hk) as (? & ? & [?|[(n & ? & ?) ?]]);
    (split_and!; [done..|]); [by left|right]. split; [|done]. exists n. split; [lia|done].
- intros k r Hk. destruct (inv_revisions0 k r Hk) as (? & (n & ? & ?) & ?). split_and!; [done| |done].
  exists n. split; [lia|done].
Qed.

Lemma good_changes w w' s s' : inv root w s → w_le w w' → same_history s s' →
  (∀ k c, omap_get k (Coordinator.changes s') = Some c →
     omap_get k (Coordinator.changes s) = Some c ∨
     Change.id c = k ∧ change_ok (Coordinator.revisions s) c) →
  good root s w' s'.
Proof.
intros Hi Hw [Hr Hp Hc] Hch. destruct (good_refl w w' s Hi Hw) as [[] _].
split; [|by split; rewrite ?Hr, ?Hp]. split; rewrite ?Hr, ?Hp, ?Hc; try done.
intros k c [Hk|?]%Hch; [by apply inv_changes0|done].
Qed.

Lemma change_set_ok changes revs c k c' : change_ok revs c →
  omap_get k (omap_set (Change.id c) c changes) = Some c' →
  omap_get k changes = Some c' ∨ Change.id c' = k ∧ change_ok revs c'.
Proof. intros Hc. rewrite omap_get_set. case_decide; [|auto]. intros [= <-]. auto. Qed.

Lemma change_ok_None revs c : Change.latestRevisionId c = None → change_ok revs c.
Proof. intros Hc i Hi. congruence. Qed.

Lemma w_le_refl w : w_le w w.
Proof. unfold w_le. lia. Qed.
Lemma w_le_draw n w : w_le w (mkWorld (n + uuids_drawn w) (clock_reads w)).
Proof. unfold w_le. simpl. lia. Qed.
Hint Resolve w_le_refl w_le_draw : core.

(** An id given by the caller, or drawn. *)
Lemma wp_given_or_drawn {S E} (i : option string) prefix w (s : S) (Q : string → World → S → Prop)
  (X : E → World → S → Prop) :
  (∀ x w', w_le w w' → Q x w' s) →
  wp match i with Some x => mret x | None => opaqueId prefix end Q X w s.
Proof. intros HQ. destruct i; [by apply wp_ret, HQ|]. apply wp_opaqueId, HQ. auto. Qed.

Lemma wp_createWorkspace input w s : inv root w s →
  wp (createWorkspace input)
    (λ _ w' s', good root s w' s') (λ _ w' s', good root s w' s') w s.
Proof.
intros Hi. pose proof (good_refl w w s Hi (w_le_refl w)) as Hrefl.
unfold createWorkspace. cbv zeta. wp_step. wp_step. wp_step. wp_step; [done|].
wp_step. wp_step. wp_step. wp_step; [done|].
wp_step. apply wp_readonly; [solve_readonly| |done]. intros _ _.
wp_step. eapply wp_mono; [apply wp_materializeWorkspace| |by intros ? ? ? [-> ->]].
intros m w' s' (-> & Hw & _). unfold set_workspace. wp_steps.
apply (good_changes w); [done|done|by split|auto].
Qed.

Lemma wp_createChange input w s : inv root w s →
  wp (createChange input)
    (λ _ w' s', good root s w' s') (λ _ w' s', good root s w' s') w s.
Proof.
intros Hi. pose proof (good_refl w w s Hi (w_le_refl w)) as Hrefl.
unfold createChange. cbv zeta. wp_step. wp_step. wp_step. wp_step; [done|].
wp_step. wp_step; [done|]. wp_step. wp_step; [done|].
wp_step. apply wp_given_or_drawn. intros x w' Hw. unfold set_change, set_workspace. wp_steps.
apply (good_changes w); [done|done|by split|]. intros k c. by apply change_set_ok, change_ok_None.
Qed.

Lemma wp_registerConflict input w s : inv root w s →
  wp (registerConflict input)
    (λ _ w' s', good root s w' s') (λ _ w' s', good root s w' s') w s.
Proof.
intros Hi. assert (∀ w', w_le w w' → good root s w' s) as Hrefl by (intros; by apply good_refl with w).
unfold registerConflict. cbv zeta. wp_step. apply wp_requireChange; [|auto]. intros c Hc.
wp_step. apply wp_requireWorkspace; [|auto]. intros j x _ Hx. wp_step. wp_step; [auto|].
wp_step. wp_step. wp_step. apply wp_readonly; [solve_readonly| |auto]. intros _ _.
wp_step. apply wp_given_or_drawn. intros i w' Hw. wp_step.
apply wp_readonly; [solve_readonly| |auto]. intros paths _. unfold set_conflict, set_workspace.
wp_steps. apply (good_changes w); [done|done|by split|auto].
Qed.

Lemma wp_resolveConflict i w s : inv root w s →
  wp (resolveConflict i)
    (λ _ w' s', good root s w' s') (λ _ w' s', good root s w' s') w s.
Proof.
intros Hi. pose proof (good_refl w w s Hi (w_le_refl w)) as Hrefl.
unfold resolveConflict, set_conflict, set_workspace. cbv zeta. wp_steps; [done|..];
  apply (good_changes w); solve [done|by split|auto].
Qed.

Lemma wp_handoffChange i a w s : inv root w s →
  wp (handoffChange i a)
    (λ _ w' s', good root s w' s') (λ _ w' s', good root s w' s') w s.
Proof.
intros Hi. pose proof (good_refl w w s Hi (w_le_refl w)) as Hrefl.
unfold handoffChange. wp_step. apply wp_requireChange; [|auto]. intros c Hc. wp_step.
apply wp_requireWorkspace; [|auto]. intros j x _ Hx. unfold set_workspace. wp_steps.
apply (good_changes w); [done|done|by split|auto].
Qed.

Lemma wp_revertChange input w s : inv root w s →
  wp (revertChange input)
    (λ _ w' s', good root s w' s') (λ _ w' s', good root s w' s') w s.
Proof.
intros Hi. assert (∀ w', w_le w w' → good root s w' s) as Hrefl by (intros; by apply good_refl with w).
unfold revertChange. cbv zeta. wp_step. wp_step. wp_step. wp_step; [auto|]. wp_step. wp_step.
wp_step. wp_step; [auto|]. wp_step. apply wp_readonly; [solve_readonly| |auto]. intros ws _.
wp_step. wp_step. wp_step. apply wp_readonly; [solve_readonly| |auto]. intros _ _.
wp_step. apply wp_given_or_drawn. intros x w' Hw. unfold set_change. wp_steps.
apply (good_changes w); [done|done|by split|]. intros k c. by apply change_set_ok, change_ok_None.
Qed.

(** ** Publication *)

Definition chosen_workspace (input : PublishRevisionInput.t) (change : Change.t) : option string :=
  truthy_opt match PublishRevisionInput.workspaceId input with
             | Some i => Some i
             | None => Change.workspaceId change
             end.

(** The driver's snapshots name exactly the mounted Source Spaces, none blank. *)
Definition exact_snapshots (workspace : Workspace.t) (snapshots : omap string) : Prop :=
  omap_keys snapshots ≡ₚ (WorkspaceMount.sourceSpaceId <$> Workspace.mounts workspace) ∧
  ∀ v, v ∈ omap_values snapshots → blank v = false.

Record publishable (s : Coordinator.t) (input : PublishRevisionInput.t) (change : Change.t)
    (workspace : Workspace.t) : Prop := {
  pub_change : omap_get (PublishRevisionInput.changeId input) (Coordinator.changes s) = Some change;
  pub_workspace : ∃ i, chosen_workspace input change = Some i ∧
    omap_get i (Coordinator.workspaces s) = Some workspace;
  pub_attached : Change.workspaceId change = Some (Workspace.id workspace);
  pub_not_closed : Workspace.state workspace ≠ WorkspaceState.closed;
  pub_named : ∀ i, i ∈ default [] (PublishRevisionInput.conflictIds input) →
    ∃ conflict, omap_get i (Coordinator.conflicts s) = Some conflict ∧
      relevant (Change.id change) (Workspace.id workspace) conflict = true;
  pub_resolved : ∀ conflict, conflict ∈ omap_values (Coordinator.conflicts s) →
    relevant (Change.id change) (Workspace.id workspace) conflict = true →
    Conflict.state conflict ≠ ConflictState.open;
  pub_snapshots : ∀ snapshots, PublishRevisionInput.sourceSpaceSnapshots input = Some snapshots →
    exact_snapshots workspace snapshots;
}.

(** The Change Revision a publication records, after [prior]. *)
Record published (s : Coordinator.t) (input : PublishRevisionInput.t) (change : Change.t)
    (workspace : Workspace.t) (revision : ChangeRevision.t) : Prop := {
  published_change : ChangeRevision.changeId revision = Change.id change;
  published_base : revision_base revision = Workspace.projectRevisionId workspace;
  published_workspace : ChangeRevision.workspaceId revision = Some (Workspace.id workspace);
  published_parent :
    let prior := truthy_opt (Change.latestRevisionId change) ≫=
                   λ i, omap_get i (Coordinator.revisions s) in
    ChangeRevision.parentRevisionId revision = ChangeRevision.id <$> prior ∧
    ChangeRevision.sequence revision = (default 0 (ChangeRevision.sequence <$> prior) + 1)%Z;
  published_spaces : ∃ snapshots, ChangeRevision.sourceSpaceSnapshots revision = Some snapshots ∧
    ∀ k, is_Some (omap_get k snapshots) ↔
      k ∈ (WorkspaceMount.sourceSpaceId <$> Workspace.mounts workspace);
}.

(** The state after a publication, conflicts aside. *)
Record publication (w : World) (s s' : Coordinator.t) (change : Change.t) (workspace : Workspace.t)
    (revision : ChangeRevision.t) : Prop := {
  pub_key : ChangeRevision.id revision = revision_key (uuids_drawn w);
  pub_revisions : Coordinator.revisions s' =
    omap_set (ChangeRevision.id revision) revision (Coordinator.revisions s);
  pub_changes : Coordinator.changes s' =
    omap_set (Change.id change)
      (change <| Change.latestRevisionId := Some (ChangeRevision.id revision) |>
              <| Change.status := ChangeStatus.submitted |>
              <| Change.workspaceId := Some (Workspace.id workspace) |>) (Coordinator.changes s);
  pub_workspaces : Coordinator.workspaces s' = Coordinator.workspaces s;
  pub_projectRevisions : Coordinator.projectRevisions s' = Coordinator.projectRevisions s;
  pub_canonical : Coordinator.canonical s' = Coordinator.canonical s;
  pub_project : Coordinator.project s' = Coordinator.project s;
}.

Lemma str_app_inj p x y : p +:+ x = p +:+ y → x = y.
Proof. induction p as [|c p IH]; [done|]. rewrite !str_app_cons. intros [= H]. auto. Qed.
Lemma revision_key_inj m n : FreshUUIDs HH → revision_key m = revision_key n → m = n.
Proof.
intros Hf. unfold revision_key. str_simpl. intros H. by repeat injection H as H; apply Hf in H.
Qed.
Lemma project_revision_key_inj m n :
  FreshUUIDs HH → project_revision_key m = project_revision_key n → m = n.
Proof.
intros Hf. unfold project_revision_key. str_simpl. intros H. by repeat injection H as H; apply Hf in H.
Qed.

Lemma zip_differs l k : length l = length k →
  existsb (λ p : string * string, negb (String.eqb p.1 p.2)) (zip l k) = false ↔ l = k.
Proof.
revert k. induction l as [|x l IH]; intros [|y k]; simpl; try done. intros [= Hl].
rewrite orb_false_iff, negb_false_iff, String.eqb_eq, IH by done. naive_solver.
Qed.
Lemma snapshots_invalid_false workspace snapshots :
  snapshots_invalid workspace snapshots = false ↔ exact_snapshots workspace snapshots.
Proof.
unfold snapshots_invalid, exact_snapshots. cbv zeta. rewrite !orb_false_iff, negb_false_iff, Nat.eqb_eq.
rewrite <-sort_strings_eq, (existsb_false blank), Forall_forall. split.
- intros [[Hl Hz] Hb]. split; [|done]. by apply zip_differs.
- intros [He Hb]. split_and!; [by rewrite He| |done]. apply zip_differs; by rewrite He.
Qed.

Lemma revision_snapshots_keys workspace requested k :
  is_Some (omap_get k (revision_snapshots workspace requested)) ↔
    k ∈ (WorkspaceMount.sourceSpaceId <$> Workspace.mounts workspace).
Proof. unfold revision_snapshots. by rewrite omap_from_keys, <-list_fmap_compose. Qed.

Lemma wp_check_named_conflicts change workspace ids w s :
  wp (for_each ids (check_named_conflict change workspace))
    (λ _ _ s', ∀ i, i ∈ ids → ∃ conflict, omap_get i (Coordinator.conflicts s') = Some conflict ∧
      relevant (Change.id change) (Workspace.id workspace) conflict = true)
    (λ _ _ s', ¬ ∀ i, i ∈ ids → ∃ conflict, omap_get i (Coordinator.conflicts s') = Some conflict ∧
      relevant (Change.id change) (Workspace.id workspace) conflict = true) w s.
Proof.
apply (wp_for_each (λ pre _ s', s' = s ∧ ∀ i, i ∈ pre → ∃ conflict,
  omap_get i (Coordinator.conflicts s) = Some conflict ∧
  relevant (Change.id change) (Workspace.id workspace) conflict = true)).
- intros pre i post w' s' Hl [-> Hpre]. assert (i ∈ ids) by (rewrite Hl; apply elem_of_app; right; left).
  unfold check_named_conflict. wp_steps; rewrite ?negb_true_iff, ?negb_false_iff in *.
  + intros Hall. destruct (Hall i) as (c & ? & ?); [done|]. congruence.
  + intros Hall. destruct (Hall i) as (c & ? & ?); [done|]. congruence.
  + split; [done|]. intros j [?|Hj%list_elem_of_singleton]%elem_of_app; [auto|]. subst. eauto.
- by intros w' s' [-> ?].
- split; [done|]. by intros ? ?%elem_of_nil.
Qed.

Lemma wp_resolutions l revision w s (Q : () → World → Coordinator.t → Prop) X :
  (∀ s', (s' <| Coordinator.conflicts := Coordinator.conflicts s |>) = s → Q () w s') →
  wp (for_each l (λ conflict,
    if bool_decide (Conflict.state conflict = ConflictState.resolved)
    then set_conflict (conflict <| Conflict.resolutionRevisionId := Some revision |>)
    else mret ())) Q X w s.
Proof.
intros HQ. apply (wp_for_each (λ _ w' s', w' = w ∧
  (s' <| Coordinator.conflicts := Coordinator.conflicts s |>) = s)).
- intros _ c _ w' s' _ [-> Hs]. case_bool_decide; [|by apply wp_ret].
  unfold set_conflict. apply wp_modify. split; [done|]. rewrite <-Hs at 2. done.
- intros w' s' [-> Hs]. by apply HQ.
- split; [done|]. by destruct s.
Qed.

Lemma wp_requireWorkspace_known j Q X w s :
  truthy_opt (Some j) = Some j →
  (∀ x, omap_get j (Coordinator.workspaces s) = Some x → Q x w s) →
  (omap_get j (Coordinator.workspaces s) = None → ∀ e, X e w s) →
  wp (requireWorkspace (Some j)) Q X w s.
Proof.
intros Hj HQ HX. unfold requireWorkspace. rewrite Hj. wp_steps; try done; simplify_eq; auto.
Qed.

Lemma publishRevision_spec input w s :
  wp (publishRevision input)
    (λ revision w' s', ∃ change workspace, publishable s input change workspace ∧
       published s input change workspace revision ∧
       publication w s s' change workspace revision ∧
       w' = mkWorld (1 + uuids_drawn w) (clock_reads w))
    (λ _ w' s', w' = w ∧ s' = s ∧ ¬ ∃ change workspace, publishable s input change workspace) w s.
Proof.
unfold publishRevision. cbv zeta. wp_step. apply wp_requireChange.
2: { intros Hn _. split_and!; [done|done|]. intros (c & x & []). congruence. }
intros change Hc. wp_step. wp_step.
{ split_and!; [done|done|]. intros (c & x & [? (i & Hi & _) _ _ _ _ _]). simplify_eq.
  unfold chosen_workspace in Hi. congruence. }
pose proof (truthy_opt_id _ _ H) as Ha. rename H into Hch. wp_step.
apply wp_requireWorkspace_known; [done| |].
2: { intros Hn _. split_and!; [done|done|]. intros (c & x & [? (i & Hi & ?) _ _ _ _ _]). simplify_eq.
  unfold chosen_workspace in Hi. congruence. }
intros workspace Hw.
assert (∀ P : Prop, (publishable s input change workspace → P) →
  ¬ P → w = w ∧ s = s ∧ ¬ ∃ c x, publishable s input c x) as Hno.
{ intros P HP HnP. split_and!; [done|done|]. intros (c & x & Hp). apply HnP, HP.
  destruct Hp as [? (i & Hi & ?) ? ? ? ? ?]. simplify_eq. unfold chosen_workspace in Hi.
  assert (i = a) as -> by congruence. simplify_eq. split; eauto. }
wp_step. wp_step; [by apply (Hno (Change.workspaceId change = Some (Workspace.id workspace)));
  [intros []|rewrite negb_true_iff, bool_decide_eq_false in H]|].
rewrite negb_false_iff, bool_decide_eq_true in *. rename H into Hatt.
wp_step. wp_step; [by apply (Hno (Workspace.state workspace ≠ WorkspaceState.closed));
  [intros []|rewrite bool_decide_eq_true in *; tauto]|].
rewrite bool_decide_eq_false in *. rename H into Hstate.
wp_step. wp_step. wp_step.
eapply wp_readonly_spec; [solve_readonly|apply wp_check_named_conflicts| |].
2: { intros e He. exact (Hno _ (pub_named _ _ _ _) He). }
intros ? Hnamed. cbv beta. wp_step. wp_step.
{ apply (Hno _ (pub_resolved _ _ _ _)). apply not_false_iff_true in H. intros Hres. apply H, filter_pos.
  intros c [Hc1 Hc2]%list_elem_of_In%filter_In. apply bool_decide_eq_false.
  apply Hres; [by apply list_elem_of_In|done]. }
rename H into Hopen. rewrite filter_pos in Hopen.
wp_step. wp_step. wp_step. wp_step.
{ destruct (PublishRevisionInput.sourceSpaceSnapshots input) as [snaps|] eqn:Hs; [|done].
  apply (Hno _ (pub_snapshots _ _ _ _)). intros Hex. specialize (Hex snaps Hs).
  apply snapshots_invalid_false in Hex. congruence. }
rename H into Hsnaps.
wp_step. apply wp_opaqueId. cbv beta. unfold set_revision, set_change. wp_step. wp_step. wp_step. wp_step.
wp_step. apply wp_resolutions. intros s' Hs'. wp_step.
exists change, workspace. split_and!; [|split| |done].
- split; try done.
  + eexists. split; [exact Hch|done].
  + intros c Hc1 Hc2. specialize (Hopen c). unfold is_open in Hopen.
    rewrite bool_decide_eq_false in Hopen. apply Hopen.
    apply list_elem_of_In, filter_In. split; [by apply list_elem_of_In|done].
  + intros snaps Hs. rewrite Hs in Hsnaps. by apply snapshots_invalid_false.
- done.
- done.
- done.
- done.
- eexists. split; [done|]. apply revision_snapshots_keys.
- destruct s'. simpl in Hs'. injection Hs' as ???????. subst. by split.
Qed.

(** The next key of a Change Revision names none yet. *)
Lemma fresh_revision_key w s : FreshUUIDs HH → inv root w s →
  omap_get (revision_key (uuids_drawn w)) (Coordinator.revisions s) = None.
Proof.
intros Hfresh Hi. destruct (omap_get _ _) as [r|] eqn:Hr; [|done].
destruct (inv_revisions _ _ _ Hi _ _ Hr) as (_ & (n & Hn & He) & _).
apply revision_key_inj in He; [lia|done].
Qed.

Lemma wp_publishRevision input w s : FreshUUIDs HH → inv root w s →
  wp (publishRevision input)
    (λ _ w' s', good root s w' s') (λ _ w' s', good root s w' s') w s.
Proof.
intros Hfresh Hi. eapply wp_mono; [apply publishRevision_spec| |].
2: { intros ? ? ? (-> & -> & _). by apply good_refl with w. }
intros r w' s' (change & workspace & [Hc _ _ _ _ _ _] & [Hch _ _ [Hpar Hseq] _] &
  [Hk Hrevs Hchs _ Hprs Hcan _] & ->).
assert (omap_get (ChangeRevision.id r) (Coordinator.revisions s) = None) as Hnone
  by (by rewrite Hk; apply fresh_revision_key).
assert (extends (Coordinator.revisions s) (Coordinator.revisions s')) as Hext.
{ rewrite Hrevs. by apply extends_set_fresh. }
destruct (good_refl w _ s Hi (w_le_draw 1 w)) as [[Hroot Hcanon Hlin Hchanges Hrev] _].
destruct (inv_changes _ _ _ Hi _ _ Hc) as [_ Hok].
split; [|split; [done|by rewrite Hprs]]. split; rewrite ?Hprs, ?Hcan; try done.
- intros k p Hp. destruct (Hlin k p Hp) as (? & ? & [?|[? ?]]); split_and!; eauto.
  right. split; [done|]. by eapply landed_known_extends.
- rewrite Hchs. intros k c. rewrite omap_get_set. case_decide as Hkc.
  + intros [= <-]. split; [done|]. intros i [= <-]. exists r. rewrite Hrevs, omap_get_set_eq. done.
  + intros Hg. destruct (Hchanges k c Hg). split; [done|]. by eapply change_ok_extends.
- intros k r'. rewrite Hrevs at 1. rewrite omap_get_set. case_decide as Hkr.
  + intros [= <-]. split_and!; [done| |].
    * exists (uuids_drawn w). split; [simpl; lia|congruence].
    * unfold chained. rewrite Hpar. destruct (truthy_opt (Change.latestRevisionId change)) as [i|] eqn:Hl;
        simpl in *; [|by rewrite Hseq].
      apply truthy_opt_Some in Hl as [Hl _]. destruct (Hok i Hl) as (p & Hp & Hpc).
      rewrite Hp in *. simpl in *. destruct (inv_revisions _ _ _ Hi _ _ Hp) as [Hpi _].
      exists p. split_and!; [rewrite Hpi; by apply Hext|congruence|done].
  + intros Hg. destruct (Hrev k r' Hg) as (? & ? & ?). split_and!; [done|done|]. by eapply chained_extends.
Qed.

(** ** Rebase and Landing *)

Lemma good_trans s s1 w' s' : hist s s1 → good root s1 w' s' → good root s w' s'.
Proof. intros Hh [? ?]. split; [done|by etrans]. Qed.

Lemma wp_rebaseChange_finish input change previous materialized w s :
  FreshUUIDs HH → inv root w s → change_ok (Coordinator.revisions s) change →
  wp (rebaseChange_finish input change previous materialized)
    (λ _ w' s', good root s w' s') (λ _ w' s', good root s w' s') w s.
Proof.
intros Hf Hi Hok. unfold rebaseChange_finish. cbv zeta. set (ws := _ <| Workspace.changeId := _ |>).
set (change' := change <| Change.baseProjectRevisionId := _ |> <| Change.workspaceId := _ |>
  <| Change.status := _ |>).
wp_step. unfold set_workspace at 1. wp_step. wp_step. unfold set_change at 1. wp_step.
set (s1 := _ <| Coordinator.changes := _ |>).
assert (good root s w s1) as [Hi1 Hh1].
{ apply (good_changes w); [done|auto|by split|]. intros k c. by apply change_set_ok. }
clearbody s1. wp_step. wp_step. eapply wp_mono; [by apply wp_publishRevision| |].
- intros r w' s' [Hi' Hh']. cbv beta. wp_step.
  assert (hist s s') as Hh by (by etrans).
  destruct previous as [x|]; [|by wp_steps]. wp_step; [|by wp_steps].
  unfold set_workspace. wp_step. wp_step. apply (good_trans s s'); [done|].
  apply (good_changes w'); [done|auto|by split|auto].
- intros e w' s' [Hi' Hh']. cbv beta. unfold set_change. wp_steps.
  assert (hist s s') as Hh by (by etrans). apply (good_trans s s'); [done|].
  apply (good_changes w'); [done|auto|by split|]. intros k c. apply change_set_ok.
  eapply change_ok_extends; [|done]. apply Hh.
Qed.

Lemma mark_landed_get changes selected k c :
  omap_get k (mark_landed changes selected) = Some c →
  omap_get k changes = Some c ∨
  ∃ x, x ∈ selected ∧ Change.id x.1 = k ∧ c = (x.1 <| Change.status := ChangeStatus.landed |>).
Proof.
unfold mark_landed. revert changes. induction selected as [|x l IH]; intros changes; [by left|].
intros [Hg|(y & ? & ? & ?)]%IH.
- rewrite omap_get_set in Hg. case_decide as Hk; [|by left]. simplify_eq. right. exists x.
  split; [left|done].
- right. exists y. split; [by right|done].
Qed.

Lemma wp_landCohort input w s : FreshUUIDs HH →
  ProjectRevision.id root ≠ "" → (∀ n, ProjectRevision.id root ≠ project_revision_key n) →
  inv root w s →
  wp (landCohort input)
    (λ _ w' s', good root s w' s') (λ _ w' s', good root s w' s') w s.
Proof.
intros Hfresh Hne Hroot Hi. eapply wp_mono; [apply landCohort_spec| |].
2: { intros ? ? ? (-> & -> & _). by apply good_refl with w. }
intros landing w' s' (selected & Hland & -> & _ & ->). destruct Hland as [_ _ Hsel Hexp _ _].
destruct (good_refl w _ s Hi (w_le_draw 2 w)) as [[Hr Hcanon Hlin Hchanges Hrev] _].
set (next := landed_revision w s input selected).
assert (omap_get (ProjectRevision.id next) (Coordinator.projectRevisions s) = None) as Hnone.
{ destruct (omap_get (ProjectRevision.id next) (Coordinator.projectRevisions s)) as [r|] eqn:Hg; [|done].
  destruct (inv_lineage _ _ _ Hi _ _ Hg) as (Hid & _ & [->|[(n & Hn & He) _]]).
  - by destruct (Hroot (uuids_drawn w) Hid).
  - apply project_revision_key_inj in He; [lia|done]. }
assert (extends (Coordinator.projectRevisions s) (Coordinator.projectRevisions (land w input selected s)))
  as Hext by (by apply extends_set_fresh).
assert (∀ x, x ∈ selected → omap_get (Change.id x.1) (Coordinator.changes s) = Some x.1 ∧
  omap_get (ChangeRevision.id x.2) (Coordinator.revisions s) = Some x.2) as Hknown.
{ intros x [i Hx]%list_elem_of_lookup.
  destruct (Forall2_lookup_r _ _ _ _ _ Hsel Hx) as (m & _ & Hc & Hrv & _).
  destruct (Hchanges _ _ Hc) as [-> _]. destruct (Hrev _ _ Hrv) as [-> _]. done. }
split; [|by split]. split; try done.
- by apply Hext.
- apply omap_get_set_eq.
- intros k r. change (Coordinator.projectRevisions (land w input selected s)) with
    (omap_set (ProjectRevision.id next) next (Coordinator.projectRevisions s)).
  rewrite omap_get_set. case_decide as Hk.
  + intros [= <-]. split; [done|]. split.
    * eapply descends_parent; [by rewrite <-Hk; apply omap_get_set_eq| |].
      -- apply truthy_opt_Some. split; [done|]. rewrite <-Hexp.
         destruct (Hlin _ _ Hcanon) as (_ & _ & [->|[(n & _ & ->) _]]); done.
      -- rewrite <-Hexp. eapply descends_extends; [apply Hext|]. by apply (Hlin _ _ Hcanon).
    * right. split; [exists (uuids_drawn w); split; [simpl; lia|done]|].
      eexists. split; [done|]. intros i ([c rv] & -> & Hx)%list_elem_of_fmap.
      destruct (Hknown _ Hx) as [_ ?]. eexists. done.
  + intros Hg. destruct (Hlin k r Hg) as (? & ? & ?). split_and!; [done| |done].
    by eapply descends_extends.
- intros k c [Hg|(x & Hx & <- & ->)]%mark_landed_get; [by apply Hchanges|].
  split; [done|]. destruct (Hknown _ Hx) as [Hg _]. destruct (Hchanges _ _ Hg) as [_ Hok]. done.
Qed.

(** ** Every reachable state *)

Definition system_inv (σ : System.t) : Prop :=
  inv root (System.world σ) (System.state σ) ∧
  ∀ i change previous o, (i, change, previous, o) ∈ System.pending σ →
    change_ok (Coordinator.revisions (System.state σ)) change.

Context (Hfresh : FreshUUIDs HH) (Hnonempty : ProjectRevision.id root ≠ "")
  (Hgiven : ∀ n, ProjectRevision.id root ≠ project_revision_key n).

Lemma good_answer c w s : inv root w s →
  wp (answer c) (λ _ w' s', good root s w' s') (λ _ w' s', good root s w' s') w s.
Proof.
intros Hi. destruct c; cbn [answer]; wp_step.
1: eapply wp_mono; [by apply wp_createWorkspace| |done].
2: eapply wp_mono; [by apply wp_createChange| |done].
3: eapply wp_mono; [by apply wp_registerConflict| |done].
4: eapply wp_mono; [by apply wp_resolveConflict| |done].
5: eapply wp_mono; [by apply wp_publishRevision| |done].
6: eapply wp_mono; [by apply wp_handoffChange| |done].
7: eapply wp_mono; [by apply wp_revertChange| |done].
8: eapply wp_mono; [by apply wp_landCohort| |done].
all: intros; by apply wp_ret.
Qed.

Lemma good_step σ σ' : step σ σ' → system_inv σ →
  system_inv σ' ∧ hist (System.state σ) (System.state σ').
Proof.
intros Hst [Hi Hp]. destruct Hst as [c w s p o w' s' Hrun|i w s p change prev w' s' Hrun
  |i w s p change prev o w' s' Hin Hrun|i w s p change prev mat o w' s' Hin Hrun]; simpl in *.
- pose proof (wp_run _ _ _ _ _ _ _ _ (good_answer c w s Hi) Hrun) as Hg.
  assert (good root s w' s') as [Hi' Hh] by (by destruct o).
  split; [split; [done|]|done]. intros i change prev m Hin. eapply change_ok_extends; [apply Hh|eauto].
- destruct (readonly_rebaseChange_begin i w s) as [o Ho]. rewrite Ho in Hrun. simplify_eq.
  split; [split; [done|]|done]. intros j c x m [[= -> -> -> ->]|Hin]%elem_of_cons; [|by eapply Hp].
  assert (wp (rebaseChange_begin i) (λ a _ s', change_ok (Coordinator.revisions s') a.1)
    (λ _ _ _, True) w' s') as Hwp.
  { unfold rebaseChange_begin. wp_step. apply wp_requireChange; [|done]. intros c Hc. wp_step.
    apply wp_readonly; [solve_readonly| |done]. intros prev' _. wp_step. simpl.
    by apply (inv_changes _ _ _ Hi _ _ Hc). }
  unfold wp in Hwp. by rewrite Ho in Hwp.
- pose proof (wp_run _ _ _ _ _ _ _ _ (wp_createWorkspace (rebase_workspace i) w s Hi) Hrun) as Hg.
  assert (good root s w' s') as [Hi' Hh] by (by destruct o).
  split; [split; [done|]|done]. intros j c x m Hjn. eapply change_ok_extends; [apply Hh|].
  destruct o; [|eauto]. apply elem_of_cons in Hjn as [[= -> -> -> ->]|Hjn]; eauto.
- pose proof (wp_run _ _ _ _ _ _ _ _ (wp_rebaseChange_finish i change prev mat w s Hfresh Hi (Hp _ _ _ _ Hin))
    Hrun) as Hg.
  assert (good root s w' s') as [Hi' Hh] by (by destruct o).
  split; [split; [done|]|done]. intros j c x m Hjn. eapply change_ok_extends; [apply Hh|eauto].
Qed.

Lemma good_steps σ σ' : rtc step σ σ' → system_inv σ →
  system_inv σ' ∧ hist (System.state σ) (System.state σ').
Proof.
induction 1 as [σ|σ1 σ2 σ3 Hst _ IH]; intros Hs; [done|].
destruct (good_step _ _ Hst Hs) as [Hs2 Hh]. destruct (IH Hs2) as [? ?]. split; [done|by etrans].
Qed.

Lemma construct_inv project sourceSpaces w s :
  construct project sourceSpaces root = Ok s → system_inv (System.mk w s []).
Proof.
unfold construct. destruct (negb _); [done|]. intros [= <-].
split; [|by intros ? ? ? ? ?%elem_of_nil]. simpl. split; simpl; try done.
- by rewrite decide_True.
- by rewrite decide_True.
- intros k r. case_decide as Hk; [|done]. intros [= <-]. subst. split_and!; [done| |by left].
  apply descends_root.
Qed.
End interleaving.

(** * A concrete coordinator, for the witnesses

    A project of two Source Spaces, and a Change on each of two Workspaces of
    its first revision: ["c1"] sees both spaces and moves the first, ["c2"] sees
    and moves the second. *)

Module Demo.
#[local] Instance host : Host := example_host.
#[local] Instance fs : FileSystem := {|
  stat := λ _, stat_missing;
  make_staging := λ _, None;
  write_file := λ _ _ _, None;
  publish := λ _ _, None;
|}.

Definition root : ProjectRevision.t := {|
  ProjectRevision.id := "r0";
  ProjectRevision.projectId := "p";
  ProjectRevision.sourceSpaceSnapshots := [("a", "a0"); ("b", "b0")];
  ProjectRevision.parentProjectRevisionId := None;
  ProjectRevision.landedChangeRevisionId := None;
  ProjectRevision.landedChangeRevisionIds := None;
  ProjectRevision.landingCohortId := None;
|}.
Definition view (visible : list string) : ProjectView.t := {|
  ProjectView.id := "v";
  ProjectView.projectId := "p";
  ProjectView.projectRevisionId := "r0";
  ProjectView.projectionId := "all";
  ProjectView.classification := DisclosureClassification.project;
  ProjectView.visibleSourceSpaceIds := visible;
  ProjectView.disclosedSourceSpaceSnapshots :=
    omap_pick (λ k, omap_get k (ProjectRevision.sourceSpaceSnapshots root)) visible;
|}.
Definition workspace_input (id : string) (visible : list string) : MaterializeWorkspaceInput.t := {|
  MaterializeWorkspaceInput.view := view visible;
  MaterializeWorkspaceInput.sources :=
    [WorkspaceSource.mk "a" "a0" [("src\main.ts", "text")]; WorkspaceSource.mk "b" "b0" []];
  MaterializeWorkspaceInput.mounts := (λ k, WorkspaceMountCandidate.mk k k) <$> visible;
  MaterializeWorkspaceInput.directory := "/tmp/w";
  MaterializeWorkspaceInput.id := Some id;
  MaterializeWorkspaceInput.actorId := None;
|}.
Definition change_input (id workspace : string) : CreateChangeInput.t := {|
  CreateChangeInput.intentId := "i";
  CreateChangeInput.workspaceId := workspace;
  CreateChangeInput.id := Some id;
  CreateChangeInput.author := None;
  CreateChangeInput.origin := None;
|}.
Definition publish_input (id : string) (snapshots : omap string) : PublishRevisionInput.t := {|
  PublishRevisionInput.changeId := id;
  PublishRevisionInput.workspaceId := None;
  PublishRevisionInput.declaredEffects := [];
  PublishRevisionInput.sourceSpaceSnapshots := Some snapshots;
  PublishRevisionInput.conflictIds := None;
  PublishRevisionInput.kind := None;
  PublishRevisionInput.actor := None;
  PublishRevisionInput.affectedModuleIds := None;
  PublishRevisionInput.affectedTargetIds := None;
|}.
Definition prepare : list call :=
  [call_createWorkspace (workspace_input "w1" ["a"; "b"]);
   call_createWorkspace (workspace_input "w2" ["b"]);
   call_createChange (change_input "c1" "w1"); call_createChange (change_input "c2" "w2");
   call_publishRevision (publish_input "c1" [("a", "a1"); ("b", "b0")]);
   call_publishRevision (publish_input "c2" [("b", "b1")])].

Definition initial : Coordinator.t :=
  Coordinator.mk (Project.mk "p" "realm" "n" ["a"; "b"]) [] root [("r0", root)] [] [] [] [].

Fixpoint run (calls : list call) (w : World) (s : Coordinator.t) : World * Coordinator.t :=
  match calls with
  | [] => (w, s)
  | c :: calls => let '(_, w', s') := answer c w s in run calls w' s'
  end.
Definition prepared : World * Coordinator.t := Eval vm_compute in run prepare start initial.

Definition cohort (order : list (string * string)) : LandCohortInput.t :=
  LandCohortInput.mk None ((λ p, LandingMember.mk p.1 p.2) <$> order) "r0".
Definition member1 := ("c1", "change-revision:0").
Definition member2 := ("c2", "change-revision:1").
Definition landed : World * Coordinator.t := Eval vm_compute in
  run [call_landCohort (cohort [member1; member2])] prepared.1 prepared.2.

(** The run is one of the interleavings. *)
Lemma run_steps calls w s p :
  rtc step (System.mk w s p) (let '(w', s') := run calls w s in System.mk w' s' p).
Proof.
revert w s. induction calls as [|c calls IH]; intros w s; simpl; [apply rtc_refl|].
destruct (answer c w s) as [[o w'] s'] eqn:Ha. eapply rtc_l; [by eapply step_call|apply IH].
Qed.
Lemma constructed : construct (Project.mk "p" "realm" "n" ["a"; "b"]) [] root = Ok initial.
Proof. done. Qed.
Lemma root_given n : ProjectRevision.id root ≠ project_revision_key n.
Proof. done. Qed.

(** A cohort in one order lands, and in the other is blocked: the untouched
    snapshot that ["c1"] carries counts as a second version of the space that
    ["c2"] has moved. *)
Lemma landing_order :
  (landCohort (cohort [member1; member2]) prepared.1 prepared.2).2 = landed.2 ∧
  (landCohort (cohort [member2; member1]) prepared.1 prepared.2).1.1 =
    Throw (landing_blocked "c1").
Proof. vm_compute. done. Qed.

(** A landed Change Revision that is not the first of its cohort cannot be
    reverted. *)
Lemma revert_second :
  omap_get "c2" (Coordinator.changes landed.2) = Some
    {| Change.id := "c2"; Change.projectId := "p"; Change.intentId := "i";
       Change.baseProjectRevisionId := "r0"; Change.status := ChangeStatus.landed;
       Change.latestRevisionId := Some member2.2; Change.workspaceId := Some "w2";
       Change.revertsChangeRevisionId := None; Change.author := None; Change.origin := None |} ∧
  (revertChange (RevertChangeInput.mk member2.2 "i" None None) landed.1 landed.2).1.1 =
    Throw (change_control (ChangeControlError.mk ChangeControlErrorCode.revert_source_not_found
      member2.2 [])).
Proof. vm_compute. done. Qed.
End Demo.

(** * The theorems *)

Section theorems.
Context `{HH : Host} `{FS : FileSystem}.

Lemma compose_get base entries k :
  omap_get k (compose base entries) =
    match find_last (λ e, String.eqb e.1 k) entries with
    | Some e => Some e.2
    | None => omap_get k base
    end.
Proof.
induction entries as [|[k' v] l IH] using rev_ind; [done|].
rewrite compose_app. cbn [compose foldl fst snd]. rewrite omap_get_set.
unfold find_last in *. rewrite filter_app. destruct (String.eqb_spec k' k) as [->|Hk].
- rewrite decide_True by done. rewrite (filter_cons_True _ _ []) by (simpl; by rewrite String.eqb_refl).
  by rewrite filter_nil, last_snoc.
- rewrite decide_False by done. rewrite (filter_cons_False _ _ []).
  + by rewrite filter_nil, app_nil_r.
  + simpl. by apply String.eqb_neq in Hk as ->.
Qed.

Lemma mark_landed_status selected changes x : x ∈ selected →
  Change.status <$> omap_get (Change.id x.1) (mark_landed changes selected) = Some ChangeStatus.landed.
Proof.
intros Hx. unfold mark_landed. revert changes.
induction selected as [|y l IH] using rev_ind; intros changes; [by apply elem_of_nil in Hx|].
rewrite foldl_app. simpl. rewrite omap_get_set. case_decide; [done|].
apply elem_of_app in Hx as [Hx|Hx%list_elem_of_singleton]; [by apply IH|by subst].
Qed.

End theorems.

(** C3: [landCohort] is all or nothing.  It lands exactly when the cohort is
    landable (distinct Changes, each with its latest Change Revision, no open
    Conflict, the canonical revision still the expected one and the base of all,
    composable snapshots); then the new canonical revision is the expected one
    with, for each Source Space, the last snapshot carried by a member, and
    every member is landed.  Otherwise it throws and changes nothing. *)
Theorem landCohort_all_or_nothing `{HH : Host} input w s :
  wp (landCohort input)
    (λ landing _ s', ∃ selected, landable s input selected ∧
       s' = land w input selected s ∧ reports w s input selected landing ∧
       (∀ k, omap_get k (ProjectRevision.sourceSpaceSnapshots (Coordinator.canonical s')) =
          match find_last (λ e, String.eqb e.1 k) (carried selected) with
          | Some e => Some e.2
          | None => omap_get k (ProjectRevision.sourceSpaceSnapshots (Coordinator.canonical s))
          end) ∧
       ∀ x, x ∈ selected →
         Change.status <$> omap_get (Change.id x.1) (Coordinator.changes s') =
           Some ChangeStatus.landed)
    (λ _ w' s', w' = w ∧ s' = s ∧ ¬ ∃ selected, landable s input selected) w s.
Proof.
eapply wp_mono; [apply landCohort_spec| |done].
intros landing w' s' (selected & Hl & -> & Hr & _). exists selected. split_and!; [done..| |].
- intros k. apply compose_get.
- intros x. apply mark_landed_status.
Qed.

(** C5: history is immutable.  However the methods and the rebases that wait for
    a materialization interleave, a Change Revision and a Project Revision once
    recorded keep their content for ever. *)
Theorem history_immutable `{HH : Host} `{FS : FileSystem} project sourceSpaces root w s0 σ σ' :
  FreshUUIDs HH → ProjectRevision.id root ≠ "" →
  (∀ n, ProjectRevision.id root ≠ project_revision_key n) →
  construct project sourceSpaces root = Ok s0 →
  rtc step (System.mk w s0 []) σ → rtc step σ σ' →
  extends (Coordinator.revisions (System.state σ)) (Coordinator.revisions (System.state σ')) ∧
  extends (Coordinator.projectRevisions (System.state σ))
    (Coordinator.projectRevisions (System.state σ')).
Proof.
intros Hf Hne Hroot Hc H1 H2.
destruct (good_steps root Hf Hne Hroot _ _ H1 (construct_inv root _ _ w _ Hc)) as [Hi _].
by destruct (good_steps root Hf Hne Hroot _ _ H2 Hi) as [_ []].
Qed.

Lemma history_immutable_witness :
  ∃ r, omap_get "change-revision:0" (Coordinator.revisions Demo.landed.2) = Some r ∧
       ChangeRevision.changeId r = "c1".
Proof.
destruct (@history_immutable Demo.host Demo.fs
  (Project.mk "p" "realm" "n" ["a"; "b"]) [] Demo.root start Demo.initial
  (System.mk Demo.prepared.1 Demo.prepared.2 []) (System.mk Demo.landed.1 Demo.landed.2 [])
  example_host_fresh (ltac:(done)) Demo.root_given Demo.constructed
  (Demo.run_steps Demo.prepare start Demo.initial [])
  (Demo.run_steps [call_landCohort (Demo.cohort [Demo.member1; Demo.member2])]
     Demo.prepared.1 Demo.prepared.2 [])) as [H _].
eexists. split; [apply H; reflexivity|reflexivity].
Defined.

(** [publishRevision] publishes exactly when the Workspace is the attached one
    and not closed, every relevant Conflict is resolved and the snapshots name
    exactly the mounts; the revision follows the latest one by one and is based
    on the Workspace's Project Revision.  Otherwise it throws and changes
    nothing. *)
Theorem publishRevision_exact `{HH : Host} input w s :
  wp (publishRevision input)
    (λ revision w' s', ∃ change workspace, publishable s input change workspace ∧
       published s input change workspace revision ∧
       publication w s s' change workspace revision)
    (λ _ w' s', w' = w ∧ s' = s ∧ ¬ ∃ change workspace, publishable s input change workspace) w s.
Proof.
eapply wp_mono; [apply publishRevision_spec| |done]. naive_solver.
Qed.

(** C34: a materialized Workspace mounts every disclosed Source Space once, at
    disjoint relative paths and at the snapshot the view discloses, and every
    file written lies below the mount of the source it comes from; a failure
    leaves the caller's state as it was. *)
Theorem materializeWorkspace_contained `{HH : Host} `{FS : FileSystem} {S} project input w (s : S) :
  wp (materializeWorkspace project input)
    (λ m w' s', s' = s ∧ materialized project input m)
    (λ _ w' s', w' = w ∧ s' = s) w s.
Proof.
eapply wp_mono; [apply wp_materializeWorkspace| |done]. naive_solver.
Qed.

