(* ===== verification/ChangeControlLife.v ===== *)
(** The records of the change control refer to each other in every state that an
    interleaving of its methods reaches: Workspaces and Conflicts, Changes and Change
    Revisions, Project Revisions. *)

From S2P Require Import Prelude Json Contracts Paths WorkspaceMounts ChangeControl ChangeControlFacts.

(** * References *)

Definition knows_change (s : Coordinator.t) (k : string) : Prop := is_Some (omap_get k (Coordinator.changes s)).
Definition knows_project_revision (s : Coordinator.t) (k : string) : Prop :=
  is_Some (omap_get k (Coordinator.projectRevisions s)).

(** A Workspace of the Project, on a recorded Project Revision; the Change that works
    in it is recorded. *)
Record workspace_ok (project : Project.t) (s : Coordinator.t) (x : Workspace.t) : Prop := {
  ws_project : Workspace.projectId x = Project.id project;
  ws_revision : knows_project_revision s (Workspace.projectRevisionId x);
  ws_change : ∀ c, Workspace.changeId x = Some c → knows_change s c;
}.
(** A Change of the Project, based on a recorded Project Revision. *)
Record change_based (project : Project.t) (s : Coordinator.t) (c : Change.t) : Prop := {
  cb_project : Change.projectId c = Project.id project;
  cb_base : knows_project_revision s (Change.baseProjectRevisionId c);
}.
(** A Change Revision of a recorded Change, based on a recorded Project Revision. *)
Record revision_of (s : Coordinator.t) (r : ChangeRevision.t) : Prop := {
  ro_change : knows_change s (ChangeRevision.changeId r);
  ro_base : knows_project_revision s (revision_base r);
}.
(** A Conflict of the Project, of a recorded Change and over Source Spaces of the
    Project; only a resolved one names a Change Revision, a recorded one of the same
    Change from the same Workspace. *)
Record conflict_ok (project : Project.t) (s : Coordinator.t) (c : Conflict.t) : Prop := {
  co_project : Conflict.projectId c = Project.id project;
  co_change : knows_change s (Conflict.changeId c);
  co_spaces : ∀ i, i ∈ Conflict.sourceSpaceIds c → i ∈ Project.sourceSpaceIds project;
  co_resolution : ∀ i, Conflict.resolutionRevisionId c = Some i →
    Conflict.state c = ConflictState.resolved ∧ ∃ r,
      omap_get i (Coordinator.revisions s) = Some r ∧
      ChangeRevision.changeId r = Conflict.changeId c ∧
      ChangeRevision.workspaceId r = Some (Conflict.workspaceId c);
}.

Record refers (project : Project.t) (s : Coordinator.t) : Prop := {
  rf_project : Coordinator.project s = project;
  rf_workspaces : ∀ k x, omap_get k (Coordinator.workspaces s) = Some x →
    Workspace.id x = k ∧ workspace_ok project s x;
  rf_changes : ∀ k c, omap_get k (Coordinator.changes s) = Some c →
    Change.id c = k ∧ change_based project s c;
  rf_revisions : ∀ k r, omap_get k (Coordinator.revisions s) = Some r → revision_of s r;
  rf_conflicts : ∀ k c, omap_get k (Coordinator.conflicts s) = Some c →
    Conflict.id c = k ∧ conflict_ok project s c;
  rf_conflicts_wf : omap_wf (Coordinator.conflicts s);
}.

(** What a later state still knows. *)
Record knows (s s' : Coordinator.t) : Prop := {
  kn_project : Coordinator.project s' = Coordinator.project s;
  kn_changes : ∀ k, knows_change s k → knows_change s' k;
  kn_projectRevisions : ∀ k, knows_project_revision s k → knows_project_revision s' k;
  kn_revisions : extends (Coordinator.revisions s) (Coordinator.revisions s');
}.
#[export] Instance knows_preorder : PreOrder knows.
Proof.
split; [by intros s; split|]. intros s1 s2 s3 [P1 C1 R1 V1] [P2 C2 R2 V2].
split; [congruence|auto|auto|by etrans].
Qed.

Section mono.
Context (project : Project.t) (s s' : Coordinator.t) (Hk : knows s s').
Lemma workspace_ok_mono x : workspace_ok project s x → workspace_ok project s' x.
Proof. intros []. split; [done|by apply Hk|]. intros c Hc. apply Hk. auto. Qed.
Lemma change_based_mono c : change_based project s c → change_based project s' c.
Proof. intros []. split; [done|by apply Hk]. Qed.
Lemma revision_of_mono r : revision_of s r → revision_of s' r.
Proof. intros []. split; by apply Hk. Qed.
Lemma conflict_ok_mono c : conflict_ok project s c → conflict_ok project s' c.
Proof.
intros [? ? ? Hr]. split; [done|by apply Hk|done|]. intros i Hi. destruct (Hr i Hi) as (? & r & ? & ? & ?).
split; [done|]. exists r. split_and!; [by apply Hk|done|done].
Qed.

(** A step that only writes records that refer to what is known. *)
Lemma refers_step : refers project s →
  (∀ k x, omap_get k (Coordinator.workspaces s') = Some x →
     omap_get k (Coordinator.workspaces s) = Some x ∨ Workspace.id x = k ∧ workspace_ok project s' x) →
  (∀ k c, omap_get k (Coordinator.changes s') = Some c →
     omap_get k (Coordinator.changes s) = Some c ∨ Change.id c = k ∧ change_based project s' c) →
  (∀ k r, omap_get k (Coordinator.revisions s') = Some r →
     omap_get k (Coordinator.revisions s) = Some r ∨ revision_of s' r) →
  (∀ k c, omap_get k (Coordinator.conflicts s') = Some c →
     omap_get k (Coordinator.conflicts s) = Some c ∨ Conflict.id c = k ∧ conflict_ok project s' c) →
  omap_wf (Coordinator.conflicts s') →
  refers project s'.
Proof.
intros [Hp Hw Hc Hr Hcf Hwf] Hw' Hc' Hr' Hcf' Hwf'. split; [| | | | |done].
- rewrite <-Hp. apply Hk.
- intros k x [H|H]%Hw'; [|done]. destruct (Hw _ _ H). split; [done|by apply workspace_ok_mono].
- intros k x [H|H]%Hc'; [|done]. destruct (Hc _ _ H). split; [done|by apply change_based_mono].
- intros k x [H|H]%Hr'; [|done]. by eapply revision_of_mono, Hr.
- intros k x [H|H]%Hcf'; [|done]. destruct (Hcf _ _ H). split; [done|by apply conflict_ok_mono].
Qed.
End mono.

Lemma set_get {V} (key : V → string) (P : V → Prop) k v v' (m : omap V) :
  P v → omap_get k (omap_set (key v) v m) = Some v' → omap_get k m = Some v' ∨ key v' = k ∧ P v'.
Proof. intros Hv. rewrite omap_get_set. case_decide; [|auto]. intros [= <-]. auto. Qed.
Lemma set_known {V} k k' (v : V) (m : omap V) : is_Some (omap_get k m) → is_Some (omap_get k (omap_set k' v m)).
Proof. rewrite omap_get_set. case_decide; [by eexists|done]. Qed.

(** * Each method *)

Section methods.
Context `{HH : Host} `{FS : FileSystem} (root : ProjectRevision.t) (project : Project.t).
Implicit Types (s : Coordinator.t).

Definition kept s s' : Prop := refers project s' ∧ knows s s'.
Lemma kept_refl s : refers project s → kept s s.
Proof. done. Qed.
Lemma kept_trans s1 s2 s3 : knows s1 s2 → kept s2 s3 → kept s1 s3.
Proof. intros H [? ?]. split; [done|by etrans]. Qed.

(** A step that writes Workspaces, Changes or Conflicts, and no Revision. *)
Lemma kept_written s s' : refers project s →
  Coordinator.project s' = Coordinator.project s →
  Coordinator.revisions s' = Coordinator.revisions s →
  Coordinator.projectRevisions s' = Coordinator.projectRevisions s →
  (∀ k, knows_change s k → knows_change s' k) →
  omap_wf (Coordinator.conflicts s') →
  (knows s s' →
    (∀ k x, omap_get k (Coordinator.workspaces s') = Some x →
       omap_get k (Coordinator.workspaces s) = Some x ∨ Workspace.id x = k ∧ workspace_ok project s' x) ∧
    (∀ k c, omap_get k (Coordinator.changes s') = Some c →
       omap_get k (Coordinator.changes s) = Some c ∨ Change.id c = k ∧ change_based project s' c) ∧
    (∀ k c, omap_get k (Coordinator.conflicts s') = Some c →
       omap_get k (Coordinator.conflicts s) = Some c ∨ Conflict.id c = k ∧ conflict_ok project s' c)) →
  kept s s'.
Proof.
intros Hr Hp Hrv Hpr Hc Hwf Hw. assert (knows s s') as Hk.
{ split; [done|done| |by rewrite Hrv]. unfold knows_project_revision. by rewrite Hpr. }
destruct (Hw Hk) as (? & ? & ?). split; [|done].
eapply refers_step; [done|done|done|done| |done|done]. rewrite Hrv. auto.
Qed.

Lemma workspace_known s j x : refers project s → omap_get j (Coordinator.workspaces s) = Some x →
  Workspace.id x = j ∧ workspace_ok project s x.
Proof. intros H. apply H. Qed.
Lemma change_known s j c : refers project s → omap_get j (Coordinator.changes s) = Some c →
  Change.id c = j ∧ change_based project s c ∧ knows_change s (Change.id c).
Proof. intros H Hc. destruct (rf_changes _ _ H _ _ Hc) as [<- ?]. split_and!; [done..|by eexists]. Qed.

(** [set_workspace], of a Workspace that refers to what is recorded. *)
Lemma kept_set_workspace s x : refers project s → workspace_ok project s x →
  kept s (s <| Coordinator.workspaces := omap_set (Workspace.id x) x (Coordinator.workspaces s) |>).
Proof.
intros Hr Hx. apply kept_written; [done|done|done|done|auto|apply Hr|].
intros Hk. split_and!; simpl; [|auto..].
intros k y. apply set_get. by eapply workspace_ok_mono.
Qed.
Lemma kept_set_change s c : refers project s → change_based project s c →
  kept s (s <| Coordinator.changes := omap_set (Change.id c) c (Coordinator.changes s) |>).
Proof.
intros Hr Hx. apply kept_written; [done|done|done|done| |apply Hr|].
- intros k. apply set_known.
- intros Hk. split_and!; simpl; [auto| |auto]. intros k y. apply set_get. by eapply change_based_mono.
Qed.
Lemma kept_set_conflict s c : refers project s → conflict_ok project s c →
  kept s (s <| Coordinator.conflicts := omap_set (Conflict.id c) c (Coordinator.conflicts s) |>).
Proof.
intros Hr Hx. apply kept_written; [done|done|done|done|auto|by apply omap_set_wf, Hr|].
intros Hk. split_and!; simpl; [auto..|].
intros k y. apply set_get. by eapply conflict_ok_mono.
Qed.

Lemma wp_set_workspace x (Q : () → World → Coordinator.t → Prop) X w s :
  refers project s → workspace_ok project s x → (∀ s', kept s s' →
    omap_get (Workspace.id x) (Coordinator.workspaces s') = Some x → Q () w s') →
  wp (set_workspace x) Q X w s.
Proof. intros Hr Hx HQ. apply wp_modify, HQ; [by apply kept_set_workspace|apply omap_get_set_eq]. Qed.
Lemma wp_set_change c (Q : () → World → Coordinator.t → Prop) X w s :
  refers project s → change_based project s c →
  (∀ s', kept s s' → knows_change s' (Change.id c) → Q () w s') → wp (set_change c) Q X w s.
Proof.
intros Hr Hx HQ. apply wp_modify, HQ; [by apply kept_set_change|].
eexists. apply omap_get_set_eq.
Qed.
Lemma wp_set_conflict c (Q : () → World → Coordinator.t → Prop) X w s :
  refers project s → conflict_ok project s c → (∀ s', kept s s' → Q () w s') →
  wp (set_conflict c) Q X w s.
Proof. intros Hr Hx HQ. apply wp_modify, HQ. by apply kept_set_conflict. Qed.

Lemma wp_createWorkspace_refers input w s : refers project s →
  wp (createWorkspace input)
    (λ m _ s', kept s s' ∧ workspace_ok project s' (MaterializedWorkspace.workspace m))
    (λ _ _ s', kept s s') w s.
Proof.
intros Hr. unfold createWorkspace. cbv zeta. wp_step. wp_step. wp_step. wp_step; [done|].
wp_step. wp_step. wp_step. wp_step; [done|]. wp_step. apply wp_readonly; [solve_readonly| |done].
intros _ _. wp_step. eapply wp_mono; [apply wp_materializeWorkspace| |by intros ? ? ? [-> ->]].
intros m w' s' (-> & _ & Hm). cbv beta. wp_step.
assert (workspace_ok project s (MaterializedWorkspace.workspace m)) as Hok.
{ split.
  - rewrite (mat_owned _ _ _ Hm). by rewrite (rf_project _ _ Hr).
  - rewrite (mat_revision _ _ _ Hm). by eexists.
  - rewrite (mat_unbound _ _ _ Hm). done. }
apply wp_set_workspace; [done..|]. intros s' Hs' _. wp_step. split; [done|].
eapply workspace_ok_mono; [apply Hs'|done].
Qed.

Lemma wp_createChange_refers input w s : refers project s →
  wp (createChange input) (λ _ _ s', kept s s') (λ _ _ s', kept s s') w s.
Proof.
intros Hr. unfold createChange. cbv zeta. wp_step. wp_step. wp_step. wp_step; [done|]. rename a into x.
destruct (workspace_known _ _ _ Hr H) as [Hid Hx].
wp_step. wp_step; [done|]. wp_step. wp_step; [done|].
wp_step. apply wp_given_or_drawn. intros i w' Hw. wp_step. wp_step. wp_step.
apply wp_set_change; [done| |].
{ split; simpl; [by rewrite (rf_project _ _ Hr)|apply Hx]. }
intros s1 [Hr1 Hk1] Hc. wp_step. apply wp_set_workspace; [done| |].
{ destruct Hx as [? ? ?]. split; simpl; [done|by apply Hk1|]. by intros ? [= <-]. }
intros s2 Hs2 _. wp_step. by apply (kept_trans _ s1).
Qed.

Lemma wp_registerConflict_refers input w s : refers project s →
  wp (registerConflict input) (λ _ _ s', kept s s') (λ _ _ s', kept s s') w s.
Proof.
intros Hr. unfold registerConflict. cbv zeta. wp_step. apply wp_requireChange; [|done]. intros c Hc.
destruct (change_known _ _ _ Hr Hc) as (_ & _ & Hck).
wp_step. apply wp_requireWorkspace; [|done]. intros j x _ Hx.
destruct (workspace_known _ _ _ Hr Hx) as [_ Hxo]. wp_step. wp_step; [done|]. wp_step. wp_step. wp_step.
apply (wp_for_each_check (λ i, i ∈ Project.sourceSpaceIds project)).
{ intros i _. unfold check_conflict_space. wp_step. wp_step; [done|]. wp_step; [done|].
  rewrite negb_false_iff, list_includes_spec, (rf_project _ _ Hr) in *. done. }
intros Hspaces. wp_step. apply wp_given_or_drawn. intros i w' Hw. wp_step.
apply wp_readonly; [solve_readonly| |done]. intros paths _. wp_step.
apply wp_set_conflict; [done| |].
{ split; simpl; [by rewrite (rf_project _ _ Hr)|done|done|done]. }
intros s1 [Hr1 Hk1]. wp_step. apply wp_set_workspace; [done| |].
{ eapply workspace_ok_mono in Hxo; [|done]. by destruct Hxo. }
intros s2 Hs2 _. wp_step. by apply (kept_trans _ s1).
Qed.

Lemma wp_resolveConflict_refers i w s : refers project s →
  wp (resolveConflict i) (λ _ _ s', kept s s') (λ _ _ s', kept s s') w s.
Proof.
intros Hr. unfold resolveConflict. cbv zeta. wp_step. wp_step. wp_step. wp_step; [done|]. rename a into c.
destruct (rf_conflicts _ _ Hr _ _ H) as [_ Hc]. wp_step.
apply wp_set_conflict; [done| |].
{ destruct Hc as [? ? ? Hres]. split; simpl; [done..|]. intros j Hj. by destruct (Hres j Hj). }
intros s1 Hs1. wp_step. wp_step. wp_step. wp_step; [|wp_step; wp_step; done].
match goal with H : omap_get _ (Coordinator.workspaces _) = Some _ |- _ =>
  destruct (workspace_known _ _ _ (proj1 Hs1) H) as [_ Hx] end.
wp_step. wp_step. apply wp_set_workspace; [apply Hs1|by destruct Hx|]. intros s2 Hs2 _. wp_step.
apply (kept_trans _ s1); [apply Hs1|done].
Qed.

Lemma wp_handoffChange_refers i a w s : refers project s →
  wp (handoffChange i a) (λ _ _ s', kept s s') (λ _ _ s', kept s s') w s.
Proof.
intros Hr. unfold handoffChange. wp_step. apply wp_requireChange; [|done]. intros c Hc. wp_step.
apply wp_requireWorkspace; [|done]. intros j x _ Hx. destruct (workspace_known _ _ _ Hr Hx) as [_ Hxo].
cbv zeta. wp_step. apply wp_set_workspace; [done|by destruct Hxo|]. intros s1 Hs1 _. by wp_step.
Qed.

Lemma wp_revertChange_refers input w s : refers project s →
  knows_project_revision s (ProjectRevision.id (Coordinator.canonical s)) →
  wp (revertChange input) (λ _ _ s', kept s s') (λ _ _ s', kept s s') w s.
Proof.
intros Hr Hcan. unfold revertChange. cbv zeta. wp_step. wp_step. wp_step. wp_step; [done|]. wp_step. wp_step.
wp_step. wp_step; [done|]. wp_step.
eapply (wp_readonly_spec _ (λ o _ _, ∀ x, o = Some x → workspace_ok project s x) (λ _ _ _, True));
  [solve_readonly| | |done].
{ wp_step; [|by wp_step]. wp_step. apply wp_requireWorkspace; [|done]. intros j x _ Hx. wp_step.
  intros ? [= <-]. by apply (workspace_known _ _ _ Hr Hx). }
intros o Ho. cbv beta. wp_step. wp_step. wp_step. apply wp_readonly; [solve_readonly| |done]. intros _ _.
wp_step. apply wp_given_or_drawn. intros i w' Hw. wp_step. wp_step. wp_step. apply wp_set_change; [done| |].
{ split; simpl; [by rewrite (rf_project _ _ Hr)|]. destruct o as [x|]; [|done]. by apply (Ho x). }
intros s1 Hs1 _. by wp_step.
Qed.

(** ** Publication *)

Lemma wp_set_revision r (Q : () → World → Coordinator.t → Prop) X w s :
  refers project s → revision_of s r → omap_get (ChangeRevision.id r) (Coordinator.revisions s) = None →
  (∀ s', kept s s' → omap_get (ChangeRevision.id r) (Coordinator.revisions s') = Some r → Q () w s') →
  wp (set_revision r) Q X w s.
Proof.
intros Hr Hro Hn HQ. apply wp_modify, HQ; [|apply omap_get_set_eq].
match goal with |- kept _ ?s1 => assert (knows s s1) as Hk end.
{ split; simpl; [done|done|done|by apply extends_set_fresh]. }
split; [|done]. eapply refers_step; simpl; [done|done|auto|auto| |auto|apply Hr].
intros k r'. rewrite omap_get_set. case_decide; [|auto]. intros [= <-]. right.
by eapply revision_of_mono.
Qed.

(** The resolved Conflicts of a Change in a Workspace come to name its Change Revision. *)
Lemma wp_resolutions_refers l r w s (Q : () → World → Coordinator.t → Prop) X :
  refers project s → omap_get (ChangeRevision.id r) (Coordinator.revisions s) = Some r →
  (∀ c, c ∈ l → conflict_ok project s c ∧ ChangeRevision.changeId r = Conflict.changeId c ∧
     ChangeRevision.workspaceId r = Some (Conflict.workspaceId c)) →
  (∀ s', kept s s' → Q () w s') →
  wp (for_each l (λ conflict,
    if bool_decide (Conflict.state conflict = ConflictState.resolved)
    then set_conflict (conflict <| Conflict.resolutionRevisionId := Some (ChangeRevision.id r) |>)
    else mret ())) Q X w s.
Proof.
intros Hr Hrev Hl HQ. apply (wp_for_each (λ _ w' s', w' = w ∧ kept s s')).
- intros pre c post w' s' Heq [-> [Hr' Hk]].
  destruct (Hl c) as (Hok & Hc & Hw); [rewrite Heq; apply elem_of_app; right; left|].
  case_bool_decide as Hst; [|by apply wp_ret].
  apply wp_set_conflict; [done| |].
  + apply (conflict_ok_mono _ _ _ Hk) in Hok. destruct Hok. split; simpl; [done..|].
    intros i [= <-]. split; [done|]. exists r. split_and!; [by apply Hk|done|done].
  + intros s2 Hs2. split; [done|]. by apply (kept_trans _ s').
- intros w' s' [-> ?]. auto.
- done.
Qed.

Lemma wp_publishRevision_refers input w s : FreshUUIDs HH → inv root w s → refers project s →
  wp (publishRevision input) (λ _ _ s', kept s s') (λ _ _ s', kept s s') w s.
Proof.
intros Hf Hi Hr. unfold publishRevision. cbv zeta. wp_step. apply wp_requireChange; [|done]. intros c Hc.
destruct (change_known _ _ _ Hr Hc) as (_ & Hcb & Hck). wp_step. wp_step; [done|]. wp_step.
apply wp_requireWorkspace; [|done]. intros j x _ Hx. destruct (workspace_known _ _ _ Hr Hx) as [_ Hxo].
wp_step. wp_step; [done|]. wp_step. wp_step; [done|]. wp_step. wp_step. wp_step.
apply wp_readonly; [solve_readonly| |done]. intros _ _. wp_step. wp_step; [done|]. wp_step. wp_step.
wp_step. wp_step; [done|]. wp_step. apply wp_opaqueId. cbv beta. wp_step.
set (r := next_revision _ _ _ _ _ _).
apply wp_set_revision; [done|by split; simpl; [|apply Hxo]|by apply (fresh_revision_key root)|].
intros s1 [Hr1 Hk1] Hrev. wp_step. apply wp_set_change; [done| |].
{ apply (change_based_mono _ _ _ Hk1) in Hcb. by destruct Hcb. }
intros s2 [Hr2 Hk2] _. wp_step. apply (wp_resolutions_refers _ r); [done|by apply Hk2| |].
- intros k [Hin Hrel]%list_elem_of_In%filter_In. apply list_elem_of_In in Hin.
  apply omap_value_get in Hin as [i Hi']; [|apply Hr]. destruct (rf_conflicts _ _ Hr _ _ Hi') as [_ Hko].
  unfold relevant in Hrel. rewrite andb_true_iff, !String.eqb_eq in Hrel. destruct Hrel as [-> ->].
  split_and!; [|done|done]. eapply conflict_ok_mono; [|done]. by etrans.
- intros s3 Hs3. wp_step. apply (kept_trans _ s2); [by etrans|done].
Qed.

(** ** Rebase and Landing *)

Lemma wp_rebaseChange_begin_refers input w s : refers project s →
  wp (rebaseChange_begin input)
    (λ a _ s', s' = s ∧ change_based project s a.1 ∧ knows_change s (Change.id a.1) ∧
       ∀ x, a.2 = Some x → workspace_ok project s x)
    (λ _ _ s', s' = s) w s.
Proof.
intros Hr. unfold rebaseChange_begin. wp_step. apply wp_requireChange; [|done]. intros c Hc.
destruct (change_known _ _ _ Hr Hc) as (_ & Hcb & Hck). wp_step. wp_step.
- wp_step. apply wp_requireWorkspace; [|done]. intros j x _ Hx. wp_step. wp_step. split_and!; [done..|].
  intros ? [= <-]. by apply (workspace_known _ _ _ Hr Hx).
- wp_step. wp_step. done.
Qed.

Lemma wp_rebaseChange_finish_refers input change previous m w s :
  FreshUUIDs HH → inv root w s → change_ok (Coordinator.revisions s) change → refers project s →
  change_based project s change → knows_change s (Change.id change) →
  (∀ x, previous = Some x → workspace_ok project s x) →
  workspace_ok project s (MaterializedWorkspace.workspace m) →
  wp (rebaseChange_finish input change previous m) (λ _ _ s', kept s s') (λ _ _ s', kept s s') w s.
Proof.
intros Hf Hi Hok Hr Hcb Hck Hprev Hm. unfold rebaseChange_finish. cbv zeta.
set (ws := MaterializedWorkspace.workspace m <| Workspace.changeId := Some (Change.id change) |>).
assert (workspace_ok project s ws) as Hws.
{ destruct Hm. split; simpl; [done|done|]. by intros ? [= <-]. }
set (change' := change <| Change.baseProjectRevisionId := _ |> <| Change.workspaceId := _ |>
  <| Change.status := _ |>).
wp_step. unfold set_workspace at 1. wp_step. wp_step. unfold set_change at 1. wp_step.
set (s1 := _ <| Coordinator.changes := _ |>).
assert (good root s w s1) as [Hi1 Hh1].
{ apply (good_changes root w); [done|apply w_le_refl|by split|]. intros k c. by apply change_set_ok. }
assert (kept s s1) as [Hr1 Hk1].
{ destruct (kept_set_workspace s ws Hr Hws) as [Hr' Hk'].
  apply (kept_trans _ _ _ Hk'). apply (kept_set_change _ change' Hr').
  destruct Hcb. split; simpl; [done|]. apply Hws. }
clearbody s1. wp_step. wp_step. eapply wp_mono; [by apply wp_publishRevision_refers|..].
- intros r w' s' [Hr' Hk']. cbv beta. assert (knows s s') as Hk by (by etrans). wp_step.
  destruct previous as [x|]; [|by wp_steps]. wp_step; [|by wp_steps].
  apply wp_set_workspace; [done| |].
  + destruct (workspace_ok_mono _ _ _ Hk _ (Hprev x eq_refl)). by split.
  + intros s2 Hs2 _. wp_step. by apply (kept_trans _ s').
- intros e w' s' [Hr' Hk']. cbv beta. assert (knows s s') as Hk by (by etrans). wp_step. wp_step. wp_step.
  set (s2 := _ <| Coordinator.workspaces := _ |>).
  assert (kept s' s2) as [Hr2 Hk2].
  { apply kept_written; [done..|auto|apply Hr'|]. intros _. split_and!; simpl; [|auto..].
    intros k y. rewrite omap_get_delete. case_decide; [done|auto]. }
  clearbody s2. assert (knows s s2) as Hk0 by (by etrans).
  apply wp_set_change; [done|by eapply change_based_mono|]. intros s3 Hs3 _. wp_step.
  by apply (kept_trans _ s2).
Qed.

Lemma mark_landed_known changes selected k :
  is_Some (omap_get k changes) → is_Some (omap_get k (mark_landed changes selected)).
Proof.
unfold mark_landed. revert changes. induction selected as [|x l IH]; intros changes H; [done|].
apply IH, set_known, H.
Qed.

Lemma wp_landCohort_refers input w s : FreshUUIDs HH → inv root w s → refers project s →
  wp (landCohort input) (λ _ _ s', kept s s') (λ _ _ s', kept s s') w s.
Proof.
intros Hf Hi Hr. eapply wp_mono; [apply landCohort_spec| |by intros ? ? ? (_ & -> & _)].
intros landing w' s' (selected & [_ _ Hsel _ _ _] & -> & _).
assert (knows s (land w input selected s)) as Hk.
{ split; [done|intros k; apply mark_landed_known|intros k; apply set_known|done]. }
split; [|done]. eapply refers_step; [done|done|auto| |auto|auto|apply Hr].
intros k c [Hg|(x & Hx & <- & ->)]%mark_landed_get; [auto|]. right. split; [done|].
apply list_elem_of_lookup in Hx as [i Hx].
destruct (Forall2_lookup_r _ _ _ _ _ Hsel Hx) as (m & _ & Hc & _).
destruct (change_known _ _ _ Hr Hc) as (_ & Hcb & _). apply (change_based_mono _ _ _ Hk) in Hcb.
by destruct Hcb.
Qed.

(** * Every reachable state *)

Context (Hfresh : FreshUUIDs HH) (Hnonempty : ProjectRevision.id root ≠ "")
  (Hgiven : ∀ n, ProjectRevision.id root ≠ project_revision_key n).

Lemma answer_refers c w s : inv root w s → refers project s →
  wp (answer c) (λ _ _ s', kept s s') (λ _ _ s', kept s s') w s.
Proof.
intros Hi Hr. destruct c; cbn [answer]; wp_step.
1: eapply wp_mono; [by apply wp_createWorkspace_refers| |done].
2: eapply wp_mono; [by apply wp_createChange_refers| |done].
3: eapply wp_mono; [by apply wp_registerConflict_refers| |done].
4: eapply wp_mono; [by apply wp_resolveConflict_refers| |done].
5: eapply wp_mono; [by apply wp_publishRevision_refers| |done].
6: eapply wp_mono; [by apply wp_handoffChange_refers| |done].
7: eapply wp_mono; [apply wp_revertChange_refers; [done|eexists; by apply Hi]| |done].
8: eapply wp_mono; [by apply wp_landCohort_refers| |done].
all: intros a w2 s2 Ha; apply wp_ret; first [exact Ha|exact (proj1 Ha)].
Qed.

(** A rebase that waits holds records that refer to what is recorded. *)
Record held_ok s (change : Change.t) (previous : option Workspace.t)
    (materialized : option MaterializedWorkspace.t) : Prop := {
  ho_change : change_based project s change;
  ho_known : knows_change s (Change.id change);
  ho_previous : ∀ x, previous = Some x → workspace_ok project s x;
  ho_materialized : ∀ m, materialized = Some m → workspace_ok project s (MaterializedWorkspace.workspace m);
}.
Lemma held_ok_mono s s' c p m : knows s s' → held_ok s c p m → held_ok s' c p m.
Proof.
intros Hk []. split; [by eapply change_based_mono|by apply Hk|..]; intros; eapply workspace_ok_mono; eauto.
Qed.
Definition system_refers (σ : System.t) : Prop :=
  refers project (System.state σ) ∧
  ∀ i c p m, (i, c, p, m) ∈ System.pending σ → held_ok (System.state σ) c p m.

Lemma refers_system_step σ σ' : step σ σ' → system_inv root σ → system_refers σ → system_refers σ'.
Proof.
intros Hst [Hi Hp] [Hr Hh]. destruct Hst as [c w s p o w' s' Hrun|i w s p change prev w' s' Hrun
  |i w s p change prev o w' s' Hin Hrun|i w s p change prev mat o w' s' Hin Hrun]; simpl in *.
- pose proof (wp_run _ _ _ _ _ _ _ _ (answer_refers c w s Hi Hr) Hrun) as Hg.
  assert (kept s s') as [Hr' Hk] by (by destruct o).
  split; [done|]. intros. eapply held_ok_mono; eauto.
- pose proof (wp_Ok _ _ _ _ _ _ _ _ (wp_rebaseChange_begin_refers i w s Hr) Hrun) as (-> & Hc & Hk & Hx).
  split; [done|]. intros ? ? ? ? [[= -> -> -> ->]|Hin]%elem_of_cons; [by split|by eapply Hh].
- pose proof (wp_run _ _ _ _ _ _ _ _ (wp_createWorkspace_refers (rebase_workspace i) w s Hr) Hrun) as Hg.
  destruct o as [m|e].
  + destruct Hg as [[Hr' Hk] Hm]. split; [done|].
    intros ? ? ? ? [[= -> -> -> ->]|Hjn]%elem_of_cons; [|eapply held_ok_mono; [done|by eapply Hh]].
    destruct (held_ok_mono _ _ _ _ _ Hk (Hh _ _ _ _ Hin)). split; [done..|]. by intros ? [= <-].
  + destruct Hg as [Hr' Hk]. split; [done|]. intros. eapply held_ok_mono; eauto.
- destruct (Hh _ _ _ _ Hin) as [Hc Hk Hx Hm].
  pose proof (wp_run _ _ _ _ _ _ _ _ (wp_rebaseChange_finish_refers i change prev mat w s Hfresh Hi
    (Hp _ _ _ _ Hin) Hr Hc Hk Hx (Hm _ eq_refl)) Hrun) as Hg.
  assert (kept s s') as [Hr' Hk'] by (by destruct o).
  split; [done|]. intros. eapply held_ok_mono; eauto.
Qed.

Lemma refers_system_steps σ σ' : rtc step σ σ' → system_inv root σ → system_refers σ →
  system_inv root σ' ∧ system_refers σ'.
Proof.
induction 1 as [σ|σ1 σ2 σ3 Hst _ IH]; intros Hi Hr; [done|]. apply IH.
- by destruct (good_step root Hfresh Hnonempty Hgiven _ _ Hst Hi).
- by eapply refers_system_step.
Qed.

Lemma construct_refers sourceSpaces w s :
  construct project sourceSpaces root = Ok s → system_refers (System.mk w s []).
Proof.
unfold construct. destruct (negb _); [done|]. intros [= <-].
split; [|by intros ? ? ? ? ?%elem_of_nil]. simpl. split; simpl; try done. apply omap_nil_wf.
Qed.
End methods.

(** * The theorem *)

(** C4: in every state that an interleaving of the methods reaches, the records refer
    to each other as they should. The canonical Project Revision is recorded, every
    Project Revision descends from the first one and names recorded Change Revisions, a
    Change's latest Change Revision is a recorded one of its own, and a Change Revision
    follows its parent, of the same Change, by one ([inv]). A Workspace is recorded under
    its id, belongs to the Project, is on a recorded Project Revision and, when a Change
    works in it, that Change is recorded; a Change is on a recorded Project Revision; a
    Change Revision is of a recorded Change; a Conflict is recorded under its id, belongs
    to the Project, is of a recorded Change and names Source Spaces of the Project, and
    when it names a Change Revision it is resolved, and that revision is a recorded one
    of the same Change, made in the Conflict's Workspace ([refers]).
    The Workspace that a Change or a Conflict names may be gone: [rebaseChange] removes
    the Workspace it made when it fails. *)
Theorem records_consistent `{HH : Host} `{FS : FileSystem} project sourceSpaces root w s0 σ :
  FreshUUIDs HH → ProjectRevision.id root ≠ "" →
  (∀ n, ProjectRevision.id root ≠ project_revision_key n) →
  construct project sourceSpaces root = Ok s0 → rtc step (System.mk w s0 []) σ →
  inv root (System.world σ) (System.state σ) ∧ refers project (System.state σ).
Proof.
intros Hf Hne Hroot Hc Hσ.
destruct (refers_system_steps root project Hf Hne Hroot _ _ Hσ (construct_inv root _ _ w _ Hc)
  (construct_refers root project _ w _ Hc)) as [[Hi _] [Hr _]].
done.
Qed.

Lemma records_consistent_witness :
  ∃ x, omap_get "w1" (Coordinator.workspaces Demo.landed.2) = Some x ∧
    workspace_ok (Project.mk "p" "realm" "n" ["a"; "b"]) Demo.landed.2 x ∧
    descends "r0" (Coordinator.projectRevisions Demo.landed.2) "project-revision:2".
Proof.
pose proof (@records_consistent Demo.host Demo.fs
  (Project.mk "p" "realm" "n" ["a"; "b"]) [] Demo.root start Demo.initial
  (System.mk Demo.landed.1 Demo.landed.2 [])
  example_host_fresh (ltac:(done)) Demo.root_given Demo.constructed
  (Demo.run_steps (Demo.prepare ++ [call_landCohort (Demo.cohort [Demo.member1; Demo.member2])])
     start Demo.initial [])) as [Hi Hr].
eexists. split_and!; [reflexivity|apply (rf_workspaces _ _ Hr "w1"); reflexivity|].
eapply (inv_lineage _ _ _ Hi). reflexivity.
Defined.
