(* ===== verification/TargetDeployments.v ===== *)
(** Target Deployment Profiles, src/delivery/target-deployment.ts: the profile of
    a Target and its digest, whether a Target may be promoted to, and that two
    Targets share no resource without one policy both owners approved. *)

From S2P Require Import Prelude Json Contracts ContractsJson.

(** * Data *)

Module TargetDeploymentProfileErrorCode.
Inductive t := invalid_profile | incomplete_profile | resource_conflict.
#[global] Instance t_eq_dec : EqDecision t.
Proof. solve_decision. Defined.
End TargetDeploymentProfileErrorCode.

(** The Promotion coordinator copies the texts of this error into its records,
    so they are kept. *)
Module TargetDeploymentProfileError.
Record t := mk {
  code : TargetDeploymentProfileErrorCode.t;
  message : string;
  recoveryAction : string;
  receipt : string;
}.
End TargetDeploymentProfileError.

Module TargetDeploymentProfileInput.
Record t := mk {
  environment : option TargetEnvironment.t;
  channel : option TargetChannel.t;
  audience : option string;
  runtimeIdentity : option string;
  routeIdentities : option (list string);
  bindingIdentities : option (list string);
  dataResourceIdentities : option (list string);
  configurationDigests : option (list string);
  secretUseAliases : option (list string);
  dataClass : option TargetDataClass.t;
  resourceSharing : option TargetResourceSharing.t;
  sharingPolicyDigest : option string;
  previewStrategy : option TargetPreviewStrategy.t;
  profileDigest : option string;
}.
End TargetDeploymentProfileInput.

(** The scanner of credential material: [scanCredentialMaterial value field] is
    the path of a finding. *)
Class CredentialScanner := scanCredentialMaterial : string → string → option string.

Definition credential_scanner_protocol : string := "anyam.credential-material-scanner/v1".

#[local] Abbreviation Fallible := (outcome TargetDeploymentProfileError.t).
#[local] Abbreviation invalid m a r := (Throw (TargetDeploymentProfileError.mk
  TargetDeploymentProfileErrorCode.invalid_profile m a r)) (only parsing).

Definition show_nat (n : nat) : string := pretty n.

(** * Normal form *)

Section profiles.
Context `{HH : Host} `{SC : CredentialScanner}.

Definition safeMetadata (value field : string) : Fallible string :=
  match scanCredentialMaterial value field with
  | Some path => invalid
      (cat [field; " contains credential-like material."])
      (cat ["send a digest or non-secret identity for "; field;
            "; no credential values are accepted"])
      (cat ["field="; field; "; fieldPath="; path; "; scanner="; credential_scanner_protocol;
            "; credential-material=rejected"])
  | None => Ok value
  end.

Definition nonEmpty (value : option string) (field : string) : Fallible string :=
  let refused := invalid
    (cat [field; " must be a non-empty string."])
    (cat ["provide a non-empty "; field; " and retry"])
    (cat ["field="; field; "; expected=non-empty-string"]) in
  match value with
  | Some v => if blank v then refused else safeMetadata (trim v) field
  | None => refused
  end.

Fixpoint safe_all (values : list string) (field : string) : Fallible (list string) :=
  match values with
  | [] => Ok []
  | v :: vs => x ← safeMetadata (trim v) field; xs ← safe_all vs field; Ok (x :: xs)
  end.

Definition list_of (values : option (list string)) (field : string) : Fallible (list string) :=
  let refused := invalid
    (cat [field; " must be an array of non-empty strings."])
    (cat ["provide a valid "; field; " list and retry"])
    (cat ["field="; field; "; expected=string[]"]) in
  match values with
  | Some vs =>
      if existsb blank vs then refused
      else
        normalized ← safe_all vs field;
        if has_duplicates normalized
        then invalid
          (cat [field; " must not contain duplicate identities."])
          (cat ["remove duplicate "; field; " entries and retry"])
          (cat ["field="; field; "; unique="; show_nat (length (remove_dups normalized));
                "; count="; show_nat (length normalized)])
        else Ok normalized
  | None => refused
  end.

(** [enumValue]: the value or its fallback; a value outside the union is not a
    value of the type here. *)
Definition enumValue {T} (value : option T) (fallback : T) : T := default fallback value.

(** Both branches of the source's conditional select the same fallback. *)
Definition previewStrategy_of (value : option TargetPreviewStrategy.t) :
    Fallible TargetPreviewStrategy.t :=
  match default TargetPreviewStrategy.version_url value with
  | TargetPreviewStrategy.version_url => Ok TargetPreviewStrategy.version_url
  | TargetPreviewStrategy.isolated_target targetId =>
      i ← nonEmpty (Some targetId) "previewStrategy.targetId";
      Ok (TargetPreviewStrategy.isolated_target i)
  | TargetPreviewStrategy.custom_domain_version_override hostname =>
      h ← nonEmpty (Some hostname) "previewStrategy.hostname";
      Ok (TargetPreviewStrategy.custom_domain_version_override h)
  | TargetPreviewStrategy.staging_only keys =>
      ks ← list_of (Some keys) "previewStrategy.requiredEvidenceKeys";
      Ok (TargetPreviewStrategy.staging_only ks)
  end.

Definition profileBody (input : TargetDeploymentProfileInput.t) : Fallible TargetDeploymentProfile.t :=
  let resourceSharing :=
    enumValue (TargetDeploymentProfileInput.resourceSharing input) TargetResourceSharing.isolated in
  let environment :=
    enumValue (TargetDeploymentProfileInput.environment input) TargetEnvironment.custom in
  sharingPolicyDigest ←
    match TargetDeploymentProfileInput.sharingPolicyDigest input with
    | Some d => v ← nonEmpty (Some d) "sharingPolicyDigest"; Ok (Some v)
    | None => Ok None
    end;
  if bool_decide (resourceSharing = TargetResourceSharing.owner_approved)
     && bool_decide (sharingPolicyDigest = None)
  then invalid
    "owner-approved resource sharing requires a sharing policy digest."
    "record the owner-approved sharing policy digest or use isolated sharing"
    "resourceSharing=owner-approved; sharingPolicyDigest=missing"
  else if bool_decide (resourceSharing = TargetResourceSharing.isolated)
          && negb (bool_decide (sharingPolicyDigest = None))
  then invalid
    "isolated resource sharing cannot carry an approval digest."
    "remove sharingPolicyDigest or explicitly select owner-approved sharing"
    "resourceSharing=isolated; sharingPolicyDigest=unexpected"
  else
    let channel := enumValue (TargetDeploymentProfileInput.channel input) TargetChannel.stable in
    audience ← nonEmpty (TargetDeploymentProfileInput.audience input) "audience";
    runtimeIdentity ← nonEmpty (TargetDeploymentProfileInput.runtimeIdentity input) "runtimeIdentity";
    routeIdentities ← list_of (TargetDeploymentProfileInput.routeIdentities input) "routeIdentities";
    bindingIdentities ←
      list_of (TargetDeploymentProfileInput.bindingIdentities input) "bindingIdentities";
    dataResourceIdentities ←
      list_of (TargetDeploymentProfileInput.dataResourceIdentities input) "dataResourceIdentities";
    configurationDigests ←
      list_of (TargetDeploymentProfileInput.configurationDigests input) "configurationDigests";
    secretUseAliases ←
      list_of (TargetDeploymentProfileInput.secretUseAliases input) "secretUseAliases";
    let dataClass := enumValue (TargetDeploymentProfileInput.dataClass input) TargetDataClass.custom in
    strategy ← previewStrategy_of (TargetDeploymentProfileInput.previewStrategy input);
    Ok {|
      TargetDeploymentProfile.environment := environment;
      TargetDeploymentProfile.channel := channel;
      TargetDeploymentProfile.audience := audience;
      TargetDeploymentProfile.runtimeIdentity := runtimeIdentity;
      TargetDeploymentProfile.routeIdentities := routeIdentities;
      TargetDeploymentProfile.bindingIdentities := bindingIdentities;
      TargetDeploymentProfile.dataResourceIdentities := dataResourceIdentities;
      TargetDeploymentProfile.configurationDigests := configurationDigests;
      TargetDeploymentProfile.secretUseAliases := secretUseAliases;
      TargetDeploymentProfile.dataClass := dataClass;
      TargetDeploymentProfile.resourceSharing := resourceSharing;
      TargetDeploymentProfile.sharingPolicyDigest := truthy_opt sharingPolicyDigest;
      TargetDeploymentProfile.previewStrategy := strategy;
      TargetDeploymentProfile.profileDigest := "";
    |}.

(** What the profile digest covers: all but itself. *)
Definition profile_json (profile : TargetDeploymentProfile.t) : json :=
  object
    [field "protocol" "anyam.target-deployment/v1";
     field "environment" (TargetDeploymentProfile.environment profile);
     field "channel" (TargetDeploymentProfile.channel profile);
     field "audience" (TargetDeploymentProfile.audience profile);
     field "runtimeIdentity" (TargetDeploymentProfile.runtimeIdentity profile);
     field "routeIdentities" (TargetDeploymentProfile.routeIdentities profile);
     field "bindingIdentities" (TargetDeploymentProfile.bindingIdentities profile);
     field "dataResourceIdentities" (TargetDeploymentProfile.dataResourceIdentities profile);
     field "configurationDigests" (TargetDeploymentProfile.configurationDigests profile);
     field "secretUseAliases" (TargetDeploymentProfile.secretUseAliases profile);
     field "dataClass" (TargetDeploymentProfile.dataClass profile);
     field "resourceSharing" (TargetDeploymentProfile.resourceSharing profile);
     opt_field "sharingPolicyDigest" (TargetDeploymentProfile.sharingPolicyDigest profile);
     field "previewStrategy" (TargetDeploymentProfile.previewStrategy profile)].

Definition createTargetDeploymentProfile (input : TargetDeploymentProfileInput.t) :
    Fallible TargetDeploymentProfile.t :=
  body ← profileBody input;
  let profileDigest := canonical_digest (profile_json body) in
  match TargetDeploymentProfileInput.profileDigest input with
  | Some received =>
      if String.eqb received profileDigest
      then Ok (body <| TargetDeploymentProfile.profileDigest := profileDigest |>)
      else invalid
        "Target Deployment Profile digest does not match its fields."
        "recompute the profile digest from the exact profile fields and retry"
        (cat ["profileDigest="; received; "; expected="; profileDigest; "; digest=invalid"])
  | None => Ok (body <| TargetDeploymentProfile.profileDigest := profileDigest |>)
  end.

Definition defaultTargetDeploymentProfile (targetId : string) : Fallible TargetDeploymentProfile.t :=
  createTargetDeploymentProfile {|
    TargetDeploymentProfileInput.environment := Some TargetEnvironment.custom;
    TargetDeploymentProfileInput.channel := Some TargetChannel.stable;
    TargetDeploymentProfileInput.audience := Some targetId;
    TargetDeploymentProfileInput.runtimeIdentity := Some (cat ["target:"; targetId]);
    TargetDeploymentProfileInput.routeIdentities := Some [];
    TargetDeploymentProfileInput.bindingIdentities := Some [];
    TargetDeploymentProfileInput.dataResourceIdentities := Some [];
    TargetDeploymentProfileInput.configurationDigests := Some [];
    TargetDeploymentProfileInput.secretUseAliases := Some [];
    TargetDeploymentProfileInput.dataClass := Some TargetDataClass.custom;
    TargetDeploymentProfileInput.resourceSharing := Some TargetResourceSharing.isolated;
    TargetDeploymentProfileInput.sharingPolicyDigest := None;
    TargetDeploymentProfileInput.previewStrategy := None;
    TargetDeploymentProfileInput.profileDigest := None;
  |}.

Definition targetDeploymentProfile (target : Target.t) : Fallible TargetDeploymentProfile.t :=
  match Target.deploymentProfile target with
  | Some profile => Ok profile
  | None => defaultTargetDeploymentProfile (Target.id target)
  end.

(** * Promotion and isolation *)

Definition assertTargetCanPromote (target : Target.t) : Fallible TargetDeploymentProfile.t :=
  let id := Target.id target in
  let incomplete present count := Throw (TargetDeploymentProfileError.mk
    TargetDeploymentProfileErrorCode.incomplete_profile
    (cat ["Target "; id; " does not have a complete Deployment Profile."])
    "configure an explicit Target Deployment Profile with a configuration digest before requesting Promotion"
    (cat ["target="; id; "; deploymentProfile="; present; "; configurationDigests=";
          show_nat count; "; promotion=blocked"])) in
  match Target.deploymentProfile target with
  | None => incomplete "missing" 0%nat
  | Some profile =>
      if (length (TargetDeploymentProfile.configurationDigests profile) =? 0)%nat
      then incomplete "incomplete" 0%nat
      else if bool_decide (TargetDeploymentProfile.environment profile = TargetEnvironment.custom)
              || bool_decide (TargetDeploymentProfile.dataClass profile = TargetDataClass.custom)
      then Throw (TargetDeploymentProfileError.mk
        TargetDeploymentProfileErrorCode.incomplete_profile
        (cat ["Target "; id; " has an unknown deployment risk classification."])
        "replace custom environment and data classifications with explicit preview, development, staging, or production values before requesting Promotion"
        (cat ["target="; id; "; environment=";
              TargetEnvironment.show (TargetDeploymentProfile.environment profile);
              "; dataClass="; TargetDataClass.show (TargetDeploymentProfile.dataClass profile);
              "; risk=unknown; promotion=blocked"]))
      else Ok profile
  end.

Definition target_contract_json (target : Target.t) (profile : TargetDeploymentProfile.t) : json :=
  object
    [field "protocol" "anyam.target/v1";
     field "id" (Target.id target);
     field "projectId" (Target.projectId target);
     field "name" (Target.name target);
     field "adapterId" (Target.adapterId target);
     field "acceptedArtifactTypes" (Target.acceptedArtifactTypes target);
     field "requiredEvidenceKeys" (Target.requiredEvidenceKeys target);
     field "deploymentProfile" profile].

Definition targetDeploymentContractDigest (target : Target.t) : Fallible string :=
  profile ← targetDeploymentProfile target;
  Ok (canonical_digest (target_contract_json target profile)).

Definition resourceIdentities (profile : TargetDeploymentProfile.t) : list string :=
  cat ["runtime:"; TargetDeploymentProfile.runtimeIdentity profile]
  :: ((fun v => cat ["route:"; v]) <$> TargetDeploymentProfile.routeIdentities profile)
  ++ ((fun v => cat ["binding:"; v]) <$> TargetDeploymentProfile.bindingIdentities profile)
  ++ ((fun v => cat ["data:"; v]) <$> TargetDeploymentProfile.dataResourceIdentities profile)
  ++ ((fun v => cat ["secret-use:"; v]) <$> TargetDeploymentProfile.secretUseAliases profile).

Definition matchingOwnerApproval (candidate existing : TargetDeploymentProfile.t) : bool :=
  bool_decide (TargetDeploymentProfile.resourceSharing candidate
               = TargetResourceSharing.owner_approved)
  && bool_decide (TargetDeploymentProfile.resourceSharing existing
                  = TargetResourceSharing.owner_approved)
  && negb (bool_decide (TargetDeploymentProfile.sharingPolicyDigest candidate = None))
  && bool_decide (TargetDeploymentProfile.sharingPolicyDigest candidate
                  = TargetDeploymentProfile.sharingPolicyDigest existing).

Fixpoint isolated_from (candidate : Target.t) (candidateProfile : TargetDeploymentProfile.t)
    (existing : list Target.t) : Fallible () :=
  match existing with
  | [] => Ok ()
  | other :: rest =>
      if String.eqb (Target.id other) (Target.id candidate)
      then isolated_from candidate candidateProfile rest
      else
        existingProfile ← targetDeploymentProfile other;
        let overlap := List.filter
          (list_includes (resourceIdentities candidateProfile)) (resourceIdentities existingProfile) in
        if (length overlap =? 0)%nat then isolated_from candidate candidateProfile rest
        else if matchingOwnerApproval candidateProfile existingProfile
        then isolated_from candidate candidateProfile rest
        else Throw (TargetDeploymentProfileError.mk
          TargetDeploymentProfileErrorCode.resource_conflict
          (cat ["Target "; Target.id candidate; " shares resource identity with Target ";
                Target.id other; " without one matching owner-approved sharing policy."])
          "use an environment-specific resource identity or record matching owner-approved sharing policy digests on both Targets"
          (cat ["candidate="; Target.id candidate; "; existing="; Target.id other; "; overlap=";
                join "," overlap; "; sharingPolicyMatch=false; isolation=blocked"]))
  end.

Definition assertTargetResourceIsolation (existing : list Target.t) (candidate : Target.t) :
    Fallible () :=
  candidateProfile ← targetDeploymentProfile candidate;
  isolated_from candidate candidateProfile existing.
End profiles.

(** * Profiles and isolation, proved *)

(** A text that the scanner let through, without space around it. *)
Definition clean `{CredentialScanner} (field value : string) : Prop :=
  value ≠ "" ∧ trim value = value ∧ scanCredentialMaterial value field = None.
(** Such texts, each once. *)
Definition clean_list `{CredentialScanner} (field : string) (values : list string) : Prop :=
  Forall (clean field) values ∧ NoDup values.

Section facts.
Context `{HH : Host} `{SC : CredentialScanner}.

Lemma safeMetadata_Ok v f r : safeMetadata v f = Ok r ↔ r = v ∧ scanCredentialMaterial v f = None.
Proof. unfold safeMetadata. destruct (scanCredentialMaterial v f); naive_solver. Qed.
Lemma clean_trim f v : clean f (trim v) ↔
  blank v = false ∧ scanCredentialMaterial (trim v) f = None.
Proof. unfold clean, blank. rewrite trim_idemp, String.eqb_neq. tauto. Qed.

Lemma profile_text_Ok v f r :
  nonEmpty v f = Ok r ↔ (∃ x, v = Some x ∧ r = trim x) ∧ clean f r.
Proof.
unfold nonEmpty. destruct v as [x|]; [|naive_solver]. destruct (blank x) eqn:Hb.
- split; [done|]. intros ((y & [= <-] & ->) & Hc%clean_trim). destruct Hc. congruence.
- rewrite safeMetadata_Ok. split.
  + intros [-> Hs]. split; [eauto|]. by apply clean_trim.
  + intros ((y & [= <-] & ->) & Hc%clean_trim). by destruct Hc.
Qed.
Lemma safe_all_Ok vs f r : existsb blank vs = false →
  safe_all vs f = Ok r ↔ r = trim <$> vs ∧ Forall (clean f) r.
Proof.
revert r. induction vs as [|v vs IH]; intros r; simpl.
{ intros _. split; [by intros [= <-]|by intros [-> _]]. }
rewrite orb_false_iff. intros [Hv Hvs]. rewrite bind_Ok. setoid_rewrite safeMetadata_Ok.
setoid_rewrite bind_Ok. setoid_rewrite (IH _ Hvs). split.
- intros (x & [-> Hs] & xs & [-> Hxs] & [= <-]). split; [done|]. constructor; [|done].
  by apply clean_trim.
- intros [-> [Hc%clean_trim Hcs]%Forall_cons]. eexists. split; [by destruct Hc|]. eauto.
Qed.
Lemma clean_not_blank f vs : Forall (clean f) (trim <$> vs) → existsb blank vs = false.
Proof.
rewrite Forall_fmap. induction 1 as [|v vs Hv _ IH]; [done|]. simpl. rewrite IH.
apply clean_trim in Hv as [-> _]. done.
Qed.
Lemma list_of_Ok vs f r :
  list_of vs f = Ok r ↔ (∃ l, vs = Some l ∧ r = trim <$> l) ∧ clean_list f r.
Proof.
unfold list_of, clean_list. destruct vs as [l|]; [|naive_solver].
destruct (existsb blank l) eqn:Hb.
- split; [done|]. intros ((l' & [= <-] & ->) & Hc & _). apply clean_not_blank in Hc. congruence.
- rewrite bind_Ok. setoid_rewrite (safe_all_Ok _ _ _ Hb). split.
  + intros (n & [-> Hn] & Hr). destruct (has_duplicates _) eqn:Hd; [done|]. injection Hr as <-.
    split; [eauto|]. split; [done|]. by apply has_duplicates_spec.
  + intros ((l' & [= <-] & ->) & Hc & Hd%has_duplicates_spec). eexists. split; [done|].
    by rewrite Hd.
Qed.

(** What the input says of the profile: absent members have their fallback,
    texts are trimmed, and a digest given is the profile's. *)
Definition given (value : option string) (r : string) : Prop := ∃ v, value = Some v ∧ r = trim v.
Definition listed (values : option (list string)) (r : list string) : Prop :=
  ∃ vs, values = Some vs ∧ r = trim <$> vs.
Definition strategy_given (value : option TargetPreviewStrategy.t) : TargetPreviewStrategy.t :=
  match value with
  | None => TargetPreviewStrategy.version_url
  | Some TargetPreviewStrategy.version_url => TargetPreviewStrategy.version_url
  | Some (TargetPreviewStrategy.isolated_target i) => TargetPreviewStrategy.isolated_target (trim i)
  | Some (TargetPreviewStrategy.custom_domain_version_override h) =>
      TargetPreviewStrategy.custom_domain_version_override (trim h)
  | Some (TargetPreviewStrategy.staging_only ks) => TargetPreviewStrategy.staging_only (trim <$> ks)
  end.

Record fields_of (input : TargetDeploymentProfileInput.t) (p : TargetDeploymentProfile.t) : Prop := {
  of_environment : TargetDeploymentProfile.environment p =
    default TargetEnvironment.custom (TargetDeploymentProfileInput.environment input);
  of_channel : TargetDeploymentProfile.channel p =
    default TargetChannel.stable (TargetDeploymentProfileInput.channel input);
  of_audience : given (TargetDeploymentProfileInput.audience input)
    (TargetDeploymentProfile.audience p);
  of_runtime : given (TargetDeploymentProfileInput.runtimeIdentity input)
    (TargetDeploymentProfile.runtimeIdentity p);
  of_routes : listed (TargetDeploymentProfileInput.routeIdentities input)
    (TargetDeploymentProfile.routeIdentities p);
  of_bindings : listed (TargetDeploymentProfileInput.bindingIdentities input)
    (TargetDeploymentProfile.bindingIdentities p);
  of_data : listed (TargetDeploymentProfileInput.dataResourceIdentities input)
    (TargetDeploymentProfile.dataResourceIdentities p);
  of_configuration : listed (TargetDeploymentProfileInput.configurationDigests input)
    (TargetDeploymentProfile.configurationDigests p);
  of_secrets : listed (TargetDeploymentProfileInput.secretUseAliases input)
    (TargetDeploymentProfile.secretUseAliases p);
  of_dataClass : TargetDeploymentProfile.dataClass p =
    default TargetDataClass.custom (TargetDeploymentProfileInput.dataClass input);
  of_sharing : TargetDeploymentProfile.resourceSharing p =
    default TargetResourceSharing.isolated (TargetDeploymentProfileInput.resourceSharing input);
  of_policy : TargetDeploymentProfile.sharingPolicyDigest p =
    trim <$> TargetDeploymentProfileInput.sharingPolicyDigest input;
  of_strategy : TargetDeploymentProfile.previewStrategy p =
    strategy_given (TargetDeploymentProfileInput.previewStrategy input);
}.
Record profile_of (input : TargetDeploymentProfileInput.t) (p : TargetDeploymentProfile.t) : Prop := {
  of_fields : fields_of input p;
  of_digest : ∀ d, TargetDeploymentProfileInput.profileDigest input = Some d →
    d = TargetDeploymentProfile.profileDigest p;
}.

Definition clean_strategy (strategy : TargetPreviewStrategy.t) : Prop :=
  match strategy with
  | TargetPreviewStrategy.version_url => True
  | TargetPreviewStrategy.isolated_target i => clean "previewStrategy.targetId" i
  | TargetPreviewStrategy.custom_domain_version_override h => clean "previewStrategy.hostname" h
  | TargetPreviewStrategy.staging_only ks => clean_list "previewStrategy.requiredEvidenceKeys" ks
  end.

(** What every accepted profile satisfies, its digest left out and with it. *)
Record wf_fields (p : TargetDeploymentProfile.t) : Prop := {
  wf_audience : clean "audience" (TargetDeploymentProfile.audience p);
  wf_runtime : clean "runtimeIdentity" (TargetDeploymentProfile.runtimeIdentity p);
  wf_routes : clean_list "routeIdentities" (TargetDeploymentProfile.routeIdentities p);
  wf_bindings : clean_list "bindingIdentities" (TargetDeploymentProfile.bindingIdentities p);
  wf_data :
    clean_list "dataResourceIdentities" (TargetDeploymentProfile.dataResourceIdentities p);
  wf_configuration :
    clean_list "configurationDigests" (TargetDeploymentProfile.configurationDigests p);
  wf_secrets : clean_list "secretUseAliases" (TargetDeploymentProfile.secretUseAliases p);
  wf_sharing :
    TargetDeploymentProfile.resourceSharing p = TargetResourceSharing.owner_approved ↔
    is_Some (TargetDeploymentProfile.sharingPolicyDigest p);
  wf_policy : ∀ d, TargetDeploymentProfile.sharingPolicyDigest p = Some d →
    clean "sharingPolicyDigest" d;
  wf_strategy : clean_strategy (TargetDeploymentProfile.previewStrategy p);
}.
Record wf_profile (p : TargetDeploymentProfile.t) : Prop := {
  wf_of_fields : wf_fields p;
  wf_digest : TargetDeploymentProfile.profileDigest p = canonical_digest (profile_json p);
}.

Lemma previewStrategy_Ok value r :
  previewStrategy_of value = Ok r ↔ r = strategy_given value ∧ clean_strategy r.
Proof.
unfold previewStrategy_of, strategy_given. destruct value as [[|i|h|ks]|]; cbn [default];
  unfold default, from_option, id; rewrite ?bind_Ok; try setoid_rewrite profile_text_Ok; try setoid_rewrite list_of_Ok;
  (split; [intros H; destruct_and_ex; simplify_eq; by split|intros [-> H]; simpl in H; naive_solver]).
Qed.

Lemma policy_Ok value r :
  match value with
  | Some d => v ← nonEmpty (Some d) "sharingPolicyDigest"; Ok (Some v)
  | None => Ok None
  end = Ok r ↔ r = trim <$> value ∧ ∀ d, r = Some d → clean "sharingPolicyDigest" d.
Proof.
destruct value as [d|]; [|naive_solver]. rewrite bind_Ok. setoid_rewrite profile_text_Ok.
naive_solver.
Qed.

Lemma truthy_opt_clean f d : (∀ x, d = Some x → clean f x) → truthy_opt d = d.
Proof.
intros H. destruct d as [x|]; [|done]. apply truthy_opt_Some. split; [done|].
by destruct (H x eq_refl).
Qed.

Lemma fields_of_digest input p d :
  fields_of input (p <| TargetDeploymentProfile.profileDigest := d |>) ↔ fields_of input p.
Proof. split; intros []; by split. Qed.
Lemma wf_fields_digest p d :
  wf_fields (p <| TargetDeploymentProfile.profileDigest := d |>) ↔ wf_fields p.
Proof. split; intros []; by split. Qed.

Lemma profileBody_Ok input a :
  profileBody input = Ok a ↔
  TargetDeploymentProfile.profileDigest a = "" ∧ fields_of input a ∧ wf_fields a.
Proof.
unfold profileBody. rewrite bind_Ok. setoid_rewrite policy_Ok. unfold enumValue. split.
- intros (policy & [Hp Hc] & H). pose proof (truthy_opt_clean _ _ Hc) as Ht.
  destruct (bool_decide _ && bool_decide _) eqn:Ho; [done|].
  destruct (bool_decide _ && negb _) eqn:Hi; [done|].
  repeat setoid_rewrite bind_Ok in H. destruct_and_ex.
  repeat match goal with
  | H : nonEmpty _ _ = Ok _ |- _ => apply profile_text_Ok in H as [? ?]
  | H : list_of _ _ = Ok _ |- _ => apply list_of_Ok in H as [? ?]
  | H : previewStrategy_of _ = Ok _ |- _ => apply previewStrategy_Ok in H as [? ?]
  end. simplify_eq. split_and!; [done|split; cbn; rewrite ?Ht; done|].
  split; cbn; rewrite ?Ht; try done.
  destruct (default _ _), (trim <$> _); simpl in *; naive_solver.
- intros (Hd & [] & []). exists (TargetDeploymentProfile.sharingPolicyDigest a).
  split; [done|].
  pose proof (truthy_opt_clean _ _ wf_policy0) as Ht.
  rewrite of_sharing0 in wf_sharing0.
  destruct (bool_decide _ && bool_decide _) eqn:Ho.
  { apply andb_true_iff in Ho as [Ho1%bool_decide_eq_true Ho2%bool_decide_eq_true].
    apply wf_sharing0 in Ho1 as [? ?]. congruence. }
  destruct (bool_decide _ && negb _) eqn:Hi.
  { apply andb_true_iff in Hi as [Hi1%bool_decide_eq_true Hi2%negb_true_iff].
    apply bool_decide_eq_false, not_eq_None_Some, wf_sharing0 in Hi2. congruence. }
  repeat (apply bind_Ok; eexists; split;
    [first [apply profile_text_Ok|apply list_of_Ok|apply previewStrategy_Ok]; by split|]).
  rewrite Ht. f_equal. destruct a. cbn in *. congruence.
Qed.
Lemma createTargetDeploymentProfile_Ok input p :
  createTargetDeploymentProfile input = Ok p ↔ profile_of input p ∧ wf_profile p.
Proof.
unfold createTargetDeploymentProfile. rewrite bind_Ok. setoid_rewrite profileBody_Ok. cbv zeta. split.
- intros (a & (Hd & Hf & Hw) & H).
  assert (p = a <| TargetDeploymentProfile.profileDigest := canonical_digest (profile_json a) |> ∧
    ∀ d, TargetDeploymentProfileInput.profileDigest input = Some d →
      d = canonical_digest (profile_json a)) as [-> Hg].
  { destruct (TargetDeploymentProfileInput.profileDigest input) as [d|]; [|naive_solver].
    destruct (String.eqb_spec d (canonical_digest (profile_json a))); naive_solver. }
  split; split; rewrite ?fields_of_digest, ?wf_fields_digest; done.
- intros [[Hf Hg] [Hw Hd]]. exists (p <| TargetDeploymentProfile.profileDigest := "" |>).
  rewrite fields_of_digest, wf_fields_digest. split; [done|].
  change (profile_json (p <| TargetDeploymentProfile.profileDigest := "" |>)) with (profile_json p).
  rewrite <-Hd. assert (p <| TargetDeploymentProfile.profileDigest := "" |>
    <| TargetDeploymentProfile.profileDigest := TargetDeploymentProfile.profileDigest p |> = p) as ->
    by (by destruct p).
  destruct (TargetDeploymentProfileInput.profileDigest input) as [d|]; [|done].
  rewrite (Hg d eq_refl), String.eqb_refl. done.
Qed.

Lemma profile_json_inj p q : normal (profile_json p) = normal (profile_json q) →
  p <| TargetDeploymentProfile.profileDigest := "" |> = q <| TargetDeploymentProfile.profileDigest := "" |>.
Proof.
destruct p, q. intros H. unfold profile_json in H.
json_fields H ["protocol"; "environment"; "channel"; "audience"; "runtimeIdentity"; "routeIdentities";
  "bindingIdentities"; "dataResourceIdentities"; "configurationDigests"; "secretUseAliases";
  "dataClass"; "resourceSharing"; "sharingPolicyDigest"; "previewStrategy"].
cbn in *. subst. reflexivity.
Qed.
Lemma profile_json_def p : no_undef (profile_json p) = true.
Proof. unfold profile_json. json_defined. Qed.

(** ** Isolation *)

(** A resource that two profiles both use, kind by kind. *)
Definition shares (p q : TargetDeploymentProfile.t) : Prop :=
  TargetDeploymentProfile.runtimeIdentity p = TargetDeploymentProfile.runtimeIdentity q ∨
  (∃ x, x ∈ TargetDeploymentProfile.routeIdentities p ∧ x ∈ TargetDeploymentProfile.routeIdentities q) ∨
  (∃ x, x ∈ TargetDeploymentProfile.bindingIdentities p ∧
        x ∈ TargetDeploymentProfile.bindingIdentities q) ∨
  (∃ x, x ∈ TargetDeploymentProfile.dataResourceIdentities p ∧
        x ∈ TargetDeploymentProfile.dataResourceIdentities q) ∨
  ∃ x, x ∈ TargetDeploymentProfile.secretUseAliases p ∧
       x ∈ TargetDeploymentProfile.secretUseAliases q.

(** Both owners approved one policy. *)
Definition approved (p q : TargetDeploymentProfile.t) : Prop :=
  TargetDeploymentProfile.resourceSharing p = TargetResourceSharing.owner_approved ∧
  TargetDeploymentProfile.resourceSharing q = TargetResourceSharing.owner_approved ∧
  ∃ d, TargetDeploymentProfile.sharingPolicyDigest p = Some d ∧
       TargetDeploymentProfile.sharingPolicyDigest q = Some d.

Lemma matchingOwnerApproval_spec p q : matchingOwnerApproval p q = true ↔ approved p q.
Proof.
unfold matchingOwnerApproval, approved.
rewrite !andb_true_iff, negb_true_iff, !bool_decide_eq_true, bool_decide_eq_false.
destruct (TargetDeploymentProfile.sharingPolicyDigest p); naive_solver.
Qed.

(** A resource identity names its kind and the resource. *)
Definition resource_of (p : TargetDeploymentProfile.t) (kind : string) : list string :=
  if String.eqb kind "runtime:" then [TargetDeploymentProfile.runtimeIdentity p]
  else if String.eqb kind "route:" then TargetDeploymentProfile.routeIdentities p
  else if String.eqb kind "binding:" then TargetDeploymentProfile.bindingIdentities p
  else if String.eqb kind "data:" then TargetDeploymentProfile.dataResourceIdentities p
  else TargetDeploymentProfile.secretUseAliases p.
Definition kinds : list string := ["runtime:"; "route:"; "binding:"; "data:"; "secret-use:"].

Lemma resourceIdentities_kinds p :
  resourceIdentities p = kinds ≫= λ kind, (λ v, cat [kind; v]) <$> resource_of p kind.
Proof. unfold resourceIdentities, kinds. simpl. by rewrite app_nil_r. Qed.

Lemma cat_kind_inj k1 k2 v1 v2 : k1 ∈ kinds → k2 ∈ kinds → cat [k1; v1] = cat [k2; v2] →
  k1 = k2 ∧ v1 = v2.
Proof.
unfold kinds. rewrite !elem_of_cons, !elem_of_nil. intros H1 H2 H.
assert (∀ a b c, cat [a; b] = a +:+ b +:+ "") as Hc by done. unfold cat in H. simpl in H.
rewrite !str_app_nil_r in H.
destruct_or!; subst; simpl in H; try discriminate; repeat injection H as H; by subst.
Qed.

Lemma shares_identity p q :
  (∃ i, i ∈ resourceIdentities p ∧ i ∈ resourceIdentities q) ↔ shares p q.
Proof.
rewrite !resourceIdentities_kinds. transitivity (∃ kind x, kind ∈ kinds ∧
  x ∈ resource_of p kind ∧ x ∈ resource_of q kind).
- split.
  + intros (i & Hp & Hq). apply list_elem_of_bind in Hp as (k1 & (v1 & -> & Hv1)%list_elem_of_fmap & Hk1).
    apply list_elem_of_bind in Hq as (k2 & (v2 & He & Hv2)%list_elem_of_fmap & Hk2).
    apply cat_kind_inj in He as [-> ->]; [|done|done]. eauto.
  + intros (k & x & Hk & Hp & Hq). exists (cat [k; x]).
    split; apply list_elem_of_bind; exists k; (split; [|done]); apply list_elem_of_fmap; eauto.
- unfold kinds, shares. setoid_rewrite elem_of_cons. setoid_rewrite elem_of_cons.
  split.
  + intros (k & x & Hk & Hp & Hq). rewrite !elem_of_cons, !elem_of_nil in Hk.
    destruct_or!; subst; unfold resource_of in *; simpl in *; eauto 10.
    rewrite list_elem_of_singleton in *. left. congruence.
  + intros [H|[(x & ? & ?)|[(x & ? & ?)|[(x & ? & ?)|(x & ? & ?)]]]].
    * exists "runtime:", (TargetDeploymentProfile.runtimeIdentity p). unfold resource_of. simpl.
      rewrite !list_elem_of_singleton. auto.
    * exists "route:", x. unfold resource_of. simpl. auto.
    * exists "binding:", x. unfold resource_of. simpl. rewrite !elem_of_cons. auto 10.
    * exists "data:", x. unfold resource_of. simpl. rewrite !elem_of_cons. auto 10.
    * exists "secret-use:", x. unfold resource_of. simpl. rewrite !elem_of_cons. auto 10.
Qed.

Lemma overlap_nil p q :
  (length (List.filter (list_includes (resourceIdentities p)) (resourceIdentities q)) =? 0)%nat = true
  ↔ ¬ shares p q.
Proof.
rewrite Nat.eqb_eq, length_zero_iff_nil, <-shares_identity. split.
- intros Hf (i & Hp & Hq). assert (i ∈ List.filter (list_includes (resourceIdentities p))
    (resourceIdentities q)) as Hi.
  { apply list_elem_of_In, filter_In. split; [by apply list_elem_of_In|by apply list_includes_spec]. }
  rewrite Hf in Hi. by apply elem_of_nil in Hi.
- intros Hno. destruct (List.filter _ _) as [|i l] eqn:Hf; [done|]. exfalso. apply Hno. exists i.
  assert (i ∈ i :: l) as Hi by left. rewrite <-Hf in Hi.
  apply list_elem_of_In, filter_In in Hi as [Hq Hp]. split; [by apply list_includes_spec|].
  by apply list_elem_of_In.
Qed.

Lemma isolated_from_Ok candidate p existing :
  isolated_from candidate p existing = Ok () ↔
  ∀ other, other ∈ existing → Target.id other ≠ Target.id candidate →
    ∃ q, targetDeploymentProfile other = Ok q ∧ (shares p q → approved p q).
Proof.
induction existing as [|o l IH]; [split; [by intros _ ? ?%elem_of_nil|done]|].
cbn [isolated_from]. destruct (String.eqb_spec (Target.id o) (Target.id candidate)) as [He|He].
{ rewrite IH. split.
  - intros H x [->|Hx]%elem_of_cons Hne; [done|by apply H].
  - intros H x Hx. apply H. by right. }
destruct (targetDeploymentProfile o) as [q|e] eqn:Hq; simpl.
2: { split; [done|]. intros H. destruct (H o) as (q & ? & _); [left|done|congruence]. }
assert ((∀ x, x ∈ o :: l → Target.id x ≠ Target.id candidate →
    ∃ q, targetDeploymentProfile x = Ok q ∧ (shares p q → approved p q)) ↔
  (shares p q → approved p q) ∧ isolated_from candidate p l = Ok ()) as ->.
{ rewrite IH. split.
  - intros H. split; [|intros x Hx; apply H; by right].
    destruct (H o) as (q' & Hq' & Hs); [left|done|]. rewrite Hq in Hq'. by injection Hq' as <-.
  - intros [Hs Hl] x [->|Hx]%elem_of_cons Hne; [eauto|by apply Hl]. }
pose proof (overlap_nil p q) as Hov. pose proof (matchingOwnerApproval_spec p q) as Hma.
destruct (length _ =? 0)%nat; [split; [|tauto]; split; [|done]; by intros ?%Hov|].
destruct (matchingOwnerApproval p q); [split; [|tauto]; split; [|done]; intros _; by apply Hma|].
split; [done|]. intros [Hs _]. assert (¬ approved p q) as Hna by (intros ?%Hma; done).
exfalso. assert (¬ ¬ shares p q) as Hss by (intros ?%Hov; done). tauto.
Qed.
End facts.

(** C40: [createTargetDeploymentProfile] accepts exactly the inputs whose profile
    is well formed, and returns that profile: the choices of the input or their
    fallbacks and its texts trimmed, where every text is non-empty and free of
    credential material, every list is without duplicates, a sharing policy is
    there exactly when sharing is owner-approved, the digest is the one of the
    other fields, and a digest given in the input is that one. *)
Theorem createTargetDeploymentProfile_accepts `{HH : Host} `{SC : CredentialScanner} input p :
  createTargetDeploymentProfile input = Ok p ↔ profile_of input p ∧ wf_profile p.
Proof. apply createTargetDeploymentProfile_Ok. Qed.

(** Inputs for the witnesses, with a scanner that finds nothing. *)
Definition quiet_scanner : CredentialScanner := λ _ _, None.
Definition example_profile_input (runtime : string) (policy : option string) :
    TargetDeploymentProfileInput.t := {|
  TargetDeploymentProfileInput.environment := Some TargetEnvironment.staging;
  TargetDeploymentProfileInput.channel := None;
  TargetDeploymentProfileInput.audience := Some " team ";
  TargetDeploymentProfileInput.runtimeIdentity := Some runtime;
  TargetDeploymentProfileInput.routeIdentities := Some ["a.example"];
  TargetDeploymentProfileInput.bindingIdentities := Some [];
  TargetDeploymentProfileInput.dataResourceIdentities := Some ["db"];
  TargetDeploymentProfileInput.configurationDigests := Some ["cfg"];
  TargetDeploymentProfileInput.secretUseAliases := Some [];
  TargetDeploymentProfileInput.dataClass := Some TargetDataClass.isolated;
  TargetDeploymentProfileInput.resourceSharing :=
    Some match policy with
         | Some _ => TargetResourceSharing.owner_approved
         | None => TargetResourceSharing.isolated
         end;
  TargetDeploymentProfileInput.sharingPolicyDigest := policy;
  TargetDeploymentProfileInput.previewStrategy := None;
  TargetDeploymentProfileInput.profileDigest := None;
|}.
Definition example_profile : TargetDeploymentProfile.t := Eval vm_compute in
  match @createTargetDeploymentProfile example_host quiet_scanner (example_profile_input "w1" None) with
  | Ok p => p
  | Throw _ => TargetDeploymentProfile.mk TargetEnvironment.custom TargetChannel.custom "" "" [] [] []
      [] [] TargetDataClass.custom TargetResourceSharing.isolated None
      TargetPreviewStrategy.version_url ""
  end.

(** The profile digest binds the profile: when SHA-256 does not collide, two
    accepted profiles with one digest are the same. *)
Theorem profileDigest_binds `{HH : Host} `{SC : CredentialScanner} i1 i2 p q : CollisionFree HH →
  createTargetDeploymentProfile i1 = Ok p → createTargetDeploymentProfile i2 = Ok q →
  TargetDeploymentProfile.profileDigest p = TargetDeploymentProfile.profileDigest q → p = q.
Proof.
intros Hcf [_ Hp]%createTargetDeploymentProfile_Ok [_ Hq]%createTargetDeploymentProfile_Ok Hd.
pose proof Hd as Hdd. rewrite (wf_digest _ Hp), (wf_digest _ Hq) in Hd.
apply canonical_digest_inj in Hd; [|done|apply profile_json_def|apply profile_json_def].
apply profile_json_inj in Hd. destruct p, q. cbn in *. injection Hd as ?????????????. by subst.
Qed.

Lemma profileDigest_binds_witness :
  TargetDeploymentProfile.profileDigest example_profile =
    TargetDeploymentProfile.profileDigest example_profile ∧ example_profile = example_profile.
Proof.
split; [reflexivity|].
apply (@profileDigest_binds example_host quiet_scanner (example_profile_input "w1" None)
  (example_profile_input " w1" None) example_profile example_profile example_host_collision_free);
  vm_compute; reflexivity.
Defined.

(** A Target is accepted beside the existing ones exactly when, for every
    other Target, it shares no runtime, route, binding, data resource or secret
    with it, or both carry one owner-approved sharing policy. *)
Theorem assertTargetResourceIsolation_exact `{HH : Host} `{SC : CredentialScanner} existing candidate :
  assertTargetResourceIsolation existing candidate = Ok () ↔
  ∃ p, targetDeploymentProfile candidate = Ok p ∧
    ∀ other, other ∈ existing → Target.id other ≠ Target.id candidate →
      ∃ q, targetDeploymentProfile other = Ok q ∧ (shares p q → approved p q).
Proof.
unfold assertTargetResourceIsolation. rewrite bind_Ok. by setoid_rewrite isolated_from_Ok.
Qed.
