(* ===== verification/Promotion.v ===== *)
(** Promotion of sealed Releases to one Target, src/delivery/promotion.ts: the
    sealing of a Release with its Artifacts and Evidence, and the coordinator
    that drives a Target adapter through preview, apply, health check and
    rollback.

    [execute] is an async function: it runs up to its first [await] when it is
    started and from one [await] to the next when the adapter answers.  Here
    [execute] and [resume] are those stretches, [Point.t] the [await]s with what
    the function still holds in hand, and [executions] keeps, for each promise
    of the source's map, the point it waits at or the outcome it settled with. *)

From S2P Require Import Prelude Json Contracts ContractsJson Migrations ReleaseInputs TargetDeployments.

(** * Data *)

Module WorkerTargetCapabilities.
Record t := mk { preview : bool; promote : bool; healthCheck : bool; rollback : bool }.
End WorkerTargetCapabilities.
#[export] Instance WorkerTargetCapabilities_to_json : ToJson WorkerTargetCapabilities.t := λ c, object
  [field "preview" (WorkerTargetCapabilities.preview c);
   field "promote" (WorkerTargetCapabilities.promote c);
   field "healthCheck" (WorkerTargetCapabilities.healthCheck c);
   field "rollback" (WorkerTargetCapabilities.rollback c)].

(** A Target with the fields that the type makes mandatory; the ones of [base]
    of the same names are overridden. *)
Module WorkerTarget.
Record t := mk {
  base : Target.t;
  currentReleaseId : option string;
  releaseHistory : list string;
  capabilities : WorkerTargetCapabilities.t;
  contractDigest : string;
}.
#[global] Instance eta : Eta t := fun r =>
  mk (base r) (currentReleaseId r) (releaseHistory r) (capabilities r) (contractDigest r).
Definition id (t : t) : string := Target.id (base t).
End WorkerTarget.

Module HealthState.
Inductive t := healthy | unhealthy | unknown.
#[global] Instance t_eq_dec : EqDecision t.
Proof. solve_decision. Defined.
Definition show (x : t) : string :=
  match x with healthy => "healthy" | unhealthy => "unhealthy" | unknown => "unknown" end.
End HealthState.

Module HealthObservation.
Record t := mk {
  id : string;
  targetId : string;
  releaseId : string;
  state : HealthState.t;
  checkId : string;
  checkedAt : string;
  receipt : string;
  outputDigest : option string;
}.
End HealthObservation.

Module ImmutableRelease.
Record t := mk {
  id : string;
  projectId : string;
  release : Release.t;
  artifacts : list Artifact.t;
  evidence : list Evidence.t;
  releaseDigest : string;
  receipt : string;
}.
End ImmutableRelease.

Module FailureOutcome.
Inductive t := failed | indeterminate.
#[global] Instance t_eq_dec : EqDecision t.
Proof. solve_decision. Defined.
End FailureOutcome.

Module DeliveryAdapterFailure.
Record t := mk {
  outcome : FailureOutcome.t;
  errorCode : string;
  message : string;
  retryable : bool;
  recoveryAction : string;
  receipt : string;
}.
End DeliveryAdapterFailure.

Inductive DeliveryAdapterResult (T : Type) :=
| succeeded (value : T) (receipt : string)
| adapter_failed (failure : DeliveryAdapterFailure.t).
Arguments succeeded {T} value receipt.
Arguments adapter_failed {T} failure.

Module WorkerPreview.
Record t := mk {
  previewId : string;
  providerVersionId : string;
  releaseDigest : string;
  artifactDigests : list string;
  receipt : string;
}.
End WorkerPreview.

Module WorkerDeployment.
Record t := mk {
  deploymentId : string;
  providerVersionId : string;
  releaseDigest : string;
  artifactDigests : list string;
  providerOperationId : option string;
  receipt : string;
}.
End WorkerDeployment.

Module WorkerAdapterInput.
Record t := mk {
  promotionId : string;
  attempt : Z;
  release : ImmutableRelease.t;
  target : WorkerTarget.t;
}.
End WorkerAdapterInput.

Module HealthPhase.
Inductive t := candidate | rollback.
End HealthPhase.

(** A call of the adapter, [WorkerHealthInput] and [WorkerRollbackInput]
    included. *)
Inductive AdapterCall :=
| ask_preview (input : WorkerAdapterInput.t)
| ask_apply (input : WorkerAdapterInput.t)
| ask_health (input : WorkerAdapterInput.t) (deploymentId : option string) (phase : HealthPhase.t)
| ask_rollback (input : WorkerAdapterInput.t) (previousRelease : ImmutableRelease.t)
    (deploymentId : option string).

Module PromotionState.
Inductive t :=
| proposed | validating | approved | applying | healthy | failed | blocked | degraded | rolled_back.
#[global] Instance t_eq_dec : EqDecision t.
Proof. solve_decision. Defined.
Definition show (x : t) : string :=
  match x with
  | proposed => "proposed" | validating => "validating" | approved => "approved"
  | applying => "applying" | healthy => "healthy" | failed => "failed" | blocked => "blocked"
  | degraded => "degraded" | rolled_back => "rolled-back"
  end.
End PromotionState.

Module PromotionKind.
Inductive t := promotion | rollback.
#[global] Instance t_eq_dec : EqDecision t.
Proof. solve_decision. Defined.
End PromotionKind.

Module ReconciliationStage.
Inductive t := preview | apply | health | rollback | complete | reconcile.
End ReconciliationStage.
Module ReconciliationStatus.
Inductive t := succeeded | blocked | indeterminate.
End ReconciliationStatus.

Module PromotionReconciliationCheckpoint.
Record t := mk {
  idempotencyKey : string;
  attempt : Z;
  stage : ReconciliationStage.t;
  providerOperationIds : list string;
  receipt : string;
  executionDigest : option string;
  releaseId : option string;
  targetId : option string;
  status : option ReconciliationStatus.t;
  updatedAt : option string;
}.
End PromotionReconciliationCheckpoint.

Module PromotionRecord.
Record t := mk {
  id : string;
  projectId : string;
  targetId : string;
  releaseId : string;
  releaseDigest : string;
  previousReleaseId : option string;
  expectedCurrentReleaseId : option string;
  state : PromotionState.t;
  attempt : Z;
  kind : PromotionKind.t;
  idempotencyKey : string;
  actor : ActorRef.t;
  createdAt : string;
  updatedAt : string;
  receipt : string;
  previewId : option string;
  deploymentId : option string;
  providerOperationId : option string;
  health : option HealthObservation.t;
  rollbackHealth : option HealthObservation.t;
  healthFailure : option string;
  rollbackDeploymentId : option string;
  rollbackProviderOperationId : option string;
  recoveryAction : option string;
  rollbackOfPromotionId : option string;
  executionIdempotencyKey : option string;
  reconciliationCheckpoint : option PromotionReconciliationCheckpoint.t;
}.
#[global] Instance eta : Eta t := fun r =>
  mk (id r) (projectId r) (targetId r) (releaseId r) (releaseDigest r) (previousReleaseId r)
    (expectedCurrentReleaseId r) (state r) (attempt r) (kind r) (idempotencyKey r) (actor r)
    (createdAt r) (updatedAt r) (receipt r) (previewId r) (deploymentId r)
    (providerOperationId r) (health r) (rollbackHealth r) (healthFailure r)
    (rollbackDeploymentId r) (rollbackProviderOperationId r) (recoveryAction r)
    (rollbackOfPromotionId r) (executionIdempotencyKey r) (reconciliationCheckpoint r).
End PromotionRecord.

Module PromotionEvent.
Record t := mk {
  id : string;
  promotionId : string;
  sequence : Z;
  from : option PromotionState.t;
  to : PromotionState.t;
  attempt : Z;
  operationId : string;
  idempotencyKey : string;
  actor : ActorRef.t;
  createdAt : string;
  receipt : string;
  providerOperationId : option string;
}.
End PromotionEvent.

(** [expectedCurrentReleaseId] may be left out, [null] or an id. *)
Module PromotionRequest.
Record t := mk {
  releaseId : string;
  idempotencyKey : string;
  actor : ActorRef.t;
  expectedCurrentReleaseId : option (option string);
  kind : option PromotionKind.t;
  rollbackOfPromotionId : option string;
}.
End PromotionRequest.

Module PromotionRetryRequest.
Record t := mk { promotionId : string; idempotencyKey : string; actor : ActorRef.t }.
End PromotionRetryRequest.

Module PromotionErrorCode.
Inductive t :=
| invalid_release | release_not_found | target_mismatch | adapter_mismatch
| expected_current_mismatch | idempotency_conflict | invalid_state | capability_unavailable
| provider_result_mismatch | rollback_unavailable.
#[global] Instance t_eq_dec : EqDecision t.
Proof. solve_decision. Defined.
End PromotionErrorCode.

(** What the functions of the module throw: their own error, or one of the
    modules they call. *)
Inductive failure :=
| promotion_error (code : PromotionErrorCode.t) (affectedObject : string)
| migration_error (code : MigrationPlanErrorCode.t)
| input_error (code : ReleaseInputErrorCode.t)
| profile_error (error : TargetDeploymentProfileError.t).

(** * Sealing a Release *)

Section sealing.
Context `{HH : Host} `{SC : CredentialScanner} {S : Type}.
#[local] Abbreviation P := (M S failure).

Definition nonEmpty (value affectedObject : string) : P () :=
  throw_if (blank value) (promotion_error PromotionErrorCode.invalid_release affectedObject).
Definition uniqueIds (ids : list string) (affectedObject : string) : P () :=
  throw_if (has_duplicates ids)
    (promotion_error PromotionErrorCode.invalid_release affectedObject).

Definition createWorkerTarget (target : Target.t) (capabilities : WorkerTargetCapabilities.t)
    (currentReleaseId : option string) (releaseHistory : option (list string))
    (contractDigest : option string) : P WorkerTarget.t :=
  let id := Target.id target in
  nonEmpty (Target.projectId target) id;;
  nonEmpty (Target.adapterId target) id;;
  let history := default [] releaseHistory in
  uniqueIds history id;;
  throw_if match truthy_opt currentReleaseId with
           | Some current => negb (list_includes history current)
           | None => false
           end (promotion_error PromotionErrorCode.target_mismatch id);;
  digested ← match contractDigest with
             | Some d => mret d
             | None =>
                 targetContractDigest ← lift_err profile_error (targetDeploymentContractDigest target);
                 mret (digest (object
                   [field "targetContractDigest" targetContractDigest;
                    field "capabilities" capabilities]))
             end;
  mret (WorkerTarget.mk target currentReleaseId history capabilities digested).

Definition invalid_release (affectedObject : string) : failure :=
  promotion_error PromotionErrorCode.invalid_release affectedObject.

Definition check_artifact (release : Release.t) (target : Target.t)
    (artifactById : omap Artifact.t) (artifactId : string) : P () :=
  artifact ← require (omap_get artifactId artifactById) (invalid_release (Release.id release));
  throw_if (negb (String.eqb (Artifact.projectRevisionId artifact)
                    (Release.projectRevisionId release)))
    (invalid_release (Artifact.id artifact));;
  nonEmpty (Artifact.digest artifact) (Artifact.id artifact);;
  throw_if (negb (list_includes (Target.acceptedArtifactTypes target) (Artifact.type artifact)))
    (invalid_release (Artifact.id artifact)).

Definition passed_for (release : Release.t) (record : Evidence.t) : bool :=
  String.eqb (Evidence.projectRevisionId record) (Release.projectRevisionId release)
  && bool_decide (Evidence.outcome record = EvidenceOutcome.passed).

Definition check_evidence (release : Release.t) (evidenceById : omap Evidence.t)
    (evidenceId : string) : P () :=
  record ← require (omap_get evidenceId evidenceById) (invalid_release (Release.id release));
  throw_if (negb (passed_for release record)) (invalid_release (Evidence.id record)).

Definition with_key (evidence : list Evidence.t) (key : string) : option Evidence.t :=
  find_first (fun candidate => String.eqb (Evidence.key candidate) key) evidence.

Definition check_required (release : Release.t) (target : Target.t) (evidence : list Evidence.t)
    (requiredKey : string) : P () :=
  throw_if match with_key evidence requiredKey with
           | None => true
           | Some record =>
               negb (passed_for release record
                     && bool_decide (Evidence.targetId record = Some (Target.id target)))
           end (invalid_release (Target.id target)).

Definition check_migration_artifact (release : Release.t) (artifactById : omap Artifact.t)
    (migrationArtifactId : string) : P () :=
  throw_if (negb (omap_has migrationArtifactId artifactById)
            || negb (list_includes (Release.artifactIds release) migrationArtifactId))
    (invalid_release (Release.id release)).

Definition check_migration_evidence (release : Release.t) (target : Target.t)
    (evidence : list Evidence.t) (requiredEvidenceKey : string) : P () :=
  throw_if match with_key evidence requiredEvidenceKey with
           | None => true
           | Some record =>
               negb (list_includes (Release.evidenceIds release) (Evidence.id record)
                     && passed_for release record
                     && match Evidence.targetId record with
                        | Some t => String.eqb t (Target.id target)
                        | None => true
                        end)
           end (invalid_release (Release.id release)).

(** What the release digest covers. *)
Definition sealed_json (projectId targetId targetContractDigest : string) (release : Release.t)
    (artifacts : list Artifact.t) (evidence : list Evidence.t) : json :=
  object
    [field "projectId" projectId;
     field "targetId" targetId;
     field "targetContractDigest" targetContractDigest;
     field "release" release;
     field "artifacts" artifacts;
     field "evidence" evidence].

(** [contractDigest] is the property of that name, which a [WorkerTarget] has
    and a plain [Target] has not. *)
Definition sealVerifiedRelease (projectId : string) (release : Release.t)
    (artifacts : list Artifact.t) (evidence : list Evidence.t) (target : Target.t)
    (contractDigest : option string) : P ImmutableRelease.t :=
  let affectedObject := Release.id release in
  nonEmpty projectId affectedObject;;
  nonEmpty (Release.id release) affectedObject;;
  nonEmpty (Release.projectRevisionId release) affectedObject;;
  nonEmpty (Release.policyVersion release) affectedObject;;
  throw_if (length (Release.configurationDigests release) =? 0)%nat (invalid_release affectedObject);;
  throw_if (negb (bool_decide (Release.status release = ReleaseStatus.ready)))
    (invalid_release affectedObject);;
  uniqueIds (Release.artifactIds release) affectedObject;;
  uniqueIds (Release.evidenceIds release) affectedObject;;
  uniqueIds (Artifact.id <$> artifacts) affectedObject;;
  uniqueIds (Evidence.id <$> evidence) affectedObject;;
  throw_if (length (Release.artifactIds release) =? 0)%nat (invalid_release affectedObject);;
  let artifactById := omap_from ((fun a => (Artifact.id a, a)) <$> artifacts) in
  for_each (Release.artifactIds release) (check_artifact release target artifactById);;
  throw_if (negb (length artifactById =? length (Release.artifactIds release))%nat)
    (invalid_release affectedObject);;
  let evidenceById := omap_from ((fun e => (Evidence.id e, e)) <$> evidence) in
  for_each (Release.evidenceIds release) (check_evidence release evidenceById);;
  for_each (Target.requiredEvidenceKeys target) (check_required release target evidence);;
  throw_if (negb (length evidenceById =? length (Release.evidenceIds release))%nat)
    (invalid_release affectedObject);;
  inputSet ← match Release.inputSet release with
             | Some i => mret i
             | None => lift_err input_error
                 (deriveReleaseInputSet (Release.configurationDigests release) artifacts evidence)
             end;
  match Release.inputSet release with
  | Some i => lift_err input_error
      (assertReleaseInputSetMatches i (Release.configurationDigests release) artifacts evidence)
  | None => mret ()
  end;;
  let release := release <| Release.inputSet := Some inputSet |> in
  migrationPlan ← match Release.migrationPlan release with
                  | Some p => mret p
                  | None => lift_err migration_error defaultMigrationPlan
                  end;
  normalizedMigrationPlan ← lift_err migration_error (createMigrationPlan (as_input migrationPlan));
  for_each (MigrationPlan.migrationArtifactIds normalizedMigrationPlan)
    (check_migration_artifact release artifactById);;
  for_each (MigrationPlan.requiredEvidenceKeys normalizedMigrationPlan)
    (check_migration_evidence release target evidence);;
  deploymentProfile ← lift_err profile_error (targetDeploymentProfile target);
  lift_err migration_error (assertMigrationPlanSafeForTarget normalizedMigrationPlan
    (TargetEnvironment.show (TargetDeploymentProfile.environment deploymentProfile))
    (Some (TargetDataClass.show (TargetDeploymentProfile.dataClass deploymentProfile))));;
  let release := release <| Release.migrationPlan := Some normalizedMigrationPlan |> in
  targetContractDigest ← match contractDigest with
                         | Some d => mret d
                         | None => lift_err profile_error (targetDeploymentContractDigest target)
                         end;
  let releaseDigest := digest (sealed_json projectId (Target.id target) targetContractDigest release
    artifacts evidence) in
  sealId ← opaqueId "verified-release";
  mret {|
    ImmutableRelease.id := sealId;
    ImmutableRelease.projectId := projectId;
    ImmutableRelease.release := release;
    ImmutableRelease.artifacts := artifacts;
    ImmutableRelease.evidence := evidence;
    ImmutableRelease.releaseDigest := releaseDigest;
    ImmutableRelease.receipt :=
      cat ["release="; Release.id release; "; projectRevision="; Release.projectRevisionId release;
           "; artifacts="; show_nat (length artifacts); "; evidence="; show_nat (length evidence);
           "; digest="; releaseDigest];
  |}.
End sealing.

(** * The coordinator *)

Definition allowedTransitions (state : PromotionState.t) : list PromotionState.t :=
  match state with
  | PromotionState.proposed => [PromotionState.validating]
  | PromotionState.validating =>
      [PromotionState.approved; PromotionState.failed; PromotionState.blocked]
  | PromotionState.approved =>
      [PromotionState.applying; PromotionState.failed; PromotionState.blocked]
  | PromotionState.applying =>
      [PromotionState.healthy; PromotionState.failed; PromotionState.blocked;
       PromotionState.degraded; PromotionState.rolled_back]
  | PromotionState.healthy => []
  | PromotionState.failed => [PromotionState.proposed]
  | PromotionState.blocked => [PromotionState.proposed]
  | PromotionState.degraded => [PromotionState.proposed; PromotionState.rolled_back]
  | PromotionState.rolled_back => [PromotionState.proposed]
  end.
Definition can_transition (from to : PromotionState.t) : bool :=
  bool_decide (to ∈ allowedTransitions from).

(** [sameStrings] on arrays of strings is equality. *)
Definition sameStrings (left right : list string) : bool := bool_decide (left = right).
Definition providerResultMatches (releaseDigest : string) (artifactDigests : list string)
    (release : ImmutableRelease.t) : bool :=
  String.eqb releaseDigest (ImmutableRelease.releaseDigest release)
  && sameStrings artifactDigests (Artifact.digest <$> ImmutableRelease.artifacts release).

(** What comes back from a call of the adapter: its result, or what it threw. *)
Inductive adapter_answer (T : Type) :=
| answered (result : DeliveryAdapterResult T)
| threw (message : string).
Arguments answered {T} result.
Arguments threw {T} message.

Definition failureFromThrown (operation message : string) : DeliveryAdapterFailure.t := {|
  DeliveryAdapterFailure.outcome := FailureOutcome.indeterminate;
  DeliveryAdapterFailure.errorCode := "adapter.threw";
  DeliveryAdapterFailure.message := cat ["Target adapter "; operation; " threw: "; message];
  DeliveryAdapterFailure.retryable := true;
  DeliveryAdapterFailure.recoveryAction :=
    cat ["inspect the provider operation for "; operation;
         ", reconcile its state, then retry with a new idempotency key"];
  DeliveryAdapterFailure.receipt :=
    cat ["operation="; operation; "; provider-result=thrown; message="; message];
|}.
Definition invoke {T} (operation : string) (answer : adapter_answer T) : DeliveryAdapterResult T :=
  match answer with
  | answered result => result
  | threw message => adapter_failed (failureFromThrown operation message)
  end.

(** Where an execution waits, and the values it will need. *)
Module Point.
Inductive t :=
| preview (release : ImmutableRelease.t)
| deployment (release : ImmutableRelease.t) (operation : string)
| health (release : ImmutableRelease.t) (deployed : WorkerDeployment.t)
| rollback (release previous : ImmutableRelease.t)
| rollback_health (release previous : ImmutableRelease.t) (rolledBack : WorkerDeployment.t).
End Point.

(** What an execution waiting at a point is given. *)
Definition Answer (at_ : Point.t) : Type :=
  match at_ with
  | Point.preview _ => adapter_answer WorkerPreview.t
  | Point.deployment _ _ => adapter_answer WorkerDeployment.t
  | Point.health _ _ => adapter_answer HealthObservation.t
  | Point.rollback _ _ => adapter_answer WorkerDeployment.t
  | Point.rollback_health _ _ _ => adapter_answer HealthObservation.t
  end.

(** A promise of the map [executions]. *)
Inductive Execution :=
| waiting (at_ : Point.t) (asked : AdapterCall)
| settled (result : outcome failure PromotionRecord.t).

(** A stretch of [execute]: up to the next call of the adapter, or to the end. *)
Inductive Progress := pause (at_ : Point.t) (asked : AdapterCall) | finished.

Module Promoter.
Record t := mk {
  projectId : string;
  target : WorkerTarget.t;
  releases : omap ImmutableRelease.t;
  promotions : omap PromotionRecord.t;
  idempotency : omap string;
  executions : omap Execution;
  events : list PromotionEvent.t;
}.
#[global] Instance eta : Eta t := fun r =>
  mk (projectId r) (target r) (releases r) (promotions r) (idempotency r) (executions r) (events r).
End Promoter.

Section promoter.
Context `{HH : Host}.
#[local] Abbreviation P := (M Promoter.t failure).

Definition registerRelease (release : ImmutableRelease.t) : P () :=
  let id := Release.id (ImmutableRelease.release release) in
  projectId ← gets Promoter.projectId;
  throw_if (negb (String.eqb (ImmutableRelease.projectId release) projectId))
    (promotion_error PromotionErrorCode.target_mismatch id);;
  current ← gets (fun s => omap_get id (Promoter.releases s));
  match current with
  | Some current =>
      throw_if (negb (String.eqb (ImmutableRelease.releaseDigest current)
                        (ImmutableRelease.releaseDigest release)))
        (promotion_error PromotionErrorCode.invalid_release id)
  | None =>
      modify (fun s => s <| Promoter.releases := omap_set id release (Promoter.releases s) |>)
  end.

(** The constructor: the state it starts from, then the releases it is given. *)
Definition construct (projectId adapterId : string) (target : WorkerTarget.t)
    (releases : list ImmutableRelease.t) : P () :=
  throw_if (blank projectId)
    (promotion_error PromotionErrorCode.invalid_release "promotion-coordinator");;
  throw_if (negb (String.eqb (Target.projectId (WorkerTarget.base target)) projectId))
    (promotion_error PromotionErrorCode.target_mismatch (WorkerTarget.id target));;
  throw_if (negb (String.eqb adapterId (Target.adapterId (WorkerTarget.base target))))
    (promotion_error PromotionErrorCode.adapter_mismatch (WorkerTarget.id target));;
  modify (fun _ => Promoter.mk projectId target [] [] [] [] []);;
  for_each releases registerRelease.

Definition getTarget : P WorkerTarget.t := gets Promoter.target.
Definition getRelease (releaseId : string) : P (option ImmutableRelease.t) :=
  gets (fun s => omap_get releaseId (Promoter.releases s)).
Definition getPromotion (promotionId : string) : P (option PromotionRecord.t) :=
  gets (fun s => omap_get promotionId (Promoter.promotions s)).
Definition listPromotions : P (list PromotionRecord.t) :=
  gets (fun s => omap_values (Promoter.promotions s)).
Definition listEvents : P (list PromotionEvent.t) := gets Promoter.events.

(** ** Records, events and transitions *)

(** [promotion] is the object in the map, which its executions keep mutating:
    here its id, and the record read and written in the map. *)
Definition record_of (promotionId : string) : P PromotionRecord.t :=
  found ← gets (fun s => omap_get promotionId (Promoter.promotions s));
  require found (promotion_error PromotionErrorCode.release_not_found promotionId).
Definition write (promotion : PromotionRecord.t) : P () :=
  modify (fun s => s <| Promoter.promotions :=
    omap_set (PromotionRecord.id promotion) promotion (Promoter.promotions s) |>).
Definition update (promotionId : string) (f : PromotionRecord.t → PromotionRecord.t) : P () :=
  promotion ← record_of promotionId; write (f promotion).

Definition emit (promotion : PromotionRecord.t) (from : option PromotionState.t)
    (to : PromotionState.t) (receipt : string) (providerOperationId : option string) : P () :=
  eventId ← opaqueId "promotion-event";
  events ← gets Promoter.events;
  operationId ← opaqueId "promotion-operation";
  createdAt ← now;
  modify (fun s => s <| Promoter.events := events ++ [{|
    PromotionEvent.id := eventId;
    PromotionEvent.promotionId := PromotionRecord.id promotion;
    PromotionEvent.sequence := Z.of_nat (length events) + 1;
    PromotionEvent.from := from;
    PromotionEvent.to := to;
    PromotionEvent.attempt := PromotionRecord.attempt promotion;
    PromotionEvent.operationId := operationId;
    PromotionEvent.idempotencyKey := PromotionRecord.idempotencyKey promotion;
    PromotionEvent.actor := PromotionRecord.actor promotion;
    PromotionEvent.createdAt := createdAt;
    PromotionEvent.receipt := receipt;
    PromotionEvent.providerOperationId := truthy_opt providerOperationId;
  |}] |>).

Definition transition (promotionId : string) (next : PromotionState.t) (receipt : string)
    (providerOperationId : option string) : P () :=
  promotion ← record_of promotionId;
  throw_if (negb (can_transition (PromotionRecord.state promotion) next))
    (promotion_error PromotionErrorCode.invalid_state promotionId);;
  let from := PromotionRecord.state promotion in
  updatedAt ← now;
  let promotion := promotion <| PromotionRecord.state := next |>
                             <| PromotionRecord.updatedAt := updatedAt |> in
  write promotion;;
  emit promotion (Some from) next receipt providerOperationId.

Definition set_target_state (state : TargetState.t) : P () :=
  modify (fun s =>
    let target := Promoter.target s in
    s <| Promoter.target :=
      target <| WorkerTarget.base := WorkerTarget.base target <| Target.state := state |> |> |>).

Definition fail (promotionId : string) (state : PromotionState.t)
    (message recoveryAction receipt : string) : P () :=
  let text := cat ["promotion="; PromotionState.show state; "; "; message; "; "; receipt] in
  update promotionId (fun p => p <| PromotionRecord.recoveryAction := Some recoveryAction |>
                                 <| PromotionRecord.receipt := text |>);;
  transition promotionId state text None.

Definition degrade (promotionId message recoveryAction receipt : string) : P () :=
  let text := cat ["promotion=degraded; "; message; "; "; receipt] in
  set_target_state TargetState.degraded;;
  update promotionId (fun p => p <| PromotionRecord.recoveryAction := Some recoveryAction |>
                                 <| PromotionRecord.receipt := text |>);;
  transition promotionId PromotionState.degraded text None.

Definition failFromAdapter (promotionId : string) (failure : DeliveryAdapterFailure.t)
    (operation : string) : P () :=
  let state :=
    if bool_decide (DeliveryAdapterFailure.outcome failure = FailureOutcome.indeterminate)
    then if String.eqb operation "apply" then PromotionState.degraded else PromotionState.failed
    else if DeliveryAdapterFailure.retryable failure then PromotionState.failed
    else PromotionState.blocked in
  if bool_decide (state = PromotionState.degraded)
  then degrade promotionId
    (cat [operation; " returned an indeterminate provider result: ";
          DeliveryAdapterFailure.message failure])
    (DeliveryAdapterFailure.recoveryAction failure) (DeliveryAdapterFailure.receipt failure)
  else fail promotionId state
    (cat [operation; " failed: "; DeliveryAdapterFailure.message failure])
    (DeliveryAdapterFailure.recoveryAction failure) (DeliveryAdapterFailure.receipt failure).

(** The Target once [releaseId] is its current Release. *)
Definition pointed_at (releaseId : string) (target : WorkerTarget.t) : WorkerTarget.t :=
  let history := WorkerTarget.releaseHistory target in
  target
    <| WorkerTarget.currentReleaseId := Some releaseId |>
    <| WorkerTarget.releaseHistory :=
         if bool_decide (last history = Some releaseId) then history else history ++ [releaseId] |>.

Definition completeHealthy (promotionId : string) (release : ImmutableRelease.t)
    (health : HealthObservation.t) (providerOperationId : option string) : P () :=
  let id := Release.id (ImmutableRelease.release release) in
  modify (fun s => s <| Promoter.target := pointed_at id (Promoter.target s) |>);;
  set_target_state TargetState.healthy;;
  target ← gets Promoter.target;
  let text :=
    cat ["promotion=healthy; target="; WorkerTarget.id target; "; release="; id;
         "; artifactDigests=";
         join "," (Artifact.digest <$> ImmutableRelease.artifacts release);
         "; health="; HealthObservation.receipt health] in
  update promotionId (fun p => p <| PromotionRecord.receipt := text |>);;
  transition promotionId PromotionState.healthy text providerOperationId.

(** ** One execution, stretch by stretch *)

Definition adapter_input (promotionId : string) (release : ImmutableRelease.t) :
    P WorkerAdapterInput.t :=
  promotion ← record_of promotionId;
  target ← gets Promoter.target;
  mret (WorkerAdapterInput.mk promotionId (PromotionRecord.attempt promotion) release target).

Definition release_id (release : ImmutableRelease.t) : string :=
  Release.id (ImmutableRelease.release release).

Definition append_receipt (promotionId text : string) : P () :=
  update promotionId (fun p => p <| PromotionRecord.receipt :=
    cat [PromotionRecord.receipt p; "; "; text] |>).
Definition set_recovery (promotionId text : string) : P () :=
  update promotionId (fun p => p <| PromotionRecord.recoveryAction := Some text |>).

(** [recoverAfterHealthFailure] up to its first [await]. *)
Definition recoverAfterHealthFailure (promotionId : string) (release : ImmutableRelease.t)
    (message receipt : string) : P Progress :=
  let text := cat ["promotion=health-failed; release="; release_id release; "; "; receipt] in
  update promotionId (fun p => p <| PromotionRecord.healthFailure := Some message |>
                                 <| PromotionRecord.receipt := text |>);;
  set_target_state TargetState.degraded;;
  transition promotionId PromotionState.degraded text None;;
  plan ← match Release.migrationPlan (ImmutableRelease.release release) with
         | Some plan => mret plan
         | None => lift_err migration_error defaultMigrationPlan
         end;
  decision ← lift_err migration_error (automaticMigrationRollbackDecision plan);
  match decision with
  | rollback_refused recoveryAction decisionReceipt =>
      set_recovery promotionId recoveryAction;;
      append_receipt promotionId decisionReceipt;;
      mret finished
  | rollback_allowed decisionReceipt =>
      append_receipt promotionId decisionReceipt;;
      promotion ← record_of promotionId;
      target ← gets Promoter.target;
      match truthy_opt (PromotionRecord.previousReleaseId promotion) with
      | None =>
          set_recovery promotionId
            "Target is degraded; no previous known-good Release exists, so reconcile the provider before retrying";;
          mret finished
      | Some previousReleaseId =>
          if negb (WorkerTargetCapabilities.rollback (WorkerTarget.capabilities target))
          then
            set_recovery promotionId
              "Target is degraded; qualify rollback capability or reconcile the provider before retrying";;
            mret finished
          else
            found ← gets (fun s => omap_get previousReleaseId (Promoter.releases s));
            match found with
            | None =>
                set_recovery promotionId
                  "Target is degraded; restore the previous immutable Release record before retrying rollback";;
                mret finished
            | Some previous =>
                input ← adapter_input promotionId release;
                mret (pause (Point.rollback release previous)
                  (ask_rollback input previous
                     (truthy_opt (PromotionRecord.deploymentId promotion))))
            end
      end
  end.

(** [recoverAfterHealthFailure] from the result of the rollback. *)
Definition recover_rolled_back (promotionId : string) (release previous : ImmutableRelease.t)
    (rollback : DeliveryAdapterResult WorkerDeployment.t) : P Progress :=
  match rollback with
  | adapter_failed failure =>
      set_recovery promotionId (cat ["Target remains degraded; rollback failed: ";
                                     DeliveryAdapterFailure.recoveryAction failure]);;
      append_receipt promotionId (cat ["rollback=failed; "; DeliveryAdapterFailure.receipt failure]);;
      mret finished
  | succeeded value _ =>
      if negb (providerResultMatches (WorkerDeployment.releaseDigest value)
                 (WorkerDeployment.artifactDigests value) previous)
      then
        set_recovery promotionId
          "Target remains degraded; rollback provider result did not identify the previous immutable Release";;
        append_receipt promotionId
          (cat ["rollback=result-mismatch; expectedReleaseDigest=";
                ImmutableRelease.releaseDigest previous; "; receivedReleaseDigest=";
                WorkerDeployment.releaseDigest value]);;
        mret finished
      else
        update promotionId (fun p =>
          let p := p <| PromotionRecord.rollbackDeploymentId :=
            Some (WorkerDeployment.deploymentId value) |> in
          match truthy_opt (WorkerDeployment.providerOperationId value) with
          | Some o => p <| PromotionRecord.rollbackProviderOperationId := Some o |>
          | None => p
          end);;
        input ← adapter_input promotionId previous;
        mret (pause (Point.rollback_health release previous value)
          (ask_health input (Some (WorkerDeployment.deploymentId value)) HealthPhase.rollback))
  end.

(** [recoverAfterHealthFailure] from the health of the previous Release. *)
Definition recover_verified (promotionId : string) (previous : ImmutableRelease.t)
    (rolledBack : WorkerDeployment.t) (rollbackHealth : DeliveryAdapterResult HealthObservation.t) :
    P Progress :=
  match rollbackHealth with
  | adapter_failed failure =>
      set_recovery promotionId
        (cat ["Target remains degraded; rollback health could not be verified: ";
              DeliveryAdapterFailure.recoveryAction failure]);;
      append_receipt promotionId
        (cat ["rollback=applied; rollbackHealth=indeterminate; ";
              DeliveryAdapterFailure.receipt failure]);;
      mret finished
  | succeeded value _ =>
      update promotionId (fun p => p <| PromotionRecord.rollbackHealth := Some value |>);;
      target ← gets Promoter.target;
      if negb (String.eqb (HealthObservation.targetId value) (WorkerTarget.id target))
         || negb (String.eqb (HealthObservation.releaseId value) (release_id previous))
         || negb (bool_decide (HealthObservation.state value = HealthState.healthy))
      then
        set_recovery promotionId
          "Target remains degraded; rollback completed but the previous Release is not health-verified";;
        append_receipt promotionId
          (cat ["rollback=applied; rollbackHealth="; HealthState.show (HealthObservation.state value);
                "; rollbackHealthReceipt="; HealthObservation.receipt value]);;
        mret finished
      else
        set_target_state TargetState.healthy;;
        set_recovery promotionId
          (cat ["previous Release "; release_id previous;
                " restored and health-verified; inspect the failed Release before retrying"]);;
        append_receipt promotionId
          (cat ["rollback=healthy; previousRelease="; release_id previous; "; rollbackReceipt=";
                HealthObservation.receipt value]);;
        promotion ← record_of promotionId;
        transition promotionId PromotionState.rolled_back (PromotionRecord.receipt promotion)
          (WorkerDeployment.providerOperationId rolledBack);;
        mret finished
  end.

(** [execute] up to its first [await]. *)
Definition execute (promotionId : string) : P Progress :=
  promotion ← record_of promotionId;
  if negb (bool_decide (PromotionRecord.state promotion = PromotionState.proposed))
  then mret finished
  else
    let releaseId := PromotionRecord.releaseId promotion in
    found ← gets (fun s => omap_get releaseId (Promoter.releases s));
    match found with
    | None =>
        fail promotionId PromotionState.failed
          (cat ["Registered Release "; releaseId; " disappeared before execution."])
          "restore the immutable Release registry before retrying"
          (cat ["release="; releaseId; "; registry=missing"]);;
        mret finished
    | Some release =>
        target ← gets Promoter.target;
        match assertTargetCanPromote (WorkerTarget.base target) with
        | Throw error =>
            fail promotionId PromotionState.blocked
              (TargetDeploymentProfileError.message error)
              (TargetDeploymentProfileError.recoveryAction error)
              (TargetDeploymentProfileError.receipt error);;
            mret finished
        | Ok _ =>
            if negb (WorkerTargetCapabilities.preview (WorkerTarget.capabilities target))
            then
              fail promotionId PromotionState.blocked
                (cat ["Target "; WorkerTarget.id target; " does not declare preview capability."])
                "qualify a preview-capable Worker Target before Promotion"
                (cat ["target="; WorkerTarget.id target; "; capability=preview; enabled=false"]);;
              mret finished
            else
              transition promotionId PromotionState.validating
                (cat ["promotion=validating; release="; release_id release; "; digest=";
                      ImmutableRelease.releaseDigest release]) None;;
              input ← adapter_input promotionId release;
              mret (pause (Point.preview release) (ask_preview input))
        end
    end.

(** From the preview to the call that changes the provider. *)
Definition execute_previewed (promotionId : string) (release : ImmutableRelease.t)
    (preview : DeliveryAdapterResult WorkerPreview.t) : P Progress :=
  match preview with
  | adapter_failed failure => failFromAdapter promotionId failure "preview";; mret finished
  | succeeded value receipt =>
      if negb (providerResultMatches (WorkerPreview.releaseDigest value)
                 (WorkerPreview.artifactDigests value) release)
      then
        fail promotionId PromotionState.blocked
          (cat ["Preview for Promotion "; promotionId;
                " did not identify the sealed Release and Artifact digests."])
          "fix the Target adapter to return the exact immutable Release lineage"
          (cat ["promotion="; promotionId; "; expectedReleaseDigest=";
                ImmutableRelease.releaseDigest release; "; receivedReleaseDigest=";
                WorkerPreview.releaseDigest value]);;
        mret finished
      else
        let previewed := cat ["promotion=previewed; release="; release_id release; "; preview=";
                              WorkerPreview.previewId value; "; providerReceipt="; receipt] in
        update promotionId (fun p =>
          p <| PromotionRecord.previewId := Some (WorkerPreview.previewId value) |>
            <| PromotionRecord.receipt := previewed |>);;
        transition promotionId PromotionState.approved previewed None;;
        promotion ← record_of promotionId;
        target ← gets Promoter.target;
        let capabilities := WorkerTarget.capabilities target in
        let rolling_back := bool_decide (PromotionRecord.kind promotion = PromotionKind.rollback) in
        if negb (WorkerTargetCapabilities.promote capabilities)
        then
          fail promotionId PromotionState.blocked
            (cat ["Target "; WorkerTarget.id target; " does not declare Promotion capability."])
            "qualify a Promotion-capable Worker Target before shipping"
            (cat ["target="; WorkerTarget.id target; "; capability=promote; enabled=false"]);;
          mret finished
        else if rolling_back && negb (WorkerTargetCapabilities.rollback capabilities)
        then
          fail promotionId PromotionState.blocked
            (cat ["Target "; WorkerTarget.id target; " does not declare rollback capability."])
            "qualify a rollback-capable Worker Target before requesting rollback"
            (cat ["target="; WorkerTarget.id target; "; capability=rollback; enabled=false"]);;
          mret finished
        else
          transition promotionId PromotionState.applying
            (cat ["promotion=applying; release="; release_id release; "; preview=";
                  WorkerPreview.previewId value]) None;;
          input ← adapter_input promotionId release;
          mret (if rolling_back
                then pause (Point.deployment release "rollback") (ask_rollback input release None)
                else pause (Point.deployment release "apply") (ask_apply input))
  end.

(** From the deployment to the health check. *)
Definition execute_deployed (promotionId : string) (release : ImmutableRelease.t)
    (operation : string) (deployment : DeliveryAdapterResult WorkerDeployment.t) : P Progress :=
  match deployment with
  | adapter_failed failure => failFromAdapter promotionId failure operation;; mret finished
  | succeeded value _ =>
      if negb (providerResultMatches (WorkerDeployment.releaseDigest value)
                 (WorkerDeployment.artifactDigests value) release)
      then
        degrade promotionId
          (cat ["Deployment for Promotion "; promotionId;
                " did not identify the sealed Release and Artifact digests."])
          "reconcile the provider deployment, then retry only after the Target state is known"
          (cat ["promotion="; promotionId; "; expectedReleaseDigest=";
                ImmutableRelease.releaseDigest release; "; receivedReleaseDigest=";
                WorkerDeployment.releaseDigest value]);;
        mret finished
      else
        update promotionId (fun p =>
          let p := p <| PromotionRecord.deploymentId := Some (WorkerDeployment.deploymentId value) |> in
          match truthy_opt (WorkerDeployment.providerOperationId value) with
          | Some o => p <| PromotionRecord.providerOperationId := Some o |>
          | None => p
          end);;
        target ← gets Promoter.target;
        if negb (WorkerTargetCapabilities.healthCheck (WorkerTarget.capabilities target))
        then
          degrade promotionId
            (cat ["Target "; WorkerTarget.id target;
                  " has no declared health-check capability after applying Release ";
                  release_id release; "."])
            "qualify a health checker before changing the authoritative Target pointer"
            (cat ["target="; WorkerTarget.id target; "; capability=healthCheck; enabled=false"]);;
          mret finished
        else
          input ← adapter_input promotionId release;
          mret (pause (Point.health release value)
            (ask_health input (Some (WorkerDeployment.deploymentId value)) HealthPhase.candidate))
  end.

(** From the health of the candidate to the pointer, or to the recovery. *)
Definition execute_checked (promotionId : string) (release : ImmutableRelease.t)
    (deployed : WorkerDeployment.t) (health : DeliveryAdapterResult HealthObservation.t) :
    P Progress :=
  match health with
  | adapter_failed failure =>
      recoverAfterHealthFailure promotionId release
        (cat ["health adapter failure: "; DeliveryAdapterFailure.message failure])
        (DeliveryAdapterFailure.receipt failure)
  | succeeded value _ =>
      update promotionId (fun p => p <| PromotionRecord.health := Some value |>);;
      target ← gets Promoter.target;
      if negb (String.eqb (HealthObservation.targetId value) (WorkerTarget.id target))
         || negb (String.eqb (HealthObservation.releaseId value) (release_id release))
      then
        recoverAfterHealthFailure promotionId release
          "health observation was bound to a different Target or Release"
          (cat ["target="; WorkerTarget.id target; "; release="; release_id release;
                "; observedTarget="; HealthObservation.targetId value;
                "; observedRelease="; HealthObservation.releaseId value])
      else if negb (bool_decide (HealthObservation.state value = HealthState.healthy))
      then
        recoverAfterHealthFailure promotionId release
          (cat ["health state="; HealthState.show (HealthObservation.state value)])
          (HealthObservation.receipt value)
      else
        completeHealthy promotionId release value (WorkerDeployment.providerOperationId deployed);;
        mret finished
  end.

(** The stretch that an answer starts; [invoke] turns what the adapter threw
    into a failed result. *)
Definition resume (promotionId : string) (at_ : Point.t) : Answer at_ → P Progress :=
  match at_ as at_ return Answer at_ → P Progress with
  | Point.preview release => fun answer =>
      execute_previewed promotionId release (invoke "preview" answer)
  | Point.deployment release operation => fun answer =>
      execute_deployed promotionId release operation (invoke operation answer)
  | Point.health release deployed => fun answer =>
      execute_checked promotionId release deployed (invoke "health" answer)
  | Point.rollback release previous => fun answer =>
      recover_rolled_back promotionId release previous (invoke "rollback" answer)
  | Point.rollback_health release previous rolledBack => fun answer =>
      recover_verified promotionId previous rolledBack (invoke "rollback-health" answer)
  end.

(** ** Executions *)

Definition record_execution (promotionId : string) (execution : Execution) : P () :=
  modify (fun s => s <| Promoter.executions :=
    omap_set promotionId execution (Promoter.executions s) |>).

(** A stretch and what it leaves in [executions]: the point it waits at, the
    copy of the record it returned, or what it threw. *)
Definition run (promotionId : string) (stretch : P Progress) : P () :=
  settlement ← try_catch
    (progress ← stretch;
     match progress with
     | pause at_ asked => mret (waiting at_ asked)
     | finished => promotion ← record_of promotionId; mret (settled (Ok promotion))
     end)
    (fun e => mret (settled (Throw e)));
  record_execution promotionId settlement.

Definition execution_of (promotionId : string) : P (option Execution) :=
  gets (fun s => omap_get promotionId (Promoter.executions s)).

Definition executeOnce (promotionId : string) : P () :=
  running ← execution_of promotionId;
  match running with
  | Some _ => mret ()
  | None => run promotionId (execute promotionId)
  end.

(** [adapter] answers the call that the execution waits for. *)
Definition deliver (adapter : ∀ at_ : Point.t, AdapterCall → Answer at_) (promotionId : string) :
    P () :=
  running ← execution_of promotionId;
  match running with
  | Some (waiting at_ asked) => run promotionId (resume promotionId at_ (adapter at_ asked))
  | _ => mret ()
  end.

(** [cleanup], which runs once the promise has settled. *)
Definition cleanup (promotionId : string) : P () :=
  running ← execution_of promotionId;
  match running with
  | Some (settled _) => modify (fun s => s <| Promoter.executions :=
      omap_delete promotionId (Promoter.executions s) |>)
  | _ => mret ()
  end.

(** ** Requests *)

(** What [promote] and [retryPromotion] resolve to: a copy of the record, or the
    outcome of the execution of a Promotion. *)
Inductive Reply := replied (promotion : PromotionRecord.t) | outcome_of (promotionId : string).

Definition show_release (releaseId : option string) : string := default "none" releaseId.

Definition conflict (idempotencyKey : string) : failure :=
  promotion_error PromotionErrorCode.idempotency_conflict idempotencyKey.

(** The record that a request creates. *)
Definition proposal (projectId : string) (target : WorkerTarget.t) (release : ImmutableRelease.t)
    (input : PromotionRequest.t) (expected : option string) (id createdAt updatedAt : string) :
    PromotionRecord.t := {|
  PromotionRecord.id := id;
  PromotionRecord.projectId := projectId;
  PromotionRecord.targetId := WorkerTarget.id target;
  PromotionRecord.releaseId := PromotionRequest.releaseId input;
  PromotionRecord.releaseDigest := ImmutableRelease.releaseDigest release;
  PromotionRecord.previousReleaseId := WorkerTarget.currentReleaseId target;
  PromotionRecord.expectedCurrentReleaseId := expected;
  PromotionRecord.state := PromotionState.proposed;
  PromotionRecord.attempt := 0;
  PromotionRecord.kind := default PromotionKind.promotion (PromotionRequest.kind input);
  PromotionRecord.idempotencyKey := PromotionRequest.idempotencyKey input;
  PromotionRecord.actor := PromotionRequest.actor input;
  PromotionRecord.createdAt := createdAt;
  PromotionRecord.updatedAt := updatedAt;
  PromotionRecord.receipt :=
    cat ["promotion=proposed; target="; WorkerTarget.id target; "; release=";
         PromotionRequest.releaseId input;
         "; expectedCurrent="; show_release expected];
  PromotionRecord.previewId := None;
  PromotionRecord.deploymentId := None;
  PromotionRecord.providerOperationId := None;
  PromotionRecord.health := None;
  PromotionRecord.rollbackHealth := None;
  PromotionRecord.healthFailure := None;
  PromotionRecord.rollbackDeploymentId := None;
  PromotionRecord.rollbackProviderOperationId := None;
  PromotionRecord.recoveryAction := None;
  PromotionRecord.rollbackOfPromotionId :=
    truthy_opt (PromotionRequest.rollbackOfPromotionId input);
  PromotionRecord.executionIdempotencyKey := None;
  PromotionRecord.reconciliationCheckpoint := None;
|}.

Definition requestPromotion (input : PromotionRequest.t) : P PromotionRecord.t :=
  let key := PromotionRequest.idempotencyKey input in
  existingId ← gets (fun s => omap_get key (Promoter.idempotency s));
  target ← gets Promoter.target;
  match truthy_opt existingId with
  | Some existingId =>
      found ← gets (fun s => omap_get existingId (Promoter.promotions s));
      existing ← require found (conflict key);
      throw_if (negb (String.eqb (PromotionRecord.releaseId existing)
                        (PromotionRequest.releaseId input))
                || negb (String.eqb (PromotionRecord.targetId existing) (WorkerTarget.id target)))
        (conflict key);;
      mret existing
  | None =>
      let releaseId := PromotionRequest.releaseId input in
      found ← gets (fun s => omap_get releaseId (Promoter.releases s));
      release ← require found (promotion_error PromotionErrorCode.release_not_found releaseId);
      let current := WorkerTarget.currentReleaseId target in
      let expected := default current (PromotionRequest.expectedCurrentReleaseId input) in
      throw_if (negb (bool_decide (expected = current)))
        (promotion_error PromotionErrorCode.expected_current_mismatch (WorkerTarget.id target));;
      projectId ← gets Promoter.projectId;
      id ← opaqueId "promotion";
      createdAt ← now;
      updatedAt ← now;
      let promotion := proposal projectId target release input expected id createdAt updatedAt in
      write promotion;;
      modify (fun s => s <| Promoter.idempotency := omap_set key id (Promoter.idempotency s) |>);;
      emit promotion None PromotionState.proposed (PromotionRecord.receipt promotion) None;;
      mret promotion
  end.

Definition promote (input : PromotionRequest.t) : P Reply :=
  requested ← requestPromotion input;
  let id := PromotionRecord.id requested in
  running ← execution_of id;
  match running with
  | Some _ => mret (outcome_of id)
  | None =>
      if negb (bool_decide (PromotionRecord.state requested = PromotionState.proposed))
      then mret (replied requested)
      else executeOnce id;; mret (outcome_of id)
  end.

Definition retryable_state (state : PromotionState.t) : bool :=
  bool_decide (state ∈ [PromotionState.failed; PromotionState.blocked; PromotionState.degraded;
                        PromotionState.rolled_back]).

(** The record as [retryPromotion] prepares it for another attempt. *)
Definition for_retry (target : WorkerTarget.t) (idempotencyKey : string)
    (promotion : PromotionRecord.t) : PromotionRecord.t :=
  let expected := WorkerTarget.currentReleaseId target in
  let attempt := (PromotionRecord.attempt promotion + 1)%Z in
  promotion
    <| PromotionRecord.idempotencyKey := idempotencyKey |>
    <| PromotionRecord.expectedCurrentReleaseId := expected |>
    <| PromotionRecord.previousReleaseId := expected |>
    <| PromotionRecord.attempt := attempt |>
    <| PromotionRecord.receipt :=
         cat ["promotion=retry-requested; target="; WorkerTarget.id target; "; release=";
              PromotionRecord.releaseId promotion; "; attempt="; pretty attempt;
              "; expectedCurrent="; show_release expected] |>
    <| PromotionRecord.recoveryAction :=
         Some "retry is executing against the current Target pointer" |>
    <| PromotionRecord.previewId := None |>
    <| PromotionRecord.deploymentId := None |>
    <| PromotionRecord.providerOperationId := None |>
    <| PromotionRecord.health := None |>
    <| PromotionRecord.rollbackHealth := None |>
    <| PromotionRecord.healthFailure := None |>
    <| PromotionRecord.rollbackDeploymentId := None |>
    <| PromotionRecord.rollbackProviderOperationId := None |>.

(** What a retry changes before it executes the Promotion again. *)
Definition reopen (promotionId idempotencyKey : string) : P () :=
  target ← gets Promoter.target;
  update promotionId (for_retry target idempotencyKey);;
  modify (fun s => s <| Promoter.idempotency :=
    omap_set idempotencyKey promotionId (Promoter.idempotency s) |>);;
  promotion ← record_of promotionId;
  transition promotionId PromotionState.proposed (PromotionRecord.receipt promotion) None.

Definition retryPromotion (input : PromotionRetryRequest.t) : P Reply :=
  let key := PromotionRetryRequest.idempotencyKey input in
  let promotionId := PromotionRetryRequest.promotionId input in
  existingId ← gets (fun s => omap_get key (Promoter.idempotency s));
  match truthy_opt existingId with
  | Some existingId =>
      found ← gets (fun s => omap_get existingId (Promoter.promotions s));
      existing ← require found (conflict key);
      throw_if (negb (String.eqb (PromotionRecord.id existing) promotionId)) (conflict key);;
      running ← execution_of promotionId;
      match running with
      | Some _ => mret (outcome_of promotionId)
      | None => mret (replied existing)
      end
  | None =>
      promotion ← record_of promotionId;
      throw_if (negb (retryable_state (PromotionRecord.state promotion)))
        (promotion_error PromotionErrorCode.invalid_state promotionId);;
      reopen promotionId key;;
      executeOnce promotionId;;
      mret (outcome_of promotionId)
  end.

(** [history[history.lastIndexOf(current) - 1]], when there is one. *)
Fixpoint before_last_of (current : string) (previous : option string) (history : list string) :
    option string :=
  match history with
  | [] => None
  | release :: history =>
      match before_last_of current (Some release) history with
      | Some found => Some found
      | None => if String.eqb release current then previous else None
      end
  end.

Definition rollbackToPrevious (idempotencyKey : string) (actor : ActorRef.t) : P Reply :=
  target ← gets Promoter.target;
  let unavailable := promotion_error PromotionErrorCode.rollback_unavailable (WorkerTarget.id target) in
  current ← require (truthy_opt (WorkerTarget.currentReleaseId target)) unavailable;
  previous ← require
    (truthy_opt (before_last_of current None (WorkerTarget.releaseHistory target))) unavailable;
  promotions ← gets Promoter.promotions;
  let previousPromotion := find_last (fun candidate =>
    String.eqb (PromotionRecord.releaseId candidate) current
    && bool_decide (PromotionRecord.state candidate = PromotionState.healthy))
    (omap_values promotions) in
  promote {|
    PromotionRequest.releaseId := previous;
    PromotionRequest.idempotencyKey := idempotencyKey;
    PromotionRequest.actor := actor;
    PromotionRequest.expectedCurrentReleaseId := Some (Some current);
    PromotionRequest.kind := Some PromotionKind.rollback;
    PromotionRequest.rollbackOfPromotionId := PromotionRecord.id <$> previousPromotion;
  |}.

Definition shipWorkerRelease (releaseId idempotencyKey : string) (actor : ActorRef.t)
    (expectedCurrentReleaseId : option (option string)) : P Reply :=
  promote {|
    PromotionRequest.releaseId := releaseId;
    PromotionRequest.idempotencyKey := idempotencyKey;
    PromotionRequest.actor := actor;
    PromotionRequest.expectedCurrentReleaseId := expectedCurrentReleaseId;
    PromotionRequest.kind := None;
    PromotionRequest.rollbackOfPromotionId := None;
  |}.
End promoter.
