(* ===== verification/PromotionFacts.v ===== *)
(** Promotion, proved: what every interleaving of requests, answers of the
    adapter and settlements keeps true of the coordinator, when the Target moves
    to another Release, and that every execution settles. *)

From S2P Require Import Prelude Json Contracts ContractsJson Migrations ReleaseInputs TargetDeployments Promotion.

(** * Steps of the coordinator

    The calls a caller makes, the answers of the adapter, and the cleanup of a
    settled execution, in any order. *)

Inductive Op :=
| op_register (release : ImmutableRelease.t)
| op_request (input : PromotionRequest.t)
| op_promote (input : PromotionRequest.t)
| op_retry (input : PromotionRetryRequest.t)
| op_rollback (idempotencyKey : string) (actor : ActorRef.t)
| op_deliver (adapter : ∀ at_ : Point.t, AdapterCall → Answer at_) (promotionId : string)
| op_cleanup (promotionId : string).

Definition perform `{Host} (op : Op) : M Promoter.t failure () :=
  match op with
  | op_register release => registerRelease release
  | op_request input => requestPromotion input;; mret ()
  | op_promote input => promote input;; mret ()
  | op_retry input => retryPromotion input;; mret ()
  | op_rollback key actor => rollbackToPrevious key actor;; mret ()
  | op_deliver adapter id => deliver adapter id
  | op_cleanup id => cleanup id
  end.

Definition step `{Host} (σ σ' : World * Promoter.t) : Prop :=
  ∃ op result, perform op σ.1 σ.2 = (result, σ'.1, σ'.2).

(** * The ledger *)

Definition about (id : string) (events : list PromotionEvent.t) : list PromotionEvent.t :=
  base.filter (λ e, PromotionEvent.promotionId e = id) events.

Definition follows (from : option PromotionState.t) (to : PromotionState.t) : bool :=
  match from with
  | None => bool_decide (to = PromotionState.proposed)
  | Some from => can_transition from to
  end.

(** The events of one Promotion, read as a path of its state machine that ends
    in the given state. *)
Inductive path : list PromotionEvent.t → option PromotionState.t → Prop :=
| path_nil : path [] None
| path_snoc l from e :
    path l from → PromotionEvent.from e = from → follows from (PromotionEvent.to e) = true →
    path (l ++ [e]) (Some (PromotionEvent.to e)).

Record ledger (s : Promoter.t) : Prop := {
  ledger_ids : omap_all (λ k p, PromotionRecord.id p = k) (Promoter.promotions s);
  ledger_sequence : PromotionEvent.sequence <$> Promoter.events s =
    Z.of_nat <$> seq 1 (length (Promoter.events s));
  ledger_path : ∀ id, path (about id (Promoter.events s))
    (PromotionRecord.state <$> omap_get id (Promoter.promotions s));
}.

(** * What an execution may wait for *)

Definition point_release (at_ : Point.t) : ImmutableRelease.t :=
  match at_ with
  | Point.preview r | Point.deployment r _ | Point.health r _ | Point.rollback r _
  | Point.rollback_health r _ _ => r
  end.

Definition deployed_as (d : WorkerDeployment.t) (r : ImmutableRelease.t) : Prop :=
  WorkerDeployment.releaseDigest d = ImmutableRelease.releaseDigest r ∧
  WorkerDeployment.artifactDigests d = Artifact.digest <$> ImmutableRelease.artifacts r.

(** The call that goes with the point, and what the point has established. *)
Definition asks (at_ : Point.t) (asked : AdapterCall) : Prop :=
  match at_, asked with
  | Point.preview r, ask_preview i => WorkerAdapterInput.release i = r
  | Point.deployment r op, ask_apply i => op = "apply" ∧ WorkerAdapterInput.release i = r
  | Point.deployment r op, ask_rollback i previous None =>
      op = "rollback" ∧ WorkerAdapterInput.release i = r ∧ previous = r
  | Point.health r d, ask_health i deployment HealthPhase.candidate =>
      deployed_as d r ∧ WorkerAdapterInput.release i = r ∧
      deployment = Some (WorkerDeployment.deploymentId d)
  | Point.rollback r previous, ask_rollback i previous' _ =>
      WorkerAdapterInput.release i = r ∧ previous' = previous
  | Point.rollback_health r previous d, ask_health i deployment HealthPhase.rollback =>
      deployed_as d previous ∧ WorkerAdapterInput.release i = previous ∧
      deployment = Some (WorkerDeployment.deploymentId d)
  | _, _ => False
  end.

Definition promotion_key `{Host} (n : nat) : string := cat ["promotion"; ":"; randomUUID n].

Definition releases_of (s : Promoter.t) (p : PromotionRecord.t) : option ImmutableRelease.t :=
  omap_get (PromotionRecord.releaseId p) (Promoter.releases s).

Record inv `{Host} (w : World) (s : Promoter.t) : Prop := {
  inv_ledger : ledger s;
  inv_fresh : omap_all (λ id _, ∃ n, (n < uuids_drawn w)%nat ∧ id = promotion_key n)
    (Promoter.promotions s);
  inv_releases : omap_all (λ k r, release_id r = k) (Promoter.releases s);
  inv_promotions : omap_all (λ _ p,
      PromotionRecord.targetId p = WorkerTarget.id (Promoter.target s) ∧
      ∃ r, releases_of s p = Some r ∧
           ImmutableRelease.releaseDigest r = PromotionRecord.releaseDigest p)
    (Promoter.promotions s);
  inv_idempotency : omap_all (λ _ id, is_Some (omap_get id (Promoter.promotions s)))
    (Promoter.idempotency s);
  inv_executions : omap_all (λ id e,
      ∃ p, omap_get id (Promoter.promotions s) = Some p ∧
      ∀ at_ asked, e = waiting at_ asked →
        asks at_ asked ∧ releases_of s p = Some (point_release at_))
    (Promoter.executions s);
}.

(** What no step takes back: a Promotion keeps its identity, its Release and its
    actor, a registered Release and a used idempotency key stay, and the event
    ledger only grows. *)

Definition identity (p : PromotionRecord.t) :=
  (PromotionRecord.id p, PromotionRecord.projectId p, PromotionRecord.targetId p,
   PromotionRecord.releaseId p, PromotionRecord.releaseDigest p, PromotionRecord.kind p,
   PromotionRecord.actor p, PromotionRecord.createdAt p, PromotionRecord.rollbackOfPromotionId p).

Record evolves (s s' : Promoter.t) : Prop := {
  evolves_project : Promoter.projectId s' = Promoter.projectId s;
  evolves_target : WorkerTarget.id (Promoter.target s') = WorkerTarget.id (Promoter.target s);
  evolves_releases : extends (Promoter.releases s) (Promoter.releases s');
  evolves_idempotency : extends (Promoter.idempotency s) (Promoter.idempotency s');
  evolves_promotions : ∀ k p, omap_get k (Promoter.promotions s) = Some p →
    ∃ p', omap_get k (Promoter.promotions s') = Some p' ∧ identity p' = identity p;
  evolves_events : Promoter.events s `prefix_of` Promoter.events s';
}.

(** * The invariant is kept *)

Section invariant.
Context `{HH : Host}.
Implicit Types (s : Promoter.t) (p : PromotionRecord.t).

Lemma readonly_record_of id : readonly (record_of id).
Proof. unfold record_of. solve_readonly. Qed.
Hint Resolve readonly_record_of : anyam_ro.
Lemma readonly_adapter_input id r : readonly (adapter_input id r).
Proof. unfold adapter_input. solve_readonly. Qed.
Lemma readonly_execution_of id : readonly (execution_of id).
Proof. unfold execution_of. solve_readonly. Qed.
Hint Resolve readonly_adapter_input readonly_execution_of : anyam_ro.

#[export] Instance inv_drawable : Drawable inv.
Proof.
intros u c w s [Hl Hf Hr Hp Hi He]. split; [done| |done..].
intros k p (n & ? & ->)%Hf. exists n. simpl. split; [lia|done].
Qed.

Lemma id_of w s id p :
  inv w s → omap_get id (Promoter.promotions s) = Some p → PromotionRecord.id p = id.
Proof. intros Hi Hp. by apply (ledger_ids _ (inv_ledger _ _ Hi)) in Hp. Qed.

(** Two states that differ in what the invariant does not read. *)
Definition key_fields p := (identity p, PromotionRecord.state p).
Record similar s s' : Prop := {
  similar_project : Promoter.projectId s' = Promoter.projectId s;
  similar_releases : Promoter.releases s' = Promoter.releases s;
  similar_idempotency : Promoter.idempotency s' = Promoter.idempotency s;
  similar_executions : Promoter.executions s' = Promoter.executions s;
  similar_events : Promoter.events s' = Promoter.events s;
  similar_target : WorkerTarget.id (Promoter.target s') = WorkerTarget.id (Promoter.target s);
  similar_promotions : ∀ k, key_fields <$> omap_get k (Promoter.promotions s') =
    key_fields <$> omap_get k (Promoter.promotions s);
}.

Lemma similar_get s s' k p' : similar s s' →
  omap_get k (Promoter.promotions s') = Some p' →
  ∃ p, omap_get k (Promoter.promotions s) = Some p ∧ key_fields p = key_fields p'.
Proof.
intros Hs Hp'. pose proof (similar_promotions _ _ Hs k) as Hk. rewrite Hp' in Hk. simpl in Hk.
destruct (omap_get k (Promoter.promotions s)) as [p|]; [|done].
exists p. split; [done|]. by apply (inj Some) in Hk.
Qed.
Lemma similar_get_back s s' k p : similar s s' →
  omap_get k (Promoter.promotions s) = Some p →
  ∃ p', omap_get k (Promoter.promotions s') = Some p' ∧ key_fields p' = key_fields p.
Proof.
intros Hs Hp'. pose proof (similar_promotions _ _ Hs k) as Hk. rewrite Hp' in Hk. simpl in Hk.
destruct (omap_get k (Promoter.promotions s')) as [p'|]; [|done].
exists p'. split; [done|]. by apply (inj Some) in Hk.
Qed.

Lemma ledger_similar s s' : similar s s' → ledger s → ledger s'.
Proof.
intros Hs []. split.
- intros k p' (p & Hp & [=])%(similar_get _ _ _ _ Hs). apply ledger_ids0 in Hp. congruence.
- by rewrite (similar_events _ _ Hs).
- intros id. rewrite (similar_events _ _ Hs).
  assert (PromotionRecord.state <$> omap_get id (Promoter.promotions s') =
    PromotionRecord.state <$> omap_get id (Promoter.promotions s)) as ->; [|done].
  pose proof (similar_promotions _ _ Hs id) as Hk.
  destruct (omap_get id (Promoter.promotions s')), (omap_get id (Promoter.promotions s));
    simplify_eq/=; [|done]. unfold key_fields, identity in Hk. congruence.
Qed.

Lemma inv_similar w s s' : similar s s' → inv w s → inv w s'.
Proof.
intros Hs [Hl Hf Hr Hp Hi He]. split.
- by eapply ledger_similar.
- intros k p' (p & ? & _)%(similar_get _ _ _ _ Hs). by eapply Hf.
- by rewrite (similar_releases _ _ Hs).
- intros k p' (p & Hk & [=])%(similar_get _ _ _ _ Hs).
  apply Hp in Hk as (Ht & r & Hr' & Hd). split; [by rewrite (similar_target _ _ Hs); congruence|].
  exists r. unfold releases_of in *. rewrite (similar_releases _ _ Hs). split; congruence.
- rewrite (similar_idempotency _ _ Hs). intros k id Hk. destruct (Hi k id Hk) as [p Hp'].
  destruct (similar_get_back _ _ _ _ Hs Hp') as (p' & ? & _). by eexists.
- rewrite (similar_executions _ _ Hs). intros k e Hk. destruct (He k e Hk) as (p & Hp' & Hw).
  destruct (similar_get_back _ _ _ _ Hs Hp') as (p' & ? & Hkf). exists p'. split; [done|].
  intros at_ asked Hat. destruct (Hw at_ asked Hat) as [? <-]. split; [done|].
  unfold releases_of, key_fields, identity in *. rewrite (similar_releases _ _ Hs). congruence.
Qed.

Lemma ledger_same s s' : Promoter.promotions s' = Promoter.promotions s →
  Promoter.events s' = Promoter.events s → ledger s → ledger s'.
Proof. intros Hp He []. split; by rewrite ?Hp, ?He. Qed.

(** An update that leaves the key fields alone. *)
Definition cosmetic (f : PromotionRecord.t → PromotionRecord.t) : Prop :=
  ∀ p, key_fields (f p) = key_fields p.

Lemma similar_write s p p' :
  omap_get (PromotionRecord.id p) (Promoter.promotions s) = Some p →
  key_fields p' = key_fields p →
  similar s (s <| Promoter.promotions :=
    omap_set (PromotionRecord.id p') p' (Promoter.promotions s) |>).
Proof.
intros Hp Hf. split; try done. intros k. simpl. rewrite omap_get_set.
assert (PromotionRecord.id p' = PromotionRecord.id p) as -> by (unfold key_fields, identity in Hf; congruence).
case_decide as Hk; [|done]. subst k. rewrite Hp. simpl. by rewrite Hf.
Qed.

Lemma keeps_update id f : cosmetic f → keeps inv (update id f).
Proof.
intros Hf w s Hi. unfold update, record_of, write. wp_steps; [done|].
eapply inv_similar; [|done].
pose proof (id_of _ _ _ _ Hi H) as Hid. subst id.
by apply (similar_write _ a).
Qed.
Lemma keeps_set_target_state st : keeps inv (set_target_state st).
Proof. intros w s Hi. unfold set_target_state. wp_steps. by apply (inv_similar _ s). Qed.
(** One event more. *)
Lemma about_snoc id l e :
  about id (l ++ [e]) = about id l ++ (if decide (PromotionEvent.promotionId e = id) then [e] else []).
Proof. unfold about. rewrite filter_app. cbn. by case_decide. Qed.

Lemma ledger_emit s s' e p : ledger s →
  Promoter.events s' = Promoter.events s ++ [e] →
  Promoter.promotions s' = omap_set (PromotionRecord.id p) p (Promoter.promotions s) →
  PromotionEvent.promotionId e = PromotionRecord.id p →
  PromotionEvent.sequence e = (Z.of_nat (length (Promoter.events s)) + 1)%Z →
  PromotionEvent.to e = PromotionRecord.state p →
  PromotionEvent.from e =
    PromotionRecord.state <$> omap_get (PromotionRecord.id p) (Promoter.promotions s) →
  follows (PromotionEvent.from e) (PromotionEvent.to e) = true →
  ledger s'.
Proof.
intros [Hids Hseq Hpath] Hev Hpr Hid Hsq Hto Hfrom Hok. split.
- rewrite Hpr. by apply omap_all_set.
- rewrite Hev, length_app, fmap_app, Hseq, Nat.add_1_r, seq_S, fmap_app. f_equal. simpl.
  rewrite Hsq. f_equal. lia.
- intros id. rewrite Hev, about_snoc, Hpr, omap_get_set, Hid.
  case_decide as Hk; [|rewrite app_nil_r; by apply Hpath].
  subst id. simpl. rewrite <-Hto. eapply path_snoc; [by apply Hpath|done|by rewrite <-Hfrom].
Qed.

Lemma keeps_transition id next receipt o : keeps inv (transition id next receipt o).
Proof.
intros w s Hi. unfold transition, record_of, write, emit. wp_step. wp_steps; [done|done|].
pose proof (id_of _ _ _ _ Hi H) as Hid. subst id.
rewrite negb_false_iff in *. set (p' := a <| PromotionRecord.state := _ |> <| PromotionRecord.updatedAt := _ |>).
wp_steps. apply wp_opaqueId. wp_steps. apply wp_opaqueId. wp_steps.
destruct Hi as [Hl Hf Hr Hp Hid He]. split; cbn -[omap_get omap_set].
- eapply (ledger_emit s _ _ p'); try done; simpl; by rewrite H.
- intros k p. rewrite omap_get_set. intros Hk.
  assert (is_Some (omap_get k (Promoter.promotions s))) as [q Hq].
  { case_decide; [subst; by eexists|by eexists]. }
  apply Hf in Hq as (n & ? & ->). exists n. split; [lia|done].
- done.
- apply omap_all_set; [done|]. by apply (Hp _ _ H).
- intros k id Hk. rewrite omap_get_set. case_decide; [by eexists|]. by eapply Hid.
- intros k e Hk. destruct (He k e Hk) as (p & Hp' & Hw). rewrite omap_get_set.
  case_decide as Hkk; [|by exists p]. subst k. exists p'. simplify_eq. done.
Qed.
End invariant.

(** ** Stretches of an execution *)

Section stretches.
Context `{HH : Host}.
Implicit Types (s : Promoter.t) (p : PromotionRecord.t) (r : ImmutableRelease.t).

#[export] Instance evolves_preorder : PreOrder evolves.
Proof.
split; [intros s; by split; eauto|]. intros s1 s2 s3 [] []. split; try congruence; try by etrans.
intros k p Hp. destruct (evolves_promotions0 k p Hp) as (p2 & Hp2 & He2).
destruct (evolves_promotions1 k p2 Hp2) as (p3 & Hp3 & He3). exists p3. split; congruence.
Qed.
Lemma evolves_similar s s' : similar s s' → evolves s s'.
Proof.
intros Hs. destruct Hs as [H1 H2 H3 H4 H5 H6 H7] eqn:He. clear He. split; rewrite ?H2, ?H3, ?H5; try done.
intros k p Hp. destruct (similar_get_back _ _ _ _ Hs Hp) as (p' & ? & Hk). exists p'.
unfold key_fields in Hk. split; congruence.
Qed.
Lemma evolves_emit s s' p p' e :
  Promoter.projectId s' = Promoter.projectId s → Promoter.target s' = Promoter.target s →
  Promoter.releases s' = Promoter.releases s → Promoter.idempotency s' = Promoter.idempotency s →
  Promoter.events s' = Promoter.events s ++ [e] →
  Promoter.promotions s' = omap_set (PromotionRecord.id p') p' (Promoter.promotions s) →
  omap_get (PromotionRecord.id p') (Promoter.promotions s) = Some p → identity p' = identity p →
  evolves s s'.
Proof.
intros ? Ht Hr Hi He Hps Hp Hid. split; rewrite ?Ht, ?Hr, ?Hi, ?He, ?Hps; try done.
- intros k q Hq. rewrite omap_get_set. case_decide as Hk; [|by exists q]. subst k.
  exists p'. split; [done|]. congruence.
- by apply prefix_app_r.
Qed.

(** From [s0] on. *)
Definition since s0 (w : World) s : Prop := inv w s ∧ evolves s0 s.

#[export] Instance since_drawable s0 : Drawable (since s0).
Proof. intros u c w s [Hi Hw]. split; [by apply drawable|done]. Qed.

(** The Promotion [id] and the Release [r] that it promotes. *)
Definition works id r s : Prop :=
  ∃ p, omap_get id (Promoter.promotions s) = Some p ∧ releases_of s p = Some r.
Lemma works_evolves id r s s' : evolves s s' → works id r s → works id r s'.
Proof.
intros He (p & Hp & Hr). destruct (evolves_promotions _ _ He _ _ Hp) as (p' & Hp' & Hk).
exists p'. split; [done|]. unfold releases_of in *.
assert (PromotionRecord.releaseId p' = PromotionRecord.releaseId p) as -> by (unfold identity in Hk; congruence).
by apply (evolves_releases _ _ He).
Qed.
Lemma inv_works w s id p : inv w s → omap_get id (Promoter.promotions s) = Some p →
  ∃ r, works id r s.
Proof. intros Hi Hp. destruct (inv_promotions _ _ Hi _ _ Hp) as (_ & r & Hr & _). exists r. by exists p. Qed.

Lemma keeps_since s0 {A} (m : M Promoter.t failure A) : keeps inv m →
  (∀ w s, inv w s → wp m (λ _ _ s', evolves s s') (λ _ _ s', evolves s s') w s) →
  keeps (since s0) m.
Proof.
intros Hm He. apply keeps_and; [done|]. intros w s Hi Hs.
eapply wp_mono; [by apply He|intros ???? ..]; by etrans.
Qed.

Section since.
Variable s0 : Promoter.t.

Lemma keeps_s_update id f : cosmetic f → keeps (since s0) (update id f).
Proof.
intros Hf. apply keeps_since; [by apply keeps_update|]. intros w s Hi.
unfold update, record_of, write. wp_steps; [done|].
pose proof (id_of _ _ _ _ Hi H) as Hid. subst id. apply evolves_similar. by apply (similar_write _ a).
Qed.
Lemma keeps_s_set_target_state st : keeps (since s0) (set_target_state st).
Proof.
apply keeps_since; [apply keeps_set_target_state|]. intros w s Hi. unfold set_target_state.
wp_steps. by apply evolves_similar.
Qed.
Lemma keeps_s_transition id next receipt o : keeps (since s0) (transition id next receipt o).
Proof.
apply keeps_since; [apply keeps_transition|]. intros w s Hi.
unfold transition, record_of, write, emit. wp_step. wp_steps; [done|done|].
pose proof (id_of _ _ _ _ Hi H) as Hid. subst id.
wp_steps. apply wp_opaqueId. wp_steps. apply wp_opaqueId. wp_steps. by eapply evolves_emit.
Qed.
Hint Resolve keeps_s_update keeps_s_set_target_state keeps_s_transition : anyam_keeps.
Hint Extern 1 (cosmetic _) => (intros ?; repeat case_match; reflexivity) : anyam_keeps.

Lemma keeps_s_fail id' st m a t : keeps (since s0) (fail id' st m a t).
Proof. unfold fail. solve_keeps. Qed.
Lemma keeps_s_degrade id' m a t : keeps (since s0) (degrade id' m a t).
Proof. unfold degrade. solve_keeps. Qed.
Lemma keeps_s_append_receipt id' t : keeps (since s0) (append_receipt id' t).
Proof. unfold append_receipt. solve_keeps. Qed.
Lemma keeps_s_set_recovery id' t : keeps (since s0) (set_recovery id' t).
Proof. unfold set_recovery. solve_keeps. Qed.
Hint Resolve keeps_s_fail keeps_s_degrade keeps_s_append_receipt keeps_s_set_recovery
  : anyam_keeps.
Lemma keeps_s_failFromAdapter id' f op : keeps (since s0) (failFromAdapter id' f op).
Proof. unfold failFromAdapter. solve_keeps. Qed.
Lemma keeps_s_completeHealthy id' r' h o : keeps (since s0) (completeHealthy id' r' h o).
Proof.
unfold completeHealthy. apply keeps_bind; [|solve_keeps]. apply keeps_modify.
intros w s [Hi Hw]. assert (∀ s', similar s s' → since s0 w s') as Hs; [|by apply Hs].
intros s' Hs. split; [by eapply inv_similar|]. etrans; [done|]. by apply evolves_similar.
Qed.
Hint Resolve keeps_s_failFromAdapter keeps_s_completeHealthy : anyam_keeps.

Definition step_of r (progress : Progress) : Prop :=
  match progress with
  | pause at_ asked => asks at_ asked ∧ point_release at_ = r
  | finished => True
  end.

Lemma yields_adapter_input I id r :
  yields I (λ i, WorkerAdapterInput.release i = r) (adapter_input id r).
Proof.
intros w s Hi. unfold adapter_input, record_of. by wp_steps.
Qed.

Ltac yields_step :=
  match goal with
  | |- yields _ _ (adapter_input _ _ ≫= _) =>
      eapply yields_bind; [apply yields_adapter_input|cbv beta; intros ? ?]
  | |- yields _ _ (_ ≫= _) => apply yields_seq; [solve [solve_keeps]|intros]
  | |- yields _ _ (mret _) => apply yields_ret
  | |- yields _ _ (let _ := _ in _) => cbv zeta
  | |- yields _ _ (match ?x with _ => _ end) => destruct x eqn:?
  end.
Ltac solve_yields := repeat yields_step; try done; simpl; auto.

Lemma matches_deployed d r :
  negb (providerResultMatches (WorkerDeployment.releaseDigest d)
          (WorkerDeployment.artifactDigests d) r) = false → deployed_as d r.
Proof.
unfold providerResultMatches, sameStrings.
rewrite negb_false_iff, andb_true_iff, String.eqb_eq, bool_decide_eq_true. done.
Qed.
Hint Resolve matches_deployed : core.

Lemma yields_recoverAfterHealthFailure id r m t :
  yields (since s0) (step_of r) (recoverAfterHealthFailure id r m t).
Proof. unfold recoverAfterHealthFailure. solve_yields. Qed.
Lemma yields_recover_rolled_back id r previous a :
  yields (since s0) (step_of r) (recover_rolled_back id r previous a).
Proof. unfold recover_rolled_back. solve_yields. Qed.
Lemma yields_recover_verified id r previous d a :
  yields (since s0) (step_of r) (recover_verified id previous d a).
Proof. unfold recover_verified. solve_yields. Qed.
Lemma yields_execute_previewed id r a :
  yields (since s0) (step_of r) (execute_previewed id r a).
Proof. unfold execute_previewed. solve_yields. simpl. case_match; done. Qed.
Lemma yields_execute_deployed id r op a :
  yields (since s0) (step_of r) (execute_deployed id r op a).
Proof. unfold execute_deployed. solve_yields. Qed.
Lemma yields_execute_checked id r d a :
  yields (since s0) (step_of r) (execute_checked id r d a).
Proof.
unfold execute_checked. repeat yields_step; try done; apply yields_recoverAfterHealthFailure.
Qed.
Lemma yields_resume id at_ (a : Answer at_) :
  yields (since s0) (step_of (point_release at_)) (resume id at_ a).
Proof.
destruct at_; simpl; [apply yields_execute_previewed|apply yields_execute_deployed|
  apply yields_execute_checked|apply yields_recover_rolled_back|apply yields_recover_verified].
Qed.

(** ** Executions and requests *)

Lemma yields_execute id r : works id r s0 → yields (since s0) (step_of r) (execute id).
Proof.
intros Hwork w s Hi. unfold execute, record_of. destruct Hi as [Hi Hs].
destruct (works_evolves _ _ _ _ Hs Hwork) as (p & Hp & Hr). unfold releases_of in Hr.
wp_step. wp_step. wp_step. wp_step; [congruence|]. simplify_eq.
wp_step; [by wp_steps|]. wp_step. wp_step. cbv beta. rewrite Hr.
wp_step. wp_step. cbv beta. generalize (Promoter.target s). intros target.
enough (∀ m, yields (since s0) (step_of r) m →
  wp m (λ a w' s', since s0 w' s' ∧ step_of r a) (λ _ w' s', since s0 w' s') w s) as Hy
  by (apply Hy; solve_yields).
intros m Hm. by apply Hm.
Qed.

(** What [run] records is what the stretch yielded. *)
Lemma wp_run_stretch id r m w s : works id r s0 → since s0 w s → yields (since s0) (step_of r) m →
  wp (run id m) (λ _ w' s', since s0 w' s') (λ _ w' s', since s0 w' s') w s.
Proof.
intros Hwork Hi Hm. unfold run. wp_step.
assert (∀ e w' s', since s0 w' s' →
  (∀ at_ asked, e = waiting at_ asked → asks at_ asked ∧ point_release at_ = r) →
  wp (record_execution id e) (λ _ w' s', since s0 w' s') (λ _ w' s', since s0 w' s') w' s') as Hrec.
{ intros e w' s' [[Hl Hf Hr Hp Hid He] Hs] Hw. unfold record_execution. wp_steps.
  destruct (works_evolves _ _ _ _ Hs Hwork) as (p & Hpi & Hpr).
  split; [|etrans; [done|]; split; cbn -[omap_get omap_set]; try done; eauto].
  split; try done; [by apply (ledger_same s')|].
  cbn -[omap_get omap_set]. apply omap_all_set; [done|]. exists p. split; [done|].
  intros at_ asked Hat. destruct (Hw _ _ Hat) as [? ->]. done. }
apply wp_try_catch, wp_bind. eapply wp_mono; [by apply Hm| |].
- intros [at_ asked|] w' s' [Hi' Hst].
  + wp_steps. apply Hrec; [done|]. by intros ? ? [= <- <-].
  + unfold record_of. wp_steps; by apply Hrec.
- intros e w' s' Hi'. wp_steps. by apply Hrec.
Qed.

Lemma wp_executeOnce id w s : since s0 w s → is_Some (omap_get id (Promoter.promotions s0)) →
  inv w s0 →
  wp (executeOnce id) (λ _ w' s', since s0 w' s') (λ _ w' s', since s0 w' s') w s.
Proof.
intros Hi [p Hp] H0. unfold executeOnce, execution_of. wp_steps; [done|].
destruct (inv_works _ _ _ _ H0 Hp) as [r Hr]. apply (wp_run_stretch id r); [done..|]. by apply yields_execute.
Qed.
End since.

Lemma keeps_register release : keeps inv (registerRelease release).
Proof.
intros w s Hi. unfold registerRelease. wp_steps; try done.
destruct Hi as [Hl Hf Hr Hp Hid He].
assert (∀ p r, releases_of s p = Some r →
  omap_get (PromotionRecord.releaseId p) (omap_set (release_id release) release (Promoter.releases s)) = Some r)
  as Hsame.
{ intros p r Hpr. unfold releases_of in Hpr. rewrite omap_get_set_ne; [done|].
  unfold release_id. intros Hk. rewrite Hk in Heqo. congruence. }
split; try done; cbn -[omap_get omap_set].
- by apply (ledger_same s).
- by apply omap_all_set.
- intros k p Hk. destruct (Hp _ _ Hk) as (? & r & Hpr & ?). split; [done|]. exists r.
  split; [by apply Hsame|done].
- intros k e Hk. destruct (He _ _ Hk) as (p & Hpk & Hw). exists p. split; [done|].
  intros at_ asked Hat. destruct (Hw _ _ Hat) as [? Hpr]. split; [done|]. by apply Hsame.
Qed.

Lemma evolves_keeps {A} (m : M Promoter.t failure A) w s :
  wp m (λ _ w' s', since s w' s') (λ _ w' s', since s w' s') w s →
  wp m (λ _ w' s', inv w' s' ∧ evolves s s') (λ _ w' s', inv w' s' ∧ evolves s s') w s.
Proof. done. Qed.
Lemma since_refl w s : inv w s → since s w s.
Proof. by split. Qed.
Hint Resolve since_refl : core.

(** Every operation keeps the invariant and evolves the state. *)
Definition safe {A} (m : M Promoter.t failure A) : Prop :=
  ∀ w s, inv w s → wp m (λ _ w' s', since s w' s') (λ _ w' s', since s w' s') w s.
Lemma safe_since {A} (m : M Promoter.t failure A) s0 : safe m → keeps (since s0) m.
Proof.
intros Hm w s [Hi Hs]. eapply wp_mono; [by apply Hm| |]; intros ? ? ? [? ?]; by split; [|etrans].
Qed.
Lemma safe_bind {A B} (m : M Promoter.t failure A) (f : A → M Promoter.t failure B) :
  safe m → (∀ a, safe (f a)) → safe (m ≫= f).
Proof.
intros Hm Hf w s Hi. apply (keeps_bind (since s)); [by apply safe_since| |by apply since_refl].
intros a. by apply safe_since.
Qed.
Lemma safe_readonly {A} (m : M Promoter.t failure A) : readonly m → safe m.
Proof. intros Hm w s Hi. apply wp_readonly; auto. Qed.

Lemma safe_register release : safe (registerRelease release).
Proof.
intros w s Hi. apply (wp_and _ (λ _, inv)); [exact (keeps_register release w s Hi)|].
unfold registerRelease. wp_steps; try done.
split; cbn -[omap_get omap_set]; try done; [by apply extends_set_fresh|eauto].
Qed.
Lemma safe_deliver adapter id : safe (deliver adapter id).
Proof.
intros w s Hi. unfold deliver, execution_of. wp_step. wp_step. cbv beta.
wp_step; [|by wp_steps; apply since_refl]. wp_step; [|by wp_steps; apply since_refl].
destruct (inv_executions _ _ Hi _ _ Heqo) as (p & Hp & Hw). destruct (Hw _ _ eq_refl) as [_ Hr].
apply (wp_run_stretch _ id (point_release at_)); [by exists p|by apply since_refl|apply yields_resume].
Qed.
Lemma safe_cleanup id : safe (cleanup id).
Proof.
intros w s Hi. unfold cleanup, execution_of. wp_steps; try by apply since_refl.
destruct Hi. split; [split; try done; [by apply (ledger_same s)|]|split; try done; eauto].
by apply omap_all_delete.
Qed.
Lemma safe_executeOnce id w s : inv w s → is_Some (omap_get id (Promoter.promotions s)) →
  wp (executeOnce id) (λ _ w' s', since s w' s') (λ _ w' s', since s w' s') w s.
Proof. intros Hi Hp. apply wp_executeOnce; auto. Qed.

Lemma promotion_key_truthy n : truthy (promotion_key n) = true.
Proof. done. Qed.
Lemma truthy_key w s key : inv w s →
  truthy_opt (omap_get key (Promoter.idempotency s)) = omap_get key (Promoter.idempotency s).
Proof.
intros Hi. destruct (omap_get key (Promoter.idempotency s)) as [id|] eqn:Hk; [|done].
destruct (inv_idempotency _ _ Hi _ _ Hk) as [p Hp].
by destruct (inv_fresh _ _ Hi _ _ Hp) as (n & _ & ->).
Qed.

Lemma fresh_key w s n : FreshUUIDs HH → inv w s → (uuids_drawn w ≤ n)%nat →
  omap_get (promotion_key n) (Promoter.promotions s) = None.
Proof.
intros Hf Hi Hn. destruct (omap_get _ _) as [p|] eqn:Hp; [|done].
destruct (inv_fresh _ _ Hi _ _ Hp) as (m & Hm & Heq).
apply (inj (String.append "promotion:")) in Heq. rewrite !str_app_nil_r in Heq.
apply randomUUID_inj in Heq. lia.
Qed.
End stretches.

(** ** Requests *)

(** [key] was used for the Promotion [p]. *)
Definition used (s : Promoter.t) (key : string) (p : PromotionRecord.t) : Prop :=
  ∃ id, omap_get key (Promoter.idempotency s) = Some id ∧ id ≠ "" ∧
        omap_get id (Promoter.promotions s) = Some p.

Definition expects (s : Promoter.t) (input : PromotionRequest.t) : option string :=
  default (WorkerTarget.currentReleaseId (Promoter.target s))
    (PromotionRequest.expectedCurrentReleaseId input).

Section requests.
Context `{HH : Host}.
Implicit Types (s : Promoter.t) (p : PromotionRecord.t) (input : PromotionRequest.t).

Definition proposed_at w s input r : PromotionRecord.t :=
  proposal (Promoter.projectId s) (Promoter.target s) r input (expects s input)
    (promotion_key (uuids_drawn w)) (clock (clock_reads w)) (clock (S (clock_reads w))).

(** What a request for an unused key did. *)
Record requested w s input w' s' p : Prop := {
  requested_unused : truthy_opt (omap_get (PromotionRequest.idempotencyKey input)
    (Promoter.idempotency s)) = None;
  requested_expected : expects s input = WorkerTarget.currentReleaseId (Promoter.target s);
  requested_release : ∃ r, omap_get (PromotionRequest.releaseId input) (Promoter.releases s) = Some r ∧
    p = proposed_at w s input r;
  requested_state : ∃ e,
    s' = s <| Promoter.promotions := omap_set (PromotionRecord.id p) p (Promoter.promotions s) |>
           <| Promoter.idempotency := omap_set (PromotionRequest.idempotencyKey input)
                (PromotionRecord.id p) (Promoter.idempotency s) |>
           <| Promoter.events := Promoter.events s ++ [e] |> ∧
    PromotionEvent.promotionId e = PromotionRecord.id p ∧
    PromotionEvent.sequence e = (Z.of_nat (length (Promoter.events s)) + 1)%Z ∧
    PromotionEvent.from e = None ∧ PromotionEvent.to e = PromotionState.proposed;
  requested_draws : (uuids_drawn w < uuids_drawn w')%nat;
}.

Lemma wp_requestPromotion input w s :
  wp (requestPromotion input)
    (λ p w' s',
       (w' = w ∧ s' = s ∧ used s (PromotionRequest.idempotencyKey input) p ∧
        PromotionRecord.releaseId p = PromotionRequest.releaseId input ∧
        PromotionRecord.targetId p = WorkerTarget.id (Promoter.target s)) ∨
       requested w s input w' s' p)
    (λ e w' s', w' = w ∧ s' = s) w s.
Proof.
unfold requestPromotion. wp_steps; try done.
- apply truthy_opt_Some in Heqo as [Hk Hne].
  rewrite orb_false_iff, !negb_false_iff, !String.eqb_eq in *. destruct_and!.
  left. unfold used. eauto 10.
- apply wp_opaqueId. wp_step. wp_step. wp_step. wp_step. cbv beta zeta.
  set (p := proposal _ _ _ _ _ _ _ _). unfold write, emit.
  wp_steps. apply wp_opaqueId. wp_steps. apply wp_opaqueId. wp_steps. right.
  rewrite negb_false_iff, bool_decide_eq_true in *.
  split; [done|done|by exists a| |cbn; lia]. eexists. split_and!; reflexivity.
Qed.
End requests.

Section operations.
Context `{HH : Host} (Hfresh : FreshUUIDs HH).
Implicit Types (s : Promoter.t) (p : PromotionRecord.t) (input : PromotionRequest.t).

Lemma requested_since w s input w' s' p : inv w s → requested w s input w' s' p →
  since s w' s' ∧ used s' (PromotionRequest.idempotencyKey input) p.
Proof.
intros Hi [Hu Hex (r & Hr & Hp) (e & Hs' & He1 & He2 & He3 & He4) Hd].
rewrite (truthy_key _ _ _ Hi) in Hu.
assert (PromotionRecord.id p = promotion_key (uuids_drawn w)) as Hid by (by rewrite Hp).
pose proof (fresh_key _ _ (uuids_drawn w) Hfresh Hi ltac:(lia)) as Hn. rewrite <-Hid in Hn.
assert (PromotionRecord.state p = PromotionState.proposed) as Hst by (by rewrite Hp).
assert (∀ k q, omap_get k (Promoter.promotions s) = Some q → k ≠ PromotionRecord.id p) as Hne
  by (intros k q Hk ->; congruence).
split; [split|].
- destruct Hi as [Hl Hf Hrl Hpr Hid' Hexe]. subst s'. split; cbn -[omap_get omap_set].
  + eapply (ledger_emit s _ e p); try done; [congruence| |]; rewrite He3; [by rewrite Hn|by rewrite He4].
  + apply omap_all_set; [|by exists (uuids_drawn w)].
    intros k q (n & ? & ->)%Hf. exists n. split; [lia|done].
  + done.
  + apply omap_all_set; [done|]. split; [by rewrite Hp|]. exists r. by rewrite Hp.
  + apply omap_all_set; [|rewrite omap_get_set_eq; by eexists].
    intros k id Hk. rewrite omap_get_set. case_decide; [by eexists|]. by eapply Hid'.
  + intros k x Hk. destruct (Hexe k x Hk) as (q & Hq & Hw). exists q.
    rewrite omap_get_set_ne; [done|]. apply not_eq_sym. by eapply Hne.
- subst s'. split; cbn -[omap_get omap_set]; try done.
  + by apply extends_set_fresh.
  + intros k q Hq. exists q. rewrite omap_get_set_ne; [done|]. apply not_eq_sym. by eapply Hne.
  + by apply prefix_app_r.
- subst s'. exists (PromotionRecord.id p). cbn -[omap_get omap_set].
  rewrite !omap_get_set_eq. split_and!; [done| |done]. by rewrite Hid.
Qed.

Lemma safe_request input w s : inv w s →
  wp (requestPromotion input)
    (λ p w' s', since s w' s' ∧ used s' (PromotionRequest.idempotencyKey input) p ∧
       PromotionRecord.releaseId p = PromotionRequest.releaseId input ∧
       PromotionRecord.targetId p = WorkerTarget.id (Promoter.target s'))
    (λ e w' s', since s w' s') w s.
Proof.
intros Hi. eapply wp_mono; [apply wp_requestPromotion| |].
- intros p w' s' [(-> & -> & Hu & Hr & Ht)|Hreq]; [by split_and!; [apply since_refl|..]|].
  destruct (requested_since _ _ _ _ _ _ Hi Hreq) as [Hs Hu]. split_and!; [done|done|..].
  + destruct Hreq as [_ _ (r & _ & ->) _ _]. done.
  + destruct Hreq as [_ _ (r & _ & ->) (e & -> & _) _]. done.
- intros e w' s' [-> ->]. by apply since_refl.
Qed.

Lemma used_id w s key p : inv w s → used s key p →
  omap_get (PromotionRecord.id p) (Promoter.promotions s) = Some p.
Proof. intros Hi (id & _ & _ & Hp). by rewrite (id_of _ _ _ _ Hi Hp). Qed.

Lemma safe_promote input : safe (promote input).
Proof.
intros w s Hi. unfold promote. wp_step. eapply wp_mono; [by apply safe_request| |done].
intros p w' s' (Hs & Hu & _). pose proof (used_id _ _ _ _ (proj1 Hs) Hu) as Hp.
unfold execution_of. wp_step. wp_step. cbv beta zeta. wp_step; [by wp_steps|].
wp_step; [by wp_steps|]. wp_step. eapply wp_mono; [apply (safe_executeOnce _ w' s'); [apply Hs|by eexists]| |].
- intros [] w2 s2 [Hi2 H2]. wp_steps. split; [done|]. etrans; [apply Hs|done].
- intros e w2 s2 [Hi2 H2]. split; [done|]. etrans; [apply Hs|done].
Qed.

Lemma cosmetic_for_retry target key : cosmetic (for_retry target key).
Proof. by intros p. Qed.

Lemma safe_reopen id key w s : inv w s → omap_get key (Promoter.idempotency s) = None →
  is_Some (omap_get id (Promoter.promotions s)) →
  wp (reopen id key) (λ _ w' s', since s w' s') (λ _ w' s', since s w' s') w s.
Proof.
intros Hi Hk [p H]. unfold reopen. wp_step. wp_step. cbv beta. wp_step. set (target := Promoter.target s).
assert (wp (update id (for_retry target key))
  (λ _ w' s', inv w' s' ∧ similar s s') (λ _ w' s', since s w' s') w s) as Hup.
{ unfold update, record_of, write. wp_steps; [by apply since_refl|]. simplify_eq.
  pose proof (id_of _ _ _ _ Hi H) as Hid. rewrite <-Hid in H.
  pose proof (similar_write s p (for_retry target key p) H eq_refl) as Hsim.
  split; [|done]. by eapply inv_similar. }
eapply wp_mono; [apply Hup| |done]. intros [] w1 s1 [Hi1 Hsim]. wp_step. wp_step.
set (s2 := s1 <| Promoter.idempotency := _ |>).
assert (since s w1 s2) as Hs2.
{ pose proof (evolves_similar _ _ Hsim) as [E1 E2 E3 E4 E5 E6]. destruct Hi1 as [L1 L2 L3 L4 L5 L6].
  split; split; try done; cbn -[omap_get omap_set].
  - by apply (ledger_same s1).
  - apply omap_all_set; [done|].
    destruct (similar_get_back _ _ _ _ Hsim H) as (p' & ? & _). by eexists.
  - rewrite (similar_idempotency _ _ Hsim). by apply extends_set_fresh. }
clearbody s2. unfold record_of at 1. wp_step. wp_step. wp_step. wp_step; [done|].
by apply (keeps_s_transition s).
Qed.

Lemma since_exists s w' s' id : since s w' s' → is_Some (omap_get id (Promoter.promotions s)) →
  is_Some (omap_get id (Promoter.promotions s')).
Proof. intros [_ Hs] [p Hp]. destruct (evolves_promotions _ _ Hs _ _ Hp) as (p' & ? & _). by eexists. Qed.

Lemma safe_retry (input : PromotionRetryRequest.t) : safe (retryPromotion input).
Proof.
intros w s Hi. unfold retryPromotion, record_of, execution_of. wp_step. wp_step. cbv beta zeta.
rewrite (truthy_key _ _ _ Hi). wp_step.
{ wp_steps; by apply since_refl. }
wp_step. wp_step. wp_step. wp_step; [by apply since_refl|]. wp_step. wp_step; [by apply since_refl|].
wp_step. eapply wp_mono; [by apply safe_reopen| |done]. intros [] w3 s3 Hs3. wp_step.
eapply wp_mono; [apply (safe_executeOnce _ w3 s3); [apply Hs3|by eapply since_exists]| |].
- intros [] w4 s4 [Hi4 H4]. wp_step. split; [done|]. etrans; [apply Hs3|done].
- intros e w4 s4 [Hi4 H4]. split; [done|]. etrans; [apply Hs3|done].
Qed.

Lemma safe_rollback key actor : safe (rollbackToPrevious key actor).
Proof.
unfold rollbackToPrevious. apply safe_bind; [apply safe_readonly; solve_readonly|intros target].
cbv zeta. apply safe_bind; [apply safe_readonly; solve_readonly|intros current].
apply safe_bind; [apply safe_readonly; solve_readonly|intros previous].
apply safe_bind; [apply safe_readonly; solve_readonly|intros promotions]. apply safe_promote.
Qed.

Lemma safe_perform op : safe (perform op).
Proof.
destruct op as [| | | | |adapter id|id]; simpl.
- apply safe_register.
- apply safe_bind; [|intros; apply safe_readonly; solve_readonly].
  intros w s Hi. eapply wp_mono; [by apply safe_request|by intros ? ? ? []|done].
- apply safe_bind; [apply safe_promote|intros; apply safe_readonly; solve_readonly].
- apply safe_bind; [apply safe_retry|intros; apply safe_readonly; solve_readonly].
- apply safe_bind; [apply safe_rollback|intros; apply safe_readonly; solve_readonly].
- apply safe_deliver.
- apply safe_cleanup.
Qed.

Lemma step_since σ σ' : step σ σ' → inv σ.1 σ.2 → since σ.2 σ'.1 σ'.2.
Proof.
intros (op & result & Hop) Hi. pose proof (wp_run _ _ _ _ _ _ _ _ (safe_perform op _ _ Hi) Hop) as H.
by destruct result.
Qed.
Lemma steps_since σ σ' : rtc step σ σ' → inv σ.1 σ.2 → since σ.2 σ'.1 σ'.2.
Proof.
induction 1 as [σ|σ1 σ2 σ3 H12 _ IH]; intros Hi; [by apply since_refl|].
destruct (step_since _ _ H12 Hi) as [Hi2 He2]. destruct (IH Hi2) as [Hi3 He3].
split; [done|]. by etrans.
Qed.
End operations.

(** * What an execution does to its Promotion

    [moves id st Q m]: started while the Promotion [id] is in state [st], [m]
    returns, and leaves it in a state that [Q] relates to what it returned; the
    other Promotions keep their state and no execution is touched. *)

Definition at_state (id : string) (st : PromotionState.t) (s : Promoter.t) : Prop :=
  PromotionRecord.state <$> omap_get id (Promoter.promotions s) = Some st.

Definition qualified (target : WorkerTarget.t) : Prop :=
  (∃ profile, assertTargetCanPromote (WorkerTarget.base target) = Ok profile) ∧
  WorkerTargetCapabilities.preview (WorkerTarget.capabilities target) = true.

Record frame (id : string) (s s' : Promoter.t) : Prop := {
  frame_states : ∀ k, k ≠ id →
    PromotionRecord.state <$> omap_get k (Promoter.promotions s') =
    PromotionRecord.state <$> omap_get k (Promoter.promotions s);
  frame_executions : Promoter.executions s' = Promoter.executions s;
  frame_releases : Promoter.releases s' = Promoter.releases s;
  frame_qualified : qualified (Promoter.target s) → qualified (Promoter.target s');
}.

(** The state that a Promotion is in while its execution waits. *)
Definition point_state (at_ : Point.t) : PromotionState.t :=
  match at_ with
  | Point.preview _ => PromotionState.validating
  | Point.deployment _ _ | Point.health _ _ => PromotionState.applying
  | Point.rollback _ _ | Point.rollback_health _ _ _ => PromotionState.degraded
  end.

(** The migration decision that a failed health check of the Release needs. *)
Definition decidable_plan `{Host} (r : ImmutableRelease.t) : Prop :=
  ∃ plan decision,
    match Release.migrationPlan (ImmutableRelease.release r) with
    | Some plan => Ok plan
    | None => defaultMigrationPlan
    end = Ok plan ∧ automaticMigrationRollbackDecision plan = Ok decision.

Section moves.
Context `{HH : Host}.
Implicit Types (s : Promoter.t) (st : PromotionState.t) (r : ImmutableRelease.t).

#[export] Instance frame_preorder id : PreOrder (frame id).
Proof.
split; [by intros s; split|]. intros s1 s2 s3 [A1 A2 A3 A4] [B1 B2 B3 B4].
split; try congruence; [|by auto]. intros k Hk. rewrite B1; auto.
Qed.

Definition moves {A} (id : string) st (Q : A → PromotionState.t → Prop)
    (m : M Promoter.t failure A) : Prop :=
  ∀ w s, ledger s → at_state id st s →
    wp m (λ a w' s', ledger s' ∧ frame id s s' ∧ ∃ st', at_state id st' s' ∧ Q a st')
      (λ _ _ _, False) w s.

Lemma moves_bind {A B} id st (P : A → _ → Prop) (Q : B → _ → Prop) m f :
  moves id st P m → (∀ a st', P a st' → moves id st' Q (f a)) → moves id st Q (m ≫= f).
Proof.
intros Hm Hf w s Hi Hat. apply wp_bind. eapply wp_mono; [by apply Hm| |done].
intros a w' s' (Hi' & Hfr & st' & Hat' & HP). eapply wp_mono; [by eapply Hf| |done].
intros b w2 s2 (Hi2 & Hfr2 & ?). split_and!; [done|by etrans|done].
Qed.
Lemma moves_ret {A} id st (Q : A → _ → Prop) a : Q a st → moves id st Q (mret a).
Proof. intros Ha w s Hi Hat. apply wp_ret. split_and!; [done|done|by exists st]. Qed.
(** A step that does not move the Promotion. *)
Lemma moves_stay {A B} id st (Q : B → _ → Prop) (m : M Promoter.t failure A) f :
  moves id st (λ _ st', st' = st) m → (∀ a, moves id st Q (f a)) → moves id st Q (m ≫= f).
Proof. intros Hm Hf. eapply moves_bind; [done|]. by intros a st' ->. Qed.
Lemma moves_to {A B} id st st1 (Q : B → _ → Prop) (m : M Promoter.t failure A) f :
  moves id st (λ _ st', st' = st1) m → (∀ a, moves id st1 Q (f a)) → moves id st Q (m ≫= f).
Proof. intros Hm Hf. eapply moves_bind; [done|]. by intros a st' ->. Qed.

Lemma moves_gets {A} id st (f : Promoter.t → A) : moves id st (λ _ st', st' = st) (gets f).
Proof. intros w s Hi Hat. apply wp_gets. split_and!; [done|done|eauto]. Qed.
Lemma at_state_get id st s : at_state id st s →
  ∃ p, omap_get id (Promoter.promotions s) = Some p ∧ PromotionRecord.state p = st.
Proof.
unfold at_state. destruct (omap_get id (Promoter.promotions s)) as [p|]; [|done].
intros [= <-]. eauto.
Qed.
Lemma moves_record_of id st :
  moves id st (λ p st', st' = st ∧ PromotionRecord.state p = st) (record_of id).
Proof.
intros w s Hi Hat. destruct (at_state_get _ _ _ Hat) as (p & Hp & Hst). unfold record_of.
wp_steps; [congruence|]. simplify_eq. split_and!; [done|done|eauto].
Qed.
Lemma moves_adapter_input id st r : moves id st (λ _ st', st' = st) (adapter_input id r).
Proof.
unfold adapter_input. eapply moves_bind; [apply moves_record_of|]. intros p st' [-> _].
apply moves_stay; [apply moves_gets|]. intros t. by apply moves_ret.
Qed.

Lemma frame_similar id s s' : similar s s' →
  (qualified (Promoter.target s) → qualified (Promoter.target s')) → frame id s s'.
Proof.
intros Hs Hq. split; [|apply Hs..|done]. intros k _.
pose proof (similar_promotions _ _ Hs k) as Hk.
destruct (omap_get k (Promoter.promotions s')), (omap_get k (Promoter.promotions s)); try done.
unfold key_fields in Hk. simpl in *. congruence.
Qed.
Lemma at_state_similar id st s s' : similar s s' → at_state id st s → at_state id st s'.
Proof.
intros Hs. unfold at_state. pose proof (similar_promotions _ _ Hs id) as Hk.
destruct (omap_get id (Promoter.promotions s')), (omap_get id (Promoter.promotions s)); try done.
unfold key_fields in Hk. simpl in *. congruence.
Qed.

Lemma moves_update id st f : cosmetic f → moves id st (λ _ st', st' = st) (update id f).
Proof.
intros Hf w s Hi Hat. destruct (at_state_get _ _ _ Hat) as (p & Hp & Hst).
unfold update, record_of, write. wp_steps; [congruence|]. simplify_eq.
pose proof (ledger_ids _ Hi _ _ Hp) as Hid. simpl in Hid. subst id.
pose proof (similar_write _ p (f p) Hp (Hf p)) as Hs.
split_and!; [by eapply ledger_similar|by apply frame_similar|]. eexists. split; [|done].
by eapply at_state_similar.
Qed.
Lemma moves_set_target_state id st ts : moves id st (λ _ st', st' = st) (set_target_state ts).
Proof.
intros w s Hi Hat. unfold set_target_state. wp_steps. split_and!; [by apply (ledger_same s)|split; try done|by eauto].
Qed.
Lemma moves_transition id st next receipt o : can_transition st next = true →
  moves id st (λ _ st', st' = next) (transition id next receipt o).
Proof.
intros Hc w s Hi Hat. destruct (at_state_get _ _ _ Hat) as (p & Hp & Hst).
unfold transition, record_of, write, emit. wp_step. wp_steps; [congruence| |].
{ simplify_eq. by rewrite Hc in *. }
simplify_eq. pose proof (ledger_ids _ Hi _ _ Hp) as Hid. simpl in Hid. subst id.
set (p' := p <| PromotionRecord.state := _ |> <| PromotionRecord.updatedAt := _ |>).
wp_steps. apply wp_opaqueId. wp_steps. apply wp_opaqueId. wp_steps. split_and!.
- eapply (ledger_emit s _ _ p'); try done; simpl; by rewrite Hp.
- split; cbn -[omap_get omap_set]; try done. intros k Hk. by rewrite omap_get_set_ne.
- exists next. split; [|done]. unfold at_state. cbn -[omap_get omap_set]. by rewrite omap_get_set_eq.
Qed.
End moves.

#[export] Hint Resolve moves_gets moves_update moves_set_target_state moves_transition
  moves_adapter_input : anyam_moves.
#[export] Hint Extern 1 (cosmetic _) => (intros ?; repeat case_match; reflexivity) : anyam_moves.
#[export] Hint Extern 1 (can_transition _ _ = true) => reflexivity : anyam_moves.

(** One operation of a stretch. *)
Ltac moves_step :=
  match goal with
  | |- moves _ _ _ (record_of _ ≫= _) =>
      eapply moves_bind; [apply moves_record_of|intros ? ? [-> ?]]
  | |- moves _ _ _ (_ ≫= _) =>
      eapply moves_to; [solve [eauto with anyam_moves nocore]|intros; cbv beta]
  | |- moves _ _ _ (mret _) => apply moves_ret
  | |- moves _ _ _ (let _ := _ in _) => cbv zeta
  | |- moves _ _ _ (match ?x with _ => _ end) => destruct x eqn:?
  end.

Section settling.
Context `{HH : Host}.
Implicit Types (s : Promoter.t) (st : PromotionState.t) (r : ImmutableRelease.t).

Definition arrives (progress : Progress) (st : PromotionState.t) : Prop :=
  match progress with pause at_ _ => st = point_state at_ | finished => True end.

Lemma moves_ignore {A B} id st (Q : B → _ → Prop) (m : M Promoter.t failure A) f :
  moves id st (λ _ _, True) m → (∀ a st', moves id st' Q (f a)) → moves id st Q (m ≫= f).
Proof. intros Hm Hf. eapply moves_bind; [done|]. intros a st' _. apply Hf. Qed.
Lemma moves_done {A} id st (m : M Promoter.t failure A) :
  moves id st (λ _ _, True) m → moves id st arrives (m;; mret finished).
Proof. intros Hm. apply moves_ignore; [done|]. intros. by apply moves_ret. Qed.

Lemma moves_lift_err {A B E} id st (Q : B → _ → Prop) (g : E → failure) (o : outcome E A) a f :
  o = Ok a → moves id st Q (f a) → moves id st Q (lift_err g o ≫= f).
Proof. intros ->. done. Qed.

Lemma moves_fail id st next m a t : can_transition st next = true →
  moves id st (λ _ st', st' = next) (fail id next m a t).
Proof.
intros Hc. unfold fail. cbv zeta. moves_step. by apply moves_transition.
Qed.
Lemma moves_degrade id st m a t : can_transition st PromotionState.degraded = true →
  moves id st (λ _ st', st' = PromotionState.degraded) (degrade id m a t).
Proof. intros Hc. unfold degrade. cbv zeta. repeat moves_step. by apply moves_transition. Qed.
Lemma moves_append_receipt id st t : moves id st (λ _ st', st' = st) (append_receipt id t).
Proof. unfold append_receipt. auto with anyam_moves. Qed.
Lemma moves_set_recovery id st t : moves id st (λ _ st', st' = st) (set_recovery id t).
Proof. unfold set_recovery. auto with anyam_moves. Qed.
Lemma moves_weaken {A} id st (P Q : A → _ → Prop) (m : M Promoter.t failure A) :
  moves id st P m → (∀ a st', P a st' → Q a st') → moves id st Q m.
Proof.
intros Hm HPQ w s Hi Hat. eapply wp_mono; [by apply Hm| |done].
intros a w' s' (? & ? & st' & ? & ?). split_and!; [done|done|eauto].
Qed.
Hint Resolve moves_fail moves_degrade moves_append_receipt moves_set_recovery : anyam_moves.

Lemma moves_failFromAdapter id st f op :
  st = PromotionState.applying ∨ (st = PromotionState.validating ∧ op ≠ "apply") →
  moves id st (λ _ _, True) (failFromAdapter id f op).
Proof.
intros Hst. unfold failFromAdapter. cbv zeta.
destruct (bool_decide (DeliveryAdapterFailure.outcome f = _)), (String.eqb_spec op "apply"),
  (DeliveryAdapterFailure.retryable f); simpl; destruct Hst as [->|[-> ?]]; try done;
  eapply moves_weaken; eauto with anyam_moves.
Qed.

Lemma moves_recoverAfterHealthFailure id r m t : decidable_plan r →
  moves id PromotionState.applying arrives (recoverAfterHealthFailure id r m t).
Proof.
intros (plan & decision & Hplan & Hdecision). unfold recoverAfterHealthFailure.
moves_step. do 2 moves_step.
assert (∀ f : _ → M Promoter.t failure Progress,
  moves id PromotionState.degraded arrives (f plan) →
  moves id PromotionState.degraded arrives
    ((match Release.migrationPlan (ImmutableRelease.release r) with
      | Some plan => mret plan
      | None => lift_err migration_error defaultMigrationPlan
      end) ≫= f)) as Hstep.
{ intros f Hf. destruct (Release.migrationPlan _); simplify_eq/=; [exact Hf|].
  rewrite Hplan. exact Hf. }
apply Hstep. eapply moves_lift_err; [done|].
repeat moves_step; done.
Qed.
Lemma moves_recover_rolled_back id r previous a :
  moves id PromotionState.degraded arrives (recover_rolled_back id r previous a).
Proof. unfold recover_rolled_back. repeat moves_step; done. Qed.
Lemma moves_recover_verified id previous d a :
  moves id PromotionState.degraded arrives (recover_verified id previous d a).
Proof. unfold recover_verified. repeat moves_step; done. Qed.

Lemma moves_completeHealthy id r h o :
  moves id PromotionState.applying (λ _ _, True) (completeHealthy id r h o).
Proof.
unfold completeHealthy. cbv zeta.
assert (∀ f, (∀ t : WorkerTarget.t, qualified t → qualified (f t)) →
  moves id PromotionState.applying (λ _ st', st' = PromotionState.applying)
    (modify (λ s, s <| Promoter.target := f (Promoter.target s) |>))) as Hmod.
{ intros f Hf w s Hi Hat. apply wp_modify. split_and!; [by apply (ledger_same s)|split; try done; apply Hf|eauto]. }
eapply moves_to; [by apply (Hmod (pointed_at _))|].
intros _. repeat moves_step. eapply moves_weaken; [by apply moves_transition|done].
Qed.

Lemma moves_execute_previewed id r a :
  moves id PromotionState.validating arrives (execute_previewed id r a).
Proof.
unfold execute_previewed. destruct a as [value receipt|f].
- repeat moves_step; try done. simpl. by case_match.
- apply moves_done, moves_failFromAdapter. by right.
Qed.
Lemma moves_execute_deployed id r op a :
  moves id PromotionState.applying arrives (execute_deployed id r op a).
Proof.
unfold execute_deployed. destruct a as [value receipt|f].
- repeat moves_step; done.
- apply moves_done, moves_failFromAdapter. by left.
Qed.
Lemma moves_execute_checked id r d a : decidable_plan r →
  moves id PromotionState.applying arrives (execute_checked id r d a).
Proof.
intros Hr. unfold execute_checked. destruct a as [value receipt|f].
- do 3 moves_step; [by apply moves_recoverAfterHealthFailure|].
  moves_step; [by apply moves_recoverAfterHealthFailure|].
  apply moves_done, moves_completeHealthy.
- by apply moves_recoverAfterHealthFailure.
Qed.

(** From each point, the stretch that an answer starts runs to the next point or
    to the end, and throws nothing. *)
Lemma moves_resume id at_ (a : Answer at_) : decidable_plan (point_release at_) →
  moves id (point_state at_) arrives (resume id at_ a).
Proof.
intros Hr. destruct at_; simpl.
- apply moves_execute_previewed.
- apply moves_execute_deployed.
- by apply moves_execute_checked.
- apply moves_recover_rolled_back.
- apply moves_recover_verified.
Qed.
End settling.

(** * Executions settle *)

(** The answers that an execution may still need. *)
Definition point_rank (at_ : Point.t) : nat :=
  match at_ with
  | Point.preview _ => 5
  | Point.deployment _ _ => 4
  | Point.health _ _ => 3
  | Point.rollback _ _ => 2
  | Point.rollback_health _ _ _ => 1
  end.
Definition rank (execution : Execution) : nat :=
  match execution with waiting at_ _ => point_rank at_ | settled _ => 0 end.

Section ranks.
Context `{HH : Host}.

Definition ranked (n : nat) (progress : Progress) : Prop :=
  match progress with pause at_ _ => (point_rank at_ < n)%nat | finished => True end.

Definition anywhere (w : World) (s : Promoter.t) : Prop := True.
Lemma keeps_anywhere {A} (m : M Promoter.t failure A) : keeps anywhere m.
Proof. intros w s _. unfold wp. by destruct (m w s) as [[[]]]. Qed.

Ltac ranked_step :=
  match goal with
  | |- yields _ _ (_ ≫= _) => apply yields_seq; [apply keeps_anywhere|intros]
  | |- yields _ _ (mret _) => apply yields_ret; simpl; lia
  | |- yields _ _ (let _ := _ in _) => cbv zeta
  | |- yields _ _ (match ?x with _ => _ end) => destruct x eqn:?
  end.

Lemma ranked_recoverAfterHealthFailure id r m t :
  yields anywhere (ranked 3) (recoverAfterHealthFailure id r m t).
Proof. unfold recoverAfterHealthFailure. repeat ranked_step. Qed.
Lemma ranked_resume id at_ (a : Answer at_) :
  yields anywhere (ranked (point_rank at_)) (resume id at_ a).
Proof.
destruct at_; simpl.
- unfold execute_previewed. repeat ranked_step. apply yields_ret. case_match; simpl; lia.
- unfold execute_deployed. repeat ranked_step.
- unfold execute_checked. repeat ranked_step; apply ranked_recoverAfterHealthFailure.
- unfold recover_rolled_back. repeat ranked_step.
- unfold recover_verified. repeat ranked_step.
Qed.

Lemma wp_run_ranked n id m w s : (0 < n)%nat → yields anywhere (ranked n) m →
  wp (run id m) (λ _ _ s', ∃ e, omap_get id (Promoter.executions s') = Some e ∧ (rank e < n)%nat)
    (λ _ _ _, False) w s.
Proof.
intros Hn Hm. unfold run, record_execution. apply wp_bind, wp_try_catch, wp_bind.
eapply wp_mono; [by apply Hm| |].
- intros [at_ asked|] w' s' [_ Hr]; unfold record_of; wp_steps; cbn -[omap_get omap_set];
    rewrite omap_get_set_eq; eexists; (split; [done|]); simpl; first [exact Hr|lia].
- intros e w' s' _. wp_steps. cbn -[omap_get omap_set]. rewrite omap_get_set_eq. by eexists.
Qed.

(** An answer brings an execution nearer to its end. *)
Lemma wp_deliver_ranked adapter id w s e : omap_get id (Promoter.executions s) = Some e →
  wp (deliver adapter id)
    (λ _ _ s', ∃ e', omap_get id (Promoter.executions s') = Some e' ∧ (rank e' ≤ pred (rank e))%nat)
    (λ _ _ _, False) w s.
Proof.
intros He. unfold deliver, execution_of. wp_step. wp_step. cbv beta. rewrite He.
destruct e as [at_ asked|result]; [|wp_steps; by exists (settled result)].
eapply wp_mono; [apply (wp_run_ranked (point_rank at_)); [destruct at_; simpl; lia|apply ranked_resume]| |done].
intros [] w' s' (e' & ? & ?). exists e'. simpl. split; [done|lia].
Qed.
Lemma wp_deliveries adapters id w s e : omap_get id (Promoter.executions s) = Some e →
  wp (for_each adapters (λ adapter, deliver adapter id))
    (λ _ _ s', ∃ e', omap_get id (Promoter.executions s') = Some e' ∧
       (rank e' ≤ rank e - length adapters)%nat)
    (λ _ _ _, False) w s.
Proof.
revert w s e. induction adapters as [|adapter l IH]; intros w s e He; simpl.
- apply wp_ret. exists e. split; [done|lia].
- apply wp_bind. eapply wp_mono; [by apply wp_deliver_ranked| |done].
  intros [] w' s' (e' & He' & Hr). eapply wp_mono; [by eapply IH| |done].
  intros _ w2 s2 (e2 & ? & ?). exists e2. split; [done|lia].
Qed.
End ranks.

(** * Executions that do not reject

    A retry of a Promotion whose execution still waits is the one interleaving
    that makes an execution reject; [serial] leaves it out. *)

Definition serial `{Host} (op : Op) (s : Promoter.t) : Prop :=
  match op with
  | op_register r => decidable_plan r
  | op_retry input => ∀ at_ asked,
      omap_get (PromotionRetryRequest.promotionId input) (Promoter.executions s) ≠
        Some (waiting at_ asked)
  | _ => True
  end.
Definition serial_step `{Host} (σ σ' : World * Promoter.t) : Prop :=
  ∃ op result, serial op σ.2 ∧ perform op σ.1 σ.2 = (result, σ'.1, σ'.2).

Record live `{Host} (s : Promoter.t) : Prop := {
  live_qualified : qualified (Promoter.target s);
  live_releases : omap_all (λ _ r, decidable_plan r) (Promoter.releases s);
  live_executions : omap_all (λ id e,
      match e with
      | waiting at_ _ => at_state id (point_state at_) s
      | settled result => ∃ p, result = Ok p
      end) (Promoter.executions s);
}.

Section live.
Context `{HH : Host} (Hfresh : FreshUUIDs HH).
Implicit Types (s : Promoter.t) (p : PromotionRecord.t).

(** No execution waits on the Promotions that move. *)
Lemma live_frame s s' id : live s → frame id s s' →
  (∀ at_ asked, omap_get id (Promoter.executions s) ≠ Some (waiting at_ asked)) → live s'.
Proof.
intros [Hq Hr He] [Hf Hx Hrl Hq'] Hno. split; [by auto|by rewrite Hrl|].
rewrite Hx. intros k e Hk. specialize (He k e Hk). destruct e as [at_ asked|]; [|done].
unfold at_state in *. rewrite Hf; [done|]. intros ->. by eapply Hno.
Qed.

(** What a stretch of the Promotion [id] leads to from [s]. *)
Definition stretch_of id s (progress : Progress) (w' : World) (s' : Promoter.t) : Prop :=
  ledger s' ∧ frame id s s' ∧ ∃ st', at_state id st' s' ∧ arrives progress st'.

Lemma live_run id w s m : live s → wp m (stretch_of id s) (λ _ _ _, False) w s →
  wp (run id m) (λ _ _ s', live s') (λ _ _ _, False) w s.
Proof.
intros Hl Hm. unfold run, record_execution. apply wp_bind, wp_try_catch, wp_bind.
eapply wp_mono; [by apply Hm| |done].
assert (∀ e s', frame id s s' → match e with
    | waiting at_ _ => at_state id (point_state at_) s'
    | settled result => ∃ p, result = Ok p
    end → live (s' <| Promoter.executions := omap_set id e (Promoter.executions s') |>)) as Hrec.
{ intros e s' [Hf Hx Hrl Hq'] He. destruct Hl as [Hq Hr Hex].
  split; cbn -[omap_get omap_set]; [by auto|by rewrite Hrl|].
  rewrite Hx. intros k x. rewrite omap_get_set. case_decide as Hk; [by intros [= <-]; subst|].
  intros Hkx. specialize (Hex k x Hkx). destruct x as [at_ asked|]; [|done].
  unfold at_state in *. cbn -[omap_get omap_set]. rewrite Hf; [done|congruence]. }
intros [at_ asked|] w' s' (_ & Hfr' & st' & Hat' & Harr).
- simpl in Harr. subst st'. wp_steps. by apply Hrec.
- destruct (at_state_get _ _ _ Hat') as (p & Hp & _). unfold record_of. wp_steps; [congruence|].
  apply Hrec; [done|]. by eexists.
Qed.

Lemma wp_execute id r p w s : ledger s → omap_get id (Promoter.promotions s) = Some p →
  releases_of s p = Some r → qualified (Promoter.target s) →
  wp (execute id) (stretch_of id s) (λ _ _ _, False) w s.
Proof.
intros Hled Hp Hr [[profile Hprofile] Hpreview]. unfold execute, record_of.
wp_step. wp_step. wp_step. wp_step; [congruence|]. simplify_eq. wp_step.
{ wp_step. split_and!; [done|done|]. eexists. split; [|done]. unfold at_state. by rewrite Hp. }
rewrite negb_false_iff, bool_decide_eq_true in *. wp_step. wp_step.
cbv beta. unfold releases_of in Hr. rewrite Hr. wp_step. wp_step. cbv beta. rewrite Hprofile, Hpreview.
cbv beta iota delta [negb].
assert (at_state id PromotionState.proposed s) as Hat by (unfold at_state; rewrite Hp; simpl; congruence).
generalize (Promoter.target s). intros target.
enough (moves id PromotionState.proposed arrives
  (transition id PromotionState.validating (cat ["promotion=validating; release="; release_id r; "; digest=";
     ImmutableRelease.releaseDigest r]) None;;
   input ← adapter_input id r; mret (pause (Point.preview r) (ask_preview input)))) as Hm by (by apply Hm).
repeat moves_step. done.
Qed.

Lemma live_executeOnce id w s : inv w s → live s → is_Some (omap_get id (Promoter.promotions s)) →
  wp (executeOnce id) (λ _ _ s', live s') (λ _ _ _, False) w s.
Proof.
intros Hi Hl [p Hp]. unfold executeOnce, execution_of. wp_steps; [done|].
destruct (inv_works _ _ _ _ Hi Hp) as (r & p' & Hp' & Hr). simplify_eq.
apply live_run; [done|]. eapply wp_execute; [apply Hi|done..|apply Hl].
Qed.

Lemma live_deliver adapter id w s : inv w s → live s →
  wp (deliver adapter id) (λ _ _ s', live s') (λ _ _ _, False) w s.
Proof.
intros Hi Hl. unfold deliver, execution_of. wp_step. wp_step. cbv beta.
wp_step; [|by wp_steps]. wp_step; [|by wp_steps].
destruct (inv_executions _ _ Hi _ _ Heqo) as (p & Hp & Hw). destruct (Hw _ _ eq_refl) as [_ Hr].
apply live_run; [done|]. pose proof (live_executions _ Hl _ _ Heqo) as Hat.
apply moves_resume; [|apply Hi|done]. by eapply (live_releases _ Hl).
Qed.
Lemma live_cleanup id w s : live s → wp (cleanup id) (λ _ _ s', live s') (λ _ _ _, False) w s.
Proof.
intros Hl. unfold cleanup, execution_of. wp_steps; try done. destruct Hl as [Hq Hr He].
split; [done|done|]. by apply omap_all_delete.
Qed.
Lemma live_register r w s : decidable_plan r → live s →
  wp (registerRelease r) (λ _ _ s', live s') (λ _ _ s', live s') w s.
Proof.
intros Hd Hl. unfold registerRelease. wp_steps; try done. destruct Hl as [Hq Hr He].
split; [done| |done]. by apply omap_all_set.
Qed.
Lemma live_request input w s : inv w s → live s →
  wp (requestPromotion input) (λ _ _ s', live s') (λ _ _ s', live s') w s.
Proof.
intros Hi Hl. eapply wp_mono; [apply wp_requestPromotion| |by intros e w' s' [_ ->]].
intros p w' s' [(_ & -> & _)|[_ _ (r & _ & Hp) (e & -> & _) _]]; [done|].
eapply (live_frame _ _ (PromotionRecord.id p)); [done| |].
- split; try done. intros k Hk. cbn -[omap_get omap_set]. by rewrite omap_get_set_ne.
- intros at_ asked Hx. destruct (inv_executions _ _ Hi _ _ Hx) as (q & Hq & _).
  assert (PromotionRecord.id p = promotion_key (uuids_drawn w)) as Hid by (by rewrite Hp).
  rewrite Hid, (fresh_key _ _ (uuids_drawn w) Hfresh Hi) in Hq by done. done.
Qed.
End live.

(** ** Serial runs *)

Section serial.
Context `{HH : Host} (Hfresh : FreshUUIDs HH).
Implicit Types (s : Promoter.t) (p : PromotionRecord.t).

Definition calm (w : World) s : Prop := inv w s ∧ live s.
Definition calms {A} (m : M Promoter.t failure A) w s : Prop :=
  wp m (λ _ w' s', calm w' s') (λ _ w' s', calm w' s') w s.

Lemma calms_and {A} (m : M Promoter.t failure A) w s : inv w s → safe m →
  wp m (λ _ _ s', live s') (λ _ _ s', live s') w s → calms m w s.
Proof.
intros Hi Hm Hl. eapply wp_mono; [exact (wp_and _ _ _ _ _ _ _ (Hm w s Hi) Hl)| |];
  by intros ? ? ? [[? _] ?].
Qed.
Lemma calms_bind_readonly {A B} (m : M Promoter.t failure A) (f : A → M Promoter.t failure B) w s :
  readonly m → calm w s → (∀ a, calms (f a) w s) → calms (m ≫= f) w s.
Proof. intros Hm Hc Hf. apply wp_bind, wp_readonly; [done|intros a _; apply Hf|by intros]. Qed.
Lemma calms_last {A B} (m : M Promoter.t failure A) (b : B) w s :
  calms m w s → calms (m;; mret b) w s.
Proof. intros Hm. apply wp_bind. eapply wp_mono; [exact Hm| |done]. by intros. Qed.

Lemma calms_executeOnce id w s : calm w s → is_Some (omap_get id (Promoter.promotions s)) →
  calms (executeOnce id) w s.
Proof.
intros [Hi Hl] Hp. unfold calms.
eapply wp_mono; [exact (wp_and _ _ _ _ _ _ _ (safe_executeOnce id w s Hi Hp) (live_executeOnce id w s Hi Hl Hp))| |];
  by intros ? ? ? [[? _] ?].
Qed.

Lemma calms_promote input w s : calm w s → calms (promote input) w s.
Proof.
intros [Hi Hl]. unfold promote, calms. wp_step.
eapply wp_mono; [exact (wp_and _ _ _ _ _ _ _ (safe_request Hfresh input w s Hi) (live_request Hfresh input w s Hi Hl))| |].
- intros p w' s' [([Hi' _] & Hu & _) Hl']. pose proof (used_id _ _ _ _ Hi' Hu) as Hp.
  unfold execution_of. wp_step. wp_step. cbv beta zeta. wp_step; [by wp_steps|].
  wp_step; [by wp_steps|]. apply calms_last, calms_executeOnce; [done|by eexists].
- intros e w' s' [[? _] ?]. done.
Qed.

(** A retry moves a Promotion on which no execution waits. *)
Lemma moves_reopen id key st : retryable_state st = true →
  moves id st (λ _ _, True) (reopen id key).
Proof.
intros Hst. unfold reopen. moves_step.
eapply moves_to; [apply moves_update; by intros p|intros _].
eapply (moves_to _ _ st).
{ intros w s Hi Hat. apply wp_modify. split_and!; [by apply (ledger_same s)|split; try done|].
  exists st. by split. }
intros _. moves_step. eapply moves_weaken; [apply moves_transition|done].
by destruct st.
Qed.

Lemma calms_retry (input : PromotionRetryRequest.t) w s : calm w s → serial (op_retry input) s →
  calms (retryPromotion input) w s.
Proof.
intros [Hi Hl] Hser. unfold retryPromotion, execution_of, calms. wp_step. wp_step. cbv beta zeta.
rewrite (truthy_key _ _ _ Hi). wp_step; [by wp_steps|]. unfold record_of.
wp_step. wp_step. wp_step. wp_step; [done|]. wp_step. wp_step; [done|].
rewrite negb_false_iff in *. wp_step.
assert (at_state (PromotionRetryRequest.promotionId input) (PromotionRecord.state a) s) as Hat
  by (unfold at_state; by rewrite H).
eapply wp_mono; [exact (wp_and _ _ _ _ _ _ _ (safe_reopen _ _ w s Hi Heqo ltac:(by eexists))
  (moves_reopen _ (PromotionRetryRequest.idempotencyKey input) _ H0 w s (inv_ledger _ _ Hi) Hat))| |].
- intros [] w' s' [Hs' (_ & Hfr & _)].
  assert (live s') as Hl' by (by eapply live_frame). destruct Hs' as [Hi' He'].
  apply calms_last, calms_executeOnce; [done|]. apply (since_exists s w'); [done|by eexists].
- by intros e w' s' [_ ?].
Qed.

Lemma calms_perform op w s : calm w s → serial op s → calms (perform op) w s.
Proof.
intros Hc Hser. destruct op as [r|input|input|input|key actor|adapter id|id]; simpl.
- destruct Hc as [Hi Hl]. apply calms_and; [done|apply safe_register|by apply live_register].
- apply calms_last. destruct Hc as [Hi Hl].
  apply calms_and; [done| |by apply live_request].
  intros w0 s0 Hi0. eapply wp_mono; [by apply safe_request|by intros ? ? ? []|done].
- by apply calms_last, calms_promote.
- by apply calms_last, calms_retry.
- apply calms_last. unfold rollbackToPrevious. apply calms_bind_readonly; [solve_readonly|done|].
  intros target. cbv zeta. apply calms_bind_readonly; [solve_readonly|done|]. intros current.
  apply calms_bind_readonly; [solve_readonly|done|]. intros previous.
  apply calms_bind_readonly; [solve_readonly|done|]. intros promotions. by apply calms_promote.
- destruct Hc as [Hi Hl]. apply calms_and; [done|apply safe_deliver|].
  eapply wp_mono; [by apply live_deliver|by intros|done].
- destruct Hc as [Hi Hl]. apply calms_and; [done|apply safe_cleanup|].
  eapply wp_mono; [by apply live_cleanup|by intros|done].
Qed.

Lemma serial_steps_calm σ σ' : rtc serial_step σ σ' → calm σ.1 σ.2 → calm σ'.1 σ'.2.
Proof.
induction 1 as [σ|σ1 σ2 σ3 (op & result & Hser & Hop) _ IH]; intros Hc; [done|]. apply IH.
pose proof (wp_run _ _ _ _ _ _ _ _ (calms_perform op _ _ Hc Hser) Hop) as H. by destruct result.
Qed.
End serial.

(** * The pointer of the Target *)

Definition pointer (target : WorkerTarget.t) : option string * list string :=
  (WorkerTarget.currentReleaseId target, WorkerTarget.releaseHistory target).

(** A healthy observation of the Release on the Target. *)
Definition healthy_on (target : WorkerTarget.t) (r : ImmutableRelease.t)
    (health : DeliveryAdapterResult HealthObservation.t) : Prop :=
  ∃ value receipt, health = succeeded value receipt ∧
    HealthObservation.targetId value = WorkerTarget.id target ∧
    HealthObservation.releaseId value = release_id r ∧
    HealthObservation.state value = HealthState.healthy.

Section pointer.
Context `{HH : Host}.
Implicit Types (s : Promoter.t) (r : ImmutableRelease.t).

Section points.
Variable v : option string * list string.
Definition points (w : World) s : Prop := pointer (Promoter.target s) = v.

Lemma points_update id f : keeps points (update id f).
Proof. intros w s Hi. unfold update, record_of, write. by wp_steps. Qed.
Lemma points_set_target_state st : keeps points (set_target_state st).
Proof. intros w s Hi. unfold set_target_state. by wp_steps. Qed.
Lemma points_transition id next receipt o : keeps points (transition id next receipt o).
Proof.
intros w s Hi. unfold transition, record_of, write, emit. wp_step. wp_steps; [done|done|].
apply wp_opaqueId. wp_steps. apply wp_opaqueId. by wp_steps.
Qed.
Hint Resolve points_update points_set_target_state points_transition : anyam_keeps.
Lemma points_fail id st m a t : keeps points (fail id st m a t).
Proof. unfold fail. solve_keeps. Qed.
Lemma points_degrade id m a t : keeps points (degrade id m a t).
Proof. unfold degrade. solve_keeps. Qed.
Lemma points_append_receipt id t : keeps points (append_receipt id t).
Proof. unfold append_receipt. solve_keeps. Qed.
Lemma points_set_recovery id t : keeps points (set_recovery id t).
Proof. unfold set_recovery. solve_keeps. Qed.
Hint Resolve points_fail points_degrade points_append_receipt points_set_recovery : anyam_keeps.
Lemma points_failFromAdapter id f op : keeps points (failFromAdapter id f op).
Proof. unfold failFromAdapter. solve_keeps. Qed.
Hint Resolve points_failFromAdapter : anyam_keeps.
Hint Resolve readonly_record_of readonly_adapter_input readonly_execution_of : anyam_ro.
Lemma points_recoverAfterHealthFailure id r m t : keeps points (recoverAfterHealthFailure id r m t).
Proof. unfold recoverAfterHealthFailure. solve_keeps. Qed.
Lemma points_execute_previewed id r a : keeps points (execute_previewed id r a).
Proof. unfold execute_previewed. solve_keeps. Qed.
Lemma points_execute_deployed id r op a : keeps points (execute_deployed id r op a).
Proof. unfold execute_deployed. solve_keeps. Qed.
Lemma points_recover_rolled_back id r previous a : keeps points (recover_rolled_back id r previous a).
Proof. unfold recover_rolled_back. solve_keeps. Qed.
Lemma points_recover_verified id previous d a : keeps points (recover_verified id previous d a).
Proof. unfold recover_verified. solve_keeps. Qed.
Lemma points_execute id : keeps points (execute id).
Proof. unfold execute. solve_keeps. Qed.
Lemma points_record_execution id e : keeps points (record_execution id e).
Proof. by apply keeps_modify. Qed.
Hint Resolve points_execute points_record_execution : anyam_keeps.
Lemma points_executeOnce id : keeps points (executeOnce id).
Proof. unfold executeOnce, run. solve_keeps. Qed.
Lemma points_requestPromotion input : keeps points (requestPromotion input).
Proof.
intros w s Hi. eapply wp_mono; [apply wp_requestPromotion| |by intros ? ? ? [_ ->]].
intros p w' s' [(_ & -> & _)|[_ _ _ (e & -> & _) _]]; done.
Qed.
Hint Resolve points_executeOnce points_requestPromotion : anyam_keeps.
Lemma points_promote input : keeps points (promote input).
Proof. unfold promote. solve_keeps. Qed.
Hint Resolve points_promote : anyam_keeps.
Lemma points_retryPromotion input : keeps points (retryPromotion input).
Proof. unfold retryPromotion, reopen. solve_keeps; by apply keeps_modify. Qed.
Lemma points_rollbackToPrevious key actor : keeps points (rollbackToPrevious key actor).
Proof. unfold rollbackToPrevious. solve_keeps. Qed.
Lemma points_registerRelease r : keeps points (registerRelease r).
Proof. unfold registerRelease. solve_keeps. by apply keeps_modify. Qed.
Lemma points_cleanup id : keeps points (cleanup id).
Proof. unfold cleanup. solve_keeps; by apply keeps_modify. Qed.
End points.

Hint Resolve points_update points_set_target_state points_transition : anyam_keeps.

(** The one stretch that moves it. *)
Definition checked_pointer r health s s' : Prop :=
  pointer (Promoter.target s') = pointer (Promoter.target s) ∨
  healthy_on (Promoter.target s) r health ∧
  pointer (Promoter.target s') = pointer (pointed_at (release_id r) (Promoter.target s)).

Lemma wp_points v m w s : keeps (points v) m → pointer (Promoter.target s) = v →
  ∀ (Q : () → World → Promoter.t → Prop) (X : failure → World → Promoter.t → Prop),
  (∀ w' s', pointer (Promoter.target s') = v → Q () w' s') →
  (∀ e w' s', pointer (Promoter.target s') = v → X e w' s') → wp m Q X w s.
Proof.
intros Hm Hv Q X HQ HX. eapply wp_mono; [by apply Hm|intros []|]; intros; [by apply HQ|by apply HX].
Qed.

Lemma wp_completeHealthy id r h o w s :
  wp (completeHealthy id r h o)
    (λ _ _ s', pointer (Promoter.target s') = pointer (pointed_at (release_id r) (Promoter.target s)))
    (λ _ _ s', pointer (Promoter.target s') = pointer (pointed_at (release_id r) (Promoter.target s))) w s.
Proof.
unfold completeHealthy. cbv zeta. wp_step. wp_step.
eapply wp_points; [|reflexivity|done|done]. solve_keeps.
Qed.

Lemma wp_execute_checked id r d health w s :
  wp (execute_checked id r d health) (λ _ _ s', checked_pointer r health s s')
    (λ _ _ s', checked_pointer r health s s') w s.
Proof.
assert (∀ m t w' s', Promoter.target s' = Promoter.target s →
  wp (recoverAfterHealthFailure id r m t) (λ _ _ s', checked_pointer r health s s')
    (λ _ _ s', checked_pointer r health s s') w' s') as Hrec.
{ intros m t w' s' Ht. eapply wp_mono; [apply (points_recoverAfterHealthFailure (pointer (Promoter.target s)));
    unfold points; by rewrite Ht|..]; intros; by left. }
unfold execute_checked. destruct health as [value receipt|f]; [|by apply Hrec].
wp_step. unfold update, record_of, write. wp_step. wp_step. wp_step. wp_step; [by left|].
wp_step. wp_step. wp_step. cbv beta. wp_step; [by apply Hrec|]. wp_step; [by apply Hrec|].
rewrite orb_false_iff, !negb_false_iff, !String.eqb_eq, bool_decide_eq_true in *. destruct_and!.
wp_step. eapply wp_mono; [apply wp_completeHealthy| |].
- intros [] w' s' Hp. wp_step. right. split; [by exists value, receipt|done].
- intros e w' s' Hp. right. split; [by exists value, receipt|done].
Qed.

(** An operation that moves the pointer is the answer to a candidate's health
    check, and a healthy one. *)
Lemma perform_pointer op w s :
  let moved s' := pointer (Promoter.target s') = pointer (Promoter.target s) ∨
    ∃ adapter id r d asked, op = op_deliver adapter id ∧
      omap_get id (Promoter.executions s) = Some (waiting (Point.health r d) asked) ∧
      healthy_on (Promoter.target s) r (invoke "health" (adapter (Point.health r d) asked)) ∧
      pointer (Promoter.target s') = pointer (pointed_at (release_id r) (Promoter.target s)) in
  wp (perform op) (λ _ _ s', moved s') (λ _ _ s', moved s') w s.
Proof.
intros moved. set (v := pointer (Promoter.target s)).
assert (∀ {A} (m : M Promoter.t failure A), keeps (points v) m →
  wp (m;; mret ()) (λ _ _ s', moved s') (λ _ _ s', moved s') w s) as Hstay.
{ intros A m Hm. apply wp_bind. eapply wp_mono; [by apply Hm|..]; intros; [wp_step|]; by left. }
assert (∀ (m : M Promoter.t failure ()), keeps (points v) m →
  wp m (λ _ _ s', moved s') (λ _ _ s', moved s') w s) as Hstay'.
{ intros m Hm. eapply wp_mono; [by apply Hm|..]; intros; by left. }
destruct op as [r|input|input|input|key actor|adapter id|id]; simpl.
- apply Hstay', points_registerRelease.
- apply Hstay, points_requestPromotion.
- apply Hstay, points_promote.
- apply Hstay, points_retryPromotion.
- apply Hstay, points_rollbackToPrevious.
- unfold deliver, execution_of. wp_step. wp_step. cbv beta. wp_step; [|wp_step; by left].
  wp_step; [|wp_step; by left].
  assert (∀ m, (wp m (λ _ _ s', moved s') (λ _ _ s', moved s') w s) →
    wp (run id m) (λ _ _ s', moved s') (λ _ _ s', moved s') w s) as Hrun.
  { intros m Hm. unfold run. apply wp_bind, wp_try_catch, wp_bind. eapply wp_mono; [exact Hm| |].
    - intros [at' asked'|] w' s' Hs'; unfold record_of, record_execution; by wp_steps.
    - intros x w' s' Hs'. unfold record_execution. by wp_steps. }
  apply Hrun. destruct at_ as [r|r op|r d|r previous|r previous d]; simpl.
  + eapply wp_mono; [by apply (points_execute_previewed v)|..]; intros; by left.
  + eapply wp_mono; [by apply (points_execute_deployed v)|..]; intros; by left.
  + eapply wp_mono; [apply wp_execute_checked|..]; (intros ? ? ? [|[]]; [by left|right; eauto 10]).
  + eapply wp_mono; [by apply (points_recover_rolled_back v)|..]; intros; by left.
  + eapply wp_mono; [by apply (points_recover_verified v)|..]; intros; by left.
- apply Hstay', points_cleanup.
Qed.
End pointer.

(** * Reachable coordinators *)

Definition started `{Host} (σ : World * Promoter.t) : Prop :=
  ∃ projectId adapterId target releases w s,
    construct projectId adapterId target releases w s = (Ok (), σ.1, σ.2).
Definition reachable `{Host} (σ : World * Promoter.t) : Prop :=
  ∃ σ0, started σ0 ∧ rtc step σ0 σ.
(** Qualified Targets, decidable plans, and no retry of a waiting Promotion. *)
Definition serially_reachable `{Host} (σ : World * Promoter.t) : Prop :=
  ∃ σ0, started σ0 ∧ qualified (Promoter.target σ0.2) ∧
    omap_all (λ _ r, decidable_plan r) (Promoter.releases σ0.2) ∧ rtc serial_step σ0 σ.

Section reachable.
Context `{HH : Host}.
Implicit Types (s : Promoter.t).

Lemma inv_empty w projectId target : inv w (Promoter.mk projectId target [] [] [] [] []).
Proof. split; try done. split; [done|done|]. intros id. constructor. Qed.

Lemma started_inv σ : started σ → inv σ.1 σ.2 ∧ Promoter.executions σ.2 = [].
Proof.
intros (projectId & adapterId & target & releases & w & s & Hc).
enough (wp (construct projectId adapterId target releases)
  (λ _ w' s', inv w' s' ∧ Promoter.executions s' = []) (λ _ _ _, True) w s) as H
  by exact (wp_Ok _ _ _ _ _ _ _ _ H Hc).
unfold construct. wp_steps; try done.
set (I := λ (w' : World) s', inv w' s' ∧ Promoter.executions s' = []).
eapply wp_mono; [eapply (keeps_for_each I _ registerRelease)| |done].
- intros r. apply keeps_and; [apply keeps_register|]. intros w1 s1 _ He. unfold registerRelease. by wp_steps.
- split; [apply inv_empty|done].
- by intros.
Qed.

Context (Hfresh : FreshUUIDs HH).
Lemma reachable_promoter σ : reachable σ → inv σ.1 σ.2.
Proof.
intros (σ0 & Hst & Hsteps). apply started_inv in Hst as [Hi _].
by apply (steps_since Hfresh _ _ Hsteps Hi).
Qed.
Lemma serially_reachable_calm σ : serially_reachable σ → calm σ.1 σ.2.
Proof.
intros (σ0 & Hst & Hq & Hr & Hsteps). apply started_inv in Hst as [Hi He].
apply (serial_steps_calm Hfresh _ _ Hsteps). split; [done|]. split; [done|done|]. by rewrite He.
Qed.
End reachable.

(** * A coordinator for the witnesses *)

Module PromotionDemo.
#[local] Existing Instance example_host.

Definition profile : TargetDeploymentProfile.t := example_profile.
Definition target (deploymentProfile : option TargetDeploymentProfile.t) : WorkerTarget.t :=
  WorkerTarget.mk
    (Target.mk "t1" "p1" "web" "worker" ["worker"] [] TargetState.healthy None None None
       deploymentProfile)
    None [] (WorkerTargetCapabilities.mk true true true true) "sha256:contract".
Definition release (id : string) : ImmutableRelease.t :=
  ImmutableRelease.mk (cat ["seal:"; id]) "p1"
    (Release.mk id "pr1" ["a1"] [] ["cfg"] [] "1" ReleaseStatus.ready None None None None None None)
    [example_artifact] [] (cat ["sha256:"; id]) "sealed".

Definition answer_digests (r : ImmutableRelease.t) : list string :=
  Artifact.digest <$> ImmutableRelease.artifacts r.
Definition deployment (r : ImmutableRelease.t) : WorkerDeployment.t :=
  WorkerDeployment.mk "d" "v" (ImmutableRelease.releaseDigest r) (answer_digests r) None "ok".
Definition observation (state : HealthState.t) (r : ImmutableRelease.t) : HealthObservation.t :=
  HealthObservation.mk "h" "t1" (release_id r) state "c" "now" "ok" None.

(** An adapter that does what it is asked, and reports candidates as [state]. *)
Definition adapter (state : HealthState.t) (at_ : Point.t) (_ : AdapterCall) : Answer at_ :=
  match at_ return Answer at_ with
  | Point.preview r => answered (succeeded
      (WorkerPreview.mk "pv" "v" (ImmutableRelease.releaseDigest r) (answer_digests r) "ok") "ok")
  | Point.deployment r _ => answered (succeeded (deployment r) "ok")
  | Point.health r _ => answered (succeeded (observation state r) "ok")
  | Point.rollback _ previous => answered (succeeded (deployment previous) "ok")
  | Point.rollback_health _ previous _ =>
      answered (succeeded (observation HealthState.healthy previous) "ok")
  end.

Definition request (releaseId key : string) : PromotionRequest.t :=
  PromotionRequest.mk releaseId key (ActorRef.mk "u" "a" "s" "c") None None None.
Definition retry (promotionId key : string) : PromotionRetryRequest.t :=
  PromotionRetryRequest.mk promotionId key (ActorRef.mk "u" "a" "s" "c").

Definition run_op (σ : World * Promoter.t) (op : Op) : World * Promoter.t :=
  let '(_, w, s) := perform op σ.1 σ.2 in (w, s).
Definition after (σ : World * Promoter.t) (ops : list Op) : World * Promoter.t := foldl run_op σ ops.

Definition default_plan : MigrationPlan.t := Eval vm_compute in
  match defaultMigrationPlan with Ok p => p | Throw _ => example_plan end.
Definition default_decision : AutomaticMigrationRollbackDecision := Eval vm_compute in
  match automaticMigrationRollbackDecision default_plan with
  | Ok d => d
  | Throw _ => rollback_allowed ""
  end.
Lemma release_decidable id : decidable_plan (release id).
Proof. exists default_plan, default_decision. split; vm_compute; reflexivity. Qed.

Lemma run_op_step σ op : step σ (run_op σ op).
Proof.
unfold run_op, step. destruct (perform op σ.1 σ.2) as [[o w] s] eqn:Hop. exists op, o. exact Hop.
Qed.
Lemma after_steps σ ops : rtc step σ (after σ ops).
Proof.
revert σ. induction ops as [|op ops IH]; intros σ; [constructor|].
eapply rtc_l; [apply run_op_step|]. apply IH.
Qed.

Definition initial (deploymentProfile : option TargetDeploymentProfile.t) : World * Promoter.t :=
  let '(_, w, s) := construct "p1" "worker" (target deploymentProfile) [release "r1"; release "r2"]
    start (Promoter.mk "" (target None) [] [] [] [] []) in (w, s).
Lemma initial_started p : started (initial p).
Proof.
exists "p1", "worker", (target p), [release "r1"; release "r2"], start,
  (Promoter.mk "" (target None) [] [] [] [] []). reflexivity.
Qed.
Lemma initial_reachable p ops : reachable (after (initial p) ops).
Proof. exists (initial p). split; [apply initial_started|apply after_steps]. Qed.

Definition good := op_deliver (adapter HealthState.healthy).
Definition bad := op_deliver (adapter HealthState.unhealthy).
Definition state_of (id : string) (s : Promoter.t) : option PromotionState.t :=
  PromotionRecord.state <$> omap_get id (Promoter.promotions s).
Definition current (s : Promoter.t) : option string := WorkerTarget.currentReleaseId (Promoter.target s).
Definition execution (id : string) (s : Promoter.t) : option (option (outcome failure PromotionState.t)) :=
  (λ e, match e with
        | waiting _ _ => None
        | settled r => Some (PromotionRecord.state <$> r)
        end) <$> omap_get id (Promoter.executions s).

(** The first Promotion is [promotion:0], and the second, requested before any
    answer, [promotion:5]. *)
Definition first : string := "promotion:0".
Definition requested : World * Promoter.t :=
  after (initial (Some profile)) [op_request (request "r1" "k1")].
Definition recorded : PromotionRecord.t :=
  proposal "p1" (target (Some profile)) (release "r1") (request "r1" "k1") None first "0" "1".
Lemma requested_ok :
  requestPromotion (request "r1" "k1") (initial (Some profile)).1 (initial (Some profile)).2 =
    (Ok recorded, requested.1, requested.2).
Proof. vm_compute. reflexivity. Qed.
Definition shipped : World * Promoter.t :=
  after requested
    [op_promote (request "r1" "k1"); good first; good first; good first; op_cleanup first].
Lemma shipped_reachable : reachable shipped.
Proof.
exists (initial (Some profile)). split; [apply initial_started|].
etrans; [apply (after_steps _ [op_request (request "r1" "k1")])|apply after_steps].
Qed.

Example shipped_healthy :
  current shipped.2 = Some "r1" ∧ state_of first shipped.2 = Some PromotionState.healthy.
Proof. split; vm_compute; reflexivity. Qed.

(** Two Promotions requested against the same empty Target both complete: the
    expected current Release is compared when a Promotion is requested and not
    when the pointer moves. *)
Definition second : string := "promotion:5".
Definition both : World * Promoter.t :=
  after (initial (Some profile))
    [op_promote (request "r1" "k1"); op_promote (request "r2" "k2");
     good first; good first; good first; good second; good second; good second].
Lemma concurrent_promotions :
  current both.2 = Some "r2" ∧ state_of first both.2 = Some PromotionState.healthy ∧
  state_of second both.2 = Some PromotionState.healthy ∧
  (PromotionRecord.expectedCurrentReleaseId <$> omap_get second (Promoter.promotions both.2)) =
    Some None.
Proof. split_and!; vm_compute; reflexivity. Qed.

(** A retry while the rollback of the failed Release is in flight: the rollback
    succeeds, its transition is refused, and the Promotion stays proposed. *)
Definition third : string := "promotion:11".
Definition raced : World * Promoter.t :=
  after shipped
    [op_promote (request "r2" "k2"); good third; good third; bad third;
     op_retry (retry third "k3"); good third; good third].
Lemma retry_during_rollback :
  execution third raced.2 =
    Some (Some (Throw (promotion_error PromotionErrorCode.invalid_state third))) ∧
  state_of third raced.2 = Some PromotionState.proposed.
Proof. split; vm_compute; reflexivity. Qed.

(** A Release registered with a Migration Plan that is not one: nothing looks at the
    plan until its candidate is unhealthy; then the decision on the rollback throws, and
    the execution rejects, with the Promotion degraded and no recovery tried. *)
Definition undecidable_plan : MigrationPlan.t :=
  example_plan <| MigrationPlan.planDigest := "sha256:other" |>.
Definition undecidable_release : ImmutableRelease.t :=
  ImmutableRelease.mk "seal:r3" "p1"
    (Release.mk "r3" "pr1" ["a1"] [] ["cfg"] [] "1" ReleaseStatus.ready None None None None
       (Some undecidable_plan) None)
    [example_artifact] [] "sha256:r3" "sealed".
Definition undecided : World * Promoter.t :=
  after shipped
    [op_register undecidable_release; op_promote (request "r3" "k2");
     good third; good third; bad third].
Lemma undecidable_plan_rejects :
  execution third undecided.2 =
    Some (Some (Throw (migration_error MigrationPlanErrorCode.invalid))) ∧
  state_of third undecided.2 = Some PromotionState.degraded.
Proof. split; vm_compute; reflexivity. Qed.
End PromotionDemo.

(** * Theorems *)

(** C1: the Target moves to another Release only on the answer to the health
    check of a candidate that the coordinator itself asked for: the Promotion's
    own registered Release, whose deployment the provider reported with the
    sealed release and Artifact digests, and which the check found healthy on
    this Target.  The Release is then current and last in the history. *)
Theorem promotion_pointer `{HH : Host} op σ result σ' : FreshUUIDs HH → reachable σ →
  perform op σ.1 σ.2 = (result, σ'.1, σ'.2) →
  pointer (Promoter.target σ'.2) ≠ pointer (Promoter.target σ.2) →
  ∃ adapter id promotion r d asked,
    op = op_deliver adapter id ∧
    omap_get id (Promoter.executions σ.2) = Some (waiting (Point.health r d) asked) ∧
    omap_get id (Promoter.promotions σ.2) = Some promotion ∧
    omap_get (PromotionRecord.releaseId promotion) (Promoter.releases σ.2) = Some r ∧
    asks (Point.health r d) asked ∧
    healthy_on (Promoter.target σ.2) r (invoke "health" (adapter (Point.health r d) asked)) ∧
    WorkerTarget.currentReleaseId (Promoter.target σ'.2) = Some (release_id r) ∧
    last (WorkerTarget.releaseHistory (Promoter.target σ'.2)) = Some (release_id r) ∧
    WorkerTarget.releaseHistory (Promoter.target σ.2) `prefix_of`
      WorkerTarget.releaseHistory (Promoter.target σ'.2).
Proof.
intros Hf Hr Hop Hne. pose proof (wp_run _ _ _ _ _ _ _ _ (perform_pointer op σ.1 σ.2) Hop) as H.
assert (∃ adapter id r d asked, op = op_deliver adapter id ∧
  omap_get id (Promoter.executions σ.2) = Some (waiting (Point.health r d) asked) ∧
  healthy_on (Promoter.target σ.2) r (invoke "health" (adapter (Point.health r d) asked)) ∧
  pointer (Promoter.target σ'.2) = pointer (pointed_at (release_id r) (Promoter.target σ.2)))
  as (adapter & id & r & d & asked & -> & Hx & Hh & Hp) by (destruct result, H as [?|?]; done).
pose proof (reachable_promoter Hf _ Hr) as Hi.
destruct (inv_executions _ _ Hi _ _ Hx) as (promotion & Hpr & Hw). destruct (Hw _ _ eq_refl) as [Hasks Hrel].
exists adapter, id, promotion, r, d, asked. unfold pointer in Hp. injection Hp as Hcur Hhist.
rewrite Hcur, Hhist. unfold pointed_at. simpl. split_and!; try done; case_bool_decide; try done.
- by rewrite last_snoc.
- by apply prefix_app_r.
Qed.

Lemma promotion_pointer_witness :
  PromotionDemo.current PromotionDemo.shipped.2 = Some "r1" ∧
  ∃ adapter id, op_deliver (PromotionDemo.adapter HealthState.healthy) PromotionDemo.first =
    op_deliver adapter id.
Proof.
set (σ := PromotionDemo.after (PromotionDemo.initial (Some PromotionDemo.profile))
  [op_promote (PromotionDemo.request "r1" "k1"); PromotionDemo.good PromotionDemo.first;
   PromotionDemo.good PromotionDemo.first]).
destruct (@promotion_pointer example_host (PromotionDemo.good PromotionDemo.first) σ (Ok ())
  (PromotionDemo.run_op σ (PromotionDemo.good PromotionDemo.first)) example_host_fresh
  (PromotionDemo.initial_reachable _ _)) as (adapter & id & _ & _ & _ & _ & Hop & _).
- vm_compute. reflexivity.
- vm_compute. discriminate.
- split; [vm_compute; reflexivity|]. exists adapter, id. exact Hop.
Defined.

(** C27: in every reachable state the events are numbered from one without gaps,
    the events of each Promotion are a path of its state machine from the
    proposal to its recorded state, every used idempotency key names a recorded
    Promotion, and every waiting execution has asked the adapter for the
    Release its Promotion records; what later steps do only adds to this. *)
Theorem promotion_ledger `{HH : Host} σ σ' : FreshUUIDs HH → reachable σ → rtc step σ σ' →
  inv σ'.1 σ'.2 ∧ evolves σ.2 σ'.2.
Proof.
intros Hf Hr Hs. by apply (steps_since Hf _ _ Hs), reachable_promoter.
Qed.

Lemma promotion_ledger_witness :
  path (about PromotionDemo.first (Promoter.events PromotionDemo.shipped.2))
    (Some PromotionState.healthy).
Proof.
destruct (@promotion_ledger example_host PromotionDemo.shipped PromotionDemo.shipped example_host_fresh
  PromotionDemo.shipped_reachable (rtc_refl _ _)) as [[Hl _ _ _ _ _] _].
pose proof (ledger_path _ Hl PromotionDemo.first) as Hp.
replace (Some PromotionState.healthy) with
  (PromotionRecord.state <$> omap_get PromotionDemo.first (Promoter.promotions PromotionDemo.shipped.2))
  by (vm_compute; reflexivity).
exact Hp.
Defined.

(** A request is idempotent: once it has recorded a Promotion under a key,
    then whatever happens in between, asking again with the key returns that
    Promotion for the same Release and refuses any other, and records nothing. *)
Theorem requestPromotion_idempotent `{HH : Host} input promotion σ σ1 σ2 again :
  FreshUUIDs HH → reachable σ →
  requestPromotion input σ.1 σ.2 = (Ok promotion, σ1.1, σ1.2) → rtc step σ1 σ2 →
  PromotionRequest.idempotencyKey again = PromotionRequest.idempotencyKey input →
  if String.eqb (PromotionRequest.releaseId again) (PromotionRequest.releaseId input)
  then ∃ recorded, requestPromotion again σ2.1 σ2.2 = (Ok recorded, σ2.1, σ2.2) ∧
         identity recorded = identity promotion
  else requestPromotion again σ2.1 σ2.2 =
    (Throw (conflict (PromotionRequest.idempotencyKey input)), σ2.1, σ2.2).
Proof.
intros Hf Hr Hreq Hsteps Hkey. pose proof (reachable_promoter Hf _ Hr) as Hi.
pose proof (wp_Ok _ _ _ _ _ _ _ _ (safe_request Hf input _ _ Hi) Hreq) as ([Hi1 _] & Hu & Hrel & Ht).
destruct (steps_since Hf _ _ Hsteps Hi1) as [Hi2 He]. destruct Hu as (id & Hk & Hne & Hp).
destruct (evolves_promotions _ _ He _ _ Hp) as (recorded & Hp2 & Hid).
apply (evolves_idempotency _ _ He) in Hk. 
assert (PromotionRecord.releaseId recorded = PromotionRequest.releaseId input) as Hrel2
  by (rewrite <-Hrel; unfold identity in Hid; congruence).
assert (PromotionRecord.targetId recorded = WorkerTarget.id (Promoter.target σ2.2)) as Ht2
  by (rewrite (evolves_target _ _ He), <-Ht; unfold identity in Hid; congruence).
unfold requestPromotion, mbind, M_bind, gets. rewrite Hkey, Hk.
assert (truthy_opt (Some id) = Some id) as -> by (by apply truthy_opt_Some).
rewrite Hp2. simpl. unfold mret, M_ret. rewrite Hrel2, Ht2, String.eqb_refl, (String.eqb_sym (PromotionRequest.releaseId input)).
destruct (String.eqb _ _); simpl; [by exists recorded|done].
Qed.

Lemma requestPromotion_idempotent_witness :
  ∃ recorded, @requestPromotion example_host (PromotionDemo.request "r1" "k1")
      PromotionDemo.shipped.1 PromotionDemo.shipped.2 =
    (Ok recorded, PromotionDemo.shipped.1, PromotionDemo.shipped.2) ∧
  PromotionRecord.id recorded = PromotionDemo.first.
Proof.
destruct (@requestPromotion_idempotent example_host (PromotionDemo.request "r1" "k1") PromotionDemo.recorded
  (PromotionDemo.initial (Some PromotionDemo.profile)) PromotionDemo.requested
  PromotionDemo.shipped (PromotionDemo.request "r1" "k1") example_host_fresh
  (PromotionDemo.initial_reachable _ []) PromotionDemo.requested_ok
  (PromotionDemo.after_steps _ _) eq_refl) as (recorded & Hr & Hid).
exists recorded. split; [exact Hr|]. exact (f_equal (λ x, x.1.1.1.1.1.1.1.1) Hid).
Defined.

Lemma serially_reachable_reachable `{HH : Host} σ : serially_reachable σ → reachable σ.
Proof.
intros (σ0 & Hst & _ & _ & Hs). exists σ0. split; [done|]. revert Hs. apply rtc_subrel.
intros σ1 σ2 (op & result & _ & Hp). by exists op, result.
Qed.

(** C2: every execution ends: five answers of the adapter, whatever they are, settle
    it.  It resolves with a Promotion instead of rejecting when the Target was
    qualified, no Promotion was retried while it executed, and the Migration Plan of
    every Release that was registered is one the rollback decision accepts, which
    [registerRelease] does not check and every sealed Release has
    ([Sealing.vouched_decidable]). *)
Theorem executions_settle `{HH : Host} σ id execution adapters : FreshUUIDs HH →
  reachable σ → omap_get id (Promoter.executions σ.2) = Some execution →
  (5 ≤ length adapters)%nat →
  ∃ w s result,
    for_each adapters (λ adapter, deliver adapter id) σ.1 σ.2 = (Ok (), w, s) ∧
    omap_get id (Promoter.executions s) = Some (settled result) ∧
    (serially_reachable σ → ∃ promotion, result = Ok promotion).
Proof.
intros Hf Hre Hx Hlen. pose proof (wp_deliveries adapters id σ.1 σ.2 _ Hx) as Hend.
assert (rank execution ≤ 5)%nat as Hrank by (destruct execution as [[]|]; simpl; lia).
destruct (for_each _ _ σ.1 σ.2) as [[[[]|e] w] s] eqn:Hrun; unfold wp in Hend; rewrite Hrun in Hend; [|done].
destruct Hend as (e & He & Hrk). destruct e as [at_ asked|result]; [destruct at_; simpl in *; lia|].
exists w, s, result. split_and!; [done..|]. intros Hr. assert (calm w s) as [_ Hl].
{ apply serially_reachable_calm in Hr; [|done]. clear -Hf Hr Hrun. destruct σ as [w0 s0]. simpl in *.
  revert w0 s0 Hr Hrun. induction adapters as [|a l IH]; intros w0 s0 Hr Hrun; simpl in Hrun.
  - by injection Hrun as <- <-.
  - pose proof (calms_perform Hf (op_deliver a id) w0 s0 Hr I) as Hd. unfold calms, wp in Hd. simpl in Hd.
    unfold mbind, M_bind in Hrun. destruct (deliver a id w0 s0) as [[[[]|] w1] s1]; [|done]. by eapply IH. }
destruct (live_executions _ Hl _ _ He) as [p ->]. by exists p.
Qed.

Lemma serially_reachable_initial ops σ :
  @started example_host σ → qualified (Promoter.target σ.2) →
  omap_all (λ _ r, @decidable_plan example_host r) (Promoter.releases σ.2) →
  @serially_reachable example_host (PromotionDemo.after σ [op_promote ops]).
Proof.
intros Hst Hq Hr. exists σ. split_and!; [done..|]. apply rtc_once. simpl.
unfold PromotionDemo.run_op, serial_step.
destruct (@perform example_host (op_promote ops) σ.1 σ.2) as [[o w] s] eqn:Hop. exists (op_promote ops), o. by split.
Qed.

Lemma executions_settle_witness :
  ∃ w s result,
    for_each (replicate 5 (PromotionDemo.adapter HealthState.unhealthy))
      (λ adapter, @deliver example_host adapter PromotionDemo.first)
      (PromotionDemo.after (PromotionDemo.initial (Some PromotionDemo.profile))
        [op_promote (PromotionDemo.request "r1" "k1")]).1
      (PromotionDemo.after (PromotionDemo.initial (Some PromotionDemo.profile))
        [op_promote (PromotionDemo.request "r1" "k1")]).2 = (Ok (), w, s) ∧
    omap_get PromotionDemo.first (Promoter.executions s) = Some (settled result) ∧
    ∃ promotion, result = Ok promotion.
Proof.
destruct (omap_get PromotionDemo.first (Promoter.executions
  (PromotionDemo.after (PromotionDemo.initial (Some PromotionDemo.profile))
        [op_promote (PromotionDemo.request "r1" "k1")]).2)) as [execution|] eqn:Hx.
2: { exfalso. revert Hx. vm_compute. discriminate. }
assert (@serially_reachable example_host (PromotionDemo.after (PromotionDemo.initial (Some PromotionDemo.profile))
  [op_promote (PromotionDemo.request "r1" "k1")])) as Hser; [|
  destruct (@executions_settle example_host _ _ execution (replicate 5 (PromotionDemo.adapter HealthState.unhealthy))
    example_host_fresh (@serially_reachable_reachable example_host _ Hser) Hx ltac:(vm_compute; lia))
    as (w & s & result & Hrun & Hget & Hok);
  exists w, s, result; split; [exact Hrun|split; [exact Hget|exact (Hok Hser)]]].
apply serially_reachable_initial; [apply PromotionDemo.initial_started| |].
- split; [exists PromotionDemo.profile|]; vm_compute; reflexivity.
- intros k r Hk. assert (r = PromotionDemo.release "r1" ∨ r = PromotionDemo.release "r2") as Hor.
  { apply omap_get_value in Hk. revert Hk. vm_compute. intros Hk.
    apply elem_of_cons in Hk as [->|Hk]; [left; reflexivity|].
    apply list_elem_of_singleton in Hk as ->. right; reflexivity. }
  destruct Hor as [-> | ->]; apply PromotionDemo.release_decidable.
Defined.

(** C38: on a Target that may not promote, because its Deployment Profile is
    incomplete or it declares no preview, an execution of a proposed Promotion
    rejects with an invalid-state error: it never reaches the adapter, and it
    leaves the Promotion proposed where its receipt says that it is blocked. *)
Theorem unqualified_target_rejects `{HH : Host} id promotion w s :
  ledger s → omap_get id (Promoter.promotions s) = Some promotion →
  PromotionRecord.state promotion = PromotionState.proposed →
  is_Some (releases_of s promotion) → ¬ qualified (Promoter.target s) →
  wp (execute id) (λ _ _ _, False)
    (λ e w' s', e = promotion_error PromotionErrorCode.invalid_state id ∧ w' = w ∧
       Promoter.events s' = Promoter.events s ∧
       ∃ recorded, omap_get id (Promoter.promotions s') = Some recorded ∧
         PromotionRecord.state recorded = PromotionState.proposed ∧
         starts_with "promotion=blocked; " (PromotionRecord.receipt recorded) = true) w s.
Proof.
intros Hl Hp Hst [r Hr] Hq. unfold releases_of in Hr.
pose proof (ledger_ids _ Hl _ _ Hp) as Hid. simpl in Hid. subst id.
assert (∀ m a t Q, wp (fail (PromotionRecord.id promotion) PromotionState.blocked m a t;; mret finished) Q
  (λ e w' s', e = promotion_error PromotionErrorCode.invalid_state (PromotionRecord.id promotion) ∧ w' = w ∧
       Promoter.events s' = Promoter.events s ∧
       ∃ recorded, omap_get (PromotionRecord.id promotion) (Promoter.promotions s') = Some recorded ∧
         PromotionRecord.state recorded = PromotionState.proposed ∧
         starts_with "promotion=blocked; " (PromotionRecord.receipt recorded) = true) w s) as Hfail.
{ intros m a t Q. unfold fail, update, transition, record_of, write.
  wp_step. cbv zeta. wp_step. wp_step. wp_step. wp_step. wp_step; [congruence|]. simplify_eq. wp_step.
  wp_step. wp_step. wp_step. cbn -[omap_get omap_set]. rewrite omap_get_set_eq. wp_step; [done|].
  simplify_eq. wp_step. wp_step; cbn -[omap_get omap_set] in *; rewrite Hst in *; [|done].
  split_and!; try done. rewrite omap_get_set_eq.
  eexists. split; [reflexivity|]. split; [reflexivity|].
  apply (starts_with_app "promotion=blocked; "). }
unfold execute, record_of. wp_step. wp_step. wp_step. wp_step; [congruence|]. simplify_eq.
rewrite Hst, bool_decide_eq_true_2 by done. cbv beta iota zeta delta [negb]. wp_step. wp_step. cbv beta.
rewrite Hr. wp_step. wp_step. cbv beta.
destruct (assertTargetCanPromote (WorkerTarget.base (Promoter.target s))) as [profile|e] eqn:Hprofile;
  [|apply Hfail].
destruct (WorkerTargetCapabilities.preview (WorkerTarget.capabilities (Promoter.target s))) eqn:Hpv;
  [|apply Hfail].
exfalso. apply Hq. split; [by exists profile|done].
Qed.

Lemma unqualified_target_rejects_witness :
  ∃ w s, @execute example_host PromotionDemo.first
      (PromotionDemo.after (PromotionDemo.initial None) [op_request (PromotionDemo.request "r1" "k1")]).1
      (PromotionDemo.after (PromotionDemo.initial None) [op_request (PromotionDemo.request "r1" "k1")]).2 =
    (Throw (promotion_error PromotionErrorCode.invalid_state PromotionDemo.first), w, s) ∧
    PromotionDemo.state_of PromotionDemo.first s = Some PromotionState.proposed.
Proof.
set (σ := PromotionDemo.after (PromotionDemo.initial None) [op_request (PromotionDemo.request "r1" "k1")]).
pose proof (reachable_promoter example_host_fresh σ (PromotionDemo.initial_reachable None _)) as Hi.
pose proof (@unqualified_target_rejects example_host PromotionDemo.first
  (PromotionDemo.recorded <| PromotionRecord.createdAt := "0" |>) σ.1 σ.2 (inv_ledger _ _ Hi)) as H.
assert (omap_get PromotionDemo.first (Promoter.promotions σ.2) =
  Some (PromotionDemo.recorded <| PromotionRecord.createdAt := "0" |>)) as Hp by (vm_compute; reflexivity).
specialize (H Hp eq_refl). unfold wp in H.
destruct (@execute example_host PromotionDemo.first σ.1 σ.2) as [[[a|e] w] s]; destruct H as [].
- exists (PromotionDemo.release "r1"). vm_compute. reflexivity.
- intros [[profile Hprofile] _]. revert Hprofile. vm_compute. discriminate.
- exists (PromotionDemo.release "r1"). vm_compute. reflexivity.
- intros [[profile Hprofile] _]. revert Hprofile. vm_compute. discriminate.
- subst e. exists w, s. split; [reflexivity|]. destruct H0 as (_ & _ & recorded & Hr & Hst & _).
  unfold PromotionDemo.state_of. rewrite Hr. simpl. congruence.
Defined.
