(* ===== verification/Sealing.v ===== *)
(** The sealing of a Release, proved: what [sealVerifiedRelease] vouches for,
    and what its digest binds. *)

From S2P Require Import Prelude Json Contracts ContractsJson Migrations ReleaseInputs TargetDeployments Promotion PromotionFacts.

(** A passed Evidence record for the Release's revision. *)
Definition passes (release : Release.t) (e : Evidence.t) : Prop :=
  Evidence.projectRevisionId e = Release.projectRevisionId release ∧
  Evidence.outcome e = EvidenceOutcome.passed.

(** The first record of a key, which is the one the source looks at. *)
Definition evidenced (evidence : list Evidence.t) (key : string) (P : Evidence.t → Prop) : Prop :=
  ∃ e, with_key evidence key = Some e ∧ e ∈ evidence ∧ Evidence.key e = key ∧ P e.

(** What a seal vouches for. *)
Record vouched `{Host} `{CredentialScanner} (projectId : string) (release : Release.t)
    (artifacts : list Artifact.t) (evidence : list Evidence.t) (target : Target.t)
    (contractDigest : option string) (r : ImmutableRelease.t) : Prop := {
  vouched_ready : Release.status release = ReleaseStatus.ready;
  vouched_named : blank projectId = false ∧ blank (Release.id release) = false ∧
    blank (Release.projectRevisionId release) = false ∧ blank (Release.policyVersion release) = false;
  (** exactly the declared Artifacts, each of this revision and of a type the
      Target accepts *)
  vouched_artifacts : Release.artifactIds release ≠ [] ∧
    Artifact.id <$> artifacts ≡ₚ Release.artifactIds release ∧ NoDup (Artifact.id <$> artifacts) ∧
    ∀ a, a ∈ artifacts →
      Artifact.projectRevisionId a = Release.projectRevisionId release ∧
      blank (Artifact.digest a) = false ∧
      Artifact.type a ∈ Target.acceptedArtifactTypes target;
  (** exactly the declared Evidence, all of it passed on this revision *)
  vouched_evidence : Evidence.id <$> evidence ≡ₚ Release.evidenceIds release ∧
    NoDup (Evidence.id <$> evidence) ∧ ∀ e, e ∈ evidence → passes release e;
  (** what the Target requires, produced for this Target *)
  vouched_required : ∀ key, key ∈ Target.requiredEvidenceKeys target →
    evidenced evidence key (λ e, Evidence.targetId e = Some (Target.id target));
  vouched_inputs : ∃ inputSet,
    closure_of (Release.configurationDigests release) artifacts evidence inputSet ∧
    (∀ declared, Release.inputSet release = Some declared → declared = inputSet) ∧
    Release.inputSet (ImmutableRelease.release r) = Some inputSet;
  (** a normal Migration Plan that is safe for the Target, with its Artifacts
      and its Evidence in the Release *)
  vouched_plan : ∃ plan profile,
    Release.migrationPlan (ImmutableRelease.release r) = Some plan ∧ normal_plan plan ∧
    targetDeploymentProfile target = Ok profile ∧
    assertMigrationPlanSafeForTarget plan
      (TargetEnvironment.show (TargetDeploymentProfile.environment profile))
      (Some (TargetDataClass.show (TargetDeploymentProfile.dataClass profile))) = Ok () ∧
    (∀ a, a ∈ MigrationPlan.migrationArtifactIds plan → a ∈ Artifact.id <$> artifacts) ∧
    (∀ key, key ∈ MigrationPlan.requiredEvidenceKeys plan →
      evidenced evidence key (λ e, ∀ t, Evidence.targetId e = Some t → t = Target.id target));
  (** the rest of the Release as it was given, under its digest *)
  vouched_release : ImmutableRelease.release r =
    release <| Release.inputSet := Release.inputSet (ImmutableRelease.release r) |>
            <| Release.migrationPlan := Release.migrationPlan (ImmutableRelease.release r) |>;
  vouched_parts : ImmutableRelease.projectId r = projectId ∧
    ImmutableRelease.artifacts r = artifacts ∧ ImmutableRelease.evidence r = evidence;
  vouched_digest : ∃ contract,
    match contractDigest with
    | Some d => Ok d
    | None => targetDeploymentContractDigest target
    end = Ok contract ∧
    ImmutableRelease.releaseDigest r = digest (sealed_json projectId (Target.id target) contract
      (ImmutableRelease.release r) artifacts evidence);
}.

(** The plan of a seal is one the rollback decision accepts. *)
Lemma vouched_decidable `{HH : Host} `{SC : CredentialScanner} projectId release artifacts evidence target contractDigest r :
  vouched projectId release artifacts evidence target contractDigest r → decidable_plan r.
Proof.
intros H. destruct (vouched_plan _ _ _ _ _ _ _ H) as (plan & profile & Hp & _ & _ & Hs & _).
apply bind_Ok in Hs as (normalized & Hn & _). unfold decidable_plan. rewrite Hp.
assert (∃ decision, automaticMigrationRollbackDecision plan = Ok decision) as [decision Hd].
{ unfold automaticMigrationRollbackDecision. rewrite Hn. simpl. repeat case_match; eauto. }
by exists plan, decision.
Qed.

Section sealing.
Context `{HH : Host} `{SC : CredentialScanner} {S : Type}.
Implicit Types (w : World) (s : S) (release : Release.t) (target : Target.t).

(** An index holds exactly the elements, when their keys are distinct. *)
Lemma indexed_all {A} (key : A → string) (l : list A) (ids : list string) (P : A → Prop) :
  NoDup (key <$> l) → NoDup ids →
  length (omap_from ((λ x, (key x, x)) <$> l)) = length ids →
  (∀ i, i ∈ ids → ∃ x, omap_get i (omap_from ((λ x, (key x, x)) <$> l)) = Some x ∧ P x) →
  key <$> l ≡ₚ ids ∧ ∀ x, x ∈ l → P x.
Proof.
intros Hl Hids Hlen Hall.
assert (((λ x, (key x, x)) <$> l).*1 = key <$> l) as Hk by (by rewrite <-list_fmap_compose).
assert (length l = length ids) as Hlen'.
{ rewrite <-Hlen, omap_from_nodup by (by rewrite Hk). by rewrite length_fmap. }
assert (ids ≡ₚ key <$> l) as Hperm.
{ apply submseteq_length_Permutation; [|rewrite length_fmap; lia].
  apply NoDup_submseteq; [done|]. intros i Hi. destruct (Hall i Hi) as (x & Hx & _).
  apply omap_from_index in Hx as [Hx <-]; [|done]. by apply list_elem_of_fmap_2. }
split; [done|]. intros x Hx.
assert (key x ∈ ids) as Hi by (rewrite Hperm; by apply list_elem_of_fmap_2).
destruct (Hall _ Hi) as (y & Hy & HP). apply omap_from_index in Hy as [Hy Hkey]; [|done].
assert (omap_get (key x) (omap_from ((λ x, (key x, x)) <$> l)) = Some x) as H1
  by (by apply omap_from_index).
assert (omap_get (key x) (omap_from ((λ x, (key x, x)) <$> l)) = Some y) as H2
  by (by apply omap_from_index).
congruence.
Qed.

Lemma passed_for_spec release e : passed_for release e = true ↔ passes release e.
Proof. unfold passed_for, passes. by rewrite andb_true_iff, String.eqb_eq, bool_decide_eq_true. Qed.
Lemma with_key_Some evidence key e :
  with_key evidence key = Some e → e ∈ evidence ∧ Evidence.key e = key.
Proof. intros [? Hk]%find_first_Some. by rewrite String.eqb_eq in Hk. Qed.

Lemma wp_nonEmpty v o w s (Q : () → World → S → Prop) X :
  (blank v = false → Q () w s) → (∀ e, X e w s) → wp (nonEmpty (S:=S) v o) Q X w s.
Proof. intros HQ HX. unfold nonEmpty. wp_steps; auto. Qed.
Lemma wp_uniqueIds l o w s (Q : () → World → S → Prop) X :
  (NoDup l → Q () w s) → (∀ e, X e w s) → wp (uniqueIds (S:=S) l o) Q X w s.
Proof. intros HQ HX. unfold uniqueIds. wp_steps; [auto|]. by apply HQ, has_duplicates_spec. Qed.

Lemma wp_check_artifact release target artifactById i w s :
  wp (check_artifact (S:=S) release target artifactById i)
    (λ _ w' s', w' = w ∧ s' = s ∧ ∃ a, omap_get i artifactById = Some a ∧
       Artifact.projectRevisionId a = Release.projectRevisionId release ∧
       blank (Artifact.digest a) = false ∧ Artifact.type a ∈ Target.acceptedArtifactTypes target)
    (λ _ w' s', w' = w ∧ s' = s) w s.
Proof.
unfold check_artifact. wp_step. wp_step; [done|]. wp_step. wp_step; [done|]. wp_step.
apply wp_nonEmpty; [|done]. intros Hb. wp_step; [done|].
rewrite negb_false_iff in *. rewrite String.eqb_eq, list_includes_spec in *. split_and!; eauto 10.
Qed.
Lemma wp_check_evidence release evidenceById i w s :
  wp (check_evidence (S:=S) release evidenceById i)
    (λ _ w' s', w' = w ∧ s' = s ∧ ∃ e, omap_get i evidenceById = Some e ∧ passes release e)
    (λ _ w' s', w' = w ∧ s' = s) w s.
Proof.
unfold check_evidence. wp_step. wp_step; [done|]. wp_step; [done|].
rewrite negb_false_iff, passed_for_spec in *. eauto 10.
Qed.
Lemma wp_check_required release target evidence key w s :
  wp (check_required (S:=S) release target evidence key)
    (λ _ w' s', w' = w ∧ s' = s ∧
       evidenced evidence key (λ e, Evidence.targetId e = Some (Target.id target)))
    (λ _ w' s', w' = w ∧ s' = s) w s.
Proof.
unfold check_required. wp_step; [done|]. destruct (with_key evidence key) as [e|] eqn:He; [|done].
rewrite negb_false_iff, andb_true_iff, bool_decide_eq_true in *.
pose proof (with_key_Some _ _ _ He) as [? ?]. unfold evidenced. naive_solver.
Qed.
Lemma wp_check_migration_artifact release artifactById i w s :
  wp (check_migration_artifact (S:=S) release artifactById i)
    (λ _ w' s', w' = w ∧ s' = s ∧ i ∈ Release.artifactIds release)
    (λ _ w' s', w' = w ∧ s' = s) w s.
Proof.
unfold check_migration_artifact. wp_step; [done|].
rewrite orb_false_iff, !negb_false_iff, list_includes_spec in *. naive_solver.
Qed.
Lemma wp_check_migration_evidence release target evidence key w s :
  wp (check_migration_evidence (S:=S) release target evidence key)
    (λ _ w' s', w' = w ∧ s' = s ∧
       evidenced evidence key (λ e, ∀ t, Evidence.targetId e = Some t → t = Target.id target))
    (λ _ w' s', w' = w ∧ s' = s) w s.
Proof.
unfold check_migration_evidence. wp_step; [done|]. destruct (with_key evidence key) as [e|] eqn:He; [|done].
rewrite negb_false_iff, !andb_true_iff in *. pose proof (with_key_Some _ _ _ He) as [? ?].
split_and!; [done|done|]. exists e. split_and!; [done..|]. intros t Ht. destruct H as [_ Hm].
rewrite Ht in Hm. by apply String.eqb_eq.
Qed.

Lemma wp_inputs {A} ds artifacts evidence declared (f : _ → _ → M S failure A) Q X w s :
  (∀ inputSet, closure_of ds artifacts evidence inputSet →
     (∀ d, declared = Some d → d = inputSet) → wp (f inputSet ()) Q X w s) →
  (∀ e, X e w s) →
  wp (inputSet ← match declared with
                 | Some i => mret i
                 | None => lift_err input_error (deriveReleaseInputSet ds artifacts evidence)
                 end;
      u ← match declared with
          | Some i => lift_err input_error (assertReleaseInputSetMatches i ds artifacts evidence)
          | None => mret ()
          end; f inputSet u) Q X w s.
Proof.
intros Hf HX. destruct declared as [d|].
- wp_step. wp_step. wp_step. wp_step; [|done]. destruct a.
  apply Hf; [by apply assertReleaseInputSetMatches_Ok|by intros ? [= <-]].
- wp_step. wp_step; [|done]. wp_step. wp_step. apply Hf; [by apply deriveReleaseInputSet_Ok|done].
Qed.
Lemma wp_plan {A} declared (f : _ → M S failure A) Q X w s :
  (∀ plan, normal_plan plan → wp (f plan) Q X w s) → (∀ e, X e w s) →
  wp (given ← match declared with
              | Some p => mret p
              | None => lift_err migration_error defaultMigrationPlan
              end;
      plan ← lift_err migration_error (createMigrationPlan (as_input given)); f plan) Q X w s.
Proof.
intros Hf HX. wp_step. destruct declared as [d|].
- wp_step. wp_step. wp_step; [|done]. by eapply Hf, createMigrationPlan_normal.
- wp_step; [|done]. wp_step. wp_step; [|done]. by eapply Hf, createMigrationPlan_normal.
Qed.

Lemma wp_sealVerifiedRelease projectId release artifacts evidence target contractDigest w s :
  wp (sealVerifiedRelease projectId release artifacts evidence target contractDigest)
    (λ r _ s', s' = s ∧ vouched projectId release artifacts evidence target contractDigest r)
    (λ _ w' s', w' = w ∧ s' = s) w s.
Proof.
unfold sealVerifiedRelease. cbv zeta.
do 4 (wp_step; apply wp_nonEmpty; [intros ?|done]).
wp_step. wp_step; [done|]. wp_step. wp_step; [done|].
do 4 (wp_step; apply wp_uniqueIds; [intros ?|done]).
wp_step. wp_step; [done|]. wp_step.
eapply wp_for_each_check; [intros; apply wp_check_artifact|intros Harts].
wp_step. wp_step; [done|]. wp_step.
eapply wp_for_each_check; [intros; apply wp_check_evidence|intros Hevs]. wp_step.
eapply wp_for_each_check; [intros; apply wp_check_required|intros Hreq].
wp_step. wp_step; [done|].
rewrite ?negb_false_iff, ?Nat.eqb_eq, ?bool_decide_eq_true in *.
apply indexed_all in Harts as [Hap Ha]; [|done..]. apply indexed_all in Hevs as [Hep He]; [|done..].
assert (Release.artifactIds release ≠ []) as Hne.
{ intros Hnil. rewrite Hnil in H9. done. }
apply wp_inputs; [|done]. intros inputSet Hcl Hdecl.
apply wp_plan; [|done]. intros plan Hplan. cbv zeta beta.
wp_step. eapply wp_for_each_check; [intros; apply wp_check_migration_artifact|intros Hma].
wp_step. eapply wp_for_each_check; [intros; apply wp_check_migration_evidence|intros Hme].
wp_step. wp_step; [|done]. wp_step. wp_step; [|done]. destruct a0. wp_step.
match goal with |- wp ?m ?Q ?X w s =>
  enough (∀ contract, match contractDigest with
    | Some d => Ok d
    | None => targetDeploymentContractDigest target
    end = Ok contract → Q contract w s) as Hcontract end.
{ destruct contractDigest; [by apply wp_ret, Hcontract|]. wp_step; [by apply Hcontract|done]. }
intros contract Hcontract. cbv zeta beta. wp_step. apply wp_opaqueId. wp_step. split; [done|].
split; cbn; try done.
- exists inputSet. by split_and!.
- exists plan, a. split_and!; try done. intros x Hx. rewrite Hap. by apply Hma.
- by exists contract.
Qed.
End sealing.

(** C33: a seal is vouched for: a ready, fully named Release with exactly its
    declared Artifacts and exactly its declared Evidence, all of one Project
    Revision, of types the Target accepts and passed; the Evidence the Target
    requires, produced for it; the input closure that the Artifacts and the
    Evidence determine; a normal Migration Plan that is safe for the Target and
    whose Artifacts and Evidence are in the Release; and the digest of all that.
    When sealing throws, nothing has changed. *)
Theorem sealVerifiedRelease_vouched `{HH : Host} `{SC : CredentialScanner} {S} projectId release
    artifacts evidence target contractDigest w (s : S) :
  wp (sealVerifiedRelease projectId release artifacts evidence target contractDigest)
    (λ r _ s', s' = s ∧ vouched projectId release artifacts evidence target contractDigest r)
    (λ _ w' s', w' = w ∧ s' = s) w s.
Proof. apply wp_sealVerifiedRelease. Qed.

(** C35: the release digest binds the Release: when SHA-256 does not collide, two
    seals with one digest are of the same Project, Target contract, Release,
    input closure and Migration Plan included, and Artifacts, and of Evidence
    with the same canonical encoding. *)
Theorem releaseDigest_binds `{HH : Host} `{SC : CredentialScanner} p1 r1 as1 es1 t1 c1 p2 r2 as2 es2 t2 c2
    w1 w2 w1' w2' (i1 i2 : ImmutableRelease.t) :
  CollisionFree HH →
  sealVerifiedRelease (S:=()) p1 r1 as1 es1 t1 (Some c1) w1 () = (Ok i1, w1', ()) →
  sealVerifiedRelease (S:=()) p2 r2 as2 es2 t2 (Some c2) w2 () = (Ok i2, w2', ()) →
  ImmutableRelease.releaseDigest i1 = ImmutableRelease.releaseDigest i2 →
  p1 = p2 ∧ Target.id t1 = Target.id t2 ∧ c1 = c2 ∧
  ImmutableRelease.release i1 = ImmutableRelease.release i2 ∧
  ImmutableRelease.artifacts i1 = ImmutableRelease.artifacts i2 ∧
  normal (to_json (ImmutableRelease.evidence i1)) = normal (to_json (ImmutableRelease.evidence i2)).
Proof.
intros Hcf H1 H2 Hd.
destruct (wp_Ok _ _ _ _ _ _ _ _ (wp_sealVerifiedRelease p1 r1 as1 es1 t1 (Some c1) w1 ()) H1)
  as [_ [_ _ _ _ _ _ _ _ (_ & -> & ->) (d1 & [= <-] & E1)]].
destruct (wp_Ok _ _ _ _ _ _ _ _ (wp_sealVerifiedRelease p2 r2 as2 es2 t2 (Some c2) w2 ()) H2)
  as [_ [_ _ _ _ _ _ _ _ (_ & -> & ->) (d2 & [= <-] & E2)]].
rewrite E1, E2 in Hd. apply digest_inj in Hd; [|done]. unfold sealed_json in Hd.
json_fields Hd ["projectId"; "targetId"; "targetContractDigest"; "release"; "artifacts"; "evidence"].
split_and!; try assumption. unfold normal_fields in *. cbn [field fmap list_fmap fst snd] in *.
exact (f_equal (λ l, match l with (_, v) :: _ => v | [] => JNull end) Hfield4).
Qed.

(** A Release to seal, for the witness. *)
Definition example_target : Target.t :=
  Target.mk "t1" "p1" "web" "worker" ["worker"] ["k"] TargetState.healthy None None None
    (Some example_profile).
Definition example_release : Release.t :=
  Release.mk "r1" "pr1" ["a1"] ["e1"] ["cfg"] [] "1" ReleaseStatus.ready None None None None None None.
Definition example_seal (w : World) : outcome failure ImmutableRelease.t * World * () :=
  @sealVerifiedRelease example_host quiet_scanner () "p1" example_release [example_artifact]
    [example_evidence] example_target (Some "sha256:contract") w ().
Definition sealed_at (w : World) : ImmutableRelease.t :=
  match example_seal w with
  | (Ok r, _, _) => r
  | _ => ImmutableRelease.mk "" "" example_release [] [] "" ""
  end.

(** Sealed twice, under two seal ids. *)
Lemma releaseDigest_binds_witness :
  ImmutableRelease.id (sealed_at start) ≠ ImmutableRelease.id (sealed_at (mkWorld 1 0)) ∧
  ImmutableRelease.release (sealed_at start) = ImmutableRelease.release (sealed_at (mkWorld 1 0)).
Proof.
split; [vm_compute; discriminate|].
destruct (@releaseDigest_binds example_host quiet_scanner "p1" example_release [example_artifact]
  [example_evidence] example_target "sha256:contract" "p1" example_release [example_artifact]
  [example_evidence] example_target "sha256:contract" start (mkWorld 1 0) (mkWorld 1 0) (mkWorld 2 0)
  (sealed_at start) (sealed_at (mkWorld 1 0)) example_host_collision_free)
  as (_ & _ & _ & H & _); [vm_compute; reflexivity..|exact H].
Defined.
