(* ===== verification/ArtifactOutputs.v ===== *)
(** The Artifact outputs an Action declares,
    packages/create-anyam/src/action-artifact-output.ts: the parser of an
    untrusted declaration, and the check that a Result delivers exactly the
    declared Artifacts with the digests it signed. *)

From S2P Require Import Prelude Json Contracts ContractsJson.

(** * Data *)

(** [reason] of an [ActionArtifactOutputError]. *)
Module ArtifactOutputReason.
Inductive t :=
| expected_versioned_outputs | expected_canonical_path_and_type | duplicate_output_path
| path_outside_action_outputs | path_requires_contract | output_digest_malformed
| path_only_on_artifacts | artifact_path_undeclared | artifact_digest_differs
| missing_declared_artifacts.
#[global] Instance t_eq_dec : EqDecision t.
Proof. solve_decision. Defined.
End ArtifactOutputReason.

(** What the check reads of a Result's output. *)
Module LogicalOutput.
Record t := mk { kind : string; outputPath : option string; digest : string }.
End LogicalOutput.

(** * Paths and types *)

Definition control_or_separator (c : ascii) : bool :=
  let n := code c in
  ((n <=? 31) || (n =? 127) || (n =? 58) || (n =? 92))%N.

Definition canonical_segment (segment : string) : bool :=
  negb (String.eqb segment "") && negb (String.eqb segment ".") && negb (String.eqb segment "..")
  && negb (String.eqb (toLowerCase segment) ".git").

Definition canonicalArtifactOutputPath (value : string) : bool :=
  negb (String.eqb value "") && String.eqb (trim value) value
  && negb (string_exists control_or_separator value)
  && forallb canonical_segment (split char_slash value).

Definition is_lower (c : ascii) : bool := let n := code c in ((97 <=? n) && (n <=? 122))%N.
Definition is_digit (c : ascii) : bool := let n := code c in ((48 <=? n) && (n <=? 57))%N.
Definition is_word (c : ascii) : bool := is_lower c || is_digit c.
Definition is_joiner (c : ascii) : bool :=
  let n := code c in ((n =? 46) || (n =? 45))%N.

(** [[a-z0-9]*(?:[.-][a-z0-9]+)*$]: the automaton of the expression, [started]
    once the current word has a character. *)
Fixpoint type_tail (started : bool) (s : string) : bool :=
  match s with
  | EmptyString => started
  | String c s =>
      if is_word c then type_tail true s
      else if is_joiner c && started then type_tail false s
      else false
  end.
(** [/^[a-z][a-z0-9]*(?:[.-][a-z0-9]+)*$/]. *)
Definition artifact_type (s : string) : bool :=
  match s with
  | EmptyString => false
  | String c s => is_lower c && type_tail true s
  end.

Definition is_hex (c : ascii) : bool :=
  let n := code c in (is_digit c || ((97 <=? n) && (n <=? 102))%N).
(** [/^sha256:[0-9a-f]{64}$/]. *)
Definition sha256_digest (s : string) : bool :=
  starts_with "sha256:" s
  && let hex := String.substring 7 (String.length s - 7) s in
     (String.length hex =? 64)%nat && string_all is_hex hex.

(** * The declaration *)

Definition contract_protocol : string := "anyam.action-artifact-outputs/v1".

(** [Object.keys(value)] has exactly these keys. *)
Definition exactKeys (value : list (string * json)) (keys : list string) : bool :=
  (length value =? length keys)%nat && forallb (fun p => list_includes keys p.1) value.

Definition parse_entry (entry : json) : outcome ArtifactOutputReason.t ArtifactOutput.t :=
  match entry with
  | JObj fields =>
      match exactKeys fields ["path"; "type"], omap_get "path" fields, omap_get "type" fields with
      | true, Some (JStr path), Some (JStr type) =>
          if canonicalArtifactOutputPath path && artifact_type type
          then Ok (ArtifactOutput.mk path type)
          else Throw ArtifactOutputReason.expected_canonical_path_and_type
      | _, _, _ => Throw ArtifactOutputReason.expected_canonical_path_and_type
      end
  | _ => Throw ArtifactOutputReason.expected_canonical_path_and_type
  end.

(** The [map] over the entries, with the paths [seen] so far. *)
Fixpoint parse_entries (declaredPaths : option (list string)) (seen : list string)
    (entries : list json) : outcome ArtifactOutputReason.t (list ArtifactOutput.t) :=
  match entries with
  | [] => Ok []
  | entry :: entries =>
      output ← parse_entry entry;
      let path := ArtifactOutput.path output in
      if list_includes seen path then Throw ArtifactOutputReason.duplicate_output_path
      else if match declaredPaths with
              | Some declared => negb (list_includes declared path)
              | None => false
              end
      then Throw ArtifactOutputReason.path_outside_action_outputs
      else
        outputs ← parse_entries declaredPaths (path :: seen) entries;
        Ok (output :: outputs)
  end.

Definition parseActionArtifactOutputContract (value : json) (declaredPaths : option (list string)) :
    outcome ArtifactOutputReason.t ActionArtifactOutputContract.t :=
  match value with
  | JObj fields =>
      match exactKeys fields ["protocol"; "outputs"],
            omap_get "protocol" fields, omap_get "outputs" fields with
      | true, Some (JStr protocol), Some (JArr (entry :: entries)) =>
          if String.eqb protocol contract_protocol
          then
            outputs ← parse_entries declaredPaths [] (entry :: entries);
            Ok (ActionArtifactOutputContract.mk contract_protocol outputs)
          else Throw ArtifactOutputReason.expected_versioned_outputs
      | _, _, _ => Throw ArtifactOutputReason.expected_versioned_outputs
      end
  | _ => Throw ArtifactOutputReason.expected_versioned_outputs
  end.

(** * The check of a Result *)

(** One entry [path=digest] of the normalized output digests. *)
Definition read_output_digest (declaredPaths : list string) (digests : omap string)
    (entry : string) : outcome ArtifactOutputReason.t (omap string) :=
  match split_last "=" entry with
  | Some (path, digest) =>
      if String.eqb path "" || negb (list_includes declaredPaths path) || omap_has path digests
         || negb (sha256_digest digest)
      then Throw ArtifactOutputReason.output_digest_malformed
      else Ok (omap_set path digest digests)
  | None => Throw ArtifactOutputReason.output_digest_malformed
  end.
Fixpoint read_output_digests (declaredPaths : list string) (digests : omap string)
    (entries : list string) : outcome ArtifactOutputReason.t (omap string) :=
  match entries with
  | [] => Ok digests
  | entry :: entries =>
      digests ← read_output_digest declaredPaths digests entry;
      read_output_digests declaredPaths digests entries
  end.

(** One output against the declaration: the paths [seen] after it. *)
Definition check_output (outputs : list ArtifactOutput.t) (digests : omap string)
    (seen : list string) (output : LogicalOutput.t) :
    outcome ArtifactOutputReason.t (list string) :=
  if negb (String.eqb (LogicalOutput.kind output) "artifact")
  then match LogicalOutput.outputPath output with
       | Some _ => Throw ArtifactOutputReason.path_only_on_artifacts
       | None => Ok seen
       end
  else
    match find_first (fun entry =>
            bool_decide (Some (ArtifactOutput.path entry) = LogicalOutput.outputPath output)) outputs with
    | None => Throw ArtifactOutputReason.artifact_path_undeclared
    | Some declaration =>
        let path := ArtifactOutput.path declaration in
        if list_includes seen path then Throw ArtifactOutputReason.artifact_path_undeclared
        else if negb (bool_decide (omap_get path digests = Some (LogicalOutput.digest output)))
        then Throw ArtifactOutputReason.artifact_digest_differs
        else Ok (seen ++ [path])
    end.
Fixpoint check_outputs (outputs : list ArtifactOutput.t) (digests : omap string)
    (seen : list string) (l : list LogicalOutput.t) : outcome ArtifactOutputReason.t (list string) :=
  match l with
  | [] => Ok seen
  | output :: l =>
      seen ← check_output outputs digests seen output;
      check_outputs outputs digests seen l
  end.

Definition validateActionArtifactOutputs (contract : option ActionArtifactOutputContract.t)
    (declaredPaths : list string) (status : string) (outputDigests : list string)
    (outputs : list LogicalOutput.t) : outcome ArtifactOutputReason.t () :=
  match contract with
  | None =>
      if existsb (fun output => bool_decide (is_Some (LogicalOutput.outputPath output))) outputs
      then Throw ArtifactOutputReason.path_requires_contract
      else Ok ()
  | Some contract =>
      contract ← parseActionArtifactOutputContract (to_json contract) (Some declaredPaths);
      digests ← read_output_digests declaredPaths [] outputDigests;
      seen ← check_outputs (ActionArtifactOutputContract.outputs contract) digests [] outputs;
      if String.eqb status "succeeded"
         && negb (length seen =? length (ActionArtifactOutputContract.outputs contract))%nat
      then Throw ArtifactOutputReason.missing_declared_artifacts
      else Ok ()
  end.

(** * What is accepted *)

Definition well_formed_output (o : ArtifactOutput.t) : bool :=
  canonicalArtifactOutputPath (ArtifactOutput.path o) && artifact_type (ArtifactOutput.type o).

(** The declarations a parse returns. *)
Record well_formed_contract (declaredPaths : option (list string))
    (c : ActionArtifactOutputContract.t) : Prop := {
  wf_protocol : ActionArtifactOutputContract.protocol c = contract_protocol;
  wf_nonempty : ActionArtifactOutputContract.outputs c ≠ [];
  wf_outputs : Forall (λ o, well_formed_output o = true) (ActionArtifactOutputContract.outputs c);
  wf_paths : NoDup (ArtifactOutput.path <$> ActionArtifactOutputContract.outputs c);
  wf_declared : ∀ declared, declaredPaths = Some declared →
    Forall (λ o, ArtifactOutput.path o ∈ declared) (ActionArtifactOutputContract.outputs c);
}.

Lemma exactKeys_pair fields k1 v1 k2 v2 : k1 ≠ k2 →
  exactKeys fields [k1; k2] = true →
  omap_get k1 fields = Some v1 → omap_get k2 fields = Some v2 →
  fields = [(k1, v1); (k2, v2)] ∨ fields = [(k2, v2); (k1, v1)].
Proof.
intros Hne Hk H1 H2. unfold exactKeys in Hk. apply andb_prop in Hk as [Hl Hk].
destruct fields as [|[a x] [|[b y] [|? ?]]]; try done. simpl in Hk.
rewrite !andb_true_iff, !list_includes_spec, !elem_of_cons, !elem_of_nil in Hk.
simpl in H1, H2. repeat case_decide; subst; naive_solver.
Qed.

Lemma parse_entry_exact entry o :
  parse_entry entry = Ok o ↔
  well_formed_output o = true ∧
  (entry = to_json o ∨
   entry = JObj [("type", JStr (ArtifactOutput.type o)); ("path", JStr (ArtifactOutput.path o))]).
Proof.
split.
- destruct entry as [| | | | | |fields]; try done. cbn [parse_entry].
  destruct (exactKeys fields _) eqn:Hk; [|done].
  destruct (omap_get "path" fields) as [[| | | |path| |]|] eqn:Hp; try done.
  destruct (omap_get "type" fields) as [[| | | |type| |]|] eqn:Ht; try done.
  destruct (canonicalArtifactOutputPath path && artifact_type type) eqn:Hok; [|done].
  intros [= <-]. split; [done|].
  destruct (exactKeys_pair _ "path" (JStr path) "type" (JStr type) ltac:(done) Hk Hp Ht) as [->| ->];
    [by left|by right].
- intros [Hok [->| ->]]; destruct o as [path type];
    unfold well_formed_output in Hok;
    lazy -[canonicalArtifactOutputPath artifact_type andb] in Hok |- *; by rewrite Hok.
Qed.

(** Two objects with the same members in another order have one encoding. *)
Lemma parse_entry_normal entry o : parse_entry entry = Ok o → normal entry = normal (to_json o).
Proof. intros [_ [->| ->]]%parse_entry_exact; [done|]. by destruct o. Qed.

Lemma parse_entries_Ok declaredPaths seen entries outputs :
  parse_entries declaredPaths seen entries = Ok outputs ↔
  Forall2 (λ e o, parse_entry e = Ok o) entries outputs ∧
  NoDup (ArtifactOutput.path <$> outputs) ∧
  Forall (λ o, (ArtifactOutput.path o ∉ seen) ∧
    (∀ declared, declaredPaths = Some declared → ArtifactOutput.path o ∈ declared)) outputs.
Proof.
revert seen outputs. induction entries as [|e entries IH]; intros seen outputs; cbn [parse_entries].
- split; [intros [= <-]; split_and!; constructor|]. by intros (Hf%Forall2_nil_inv_l & _); subst.
- rewrite bind_Ok. split.
  + intros (o & Ho & H). destruct (list_includes seen _) eqn:Hs; [done|].
    apply not_true_iff_false in Hs. rewrite list_includes_spec in Hs.
    destruct declaredPaths as [declared|]; [destruct (list_includes declared _) eqn:Hd; [|done]|];
      simpl in H; rewrite bind_Ok in H; destruct H as (os & Hos & [= <-]);
      apply IH in Hos as (Hf & Hnd & Hall).
    * apply list_includes_spec in Hd. split_and!; [by constructor| |].
      -- rewrite fmap_cons. constructor; [|done]. intros (o' & Ho' & Hin)%list_elem_of_fmap.
         rewrite Forall_forall in Hall. apply Hall in Hin as [Hin _]. apply Hin. rewrite <-Ho'. left.
      -- constructor; [split; [done|]; by intros ? [= <-]|]. eapply Forall_impl; [exact Hall|].
         intros o' [Hn ?]. split; [|done]. intros ?. apply Hn. by right.
    * split_and!; [by constructor| |].
      -- rewrite fmap_cons. constructor; [|done]. intros (o' & Ho' & Hin)%list_elem_of_fmap.
         rewrite Forall_forall in Hall. apply Hall in Hin as [Hin _]. apply Hin. rewrite <-Ho'. left.
      -- constructor; [split; done|]. eapply Forall_impl; [exact Hall|].
         intros o' [Hn ?]. split; [|done]. intros ?. apply Hn. by right.
  + intros (Hf & Hnd & Hall). destruct outputs as [|o outputs]; [by inversion Hf|].
    apply Forall2_cons in Hf as [Ho Hf]. rewrite fmap_cons in Hnd. apply NoDup_cons in Hnd as [Hn Hnd].
    apply Forall_cons in Hall as [[Hs Hd] Hall]. exists o. split; [done|].
    destruct (list_includes seen _) eqn:Hi; [by apply list_includes_spec in Hi|].
    replace (match declaredPaths with Some declared => _ | None => false end) with false.
    2: { destruct declaredPaths as [declared|]; [|done]. symmetry. apply negb_false_iff.
         apply list_includes_spec. by apply Hd. }
    rewrite bind_Ok. exists outputs. split; [|done]. apply IH. split_and!; [done|done|].
    rewrite Forall_forall in *. intros o' Ho'. destruct (Hall o' Ho') as [Hs' Hd'].
    split; [|done]. intros [Heq|]%elem_of_cons; [|done]. apply Hn. rewrite <-Heq.
    apply list_elem_of_fmap. by exists o'.
Qed.

Lemma contract_json c : to_json c =
  JObj [("protocol", JStr (ActionArtifactOutputContract.protocol c));
        ("outputs", JArr (to_json <$> ActionArtifactOutputContract.outputs c))].
Proof. reflexivity. Qed.
Lemma parse_members protocol e es declaredPaths :
  parseActionArtifactOutputContract
    (JObj [("protocol", JStr protocol); ("outputs", JArr (e :: es))]) declaredPaths =
  if String.eqb protocol contract_protocol
  then outputs ← parse_entries declaredPaths [] (e :: es);
       Ok (ActionArtifactOutputContract.mk contract_protocol outputs)
  else Throw ArtifactOutputReason.expected_versioned_outputs.
Proof. reflexivity. Qed.
Lemma parse_to_json declaredPaths c : well_formed_contract declaredPaths c →
  parseActionArtifactOutputContract (to_json c) declaredPaths = Ok c.
Proof.
intros [Hp Hne Ho Hnd Hd]. destruct c as [protocol outputs]. cbn in Hp, Hne, Ho, Hnd, Hd. subst protocol.
destruct outputs as [|o outputs]; [done|].
assert (parse_entries declaredPaths [] (to_json <$> (o :: outputs)) = Ok (o :: outputs)) as Hes.
{ apply parse_entries_Ok. split_and!; [|done|].
  - apply Forall2_fmap_l, Forall_Forall2_diag. eapply Forall_impl; [exact Ho|].
    intros x Hx. apply parse_entry_exact. by split; [|left].
  - rewrite Forall_forall in *. intros x Hx. split; [apply not_elem_of_nil|].
    intros declared Hdecl. specialize (Hd declared Hdecl). rewrite Forall_forall in Hd. by apply Hd. }
rewrite contract_json. cbn [ActionArtifactOutputContract.protocol ActionArtifactOutputContract.outputs].
rewrite fmap_cons in Hes |- *. rewrite parse_members, Hes. by rewrite String.eqb_refl.
Qed.

Lemma parse_spec v declaredPaths c :
  parseActionArtifactOutputContract v declaredPaths = Ok c →
  well_formed_contract declaredPaths c ∧ normal v = normal (to_json c).
Proof.
destruct v as [| | | | | |fields]; try done. cbn [parseActionArtifactOutputContract].
destruct (exactKeys fields _) eqn:Hk; [|done].
destruct (omap_get "protocol" fields) as [[| | | |protocol| |]|] eqn:Hp; try done.
destruct (omap_get "outputs" fields) as [[| | | | |[|e entries]|]|] eqn:Ho; try done.
destruct (String.eqb_spec protocol contract_protocol) as [->|]; [|done].
rewrite bind_Ok. intros (outputs & Hes & [= <-]).
pose proof Hes as (Hf & Hnd & Hall)%parse_entries_Ok. rewrite Forall_forall in Hall. split.
- split; cbn; [done|by intros ->; inversion Hf| |done|].
  + apply Forall_forall. intros o (i & Hi)%list_elem_of_lookup.
    destruct (Forall2_lookup_r _ _ _ _ _ Hf Hi) as (x & _ & Hx). by apply parse_entry_exact in Hx as [].
  + intros declared Hd. apply Forall_forall. intros o Hin. by apply Hall.
- assert (normal <$> (e :: entries) = normal <$> (to_json <$> outputs)) as Hn.
  { clear -Hf. induction Hf as [|x o l k Hx _ IH]; [done|].
    rewrite !fmap_cons. f_equal; [by apply parse_entry_normal|done]. }
  destruct (exactKeys_pair _ "protocol" (JStr contract_protocol) "outputs" (JArr (e :: entries))
    ltac:(done) Hk Hp Ho) as [->| ->].
  all: rewrite contract_json; cbn [normal ActionArtifactOutputContract.protocol
    ActionArtifactOutputContract.outputs]; rewrite !(fmap_cons (λ p, (p.1, normal p.2)));
    cbn [normal fst snd]; rewrite Hn; reflexivity.
Qed.

(** ** The normalized output digests *)

Lemma split_last_Some c s a b :
  split_last c s = Some (a, b) ↔ s = a +:+ String c b ∧ string_exists (Ascii.eqb c) b = false.
Proof.
assert (∀ s, split_last c s = None ↔ string_exists (Ascii.eqb c) s = false) as Hnone.
{ clear. induction s as [|d s IH]; [done|]. cbn [split_last string_exists].
  rewrite orb_false_iff, <-IH, (Ascii.eqb_sym c d).
  destruct (split_last c s) as [[? ?]|]; [naive_solver|]. destruct (Ascii.eqb d c); naive_solver. }
revert a. induction s as [|d s IH]; intros a; cbn [split_last].
- split; [done|]. intros [Hs _]. by destruct a.
- destruct (split_last c s) as [[a' b']|] eqn:Hl.
  + destruct (IH a') as [IH1 _]. split.
    * intros [= <- <-]. destruct IH1 as [-> ?]; done.
    * intros [Hs Hb]. destruct a as [|e a]; str_simpl; simplify_eq.
      -- by apply Hnone in Hb; rewrite Hl in Hb.
      -- assert (Some (a', b') = Some (a, b)) as [= -> ->] by (by apply IH). done.
  + apply Hnone in Hl as Hl'. destruct (Ascii.eqb_spec d c) as [->|Hd]; split; try done.
    * intros [= <- <-]. done.
    * intros [Hs Hb]. destruct a as [|e a]; str_simpl; simplify_eq; [done|].
      assert (None = Some (a, b)) by (by apply IH). done.
    * intros [Hs Hb]. destruct a as [|e a]; str_simpl; simplify_eq.
      assert (None = Some (a, b)) by (by apply IH). done.
Qed.

(** [entry] is [path=digest]. *)
Definition names (declaredPaths : list string) (entry : string) (p : string * string) : Prop :=
  entry = p.1 +:+ String "=" p.2 ∧ string_exists (Ascii.eqb "=") p.2 = false ∧
  p.1 ≠ "" ∧ p.1 ∈ declaredPaths ∧ sha256_digest p.2 = true.

Lemma read_output_digest_Ok declaredPaths digests entry m :
  read_output_digest declaredPaths digests entry = Ok m ↔
  ∃ p, names declaredPaths entry p ∧ omap_get p.1 digests = None ∧ m = digests ++ [p].
Proof.
unfold read_output_digest. split.
- destruct (split_last "=" entry) as [[path d]|] eqn:Hs; [|done].
  apply split_last_Some in Hs as [-> Hd]. destruct (_ || _) eqn:Hc; [done|]. intros [= <-].
  rewrite !orb_false_iff, !negb_false_iff in Hc. destruct Hc as [[[Hp Hi] Hh] Hsha].
  apply String.eqb_neq in Hp. apply list_includes_spec in Hi. unfold omap_has in Hh.
  apply bool_decide_eq_false, eq_None_not_Some in Hh. exists (path, d). split_and!; [by split_and!|done|].
  apply omap_set_fresh. by rewrite <-omap_get_None.
- intros ([path d] & (-> & Hd & Hp & Hi & Hsha) & Hh & ->). simpl in *.
  assert (split_last "=" (path +:+ String "=" d) = Some (path, d)) as -> by (by apply split_last_Some).
  apply String.eqb_neq in Hp. apply list_includes_spec in Hi.
  assert (omap_has path digests = false) as ->
    by (unfold omap_has; rewrite Hh; apply bool_decide_eq_false; by intros [? ?]).
  rewrite Hp, Hi, Hsha. simpl. f_equal. apply omap_set_fresh. by rewrite <-omap_get_None.
Qed.

Lemma read_output_digests_Ok declaredPaths digests entries m : omap_wf digests →
  read_output_digests declaredPaths digests entries = Ok m ↔
  ∃ l, Forall2 (names declaredPaths) entries l ∧ m = digests ++ l ∧ omap_wf m.
Proof.
revert digests. induction entries as [|e entries IH]; intros digests Hwf; cbn [read_output_digests].
- split.
  + intros [= <-]. exists []. by rewrite app_nil_r.
  + intros (l & Hl%Forall2_nil_inv_l & -> & _). subst. by rewrite app_nil_r.
- rewrite bind_Ok. setoid_rewrite read_output_digest_Ok. split.
  + intros (m' & (p & Hp & Hno & ->) & Hm). apply IH in Hm as (l & Hl & -> & Hm).
    * exists (p :: l). rewrite <-app_assoc. split_and!; [by constructor|done|]. by rewrite <-app_assoc in Hm.
    * unfold omap_wf, omap_keys in *. rewrite NoDup_fmap_snoc. split; [done|].
      by apply omap_get_None in Hno.
  + intros (l & Hl & -> & Hm). inversion Hl as [|? p ? l' Hp Hl']; subst.
    exists (digests ++ [p]). change (digests ++ p :: l') with (digests ++ [p] ++ l') in *.
    rewrite app_assoc in *.
    assert (omap_wf (digests ++ [p])) as Hwf'.
    { unfold omap_wf, omap_keys in *. rewrite fmap_app, NoDup_app in Hm. by destruct Hm. }
    split; [|apply IH; [done|]; by exists l']. exists p. split_and!; [done| |done].
    apply omap_get_None. unfold omap_wf, omap_keys in Hwf'. by apply NoDup_fmap_snoc in Hwf' as [_ ?].
Qed.

(** ** The Artifacts of a Result *)

Definition is_artifact (o : LogicalOutput.t) : bool := String.eqb (LogicalOutput.kind o) "artifact".
Definition artifact_paths (outputs : list LogicalOutput.t) : list string :=
  outputs ≫= λ o, if is_artifact o then option_list (LogicalOutput.outputPath o) else [].

(** An Artifact names a declared path and its signed digest; no other output
    names a path. *)
Definition bound_output (paths : list string) (digests : omap string) (o : LogicalOutput.t) : Prop :=
  if is_artifact o
  then ∃ path, LogicalOutput.outputPath o = Some path ∧ path ∈ paths ∧
         omap_get path digests = Some (LogicalOutput.digest o)
  else LogicalOutput.outputPath o = None.

Lemma check_output_Ok outputs digests seen o seen' :
  check_output outputs digests seen o = Ok seen' ↔
  bound_output (ArtifactOutput.path <$> outputs) digests o ∧
  seen' = seen ++ artifact_paths [o] ∧ (∀ path, path ∈ artifact_paths [o] → path ∉ seen).
Proof.
unfold check_output, bound_output, artifact_paths. cbn [mbind list_bind].
rewrite !app_nil_r. fold (is_artifact o). destruct (is_artifact o); cbn [negb].
- destruct (find_first _ outputs) as [d|] eqn:Hf.
  + apply find_first_Some in Hf as [Hin Hp%bool_decide_eq_true].
    rewrite <-Hp. cbn [option_list].
    destruct (list_includes seen (ArtifactOutput.path d)) eqn:Hs.
    { split; [done|]. intros (_ & _ & Hn). apply list_includes_spec in Hs.
      exfalso. apply (Hn (ArtifactOutput.path d)); [left|done]. }
    apply not_true_iff_false in Hs. rewrite list_includes_spec in Hs.
    destruct (bool_decide_reflect (omap_get (ArtifactOutput.path d) digests = Some (LogicalOutput.digest o)))
      as [Hd|Hd]; cbn [negb]; split; try done.
    * intros [= <-]. split_and!; [|done|by intros ? ->%list_elem_of_singleton].
      exists (ArtifactOutput.path d). split_and!; [done| |done]. apply list_elem_of_fmap. by exists d.
    * by intros (_ & -> & _).
    * intros ((path & [= <-] & _ & ?) & _). done.
  + rewrite find_first_None in Hf. split; [done|].
    intros ((path & Hp & (d & -> & Hin)%list_elem_of_fmap & _) & _).
    apply Hf in Hin. apply bool_decide_eq_false in Hin. by rewrite Hp in Hin.
- destruct (LogicalOutput.outputPath o) as [p|]; [naive_solver|]. rewrite app_nil_r. split.
  + intros [= <-]. split_and!; [done|done|]. by intros ? ?%not_elem_of_nil.
  + by intros (_ & -> & _).
Qed.

Lemma check_outputs_Ok outputs digests seen l seen' : NoDup seen →
  check_outputs outputs digests seen l = Ok seen' ↔
  Forall (bound_output (ArtifactOutput.path <$> outputs) digests) l ∧
  seen' = seen ++ artifact_paths l ∧ NoDup seen'.
Proof.
revert seen. induction l as [|o l IH]; intros seen Hnd; cbn [check_outputs].
- cbn. rewrite app_nil_r. split; [intros [= <-]; by split_and!|]. by intros (_ & -> & _).
- rewrite bind_Ok. setoid_rewrite check_output_Ok.
  assert (artifact_paths (o :: l) = artifact_paths [o] ++ artifact_paths l) as Hcons
    by (unfold artifact_paths; cbn; by rewrite app_nil_r).
  rewrite Hcons. clear Hcons.
  assert (NoDup (artifact_paths [o])) as Hone.
  { unfold artifact_paths. cbn. rewrite app_nil_r. destruct (is_artifact o); [|constructor].
    destruct (LogicalOutput.outputPath o); [apply NoDup_singleton|constructor]. }
  assert ((∀ path, path ∈ artifact_paths [o] → path ∉ seen) ↔ NoDup (seen ++ artifact_paths [o])) as Hnew.
  { rewrite NoDup_app. split; [intros H; split_and!; [done| |done]|intros (_ & H & _)].
    - intros x Hx Hx'. by apply (H x).
    - intros x Hx Hx'. by apply (H x). }
  split.
  + intros (seen1 & (Hb & -> & Hn%Hnew) & H). apply IH in H as (Hall & -> & ?); [|done].
    rewrite <-app_assoc in *. split_and!; [by constructor|done|done].
  + intros (Hall & -> & Hnd'). apply Forall_cons in Hall as [Hb Hall]. rewrite app_assoc in *.
    assert (NoDup (seen ++ artifact_paths [o])) as Hpre by (by apply NoDup_app in Hnd' as []).
    exists (seen ++ artifact_paths [o]). split; [split_and!; [done|done|by apply Hnew]|].
    apply IH; [done|]. by split_and!.
Qed.

(** What the check of a Result with a declaration accepts. *)
Record delivered (c : ActionArtifactOutputContract.t) (declaredPaths : list string) (status : string)
    (outputDigests : list string) (outputs : list LogicalOutput.t) (digests : omap string) : Prop := {
  delivered_contract : well_formed_contract (Some declaredPaths) c;
  delivered_digests : Forall2 (names declaredPaths) outputDigests digests;
  delivered_once : omap_wf digests;
  delivered_bound : Forall (bound_output
    (ArtifactOutput.path <$> ActionArtifactOutputContract.outputs c) digests) outputs;
  delivered_distinct : NoDup (artifact_paths outputs);
  delivered_all : status = "succeeded" →
    artifact_paths outputs ≡ₚ ArtifactOutput.path <$> ActionArtifactOutputContract.outputs c;
}.

Lemma bound_paths paths digests outputs :
  Forall (bound_output paths digests) outputs → ∀ path, path ∈ artifact_paths outputs → path ∈ paths.
Proof.
intros Hall path (o & Ho & Hin)%list_elem_of_bind. rewrite Forall_forall in Hall.
apply Hall in Hin. unfold bound_output in Hin. destruct (is_artifact o); [|by apply not_elem_of_nil in Ho].
destruct Hin as (p & Hp & ? & _). rewrite Hp in Ho. by apply list_elem_of_singleton in Ho as ->.
Qed.

(** C39: A declaration parses exactly when it is well formed: its own JSON comes
    back as it was, and any JSON accepted is that of the declaration returned,
    but for the order of object keys. *)
Theorem parse_roundtrip v declaredPaths c :
  (well_formed_contract declaredPaths c →
   parseActionArtifactOutputContract (to_json c) declaredPaths = Ok c) ∧
  (parseActionArtifactOutputContract v declaredPaths = Ok c →
   well_formed_contract declaredPaths c ∧ normal v = normal (to_json c)).
Proof. split; [apply parse_to_json|apply parse_spec]. Qed.

(** The outputs of a Result are accepted exactly when every Artifact names a
    declared path once with the digest signed for it, nothing else names a
    path, and a succeeded Result delivers every declared Artifact; without a
    declaration, when no output names a path. *)
Theorem validateActionArtifactOutputs_exact contract declaredPaths status outputDigests outputs :
  validateActionArtifactOutputs contract declaredPaths status outputDigests outputs = Ok () ↔
  match contract with
  | None => Forall (λ o, LogicalOutput.outputPath o = None) outputs
  | Some c => ∃ digests, delivered c declaredPaths status outputDigests outputs digests
  end.
Proof.
unfold validateActionArtifactOutputs. destruct contract as [c|].
- assert (Hall : ∀ digests seen,
    seen = artifact_paths outputs → NoDup seen →
    Forall (bound_output (ArtifactOutput.path <$> ActionArtifactOutputContract.outputs c) digests) outputs →
    (length seen =? length (ActionArtifactOutputContract.outputs c))%nat = true →
    artifact_paths outputs ≡ₚ ArtifactOutput.path <$> ActionArtifactOutputContract.outputs c).
  { intros digests seen -> Hnd Hb Hl%Nat.eqb_eq. apply submseteq_length_Permutation.
    - apply NoDup_submseteq; [done|]. by eapply bound_paths.
    - by rewrite length_fmap, Hl. }
  split.
  + intros H. bind_inv. apply parse_spec in H0 as [Hc Hn]. apply json_inj in Hn. subst a.
    apply read_output_digests_Ok in H1 as (l & Hl & -> & Hwf); [|constructor].
    apply check_outputs_Ok in H2 as (Hb & -> & Hnd); [|constructor].
    exists l. split; try done. intros ->. rewrite String.eqb_refl in H.
    destruct (_ =? _)%nat eqn:Hlen in H; [|done]. by eapply Hall.
  + intros (digests & [Hc Hd Hwf Hb Hnd Hs]). apply bind_Ok. exists c. split; [by apply parse_to_json|].
    apply bind_Ok. exists digests.
    split; [apply read_output_digests_Ok; [constructor|]; by exists digests|].
    apply bind_Ok. exists (artifact_paths outputs). split; [by apply check_outputs_Ok; [constructor|]|].
    destruct (String.eqb_spec status "succeeded") as [He|]; [|done].
    apply Hs, Permutation_length in He. rewrite length_fmap in He. by rewrite He, Nat.eqb_refl.
- rewrite Forall_forall. destruct (existsb _ outputs) eqn:He.
  + split; [done|]. intros Hall. apply existsb_exists in He as (o & Hin%list_elem_of_In & Ho).
    apply bool_decide_eq_true in Ho. rewrite (Hall o Hin) in Ho. by destruct Ho.
  + split; [intros _|done]. intros o Ho. eapply existsb_false_iff in He; [|done].
    apply bool_decide_eq_false, eq_None_not_Some in He. done.
Qed.

Module ArtifactOutputsDemo.
Definition hex64 : string := cat (repeat "0123456789abcdef" 4).
Definition contract : ActionArtifactOutputContract.t :=
  ActionArtifactOutputContract.mk contract_protocol
    [ArtifactOutput.mk "dist/app.js" "worker.bundle"; ArtifactOutput.mk "dist/map" "source-map"].
Definition digest : string := cat ["sha256:"; hex64].
Example parses : parseActionArtifactOutputContract (to_json contract)
  (Some ["dist/map"; "dist/app.js"]) = Ok contract.
Proof. vm_compute. reflexivity. Qed.
Example accepts : validateActionArtifactOutputs (Some contract) ["dist/map"; "dist/app.js"] "succeeded"
  [cat ["dist/app.js="; digest]; cat ["dist/map="; digest]]
  [LogicalOutput.mk "artifact" (Some "dist/map") digest; LogicalOutput.mk "log" None "x";
   LogicalOutput.mk "artifact" (Some "dist/app.js") digest] = Ok ().
Proof. vm_compute. reflexivity. Qed.
Example rejects_git : canonicalArtifactOutputPath "a/.GIT/config" = false.
Proof. reflexivity. Qed.
End ArtifactOutputsDemo.
