(* ===== verification/Runner.v ===== *)
(** The external Runner coordinator, src/execution/runner.ts with the result
    context of src/execution/runner-proof.ts: enrolment of Runners, the queue of
    immutable Jobs, leases with short-lived credentials, signed Results,
    cancellation, expiry and retry.

    [Coordinator.t] is the state of an [ExternalRunnerCoordinator] and each
    method a computation over it.  The objects the source mutates in place
    ([attempt], [stored.job], [stored.run], [runner]) live in maps by id and are
    reached through them only, so a mutation is an update of the map. *)

From S2P Require Import Prelude Encoding Json Contracts ContractsJson ArtifactOutputs.

(** * What the source takes from node:crypto

    [randomBytes size n] is the [n]-th draw of entropy, a string of [size]
    bytes; [createPublicKey] and [verify_signature] are [None] where the
    functions throw. *)

Class RunnerHost := {
  PublicKey : Type;
  createPublicKey : string → option PublicKey;
  verify_signature : PublicKey → string → string → option bool;
  randomBytes : nat → nat → string;
}.

(** * Data *)

Module NormalizedActionInput.
Record t := mk {
  action : Action.t;
  verifier : option Verifier.t;
  projectRevisionId : string;
  projectViewId : string;
  sourceSpaceSnapshots : omap string;
  changeRevisionId : option string;
  workspaceId : option string;
  inputDigests : list string;
  effectDigests : list string;
  dependencyDigest : string;
  toolchainDigest : string;
  environmentDigest : string;
  policyVersion : string;
  authorizationEpoch : string;
  targetId : option string;
  targetDeploymentProfileDigest : option string;
  disclosure : DisclosurePolicyRef.t;
  actor : ActorRef.t;
  capabilityGrantId : string;
  runnerId : string;
}.
End NormalizedActionInput.
#[export] Instance NormalizedActionInput_to_json : ToJson NormalizedActionInput.t := λ r, object
  [field "action" (r.(NormalizedActionInput.action));
   opt_field "verifier" (r.(NormalizedActionInput.verifier));
   field "projectRevisionId" (r.(NormalizedActionInput.projectRevisionId));
   field "projectViewId" (r.(NormalizedActionInput.projectViewId));
   field "sourceSpaceSnapshots" (r.(NormalizedActionInput.sourceSpaceSnapshots));
   opt_field "changeRevisionId" (r.(NormalizedActionInput.changeRevisionId));
   opt_field "workspaceId" (r.(NormalizedActionInput.workspaceId));
   field "inputDigests" (r.(NormalizedActionInput.inputDigests));
   field "effectDigests" (r.(NormalizedActionInput.effectDigests));
   field "dependencyDigest" (r.(NormalizedActionInput.dependencyDigest));
   field "toolchainDigest" (r.(NormalizedActionInput.toolchainDigest));
   field "environmentDigest" (r.(NormalizedActionInput.environmentDigest));
   field "policyVersion" (r.(NormalizedActionInput.policyVersion));
   field "authorizationEpoch" (r.(NormalizedActionInput.authorizationEpoch));
   opt_field "targetId" (r.(NormalizedActionInput.targetId));
   opt_field "targetDeploymentProfileDigest" (r.(NormalizedActionInput.targetDeploymentProfileDigest));
   field "disclosure" (r.(NormalizedActionInput.disclosure));
   field "actor" (r.(NormalizedActionInput.actor));
   field "capabilityGrantId" (r.(NormalizedActionInput.capabilityGrantId));
   field "runnerId" (r.(NormalizedActionInput.runnerId))].

Module ResultStatus.
Inductive t := succeeded | failed | indeterminate.
#[global] Instance t_eq_dec : EqDecision t.
Proof. solve_decision. Defined.
Definition show (x : t) : string :=
  match x with succeeded => "succeeded" | failed => "failed" | indeterminate => "indeterminate" end.
(** The status as a [RunnerJobState] and as a [Run["status"]]. *)
Definition job_state (x : t) : RunnerJobState.t :=
  match x with
  | succeeded => RunnerJobState.succeeded
  | failed => RunnerJobState.failed
  | indeterminate => RunnerJobState.indeterminate
  end.
Definition run_status (x : t) : RunStatus.t :=
  match x with
  | succeeded => RunStatus.succeeded
  | failed => RunStatus.failed
  | indeterminate => RunStatus.indeterminate
  end.
End ResultStatus.
#[export] Instance ResultStatus_to_json : ToJson ResultStatus.t := λ x, JStr (ResultStatus.show x).

(** [exitCode] is always a key of the object, possibly [undefined]. *)
Module NormalizedActionOutput.
Record t := mk {
  status : ResultStatus.t;
  exitCode : option Z;
  inputDigests : list string;
  outputDigests : list string;
  outputDigest : string;
  stdoutDigest : string;
  stderrDigest : string;
}.
End NormalizedActionOutput.
Definition or_undefined `{ToJson A} (o : option A) : json :=
  match o with Some a => to_json a | None => JUndefined end.
#[export] Instance NormalizedActionOutput_to_json : ToJson NormalizedActionOutput.t := λ r, object
  [field "status" (r.(NormalizedActionOutput.status));
   [("exitCode", or_undefined (r.(NormalizedActionOutput.exitCode)))];
   field "inputDigests" (r.(NormalizedActionOutput.inputDigests));
   field "outputDigests" (r.(NormalizedActionOutput.outputDigests));
   field "outputDigest" (r.(NormalizedActionOutput.outputDigest));
   field "stdoutDigest" (r.(NormalizedActionOutput.stdoutDigest));
   field "stderrDigest" (r.(NormalizedActionOutput.stderrDigest))].

Module RunnerEnrollmentInput.
Record t := mk {
  id : string;
  provider : string;
  publicKey : string;
  platform : RunnerPlatform.t;
  capabilities : list string;
  networkDestinations : list string;
  networkEnforcement : RunnerNetworkEnforcement.t;
  networkBoundaryReceipt : string;
  secretUse : RunnerSecretUse.t;
  canUploadArtifacts : bool;
  canUploadEvidence : bool;
  approvedBy : ActorRef.t;
  enrollmentReceipt : string;
}.
End RunnerEnrollmentInput.

Module ExternalRunRequest.
Record t := mk {
  idempotencyKey : string;
  runId : option string;
  actionInput : NormalizedActionInput.t;
  runnerRequirements : list string;
  secretUseAliases : option (list string);
  outputLocations : RunnerOutputLocations.t;
  leaseExpiresAt : string;
}.
End ExternalRunRequest.

Module RunnerJobCredential.
Record t := mk {
  id : string;
  audience : string;
  jobId : string;
  attemptId : string;
  runnerId : string;
  expiresAt : string;
  token : string;
}.
End RunnerJobCredential.

Module RunnerJobOffer.
Record t := mk {
  job : RunnerJob.t;
  attempt : RunnerAttempt.t;
  challenge : string;
  receipt : string;
}.
End RunnerJobOffer.

Module RunnerJobLease.
Record t := mk {
  job : RunnerJob.t;
  attempt : RunnerAttempt.t;
  credential : RunnerJobCredential.t;
  receipt : string;
}.
End RunnerJobLease.

(** [runId] and [attemptId] have type [never], which a caller outside the type
    system may not respect; the code checks them. *)
Module RunnerOutputInput.
Record t := mk {
  id : option string;
  kind : RunnerOutputKind.t;
  runId : option string;
  attemptId : option string;
  location : string;
  outputPath : option string;
  digest : string;
  disclosure : DisclosurePolicyRef.t;
  receipt : string;
}.
End RunnerOutputInput.
#[export] Instance RunnerOutputInput_to_json : ToJson RunnerOutputInput.t := λ r, object
  [opt_field "id" (r.(RunnerOutputInput.id));
   field "kind" (r.(RunnerOutputInput.kind));
   opt_field "runId" (r.(RunnerOutputInput.runId));
   opt_field "attemptId" (r.(RunnerOutputInput.attemptId));
   field "location" (r.(RunnerOutputInput.location));
   opt_field "outputPath" (r.(RunnerOutputInput.outputPath));
   field "digest" (r.(RunnerOutputInput.digest));
   field "disclosure" (r.(RunnerOutputInput.disclosure));
   field "receipt" (r.(RunnerOutputInput.receipt))].

Module RunnerResultContext.
Record t := mk {
  replayId : string;
  jobId : string;
  attemptId : string;
  runnerId : string;
  leaseExpiresAt : string;
  inputManifestDigest : string;
  sourceSpaceSnapshots : omap string;
  actionId : string;
  actionContractDigest : string;
  artifactOutputContract : option ActionArtifactOutputContract.t;
  verifierId : option string;
  verifierContractDigest : option string;
  projectRevisionId : string;
  projectViewId : string;
  changeRevisionId : option string;
  workspaceId : option string;
  policyVersion : string;
  authorizationEpoch : string;
  capabilityGrantId : string;
  networkEnforcement : RunnerNetworkEnforcement.t;
  networkBoundaryReceipt : string;
}.
End RunnerResultContext.
#[export] Instance RunnerResultContext_to_json : ToJson RunnerResultContext.t := λ r, object
  [field "protocol" "anyam.runner-result-context/v1";
   field "replayId" (r.(RunnerResultContext.replayId));
   field "jobId" (r.(RunnerResultContext.jobId));
   field "attemptId" (r.(RunnerResultContext.attemptId));
   field "runnerId" (r.(RunnerResultContext.runnerId));
   field "leaseExpiresAt" (r.(RunnerResultContext.leaseExpiresAt));
   field "inputManifestDigest" (r.(RunnerResultContext.inputManifestDigest));
   field "sourceSpaceSnapshots" (r.(RunnerResultContext.sourceSpaceSnapshots));
   field "actionId" (r.(RunnerResultContext.actionId));
   field "actionContractDigest" (r.(RunnerResultContext.actionContractDigest));
   opt_field "artifactOutputContract" (r.(RunnerResultContext.artifactOutputContract));
   opt_field "verifierId" (r.(RunnerResultContext.verifierId));
   opt_field "verifierContractDigest" (r.(RunnerResultContext.verifierContractDigest));
   field "projectRevisionId" (r.(RunnerResultContext.projectRevisionId));
   field "projectViewId" (r.(RunnerResultContext.projectViewId));
   opt_field "changeRevisionId" (r.(RunnerResultContext.changeRevisionId));
   opt_field "workspaceId" (r.(RunnerResultContext.workspaceId));
   field "policyVersion" (r.(RunnerResultContext.policyVersion));
   field "authorizationEpoch" (r.(RunnerResultContext.authorizationEpoch));
   field "capabilityGrantId" (r.(RunnerResultContext.capabilityGrantId));
   field "networkEnforcement" (r.(RunnerResultContext.networkEnforcement));
   field "networkBoundaryReceipt" (r.(RunnerResultContext.networkBoundaryReceipt))].

Module RunnerResult.
Record t := mk {
  status : ResultStatus.t;
  output : NormalizedActionOutput.t;
  outputs : list RunnerOutputInput.t;
  context : RunnerResultContext.t;
  recoveryAction : option string;
  signature : string;
}.
End RunnerResult.
#[export] Instance RunnerResult_to_json : ToJson RunnerResult.t := λ r, object
  [field "status" (r.(RunnerResult.status));
   field "output" (r.(RunnerResult.output));
   field "outputs" (r.(RunnerResult.outputs));
   field "context" (r.(RunnerResult.context));
   opt_field "recoveryAction" (r.(RunnerResult.recoveryAction));
   field "signature" (r.(RunnerResult.signature))].

Module RunnerCompletion.
Record t := mk {
  job : RunnerJob.t;
  attempt : RunnerAttempt.t;
  run : Run.t;
  outputs : list RunnerOutputReference.t;
  resultDigest : string;
  receipt : string;
}.
End RunnerCompletion.
Module SignedRunnerCompletion.
Record t := mk {
  completion : RunnerCompletion.t;
  result : RunnerResult.t;
  runnerProfile : RunnerProfile.t;
}.
End SignedRunnerCompletion.

Module RunnerCancellationOutcome.
Inductive t := stopped | forced | unknown.
#[global] Instance t_eq_dec : EqDecision t.
Proof. solve_decision. Defined.
Definition show (x : t) : string :=
  match x with stopped => "stopped" | forced => "forced" | unknown => "unknown" end.
End RunnerCancellationOutcome.
#[export] Instance RunnerCancellationOutcome_to_json : ToJson RunnerCancellationOutcome.t :=
  λ x, JStr (RunnerCancellationOutcome.show x).

Module RunnerErrorCode.
Inductive t :=
| invalid_input | runner_exists | runner_not_found | runner_not_eligible | runner_proof_invalid
| runner_state | job_not_found | job_idempotency_conflict | job_state | attempt_not_found
| attempt_mismatch | lease_invalid | lease_expired | lease_not_expired | credential_invalid
| result_signature_invalid | result_replay | result_input_mismatch | result_output_invalid
| result_output_scope | cancellation_invalid | retry_invalid.
#[global] Instance t_eq_dec : EqDecision t.
Proof. solve_decision. Defined.
End RunnerErrorCode.

(** A [RunnerError], or an error of the Artifact output declaration that no
    handler translates (the copies of a stored record parse it again). *)
Inductive failure :=
| runner_error (code : RunnerErrorCode.t) (affectedObject : string)
| output_error (reason : ArtifactOutputReason.t).

Module CredentialStatus.
Inductive t := active | revoked.
#[global] Instance t_eq_dec : EqDecision t.
Proof. solve_decision. Defined.
End CredentialStatus.

Module StoredCredential.
Record t := mk {
  id : string;
  digest : string;
  jobId : string;
  attemptId : string;
  runnerId : string;
  expiresAt : string;
  status : CredentialStatus.t;
}.
#[global] Instance eta : Eta t := fun r =>
  mk (id r) (digest r) (jobId r) (attemptId r) (runnerId r) (expiresAt r) (status r).
End StoredCredential.

Module StoredJob.
Record t := mk { job : RunnerJob.t; run : Run.t; requestDigest : string }.
#[global] Instance eta : Eta t := fun r => mk (job r) (run r) (requestDigest r).
End StoredJob.

Module Coordinator.
Record t := mk {
  realmId : string;
  projectId : string;
  runners : omap RunnerProfile.t;
  jobs : omap StoredJob.t;
  attempts : omap RunnerAttempt.t;
  offers : omap string;
  credentials : omap StoredCredential.t;
  outputs : omap (list RunnerOutputReference.t);
  idempotency : omap string;
  retryIdempotency : omap string;
  events : list RunnerEvent.t;
}.
#[global] Instance eta : Eta t := fun r =>
  mk (realmId r) (projectId r) (runners r) (jobs r) (attempts r) (offers r) (credentials r)
    (outputs r) (idempotency r) (retryIdempotency r) (events r).
End Coordinator.

(** * Helpers *)

Definition disclosureRank (value : DisclosureClassification.t) : Z :=
  match value with
  | DisclosureClassification.public => 0
  | DisclosureClassification.project => 1
  | _ => 2
  end.
Definition disclosureAllows (outer inner : DisclosureClassification.t) : bool :=
  (disclosureRank inner <=? disclosureRank outer)%Z.

Definition arrayEqual (left right : list string) : bool := bool_decide (left = right).

Definition pathFromDigest (value : string) : option string :=
  match split_last "=" value with
  | Some (path, _) => truthy_opt (Some path)
  | None => None
  end.

(** [root.replace(/\/$/, "")]. *)
Definition strip_slash (root : string) : string :=
  match split_last char_slash root with
  | Some (path, EmptyString) => path
  | _ => root
  end.
Definition locationWithin (location root : string) : bool :=
  String.eqb location root || starts_with (cat [strip_slash root; "/"]) location.

(** [/^[A-Za-z]:\//]. *)
Definition drive_prefix (s : string) : bool :=
  match s with
  | String a (String b (String c _)) =>
      let n := code a in
      (((65 <=? n) && (n <=? 90) || (97 <=? n) && (n <=? 122))%N)
      && Ascii.eqb b ":" && Ascii.eqb c char_slash
  | _ => false
  end.

Definition unsafe_location (normalized : string) : bool :=
  starts_with "/" normalized || drive_prefix normalized
  || existsb (fun segment => String.eqb segment ".." || String.eqb segment ".")
       (split char_slash normalized)
  || String.eqb normalized "".

Definition terminal (state : RunnerJobState.t) : bool :=
  match state with
  | RunnerJobState.succeeded | RunnerJobState.failed | RunnerJobState.indeterminate
  | RunnerJobState.cancelled | RunnerJobState.expired | RunnerJobState.quarantined => true
  | _ => false
  end.
Definition retryable (state : RunnerJobState.t) : bool :=
  terminal state && negb (bool_decide (state = RunnerJobState.succeeded)).
Definition held (state : RunnerJobState.t) : bool :=
  match state with
  | RunnerJobState.offered | RunnerJobState.claimed | RunnerJobState.running
  | RunnerJobState.cancel_requested => true
  | _ => false
  end.

Definition claimMessage (challenge : string) : string :=
  cat ["anyam.runner-claim/v1|"; challenge].

Definition runnerResultMessage (context : RunnerResultContext.t) (status : ResultStatus.t)
    (output : NormalizedActionOutput.t) (outputs : list RunnerOutputInput.t)
    (recoveryAction : option string) : string :=
  cat ["anyam.runner-result/v1|"; stableJson (object
    [field "context" context;
     field "status" status;
     field "output" output;
     field "outputs" outputs;
     [("recoveryAction", or_undefined recoveryAction)]])].

Section helpers.
Context `{HH : Host} `{RH : RunnerHost}.

(** [Date.parse(a) <= Date.parse(b)], false when either is not a date. *)
Definition date_le (a b : string) : bool :=
  match Date_parse a, Date_parse b with
  | Some x, Some y => (x <=? y)%Z
  | _, _ => false
  end.
Definition date_gt (a b : string) : bool :=
  match Date_parse a, Date_parse b with
  | Some x, Some y => (y <? x)%Z
  | _, _ => false
  end.

Definition verifyPublicKey (publicKey : string) : bool :=
  bool_decide (is_Some (createPublicKey publicKey)).
Definition verifyProof (publicKey message signature : string) : bool :=
  match createPublicKey publicKey with
  | Some key => default false (verify_signature key message signature)
  | None => false
  end.
Definition credentialDigest (token : string) : string := digest_text token.

Definition runnerInputManifestDigest (actionInput : NormalizedActionInput.t)
    (runnerRequirements secretUseAliases : list string)
    (outputLocations : RunnerOutputLocations.t) : string :=
  digest (object
    [field "actionInput" actionInput;
     field "runnerRequirements" runnerRequirements;
     field "secretUseAliases" secretUseAliases;
     field "outputLocations" outputLocations]).

Context {S : Type}.
#[local] Abbreviation P := (M S failure).

Definition nonEmpty (value field : string) : P () :=
  throw_if (blank value) (runner_error RunnerErrorCode.invalid_input field).
Definition unique (values : list string) (field : string) : P (list string) :=
  throw_if (has_duplicates values) (runner_error RunnerErrorCode.invalid_input field);;
  mret values.
Definition futureTimestamp (value now field : string) : P () :=
  throw_if (match Date_parse value with Some _ => false | None => true end || date_le value now)
    (runner_error RunnerErrorCode.invalid_input field).

Definition safeLocation (value field : string) (code : RunnerErrorCode.t) : P string :=
  nonEmpty value field;;
  let normalized := strip_trailing char_slash (replace_char char_backslash char_slash value) in
  throw_if (unsafe_location normalized) (runner_error code field);;
  mret normalized.
Definition normalizeOutputLocations (input : RunnerOutputLocations.t) : P RunnerOutputLocations.t :=
  logs ← safeLocation (RunnerOutputLocations.logs input) "outputLocations.logs"
           RunnerErrorCode.invalid_input;
  artifacts ← safeLocation (RunnerOutputLocations.artifacts input) "outputLocations.artifacts"
           RunnerErrorCode.invalid_input;
  evidence ← safeLocation (RunnerOutputLocations.evidence input) "outputLocations.evidence"
           RunnerErrorCode.invalid_input;
  mret (RunnerOutputLocations.mk logs artifacts evidence).

(** A draw of entropy: the next number of the host's sequence of draws. *)
Definition random (size : nat) : P string := fun w s =>
  (Ok (randomBytes size (uuids_drawn w)), mkWorld (1 + uuids_drawn w) (clock_reads w), s).

Definition copy_contract (contract : option ActionArtifactOutputContract.t)
    (declaredPaths : option (list string)) : P (option ActionArtifactOutputContract.t) :=
  match contract with
  | None => mret None
  | Some c =>
      c ← lift_err output_error (parseActionArtifactOutputContract (to_json c) declaredPaths);
      mret (Some c)
  end.
Definition copyJob (job : RunnerJob.t) : P RunnerJob.t :=
  c ← copy_contract (RunnerJob.artifactOutputContract job) (Some (RunnerJob.outputPaths job));
  mret (job <| RunnerJob.artifactOutputContract := c |>).
Definition copyRun (run : Run.t) : P Run.t :=
  c ← copy_contract (Run.artifactOutputContract run) None;
  mret (run <| Run.artifactOutputContract := c |>).

(** The claims of a context, for a Job whose network boundary is known. *)
Definition runnerResultContextClaims (job : RunnerJob.t) (attempt : RunnerAttempt.t)
    (networkEnforcement : RunnerNetworkEnforcement.t) (networkBoundaryReceipt : string) :
    P RunnerResultContext.t :=
  c ← copy_contract (RunnerJob.artifactOutputContract job) (Some (RunnerJob.outputPaths job));
  mret {|
    RunnerResultContext.replayId :=
      cat [RunnerJob.id job; ":"; RunnerAttempt.id attempt];
    RunnerResultContext.jobId := RunnerJob.id job;
    RunnerResultContext.attemptId := RunnerAttempt.id attempt;
    RunnerResultContext.runnerId :=
      match RunnerAttempt.runnerId attempt with
      | Some r => r
      | None => default "runner:unassigned" (RunnerJob.currentRunnerId job)
      end;
    RunnerResultContext.leaseExpiresAt := RunnerAttempt.leaseExpiresAt attempt;
    RunnerResultContext.inputManifestDigest := RunnerJob.inputManifestDigest job;
    RunnerResultContext.sourceSpaceSnapshots := RunnerJob.sourceSpaceSnapshots job;
    RunnerResultContext.actionId := RunnerJob.actionId job;
    RunnerResultContext.actionContractDigest := RunnerJob.actionContractDigest job;
    RunnerResultContext.artifactOutputContract := c;
    RunnerResultContext.verifierId := truthy_opt (RunnerJob.verifierId job);
    RunnerResultContext.verifierContractDigest :=
      truthy_opt (RunnerJob.verifierContractDigest job);
    RunnerResultContext.projectRevisionId := RunnerJob.projectRevisionId job;
    RunnerResultContext.projectViewId := RunnerJob.projectViewId job;
    RunnerResultContext.changeRevisionId := truthy_opt (RunnerJob.changeRevisionId job);
    RunnerResultContext.workspaceId := truthy_opt (RunnerJob.workspaceId job);
    RunnerResultContext.policyVersion := RunnerJob.policyVersion job;
    RunnerResultContext.authorizationEpoch := RunnerJob.authorizationEpoch job;
    RunnerResultContext.capabilityGrantId := RunnerJob.capabilityGrantId job;
    RunnerResultContext.networkEnforcement := networkEnforcement;
    RunnerResultContext.networkBoundaryReceipt := networkBoundaryReceipt;
  |}.
(** The context a Result must echo. *)
Definition runnerResultContext (job : RunnerJob.t) (attempt : RunnerAttempt.t) :
    P RunnerResultContext.t :=
  match RunnerJob.networkEnforcement job, truthy_opt (RunnerJob.networkBoundaryReceipt job) with
  | Some networkEnforcement, Some networkBoundaryReceipt =>
      runnerResultContextClaims job attempt networkEnforcement networkBoundaryReceipt
  | _, _ => throw (runner_error RunnerErrorCode.result_input_mismatch (RunnerJob.id job))
  end.
End helpers.

(** * The coordinator *)

(** The initial state; the constructor checks the two ids first. *)
Definition initial (realmId projectId : string) : Coordinator.t :=
  Coordinator.mk realmId projectId [] [] [] [] [] [] [] [] [].

(** The digested part of a profile. *)
Definition profile_json (r : RunnerProfile.t) : json := object
  [field "id" (RunnerProfile.id r);
   field "realmId" (RunnerProfile.realmId r);
   field "provider" (RunnerProfile.provider r);
   field "publicKey" (RunnerProfile.publicKey r);
   field "platform" (RunnerProfile.platform r);
   field "capabilities" (RunnerProfile.capabilities r);
   field "networkDestinations" (RunnerProfile.networkDestinations r);
   field "networkEnforcement" (RunnerProfile.networkEnforcement r);
   field "networkBoundaryReceipt" (RunnerProfile.networkBoundaryReceipt r);
   field "secretUse" (RunnerProfile.secretUse r);
   field "canUploadArtifacts" (RunnerProfile.canUploadArtifacts r);
   field "canUploadEvidence" (RunnerProfile.canUploadEvidence r);
   field "status" (RunnerProfile.status r);
   field "enrolledAt" (RunnerProfile.enrolledAt r);
   field "updatedAt" (RunnerProfile.updatedAt r);
   field "receipt" (RunnerProfile.receipt r)].

Section coordinator.
Context `{HH : Host} `{RH : RunnerHost}.
#[local] Abbreviation P := (M Coordinator.t failure).

Definition construct (realmId projectId : string) : P () :=
  nonEmpty realmId "realmId";;
  nonEmpty projectId "projectId";;
  modify (fun _ => initial realmId projectId).

(** ** Records *)

Definition requireRunner (runnerId : string) : P RunnerProfile.t :=
  runner ← gets (fun s => omap_get runnerId (Coordinator.runners s));
  require runner (runner_error RunnerErrorCode.runner_not_found runnerId).
Definition requireJob (jobId : string) : P StoredJob.t :=
  stored ← gets (fun s => omap_get jobId (Coordinator.jobs s));
  require stored (runner_error RunnerErrorCode.job_not_found jobId).
Definition requireAttempt (attemptId : string) : P RunnerAttempt.t :=
  attempt ← gets (fun s => omap_get attemptId (Coordinator.attempts s));
  require attempt (runner_error RunnerErrorCode.attempt_not_found attemptId).

(** Assignments to the fields of a stored object. *)
Definition set_runner (r : RunnerProfile.t) : P () :=
  modify (fun s => s <| Coordinator.runners :=
    omap_set (RunnerProfile.id r) r (Coordinator.runners s) |>).
Definition set_job (stored : StoredJob.t) : P () :=
  modify (fun s => s <| Coordinator.jobs :=
    omap_set (RunnerJob.id (StoredJob.job stored)) stored (Coordinator.jobs s) |>).
Definition set_attempt (a : RunnerAttempt.t) : P () :=
  modify (fun s => s <| Coordinator.attempts :=
    omap_set (RunnerAttempt.id a) a (Coordinator.attempts s) |>).

Definition emit (type : string) (runnerId jobId attemptId runId : option string)
    (actor : option ActorRef.t) (from to : option RunnerJobState.t) (receipt : string) : P () :=
  eventId ← opaqueId "runner-event";
  occurredAt ← now;
  modify (fun s => s <| Coordinator.events := Coordinator.events s ++ [{|
    RunnerEvent.id := eventId;
    RunnerEvent.sequence := Z.of_nat (length (Coordinator.events s)) + 1;
    RunnerEvent.type := type;
    RunnerEvent.runnerId := truthy_opt runnerId;
    RunnerEvent.jobId := truthy_opt jobId;
    RunnerEvent.attemptId := truthy_opt attemptId;
    RunnerEvent.runId := truthy_opt runId;
    RunnerEvent.actor := actor;
    RunnerEvent.from := from;
    RunnerEvent.to := to;
    RunnerEvent.occurredAt := occurredAt;
    RunnerEvent.receipt := receipt;
  |}] |>).

Definition revoke_if (attemptId : string) (c : StoredCredential.t) : StoredCredential.t :=
  if String.eqb (StoredCredential.attemptId c) attemptId
  then c <| StoredCredential.status := CredentialStatus.revoked |> else c.
Definition revokeAttemptCredentials (attemptId : string) : P () :=
  modify (fun s => s <| Coordinator.credentials :=
    (fun p => (p.1, revoke_if attemptId p.2)) <$> Coordinator.credentials s |>).

(** ** Runners *)

Definition enrollRunner (input : RunnerEnrollmentInput.t) : P RunnerProfile.t :=
  let id := RunnerEnrollmentInput.id input in
  let enforcement := RunnerEnrollmentInput.networkEnforcement input in
  let boundary := RunnerEnrollmentInput.networkBoundaryReceipt input in
  let invalid := runner_error RunnerErrorCode.invalid_input id in
  nonEmpty id "runner.id";;
  nonEmpty (RunnerEnrollmentInput.provider input) "runner.provider";;
  nonEmpty (RunnerEnrollmentInput.publicKey input) "runner.publicKey";;
  nonEmpty (RunnerEnrollmentInput.enrollmentReceipt input) "runner.enrollmentReceipt";;
  throw_if (negb (verifyPublicKey (RunnerEnrollmentInput.publicKey input))) invalid;;
  exists_ ← gets (fun s => omap_has id (Coordinator.runners s));
  throw_if exists_ (runner_error RunnerErrorCode.runner_exists id);;
  capabilities ← unique (RunnerEnrollmentInput.capabilities input) "runner.capabilities";
  networkDestinations ← unique (RunnerEnrollmentInput.networkDestinations input)
    "runner.networkDestinations";
  throw_if (negb (truthy boundary)
            || negb (includes (cat ["networkEnforcement="; RunnerNetworkEnforcement.show enforcement])
                       boundary)) invalid;;
  throw_if ((length networkDestinations =? 0)%nat
            && negb (bool_decide (enforcement = RunnerNetworkEnforcement.deny_all))) invalid;;
  throw_if ((0 <? length networkDestinations)%nat
            && bool_decide (enforcement = RunnerNetworkEnforcement.deny_all)) invalid;;
  enrolledAt ← now;
  realmId ← gets Coordinator.realmId;
  let profile := {|
    RunnerProfile.id := id;
    RunnerProfile.realmId := realmId;
    RunnerProfile.provider := RunnerEnrollmentInput.provider input;
    RunnerProfile.publicKey := RunnerEnrollmentInput.publicKey input;
    RunnerProfile.platform := RunnerEnrollmentInput.platform input;
    RunnerProfile.capabilities := capabilities;
    RunnerProfile.networkDestinations := networkDestinations;
    RunnerProfile.networkEnforcement := enforcement;
    RunnerProfile.networkBoundaryReceipt := boundary;
    RunnerProfile.secretUse := RunnerEnrollmentInput.secretUse input;
    RunnerProfile.canUploadArtifacts := RunnerEnrollmentInput.canUploadArtifacts input;
    RunnerProfile.canUploadEvidence := RunnerEnrollmentInput.canUploadEvidence input;
    RunnerProfile.status := RunnerStatus.enrolled;
    RunnerProfile.profileDigest := "";
    RunnerProfile.enrolledAt := enrolledAt;
    RunnerProfile.updatedAt := enrolledAt;
    RunnerProfile.receipt :=
      cat ["runner="; id; "; enrolled=true; approvedBy=";
           ActorRef.actorId (RunnerEnrollmentInput.approvedBy input); "; ";
           RunnerEnrollmentInput.enrollmentReceipt input];
  |} in
  let profile := profile <| RunnerProfile.profileDigest := digest (profile_json profile) |> in
  set_runner profile;;
  emit "runner.enrolled" (Some id) None None None
    (Some (RunnerEnrollmentInput.approvedBy input)) None None (RunnerProfile.receipt profile);;
  mret profile.

(** [runner.status = ...; runner.updatedAt = ...; runner.receipt = ...] and the
    event of it, shared by the four changes of a Runner's state. *)
Definition move_runner (runner : RunnerProfile.t) (status : RunnerStatus.t)
    (type receipt : string) (actor : ActorRef.t) : P RunnerProfile.t :=
  updatedAt ← now;
  let runner := runner <| RunnerProfile.status := status |>
                       <| RunnerProfile.updatedAt := updatedAt |>
                       <| RunnerProfile.receipt := receipt |> in
  set_runner runner;;
  emit type (Some (RunnerProfile.id runner)) None None None (Some actor) None None receipt;;
  mret runner.

Definition activateRunner (runnerId : string) (actor : ActorRef.t) : P RunnerProfile.t :=
  runner ← requireRunner runnerId;
  throw_if (negb (bool_decide (RunnerProfile.status runner = RunnerStatus.enrolled))
            && negb (bool_decide (RunnerProfile.status runner = RunnerStatus.unavailable)))
    (runner_error RunnerErrorCode.runner_state (RunnerProfile.id runner));;
  move_runner runner RunnerStatus.active "runner.activated"
    (cat ["runner="; RunnerProfile.id runner; "; state=active; actor="; ActorRef.actorId actor]) actor.

Definition disableRunner (runnerId : string) (actor : ActorRef.t) (reason : string) :
    P RunnerProfile.t :=
  nonEmpty reason "reason";;
  runner ← requireRunner runnerId;
  move_runner runner RunnerStatus.disabled "runner.disabled"
    (cat ["runner="; RunnerProfile.id runner; "; state=disabled; reason="; reason]) actor.

(** One Job held by a Runner that is lost: its Attempt ends in [state]. *)
Definition end_held (runner : RunnerProfile.t) (state : RunnerJobState.t)
    (recoveryAction attemptText jobText : string) (jobId : string) : P () :=
  stored ← requireJob jobId;
  let job := StoredJob.job stored in
  if negb (bool_decide (RunnerJob.currentRunnerId job = Some (RunnerProfile.id runner)))
     || negb (held (RunnerJob.state job))
  then mret ()
  else
    attempt ← requireAttempt (RunnerJob.currentAttemptId job);
    let previousJobState := RunnerJob.state job in
    revokeAttemptCredentials (RunnerAttempt.id attempt);;
    completedAt ← now;
    set_attempt (attempt
      <| RunnerAttempt.state := state |>
      <| RunnerAttempt.completedAt := Some completedAt |>
      <| RunnerAttempt.recoveryAction := Some recoveryAction |>
      <| RunnerAttempt.receipt :=
           cat ["runnerAttempt="; RunnerJobState.show state; "; attempt="; RunnerAttempt.id attempt;
                "; runner="; RunnerProfile.id runner; "; "; attemptText] |>);;
    updatedAt ← now;
    let receipt := cat ["runnerJob="; RunnerJobState.show state; "; job="; RunnerJob.id job;
                        "; runner="; RunnerProfile.id runner; "; "; jobText] in
    set_job (stored
      <| StoredJob.job := job
           <| RunnerJob.state := state |>
           <| RunnerJob.updatedAt := updatedAt |>
           <| RunnerJob.recoveryAction := Some recoveryAction |>
           <| RunnerJob.receipt := receipt |> |>
      <| StoredJob.run := StoredJob.run stored <| Run.status := RunStatus.indeterminate |> |>);;
    emit (cat ["runner.job."; RunnerJobState.show state]) (Some (RunnerProfile.id runner))
      (Some (RunnerJob.id job)) (Some (RunnerAttempt.id attempt))
      (Some (Run.id (StoredJob.run stored))) None (Some previousJobState) (Some state) receipt.

Definition markRunnerUnavailable (runnerId : string) (actor : ActorRef.t) (reason : string) :
    P RunnerProfile.t :=
  nonEmpty reason "reason";;
  runner ← requireRunner runnerId;
  runner ← move_runner runner RunnerStatus.unavailable "runner.unavailable"
    (cat ["runner="; RunnerProfile.id runner; "; state=unavailable; reason="; reason]) actor;
  jobs ← gets (fun s => omap_keys (Coordinator.jobs s));
  for_each jobs (end_held runner RunnerJobState.indeterminate
    "restore or replace the unavailable Runner, reconcile provider state, then retry from a fresh Attempt"
    (cat ["provider=unavailable; reason="; reason]) "provider=unavailable");;
  mret runner.

Definition quarantineRunner (runnerId : string) (actor : ActorRef.t) (reason : string) :
    P RunnerProfile.t :=
  nonEmpty reason "reason";;
  runner ← requireRunner runnerId;
  runner ← move_runner runner RunnerStatus.quarantined "runner.quarantined"
    (cat ["runner="; RunnerProfile.id runner; "; state=quarantined; reason="; reason]) actor;
  jobs ← gets (fun s => omap_keys (Coordinator.jobs s));
  for_each jobs (end_held runner RunnerJobState.quarantined
    "preserve the Attempt as quarantined, rotate Runner credentials, inspect cleanup, and retry only with a qualified Runner"
    (cat ["reason="; reason]) (cat ["reason="; reason]));;
  mret runner.

(** ** Jobs *)

(** The three records [enqueue] creates. *)
Definition new_run (input : NormalizedActionInput.t)
    (contract : option ActionArtifactOutputContract.t) (runId attemptId : string) : Run.t := {|
  Run.id := runId;
  Run.actionId := Action.id (NormalizedActionInput.action input);
  Run.projectRevisionId := NormalizedActionInput.projectRevisionId input;
  Run.projectViewId := NormalizedActionInput.projectViewId input;
  Run.runnerId := "runner:unassigned";
  Run.attemptId := Some attemptId;
  Run.verifierId := Verifier.id <$> NormalizedActionInput.verifier input;
  Run.actionContractDigest := Some (Action.contractDigest (NormalizedActionInput.action input));
  Run.artifactOutputContract := contract;
  Run.verifierContractDigest := Verifier.contractDigest <$> NormalizedActionInput.verifier input;
  Run.status := RunStatus.queued;
  Run.outputDigest := None;
  Run.changeRevisionId := truthy_opt (NormalizedActionInput.changeRevisionId input);
  Run.workspaceId := truthy_opt (NormalizedActionInput.workspaceId input);
  Run.inputDigests := Some (NormalizedActionInput.inputDigests input);
  Run.outputDigests := None;
  Run.effectDigests := Some (NormalizedActionInput.effectDigests input);
  Run.dependencyDigest := Some (NormalizedActionInput.dependencyDigest input);
  Run.toolchainDigest := Some (NormalizedActionInput.toolchainDigest input);
  Run.environmentDigest := Some (NormalizedActionInput.environmentDigest input);
  Run.policyVersion := Some (NormalizedActionInput.policyVersion input);
  Run.targetId := truthy_opt (NormalizedActionInput.targetId input);
  Run.actor := Some (NormalizedActionInput.actor input);
  Run.capabilityGrantId := Some (NormalizedActionInput.capabilityGrantId input);
  Run.exitCode := None;
  Run.stdoutDigest := None;
  Run.stderrDigest := None;
|}.
Definition new_job (projectId : string) (request : ExternalRunRequest.t)
    (contract : option ActionArtifactOutputContract.t) (secretUseAliases : list string)
    (outputLocations : RunnerOutputLocations.t) (requestDigest : string)
    (jobId runId attemptId createdAt : string) : RunnerJob.t :=
  let input := ExternalRunRequest.actionInput request in
  let action := NormalizedActionInput.action input in {|
  RunnerJob.id := jobId;
  RunnerJob.projectId := projectId;
  RunnerJob.runId := runId;
  RunnerJob.actionId := Action.id action;
  RunnerJob.actionContractDigest := Action.contractDigest action;
  RunnerJob.verifierId := Verifier.id <$> NormalizedActionInput.verifier input;
  RunnerJob.verifierContractDigest := Verifier.contractDigest <$> NormalizedActionInput.verifier input;
  RunnerJob.projectRevisionId := NormalizedActionInput.projectRevisionId input;
  RunnerJob.projectViewId := NormalizedActionInput.projectViewId input;
  RunnerJob.sourceSpaceSnapshots := NormalizedActionInput.sourceSpaceSnapshots input;
  RunnerJob.changeRevisionId := truthy_opt (NormalizedActionInput.changeRevisionId input);
  RunnerJob.workspaceId := truthy_opt (NormalizedActionInput.workspaceId input);
  RunnerJob.targetId := truthy_opt (NormalizedActionInput.targetId input);
  RunnerJob.inputManifestDigest := requestDigest;
  RunnerJob.inputDigests := NormalizedActionInput.inputDigests input;
  RunnerJob.outputPaths := Action.outputPaths action;
  RunnerJob.artifactOutputContract := contract;
  RunnerJob.effectDigests := NormalizedActionInput.effectDigests input;
  RunnerJob.dependencyDigest := NormalizedActionInput.dependencyDigest input;
  RunnerJob.toolchainDigest := NormalizedActionInput.toolchainDigest input;
  RunnerJob.environmentDigest := NormalizedActionInput.environmentDigest input;
  RunnerJob.policyVersion := NormalizedActionInput.policyVersion input;
  RunnerJob.authorizationEpoch := NormalizedActionInput.authorizationEpoch input;
  RunnerJob.capabilityGrantId := NormalizedActionInput.capabilityGrantId input;
  RunnerJob.actor := NormalizedActionInput.actor input;
  RunnerJob.disclosure := NormalizedActionInput.disclosure input;
  RunnerJob.runnerRequirements := ExternalRunRequest.runnerRequirements request;
  RunnerJob.networkDestinations := Action.network action;
  RunnerJob.networkEnforcement := None;
  RunnerJob.networkBoundaryReceipt := None;
  RunnerJob.secretUseAliases := secretUseAliases;
  RunnerJob.outputLocations := outputLocations;
  RunnerJob.state := RunnerJobState.queued;
  RunnerJob.idempotencyKey := ExternalRunRequest.idempotencyKey request;
  RunnerJob.attemptIds := [attemptId];
  RunnerJob.currentAttemptId := attemptId;
  RunnerJob.currentRunnerId := None;
  RunnerJob.createdAt := createdAt;
  RunnerJob.updatedAt := createdAt;
  RunnerJob.recoveryAction := None;
  RunnerJob.receipt :=
    cat ["runnerJob=queued; job="; jobId; "; run="; runId; "; inputManifest="; requestDigest;
         "; canonicalWrite=false"];
|}.
Definition new_attempt (attemptId jobId runId leaseExpiresAt : string)
    (recoveryAction : option string) (receipt : string) : RunnerAttempt.t := {|
  RunnerAttempt.id := attemptId;
  RunnerAttempt.jobId := jobId;
  RunnerAttempt.runId := runId;
  RunnerAttempt.runnerId := None;
  RunnerAttempt.state := RunnerJobState.queued;
  RunnerAttempt.leaseExpiresAt := leaseExpiresAt;
  RunnerAttempt.challengeDigest := None;
  RunnerAttempt.jobCredentialDigest := None;
  RunnerAttempt.claimedAt := None;
  RunnerAttempt.lastHeartbeatAt := None;
  RunnerAttempt.completedAt := None;
  RunnerAttempt.resultDigest := None;
  RunnerAttempt.recoveryAction := recoveryAction;
  RunnerAttempt.receipt := receipt;
|}.

(** [{ job: copyJob(job), run: copyRun(run), attempt: copyAttempt(attempt) }]. *)
Definition snapshot (stored : StoredJob.t) (attempt : RunnerAttempt.t) :
    P (RunnerJob.t * Run.t * RunnerAttempt.t) :=
  job ← copyJob (StoredJob.job stored);
  run ← copyRun (StoredJob.run stored);
  mret (job, run, attempt).
Definition current_snapshot (stored : StoredJob.t) : P (RunnerJob.t * Run.t * RunnerAttempt.t) :=
  job ← copyJob (StoredJob.job stored);
  run ← copyRun (StoredJob.run stored);
  attempt ← requireAttempt (RunnerJob.currentAttemptId (StoredJob.job stored));
  mret (job, run, attempt).

Definition declared_contract (action : Action.t) : P (option ActionArtifactOutputContract.t) :=
  match Action.artifactOutputContract action with
  | None => mret None
  | Some c =>
      c ← lift_err (fun _ => runner_error RunnerErrorCode.invalid_input (Action.id action))
        (parseActionArtifactOutputContract (to_json c) (Some (Action.outputPaths action)));
      mret (Some c)
  end.

Definition enqueue (request : ExternalRunRequest.t) : P (RunnerJob.t * Run.t * RunnerAttempt.t) :=
  let key := ExternalRunRequest.idempotencyKey request in
  let input := ExternalRunRequest.actionInput request in
  let action := NormalizedActionInput.action input in
  nonEmpty key "idempotencyKey";;
  existingId ← gets (fun s => omap_get key (Coordinator.idempotency s));
  secretUseAliases ← unique (default [] (ExternalRunRequest.secretUseAliases request))
    "secretUseAliases";
  outputLocations ← normalizeOutputLocations (ExternalRunRequest.outputLocations request);
  contract ← declared_contract action;
  let requestDigest := runnerInputManifestDigest input
    (ExternalRunRequest.runnerRequirements request) secretUseAliases outputLocations in
  match truthy_opt existingId with
  | Some existingId =>
      existing ← gets (fun s => omap_get existingId (Coordinator.jobs s));
      existing ← require existing (runner_error RunnerErrorCode.job_idempotency_conflict key);
      throw_if (negb (String.eqb (StoredJob.requestDigest existing) requestDigest))
        (runner_error RunnerErrorCode.job_idempotency_conflict key);;
      current_snapshot existing
  | None =>
      nonEmpty (NormalizedActionInput.projectRevisionId input) "actionInput.projectRevisionId";;
      nonEmpty (NormalizedActionInput.projectViewId input) "actionInput.projectViewId";;
      nonEmpty (NormalizedActionInput.capabilityGrantId input) "actionInput.capabilityGrantId";;
      nonEmpty (NormalizedActionInput.policyVersion input) "actionInput.policyVersion";;
      nonEmpty (NormalizedActionInput.authorizationEpoch input) "actionInput.authorizationEpoch";;
      checkedAt ← now;
      futureTimestamp (ExternalRunRequest.leaseExpiresAt request) checkedAt "leaseExpiresAt";;
      throw_if (existsb blank (Action.network action))
        (runner_error RunnerErrorCode.invalid_input (Action.id action));;
      unique (ExternalRunRequest.runnerRequirements request) "runnerRequirements";;
      runId ← match ExternalRunRequest.runId request with
              | Some runId => mret runId
              | None => opaqueId "run"
              end;
      nonEmpty runId "runId";;
      attemptId ← opaqueId "runner-attempt";
      jobId ← opaqueId "runner-job";
      createdAt ← now;
      projectId ← gets Coordinator.projectId;
      let run := new_run input contract runId attemptId in
      let job := new_job projectId request contract secretUseAliases outputLocations requestDigest
        jobId runId attemptId createdAt in
      let lease := ExternalRunRequest.leaseExpiresAt request in
      let attempt := new_attempt attemptId jobId runId lease None
        (cat ["runnerAttempt=queued; attempt="; attemptId; "; job="; jobId;
              "; leaseExpiresAt="; lease]) in
      let stored := StoredJob.mk job run requestDigest in
      set_job stored;;
      set_attempt attempt;;
      modify (fun s => s <| Coordinator.idempotency :=
        omap_set key jobId (Coordinator.idempotency s) |>);;
      emit "runner.job.queued" None (Some jobId) (Some attemptId) (Some runId)
        (Some (NormalizedActionInput.actor input)) None (Some RunnerJobState.queued)
        (RunnerJob.receipt job);;
      snapshot stored attempt
  end.

(** ** Leases *)

Definition runnerMatchesJob (runner : RunnerProfile.t) (job : RunnerJob.t) : bool :=
  let denied := bool_decide (RunnerProfile.networkEnforcement runner =
    RunnerNetworkEnforcement.deny_all) in
  let networked := (0 <? length (RunnerJob.networkDestinations job))%nat in
  bool_decide (RunnerProfile.status runner = RunnerStatus.active)
  && forallb (list_includes (RunnerProfile.capabilities runner)) (RunnerJob.runnerRequirements job)
  && forallb (list_includes (RunnerProfile.networkDestinations runner))
       (RunnerJob.networkDestinations job)
  && negb (negb networked && negb denied)
  && negb (networked && denied)
  && negb ((0 <? length (RunnerJob.secretUseAliases job))%nat
           && negb (bool_decide (RunnerProfile.secretUse runner = RunnerSecretUse.brokered)))
  && negb ((0 <? length (RunnerJob.outputPaths job))%nat
           && negb (RunnerProfile.canUploadArtifacts runner))
  && negb (match truthy_opt (RunnerJob.verifierId job) with Some _ => true | None => false end
           && negb (RunnerProfile.canUploadEvidence runner)).

(** The order of the queue. *)
Definition queue_order (left right : StoredJob.t) : comparison :=
  let left := StoredJob.job left in
  let right := StoredJob.job right in
  match localeCompare (RunnerJob.createdAt left) (RunnerJob.createdAt right) with
  | Eq => localeCompare (RunnerJob.id left) (RunnerJob.id right)
  | c => c
  end.
Definition offerable (runner : RunnerProfile.t) (stored : StoredJob.t) : bool :=
  bool_decide (RunnerJob.state (StoredJob.job stored) = RunnerJobState.queued)
  && runnerMatchesJob runner (StoredJob.job stored).
Definition candidate (runner : RunnerProfile.t) (jobs : omap StoredJob.t) : option StoredJob.t :=
  head (sort_by queue_order
    (base.filter (fun stored => offerable runner stored = true) (omap_values jobs))).

Definition pull (runnerId : string) : P (option RunnerJobOffer.t) :=
  runner ← requireRunner runnerId;
  throw_if (negb (bool_decide (RunnerProfile.status runner = RunnerStatus.active)))
    (runner_error RunnerErrorCode.runner_not_eligible (RunnerProfile.id runner));;
  found ← gets (fun s => candidate runner (Coordinator.jobs s));
  match found with
  | None => mret None
  | Some stored =>
      let job := StoredJob.job stored in
      attempt ← requireAttempt (RunnerJob.currentAttemptId job);
      if negb (bool_decide (RunnerAttempt.state attempt = RunnerJobState.queued)) then mret None
      else
        bytes ← random 24;
        let challenge := base64Url bytes in
        let attemptId := RunnerAttempt.id attempt in
        modify (fun s => s <| Coordinator.offers :=
          omap_set attemptId challenge (Coordinator.offers s) |>);;
        updatedAt ← now;
        let challengeDigest := digest_text challenge in
        let attempt := attempt
          <| RunnerAttempt.challengeDigest := Some challengeDigest |>
          <| RunnerAttempt.state := RunnerJobState.offered |>
          <| RunnerAttempt.receipt :=
               cat ["runnerAttempt=offered; attempt="; attemptId; "; runner=";
                    RunnerProfile.id runner; "; challengeDigest="; challengeDigest] |> in
        let job := job
          <| RunnerJob.state := RunnerJobState.offered |>
          <| RunnerJob.currentRunnerId := Some (RunnerProfile.id runner) |>
          <| RunnerJob.updatedAt := updatedAt |>
          <| RunnerJob.receipt :=
               cat ["runnerJob=offered; job="; RunnerJob.id job; "; runner=";
                    RunnerProfile.id runner; "; attempt="; attemptId] |> in
        set_attempt attempt;;
        set_job (stored <| StoredJob.job := job |>);;
        emit "runner.job.offered" (Some (RunnerProfile.id runner)) (Some (RunnerJob.id job))
          (Some attemptId) (Some (Run.id (StoredJob.run stored))) None None
          (Some RunnerJobState.offered) (RunnerJob.receipt job);;
        copied ← copyJob job;
        mret (Some (RunnerJobOffer.mk copied attempt challenge (RunnerAttempt.receipt attempt)))
  end.

(** [expire] has result type [never]. *)
Definition expire (jobId : string) : P Empty_set :=
  stored ← requireJob jobId;
  let job := StoredJob.job stored in
  attempt ← requireAttempt (RunnerJob.currentAttemptId job);
  let attemptId := RunnerAttempt.id attempt in
  checkedAt ← now;
  (if date_gt (RunnerAttempt.leaseExpiresAt attempt) checkedAt
   then now;; throw (runner_error RunnerErrorCode.lease_not_expired attemptId)
   else mret ());;
  throw_if (terminal (RunnerAttempt.state attempt))
    (runner_error RunnerErrorCode.result_replay attemptId);;
  let previousJobState := RunnerJob.state job in
  let recoveryAction :=
    "inspect Runner availability and retry from a fresh Attempt after confirming no provider side effect escaped the lease" in
  revokeAttemptCredentials attemptId;;
  completedAt ← now;
  observedAt ← now;
  let attempt := attempt
    <| RunnerAttempt.state := RunnerJobState.expired |>
    <| RunnerAttempt.completedAt := Some completedAt |>
    <| RunnerAttempt.recoveryAction := Some recoveryAction |>
    <| RunnerAttempt.receipt :=
         cat ["runnerAttempt=expired; attempt="; attemptId; "; leaseExpiresAt=";
              RunnerAttempt.leaseExpiresAt attempt; "; now="; observedAt] |> in
  updatedAt ← now;
  let job := job
    <| RunnerJob.state := RunnerJobState.expired |>
    <| RunnerJob.updatedAt := updatedAt |>
    <| RunnerJob.recoveryAction := Some recoveryAction |>
    <| RunnerJob.receipt :=
         cat ["runnerJob=expired; job="; RunnerJob.id job; "; attempt="; attemptId;
              "; providerResult=unknown"] |> in
  set_attempt attempt;;
  set_job (stored <| StoredJob.job := job |>
    <| StoredJob.run := StoredJob.run stored <| Run.status := RunStatus.indeterminate |> |>);;
  emit "runner.attempt.expired" (RunnerAttempt.runnerId attempt) (Some (RunnerJob.id job))
    (Some attemptId) (Some (Run.id (StoredJob.run stored))) None (Some previousJobState)
    (Some RunnerJobState.expired) (RunnerAttempt.receipt attempt);;
  throw (runner_error RunnerErrorCode.lease_expired attemptId).

Definition claim (runnerId jobId attemptId challenge signature : string) : P RunnerJobLease.t :=
  runner ← requireRunner runnerId;
  stored ← requireJob jobId;
  attempt ← requireAttempt attemptId;
  let job := StoredJob.job stored in
  throw_if (negb (bool_decide (RunnerProfile.status runner = RunnerStatus.active)))
    (runner_error RunnerErrorCode.runner_not_eligible (RunnerProfile.id runner));;
  throw_if (negb (String.eqb (RunnerAttempt.jobId attempt) (RunnerJob.id job))
            || negb (String.eqb (RunnerJob.currentAttemptId job) (RunnerAttempt.id attempt)))
    (runner_error RunnerErrorCode.attempt_mismatch (RunnerAttempt.id attempt));;
  throw_if (negb (bool_decide (RunnerJob.state job = RunnerJobState.offered))
            || negb (bool_decide (RunnerAttempt.state attempt = RunnerJobState.offered)))
    (runner_error RunnerErrorCode.job_state (RunnerJob.id job));;
  checkedAt ← now;
  if date_le (RunnerAttempt.leaseExpiresAt attempt) checkedAt
  then never ← expire jobId; match never : Empty_set with end
  else
    offeredChallenge ← gets (fun s => omap_get (RunnerAttempt.id attempt) (Coordinator.offers s));
    throw_if (negb (bool_decide (truthy_opt offeredChallenge = Some challenge))
              || negb (bool_decide (RunnerAttempt.challengeDigest attempt = Some (digest_text challenge)))
              || negb (verifyProof (RunnerProfile.publicKey runner) (claimMessage challenge) signature))
      (runner_error RunnerErrorCode.runner_proof_invalid (RunnerProfile.id runner));;
    bytes ← random 32;
    let token := base64Url bytes in
    credentialId ← opaqueId "runner-job-credential";
    let credential := {|
      StoredCredential.id := credentialId;
      StoredCredential.digest := credentialDigest token;
      StoredCredential.jobId := RunnerJob.id job;
      StoredCredential.attemptId := RunnerAttempt.id attempt;
      StoredCredential.runnerId := RunnerProfile.id runner;
      StoredCredential.expiresAt := RunnerAttempt.leaseExpiresAt attempt;
      StoredCredential.status := CredentialStatus.active;
    |} in
    modify (fun s => s <| Coordinator.credentials :=
      omap_set credentialId credential (Coordinator.credentials s) |>);;
    claimedAt ← now;
    updatedAt ← now;
    let attempt := attempt
      <| RunnerAttempt.runnerId := Some (RunnerProfile.id runner) |>
      <| RunnerAttempt.state := RunnerJobState.running |>
      <| RunnerAttempt.claimedAt := Some claimedAt |>
      <| RunnerAttempt.lastHeartbeatAt := Some claimedAt |>
      <| RunnerAttempt.jobCredentialDigest := Some (StoredCredential.digest credential) |>
      <| RunnerAttempt.receipt :=
           cat ["runnerAttempt=running; attempt="; RunnerAttempt.id attempt; "; runner=";
                RunnerProfile.id runner; "; credential="; credentialId; "; credentialStored=false"] |> in
    let job := job
      <| RunnerJob.state := RunnerJobState.running |>
      <| RunnerJob.currentRunnerId := Some (RunnerProfile.id runner) |>
      <| RunnerJob.networkEnforcement := Some (RunnerProfile.networkEnforcement runner) |>
      <| RunnerJob.networkBoundaryReceipt := Some (RunnerProfile.networkBoundaryReceipt runner) |>
      <| RunnerJob.updatedAt := updatedAt |>
      <| RunnerJob.receipt :=
           cat ["runnerJob=running; job="; RunnerJob.id job; "; attempt="; RunnerAttempt.id attempt;
                "; runner="; RunnerProfile.id runner; "; canonicalWrite=false"] |> in
    set_attempt attempt;;
    set_job (stored <| StoredJob.job := job |>
      <| StoredJob.run := StoredJob.run stored
           <| Run.runnerId := RunnerProfile.id runner |>
           <| Run.status := RunStatus.running |> |>);;
    emit "runner.job.claimed" (Some (RunnerProfile.id runner)) (Some (RunnerJob.id job))
      (Some (RunnerAttempt.id attempt)) (Some (Run.id (StoredJob.run stored))) None None
      (Some RunnerJobState.running) (RunnerJob.receipt job);;
    copied ← copyJob job;
    mret {|
      RunnerJobLease.job := copied;
      RunnerJobLease.attempt := attempt;
      RunnerJobLease.credential := {|
        RunnerJobCredential.id := credentialId;
        RunnerJobCredential.audience := "runner-job";
        RunnerJobCredential.jobId := RunnerJob.id job;
        RunnerJobCredential.attemptId := RunnerAttempt.id attempt;
        RunnerJobCredential.runnerId := RunnerProfile.id runner;
        RunnerJobCredential.expiresAt := StoredCredential.expiresAt credential;
        RunnerJobCredential.token := token;
      |};
      RunnerJobLease.receipt := RunnerAttempt.receipt attempt;
    |}.

(** ** Results *)

Definition error_of (code : RunnerErrorCode.t) (token : RunnerJobCredential.t) : failure :=
  runner_error code (RunnerJobCredential.id token).

(** The record a token is looked up by. *)
Definition credential_of (token : RunnerJobCredential.t) (c : StoredCredential.t) : bool :=
  String.eqb (StoredCredential.id c) (RunnerJobCredential.id token)
  && String.eqb (StoredCredential.digest c) (credentialDigest (RunnerJobCredential.token token)).

Definition authorizeCredential (token : RunnerJobCredential.t) :
    P (StoredJob.t * RunnerAttempt.t * StoredCredential.t) :=
  throw_if (negb (String.eqb (RunnerJobCredential.audience token) "runner-job"))
    (error_of RunnerErrorCode.credential_invalid token);;
  credential ← gets (fun s => find_first (credential_of token) (omap_values (Coordinator.credentials s)));
  credential ← require credential (error_of RunnerErrorCode.credential_invalid token);
  throw_if (negb (bool_decide (StoredCredential.status credential = CredentialStatus.active)))
    (error_of RunnerErrorCode.credential_invalid token);;
  throw_if (negb (String.eqb (StoredCredential.jobId credential) (RunnerJobCredential.jobId token))
            || negb (String.eqb (StoredCredential.attemptId credential)
                       (RunnerJobCredential.attemptId token))
            || negb (String.eqb (StoredCredential.runnerId credential)
                       (RunnerJobCredential.runnerId token)))
    (error_of RunnerErrorCode.lease_invalid token);;
  checkedAt ← now;
  (if date_le (StoredCredential.expiresAt credential) checkedAt
   then
     modify (fun s => s <| Coordinator.credentials :=
       omap_set (StoredCredential.id credential)
         (credential <| StoredCredential.status := CredentialStatus.revoked |>)
         (Coordinator.credentials s) |>);;
     now;;
     throw (error_of RunnerErrorCode.lease_expired token)
   else mret ());;
  stored ← requireJob (StoredCredential.jobId credential);
  attempt ← requireAttempt (StoredCredential.attemptId credential);
  throw_if (negb (bool_decide (RunnerAttempt.runnerId attempt = Some (StoredCredential.runnerId credential)))
            || negb (String.eqb (RunnerJob.currentAttemptId (StoredJob.job stored))
                       (RunnerAttempt.id attempt)))
    (error_of RunnerErrorCode.lease_invalid token);;
  mret (stored, attempt, credential).

Definition in_progress (state : RunnerJobState.t) : bool :=
  bool_decide (state = RunnerJobState.running)
  || bool_decide (state = RunnerJobState.cancel_requested).

Definition heartbeat (token : RunnerJobCredential.t) (progressDigest : option string) :
    P RunnerAttempt.t :=
  '(stored, attempt, credential) ← authorizeCredential token;
  let job := StoredJob.job stored in
  throw_if (negb (in_progress (RunnerJob.state job)))
    (runner_error RunnerErrorCode.job_state (RunnerJob.id job));;
  lastHeartbeatAt ← now;
  let attempt := attempt
    <| RunnerAttempt.lastHeartbeatAt := Some lastHeartbeatAt |>
    <| RunnerAttempt.receipt :=
         cat ["runnerAttempt=heartbeat; attempt="; RunnerAttempt.id attempt; "; runner=";
              StoredCredential.runnerId credential; "; progressDigest="; default "none" progressDigest] |> in
  set_attempt attempt;;
  emit "runner.attempt.heartbeat" (Some (StoredCredential.runnerId credential))
    (Some (RunnerJob.id job)) (Some (RunnerAttempt.id attempt)) (Some (Run.id (StoredJob.run stored)))
    None None None (RunnerAttempt.receipt attempt);;
  mret attempt.

Definition cancellable (state : RunnerJobState.t) : bool :=
  bool_decide (state = RunnerJobState.running) || bool_decide (state = RunnerJobState.offered)
  || bool_decide (state = RunnerJobState.claimed).

Definition requestCancellation (jobId : string) (actor : ActorRef.t) (reason : string) :
    P RunnerJob.t :=
  nonEmpty reason "reason";;
  stored ← requireJob jobId;
  let job := StoredJob.job stored in
  attempt ← requireAttempt (RunnerJob.currentAttemptId job);
  throw_if (negb (cancellable (RunnerJob.state job)))
    (runner_error RunnerErrorCode.cancellation_invalid (RunnerJob.id job));;
  let previousState := RunnerJob.state job in
  updatedAt ← now;
  let recoveryAction :=
    "the Runner must report cooperative stop, forced termination, or unknown cleanup before the Job can be retried" in
  let attempt := attempt
    <| RunnerAttempt.state := RunnerJobState.cancel_requested |>
    <| RunnerAttempt.recoveryAction := Some recoveryAction |>
    <| RunnerAttempt.receipt :=
         cat ["runnerAttempt=cancel-requested; attempt="; RunnerAttempt.id attempt; "; reason="; reason] |> in
  let job := job
    <| RunnerJob.state := RunnerJobState.cancel_requested |>
    <| RunnerJob.updatedAt := updatedAt |>
    <| RunnerJob.recoveryAction := Some recoveryAction |>
    <| RunnerJob.receipt :=
         cat ["runnerJob=cancel-requested; job="; RunnerJob.id job; "; attempt=";
              RunnerAttempt.id attempt; "; reason="; reason] |> in
  set_attempt attempt;;
  set_job (stored <| StoredJob.job := job |>);;
  emit "runner.job.cancel-requested" (RunnerAttempt.runnerId attempt) (Some (RunnerJob.id job))
    (Some (RunnerAttempt.id attempt)) (Some (Run.id (StoredJob.run stored))) (Some actor)
    (Some previousState) (Some RunnerJobState.cancel_requested) (RunnerJob.receipt job);;
  copyJob job.

(** The Run once its Attempt is over. *)
Definition complete_run (run : Run.t) (runnerId : string) (status : RunStatus.t)
    (resultDigest : string) (normalizedOutput : option NormalizedActionOutput.t) : Run.t :=
  let run := run <| Run.runnerId := runnerId |> <| Run.status := status |> in
  match normalizedOutput with
  | None => run <| Run.outputDigest := Some resultDigest |>
  | Some o =>
      let run := run
        <| Run.outputDigest := Some (NormalizedActionOutput.outputDigest o) |>
        <| Run.inputDigests := Some (NormalizedActionOutput.inputDigests o) |>
        <| Run.outputDigests := Some (NormalizedActionOutput.outputDigests o) |> in
      let run := match NormalizedActionOutput.exitCode o with
                 | Some exitCode => run <| Run.exitCode := Some exitCode |>
                 | None => run
                 end in
      run <| Run.stdoutDigest := Some (NormalizedActionOutput.stdoutDigest o) |>
          <| Run.stderrDigest := Some (NormalizedActionOutput.stderrDigest o) |>
  end.

Definition or_kept (new old : option string) : option string :=
  match truthy_opt new with Some x => Some x | None => old end.

(** The stored Job and Attempt it leaves are the objects the caller goes on with. *)
Definition completeAttempt (stored : StoredJob.t) (attempt : RunnerAttempt.t) (runnerId : string)
    (jobState attemptState : RunnerJobState.t) (runStatus : RunStatus.t) (resultDigest : string)
    (recoveryAction : option string) (receipt : string)
    (normalizedOutput : option NormalizedActionOutput.t) : P (StoredJob.t * RunnerAttempt.t) :=
  let job := StoredJob.job stored in
  let previousJobState := RunnerJob.state job in
  let attemptId := RunnerAttempt.id attempt in
  revokeAttemptCredentials attemptId;;
  completedAt ← now;
  let attempt := attempt
    <| RunnerAttempt.state := attemptState |>
    <| RunnerAttempt.completedAt := Some completedAt |>
    <| RunnerAttempt.resultDigest := Some resultDigest |>
    <| RunnerAttempt.recoveryAction := or_kept recoveryAction (RunnerAttempt.recoveryAction attempt) |>
    <| RunnerAttempt.receipt :=
         cat ["runnerAttempt="; RunnerJobState.show attemptState; "; attempt="; attemptId; "; runner=";
              runnerId; "; resultDigest="; resultDigest; "; "; receipt] |> in
  updatedAt ← now;
  let job := job
    <| RunnerJob.state := jobState |>
    <| RunnerJob.updatedAt := updatedAt |>
    <| RunnerJob.recoveryAction := or_kept recoveryAction (RunnerJob.recoveryAction job) |>
    <| RunnerJob.receipt :=
         cat ["runnerJob="; RunnerJobState.show jobState; "; job="; RunnerJob.id job; "; attempt=";
              attemptId; "; resultDigest="; resultDigest; "; "; receipt] |> in
  let stored := stored
    <| StoredJob.job := job |>
    <| StoredJob.run := complete_run (StoredJob.run stored) runnerId runStatus resultDigest
                          normalizedOutput |> in
  set_attempt attempt;;
  set_job stored;;
  emit (cat ["runner.job."; RunnerJobState.show jobState]) (Some runnerId) (Some (RunnerJob.id job))
    (Some attemptId) (Some (Run.id (StoredJob.run stored))) None (Some previousJobState)
    (Some jobState) (RunnerJob.receipt job);;
  mret (stored, attempt).

Definition completion (stored : StoredJob.t) (attempt : RunnerAttempt.t) (receipt : string) :
    P RunnerCompletion.t :=
  outputs ← gets (fun s => default [] (omap_get (RunnerAttempt.id attempt) (Coordinator.outputs s)));
  job ← copyJob (StoredJob.job stored);
  run ← copyRun (StoredJob.run stored);
  mret {|
    RunnerCompletion.job := job;
    RunnerCompletion.attempt := attempt;
    RunnerCompletion.run := run;
    RunnerCompletion.outputs := outputs;
    RunnerCompletion.resultDigest :=
      match RunnerAttempt.resultDigest attempt with
      | Some d => d
      | None => digest_text receipt
      end;
    RunnerCompletion.receipt := receipt;
  |}.

Definition finalizeCancellation (token : RunnerJobCredential.t)
    (outcome : RunnerCancellationOutcome.t) (receipt : string) : P RunnerCompletion.t :=
  nonEmpty receipt "receipt";;
  '(stored, attempt, credential) ← authorizeCredential token;
  let job := StoredJob.job stored in
  throw_if (negb (bool_decide (RunnerJob.state job = RunnerJobState.cancel_requested))
            || negb (bool_decide (RunnerAttempt.state attempt = RunnerJobState.cancel_requested)))
    (runner_error RunnerErrorCode.cancellation_invalid (RunnerJob.id job));;
  let quarantined := bool_decide (outcome = RunnerCancellationOutcome.unknown) in
  let state := if quarantined then RunnerJobState.quarantined else RunnerJobState.cancelled in
  let recoveryAction :=
    if quarantined
    then "revoke Runner credentials, quarantine the Runner, inspect cleanup, and retry from a fresh Attempt only after reconciliation"
    else "retry the immutable Job with a new idempotency key when the cancellation cause is understood" in
  '(stored, attempt) ← completeAttempt stored attempt (StoredCredential.runnerId credential)
    state state RunStatus.indeterminate
    (digest (object [field "outcome" outcome; field "receipt" receipt]))
    (Some recoveryAction) receipt None;
  completion stored attempt receipt.

Definition location_of (locations : RunnerOutputLocations.t) (kind : RunnerOutputKind.t) : string :=
  match kind with
  | RunnerOutputKind.log => RunnerOutputLocations.logs locations
  | RunnerOutputKind.artifact => RunnerOutputLocations.artifacts locations
  | RunnerOutputKind.evidence => RunnerOutputLocations.evidence locations
  end.
Definition logical_output (output : RunnerOutputInput.t) : LogicalOutput.t :=
  LogicalOutput.mk (RunnerOutputKind.show (RunnerOutputInput.kind output))
    (RunnerOutputInput.outputPath output) (RunnerOutputInput.digest output).

(** One turn of the loop over [result.outputs]. *)
Definition validate_output (job : RunnerJob.t) (attempt : RunnerAttempt.t)
    (output : RunnerOutputInput.t) : P () :=
  let kind := RunnerOutputInput.kind output in
  normalizedLocation ← safeLocation (RunnerOutputInput.location output) "runnerOutput.location"
    RunnerErrorCode.result_output_scope;
  nonEmpty (RunnerOutputInput.digest output) "runnerOutput.digest";;
  nonEmpty (RunnerOutputInput.receipt output) "runnerOutput.receipt";;
  throw_if (bool_decide (is_Some (RunnerOutputInput.runId output))
            || bool_decide (is_Some (RunnerOutputInput.attemptId output)))
    (runner_error RunnerErrorCode.result_output_invalid (RunnerJob.id job));;
  throw_if (negb (locationWithin normalizedLocation (location_of (RunnerJob.outputLocations job) kind)))
    (runner_error RunnerErrorCode.result_output_scope (RunnerJob.id job));;
  throw_if (negb (disclosureAllows (DisclosurePolicyRef.classification (RunnerJob.disclosure job))
                    (DisclosurePolicyRef.classification (RunnerOutputInput.disclosure output))))
    (runner_error RunnerErrorCode.result_output_scope (RunnerJob.id job));;
  throw_if (bool_decide (kind = RunnerOutputKind.artifact)
            && negb (includes (RunnerAttempt.id attempt) normalizedLocation))
    (runner_error RunnerErrorCode.result_output_scope (RunnerJob.id job)).

Definition validateOutput (job : RunnerJob.t) (attempt : RunnerAttempt.t) (result : RunnerResult.t) :
    P () :=
  let output := RunnerResult.output result in
  let invalid := runner_error RunnerErrorCode.result_output_invalid (RunnerJob.id job) in
  let expectedPaths := remove_dups (RunnerJob.outputPaths job) in
  let receivedPaths := pathFromDigest <$> NormalizedActionOutput.outputDigests output in
  lift_err (fun _ => invalid)
    (validateActionArtifactOutputs (RunnerJob.artifactOutputContract job) (RunnerJob.outputPaths job)
       (ResultStatus.show (RunnerResult.status result)) (NormalizedActionOutput.outputDigests output)
       (logical_output <$> RunnerResult.outputs result));;
  throw_if (negb (bool_decide (NormalizedActionOutput.status output = RunnerResult.status result)))
    invalid;;
  throw_if (existsb (fun path => match path with
                                 | Some path => negb (list_includes expectedPaths path)
                                 | None => true
                                 end) receivedPaths) invalid;;
  throw_if (negb (length (remove_dups receivedPaths) =? length receivedPaths)%nat
            || bool_decide (RunnerResult.status result = ResultStatus.succeeded)
               && negb (length receivedPaths =? length expectedPaths)%nat) invalid;;
  for_each (RunnerResult.outputs result) (validate_output job attempt).

(** One element of [normalizedOutputs]. *)
Definition normalized_output (stored : StoredJob.t) (attempt : RunnerAttempt.t)
    (output : RunnerOutputInput.t) : P RunnerOutputReference.t :=
  id ← match RunnerOutputInput.id output with
       | Some id => mret id
       | None => opaqueId "runner-output"
       end;
  location ← safeLocation (RunnerOutputInput.location output) "runnerOutput.location"
    RunnerErrorCode.result_output_scope;
  mret {|
    RunnerOutputReference.id := id;
    RunnerOutputReference.kind := RunnerOutputInput.kind output;
    RunnerOutputReference.runId := Run.id (StoredJob.run stored);
    RunnerOutputReference.attemptId := RunnerAttempt.id attempt;
    RunnerOutputReference.location := location;
    RunnerOutputReference.outputPath := RunnerOutputInput.outputPath output;
    RunnerOutputReference.digest := RunnerOutputInput.digest output;
    RunnerOutputReference.disclosure := RunnerOutputInput.disclosure output;
    RunnerOutputReference.receipt := RunnerOutputInput.receipt output;
  |}.

Definition credentialRunnerPublicKey (runnerId : string) : P string :=
  runner ← requireRunner runnerId;
  mret (RunnerProfile.publicKey runner).

(** What [submit] checks of a Result before it writes. *)
Definition check_result (stored : StoredJob.t) (attempt : RunnerAttempt.t)
    (credential : StoredCredential.t) (result : RunnerResult.t) : P () :=
  let job := StoredJob.job stored in
  throw_if (negb (in_progress (RunnerJob.state job)))
    (if terminal (RunnerJob.state job)
     then runner_error RunnerErrorCode.result_replay (RunnerJob.id job)
     else runner_error RunnerErrorCode.job_state (RunnerJob.id job));;
  throw_if (bool_decide (RunnerJob.state job = RunnerJobState.cancel_requested))
    (runner_error RunnerErrorCode.cancellation_invalid (RunnerJob.id job));;
  expectedContext ← runnerResultContext job attempt;
  throw_if (negb (String.eqb (stableJson (to_json (RunnerResult.context result)))
                    (stableJson (to_json expectedContext))))
    (runner_error RunnerErrorCode.result_input_mismatch (RunnerAttempt.id attempt));;
  publicKey ← credentialRunnerPublicKey (StoredCredential.runnerId credential);
  throw_if (negb (verifyProof publicKey
                    (runnerResultMessage expectedContext (RunnerResult.status result)
                       (RunnerResult.output result) (RunnerResult.outputs result)
                       (truthy_opt (RunnerResult.recoveryAction result)))
                    (RunnerResult.signature result)))
    (runner_error RunnerErrorCode.result_signature_invalid (RunnerAttempt.id attempt));;
  throw_if (negb (arrayEqual (NormalizedActionOutput.inputDigests (RunnerResult.output result))
                    (RunnerJob.inputDigests job)))
    (runner_error RunnerErrorCode.result_input_mismatch (RunnerJob.id job));;
  validateOutput job attempt result.

Definition result_digest (jobId attemptId : string) (result : RunnerResult.t) : string :=
  digest (object [field "jobId" jobId; field "attemptId" attemptId; field "result" result]).

Definition submit (token : RunnerJobCredential.t) (result : RunnerResult.t) :
    P SignedRunnerCompletion.t :=
  '(stored, attempt, credential) ← authorizeCredential token;
  check_result stored attempt credential result;;
  let status := RunnerResult.status result in
  let resultDigest := result_digest (RunnerJob.id (StoredJob.job stored)) (RunnerAttempt.id attempt)
    result in
  let recoveryAction :=
    match RunnerResult.recoveryAction result with
    | Some r => Some r
    | None =>
        if bool_decide (status = ResultStatus.succeeded) then None
        else Some "inspect the scoped Runner outputs and retry with a new idempotency key after correcting the failure"
    end in
  '(stored, attempt) ← completeAttempt stored attempt (StoredCredential.runnerId credential)
    (ResultStatus.job_state status) (ResultStatus.job_state status) (ResultStatus.run_status status)
    resultDigest recoveryAction (cat ["runnerResult="; ResultStatus.show status; "; "; resultDigest])
    (Some (RunnerResult.output result));
  normalizedOutputs ← map_each (RunnerResult.outputs result) (normalized_output stored attempt);
  modify (fun s => s <| Coordinator.outputs :=
    omap_set (RunnerAttempt.id attempt) normalizedOutputs (Coordinator.outputs s) |>);;
  runnerProfile ← requireRunner (StoredCredential.runnerId credential);
  completion ← completion stored attempt
    (cat ["runnerResult="; ResultStatus.show status; "; outputs="; pretty (length normalizedOutputs)]);
  mret (SignedRunnerCompletion.mk completion result runnerProfile).

(** ** Retry *)

Definition retry (jobId idempotencyKey leaseExpiresAt : string) (actor : ActorRef.t) :
    P (RunnerJob.t * Run.t * RunnerAttempt.t) :=
  nonEmpty idempotencyKey "idempotencyKey";;
  existingJobId ← gets (fun s => omap_get idempotencyKey (Coordinator.retryIdempotency s));
  match truthy_opt existingJobId with
  | Some existingJobId =>
      throw_if (negb (String.eqb existingJobId jobId))
        (runner_error RunnerErrorCode.job_idempotency_conflict idempotencyKey);;
      existing ← requireJob jobId;
      current_snapshot existing
  | None =>
      stored ← requireJob jobId;
      let job := StoredJob.job stored in
      let run := StoredJob.run stored in
      throw_if (negb (retryable (RunnerJob.state job)))
        (runner_error RunnerErrorCode.retry_invalid (RunnerJob.id job));;
      checkedAt ← now;
      futureTimestamp leaseExpiresAt checkedAt "leaseExpiresAt";;
      previousAttempt ← requireAttempt (RunnerJob.currentAttemptId job);
      attemptId ← opaqueId "runner-attempt";
      let attempt := new_attempt attemptId (RunnerJob.id job) (Run.id run) leaseExpiresAt
        (Some "pull and claim this fresh Attempt only after selecting a Runner whose capability profile satisfies the immutable Job")
        (cat ["runnerAttempt=queued; attempt="; attemptId; "; previousAttempt=";
              RunnerAttempt.id previousAttempt; "; retry=true; actor="; ActorRef.actorId actor]) in
      set_attempt attempt;;
      updatedAt ← now;
      let job := job
        <| RunnerJob.attemptIds := RunnerJob.attemptIds job ++ [attemptId] |>
        <| RunnerJob.currentAttemptId := attemptId |>
        <| RunnerJob.currentRunnerId := None |>
        <| RunnerJob.state := RunnerJobState.queued |>
        <| RunnerJob.updatedAt := updatedAt |>
        <| RunnerJob.recoveryAction :=
             Some "pull and claim the fresh Attempt; the previous Attempt remains immutable and inspectable" |>
        <| RunnerJob.receipt :=
             cat ["runnerJob=queued; job="; RunnerJob.id job; "; retry=true; previousAttempt=";
                  RunnerAttempt.id previousAttempt; "; currentAttempt="; attemptId] |> in
      let run := run
        <| Run.runnerId := "runner:unassigned" |>
        <| Run.status := RunStatus.queued |>
        <| Run.attemptId := Some attemptId |> in
      let stored := stored <| StoredJob.job := job |> <| StoredJob.run := run |> in
      set_job stored;;
      modify (fun s => s <| Coordinator.retryIdempotency :=
        omap_set idempotencyKey (RunnerJob.id job) (Coordinator.retryIdempotency s) |>);;
      emit "runner.job.retried" None (Some (RunnerJob.id job)) (Some attemptId) (Some (Run.id run))
        (Some actor) None (Some RunnerJobState.queued) (RunnerJob.receipt job);;
      snapshot stored attempt
  end.

(** ** Readers *)

Definition getRunner (runnerId : string) : P (option RunnerProfile.t) :=
  gets (fun s => omap_get runnerId (Coordinator.runners s)).
Definition listRunners : P (list RunnerProfile.t) :=
  gets (fun s => sort_by
    (fun left right => localeCompare (RunnerProfile.id left) (RunnerProfile.id right))
    (omap_values (Coordinator.runners s))).
Definition getJob (jobId : string) : P (option RunnerJob.t) :=
  stored ← gets (fun s => omap_get jobId (Coordinator.jobs s));
  match stored with
  | Some stored => job ← copyJob (StoredJob.job stored); mret (Some job)
  | None => mret None
  end.
Definition getRun (jobId : string) : P (option Run.t) :=
  stored ← gets (fun s => omap_get jobId (Coordinator.jobs s));
  match stored with
  | Some stored => run ← copyRun (StoredJob.run stored); mret (Some run)
  | None => mret None
  end.
Definition getAttempt (attemptId : string) : P (option RunnerAttempt.t) :=
  gets (fun s => omap_get attemptId (Coordinator.attempts s)).
Definition listAttempts (jobId : string) : P (list RunnerAttempt.t) :=
  stored ← requireJob jobId;
  map_each (RunnerJob.attemptIds (StoredJob.job stored)) requireAttempt.
Definition listOutputs (attemptId : string) : P (list RunnerOutputReference.t) :=
  gets (fun s => default [] (omap_get attemptId (Coordinator.outputs s))).
Definition listEvents : P (list RunnerEvent.t) := gets Coordinator.events.
End coordinator.
