(* ===== verification/RunnerFacts.v ===== *)
(** The Runner coordinator, proved: what every sequence of calls keeps true of
    Jobs, Attempts and credentials, the life of a Job as an abstract state
    machine that the coordinator refines, what a submitted Result must satisfy
    to be accepted, and that no Attempt accepts two. *)

From S2P Require Import Prelude Json Contracts ContractsJson ArtifactOutputs Runner.

(** * Steps of the coordinator *)

Inductive Op :=
| op_enroll (input : RunnerEnrollmentInput.t)
| op_activate (runnerId : string) (actor : ActorRef.t)
| op_disable (runnerId : string) (actor : ActorRef.t) (reason : string)
| op_unavailable (runnerId : string) (actor : ActorRef.t) (reason : string)
| op_quarantine (runnerId : string) (actor : ActorRef.t) (reason : string)
| op_enqueue (request : ExternalRunRequest.t)
| op_pull (runnerId : string)
| op_claim (runnerId jobId attemptId challenge signature : string)
| op_heartbeat (token : RunnerJobCredential.t) (progressDigest : option string)
| op_cancel (jobId : string) (actor : ActorRef.t) (reason : string)
| op_finalize (token : RunnerJobCredential.t) (outcome : RunnerCancellationOutcome.t)
    (receipt : string)
| op_submit (token : RunnerJobCredential.t) (result : RunnerResult.t)
| op_expire (jobId : string)
| op_retry (jobId idempotencyKey leaseExpiresAt : string) (actor : ActorRef.t).

Definition perform `{HH : Host} `{RH : RunnerHost} (op : Op) : M Coordinator.t failure () :=
  match op with
  | op_enroll input => enrollRunner input;; mret ()
  | op_activate id actor => activateRunner id actor;; mret ()
  | op_disable id actor reason => disableRunner id actor reason;; mret ()
  | op_unavailable id actor reason => markRunnerUnavailable id actor reason;; mret ()
  | op_quarantine id actor reason => quarantineRunner id actor reason;; mret ()
  | op_enqueue request => enqueue request;; mret ()
  | op_pull id => pull id;; mret ()
  | op_claim runner job attempt challenge signature =>
      claim runner job attempt challenge signature;; mret ()
  | op_heartbeat token progress => heartbeat token progress;; mret ()
  | op_cancel job actor reason => requestCancellation job actor reason;; mret ()
  | op_finalize token outcome receipt => finalizeCancellation token outcome receipt;; mret ()
  | op_submit token result => submit token result;; mret ()
  | op_expire job => expire job;; mret ()
  | op_retry job key lease actor => retry job key lease actor;; mret ()
  end.

Definition step `{HH : Host} `{RH : RunnerHost} (σ σ' : World * Coordinator.t) : Prop :=
  ∃ op result, perform op σ.1 σ.2 = (result, σ'.1, σ'.2).

(** * The life of an Attempt

    No edge leads to [claimed]: the code has the state and never enters it. *)

Definition lifecycle (from to : RunnerJobState.t) : bool :=
  match from, to with
  | RunnerJobState.queued, (RunnerJobState.offered | RunnerJobState.expired) => true
  | RunnerJobState.offered, (RunnerJobState.running | RunnerJobState.cancel_requested
      | RunnerJobState.indeterminate | RunnerJobState.expired | RunnerJobState.quarantined) => true
  | RunnerJobState.claimed, (RunnerJobState.cancel_requested | RunnerJobState.indeterminate
      | RunnerJobState.expired | RunnerJobState.quarantined) => true
  | RunnerJobState.running, (RunnerJobState.cancel_requested | RunnerJobState.succeeded
      | RunnerJobState.failed | RunnerJobState.indeterminate | RunnerJobState.expired
      | RunnerJobState.quarantined) => true
  | RunnerJobState.cancel_requested, (RunnerJobState.cancelled | RunnerJobState.indeterminate
      | RunnerJobState.expired | RunnerJobState.quarantined) => true
  | _, _ => false
  end.

(** * The invariant *)

(** What stays of a Job, of its Run and of an Attempt from their creation on. *)
Definition blank_job (job : RunnerJob.t) : RunnerJob.t :=
  job <| RunnerJob.state := RunnerJobState.queued |>
      <| RunnerJob.updatedAt := "" |>
      <| RunnerJob.recoveryAction := None |>
      <| RunnerJob.receipt := "" |>
      <| RunnerJob.currentRunnerId := None |>
      <| RunnerJob.networkEnforcement := None |>
      <| RunnerJob.networkBoundaryReceipt := None |>
      <| RunnerJob.attemptIds := [] |>
      <| RunnerJob.currentAttemptId := "" |>.
Definition immutable (stored : StoredJob.t) :=
  (blank_job (StoredJob.job stored), Run.id (StoredJob.run stored),
   Run.artifactOutputContract (StoredJob.run stored), StoredJob.requestDigest stored).
Definition identity (a : RunnerAttempt.t) :=
  (RunnerAttempt.id a, RunnerAttempt.jobId a, RunnerAttempt.runId a, RunnerAttempt.leaseExpiresAt a).

Definition job_id (stored : StoredJob.t) : string := RunnerJob.id (StoredJob.job stored).
Definition job_status (stored : StoredJob.t) : RunnerJobState.t := RunnerJob.state (StoredJob.job stored).
Definition ids (stored : StoredJob.t) : list string := RunnerJob.attemptIds (StoredJob.job stored).
Definition current (stored : StoredJob.t) : string := RunnerJob.currentAttemptId (StoredJob.job stored).

Definition contract_ok (declaredPaths : option (list string))
    (c : option ActionArtifactOutputContract.t) : Prop :=
  ∀ contract, c = Some contract → well_formed_contract declaredPaths contract.

Record job_ok (s : Coordinator.t) (k : string) (stored : StoredJob.t) : Prop := {
  jo_id : job_id stored = k;
  jo_last : last (ids stored) = Some (current stored);
  jo_nodup : NoDup (ids stored);
  jo_attempts : ∀ aid, aid ∈ ids stored → ∃ a,
    omap_get aid (Coordinator.attempts s) = Some a ∧ RunnerAttempt.jobId a = k ∧
    if decide (aid = current stored) then RunnerAttempt.state a = job_status stored
    else terminal (RunnerAttempt.state a) = true;
  jo_contract : contract_ok (Some (RunnerJob.outputPaths (StoredJob.job stored)))
    (RunnerJob.artifactOutputContract (StoredJob.job stored));
  jo_run : contract_ok None (Run.artifactOutputContract (StoredJob.run stored));
  jo_digest : StoredJob.requestDigest stored = RunnerJob.inputManifestDigest (StoredJob.job stored);
}.

Definition attempt_ok (s : Coordinator.t) (k : string) (a : RunnerAttempt.t) : Prop :=
  RunnerAttempt.id a = k ∧
  ∃ stored, omap_get (RunnerAttempt.jobId a) (Coordinator.jobs s) = Some stored ∧ k ∈ ids stored.

(** An active credential is of an Attempt in progress, its Runner and its lease. *)
Definition backed (s : Coordinator.t) (c : StoredCredential.t) : Prop :=
  StoredCredential.status c = CredentialStatus.active →
  ∃ a, omap_get (StoredCredential.attemptId c) (Coordinator.attempts s) = Some a ∧
    in_progress (RunnerAttempt.state a) = true ∧
    RunnerAttempt.jobId a = StoredCredential.jobId c ∧
    RunnerAttempt.runnerId a = Some (StoredCredential.runnerId c) ∧
    RunnerAttempt.leaseExpiresAt a = StoredCredential.expiresAt c.

Definition numbered (s : Coordinator.t) : Prop :=
  RunnerEvent.sequence <$> Coordinator.events s =
    Z.of_nat <$> seq 1 (length (Coordinator.events s)).

Record inv `{Host} (w : World) (s : Coordinator.t) : Prop := {
  inv_runners : omap_all (λ k r, RunnerProfile.id r = k) (Coordinator.runners s);
  inv_jobs : omap_all (λ k stored, drawn "runner-job" w k ∧ job_ok s k stored) (Coordinator.jobs s);
  inv_attempts : omap_all (λ k a, drawn "runner-attempt" w k ∧ attempt_ok s k a)
    (Coordinator.attempts s);
  inv_credentials : omap_all (λ k c, drawn "runner-job-credential" w k ∧
      StoredCredential.id c = k ∧ backed s c) (Coordinator.credentials s);
  inv_idempotency : omap_all (λ k id, ∃ stored, omap_get id (Coordinator.jobs s) = Some stored ∧
      RunnerJob.idempotencyKey (StoredJob.job stored) = k) (Coordinator.idempotency s);
  inv_retries : omap_all (λ _ id, is_Some (omap_get id (Coordinator.jobs s)))
    (Coordinator.retryIdempotency s);
  inv_events : numbered s;
  inv_jobs_wf : omap_wf (Coordinator.jobs s);
  inv_credentials_wf : omap_wf (Coordinator.credentials s);
}.

(** * One call

    What one call may do: a Job keeps what it was created with and gains at most
    one Attempt, after a retryable end; an Attempt keeps its identity, moves at
    most one edge of its life, and is never touched again once it is over, nor
    are its outputs; a credential is revoked at most; the keys and events
    recorded stay. *)

Record act (s s' : Coordinator.t) : Prop := {
  act_jobs : ∀ k st, omap_get k (Coordinator.jobs s) = Some st →
    ∃ st', omap_get k (Coordinator.jobs s') = Some st' ∧ immutable st' = immutable st ∧
      (ids st' = ids st ∨
       ∃ aid a, ids st' = ids st ++ [aid] ∧ retryable (job_status st) = true ∧
         omap_get aid (Coordinator.attempts s) = None ∧
         omap_get aid (Coordinator.attempts s') = Some a ∧
         RunnerAttempt.state a = RunnerJobState.queued);
  act_new_jobs : ∀ k st', omap_get k (Coordinator.jobs s) = None →
    omap_get k (Coordinator.jobs s') = Some st' →
    ∃ aid a, ids st' = [aid] ∧ omap_get aid (Coordinator.attempts s') = Some a ∧
      RunnerAttempt.state a = RunnerJobState.queued;
  act_attempts : ∀ k a, omap_get k (Coordinator.attempts s) = Some a →
    ∃ a', omap_get k (Coordinator.attempts s') = Some a' ∧ identity a' = identity a ∧
      if terminal (RunnerAttempt.state a)
      then a' = a ∧ omap_get k (Coordinator.outputs s') = omap_get k (Coordinator.outputs s)
      else RunnerAttempt.state a' = RunnerAttempt.state a ∨
           lifecycle (RunnerAttempt.state a) (RunnerAttempt.state a') = true;
  act_credentials : ∀ k c, omap_get k (Coordinator.credentials s) = Some c →
    ∃ c', omap_get k (Coordinator.credentials s') = Some c' ∧
      (c' = c ∨ c' = c <| StoredCredential.status := CredentialStatus.revoked |>);
  act_idempotency : extends (Coordinator.idempotency s) (Coordinator.idempotency s');
  act_retries : extends (Coordinator.retryIdempotency s) (Coordinator.retryIdempotency s');
  act_events : Coordinator.events s `prefix_of` Coordinator.events s';
}.

(** The outcome every call is proved to have. *)
Definition next `{Host} (s : Coordinator.t) (w' : World) (s' : Coordinator.t) : Prop :=
  inv w' s' ∧ act s s'.

Section facts.
Context `{HH : Host} `{RH : RunnerHost}.
Implicit Types (w : World) (s : Coordinator.t) (a : RunnerAttempt.t) (st : StoredJob.t)
  (c : StoredCredential.t).

(** ** Keys *)

Lemma drawn_truthy p w k : p ≠ "" → drawn p w k → truthy k = true.
Proof.
intros Hp (n & _ & ->). apply truthy_spec. destruct p; [done|]. unfold key. by rewrite cat_cons.
Qed.

(** ** Reflexive facts *)

Lemma act_refl s : act s s.
Proof.
split; try done.
- intros k st Hk. exists st. by split_and!; [| |left].
- intros k st' Hn Hk. congruence.
- intros k a Hk. exists a. split_and!; [done..|]. destruct (terminal _); [done|by left].
- intros k c Hk. exists c. by split; [|left].
Qed.

Lemma inv_later w w' s : (uuids_drawn w ≤ uuids_drawn w')%nat → inv w s → inv w' s.
Proof.
intros Hw [H1 H2 H3 H4 H5 H6 H7 H8 H9]. split; try done.
- intros k st Hk. destruct (H2 k st Hk). split; [by eapply drawn_mono|done].
- intros k a Hk. destruct (H3 k a Hk). split; [by eapply drawn_mono|done].
- intros k c Hk. destruct (H4 k c Hk) as (? & ? & ?). split_and!; [by eapply drawn_mono|done..].
Qed.
#[export] Instance inv_drawable : Drawable inv.
Proof. intros u c w s Hi. eapply inv_later; [|done]. simpl. lia. Qed.

(** The part of the state that the invariant and the Jobs' lives read. *)
Definition core s :=
  (Coordinator.jobs s, Coordinator.attempts s, Coordinator.credentials s, Coordinator.outputs s,
   Coordinator.idempotency s, Coordinator.retryIdempotency s).
Definition one_event s s' : Prop :=
  ∃ e, Coordinator.events s' = Coordinator.events s ++ [e] ∧
       RunnerEvent.sequence e = (Z.of_nat (length (Coordinator.events s)) + 1)%Z.

Lemma numbered_event s s' : one_event s s' → numbered s → numbered s'.
Proof.
unfold numbered. intros (e & He & Hs) Hn. rewrite He, length_app, fmap_app, Hn, Nat.add_1_r, seq_S, fmap_app.
f_equal. simpl. rewrite Hs. f_equal. lia.
Qed.
Lemma prefix_event s s' : one_event s s' → Coordinator.events s `prefix_of` Coordinator.events s'.
Proof. intros (e & -> & _). by apply prefix_app_r. Qed.

(** A call that touches Runners, offers and events only. *)
Lemma next_quiet w w' s s' :
  inv w s → (uuids_drawn w ≤ uuids_drawn w')%nat → core s' = core s →
  omap_all (λ k r, RunnerProfile.id r = k) (Coordinator.runners s') →
  (Coordinator.events s' = Coordinator.events s ∨ one_event s s') → next s w' s'.
Proof.
intros Hi Hw [= Hj Ha Hc Ho Hid Hre] Hru Hev. apply (inv_later _ _ _ Hw) in Hi as [H1 H2 H3 H4 H5 H6 H7 H8 H9].
split.
- split; [done|..].
  + rewrite Hj. intros k st Hk. destruct (H2 k st Hk) as [? []]. split; [done|].
    split; try done. by rewrite Ha.
  + rewrite Ha. intros k a Hk. destruct (H3 k a Hk) as [? [? ?]]. split; [done|].
    unfold attempt_ok. by rewrite Hj.
  + rewrite Hc. intros k c Hk. destruct (H4 k c Hk) as (? & ? & Hb). split_and!; [done..|].
    unfold backed. by rewrite Ha.
  + by rewrite Hid, Hj.
  + by rewrite Hre, Hj.
  + destruct Hev as [Hev|Hev]; [unfold numbered; by rewrite Hev|by eapply numbered_event].
  + by rewrite Hj.
  + by rewrite Hc.
- pose proof (act_refl s) as [A1 A2 A3 A4 A5 A6 A7].
  split; rewrite ?Hj, ?Ha, ?Hc, ?Ho, ?Hid, ?Hre; try done.
  destruct Hev as [->|Hev]; [done|by apply prefix_event].
Qed.

(** ** An Attempt that moves *)

(** Each credential after the call is an old one, possibly revoked, or backed
    by the Attempt the call leaves. *)
Definition credentials_follow w' s s' : Prop :=
  (∀ k c, omap_get k (Coordinator.credentials s) = Some c →
     ∃ c', omap_get k (Coordinator.credentials s') = Some c' ∧
       (c' = c ∨ c' = c <| StoredCredential.status := CredentialStatus.revoked |>)) ∧
  omap_all (λ k c, drawn "runner-job-credential" w' k ∧ StoredCredential.id c = k ∧ backed s' c)
    (Coordinator.credentials s') ∧
  omap_wf (Coordinator.credentials s').

Record moved s s' st st' a a' : Prop := {
  mv_job : omap_get (job_id st) (Coordinator.jobs s) = Some st;
  mv_attempt : omap_get (current st) (Coordinator.attempts s) = Some a;
  mv_jobs : Coordinator.jobs s' = omap_set (job_id st') st' (Coordinator.jobs s);
  mv_attempts : Coordinator.attempts s' = omap_set (RunnerAttempt.id a') a' (Coordinator.attempts s);
  mv_runners : Coordinator.runners s' = Coordinator.runners s;
  mv_immutable : immutable st' = immutable st;
  mv_ids : ids st' = ids st;
  mv_current : current st' = current st;
  mv_identity : identity a' = identity a;
  mv_state : job_status st' = RunnerAttempt.state a';
  mv_life : RunnerAttempt.state a' = RunnerAttempt.state a ∧ terminal (RunnerAttempt.state a) = false ∨
    lifecycle (RunnerAttempt.state a) (RunnerAttempt.state a') = true;
  mv_outputs : Coordinator.outputs s' = Coordinator.outputs s;
  mv_idempotency : Coordinator.idempotency s' = Coordinator.idempotency s;
  mv_retries : Coordinator.retryIdempotency s' = Coordinator.retryIdempotency s;
  mv_event : one_event s s';
}.

Lemma lifecycle_from from to : lifecycle from to = true → terminal from = false.
Proof. by destruct from, to. Qed.

Lemma moved_alive s s' st st' a a' : moved s s' st st' a a' → terminal (RunnerAttempt.state a) = false.
Proof. intros Hm. by destruct (mv_life _ _ _ _ _ _ Hm) as [[? ?]|?%lifecycle_from]. Qed.

Lemma moved_attempts w s s' st st' a a' : inv w s → moved s s' st st' a a' →
  Coordinator.attempts s' = omap_set (current st) a' (Coordinator.attempts s).
Proof.
intros Hi Hm. destruct (inv_attempts _ _ Hi _ _ (mv_attempt _ _ _ _ _ _ Hm)) as [_ [Hid _]].
rewrite (mv_attempts _ _ _ _ _ _ Hm). f_equal. rewrite <-Hid.
by pose proof (mv_identity _ _ _ _ _ _ Hm) as [= ? _].
Qed.

Lemma next_moved w w' s s' st st' a a' :
  inv w s → (uuids_drawn w ≤ uuids_drawn w')%nat → moved s s' st st' a a' →
  credentials_follow w' s s' → next s w' s'.
Proof.
intros Hi Hw Hm (Hcf & Hcb & Hcw). pose proof (moved_alive _ _ _ _ _ _ Hm) as Halive.
pose proof (moved_attempts _ _ _ _ _ _ _ Hi Hm) as Mas.
destruct Hm as [Mj Ma Mjs _ Mr Mim Mids Mcur Mid Mst Ml Mo Mi Mre Me].
apply (inv_later _ _ _ Hw) in Hi as [H1 H2 H3 H4 H5 H6 H7 H8 H9].
assert (blank_job (StoredJob.job st') = blank_job (StoredJob.job st)) as Hblank
  by (unfold immutable in Mim; congruence).
assert (job_id st' = job_id st) as Hid.
{ apply (f_equal RunnerJob.id) in Hblank. done. }
rewrite Hid in Mjs.
destruct (H2 _ _ Mj) as [_ Hjo].
destruct (jo_attempts _ _ _ Hjo (current st)) as (a0 & Ha0 & Hja & Hsa).
{ eapply last_Some_elem_of. by apply (jo_last _ _ _ Hjo). }
rewrite Ma in Ha0. injection Ha0 as <-. rewrite decide_True in Hsa by done.
split; [split|split].
- by rewrite Mr.
- rewrite Mjs. intros k st0. rewrite omap_get_set. case_decide as Hk.
  + intros [= <-]. subst k. split; [by apply H2 in Mj as []|]. destruct Hjo as [O1 O2 O3 O4 O5 O6 O7].
    split; rewrite ?Mids, ?Mcur; try done.
    * intros aid Haid. rewrite Mas, omap_get_set. case_decide as Hk.
      -- subst aid. exists a'. split_and!; [done| |by rewrite decide_True].
         apply (f_equal (λ p, p.1.1.2)) in Mid. simpl in Mid. congruence.
      -- destruct (O4 aid Haid) as (b & Hb & Hbj & Hbs). exists b.
         rewrite decide_False in * by congruence. done.
    * apply (f_equal RunnerJob.artifactOutputContract) in Hblank as Hc.
      apply (f_equal RunnerJob.outputPaths) in Hblank as Hp. simpl in Hc, Hp. by rewrite Hc, Hp.
    * assert (Run.artifactOutputContract (StoredJob.run st') = Run.artifactOutputContract (StoredJob.run st))
        as -> by (unfold immutable in Mim; congruence). done.
    * apply (f_equal RunnerJob.inputManifestDigest) in Hblank. simpl in Hblank.
      unfold immutable in Mim. congruence.
  + intros Hst0. destruct (H2 k st0 Hst0) as [Hd [O1 O2 O3 O4 O5 O6 O7]]. split; [done|]. split; try done.
    intros aid Haid. destruct (O4 aid Haid) as (b & Hb & Hbj & Hbs). rewrite Mas, omap_get_set.
    destruct (decide (current st = aid)) as [Hka|]; [|by exists b]. subst aid. congruence.
- rewrite Mas. intros k b. rewrite omap_get_set. case_decide as Hk.
  + intros [= <-]. subst k. destruct (H3 _ _ Ma) as [Hd [Hia _]]. split; [done|].
    apply (f_equal (λ p, p.1.1)) in Mid as Mid'. simpl in Mid'. injection Mid' as Hia' Hja'.
    split; [congruence|]. exists st'. rewrite Mjs, Hja', Hja, omap_get_set_eq, Mids. split; [done|].
    eapply last_Some_elem_of. by apply (jo_last _ _ _ Hjo).
  + intros Hb. destruct (H3 k b Hb) as [Hd (Hib & stb & Hstb & Hin)]. split; [done|]. split; [done|].
    rewrite Mjs, omap_get_set. case_decide as Hkj; [|by exists stb]. exists st'. split; [done|].
    rewrite Mids. congruence.
- done.
- rewrite Mi. intros k i Hk. destruct (H5 k i Hk) as (st0 & Hst0 & Hkey). rewrite Mjs, omap_get_set.
  case_decide as Hki; [|by exists st0]. exists st'. split; [done|]. subst i.
  apply (f_equal RunnerJob.idempotencyKey) in Hblank. simpl in Hblank. congruence.
- rewrite Mre. intros k i Hk. destruct (H6 k i Hk) as [st0 Hst0]. rewrite Mjs, omap_get_set.
  case_decide; by eexists.
- by eapply numbered_event.
- rewrite Mjs. by apply omap_set_wf.
- done.
- intros k st0 Hk. rewrite Mjs, omap_get_set. case_decide as Hkj.
  + subst k. exists st'. split_and!; [done|congruence|]. left. congruence.
  + exists st0. by split_and!; [| |left].
- intros k st0 Hn. rewrite Mjs, omap_get_set. case_decide; congruence.
- intros k b Hk. rewrite Mas, omap_get_set, Mo. case_decide as Hka.
  + subst k. exists a'. assert (b = a) as -> by congruence. split_and!; [done..|]. rewrite Halive.
    destruct Ml as [[? _]|?]; auto.
  + exists b. split; [done|]. split; [done|]. destruct (terminal (RunnerAttempt.state b)); [done|by left].
- done.
- by rewrite Mi.
- by rewrite Mre.
- by apply prefix_event.
Qed.

Lemma alive_credential w s c a :
  inv w s → omap_get (StoredCredential.id c) (Coordinator.credentials s) = Some c →
  omap_get (StoredCredential.attemptId c) (Coordinator.attempts s) = Some a →
  StoredCredential.status c = CredentialStatus.active →
  in_progress (RunnerAttempt.state a) = true ∧
  RunnerAttempt.jobId a = StoredCredential.jobId c ∧
  RunnerAttempt.runnerId a = Some (StoredCredential.runnerId c) ∧
  RunnerAttempt.leaseExpiresAt a = StoredCredential.expiresAt c.
Proof.
intros Hi Hc Ha Hact. destruct (inv_credentials _ _ Hi _ _ Hc) as (_ & _ & Hb).
destruct (Hb Hact) as (b & Hb' & ?). assert (b = a) as -> by congruence. done.
Qed.

Lemma backed_other s s' k a' c :
  Coordinator.attempts s' = omap_set k a' (Coordinator.attempts s) →
  StoredCredential.attemptId c ≠ k → backed s c → backed s' c.
Proof.
intros Hs' Hne Hb Hact. destruct (Hb Hact) as (b & Hb' & ?). exists b. split; [|done].
rewrite Hs', omap_get_set_ne; congruence.
Qed.

Lemma follow_revoke w s s' st st' a a' :
  inv w s → moved s s' st st' a a' →
  Coordinator.credentials s' =
    (λ p, (p.1, revoke_if (current st) p.2)) <$> Coordinator.credentials s →
  credentials_follow w s s'.
Proof.
intros Hi Hm Hc. split; [|split].
- intros k c Hk. rewrite Hc, omap_get_fmap, Hk. cbn. eexists. split; [done|].
  unfold revoke_if. destruct (String.eqb _ _); [by right|by left].
- intros k c'. rewrite Hc, omap_get_fmap. destruct (omap_get k _) as [c|] eqn:Hk; [|done]. intros [= <-].
  destruct (inv_credentials _ _ Hi _ _ Hk) as (Hd & Hid & Hb). split; [done|]. unfold revoke_if.
  destruct (String.eqb_spec (StoredCredential.attemptId c) (current st)) as [|Hne].
  + split; [done|]. intros [=].
  + split; [done|]. eapply backed_other; [exact (moved_attempts _ _ _ _ _ _ _ Hi Hm)|done..].
- rewrite Hc. unfold omap_wf, omap_keys. rewrite <-list_fmap_compose. by apply (inv_credentials_wf _ _ Hi).
Qed.

Lemma follow_same w s s' st st' a a' :
  inv w s → moved s s' st st' a a' → Coordinator.credentials s' = Coordinator.credentials s →
  (in_progress (RunnerAttempt.state a) = true →
   in_progress (RunnerAttempt.state a') = true ∧ RunnerAttempt.runnerId a' = RunnerAttempt.runnerId a) →
  credentials_follow w s s'.
Proof.
intros Hi Hm Hc Hprog. unfold credentials_follow. rewrite Hc. split; [|split].
- intros k c Hk. exists c. by split; [|left].
- intros k c Hk. destruct (inv_credentials _ _ Hi _ _ Hk) as (Hd & Hid & Hb). split_and!; [done..|].
  destruct (decide (StoredCredential.attemptId c = current st)) as [He|Hne].
  + intros Hact. subst k. destruct (alive_credential _ _ _ a Hi Hk) as (Hp & Hj & Hr & Hl);
      [rewrite He; apply (mv_attempt _ _ _ _ _ _ Hm)|done|].
    exists a'. rewrite He, (moved_attempts _ _ _ _ _ _ _ Hi Hm), omap_get_set_eq.
    destruct (Hprog Hp) as [? Hr']. pose proof (mv_identity _ _ _ _ _ _ Hm) as Hmi.
    injection Hmi as _ Hmj _ Hml. split_and!; congruence.
  + eapply backed_other; [exact (moved_attempts _ _ _ _ _ _ _ Hi Hm)|done..].
- by apply (inv_credentials_wf _ _ Hi).
Qed.

(** The call ends the Attempt, or moves it and keeps its credentials. *)
Lemma next_ended w w' s s' st st' a a' : inv w s → (uuids_drawn w ≤ uuids_drawn w')%nat →
  moved s s' st st' a a' →
  Coordinator.credentials s' =
    (λ p, (p.1, revoke_if (current st) p.2)) <$> Coordinator.credentials s →
  next s w' s'.
Proof.
intros Hi Hw Hm Hc. eapply next_moved; [done..|]. eapply follow_revoke; [|done..]. by eapply inv_later.
Qed.
Lemma next_kept w w' s s' st st' a a' : inv w s → (uuids_drawn w ≤ uuids_drawn w')%nat →
  moved s s' st st' a a' → Coordinator.credentials s' = Coordinator.credentials s →
  (in_progress (RunnerAttempt.state a) = true →
   in_progress (RunnerAttempt.state a') = true ∧ RunnerAttempt.runnerId a' = RunnerAttempt.runnerId a) →
  next s w' s'.
Proof.
intros Hi Hw Hm Hc Hp. eapply next_moved; [done..|]. eapply follow_same; [|done..]. by eapply inv_later.
Qed.

(** The Attempt a Job is at, and their common state. *)
Lemma current_of w s k st : inv w s → omap_get k (Coordinator.jobs s) = Some st →
  job_id st = k ∧ ∃ a, omap_get (current st) (Coordinator.attempts s) = Some a ∧
    RunnerAttempt.id a = current st ∧ RunnerAttempt.jobId a = k ∧ RunnerAttempt.state a = job_status st.
Proof.
intros Hi Hk. destruct (inv_jobs _ _ Hi _ _ Hk) as [_ [O1 O2 _ O4 _ _ _]]. split; [done|].
destruct (O4 (current st)) as (a & Ha & Hj & Hs); [by eapply last_Some_elem_of|].
rewrite decide_True in Hs by done. exists a. split_and!; try done.
by destruct (inv_attempts _ _ Hi _ _ Ha) as [_ [? _]].
Qed.

(** ** The steps of a call *)

Lemma wp_emit t r j at' rn ac fr to rc Q X w s :
  (∀ e, RunnerEvent.sequence e = (Z.of_nat (length (Coordinator.events s)) + 1)%Z →
     ∀ w', uuids_drawn w' = S (uuids_drawn w) →
       Q () w' (s <| Coordinator.events := Coordinator.events s ++ [e] |>)) →
  wp (emit t r j at' rn ac fr to rc) Q X w s.
Proof. intros HQ. unfold emit. wp_step. apply wp_opaqueId. wp_steps. by apply HQ. Qed.
(** The clock is read, and what it says does not matter. *)
Lemma wp_clock Q X w s :
  (∀ t w', uuids_drawn w' = uuids_drawn w → Q t w' s) →
  wp (now : M Coordinator.t failure string) Q X w s.
Proof. intros HQ. apply wp_now. by apply HQ. Qed.
Lemma wp_id p Q X w s :
  (∀ w', uuids_drawn w' = S (uuids_drawn w) → Q (key p (uuids_drawn w)) w' s) →
  wp (opaqueId p : M Coordinator.t failure string) Q X w s.
Proof. intros HQ. apply wp_opaqueId. by apply HQ. Qed.
Lemma wp_random n Q X w s :
  (∀ bytes w', uuids_drawn w' = S (uuids_drawn w) → Q bytes w' s) →
  wp (random n : M Coordinator.t failure string) Q X w s.
Proof. intros HQ. by apply HQ. Qed.

Lemma wp_copy_contract o d Q X w s : contract_ok d o → Q o w s →
  wp (copy_contract (S := Coordinator.t) o d) Q X w s.
Proof.
intros Hc HQ. unfold copy_contract. destruct o as [o|]; [|done]. wp_step. apply wp_lift_err.
- rewrite parse_to_json by auto. intros ? [= <-]. by wp_steps.
- rewrite parse_to_json by auto. done.
Qed.
Lemma wp_copyJob job Q X w s :
  contract_ok (Some (RunnerJob.outputPaths job)) (RunnerJob.artifactOutputContract job) →
  Q job w s → wp (copyJob (S := Coordinator.t) job) Q X w s.
Proof. intros Hc HQ. unfold copyJob. wp_step. apply wp_copy_contract; [done|]. wp_steps. by destruct job. Qed.
Lemma wp_copyRun run Q X w s :
  contract_ok None (Run.artifactOutputContract run) →
  Q run w s → wp (copyRun (S := Coordinator.t) run) Q X w s.
Proof. intros Hc HQ. unfold copyRun. wp_step. apply wp_copy_contract; [done|]. wp_steps. by destruct run. Qed.

Lemma next_refl w w' s : inv w s → (uuids_drawn w ≤ uuids_drawn w')%nat → next s w' s.
Proof. intros Hi Hw. split; [by eapply inv_later|apply act_refl]. Qed.

Definition nexts {A} (m : M Coordinator.t failure A) : Prop :=
  ∀ w s, inv w s → wp m (λ _ w' s', next s w' s') (λ _ w' s', next s w' s') w s.

Lemma nexts_readonly {A} (m : M Coordinator.t failure A) : readonly m → nexts m.
Proof. intros Hm w s Hi. apply wp_readonly; [done|..]; intros; by eapply next_refl. Qed.
(** A check that writes nothing, then the call. *)
Lemma nexts_after {A B} (m : M Coordinator.t failure A) (f : A → M Coordinator.t failure B) :
  readonly m → (∀ x, nexts (f x)) → nexts (m ≫= f).
Proof.
intros Hm Hf w s Hi. apply wp_bind. apply wp_readonly; [done|intros; by apply Hf|].
intros; by eapply next_refl.
Qed.

Lemma readonly_requireRunner id : readonly (requireRunner id).
Proof. unfold requireRunner. solve_readonly. Qed.
Lemma readonly_requireJob id : readonly (requireJob id).
Proof. unfold requireJob. solve_readonly. Qed.
Lemma readonly_requireAttempt id : readonly (requireAttempt id).
Proof. unfold requireAttempt. solve_readonly. Qed.
Lemma readonly_nonEmpty v f : readonly (nonEmpty (S := Coordinator.t) v f).
Proof. unfold nonEmpty. solve_readonly. Qed.
Lemma readonly_unique v f : readonly (unique (S := Coordinator.t) v f).
Proof. unfold unique. solve_readonly. Qed.
Lemma readonly_safeLocation v f e : readonly (safeLocation (S := Coordinator.t) v f e).
Proof. unfold safeLocation, nonEmpty. solve_readonly. Qed.

Lemma current_attempt w s k st a : inv w s → omap_get k (Coordinator.jobs s) = Some st →
  omap_get (RunnerJob.currentAttemptId (StoredJob.job st)) (Coordinator.attempts s) = Some a →
  job_id st = k ∧ RunnerAttempt.id a = current st ∧ RunnerAttempt.jobId a = k ∧
  RunnerAttempt.state a = job_status st.
Proof.
intros Hi Hk Ha. destruct (current_of _ _ _ _ Hi Hk) as (? & b & Hb & ?). unfold current in Hb.
assert (b = a) as -> by congruence. done.
Qed.
End facts.

(** Symbolic execution of a call: clock readings and events by their rules. *)
Ltac run_step :=
  lazymatch goal with
  | |- wp now _ _ _ _ => apply wp_clock; intros ? ? ?
  | |- wp (opaqueId _) _ _ _ _ => apply wp_id; intros ? ?
  | |- wp (random _) _ _ _ _ => apply wp_random; intros ? ? ?
  | |- wp (emit _ _ _ _ _ _ _ _ _) _ _ _ _ => apply wp_emit; intros ? ? ? ?
  | |- _ => wp_step
  end.
Ltac run := repeat (run_step; cbv beta).
Ltac stay := solve [eapply next_refl; [eassumption|lia]].
Ltac quiet :=
  eapply next_quiet; [eassumption|lia|reflexivity|..];
    [try done; simpl; try (by eapply inv_runners)
    |first [by left|right; eexists; split; [reflexivity|done]]].

(** Names the Job and the current Attempt a call has looked up. *)
Ltac current_job Hi st a :=
  match goal with
  | Hj : omap_get _ (Coordinator.jobs ?s) = Some ?x,
    Ha : omap_get (RunnerJob.currentAttemptId (StoredJob.job ?x)) (Coordinator.attempts ?s) = Some ?y
    |- _ =>
      rename x into st, y into a;
      destruct (current_attempt _ _ _ _ _ Hi Hj Ha) as (Hid & Hia & Hja & Hst);
      rewrite ?Hia in *
  end.
(** The Attempt [a] of the Job [st] moves to the state the call has written. *)
Ltac moves rule Hi st a :=
  lazymatch goal with
  | |- _ _ _ ?s' =>
      lazymatch s' with
      | context [@set_field _ _ Coordinator.jobs _ (omap_set _ ?st' _) _] =>
          lazymatch s' with
          | context [@set_field _ _ Coordinator.attempts _ (omap_set _ ?a' _) _] =>
              apply (rule _ _ _ _ st st' a a' Hi)
          end
      end
  end;
  [ lia
  | split;
    first [reflexivity|assumption|congruence|eexists; split; [reflexivity|assumption]
          |left; split; [reflexivity|assumption]|idtac]
  | try reflexivity.. ].

(** The checks a call makes of states, as equations. *)
Ltac states :=
  repeat match goal with
  | H : negb _ = false |- _ => apply negb_false_iff in H
  | H : negb _ = true |- _ => apply negb_true_iff in H
  | H : _ || _ = false |- _ => apply orb_false_iff in H as [? ?]
  | H : _ && _ = true |- _ => apply andb_prop in H as [? ?]
  | H : bool_decide _ = true |- _ => apply bool_decide_eq_true in H
  | H : bool_decide _ = false |- _ => apply bool_decide_eq_false in H
  | H : String.eqb _ _ = true |- _ => apply String.eqb_eq in H
  end.

(** ** The calls *)

Section calls.
Context `{HH : Host} `{RH : RunnerHost}.
Implicit Types (w : World) (s : Coordinator.t) (a : RunnerAttempt.t) (st : StoredJob.t)
  (c : StoredCredential.t).

Lemma nexts_move_runner runner status t rc ac :
  nexts (move_runner runner status t rc ac).
Proof.
intros w s Hi. unfold move_runner, set_runner. run.
quiet. apply omap_all_set; [by eapply inv_runners|done].
Qed.

Lemma nexts_expire jobId : nexts (expire jobId).
Proof.
intros w s Hi. unfold expire, requireJob, requireAttempt, revokeAttemptCredentials, set_attempt, set_job.
run; try stay. current_job Hi st a. moves next_ended Hi st a.
right. simpl. by destruct (RunnerAttempt.state a).
Qed.

Lemma nexts_end_held runner state r t1 t2 jobId :
  state = RunnerJobState.indeterminate ∨ state = RunnerJobState.quarantined →
  nexts (end_held runner state r t1 t2 jobId).
Proof.
intros Hstate w s Hi. unfold end_held, requireJob, requireAttempt, revokeAttemptCredentials, set_attempt, set_job.
run; try stay. current_job Hi st a. states. moves next_ended Hi st a.
right. simpl. rewrite Hst. unfold job_status. destruct Hstate; subst state; by destruct (RunnerJob.state _).
Qed.

Lemma nexts_cancel jobId ac reason : nexts (requestCancellation jobId ac reason).
Proof.
intros w s Hi. unfold requestCancellation, requireJob, requireAttempt, nonEmpty, set_attempt, set_job.
run; try stay. current_job Hi st a. states.
destruct (inv_jobs _ _ Hi _ _ H0) as [_ Hjo].
apply wp_copyJob; [exact (jo_contract _ _ _ Hjo)|]. moves next_kept Hi st a.
- right. simpl. rewrite Hst. unfold job_status, cancellable in *. by destruct (RunnerJob.state _).
- done.
Qed.

Lemma candidate_Some runner jobs st : candidate runner jobs = Some st →
  st ∈ omap_values jobs ∧ offerable runner st = true.
Proof.
unfold candidate. intros [l Hl]%head_Some.
assert (st ∈ base.filter (λ x, offerable runner x = true) (omap_values jobs)) as Hin
  by (rewrite <-(sort_by_Permutation queue_order), Hl; left).
apply list_elem_of_filter in Hin. tauto.
Qed.
Lemma candidate_None runner jobs : candidate runner jobs = None ↔
  ∀ st, st ∈ omap_values jobs → offerable runner st = false.
Proof.
unfold candidate. rewrite head_None. split.
- intros Hl st Hst. destruct (offerable runner st) eqn:Ho; [|done].
  assert (st ∈ base.filter (λ x, offerable runner x = true) (omap_values jobs)) as Hin
    by (by apply list_elem_of_filter).
  rewrite <-(sort_by_Permutation queue_order), Hl in Hin. by apply elem_of_nil in Hin.
- intros Hall. destruct (base.filter _ _) as [|st l] eqn:Hf; [done|]. exfalso.
  assert (st ∈ base.filter (λ x, offerable runner x = true) (omap_values jobs)) as Hin by (rewrite Hf; left).
  apply list_elem_of_filter in Hin as [Ho Hin]. rewrite (Hall _ Hin) in Ho. done.
Qed.

Lemma job_of_value w s st : inv w s → st ∈ omap_values (Coordinator.jobs s) →
  omap_get (job_id st) (Coordinator.jobs s) = Some st.
Proof.
intros Hi Hin. destruct (omap_value_get st _ (inv_jobs_wf _ _ Hi) Hin) as [k Hk].
by destruct (inv_jobs _ _ Hi _ _ Hk) as [_ [-> _ _ _ _ _ _]].
Qed.

Lemma nexts_pull runnerId : nexts (pull runnerId).
Proof.
intros w s Hi. unfold pull, requireRunner, requireAttempt, set_attempt, set_job.
run; try stay. states.
match goal with H : candidate _ _ = Some _ |- _ => apply candidate_Some in H as [Hin Hoff] end.
pose proof (job_of_value _ _ _ Hi Hin) as Hjob. current_job Hi st att.
destruct (inv_jobs _ _ Hi _ _ Hjob) as [_ Hjo].
apply wp_copyJob; [exact (jo_contract _ _ _ Hjo)|]. run. moves next_kept Hi st att.
- right. simpl. by rewrite Heqb.
- by rewrite Heqb.
Qed.

(** ** Credentials *)

Lemma drawn_later p w k n : FreshUUIDs HH → (uuids_drawn w ≤ n)%nat → drawn p w k → k ≠ key p n.
Proof. intros Hf Hn (m & Hm & ->) He%key_inj; [lia|done]. Qed.

Lemma next_claimed n c w w' s s' st st' a a' :
  FreshUUIDs HH → inv w s → (uuids_drawn w ≤ uuids_drawn w')%nat → moved s s' st st' a a' →
  (uuids_drawn w ≤ n < uuids_drawn w')%nat →
  Coordinator.credentials s' = omap_set (key "runner-job-credential" n) c (Coordinator.credentials s) →
  StoredCredential.id c = key "runner-job-credential" n →
  in_progress (RunnerAttempt.state a) = false → in_progress (RunnerAttempt.state a') = true →
  StoredCredential.attemptId c = current st → StoredCredential.jobId c = RunnerAttempt.jobId a →
  RunnerAttempt.runnerId a' = Some (StoredCredential.runnerId c) →
  StoredCredential.expiresAt c = RunnerAttempt.leaseExpiresAt a →
  next s w' s'.
Proof.
intros Hf Hi Hw Hm Hn Hc Hid Hp Hp' Hca Hcj Hcr Hce. eapply next_moved; [done..|].
assert (∀ k b, omap_get k (Coordinator.credentials s) = Some b → k ≠ key "runner-job-credential" n) as Hne.
{ intros k b Hk. destruct (inv_credentials _ _ Hi _ _ Hk) as (Hd & _). by apply (drawn_later _ w); [|lia|]. }
unfold credentials_follow. rewrite Hc. split; [|split].
- intros k b Hk. exists b. rewrite omap_get_set_ne by exact (not_eq_sym (Hne _ _ Hk)). by split; [|left].
- intros k b. rewrite omap_get_set. case_decide as Hk.
  + intros [= <-]. subst k. split_and!; [by exists n; split; [lia|]|done|]. intros _. exists a'.
    rewrite Hca, (moved_attempts _ _ _ _ _ _ _ Hi Hm), omap_get_set_eq.
    pose proof (mv_identity _ _ _ _ _ _ Hm) as Hmi. injection Hmi as _ Hmj _ Hml. split_and!; congruence.
  + intros Hb. destruct (inv_credentials _ _ Hi _ _ Hb) as (Hd & Hbid & Hback).
    split_and!; [eapply drawn_mono; [|done]; lia|done|].
    destruct (decide (StoredCredential.attemptId b = current st)) as [He|].
    * intros Hact. exfalso. destruct (Hback Hact) as (x & Hx & Hxp & _).
      rewrite He, (mv_attempt _ _ _ _ _ _ Hm) in Hx. congruence.
    * eapply backed_other; [exact (moved_attempts _ _ _ _ _ _ _ Hi Hm)|done..].
- apply omap_set_wf, (inv_credentials_wf _ _ Hi).
Qed.

(** A Job and the Attempt it names as its current one. *)
Lemma named_attempt w s j i st a : inv w s →
  omap_get j (Coordinator.jobs s) = Some st → omap_get i (Coordinator.attempts s) = Some a →
  current st = RunnerAttempt.id a →
  i = RunnerJob.currentAttemptId (StoredJob.job st) ∧
  job_id st = j ∧ RunnerAttempt.id a = current st ∧ RunnerAttempt.jobId a = j ∧
  RunnerAttempt.state a = job_status st.
Proof.
intros Hi Hj Ha Hc. destruct (inv_attempts _ _ Hi _ _ Ha) as [_ [Hid _]].
assert (i = current st) as -> by congruence. split; [done|]. by eapply current_attempt.
Qed.

Lemma nexts_claim r j i ch sg : FreshUUIDs HH → nexts (claim r j i ch sg).
Proof.
intros Hf w s Hi. unfold claim, requireRunner, requireJob, requireAttempt, set_attempt, set_job.
run; try stay.
- eapply wp_mono; [by apply nexts_expire; eapply inv_later; [|exact Hi]; lia|intros []|done].
- states. destruct (named_attempt _ _ _ _ _ _ Hi H0 H1) as (-> & Hid & Hia & Hja & Hst); [done|].
  rename a into r0. rename a0 into st, a1 into a.
  destruct (inv_jobs _ _ Hi _ _ H0) as [_ Hjo].
  apply wp_copyJob; [exact (jo_contract _ _ _ Hjo)|]. run.
  match goal with
  | |- context [omap_set (key _ ?n) ?c (Coordinator.credentials s)] =>
      moves (λ w w' s s' st st' a a', next_claimed n c w w' s s' st st' a a' Hf) Hi st a
  end; try done; try lia.
  + right. simpl. by rewrite H15.
  + simpl. by rewrite H15.
Qed.

Lemma next_revoked w w' s c : inv w s → (uuids_drawn w ≤ uuids_drawn w')%nat →
  omap_get (StoredCredential.id c) (Coordinator.credentials s) = Some c →
  next s w' (s <| Coordinator.credentials := omap_set (StoredCredential.id c)
    (c <| StoredCredential.status := CredentialStatus.revoked |>) (Coordinator.credentials s) |>).
Proof.
intros Hi Hw Hc. apply (inv_later _ _ _ Hw) in Hi as Hi'.
destruct Hi' as [H1 H2 H3 H4 H5 H6 H7 H8 H9]. pose proof (act_refl s) as [A1 A2 A3 A4 A5 A6 A7].
split; [|split; try done].
- split; try done; cbn -[omap_get omap_set]; [| |by apply omap_set_wf].
  { intros k st Hk. destruct (H2 k st Hk) as [? []]. split; [done|]. by split. }
  apply omap_all_set; [done|]. destruct (H4 _ _ Hc) as (Hd & Hid & _). by split_and!; [| |intros [=]].
- intros k b Hk. cbn -[omap_get omap_set]. rewrite omap_get_set. case_decide as Hkc; [|by apply A4].
  subst k. eexists. split; [done|]. right. congruence.
Qed.

Lemma credential_of_value w s c : inv w s → c ∈ omap_values (Coordinator.credentials s) →
  omap_get (StoredCredential.id c) (Coordinator.credentials s) = Some c.
Proof.
intros Hi Hin. destruct (omap_value_get c _ (inv_credentials_wf _ _ Hi) Hin) as [k Hk].
by destruct (inv_credentials _ _ Hi _ _ Hk) as (_ & -> & _).
Qed.

(** A call made with a credential: what its authorization establishes. *)
Record authorized w s (token : RunnerJobCredential.t) st a c : Prop := {
  au_token : credential_of token c = true;
  au_credential : omap_get (StoredCredential.id c) (Coordinator.credentials s) = Some c;
  au_active : StoredCredential.status c = CredentialStatus.active;
  au_job : omap_get (StoredCredential.jobId c) (Coordinator.jobs s) = Some st;
  au_attempt : omap_get (StoredCredential.attemptId c) (Coordinator.attempts s) = Some a;
  au_bound : StoredCredential.jobId c = RunnerJobCredential.jobId token ∧
    StoredCredential.attemptId c = RunnerJobCredential.attemptId token ∧
    StoredCredential.runnerId c = RunnerJobCredential.runnerId token;
  au_runner : RunnerAttempt.runnerId a = Some (StoredCredential.runnerId c);
  au_current : current st = RunnerAttempt.id a;
  au_lease : date_le (StoredCredential.expiresAt c) (clock (clock_reads w)) = false;
}.

Lemma wp_authorize token Q (X : failure → World → Coordinator.t → Prop) w s : inv w s →
  (∀ st a c, authorized w s token st a c →
     Q (st, a, c) (mkWorld (uuids_drawn w) (1 + clock_reads w)) s) →
  (∀ e w' s', next s w' s' → X e w' s') →
  wp (authorizeCredential token) Q X w s.
Proof.
intros Hi HQ HX. unfold authorizeCredential, requireJob, requireAttempt.
repeat (wp_step; cbv beta); try (apply HX; eapply next_refl; [eassumption|simpl; lia]); states.
- apply HX. apply (next_revoked w); [done|simpl; lia|].
  match goal with H : find_first _ _ = Some _ |- _ => apply find_first_Some in H as [Hin _] end.
  by apply (credential_of_value w).
- match goal with H : find_first _ _ = Some _ |- _ => apply find_first_Some in H as [Hin Htok] end.
  apply HQ. split; try done. by apply (credential_of_value w).
Qed.

(** The Job and the Attempt of an authorized call. *)
Lemma authorized_attempt w s token st a c : inv w s → authorized w s token st a c →
  omap_get (job_id st) (Coordinator.jobs s) = Some st ∧
  omap_get (RunnerJob.currentAttemptId (StoredJob.job st)) (Coordinator.attempts s) = Some a ∧
  RunnerAttempt.id a = current st ∧ RunnerAttempt.state a = job_status st ∧
  in_progress (RunnerAttempt.state a) = true ∧ StoredCredential.attemptId c = current st.
Proof.
intros Hi [Ht Hc Hact Hj Ha Hb Hr Hcur Hl].
destruct (named_attempt _ _ _ _ _ _ Hi Hj Ha Hcur) as (Hk & Hid & Hia & Hja & Hst).
destruct (alive_credential _ _ _ _ Hi Hc Ha Hact) as [Hp _].
unfold current in *. rewrite Hk in Ha. split_and!; congruence.
Qed.

Lemma nexts_heartbeat token p : nexts (heartbeat token p).
Proof.
intros w s Hi. unfold heartbeat, set_attempt. wp_step. apply (wp_authorize _ _ _ _ _ Hi); [|done].
intros st a c Hau. destruct (authorized_attempt _ _ _ _ _ _ Hi Hau) as (Hj & Ha & Hia & Hst & Hp & _).
run; [eapply next_refl; [exact Hi|simpl; lia]|].
pose proof (λ w' s' st' a', next_kept w w' s s' st st' a a' Hi) as Hkept.
match goal with
| |- next _ ?w' (?s' <| Coordinator.events := _ |>) =>
    match s' with context [omap_set _ ?a' _] => apply (Hkept _ _ st a') end
end; [simpl in *; lia| |reflexivity|done].
split; first [reflexivity|assumption|congruence|eexists; split; [reflexivity|assumption]|idtac].
- cbn -[omap_set]. symmetry. by apply omap_set_same.
- by rewrite <-Hst.
- left. split; [done|]. by destruct (RunnerAttempt.state a).
Qed.

(** ** The end of an Attempt *)

Record ended s s' st st' a a' (state : RunnerJobState.t) (digest : string) : Prop := {
  en_job : omap_get (job_id st) (Coordinator.jobs s') = Some st';
  en_attempt : omap_get (current st) (Coordinator.attempts s') = Some a';
  en_immutable : immutable st' = immutable st;
  en_ids : ids st' = ids st;
  en_current : current st' = current st;
  en_identity : identity a' = identity a;
  en_state : RunnerAttempt.state a' = state;
  en_status : job_status st' = state;
  en_digest : RunnerAttempt.resultDigest a' = Some digest;
  en_outputs : Coordinator.outputs s' = Coordinator.outputs s;
  en_runners : Coordinator.runners s' = Coordinator.runners s;
}.

Lemma wp_completeAttempt st a r state rs d ra rc no Q X w s : inv w s →
  omap_get (job_id st) (Coordinator.jobs s) = Some st →
  omap_get (RunnerJob.currentAttemptId (StoredJob.job st)) (Coordinator.attempts s) = Some a →
  lifecycle (RunnerAttempt.state a) state = true →
  (∀ w' s' st' a', next s w' s' → ended s s' st st' a a' state d → Q (st', a') w' s') →
  wp (completeAttempt st a r state state rs d ra rc no) Q X w s.
Proof.
intros Hi Hj Ha Hlife HQ.
unfold completeAttempt, revokeAttemptCredentials, set_attempt, set_job. run.
destruct (current_attempt _ _ _ _ _ Hi Hj Ha) as (_ & Hia & _ & Hst). rewrite ?Hia in *.
assert (Run.id (complete_run (StoredJob.run st) r rs d no) = Run.id (StoredJob.run st) ∧
  Run.artifactOutputContract (complete_run (StoredJob.run st) r rs d no) =
    Run.artifactOutputContract (StoredJob.run st)) as [Hri Hrc].
{ unfold complete_run. destruct no as [o|]; [|done]. by destruct (NormalizedActionOutput.exitCode o). }
apply HQ.
- moves next_ended Hi st a; [|by right].
  unfold immutable. simpl. by rewrite Hri, Hrc.
- split; try reflexivity.
  + cbn -[omap_get omap_set]. apply omap_get_set_eq.
  + cbn -[omap_get omap_set]. rewrite Hia. apply omap_get_set_eq.
  + unfold immutable. simpl. by rewrite Hri, Hrc.
Qed.

Lemma readonly_completion st a r : readonly (completion st a r).
Proof. unfold completion, copyJob, copyRun, copy_contract. solve_readonly. Qed.
Lemma readonly_snapshot st a : readonly (snapshot st a).
Proof. unfold snapshot, copyJob, copyRun, copy_contract. solve_readonly. Qed.
Lemma readonly_current_snapshot st : readonly (current_snapshot st).
Proof. unfold current_snapshot, requireAttempt, copyJob, copyRun, copy_contract. solve_readonly. Qed.
Lemma readonly_check_result st a c r : readonly (check_result st a c r).
Proof.
unfold check_result, runnerResultContext, runnerResultContextClaims, copy_contract, credentialRunnerPublicKey, requireRunner,
  validateOutput, validate_output, safeLocation, nonEmpty. solve_readonly.
Qed.
Lemma readonly_getters : (∀ i, readonly (getJob i)) ∧ (∀ i, readonly (getRun i)) ∧
  (∀ i, readonly (listAttempts i)) ∧ (∀ i, readonly (getRunner i)) ∧ readonly listEvents.
Proof.
unfold getJob, getRun, listAttempts, getRunner, listEvents, requireJob, requireAttempt, copyJob, copyRun,
  copy_contract. split_and!; intros; solve_readonly.
Qed.

Lemma next_finish {A} (m : M Coordinator.t failure A) w s s0 : next s0 w s → readonly m →
  wp m (λ _ w' s', next s0 w' s') (λ _ w' s', next s0 w' s') w s.
Proof. intros Hn Hm. by apply wp_readonly. Qed.

Lemma nexts_finalize token o r : nexts (finalizeCancellation token o r).
Proof.
intros w s Hi. unfold finalizeCancellation, nonEmpty. run; try stay.
apply (wp_authorize _ _ _ _ _ Hi); [|done]. intros st a c Hau. cbv beta iota.
destruct (authorized_attempt _ _ _ _ _ _ Hi Hau) as (Hj & Ha & Hia & Hst & Hp & _).
run; try (eapply next_refl; [exact Hi|simpl; lia]). states.
apply wp_completeAttempt; [by eapply inv_later; [|exact Hi]; simpl|done|done| |].
- match goal with H : RunnerAttempt.state a = _ |- _ => rewrite H end.
  by destruct (bool_decide _).
- intros w' s' st' a' Hn He. cbv beta iota. apply next_finish; [done|apply readonly_completion].
Qed.

Lemma inv_same w s s' : inv w s →
  (Coordinator.runners s', Coordinator.jobs s', Coordinator.attempts s', Coordinator.credentials s',
   Coordinator.idempotency s', Coordinator.retryIdempotency s', Coordinator.events s') =
  (Coordinator.runners s, Coordinator.jobs s, Coordinator.attempts s, Coordinator.credentials s,
   Coordinator.idempotency s, Coordinator.retryIdempotency s, Coordinator.events s) → inv w s'.
Proof.
intros [H1 H2 H3 H4 H5 H6 H7 H8 H9] [= Hru Hj Ha Hc Hid Hre Hev].
split; unfold numbered; rewrite ?Hru, ?Hj, ?Ha, ?Hc, ?Hid, ?Hre, ?Hev; try done.
- intros k st Hk. destruct (H2 k st Hk) as [? []]. split; [done|]. split; try done. by rewrite Ha.
- intros k a Hk. destruct (H3 k a Hk) as [? [? ?]]. split; [done|]. unfold attempt_ok. by rewrite Hj.
- intros k c Hk. destruct (H4 k c Hk) as (? & ? & Hb). split_and!; [done..|]. unfold backed. by rewrite Ha.
Qed.

(** The outputs of an Attempt that was not over before the call. *)
Lemma next_outputs s w s' k a o : next s w s' → omap_get k (Coordinator.attempts s) = Some a →
  terminal (RunnerAttempt.state a) = false →
  next s w (s' <| Coordinator.outputs := omap_set k o (Coordinator.outputs s') |>).
Proof.
intros [Hi [A1 A2 A3 A4 A5 A6 A7]] Ha Ht. split; [by eapply inv_same|]. split; try done.
intros k' b Hb. destruct (A3 k' b Hb) as (b' & ? & ? & Hend). exists b'. split_and!; [done..|].
destruct (terminal (RunnerAttempt.state b)) eqn:Hbt; [|done]. destruct Hend as [-> <-]. split; [done|].
cbn -[omap_get omap_set]. rewrite omap_get_set_ne; [done|]. intros ->. congruence.
Qed.

(** [map] over the outputs draws ids and writes nothing. *)
Lemma wp_normalized_outputs st a l Q (X : failure → World → Coordinator.t → Prop) w s :
  (∀ os w', (uuids_drawn w ≤ uuids_drawn w')%nat → Q os w' s) →
  (∀ e w', (uuids_drawn w ≤ uuids_drawn w')%nat → X e w' s) →
  wp (map_each l (normalized_output st a)) Q X w s.
Proof.
intros HQ HX. apply (wp_map_each (λ _ _, True) (λ w' s', (uuids_drawn w ≤ uuids_drawn w')%nat ∧ s' = s)).
- intros x w' s' _ [Hw ->]. unfold normalized_output, safeLocation, nonEmpty.
  wp_step. destruct (RunnerOutputInput.id x); [wp_step|apply wp_id; intros w1 Hw1];
    repeat (wp_step; cbv beta); try (apply HX; lia); split_and!; try done; lia.
- intros os w' s' _ [Hw ->]. by apply HQ.
- by split.
Qed.

Lemma in_progress_alive state : in_progress state = true → terminal state = false.
Proof. by destruct state. Qed.

(** What a Result passed when it is accepted. *)
Record accepted w s st a c (result : RunnerResult.t) : Prop := {
  ac_running : job_status st = RunnerJobState.running;
  ac_context : ∃ context runner,
    runnerResultContext (StoredJob.job st) a w s = (Ok context, w, s) ∧
    stableJson (to_json (RunnerResult.context result)) = stableJson (to_json context) ∧
    omap_get (StoredCredential.runnerId c) (Coordinator.runners s) = Some runner ∧
    verifyProof (RunnerProfile.publicKey runner)
      (runnerResultMessage context (RunnerResult.status result) (RunnerResult.output result)
         (RunnerResult.outputs result) (truthy_opt (RunnerResult.recoveryAction result)))
      (RunnerResult.signature result) = true;
  ac_inputs : NormalizedActionOutput.inputDigests (RunnerResult.output result) =
    RunnerJob.inputDigests (StoredJob.job st);
  ac_output : validateOutput (StoredJob.job st) a result w s = (Ok (), w, s);
}.

Lemma readonly_validateOutput job a r : readonly (validateOutput job a r).
Proof. unfold validateOutput, validate_output, safeLocation, nonEmpty. solve_readonly. Qed.
Lemma readonly_runnerResultContext job a : readonly (runnerResultContext (S := Coordinator.t) job a).
Proof. unfold runnerResultContext, runnerResultContextClaims, copy_contract. solve_readonly. Qed.

Lemma check_result_accepted st a c result w s :
  check_result st a c result w s = (Ok (), w, s) → accepted w s st a c result.
Proof.
intros H. apply (wp_Ok (check_result st a c result) (λ _ w' s', w' = w → s' = s → accepted w s st a c result)
  (λ _ _ _, True) w s () w s); [|done..]. clear H.
unfold check_result, credentialRunnerPublicKey, requireRunner, arrayEqual.
wp_steps; try done. apply wp_readonly; [apply readonly_runnerResultContext| |done]. intros ctx Hctx.
wp_steps; try done. apply wp_readonly; [apply readonly_validateOutput| |done]. intros [] Hval _ _.
states. split; try done.
- unfold in_progress, job_status in *. by destruct (RunnerJob.state _).
- by exists ctx, a0.
Qed.

Lemma nexts_submit token result : nexts (submit token result).
Proof.
intros w s Hi. unfold submit. wp_step. apply (wp_authorize _ _ _ _ _ Hi); [|done].
intros st a c Hau. cbv beta iota.
destruct (authorized_attempt _ _ _ _ _ _ Hi Hau) as (Hj & Ha & Hia & Hst & Hp & Hca).
apply wp_bind, wp_readonly; [apply readonly_check_result| |intros; eapply next_refl; [exact Hi|simpl; lia]].
intros [] Hcheck%check_result_accepted. cbv beta zeta. wp_step.
apply wp_completeAttempt; [by eapply inv_later; [|exact Hi]; simpl|done|done| |].
- rewrite Hst, (ac_running _ _ _ _ _ _ Hcheck). by destruct (RunnerResult.status result).
- intros w' s' st' a' Hn He. cbv beta iota. wp_step. apply wp_normalized_outputs.
  + intros os w1 Hw1. cbv beta. wp_step. wp_step. apply next_finish.
    * replace (RunnerAttempt.id a') with (RunnerAttempt.id a)
        by (pose proof (en_identity _ _ _ _ _ _ _ _ He) as [= Hid _]; congruence).
      eapply next_outputs; [|rewrite Hia; exact Ha|by apply in_progress_alive].
      destruct Hn as [Hn ?]. split; [by eapply inv_later|done].
    * apply readonly_bind; [apply readonly_requireRunner|]. intros p.
      apply readonly_bind; [apply readonly_completion|]. intros. apply readonly_ret.
  + intros _ w1 Hw1. destruct Hn as [Hn ?]. split; [by eapply inv_later|done].
Qed.

(** ** New Attempts *)

Lemma fresh_attempt w s n : FreshUUIDs HH → inv w s → (uuids_drawn w ≤ n)%nat →
  omap_get (key "runner-attempt" n) (Coordinator.attempts s) = None.
Proof.
intros Hf Hi Hn. apply eq_None_not_Some. intros [a Ha].
destruct (inv_attempts _ _ Hi _ _ Ha) as [Hd _]. by eapply drawn_later.
Qed.
Lemma fresh_job w s n : FreshUUIDs HH → inv w s → (uuids_drawn w ≤ n)%nat →
  omap_get (key "runner-job" n) (Coordinator.jobs s) = None.
Proof.
intros Hf Hi Hn. apply eq_None_not_Some. intros [st Hst].
destruct (inv_jobs _ _ Hi _ _ Hst) as [Hd _]. by eapply drawn_later.
Qed.
Lemma job_key_truthy w s k st : inv w s → omap_get k (Coordinator.jobs s) = Some st → truthy k = true.
Proof. intros Hi Hk. destruct (inv_jobs _ _ Hi _ _ Hk) as [Hd _].
eapply drawn_truthy; [|exact Hd]. done. Qed.
Lemma unused_key w s k : inv w s → truthy_opt (omap_get k (Coordinator.idempotency s)) = None →
  omap_get k (Coordinator.idempotency s) = None.
Proof.
intros Hi. destruct (omap_get k _) as [id|] eqn:Hk; [|done]. simpl.
destruct (inv_idempotency _ _ Hi _ _ Hk) as (st & Hst & _). by rewrite (job_key_truthy _ _ _ _ Hi Hst).
Qed.
Lemma unused_retry_key w s k : inv w s → truthy_opt (omap_get k (Coordinator.retryIdempotency s)) = None →
  omap_get k (Coordinator.retryIdempotency s) = None.
Proof.
intros Hi. destruct (omap_get k _) as [id|] eqn:Hk; [|done]. simpl.
destruct (inv_retries _ _ Hi _ _ Hk) as [st Hst]. by rewrite (job_key_truthy _ _ _ _ Hi Hst).
Qed.

(** What an addition leaves as it was. *)
Record added w w' s s' (n : nat) a : Prop := {
  ad_fresh : FreshUUIDs HH;
  ad_later : (uuids_drawn w ≤ n < uuids_drawn w')%nat;
  ad_runners : Coordinator.runners s' = Coordinator.runners s;
  ad_attempts : Coordinator.attempts s' = omap_set (RunnerAttempt.id a) a (Coordinator.attempts s);
  ad_id : RunnerAttempt.id a = key "runner-attempt" n;
  ad_state : RunnerAttempt.state a = RunnerJobState.queued;
  ad_credentials : Coordinator.credentials s' = Coordinator.credentials s;
  ad_outputs : Coordinator.outputs s' = Coordinator.outputs s;
  ad_event : one_event s s';
}.

Section added.
Context w w' s s' n a (Hi : inv w s) (Had : added w w' s s' n a).

Lemma added_get k : omap_get k (Coordinator.attempts s') =
  if decide (RunnerAttempt.id a = k) then Some a else omap_get k (Coordinator.attempts s).
Proof. by rewrite (ad_attempts _ _ _ _ _ _ Had), omap_get_set. Qed.
Lemma added_new : omap_get (RunnerAttempt.id a) (Coordinator.attempts s) = None.
Proof.
rewrite (ad_id _ _ _ _ _ _ Had). destruct (ad_later _ _ _ _ _ _ Had).
by apply (fresh_attempt w); [apply Had|..].
Qed.
Lemma added_kept k b : omap_get k (Coordinator.attempts s) = Some b →
  omap_get k (Coordinator.attempts s') = Some b.
Proof. intros Hk. rewrite added_get. case_decide; [|done]. subst k. pose proof added_new. congruence. Qed.
Lemma added_job k st : job_ok s k st → job_ok s' k st.
Proof.
intros []. split; try done. intros aid Haid. destruct (jo_attempts0 aid Haid) as (b & Hb & ?).
exists b. by rewrite (added_kept _ _ Hb).
Qed.
Lemma added_credentials : omap_all (λ k c, drawn "runner-job-credential" w' k ∧
  StoredCredential.id c = k ∧ backed s' c) (Coordinator.credentials s').
Proof.
rewrite (ad_credentials _ _ _ _ _ _ Had). intros k c Hk.
destruct (inv_credentials _ _ Hi _ _ Hk) as (Hd & Hid & Hb). destruct (ad_later _ _ _ _ _ _ Had).
split_and!; [eapply drawn_mono; [|done]; lia|done|]. intros Hact. destruct (Hb Hact) as (b & Hbk & ?).
exists b. by rewrite (added_kept _ _ Hbk).
Qed.
Lemma added_act_attempts k b : omap_get k (Coordinator.attempts s) = Some b →
  ∃ b', omap_get k (Coordinator.attempts s') = Some b' ∧ identity b' = identity b ∧
    if terminal (RunnerAttempt.state b)
    then b' = b ∧ omap_get k (Coordinator.outputs s') = omap_get k (Coordinator.outputs s)
    else RunnerAttempt.state b' = RunnerAttempt.state b ∨
         lifecycle (RunnerAttempt.state b) (RunnerAttempt.state b') = true.
Proof.
intros Hk. exists b. rewrite (added_kept _ _ Hk), (ad_outputs _ _ _ _ _ _ Had). split_and!; [done..|].
destruct (terminal _); [done|by left].
Qed.
End added.

Lemma next_new_job w w' s s' n a m st : inv w s → added w w' s s' n a →
  (uuids_drawn w ≤ m < uuids_drawn w')%nat →
  Coordinator.jobs s' = omap_set (job_id st) st (Coordinator.jobs s) →
  job_id st = key "runner-job" m → RunnerAttempt.jobId a = job_id st →
  ids st = [RunnerAttempt.id a] → current st = RunnerAttempt.id a →
  job_status st = RunnerJobState.queued →
  contract_ok (Some (RunnerJob.outputPaths (StoredJob.job st)))
    (RunnerJob.artifactOutputContract (StoredJob.job st)) →
  contract_ok None (Run.artifactOutputContract (StoredJob.run st)) →
  StoredJob.requestDigest st = RunnerJob.inputManifestDigest (StoredJob.job st) →
  Coordinator.idempotency s' = omap_set (RunnerJob.idempotencyKey (StoredJob.job st)) (job_id st)
    (Coordinator.idempotency s) →
  omap_get (RunnerJob.idempotencyKey (StoredJob.job st)) (Coordinator.idempotency s) = None →
  Coordinator.retryIdempotency s' = Coordinator.retryIdempotency s →
  next s w' s'.
Proof.
intros Hi Had Hm Hjs Hjid Hja Hids Hcur Hstat Hc Hr Hd Hid Hfree Hre.
assert (omap_get (job_id st) (Coordinator.jobs s) = None) as Hnew.
{ rewrite Hjid. apply (fresh_job w); [apply Had|done|lia]. }
assert (∀ k st0, omap_get k (Coordinator.jobs s) = Some st0 →
  omap_get k (Coordinator.jobs s') = Some st0) as Hkept.
{ intros k st0 Hk. rewrite Hjs, omap_get_set_ne; [done|]. congruence. }
pose proof (ad_later _ _ _ _ _ _ Had). split; split.
- rewrite (ad_runners _ _ _ _ _ _ Had). apply (inv_runners _ _ Hi).
- rewrite Hjs. apply omap_all_set.
  + intros k st0 Hk. destruct (inv_jobs _ _ Hi _ _ Hk) as [Hdr Hjo].
    split; [eapply drawn_mono; [|done]; lia|]. by eapply added_job.
  + split; [exists m; split; [lia|done]|]. split; rewrite ?Hids, ?Hcur; try done.
    * apply NoDup_singleton.
    * intros aid ->%list_elem_of_singleton. exists a. rewrite (added_get _ _ _ _ _ _ Had), decide_True by done.
      split_and!; [done..|]. rewrite decide_True by done. by rewrite Hstat, (ad_state _ _ _ _ _ _ Had).
- rewrite (ad_attempts _ _ _ _ _ _ Had). apply omap_all_set.
  + intros k b Hk. destruct (inv_attempts _ _ Hi _ _ Hk) as [Hdr (Hb & st0 & Hst0 & Hin)].
    split; [eapply drawn_mono; [|done]; lia|]. split; [done|]. exists st0. by rewrite (Hkept _ _ Hst0).
  + split; [exists n; split; [lia|apply Had]|]. split; [done|]. exists st.
    rewrite Hja, Hjs, omap_get_set_eq, Hids. split; [done|left].
- by eapply added_credentials.
- rewrite Hid. apply omap_all_set.
  + intros k id Hk. destruct (inv_idempotency _ _ Hi _ _ Hk) as (st0 & Hst0 & ?). exists st0.
    by rewrite (Hkept _ _ Hst0).
  + exists st. by rewrite Hjs, omap_get_set_eq.
- rewrite Hre. intros k id Hk. destruct (inv_retries _ _ Hi _ _ Hk) as [st0 Hst0]. exists st0. by apply Hkept.
- eapply numbered_event; [apply Had|apply Hi].
- rewrite Hjs. apply omap_set_wf, Hi.
- rewrite (ad_credentials _ _ _ _ _ _ Had). apply Hi.
- intros k st0 Hk. exists st0. split_and!; [by apply Hkept|done|by left].
- intros k st0 Hno. rewrite Hjs, omap_get_set. case_decide; [|congruence]. intros [= <-].
  exists (RunnerAttempt.id a), a. rewrite (added_get _ _ _ _ _ _ Had), decide_True by done.
  split_and!; [done..|apply Had].
- by eapply added_act_attempts.
- rewrite (ad_credentials _ _ _ _ _ _ Had). intros k c Hk. exists c. by split; [|left].
- rewrite Hid. by apply extends_set_fresh.
- by rewrite Hre.
- by apply prefix_event, Had.
Qed.

Lemma next_retried w w' s s' n a st st' rk : inv w s → added w w' s s' n a →
  omap_get (job_id st) (Coordinator.jobs s) = Some st →
  Coordinator.jobs s' = omap_set (job_id st') st' (Coordinator.jobs s) →
  immutable st' = immutable st → retryable (job_status st) = true →
  RunnerAttempt.jobId a = job_id st → ids st' = ids st ++ [RunnerAttempt.id a] →
  current st' = RunnerAttempt.id a → job_status st' = RunnerJobState.queued →
  Coordinator.idempotency s' = Coordinator.idempotency s →
  Coordinator.retryIdempotency s' = omap_set rk (job_id st) (Coordinator.retryIdempotency s) →
  omap_get rk (Coordinator.retryIdempotency s) = None →
  next s w' s'.
Proof.
intros Hi Had Hst Hjs Him Hretry Hja Hids Hcur Hstat Hid Hre Hfree.
assert (blank_job (StoredJob.job st') = blank_job (StoredJob.job st)) as Hblank
  by (unfold immutable in Him; congruence).
assert (job_id st' = job_id st) as Hjid by (by apply (f_equal RunnerJob.id) in Hblank).
rewrite Hjid in Hjs. destruct (inv_jobs _ _ Hi _ _ Hst) as [Hdr [O1 O2 O3 O4 O5 O6 O7]].
assert (∀ aid, aid ∈ ids st → aid ≠ RunnerAttempt.id a) as Hother.
{ intros aid Hin ->. destruct (O4 _ Hin) as (b & Hb & _). pose proof (added_new _ _ _ _ _ _ Hi Had). congruence. }
assert (∀ k st0, omap_get k (Coordinator.jobs s) = Some st0 → ∃ st1,
  omap_get k (Coordinator.jobs s') = Some st1 ∧ ids st0 ⊆ ids st1 ∧
  blank_job (StoredJob.job st1) = blank_job (StoredJob.job st0)) as Hkept.
{ intros k st0 Hk. rewrite Hjs, omap_get_set. case_decide; [|by exists st0]. exists st'.
  assert (st0 = st) as -> by congruence. split_and!; [done| |done]. rewrite Hids. set_solver. }
pose proof (ad_later _ _ _ _ _ _ Had). split; split.
- rewrite (ad_runners _ _ _ _ _ _ Had). apply (inv_runners _ _ Hi).
- rewrite Hjs. apply omap_all_set.
  + intros k st0 Hk. destruct (inv_jobs _ _ Hi _ _ Hk) as [Hd Hjo].
    split; [eapply drawn_mono; [|done]; lia|]. by eapply added_job.
  + split; [eapply drawn_mono; [|done]; lia|]. split; rewrite ?Hids, ?Hcur; try done.
    * by rewrite last_snoc.
    * apply NoDup_app. split_and!; [done| |apply NoDup_singleton].
      intros aid Hin ->%list_elem_of_singleton. by apply (Hother _ Hin).
    * intros aid [Hin| ->%list_elem_of_singleton]%elem_of_app.
      -- destruct (O4 aid Hin) as (b & Hb & Hbj & Hbs). exists b.
         rewrite (added_kept _ _ _ _ _ _ Hi Had _ _ Hb). split_and!; [done..|].
         rewrite decide_False by (by apply Hother). case_decide; [|done]. rewrite Hbs.
         unfold retryable in Hretry. by apply andb_prop in Hretry as [].
      -- exists a. rewrite (added_get _ _ _ _ _ _ Had), decide_True by done.
         split_and!; [done..|]. rewrite decide_True by done. by rewrite Hstat, (ad_state _ _ _ _ _ _ Had).
    * apply (f_equal RunnerJob.artifactOutputContract) in Hblank as Hc.
      apply (f_equal RunnerJob.outputPaths) in Hblank as Hp. simpl in Hc, Hp. by rewrite Hc, Hp.
    * assert (Run.artifactOutputContract (StoredJob.run st') = Run.artifactOutputContract (StoredJob.run st))
        as -> by (unfold immutable in Him; congruence). done.
    * apply (f_equal RunnerJob.inputManifestDigest) in Hblank. simpl in Hblank.
      unfold immutable in Him. congruence.
- rewrite (ad_attempts _ _ _ _ _ _ Had). apply omap_all_set.
  + intros k b Hk. destruct (inv_attempts _ _ Hi _ _ Hk) as [Hd (Hb & st0 & Hst0 & Hin)].
    split; [eapply drawn_mono; [|done]; lia|]. split; [done|].
    destruct (Hkept _ _ Hst0) as (st1 & Hst1 & Hsub & _). exists st1. split; [done|]. by apply Hsub.
  + split; [exists n; split; [lia|apply Had]|]. split; [done|]. exists st'.
    rewrite Hja, Hjs, omap_get_set_eq, Hids. split; [done|]. apply elem_of_app. right. left.
- by eapply added_credentials.
- rewrite Hid. intros k id Hk. destruct (inv_idempotency _ _ Hi _ _ Hk) as (st0 & Hst0 & Hkey).
  destruct (Hkept _ _ Hst0) as (st1 & Hst1 & _ & Hb). exists st1. split; [done|].
  apply (f_equal RunnerJob.idempotencyKey) in Hb. simpl in Hb. congruence.
- rewrite Hre. apply omap_all_set.
  + intros k id Hk. destruct (inv_retries _ _ Hi _ _ Hk) as [st0 Hst0].
    destruct (Hkept _ _ Hst0) as (st1 & Hst1 & _). by exists st1.
  + rewrite Hjs, omap_get_set_eq. by eexists.
- eapply numbered_event; [apply Had|apply Hi].
- rewrite Hjs. apply omap_set_wf, Hi.
- rewrite (ad_credentials _ _ _ _ _ _ Had). apply Hi.
- intros k st0 Hk. rewrite Hjs, omap_get_set. case_decide as Hkj; [|exists st0; split_and!; [done..|by left]].
  subst k. assert (st0 = st) as -> by congruence. exists st'. split_and!; [done..|]. right.
  exists (RunnerAttempt.id a), a. split_and!; [done|done|by eapply added_new| |apply Had].
  by rewrite (added_get _ _ _ _ _ _ Had), decide_True.
- intros k st0 Hno. rewrite Hjs, omap_get_set. case_decide; [|congruence]. subst k. congruence.
- by eapply added_act_attempts.
- rewrite (ad_credentials _ _ _ _ _ _ Had). intros k c Hk. exists c. by split; [|left].
- by rewrite Hid.
- rewrite Hre. by apply extends_set_fresh.
- by apply prefix_event, Had.
Qed.

Lemma nexts_retry j k l ac : FreshUUIDs HH → nexts (retry j k l ac).
Proof.
intros Hf w s Hi. unfold retry, requireJob, requireAttempt, nonEmpty, futureTimestamp, set_attempt, set_job.
run; try stay; states.
- apply next_finish; [|apply readonly_current_snapshot]. eapply next_refl; [exact Hi|lia].
- apply next_finish; [|apply readonly_snapshot].
  match goal with H : truthy_opt _ = None |- _ => apply (unused_retry_key _ _ _ Hi) in H end.
  match goal with H : omap_get j (Coordinator.jobs s) = Some ?x |- _ =>
    rename x into st; destruct (current_of _ _ _ _ Hi H) as [Hid _] end.
  match goal with |- next _ _ (set_field Coordinator.events _ ?s') => match s' with
    | context [omap_set _ ?st' (Coordinator.jobs _)] => match s' with
    | context [omap_set _ ?a' (Coordinator.attempts s)] =>
      eapply (next_retried w _ s _ (uuids_drawn w') a' st st' k Hi) end end end;
    try done; [|by rewrite Hid].
  split; try done; [lia|eexists; split; [reflexivity|done]].
Qed.

Lemma contract_ok_weaken d o : contract_ok d o → contract_ok None o.
Proof. intros Ho c Hc. destruct (Ho c Hc). by split. Qed.
Lemma wp_declared_contract act Q (X : failure → World → Coordinator.t → Prop) w s :
  (∀ o, contract_ok (Some (Action.outputPaths act)) o → Q o w s) → (∀ e, X e w s) →
  wp (declared_contract act) Q X w s.
Proof.
intros HQ HX. unfold declared_contract. destruct (Action.artifactOutputContract act) as [c|].
- wp_steps; [|by apply HX]. apply HQ. intros c' [= <-].
  match goal with H : parseActionArtifactOutputContract _ _ = Ok _ |- _ => by apply parse_spec in H as [] end.
- apply wp_ret, HQ. done.
Qed.
Lemma readonly_normalizeOutputLocations l : readonly (normalizeOutputLocations (S := Coordinator.t) l).
Proof. unfold normalizeOutputLocations, safeLocation, nonEmpty. solve_readonly. Qed.

Lemma nexts_enqueue r : FreshUUIDs HH → nexts (enqueue r).
Proof.
intros Hf w s Hi. unfold enqueue, nonEmpty, unique, futureTimestamp, set_attempt, set_job. cbv zeta.
wp_step. wp_step; [stay|]. wp_step. wp_step. cbv beta. wp_step. wp_step. wp_step; [stay|]. wp_step. cbv beta.
wp_step. apply wp_readonly; [apply readonly_normalizeOutputLocations| |intros; stay]. intros locations _.
wp_step. apply wp_declared_contract; [|intros; stay]. intros contract Hc. wp_step; run; try stay.
{ apply next_finish; [by eapply next_refl; [exact Hi|]|apply readonly_current_snapshot]. }
all: apply next_finish; [|apply readonly_snapshot].
all: lazymatch goal with
  | Hu : truthy_opt _ = None, Hi : inv ?w ?s |- next ?s _ (set_field Coordinator.events _ ?s') =>
      apply (unused_key _ _ _ Hi) in Hu;
      match s' with
      | context [omap_set _ ?st (Coordinator.jobs s)] =>
          match s' with
          | context [omap_set _ (new_attempt (key ?p ?n) (key ?q ?m) ?x1 ?x2 ?x3 ?x4) (Coordinator.attempts _)] =>
              apply (next_new_job w _ s _ n (new_attempt (key p n) (key q m) x1 x2 x3 x4) m st Hi)
          end
      end
  end; try done; try lia.
all: try (split; try done; [lia|eexists; split; [reflexivity|done]]).
all: by eapply contract_ok_weaken.
Qed.

(** ** The loss of a Runner

    It may end many Attempts in one call, each of them once: what is over is
    not held any more. *)

Record drained s s' : Prop := {
  dr_jobs : ∀ k st, omap_get k (Coordinator.jobs s) = Some st →
    ∃ st', omap_get k (Coordinator.jobs s') = Some st' ∧ immutable st' = immutable st ∧ ids st' = ids st;
  dr_no_job : ∀ k, omap_get k (Coordinator.jobs s) = None → omap_get k (Coordinator.jobs s') = None;
  dr_attempts : ∀ k a, omap_get k (Coordinator.attempts s) = Some a →
    ∃ a', omap_get k (Coordinator.attempts s') = Some a' ∧ identity a' = identity a ∧
      (a' = a ∨ held (RunnerAttempt.state a) = true ∧ terminal (RunnerAttempt.state a') = true ∧
                lifecycle (RunnerAttempt.state a) (RunnerAttempt.state a') = true);
  dr_credentials : ∀ k c, omap_get k (Coordinator.credentials s) = Some c →
    ∃ c', omap_get k (Coordinator.credentials s') = Some c' ∧
      (c' = c ∨ c' = c <| StoredCredential.status := CredentialStatus.revoked |>);
  dr_outputs : Coordinator.outputs s' = Coordinator.outputs s;
  dr_idempotency : Coordinator.idempotency s' = Coordinator.idempotency s;
  dr_retries : Coordinator.retryIdempotency s' = Coordinator.retryIdempotency s;
  dr_events : Coordinator.events s `prefix_of` Coordinator.events s';
}.

Lemma held_alive state : held state = true → terminal state = false.
Proof. by destruct state. Qed.

Lemma drained_act s s' : drained s s' → act s s'.
Proof.
intros [D1 D2 D3 D4 D5 D6 D7 D8]. split; rewrite ?D5, ?D6, ?D7; try done.
- intros k st Hk. destruct (D1 k st Hk) as (st' & ? & ? & ?). exists st'. split_and!; [done..|by left].
- intros k st Hn Hk. apply D2 in Hn. congruence.
- intros k a Hk. destruct (D3 k a Hk) as (a' & ? & ? & Ha). exists a'. split_and!; [done..|].
  destruct Ha as [->|(Hh & _ & Hl)]; [destruct (terminal _); [done|by left]|].
  rewrite (held_alive _ Hh). by right.
Qed.

#[local] Instance drained_preorder : PreOrder drained.
Proof.
split.
- intros s. split; try done.
  + intros k st ?. by exists st.
  + intros k a ?. exists a. split_and!; [done..|by left].
  + intros k c ?. exists c. split; [done|by left].
- intros s1 s2 s3 [D1 D2 D3 D4 D5 D6 D7 D8] [E1 E2 E3 E4 E5 E6 E7 E8]. split; try congruence.
  + intros k st Hk. destruct (D1 k st Hk) as (st2 & Hk2 & ? & ?).
    destruct (E1 k st2 Hk2) as (st3 & ? & ? & ?). exists st3. split_and!; congruence.
  + auto.
  + intros k a Hk. destruct (D3 k a Hk) as (a2 & Hk2 & ? & H2). destruct (E3 k a2 Hk2) as (a3 & ? & ? & H3).
    exists a3. split_and!; [done|congruence|]. destruct H2 as [->|(Hh & Ht & Hl)]; [done|].
    destruct H3 as [->|(Hh' & _)]; [by right|]. apply held_alive in Hh'. congruence.
  + intros k c Hk. destruct (D4 k c Hk) as (c2 & Hk2 & H2). destruct (E4 k c2 Hk2) as (c3 & ? & H3).
    exists c3. split; [done|]. destruct H2 as [->| ->], H3 as [->| ->]; auto.
  + by etrans.
Qed.

Definition drain s w' s' : Prop := inv w' s' ∧ drained s s'.

Lemma drain_ended w w' s s' st st' a a' : inv w s → (uuids_drawn w ≤ uuids_drawn w')%nat →
  moved s s' st st' a a' →
  Coordinator.credentials s' =
    (λ p, (p.1, revoke_if (current st) p.2)) <$> Coordinator.credentials s →
  held (RunnerAttempt.state a) = true → terminal (RunnerAttempt.state a') = true →
  drain s w' s'.
Proof.
intros Hi Hw Hm Hc Hh Ht. pose proof (next_ended _ _ _ _ _ _ _ _ Hi Hw Hm Hc) as [Hi' [_ _ _ A4 _ _ A7]].
split; [done|]. pose proof (moved_attempts _ _ _ _ _ _ _ Hi Hm) as Mas.
destruct Hm as [Mj Ma Mjs _ Mr Mim Mids Mcur Mid Mst Ml Mo Mid' Mre Me].
assert (job_id st' = job_id st) as Hjid.
{ assert (blank_job (StoredJob.job st') = blank_job (StoredJob.job st)) as Hb
    by (unfold immutable in Mim; congruence). by apply (f_equal RunnerJob.id) in Hb. }
rewrite Hjid in Mjs. split; try done; rewrite ?Mjs, ?Mas.
- intros k st0 Hk. rewrite omap_get_set. case_decide; [|by exists st0]. subst k. exists st'.
  assert (st0 = st) as -> by congruence. done.
- intros k Hk. rewrite omap_get_set. case_decide; congruence.
- intros k b Hk. rewrite omap_get_set. case_decide; [|exists b; split_and!; [done..|by left]]. subst k.
  assert (b = a) as -> by congruence. exists a'. split_and!; [done..|]. right. split_and!; [done..|].
  destruct Ml as [[He _]|?]; [|done]. rewrite He, (held_alive _ Hh) in Ht. done.
Qed.

Definition drains {A} (m : M Coordinator.t failure A) : Prop :=
  ∀ w s, inv w s → wp m (λ _ w' s', drain s w' s') (λ _ w' s', drain s w' s') w s.

Lemma drain_refl w w' s : inv w s → (uuids_drawn w ≤ uuids_drawn w')%nat → drain s w' s.
Proof. intros Hi Hw. split; [by eapply inv_later|done]. Qed.
Lemma drains_readonly {A} (m : M Coordinator.t failure A) : readonly m → drains m.
Proof. intros Hm w s Hi. apply wp_readonly; [done|..]; intros; by eapply drain_refl. Qed.
Lemma drains_bind {A B} (m : M Coordinator.t failure A) (f : A → M Coordinator.t failure B) :
  drains m → (∀ x, drains (f x)) → drains (m ≫= f).
Proof.
intros Hm Hf w s Hi. apply wp_bind. eapply wp_mono; [by apply Hm| |done].
intros x w1 s1 [Hi1 Hd1]. eapply wp_mono; [by apply Hf|..].
all: intros ? w2 s2 [Hi2 Hd2]; split; [done|by etrans].
Qed.
Lemma drains_for_each {A} (l : list A) (f : A → M Coordinator.t failure ()) :
  (∀ x, drains (f x)) → drains (for_each l f).
Proof.
intros Hf. induction l as [|x l IH]; simpl; [apply drains_readonly, readonly_ret|].
apply drains_bind; [done|]. by intros [].
Qed.

Lemma drains_end_held runner state r t1 t2 jobId :
  state = RunnerJobState.indeterminate ∨ state = RunnerJobState.quarantined →
  drains (end_held runner state r t1 t2 jobId).
Proof.
intros Hstate w s Hi. unfold end_held, requireJob, requireAttempt, revokeAttemptCredentials, set_attempt, set_job.
run; try (eapply drain_refl; [eassumption|lia]). current_job Hi st a.
match goal with H : negb _ || negb _ = false |- _ => apply orb_false_iff in H as [_ Hheld] end.
apply negb_false_iff in Hheld. moves drain_ended Hi st a.
- right. simpl. rewrite Hst. unfold job_status. destruct Hstate; subst state; by destruct (RunnerJob.state _).
- by rewrite Hst.
- simpl. destruct Hstate; by subst state.
Qed.
Lemma drains_move_runner runner status t rc ac : drains (move_runner runner status t rc ac).
Proof.
intros w s Hi. unfold move_runner, set_runner. run.
match goal with |- drain _ ?w' ?s' => assert (next s w' s') as [Hi' Ha] end.
{ quiet. apply omap_all_set; [by eapply inv_runners|done]. }
split; [done|]. destruct (reflexivity s : drained s s) as [D1 D2 D3 D4 D5 D6 D7 D8].
split; try done. by apply (act_events _ _ Ha).
Qed.

Lemma drains_nexts {A} (m : M Coordinator.t failure A) : drains m → nexts m.
Proof.
intros Hm w s Hi. eapply wp_mono; [by apply Hm|..]; intros ? w' s' [??]; (split; [done|by apply drained_act]).
Qed.

Lemma nexts_unavailable id ac reason : nexts (markRunnerUnavailable id ac reason).
Proof.
apply drains_nexts. unfold markRunnerUnavailable.
apply drains_bind; [apply drains_readonly, readonly_nonEmpty|intros _].
apply drains_bind; [apply drains_readonly, readonly_requireRunner|intros runner].
apply drains_bind; [apply drains_move_runner|intros runner'].
apply drains_bind; [apply drains_readonly, readonly_gets|intros jobs].
apply drains_bind; [|intros _; apply drains_readonly, readonly_ret].
apply drains_for_each. intros j. apply drains_end_held. by left.
Qed.
Lemma nexts_quarantine id ac reason : nexts (quarantineRunner id ac reason).
Proof.
apply drains_nexts. unfold quarantineRunner.
apply drains_bind; [apply drains_readonly, readonly_nonEmpty|intros _].
apply drains_bind; [apply drains_readonly, readonly_requireRunner|intros runner].
apply drains_bind; [apply drains_move_runner|intros runner'].
apply drains_bind; [apply drains_readonly, readonly_gets|intros jobs].
apply drains_bind; [|intros _; apply drains_readonly, readonly_ret].
apply drains_for_each. intros j. apply drains_end_held. by right.
Qed.
Lemma nexts_enroll input : nexts (enrollRunner input).
Proof.
intros w s Hi. unfold enrollRunner, nonEmpty, unique, set_runner. run; try stay.
quiet. apply omap_all_set; [by eapply inv_runners|done].
Qed.
Lemma nexts_activate id ac : nexts (activateRunner id ac).
Proof.
unfold activateRunner. apply nexts_after; [apply readonly_requireRunner|]. intros runner.
apply nexts_after; [apply readonly_throw_if|]. intros _. apply nexts_move_runner.
Qed.
Lemma nexts_disable id ac reason : nexts (disableRunner id ac reason).
Proof.
unfold disableRunner. apply nexts_after; [apply readonly_nonEmpty|]. intros _.
apply nexts_after; [apply readonly_requireRunner|]. intros runner. apply nexts_move_runner.
Qed.

Lemma nexts_unit {A} (m : M Coordinator.t failure A) : nexts m → nexts (m ≫= λ _, mret ()).
Proof. intros Hm w s Hi. apply wp_bind. eapply wp_mono; [by apply Hm| |done]. done. Qed.

Lemma nexts_perform op : FreshUUIDs HH → nexts (perform op).
Proof.
intros Hf. destruct op; apply nexts_unit.
- apply nexts_enroll.
- apply nexts_activate.
- apply nexts_disable.
- apply nexts_unavailable.
- apply nexts_quarantine.
- by apply nexts_enqueue.
- apply nexts_pull.
- by apply nexts_claim.
- apply nexts_heartbeat.
- apply nexts_cancel.
- apply nexts_finalize.
- apply nexts_submit.
- apply nexts_expire.
- by apply nexts_retry.
Qed.
End calls.
