(* ===== verification/RunnerLife.v ===== *)
(** The promises of the Runner coordinator: it refines an abstract machine of
    Attempt histories, what is over stays as it is, a Result is accepted once
    and only as its context, its signature and its outputs allow, a Job is
    offered only to a Runner that matches it, requests are idempotent, and no
    Job is ever stuck. *)

From S2P Require Import Prelude Encoding Json Contracts ContractsJson ArtifactOutputs Runner RunnerFacts.

(** * The abstract machine

    All it knows of a Job is the states of its Attempts, oldest first. *)

Definition History : Type := list RunnerJobState.t.

Inductive turn : History → History → Prop :=
| turn_move past from to :
    lifecycle from to = true → turn (past ++ [from]) (past ++ [to])
| turn_retry past from :
    retryable from = true → turn (past ++ [from]) ((past ++ [from]) ++ [RunnerJobState.queued]).

(** One call: a known Job takes at most one turn, a new one starts queued. *)
Definition spec_step (m m' : string → option History) : Prop :=
  (∀ k h, m k = Some h → ∃ h', m' k = Some h' ∧ (h' = h ∨ turn h h')) ∧
  (∀ k h', m k = None → m' k = Some h' → h' = [RunnerJobState.queued]).

(** Every Attempt but the last has ended without success. *)
Definition orderly (h : History) : Prop :=
  ∃ past last, h = past ++ [last] ∧ Forall (λ x, retryable x = true) past.

Lemma turn_orderly h h' : turn h h' → orderly h → orderly h'.
Proof.
intros Ht (past & x & -> & Hp). inversion Ht as [past' from to Hl Heq|past' from Hr Heq]; subst.
- apply app_inj_tail in Heq as [-> ->]. by exists past, to.
- apply app_inj_tail in Heq as [-> ->]. exists (past ++ [x]), RunnerJobState.queued. split; [done|].
  apply Forall_app. by split; [|constructor].
Qed.

(** * The abstraction *)

Definition attempt_state (s : Coordinator.t) (aid : string) : option RunnerJobState.t :=
  RunnerAttempt.state <$> omap_get aid (Coordinator.attempts s).
Definition history (s : Coordinator.t) (stored : StoredJob.t) : option History :=
  mapM (attempt_state s) (ids stored).
Definition abs (s : Coordinator.t) (jobId : string) : option History :=
  stored ← omap_get jobId (Coordinator.jobs s); history s stored.

Definition reachable `{HH : Host} `{RH : RunnerHost} (σ : World * Coordinator.t) : Prop :=
  ∃ w realmId projectId, rtc step (w, initial realmId projectId) σ.

Section life.
Context `{HH : Host} `{RH : RunnerHost}.
Implicit Types (w : World) (s : Coordinator.t) (a : RunnerAttempt.t) (st : StoredJob.t)
  (c : StoredCredential.t) (σ : World * Coordinator.t).

Lemma inv_initial w r p : inv w (initial r p).
Proof. split; try apply omap_all_nil; try done; apply omap_nil_wf. Qed.

Lemma step_next σ σ' : FreshUUIDs HH → inv σ.1 σ.2 → step σ σ' → inv σ'.1 σ'.2 ∧ act σ.2 σ'.2.
Proof.
intros Hf Hi (op & result & Hop).
pose proof (wp_run _ _ _ _ _ _ _ _ (nexts_perform op Hf σ.1 σ.2 Hi) Hop) as H. by destruct result.
Qed.
Lemma steps_inv σ σ' : FreshUUIDs HH → rtc step σ σ' → inv σ.1 σ.2 → inv σ'.1 σ'.2.
Proof.
intros Hf Hs. induction Hs as [|σ1 σ2 σ3 H12 _ IH]; [done|]. intros Hi. apply IH.
by destruct (step_next _ _ Hf Hi H12).
Qed.
Lemma reachable_coordinator σ : FreshUUIDs HH → reachable σ → inv σ.1 σ.2.
Proof. intros Hf (w & r & p & Hs). apply (steps_inv _ _ Hf Hs). apply inv_initial. Qed.

Lemma history_Some w s k st : inv w s → omap_get k (Coordinator.jobs s) = Some st →
  ∃ h, history s st = Some h ∧ abs s k = Some h.
Proof.
intros Hi Hk. destruct (inv_jobs _ _ Hi _ _ Hk) as [_ Hjo].
assert (is_Some (history s st)) as [h Hh].
{ apply mapM_is_Some, Forall_forall. intros aid Haid.
  destruct (jo_attempts _ _ _ Hjo aid Haid) as (a & Ha & _). simpl. unfold attempt_state. rewrite Ha. by eexists. }
exists h. split; [done|]. unfold abs. by rewrite Hk.
Qed.

(** The history of a Job, but for its last Attempt, and the last one. *)
Lemma ids_snoc st : last (ids st) = Some (current st) → ∃ past, ids st = past ++ [current st].
Proof. intros Hl. by apply last_Some in Hl. Qed.

Lemma attempt_kept s s' aid x : act s s' → attempt_state s aid = Some x → terminal x = true →
  attempt_state s' aid = Some x.
Proof.
intros Ha. unfold attempt_state. destruct (omap_get aid (Coordinator.attempts s)) as [a|] eqn:Hk; [|done].
intros [= <-] Ht. destruct (act_attempts _ _ Ha _ _ Hk) as (a' & -> & _ & Hend). rewrite Ht in Hend.
by destruct Hend as [-> _].
Qed.

Lemma mapM_mono {A B} (f g : A → option B) (l : list A) : ∀ k,
  mapM f l = Some k → (∀ x y, x ∈ l → f x = Some y → g x = Some y) → mapM g l = Some k.
Proof.
induction l as [|x l IH]; intros k H Hfg; [done|].
apply bind_Some in H as (y & Hy & (k' & Hk & [= <-])%bind_Some). cbn.
rewrite (Hfg x y) by (by left || done). cbn. rewrite (IH k'); [done..|].
intros ????. apply Hfg; [by right|done].
Qed.
Lemma mapM_snoc {A B} (f : A → option B) (l : list A) x h : mapM f (l ++ [x]) = Some h ↔
  ∃ k y, mapM f l = Some k ∧ f x = Some y ∧ h = k ++ [y].
Proof.
revert h. induction l as [|z l IH]; intros h; cbn.
- destruct (f x) as [y|]; cbn; [|naive_solver]. split.
  + intros [= <-]. by exists [], y.
  + by intros (? & ? & [= <-] & [= <-] & ->).
- destruct (f z) as [y|]; cbn; [|naive_solver]. rewrite bind_Some. setoid_rewrite IH. split.
  + intros (? & (k & v & Hk & Hv & ->) & [= <-]). exists (y :: k), v. by rewrite Hk.
  + intros (k & v & (k' & Hk & [= <-])%bind_Some & Hv & ->). exists (k' ++ [v]). split; [|done].
    by exists k', v.
Qed.

(** One call is one turn at most of each Job. *)
Lemma act_refines w s w' s' : inv w s → inv w' s' → act s s' → spec_step (abs s) (abs s').
Proof.
intros Hi Hi' Hact. split.
- intros k h Hh. unfold abs in Hh. apply bind_Some in Hh as (st & Hk & Hh).
  destruct (act_jobs _ _ Hact _ _ Hk) as (st' & Hk' & _ & Hids). unfold abs. rewrite Hk'. cbn.
  destruct (inv_jobs _ _ Hi _ _ Hk) as [_ Hjo]. pose proof (jo_last _ _ _ Hjo) as Hlast.
  destruct (ids_snoc _ Hlast) as [past Hpast]. unfold history in *. rewrite Hpast in Hh.
  apply mapM_snoc in Hh as (hp & x & Hhp & Hx & ->).
  assert (mapM (attempt_state s') past = Some hp) as Hhp'.
  { eapply mapM_mono; [exact Hhp|]. intros aid y Hin Hy. eapply attempt_kept; [done..|].
    destruct (jo_attempts _ _ _ Hjo aid) as (a & Ha & _ & Hst); [rewrite Hpast; set_solver|].
    unfold attempt_state in Hy. rewrite Ha in Hy. injection Hy as <-.
    rewrite decide_False in Hst; [done|]. intros ->. pose proof (jo_nodup _ _ _ Hjo) as Hnd.
    rewrite Hpast in Hnd. apply NoDup_app in Hnd as (_ & Hd & _). apply (Hd _ Hin). left. }
  assert (∃ y, attempt_state s' (current st) = Some y ∧ (y = x ∨ terminal x = false ∧ lifecycle x y = true))
    as (y & Hy & Hxy).
  { unfold attempt_state in *. destruct (omap_get (current st) _) as [a|] eqn:Ha; [|done].
    injection Hx as <-. destruct (act_attempts _ _ Hact _ _ Ha) as (a' & -> & _ & Hend). eexists.
    split; [done|]. destruct (terminal (RunnerAttempt.state a)); [destruct Hend as [-> _]|]; naive_solver. }
  destruct Hids as [->|(aid & a & -> & Hr & _ & Haid & Hq)]; rewrite Hpast.
  + exists (hp ++ [y]). split; [apply mapM_snoc; by exists hp, y|].
    destruct Hxy as [->|[_ Hl]]; [by left|right]. by constructor.
  + assert (x = job_status st) as ->.
    { destruct (current_of _ _ _ _ Hi Hk) as (_ & b & Hb & _ & _ & Hs). unfold attempt_state in Hx.
      rewrite Hb in Hx. simpl in Hx. congruence. }
    exists ((hp ++ [job_status st]) ++ [RunnerJobState.queued]). split.
    * apply mapM_snoc. exists (hp ++ [job_status st]), RunnerJobState.queued. split_and!; [|by unfold attempt_state; rewrite Haid; simpl; rewrite Hq|done].
      apply mapM_snoc. exists hp, (job_status st). split_and!; [done| |done].
      destruct Hxy as [->|[Ht _]]; [done|]. unfold retryable in Hr. rewrite Ht in Hr. done.
    * right. by constructor.
- intros k h Hno. unfold abs at 1. destruct (omap_get k (Coordinator.jobs s')) as [st'|] eqn:Hk'; [|done].
  assert (omap_get k (Coordinator.jobs s) = None) as Hk.
  { destruct (omap_get k (Coordinator.jobs s)) as [st|] eqn:Hk; [|done].
    destruct (history_Some _ _ _ _ Hi Hk) as (? & _ & ?). congruence. }
  destruct (act_new_jobs _ _ Hact _ _ Hk Hk') as (aid & a & Hids & Ha & Hq). cbn. unfold history.
  rewrite Hids. cbn. unfold attempt_state. rewrite Ha. cbn. rewrite Hq. by intros [= <-].
Qed.

Definition all_orderly s : Prop := ∀ k h, abs s k = Some h → orderly h.

Lemma spec_orderly s s' : spec_step (abs s) (abs s') → all_orderly s → all_orderly s'.
Proof.
intros [H1 H2] Ho k h' Hk'. destruct (abs s k) as [h|] eqn:Hk.
- destruct (H1 _ _ Hk) as (h1 & Hk1 & Hor). assert (h1 = h') as -> by congruence.
  destruct Hor as [->|Ht]; [by eapply Ho|]. eapply turn_orderly; [done|]. by eapply Ho.
- rewrite (H2 _ _ Hk Hk'). exists [], RunnerJobState.queued. by split.
Qed.
Lemma reachable_orderly σ : FreshUUIDs HH → reachable σ → all_orderly σ.2.
Proof.
intros Hf (w & r & p & Hs).
assert (inv (w, initial r p).1 (w, initial r p).2) as Hi by apply inv_initial.
assert (all_orderly (w, initial r p).2) as Ho by done.
induction Hs as [|σ1 σ2 σ3 H12 _ IH]; [done|]. destruct (step_next _ _ Hf Hi H12) as [Hi' Ha].
apply IH; [done|]. eapply spec_orderly; [|done]. by eapply act_refines.
Qed.

(** ** What is over *)

Lemma steps_over σ σ' k a : FreshUUIDs HH → rtc step σ σ' → inv σ.1 σ.2 →
  omap_get k (Coordinator.attempts σ.2) = Some a → terminal (RunnerAttempt.state a) = true →
  omap_get k (Coordinator.attempts σ'.2) = Some a ∧
  omap_get k (Coordinator.outputs σ'.2) = omap_get k (Coordinator.outputs σ.2).
Proof.
intros Hf Hs. induction Hs as [|σ1 σ2 σ3 H12 _ IH]; [done|]. intros Hi Ha Ht.
destruct (step_next _ _ Hf Hi H12) as [Hi' Hact].
destruct (act_attempts _ _ Hact _ _ Ha) as (a' & Ha' & _ & Hend). rewrite Ht in Hend.
destruct Hend as [-> Ho]. destruct (IH Hi' Ha' Ht) as [? ->]. done.
Qed.
Lemma steps_kept σ σ' : FreshUUIDs HH → rtc step σ σ' → inv σ.1 σ.2 →
  extends (Coordinator.idempotency σ.2) (Coordinator.idempotency σ'.2) ∧
  ∀ k st, omap_get k (Coordinator.jobs σ.2) = Some st →
    ∃ st', omap_get k (Coordinator.jobs σ'.2) = Some st' ∧ immutable st' = immutable st.
Proof.
intros Hf Hs. induction Hs as [|σ1 σ2 σ3 H12 _ IH]; [split; [done|intros k st ?; by exists st]|].
intros Hi. destruct (step_next _ _ Hf Hi H12) as [Hi' Hact]. destruct (IH Hi') as [He Hj]. split.
- etrans; [by apply (act_idempotency _ _ Hact)|done].
- intros k st Hk. destruct (act_jobs _ _ Hact _ _ Hk) as (st2 & Hk2 & Him & _).
  destruct (Hj _ _ Hk2) as (st3 & ? & ?). exists st3. split; congruence.
Qed.

(** ** Results *)

Lemma run_bind {A B} (m : M Coordinator.t failure A) (f : A → M Coordinator.t failure B) w s b w' s' :
  (m ≫= f) w s = (Ok b, w', s') →
  ∃ x w1 s1, m w s = (Ok x, w1, s1) ∧ f x w1 s1 = (Ok b, w', s').
Proof.
unfold mbind, M_bind. destruct (m w s) as [[[x|e] w1] s1]; [|done]. intros H. by exists x, w1, s1.
Qed.

Lemma authorize_Ok token w s x w1 s1 : inv w s → authorizeCredential token w s = (Ok x, w1, s1) →
  ∃ st a c, x = (st, a, c) ∧ authorized w s token st a c ∧ s1 = s ∧ uuids_drawn w1 = uuids_drawn w.
Proof.
intros Hi Hrun. eapply (wp_Ok _ (λ x w1 s1, ∃ st a c, x = (st, a, c) ∧ authorized w s token st a c ∧
  s1 = s ∧ uuids_drawn w1 = uuids_drawn w) (λ _ _ _, True)); [|exact Hrun].
apply wp_authorize; [done| |done]. intros st a c Hau. by exists st, a, c.
Qed.

(** A call that needs a credential of an Attempt that is over does not succeed. *)
Lemma over_refused {A} token (f : StoredJob.t * RunnerAttempt.t * StoredCredential.t →
    M Coordinator.t failure A) w s a x w' s' : inv w s →
  omap_get (RunnerJobCredential.attemptId token) (Coordinator.attempts s) = Some a →
  terminal (RunnerAttempt.state a) = true →
  (authorizeCredential token ≫= f) w s ≠ (Ok x, w', s').
Proof.
intros Hi Ha Ht H. apply run_bind in H as (y & w1 & s1 & H & _).
apply (authorize_Ok _ _ _ _ _ _ Hi) in H as (st & b & c & -> & Hau & _).
destruct (authorized_attempt _ _ _ _ _ _ Hi Hau) as (_ & _ & _ & _ & Hp & _).
destruct Hau as [_ _ _ _ Hb (_ & Hbt & _) _ _ _]. rewrite Hbt in Hb.
assert (b = a) as -> by congruence. apply in_progress_alive in Hp. congruence.
Qed.

(** The state a successful [submit] leaves. *)
Record submitted σ σ' (token : RunnerJobCredential.t) (result : RunnerResult.t)
    st a c : Prop := {
  sb_authorized : authorized σ.1 σ.2 token st a c;
  sb_accepted : ∃ w, accepted w σ.2 st a c result;
  sb_attempt : ∃ a', omap_get (RunnerAttempt.id a) (Coordinator.attempts σ'.2) = Some a' ∧
    RunnerAttempt.state a' = ResultStatus.job_state (RunnerResult.status result) ∧
    RunnerAttempt.resultDigest a' = Some (result_digest (job_id st) (RunnerAttempt.id a) result);
  sb_job : ∃ st', omap_get (job_id st) (Coordinator.jobs σ'.2) = Some st' ∧
    job_status st' = ResultStatus.job_state (RunnerResult.status result);
  sb_credentials : ∀ k c', omap_get k (Coordinator.credentials σ'.2) = Some c' →
    StoredCredential.attemptId c' = RunnerAttempt.id a →
    StoredCredential.status c' = CredentialStatus.revoked;
}.

Lemma inv_over w s k a c' : inv w s → omap_get k (Coordinator.credentials s) = Some c' →
  omap_get (StoredCredential.attemptId c') (Coordinator.attempts s) = Some a →
  terminal (RunnerAttempt.state a) = true → StoredCredential.status c' = CredentialStatus.revoked.
Proof.
intros Hi Hk Ha Ht. destruct (StoredCredential.status c') eqn:Hst; [|done]. exfalso.
destruct (inv_credentials _ _ Hi _ _ Hk) as (_ & _ & Hb). destruct (Hb Hst) as (b & Hb' & Hp & _).
assert (b = a) as -> by congruence. apply in_progress_alive in Hp. congruence.
Qed.

Lemma submit_Ok token result x σ σ' : FreshUUIDs HH → inv σ.1 σ.2 →
  submit token result σ.1 σ.2 = (Ok x, σ'.1, σ'.2) → ∃ st a c, submitted σ σ' token result st a c.
Proof.
intros Hf Hi Hrun.
assert (inv σ'.1 σ'.2) as Hi'.
{ pose proof (wp_run _ _ _ _ _ _ _ _ (nexts_submit token result σ.1 σ.2 Hi) Hrun) as [? _]. done. }
unfold submit in Hrun. apply run_bind in Hrun as (y & w1 & s1 & Hau & Hrun).
apply (authorize_Ok _ _ _ _ _ _ Hi) in Hau as (st & a & c & -> & Hau & -> & Hw1).
apply run_bind in Hrun as ([] & w2 & s2 & Hcheck & Hrun).
destruct (readonly_check_result st a c result w1 σ.2) as [o Ho].
assert (w2 = w1 ∧ s2 = σ.2) as [-> ->] by (split; congruence).
pose proof (check_result_accepted _ _ _ _ _ _ Hcheck) as Hacc.
apply run_bind in Hrun as ([st' a'] & w3 & s3 & Hcomp & Hrun).
destruct (authorized_attempt _ _ _ _ _ _ Hi Hau) as (Hj & Ha & Hia & Hst & Hp & _).
eapply (wp_Ok _ (λ p w' s', next σ.2 w' s' ∧ ended σ.2 s' st p.1 a p.2 (ResultStatus.job_state
  (RunnerResult.status result)) (result_digest (job_id st) (RunnerAttempt.id a) result)) (λ _ _ _, True))
  in Hcomp as [_ He]; cycle 1.
{ apply wp_completeAttempt; [by eapply inv_later; [|exact Hi]; lia|done|done| |].
  - rewrite Hst, (ac_running _ _ _ _ _ _ Hacc). by destruct (RunnerResult.status result).
  - intros w' s' st2 a2 Hn He. by split. }
simpl in He. exists st, a, c.
assert (Coordinator.attempts σ'.2 = Coordinator.attempts s3 ∧
  Coordinator.jobs σ'.2 = Coordinator.jobs s3) as [Has Hjs].
{ eapply (wp_Ok _ (λ _ _ s', Coordinator.attempts s' = Coordinator.attempts s3 ∧
    Coordinator.jobs s' = Coordinator.jobs s3) (λ _ _ _, True)); [|exact Hrun].
  wp_step. apply wp_normalized_outputs; [|done]. intros os w4 _. wp_step. wp_step. wp_step.
  apply wp_readonly; [apply readonly_requireRunner| |done]. intros p _. wp_step.
  apply wp_readonly; [apply readonly_completion| |done]. done. }
assert (omap_get (RunnerAttempt.id a) (Coordinator.attempts σ'.2) = Some a') as Ha'.
{ rewrite Has, Hia. apply He. }
split; [done|by exists w1|..].
- exists a'. split_and!; [done|apply He..].
- exists st'. rewrite Hjs. split; apply He.
- intros k c' Hk Hc'. eapply inv_over; [done..| |]; [rewrite Hc'; exact Ha'|].
  rewrite (en_state _ _ _ _ _ _ _ _ He). by destruct (RunnerResult.status result).
Qed.

(** ** Outputs *)

(** A location below a root: no traversal, not absolute. *)
Definition normal_location (location : string) : string :=
  strip_trailing char_slash (replace_char char_backslash char_slash location).
Record contained (location root : string) : Prop := {
  ct_below : location = root ∨ ∃ rest, location = strip_slash root +:+ "/" +:+ rest;
  ct_relative : starts_with "/" location = false ∧ drive_prefix location = false ∧ location ≠ "";
  ct_segments : ∀ segment, segment ∈ split char_slash location → segment ≠ ".." ∧ segment ≠ ".";
}.

(** What is accepted of one output. *)
Record in_scope (job : RunnerJob.t) a (o : RunnerOutputInput.t) : Prop := {
  sc_present : blank (RunnerOutputInput.location o) = false ∧
    blank (RunnerOutputInput.digest o) = false ∧ blank (RunnerOutputInput.receipt o) = false;
  sc_identity : RunnerOutputInput.runId o = None ∧ RunnerOutputInput.attemptId o = None;
  sc_location : contained (normal_location (RunnerOutputInput.location o))
    (location_of (RunnerJob.outputLocations job) (RunnerOutputInput.kind o));
  sc_disclosure : (disclosureRank (DisclosurePolicyRef.classification (RunnerOutputInput.disclosure o)) ≤
    disclosureRank (DisclosurePolicyRef.classification (RunnerJob.disclosure job)))%Z;
  sc_attempt : RunnerOutputInput.kind o = RunnerOutputKind.artifact →
    includes (RunnerAttempt.id a) (normal_location (RunnerOutputInput.location o)) = true;
}.

Record valid_outputs (job : RunnerJob.t) a (result : RunnerResult.t) : Prop := {
  vo_declared : validateActionArtifactOutputs (RunnerJob.artifactOutputContract job)
    (RunnerJob.outputPaths job) (ResultStatus.show (RunnerResult.status result))
    (NormalizedActionOutput.outputDigests (RunnerResult.output result))
    (logical_output <$> RunnerResult.outputs result) = Ok ();
  vo_status : NormalizedActionOutput.status (RunnerResult.output result) = RunnerResult.status result;
  vo_paths : Forall (λ d, ∃ path, pathFromDigest d = Some path ∧ path ∈ RunnerJob.outputPaths job)
    (NormalizedActionOutput.outputDigests (RunnerResult.output result));
  vo_once : NoDup (pathFromDigest <$> NormalizedActionOutput.outputDigests (RunnerResult.output result));
  vo_complete : RunnerResult.status result = ResultStatus.succeeded →
    pathFromDigest <$> NormalizedActionOutput.outputDigests (RunnerResult.output result) ≡ₚ
      Some <$> remove_dups (RunnerJob.outputPaths job);
  vo_outputs : Forall (in_scope job a) (RunnerResult.outputs result);
}.

Lemma unsafe_location_spec location : unsafe_location location = false ↔
  (starts_with "/" location = false ∧ drive_prefix location = false ∧ location ≠ "") ∧
  ∀ segment, segment ∈ split char_slash location → segment ≠ ".." ∧ segment ≠ ".".
Proof.
unfold unsafe_location. rewrite !orb_false_iff, existsb_false_iff, String.eqb_neq.
setoid_rewrite orb_false_iff. setoid_rewrite String.eqb_neq. naive_solver.
Qed.
Lemma locationWithin_spec location root : locationWithin location root = true ↔
  location = root ∨ ∃ rest, location = strip_slash root +:+ "/" +:+ rest.
Proof.
unfold locationWithin. rewrite orb_true_iff, String.eqb_eq, starts_with_spec. cbn [cat foldr].
setoid_rewrite str_app_assoc. by rewrite str_app_nil_r.
Qed.

Lemma disclosureAllows_spec x y : disclosureAllows x y = true ↔ (disclosureRank y ≤ disclosureRank x)%Z.
Proof. apply Z.leb_le. Qed.

Lemma readonly_Ok (m : M Coordinator.t failure ()) w s : readonly m →
  wp m (λ _ _ _, True) (λ _ _ _, False) w s → m w s = (Ok (), w, s).
Proof. intros Hm. unfold wp. destruct (Hm w s) as [[[]|e] ->]; done. Qed.

Lemma validate_output_Ok job a o w s :
  validate_output job a o w s = (Ok (), w, s) ↔ in_scope job a o.
Proof.
unfold validate_output, safeLocation, nonEmpty. split.
- intros H. apply (wp_Ok _ (λ _ _ _, in_scope job a o) (λ _ _ _, True)) in H; [done|]. clear H.
  wp_steps; try done. states. fold (normal_location (RunnerOutputInput.location o)) in *.
  match goal with H : unsafe_location _ = false |- _ => apply unsafe_location_spec in H as [??] end.
  split; try done.
  + split; by apply eq_None_not_Some.
  + split; [by apply locationWithin_spec|done|done].
  + by apply disclosureAllows_spec.
  + intros Hk. match goal with H : bool_decide _ && _ = false |- _ => rewrite bool_decide_eq_true_2 in H by done;
      by apply negb_false_iff in H end.
- intros [(H1 & H2 & H3) [H4 H5] [H6 H7 H8] H9 H10].
  assert (unsafe_location (normal_location (RunnerOutputInput.location o)) = false) as Hu
    by (by apply unsafe_location_spec).
  apply locationWithin_spec in H6. apply disclosureAllows_spec in H9. unfold normal_location in *.
  apply readonly_Ok; [solve_readonly|].
  wp_steps; try congruence.
  all: repeat match goal with
    | H : _ || _ = true |- _ => rewrite H4, H5 in H; discriminate H
    | H : negb _ = true |- _ => apply negb_true_iff in H; congruence
    | H : bool_decide _ && _ = true |- _ =>
        apply andb_prop in H as [Hk%bool_decide_eq_true H]; rewrite (H10 Hk) in H; discriminate H
    end.
  done.
Qed.

Lemma for_each_Ok {A} (l : list A) (f : A → M Coordinator.t failure ()) w s :
  (∀ x, readonly (f x)) →
  for_each l f w s = (Ok (), w, s) ↔ Forall (λ x, f x w s = (Ok (), w, s)) l.
Proof.
intros Hf. induction l as [|x l IH]; cbn [for_each]; [split; [constructor|done]|].
rewrite Forall_cons, <-IH. unfold mbind at 1, M_bind at 1. destruct (Hf x w s) as [[[]|e] Ho]; rewrite Ho; naive_solver.
Qed.

Lemma validateOutput_Ok job a result w s :
  validateOutput job a result w s = (Ok (), w, s) ↔ valid_outputs job a result.
Proof.
assert (∀ o, readonly (validate_output job a o)) as Hro
  by (intros; unfold validate_output, safeLocation, nonEmpty; solve_readonly).
set (received := pathFromDigest <$> NormalizedActionOutput.outputDigests (RunnerResult.output result)).
assert (existsb (λ path : option string, match path with
    | Some path => negb (list_includes (remove_dups (RunnerJob.outputPaths job)) path)
    | None => true end) received = false ↔
  Forall (λ d, ∃ path, pathFromDigest d = Some path ∧ path ∈ RunnerJob.outputPaths job)
    (NormalizedActionOutput.outputDigests (RunnerResult.output result))) as Hpaths.
{ unfold received. rewrite existsb_false_iff, Forall_forall. setoid_rewrite list_elem_of_fmap. split.
  - intros H d Hd. specialize (H (pathFromDigest d)). destruct (pathFromDigest d) as [p|] eqn:Hp.
    + exists p. split; [done|]. rewrite <-(elem_of_remove_dups _ p), <-list_includes_spec.
      apply negb_false_iff, H. exists d. by rewrite Hp.
    + assert (true = false); [apply H; exists d; by rewrite Hp|done].
  - intros H x (d & -> & Hd). destruct (H d Hd) as (p & -> & Hp). apply negb_false_iff, list_includes_spec.
    by apply elem_of_remove_dups. }
assert (negb (length (remove_dups received) =? length received)%nat = false ↔ NoDup received) as Honce.
{ split.
  - rewrite negb_false_iff, Nat.eqb_eq. intros Hl.
    assert (remove_dups received ≡ₚ received) as <-; [|apply NoDup_remove_dups].
    apply submseteq_length_Permutation; [|lia]. apply NoDup_submseteq; [apply NoDup_remove_dups|].
    intros x. by rewrite elem_of_remove_dups.
  - intros Hnd. apply negb_false_iff, Nat.eqb_eq, Permutation_length, NoDup_Permutation;
      [apply NoDup_remove_dups|done|]. intros x. apply elem_of_remove_dups. }
split.
- intros H. apply (wp_Ok _ (λ _ _ _, valid_outputs job a result) (λ _ _ _, True)) in H; [done|]. clear H.
  unfold validateOutput. fold received. wp_steps; try done.
  apply wp_readonly; [by apply readonly_for_each| |done]. intros [] Hall.
  apply for_each_Ok in Hall; [|done].
  match goal with H : existsb _ received = false |- _ => apply Hpaths in H as Hp end.
  match goal with H : _ || _ = false |- _ => apply orb_false_iff in H as [Hnd%Honce Hlen] end.
  states. repeat match goal with x : () |- _ => destruct x end.
  split; try done.
  + intros Hs. rewrite Hs, bool_decide_eq_true_2 in Hlen by done. cbn [andb] in Hlen.
    apply negb_false_iff, Nat.eqb_eq in Hlen. fold received.
    apply submseteq_length_Permutation; [|by rewrite length_fmap; apply Nat.eq_le_incl].
    apply NoDup_submseteq; [done|]. intros x (d & -> & Hd)%list_elem_of_fmap.
    rewrite Forall_forall in Hp. destruct (Hp d Hd) as (p & -> & Hin).
    apply list_elem_of_fmap. exists p. split; [done|]. by apply elem_of_remove_dups.
  + eapply Forall_impl; [exact Hall|]. intros o. by apply validate_output_Ok.
- intros [Hd Hs Hp Ho Hc Hall]. apply readonly_Ok; [apply readonly_validateOutput|].
  apply Hpaths in Hp. apply Honce in Ho.
  unfold validateOutput. fold received. wp_steps.
  + by rewrite bool_decide_eq_true_2 in *.
  + congruence.
  + rewrite Ho in *. cbn [orb] in *.
    match goal with H : bool_decide _ && _ = true |- _ =>
      apply andb_prop in H as [Hst%bool_decide_eq_true Hl%negb_true_iff%Nat.eqb_neq] end.
    apply Hl. unfold received. by rewrite (Permutation_length (Hc Hst)), length_fmap.
  + unfold wp. rewrite (proj2 (for_each_Ok _ _ w s Hro)); [done|].
    eapply Forall_impl; [exact Hall|]. intros o. by apply validate_output_Ok.
  + congruence.
Qed.

(** ** Offers *)

(** What a Runner must have to be offered a Job. *)
Record matches (runner : RunnerProfile.t) (job : RunnerJob.t) : Prop := {
  ma_active : RunnerProfile.status runner = RunnerStatus.active;
  ma_requirements : RunnerJob.runnerRequirements job ⊆ RunnerProfile.capabilities runner;
  ma_network : RunnerJob.networkDestinations job ⊆ RunnerProfile.networkDestinations runner;
  ma_enforcement : RunnerJob.networkDestinations job = [] ↔
    RunnerProfile.networkEnforcement runner = RunnerNetworkEnforcement.deny_all;
  ma_secrets : RunnerJob.secretUseAliases job ≠ [] →
    RunnerProfile.secretUse runner = RunnerSecretUse.brokered;
  ma_artifacts : RunnerJob.outputPaths job ≠ [] → RunnerProfile.canUploadArtifacts runner = true;
  ma_evidence : truthy_opt (RunnerJob.verifierId job) ≠ None →
    RunnerProfile.canUploadEvidence runner = true;
}.

Lemma forallb_includes l k : forallb (list_includes l) k = true ↔ k ⊆ l.
Proof.
rewrite List.forallb_forall. setoid_rewrite list_includes_spec. setoid_rewrite <-list_elem_of_In. done.
Qed.
Lemma nonempty_spec {A} (l : list A) : (0 <? length l)%nat = true ↔ l ≠ [].
Proof. by destruct l. Qed.
Lemma guard_spec b b' : negb (b && negb b') = true ↔ (b = true → b' = true).
Proof. destruct b, b'; naive_solver. Qed.

Lemma is_some_spec {A} (o : option A) :
  match o with Some _ => true | None => false end = true ↔ o ≠ None.
Proof. destruct o; split; done. Qed.

Lemma runnerMatchesJob_spec runner job : runnerMatchesJob runner job = true ↔ matches runner job.
Proof.
unfold runnerMatchesJob. rewrite !andb_true_iff, !forallb_includes, !guard_spec, !nonempty_spec,
  !bool_decide_eq_true.
assert ((negb (0 <? length (RunnerJob.networkDestinations job))%nat = true →
    RunnerProfile.networkEnforcement runner = RunnerNetworkEnforcement.deny_all) ∧
  negb ((0 <? length (RunnerJob.networkDestinations job))%nat &&
    bool_decide (RunnerProfile.networkEnforcement runner = RunnerNetworkEnforcement.deny_all)) = true ↔
  (RunnerJob.networkDestinations job = [] ↔
   RunnerProfile.networkEnforcement runner = RunnerNetworkEnforcement.deny_all)) as Hnet.
{ case_bool_decide; destruct (RunnerJob.networkDestinations job); simpl; naive_solver. }
rewrite is_some_spec. split.
- intros [[[[[[[Ha Hr] Hn] Hn1] Hn2] Hs] Hp] Hv]. split; try done. exact (proj1 Hnet (conj Hn1 Hn2)).
- intros [Ha Hr Hn He Hs Hp Hv]. destruct (proj2 Hnet He). by split_and!.
Qed.

Lemma offerable_spec runner st : offerable runner st = true ↔
  job_status st = RunnerJobState.queued ∧ matches runner (StoredJob.job st).
Proof. unfold offerable. by rewrite andb_true_iff, bool_decide_eq_true, runnerMatchesJob_spec. Qed.

(** The state an offer leaves. *)
Record offered w' s s' runner st (offer : RunnerJobOffer.t) : Prop := {
  of_queued : job_status st = RunnerJobState.queued;
  of_matches : matches runner (StoredJob.job st);
  of_job : RunnerJob.id (RunnerJobOffer.job offer) = job_id st;
  of_attempt : RunnerAttempt.id (RunnerJobOffer.attempt offer) = current st;
  of_challenge : omap_get (current st) (Coordinator.offers s') = Some (RunnerJobOffer.challenge offer) ∧
    RunnerAttempt.challengeDigest (RunnerJobOffer.attempt offer) =
      Some (digest_text (RunnerJobOffer.challenge offer));
  of_recorded : ∃ st', omap_get (job_id st) (Coordinator.jobs s') = Some st' ∧
    RunnerJobOffer.job offer = StoredJob.job st' ∧ job_status st' = RunnerJobState.offered ∧
    RunnerJob.currentRunnerId (StoredJob.job st') = Some (RunnerProfile.id runner) ∧
    omap_get (current st) (Coordinator.attempts s') = Some (RunnerJobOffer.attempt offer);
}.

Lemma wp_pull runnerId runner w s : inv w s →
  omap_get runnerId (Coordinator.runners s) = Some runner →
  wp (pull runnerId)
    (λ o w' s', RunnerProfile.status runner = RunnerStatus.active ∧
       match o, candidate runner (Coordinator.jobs s) with
       | Some offer, Some st => offered w' s s' runner st offer
       | None, None => s' = s
       | _, _ => False
       end)
    (λ e w' s', RunnerProfile.status runner ≠ RunnerStatus.active ∧ s' = s ∧
       e = runner_error RunnerErrorCode.runner_not_eligible runnerId) w s.
Proof.
intros Hi Hr. unfold pull, requireRunner, requireAttempt, set_attempt, set_job.
pose proof (inv_runners _ _ Hi _ _ Hr) as Hid. rewrite <-Hid in *.
wp_step. wp_step. wp_step. cbv beta. wp_step; [congruence|]. cbv beta. rename a into r0. assert (r0 = runner) as -> by congruence.
wp_step. wp_step. { states. done. }
wp_step. wp_step. cbv beta. states. destruct (candidate runner (Coordinator.jobs s)) as [st|] eqn:Hcand.
2: by wp_steps.
apply candidate_Some in Hcand as [Hin Hoff]. pose proof (job_of_value _ _ _ Hi Hin) as Hjob.
destruct (current_of _ _ _ _ Hi Hjob) as (_ & att & Hatt & Hia & Hja & Hst).
apply offerable_spec in Hoff as [Hq Hm].
cbv beta iota zeta. wp_step. wp_step. wp_step. cbv beta. wp_step; [unfold current in *; congruence|].
match goal with H : omap_get _ _ = Some ?x |- wp (if negb (bool_decide (RunnerAttempt.state ?x = _)) then _ else _) _ _ _ _ =>
  assert (x = att) as -> by (unfold current in *; congruence) end.
rewrite bool_decide_eq_true_2 by congruence. cbn [negb]. cbv beta zeta. rewrite Hia. run.
destruct (inv_jobs _ _ Hi _ _ Hjob) as [_ Hjo].
apply wp_copyJob; [exact (jo_contract _ _ _ Hjo)|]. run. split; [done|]. split; try done.
- cbn -[omap_get omap_set]. by rewrite omap_get_set_eq.
- eexists. cbn -[omap_get omap_set]. rewrite omap_get_set_eq, Hia, omap_get_set_eq. done.
Qed.

(** ** Requests *)

(** A validation whose outcome does not depend on the state. *)
Definition constant {A} (m : M Coordinator.t failure A) : Prop := ∃ o, ∀ w s, m w s = (o, w, s).

Lemma constant_ret {A} (x : A) : constant (mret x).
Proof. by exists (Ok x). Qed.
Lemma constant_throw_if b (e : failure) : constant (throw_if b e).
Proof. destruct b; [by exists (Throw e)|by exists (Ok ())]. Qed.
Lemma constant_lift_err {E A} (f : E → failure) (m : outcome E A) : constant (lift_err f m).
Proof. by eexists. Qed.
Lemma constant_bind {A B} (m : M Coordinator.t failure A) (f : A → M Coordinator.t failure B) :
  constant m → (∀ x, constant (f x)) → constant (m ≫= f).
Proof.
intros [[x|e] Hm] Hf; [destruct (Hf x) as [o Ho]; exists o|exists (Throw e)]; intros w s;
  unfold mbind, M_bind; by rewrite Hm.
Qed.
Lemma constant_normalizeOutputLocations l : constant (normalizeOutputLocations l).
Proof.
unfold normalizeOutputLocations, safeLocation, nonEmpty.
repeat first [apply constant_ret|apply constant_throw_if|apply constant_bind|intros ?].
Qed.
Lemma constant_declared_contract act : constant (declared_contract act).
Proof.
unfold declared_contract. destruct (Action.artifactOutputContract act);
  repeat first [apply constant_ret|apply constant_lift_err|apply constant_bind|intros ?].
Qed.

(** The digest of the immutable input manifest of a valid request. *)
Definition manifest_of (r : ExternalRunRequest.t) (d : string) : Prop :=
  let aliases := default [] (ExternalRunRequest.secretUseAliases r) in
  ∃ locations contract,
    blank (ExternalRunRequest.idempotencyKey r) = false ∧ has_duplicates aliases = false ∧
    (∀ w s, normalizeOutputLocations (ExternalRunRequest.outputLocations r) w s = (Ok locations, w, s)) ∧
    (∀ w s, declared_contract (NormalizedActionInput.action (ExternalRunRequest.actionInput r)) w s =
            (Ok contract, w, s)) ∧
    d = runnerInputManifestDigest (ExternalRunRequest.actionInput r)
          (ExternalRunRequest.runnerRequirements r) aliases locations.

Lemma constant_run {A} (m : M Coordinator.t failure A) x w s : constant m →
  m w s = (Ok x, w, s) → ∀ w s, m w s = (Ok x, w, s).
Proof. intros [o Ho] H w' s'. rewrite Ho in *. congruence. Qed.

Definition recorded s (r : ExternalRunRequest.t) (x : RunnerJob.t * Run.t * RunnerAttempt.t) st : Prop :=
  omap_get (ExternalRunRequest.idempotencyKey r) (Coordinator.idempotency s) = Some (job_id st) ∧
  omap_get (job_id st) (Coordinator.jobs s) = Some st ∧ x.1.1 = StoredJob.job st ∧
  manifest_of r (StoredJob.requestDigest st).

Lemma wp_current_snapshot st Q (X : failure → World → Coordinator.t → Prop) w s : inv w s →
  omap_get (job_id st) (Coordinator.jobs s) = Some st →
  (∀ x, x.1.1 = StoredJob.job st → Q x w s) → wp (current_snapshot st) Q X w s.
Proof.
intros Hi Hst HQ. destruct (inv_jobs _ _ Hi _ _ Hst) as [_ Hjo].
destruct (current_of _ _ _ _ Hi Hst) as (_ & a & Ha & _).
unfold current_snapshot, requireAttempt. wp_step. apply wp_copyJob; [exact (jo_contract _ _ _ Hjo)|].
wp_step. apply wp_copyRun; [exact (jo_run _ _ _ Hjo)|]. wp_steps; [unfold current in *; congruence|].
by apply HQ.
Qed.

Lemma wp_enqueue_again r id w s : inv w s →
  omap_get (ExternalRunRequest.idempotencyKey r) (Coordinator.idempotency s) = Some id →
  wp (enqueue r) (λ x _ s', s' = s ∧ ∃ st, job_id st = id ∧ recorded s r x st)
    (λ _ _ s', s' = s ∧ ∀ st, omap_get id (Coordinator.jobs s) = Some st →
       ¬ manifest_of r (StoredJob.requestDigest st)) w s.
Proof.
intros Hi Hid. destruct (inv_idempotency _ _ Hi _ _ Hid) as (st & Hst & _).
assert (job_id st = id) as Hjid by (by destruct (current_of _ _ _ _ Hi Hst)).
pose proof (job_key_truthy _ _ _ _ Hi Hst) as Htr.
unfold enqueue, nonEmpty, unique. cbv zeta.
wp_step. wp_step; [split; [done|]; intros ? _ (? & ? & ? & _); congruence|].
wp_step. wp_step. cbv beta. wp_step. wp_step.
wp_step; [split; [done|]; intros ? _ (? & ? & _ & ? & _); congruence|]. wp_step. cbv beta.
wp_step. apply wp_readonly; [apply readonly_normalizeOutputLocations| |].
2: { intros e He. split; [done|]. intros ? _ (? & ? & _ & _ & Hn & _). rewrite Hn in He. done. }
intros locations Hloc. pose proof (constant_run _ _ _ _ (constant_normalizeOutputLocations _) Hloc) as Hl.
wp_step. destruct (constant_declared_contract
  (NormalizedActionInput.action (ExternalRunRequest.actionInput r))) as [[contract|e] Hc].
2: { unfold wp. rewrite Hc. split; [done|]. intros ? _ (? & ? & _ & _ & _ & Hc' & _).
     specialize (Hc' w s). rewrite Hc in Hc'. done. }
unfold wp at 1. rewrite Hc. rewrite Hid. cbn [truthy_opt]. rewrite Htr. cbv beta iota.
set (d := runnerInputManifestDigest _ _ _ _).
wp_step. wp_step. wp_step. rewrite Hst. wp_step; [done|].
match goal with H : Some _ = Some ?x |- _ => injection H as <- end. cbv beta.
wp_step. wp_step.
- match goal with H : negb _ = true |- _ => apply negb_true_iff, String.eqb_neq in H as Hne end.
  split; [done|]. intros st0 Hst0 (loc' & c' & _ & _ & Hl' & _ & Hd).
  assert (st0 = st) as -> by congruence. apply Hne. rewrite Hd. specialize (Hl' w s).
  rewrite Hl in Hl'. by injection Hl' as ->.
- match goal with H : negb _ = false |- _ => apply negb_false_iff, String.eqb_eq in H as Heq end.
  apply wp_current_snapshot; [done|by rewrite Hjid|]. intros x Hx. split; [done|].
  exists st. split; [done|]. split_and!; [congruence|congruence|done|].
  exists locations, contract. rewrite Heq. by split_and!.
Qed.

Lemma wp_enqueue r w s : FreshUUIDs HH → inv w s →
  wp (enqueue r) (λ x w' s', ∃ st, recorded s' r x st) (λ _ _ _, True) w s.
Proof.
intros Hf Hi. destruct (omap_get (ExternalRunRequest.idempotencyKey r) (Coordinator.idempotency s))
  as [id|] eqn:Hid.
{ eapply wp_mono; [by apply wp_enqueue_again| |done]. intros x w' s' (-> & st & _ & ?). by exists st. }
unfold enqueue, nonEmpty, unique, futureTimestamp, set_attempt, set_job. cbv zeta.
wp_step. wp_step; [done|]. wp_step. wp_step. cbv beta. wp_step. wp_step. wp_step; [done|]. wp_step. cbv beta.
wp_step. apply wp_readonly; [apply readonly_normalizeOutputLocations| |done]. intros locations Hloc.
pose proof (constant_run _ _ _ _ (constant_normalizeOutputLocations _) Hloc) as Hl. clear Hloc.
wp_step. destruct (constant_declared_contract
  (NormalizedActionInput.action (ExternalRunRequest.actionInput r))) as [[contract|e] Hc].
2: { unfold wp. by rewrite Hc. }
assert (contract_ok (Some (Action.outputPaths (NormalizedActionInput.action (ExternalRunRequest.actionInput r))))
  contract) as Hok.
{ eapply (wp_Ok _ (λ o _ _, contract_ok _ o) (λ _ _ _, True)); [|exact (Hc w s)].
  by apply wp_declared_contract. }
unfold wp at 1. rewrite Hc, Hid. cbn [truthy_opt]. cbv beta iota. run; try done.
all: unfold snapshot; wp_step; apply wp_copyJob; [done|]; wp_step; apply wp_copyRun;
  [by eapply contract_ok_weaken|]; wp_step.
all: match goal with _ : inv _ ?s |- context [omap_set _ ?st (Coordinator.jobs ?s)] => exists st end.
all: unfold recorded; cbn -[omap_get omap_set]; rewrite !omap_get_set_eq; split_and!; try done.
all: exists locations, contract; split_and!; done.
Qed.

(** ** Expiry and retry *)

Lemma wp_expire jobId w s st a : inv w s →
  omap_get jobId (Coordinator.jobs s) = Some st →
  omap_get (current st) (Coordinator.attempts s) = Some a →
  terminal (job_status st) = false →
  date_gt (RunnerAttempt.leaseExpiresAt a) (clock (clock_reads w)) = false →
  wp (expire jobId) (λ _ _ _, False) (λ e _ s', e = runner_error RunnerErrorCode.lease_expired (current st) ∧
    Coordinator.retryIdempotency s' = Coordinator.retryIdempotency s ∧
    ∃ st', omap_get jobId (Coordinator.jobs s') = Some st' ∧
      job_status st' = RunnerJobState.expired ∧ ids st' = ids st) w s.
Proof.
intros Hi Hj Ha Ht Hd. destruct (current_of _ _ _ _ Hi Hj) as (Hid & b & Hb & Hib & _ & Hst).
assert (b = a) as -> by congruence. unfold expire, requireJob, requireAttempt, revokeAttemptCredentials,
  set_attempt, set_job, current in *.
wp_step. wp_step. wp_step. cbv beta. wp_step; [congruence|]. cbv beta. wp_step. wp_step. wp_step. cbv beta.
rename a0 into st0. assert (st0 = st) as -> by congruence. wp_step; [congruence|]. cbv beta.
rename a0 into a1. assert (a1 = a) as -> by congruence. wp_step. apply wp_now. rewrite Hd. run; [congruence|]. rewrite Hib.
split_and!; [done..|]. eexists. cbn -[omap_get omap_set]. unfold job_id in Hid. rewrite Hid, omap_get_set_eq.
by split_and!.
Qed.

(** A date strictly in the future. *)
Definition future (lease now : string) : Prop :=
  match Date_parse lease with Some _ => date_le lease now = false | None => False end.
Lemma future_spec lease now :
  match Date_parse lease with Some _ => false | None => true end || date_le lease now = false ↔ future lease now.
Proof. unfold future. destruct (Date_parse lease); simpl; naive_solver. Qed.

Lemma wp_retry jobId k lease actor w s st : FreshUUIDs HH → inv w s →
  omap_get jobId (Coordinator.jobs s) = Some st → retryable (job_status st) = true →
  blank k = false → omap_get k (Coordinator.retryIdempotency s) = None →
  future lease (clock (clock_reads w)) →
  wp (retry jobId k lease actor) (λ x _ s', ∃ st', omap_get jobId (Coordinator.jobs s') = Some st' ∧
    job_status st' = RunnerJobState.queued ∧ immutable st' = immutable st ∧
    ∃ aid, ids st' = ids st ++ [aid] ∧ current st' = aid) (λ _ _ _, False) w s.
Proof.
intros Hf Hi Hj Hr Hk Hn Hl. destruct (inv_jobs _ _ Hi _ _ Hj) as [Hid Hjo].
destruct (current_of _ _ _ _ Hi Hj) as (Hjid & b & Hb & _).
unfold retry, requireJob, requireAttempt, nonEmpty, futureTimestamp, set_attempt, set_job, current,
  job_status, job_id in *.
wp_step. rewrite Hk. wp_step; [done|]. wp_step. wp_step. rewrite Hn. cbn [truthy_opt].
wp_step. wp_step. wp_step. cbv beta. wp_step; [congruence|]. cbv beta zeta.
rename a into st0. assert (st0 = st) as -> by congruence. rewrite Hr. wp_step. wp_step; [done|]. cbv beta. wp_step. apply wp_now. apply future_spec in Hl. rewrite Hl. wp_step. wp_step; [done|]. cbv beta. wp_step. wp_step. wp_step. cbv beta. wp_step; [congruence|]. cbv beta.
run. unfold snapshot. wp_step.
apply wp_copyJob; [exact (jo_contract _ _ _ Hjo)|]. wp_step. apply wp_copyRun; [exact (jo_run _ _ _ Hjo)|]. wp_step.
eexists. cbn -[omap_get omap_set immutable]. rewrite <-Hjid, omap_get_set_eq. split_and!; try done.
eexists. by split.
Qed.

(** * The promises *)

(** C28: the coordinator refines the abstract machine of Attempt histories: every
    call of every method, from every reachable state, moves each Job by at
    most one turn (its last Attempt takes one edge of the lifecycle, or a fresh
    queued Attempt follows one that ended without success), starts a new Job
    with one queued Attempt, and never leaves an Attempt open behind another. *)
Theorem coordinator_refines op result σ σ' : FreshUUIDs HH → reachable σ →
  perform op σ.1 σ.2 = (result, σ'.1, σ'.2) →
  spec_step (abs σ.2) (abs σ'.2) ∧ ∀ jobId h, abs σ'.2 jobId = Some h → orderly h.
Proof.
intros Hf Hr Hop. assert (step σ σ') as Hs by (by exists op, result).
pose proof (reachable_coordinator _ Hf Hr) as Hi. destruct (step_next _ _ Hf Hi Hs) as [Hi' Ha].
split; [by eapply act_refines|]. eapply (reachable_orderly σ'); [done|].
destruct Hr as (w & r & p & Hr). exists w, r, p. by eapply rtc_r.
Qed.

(** C31: what is over stays over: an Attempt that has succeeded, failed, been
    cancelled, expired, gone indeterminate or been quarantined is the same
    record after any later calls, and so are the outputs recorded for it. *)
Theorem finished_attempts_final σ σ' attemptId a : FreshUUIDs HH → reachable σ → rtc step σ σ' →
  omap_get attemptId (Coordinator.attempts σ.2) = Some a →
  terminal (RunnerAttempt.state a) = true →
  omap_get attemptId (Coordinator.attempts σ'.2) = Some a ∧
  omap_get attemptId (Coordinator.outputs σ'.2) = omap_get attemptId (Coordinator.outputs σ.2).
Proof. intros Hf Hr Hs. apply steps_over; [done..|]. by apply reachable_coordinator. Qed.

(** C30: a Result is accepted only from the holder of an active, unexpired
    credential of the current Attempt of a running Job, when it echoes the
    context of that Attempt, is signed by the Runner's key, and its outputs
    pass the checks; the Attempt and the Job then have the Result's status and
    digest, and no credential of the Attempt is left active. *)
Theorem submit_accepted token result x σ σ' : FreshUUIDs HH → reachable σ →
  submit token result σ.1 σ.2 = (Ok x, σ'.1, σ'.2) →
  ∃ stored attempt credential, submitted σ σ' token result stored attempt credential.
Proof. intros Hf Hr. apply submit_Ok; [done|]. by apply reachable_coordinator. Qed.

(** C29: an Attempt has at most one Result: once a Result has been accepted, in
    every later state no call with any credential of the same Attempt is, be it
    another Result, a heartbeat or the end of a cancellation. *)
Theorem result_once token result x σ σ1 σ2 token' : FreshUUIDs HH → reachable σ →
  submit token result σ.1 σ.2 = (Ok x, σ1.1, σ1.2) → rtc step σ1 σ2 →
  RunnerJobCredential.attemptId token' = RunnerJobCredential.attemptId token →
  (∀ result' y w s, submit token' result' σ2.1 σ2.2 ≠ (Ok y, w, s)) ∧
  (∀ progress y w s, heartbeat token' progress σ2.1 σ2.2 ≠ (Ok y, w, s)) ∧
  (∀ outcome receipt y w s, finalizeCancellation token' outcome receipt σ2.1 σ2.2 ≠ (Ok y, w, s)).
Proof.
intros Hf Hr Hsub Hs Htok. pose proof (reachable_coordinator _ Hf Hr) as Hi.
destruct (submit_Ok _ _ _ _ _ Hf Hi Hsub) as (st & a & c & [Hau _ (a' & Ha' & Hst & _) _ _]).
assert (inv σ1.1 σ1.2) as Hi1.
{ pose proof (wp_run _ _ _ _ _ _ _ _ (nexts_submit token result σ.1 σ.2 Hi) Hsub) as [? _]. done. }
destruct (authorized_attempt _ _ _ _ _ _ Hi Hau) as (_ & _ & Hia & _ & _ & Hca).
assert (terminal (RunnerAttempt.state a') = true) as Ht
  by (rewrite Hst; by destruct (RunnerResult.status result)).
destruct (steps_over _ _ _ _ Hf Hs Hi1 Ha' Ht) as [Ha2 _].
assert (RunnerAttempt.id a = RunnerJobCredential.attemptId token') as Hid.
{ rewrite Htok, <-(proj1 (proj2 (au_bound _ _ _ _ _ _ Hau))). congruence. }
rewrite Hid in Ha2. pose proof (steps_inv _ _ Hf Hs Hi1) as Hi2. split_and!.
- intros. by eapply over_refused.
- intros. by eapply over_refused.
- intros outcome receipt y w s H. unfold finalizeCancellation in H.
  apply run_bind in H as ([] & w' & s' & Hne & H).
  destruct (readonly_nonEmpty receipt "receipt" σ2.1 σ2.2) as [o Ho].
  rewrite Ho in Hne. injection Hne as _ <- <-. by eapply over_refused in H.
Qed.

(** Polling: an active Runner gets a Job exactly when a queued Job matches
    it (capabilities, network, secrets, uploads), a queued matching Job with a
    fresh challenge and the Job's immutable record; otherwise nothing changes.
    A Runner that is not active is refused, and nothing changes. *)
Theorem pull_exact runnerId runner σ : FreshUUIDs HH → reachable σ →
  omap_get runnerId (Coordinator.runners σ.2) = Some runner →
  match pull runnerId σ.1 σ.2 with
  | (Ok (Some offer), w', s') => RunnerProfile.status runner = RunnerStatus.active ∧
      ∃ st, st ∈ omap_values (Coordinator.jobs σ.2) ∧ offered w' σ.2 s' runner st offer
  | (Ok None, _, s') => RunnerProfile.status runner = RunnerStatus.active ∧ s' = σ.2 ∧
      ∀ st, st ∈ omap_values (Coordinator.jobs σ.2) → job_status st = RunnerJobState.queued →
        ¬ matches runner (StoredJob.job st)
  | (Throw e, _, s') => RunnerProfile.status runner ≠ RunnerStatus.active ∧ s' = σ.2 ∧
      e = runner_error RunnerErrorCode.runner_not_eligible runnerId
  end.
Proof.
intros Hf Hr Hk. pose proof (wp_pull _ _ _ _ (reachable_coordinator _ Hf Hr) Hk) as H.
unfold wp in H. destruct (pull runnerId σ.1 σ.2) as [[[[offer|]|e] w'] s']; [| |done].
- destruct H as [Ha H]. split; [done|]. destruct (candidate _ _) as [st|] eqn:Hc; [|done].
  exists st. split; [|done]. by apply candidate_Some in Hc as [].
- destruct H as [Ha H]. destruct (candidate _ _) eqn:Hc; [done|]. split_and!; [done..|].
  intros st Hst Hq Hm. apply (proj1 (candidate_None _ _) Hc) in Hst.
  assert (offerable runner st = true) by (by apply offerable_spec). congruence.
Qed.

(** The outputs of a Result are accepted exactly when they satisfy the
    declared Artifact contract, name declared paths, each once and all of them
    on success, and every output lies below the Job's location for its kind
    without traversal, is disclosed no more widely than the Job allows, claims
    no foreign identity, and, for an artifact, is addressed to the Attempt. *)
Theorem validateOutput_exact job attempt result w s :
  validateOutput job attempt result w s = (Ok (), w, s) ↔ valid_outputs job attempt result.
Proof. apply validateOutput_Ok. Qed.

(** An idempotency key names one Job for ever: a request repeated after any
    later calls returns the same Job when its immutable input manifest is the
    same, is refused when it differs, and changes nothing either way. *)
Theorem enqueue_idempotent r x σ σ1 σ2 r' : FreshUUIDs HH → reachable σ →
  enqueue r σ.1 σ.2 = (Ok x, σ1.1, σ1.2) → rtc step σ1 σ2 →
  ExternalRunRequest.idempotencyKey r' = ExternalRunRequest.idempotencyKey r →
  ∃ manifest, manifest_of r manifest ∧
  match enqueue r' σ2.1 σ2.2 with
  | (Ok y, _, s') => s' = σ2.2 ∧ manifest_of r' manifest ∧ RunnerJob.id y.1.1 = RunnerJob.id x.1.1
  | (Throw _, _, s') => s' = σ2.2 ∧ ¬ manifest_of r' manifest
  end.
Proof.
intros Hf Hr He Hs Hkey. pose proof (reachable_coordinator _ Hf Hr) as Hi.
pose proof (wp_run _ _ _ _ _ _ _ _ (wp_enqueue r _ _ Hf Hi) He) as (st & Hid & Hj & Hx & Hm).
pose proof (wp_run _ _ _ _ _ _ _ _ (nexts_enqueue r Hf _ _ Hi) He) as [Hi1 _].
pose proof (steps_inv _ _ Hf Hs Hi1) as Hi2. destruct (steps_kept _ _ Hf Hs Hi1) as [Hext Hkept].
destruct (Hkept _ _ Hj) as (st2 & Hj2 & Him). apply Hext in Hid. rewrite <-Hkey in Hid.
exists (StoredJob.requestDigest st). split; [done|].
assert (StoredJob.requestDigest st2 = StoredJob.requestDigest st) as Hd by (unfold immutable in Him; congruence).
pose proof (wp_enqueue_again _ _ _ _ Hi2 Hid) as H. unfold wp in H.
destruct (enqueue r' σ2.1 σ2.2) as [[[y|e] w'] s'].
- destruct H as (-> & st' & Hid' & _ & Hj' & Hy & Hm'). assert (st' = st2) as -> by congruence.
  rewrite <-Hd. split_and!; [done..|]. by rewrite Hy, Hx.
- destruct H as [-> H]. split; [done|]. rewrite <-Hd. by apply H.
Qed.

(** C32: no Job is stuck: a Job that has not succeeded, and whose Attempt has
    ended or has outlived its lease, can be queued again. One call at most (the
    expiry, which revokes the lease and reports it) leads to a state in which a
    retry with an unused key and a lease in the future succeeds, and appends
    one fresh queued Attempt to the same immutable Job. *)
Theorem never_stuck jobId st a σ : FreshUUIDs HH → reachable σ →
  omap_get jobId (Coordinator.jobs σ.2) = Some st →
  omap_get (current st) (Coordinator.attempts σ.2) = Some a →
  job_status st ≠ RunnerJobState.succeeded →
  terminal (job_status st) = true ∨
    date_gt (RunnerAttempt.leaseExpiresAt a) (clock (clock_reads σ.1)) = false →
  ∃ σ1, (σ1 = σ ∨ step σ σ1) ∧
    ∀ key lease actor, blank key = false →
    omap_get key (Coordinator.retryIdempotency σ.2) = None →
    future lease (clock (clock_reads σ1.1)) →
    ∃ x σ2 st2, retry jobId key lease actor σ1.1 σ1.2 = (Ok x, σ2.1, σ2.2) ∧
      omap_get jobId (Coordinator.jobs σ2.2) = Some st2 ∧
      job_status st2 = RunnerJobState.queued ∧ immutable st2 = immutable st ∧
      ids st2 = ids st ++ [current st2].
Proof.
intros Hf Hr Hj Ha Hns Hd. pose proof (reachable_coordinator _ Hf Hr) as Hi.
assert (∃ σ1 st1, (σ1 = σ ∨ step σ σ1) ∧
  Coordinator.retryIdempotency σ1.2 = Coordinator.retryIdempotency σ.2 ∧
  omap_get jobId (Coordinator.jobs σ1.2) = Some st1 ∧ retryable (job_status st1) = true ∧
  ids st1 = ids st ∧ immutable st1 = immutable st) as (σ1 & st1 & Hs & Hri & Hj1 & Hr1 & Hids & Him).
{ destruct (terminal (job_status st)) eqn:Ht.
  - exists σ, st. split_and!; try done; [by left|]. unfold retryable. by rewrite Ht, bool_decide_eq_false_2.
  - destruct Hd as [|Hd]; [done|]. pose proof (wp_expire _ _ _ _ _ Hi Hj Ha Ht Hd) as H. unfold wp in H.
    destruct (expire jobId σ.1 σ.2) as [[[[]|e] w'] s'] eqn:He.
    destruct H as (-> & Hri & st1 & Hj1 & Hst1 & Hids). exists (w', s'), st1.
    assert (step σ (w', s')) as Hs.
    { exists (op_expire jobId). eexists. simpl. unfold mbind, M_bind. by rewrite He. }
    destruct (step_next _ _ Hf Hi Hs) as [_ Hact]. destruct (act_jobs _ _ Hact _ _ Hj) as (st1' & Hj1' & Him & _).
    simpl in Hj1'. assert (st1' = st1) as -> by congruence. split_and!; try done; [by right|]. by rewrite Hst1. }
exists σ1. split; [done|]. intros k lease actor Hk Hn Hl.
assert (inv σ1.1 σ1.2) as Hi1 by (destruct Hs as [->|Hs]; [done|by destruct (step_next _ _ Hf Hi Hs)]).
rewrite <-Hri in Hn. pose proof (wp_retry _ _ _ actor _ _ _ Hf Hi1 Hj1 Hr1 Hk Hn Hl) as H. unfold wp in H.
destruct (retry jobId k lease actor σ1.1 σ1.2) as [[[x|e] w'] s']; [|done].
destruct H as (st2 & Hj2 & Hq & Him2 & aid & Hids2 & Hcur). exists x, (w', s'), st2.
split_and!; [done..| |]; congruence.
Qed.
End life.

(** * One Job from its request to its Result *)

Module RunnerDemo.
#[local] Instance host : Host := example_host.
(** A key is its own text, and a signature the key, a bar and the message. *)
#[local] Instance runner_host : RunnerHost := {|
  PublicKey := string;
  createPublicKey := Some;
  verify_signature := λ key message signature,
    Some (String.eqb signature (cat [key; "|"; message]));
  randomBytes := λ _ n, pretty n;
|}.

Definition actor : ActorRef.t := ActorRef.mk "principal" "actor" "session" "client".
Definition project_only : DisclosurePolicyRef.t :=
  DisclosurePolicyRef.mk "all" DisclosureClassification.project.
Definition action : Action.t := {|
  Action.id := "build"; Action.moduleId := "m"; Action.moduleRoot := "."; Action.dependencyIds := [];
  Action.command := "make"; Action.inputGlobs := []; Action.outputPaths := ["dist/app.js"];
  Action.artifactOutputContract := Some (ActionArtifactOutputContract.mk contract_protocol
    [ArtifactOutput.mk "dist/app.js" "worker.bundle"]);
  Action.network := []; Action.resources := [];
  Action.contractDigest := "c0";
|}.
Definition action_input : NormalizedActionInput.t := {|
  NormalizedActionInput.action := action; NormalizedActionInput.verifier := None;
  NormalizedActionInput.projectRevisionId := "r0"; NormalizedActionInput.projectViewId := "v0";
  NormalizedActionInput.sourceSpaceSnapshots := [("a", "a0")];
  NormalizedActionInput.changeRevisionId := None; NormalizedActionInput.workspaceId := None;
  NormalizedActionInput.inputDigests := ["in"]; NormalizedActionInput.effectDigests := [];
  NormalizedActionInput.dependencyDigest := "dep"; NormalizedActionInput.toolchainDigest := "tool";
  NormalizedActionInput.environmentDigest := "env"; NormalizedActionInput.policyVersion := "1";
  NormalizedActionInput.authorizationEpoch := "e"; NormalizedActionInput.targetId := None;
  NormalizedActionInput.targetDeploymentProfileDigest := None;
  NormalizedActionInput.disclosure := project_only; NormalizedActionInput.actor := actor;
  NormalizedActionInput.capabilityGrantId := "grant"; NormalizedActionInput.runnerId := "any";
|}.
Definition request (lease : string) : ExternalRunRequest.t := {|
  ExternalRunRequest.idempotencyKey := "once"; ExternalRunRequest.runId := None;
  ExternalRunRequest.actionInput := action_input; ExternalRunRequest.runnerRequirements := ["node"];
  ExternalRunRequest.secretUseAliases := None;
  ExternalRunRequest.outputLocations := RunnerOutputLocations.mk "runs/logs" "runs/artifacts/" "runs/evidence";
  ExternalRunRequest.leaseExpiresAt := lease;
|}.
Definition enrollment : RunnerEnrollmentInput.t := {|
  RunnerEnrollmentInput.id := "runner"; RunnerEnrollmentInput.provider := "local";
  RunnerEnrollmentInput.publicKey := "key";
  RunnerEnrollmentInput.platform := RunnerPlatform.mk "linux" "x64" "vm";
  RunnerEnrollmentInput.capabilities := ["node"; "git"];
  RunnerEnrollmentInput.networkDestinations := [];
  RunnerEnrollmentInput.networkEnforcement := RunnerNetworkEnforcement.deny_all;
  RunnerEnrollmentInput.networkBoundaryReceipt := "networkEnforcement=deny-all";
  RunnerEnrollmentInput.secretUse := RunnerSecretUse.brokered;
  RunnerEnrollmentInput.canUploadArtifacts := true; RunnerEnrollmentInput.canUploadEvidence := true;
  RunnerEnrollmentInput.approvedBy := actor; RunnerEnrollmentInput.enrollmentReceipt := "enrolled";
|}.

Fixpoint run (ops : list Op) (σ : World * Coordinator.t) : World * Coordinator.t :=
  match ops with
  | [] => σ
  | op :: ops => let '(_, w, s) := perform op σ.1 σ.2 in run ops (w, s)
  end.
Definition origin : World * Coordinator.t := (mkWorld 0 0, Runner.initial "realm" "project").
Definition prepare : list Op := [op_enroll enrollment; op_activate "runner" actor].
Definition ready : World * Coordinator.t := Eval vm_compute in run prepare origin.
Definition queued : World * Coordinator.t := Eval vm_compute in run [op_enqueue (request "zzzz")] ready.
Definition job_key : string := Eval vm_compute in
  hd "" (omap_keys (Coordinator.jobs queued.2)).
Definition attempt_key : string := Eval vm_compute in
  hd "" (omap_keys (Coordinator.attempts queued.2)).
Definition pulled : World * Coordinator.t := Eval vm_compute in run [op_pull "runner"] queued.
Definition challenge : string := Eval vm_compute in
  default "" (omap_get attempt_key (Coordinator.offers pulled.2)).
Definition claiming : outcome failure RunnerJobLease.t * World * Coordinator.t := Eval vm_compute in
  claim "runner" job_key attempt_key challenge (cat ["key|"; claimMessage challenge]) pulled.1 pulled.2.
Definition claimed : World * Coordinator.t := (claiming.1.2, claiming.2).
Definition token : RunnerJobCredential.t := Eval vm_compute in
  match claiming.1.1 with
  | Ok lease => RunnerJobLease.credential lease
  | Throw _ => RunnerJobCredential.mk "" "" "" "" "" "" ""
  end.
Definition held_records : option (StoredJob.t * RunnerAttempt.t) := Eval vm_compute in
  st ← omap_get job_key (Coordinator.jobs claimed.2);
  a ← omap_get attempt_key (Coordinator.attempts claimed.2); Some (st, a).
Definition output : NormalizedActionOutput.t := {|
  NormalizedActionOutput.status := ResultStatus.succeeded;
  NormalizedActionOutput.exitCode := Some 0%Z;
  NormalizedActionOutput.inputDigests := ["in"];
  NormalizedActionOutput.outputDigests := [cat ["dist/app.js="; ArtifactOutputsDemo.digest]];
  NormalizedActionOutput.outputDigest := "o"; NormalizedActionOutput.stdoutDigest := "";
  NormalizedActionOutput.stderrDigest := "";
|}.
Definition artifact : RunnerOutputInput.t := {|
  RunnerOutputInput.id := None; RunnerOutputInput.kind := RunnerOutputKind.artifact;
  RunnerOutputInput.runId := None; RunnerOutputInput.attemptId := None;
  RunnerOutputInput.location := cat ["runs/artifacts/"; attempt_key; "/app.js"];
  RunnerOutputInput.outputPath := Some "dist/app.js"; RunnerOutputInput.digest := ArtifactOutputsDemo.digest;
  RunnerOutputInput.disclosure := project_only; RunnerOutputInput.receipt := "stored";
|}.
(** The signed Result of the Attempt, none when there is nothing to sign. *)
Definition signed : option RunnerResult.t := Eval vm_compute in
  '(st, a) ← held_records;
  match runnerResultContext (StoredJob.job st) a claimed.1 claimed.2 with
  | (Ok c, _, _) => Some {|
      RunnerResult.status := ResultStatus.succeeded; RunnerResult.output := output;
      RunnerResult.outputs := [artifact]; RunnerResult.context := c;
      RunnerResult.recoveryAction := None;
      RunnerResult.signature :=
        cat ["key|"; runnerResultMessage c ResultStatus.succeeded output [artifact] None] |}
  | _ => None
  end.
Definition submitting : option (outcome failure SignedRunnerCompletion.t * World * Coordinator.t) :=
  Eval vm_compute in result ← signed; Some (submit token result claimed.1 claimed.2).
Definition submitted_at : World * Coordinator.t := Eval vm_compute in
  match submitting with Some (_, w, s) => (w, s) | None => origin end.
Definition result : RunnerResult.t := Eval vm_compute in
  match signed with
  | Some r => r
  | None => RunnerResult.mk ResultStatus.failed output []
      (RunnerResultContext.mk "" "" "" "" "" "" [] "" "" None None None "" "" None None "" "" ""
         RunnerNetworkEnforcement.deny_all "") None ""
  end.
Lemma steps_run ops σ : rtc step σ (run ops σ).
Proof.
revert σ. induction ops as [|op ops IH]; intros [w s]; [done|]. simpl.
destruct (perform op w s) as [[r w'] s'] eqn:He. eapply rtc_l; [|apply IH]. by exists op, r.
Qed.
Lemma reachable_run ops : reachable (run ops origin).
Proof. exists (mkWorld 0 0), "realm", "project". apply steps_run. Qed.

Definition to_queued : list Op := prepare ++ [op_enqueue (request "zzzz")].
Definition to_claimed : list Op := to_queued ++
  [op_pull "runner"; op_claim "runner" job_key attempt_key challenge (cat ["key|"; claimMessage challenge])].
Lemma reachable_queued : reachable queued.
Proof. assert (run to_queued origin = queued) as <- by (by vm_compute). apply reachable_run. Qed.
Lemma reachable_claimed : reachable claimed.
Proof. assert (run to_claimed origin = claimed) as <- by (by vm_compute). apply reachable_run. Qed.
Example accepted_result : run [op_submit token result] claimed = submitted_at ∧
  abs submitted_at.2 job_key = Some [RunnerJobState.succeeded].
Proof. by vm_compute. Qed.
(** A short lease that has run out before anyone claimed the Job. *)
Definition to_stale : list Op :=
  prepare ++ [op_enqueue (request "zz"); op_pull "runner"; op_expire job_key].
Definition stale : World * Coordinator.t := Eval vm_compute in run to_stale origin.
Lemma reachable_stale : reachable stale.
Proof. assert (run to_stale origin = stale) as <- by (by vm_compute). apply reachable_run. Qed.
Definition stale_records : list (StoredJob.t * RunnerAttempt.t) := Eval vm_compute in
  match omap_get job_key (Coordinator.jobs stale.2), omap_get attempt_key (Coordinator.attempts stale.2) with
  | Some st, Some a => [(st, a)]
  | _, _ => []
  end.

Lemma coordinator_refines_witness :
  spec_step (abs claimed.2) (abs submitted_at.2) ∧
  ∀ jobId h, abs submitted_at.2 jobId = Some h → orderly h.
Proof.
apply (coordinator_refines (op_submit token result) (Ok ()) claimed submitted_at example_host_fresh
  reachable_claimed). by vm_compute.
Defined.

Lemma finished_attempts_final_witness :
  Forall (λ a, omap_get attempt_key (Coordinator.attempts (run [op_retry job_key "again" "zzzz" actor;
    op_submit token result] submitted_at).2) = Some a)
    (omap_values (Coordinator.attempts submitted_at.2)).
Proof.
assert (reachable submitted_at) as Hr.
{ assert (run (to_claimed ++ [op_submit token result]) origin = submitted_at) as <- by (by vm_compute).
  apply reachable_run. }
apply Forall_forall. intros a Ha. eapply (finished_attempts_final _ _ _ _ example_host_fresh Hr (steps_run _ _)).
- vm_compute in Ha |- *. apply list_elem_of_singleton in Ha. by rewrite Ha.
- vm_compute in Ha |- *. apply list_elem_of_singleton in Ha. by rewrite Ha.
Defined.

Lemma submit_accepted_witness : match submit token result claimed.1 claimed.2 with
  | (Ok _, w, s) => ∃ stored attempt credential, submitted claimed (w, s) token result stored attempt credential
  | _ => False
  end.
Proof.
destruct (submit token result claimed.1 claimed.2) as [[[x|e] w] s] eqn:He.
- exact (submit_accepted token result x claimed (w, s) example_host_fresh reachable_claimed He).
- vm_compute in He. discriminate He.
Defined.

Lemma result_once_witness : match submit token result claimed.1 claimed.2 with
  | (Ok _, w, s) => ∀ result' y w' s', submit token result' w s ≠ (Ok y, w', s')
  | _ => False
  end.
Proof.
destruct (submit token result claimed.1 claimed.2) as [[[x|e] w] s] eqn:He.
- exact (proj1 (result_once token result x claimed (w, s) (w, s) token example_host_fresh reachable_claimed
    He (rtc_refl _ _) eq_refl)).
- vm_compute in He. discriminate He.
Defined.

Lemma pull_exact_witness :
  match omap_get "runner" (Coordinator.runners queued.2), pull "runner" queued.1 queued.2 with
  | Some runner, (Ok (Some offer), _, s') => ∃ w' st, st ∈ omap_values (Coordinator.jobs queued.2) ∧
      offered w' queued.2 s' runner st offer
  | _, _ => False
  end.
Proof.
destruct (omap_get "runner" (Coordinator.runners queued.2)) as [runner|] eqn:Hr; [|vm_compute in Hr; discriminate Hr].
pose proof (pull_exact "runner" runner queued example_host_fresh reachable_queued Hr) as H.
destruct (pull "runner" queued.1 queued.2) as [[[[offer|]|e] w'] s'] eqn:He;
  [exists w'; apply H|vm_compute in He; discriminate He|vm_compute in He; discriminate He].
Defined.

Lemma enqueue_idempotent_witness : match enqueue (request "zzzz") ready.1 ready.2 with
  | (Ok x, w, s) => ∃ manifest, manifest_of (request "zzzz") manifest ∧
      match enqueue (request "zzzzz") w s with
      | (Ok y, _, s') => s' = s ∧ manifest_of (request "zzzzz") manifest ∧ RunnerJob.id y.1.1 = RunnerJob.id x.1.1
      | (Throw _, _, s') => s' = s ∧ ¬ manifest_of (request "zzzzz") manifest
      end
  | _ => False
  end.
Proof.
assert (reachable ready) as Hr
  by (assert (run prepare origin = ready) as <- by (by vm_compute); apply reachable_run).
destruct (enqueue (request "zzzz") ready.1 ready.2) as [[[x|e] w] s] eqn:He.
- exact (enqueue_idempotent (request "zzzz") x ready (w, s) (w, s) (request "zzzzz") example_host_fresh Hr He
    (rtc_refl _ _) eq_refl).
- vm_compute in He. discriminate He.
Defined.

Lemma never_stuck_witness : Forall (λ p, ∃ σ1, (σ1 = stale ∨ step stale σ1) ∧
  ∀ key lease actor, blank key = false →
    omap_get key (Coordinator.retryIdempotency stale.2) = None →
    future lease (clock (clock_reads σ1.1)) →
    ∃ x σ2 st2, retry job_key key lease actor σ1.1 σ1.2 = (Ok x, σ2.1, σ2.2) ∧
      omap_get job_key (Coordinator.jobs σ2.2) = Some st2 ∧
      job_status st2 = RunnerJobState.queued ∧ immutable st2 = immutable p.1 ∧
      ids st2 = ids p.1 ++ [current st2]) stale_records.
Proof.
apply Forall_forall. intros [st a] Hin. apply list_elem_of_singleton in Hin. injection Hin as -> ->.
eapply (never_stuck job_key _ _ stale example_host_fresh reachable_stale); [by vm_compute..|by right; vm_compute].
Defined.
End RunnerDemo.
