(* ===== verification/Identity.v ===== *)
(** The identity and policy of a Realm, src/identity/realm.ts: Principals,
    authenticated Sessions of human and agent Actors, Tasks, Capability Grants
    and their delegation, short-lived credentials, revocation and recovery.

    [RealmState.t] is the state of a [RealmIdentityPolicy] and each method a
    computation over it.  The records are reached through the maps of the state
    only, so a mutation in place is an update of the map at the record's key.
    The policy decision itself is in IdentityPolicy. *)

From S2P Require Import Prelude Encoding Json Contracts.

(** * Dates and entropy

    [now()] is a Date: [time n] is the [n]-th reading of it in milliseconds, and
    [randomBytes size n] the [n]-th draw of entropy, a string of [size] bytes.
    [toISOString] is applied to valid dates only; outside the range of Date, and
    on a NaN, the source's [toISOString()] throws a RangeError. *)

Class RealmHost := {
  time : nat → Z;
  toISOString : Z → string;
  randomBytes : nat → nat → string;
}.

Definition date_limit : Z := 8640000000000000.
Definition valid_date (t : Z) : Prop := (Z.abs t ≤ date_limit)%Z.
(** What a theorem may assume of dates: a valid one reads back. *)
Class IsoDates (H : Host) (D : RealmHost) :=
  iso_parse : ∀ t, valid_date t → Date_parse (toISOString t) = Some t.

(** * Data *)

Module AuthenticationMethod.
Inductive t :=
| passkey | oidc.
#[global] Instance t_eq_dec : EqDecision t.
Proof. solve_decision. Defined.
Definition show (x : t) : string :=
  match x with
  | passkey => "passkey"
  | oidc => "oidc"
  end.
End AuthenticationMethod.
#[export] Instance AuthenticationMethod_to_json : ToJson AuthenticationMethod.t := λ x, JStr (AuthenticationMethod.show x).

Module AuthenticationStrength.
Inductive t :=
| oidc | passkey.
#[global] Instance t_eq_dec : EqDecision t.
Proof. solve_decision. Defined.
Definition show (x : t) : string :=
  match x with
  | oidc => "oidc"
  | passkey => "passkey"
  end.
End AuthenticationStrength.
#[export] Instance AuthenticationStrength_to_json : ToJson AuthenticationStrength.t := λ x, JStr (AuthenticationStrength.show x).

Module PrincipalStatus.
Inductive t :=
| active | disabled.
#[global] Instance t_eq_dec : EqDecision t.
Proof. solve_decision. Defined.
Definition show (x : t) : string :=
  match x with
  | active => "active"
  | disabled => "disabled"
  end.
End PrincipalStatus.
#[export] Instance PrincipalStatus_to_json : ToJson PrincipalStatus.t := λ x, JStr (PrincipalStatus.show x).

(** The status of a client, an agent, an Actor, a passkey and a relationship. *)
Module Status.
Inductive t :=
| active | revoked.
#[global] Instance t_eq_dec : EqDecision t.
Proof. solve_decision. Defined.
Definition show (x : t) : string :=
  match x with
  | active => "active"
  | revoked => "revoked"
  end.
End Status.
#[export] Instance Status_to_json : ToJson Status.t := λ x, JStr (Status.show x).

(** [SessionStatus], [GrantStatus] and [CredentialStatus]. *)
Module ExpiringStatus.
Inductive t :=
| active | revoked | expired.
#[global] Instance t_eq_dec : EqDecision t.
Proof. solve_decision. Defined.
Definition show (x : t) : string :=
  match x with
  | active => "active"
  | revoked => "revoked"
  | expired => "expired"
  end.
End ExpiringStatus.
#[export] Instance ExpiringStatus_to_json : ToJson ExpiringStatus.t := λ x, JStr (ExpiringStatus.show x).

Module ActorKind.
Inductive t :=
| human | agent | service | runner.
#[global] Instance t_eq_dec : EqDecision t.
Proof. solve_decision. Defined.
Definition show (x : t) : string :=
  match x with
  | human => "human"
  | agent => "agent"
  | service => "service"
  | runner => "runner"
  end.
End ActorKind.
#[export] Instance ActorKind_to_json : ToJson ActorKind.t := λ x, JStr (ActorKind.show x).

Module PolicyDecisionKind.
Inductive t :=
| allow | deny | indeterminate.
#[global] Instance t_eq_dec : EqDecision t.
Proof. solve_decision. Defined.
Definition show (x : t) : string :=
  match x with
  | allow => "allow"
  | deny => "deny"
  | indeterminate => "indeterminate"
  end.
End PolicyDecisionKind.
#[export] Instance PolicyDecisionKind_to_json : ToJson PolicyDecisionKind.t := λ x, JStr (PolicyDecisionKind.show x).

Module CredentialClass.
Inductive t :=
| realm_api | git | mcp | runner | integration | deployment | promotion.
#[global] Instance t_eq_dec : EqDecision t.
Proof. solve_decision. Defined.
Definition show (x : t) : string :=
  match x with
  | realm_api => "realm-api"
  | git => "git"
  | mcp => "mcp"
  | runner => "runner"
  | integration => "integration"
  | deployment => "deployment"
  | promotion => "promotion"
  end.
End CredentialClass.
#[export] Instance CredentialClass_to_json : ToJson CredentialClass.t := λ x, JStr (CredentialClass.show x).

Module AuthorityClass.
Inductive t :=
| none | change | landing | promotion.
#[global] Instance t_eq_dec : EqDecision t.
Proof. solve_decision. Defined.
Definition show (x : t) : string :=
  match x with
  | none => "none"
  | change => "change"
  | landing => "landing"
  | promotion => "promotion"
  end.
End AuthorityClass.
#[export] Instance AuthorityClass_to_json : ToJson AuthorityClass.t := λ x, JStr (AuthorityClass.show x).

Module Capability.
Inductive t :=
| project_inspect | source_read | source_propose | workspace_inspect | workspace_write
| change_inspect | change_publish_revision | intent_inspect | intent_write | pullRequest_inspect
| pullRequest_write | review_submit_finding | change_approve | run_invoke | evidence_read
| secret_use | secret_value_read | landing_request | release_create | target_configure
| promotion_request | target_read | target_promote | extension_install | extension_manage
| extension_invoke | governance_profile_manage | governance_profile_evaluate | agent_delegate
| public_moderate | policy_manage | identity_manage.
#[global] Instance t_eq_dec : EqDecision t.
Proof. solve_decision. Defined.
Definition show (x : t) : string :=
  match x with
  | project_inspect => "project.inspect"
  | source_read => "source.read"
  | source_propose => "source.propose"
  | workspace_inspect => "workspace.inspect"
  | workspace_write => "workspace.write"
  | change_inspect => "change.inspect"
  | change_publish_revision => "change.publish_revision"
  | intent_inspect => "intent.inspect"
  | intent_write => "intent.write"
  | pullRequest_inspect => "pullRequest.inspect"
  | pullRequest_write => "pullRequest.write"
  | review_submit_finding => "review.submit_finding"
  | change_approve => "change.approve"
  | run_invoke => "run.invoke"
  | evidence_read => "evidence.read"
  | secret_use => "secret.use"
  | secret_value_read => "secret.value.read"
  | landing_request => "landing.request"
  | release_create => "release.create"
  | target_configure => "target.configure"
  | promotion_request => "promotion.request"
  | target_read => "target.read"
  | target_promote => "target.promote"
  | extension_install => "extension.install"
  | extension_manage => "extension.manage"
  | extension_invoke => "extension.invoke"
  | governance_profile_manage => "governance.profile.manage"
  | governance_profile_evaluate => "governance.profile.evaluate"
  | agent_delegate => "agent.delegate"
  | public_moderate => "public.moderate"
  | policy_manage => "policy.manage"
  | identity_manage => "identity.manage"
  end.
End Capability.
#[export] Instance Capability_to_json : ToJson Capability.t := λ x, JStr (Capability.show x).

Module ClientKind.
Inductive t :=
| browser | cli | mcp | git | runner | integration | deployment | promotion.
#[global] Instance t_eq_dec : EqDecision t.
Proof. solve_decision. Defined.
Definition show (x : t) : string :=
  match x with
  | browser => "browser"
  | cli => "cli"
  | mcp => "mcp"
  | git => "git"
  | runner => "runner"
  | integration => "integration"
  | deployment => "deployment"
  | promotion => "promotion"
  end.
End ClientKind.
#[export] Instance ClientKind_to_json : ToJson ClientKind.t := λ x, JStr (ClientKind.show x).

Module TaskStatus.
Inductive t :=
| active | closed.
#[global] Instance t_eq_dec : EqDecision t.
Proof. solve_decision. Defined.
Definition show (x : t) : string :=
  match x with
  | active => "active"
  | closed => "closed"
  end.
End TaskStatus.
#[export] Instance TaskStatus_to_json : ToJson TaskStatus.t := λ x, JStr (TaskStatus.show x).

Module RelationshipKind.
Inductive t :=
| organization_member | team_member.
#[global] Instance t_eq_dec : EqDecision t.
Proof. solve_decision. Defined.
Definition show (x : t) : string :=
  match x with
  | organization_member => "organization-member"
  | team_member => "team-member"
  end.
End RelationshipKind.
#[export] Instance RelationshipKind_to_json : ToJson RelationshipKind.t := λ x, JStr (RelationshipKind.show x).

Module RealmRole.
Inductive t :=
| viewer | contributor | reviewer | maintainer | release_manager | security_reviewer | moderator
| owner.
#[global] Instance t_eq_dec : EqDecision t.
Proof. solve_decision. Defined.
Definition show (x : t) : string :=
  match x with
  | viewer => "viewer"
  | contributor => "contributor"
  | reviewer => "reviewer"
  | maintainer => "maintainer"
  | release_manager => "release-manager"
  | security_reviewer => "security-reviewer"
  | moderator => "moderator"
  | owner => "owner"
  end.
End RealmRole.
#[export] Instance RealmRole_to_json : ToJson RealmRole.t := λ x, JStr (RealmRole.show x).

Module FactorStatus.
Inductive t :=
| satisfied | missing | denied | unknown.
#[global] Instance t_eq_dec : EqDecision t.
Proof. solve_decision. Defined.
Definition show (x : t) : string :=
  match x with
  | satisfied => "satisfied"
  | missing => "missing"
  | denied => "denied"
  | unknown => "unknown"
  end.
End FactorStatus.
#[export] Instance FactorStatus_to_json : ToJson FactorStatus.t := λ x, JStr (FactorStatus.show x).

Module DecisionCode.
Inductive t :=
| allowed | forbidden | not_found | indeterminate.
#[global] Instance t_eq_dec : EqDecision t.
Proof. solve_decision. Defined.
Definition show (x : t) : string :=
  match x with
  | allowed => "allowed"
  | forbidden => "forbidden"
  | not_found => "not_found"
  | indeterminate => "indeterminate"
  end.
End DecisionCode.
#[export] Instance DecisionCode_to_json : ToJson DecisionCode.t := λ x, JStr (DecisionCode.show x).

Module AuditOutcome.
Inductive t :=
| succeeded | denied | revoked | observed.
#[global] Instance t_eq_dec : EqDecision t.
Proof. solve_decision. Defined.
Definition show (x : t) : string :=
  match x with
  | succeeded => "succeeded"
  | denied => "denied"
  | revoked => "revoked"
  | observed => "observed"
  end.
End AuditOutcome.
#[export] Instance AuditOutcome_to_json : ToJson AuditOutcome.t := λ x, JStr (AuditOutcome.show x).

(** A budget dimension: a text or a number. *)
Module BudgetValue.
Inductive t := text (s : string) | number (n : Z).
#[global] Instance t_eq_dec : EqDecision t.
Proof. solve_decision. Defined.
End BudgetValue.

Module ResourceRef.
Record t := mk {
  realmId : string;
  organizationId : option string;
  projectId : option string;
  sourceSpaceId : option string;
  workspaceId : option string;
  changeId : option string;
  pullRequestId : option string;
  runId : option string;
  releaseId : option string;
  targetId : option string;
}.
#[global] Instance eta : Eta t := fun r =>
  mk (realmId r) (organizationId r) (projectId r) (sourceSpaceId r) (workspaceId r) (changeId r)
  (pullRequestId r) (runId r) (releaseId r) (targetId r).
End ResourceRef.

Module Realm.
Record t := mk {
  id : string;
  name : string;
  relyingPartyId : string;
  policyVersion : string;
  authorizationEpoch : Z;
  createdAt : string;
}.
#[global] Instance eta : Eta t := fun r =>
  mk (id r) (name r) (relyingPartyId r) (policyVersion r) (authorizationEpoch r) (createdAt r).
End Realm.

Module Principal.
Record t := mk {
  id : string;
  realmId : string;
  displayName : string;
  status : PrincipalStatus.t;
  createdAt : string;
}.
#[global] Instance eta : Eta t := fun r =>
  mk (id r) (realmId r) (displayName r) (status r) (createdAt r).
End Principal.

Module PasskeyCredential.
Record t := mk {
  id : string;
  principalId : string;
  realmId : string;
  relyingPartyId : string;
  signCount : Z;
  status : Status.t;
}.
#[global] Instance eta : Eta t := fun r =>
  mk (id r) (principalId r) (realmId r) (relyingPartyId r) (signCount r) (status r).
End PasskeyCredential.

(** [active] is [status === "active"], the other status being "disabled". *)
Module OidcProvider.
Record t := mk {
  id : string;
  realmId : string;
  issuer : string;
  clientId : string;
  active : bool;
}.
#[global] Instance eta : Eta t := fun r =>
  mk (id r) (realmId r) (issuer r) (clientId r) (active r).
End OidcProvider.

Module OidcIdentity.
Record t := mk {
  issuer : string;
  subject : string;
  principalId : string;
}.
#[global] Instance eta : Eta t := fun r =>
  mk (issuer r) (subject r) (principalId r).
End OidcIdentity.

Module RealmClient.
Record t := mk {
  id : string;
  realmId : string;
  kind : ClientKind.t;
  status : Status.t;
  allowedAudiences : list CredentialClass.t;
  allowedOperations : list string;
}.
#[global] Instance eta : Eta t := fun r =>
  mk (id r) (realmId r) (kind r) (status r) (allowedAudiences r) (allowedOperations r).
End RealmClient.

Module RealmActor.
Record t := mk {
  principalId : string;
  actorId : string;
  sessionId : string;
  clientId : string;
  realmId : string;
  kind : ActorKind.t;
  status : Status.t;
  agentId : option string;
  delegatedByActorId : option string;
  delegatedBySessionId : option string;
  modelProvider : option string;
}.
#[global] Instance eta : Eta t := fun r =>
  mk (principalId r) (actorId r) (sessionId r) (clientId r) (realmId r) (kind r) (status r)
  (agentId r) (delegatedByActorId r) (delegatedBySessionId r) (modelProvider r).
End RealmActor.

Module RealmAgent.
Record t := mk {
  id : string;
  realmId : string;
  principalId : string;
  name : string;
  runtime : string;
  modelProvider : string;
  clientId : string;
  allowedCredentialClasses : list CredentialClass.t;
  status : Status.t;
  createdAt : string;
  revokedAt : option string;
}.
#[global] Instance eta : Eta t := fun r =>
  mk (id r) (realmId r) (principalId r) (name r) (runtime r) (modelProvider r) (clientId r)
  (allowedCredentialClasses r) (status r) (createdAt r) (revokedAt r).
End RealmAgent.

Module RealmSession.
Record t := mk {
  id : string;
  realmId : string;
  principalId : string;
  actorId : string;
  clientId : string;
  method : AuthenticationMethod.t;
  strength : AuthenticationStrength.t;
  issuedAt : string;
  expiresAt : string;
  authorizationEpoch : Z;
  status : ExpiringStatus.t;
  actorKind : option ActorKind.t;
  agentId : option string;
  delegatedByActorId : option string;
  delegatedBySessionId : option string;
}.
#[global] Instance eta : Eta t := fun r =>
  mk (id r) (realmId r) (principalId r) (actorId r) (clientId r) (method r) (strength r)
  (issuedAt r) (expiresAt r) (authorizationEpoch r) (status r) (actorKind r) (agentId r)
  (delegatedByActorId r) (delegatedBySessionId r).
End RealmSession.

Module RealmTask.
Record t := mk {
  id : string;
  realmId : string;
  principalId : string;
  actorId : string;
  sessionId : string;
  purpose : string;
  workspaceId : option string;
  changeId : option string;
  modelProvider : option string;
  agentId : option string;
  delegatedByActorId : option string;
  delegatedBySessionId : option string;
  createdAt : string;
  status : TaskStatus.t;
}.
#[global] Instance eta : Eta t := fun r =>
  mk (id r) (realmId r) (principalId r) (actorId r) (sessionId r) (purpose r) (workspaceId r)
  (changeId r) (modelProvider r) (agentId r) (delegatedByActorId r) (delegatedBySessionId r)
  (createdAt r) (status r).
End RealmTask.

Module Relationship.
Record t := mk {
  id : string;
  realmId : string;
  principalId : string;
  kind : RelationshipKind.t;
  subjectId : string;
  role : RealmRole.t;
  resource : ResourceRef.t;
  deniedCapabilities : list Capability.t;
  status : Status.t;
}.
#[global] Instance eta : Eta t := fun r =>
  mk (id r) (realmId r) (principalId r) (kind r) (subjectId r) (role r) (resource r)
  (deniedCapabilities r) (status r).
End Relationship.

Module SourceSpacePolicy.
Record t := mk {
  id : string;
  realmId : string;
  sourceSpaceId : string;
  classification : SourceSpaceClassification.t;
  allowedCapabilities : list Capability.t;
  deniedCapabilities : list Capability.t;
  readerPrincipalIds : list string;
  allowedModelProviders : list string;
  discoverable : bool;
  policyVersion : string;
}.
#[global] Instance eta : Eta t := fun r =>
  mk (id r) (realmId r) (sourceSpaceId r) (classification r) (allowedCapabilities r)
  (deniedCapabilities r) (readerPrincipalIds r) (allowedModelProviders r) (discoverable r)
  (policyVersion r).
End SourceSpacePolicy.

Module RealmCapabilityGrant.
Record t := mk {
  id : string;
  realmId : string;
  subjectId : string;
  resource : ResourceRef.t;
  actions : list Capability.t;
  expiresAt : string;
  status : ExpiringStatus.t;
  principalId : string;
  actorId : string;
  clientId : string;
  sessionId : string;
  taskId : string;
  sourceSpaceIds : list string;
  effects : list string;
  allowedModelProviders : list string;
  allowedCredentialClasses : list CredentialClass.t;
  deniedActions : list Capability.t;
  budget : omap BudgetValue.t;
  policyVersion : string;
  authorizationEpoch : Z;
  agentId : option string;
  delegatedByActorId : option string;
  delegatedBySessionId : option string;
  parentGrantId : option string;
  consentAt : option string;
}.
#[global] Instance eta : Eta t := fun r =>
  mk (id r) (realmId r) (subjectId r) (resource r) (actions r) (expiresAt r) (status r)
  (principalId r) (actorId r) (clientId r) (sessionId r) (taskId r) (sourceSpaceIds r)
  (effects r) (allowedModelProviders r) (allowedCredentialClasses r) (deniedActions r)
  (budget r) (policyVersion r) (authorizationEpoch r) (agentId r) (delegatedByActorId r)
  (delegatedBySessionId r) (parentGrantId r) (consentAt r).
End RealmCapabilityGrant.

Module IssuedCredentialRecord.
Record t := mk {
  id : string;
  realmId : string;
  class : CredentialClass.t;
  audience : string;
  principalId : string;
  actorId : string;
  clientId : string;
  sessionId : string;
  taskId : string;
  grantId : string;
  resource : ResourceRef.t;
  tokenDigest : string;
  issuedAt : string;
  expiresAt : string;
  authorizationEpoch : Z;
  status : ExpiringStatus.t;
}.
#[global] Instance eta : Eta t := fun r =>
  mk (id r) (realmId r) (class r) (audience r) (principalId r) (actorId r) (clientId r)
  (sessionId r) (taskId r) (grantId r) (resource r) (tokenDigest r) (issuedAt r) (expiresAt r)
  (authorizationEpoch r) (status r).
End IssuedCredentialRecord.

Module PolicyFactor.
Record t := mk {
  name : string;
  status : FactorStatus.t;
  detail : option string;
}.
#[global] Instance eta : Eta t := fun r =>
  mk (name r) (status r) (detail r).
End PolicyFactor.

Module PolicyExplanation.
Record t := mk {
  id : string;
  decision : PolicyDecisionKind.t;
  code : DecisionCode.t;
  operation : string;
  resource : option ResourceRef.t;
  policyVersion : string;
  authorizationEpoch : Z;
  satisfiedCapabilities : list Capability.t;
  missingCapabilities : list Capability.t;
  factors : list PolicyFactor.t;
  remediation : string;
  recheckAt : string;
  safeProjection : bool;
}.
#[global] Instance eta : Eta t := fun r =>
  mk (id r) (decision r) (code r) (operation r) (resource r) (policyVersion r)
  (authorizationEpoch r) (satisfiedCapabilities r) (missingCapabilities r) (factors r)
  (remediation r) (recheckAt r) (safeProjection r).
End PolicyExplanation.

Module AuditEvent.
Record t := mk {
  id : string;
  realmId : string;
  occurredAt : string;
  eventType : string;
  outcome : AuditOutcome.t;
  principalId : option string;
  actorId : option string;
  actorKind : option ActorKind.t;
  clientId : option string;
  modelProvider : option string;
  sessionId : option string;
  taskId : option string;
  grantId : option string;
  workspaceId : option string;
  projectId : option string;
  changeId : option string;
  sourceSpaceId : option string;
  promotionId : option string;
  authorityClass : option AuthorityClass.t;
  credentialClass : option CredentialClass.t;
  policyDecisionId : option string;
  details : json;
}.
#[global] Instance eta : Eta t := fun r =>
  mk (id r) (realmId r) (occurredAt r) (eventType r) (outcome r) (principalId r) (actorId r)
  (actorKind r) (clientId r) (modelProvider r) (sessionId r) (taskId r) (grantId r)
  (workspaceId r) (projectId r) (changeId r) (sourceSpaceId r) (promotionId r)
  (authorityClass r) (credentialClass r) (policyDecisionId r) (details r).
End AuditEvent.

(** ** Inputs and results *)

Module IssueCredentialInput.
Record t := mk {
  class : CredentialClass.t;
  principalId : string;
  actorId : string;
  clientId : string;
  sessionId : string;
  taskId : string;
  grantId : string;
  resource : ResourceRef.t;
}.
#[global] Instance eta : Eta t := fun r =>
  mk (class r) (principalId r) (actorId r) (clientId r) (sessionId r) (taskId r) (grantId r)
  (resource r).
End IssueCredentialInput.

Module CredentialValidationInput.
Record t := mk {
  class : option CredentialClass.t;
  audience : option string;
  resource : option ResourceRef.t;
}.
#[global] Instance eta : Eta t := fun r =>
  mk (class r) (audience r) (resource r).
End CredentialValidationInput.

Module CredentialInvalidCode.
Inductive t :=
| credential_invalid | credential_expired | credential_revoked | credential_stale
| credential_audience_mismatch | credential_resource_mismatch.
#[global] Instance t_eq_dec : EqDecision t.
Proof. solve_decision. Defined.
Definition show (x : t) : string :=
  match x with
  | credential_invalid => "credential.invalid"
  | credential_expired => "credential.expired"
  | credential_revoked => "credential.revoked"
  | credential_stale => "credential.stale"
  | credential_audience_mismatch => "credential.audience_mismatch"
  | credential_resource_mismatch => "credential.resource_mismatch"
  end.
End CredentialInvalidCode.

(** The explanation and the receipt of a refusal are functions of its code and
    of the record, and are dropped. *)
Inductive CredentialValidationResult :=
| credential_valid (credential : IssuedCredentialRecord.t)
| credential_refused (code : CredentialInvalidCode.t).

Module TaskGrantValidationInput.
Record t := mk {
  principalId : string;
  actorId : string;
  clientId : string;
  sessionId : string;
  taskId : string;
  grantId : string;
  resource : ResourceRef.t;
  sourceSpaceIds : list string;
  action : Capability.t;
  effects : option (list string);
}.
#[global] Instance eta : Eta t := fun r =>
  mk (principalId r) (actorId r) (clientId r) (sessionId r) (taskId r) (grantId r) (resource r)
  (sourceSpaceIds r) (action r) (effects r).
End TaskGrantValidationInput.

Module LiveTaskGrant.
Record t := mk {
  taskId : string;
  grantId : string;
  expiresAt : string;
  authorizationEpoch : Z;
  sourceSpaceCount : nat;
}.
#[global] Instance eta : Eta t := fun r =>
  mk (taskId r) (grantId r) (expiresAt r) (authorizationEpoch r) (sourceSpaceCount r).
End LiveTaskGrant.

Inductive TaskGrantValidationResult :=
| task_grant_valid (live : LiveTaskGrant.t)
| task_grant_refused (code recoveryAction receipt : string).

Module CreateTaskGrantInput.
Record t := mk {
  principalId : string;
  actorId : string;
  clientId : string;
  sessionId : string;
  taskId : string;
  resource : ResourceRef.t;
  sourceSpaceIds : list string;
  actions : list Capability.t;
  effects : option (list string);
  allowedModelProviders : option (list string);
  allowedCredentialClasses : option (list CredentialClass.t);
  deniedActions : option (list Capability.t);
  budget : option (omap BudgetValue.t);
  expiresAt : option string;
  parentGrantId : option string;
  agentId : option string;
  delegatedByActorId : option string;
  delegatedBySessionId : option string;
  consentAt : option string;
}.
#[global] Instance eta : Eta t := fun r =>
  mk (principalId r) (actorId r) (clientId r) (sessionId r) (taskId r) (resource r)
  (sourceSpaceIds r) (actions r) (effects r) (allowedModelProviders r)
  (allowedCredentialClasses r) (deniedActions r) (budget r) (expiresAt r) (parentGrantId r)
  (agentId r) (delegatedByActorId r) (delegatedBySessionId r) (consentAt r).
End CreateTaskGrantInput.

Module AgentDelegationInput.
Record t := mk {
  humanSessionId : string;
  parentGrantId : string;
  agentId : string;
  purpose : string;
  resource : ResourceRef.t;
  sourceSpaceIds : list string;
  actions : list Capability.t;
  effects : option (list string);
  allowedCredentialClasses : option (list CredentialClass.t);
  budget : option (omap BudgetValue.t);
  expiresAt : option string;
  workspaceId : option string;
  changeId : option string;
  consentAt : option string;
}.
#[global] Instance eta : Eta t := fun r =>
  mk (humanSessionId r) (parentGrantId r) (agentId r) (purpose r) (resource r)
  (sourceSpaceIds r) (actions r) (effects r) (allowedCredentialClasses r) (budget r)
  (expiresAt r) (workspaceId r) (changeId r) (consentAt r).
End AgentDelegationInput.

Module RealmAgentDelegation.
Record t := mk {
  agent : RealmAgent.t;
  actor : RealmActor.t;
  session : RealmSession.t;
  task : RealmTask.t;
  grant : RealmCapabilityGrant.t;
  delegatedBy : ActorRef.t;
  receipt : string;
}.
#[global] Instance eta : Eta t := fun r =>
  mk (agent r) (actor r) (session r) (task r) (grant r) (delegatedBy r) (receipt r).
End RealmAgentDelegation.

(** ** The state *)

(** The object: its state record and the two configured lifetimes.
    [auditLog] is [state.audit]. *)
Module RealmState.
Record t := mk {
  realm : Realm.t;
  principals : omap Principal.t;
  agents : omap RealmAgent.t;
  passkeys : omap PasskeyCredential.t;
  oidcProviders : omap OidcProvider.t;
  oidcIdentities : omap OidcIdentity.t;
  clients : omap RealmClient.t;
  actors : omap RealmActor.t;
  sessions : omap RealmSession.t;
  tasks : omap RealmTask.t;
  relationships : omap Relationship.t;
  sourceSpacePolicies : omap SourceSpacePolicy.t;
  grants : omap RealmCapabilityGrant.t;
  credentials : omap IssuedCredentialRecord.t;
  auditLog : list AuditEvent.t;
  sessionLifetimeMs : Z;
  credentialLifetimeMs : Z;
}.
#[global] Instance eta : Eta t := fun r =>
  mk (realm r) (principals r) (agents r) (passkeys r) (oidcProviders r) (oidcIdentities r)
  (clients r) (actors r) (sessions r) (tasks r) (relationships r) (sourceSpacePolicies r)
  (grants r) (credentials r) (auditLog r) (sessionLifetimeMs r) (credentialLifetimeMs r).
End RealmState.

Module RealmRecoverySnapshot.
Record t := mk {
  realm : Realm.t;
  principals : omap Principal.t;
  agents : omap RealmAgent.t;
  passkeys : omap PasskeyCredential.t;
  oidcProviders : omap OidcProvider.t;
  oidcIdentities : omap OidcIdentity.t;
  clients : omap RealmClient.t;
  actors : omap RealmActor.t;
  sessions : omap RealmSession.t;
  tasks : omap RealmTask.t;
  relationships : omap Relationship.t;
  sourceSpacePolicies : omap SourceSpacePolicy.t;
  grants : omap RealmCapabilityGrant.t;
  auditLog : list AuditEvent.t;
  credentialFree : bool;
}.
#[global] Instance eta : Eta t := fun r =>
  mk (realm r) (principals r) (agents r) (passkeys r) (oidcProviders r) (oidcIdentities r)
  (clients r) (actors r) (sessions r) (tasks r) (relationships r) (sourceSpacePolicies r)
  (grants r) (auditLog r) (credentialFree r).
End RealmRecoverySnapshot.

(** ** Errors

    An error keeps its code and the object it names, the recovery action and
    the receipt of the errors that [validateTaskGrant] reads back, and the
    explanation of a denied operation. *)
Inductive failure :=
| identity_error (code : string) (affectedObject : option string)
    (advice : option (string * string)) (explanation : option PolicyExplanation.t)
| range_error.
Definition fail (code : string) : failure := identity_error code None None None.
Definition fail_on (code object : string) : failure := identity_error code (Some object) None None.

(** * Constants *)

Definition AGENT_DEFAULT_CREDENTIAL_CLASSES : list CredentialClass.t :=
  [CredentialClass.realm_api; CredentialClass.git; CredentialClass.mcp].
Definition AGENT_PROHIBITED_CAPABILITIES : list Capability.t :=
  [Capability.policy_manage; Capability.identity_manage; Capability.target_promote].
Definition CREDENTIAL_AUDIENCES (c : CredentialClass.t) : string :=
  cat ["aud:anyam:"; CredentialClass.show c].
Definition default_session_lifetime : Z := 8 * 60 * 60 * 1000.
Definition default_credential_lifetime : Z := 15 * 60 * 1000.

Section roles.
Import Capability.
Definition ROLE_CAPABILITIES (role : RealmRole.t) : list Capability.t :=
  match role with
  | RealmRole.viewer =>
      [project_inspect; intent_inspect; source_read; workspace_inspect; change_inspect;
       pullRequest_inspect; evidence_read; target_read]
  | RealmRole.contributor =>
      [project_inspect; intent_inspect; source_read; workspace_inspect; workspace_write;
       change_inspect; change_publish_revision; pullRequest_inspect; pullRequest_write;
       review_submit_finding; run_invoke; evidence_read; target_read; agent_delegate]
  | RealmRole.reviewer =>
      [project_inspect; intent_inspect; source_read; workspace_inspect; change_inspect;
       pullRequest_inspect; pullRequest_write; review_submit_finding; change_approve;
       evidence_read; target_read]
  | RealmRole.maintainer =>
      [project_inspect; intent_inspect; source_read; source_propose; workspace_inspect;
       workspace_write; change_inspect; change_publish_revision; pullRequest_inspect;
       pullRequest_write; review_submit_finding; change_approve; run_invoke; evidence_read;
       landing_request; target_read; extension_install; extension_manage; extension_invoke;
       governance_profile_evaluate; agent_delegate]
  | RealmRole.release_manager =>
      [project_inspect; intent_inspect; source_read; change_inspect; pullRequest_inspect;
       pullRequest_write; review_submit_finding; change_approve; evidence_read; target_read;
       target_promote; landing_request; release_create; promotion_request; extension_invoke]
  | RealmRole.security_reviewer =>
      [project_inspect; intent_inspect; source_read; workspace_inspect; change_inspect;
       pullRequest_inspect; pullRequest_write; review_submit_finding; change_approve; run_invoke;
       evidence_read; target_read; governance_profile_evaluate]
  | RealmRole.moderator =>
      [project_inspect; intent_inspect; change_inspect; pullRequest_inspect; evidence_read;
       public_moderate]
  | RealmRole.owner =>
      [project_inspect; intent_inspect; source_read; source_propose; workspace_inspect;
       workspace_write; change_inspect; change_publish_revision; pullRequest_inspect;
       pullRequest_write; review_submit_finding; change_approve; run_invoke; evidence_read;
       secret_use; landing_request; release_create; target_configure; promotion_request;
       target_read; target_promote; extension_install; extension_manage; extension_invoke;
       governance_profile_manage; governance_profile_evaluate; agent_delegate; policy_manage;
       identity_manage]
  end.
End roles.

(** The [allowedAudiences] of [defaultClient]. *)
Definition default_audiences (kind : ClientKind.t) : list CredentialClass.t :=
  match kind with
  | ClientKind.browser => [CredentialClass.realm_api; CredentialClass.mcp]
  | ClientKind.cli => [CredentialClass.realm_api; CredentialClass.git; CredentialClass.mcp]
  | ClientKind.mcp => [CredentialClass.realm_api; CredentialClass.mcp]
  | ClientKind.git => [CredentialClass.git]
  | ClientKind.runner => [CredentialClass.runner]
  | ClientKind.integration => [CredentialClass.integration]
  | ClientKind.deployment => [CredentialClass.deployment]
  | ClientKind.promotion => [CredentialClass.promotion]
  end.
Definition defaultClient (id : string) (kind : ClientKind.t) : RealmClient.t := {|
  RealmClient.id := id;
  RealmClient.realmId := "";
  RealmClient.kind := kind;
  RealmClient.status := Status.active;
  RealmClient.allowedAudiences := default_audiences kind;
  RealmClient.allowedOperations := [];
|}.

(** * Helpers *)

(** [l.includes(x)] for a type with equality. *)
Definition member_of {A} `{EqDecision A} (l : list A) (x : A) : bool := bool_decide (x ∈ l).
(** [set.add(x)]. *)
Definition set_add (x : string) (l : list string) : list string := if decide (x ∈ l) then l else l ++ [x].

Definition scope_keys : list (ResourceRef.t → option string) :=
  [ResourceRef.organizationId; ResourceRef.projectId; ResourceRef.sourceSpaceId;
   ResourceRef.workspaceId; ResourceRef.changeId; ResourceRef.pullRequestId; ResourceRef.runId;
   ResourceRef.releaseId; ResourceRef.targetId].
Definition resourceMatches (scope resource : ResourceRef.t) : bool :=
  String.eqb (ResourceRef.realmId scope) (ResourceRef.realmId resource)
  && forallb (fun key => match key scope with
                         | Some expected => bool_decide (key resource = Some expected)
                         | None => true
                         end) scope_keys.

Definition listIsSubset {A} `{EqDecision A} (candidate parent : list A) : bool :=
  forallb (member_of parent) candidate.

(** One entry of a budget against the parent's. *)
Definition dimension_narrower (parent : omap BudgetValue.t) (entry : string * BudgetValue.t) : bool :=
  match omap_get entry.1 parent with
  | None => true
  | Some parentValue =>
      match parentValue, entry.2 with
      | BudgetValue.number p, BudgetValue.number v => (v <=? p)%Z
      | parentValue, value => bool_decide (value = parentValue)
      end
  end.
Definition budgetIsNarrower (candidate parent : omap BudgetValue.t) : bool :=
  forallb (dimension_narrower parent) candidate.

(** An event with what the caller names, to be completed by [audit]. *)
Definition event (eventType : string) (outcome : AuditOutcome.t) (details : json) : AuditEvent.t :=
  AuditEvent.mk "" "" "" eventType outcome None None None None None None None None None None None
    None None None None None details.

Definition or_undef `{ToJson A} (o : option A) : json :=
  match o with Some a => to_json a | None => JUndefined end.

(** ** Revocation sweeps

    One pass over the grants revokes the active ones that [hit] selects, given
    the ids revoked so far, and tells whether it has revoked any. *)
Fixpoint revoke_pass (hit : list string → RealmCapabilityGrant.t → bool) (revoked : list string)
    (grants : omap RealmCapabilityGrant.t) : list string * omap RealmCapabilityGrant.t * bool :=
  match grants with
  | [] => (revoked, [], false)
  | (k, g) :: rest =>
      if hit revoked g && bool_decide (RealmCapabilityGrant.status g = ExpiringStatus.active)
      then
        let '(revoked, rest, _) :=
          revoke_pass hit (set_add (RealmCapabilityGrant.id g) revoked) rest in
        (revoked, (k, g <| RealmCapabilityGrant.status := ExpiringStatus.revoked |>) :: rest, true)
      else
        let '(revoked, rest, expanded) := revoke_pass hit revoked rest in
        (revoked, (k, g) :: rest, expanded)
  end.
(** [while (expanded)]: a pass that expands revokes an active grant, so there
    are no more passes than grants, and one. *)
Fixpoint revoke_loop (fuel : nat) (hit : list string → RealmCapabilityGrant.t → bool)
    (revoked : list string) (grants : omap RealmCapabilityGrant.t) :
    list string * omap RealmCapabilityGrant.t :=
  match fuel with
  | O => (revoked, grants)
  | Datatypes.S fuel =>
      let '(revoked, grants, expanded) := revoke_pass hit revoked grants in
      if expanded then revoke_loop fuel hit revoked grants else (revoked, grants)
  end.
Definition revoke_grants (hit : list string → RealmCapabilityGrant.t → bool) (revoked : list string)
    (grants : omap RealmCapabilityGrant.t) : list string * omap RealmCapabilityGrant.t :=
  revoke_loop (Datatypes.S (length grants)) hit revoked grants.

Definition child_of (revoked : list string) (g : RealmCapabilityGrant.t) : bool :=
  match truthy_opt (RealmCapabilityGrant.parentGrantId g) with
  | Some p => list_includes revoked p
  | None => false
  end.
Definition child_or_held (sessions : list string) (revoked : list string)
    (g : RealmCapabilityGrant.t) : bool :=
  list_includes sessions (RealmCapabilityGrant.sessionId g)
  || match RealmCapabilityGrant.parentGrantId g with
     | Some p => list_includes revoked p
     | None => false
     end.

(** The sessions delegated from those of [ids], transitively. *)
Fixpoint delegated_pass (ids : list string) (sessions : list RealmSession.t) : list string * bool :=
  match sessions with
  | [] => (ids, false)
  | s :: rest =>
      if match truthy_opt (RealmSession.delegatedBySessionId s) with
         | Some p => list_includes ids p
         | None => false
         end && negb (list_includes ids (RealmSession.id s))
      then ((delegated_pass (ids ++ [RealmSession.id s]) rest).1, true)
      else delegated_pass ids rest
  end.
Fixpoint delegated_loop (fuel : nat) (ids : list string) (sessions : list RealmSession.t) : list string :=
  match fuel with
  | O => ids
  | Datatypes.S fuel =>
      let '(ids, expanded) := delegated_pass ids sessions in
      if expanded then delegated_loop fuel ids sessions else ids
  end.
Definition delegatedSessions (sessionId : string) (sessions : omap RealmSession.t) : list string :=
  delegated_loop (Datatypes.S (length sessions)) [sessionId] (omap_values sessions).

(** The active credentials that [hit] selects, revoked, and their ids. *)
Definition affected (hit : IssuedCredentialRecord.t → bool) (c : IssuedCredentialRecord.t) : bool :=
  hit c && bool_decide (IssuedCredentialRecord.status c = ExpiringStatus.active).
Definition revoke_if (hit : IssuedCredentialRecord.t → bool) (c : IssuedCredentialRecord.t) :
    IssuedCredentialRecord.t :=
  if affected hit c then c <| IssuedCredentialRecord.status := ExpiringStatus.revoked |> else c.
Definition revoke_credentials (hit : IssuedCredentialRecord.t → bool)
    (credentials : omap IssuedCredentialRecord.t) : list string * omap IssuedCredentialRecord.t :=
  (IssuedCredentialRecord.id <$> base.filter (fun c => affected hit c = true) (omap_values credentials),
   (fun p => (p.1, revoke_if hit p.2)) <$> credentials).

(** The session, its Actor and its open Tasks closed. *)
Definition close_session (s : RealmState.t) (sessionId : string) : RealmState.t :=
  match omap_get sessionId (RealmState.sessions s) with
  | None => s
  | Some session =>
      let s := s <| RealmState.sessions := omap_set sessionId
        (session <| RealmSession.status := ExpiringStatus.revoked |>) (RealmState.sessions s) |> in
      let s := match omap_get (RealmSession.actorId session) (RealmState.actors s) with
               | Some actor => s <| RealmState.actors := omap_set (RealmSession.actorId session)
                   (actor <| RealmActor.status := Status.revoked |>) (RealmState.actors s) |>
               | None => s
               end in
      s <| RealmState.tasks := (fun p =>
        (p.1, if String.eqb (RealmTask.sessionId p.2) sessionId
                 && bool_decide (RealmTask.status p.2 = TaskStatus.active)
              then p.2 <| RealmTask.status := TaskStatus.closed |> else p.2)) <$> RealmState.tasks s |>
  end.

(** What [revokeAgent] answers. *)
Module RevokedAgent.
Record t := mk {
  agentId : string;
  revokedActorIds : list string;
  revokedSessionIds : list string;
  revokedGrantIds : list string;
  revokedCredentialIds : list string;
}.
End RevokedAgent.

Inductive AuthenticationInput :=
| by_passkey (credentialId : string) (relyingPartyId : option string) (challenge : string) (verified : bool)
    (signCount : option Z) (clientId : option string)
| by_oidc (issuer subject : string) (verified : bool) (clientId : option string).

(** A chain of delegation: what must hold of a link before and after the clock is
    read, and the link it was derived from. *)
Record chain_of (A : Type) := {
  link_id : A → string;
  link_expiresAt : A → string;
  link_ready : RealmState.t → A → bool;
  link_valid : RealmState.t → A → bool;
  link_parent : A → option string;
  link_map : RealmState.t → omap A;
}.
Arguments link_id {A}.
Arguments link_expiresAt {A}.
Arguments link_ready {A}.
Arguments link_valid {A}.
Arguments link_parent {A}.
Arguments link_map {A}.

(** * The policy object *)

Section realm.
Context `{HH : Host} `{DH : RealmHost}.
#[local] Abbreviation P := (M RealmState.t failure).

(** [now().getTime()]. *)
Definition date : P Z := fun w s =>
  (Ok (time (clock_reads w)), mkWorld (uuids_drawn w) (1 + clock_reads w), s).
(** [new Date(t).toISOString()], [t] being NaN when it is [None]. *)
Definition iso (t : option Z) : P string :=
  match t with
  | Some t => if (Z.abs t <=? date_limit)%Z then mret (toISOString t) else throw range_error
  | None => throw range_error
  end.
Definition nowIso : P string := t ← date; iso (Some t).
Definition expiry (lifetimeMs : Z) : P string := t ← date; iso (Some (t + lifetimeMs))%Z.
Definition expired (value : string) : P bool :=
  t ← date; mret (match Date_parse value with Some v => (v <=? t)%Z | None => false end).
(** [base64Url(randomBytes(32))]. *)
Definition randomToken : P string := fun w s =>
  (Ok (base64Url (randomBytes 32 (uuids_drawn w))), mkWorld (1 + uuids_drawn w) (clock_reads w), s).
Definition tokenDigest (token : string) : string := cat ["sha256:"; sha256 token].

(** ** Lookups, the audit log and the two chains *)

Definition realm_id (s : RealmState.t) : string := Realm.id (RealmState.realm s).
Definition epoch (s : RealmState.t) : Z := Realm.authorizationEpoch (RealmState.realm s).
Definition actor_kind (actorId : string) (s : RealmState.t) : option ActorKind.t :=
  RealmActor.kind <$> omap_get actorId (RealmState.actors s).

Definition audit (e : AuditEvent.t) : P () :=
  id ← opaqueId "audit";
  occurredAt ← nowIso;
  modify (fun s => s <| RealmState.auditLog := RealmState.auditLog s ++
    [e <| AuditEvent.id := id |> <| AuditEvent.realmId := realm_id s |>
       <| AuditEvent.occurredAt := occurredAt |>] |>).

Definition requirePrincipal (principalId : string) : P Principal.t :=
  s ← get;
  match omap_get principalId (RealmState.principals s) with
  | Some principal =>
      throw_if (negb (String.eqb (Principal.realmId principal) (realm_id s))) (fail "identity.not_found") ;;
      mret principal
  | None => throw (fail "identity.not_found")
  end.

Definition requireClient (clientId : string) : P RealmClient.t :=
  s ← get;
  match omap_get clientId (RealmState.clients s) with
  | Some client =>
      throw_if (negb (String.eqb (RealmClient.realmId client) (realm_id s))
                || negb (bool_decide (RealmClient.status client = Status.active)))
        (fail_on "client.invalid" clientId) ;;
      mret client
  | None => throw (fail_on "client.invalid" clientId)
  end.

(** [this.state.agents[agentId]?.status === "active"], for a truthy id. *)
Definition agent_active (agentId : option string) (s : RealmState.t) : bool :=
  match truthy_opt agentId ≫= fun id => omap_get id (RealmState.agents s) with
  | Some agent => bool_decide (RealmAgent.status agent = Status.active)
  | None => false
  end.
(** The Actor of a session in the chain. *)
Definition actor_active (session : RealmSession.t) (s : RealmState.t) : bool :=
  match omap_get (RealmSession.actorId session) (RealmState.actors s) with
  | None => false
  | Some actor =>
      bool_decide (RealmActor.status actor = Status.active)
      && String.eqb (RealmActor.realmId actor) (realm_id s)
      && String.eqb (RealmActor.principalId actor) (RealmSession.principalId session)
      && String.eqb (RealmActor.sessionId actor) (RealmSession.id session)
      && (negb (bool_decide (RealmActor.kind actor = ActorKind.agent))
          || agent_active (RealmActor.agentId actor) s)
  end.

(** Every link of the chain is alive.  A link seen twice breaks the chain, so
    there are no more calls than records, and two. *)
Fixpoint chain_active {A} (C : chain_of A) (fuel : nat) (seen : list string) (x : A) : P bool :=
  match fuel with
  | O => mret false
  | S fuel =>
      s ← get;
      if list_includes seen (link_id C x) || negb (link_ready C s x) then mret false
      else
        e ← expired (link_expiresAt C x);
        if e || negb (link_valid C s x) then mret false
        else match truthy_opt (link_parent C x) with
             | None => mret true
             | Some p =>
                 match omap_get p (link_map C s) with
                 | None => mret false
                 | Some parent => chain_active C fuel (link_id C x :: seen) parent
                 end
             end
  end.

Definition session_chain : chain_of RealmSession.t := {|
  link_id := RealmSession.id;
  link_expiresAt := RealmSession.expiresAt;
  link_ready := fun s session =>
    String.eqb (RealmSession.realmId session) (realm_id s)
    && bool_decide (RealmSession.status session = ExpiringStatus.active);
  link_valid := fun s session =>
    (RealmSession.authorizationEpoch session =? epoch s)%Z && actor_active session s;
  link_parent := RealmSession.delegatedBySessionId;
  link_map := RealmState.sessions;
|}.
Definition sessionChainIsActive (session : RealmSession.t) : P bool :=
  s ← get; chain_active session_chain (2 + length (RealmState.sessions s)) [] session.

Definition grant_chain : chain_of RealmCapabilityGrant.t := {|
  link_id := RealmCapabilityGrant.id;
  link_expiresAt := RealmCapabilityGrant.expiresAt;
  link_ready := fun _ grant => bool_decide (RealmCapabilityGrant.status grant = ExpiringStatus.active);
  link_valid := fun s grant => (RealmCapabilityGrant.authorizationEpoch grant =? epoch s)%Z;
  link_parent := RealmCapabilityGrant.parentGrantId;
  link_map := RealmState.grants;
|}.
Definition grantChainIsActive (grant : RealmCapabilityGrant.t) : P bool :=
  s ← get; chain_active grant_chain (2 + length (RealmState.grants s)) [] grant.

Definition set_session (id : string) (session : RealmSession.t) : P () :=
  modify (fun s => s <| RealmState.sessions := omap_set id session (RealmState.sessions s) |>).

Definition session_inactive (session : RealmSession.t) : failure :=
  identity_error "session.inactive" (Some (RealmSession.id session))
    (Some ("authenticate the delegating human again and create a fresh agent Task",
           cat ["session-status="; ExpiringStatus.show (RealmSession.status session);
                "; chain=inactive"])) None.
Definition session_not_found : failure :=
  identity_error "session.not_found" None
    (Some ("authenticate again through the configured Realm provider", "session lookup")) None.

(** Marks an expired session before it refuses it. *)
Definition requireSession (sessionId : string) : P RealmSession.t :=
  s ← get;
  match omap_get sessionId (RealmState.sessions s) with
  | None => throw session_not_found
  | Some session =>
      throw_if (negb (String.eqb (RealmSession.realmId session) (realm_id s))) session_not_found ;;
      session ← (if bool_decide (RealmSession.status session = ExpiringStatus.active) then
                   e ← expired (RealmSession.expiresAt session);
                   if e : bool then
                     let session := session <| RealmSession.status := ExpiringStatus.expired |> in
                     set_session sessionId session ;; mret session
                   else mret session
                 else mret session);
      if bool_decide (RealmSession.status session = ExpiringStatus.active) then
        ok ← sessionChainIsActive session;
        throw_if (negb ok) (session_inactive session) ;;
        mret session
      else throw (session_inactive session)
  end.
Definition validateSession : string → P RealmSession.t := requireSession.

(** ** Clients, agents, principals and their credentials *)

Definition registerClient (id : string) (kind : ClientKind.t)
    (allowedAudiences : option (list CredentialClass.t)) (allowedOperations : option (list string)) :
    P RealmClient.t :=
  s ← get;
  let default := defaultClient id kind in
  let client := default
    <| RealmClient.realmId := realm_id s |>
    <| RealmClient.allowedAudiences :=
         from_option (fun l => l) (RealmClient.allowedAudiences default) allowedAudiences |>
    <| RealmClient.allowedOperations :=
         from_option (fun l => l) (RealmClient.allowedOperations default) allowedOperations |> in
  match RealmClient.status <$> omap_get id (RealmState.clients s) with
  | Some Status.active => throw (fail_on "client.exists" id)
  | Some Status.revoked => throw (fail_on "client.revoked" id)
  | None =>
      modify (fun s => s <| RealmState.clients := omap_set id client (RealmState.clients s) |>) ;;
      mret client
  end.

(** [options.realmId], [name], [relyingPartyId] and [policyVersion], and the two
    lifetimes: the state of a new object. *)
Definition initial (realm : Realm.t) (sessionLifetimeMs credentialLifetimeMs : Z) : RealmState.t :=
  RealmState.mk realm [] [] [] [] [] [] [] [] [] [] [] [] [] [] sessionLifetimeMs credentialLifetimeMs.
Definition construct (realmId name relyingPartyId policyVersion : option string)
    (sessionLifetimeMs credentialLifetimeMs : option Z) : P () :=
  let sessionLifetimeMs := default default_session_lifetime sessionLifetimeMs in
  let credentialLifetimeMs := default default_credential_lifetime credentialLifetimeMs in
  throw_if (sessionLifetimeMs <=? 0)%Z (fail "realm.policy.invalid") ;;
  throw_if (credentialLifetimeMs <=? 0)%Z (fail "realm.policy.invalid") ;;
  createdAt ← nowIso;
  realmId ← match realmId with Some id => mret id | None => opaqueId "realm" end;
  let realm := {|
    Realm.id := realmId;
    Realm.name := default realmId name;
    Realm.relyingPartyId := default "anyam.local" relyingPartyId;
    Realm.policyVersion := default (cat [realmId; ":policy:v1"]) policyVersion;
    Realm.authorizationEpoch := 1;
    Realm.createdAt := createdAt;
  |} in
  modify (fun _ => initial realm sessionLifetimeMs credentialLifetimeMs) ;;
  _ ← registerClient "client:anyam-web" ClientKind.browser None None;
  _ ← registerClient "client:anyam-cli" ClientKind.cli None None;
  _ ← registerClient "client:anyam-mcp" ClientKind.mcp None None;
  mret ().

Definition registerAgent (principalId name runtime modelProvider : string) (id clientId : option string)
    (allowedCredentialClasses : option (list CredentialClass.t)) : P RealmAgent.t :=
  principal ← requirePrincipal principalId;
  throw_if (negb (bool_decide (Principal.status principal = PrincipalStatus.active)))
    (fail "agent.principal_disabled") ;;
  throw_if (blank name || blank runtime || blank modelProvider) (fail "agent.registration_invalid") ;;
  id ← match id with Some id => mret id | None => opaqueId "agent" end;
  s ← get;
  throw_if (omap_has id (RealmState.agents s)) (fail_on "agent.exists" id) ;;
  let clientId := default (cat ["client:"; id]) clientId in
  let classes := default AGENT_DEFAULT_CREDENTIAL_CLASSES allowedCredentialClasses in
  throw_if (bool_decide (classes = [])) (fail "agent.registration_invalid") ;;
  client ← match omap_get clientId (RealmState.clients s) with
           | Some client => mret client
           | None => registerClient clientId ClientKind.mcp (Some classes) (Some ["agent.task"])
           end;
  throw_if (negb (bool_decide (RealmClient.status client = Status.active))
            || negb (listIsSubset classes (RealmClient.allowedAudiences client)))
    (fail "agent.client_audience_denied") ;;
  createdAt ← nowIso;
  let agent := {|
    RealmAgent.id := id;
    RealmAgent.realmId := realm_id s;
    RealmAgent.principalId := Principal.id principal;
    RealmAgent.name := name;
    RealmAgent.runtime := runtime;
    RealmAgent.modelProvider := modelProvider;
    RealmAgent.clientId := clientId;
    RealmAgent.allowedCredentialClasses := classes;
    RealmAgent.status := Status.active;
    RealmAgent.createdAt := createdAt;
    RealmAgent.revokedAt := None;
  |} in
  modify (fun s => s <| RealmState.agents := omap_set id agent (RealmState.agents s) |>) ;;
  audit (event "agent.registered" AuditOutcome.observed
           (object [field "agentId" id; field "runtime" runtime;
                    field "allowedCredentialClasses" classes; field "credentialMaterialStored" false])
    <| AuditEvent.principalId := Some (Principal.id principal) |>
    <| AuditEvent.clientId := Some clientId |>
    <| AuditEvent.modelProvider := Some modelProvider |>) ;;
  mret agent.

Definition createPrincipal (id : option string) (displayName : string) : P Principal.t :=
  id ← match id with Some id => mret id | None => opaqueId "principal" end;
  createdAt ← nowIso;
  s ← get;
  let principal := Principal.mk id (realm_id s) displayName PrincipalStatus.active createdAt in
  throw_if (omap_has id (RealmState.principals s)) (fail_on "identity.exists" id) ;;
  modify (fun s => s <| RealmState.principals := omap_set id principal (RealmState.principals s) |>) ;;
  audit (event "principal.created" AuditOutcome.observed (object [field "displayName" displayName])
    <| AuditEvent.principalId := Some id |> <| AuditEvent.authorityClass := Some AuthorityClass.none |>) ;;
  mret principal.

Definition registerPasskey (principalId credentialId : string) (relyingPartyId : option string)
    (signCount : option Z) : P PasskeyCredential.t :=
  principal ← requirePrincipal principalId;
  s ← get;
  let credential := {|
    PasskeyCredential.id := credentialId;
    PasskeyCredential.principalId := Principal.id principal;
    PasskeyCredential.realmId := realm_id s;
    PasskeyCredential.relyingPartyId := default (Realm.relyingPartyId (RealmState.realm s)) relyingPartyId;
    PasskeyCredential.signCount := default 0%Z signCount;
    PasskeyCredential.status := Status.active;
  |} in
  throw_if (omap_has credentialId (RealmState.passkeys s)) (fail_on "passkey.exists" credentialId) ;;
  modify (fun s => s <| RealmState.passkeys := omap_set credentialId credential (RealmState.passkeys s) |>) ;;
  audit (event "passkey.registered" AuditOutcome.observed
           (object [field "credentialId" credentialId;
                    field "relyingPartyId" (PasskeyCredential.relyingPartyId credential)])
    <| AuditEvent.principalId := Some (Principal.id principal) |>) ;;
  mret credential.

Definition registerOidcProvider (id : option string) (issuer clientId : string) : P OidcProvider.t :=
  id ← match id with Some id => mret id | None => opaqueId "oidc-provider" end;
  s ← get;
  let provider := OidcProvider.mk id (realm_id s) issuer clientId true in
  throw_if (existsb (fun existing => String.eqb (OidcProvider.issuer existing) issuer)
              (omap_values (RealmState.oidcProviders s))) (fail_on "oidc.provider_exists" issuer) ;;
  modify (fun s => s <| RealmState.oidcProviders := omap_set id provider (RealmState.oidcProviders s) |>) ;;
  audit (event "oidc.provider.registered" AuditOutcome.observed
    (object [field "providerId" id; field "issuer" issuer])) ;;
  mret provider.

Definition active_provider (issuer : string) (s : RealmState.t) : option OidcProvider.t :=
  find_first (fun candidate => String.eqb (OidcProvider.issuer candidate) issuer
                               && OidcProvider.active candidate)
    (omap_values (RealmState.oidcProviders s)).

Definition linkOidcIdentity (principalId issuer subject : string) : P OidcIdentity.t :=
  principal ← requirePrincipal principalId;
  s ← get;
  provider ← require (active_provider issuer s) (fail "oidc.provider_not_found");
  let key := cat [issuer; "|"; subject] in
  throw_if (omap_has key (RealmState.oidcIdentities s)) (fail "oidc.identity_exists") ;;
  let identity := OidcIdentity.mk (OidcProvider.issuer provider) subject (Principal.id principal) in
  modify (fun s => s <| RealmState.oidcIdentities := omap_set key identity (RealmState.oidcIdentities s) |>) ;;
  audit (event "oidc.identity.linked" AuditOutcome.observed
           (object [field "issuer" (OidcProvider.issuer provider)])
    <| AuditEvent.principalId := Some (Principal.id principal) |>) ;;
  mret identity.

(** ** Authentication *)

Definition createHumanSession (principalId clientId : string) (method : AuthenticationMethod.t)
    (strength : AuthenticationStrength.t) : P RealmSession.t :=
  principal ← requirePrincipal principalId;
  client ← requireClient clientId;
  throw_if (negb (bool_decide (Principal.status principal = PrincipalStatus.active)))
    (fail_on "identity.disabled" (Principal.id principal)) ;;
  sessionId ← opaqueId "session";
  actorId ← opaqueId "actor";
  s ← get;
  let actor := {|
    RealmActor.principalId := Principal.id principal;
    RealmActor.actorId := actorId;
    RealmActor.sessionId := sessionId;
    RealmActor.clientId := RealmClient.id client;
    RealmActor.realmId := realm_id s;
    RealmActor.kind := ActorKind.human;
    RealmActor.status := Status.active;
    RealmActor.agentId := None;
    RealmActor.delegatedByActorId := None;
    RealmActor.delegatedBySessionId := None;
    RealmActor.modelProvider := None;
  |} in
  issuedAt ← nowIso;
  expiresAt ← expiry (RealmState.sessionLifetimeMs s);
  let session := {|
    RealmSession.id := sessionId;
    RealmSession.realmId := realm_id s;
    RealmSession.principalId := Principal.id principal;
    RealmSession.actorId := actorId;
    RealmSession.clientId := RealmClient.id client;
    RealmSession.method := method;
    RealmSession.strength := strength;
    RealmSession.issuedAt := issuedAt;
    RealmSession.expiresAt := expiresAt;
    RealmSession.authorizationEpoch := epoch s;
    RealmSession.status := ExpiringStatus.active;
    RealmSession.actorKind := Some ActorKind.human;
    RealmSession.agentId := None;
    RealmSession.delegatedByActorId := None;
    RealmSession.delegatedBySessionId := None;
  |} in
  modify (fun s => s <| RealmState.actors := omap_set actorId actor (RealmState.actors s) |>) ;;
  set_session sessionId session ;;
  audit (event "session.authenticated" AuditOutcome.succeeded
           (object [field "method" method; field "strength" strength;
                    field "authorizationEpoch" (epoch s)])
    <| AuditEvent.principalId := Some (Principal.id principal) |>
    <| AuditEvent.actorId := Some actorId |>
    <| AuditEvent.actorKind := Some ActorKind.human |>
    <| AuditEvent.clientId := Some (RealmClient.id client) |>
    <| AuditEvent.sessionId := Some sessionId |>
    <| AuditEvent.authorityClass := Some AuthorityClass.none |>) ;;
  mret session.

(** [Number.isSafeInteger]. *)
Definition safe_integer (n : Z) : bool := (Z.abs n <=? 9007199254740991)%Z.

Definition authenticatePasskey (credentialId : string) (relyingPartyId : option string)
    (challenge : string) (verified : bool) (signCount : option Z) (clientId : option string) :
    P RealmSession.t :=
  s ← get;
  match omap_get credentialId (RealmState.passkeys s) with
  | None => throw (fail "auth.passkey_invalid")
  | Some credential =>
      throw_if (negb (bool_decide (PasskeyCredential.status credential = Status.active))
                || negb (String.eqb (PasskeyCredential.relyingPartyId credential)
                           (default (Realm.relyingPartyId (RealmState.realm s)) relyingPartyId)))
        (fail "auth.passkey_invalid") ;;
      throw_if (negb (truthy challenge) || negb verified) (fail "auth.passkey_unverified") ;;
      signCount ← match signCount with
                  | Some n =>
                      throw_if (negb (safe_integer n) || (n <? PasskeyCredential.signCount credential)%Z)
                        (fail "auth.passkey_counter_regression") ;;
                      mret n
                  | None => mret (PasskeyCredential.signCount credential + 1)%Z
                  end;
      modify (fun s => s <| RealmState.passkeys := omap_set credentialId
        (credential <| PasskeyCredential.signCount := signCount |>) (RealmState.passkeys s) |>) ;;
      createHumanSession (PasskeyCredential.principalId credential)
        (default "client:anyam-web" clientId) AuthenticationMethod.passkey AuthenticationStrength.passkey
  end.

Definition authenticateOidc (issuer subject : string) (verified : bool) (clientId : option string) :
    P RealmSession.t :=
  s ← get;
  throw_if (match active_provider issuer s with Some _ => negb verified | None => true end)
    (fail "auth.oidc_invalid") ;;
  identity ← require (omap_get (cat [issuer; "|"; subject]) (RealmState.oidcIdentities s))
               (fail "auth.oidc_unlinked");
  createHumanSession (OidcIdentity.principalId identity) (default "client:anyam-web" clientId)
    AuthenticationMethod.oidc AuthenticationStrength.oidc.

(** The union that [authenticate] dispatches on. *)
Definition authenticate (input : AuthenticationInput) : P RealmSession.t :=
  match input with
  | by_passkey credentialId relyingPartyId challenge verified signCount clientId =>
      authenticatePasskey credentialId relyingPartyId challenge verified signCount clientId
  | by_oidc issuer subject verified clientId => authenticateOidc issuer subject verified clientId
  end.

(** ** Relationships and Source Space policies *)

Definition addRelationship (principalId : string) (kind : RelationshipKind.t) (subjectId : string)
    (role : RealmRole.t) (resource : option ResourceRef.t)
    (deniedCapabilities : option (list Capability.t)) : P Relationship.t :=
  principal ← requirePrincipal principalId;
  id ← opaqueId "relationship";
  s ← get;
  let relationship := {|
    Relationship.id := id;
    Relationship.realmId := realm_id s;
    Relationship.principalId := Principal.id principal;
    Relationship.kind := kind;
    Relationship.subjectId := subjectId;
    Relationship.role := role;
    Relationship.resource := default
      (ResourceRef.mk (realm_id s) None None None None None None None None None) resource;
    Relationship.deniedCapabilities := default [] deniedCapabilities;
    Relationship.status := Status.active;
  |} in
  modify (fun s => s <| RealmState.relationships :=
    omap_set id relationship (RealmState.relationships s) |>) ;;
  audit (event "relationship.granted" AuditOutcome.observed
           (object [field "relationshipId" id; field "kind" kind; field "subjectId" subjectId;
                    field "role" role])
    <| AuditEvent.principalId := Some (Principal.id principal) |>) ;;
  mret relationship.

Definition setSourceSpacePolicy (sourceSpaceId : string) (classification : SourceSpaceClassification.t)
    (allowedCapabilities : list Capability.t) (deniedCapabilities : option (list Capability.t))
    (readerPrincipalIds allowedModelProviders : option (list string)) (discoverable : option bool) :
    P SourceSpacePolicy.t :=
  id ← opaqueId "source-space-policy";
  s ← get;
  let policy := {|
    SourceSpacePolicy.id := id;
    SourceSpacePolicy.realmId := realm_id s;
    SourceSpacePolicy.sourceSpaceId := sourceSpaceId;
    SourceSpacePolicy.classification := classification;
    SourceSpacePolicy.allowedCapabilities := allowedCapabilities;
    SourceSpacePolicy.deniedCapabilities := default [] deniedCapabilities;
    SourceSpacePolicy.readerPrincipalIds := default [] readerPrincipalIds;
    SourceSpacePolicy.allowedModelProviders := default [] allowedModelProviders;
    SourceSpacePolicy.discoverable := default true discoverable;
    SourceSpacePolicy.policyVersion := Realm.policyVersion (RealmState.realm s);
  |} in
  modify (fun s => s <| RealmState.sourceSpacePolicies :=
    omap_set sourceSpaceId policy (RealmState.sourceSpacePolicies s) |>) ;;
  audit (event "source-space.policy.updated" AuditOutcome.observed
           (object [field "policyVersion" (SourceSpacePolicy.policyVersion policy);
                    field "classification" classification])
    <| AuditEvent.sourceSpaceId := Some sourceSpaceId |>) ;;
  mret policy.

(** The active relationships of a Principal that cover a resource. *)
Definition bindings_of (principalId : string) (resource : ResourceRef.t) (s : RealmState.t) :
    list Relationship.t :=
  base.filter (fun b =>
    bool_decide (Relationship.status b = Status.active)
    && String.eqb (Relationship.realmId b) (realm_id s)
    && String.eqb (Relationship.principalId b) principalId
    && resourceMatches (Relationship.resource b) resource = true)
    (omap_values (RealmState.relationships s)).
Definition role_allows (bindings : list Relationship.t) (c : Capability.t) : bool :=
  existsb (fun b => member_of (ROLE_CAPABILITIES (Relationship.role b)) c) bindings.
Definition relationship_denies (bindings : list Relationship.t) (c : Capability.t) : bool :=
  existsb (fun b => member_of (Relationship.deniedCapabilities b) c) bindings.

(** ** Tasks and Grants *)

(** The enrolled agent of an Actor that is an agent. *)
Definition agent_of (actor : option RealmActor.t) (s : RealmState.t) : option RealmAgent.t :=
  match actor with
  | Some actor =>
      if bool_decide (RealmActor.kind actor = ActorKind.agent)
      then truthy_opt (RealmActor.agentId actor) ≫= fun id => omap_get id (RealmState.agents s)
      else None
  | None => None
  end.
(** [actor?.kind === "agent"]. *)
Definition is_agent (actor : option RealmActor.t) : bool :=
  bool_decide (RealmActor.kind <$> actor = Some ActorKind.agent).

Definition createTask (principalId actorId sessionId purpose : string)
    (workspaceId changeId modelProvider : option string) : P RealmTask.t :=
  session ← requireSession sessionId;
  s ← get;
  throw_if (negb (RealmSession.authorizationEpoch session =? epoch s)%Z) (fail "task.session_stale") ;;
  throw_if (negb (String.eqb (RealmSession.principalId session) principalId)
            || negb (String.eqb (RealmSession.actorId session) actorId)) (fail "task.actor_mismatch") ;;
  let actor := omap_get actorId (RealmState.actors s) in
  let agent := agent_of actor s in
  throw_if (is_agent actor
            && match agent with
               | None => true
               | Some agent => negb (bool_decide (RealmAgent.status agent = Status.active))
                               || negb (bool_decide (modelProvider = Some (RealmAgent.modelProvider agent)))
               end) (fail "task.agent_model_mismatch") ;;
  id ← opaqueId "task";
  createdAt ← nowIso;
  let task := {|
    RealmTask.id := id;
    RealmTask.realmId := realm_id s;
    RealmTask.principalId := principalId;
    RealmTask.actorId := actorId;
    RealmTask.sessionId := sessionId;
    RealmTask.purpose := purpose;
    RealmTask.workspaceId := truthy_opt workspaceId;
    RealmTask.changeId := truthy_opt changeId;
    RealmTask.modelProvider := truthy_opt modelProvider;
    RealmTask.agentId := RealmAgent.id <$> agent;
    RealmTask.delegatedByActorId := truthy_opt (RealmSession.delegatedByActorId session);
    RealmTask.delegatedBySessionId := truthy_opt (RealmSession.delegatedBySessionId session);
    RealmTask.createdAt := createdAt;
    RealmTask.status := TaskStatus.active;
  |} in
  modify (fun s => s <| RealmState.tasks := omap_set id task (RealmState.tasks s) |>) ;;
  audit (event "task.created" AuditOutcome.observed (object [field "purpose" purpose])
    <| AuditEvent.principalId := Some principalId |>
    <| AuditEvent.actorId := Some actorId |>
    <| AuditEvent.actorKind := actor_kind actorId s |>
    <| AuditEvent.clientId := Some (RealmSession.clientId session) |>
    <| AuditEvent.sessionId := Some sessionId |>
    <| AuditEvent.taskId := Some id |>
    <| AuditEvent.workspaceId := RealmTask.workspaceId task |>
    <| AuditEvent.changeId := RealmTask.changeId task |>
    <| AuditEvent.modelProvider := RealmTask.modelProvider task |>) ;;
  mret task.

Definition all_credential_classes : list CredentialClass.t :=
  [CredentialClass.realm_api; CredentialClass.git; CredentialClass.mcp; CredentialClass.runner;
   CredentialClass.integration; CredentialClass.deployment; CredentialClass.promotion].

(** [left > right] on dates in milliseconds: false when one is NaN. *)
Definition later (left right : option Z) : bool :=
  match left, right with Some l, Some r => (r <? l)%Z | _, _ => false end.

Section create_grant.
Context (input : CreateTaskGrantInput.t).

Definition granted_models (agent : option RealmAgent.t) : list string :=
  default (match agent with Some agent => [RealmAgent.modelProvider agent] | None => [] end)
    (CreateTaskGrantInput.allowedModelProviders input).
Definition granted_classes (agent : option RealmAgent.t) : list CredentialClass.t :=
  default (match agent with
           | Some agent => RealmAgent.allowedCredentialClasses agent
           | None => all_credential_classes
           end) (CreateTaskGrantInput.allowedCredentialClasses input).

(** Whether an agent's Grant leaves its enrolment. *)
Definition agent_scope_invalid (agent : RealmAgent.t) : bool :=
  negb (listIsSubset (granted_models (Some agent)) [RealmAgent.modelProvider agent])
  || negb (listIsSubset (granted_classes (Some agent)) (RealmAgent.allowedCredentialClasses agent))
  || existsb (member_of AGENT_PROHIBITED_CAPABILITIES) (CreateTaskGrantInput.actions input).

(** The parent is held by the same Actor, or by the human who delegated. *)
Definition same_chain (actor : option RealmActor.t) (session : RealmSession.t) (client : RealmClient.t)
    (parent : RealmCapabilityGrant.t) : bool :=
  negb (is_agent actor)
  && String.eqb (RealmCapabilityGrant.actorId parent) (CreateTaskGrantInput.actorId input)
  && String.eqb (RealmCapabilityGrant.clientId parent) (RealmClient.id client)
  && String.eqb (RealmCapabilityGrant.sessionId parent) (RealmSession.id session).
Definition delegated_agent_chain (actor : option RealmActor.t) (agent : option RealmAgent.t)
    (parentActor : option RealmActor.t) (session : RealmSession.t) (task : RealmTask.t)
    (parent : RealmCapabilityGrant.t) : bool :=
  is_agent actor
  && bool_decide (RealmActor.kind <$> parentActor = Some ActorKind.human)
  && match agent with
     | Some agent =>
         bool_decide (CreateTaskGrantInput.agentId input = Some (RealmAgent.id agent))
         && bool_decide (CreateTaskGrantInput.delegatedByActorId input = Some (RealmCapabilityGrant.actorId parent))
         && bool_decide (CreateTaskGrantInput.delegatedBySessionId input = Some (RealmCapabilityGrant.sessionId parent))
         && bool_decide (RealmSession.delegatedByActorId session = Some (RealmCapabilityGrant.actorId parent))
         && bool_decide (RealmSession.delegatedBySessionId session = Some (RealmCapabilityGrant.sessionId parent))
         && bool_decide (RealmTask.agentId task = Some (RealmAgent.id agent))
     | None => false
     end.

Definition widens (models : list string) (classes : list CredentialClass.t)
    (parent : RealmCapabilityGrant.t) : bool :=
  let parentModels := RealmCapabilityGrant.allowedModelProviders parent in
  let childExpiry := Date_parse (default (RealmCapabilityGrant.expiresAt parent)
                                   (CreateTaskGrantInput.expiresAt input)) in
  later childExpiry (Date_parse (RealmCapabilityGrant.expiresAt parent))
  || negb (listIsSubset (CreateTaskGrantInput.actions input) (RealmCapabilityGrant.actions parent))
  || negb (listIsSubset (CreateTaskGrantInput.sourceSpaceIds input) (RealmCapabilityGrant.sourceSpaceIds parent))
  || negb (bool_decide (parentModels = []))
     && (bool_decide (models = []) || negb (listIsSubset models parentModels))
  || negb (listIsSubset classes (RealmCapabilityGrant.allowedCredentialClasses parent))
  || negb (listIsSubset (default [] (CreateTaskGrantInput.effects input)) (RealmCapabilityGrant.effects parent))
  || negb (budgetIsNarrower (default [] (CreateTaskGrantInput.budget input)) (RealmCapabilityGrant.budget parent)).

Definition check_parent (parentGrantId : string) (actor : option RealmActor.t)
    (agent : option RealmAgent.t) (principal : Principal.t) (session : RealmSession.t)
    (client : RealmClient.t) (task : RealmTask.t) (models : list string)
    (classes : list CredentialClass.t) : P () :=
  s ← get;
  match omap_get parentGrantId (RealmState.grants s) with
  | None => throw (fail "grant.parent_invalid")
  | Some parent =>
      let parentActor := omap_get (RealmCapabilityGrant.actorId parent) (RealmState.actors s) in
      if negb (String.eqb (RealmCapabilityGrant.principalId parent) (Principal.id principal))
         || negb (same_chain actor session client parent)
            && negb (delegated_agent_chain actor agent parentActor session task parent)
      then throw (fail "grant.parent_invalid")
      else
        active ← grantChainIsActive parent;
        throw_if (negb active) (fail "grant.parent_invalid") ;;
        throw_if (widens models classes parent) (fail "grant.widening")
  end.

(** [expiresAt !== undefined && (!isFinite || expired)]. *)
Definition check_expiry (expiresAt : option string) : P () :=
  match expiresAt with
  | None => mret ()
  | Some value =>
      throw_if (bool_decide (Date_parse value = None)) (fail "grant.expiry_invalid") ;;
      e ← expired value;
      throw_if e (fail "grant.expiry_invalid")
  end.

Definition createCapabilityGrant : P RealmCapabilityGrant.t :=
  principal ← requirePrincipal (CreateTaskGrantInput.principalId input);
  session ← requireSession (CreateTaskGrantInput.sessionId input);
  client ← requireClient (CreateTaskGrantInput.clientId input);
  s ← get;
  let actorId := CreateTaskGrantInput.actorId input in
  let actor := omap_get actorId (RealmState.actors s) in
  let agent := agent_of actor s in
  throw_if (match CreateTaskGrantInput.agentId input with
            | Some id => negb (bool_decide (RealmAgent.id <$> agent = Some id))
            | None => false
            end) (fail "grant.agent_mismatch") ;;
  throw_if (negb (is_agent actor)
            && (bool_decide (is_Some (CreateTaskGrantInput.delegatedByActorId input))
                || bool_decide (is_Some (CreateTaskGrantInput.delegatedBySessionId input))))
    (fail "grant.delegation_metadata_invalid") ;;
  throw_if (is_agent actor && negb (bool_decide (RealmAgent.status <$> agent = Some Status.active)))
    (fail "grant.agent_revoked") ;;
  throw_if (is_agent actor && bool_decide (truthy_opt (CreateTaskGrantInput.parentGrantId input) = None))
    (fail "grant.agent_parent_required") ;;
  throw_if (negb (RealmSession.authorizationEpoch session =? epoch s)%Z) (fail "grant.session_stale") ;;
  throw_if (negb (String.eqb (RealmSession.principalId session) (Principal.id principal))
            || negb (String.eqb (RealmSession.actorId session) actorId)
            || negb (String.eqb (RealmSession.clientId session) (RealmClient.id client)))
    (fail "grant.actor_mismatch") ;;
  task ← require (omap_get (CreateTaskGrantInput.taskId input) (RealmState.tasks s)) (fail "grant.task_invalid");
  throw_if (negb (bool_decide (RealmTask.status task = TaskStatus.active))
            || negb (String.eqb (RealmTask.principalId task) (Principal.id principal))
            || negb (String.eqb (RealmTask.actorId task) actorId)
            || negb (String.eqb (RealmTask.sessionId task) (RealmSession.id session)))
    (fail "grant.task_invalid") ;;
  let models := granted_models agent in
  let classes := granted_classes agent in
  throw_if (match agent with Some agent => agent_scope_invalid agent | None => false end)
    (fail "grant.agent_scope_invalid") ;;
  match truthy_opt (CreateTaskGrantInput.parentGrantId input) with
  | Some parentGrantId => check_parent parentGrantId actor agent principal session client task models classes
  | None => mret ()
  end ;;
  check_expiry (CreateTaskGrantInput.expiresAt input) ;;
  id ← opaqueId "grant";
  expiresAt ← match CreateTaskGrantInput.expiresAt input with
              | Some value => mret value
              | None => expiry (RealmState.credentialLifetimeMs s)
              end;
  let grant := {|
    RealmCapabilityGrant.id := id;
    RealmCapabilityGrant.realmId := realm_id s;
    RealmCapabilityGrant.subjectId := actorId;
    RealmCapabilityGrant.resource := CreateTaskGrantInput.resource input <| ResourceRef.realmId := realm_id s |>;
    RealmCapabilityGrant.actions := CreateTaskGrantInput.actions input;
    RealmCapabilityGrant.expiresAt := expiresAt;
    RealmCapabilityGrant.status := ExpiringStatus.active;
    RealmCapabilityGrant.principalId := Principal.id principal;
    RealmCapabilityGrant.actorId := actorId;
    RealmCapabilityGrant.clientId := RealmClient.id client;
    RealmCapabilityGrant.sessionId := RealmSession.id session;
    RealmCapabilityGrant.taskId := RealmTask.id task;
    RealmCapabilityGrant.sourceSpaceIds := CreateTaskGrantInput.sourceSpaceIds input;
    RealmCapabilityGrant.effects := default [] (CreateTaskGrantInput.effects input);
    RealmCapabilityGrant.allowedModelProviders := models;
    RealmCapabilityGrant.allowedCredentialClasses := classes;
    RealmCapabilityGrant.deniedActions := default [] (CreateTaskGrantInput.deniedActions input);
    RealmCapabilityGrant.budget := default [] (CreateTaskGrantInput.budget input);
    RealmCapabilityGrant.policyVersion := Realm.policyVersion (RealmState.realm s);
    RealmCapabilityGrant.authorizationEpoch := epoch s;
    RealmCapabilityGrant.agentId := match agent with
                                    | Some agent => Some (RealmAgent.id agent)
                                    | None => truthy_opt (CreateTaskGrantInput.agentId input)
                                    end;
    RealmCapabilityGrant.delegatedByActorId := truthy_opt (CreateTaskGrantInput.delegatedByActorId input);
    RealmCapabilityGrant.delegatedBySessionId := truthy_opt (CreateTaskGrantInput.delegatedBySessionId input);
    RealmCapabilityGrant.parentGrantId := truthy_opt (CreateTaskGrantInput.parentGrantId input);
    RealmCapabilityGrant.consentAt := truthy_opt (CreateTaskGrantInput.consentAt input);
  |} in
  modify (fun s => s <| RealmState.grants := omap_set id grant (RealmState.grants s) |>) ;;
  audit (event "grant.issued" AuditOutcome.succeeded
           (object [field "actions" (RealmCapabilityGrant.actions grant);
                    field "sourceSpaceIds" (RealmCapabilityGrant.sourceSpaceIds grant);
                    field "policyVersion" (RealmCapabilityGrant.policyVersion grant);
                    field "authorizationEpoch" (RealmCapabilityGrant.authorizationEpoch grant);
                    [("parentGrantId", or_undef (RealmCapabilityGrant.parentGrantId grant))]])
    <| AuditEvent.principalId := Some (Principal.id principal) |>
    <| AuditEvent.actorId := Some actorId |>
    <| AuditEvent.actorKind := actor_kind actorId s |>
    <| AuditEvent.clientId := Some (RealmClient.id client) |>
    <| AuditEvent.sessionId := Some (RealmSession.id session) |>
    <| AuditEvent.taskId := Some (RealmTask.id task) |>
    <| AuditEvent.grantId := Some id |>
    <| AuditEvent.workspaceId := RealmTask.workspaceId task |>
    <| AuditEvent.changeId := RealmTask.changeId task |>
    <| AuditEvent.modelProvider := RealmTask.modelProvider task |>) ;;
  mret grant.
End create_grant.

(** The Task and Grant of a delivery, from a human session. *)
Definition prohibited_effects : list string := ["canonical.write"; "production.deploy"; "target.promote"].
Definition createOwnerTaskGrant (sessionId purpose : string) (resource : ResourceRef.t)
    (sourceSpaceIds : list string) (actions : list Capability.t) (effects : option (list string))
    (expiresAt : option string) : P (RealmTask.t * RealmCapabilityGrant.t) :=
  session ← requireSession sessionId;
  s ← get;
  throw_if (negb (bool_decide (actor_kind (RealmSession.actorId session) s = Some ActorKind.human)))
    (fail "mcp.delivery_owner_required") ;;
  throw_if (bool_decide (sourceSpaceIds = [])) (fail "mcp.delivery_source_spaces_required") ;;
  let bindings := bindings_of (RealmSession.principalId session) resource s in
  throw_if (negb (forallb (role_allows bindings) actions) || existsb (relationship_denies bindings) actions)
    (fail "mcp.delivery_owner_denied") ;;
  let effects := default [] effects in
  throw_if (existsb (list_includes prohibited_effects) effects) (fail "mcp.delivery_effect_denied") ;;
  task ← createTask (RealmSession.principalId session) (RealmSession.actorId session)
           (RealmSession.id session) purpose (ResourceRef.workspaceId resource)
           (ResourceRef.changeId resource) None;
  grant ← createCapabilityGrant {|
    CreateTaskGrantInput.principalId := RealmSession.principalId session;
    CreateTaskGrantInput.actorId := RealmSession.actorId session;
    CreateTaskGrantInput.clientId := RealmSession.clientId session;
    CreateTaskGrantInput.sessionId := RealmSession.id session;
    CreateTaskGrantInput.taskId := RealmTask.id task;
    CreateTaskGrantInput.resource := resource;
    CreateTaskGrantInput.sourceSpaceIds := sourceSpaceIds;
    CreateTaskGrantInput.actions := actions;
    CreateTaskGrantInput.effects := Some effects;
    CreateTaskGrantInput.allowedModelProviders := None;
    CreateTaskGrantInput.allowedCredentialClasses := Some [];
    CreateTaskGrantInput.deniedActions := None;
    CreateTaskGrantInput.budget := None;
    CreateTaskGrantInput.expiresAt := truthy_opt expiresAt;
    CreateTaskGrantInput.parentGrantId := None;
    CreateTaskGrantInput.agentId := None;
    CreateTaskGrantInput.delegatedByActorId := None;
    CreateTaskGrantInput.delegatedBySessionId := None;
    CreateTaskGrantInput.consentAt := None;
  |};
  mret (task, grant).

(** ** Validation of a delivery *)

Definition refused (code recoveryAction receipt : string) : TaskGrantValidationResult :=
  task_grant_refused code recoveryAction (cat ["mcpDelivery="; receipt; "; canonicalWrite=false"]).

Section validate_task_grant.
Context (input : TaskGrantValidationInput.t).

Definition task_grant_chain (session : RealmSession.t) (task : RealmTask.t)
    (grant : RealmCapabilityGrant.t) (s : RealmState.t) : bool :=
  String.eqb (RealmTask.realmId task) (realm_id s)
  && String.eqb (RealmCapabilityGrant.realmId grant) (realm_id s)
  && bool_decide (RealmTask.status task = TaskStatus.active)
  && String.eqb (RealmCapabilityGrant.taskId grant) (RealmTask.id task)
  && String.eqb (RealmTask.principalId task) (TaskGrantValidationInput.principalId input)
  && String.eqb (RealmTask.actorId task) (TaskGrantValidationInput.actorId input)
  && String.eqb (RealmTask.sessionId task) (RealmSession.id session)
  && String.eqb (RealmCapabilityGrant.principalId grant) (TaskGrantValidationInput.principalId input)
  && String.eqb (RealmCapabilityGrant.actorId grant) (TaskGrantValidationInput.actorId input)
  && String.eqb (RealmCapabilityGrant.clientId grant) (TaskGrantValidationInput.clientId input)
  && String.eqb (RealmCapabilityGrant.sessionId grant) (RealmSession.id session).

(** [effects.find(...)], used as a condition: an effect that is the empty string
    is found and falsy. *)
Definition missing_effect (grant : RealmCapabilityGrant.t) : option string :=
  truthy_opt (find_first (fun effect => negb (list_includes (RealmCapabilityGrant.effects grant) effect))
    (default [] (TaskGrantValidationInput.effects input))).

Definition validate_live (task : RealmTask.t) (grant : RealmCapabilityGrant.t) :
    P TaskGrantValidationResult :=
  s ← get;
  active ← grantChainIsActive grant;
  mret (if negb active then
      refused "mcp.delivery_task_grant_inactive"
        "reauthorize after revocation, expiry, or a Realm authorization-policy change"
        (cat ["task-grant-inactive; epoch="; pretty (epoch s)])
    else if negb (resourceMatches (RealmCapabilityGrant.resource grant)
                    (TaskGrantValidationInput.resource input)) then
      refused "mcp.delivery_resource_denied"
        "use the exact project, Workspace, and Change resource bound to this MCP grant"
        "resource-mismatch"
    else if bool_decide (TaskGrantValidationInput.sourceSpaceIds input = [])
            || negb (listIsSubset (TaskGrantValidationInput.sourceSpaceIds input)
                       (RealmCapabilityGrant.sourceSpaceIds grant)) then
      refused "mcp.delivery_source_space_denied"
        "reauthorize with the exact disclosed Project Source Spaces; no hidden Source Space was disclosed"
        "source-space-mismatch"
    else if negb (member_of (RealmCapabilityGrant.actions grant) (TaskGrantValidationInput.action input)) then
      refused "mcp.delivery_action_denied"
        "request the operation-specific delivery scope during OAuth authorization"
        (cat ["action-denied; operation="; Capability.show (TaskGrantValidationInput.action input)])
    else match missing_effect grant with
    | Some effect =>
        refused "mcp.delivery_effect_denied"
          "reauthorize the MCP client for the exact typed delivery effect"
          (cat ["effect-denied; effect="; effect])
    | None => task_grant_valid {|
        LiveTaskGrant.taskId := RealmTask.id task;
        LiveTaskGrant.grantId := RealmCapabilityGrant.id grant;
        LiveTaskGrant.expiresAt := RealmCapabilityGrant.expiresAt grant;
        LiveTaskGrant.authorizationEpoch := epoch s;
        LiveTaskGrant.sourceSpaceCount := length (RealmCapabilityGrant.sourceSpaceIds grant);
      |}
    end).

Definition validateTaskGrant : P TaskGrantValidationResult :=
  try_catch
    (session ← requireSession (TaskGrantValidationInput.sessionId input);
     s ← get;
     let invalid := refused "mcp.delivery_task_grant_invalid"
       "reauthorize the MCP client so Anyam can create a fresh resource-bound Task and Grant"
       "task-grant-chain-invalid" in
     match omap_get (TaskGrantValidationInput.taskId input) (RealmState.tasks s),
           omap_get (TaskGrantValidationInput.grantId input) (RealmState.grants s) with
     | Some task, Some grant =>
         if task_grant_chain session task grant s then validate_live task grant else mret invalid
     | _, _ => mret invalid
     end)
    (fun error => match error with
     | identity_error code _ advice _ =>
         let advice := default ("reauthorize the MCP client through the authenticated Realm owner session",
                                "mcpDelivery=task-grant-validation-failed") advice in
         mret (task_grant_refused code advice.1 (cat [advice.2; "; canonicalWrite=false"]))
     | range_error => mret (refused "mcp.delivery_task_grant_invalid"
         "reauthorize the MCP client and retry the same typed operation" "task-grant-validation-failed")
     end).
End validate_task_grant.

(** ** Delegation to an agent *)

Definition active_human (actor : option RealmActor.t) : option RealmActor.t :=
  actor ≫= fun actor =>
    if bool_decide (RealmActor.kind actor = ActorKind.human)
       && bool_decide (RealmActor.status actor = Status.active)
    then Some actor else None.

Definition createAgentSession (parentSession : RealmSession.t) (agent : RealmAgent.t) : P RealmSession.t :=
  s ← get;
  parentActor ← require (active_human (omap_get (RealmSession.actorId parentSession) (RealmState.actors s)))
                  (fail "delegation.parent_actor_invalid");
  sessionId ← opaqueId "session";
  actorId ← opaqueId "actor";
  issuedAt ← nowIso;
  let parentExpiry := Date_parse (RealmSession.expiresAt parentSession) in
  t ← date;
  let configuredExpiry := (t + RealmState.sessionLifetimeMs s)%Z in
  expiresAt ← iso ((fun e => Z.min e configuredExpiry) <$> parentExpiry);
  let actor := {|
    RealmActor.principalId := RealmSession.principalId parentSession;
    RealmActor.actorId := actorId;
    RealmActor.sessionId := sessionId;
    RealmActor.clientId := RealmAgent.clientId agent;
    RealmActor.realmId := realm_id s;
    RealmActor.kind := ActorKind.agent;
    RealmActor.status := Status.active;
    RealmActor.agentId := Some (RealmAgent.id agent);
    RealmActor.delegatedByActorId := Some (RealmActor.actorId parentActor);
    RealmActor.delegatedBySessionId := Some (RealmSession.id parentSession);
    RealmActor.modelProvider := Some (RealmAgent.modelProvider agent);
  |} in
  let session := {|
    RealmSession.id := sessionId;
    RealmSession.realmId := realm_id s;
    RealmSession.principalId := RealmSession.principalId parentSession;
    RealmSession.actorId := actorId;
    RealmSession.clientId := RealmAgent.clientId agent;
    RealmSession.method := RealmSession.method parentSession;
    RealmSession.strength := RealmSession.strength parentSession;
    RealmSession.issuedAt := issuedAt;
    RealmSession.expiresAt := expiresAt;
    RealmSession.authorizationEpoch := epoch s;
    RealmSession.status := ExpiringStatus.active;
    RealmSession.actorKind := Some ActorKind.agent;
    RealmSession.agentId := Some (RealmAgent.id agent);
    RealmSession.delegatedByActorId := Some (RealmActor.actorId parentActor);
    RealmSession.delegatedBySessionId := Some (RealmSession.id parentSession);
  |} in
  modify (fun s => s <| RealmState.actors := omap_set actorId actor (RealmState.actors s) |>) ;;
  set_session sessionId session ;;
  audit (event "session.agent_delegated" AuditOutcome.succeeded
           (object [field "agentId" (RealmAgent.id agent);
                    field "delegatedByActorId" (RealmActor.actorId parentActor);
                    field "delegatedBySessionId" (RealmSession.id parentSession);
                    field "authenticationStrength" (RealmSession.strength parentSession);
                    field "credentialMaterialStored" false])
    <| AuditEvent.principalId := Some (RealmSession.principalId session) |>
    <| AuditEvent.actorId := Some actorId |>
    <| AuditEvent.actorKind := Some ActorKind.agent |>
    <| AuditEvent.clientId := Some (RealmAgent.clientId agent) |>
    <| AuditEvent.sessionId := Some sessionId |>
    <| AuditEvent.modelProvider := Some (RealmAgent.modelProvider agent) |>) ;;
  mret session.

Section delegate.
Context (input : AgentDelegationInput.t).

(** The parent Grant and its Task belong to the delegating session. *)
Definition parent_held (session : RealmSession.t) (grant : RealmCapabilityGrant.t) (task : RealmTask.t) : bool :=
  String.eqb (RealmCapabilityGrant.principalId grant) (RealmSession.principalId session)
  && String.eqb (RealmCapabilityGrant.actorId grant) (RealmSession.actorId session)
  && String.eqb (RealmCapabilityGrant.clientId grant) (RealmSession.clientId session)
  && String.eqb (RealmCapabilityGrant.sessionId grant) (RealmSession.id session)
  && String.eqb (RealmTask.principalId task) (RealmSession.principalId session)
  && String.eqb (RealmTask.actorId task) (RealmSession.actorId session)
  && String.eqb (RealmTask.sessionId task) (RealmSession.id session)
  && bool_decide (RealmTask.status task = TaskStatus.active).

Definition delegated_classes (agent : RealmAgent.t) : list CredentialClass.t :=
  default (RealmAgent.allowedCredentialClasses agent) (AgentDelegationInput.allowedCredentialClasses input).

(** The widening checks, in order. *)
Definition check_delegation (agent : RealmAgent.t) (session : RealmSession.t)
    (parentGrant : RealmCapabilityGrant.t) : P () :=
  s ← get;
  let actions := AgentDelegationInput.actions input in
  let bindings := bindings_of (RealmSession.principalId session) (AgentDelegationInput.resource input) s in
  throw_if (negb (member_of (RealmCapabilityGrant.actions parentGrant) Capability.agent_delegate))
    (fail "delegation.capability_missing") ;;
  throw_if (negb (role_allows bindings Capability.agent_delegate)
            || relationship_denies bindings Capability.agent_delegate)
    (fail "delegation.relationship_denied") ;;
  throw_if (negb (resourceMatches (RealmCapabilityGrant.resource parentGrant)
                    (AgentDelegationInput.resource input))) (fail "delegation.resource_widening") ;;
  throw_if (negb (listIsSubset (AgentDelegationInput.sourceSpaceIds input)
                    (RealmCapabilityGrant.sourceSpaceIds parentGrant)))
    (fail "delegation.source_space_widening") ;;
  throw_if (negb (listIsSubset actions (RealmCapabilityGrant.actions parentGrant))
            || existsb (member_of AGENT_PROHIBITED_CAPABILITIES) actions) (fail "delegation.action_widening") ;;
  throw_if (negb (listIsSubset (default [] (AgentDelegationInput.effects input))
                    (RealmCapabilityGrant.effects parentGrant))) (fail "delegation.effect_widening") ;;
  throw_if (negb (listIsSubset (delegated_classes agent) (RealmAgent.allowedCredentialClasses agent))
            || negb (listIsSubset (delegated_classes agent)
                       (RealmCapabilityGrant.allowedCredentialClasses parentGrant)))
    (fail "delegation.audience_widening") ;;
  throw_if (negb (bool_decide (RealmCapabilityGrant.allowedModelProviders parentGrant = []))
            && negb (list_includes (RealmCapabilityGrant.allowedModelProviders parentGrant)
                       (RealmAgent.modelProvider agent))) (fail "delegation.model_denied") ;;
  throw_if (negb (budgetIsNarrower (default [] (AgentDelegationInput.budget input))
                    (RealmCapabilityGrant.budget parentGrant))) (fail "delegation.budget_widening").

Definition check_delegated_expiry (expiresAt : string) (parentGrant : RealmCapabilityGrant.t) : P () :=
  throw_if (bool_decide (Date_parse expiresAt = None)) (fail "delegation.expiry_invalid") ;;
  e ← expired expiresAt;
  throw_if (e || later (Date_parse expiresAt) (Date_parse (RealmCapabilityGrant.expiresAt parentGrant)))
    (fail "delegation.expiry_invalid").

Definition delegateAgent : P RealmAgentDelegation.t :=
  parentSession ← requireSession (AgentDelegationInput.humanSessionId input);
  s ← get;
  parentActor ← require (active_human (omap_get (RealmSession.actorId parentSession) (RealmState.actors s)))
                  (fail "delegation.parent_actor_invalid");
  throw_if (blank (AgentDelegationInput.purpose input)) (fail "delegation.purpose_invalid") ;;
  agent ← require (omap_get (AgentDelegationInput.agentId input) (RealmState.agents s))
            (fail "delegation.agent_invalid");
  throw_if (negb (String.eqb (RealmAgent.realmId agent) (realm_id s))
            || negb (String.eqb (RealmAgent.principalId agent) (RealmSession.principalId parentSession))
            || negb (bool_decide (RealmAgent.status agent = Status.active)))
    (fail "delegation.agent_invalid") ;;
  parentGrant ← require (omap_get (AgentDelegationInput.parentGrantId input) (RealmState.grants s))
                  (fail "delegation.parent_grant_invalid");
  parentTask ← require (omap_get (RealmCapabilityGrant.taskId parentGrant) (RealmState.tasks s))
                 (fail "delegation.parent_grant_invalid");
  throw_if (negb (parent_held parentSession parentGrant parentTask)) (fail "delegation.parent_grant_invalid") ;;
  active ← grantChainIsActive parentGrant;
  throw_if (negb active) (fail "delegation.parent_grant_invalid") ;;
  check_delegation agent parentSession parentGrant ;;
  let delegatedExpiresAt := default (RealmCapabilityGrant.expiresAt parentGrant)
                              (AgentDelegationInput.expiresAt input) in
  check_delegated_expiry delegatedExpiresAt parentGrant ;;
  agentSession ← createAgentSession parentSession agent;
  s ← get;
  let agentActor := omap_get (RealmSession.actorId agentSession) (RealmState.actors s) in
  task ← createTask (RealmSession.principalId parentSession) (RealmSession.actorId agentSession)
           (RealmSession.id agentSession) (AgentDelegationInput.purpose input)
           (truthy_opt (AgentDelegationInput.workspaceId input))
           (truthy_opt (AgentDelegationInput.changeId input)) (Some (RealmAgent.modelProvider agent));
  consentAt ← match AgentDelegationInput.consentAt input with
              | Some at_ => mret at_
              | None => nowIso
              end;
  grant ← createCapabilityGrant {|
    CreateTaskGrantInput.principalId := RealmSession.principalId parentSession;
    CreateTaskGrantInput.actorId := RealmSession.actorId agentSession;
    CreateTaskGrantInput.clientId := RealmAgent.clientId agent;
    CreateTaskGrantInput.sessionId := RealmSession.id agentSession;
    CreateTaskGrantInput.taskId := RealmTask.id task;
    CreateTaskGrantInput.resource := AgentDelegationInput.resource input;
    CreateTaskGrantInput.sourceSpaceIds := AgentDelegationInput.sourceSpaceIds input;
    CreateTaskGrantInput.actions := AgentDelegationInput.actions input;
    CreateTaskGrantInput.effects := Some (default [] (AgentDelegationInput.effects input));
    CreateTaskGrantInput.allowedModelProviders := Some [RealmAgent.modelProvider agent];
    CreateTaskGrantInput.allowedCredentialClasses := Some (delegated_classes agent);
    CreateTaskGrantInput.deniedActions := None;
    CreateTaskGrantInput.budget := Some (default [] (AgentDelegationInput.budget input));
    CreateTaskGrantInput.expiresAt := Some delegatedExpiresAt;
    CreateTaskGrantInput.parentGrantId := Some (RealmCapabilityGrant.id parentGrant);
    CreateTaskGrantInput.agentId := Some (RealmAgent.id agent);
    CreateTaskGrantInput.delegatedByActorId := Some (RealmActor.actorId parentActor);
    CreateTaskGrantInput.delegatedBySessionId := Some (RealmSession.id parentSession);
    CreateTaskGrantInput.consentAt := Some consentAt;
  |};
  agentActor ← require agentActor (fail "delegation.actor_missing");
  mret {|
    RealmAgentDelegation.agent := agent;
    RealmAgentDelegation.actor := agentActor;
    RealmAgentDelegation.session := agentSession;
    RealmAgentDelegation.task := task;
    RealmAgentDelegation.grant := grant;
    RealmAgentDelegation.delegatedBy :=
      ActorRef.mk (RealmActor.principalId parentActor) (RealmActor.actorId parentActor)
        (RealmActor.sessionId parentActor) (RealmActor.clientId parentActor);
    RealmAgentDelegation.receipt := cat ["delegation=human-to-agent; agent="; RealmAgent.id agent;
      "; parentGrant="; RealmCapabilityGrant.id parentGrant; "; modelProvider=";
      RealmAgent.modelProvider agent; "; canonicalWrite=false"];
  |}.
End delegate.

(** ** Revocation *)

Definition set_union (l k : list string) : list string := foldl (fun l x => set_add x l) l k.

Definition revokeGrant (grantId : string) : P (string * list string) :=
  s ← get;
  grant ← require (omap_get grantId (RealmState.grants s)) (fail_on "grant.not_found" grantId);
  let grants := omap_set grantId (grant <| RealmCapabilityGrant.status := ExpiringStatus.revoked |>)
                  (RealmState.grants s) in
  let '(revokedGrantIds, grants) := revoke_grants child_of [grantId] grants in
  let '(revokedCredentialIds, credentials) := revoke_credentials
    (fun c => list_includes revokedGrantIds (IssuedCredentialRecord.grantId c)) (RealmState.credentials s) in
  modify (fun s => s <| RealmState.grants := grants |> <| RealmState.credentials := credentials |>) ;;
  let resource := RealmCapabilityGrant.resource grant in
  audit (event "grant.revoked" AuditOutcome.revoked (object [field "revokedCredentialIds" revokedCredentialIds])
    <| AuditEvent.principalId := Some (RealmCapabilityGrant.principalId grant) |>
    <| AuditEvent.actorId := Some (RealmCapabilityGrant.actorId grant) |>
    <| AuditEvent.actorKind := actor_kind (RealmCapabilityGrant.actorId grant) s |>
    <| AuditEvent.clientId := Some (RealmCapabilityGrant.clientId grant) |>
    <| AuditEvent.sessionId := Some (RealmCapabilityGrant.sessionId grant) |>
    <| AuditEvent.taskId := Some (RealmCapabilityGrant.taskId grant) |>
    <| AuditEvent.grantId := Some grantId |>
    <| AuditEvent.workspaceId := ResourceRef.workspaceId resource |>
    <| AuditEvent.projectId := ResourceRef.projectId resource |>
    <| AuditEvent.changeId := ResourceRef.changeId resource |>
    <| AuditEvent.sourceSpaceId := ResourceRef.sourceSpaceId resource |>) ;;
  mret (grantId, revokedCredentialIds).

(** The session, those delegated from it, their Actors, Tasks, Grants and
    credentials.  The answer is the ids of the Grants and of the credentials. *)
Definition revokeSession (sessionId : string) : P (list string * list string) :=
  s ← get;
  session ← require (omap_get sessionId (RealmState.sessions s)) (fail_on "session.not_found" sessionId);
  let delegatedSessionIds := delegatedSessions sessionId (RealmState.sessions s) in
  modify (fun s => foldl close_session s delegatedSessionIds) ;;
  closed ← get;
  let '(revokedGrantIds, grants) :=
    revoke_grants (child_or_held delegatedSessionIds) [] (RealmState.grants closed) in
  let '(credentialIds, credentials) := revoke_credentials
    (fun c => list_includes delegatedSessionIds (IssuedCredentialRecord.sessionId c)
              || list_includes revokedGrantIds (IssuedCredentialRecord.grantId c))
    (RealmState.credentials closed) in
  let revokedCredentialIds := set_union [] credentialIds in
  modify (fun s => s <| RealmState.grants := grants |> <| RealmState.credentials := credentials |>) ;;
  audit (event "session.revoked" AuditOutcome.revoked
           (object [field "revokedGrantIds" revokedGrantIds;
                    field "revokedCredentialIds" revokedCredentialIds;
                    field "delegatedSessionIds" delegatedSessionIds;
                    field "delegatedSessionsRevoked" (Z.of_nat (length delegatedSessionIds) - 1)%Z;
                    field "authorizationEpoch" (epoch s)])
    <| AuditEvent.principalId := Some (RealmSession.principalId session) |>
    <| AuditEvent.actorId := Some (RealmSession.actorId session) |>
    <| AuditEvent.actorKind := actor_kind (RealmSession.actorId session) s |>
    <| AuditEvent.clientId := Some (RealmSession.clientId session) |>
    <| AuditEvent.sessionId := Some sessionId |>
    <| AuditEvent.authorityClass := Some AuthorityClass.none |>) ;;
  mret (revokedGrantIds, revokedCredentialIds).

(** The sessions of the agent's Actors, one after the other. *)
Definition revoke_agent_actor (r : RevokedAgent.t) (actor : RealmActor.t) : P RevokedAgent.t :=
  '(grants, credentials) ← revokeSession (RealmActor.sessionId actor);
  mret {|
    RevokedAgent.agentId := RevokedAgent.agentId r;
    RevokedAgent.revokedActorIds := RevokedAgent.revokedActorIds r ++ [RealmActor.actorId actor];
    RevokedAgent.revokedSessionIds := RevokedAgent.revokedSessionIds r ++ [RealmActor.sessionId actor];
    RevokedAgent.revokedGrantIds := set_union (RevokedAgent.revokedGrantIds r) grants;
    RevokedAgent.revokedCredentialIds := set_union (RevokedAgent.revokedCredentialIds r) credentials;
  |}.

Definition revokeAgent (agentId : string) : P RevokedAgent.t :=
  s ← get;
  agent ← require (omap_get agentId (RealmState.agents s)) (fail_on "agent.not_found" agentId);
  throw_if (negb (String.eqb (RealmAgent.realmId agent) (realm_id s))) (fail_on "agent.not_found" agentId) ;;
  throw_if (negb (bool_decide (RealmAgent.status agent = Status.active))) (fail_on "agent.revoked" agentId) ;;
  let set_agent agent : P () :=
    modify (fun s => s <| RealmState.agents := omap_set agentId agent (RealmState.agents s) |>) in
  let agent := agent <| RealmAgent.status := Status.revoked |> in
  set_agent agent ;;
  revokedAt ← nowIso;
  set_agent (agent <| RealmAgent.revokedAt := Some revokedAt |>) ;;
  r ← fold_each
        (base.filter (fun actor => RealmActor.agentId actor = Some agentId) (omap_values (RealmState.actors s)))
        revoke_agent_actor (RevokedAgent.mk agentId [] [] [] []);
  audit (event "agent.revoked" AuditOutcome.revoked
           (object [field "agentId" agentId;
                    field "revokedActorIds" (RevokedAgent.revokedActorIds r);
                    field "revokedSessionIds" (RevokedAgent.revokedSessionIds r);
                    field "revokedGrantIds" (RevokedAgent.revokedGrantIds r);
                    field "revokedCredentialIds" (RevokedAgent.revokedCredentialIds r);
                    field "delegatedAuthorityClosed" true])
    <| AuditEvent.principalId := Some (RealmAgent.principalId agent) |>
    <| AuditEvent.clientId := Some (RealmAgent.clientId agent) |>
    <| AuditEvent.modelProvider := Some (RealmAgent.modelProvider agent) |>) ;;
  mret r.

(** ** Credentials *)

Definition set_credential (id : string) (record : IssuedCredentialRecord.t) : P () :=
  modify (fun s => s <| RealmState.credentials := omap_set id record (RealmState.credentials s) |>).
Definition credential_event (eventType : string) (outcome : AuditOutcome.t)
    (record : IssuedCredentialRecord.t) (s : RealmState.t) (details : json) : AuditEvent.t :=
  event eventType outcome details
    <| AuditEvent.principalId := Some (IssuedCredentialRecord.principalId record) |>
    <| AuditEvent.actorId := Some (IssuedCredentialRecord.actorId record) |>
    <| AuditEvent.actorKind := actor_kind (IssuedCredentialRecord.actorId record) s |>
    <| AuditEvent.clientId := Some (IssuedCredentialRecord.clientId record) |>
    <| AuditEvent.sessionId := Some (IssuedCredentialRecord.sessionId record) |>
    <| AuditEvent.taskId := Some (IssuedCredentialRecord.taskId record) |>
    <| AuditEvent.grantId := Some (IssuedCredentialRecord.grantId record) |>
    <| AuditEvent.credentialClass := Some (IssuedCredentialRecord.class record) |>.
Definition credential_details (record : IssuedCredentialRecord.t) : list (list (string * json)) :=
  [field "credentialId" (IssuedCredentialRecord.id record);
   field "audience" (IssuedCredentialRecord.audience record)].

Definition revokeCredential (credentialId : string) : P IssuedCredentialRecord.t :=
  s ← get;
  credential ← require (omap_get credentialId (RealmState.credentials s))
                 (fail_on "credential.not_found" credentialId);
  let credential := credential <| IssuedCredentialRecord.status := ExpiringStatus.revoked |> in
  set_credential credentialId credential ;;
  audit (credential_event "credential.revoked" AuditOutcome.revoked credential s
           (object (credential_details credential))) ;;
  mret credential.

Section issue.
Context (input : IssueCredentialInput.t).

Definition credential_chain (principal : Principal.t) (client : RealmClient.t) (session : RealmSession.t)
    (grant : RealmCapabilityGrant.t) (task : RealmTask.t) : bool :=
  String.eqb (RealmCapabilityGrant.taskId grant) (RealmTask.id task)
  && String.eqb (RealmTask.id task) (IssueCredentialInput.taskId input)
  && String.eqb (RealmCapabilityGrant.principalId grant) (Principal.id principal)
  && String.eqb (RealmCapabilityGrant.actorId grant) (IssueCredentialInput.actorId input)
  && String.eqb (RealmCapabilityGrant.clientId grant) (RealmClient.id client)
  && String.eqb (RealmCapabilityGrant.sessionId grant) (RealmSession.id session)
  && String.eqb (RealmTask.principalId task) (Principal.id principal)
  && String.eqb (RealmTask.actorId task) (IssueCredentialInput.actorId input)
  && String.eqb (RealmTask.sessionId task) (RealmSession.id session).

Definition credential_authority : AuthorityClass.t :=
  match IssueCredentialInput.class input with
  | CredentialClass.promotion => AuthorityClass.promotion
  | CredentialClass.deployment => AuthorityClass.landing
  | _ => AuthorityClass.change
  end.

(** The record and the token, which is stored as its digest only. *)
Definition issueCredential : P (IssuedCredentialRecord.t * string) :=
  principal ← requirePrincipal (IssueCredentialInput.principalId input);
  session ← requireSession (IssueCredentialInput.sessionId input);
  client ← requireClient (IssueCredentialInput.clientId input);
  s ← get;
  let class := IssueCredentialInput.class input in
  grant ← require (omap_get (IssueCredentialInput.grantId input) (RealmState.grants s))
            (fail "credential.chain_invalid");
  task ← require (omap_get (IssueCredentialInput.taskId input) (RealmState.tasks s))
           (fail "credential.chain_invalid");
  throw_if (negb (credential_chain principal client session grant task)) (fail "credential.chain_invalid") ;;
  active ← grantChainIsActive grant;
  throw_if (negb active) (fail "credential.grant_inactive") ;;
  throw_if (negb (member_of (RealmClient.allowedAudiences client) class)) (fail "credential.audience_denied") ;;
  throw_if (negb (member_of (RealmCapabilityGrant.allowedCredentialClasses grant) class))
    (fail "credential.class_denied") ;;
  throw_if (negb (resourceMatches (RealmCapabilityGrant.resource grant) (IssueCredentialInput.resource input)))
    (fail "credential.resource_denied") ;;
  issuedAt ← nowIso;
  let grantExpiry := Date_parse (RealmCapabilityGrant.expiresAt grant) in
  t ← date;
  let requestedExpiry := (t + RealmState.credentialLifetimeMs s)%Z in
  expiresAt ← iso ((fun e => Z.min e requestedExpiry) <$> grantExpiry);
  token ← randomToken;
  id ← opaqueId "credential";
  let record := {|
    IssuedCredentialRecord.id := id;
    IssuedCredentialRecord.realmId := realm_id s;
    IssuedCredentialRecord.class := class;
    IssuedCredentialRecord.audience := CREDENTIAL_AUDIENCES class;
    IssuedCredentialRecord.principalId := Principal.id principal;
    IssuedCredentialRecord.actorId := IssueCredentialInput.actorId input;
    IssuedCredentialRecord.clientId := RealmClient.id client;
    IssuedCredentialRecord.sessionId := RealmSession.id session;
    IssuedCredentialRecord.taskId := RealmTask.id task;
    IssuedCredentialRecord.grantId := RealmCapabilityGrant.id grant;
    IssuedCredentialRecord.resource :=
      IssueCredentialInput.resource input <| ResourceRef.realmId := realm_id s |>;
    IssuedCredentialRecord.tokenDigest := tokenDigest token;
    IssuedCredentialRecord.issuedAt := issuedAt;
    IssuedCredentialRecord.expiresAt := expiresAt;
    IssuedCredentialRecord.authorizationEpoch := epoch s;
    IssuedCredentialRecord.status := ExpiringStatus.active;
  |} in
  set_credential id record ;;
  audit (credential_event "credential.issued" AuditOutcome.succeeded record s
           (object (credential_details record ++ [field "expiresAt" expiresAt; field "tokenStored" false]))
    <| AuditEvent.workspaceId := RealmTask.workspaceId task |>
    <| AuditEvent.projectId := ResourceRef.projectId (IssuedCredentialRecord.resource record) |>
    <| AuditEvent.changeId := ResourceRef.changeId (IssuedCredentialRecord.resource record) |>
    <| AuditEvent.sourceSpaceId := ResourceRef.sourceSpaceId (IssuedCredentialRecord.resource record) |>
    <| AuditEvent.authorityClass := Some credential_authority |>) ;;
  mret (record, token).
End issue.

(** The key is kept with the record found, to update it in place. *)
Definition find_credential (token : string) (s : RealmState.t) :
    option (string * IssuedCredentialRecord.t) :=
  find_first (fun p => String.eqb (IssuedCredentialRecord.tokenDigest p.2) (tokenDigest token))
    (RealmState.credentials s).

(** Everything a credential depends on is alive. *)
Definition credential_live (record : IssuedCredentialRecord.t) : P bool :=
  s ← get;
  match omap_get (IssuedCredentialRecord.grantId record) (RealmState.grants s),
        omap_get (IssuedCredentialRecord.sessionId record) (RealmState.sessions s),
        omap_get (IssuedCredentialRecord.principalId record) (RealmState.principals s),
        omap_get (IssuedCredentialRecord.clientId record) (RealmState.clients s) with
  | Some grant, Some session, Some principal, Some _ =>
      if bool_decide (Principal.status principal = PrincipalStatus.active) then
        session_ok ← sessionChainIsActive session;
        if session_ok : bool then
          grant_ok ← grantChainIsActive grant;
          mret (grant_ok && (IssuedCredentialRecord.authorizationEpoch record =? epoch s)%Z)
        else mret false
      else mret false
  | _, _, _, _ => mret false
  end.

Definition credential_matches (record : IssuedCredentialRecord.t) (input : CredentialValidationInput.t) :
    option CredentialInvalidCode.t :=
  if match CredentialValidationInput.class input with
     | Some class => negb (bool_decide (IssuedCredentialRecord.class record = class))
     | None => false
     end then Some CredentialInvalidCode.credential_audience_mismatch
  else if match CredentialValidationInput.audience input with
     | Some audience => negb (String.eqb (IssuedCredentialRecord.audience record) audience)
     | None => false
     end then Some CredentialInvalidCode.credential_audience_mismatch
  else if match CredentialValidationInput.resource input with
     | Some resource => negb (resourceMatches (IssuedCredentialRecord.resource record) resource)
     | None => false
     end then Some CredentialInvalidCode.credential_resource_mismatch
  else None.

Definition validateCredential (token : string) (input : CredentialValidationInput.t) :
    P CredentialValidationResult :=
  s ← get;
  match find_credential token s with
  | None => mret (credential_refused CredentialInvalidCode.credential_invalid)
  | Some (key, record) =>
      if bool_decide (IssuedCredentialRecord.status record = ExpiringStatus.revoked)
      then mret (credential_refused CredentialInvalidCode.credential_revoked)
      else
        lapsed ← (if bool_decide (IssuedCredentialRecord.status record = ExpiringStatus.expired)
                  then mret true else expired (IssuedCredentialRecord.expiresAt record));
        if lapsed : bool then
          set_credential key (record <| IssuedCredentialRecord.status := ExpiringStatus.expired |>) ;;
          mret (credential_refused CredentialInvalidCode.credential_expired)
        else
          live ← credential_live record;
          if negb live then
            set_credential key (record <| IssuedCredentialRecord.status := ExpiringStatus.revoked |>) ;;
            mret (credential_refused CredentialInvalidCode.credential_stale)
          else
            match credential_matches record input with
            | Some code => mret (credential_refused code)
            | None =>
                let resource := IssuedCredentialRecord.resource record in
                audit (credential_event "credential.validated" AuditOutcome.succeeded record s
                         (object (credential_details record))
                  <| AuditEvent.workspaceId := ResourceRef.workspaceId resource |>
                  <| AuditEvent.projectId := ResourceRef.projectId resource |>
                  <| AuditEvent.changeId := ResourceRef.changeId resource |>
                  <| AuditEvent.sourceSpaceId := ResourceRef.sourceSpaceId resource |>) ;;
                mret (credential_valid record)
            end
  end.

(** ** The Realm's policy version and its snapshots *)

Definition activatePolicy (policyVersion : string) : P Realm.t :=
  throw_if (blank policyVersion) (fail "policy.version_invalid") ;;
  modify (fun s => s <| RealmState.realm := RealmState.realm s
    <| Realm.policyVersion := policyVersion |>
    <| Realm.authorizationEpoch := (epoch s + 1)%Z |> |>) ;;
  s ← get;
  audit (event "policy.activated" AuditOutcome.observed
           (object [field "policyVersion" policyVersion; field "authorizationEpoch" (epoch s)])
    <| AuditEvent.authorityClass := Some AuthorityClass.none |>) ;;
  gets RealmState.realm.

Definition getRecoverySnapshot : P RealmRecoverySnapshot.t := gets (fun s => {|
  RealmRecoverySnapshot.realm := RealmState.realm s;
  RealmRecoverySnapshot.principals := RealmState.principals s;
  RealmRecoverySnapshot.agents := RealmState.agents s;
  RealmRecoverySnapshot.passkeys := RealmState.passkeys s;
  RealmRecoverySnapshot.oidcProviders := RealmState.oidcProviders s;
  RealmRecoverySnapshot.oidcIdentities := RealmState.oidcIdentities s;
  RealmRecoverySnapshot.clients := RealmState.clients s;
  RealmRecoverySnapshot.actors := RealmState.actors s;
  RealmRecoverySnapshot.sessions := RealmState.sessions s;
  RealmRecoverySnapshot.tasks := RealmState.tasks s;
  RealmRecoverySnapshot.relationships := RealmState.relationships s;
  RealmRecoverySnapshot.sourceSpacePolicies := RealmState.sourceSpacePolicies s;
  RealmRecoverySnapshot.grants := RealmState.grants s;
  RealmRecoverySnapshot.auditLog := RealmState.auditLog s;
  RealmRecoverySnapshot.credentialFree := true;
|}).

(** The records of a map with their status changed, or left. *)
Definition restored {A} (revokeAuthority : bool) (revoke : A → A) (m : omap A) : omap A :=
  if revokeAuthority then (fun p => (p.1, revoke p.2)) <$> m else m.

Definition loadSnapshot (snapshot : RealmRecoverySnapshot.t) (revokeAuthority : bool) : P Realm.t :=
  s ← get;
  let restoredSessions := restored revokeAuthority
    (fun x => x <| RealmSession.status := ExpiringStatus.revoked |>) (RealmRecoverySnapshot.sessions snapshot) in
  let restoredTasks := restored revokeAuthority
    (fun x => x <| RealmTask.status := TaskStatus.closed |>) (RealmRecoverySnapshot.tasks snapshot) in
  let restoredGrants := restored revokeAuthority
    (fun x => x <| RealmCapabilityGrant.status := ExpiringStatus.revoked |>)
    (RealmRecoverySnapshot.grants snapshot) in
  let snapshotEpoch := Realm.authorizationEpoch (RealmRecoverySnapshot.realm snapshot) in
  let restoredRealm := RealmRecoverySnapshot.realm snapshot <| Realm.authorizationEpoch :=
    if revokeAuthority then (Z.max (epoch s) snapshotEpoch + 1)%Z else snapshotEpoch |> in
  modify (fun s => {|
    RealmState.realm := restoredRealm;
    RealmState.principals := RealmRecoverySnapshot.principals snapshot;
    RealmState.agents := RealmRecoverySnapshot.agents snapshot;
    RealmState.passkeys := RealmRecoverySnapshot.passkeys snapshot;
    RealmState.oidcProviders := RealmRecoverySnapshot.oidcProviders snapshot;
    RealmState.oidcIdentities := RealmRecoverySnapshot.oidcIdentities snapshot;
    RealmState.clients := RealmRecoverySnapshot.clients snapshot;
    RealmState.actors := RealmRecoverySnapshot.actors snapshot;
    RealmState.sessions := restoredSessions;
    RealmState.tasks := restoredTasks;
    RealmState.relationships := RealmRecoverySnapshot.relationships snapshot;
    RealmState.sourceSpacePolicies := RealmRecoverySnapshot.sourceSpacePolicies snapshot;
    RealmState.grants := restoredGrants;
    RealmState.credentials := [];
    RealmState.auditLog := RealmRecoverySnapshot.auditLog snapshot;
    RealmState.sessionLifetimeMs := RealmState.sessionLifetimeMs s;
    RealmState.credentialLifetimeMs := RealmState.credentialLifetimeMs s;
  |}) ;;
  (if revokeAuthority then
     audit (event "realm.recovery.restored" AuditOutcome.observed
              (object [field "restoredRealmId" (Realm.id restoredRealm);
                       field "authorizationEpoch" (Realm.authorizationEpoch restoredRealm);
                       field "activeCredentialsRestored" false;
                       field "sessionsRevoked" (Z.of_nat (length restoredSessions));
                       field "grantsRevoked" (Z.of_nat (length restoredGrants))])
       <| AuditEvent.authorityClass := Some AuthorityClass.none |>)
   else mret ()) ;;
  mret restoredRealm.

Definition restore_snapshot (revokeAuthority : bool) (snapshot : RealmRecoverySnapshot.t) : P Realm.t :=
  s ← get;
  throw_if (negb (RealmRecoverySnapshot.credentialFree snapshot)) (fail "recovery.credentials_present") ;;
  throw_if (negb (String.eqb (Realm.id (RealmRecoverySnapshot.realm snapshot)) (realm_id s)))
    (fail "recovery.realm_mismatch") ;;
  loadSnapshot snapshot revokeAuthority.
Definition restoreRecoverySnapshot : RealmRecoverySnapshot.t → P Realm.t := restore_snapshot true.
Definition restoreOperationalSnapshot : RealmRecoverySnapshot.t → P Realm.t := restore_snapshot false.

(** The closure keeps the state, and writes it back when it is called. *)
Definition captureOperationalRollback : P (P ()) :=
  before ← get; mret (modify (fun _ => before)).

(** ** Observers *)

Definition listAuditEvents (s : RealmState.t) : list AuditEvent.t := RealmState.auditLog s.
Definition getPrincipal (id : string) (s : RealmState.t) : option Principal.t := omap_get id (RealmState.principals s).
Definition getAgent (id : string) (s : RealmState.t) : option RealmAgent.t := omap_get id (RealmState.agents s).
Definition getActor (id : string) (s : RealmState.t) : option RealmActor.t := omap_get id (RealmState.actors s).
Definition getSession (id : string) (s : RealmState.t) : option RealmSession.t := omap_get id (RealmState.sessions s).
Definition getGrant (id : string) (s : RealmState.t) : option RealmCapabilityGrant.t := omap_get id (RealmState.grants s).
End realm.
