(* ===== verification/IdentityPolicy.v ===== *)
(** The policy decision of a Realm, src/identity/realm.ts: [evaluateDecision]
    weighs a request against the Principal, the Actor and its session, the
    client, the relationships, the Source Space policy and the Task's Grant, and
    explains its answer.  [Permitted] says in one statement when it allows. *)

From S2P Require Import Prelude Json Contracts Identity.

(** * Data *)

Module Approval.
Record t := mk {
  required : option bool;
  approved : option bool;
  approverActorId : option string;
  authorActorId : option string;
  verifierActorId : option string;
}.
End Approval.

Module PolicyEvaluationInput.
Record t := mk {
  operation : string;
  capability : option Capability.t;
  principalId : string;
  actorId : string;
  clientId : string;
  sessionId : string;
  taskId : option string;
  grantId : option string;
  resource : ResourceRef.t;
  sourceSpaceId : option string;
  effect : option string;
  modelProvider : option string;
  requiredCredentialClass : option CredentialClass.t;
  requiredAuthStrength : option AuthenticationStrength.t;
  authorityClass : option AuthorityClass.t;
  promotionId : option string;
  approval : option Approval.t;
  discoverable : option bool;
  protected : option bool;
}.
End PolicyEvaluationInput.

Module PolicyDecision.
Record t := mk {
  allowed : bool;
  explanation : PolicyExplanation.t;
}.
End PolicyDecision.

(** What the checks have found so far: the factors and the capabilities in
    order, and the two flags. *)
Module Weighed.
Record t := mk {
  factors : list PolicyFactor.t;
  satisfiedCapabilities : list Capability.t;
  missingCapabilities : list Capability.t;
  unknown : bool;
  denied : bool;
}.
End Weighed.
Definition weigh (a b : Weighed.t) : Weighed.t := {|
  Weighed.factors := Weighed.factors a ++ Weighed.factors b;
  Weighed.satisfiedCapabilities := Weighed.satisfiedCapabilities a ++ Weighed.satisfiedCapabilities b;
  Weighed.missingCapabilities := Weighed.missingCapabilities a ++ Weighed.missingCapabilities b;
  Weighed.unknown := Weighed.unknown a || Weighed.unknown b;
  Weighed.denied := Weighed.denied a || Weighed.denied b;
|}.
Definition nothing : Weighed.t := Weighed.mk [] [] [] false false.

Definition factor (name : string) (status : FactorStatus.t) (detail : option string) : PolicyFactor.t :=
  PolicyFactor.mk name status (truthy_opt detail).
Definition good (name : string) : Weighed.t :=
  Weighed.mk [factor name FactorStatus.satisfied None] [] [] false false.
Definition refuse (name : string) (status : FactorStatus.t) (detail : option string) : Weighed.t :=
  Weighed.mk [factor name status detail] [] [] false true.
Definition doubt (name : string) (detail : option string) : Weighed.t :=
  Weighed.mk [factor name FactorStatus.unknown detail] [] [] true false.

(** * The decision *)

Definition capabilityForOperation (operation : string) (capability : option Capability.t) :
    outcome failure Capability.t :=
  match capability with
  | Some c => Ok c
  | None =>
      match find_first (fun c => String.eqb (Capability.show c) operation)
              (ROLE_CAPABILITIES RealmRole.owner) with
      | Some c => Ok c
      | None => Throw (fail "policy.capability_missing")
      end
  end.

Definition resourceForAudit (resource : ResourceRef.t) (safe : bool) : option ResourceRef.t :=
  if safe then Some resource else None.

Section evaluate.
Context `{HH : Host} `{DH : RealmHost}.
#[local] Abbreviation P := (M RealmState.t failure).

Section input.
Context (input : PolicyEvaluationInput.t) (cap : Capability.t).
Import PolicyEvaluationInput.

Definition requestedSourceSpaceId : option string :=
  match sourceSpaceId input with
  | Some id => Some id
  | None => ResourceRef.sourceSpaceId (resource input)
  end.
Definition source_policy (s : RealmState.t) : option SourceSpacePolicy.t :=
  truthy_opt requestedSourceSpaceId ≫= fun id => omap_get id (RealmState.sourceSpacePolicies s).
Definition sourcePolicyRequired : bool :=
  bool_decide (is_Some requestedSourceSpaceId)
  || bool_decide (cap = Capability.source_read)
  || bool_decide (cap = Capability.source_propose).
Definition is_reader (policy : SourceSpacePolicy.t) (principalId : string) : bool :=
  list_includes (SourceSpacePolicy.readerPrincipalIds policy) principalId.
Definition hidden (s : RealmState.t) : bool :=
  match source_policy s with
  | Some policy => negb (SourceSpacePolicy.discoverable policy) && negb (is_reader policy (principalId input))
  | None => false
  end || bool_decide (discoverable input = Some false).
Definition safeProjection (s : RealmState.t) : bool :=
  negb (hidden s) && negb (bool_decide (discoverable input = Some false)).

Section checks.
Context (s : RealmState.t).
(** [safeProjection ? detail : undefined]. *)
Definition safe (detail : string) : option string := if safeProjection s then Some detail else None.

Definition weigh_principal : Weighed.t :=
  let principal := omap_get (principalId input) (RealmState.principals s) in
  if match principal with
     | Some p => String.eqb (Principal.realmId p) (realm_id s)
                 && bool_decide (Principal.status p = PrincipalStatus.active)
     | None => false
     end then good "principal"
  else refuse "principal" (match principal with Some _ => FactorStatus.denied | None => FactorStatus.unknown end)
         (safe "principal is not active in this Realm").

Definition weigh_actor : Weighed.t :=
  if match omap_get (actorId input) (RealmState.actors s) with
     | Some actor =>
         bool_decide (RealmActor.status actor = Status.active)
         && String.eqb (RealmActor.principalId actor) (principalId input)
         && String.eqb (RealmActor.realmId actor) (realm_id s)
         && (negb (bool_decide (RealmActor.kind actor = ActorKind.agent))
             || agent_active (RealmActor.agentId actor) s)
     | None => false
     end then good "actor-chain"
  else refuse "actor-chain" FactorStatus.denied (safe "Actor does not belong to the Principal").

Definition weigh_client : Weighed.t :=
  match omap_get (clientId input) (RealmState.clients s) with
  | None => doubt "client" (safe "client is not active")
  | Some client =>
      if negb (bool_decide (RealmClient.status client = Status.active))
         || negb (String.eqb (RealmClient.realmId client) (realm_id s))
      then doubt "client" (safe "client is not active")
      else if negb (bool_decide (RealmClient.allowedOperations client = []))
              && negb (list_includes (RealmClient.allowedOperations client) (operation input))
              && negb (list_includes (RealmClient.allowedOperations client) (Capability.show cap))
      then refuse "client-consent" FactorStatus.denied (safe "client did not consent to this operation")
      else good "client-consent"
  end.

Definition weigh_audience : Weighed.t :=
  match requiredCredentialClass input with
  | None => nothing
  | Some class =>
      if match omap_get (clientId input) (RealmState.clients s) with
         | Some client => member_of (RealmClient.allowedAudiences client) class
         | None => false
         end then good "client-audience"
      else refuse "client-audience" FactorStatus.denied
             (safe (cat ["client is not registered for the "; CredentialClass.show class; " audience"]))
  end.

Definition weigh_role : Weighed.t :=
  let bindings := bindings_of (principalId input) (resource input) s in
  weigh
    (if role_allows bindings cap then
       Weighed.mk [factor "role-and-relationships" FactorStatus.satisfied
                     (safe (cat ["bindings="; pretty (N.of_nat (length bindings))]))]
         [cap] [] false false
     else
       Weighed.mk [factor "role-and-relationships" FactorStatus.missing
                     (safe "no matching role or relationship grants this capability")]
         [] [cap] false true)
    (if relationship_denies bindings cap then
       refuse "relationship-deny" FactorStatus.denied (safe "an explicit relationship deny applies")
     else nothing).

Definition weigh_source : Weighed.t :=
  match source_policy s with
  | None =>
      if sourcePolicyRequired then
        if negb (bool_decide (protected input = Some false))
        then doubt "source-space-policy" (safe "Source Space policy is unavailable")
        else good "source-space-policy"
      else Weighed.mk [factor "source-space-policy" FactorStatus.satisfied
                         (Some "not applicable to this resource")] [] [] false false
  | Some policy =>
      if hidden s then doubt "source-space-policy" None
      else if negb (String.eqb (SourceSpacePolicy.policyVersion policy)
                      (Realm.policyVersion (RealmState.realm s)))
      then doubt "source-space-policy" (safe "Source Space policy is stale for the active Realm policy version")
      else if negb (bool_decide (SourceSpacePolicy.readerPrincipalIds policy = []))
              && negb (is_reader policy (principalId input))
      then refuse "source-space-readers" FactorStatus.denied
             (Some "Principal is not in the Source Space reader set")
      else if negb (member_of (SourceSpacePolicy.allowedCapabilities policy) cap)
      then refuse "source-space-policy" FactorStatus.denied
             (Some "Source Space policy does not allow this capability")
      else good "source-space-policy"
  end.

Definition weigh_source_deny : Weighed.t :=
  match source_policy s with
  | Some policy =>
      weigh
        (if member_of (SourceSpacePolicy.deniedCapabilities policy) cap then
           refuse "source-space-deny" FactorStatus.denied
             (safe "Source Space policy explicitly denies this capability")
         else nothing)
        (match truthy_opt (modelProvider input) with
         | Some provider =>
             if negb (bool_decide (SourceSpacePolicy.allowedModelProviders policy = []))
                && negb (list_includes (SourceSpacePolicy.allowedModelProviders policy) provider)
             then refuse "model-provider" FactorStatus.denied
                    (safe "model provider is outside the Source Space trust zone")
             else nothing
         | None => nothing
         end)
  | None => nothing
  end.

(** The conditions on a Grant that is alive. *)
Definition weigh_grant_scope (grant : RealmCapabilityGrant.t) : Weighed.t :=
  if negb (resourceMatches (RealmCapabilityGrant.resource grant) (resource input)) then
    refuse "grant-resource" FactorStatus.denied (safe "Capability Grant is scoped to another resource")
  else if negb (member_of (RealmCapabilityGrant.actions grant) cap) then
    Weighed.mk [factor "grant-capability" FactorStatus.missing
                  (safe "Capability Grant does not include the requested capability")]
      [] [cap] false true
  else if member_of (RealmCapabilityGrant.deniedActions grant) cap then
    refuse "grant-deny" FactorStatus.denied
      (safe "Capability Grant explicitly denies the requested capability")
  else if match truthy_opt requestedSourceSpaceId with
     | Some id => negb (list_includes (RealmCapabilityGrant.sourceSpaceIds grant) id)
     | None => false
     end then
    refuse "grant-source-space" FactorStatus.denied
      (safe "Capability Grant does not include this Source Space")
  else if match truthy_opt (effect input) with
     | Some e => negb (list_includes (RealmCapabilityGrant.effects grant) e)
     | None => false
     end then
    refuse "grant-effect" FactorStatus.missing
      (safe "Capability Grant does not include the requested effect")
  else if match truthy_opt (modelProvider input) with
     | Some provider => negb (bool_decide (RealmCapabilityGrant.allowedModelProviders grant = []))
                        && negb (list_includes (RealmCapabilityGrant.allowedModelProviders grant) provider)
     | None => false
     end then
    refuse "grant-model-provider" FactorStatus.denied
      (safe "Capability Grant does not permit this model provider")
  else if match requiredCredentialClass input with
     | Some class => negb (member_of (RealmCapabilityGrant.allowedCredentialClasses grant) class)
     | None => false
     end then
    refuse "grant-audience" FactorStatus.denied
      (safe "Capability Grant does not permit this credential class")
  else good "task-grant".

Definition grant_in_chain (grant : RealmCapabilityGrant.t) (taskId : string) : bool :=
  String.eqb (RealmCapabilityGrant.taskId grant) taskId
  && String.eqb (RealmCapabilityGrant.sessionId grant) (sessionId input)
  && String.eqb (RealmCapabilityGrant.principalId grant) (principalId input)
  && String.eqb (RealmCapabilityGrant.actorId grant) (actorId input)
  && String.eqb (RealmCapabilityGrant.clientId grant) (clientId input).

(** The Grant and the Task of the request, when both exist and match it. *)
Definition requested_grant (grantId taskId : string) : option RealmCapabilityGrant.t :=
  match omap_get grantId (RealmState.grants s), omap_get taskId (RealmState.tasks s) with
  | Some grant, Some _ => if grant_in_chain grant taskId then Some grant else None
  | _, _ => None
  end.

Definition weigh_approval : Weighed.t :=
  match approval input with
  | Some approval =>
      if bool_decide (Approval.required approval = Some true) then
        if match truthy_opt (Approval.approverActorId approval) with
           | Some approver => bool_decide (Approval.authorActorId approval = Some approver)
                              || bool_decide (Approval.verifierActorId approval = Some approver)
           | None => false
           end then
          refuse "separation-of-duty" FactorStatus.denied
            (safe "author and verifier cannot approve this operation")
        else if bool_decide (Approval.approved approval = Some true) then good "approval"
        else refuse "approval" FactorStatus.missing (safe "an independent approval is required")
      else nothing
  | None => nothing
  end.

Definition weigh_promotion : Weighed.t :=
  if bool_decide (authorityClass input = Some AuthorityClass.promotion)
     && bool_decide (truthy_opt (promotionId input) = None)
  then refuse "promotion-authority" FactorStatus.missing
         (safe "Promotion authority requires a Promotion identity")
  else nothing.
End checks.

Definition session_in_chain (session : RealmSession.t) : bool :=
  String.eqb (RealmSession.principalId session) (principalId input)
  && String.eqb (RealmSession.actorId session) (actorId input)
  && String.eqb (RealmSession.clientId session) (clientId input).

(** The session of the request; [observe] marks it when it has expired. *)
Definition weigh_session (observe : bool) : P Weighed.t :=
  s ← get;
  match omap_get (sessionId input) (RealmState.sessions s) with
  | None => mret (doubt "session-chain" (safe s "session does not match the request chain"))
  | Some session =>
      if negb (session_in_chain session)
      then mret (doubt "session-chain" (safe s "session does not match the request chain"))
      else
        alive ← sessionChainIsActive session;
        if negb alive then
          session ← (if observe && bool_decide (RealmSession.status session = ExpiringStatus.active) then
                       e ← expired (RealmSession.expiresAt session);
                       if e : bool then
                         let session := session <| RealmSession.status := ExpiringStatus.expired |> in
                         set_session (sessionId input) session ;; mret session
                       else mret session
                     else mret session);
          mret (refuse "session" FactorStatus.denied
            (safe s (if bool_decide (RealmSession.status session = ExpiringStatus.active)
                     then "the delegated Session chain is inactive"
                     else cat ["session is "; ExpiringStatus.show (RealmSession.status session)])))
        else if bool_decide (requiredAuthStrength input = Some AuthenticationStrength.passkey)
                && negb (bool_decide (RealmSession.strength session = AuthenticationStrength.passkey))
        then mret (refuse "authentication-strength" FactorStatus.denied
                     (safe s "recent passkey authentication is required"))
        else mret (good "session")
  end.

(** The Task and the Grant of the request; [observe] marks an expired Grant. *)
Definition weigh_grant (observe : bool) : P Weighed.t :=
  s ← get;
  match truthy_opt (grantId input), truthy_opt (taskId input) with
  | Some grantId, Some taskId =>
      match requested_grant s grantId taskId with
      | None => mret (doubt "task-grant" (safe s "Capability Grant and Task chain do not match"))
      | Some grant =>
          alive ← grantChainIsActive grant;
          if negb alive then
            (if observe && bool_decide (RealmCapabilityGrant.status grant = ExpiringStatus.active) then
               e ← expired (RealmCapabilityGrant.expiresAt grant);
               if e : bool then
                 modify (fun s => s <| RealmState.grants := omap_set grantId
                   (grant <| RealmCapabilityGrant.status := ExpiringStatus.expired |>) (RealmState.grants s) |>)
               else mret ()
             else mret ()) ;;
            mret (refuse "task-grant" FactorStatus.denied
                    (safe s "Capability Grant is expired, revoked, or stale"))
          else mret (weigh_grant_scope s grant)
      end
  | _, _ => mret (refuse "task-grant" FactorStatus.missing
                    (safe s "protected operations require a task-scoped Capability Grant"))
  end.

Definition weigh_all (observe : bool) : P Weighed.t :=
  s ← get;
  session ← weigh_session observe;
  grant ← weigh_grant observe;
  mret (foldr weigh nothing
    [weigh_principal s; weigh_actor s; weigh_client s; weigh_audience s; session; weigh_role s;
     weigh_source s; weigh_source_deny s; grant; weigh_approval s; weigh_promotion s]).

Definition decision_of (s : RealmState.t) (w : Weighed.t) : PolicyDecisionKind.t :=
  if hidden s then PolicyDecisionKind.deny
  else if Weighed.denied w then PolicyDecisionKind.deny
  else if Weighed.unknown w then PolicyDecisionKind.indeterminate
  else PolicyDecisionKind.allow.
Definition code_of (s : RealmState.t) (d : PolicyDecisionKind.t) : DecisionCode.t :=
  if hidden s then DecisionCode.not_found
  else match d with
       | PolicyDecisionKind.allow => DecisionCode.allowed
       | PolicyDecisionKind.indeterminate => DecisionCode.indeterminate
       | PolicyDecisionKind.deny => DecisionCode.forbidden
       end.
Definition remediation_of (s : RealmState.t) (d : PolicyDecisionKind.t) : string :=
  if hidden s then
    "request the resource through an owner-approved Source Space or Project View; hidden resources are not disclosed"
  else match d with
       | PolicyDecisionKind.allow => "none"
       | _ => "request the missing capability or approval from the Realm owner, then re-evaluate against the current policy and grant epoch"
       end.

Definition evaluated_event (s : RealmState.t) (id : string) (d : PolicyDecisionKind.t) : AuditEvent.t :=
  event "policy.evaluated"
      (if bool_decide (d = PolicyDecisionKind.allow) then AuditOutcome.succeeded else AuditOutcome.denied)
      (object [field "operation" (operation input); field "capability" cap; field "decision" d;
               field "code" (code_of s d); field "safeProjection" (negb (hidden s))])
    <| AuditEvent.principalId := Some (principalId input) |>
    <| AuditEvent.actorId := Some (actorId input) |>
    <| AuditEvent.actorKind := actor_kind (actorId input) s |>
    <| AuditEvent.clientId := Some (clientId input) |>
    <| AuditEvent.modelProvider := modelProvider input |>
    <| AuditEvent.sessionId := Some (sessionId input) |>
    <| AuditEvent.taskId := taskId input |>
    <| AuditEvent.grantId := grantId input |>
    <| AuditEvent.workspaceId := ResourceRef.workspaceId (resource input) |>
    <| AuditEvent.projectId := ResourceRef.projectId (resource input) |>
    <| AuditEvent.changeId := ResourceRef.changeId (resource input) |>
    <| AuditEvent.sourceSpaceId := if safeProjection s then requestedSourceSpaceId else None |>
    <| AuditEvent.promotionId := promotionId input |>
    <| AuditEvent.authorityClass := authorityClass input |>
    <| AuditEvent.policyDecisionId := Some id |>.

Definition explain (s : RealmState.t) (w : Weighed.t) (id recheckAt : string) : PolicyExplanation.t :=
  let decision := decision_of s w in {|
    PolicyExplanation.id := id;
    PolicyExplanation.decision := decision;
    PolicyExplanation.code := code_of s decision;
    PolicyExplanation.operation := operation input;
    PolicyExplanation.resource := resourceForAudit (resource input) (safeProjection s);
    PolicyExplanation.policyVersion := Realm.policyVersion (RealmState.realm s);
    PolicyExplanation.authorizationEpoch := epoch s;
    PolicyExplanation.satisfiedCapabilities := Weighed.satisfiedCapabilities w;
    PolicyExplanation.missingCapabilities :=
      foldl (fun l c => if member_of l c then l else l ++ [c]) [] (Weighed.missingCapabilities w);
    PolicyExplanation.factors := Weighed.factors w;
    PolicyExplanation.remediation := remediation_of s decision;
    PolicyExplanation.recheckAt := recheckAt;
    PolicyExplanation.safeProjection := negb (hidden s);
  |}.
End input.

Definition evaluateDecision (input : PolicyEvaluationInput.t) (observe : bool) : P PolicyDecision.t :=
  capability ← lift (capabilityForOperation (PolicyEvaluationInput.operation input)
                       (PolicyEvaluationInput.capability input));
  s ← get;
  w ← weigh_all input capability observe;
  id ← opaqueId "policy-decision";
  recheckAt ← nowIso;
  let decision := decision_of input s w in
  (if observe then audit (evaluated_event input capability s id decision) else mret ()) ;;
  mret {|
    PolicyDecision.allowed := bool_decide (decision = PolicyDecisionKind.allow);
    PolicyDecision.explanation := explain input s w id recheckAt;
  |}.
Definition evaluate (input : PolicyEvaluationInput.t) : P PolicyDecision.t := evaluateDecision input true.
Definition evaluateReadOnly (input : PolicyEvaluationInput.t) : P PolicyDecision.t :=
  evaluateDecision input false.
Definition authorize (input : PolicyEvaluationInput.t) : P PolicyExplanation.t :=
  result ← evaluate input;
  let explanation := PolicyDecision.explanation result in
  throw_if (negb (PolicyDecision.allowed result))
    (identity_error (DecisionCode.show (PolicyExplanation.code explanation)) None
       (Some (PolicyExplanation.remediation explanation,
              cat ["policy="; PolicyExplanation.policyVersion explanation; "; epoch=";
                   pretty (PolicyExplanation.authorizationEpoch explanation); "; decision=";
                   PolicyDecisionKind.show (PolicyExplanation.decision explanation)]))
       (Some explanation)) ;;
  mret explanation.

(** ** Observations for human read adapters *)

Definition activeCapabilitiesForPrincipal (principalId : string) (resource : ResourceRef.t)
    (s : RealmState.t) : list Capability.t :=
  match omap_get principalId (RealmState.principals s) with
  | Some principal =>
      if String.eqb (Principal.realmId principal) (realm_id s)
         && bool_decide (Principal.status principal = PrincipalStatus.active)
      then
        let bindings := bindings_of principalId resource s in
        let allowed := remove_dups (bindings ≫= fun b => ROLE_CAPABILITIES (Relationship.role b)) in
        sort_by (fun c d => String.compare (Capability.show c) (Capability.show d))
          (base.filter (fun c => relationship_denies bindings c = false) allowed)
      else []
  | None => []
  end.

Definition canReadSourceSpaceMetadata (sessionId : string) (resource : ResourceRef.t)
    (classification : SourceSpaceClassification.t) (capability : option Capability.t) : P bool :=
  session ← validateSession sessionId;
  s ← get;
  let policy := truthy_opt (ResourceRef.sourceSpaceId resource)
                  ≫= fun id => omap_get id (RealmState.sourceSpacePolicies s) in
  let principalId := RealmSession.principalId session in
  mret (match policy with
  | None => false
  | Some policy =>
      let capabilities := activeCapabilitiesForPrincipal principalId resource s in
      let capability := default Capability.source_read capability in
      bool_decide (actor_kind (RealmSession.actorId session) s = Some ActorKind.human)
      && String.eqb (ResourceRef.realmId resource) (realm_id s)
      && bool_decide (SourceSpacePolicy.classification policy = classification)
      && String.eqb (SourceSpacePolicy.policyVersion policy) (Realm.policyVersion (RealmState.realm s))
      && member_of capabilities Capability.source_read && member_of capabilities capability
      && member_of (SourceSpacePolicy.allowedCapabilities policy) Capability.source_read
      && negb (member_of (SourceSpacePolicy.deniedCapabilities policy) Capability.source_read)
      && negb (member_of (SourceSpacePolicy.deniedCapabilities policy) capability)
      && (SourceSpacePolicy.discoverable policy || is_reader policy principalId)
      && (bool_decide (SourceSpacePolicy.readerPrincipalIds policy = []) || is_reader policy principalId)
  end).
End evaluate.

(** * Live chains

    What a chain of delegation means: every link is active, valid, and not
    expired at time [t], up to one that was derived from none. *)

Class MonotoneClock (D : RealmHost) := time_mono : ∀ i j, (i ≤ j)%nat → (time i ≤ time j)%Z.

Definition unexpired `{HH : Host} (t : Z) (value : string) : Prop :=
  ∀ v, Date_parse value = Some v → (t < v)%Z.

Definition link_ok `{HH : Host} {A} (C : chain_of A) (t : Z) (s : RealmState.t) (x : A) : Prop :=
  link_ready C s x = true ∧ link_valid C s x = true ∧ unexpired t (link_expiresAt C x).

(** Indexed by the number of links above. *)
Inductive alive `{HH : Host} {A} (C : chain_of A) (t : Z) (s : RealmState.t) : nat → A → Prop :=
| alive_root x :
    link_ok C t s x → truthy_opt (link_parent C x) = None → alive C t s 0 x
| alive_link n x p parent :
    link_ok C t s x → truthy_opt (link_parent C x) = Some p →
    omap_get p (link_map C s) = Some parent → alive C t s n parent → alive C t s (S n) x.
Definition live `{HH : Host} {A} (C : chain_of A) (t : Z) (s : RealmState.t) (x : A) : Prop :=
  ∃ n, alive C t s n x.

(** A record is found under its own id. *)
Definition keyed {A} (C : chain_of A) (s : RealmState.t) : Prop :=
  omap_all (λ k x, link_id C x = k) (link_map C s).

(** Only the clock is read. *)
Definition ticks (w w' : World) : Prop :=
  uuids_drawn w' = uuids_drawn w ∧ (clock_reads w ≤ clock_reads w')%nat.
#[export] Instance ticks_preorder : PreOrder ticks.
Proof. split; [done|]. intros w1 w2 w3 [? ?] [? ?]. split; [congruence|lia]. Qed.

Section chains.
Context `{HH : Host} `{DH : RealmHost}.
Implicit Types (w : World) (s : RealmState.t).

Lemma wp_date Q X w s :
  Q (time (clock_reads w)) (mkWorld (uuids_drawn w) (1 + clock_reads w)) s →
  wp (date : M RealmState.t failure Z) Q X w s.
Proof. done. Qed.
Lemma ticks_one w : ticks w (mkWorld (uuids_drawn w) (1 + clock_reads w)).
Proof. split; simpl; [done|lia]. Qed.

Lemma wp_expired value Q X w s :
  (∀ b w', ticks w w' → (b = true ↔ ¬ unexpired (time (clock_reads w)) value) →
     clock_reads w' = 1 + clock_reads w → Q b w' s) →
  wp (expired value) Q X w s.
Proof.
intros HQ. unfold expired. apply wp_bind, wp_date, wp_ret. apply HQ; [apply ticks_one| |done].
unfold unexpired. destruct (Date_parse value) as [v|].
- rewrite Z.leb_le. split; [intros Hle Hn; specialize (Hn v eq_refl); lia|].
  intros Hn. destruct (decide (v ≤ time (clock_reads w))%Z) as [|Hlt]; [done|]. exfalso.
  apply Hn. intros ? [= <-]. lia.
- split; [done|]. intros Hn. exfalso. by apply Hn.
Qed.

(** The clock and the entropy go forward. *)
Definition passes (w w' : World) : Prop :=
  (uuids_drawn w ≤ uuids_drawn w')%nat ∧ (clock_reads w ≤ clock_reads w')%nat.
#[export] Instance passes_preorder : PreOrder passes.
Proof. split; [done|]. intros w1 w2 w3 [? ?] [? ?]. split; lia. Qed.
Lemma ticks_passes w w' : ticks w w' → passes w w'.
Proof. intros [? ?]. split; lia. Qed.
Lemma passes_time `{!MonotoneClock DH} w w' : passes w w' → (time (clock_reads w) ≤ time (clock_reads w'))%Z.
Proof. intros [_ ?]. by apply time_mono. Qed.

Lemma wp_iso t Q X w s :
  (∀ v, t = Some v → valid_date v → Q (toISOString v) w s) → X range_error w s → wp (iso t) Q X w s.
Proof.
intros HQ HX. unfold iso. destruct t as [v|]; [|by apply wp_throw].
destruct (_ <=? _)%Z eqn:Hv; [|by apply wp_throw]. apply wp_ret, HQ; [done|]. by apply Z.leb_le.
Qed.
Lemma wp_nowIso Q X w s :
  (∀ v w', ticks w w' → v = toISOString (time (clock_reads w)) → Q v w' s) →
  X range_error (mkWorld (uuids_drawn w) (1 + clock_reads w)) s → wp nowIso Q X w s.
Proof.
intros HQ HX. unfold nowIso. apply wp_bind, wp_date, wp_iso; [|done].
intros v [= <-] _. by apply HQ; [apply ticks_one|].
Qed.
Lemma wp_audit e Q X w s :
  (∀ w' s', passes w w' → (∃ e', s' = s <| RealmState.auditLog := RealmState.auditLog s ++ [e'] |>) → Q () w' s') →
  (∀ w', passes w w' → X range_error w' s) → wp (audit e) Q X w s.
Proof.
intros HQ HX. unfold audit. apply wp_bind, wp_opaqueId. cbv beta. apply wp_bind, wp_nowIso.
- intros v w' [Hu Hc] _. apply wp_modify, HQ; [simpl in *; split; lia|by eexists].
- apply HX. split; simpl; lia.
Qed.

Section chain.
Context `{Mono : !MonotoneClock DH} {A : Type} (C : chain_of A).

Lemma unexpired_earlier t t' value : (t ≤ t')%Z → unexpired t' value → unexpired t value.
Proof. intros Ht Hu v Hv. specialize (Hu v Hv). lia. Qed.
Lemma alive_earlier t t' s n x : (t ≤ t')%Z → alive C t' s n x → alive C t s n x.
Proof.
intros Ht. assert (∀ y, link_ok C t' s y → link_ok C t s y) as Hok.
{ intros y (? & ? & ?). split_and!; [done..|]. by eapply unexpired_earlier. }
induction 1; econstructor; eauto.
Qed.
Lemma live_earlier t t' s x : (t ≤ t')%Z → live C t' s x → live C t s x.
Proof. intros Ht [n Hn]. exists n. by eapply alive_earlier. Qed.
Lemma ticks_time w w' : ticks w w' → (time (clock_reads w) ≤ time (clock_reads w'))%Z.
Proof. intros [_ ?]. by apply Mono. Qed.

Lemma alive_depth t s n m x : alive C t s n x → alive C t s m x → n = m.
Proof.
intros H. revert m. induction H as [x Hok Hr|n x p parent Hok Hp Hg _ IH]; intros m Hm;
  inversion Hm; subst; [done|congruence..|]. f_equal. apply IH. congruence.
Qed.

(** An answer [true] is sound at the time of the call... *)
Lemma chain_active_sound fuel seen x w s :
  wp (chain_active C fuel seen x)
    (λ b w' s', s' = s ∧ ticks w w' ∧ (b = true → live C (time (clock_reads w)) s x))
    (λ _ _ _, False) w s.
Proof.
revert seen x w. induction fuel as [|fuel IH]; intros seen x w; simpl; [by apply wp_ret|].
wp_step. apply wp_get. destruct (_ || _) eqn:Hready; [by apply wp_ret|].
apply orb_false_iff in Hready as [_ Hready%negb_false_iff].
wp_step. apply wp_expired. intros e w1 Hw1 He _.
destruct (_ || _) eqn:Hvalid; [by apply wp_ret|].
apply orb_false_iff in Hvalid as [-> Hvalid%negb_false_iff].
assert (link_ok C (time (clock_reads w)) s x) as Hok.
{ split_and!; [done..|]. intros v Hv. destruct (decide (time (clock_reads w) < v)%Z) as [|Hn]; [done|].
  destruct He as [_ He]. discriminate He. intros Hu. by apply Hn, Hu. }
destruct (truthy_opt _) as [p|] eqn:Hp.
- destruct (omap_get p _) as [parent|] eqn:Hg; [|by apply wp_ret].
  eapply wp_mono; [apply IH| |done]. intros b w2 s2 (-> & Hw2 & Hlive). split; [done|].
  split; [by etrans|]. intros Hb. destruct (Hlive Hb) as [n Hn]. exists (S n).
  eapply alive_link; [done..|]. eapply alive_earlier; [by apply ticks_time|done].
- apply wp_ret. split_and!; [done..|]. intros _. exists 0. by apply alive_root.
Qed.

(** ... and it is given to every chain that stays alive until the end. *)
Lemma chain_active_complete t n fuel seen x w s :
  keyed C s → omap_get (link_id C x) (link_map C s) = Some x →
  NoDup seen → (∀ i, i ∈ seen → ∃ y m, omap_get i (link_map C s) = Some y ∧ alive C t s m y ∧ (n < m)%nat) →
  (length (link_map C s) < length seen + fuel)%nat → alive C t s n x →
  wp (chain_active C fuel seen x) (λ b w' s', (time (clock_reads w') ≤ t)%Z → b = true)
    (λ _ _ _, False) w s.
Proof.
intros Hkey. revert n seen x w. induction fuel as [|fuel IH]; intros n seen x w Hx Hnd Hseen Hfuel Hlive.
{ exfalso. assert (seen ⊆+ omap_keys (link_map C s)) as Hsub.
  { apply NoDup_submseteq; [done|]. intros i (y & m & Hi & _)%Hseen. destruct (decide (i ∈ omap_keys (link_map C s)))
      as [|Hn%omap_get_None]; [done|congruence]. }
  apply submseteq_length in Hsub. unfold omap_keys in Hsub. rewrite length_fmap in Hsub. lia. }
assert (link_ok C t s x) as (Hready & Hvalid & Hun) by (by inversion Hlive).
assert (link_id C x ∉ seen) as Hfresh.
{ intros (y & m & Hy & Hm & Hlt)%Hseen. assert (y = x) as -> by congruence.
  pose proof (alive_depth _ _ _ _ _ Hm Hlive). lia. }
simpl. wp_step. apply wp_get. rewrite Hready. replace (list_includes _ _) with false
  by (symmetry; by apply not_true_iff_false; rewrite list_includes_spec). simpl.
wp_step. apply wp_expired. intros e w1 Hw1 He Hread. rewrite Hvalid. simpl. rewrite orb_false_r.
destruct e.
{ apply wp_ret. intros Ht. exfalso. apply He; [done|]. eapply unexpired_earlier; [|done].
  etrans; [|exact Ht]. by apply ticks_time. }
destruct (truthy_opt _) as [p|] eqn:Hp; [|by apply wp_ret].
inversion Hlive as [|n' y p' parent _ Hp' Hg Hparent]; subst; [congruence|].
assert (p' = p) as -> by congruence. rewrite Hg.
apply (IH n' (link_id C x :: seen) parent); [|by constructor| |simpl; lia|done].
- by rewrite (Hkey _ _ Hg).
- intros i [->|Hi]%elem_of_cons.
  + exists x, (S n'). by split_and!; [| |lia].
  + destruct (Hseen i Hi) as (y & m & Hy & Hm & Hlt). exists y, m. by split_and!; [| |lia].
Qed.

(** The bound the callers give. *)
Definition chain_answer (x : A) w s (b : bool) (w' : World) (s' : RealmState.t) : Prop :=
  s' = s ∧ ticks w w' ∧ (b = true → live C (time (clock_reads w)) s x) ∧
  (keyed C s → omap_get (link_id C x) (link_map C s) = Some x →
   live C (time (clock_reads w')) s x → b = true).
Lemma wp_chain_active x w s :
  wp (chain_active C (2 + length (link_map C s)) [] x) (chain_answer x w s) (λ _ _ _, False) w s.
Proof.
unfold wp. destruct (chain_active _ _ _ _ w s) as [[o w'] s'] eqn:Hrun.
pose proof (wp_run _ _ _ _ _ _ _ _ (chain_active_sound _ _ _ _ _) Hrun) as Hs.
destruct o as [b|e]; [|done]. destruct Hs as (-> & Hw & Hb). split_and!; [done..|].
intros Hk Hx [n Hn].
pose proof (wp_Ok _ _ _ _ _ _ _ _ (chain_active_complete _ n (2 + length (link_map C s)) [] x w s Hk Hx
  (NoDup_nil_2) ltac:(by intros i ?%elem_of_nil) ltac:(simpl; lia) Hn) Hrun) as Hc.
by apply Hc.
Qed.
End chain.

Lemma wp_sessionChainIsActive `{!MonotoneClock DH} x w s Q X :
  (∀ b w', chain_answer session_chain x w s b w' s → Q b w' s) →
  wp (sessionChainIsActive x) Q X w s.
Proof.
intros HQ. unfold sessionChainIsActive. apply wp_bind, wp_get.
eapply wp_mono; [exact (wp_chain_active session_chain x w s)| |done].
intros b w' s' Hc. pose proof Hc as (-> & _). by apply HQ.
Qed.
Lemma wp_grantChainIsActive `{!MonotoneClock DH} x w s Q X :
  (∀ b w', chain_answer grant_chain x w s b w' s → Q b w' s) →
  wp (grantChainIsActive x) Q X w s.
Proof.
intros HQ. unfold grantChainIsActive. apply wp_bind, wp_get.
eapply wp_mono; [exact (wp_chain_active grant_chain x w s)| |done].
intros b w' s' Hc. pose proof Hc as (-> & _). by apply HQ.
Qed.
End chains.

(** * When a request is allowed *)

Section permitted.
Context `{HH : Host}.
Import PolicyEvaluationInput.

(** A relationship of the Principal that covers the resource. *)
Definition binds (s : RealmState.t) (input : PolicyEvaluationInput.t) (b : Relationship.t) : Prop :=
  b ∈ omap_values (RealmState.relationships s) ∧
  Relationship.status b = Status.active ∧ Relationship.realmId b = realm_id s ∧
  Relationship.principalId b = principalId input ∧
  resourceMatches (Relationship.resource b) (resource input) = true.

(** An allow-list that is empty allows everything. *)
Definition unrestricted_or {A} (l : list A) (x : A) : Prop := l = [] ∨ x ∈ l.

Record source_permits (s : RealmState.t) (input : PolicyEvaluationInput.t) (cap : Capability.t)
    (policy : SourceSpacePolicy.t) : Prop := {
  sp_version : SourceSpacePolicy.policyVersion policy = Realm.policyVersion (RealmState.realm s);
  sp_reader : unrestricted_or (SourceSpacePolicy.readerPrincipalIds policy) (principalId input);
  sp_allowed : cap ∈ SourceSpacePolicy.allowedCapabilities policy;
  sp_denied : cap ∉ SourceSpacePolicy.deniedCapabilities policy;
  sp_model : ∀ provider, truthy_opt (modelProvider input) = Some provider →
    unrestricted_or (SourceSpacePolicy.allowedModelProviders policy) provider;
}.

Record grant_permits (input : PolicyEvaluationInput.t) (cap : Capability.t) (taskId : string)
    (grant : RealmCapabilityGrant.t) : Prop := {
  gp_task : RealmCapabilityGrant.taskId grant = taskId;
  gp_session : RealmCapabilityGrant.sessionId grant = sessionId input;
  gp_principal : RealmCapabilityGrant.principalId grant = principalId input;
  gp_actor : RealmCapabilityGrant.actorId grant = actorId input;
  gp_client : RealmCapabilityGrant.clientId grant = clientId input;
  gp_resource : resourceMatches (RealmCapabilityGrant.resource grant) (resource input) = true;
  gp_action : cap ∈ RealmCapabilityGrant.actions grant;
  gp_denied : cap ∉ RealmCapabilityGrant.deniedActions grant;
  gp_source : ∀ id, truthy_opt (requestedSourceSpaceId input) = Some id →
    id ∈ RealmCapabilityGrant.sourceSpaceIds grant;
  gp_effect : ∀ e, truthy_opt (effect input) = Some e → e ∈ RealmCapabilityGrant.effects grant;
  gp_model : ∀ provider, truthy_opt (modelProvider input) = Some provider →
    unrestricted_or (RealmCapabilityGrant.allowedModelProviders grant) provider;
  gp_audience : ∀ class, requiredCredentialClass input = Some class →
    class ∈ RealmCapabilityGrant.allowedCredentialClasses grant;
}.

(** Everything an allowed request needs, at time [t]. *)
Record permitted (t : Z) (s : RealmState.t) (input : PolicyEvaluationInput.t) (cap : Capability.t) :
    Prop := {
  pm_visible : discoverable input ≠ Some false ∧
    ∀ policy, source_policy input s = Some policy →
      SourceSpacePolicy.discoverable policy = true ∨
      principalId input ∈ SourceSpacePolicy.readerPrincipalIds policy;
  pm_principal : ∃ p, omap_get (principalId input) (RealmState.principals s) = Some p ∧
    Principal.realmId p = realm_id s ∧ Principal.status p = PrincipalStatus.active;
  pm_actor : ∃ a, omap_get (actorId input) (RealmState.actors s) = Some a ∧
    RealmActor.status a = Status.active ∧ RealmActor.principalId a = principalId input ∧
    RealmActor.realmId a = realm_id s ∧
    (RealmActor.kind a = ActorKind.agent → agent_active (RealmActor.agentId a) s = true);
  pm_client : ∃ c, omap_get (clientId input) (RealmState.clients s) = Some c ∧
    RealmClient.status c = Status.active ∧ RealmClient.realmId c = realm_id s ∧
    (unrestricted_or (RealmClient.allowedOperations c) (operation input) ∨
     Capability.show cap ∈ RealmClient.allowedOperations c) ∧
    ∀ class, requiredCredentialClass input = Some class → class ∈ RealmClient.allowedAudiences c;
  pm_session : ∃ x, omap_get (sessionId input) (RealmState.sessions s) = Some x ∧
    RealmSession.principalId x = principalId input ∧ RealmSession.actorId x = actorId input ∧
    RealmSession.clientId x = clientId input ∧ live session_chain t s x ∧
    (requiredAuthStrength input = Some AuthenticationStrength.passkey →
     RealmSession.strength x = AuthenticationStrength.passkey);
  pm_role : ∃ b, binds s input b ∧ cap ∈ ROLE_CAPABILITIES (Relationship.role b);
  pm_relationship_deny : ∀ b, binds s input b → cap ∉ Relationship.deniedCapabilities b;
  pm_source : match source_policy input s with
    | Some policy => source_permits s input cap policy
    | None => sourcePolicyRequired input cap = true → protected input = Some false
    end;
  pm_grant : ∃ gid tid grant, truthy_opt (grantId input) = Some gid ∧ truthy_opt (taskId input) = Some tid ∧
    omap_get gid (RealmState.grants s) = Some grant ∧ is_Some (omap_get tid (RealmState.tasks s)) ∧
    live grant_chain t s grant ∧ grant_permits input cap tid grant;
  pm_approval : ∀ a, approval input = Some a → Approval.required a = Some true →
    Approval.approved a = Some true ∧
    ∀ approver, truthy_opt (Approval.approverActorId a) = Some approver →
      Approval.authorActorId a ≠ Some approver ∧ Approval.verifierActorId a ≠ Some approver;
  pm_promotion : authorityClass input = Some AuthorityClass.promotion →
    is_Some (truthy_opt (promotionId input));
}.
End permitted.

(** ** Each check says what its clause does *)

Definition clear (w : Weighed.t) : Prop := Weighed.unknown w = false ∧ Weighed.denied w = false.

(** A check as a proposition: its branches, then its conditions. *)
Create Rewrite HintDb anyam_cond.
Lemma clear_weigh a b : clear (weigh a b) ↔ clear a ∧ clear b.
Proof. unfold clear. simpl. rewrite !orb_false_iff. tauto. Qed.
Lemma clear_if (b : bool) u v : clear (if b then u else v) ↔ (b = true ∧ clear u) ∨ (b = false ∧ clear v).
Proof. destruct b; naive_solver. Qed.
Lemma clear_mk fs cs ms u d : clear (Weighed.mk fs cs ms u d) ↔ u = false ∧ d = false.
Proof. done. Qed.
Lemma false_false : false = false ↔ True. Proof. done. Qed.
Lemma true_false : true = false ↔ False. Proof. done. Qed.
Lemma negb_true b : negb b = true ↔ b = false. Proof. by destruct b. Qed.
Lemma member_of_spec {A} `{EqDecision A} (l : list A) x : member_of l x = true ↔ x ∈ l.
Proof. apply bool_decide_eq_true. Qed.
Lemma member_of_false {A} `{EqDecision A} (l : list A) x : member_of l x = false ↔ x ∉ l.
Proof. apply bool_decide_eq_false. Qed.
Lemma list_includes_false l x : list_includes l x = false ↔ x ∉ l.
Proof. apply bool_decide_eq_false. Qed.
Lemma bool_decide_is_false (P : Prop) `{Decision P} : bool_decide P = false ↔ ¬ P.
Proof. apply bool_decide_eq_false. Qed.
Lemma bool_decide_is_true (P : Prop) `{Decision P} : bool_decide P = true ↔ P.
Proof. apply bool_decide_eq_true. Qed.
#[export] Hint Rewrite clear_weigh clear_if clear_mk false_false true_false
  andb_true_iff orb_true_iff negb_true String.eqb_eq list_includes_spec @member_of_spec @bool_decide_is_true
  andb_false_iff orb_false_iff negb_false_iff String.eqb_neq list_includes_false @member_of_false
  @bool_decide_is_false : anyam_cond.

Lemma all_Some {A} (x : A) (P : A → Prop) : (∀ y, Some x = Some y → P y) ↔ P x.
Proof. split; [by intros Hq; apply Hq|]. by intros Hp y [= <-]. Qed.
Lemma all_None {A} (P : A → Prop) : (∀ y, None = Some y → P y) ↔ True.
Proof. done. Qed.
Lemma ex_Some {A} (x : A) (P : A → Prop) : (∃ y, Some x = Some y ∧ P y) ↔ P x.
Proof. split; [by intros (y & [= <-] & ?)|]. intros. by exists x. Qed.
Lemma ex_None {A} (P : A → Prop) : (∃ y, None = Some y ∧ P y) ↔ False.
Proof. split; [by intros (y & ? & _)|done]. Qed.
#[export] Hint Rewrite @all_Some @all_None @ex_Some @ex_None : anyam_cond.

Lemma and_iff (P P' Q Q' : Prop) : (P ↔ P') → (Q ↔ Q') → (P ∧ Q ↔ P' ∧ Q'). Proof. tauto. Qed.
(** A chain of refusals, one condition after the other. *)
Lemma clear_else (b : bool) u v : ¬ clear u → clear (if b then u else v) ↔ b = false ∧ clear v.
Proof. destruct b; naive_solver. Qed.
Lemma optional {A} (o : option A) (f : A → bool) (P : A → Prop) :
  (∀ x, f x = false ↔ P x) →
  (match o with Some x => f x | None => false end = false ↔ ∀ x, o = Some x → P x).
Proof. intros Hf. destruct o; [rewrite all_Some; apply Hf|done]. Qed.

Ltac conds := unfold good, refuse, doubt, nothing; autorewrite with anyam_cond.

Section clauses.
Context `{HH : Host}.
Import PolicyEvaluationInput.
Implicit Types (s : RealmState.t) (input : PolicyEvaluationInput.t) (cap : Capability.t).

Lemma binds_spec s input b : b ∈ bindings_of (principalId input) (resource input) s ↔ binds s input b.
Proof.
unfold bindings_of, binds. rewrite list_elem_of_filter. conds. tauto.
Qed.
Lemma existsb_member {A B} `{EqDecision B} (f : A → list B) (l : list A) x :
  existsb (λ a, member_of (f a) x) l = true ↔ ∃ a, a ∈ l ∧ x ∈ f a.
Proof.
rewrite existsb_exists. split; intros (a & Ha & Hx); exists a;
  (split; [by apply list_elem_of_In|by apply member_of_spec]).
Qed.
Lemma role_allows_spec l cap :
  role_allows l cap = true ↔ ∃ b, b ∈ l ∧ cap ∈ ROLE_CAPABILITIES (Relationship.role b).
Proof. apply existsb_member. Qed.
Lemma relationship_denies_spec l cap :
  relationship_denies l cap = true ↔ ∃ b, b ∈ l ∧ cap ∈ Relationship.deniedCapabilities b.
Proof. apply existsb_member. Qed.

Lemma hidden_spec s input :
  hidden input s = false ↔ discoverable input ≠ Some false ∧
    ∀ policy, source_policy input s = Some policy →
      SourceSpacePolicy.discoverable policy = true ∨
      principalId input ∈ SourceSpacePolicy.readerPrincipalIds policy.
Proof.
unfold hidden, is_reader.
destruct (source_policy input s) as [policy|]; conds; tauto.
Qed.

Lemma clear_principal s input : clear (weigh_principal input s) ↔
  ∃ p, omap_get (principalId input) (RealmState.principals s) = Some p ∧
    Principal.realmId p = realm_id s ∧ Principal.status p = PrincipalStatus.active.
Proof.
unfold weigh_principal. destruct (omap_get _ _) as [p|]; conds; intuition done.
Qed.

Lemma clear_actor s input : clear (weigh_actor input s) ↔
  ∃ a, omap_get (actorId input) (RealmState.actors s) = Some a ∧
    RealmActor.status a = Status.active ∧ RealmActor.principalId a = principalId input ∧
    RealmActor.realmId a = realm_id s ∧
    (RealmActor.kind a = ActorKind.agent → agent_active (RealmActor.agentId a) s = true).
Proof.
unfold weigh_actor. destruct (omap_get _ _) as [a|]; conds; [|intuition done].
destruct (decide (RealmActor.kind a = ActorKind.agent)); intuition done.
Qed.

Lemma clear_audience s input c : omap_get (clientId input) (RealmState.clients s) = Some c →
  clear (weigh_audience input s) ↔
  ∀ class, requiredCredentialClass input = Some class → class ∈ RealmClient.allowedAudiences c.
Proof.
intros Hc. unfold weigh_audience. rewrite Hc.
destruct (requiredCredentialClass input); conds; intuition done.
Qed.
Lemma clear_client s input cap c : omap_get (clientId input) (RealmState.clients s) = Some c →
  clear (weigh_client input cap s) ↔
  RealmClient.status c = Status.active ∧ RealmClient.realmId c = realm_id s ∧
    (unrestricted_or (RealmClient.allowedOperations c) (operation input) ∨
     Capability.show cap ∈ RealmClient.allowedOperations c).
Proof.
intros Hc. unfold weigh_client, unrestricted_or. rewrite Hc. conds.
tauto.
Qed.
Lemma clear_clients s input cap : clear (weigh_client input cap s) ∧ clear (weigh_audience input s) ↔
  ∃ c, omap_get (clientId input) (RealmState.clients s) = Some c ∧
    RealmClient.status c = Status.active ∧ RealmClient.realmId c = realm_id s ∧
    (unrestricted_or (RealmClient.allowedOperations c) (operation input) ∨
     Capability.show cap ∈ RealmClient.allowedOperations c) ∧
    ∀ class, requiredCredentialClass input = Some class → class ∈ RealmClient.allowedAudiences c.
Proof.
destruct (omap_get (clientId input) (RealmState.clients s)) as [c|] eqn:Hc.
- rewrite (clear_audience _ _ _ Hc), (clear_client _ _ _ _ Hc). conds. tauto.
- unfold weigh_client. rewrite Hc. conds. tauto.
Qed.

Lemma clear_role s input cap : clear (weigh_role input cap s) ↔
  (∃ b, binds s input b ∧ cap ∈ ROLE_CAPABILITIES (Relationship.role b)) ∧
  (∀ b, binds s input b → cap ∉ Relationship.deniedCapabilities b).
Proof.
unfold weigh_role. conds.
assert (relationship_denies (bindings_of (principalId input) (resource input) s) cap = false ↔
  (∀ b, binds s input b → cap ∉ Relationship.deniedCapabilities b)) as ->.
{ rewrite <-not_true_iff_false, relationship_denies_spec. setoid_rewrite binds_spec. naive_solver. }
rewrite role_allows_spec, relationship_denies_spec. setoid_rewrite binds_spec. tauto.
Qed.

Lemma clear_source s input cap : hidden input s = false →
  clear (weigh_source input cap s) ∧ clear (weigh_source_deny input cap s) ↔
  match source_policy input s with
  | Some policy => source_permits s input cap policy
  | None => sourcePolicyRequired input cap = true → protected input = Some false
  end.
Proof.
intros Hh. unfold weigh_source, weigh_source_deny, is_reader. rewrite Hh.
destruct (source_policy input s) as [policy|].
- assert (source_permits s input cap policy ↔
      SourceSpacePolicy.policyVersion policy = Realm.policyVersion (RealmState.realm s) ∧
      unrestricted_or (SourceSpacePolicy.readerPrincipalIds policy) (principalId input) ∧
      cap ∈ SourceSpacePolicy.allowedCapabilities policy ∧
      (cap ∉ SourceSpacePolicy.deniedCapabilities policy) ∧
      (∀ provider, truthy_opt (modelProvider input) = Some provider →
        unrestricted_or (SourceSpacePolicy.allowedModelProviders policy) provider)) as ->
    by (split; [by intros []|by intros (? & ? & ? & ? & ?)]).
  unfold unrestricted_or. destruct (truthy_opt (modelProvider input)) as [provider|]; conds; tauto.
- conds. destruct (sourcePolicyRequired input cap); intuition done.
Qed.

Lemma grant_in_chain_spec input grant taskId : grant_in_chain input grant taskId = true ↔
  RealmCapabilityGrant.taskId grant = taskId ∧ RealmCapabilityGrant.sessionId grant = sessionId input ∧
  RealmCapabilityGrant.principalId grant = principalId input ∧
  RealmCapabilityGrant.actorId grant = actorId input ∧ RealmCapabilityGrant.clientId grant = clientId input.
Proof. unfold grant_in_chain. conds. tauto. Qed.

Lemma clear_grant_scope s input cap taskId grant :
  grant_in_chain input grant taskId = true ∧ clear (weigh_grant_scope input cap s grant) ↔
  grant_permits input cap taskId grant.
Proof.
rewrite grant_in_chain_spec.
assert (clear (weigh_grant_scope input cap s grant) ↔
  resourceMatches (RealmCapabilityGrant.resource grant) (resource input) = true ∧
  cap ∈ RealmCapabilityGrant.actions grant ∧ (cap ∉ RealmCapabilityGrant.deniedActions grant) ∧
  (∀ id, truthy_opt (requestedSourceSpaceId input) = Some id →
    id ∈ RealmCapabilityGrant.sourceSpaceIds grant) ∧
  (∀ e, truthy_opt (effect input) = Some e → e ∈ RealmCapabilityGrant.effects grant) ∧
  (∀ provider, truthy_opt (modelProvider input) = Some provider →
    unrestricted_or (RealmCapabilityGrant.allowedModelProviders grant) provider) ∧
  (∀ class, requiredCredentialClass input = Some class →
    class ∈ RealmCapabilityGrant.allowedCredentialClasses grant) ∧ True) as ->.
- unfold weigh_grant_scope, unrestricted_or. rewrite !clear_else by (by intros [_ ?]).
  repeat first [apply and_iff | apply optional; intros x]; conds; tauto.
- split; [by intros ((? & ? & ? & ? & ?) & ? & ? & ? & ? & ? & ? & ? & _)|]. by intros [].
Qed.

Lemma clear_approval s input : clear (weigh_approval input s) ↔
  ∀ a, approval input = Some a → Approval.required a = Some true →
    Approval.approved a = Some true ∧
    ∀ approver, truthy_opt (Approval.approverActorId a) = Some approver →
      Approval.authorActorId a ≠ Some approver ∧ Approval.verifierActorId a ≠ Some approver.
Proof.
unfold weigh_approval. destruct (approval input) as [a|]; conds; [|tauto].
destruct (decide (Approval.required a = Some true));
  destruct (truthy_opt (Approval.approverActorId a)); conds; tauto.
Qed.

Lemma clear_promotion s input : clear (weigh_promotion input s) ↔
  (authorityClass input = Some AuthorityClass.promotion → is_Some (truthy_opt (promotionId input))).
Proof.
unfold weigh_promotion. destruct (decide (authorityClass input = Some AuthorityClass.promotion));
  destruct (truthy_opt (promotionId input)); conds; intuition (by eauto).
Qed.
End clauses.

(** ** The two checks that read the clock *)

Section decision.
Context `{HH : Host} `{DH : RealmHost} `{Mono : !MonotoneClock DH}.
Import PolicyEvaluationInput.
Implicit Types (s : RealmState.t) (input : PolicyEvaluationInput.t) (cap : Capability.t) (w : World).

Definition session_clause (t : Z) s input : Prop :=
  ∃ x, omap_get (sessionId input) (RealmState.sessions s) = Some x ∧
    RealmSession.principalId x = principalId input ∧ RealmSession.actorId x = actorId input ∧
    RealmSession.clientId x = clientId input ∧ live session_chain t s x ∧
    (requiredAuthStrength input = Some AuthenticationStrength.passkey →
     RealmSession.strength x = AuthenticationStrength.passkey).
Definition grant_clause (t : Z) s input cap : Prop :=
  ∃ gid tid grant, truthy_opt (grantId input) = Some gid ∧ truthy_opt (taskId input) = Some tid ∧
    omap_get gid (RealmState.grants s) = Some grant ∧ is_Some (omap_get tid (RealmState.tasks s)) ∧
    live grant_chain t s grant ∧ grant_permits input cap tid grant.

(** What an evaluation may change: the statuses of sessions and of Grants. *)
Definition but_sessions s s' : Prop := s' = s <| RealmState.sessions := RealmState.sessions s' |>.
Lemma but_sessions_refl s : but_sessions s s. Proof. by destruct s. Qed.

Lemma live_grant_but_sessions t s s' g : but_sessions s s' → live grant_chain t s g → live grant_chain t s' g.
Proof.
intros He [n Hn]. exists n. induction Hn as [x (H1 & H2 & H3) Hp|n x p parent (H1 & H2 & H3) Hp Hg _ IH];
  rewrite He; econstructor; try done; by rewrite He in IH.
Qed.

(** What a check that reads the clock answers: a clear one when its clause holds,
    read early for soundness and late for completeness. *)
Record answers (sound complete : Z → Prop) (w : World) (u : Weighed.t) (w' : World) : Prop := {
  an_ticks : ticks w w';
  an_sound : clear u → sound (time (clock_reads w));
  an_complete : complete (time (clock_reads w')) → clear u;
}.
Lemma answers_no (sound complete : Z → Prop) w u w' :
  ticks w w' → ¬ clear u → ¬ complete (time (clock_reads w')) → answers sound complete w u w'.
Proof. by split. Qed.
Lemma answers_dead (sound complete : Z → Prop) w w1 w2 u :
  ticks w w1 → ticks w1 w2 → ¬ clear u → (∀ t t', (t ≤ t')%Z → complete t' → complete t) →
  ¬ complete (time (clock_reads w1)) → answers sound complete w u w2.
Proof.
intros H1 H2 Hu Hmono Hn. apply answers_no; [by etrans|done|]. intros Hc. apply Hn.
eapply Hmono; [|exact Hc]. by apply ticks_time.
Qed.
Lemma not_clear_refuse n st d : ¬ clear (refuse n st d). Proof. by intros []. Qed.
Lemma not_clear_doubt n d : ¬ clear (doubt n d). Proof. by intros []. Qed.
#[local] Hint Resolve not_clear_refuse not_clear_doubt but_sessions_refl : core.

Lemma session_clause_earlier t t' s input : (t ≤ t')%Z → session_clause t' s input → session_clause t s input.
Proof.
intros Ht (x & ? & ? & ? & ? & Hl & ?). exists x. split_and!; try done. by eapply live_earlier.
Qed.
Lemma grant_clause_earlier t t' s input cap : (t ≤ t')%Z → grant_clause t' s input cap → grant_clause t s input cap.
Proof.
intros Ht (gid & tid & g & ? & ? & ? & ? & Hl & ?). exists gid, tid, g. split_and!; try done.
by eapply live_earlier.
Qed.

Lemma wp_weigh_session input observe w s : keyed session_chain s →
  wp (weigh_session input observe) (λ u w' s',
      answers (λ t, session_clause t s input) (λ t, session_clause t s input) w u w' ∧
      but_sessions s s' ∧ (observe = false → s' = s)) (λ _ _ _, False) w s.
Proof.
intros Hk. unfold weigh_session. wp_step. apply wp_get. destruct (omap_get _ _) as [x|] eqn:Hx.
2: { apply wp_ret. split_and!; [|done..]. apply answers_no; [done..|]. intros (x & Hx' & _). congruence. }
destruct (negb (session_in_chain _ _)) eqn:Hchain.
{ apply wp_ret. split_and!; [|done..]. apply answers_no; [done..|].
  intros (x' & Hx' & Hp & Ha & Hc & _). assert (x' = x) as -> by congruence.
  revert Hchain. unfold session_in_chain. by rewrite Hp, Ha, Hc, !String.eqb_refl. }
apply negb_false_iff in Hchain. unfold session_in_chain in Hchain.
rewrite !andb_true_iff, !String.eqb_eq in Hchain. destruct Hchain as [[Hp Ha] Hc].
wp_step. apply wp_sessionChainIsActive. intros alive w1 (_ & Hw1 & Hsound & Hcomplete). destruct alive; simpl.
- specialize (Hsound eq_refl). destruct (_ && _) eqn:Hs; apply wp_ret; (split_and!; [|done..]).
  + apply answers_no; [done..|]. intros (x' & Hx' & _ & _ & _ & _ & Hst).
    assert (x' = x) as -> by congruence. revert Hs. conds. intros [Hr Hn]. auto.
  + split; [done| |done]. intros _. exists x. split_and!; try done. intros Hr. revert Hs. conds.
    intros [Hn|Hs]; [done|]. by destruct (RealmSession.strength x).
- assert (¬ session_clause (time (clock_reads w1)) s input) as Hdead.
  { intros (x' & Hx' & _ & _ & _ & Hl & _). assert (x' = x) as -> by congruence.
    assert (false = true); [|done]. apply Hcomplete; [done| |done]. by rewrite (Hk _ _ Hx). }
  assert (∀ w2 u, ticks w1 w2 → ¬ clear u →
    answers (λ t, session_clause t s input) (λ t, session_clause t s input) w u w2) as Hdone.
  { intros w2 u Hw2 Hu. eapply answers_dead; eauto. intros. by eapply session_clause_earlier. }
  wp_step. destruct (observe && _) eqn:Ho; [|wp_steps; split_and!; auto; by apply Hdone].
  wp_step. apply wp_expired. intros e w2 Hw2 _ _. destruct e; wp_steps;
    (split_and!; [by apply Hdone|by destruct s|by intros ->]).
Qed.

Lemma wp_weigh_grant input cap observe w s : keyed grant_chain s →
  wp (weigh_grant input cap observe) (λ u w' s',
      answers (λ t, grant_clause t s input cap) (λ t, grant_clause t s input cap) w u w' ∧
      (observe = false → s' = s)) (λ _ _ _, False) w s.
Proof.
intros Hk. unfold weigh_grant. wp_step. apply wp_get.
destruct (truthy_opt (grantId input)) as [gid|] eqn:Hgid;
  [destruct (truthy_opt (taskId input)) as [tid|] eqn:Htid|].
2,3: apply wp_ret; (split; [|done]); apply answers_no; [done..|]; intros (? & ? & ? & ? & ? & _); congruence.
destruct (requested_grant input s gid tid) as [g|] eqn:Hg; unfold requested_grant in Hg.
2: { apply wp_ret. split; [|done]. apply answers_no; [done..|].
  intros (gid' & tid' & g & Hgid' & Htid' & Hget & [task Htask] & _ & Hperm).
  assert (gid' = gid) as -> by congruence. assert (tid' = tid) as -> by congruence.
  rewrite <-(clear_grant_scope s) in Hperm. rewrite Hget, Htask in Hg. by destruct Hperm as [Hperm _]; rewrite Hperm in Hg. }
destruct (omap_get gid _) as [g'|] eqn:Hget; [|done]. destruct (omap_get tid _) as [task|] eqn:Htask; [|done].
destruct (grant_in_chain _ _ _) eqn:Hchain; [|done]. injection Hg as ->.
wp_step. apply wp_grantChainIsActive. intros alive w1 (_ & Hw1 & Hsound & Hcomplete). destruct alive; simpl.
- specialize (Hsound eq_refl). apply wp_ret. split; [|done]. split; [done| |].
  + intros Hcl. exists gid, tid, g. split_and!; try done. by apply (clear_grant_scope s).
  + intros (gid' & tid' & g' & Hgid' & Htid' & Hget' & _ & _ & Hperm).
    assert (gid' = gid) as -> by congruence. assert (tid' = tid) as -> by congruence.
    assert (g' = g) as -> by congruence. by apply (clear_grant_scope s) in Hperm as [_ ?].
- assert (¬ grant_clause (time (clock_reads w1)) s input cap) as Hdead.
  { intros (gid' & tid' & g' & Hgid' & _ & Hget' & _ & Hl & _).
    assert (gid' = gid) as -> by congruence. assert (g' = g) as -> by congruence.
    assert (false = true); [|done]. apply Hcomplete; [done| |done]. by rewrite (Hk _ _ Hget). }
  assert (∀ w2 u, ticks w1 w2 → ¬ clear u →
    answers (λ t, grant_clause t s input cap) (λ t, grant_clause t s input cap) w u w2) as Hdone.
  { intros w2 u Hw2 Hu. eapply answers_dead; eauto. intros. by eapply grant_clause_earlier. }
  wp_step. destruct (observe && _) eqn:Ho; [|wp_steps; split; auto; by apply Hdone].
  wp_step. apply wp_expired. intros e w2 Hw2 _ _. destruct e; wp_steps;
    (split; [by apply Hdone|by intros ->]).
Qed.

Lemma but_sessions_sym s s' : but_sessions s s' → but_sessions s' s.
Proof. intros ->. by destruct s. Qed.
Lemma grant_clause_but_sessions t s s' input cap :
  but_sessions s s' → grant_clause t s input cap ↔ grant_clause t s' input cap.
Proof.
assert (∀ a b, but_sessions a b → grant_clause t a input cap → grant_clause t b input cap) as Hone.
{ intros a b Hab (gid & tid & g & ? & ? & Hg & Ht & Hl & ?). exists gid, tid, g.
  split_and!; try done; [by rewrite Hab|by rewrite Hab|by eapply live_grant_but_sessions]. }
intros Hs. split; [by apply Hone|]. by apply Hone, but_sessions_sym.
Qed.

(** All the clauses of [permitted], given those of the two timed checks. *)
Lemma permitted_spec t s input cap u v :
  (hidden input s = false ∧ clear (foldr weigh nothing
    [weigh_principal input s; weigh_actor input s; weigh_client input cap s; weigh_audience input s; u;
     weigh_role input cap s; weigh_source input cap s; weigh_source_deny input cap s; v;
     weigh_approval input s; weigh_promotion input s])) ∧ session_clause t s input ∧ grant_clause t s input cap
  ↔ permitted t s input cap ∧ clear u ∧ clear v.
Proof.
simpl. rewrite !clear_weigh, clear_principal, clear_actor, clear_role, clear_approval, clear_promotion.
pose proof (clear_clients s input cap) as Hc. pose proof (clear_source s input cap) as Hs.
pose proof (hidden_spec s input) as Hh. split.
- intros ((Hhid & H1 & H2 & H3 & H4 & H5 & H6 & H7 & H8 & H9 & H10 & H11 & _) & Hses & Hgr).
  split; [|done]. split; try done; [by apply Hh|by apply Hc|apply H6|apply H6|by apply Hs].
- intros [[P1 P2 P3 P4 P5 P6 P7 P8 P9 P10 P11] [Hu Hv]]. apply Hh in P1 as Hhid. specialize (Hs Hhid).
  apply Hc in P4 as [? ?]. apply Hs in P8 as [? ?]. by split_and!.
Qed.

Lemma permitted_earlier t t' s input cap : (t ≤ t')%Z → permitted t' s input cap → permitted t s input cap.
Proof.
intros Ht []. split; try done; [by eapply session_clause_earlier|by eapply grant_clause_earlier].
Qed.

Lemma decision_allow s input u :
  decision_of input s u = PolicyDecisionKind.allow ↔ hidden input s = false ∧ clear u.
Proof.
unfold decision_of, clear. destruct (hidden input s), (Weighed.denied u), (Weighed.unknown u); naive_solver.
Qed.

Lemma wp_weigh_all input cap observe w s : keyed session_chain s → keyed grant_chain s →
  wp (weigh_all input cap observe) (λ u w' s', ticks w w' ∧ (observe = false → s' = s) ∧
      (decision_of input s u = PolicyDecisionKind.allow → permitted (time (clock_reads w)) s input cap) ∧
      (permitted (time (clock_reads w')) s input cap → decision_of input s u = PolicyDecisionKind.allow))
    (λ _ _ _, False) w s.
Proof.
intros Hks Hkg. unfold weigh_all. wp_step. apply wp_get. wp_step.
eapply wp_mono; [by apply wp_weigh_session| |done]. intros u w1 s1 ([Hw1 Hus Huc] & Hbut & Ho).
wp_step. eapply wp_mono; [apply wp_weigh_grant; by rewrite Hbut| |done].
intros v w2 s2 ([Hw2 Hvs Hvc] & Ho2). apply wp_ret.
rewrite decision_allow. split_and!; [by etrans|by intros Hf; rewrite Ho2, Ho| |].
- intros Hcl. eapply permitted_spec. split; [exact Hcl|]. destruct Hcl as [_ Hcl]. simpl in Hcl.
  rewrite !clear_weigh in Hcl. split; [apply Hus; tauto|].
  apply (grant_clause_but_sessions _ _ _ _ _ Hbut). eapply grant_clause_earlier; [by apply ticks_time|].
  apply Hvs. tauto.
- intros Hp. pose proof Hp as [_ _ _ _ Hses _ _ _ Hgr _ _].
  assert (clear v) as Hv by (by apply Hvc, (grant_clause_but_sessions _ _ _ _ _ Hbut)).
  assert (clear u) as Hu.
  { apply Huc. eapply session_clause_earlier; [by apply (ticks_time w1 w2)|done]. }
  by eapply (permitted_spec _ s input cap u v).
Qed.

(** The decision and its two approximations of the time of the request. *)
Lemma wp_evaluateDecision input observe w s : keyed session_chain s → keyed grant_chain s →
  wp (evaluateDecision input observe) (λ d w' s', (∃ cap,
      capabilityForOperation (operation input) (capability input) = Ok cap ∧
      (PolicyDecision.allowed d = true → permitted (time (clock_reads w)) s input cap) ∧
      (permitted (time (clock_reads w')) s input cap → PolicyDecision.allowed d = true)) ∧
      (observe = false → s' = s))
    (λ e w' s', (e = range_error ∨ capabilityForOperation (operation input) (capability input) = Throw e) ∧
      (observe = false → s' = s)) w s.
Proof.
intros Hks Hkg. unfold evaluateDecision. wp_step. wp_step; [|auto]. rename a into cap.
wp_step. apply wp_get. wp_step. eapply wp_mono; [by apply wp_weigh_all| |done].
intros u w1 s1 (Hw1 & Ho & Hsound & Hcomplete).
wp_step. apply wp_opaqueId. wp_step. apply wp_nowIso; [|auto]. intros recheckAt w2 Hw2 _. cbv zeta.
assert (∀ w3 s3, passes w2 w3 → (observe = false → s3 = s1) → wp
  (mret (PolicyDecision.mk (bool_decide (decision_of input s u = PolicyDecisionKind.allow))
    (explain input s u (cat ["policy-decision"; ":"; randomUUID (uuids_drawn w1)]) recheckAt)) :
    M RealmState.t failure _)
  (λ d w' s', (∃ cap, capabilityForOperation (operation input) (capability input) = Ok cap ∧
      (PolicyDecision.allowed d = true → permitted (time (clock_reads w)) s input cap) ∧
      (permitted (time (clock_reads w')) s input cap → PolicyDecision.allowed d = true)) ∧
      (observe = false → s' = s)) (λ e w' s', (e = range_error ∨
        capabilityForOperation (operation input) (capability input) = Throw e) ∧
      (observe = false → s' = s)) w3 s3) as Hret.
{ intros w3 s3 Hw3 Hs3. apply wp_ret. split; [|by intros Hf; rewrite Hs3, Ho]. exists cap. simpl.
  rewrite bool_decide_eq_true. split_and!; [done..|]. intros Hp. apply Hcomplete.
  eapply permitted_earlier; [|exact Hp]. apply passes_time. destruct Hw2, Hw3. simpl in *. split; lia. }
wp_step. destruct observe; [|by apply wp_ret, Hret].
apply wp_audit; [intros w3 s3 Hw3 _; by apply Hret|]. intros w3 Hw3. split; [auto|done].
Qed.

(** C16: A request is allowed exactly when [permitted] holds: if it is allowed, every
    condition held when it was received, the session's and the Grant's chains of
    delegation alive at that time; if the conditions still hold when it is answered,
    it is allowed.  An evaluation fails only on an operation without a capability or a
    clock outside the range of Date, and a read-only one changes nothing. *)
Theorem evaluate_exact input observe w s o w' s' :
  keyed session_chain s → keyed grant_chain s →
  evaluateDecision input observe w s = (o, w', s') →
  match o with
  | Ok d => ∃ cap, capabilityForOperation (operation input) (capability input) = Ok cap ∧
      (PolicyDecision.allowed d = true → permitted (time (clock_reads w)) s input cap) ∧
      (permitted (time (clock_reads w')) s input cap → PolicyDecision.allowed d = true)
  | Throw e => e = range_error ∨ capabilityForOperation (operation input) (capability input) = Throw e
  end ∧ (observe = false → s' = s).
Proof.
intros Hks Hkg Hrun. pose proof (wp_run _ _ _ _ _ _ _ _ (wp_evaluateDecision input observe w s Hks Hkg) Hrun).
by destruct o.
Qed.
End decision.
