(* ===== verification/IdentityFacts.v ===== *)
(** The Realm's identities and policy, proved: what every sequence of calls keeps
    true of sessions, Grants and credentials, how authority shrinks along a
    delegation, and that what was revoked stays dead. *)

From S2P Require Import Prelude Encoding Json Contracts Identity IdentityPolicy.

(** * One call

    Records are added under fresh ids; of those that exist a call may change the
    status, and a status that has left [active] never comes back to it. *)

Definition same_session (x x' : RealmSession.t) : Prop :=
  x' = x <| RealmSession.status := RealmSession.status x' |> ∧
  (RealmSession.status x' = ExpiringStatus.active → RealmSession.status x = ExpiringStatus.active).
Definition same_grant (g g' : RealmCapabilityGrant.t) : Prop :=
  g' = g <| RealmCapabilityGrant.status := RealmCapabilityGrant.status g' |> ∧
  (RealmCapabilityGrant.status g' = ExpiringStatus.active → RealmCapabilityGrant.status g = ExpiringStatus.active).
Definition same_actor (a a' : RealmActor.t) : Prop :=
  a' = a <| RealmActor.status := RealmActor.status a' |> ∧
  (RealmActor.status a' = Status.active → RealmActor.status a = Status.active).
Definition same_agent (a a' : RealmAgent.t) : Prop :=
  a' = a <| RealmAgent.status := RealmAgent.status a' |> <| RealmAgent.revokedAt := RealmAgent.revokedAt a' |> ∧
  (RealmAgent.status a' = Status.active → RealmAgent.status a = Status.active).
Definition same_credential (c c' : IssuedCredentialRecord.t) : Prop :=
  c' = c <| IssuedCredentialRecord.status := IssuedCredentialRecord.status c' |>.

#[export] Instance same_session_preorder : PreOrder same_session.
Proof.
split; [by intros []|]. intros x y z [Hy Ay] [Hz Az]. split; [|auto]. etrans; [exact Hz|]. rewrite Hy. by destruct x.
Qed.
#[export] Instance same_grant_preorder : PreOrder same_grant.
Proof.
split; [by intros []|]. intros x y z [Hy Ay] [Hz Az]. split; [|auto]. etrans; [exact Hz|]. rewrite Hy. by destruct x.
Qed.
#[export] Instance same_actor_preorder : PreOrder same_actor.
Proof.
split; [by intros []|]. intros x y z [Hy Ay] [Hz Az]. split; [|auto]. etrans; [exact Hz|]. rewrite Hy. by destruct x.
Qed.
#[export] Instance same_agent_preorder : PreOrder same_agent.
Proof.
split; [by intros []|]. intros x y z [Hy Ay] [Hz Az]. split; [|auto]. etrans; [exact Hz|]. rewrite Hy. by destruct x.
Qed.
#[export] Instance same_credential_preorder : PreOrder same_credential.
Proof.
split; [by intros []|]. intros x y z Hy Hz. unfold same_credential. etrans; [exact Hz|]. rewrite Hy. by destruct x.
Qed.

(** A map whose bindings moved by [R], and that gained others under keys of [new]. *)
Record grows {V} (R : V → V → Prop) (new : string → Prop) (m m' : omap V) : Prop := {
  gr_kept : ∀ k v, omap_get k m = Some v → ∃ v', omap_get k m' = Some v' ∧ R v v';
  gr_new : ∀ k v', omap_get k m = None → omap_get k m' = Some v' → new k;
  gr_wf : omap_wf m → omap_wf m';
}.
Lemma grows_refl {V} (R : V → V → Prop) `{!Reflexive R} new m : grows R new m m.
Proof. split; [intros k v Hv; by exists v|congruence|done]. Qed.
Lemma grows_trans {V} (R : V → V → Prop) `{!Transitive R} (new new' : string → Prop) m1 m2 m3 :
  (∀ k, new' k → new k) → grows R new m1 m2 → grows R new' m2 m3 → grows R new m1 m3.
Proof.
intros Hnew [K1 N1 W1] [K2 N2 W2]. split; [| |auto].
- intros k v Hv. destruct (K1 k v Hv) as (v2 & H2 & ?). destruct (K2 k v2 H2) as (v3 & H3 & ?).
  exists v3. split; [done|]. by etrans.
- intros k v3 H1 H3. destruct (omap_get k m2) as [v2|] eqn:H2; [by eapply N1|]. by eapply Hnew, N2.
Qed.
Lemma grows_set {V} (R : V → V → Prop) `{!Reflexive R} new m k v v' :
  omap_get k m = Some v → R v v' → grows R new m (omap_set k v' m).
Proof.
intros Hv HR. split; [| |by apply omap_set_wf].
- intros k' u. rewrite omap_get_set. case_decide as Hk; [|by exists u]. subst. intros Hu. exists v'. by simplify_eq.
- intros k' u Hn. rewrite omap_get_set. case_decide as Hk; [|congruence]. subst. congruence.
Qed.
Lemma grows_add {V} (R : V → V → Prop) `{!Reflexive R} (new : string → Prop) m k v :
  omap_get k m = None → new k → grows R new m (omap_set k v m).
Proof.
intros Hn Hk. split; [| |by apply omap_set_wf].
- intros k' u Hu. rewrite omap_get_set_ne; [by exists u|]. intros ->. congruence.
- intros k' u Hu. rewrite omap_get_set. case_decide; [by subst|congruence].
Qed.
Lemma grows_fmap {V} (R : V → V → Prop) new m (f : V → V) :
  (∀ v, R v (f v)) → grows R new m ((λ p, (p.1, f p.2)) <$> m).
Proof.
intros Hf. split; [intros k v; rewrite omap_get_fmap..|].
- intros ->. eauto.
- by intros ->.
- unfold omap_wf, omap_keys. by rewrite <-list_fmap_compose.
Qed.

Section facts.
Context `{HH : Host} `{DH : RealmHost}.
Implicit Types (w : World) (s : RealmState.t).

(** The ids that a call may give to new records: [p] is the prefix of the ids of
    the map, and [w] the host before the call. *)
Definition fresh w (p k : string) : Prop := ¬ drawn p w k.

Record evolves (new : string → string → Prop) s s' : Prop := {
  ev_realm : realm_id s' = realm_id s;
  ev_epoch : (epoch s ≤ epoch s')%Z;
  ev_sessions : grows same_session (new "session") (RealmState.sessions s) (RealmState.sessions s');
  ev_grants : grows same_grant (new "grant") (RealmState.grants s) (RealmState.grants s');
  ev_actors : grows same_actor (new "actor") (RealmState.actors s) (RealmState.actors s');
  ev_agents : grows same_agent (λ _, True) (RealmState.agents s) (RealmState.agents s');
  ev_credentials : grows same_credential (new "credential") (RealmState.credentials s) (RealmState.credentials s');
  ev_lifetimes : RealmState.sessionLifetimeMs s' = RealmState.sessionLifetimeMs s ∧
    RealmState.credentialLifetimeMs s' = RealmState.credentialLifetimeMs s;
}.
Lemma evolves_refl new s : evolves new s s.
Proof. split; try done; apply grows_refl; apply _. Qed.
Lemma fresh_earlier p w w' k : passes w w' → fresh w' p k → fresh w p k.
Proof. intros [Hu _] Hf Hd. by eapply Hf, drawn_mono. Qed.
Lemma evolves_trans w w1 s1 s2 s3 : passes w w1 → evolves (fresh w) s1 s2 → evolves (fresh w1) s2 s3 → evolves (fresh w) s1 s3.
Proof.
intros Hw [A1 A2 A3 A4 A5 A6 A7 [A8 A9]] [B1 B2 B3 B4 B5 B6 B7 [B8 B9]].
assert (∀ V (R : V → V → Prop) p (m1 m2 m3 : omap V), Transitive R → grows R (fresh w p) m1 m2 →
  grows R (fresh w1 p) m2 m3 → grows R (fresh w p) m1 m3) as G.
{ intros V R p m1 m2 m3 HR H1 H2. apply (grows_trans R (fresh w p) (fresh w1 p) m1 m2 m3); [|done..]. intros k. by apply fresh_earlier. }
split; [congruence|lia|by eapply (G _ _ _ _ _ _ _ A3)|by eapply (G _ _ _ _ _ _ _ A4)|by eapply (G _ _ _ _ _ _ _ A5)|
  |by eapply (G _ _ _ _ _ _ _ A7)|split; congruence].
by eapply (grows_trans same_agent (λ _, True) (λ _, True)).
Qed.

(** * The invariant *)

(** The Principal of a Grant and five dimensions of its authority: its resource, its
    budget, its expiry and the actions it denies are none of them. *)
Record authority_le (child parent : RealmCapabilityGrant.t) : Prop := {
  al_principal : RealmCapabilityGrant.principalId child = RealmCapabilityGrant.principalId parent;
  al_actions : RealmCapabilityGrant.actions child ⊆ RealmCapabilityGrant.actions parent;
  al_spaces : RealmCapabilityGrant.sourceSpaceIds child ⊆ RealmCapabilityGrant.sourceSpaceIds parent;
  al_effects : RealmCapabilityGrant.effects child ⊆ RealmCapabilityGrant.effects parent;
  al_classes : RealmCapabilityGrant.allowedCredentialClasses child
               ⊆ RealmCapabilityGrant.allowedCredentialClasses parent;
  al_models : ∀ provider, unrestricted_or (RealmCapabilityGrant.allowedModelProviders child) provider →
    unrestricted_or (RealmCapabilityGrant.allowedModelProviders parent) provider;
}.
#[export] Instance authority_le_preorder : PreOrder authority_le.
Proof.
split; [by split|]. intros a b c [] []. split; [congruence|by etrans..|auto].
Qed.

(** An agent's Grant is derived, and stays inside its enrolment. *)
Record agent_bounded (agent : RealmAgent.t) (g : RealmCapabilityGrant.t) : Prop := {
  ab_derived : is_Some (RealmCapabilityGrant.parentGrantId g);
  ab_prohibited : ∀ c, c ∈ RealmCapabilityGrant.actions g → c ∉ AGENT_PROHIBITED_CAPABILITIES;
  ab_model : ∀ provider, provider ∈ RealmCapabilityGrant.allowedModelProviders g →
    provider = RealmAgent.modelProvider agent;
  ab_classes : RealmCapabilityGrant.allowedCredentialClasses g ⊆ RealmAgent.allowedCredentialClasses agent;
}.

Record grant_ok s (g : RealmCapabilityGrant.t) : Prop := {
  go_realm : ResourceRef.realmId (RealmCapabilityGrant.resource g) = realm_id s;
  go_epoch : (RealmCapabilityGrant.authorizationEpoch g ≤ epoch s)%Z;
  go_parent : ∀ p, RealmCapabilityGrant.parentGrantId g = Some p → ∃ parent,
    omap_get p (RealmState.grants s) = Some parent ∧ authority_le g parent ∧
    budgetIsNarrower (RealmCapabilityGrant.budget g) (RealmCapabilityGrant.budget parent) = true;
  go_actor : ∃ a, omap_get (RealmCapabilityGrant.actorId g) (RealmState.actors s) = Some a ∧
    (RealmActor.kind a = ActorKind.agent → ∃ i agent, RealmActor.agentId a = Some i ∧
      omap_get i (RealmState.agents s) = Some agent ∧ agent_bounded agent g);
}.

(** [value] is a date no later than [limit] milliseconds. *)
Definition by_then (value : string) (limit : Z) : Prop :=
  ∃ v, Date_parse value = Some v ∧ (v ≤ limit)%Z.

Record session_ok w s (x : RealmSession.t) : Prop := {
  so_epoch : (RealmSession.authorizationEpoch x ≤ epoch s)%Z;
  so_expiry : by_then (RealmSession.expiresAt x) (time (clock_reads w) + RealmState.sessionLifetimeMs s)%Z;
  so_parent : ∀ p, RealmSession.delegatedBySessionId x = Some p → ∃ parent e,
    omap_get p (RealmState.sessions s) = Some parent ∧
    RealmSession.principalId x = RealmSession.principalId parent ∧
    Date_parse (RealmSession.expiresAt parent) = Some e ∧ by_then (RealmSession.expiresAt x) e;
}.

(** A credential stays inside the Grant it was issued for. *)
Record credential_ok w s (c : IssuedCredentialRecord.t) : Prop := {
  co_expiry : by_then (IssuedCredentialRecord.expiresAt c)
    (time (clock_reads w) + RealmState.credentialLifetimeMs s)%Z;
  co_grant : ∃ g e, omap_get (IssuedCredentialRecord.grantId c) (RealmState.grants s) = Some g ∧
    Date_parse (RealmCapabilityGrant.expiresAt g) = Some e ∧ by_then (IssuedCredentialRecord.expiresAt c) e ∧
    IssuedCredentialRecord.class c ∈ RealmCapabilityGrant.allowedCredentialClasses g ∧
    resourceMatches (RealmCapabilityGrant.resource g) (IssuedCredentialRecord.resource c) = true ∧
    IssuedCredentialRecord.principalId c = RealmCapabilityGrant.principalId g ∧
    IssuedCredentialRecord.actorId c = RealmCapabilityGrant.actorId g ∧
    IssuedCredentialRecord.clientId c = RealmCapabilityGrant.clientId g ∧
    IssuedCredentialRecord.sessionId c = RealmCapabilityGrant.sessionId g ∧
    IssuedCredentialRecord.taskId c = RealmCapabilityGrant.taskId g;
}.

Record inv w s : Prop := {
  inv_sessions : omap_all (λ k x, drawn "session" w k ∧ RealmSession.id x = k ∧
    is_Some (omap_get (RealmSession.actorId x) (RealmState.actors s)) ∧ session_ok w s x) (RealmState.sessions s);
  inv_grants : omap_all (λ k g, drawn "grant" w k ∧ RealmCapabilityGrant.id g = k ∧ grant_ok s g) (RealmState.grants s);
  inv_actors : omap_all (λ k a, drawn "actor" w k ∧ RealmActor.actorId a = k ∧
    ∀ i, RealmActor.agentId a = Some i → is_Some (omap_get i (RealmState.agents s))) (RealmState.actors s);
  inv_agents : omap_all (λ k a, RealmAgent.id a = k) (RealmState.agents s);
  inv_credentials : omap_all (λ k c, drawn "credential" w k ∧ IssuedCredentialRecord.id c = k ∧ credential_ok w s c)
    (RealmState.credentials s);
  inv_wf : omap_wf (RealmState.credentials s);
}.

(** ** What stays true of a record *)

Context `{Mono : !MonotoneClock DH} `{Iso : !IsoDates HH DH} `{Fresh : !FreshUUIDs HH}.

Lemma by_then_later value a b : (a ≤ b)%Z → by_then value a → by_then value b.
Proof. intros Hab (v & Hv & Hle). exists v. split; [done|lia]. Qed.

Lemma session_ok_stays new w w' s s' x x' :
  session_ok w s x → passes w w' → evolves new s s' → same_session x x' → session_ok w' s' x'.
Proof.
intros [H1 H2 H3] Hw He [Hx _]. rewrite Hx. clear Hx. split; simpl.
- pose proof (ev_epoch _ _ _ He). lia.
- destruct (ev_lifetimes _ _ _ He) as [-> _]. eapply by_then_later; [|done].
  pose proof (passes_time _ _ Hw). lia.
- intros p Hp. destruct (H3 p Hp) as (parent & e & Hpar & Hpr & Hexp & Hle).
  destruct (gr_kept _ _ _ _ (ev_sessions _ _ _ He) _ _ Hpar) as (parent' & Hpar' & [Hs _]).
  exists parent', e. rewrite Hs. by split_and!; [rewrite <-Hs| | |].
Qed.

Lemma authority_le_status g g' parent parent' :
  same_grant g g' → same_grant parent parent' → authority_le g parent → authority_le g' parent'.
Proof. intros [-> _] [-> _] []. by split. Qed.
Lemma grant_ok_stays new s s' g g' : grant_ok s g → evolves new s s' → same_grant g g' → grant_ok s' g'.
Proof.
intros [H1 H2 H3 (a & Ha & H4)] He Hg. pose proof Hg as [Heq _]. split.
- rewrite Heq. simpl. by rewrite (ev_realm _ _ _ He).
- rewrite Heq. simpl. pose proof (ev_epoch _ _ _ He). lia.
- intros p Hp. destruct (H3 p) as (parent & Hpar & Hle & Hb); [by rewrite Heq in Hp|].
  destruct (gr_kept _ _ _ _ (ev_grants _ _ _ He) _ _ Hpar) as (parent' & Hpar' & Hsame).
  exists parent'. split_and!; [done|by eapply authority_le_status|].
  destruct Hsame as [-> _]. by rewrite Heq.
- destruct (gr_kept _ _ _ _ (ev_actors _ _ _ He) _ _ Ha) as (a' & Ha' & [Hsa _]).
  exists a'. rewrite Heq. simpl. split; [done|]. rewrite Hsa. simpl. intros Hk.
  destruct (H4 Hk) as (i & agent & Hi & Hag & [? ? ? ?]).
  destruct (gr_kept _ _ _ _ (ev_agents _ _ _ He) _ _ Hag) as (agent' & Hag' & [Hsag _]).
  exists i, agent'. split_and!; [done..|]. rewrite Hsag. by split.
Qed.

Lemma credential_ok_stays new w w' s s' c c' :
  credential_ok w s c → passes w w' → evolves new s s' → same_credential c c' → credential_ok w' s' c'.
Proof.
intros [H1 (g & e & Hg & H2)] Hw He ->. split; simpl.
- destruct (ev_lifetimes _ _ _ He) as [_ ->]. eapply by_then_later; [|done].
  pose proof (passes_time _ _ Hw). lia.
- destruct (gr_kept _ _ _ _ (ev_grants _ _ _ He) _ _ Hg) as (g' & Hg' & [Hs _]).
  exists g', e. split; [done|]. by rewrite Hs.
Qed.

(** ** The rule of the invariant: only the new records need a proof *)

Record next w s w' s' : Prop := {
  nx_passes : passes w w';
  nx_evolves : evolves (fresh w) s s';
  nx_inv : inv w' s';
}.

Record new_ok w' s s' : Prop := {
  no_sessions : ∀ k x, omap_get k (RealmState.sessions s) = None → omap_get k (RealmState.sessions s') = Some x →
    drawn "session" w' k ∧ RealmSession.id x = k ∧
    is_Some (omap_get (RealmSession.actorId x) (RealmState.actors s')) ∧ session_ok w' s' x;
  no_grants : ∀ k g, omap_get k (RealmState.grants s) = None → omap_get k (RealmState.grants s') = Some g →
    drawn "grant" w' k ∧ RealmCapabilityGrant.id g = k ∧ grant_ok s' g;
  no_actors : ∀ k a, omap_get k (RealmState.actors s) = None → omap_get k (RealmState.actors s') = Some a →
    drawn "actor" w' k ∧ RealmActor.actorId a = k ∧
    ∀ i, RealmActor.agentId a = Some i → is_Some (omap_get i (RealmState.agents s'));
  no_agents : ∀ k a, omap_get k (RealmState.agents s) = None → omap_get k (RealmState.agents s') = Some a →
    RealmAgent.id a = k;
  no_credentials : ∀ k c, omap_get k (RealmState.credentials s) = None →
    omap_get k (RealmState.credentials s') = Some c →
    drawn "credential" w' k ∧ IssuedCredentialRecord.id c = k ∧ credential_ok w' s' c;
}.

Lemma next_evolves w w' s s' : inv w s → passes w w' → evolves (fresh w) s s' → new_ok w' s s' → next w s w' s'.
Proof.
intros [I1 I2 I3 I6 I4 I5] Hw He [N1 N2 N3 N6 N4]. pose proof Hw as [Hu _]. split; [done..|].
split; [intros k v' Hv'..|by apply (gr_wf _ _ _ _ (ev_credentials _ _ _ He))].
- destruct (omap_get k (RealmState.sessions s)) as [v|] eqn:Hv; [|by apply N1].
  destruct (gr_kept _ _ _ _ (ev_sessions _ _ _ He) _ _ Hv) as (? & Hx & Hsame). simplify_eq.
  destruct (I1 _ _ Hv) as (? & ? & [a Ha] & ?). split_and!; [by eapply drawn_mono| | |by eapply session_ok_stays].
  + by destruct Hsame as [-> _].
  + destruct (gr_kept _ _ _ _ (ev_actors _ _ _ He) _ _ Ha) as (a' & Ha' & _). exists a'. by destruct Hsame as [-> _].
- destruct (omap_get k (RealmState.grants s)) as [v|] eqn:Hv; [|by apply N2].
  destruct (gr_kept _ _ _ _ (ev_grants _ _ _ He) _ _ Hv) as (? & Hx & Hsame). simplify_eq.
  destruct (I2 _ _ Hv) as (? & ? & ?). split_and!; [by eapply drawn_mono| |by eapply grant_ok_stays].
  destruct Hsame as [-> _]. done.
- destruct (omap_get k (RealmState.actors s)) as [v|] eqn:Hv; [|by apply N3].
  destruct (gr_kept _ _ _ _ (ev_actors _ _ _ He) _ _ Hv) as (? & Hx & Hsame). simplify_eq.
  destruct (I3 _ _ Hv) as (? & ? & Hag). destruct Hsame as [-> _]. simpl. split_and!; [by eapply drawn_mono|done|].
  intros i Hai. destruct (Hag i Hai) as [g Hg].
  destruct (gr_kept _ _ _ _ (ev_agents _ _ _ He) _ _ Hg) as (g' & ? & _). by exists g'.
- destruct (omap_get k (RealmState.agents s)) as [v|] eqn:Hv; [|by apply N6].
  destruct (gr_kept _ _ _ _ (ev_agents _ _ _ He) _ _ Hv) as (? & Hx & Hsame). simplify_eq.
  destruct Hsame as [-> _]. by apply (I6 k v).
- destruct (omap_get k (RealmState.credentials s)) as [v|] eqn:Hv; [|by apply N4].
  destruct (gr_kept _ _ _ _ (ev_credentials _ _ _ He) _ _ Hv) as (? & Hx & Hsame). simplify_eq.
  destruct (I4 _ _ Hv) as (? & ? & ?). split_and!; [by eapply drawn_mono| |by eapply credential_ok_stays].
  rewrite Hsame. done.
Qed.

Lemma next_here w s : inv w s → next w s w s.
Proof. split; [done|apply evolves_refl|done]. Qed.
Lemma next_trans w s w1 s1 w2 s2 : next w s w1 s1 → next w1 s1 w2 s2 → next w s w2 s2.
Proof. intros [] []. split; [by etrans|by eapply evolves_trans|done]. Qed.

(** The part of the state that the invariant reads. *)
Definition core s :=
  (RealmState.realm s, RealmState.agents s, RealmState.actors s, RealmState.sessions s, RealmState.grants s,
   RealmState.credentials s, (RealmState.sessionLifetimeMs s, RealmState.credentialLifetimeMs s)).
Lemma evolves_core new s s' : core s' = core s → evolves new s s'.
Proof.
intros [= H1 H2 H3 H4 H5 H6 H7 H8]. split; unfold realm_id, epoch; rewrite ?H1, ?H2, ?H3, ?H4, ?H5, ?H6;
  try done; apply grows_refl; apply _.
Qed.
Lemma next_core w w' s s' : inv w s → passes w w' → core s' = core s → next w s w' s'.
Proof.
intros Hi Hw Hc. apply next_evolves; [done..|by apply evolves_core|].
injection Hc as H1 H2 H3 H4 H5 H6 H7 H8. split; intros k v; rewrite ?H2, ?H3, ?H4, ?H5, ?H6; congruence.
Qed.
Lemma next_passes w w' s : inv w s → passes w w' → next w s w' s.
Proof. intros Hi Hw. by apply next_core. Qed.
Lemma inv_passes w w' s : inv w s → passes w w' → inv w' s.
Proof. intros Hi Hw. by apply (nx_inv _ _ _ _ (next_passes _ _ _ Hi Hw)). Qed.

(** ** Computations that only add quiet records *)

#[export] Instance next_drawable w0 s0 : Drawable (next w0 s0).
Proof.
intros u c w s Hn. eapply next_trans; [done|]. apply next_passes; [apply Hn|]. split; simpl; lia.
Qed.

Section keep.
Context (w0 : World) (s0 : RealmState.t).
#[local] Abbreviation I := (next w0 s0).

Lemma keeps_core (f : RealmState.t → RealmState.t) :
  (∀ s, core (f s) = core s) → keeps I (modify f : M RealmState.t failure ()).
Proof.
intros Hf. apply keeps_modify. intros w s Hn. eapply next_trans; [done|]. by apply next_core; [apply Hn| |].
Qed.
Lemma keeps_opaqueId prefix : keeps I (opaqueId prefix : M RealmState.t failure string).
Proof. unfold opaqueId. solve_keeps. Qed.
Lemma keeps_date : keeps I (date : M RealmState.t failure Z).
Proof. intros w s Hn. apply wp_date. by apply (drawable 0 1). Qed.
Lemma keeps_iso t : keeps I (iso t).
Proof. intros w s Hn. by apply wp_iso. Qed.
Lemma keeps_audit e : keeps I (audit e).
Proof.
intros w s Hn. apply wp_audit.
- intros w' s' Hw [e' ->]. eapply next_trans; [done|]. by apply next_core; [apply Hn| |].
- intros w' Hw. eapply next_trans; [done|]. by apply next_passes; [apply Hn|].
Qed.
Lemma keeps_randomToken : keeps I randomToken.
Proof. intros w s Hn. by apply (drawable 1 0). Qed.
End keep.
End facts.
#[export] Hint Resolve keeps_opaqueId keeps_date keeps_iso keeps_audit keeps_randomToken : anyam_keeps.

(** * The calls keep the invariant *)

Section calls.
Context `{HH : Host} `{DH : RealmHost} `{Mono : !MonotoneClock DH} `{Iso : !IsoDates HH DH} `{Fresh : !FreshUUIDs HH}.
Implicit Types (w : World) (s : RealmState.t).

Definition stable {A} (m : M RealmState.t failure A) : Prop :=
  ∀ w s, inv w s → wp m (λ _ w' s', next w s w' s') (λ _ w' s', next w s w' s') w s.
Lemma stable_keeps {A} (m : M RealmState.t failure A) w0 s0 : stable m → keeps (next w0 s0) m.
Proof.
intros Hm w s Hn. eapply wp_mono; [apply Hm, Hn|..]; intros ? w' s' Hn'; by eapply next_trans.
Qed.
Lemma keeps_stable {A} (m : M RealmState.t failure A) : (∀ w0 s0, keeps (next w0 s0) m) → stable m.
Proof. intros Hm w s Hi. by apply Hm, next_here. Qed.

(** Statuses that leave [active], and nothing else. *)
Lemma next_demoted w w' s s' :
  inv w s → passes w w' → RealmState.realm s' = RealmState.realm s →
  grows same_session (λ _, False) (RealmState.sessions s) (RealmState.sessions s') →
  grows same_grant (λ _, False) (RealmState.grants s) (RealmState.grants s') →
  grows same_actor (λ _, False) (RealmState.actors s) (RealmState.actors s') →
  grows same_agent (λ _, False) (RealmState.agents s) (RealmState.agents s') →
  grows same_credential (λ _, False) (RealmState.credentials s) (RealmState.credentials s') →
  RealmState.sessionLifetimeMs s' = RealmState.sessionLifetimeMs s →
  RealmState.credentialLifetimeMs s' = RealmState.credentialLifetimeMs s → next w s w' s'.
Proof.
assert (∀ V (R : V → V → Prop) new (m m' : omap V), grows R (λ _, False) m m' → grows R new m m') as Hw.
{ intros V R new m m' [K N W]. split; [done| |done]. intros k v' H1 H2. by destruct (N k v' H1 H2). }
intros Hi Hp Hr [K1 N1 W1] [K2 N2 W2] [K3 N3 W3] [K4 N4 W4] [K5 N5 W5] HL1 HL2. apply next_evolves; [done..| |].
- split; unfold realm_id, epoch; rewrite ?Hr; try done; by apply Hw.
- split; intros k v H1 H2; exfalso; naive_solver.
Qed.

Lemma demoted_session w s k x st : inv w s → omap_get k (RealmState.sessions s) = Some x → st ≠ ExpiringStatus.active →
  next w s w (s <| RealmState.sessions := omap_set k (x <| RealmSession.status := st |>) (RealmState.sessions s) |>).
Proof.
intros Hi Hx Hst. apply next_demoted; try done; try (apply grows_refl; apply _).
apply (grows_set same_session _ _ _ _ _ Hx). by split.
Qed.
Lemma demoted_grant w s k g st : inv w s → omap_get k (RealmState.grants s) = Some g → st ≠ ExpiringStatus.active →
  next w s w (s <| RealmState.grants := omap_set k (g <| RealmCapabilityGrant.status := st |>) (RealmState.grants s) |>).
Proof.
intros Hi Hx Hst. apply next_demoted; try done; try (apply grows_refl; apply _).
apply (grows_set same_grant _ _ _ _ _ Hx). by split.
Qed.
Lemma moved_credential w s k c st : inv w s → omap_get k (RealmState.credentials s) = Some c →
  next w s w (s <| RealmState.credentials :=
    omap_set k (c <| IssuedCredentialRecord.status := st |>) (RealmState.credentials s) |>).
Proof.
intros Hi Hx. apply next_demoted; try done; try (apply grows_refl; apply _).
by apply (grows_set same_credential _ _ _ _ _ Hx).
Qed.

(** ** Lookups *)

Lemma readonly_requirePrincipal id : readonly (requirePrincipal id).
Proof. unfold requirePrincipal. solve_readonly. Qed.
Lemma readonly_requireClient id : readonly (requireClient id).
Proof. unfold requireClient. solve_readonly. Qed.

Lemma wp_requirePrincipal id Q X w s :
  (∀ p, omap_get id (RealmState.principals s) = Some p → Principal.realmId p = realm_id s → Q p w s) →
  (∀ e, X e w s) → wp (requirePrincipal id) Q X w s.
Proof.
intros HQ HX. unfold requirePrincipal. wp_step. apply wp_get. destruct (omap_get _ _) as [p|] eqn:Hp; [|by wp_step].
wp_step. wp_step; [done|]. wp_step. apply HQ; [done|]. apply String.eqb_eq. by destruct (String.eqb _ _).
Qed.
Lemma wp_requireClient id Q X w s :
  (∀ c, omap_get id (RealmState.clients s) = Some c → RealmClient.realmId c = realm_id s →
     RealmClient.status c = Status.active → Q c w s) →
  (∀ e, X e w s) → wp (requireClient id) Q X w s.
Proof.
intros HQ HX. unfold requireClient. wp_step. apply wp_get. destruct (omap_get _ _) as [c|] eqn:Hc; [|by wp_step].
wp_step. wp_step; [done|]. wp_step. apply orb_false_iff in H as [H1%negb_false_iff%String.eqb_eq H2%negb_false_iff].
apply HQ; [done..|]. by apply bool_decide_eq_true in H2.
Qed.

(** A session that is returned is alive; one that is refused may be marked. *)
Lemma wp_requireSession id (Q : RealmSession.t → World → RealmState.t → Prop) (X : failure → World → RealmState.t → Prop) w s :
  inv w s →
  (∀ x w', ticks w w' → omap_get id (RealmState.sessions s) = Some x → RealmSession.realmId x = realm_id s →
     live session_chain (time (clock_reads w)) s x → Q x w' s) →
  (∀ e w' s', next w s w' s' → X e w' s') → wp (requireSession id) Q X w s.
Proof.
intros Hi HQ HX. unfold requireSession. wp_step. apply wp_get.
destruct (omap_get id _) as [x|] eqn:Hx; [|wp_step; by apply HX, next_here].
wp_step. wp_step; [by apply HX, next_here|]. apply negb_false_iff, String.eqb_eq in H.
assert (∀ w1, ticks w w1 → RealmSession.status x = ExpiringStatus.active →
  wp (if bool_decide (RealmSession.status x = ExpiringStatus.active) then
        ok ← sessionChainIsActive x; throw_if (negb ok) (session_inactive x) ;; mret x
      else throw (session_inactive x)) Q X w1 s) as Hactive.
{ intros w1 Hw1 Hst. rewrite bool_decide_true by done. wp_step. apply wp_sessionChainIsActive.
  intros b w2 (_ & Hw2 & Hsound & _). destruct b; simpl.
  - wp_step. wp_step. apply HQ; [by etrans|done..|]. eapply live_earlier; [|by apply Hsound]. by apply ticks_time.
  - wp_step. apply HX, next_passes; [done|]. apply ticks_passes. by etrans. }
wp_step. destruct (decide (RealmSession.status x = ExpiringStatus.active)) as [Hst|Hst].
- rewrite (bool_decide_true _ Hst) at 1. wp_step. apply wp_expired. intros e w1 Hw1 _ _. destruct e.
  + wp_step. unfold set_session. wp_step. wp_step. rewrite bool_decide_false by done. wp_step.
    apply HX. eapply next_trans; [by apply next_passes, ticks_passes|].
    by apply demoted_session; [eapply inv_passes, ticks_passes|..].
  + wp_step. by apply Hactive.
- rewrite (bool_decide_false _ Hst) at 1. wp_step. rewrite bool_decide_false by done. wp_step.
  by apply HX, next_here.
Qed.
Lemma stable_requireSession id : stable (requireSession id).
Proof.
intros w s Hi. apply wp_requireSession; [done| |done]. intros x w' Hw _ _ _. by apply next_passes, ticks_passes.
Qed.
Lemma stable_expired value : stable (expired value).
Proof. intros w s Hi. apply wp_expired. intros b w' Hw _ _. by apply next_passes, ticks_passes. Qed.
Lemma stable_grantChain g : stable (grantChainIsActive g).
Proof. intros w s Hi. apply wp_grantChainIsActive. intros b w' (_ & Hw & _). by apply next_passes, ticks_passes. Qed.
Lemma stable_sessionChain x : stable (sessionChainIsActive x).
Proof. intros w s Hi. apply wp_sessionChainIsActive. intros b w' (_ & Hw & _). by apply next_passes, ticks_passes. Qed.
End calls.

#[export] Hint Resolve readonly_requirePrincipal readonly_requireClient : anyam_ro.
#[export] Hint Extern 2 (keeps (next _ _) (requireSession _)) => apply stable_keeps, stable_requireSession : anyam_keeps.
#[export] Hint Extern 2 (keeps (next _ _) (expired _)) => apply stable_keeps, stable_expired : anyam_keeps.
#[export] Hint Extern 2 (keeps (next _ _) (grantChainIsActive _)) => apply stable_keeps, stable_grantChain : anyam_keeps.
#[export] Hint Extern 2 (keeps (next _ _) (sessionChainIsActive _)) => apply stable_keeps, stable_sessionChain : anyam_keeps.
(** The updates of a computation that the invariant does not read. *)
Ltac solve_calls := solve_keeps; try (by apply keeps_core).

Section methods.
Context `{HH : Host} `{DH : RealmHost} `{Mono : !MonotoneClock DH} `{Iso : !IsoDates HH DH} `{Fresh : !FreshUUIDs HH}.
Implicit Types (w : World) (s : RealmState.t).

Section keep.
Context (w0 : World) (s0 : RealmState.t).
#[local] Abbreviation I := (next w0 s0).

Lemma keeps_nowIso : keeps I nowIso.
Proof. unfold nowIso. solve_calls. Qed.
Lemma keeps_expiry lifetime : keeps I (expiry lifetime).
Proof. unfold expiry. solve_calls. Qed.
#[local] Hint Resolve keeps_nowIso keeps_expiry : anyam_keeps.

Lemma keeps_registerClient id kind audiences operations : keeps I (registerClient id kind audiences operations).
Proof. unfold registerClient. solve_calls. Qed.
Lemma keeps_createPrincipal id name : keeps I (createPrincipal id name).
Proof. unfold createPrincipal. solve_calls. Qed.
Lemma keeps_registerPasskey p c rp n : keeps I (registerPasskey p c rp n).
Proof. unfold registerPasskey. solve_calls. Qed.
Lemma keeps_registerOidcProvider id issuer client : keeps I (registerOidcProvider id issuer client).
Proof. unfold registerOidcProvider. solve_calls. Qed.
Lemma keeps_linkOidcIdentity p issuer subject : keeps I (linkOidcIdentity p issuer subject).
Proof. unfold linkOidcIdentity. solve_calls. Qed.
Lemma keeps_addRelationship p kind subject role resource denied :
  keeps I (addRelationship p kind subject role resource denied).
Proof. unfold addRelationship. solve_calls. Qed.
Lemma keeps_setSourceSpacePolicy id c a d r m v : keeps I (setSourceSpacePolicy id c a d r m v).
Proof. unfold setSourceSpacePolicy. solve_calls. Qed.
Lemma keeps_createTask p a x purpose wid cid model : keeps I (createTask p a x purpose wid cid model).
Proof. unfold createTask. solve_calls. Qed.
End keep.

(** ** New records *)

Lemma key_fresh p w n : (uuids_drawn w ≤ n)%nat → fresh w p (key p n).
Proof. intros Hn (m & Hm & He%key_inj); [lia|done]. Qed.
Lemma fresh_none {V} (P : string → V → Prop) p w n (m : omap V) :
  omap_all (λ k v, drawn p w k ∧ P k v) m → (uuids_drawn w ≤ n)%nat → omap_get (key p n) m = None.
Proof.
intros Hm Hn. destruct (omap_get _ m) as [v|] eqn:Hv; [|done]. destruct (Hm _ _ Hv) as [Hd _].
by destruct (key_fresh p w n Hn).
Qed.
Lemma drawn_key p w n : (n < uuids_drawn w)%nat → drawn p w (key p n).
Proof. intros Hn. by exists n. Qed.

Lemma next_new_session w w' s s' na nx actor x :
  inv w s → passes w w' → (uuids_drawn w ≤ na < uuids_drawn w')%nat → (uuids_drawn w ≤ nx < uuids_drawn w')%nat →
  RealmActor.actorId actor = key "actor" na → RealmSession.id x = key "session" nx →
  RealmSession.actorId x = key "actor" na → session_ok w' s x →
  (∀ i, RealmActor.agentId actor = Some i → is_Some (omap_get i (RealmState.agents s))) →
  s' = s <| RealmState.actors := omap_set (key "actor" na) actor (RealmState.actors s) |>
         <| RealmState.sessions := omap_set (key "session" nx) x (RealmState.sessions s) |> →
  next w s w' s'.
Proof.
intros Hi Hw [Ha1 Ha2] [Hx1 Hx2] Ha Hx Hxa Hok Hag Hs'.
assert (evolves (fresh w) s s') as He.
{ rewrite Hs'. split; try done; simpl; try (apply grows_refl; apply _).
  - apply grows_add; [apply _| |by apply key_fresh]. by eapply fresh_none; [apply Hi|].
  - apply grows_add; [apply _| |by apply key_fresh]. by eapply fresh_none; [apply Hi|]. }
apply next_evolves; [done..|].
assert (RealmState.sessions s' = omap_set (key "session" nx) x (RealmState.sessions s)) as E1 by (by rewrite Hs').
assert (RealmState.actors s' = omap_set (key "actor" na) actor (RealmState.actors s)) as E2 by (by rewrite Hs').
assert (RealmState.grants s' = RealmState.grants s) as E3 by (by rewrite Hs').
assert (RealmState.credentials s' = RealmState.credentials s) as E4 by (by rewrite Hs').
assert (RealmState.agents s' = RealmState.agents s) as E5 by (by rewrite Hs').
split; intros k v Hn; rewrite ?E1, ?E2, ?E3, ?E4, ?E5, ?omap_get_set; try case_decide; try congruence;
  intros [= <-]; subst k.
- split_and!; [by apply drawn_key|done| |by eapply (session_ok_stays _ w' w' s s')].
  rewrite Hxa, decide_True by done. by eexists.
- split_and!; [by apply drawn_key|done|done].
Qed.

Lemma wp_expiry lifetime Q X w s :
  (∀ v w', ticks w w' → by_then v (time (clock_reads w) + lifetime)%Z → Q v w' s) →
  (∀ w', ticks w w' → X range_error w' s) → wp (expiry lifetime) Q X w s.
Proof.
intros HQ HX. unfold expiry. wp_step. apply wp_date, wp_iso; [|by apply HX, ticks_one].
intros v [= <-] Hv. apply HQ; [by apply ticks_one|]. exists (time (clock_reads w) + lifetime)%Z.
split; [by apply Iso|done].
Qed.
Lemma wp_opaque prefix Q X w s :
  (∀ w', w' = mkWorld (1 + uuids_drawn w) (clock_reads w) → Q (key prefix (uuids_drawn w)) w' s) →
  wp (opaqueId prefix : M RealmState.t failure string) Q X w s.
Proof. intros HQ. apply wp_opaqueId. by apply HQ. Qed.

(** The audit after an update. *)
Lemma wp_audited e Q X w s w0 s0 :
  next w0 s0 w s → (∀ w' s', next w0 s0 w' s' → Q () w' s') → (∀ er w' s', next w0 s0 w' s' → X er w' s') →
  wp (audit e) Q X w s.
Proof. intros Hn HQ HX. eapply wp_mono; [by apply (keeps_audit w0 s0)|by intros []|done]. Qed.
(** The event changes nothing else. *)
Lemma wp_audited_core e Q X w s w0 s0 :
  next w0 s0 w s → (∀ w' s', next w0 s0 w' s' → core s' = core s → Q () w' s') →
  (∀ er w' s', next w0 s0 w' s' → X er w' s') → wp (audit e) Q X w s.
Proof.
intros Hn HQ HX. apply wp_audit.
- intros w' s' Hw [e' ->]. apply HQ; [|done]. eapply next_trans; [done|]. by apply next_core; [apply Hn| |].
- intros w' Hw. apply HX. eapply next_trans; [done|]. by apply next_passes; [apply Hn|].
Qed.

Lemma stable_createHumanSession p c method strength : stable (createHumanSession p c method strength).
Proof.
intros w s Hi. unfold createHumanSession.
wp_step. apply wp_requirePrincipal; [|by intros; apply next_here]. intros principal Hp _.
wp_step. apply wp_requireClient; [|by intros; apply next_here]. intros client Hc _ _.
wp_step. wp_step; [by apply next_here|].
wp_step. apply wp_opaque. intros w1 ->. wp_step. apply wp_opaque. intros w2 ->. wp_step. apply wp_get. cbv zeta.
wp_step. apply wp_nowIso; [|apply next_passes; [done|split; simpl; lia]]. intros issuedAt w3 Hw3 _.
wp_step. apply wp_expiry.
2: { intros w4 Hw4. apply next_passes; [done|]. destruct Hw3, Hw4. simpl in *. split; lia. }
intros expiresAt w4 Hw4 Hexp. cbv zeta. unfold set_session. wp_step. wp_step. wp_step. wp_step. wp_step.
assert (passes w w4) as Hw by (destruct Hw3, Hw4; simpl in *; split; lia).
apply (wp_audited _ _ _ _ _ w s); [|by intros; apply wp_ret|done].
eapply next_new_session; [done..| | | | | | | |reflexivity]; [| |done|done|done| |].
- destruct Hw3, Hw4. simpl in *. lia.
- destruct Hw3, Hw4. simpl in *. lia.
- split; simpl; [done| |done]. eapply by_then_later; [|exact Hexp].
  pose proof (ticks_time _ _ Hw4). lia.
- done.
Qed.

Lemma wp_createAgentSession parent agent w s :
  inv w s → omap_get (RealmSession.id parent) (RealmState.sessions s) = Some parent →
  is_Some (omap_get (RealmAgent.id agent) (RealmState.agents s)) →
  wp (createAgentSession parent agent) (λ _ w' s', next w s w' s') (λ _ w' s', next w s w' s') w s.
Proof.
intros Hi Hpar Hagent. unfold createAgentSession. wp_step. apply wp_get. wp_step. wp_step; [by apply next_here|].
wp_step. apply wp_opaque. intros w1 ->. wp_step. apply wp_opaque. intros w2 ->.
wp_step. apply wp_nowIso; [|apply next_passes; [done|split; simpl; lia]]. intros issuedAt w3 Hw3 _. cbv zeta.
wp_step. apply wp_date. cbv zeta. wp_step. apply wp_iso.
2: { apply next_passes; [done|]. destruct Hw3. simpl in *. split; simpl; lia. }
intros v Hv Hvalid. cbv zeta. unfold set_session. wp_step. wp_step. wp_step. wp_step. wp_step.
destruct (Date_parse (RealmSession.expiresAt parent)) as [e|] eqn:He; [|done]. injection Hv as Hv.
set (w4 := mkWorld (uuids_drawn w3) (1 + clock_reads w3)). assert (passes w w4) as Hw by (destruct Hw3; simpl in *; split; simpl; lia).
apply (wp_audited _ _ _ _ _ w s); [|by intros; apply wp_ret|done].
eapply next_new_session; [done..| | | | | | | |reflexivity]; [| |done|done|done| |].
- destruct Hw3. simpl in *. lia.
- destruct Hw3. simpl in *. lia.
- split; simpl; [done| |].
  + exists v. split; [by apply Iso|]. pose proof (time_mono (clock_reads w3) (S (clock_reads w3))). lia.
  + intros q [= <-]. exists parent, e. split_and!; [done..|]. exists v. split; [by apply Iso|lia].
- intros i [= <-]. done.
Qed.

(** ** Grants *)

Lemma next_new_grant w w' s s' n g :
  inv w s → passes w w' → (uuids_drawn w ≤ n < uuids_drawn w')%nat → RealmCapabilityGrant.id g = key "grant" n →
  grant_ok s g → s' = s <| RealmState.grants := omap_set (key "grant" n) g (RealmState.grants s) |> →
  next w s w' s'.
Proof.
intros Hi Hw [Hn1 Hn2] Hg Hok Hs'. assert (evolves (fresh w) s s') as He.
{ rewrite Hs'. split; try done; simpl; try (apply grows_refl; apply _).
  apply grows_add; [apply _| |by apply key_fresh]. by eapply fresh_none; [apply Hi|]. }
assert (RealmState.sessions s' = RealmState.sessions s) as E1 by (by rewrite Hs').
assert (RealmState.actors s' = RealmState.actors s) as E2 by (by rewrite Hs').
assert (RealmState.grants s' = omap_set (key "grant" n) g (RealmState.grants s)) as E3 by (by rewrite Hs').
assert (RealmState.credentials s' = RealmState.credentials s) as E4 by (by rewrite Hs').
assert (RealmState.agents s' = RealmState.agents s) as E5 by (by rewrite Hs').
apply next_evolves; [done..|]. split; intros k v Hk; rewrite ?E1, ?E2, ?E3, ?E4, ?E5, ?omap_get_set;
  try case_decide; try congruence; intros [= <-]; subst k.
split_and!; [by apply drawn_key|done|]. by eapply grant_ok_stays.
Qed.

Lemma listIsSubset_spec {A} `{EqDecision A} (l k : list A) : listIsSubset l k = true ↔ l ⊆ k.
Proof.
unfold listIsSubset. rewrite forallb_forall. split; intros H x Hx.
- apply member_of_spec, H. by apply list_elem_of_In.
- apply member_of_spec, H. by apply list_elem_of_In.
Qed.

Lemma wp_check_parent input p actor agent principal session client task models classes Q X w s :
  (∀ parent w', ticks w w' → omap_get p (RealmState.grants s) = Some parent →
     RealmCapabilityGrant.principalId parent = Principal.id principal →
     widens input models classes parent = false → Q () w' s) →
  (∀ e w', ticks w w' → X e w' s) →
  wp (check_parent input p actor agent principal session client task models classes) Q X w s.
Proof.
intros HQ HX. unfold check_parent. wp_step. apply wp_get.
destruct (omap_get p _) as [parent|] eqn:Hp; [|wp_step; by apply HX].
destruct (negb _ || _) eqn:Hc; [wp_step; by apply HX|]. apply orb_false_iff in Hc as [Hc _].
apply negb_false_iff, String.eqb_eq in Hc.
wp_step. apply wp_grantChainIsActive. intros b w' (_ & Hw & _). wp_step. wp_step; [by apply HX|].
wp_step; [by apply HX|]. by eapply HQ.
Qed.
Lemma wp_check_expiry value Q X w s :
  (∀ w', ticks w w' → Q () w' s) → (∀ e w', ticks w w' → X e w' s) → wp (check_expiry value) Q X w s.
Proof.
intros HQ HX. unfold check_expiry. destruct value; [|by apply wp_ret, HQ].
wp_step. wp_step; [by apply HX|]. wp_step. apply wp_expired. intros b w' Hw _ _. wp_step; [by apply HX|by apply HQ].
Qed.

Lemma widens_false input models classes parent : widens input models classes parent = false →
  CreateTaskGrantInput.actions input ⊆ RealmCapabilityGrant.actions parent ∧
  CreateTaskGrantInput.sourceSpaceIds input ⊆ RealmCapabilityGrant.sourceSpaceIds parent ∧
  (∀ provider, unrestricted_or models provider →
     unrestricted_or (RealmCapabilityGrant.allowedModelProviders parent) provider) ∧
  classes ⊆ RealmCapabilityGrant.allowedCredentialClasses parent ∧
  default [] (CreateTaskGrantInput.effects input) ⊆ RealmCapabilityGrant.effects parent ∧
  budgetIsNarrower (default [] (CreateTaskGrantInput.budget input)) (RealmCapabilityGrant.budget parent) = true.
Proof.
unfold widens. cbv zeta. rewrite !orb_false_iff, andb_false_iff, orb_false_iff, !negb_false_iff, !listIsSubset_spec.
intros ((((((_ & Ha) & Hs) & Hm) & Hc) & He) & Hb). split_and!; try done. intros provider Hp.
destruct Hm as [Hm|[Hm1 Hm2]]; [left; by apply bool_decide_eq_true in Hm|].
apply bool_decide_eq_false in Hm1. destruct Hp as [->|Hp]; [done|]. right. by apply Hm2.
Qed.

Lemma agent_of_spec actor s agent : agent_of actor s = Some agent ↔ ∃ a i,
  actor = Some a ∧ RealmActor.kind a = ActorKind.agent ∧ truthy_opt (RealmActor.agentId a) = Some i ∧
  omap_get i (RealmState.agents s) = Some agent.
Proof.
unfold agent_of. destruct actor as [a|]; [|naive_solver]. case_bool_decide.
- rewrite bind_Some. naive_solver.
- naive_solver.
Qed.

(** The Actor of a live session. *)
Lemma live_session_actor t s x : live session_chain t s x → ∃ a,
  omap_get (RealmSession.actorId x) (RealmState.actors s) = Some a ∧ RealmActor.status a = Status.active ∧
  RealmSession.status x = ExpiringStatus.active ∧ RealmSession.authorizationEpoch x = epoch s ∧
  (RealmActor.kind a = ActorKind.agent → agent_active (RealmActor.agentId a) s = true).
Proof.
intros [n Hn]. assert (link_ok session_chain t s x) as (Hr & Hv & _) by (by inversion Hn).
simpl in Hr, Hv. unfold actor_active in Hv. apply andb_true_iff in Hv as [He Hv].
apply andb_true_iff in Hr as [_ Hr%bool_decide_eq_true]. apply Z.eqb_eq in He.
destruct (omap_get _ _) as [a|]; [|done]. rewrite !andb_true_iff in Hv.
destruct Hv as [[[[Hs%bool_decide_eq_true _] _] _] Hk]. exists a. split_and!; try done.
intros Ha. rewrite (bool_decide_true _ Ha) in Hk. done.
Qed.

Lemma agent_scope_ok input agent g :
  agent_scope_invalid input agent = false →
  RealmCapabilityGrant.actions g = CreateTaskGrantInput.actions input →
  RealmCapabilityGrant.allowedModelProviders g = granted_models input (Some agent) →
  RealmCapabilityGrant.allowedCredentialClasses g = granted_classes input (Some agent) →
  is_Some (RealmCapabilityGrant.parentGrantId g) → agent_bounded agent g.
Proof.
unfold agent_scope_invalid. rewrite !orb_false_iff, !negb_false_iff, !listIsSubset_spec.
intros [[Hm Hc] Hact] Ea Em Ec Hp. split; [done|..].
- rewrite Ea. intros c Hin Hbad. rewrite <-not_true_iff_false, existsb_exists in Hact. apply Hact.
  exists c. split; [by apply list_elem_of_In|by apply member_of_spec].
- rewrite Em. intros provider Hin%Hm. by apply list_elem_of_singleton.
- by rewrite Ec.
Qed.

Lemma stable_createCapabilityGrant input : stable (createCapabilityGrant input).
Proof.
intros w s Hi. unfold createCapabilityGrant.
wp_step. apply wp_requirePrincipal; [|by intros; apply next_here]. intros principal Hp _.
wp_step. apply wp_requireSession; [done| |done]. intros x w1 Hw1 Hx _ Hlive.
assert (next w s w1 s) as N1 by (by apply next_passes, ticks_passes).
wp_step. apply wp_requireClient; [|by intros]. intros client Hc _ _. wp_step. apply wp_get. cbv zeta.
destruct (live_session_actor _ _ _ Hlive) as (a & Ha & _ & _ & _ & Hagent).
wp_step. wp_step; [done|]. wp_step. wp_step; [done|]. wp_step. wp_step; [done|]. wp_step. wp_step; [done|].
wp_step. wp_step; [done|]. wp_step. wp_step; [done|]. rename H4 into Hids.
rewrite !orb_false_iff, !negb_false_iff, !String.eqb_eq in Hids. destruct Hids as [[Hpid Haid] _].
rewrite Haid in Ha. set (agent := agent_of _ s) in *.
wp_step. wp_step; [done|]. rename a0 into task. wp_step. wp_step; [done|]. wp_step. wp_step; [done|].
rename H6 into Hscope. rewrite Ha in H1, H2.
set (models := granted_models _ _) in *. set (classes := granted_classes _ _) in *.
assert (∀ Q X, (∀ w', ticks w1 w' → (∀ p, truthy_opt (CreateTaskGrantInput.parentGrantId input) = Some p →
    ∃ parent, omap_get p (RealmState.grants s) = Some parent ∧
      RealmCapabilityGrant.principalId parent = Principal.id principal ∧
      widens input models classes parent = false) → Q () w' s) → (∀ e w', ticks w1 w' → X e w' s) →
  wp match truthy_opt (CreateTaskGrantInput.parentGrantId input) with
     | Some p => check_parent input p (omap_get (CreateTaskGrantInput.actorId input) (RealmState.actors s))
                   agent principal x client task models classes
     | None => mret ()
     end Q X w1 s) as Hparent.
{ intros Q X HQ HX. destruct (truthy_opt _) as [p|]; [|by apply wp_ret, HQ].
  apply wp_check_parent; [|done]. intros parent w' Hw' Hpar Hpr Hwid. apply HQ; [done|]. intros ? [= <-]. by exists parent. }
wp_step. apply Hparent; [|intros e w2 Hw2; apply next_passes; [done|apply ticks_passes; by etrans]].
intros w2 Hw2 Hpar. clear Hparent.
wp_step. apply wp_check_expiry; [|intros e w3 Hw3; apply next_passes; [done|apply ticks_passes; by repeat (etrans; [done|])]].
intros w3 Hw3. assert (passes w w3) as Hpass by (apply ticks_passes; etrans; [done|]; by etrans).
wp_step. apply wp_opaque. intros w4 ->. wp_step.
assert (∀ Q X, (∀ v w', passes w w' → (uuids_drawn w3 < uuids_drawn w')%nat → Q v w' s) →
  (∀ e w', passes w w' → X e w' s) →
  wp match CreateTaskGrantInput.expiresAt input with
     | Some value => mret value
     | None => expiry (RealmState.credentialLifetimeMs s)
     end Q X (mkWorld (1 + uuids_drawn w3) (clock_reads w3)) s) as Hexp.
{ intros Q X HQ HX. destruct Hpass. destruct (CreateTaskGrantInput.expiresAt input).
  - apply wp_ret, HQ; simpl; [split; simpl; lia|lia].
  - apply wp_expiry; [intros v w' [Hu ?] _; apply HQ|intros w' [Hu ?]; apply HX]; simpl in *; try split; lia. }
apply Hexp; [|intros e w4 Hw4; by apply next_passes]. intros expiresAt w4 Hw4 Hu. clear Hexp. cbv zeta.
wp_step. wp_step. wp_step. apply (wp_audited _ _ _ _ _ w s); [|by intros; apply wp_ret|done].
eapply next_new_grant; [done..| | | |reflexivity]; [destruct Hpass; lia|done|].
split; simpl; [done|done| |].
- intros p Hp'. destruct (Hpar p Hp') as (parent & Hg & Hpr & Hwid). exists parent. split; [done|].
  apply widens_false in Hwid as (? & ? & ? & ? & ? & ?). split; [|done]. by split.
- exists a. split; [done|]. intros Hk. unfold is_agent in H1, H2. simpl in H1, H2. rewrite Hk in H1, H2.
  rewrite bool_decide_true in H1, H2 by done. apply negb_false_iff, bool_decide_eq_true in H1.
  apply bool_decide_eq_false in H2. destruct agent as [ag|] eqn:Hag; [|done].
  pose proof Hag as (a' & j & Ha' & _ & Hj & Hget)%agent_of_spec. rewrite Ha in Ha'. injection Ha' as <-.
  exists j, ag. apply truthy_opt_Some in Hj as [Hj _]. split_and!; [done..|].
  apply agent_scope_ok with input; try done. simpl. by destruct (truthy_opt _).
Qed.

Lemma stable_createOwnerTaskGrant sid purpose resource spaces actions effects expires :
  stable (createOwnerTaskGrant sid purpose resource spaces actions effects expires).
Proof.
apply keeps_stable. intros w0 s0. unfold createOwnerTaskGrant.
pose proof (λ i, stable_keeps _ w0 s0 (stable_createCapabilityGrant i)) as Hg.
pose proof (keeps_createTask w0 s0) as Ht. solve_calls; first [apply Hg|apply Ht].
Qed.

Lemma wp_weaken {A} (m : M RealmState.t failure A) w s w1 s1 : next w s w1 s1 → stable m →
  wp m (λ _ w' s', next w s w' s') (λ _ w' s', next w s w' s') w1 s1.
Proof. intros Hn Hm. by apply (stable_keeps m w s Hm). Qed.

(** From here on only the invariant matters. *)
#[local] Ltac as_keeps w s :=
  match goal with |- wp ?m _ _ _ _ => cut (keeps (next w s) m); [let K := fresh in intros K; by apply K|] end.

Lemma stable_delegateAgent input : stable (delegateAgent input).
Proof.
intros w s Hi. unfold delegateAgent.
wp_step. apply wp_requireSession; [done| |done]. intros x w1 Hw1 Hx _ _.
assert (∀ w', ticks w1 w' → next w s w' s) as N by (intros w' Hw'; apply next_passes; [done|]; apply ticks_passes; by etrans).
wp_step. apply wp_get. wp_step. wp_step; [by apply N|]. wp_step. wp_step; [by apply N|].
wp_step. wp_step; [by apply N|]. rename a0 into agent. wp_step. wp_step; [by apply N|].
wp_step. wp_step; [by apply N|]. rename a0 into parentGrant. wp_step. wp_step; [by apply N|].
wp_step. wp_step; [by apply N|]. wp_step. apply wp_grantChainIsActive. intros b w2 (_ & Hw2 & _).
wp_step. wp_step; [by apply N|]. wp_step.
eapply (wp_readonly_spec _ (λ _ _ _, True) (λ _ _ _, True)); [|by unfold wp; destruct (check_delegation _ _ _ _ _ _) as [[[]]]| |by intros; apply N].
{ unfold check_delegation. solve_readonly. }
intros _ _. cbv zeta. wp_step. unfold check_delegated_expiry. wp_step. wp_step; [by apply N|]. wp_step.
apply wp_expired. intros e w3 Hw3 _ _. assert (next w s w3 s) as N3 by (apply N; by etrans). wp_step; [done|].
wp_step. eapply wp_mono; [apply wp_createAgentSession; [by apply N3|..]|..].
{ destruct (inv_sessions _ _ Hi _ _ Hx) as (_ & Hid & _). by rewrite Hid. }
{ rewrite (inv_agents _ _ Hi _ _ H1). by eexists. }
2: { intros er w4 s4 Hn4. by eapply next_trans. }
intros agentSession w4 s4 Hn4. assert (next w s w4 s4) as N4 by (by eapply next_trans).
wp_step. apply wp_get. cbv zeta. as_keeps w s.
pose proof (λ i, stable_keeps _ w s (stable_createCapabilityGrant i)) as Hg.
pose proof (keeps_createTask w s) as Ht. pose proof (keeps_nowIso w s) as Hno.
solve_calls; first [apply Hg|apply Ht|apply Hno].
Qed.

(** ** Revocation *)

Lemma grows_Forall2 {V} (R : V → V → Prop) new (m m' : omap V) :
  Forall2 (λ p p', p'.1 = p.1 ∧ R p.2 p'.2) m m' → grows R new m m'.
Proof.
intros H. split.
3: { unfold omap_wf, omap_keys. assert (m'.*1 = m.*1) as ->; [|done].
  induction H as [|p p' m m' [Hk _] _ IH]; [done|]. by rewrite !fmap_cons, Hk, IH. }
- induction H as [|[k0 v0] [k0' v0'] m m' [Hk HR] _ IH]; intros k v; [done|]. simpl in *. subst k0'.
  case_decide; [|apply IH]. intros [= <-]. by exists v0'.
- intros k v' Hn Hs. exfalso. induction H as [|[k0 v0] [k0' v0'] m m' [Hk HR] _ IH]; [done|]. simpl in *.
  subst k0'. case_decide; [done|]. auto.
Qed.

(** One pass, and its fixpoint: the ids only grow, what changes is revoked, and a
    pass that expands leaves fewer active Grants. *)
Definition active_grant (g : RealmCapabilityGrant.t) : Prop := RealmCapabilityGrant.status g = ExpiringStatus.active.
#[export] Instance active_grant_dec g : Decision (active_grant g) := ltac:(unfold active_grant; apply _).
Definition active_count (m : omap RealmCapabilityGrant.t) : nat :=
  length (base.filter active_grant (omap_values m)).

(** A Grant before and after, with the ids revoked after. *)
Definition swept (revoked : list string) (p p' : string * RealmCapabilityGrant.t) : Prop :=
  p'.1 = p.1 ∧ same_grant p.2 p'.2 ∧
  (active_grant p.2 → active_grant p'.2 ∨ RealmCapabilityGrant.id p.2 ∈ revoked).

Lemma elem_of_set_add x y l : x ∈ set_add y l ↔ x = y ∨ x ∈ l.
Proof. unfold set_add. case_decide; rewrite ?elem_of_app, ?list_elem_of_singleton; naive_solver. Qed.

Record pass_ok hit (revoked : list string) (m : omap RealmCapabilityGrant.t)
    (r : list string * omap RealmCapabilityGrant.t * bool) : Prop := {
  po_grow : revoked ⊆ r.1.1;
  po_swept : Forall2 (swept r.1.1) m r.1.2;
  po_count : (active_count r.1.2 + (if r.2 then 1 else 0) ≤ active_count m)%nat;
  po_still : r.2 = false → r.1 = (revoked, m) ∧
    ∀ g, g ∈ omap_values m → active_grant g → hit revoked g = false;
}.
Lemma swept_grow revoked revoked' p p' : revoked ⊆ revoked' → swept revoked p p' → swept revoked' p p'.
Proof. intros Hs (? & ? & Ha). split_and!; try done. intros Hp. destruct (Ha Hp); auto. Qed.
Lemma active_count_cons k g m :
  active_count ((k, g) :: m) = ((if decide (active_grant g) then 1 else 0) + active_count m)%nat.
Proof. unfold active_count, omap_values. rewrite fmap_cons, filter_cons. simpl. by case_decide. Qed.

Lemma revoke_pass_ok hit revoked m : pass_ok hit revoked m (revoke_pass hit revoked m).
Proof.
revert revoked. induction m as [|[k g] m IH]; intros revoked; simpl.
{ split; try done. intros _. split; [done|]. by intros g ?%elem_of_nil. }
destruct (hit revoked g && _) eqn:Hh.
- apply andb_true_iff in Hh as [_ Ha%bool_decide_eq_true].
  specialize (IH (set_add (RealmCapabilityGrant.id g) revoked)).
  destruct (revoke_pass _ _ m) as [[r m'] e]. destruct IH as [G S C _]. simpl in *. split; simpl; [| | |done].
  + intros x Hx. apply G, elem_of_set_add. by right.
  + constructor; [|done]. split_and!; [done|by split|]. intros _. right. apply G, elem_of_set_add. by left.
  + rewrite !active_count_cons. rewrite (decide_True _ _ Ha), decide_False by done. destruct e; lia.
- specialize (IH revoked). destruct (revoke_pass _ _ m) as [[r m'] e]. destruct IH as [G S C St]. simpl in *.
  split; simpl; [done| | |].
  + constructor; [|done]. split_and!; [done..|by left].
  + rewrite !active_count_cons. destruct e; lia.
  + intros He. destruct (St He) as [Heq Hno]. injection Heq as -> ->. split; [done|].
    intros g' [->|Hg']%elem_of_cons Ha; [|by apply Hno]. apply andb_false_iff in Hh as [Hh|Hh]; [done|].
    by apply bool_decide_eq_false in Hh.
Qed.

Lemma swept_refl revoked m : Forall2 (swept revoked) m m.
Proof. induction m; constructor; [|done]. split_and!; [done..|by left]. Qed.
Lemma swept_trans revoked m1 m2 m3 :
  Forall2 (swept revoked) m1 m2 → Forall2 (swept revoked) m2 m3 → Forall2 (swept revoked) m1 m3.
Proof.
intros H12. revert m3. induction H12 as [|p1 p2 m1 m2 (K & S & A) _ IH]; intros m3 H23; inversion H23; subst; [done|].
match goal with H : swept _ p2 _ |- _ => destruct H as (K' & S' & A') end.
constructor; [|by apply IH]. split_and!; [congruence|by etrans|]. intros Ha. destruct (A Ha) as [Hb|]; [|by right].
destruct (A' Hb) as [|Hid]; [by left|right]. destruct S as [S _]. rewrite S in Hid. done.
Qed.

(** The loop ends at a fixpoint: no active Grant is hit by the ids revoked. *)
Lemma revoke_loop_ok fuel hit revoked m : (active_count m < fuel)%nat →
  let r := revoke_loop fuel hit revoked m in
  revoked ⊆ r.1 ∧ Forall2 (swept r.1) m r.2 ∧ ∀ g, g ∈ omap_values r.2 → active_grant g → hit r.1 g = false.
Proof.
revert revoked m. induction fuel as [|fuel IH]; intros revoked m Hf; simpl; [lia|].
pose proof (revoke_pass_ok hit revoked m) as Hp. destruct (revoke_pass hit revoked m) as [[r1 m1] e].
destruct Hp as [G S C St]. simpl in *. destruct e.
- destruct (IH r1 m1) as (G' & S' & Hno); [lia|]. split_and!; [by etrans| |done].
  eapply swept_trans; [|done]. eapply Forall2_impl; [done|]. intros p p'. by apply swept_grow.
- destruct (St eq_refl) as [[= -> ->] Hno]. by split_and!; [|apply swept_refl|].
Qed.
Lemma revoke_grants_ok hit revoked m :
  let r := revoke_grants hit revoked m in
  revoked ⊆ r.1 ∧ Forall2 (swept r.1) m r.2 ∧ ∀ g, g ∈ omap_values r.2 → active_grant g → hit r.1 g = false.
Proof.
apply revoke_loop_ok. unfold active_count. pose proof (length_filter active_grant (omap_values m)) as Hl.
unfold omap_values in *. rewrite length_fmap in Hl. lia.
Qed.

Lemma swept_grows new revoked m m' : Forall2 (swept revoked) m m' → grows same_grant new m m'.
Proof. intros H. apply grows_Forall2. eapply Forall2_impl; [done|]. by intros p p' (? & ? & _). Qed.

Lemma revoked_credentials_grow new hit m : grows same_credential new m (revoke_credentials hit m).2.
Proof.
apply (grows_fmap _ _ _ (revoke_if hit)). intros c. unfold revoke_if. by destruct (affected hit c).
Qed.

Lemma demoted_grants w s hit revoked credentials_hit :
  inv w s → next w s w (s <| RealmState.grants := (revoke_grants hit revoked (RealmState.grants s)).2 |>
    <| RealmState.credentials := (revoke_credentials credentials_hit (RealmState.credentials s)).2 |>).
Proof.
intros Hi. apply next_demoted; try done; try (apply grows_refl; apply _).
- by eapply swept_grows, (revoke_grants_ok hit revoked).
- apply revoked_credentials_grow.
Qed.

(** The Grant named, and it only needs to be said of it: those derived from it
    are not alive without it. *)
Lemma wp_revokeGrant id w s : inv w s →
  wp (revokeGrant id) (λ _ w' s', next w s w' s' ∧
      ∃ g, omap_get id (RealmState.grants s') = Some g ∧ ¬ active_grant g)
    (λ _ w' s', next w s w' s') w s.
Proof.
intros Hi. unfold revokeGrant. wp_step. apply wp_get. wp_step. wp_step; [by apply next_here|]. rename a into g.
pose proof (demoted_grant w s id g ExpiringStatus.revoked Hi H ltac:(done)) as N1.
set (s1 := s <| RealmState.grants := _ |>) in N1.
pose proof (revoke_grants_ok child_of [id] (RealmState.grants s1)) as (_ & Hswept & _).
pose proof (λ h, demoted_grants w s1 child_of [id] h (nx_inv _ _ _ _ N1)) as N2.
change (RealmState.grants s1) with (omap_set id (g <| RealmCapabilityGrant.status := ExpiringStatus.revoked |>)
  (RealmState.grants s)) in N2, Hswept.
change (RealmState.credentials s1) with (RealmState.credentials s) in N2.
destruct (revoke_grants child_of [id] _) as [ids grants] eqn:Hg.
specialize (N2 (λ c, list_includes ids (IssuedCredentialRecord.grantId c))).
destruct (revoke_credentials _ _) as [cids credentials] eqn:Hc.
assert (∃ g', omap_get id grants = Some g' ∧ ¬ active_grant g') as Hdead.
{ destruct (gr_kept _ _ _ _ (swept_grows (λ _, True) _ _ _ Hswept) id _ (omap_get_set_eq _ _ _)) as (g' & Hg' & _ & Ha).
  exists g'. split; [done|]. by intros Hact%Ha. }
wp_step. wp_step. cbv zeta. wp_step.
apply (wp_audited_core _ _ _ _ _ w s); [by eapply next_trans| |done].
intros w' s' N Hcore. apply wp_ret. split; [done|]. by injection Hcore as _ _ _ _ -> _ _ _.
Qed.
Lemma stable_revokeGrant id : stable (revokeGrant id).
Proof. intros w s Hi. eapply wp_mono; [by apply wp_revokeGrant| |done]. by intros r w' s' []. Qed.

Lemma demoted_close w s id : inv w s → next w s w (close_session s id).
Proof.
intros Hi. unfold close_session. destruct (omap_get id _) as [x|] eqn:Hx; [|by apply next_here].
apply next_demoted; try done; simpl; destruct (omap_get (RealmSession.actorId x) _) as [a|] eqn:Ha; simpl;
  try done; try (apply grows_refl; apply _).
1,2: apply (grows_set same_session _ _ _ _ _ Hx); by split.
apply (grows_set same_actor _ _ _ _ _ Ha). by split.
Qed.
Lemma demoted_closes w s ids : inv w s → next w s w (foldl close_session s ids).
Proof.
revert s. induction ids as [|id ids IH]; intros s Hi; simpl; [by apply next_here|].
pose proof (demoted_close w s id Hi) as N. eapply next_trans; [done|]. apply IH, N.
Qed.
(** A Grant or a session and the one it was derived from. *)
Definition derived s (k p : string) : Prop :=
  ∃ g, omap_get k (RealmState.grants s) = Some g ∧ RealmCapabilityGrant.parentGrantId g = Some p.
Definition delegated s (k p : string) : Prop :=
  ∃ x, omap_get k (RealmState.sessions s) = Some x ∧ RealmSession.delegatedBySessionId x = Some p.

(** The sessions whose ids have not been collected. *)
Definition uncollected (ids : list string) (l : list RealmSession.t) : nat :=
  length (base.filter (λ x, RealmSession.id x ∉ ids) l).
Definition closed_under (ids : list string) (l : list RealmSession.t) : Prop :=
  ∀ x p, x ∈ l → truthy_opt (RealmSession.delegatedBySessionId x) = Some p → p ∈ ids → RealmSession.id x ∈ ids.

Lemma uncollected_cons ids x l :
  uncollected ids (x :: l) = ((if decide (RealmSession.id x ∉ ids) then 1 else 0) + uncollected ids l)%nat.
Proof. unfold uncollected. rewrite filter_cons. by case_decide. Qed.
Lemma uncollected_le ids ids' l : ids ⊆ ids' → (uncollected ids' l ≤ uncollected ids l)%nat.
Proof.
intros Hs. induction l as [|x l IH]; [done|]. rewrite !uncollected_cons.
destruct (decide (RealmSession.id x ∉ ids')), (decide (RealmSession.id x ∉ ids)) as [|Hn]; try lia.
exfalso. apply Hn. auto.
Qed.

Lemma delegated_pass_ok ids l : let r := delegated_pass ids l in
  ids ⊆ r.1 ∧ (uncollected r.1 l + (if r.2 then 1 else 0) ≤ uncollected ids l)%nat ∧
  (r.2 = false → r.1 = ids ∧ closed_under ids l).
Proof.
revert ids. induction l as [|x l IH]; intros ids; simpl.
{ split_and!; [done|lia|]. intros _. split; [done|]. by intros ? ? ?%elem_of_nil. }
destruct (_ && _) eqn:Hh; simpl.
- apply andb_true_iff in Hh as [_ Hx%negb_true_iff%list_includes_false].
  destruct (IH (ids ++ [RealmSession.id x])) as (G & C & _). assert (ids ⊆ ids ++ [RealmSession.id x]) as Hs by set_solver.
  split_and!; [set_solver| |done]. rewrite !uncollected_cons. pose proof (uncollected_le _ _ l Hs).
  rewrite (decide_True (P := RealmSession.id x ∉ ids)) by done. rewrite decide_False by (intros Hn; apply Hn, G; set_solver).
  lia.
- destruct (IH ids) as (G & C & St). split_and!; [done| |].
  + rewrite !uncollected_cons. repeat case_decide; try lia. exfalso. naive_solver.
  + intros Hf. destruct (St Hf) as [Heq Hc]. split; [done|]. intros y p [->|Hy]%elem_of_cons Hp Hin; [|by eapply Hc].
    rewrite Hp in Hh. destruct (list_includes ids (RealmSession.id x)) eqn:Hi; [by apply list_includes_spec|].
    by apply andb_false_iff in Hh as [Hh%list_includes_false|].
Qed.
Lemma delegated_loop_ok fuel ids l : (uncollected ids l < fuel)%nat →
  ids ⊆ delegated_loop fuel ids l ∧ closed_under (delegated_loop fuel ids l) l.
Proof.
revert ids. induction fuel as [|fuel IH]; intros ids Hf; simpl; [lia|].
pose proof (delegated_pass_ok ids l) as (G & C & St). destruct (delegated_pass ids l) as [ids1 e]. simpl in *.
destruct e; [|by destruct (St eq_refl) as [-> ?]].
destruct (IH ids1) as [G' Hc]; [lia|]. split; [|done]. by etrans.
Qed.

(** The sweep over the sessions finds every session below the one revoked. *)
Lemma delegatedSessions_all w s k id : inv w s → rtc (delegated s) k id →
  k ∈ delegatedSessions id (RealmState.sessions s).
Proof.
intros Hi Hr. destruct (delegated_loop_ok (Datatypes.S (length (RealmState.sessions s))) [id]
  (omap_values (RealmState.sessions s))) as [Hin Hc].
{ unfold uncollected. pose proof (length_filter (λ x, RealmSession.id x ∉ [id]) (omap_values (RealmState.sessions s))).
  unfold omap_values in *. rewrite length_fmap in *. lia. }
fold (delegatedSessions id (RealmState.sessions s)) in Hin, Hc.
induction Hr as [k|k p id (x & Hx & Hp) _ IH]; [apply Hin; set_solver|].
destruct (inv_sessions _ _ Hi _ _ Hx) as (_ & <- & _ & Hok). apply (Hc x p); [| |by apply IH].
- by eapply omap_get_value.
- destruct (so_parent _ _ _ Hok _ Hp) as (parent & _ & Hpar & _). rewrite Hp.
  destruct (inv_sessions _ _ Hi _ _ Hpar) as ((n & _ & ->) & _). done.
Qed.

Lemma closes_inactive w s ids k x : inv w s → k ∈ ids → omap_get k (RealmState.sessions s) = Some x →
  ∃ x', omap_get k (RealmState.sessions (foldl close_session s ids)) = Some x' ∧
    RealmSession.status x' ≠ ExpiringStatus.active.
Proof.
revert s x. induction ids as [|id ids IH]; intros s x Hi Hin Hx; [by apply elem_of_nil in Hin|]. simpl.
pose proof (demoted_close w s id Hi) as N. apply elem_of_cons in Hin as [->|Hin].
- pose proof (demoted_closes w _ ids (nx_inv _ _ _ _ N)) as N2.
  assert (∃ x1, omap_get id (RealmState.sessions (close_session s id)) = Some x1 ∧
    RealmSession.status x1 ≠ ExpiringStatus.active) as (x1 & Hx1 & Hst).
  { unfold close_session. rewrite Hx. simpl. eexists. destruct (omap_get (RealmSession.actorId x) _); simpl;
      (split; [by apply omap_get_set_eq|done]). }
  destruct (gr_kept _ _ _ _ (ev_sessions _ _ _ (nx_evolves _ _ _ _ N2)) _ _ Hx1) as (x2 & Hx2 & _ & Ha).
  exists x2. split; [done|]. by intros ?%Ha.
- destruct (gr_kept _ _ _ _ (ev_sessions _ _ _ (nx_evolves _ _ _ _ N)) _ _ Hx) as (x1 & Hx1 & _).
  eapply IH; [apply N|done..].
Qed.

(** The session named is closed, and so are the Grants held by the sessions below it. *)
Definition ended s s' (id : string) : Prop :=
  (∃ x, omap_get id (RealmState.sessions s') = Some x ∧ RealmSession.status x ≠ ExpiringStatus.active) ∧
  ∀ k g, rtc (delegated s) (RealmCapabilityGrant.sessionId g) id → is_Some (omap_get k (RealmState.grants s)) →
    omap_get k (RealmState.grants s') = Some g → ¬ active_grant g.
Lemma wp_revokeSession id w s : inv w s →
  wp (revokeSession id) (λ _ w' s', next w s w' s' ∧ ended s s' id) (λ _ w' s', next w s w' s') w s.
Proof.
intros Hi. unfold revokeSession. wp_step. apply wp_get. wp_step. wp_step; [by apply next_here|]. rename a into x.
cbv zeta. pose proof (λ k, delegatedSessions_all w s k id Hi) as Hall.
set (ids := delegatedSessions _ _) in *. pose proof (demoted_closes w s ids Hi) as N1.
destruct (closes_inactive w s ids id x Hi (Hall _ (rtc_refl _ _)) H) as (x1 & Hx1 & Hst).
wp_step. wp_step. wp_step. apply wp_get. set (s1 := foldl close_session s ids) in *.
pose proof (λ h, demoted_grants w s1 (child_or_held ids) [] h (nx_inv _ _ _ _ N1)) as N2.
pose proof (revoke_grants_ok (child_or_held ids) [] (RealmState.grants s1)) as (_ & _ & Hno).
destruct (revoke_grants _ _ _) as [gids grants] eqn:Hg.
specialize (N2 (λ c, list_includes ids (IssuedCredentialRecord.sessionId c)
  || list_includes gids (IssuedCredentialRecord.grantId c))).
destruct (revoke_credentials _ _) as [cids credentials] eqn:Hc.
wp_step. wp_step. wp_step. apply (wp_audited_core _ _ _ _ _ w s); [by eapply next_trans| |done].
intros w' s' N Hcore. apply wp_ret. split; [done|]. injection Hcore as _ _ _ Es Eg _ _ _. split; [rewrite Es; by exists x1|].
intros k g Hr _ Hk Ha. rewrite Eg in Hk. simpl in Hk, Hno. specialize (Hno g (omap_get_value _ _ _ Hk) Ha).
unfold child_or_held in Hno. apply orb_false_iff in Hno as [Hno%list_includes_false _]. by apply Hno, Hall.
Qed.
Lemma delegated_next w s w' s' k p : next w s w' s' → rtc (delegated s) k p → rtc (delegated s') k p.
Proof.
intros N. apply rtc_subrel. intros i j (x & Hx & Hp).
destruct (gr_kept _ _ _ _ (ev_sessions _ _ _ (nx_evolves _ _ _ _ N)) _ _ Hx) as (x' & Hx' & Hs & _).
exists x'. split; [done|]. by rewrite Hs.
Qed.
Lemma derived_next w s w' s' k p : next w s w' s' → rtc (derived s) k p → rtc (derived s') k p.
Proof.
intros N. apply rtc_subrel. intros i j (x & Hx & Hp).
destruct (gr_kept _ _ _ _ (ev_grants _ _ _ (nx_evolves _ _ _ _ N)) _ _ Hx) as (x' & Hx' & Hs & _).
exists x'. split; [done|]. by rewrite Hs.
Qed.
(** It stays so, and it is so of any state before. *)
Lemma ended_next w s s1 w1 w2 s2 id : ended s s1 id → next w s w1 s1 → next w1 s1 w2 s2 → ended s s2 id.
Proof.
intros [(x & Hx & Hst) Hg] N1 N2. split.
- destruct (gr_kept _ _ _ _ (ev_sessions _ _ _ (nx_evolves _ _ _ _ N2)) _ _ Hx) as (x' & Hx' & _ & Ha).
  exists x'. split; [done|]. by intros ?%Ha.
- intros k g2 Hr [g0 H0] Hk2 Ha.
  destruct (gr_kept _ _ _ _ (ev_grants _ _ _ (nx_evolves _ _ _ _ N1)) _ _ H0) as (g1 & H1 & Hs1 & Ha1).
  destruct (gr_kept _ _ _ _ (ev_grants _ _ _ (nx_evolves _ _ _ _ N2)) _ _ H1) as (g2' & H2 & Hs2 & Ha2).
  simplify_eq. apply (Hg k g1); [|by eexists|done|by apply Ha2]. by rewrite Hs2 in Hr.
Qed.
Lemma ended_before w s w1 s1 s2 id : next w s w1 s1 → ended s1 s2 id → ended s s2 id.
Proof.
intros N [Hx Hg]. split; [done|]. intros k g Hr [g0 H0] Hk. apply (Hg k g); [by eapply delegated_next| |done].
destruct (gr_kept _ _ _ _ (ev_grants _ _ _ (nx_evolves _ _ _ _ N)) _ _ H0) as (g1 & ? & _). by exists g1.
Qed.
Lemma stable_revokeSession id : stable (revokeSession id).
Proof. intros w s Hi. eapply wp_mono; [by apply wp_revokeSession| |done]. by intros r w' s' []. Qed.

Lemma moved_agent w s k a b : inv w s → omap_get k (RealmState.agents s) = Some a → same_agent a b →
  next w s w (s <| RealmState.agents := omap_set k b (RealmState.agents s) |>).
Proof.
intros Hi Ha Hs. apply next_demoted; try done; try (apply grows_refl; apply _).
by apply (grows_set same_agent _ _ _ _ _ Ha).
Qed.

(** Every session of the agent's Actors ends. *)
Lemma wp_revokeAgent id w s : inv w s →
  wp (revokeAgent id) (λ _ w' s', next w s w' s' ∧ ∀ k a, omap_get k (RealmState.actors s) = Some a →
      RealmActor.agentId a = Some id → ended s s' (RealmActor.sessionId a))
    (λ _ w' s', next w s w' s') w s.
Proof.
intros Hi. unfold revokeAgent. wp_step. apply wp_get. wp_step. wp_step; [by apply next_here|].
wp_step. wp_step; [by apply next_here|]. wp_step. wp_step; [by apply next_here|]. cbv zeta.
set (a' := a <| RealmAgent.status := Status.revoked |>).
pose proof (moved_agent w s id a a' Hi H ltac:(by split)) as N1. set (s1 := s <| RealmState.agents := _ |>) in N1.
wp_step. wp_step. wp_step. apply wp_nowIso; [|eapply next_trans; [exact N1|]; apply next_passes; [apply N1|split; simpl; lia]].
intros revokedAt w1 Hw1 _. wp_step. wp_step.
assert (next w s w1 (s1 <| RealmState.agents := omap_set id (a' <| RealmAgent.revokedAt := Some revokedAt |>)
  (RealmState.agents s1) |>)) as N2.
{ eapply next_trans; [exact N1|]. eapply next_trans; [apply next_passes, ticks_passes; [apply N1|done]|].
  apply moved_agent with a'; [by eapply inv_passes, ticks_passes; [apply N1|]|by apply omap_get_set_eq|by split]. }
wp_step. apply (wp_fold_each (λ done _ w' s', next w s w' s' ∧ ∀ a, a ∈ done → ended s s' (RealmActor.sessionId a))).
- intros pre x post r w' s' _ [Hn Hend]. unfold revoke_agent_actor. wp_step.
  eapply wp_mono; [by apply wp_revokeSession, Hn| |intros e w2 s2 Hn2; by eapply next_trans].
  intros [gs cs] w2 s2 [Hn2 Hx]. apply wp_ret. split; [by eapply next_trans|].
  intros b [Hb| ->%list_elem_of_singleton]%elem_of_app; [by eapply ended_next; [apply Hend|..]|].
  by eapply ended_before.
- intros r w' s' [Hn Hend]. wp_step. apply (wp_audited_core _ _ _ _ _ w s); [done| |done].
  intros w2 s2 N3 Hcore. apply wp_ret. split; [done|]. intros k b Hb Hid.
  destruct (Hend b) as [Hx Hg]; [apply list_elem_of_filter; split; [done|by eapply omap_get_value]|].
  injection Hcore as _ _ _ Es Eg _ _ _. unfold ended. by rewrite Es, Eg.
- split; [exact N2|]. by intros b ?%elem_of_nil.
Qed.
Lemma stable_revokeAgent id : stable (revokeAgent id).
Proof. intros w s Hi. eapply wp_mono; [by apply wp_revokeAgent| |done]. by intros r w' s' []. Qed.

(** ** Credentials *)

Lemma next_new_credential w w' s s' n c :
  inv w s → passes w w' → (uuids_drawn w ≤ n < uuids_drawn w')%nat → IssuedCredentialRecord.id c = key "credential" n →
  credential_ok w' s c → s' = s <| RealmState.credentials := omap_set (key "credential" n) c (RealmState.credentials s) |> →
  next w s w' s'.
Proof.
intros Hi Hw [Hn1 Hn2] Hg Hok Hs'. assert (evolves (fresh w) s s') as He.
{ rewrite Hs'. split; try done; simpl; try (apply grows_refl; apply _).
  apply grows_add; [apply _| |by apply key_fresh]. by eapply fresh_none; [apply Hi|]. }
assert (RealmState.sessions s' = RealmState.sessions s) as E1 by (by rewrite Hs').
assert (RealmState.actors s' = RealmState.actors s) as E2 by (by rewrite Hs').
assert (RealmState.grants s' = RealmState.grants s) as E3 by (by rewrite Hs').
assert (RealmState.credentials s' = omap_set (key "credential" n) c (RealmState.credentials s)) as E4 by (by rewrite Hs').
assert (RealmState.agents s' = RealmState.agents s) as E5 by (by rewrite Hs').
apply next_evolves; [done..|]. split; intros k v Hk; rewrite ?E1, ?E2, ?E3, ?E4, ?E5, ?omap_get_set;
  try case_decide; try congruence; intros [= <-]; subst k.
split_and!; [by apply drawn_key|done|]. by eapply (credential_ok_stays _ w').
Qed.

Lemma stable_issueCredential input : stable (issueCredential input).
Proof.
intros w s Hi. unfold issueCredential.
wp_step. apply wp_requirePrincipal; [|by intros; apply next_here]. intros principal Hp _.
wp_step. apply wp_requireSession; [done| |done]. intros x w1 Hw1 _ _ _.
assert (∀ w', ticks w1 w' → next w s w' s) as N by (intros w' Hw'; apply next_passes; [done|]; apply ticks_passes; by etrans).
wp_step. apply wp_requireClient; [|by intros; apply N]. intros client Hc _ _. wp_step. apply wp_get. cbv zeta.
wp_step. wp_step; [by apply N|]. rename a into g. wp_step. wp_step; [by apply N|]. rename a into task.
wp_step. wp_step; [by apply N|]. rename H1 into Hchain. apply negb_false_iff in Hchain. unfold credential_chain in Hchain.
rewrite !andb_true_iff, !String.eqb_eq in Hchain. destruct Hchain as [[[[[[[[C1 C2] C3] C4] C5] C6] C7] C8] C9].
wp_step. apply wp_grantChainIsActive. intros b w2 (_ & Hw2 & _). wp_step. wp_step; [by apply N|].
wp_step. wp_step; [by apply N|]. wp_step. wp_step; [by apply N|]. rename H3 into Hclass. wp_step. wp_step; [by apply N|].
apply negb_false_iff, member_of_spec in Hclass. apply negb_false_iff in H3.
wp_step. apply wp_nowIso; [|apply N; etrans; [done|by apply ticks_one]]. intros issuedAt w3 Hw3 _. cbv zeta.
assert (ticks w1 w3) as H13 by (by etrans). wp_step. apply wp_date. cbv zeta. wp_step.
apply wp_iso; [|apply N; etrans; [done|by apply ticks_one]]. intros v Hv Hvalid. cbv zeta.
destruct (Date_parse (RealmCapabilityGrant.expiresAt g)) as [e|] eqn:He; [|done]. injection Hv as Hv.
wp_step. set (w4 := mkWorld _ _). unfold randomToken. unfold wp at 1. wp_step. apply wp_opaque. intros w5 Hw5. cbv zeta.
unfold set_credential. wp_step. wp_step. wp_step.
assert (passes w w5) as Hw by (destruct H13, Hw1; subst w5; simpl in *; split; simpl; lia).
apply (wp_audited _ _ _ _ _ w s); [|by intros; apply wp_ret|done].
eapply next_new_credential; [done..| | | |reflexivity]; [destruct H13, Hw1; subst w5; simpl in *; lia|done|].
split; simpl.
- exists v. split; [by apply Iso|]. subst w5. simpl. pose proof (time_mono (clock_reads w3) (S (clock_reads w3))). lia.
- destruct (inv_grants _ _ Hi _ _ H) as (_ & Hid & [Hr _ _ _]). exists g, e. rewrite Hid.
  split_and!; try done; [exists v; split; [by apply Iso|lia]|].
  revert H3. unfold resourceMatches. rewrite !andb_true_iff, Hr, String.eqb_eq. simpl. intros [_ Hk].
  split; [by apply String.eqb_refl|done].
Qed.

Lemma stable_revokeCredential id : stable (revokeCredential id).
Proof.
intros w s Hi. unfold revokeCredential, set_credential. wp_step. apply wp_get. wp_step. wp_step; [by apply next_here|].
cbv zeta. wp_step. wp_step. wp_step. apply (wp_audited _ _ _ _ _ w s); [|by intros; apply wp_ret|done].
by apply moved_credential.
Qed.

(** Everything a credential depends on. *)
Record credential_alive (t : Z) s (c : IssuedCredentialRecord.t) : Prop := {
  ca_grant : ∃ g, omap_get (IssuedCredentialRecord.grantId c) (RealmState.grants s) = Some g ∧ live grant_chain t s g;
  ca_session : ∃ x, omap_get (IssuedCredentialRecord.sessionId c) (RealmState.sessions s) = Some x ∧
    live session_chain t s x;
  ca_principal : ∃ p, omap_get (IssuedCredentialRecord.principalId c) (RealmState.principals s) = Some p ∧
    Principal.status p = PrincipalStatus.active;
  ca_client : is_Some (omap_get (IssuedCredentialRecord.clientId c) (RealmState.clients s));
  ca_epoch : IssuedCredentialRecord.authorizationEpoch c = epoch s;
}.
Lemma wp_credential_live c w s Q X :
  (∀ b w', ticks w w' → (b = true → credential_alive (time (clock_reads w)) s c) → Q b w' s) →
  wp (credential_live c) Q X w s.
Proof.
intros HQ. unfold credential_live. wp_step. apply wp_get.
destruct (omap_get _ (RealmState.grants s)) as [g|] eqn:Hg; [|by apply wp_ret, HQ].
destruct (omap_get _ (RealmState.sessions s)) as [x|] eqn:Hx; [|by apply wp_ret, HQ].
destruct (omap_get _ (RealmState.principals s)) as [p|] eqn:Hp; [|by apply wp_ret, HQ].
destruct (omap_get _ (RealmState.clients s)) as [cl|] eqn:Hcl; [|by apply wp_ret, HQ].
destruct (bool_decide _) eqn:Hst; [|by apply wp_ret, HQ]. apply bool_decide_eq_true in Hst.
wp_step. apply wp_sessionChainIsActive. intros [] w1 (_ & Hw1 & Hs1 & _); [|by apply wp_ret, HQ].
wp_step. apply wp_grantChainIsActive. intros b w2 (_ & Hw2 & Hs2 & _). apply wp_ret, HQ; [by etrans|].
intros [-> He%Z.eqb_eq]%andb_true_iff. split; [|by exists x; auto|by exists p|by eexists|done].
exists g. split; [done|]. eapply live_earlier; [|by apply Hs2]. by apply ticks_time.
Qed.

(** What [validateCredential] answers, and what it writes. *)
Lemma wp_validateCredential token input w s : inv w s →
  wp (validateCredential token input)
    (λ r w' s', next w s w' s' ∧ ∀ c, r = credential_valid c →
      c ∈ omap_values (RealmState.credentials s) ∧ IssuedCredentialRecord.tokenDigest c = tokenDigest token ∧
      IssuedCredentialRecord.status c = ExpiringStatus.active ∧
      unexpired (time (clock_reads w)) (IssuedCredentialRecord.expiresAt c) ∧
      credential_alive (time (clock_reads w)) s c ∧ credential_matches c input = None)
    (λ _ w' s', next w s w' s') w s.
Proof.
intros Hi. unfold validateCredential, set_credential. wp_step. apply wp_get.
destruct (find_credential token s) as [[k c]|] eqn:Hf; [|apply wp_ret; split; [by apply next_here|done]].
unfold find_credential in Hf. apply find_first_Some in Hf as [Hin Hd%String.eqb_eq]. simpl in Hd.
pose proof (omap_elem_get _ _ _ (inv_wf _ _ Hi) Hin) as Hget.
assert (∀ w1 st, ticks w w1 → next w s w1 (s <| RealmState.credentials :=
  omap_set k (c <| IssuedCredentialRecord.status := st |>) (RealmState.credentials s) |>)) as Hmark.
{ intros w1 st Hw1. eapply next_trans; [by apply next_passes, ticks_passes|].
  apply moved_credential; [by eapply inv_passes, ticks_passes|done]. }
destruct (bool_decide (_ = ExpiringStatus.revoked)) eqn:Hr; [apply wp_ret; split; [by apply next_here|done]|].
apply bool_decide_eq_false in Hr. wp_step.
assert (∀ Q, (∀ b w1, ticks w w1 → (b = false → IssuedCredentialRecord.status c = ExpiringStatus.active ∧
    unexpired (time (clock_reads w)) (IssuedCredentialRecord.expiresAt c)) → Q b w1 s) →
  wp (if bool_decide (IssuedCredentialRecord.status c = ExpiringStatus.expired)
      then mret true else expired (IssuedCredentialRecord.expiresAt c)) Q (λ _ w' s', next w s w' s') w s) as Hl.
{ intros Q HQ. destruct (bool_decide (_ = ExpiringStatus.expired)) eqn:Hx; [by apply wp_ret, HQ|].
  apply bool_decide_eq_false in Hx. apply wp_expired. intros b w1 Hw1 Hb _. apply HQ; [done|]. intros ->. split.
  - by destruct (IssuedCredentialRecord.status c).
  - intros v Hv. destruct (decide (time (clock_reads w) < v)%Z) as [|Hn]; [done|]. assert (false = true); [|done].
    apply Hb. intros Hu. by apply Hn, Hu. }
apply Hl. intros lapsed w1 Hw1 Hlapsed. destruct lapsed.
{ wp_step. wp_step. apply wp_ret. by split; [apply Hmark|]. }
destruct (Hlapsed eq_refl) as [Hact Hun]. wp_step. apply wp_credential_live. intros alive w2 Hw2 Halive.
destruct alive; simpl; [|wp_step; wp_step; apply wp_ret; split; [apply Hmark; by etrans|done]].
assert (next w s w2 s) as N2 by (apply next_passes; [done|]; apply ticks_passes; by etrans).
destruct (credential_matches c input) eqn:Hm; [apply wp_ret; by split|]. wp_step.
apply (wp_audited _ _ _ _ _ w s); [done| |done]. intros w3 s3 N3. apply wp_ret. split; [done|]. intros c' [= <-].
split_and!; try done; [apply list_elem_of_fmap; by exists (k, c)|].
destruct (Halive eq_refl) as [(g & ? & ?) (x & ? & ?) ? ? ?].
split; try done; [exists g|exists x]; (split; [done|]); (eapply live_earlier; [|done]); by apply ticks_time.
Qed.

(** ** The remaining calls *)

Lemma stable_activatePolicy version : stable (activatePolicy version).
Proof.
intros w s Hi. unfold activatePolicy. wp_step. wp_step; [by apply next_here|]. wp_step. wp_step. wp_step. apply wp_get.
wp_step. apply (wp_audited _ _ _ _ _ w s); [|by intros; apply wp_gets|done].
apply next_evolves; [done..| |split; simpl; congruence].
split; try done; simpl; try (apply grows_refl; apply _). unfold epoch. simpl. fold (epoch s). lia.
Qed.

Lemma stable_registerAgent p name runtime model id client classes :
  stable (registerAgent p name runtime model id client classes).
Proof.
intros w s Hi. unfold registerAgent.
wp_step. apply wp_requirePrincipal; [|by intros; apply next_here]. intros principal Hp _.
wp_step. wp_step; [by apply next_here|]. wp_step. wp_step; [by apply next_here|].
assert (∀ Q X, (∀ i w', passes w w' → Q i w' s) →
  wp (match id with Some id => mret id | None => opaqueId "agent" end : M RealmState.t failure string) Q X w s) as Hid.
{ intros Q X HQ. destruct id; [by apply wp_ret, HQ|]. apply wp_opaque. intros w' ->. apply HQ. split; simpl; lia. }
wp_step. apply Hid. clear Hid. intros i w1 Hw1. wp_step. apply wp_get.
assert (∀ w', passes w1 w' → next w s w' s) as N by (intros w' Hw'; apply next_passes; [done|by etrans]).
wp_step. wp_step; [by apply N|]. rename H1 into Hnew. cbv zeta. wp_step. wp_step; [by apply N|].
set (cid := default _ client). set (cls := default _ classes).
assert (∀ Q X, (∀ c s', core s' = core s → Q c w1 s') → (∀ e, X e w1 s) →
  wp match omap_get cid (RealmState.clients s) with
     | Some client => mret client
     | None => registerClient cid ClientKind.mcp (Some cls) (Some ["agent.task"])
     end Q X w1 s) as Hcl.
{ intros Q X HQ HX. destruct (omap_get cid _) as [c|] eqn:Hc; [by apply wp_ret, HQ|]. unfold registerClient.
  wp_step. apply wp_get. cbv zeta. rewrite Hc. simpl. wp_step. wp_step. apply wp_ret. by apply HQ. }
wp_step. apply Hcl; [|by intros; apply N]. clear Hcl. intros c s1 Hcore.
assert (∀ w', passes w1 w' → next w s w' s1) as N1 by (intros w' Hw'; apply next_core; [done|by etrans|done]).
wp_step. wp_step; [by apply N1|]. wp_step. apply wp_nowIso; [|apply N1; split; simpl; lia].
intros createdAt w2 Hw2 _. cbv zeta. wp_step. wp_step. wp_step. apply (wp_audited _ _ _ _ _ w s); [|by intros; apply wp_ret|done].
eapply next_trans; [by apply N1, ticks_passes|].
assert (inv w2 s1) as Hi1 by (by apply N1, ticks_passes).
assert (omap_get i (RealmState.agents s1) = None) as Hnone.
{ injection Hcore as _ -> _ _ _ _ _ _. unfold omap_has in Hnew. apply bool_decide_eq_false in Hnew.
  destruct (omap_get i _); [|done]. destruct Hnew. by eexists. }
apply next_evolves; [done..| |].
2: { split; simpl; try congruence. intros k ag Hk. rewrite omap_get_set. destruct (decide (i = k)) as [Hik|_]; [intros Heq; injection Heq as <-; exact Hik|].
  intros Hs. rewrite Hk in Hs. discriminate Hs. }
split; try done; simpl; try (apply grows_refl; apply _). apply grows_add; [apply _|done..].
Qed.

Lemma stable_authenticatePasskey c rp challenge verified n client :
  stable (authenticatePasskey c rp challenge verified n client).
Proof.
apply keeps_stable. intros w0 s0. unfold authenticatePasskey.
pose proof (λ p c m st, stable_keeps _ w0 s0 (stable_createHumanSession p c m st)) as Hh. solve_calls; apply Hh.
Qed.
Lemma stable_authenticateOidc issuer subject verified client : stable (authenticateOidc issuer subject verified client).
Proof.
apply keeps_stable. intros w0 s0. unfold authenticateOidc.
pose proof (λ p c m st, stable_keeps _ w0 s0 (stable_createHumanSession p c m st)) as Hh. solve_calls; apply Hh.
Qed.

Lemma stable_weigh_session input observe : stable (weigh_session input observe).
Proof.
intros w s Hi. unfold weigh_session, set_session. wp_step. apply wp_get.
destruct (omap_get _ _) as [x|] eqn:Hx; [|by apply wp_ret, next_here].
destruct (negb _); [by apply wp_ret, next_here|]. wp_step. apply wp_sessionChainIsActive.
intros alive w1 (_ & Hw1 & _). assert (∀ w', ticks w1 w' → next w s w' s) as N
  by (intros w' Hw'; apply next_passes; [done|]; apply ticks_passes; by etrans).
destruct alive; simpl; [destruct (_ && _); by apply wp_ret, N|]. wp_step.
destruct (observe && _); [|by wp_steps; apply N]. wp_step. apply wp_expired. intros e w2 Hw2 _ _. destruct e; wp_steps.
- eapply next_trans; [by apply N|]. by apply demoted_session; [apply N|..].
- by apply N.
Qed.
Lemma stable_weigh_grant input cap observe : stable (weigh_grant input cap observe).
Proof.
intros w s Hi. unfold weigh_grant. wp_step. apply wp_get.
destruct (truthy_opt _) as [gid|]; [|by apply wp_ret, next_here].
destruct (truthy_opt _) as [tid|]; [|by apply wp_ret, next_here].
destruct (requested_grant _ _ _ _) as [g|] eqn:Hg; [|by apply wp_ret, next_here].
assert (omap_get gid (RealmState.grants s) = Some g) as Hget.
{ unfold requested_grant in Hg. destruct (omap_get gid _); [|done]. destruct (omap_get tid _); [|done].
  by destruct (grant_in_chain _ _ _). }
wp_step. apply wp_grantChainIsActive. intros alive w1 (_ & Hw1 & _).
assert (∀ w', ticks w1 w' → next w s w' s) as N
  by (intros w' Hw'; apply next_passes; [done|]; apply ticks_passes; by etrans).
destruct alive; simpl; [by apply wp_ret, N|]. wp_step.
destruct (observe && _); [|by wp_steps; apply N]. wp_step. apply wp_expired. intros e w2 Hw2 _ _. destruct e; wp_steps.
- eapply next_trans; [by apply N|]. by apply demoted_grant; [apply N|..].
- by apply N.
Qed.
Lemma stable_evaluateDecision input observe : stable (evaluateDecision input observe).
Proof.
apply keeps_stable. intros w0 s0. unfold evaluateDecision, weigh_all. pose proof (keeps_nowIso w0 s0) as Hno.
pose proof (λ i o, stable_keeps _ w0 s0 (stable_weigh_session i o)) as Hs.
pose proof (λ i c o, stable_keeps _ w0 s0 (stable_weigh_grant i c o)) as Hg.
solve_calls; first [apply Hno|apply Hs|apply Hg].
Qed.
Lemma stable_authorize input : stable (authorize input).
Proof.
apply keeps_stable. intros w0 s0. unfold authorize.
pose proof (λ i o, stable_keeps _ w0 s0 (stable_evaluateDecision i o)) as He. solve_calls; apply He.
Qed.
Lemma stable_canRead sid resource class cap : stable (canReadSourceSpaceMetadata sid resource class cap).
Proof. apply keeps_stable. intros w0 s0. unfold canReadSourceSpaceMetadata, validateSession. solve_calls. Qed.
Lemma stable_validateTaskGrant input : stable (validateTaskGrant input).
Proof. apply keeps_stable. intros w0 s0. unfold validateTaskGrant, validate_live. solve_calls. Qed.
Lemma stable_validateCredential token input : stable (validateCredential token input).
Proof. intros w s Hi. eapply wp_mono; [by apply wp_validateCredential| |done]. by intros r w' s' []. Qed.
End methods.
