(* ===== verification/IdentityLife.v ===== *)
(** The life of a Realm: every sequence of calls on the policy object, with the
    snapshots it exports and restores, and what stays true along it. *)

From S2P Require Import Prelude Encoding Json Contracts Identity IdentityPolicy IdentityFacts.

Section life.
Context `{HH : Host} `{DH : RealmHost}.
Implicit Types (w : World) (s : RealmState.t).

(** * Steps *)

(** The calls on the object, with any arguments. *)
Inductive method : ∀ {A : Type}, M RealmState.t failure A → Prop :=
| call_validateSession id : method (validateSession id)
| call_registerClient id kind audiences operations : method (registerClient id kind audiences operations)
| call_registerAgent p name runtime model id client classes :
    method (registerAgent p name runtime model id client classes)
| call_createPrincipal id name : method (createPrincipal id name)
| call_registerPasskey p c rp n : method (registerPasskey p c rp n)
| call_registerOidcProvider id issuer client : method (registerOidcProvider id issuer client)
| call_linkOidcIdentity p issuer subject : method (linkOidcIdentity p issuer subject)
| call_authenticate input : method (authenticate input)
| call_addRelationship p kind subject role resource denied :
    method (addRelationship p kind subject role resource denied)
| call_setSourceSpacePolicy id c a d r m v : method (setSourceSpacePolicy id c a d r m v)
| call_createTask p a x purpose wid cid model : method (createTask p a x purpose wid cid model)
| call_createCapabilityGrant input : method (createCapabilityGrant input)
| call_createOwnerTaskGrant x purpose resource spaces actions effects expires :
    method (createOwnerTaskGrant x purpose resource spaces actions effects expires)
| call_validateTaskGrant input : method (validateTaskGrant input)
| call_delegateAgent input : method (delegateAgent input)
| call_revokeGrant id : method (revokeGrant id)
| call_revokeSession id : method (revokeSession id)
| call_revokeAgent id : method (revokeAgent id)
| call_revokeCredential id : method (revokeCredential id)
| call_issueCredential input : method (issueCredential input)
| call_validateCredential token input : method (validateCredential token input)
| call_activatePolicy version : method (activatePolicy version)
| call_evaluate input : method (evaluate input)
| call_evaluateReadOnly input : method (evaluateReadOnly input)
| call_authorize input : method (authorize input)
| call_canReadSourceSpaceMetadata x resource class cap :
    method (canReadSourceSpaceMetadata x resource class cap).

(** The host, the object, the snapshots exported from it and the undo closures
    captured from it. *)
Record conf := Conf {
  host : World;
  state : RealmState.t;
  exports : list RealmRecoverySnapshot.t;
  undos : list (M RealmState.t failure ());
}.

Inductive step : conf → conf → Prop :=
| step_call w s es us A (m : M RealmState.t failure A) o w' s' :
    method m → m w s = (o, w', s') → step (Conf w s es us) (Conf w' s' es us)
| step_export w s es us snapshot w' s' :
    getRecoverySnapshot w s = (Ok snapshot, w', s') →
    step (Conf w s es us) (Conf w' s' (snapshot :: es) us)
| step_capture w s es us undo w' s' :
    captureOperationalRollback w s = (Ok undo, w', s') → step (Conf w s es us) (Conf w' s' es (undo :: us))
| step_recover w s es us snapshot o w' s' :
    snapshot ∈ es → restoreRecoverySnapshot snapshot w s = (o, w', s') →
    step (Conf w s es us) (Conf w' s' es us).

(** Going back to an earlier state, as it was: the hydration of an operational
    snapshot, and an undo. *)
Inductive hydrate : conf → conf → Prop :=
| hydrate_snapshot w s es us snapshot o w' s' :
    snapshot ∈ es → restoreOperationalSnapshot snapshot w s = (o, w', s') →
    hydrate (Conf w s es us) (Conf w' s' es us)
| hydrate_undo w s es us undo o w' s' :
    undo ∈ us → undo w s = (o, w', s') → hydrate (Conf w s es us) (Conf w' s' es us).

Inductive reachable : conf → Prop :=
| reachable_new realmId name rp version sl cl w s w' s' :
    construct realmId name rp version sl cl w s = (Ok (), w', s') → reachable (Conf w' s' [] [])
| reachable_step c c' : reachable c → step c c' → reachable c'
| reachable_hydrate c c' : reachable c → hydrate c c' → reachable c'.

(** * The invariant *)

(** The state a snapshot is loaded as, and the one it was taken of. *)
Definition loaded (s : RealmState.t) (snapshot : RealmRecoverySnapshot.t) : RealmState.t := {|
  RealmState.realm := RealmRecoverySnapshot.realm snapshot;
  RealmState.principals := RealmRecoverySnapshot.principals snapshot;
  RealmState.agents := RealmRecoverySnapshot.agents snapshot;
  RealmState.passkeys := RealmRecoverySnapshot.passkeys snapshot;
  RealmState.oidcProviders := RealmRecoverySnapshot.oidcProviders snapshot;
  RealmState.oidcIdentities := RealmRecoverySnapshot.oidcIdentities snapshot;
  RealmState.clients := RealmRecoverySnapshot.clients snapshot;
  RealmState.actors := RealmRecoverySnapshot.actors snapshot;
  RealmState.sessions := RealmRecoverySnapshot.sessions snapshot;
  RealmState.tasks := RealmRecoverySnapshot.tasks snapshot;
  RealmState.relationships := RealmRecoverySnapshot.relationships snapshot;
  RealmState.sourceSpacePolicies := RealmRecoverySnapshot.sourceSpacePolicies snapshot;
  RealmState.grants := RealmRecoverySnapshot.grants snapshot;
  RealmState.credentials := [];
  RealmState.auditLog := RealmRecoverySnapshot.auditLog snapshot;
  RealmState.sessionLifetimeMs := RealmState.sessionLifetimeMs s;
  RealmState.credentialLifetimeMs := RealmState.credentialLifetimeMs s;
|}.
Definition lifetimes s : Z * Z := (RealmState.sessionLifetimeMs s, RealmState.credentialLifetimeMs s).

Record conf_ok (c : conf) : Prop := {
  cf_inv : inv (host c) (state c);
  cf_exports : ∀ snapshot, snapshot ∈ exports c →
    RealmRecoverySnapshot.credentialFree snapshot = true ∧ inv (host c) (loaded (state c) snapshot);
  cf_undos : ∀ undo, undo ∈ undos c → ∃ before, undo = modify (λ _, before) ∧
    inv (host c) before ∧ lifetimes before = lifetimes (state c);
}.

Context `{Mono : !MonotoneClock DH} `{Iso : !IsoDates HH DH} `{Fresh : !FreshUUIDs HH}.

Lemma method_stable {A} (m : M RealmState.t failure A) : method m → stable m.
Proof.
assert (∀ A (m : M RealmState.t failure A), (∀ w s, keeps (next w s) m) → stable m) as K by (intros; by apply keeps_stable).
destruct 1.
- apply stable_requireSession.
- apply K. intros. apply keeps_registerClient.
- apply stable_registerAgent.
- apply K. intros. apply keeps_createPrincipal.
- apply K. intros. apply keeps_registerPasskey.
- apply K. intros. apply keeps_registerOidcProvider.
- apply K. intros. apply keeps_linkOidcIdentity.
- destruct input; [apply stable_authenticatePasskey|apply stable_authenticateOidc].
- apply K. intros. apply keeps_addRelationship.
- apply K. intros. apply keeps_setSourceSpacePolicy.
- apply K. intros. apply keeps_createTask.
- apply stable_createCapabilityGrant.
- apply stable_createOwnerTaskGrant.
- apply stable_validateTaskGrant.
- apply stable_delegateAgent.
- apply stable_revokeGrant.
- apply stable_revokeSession.
- apply stable_revokeAgent.
- apply stable_revokeCredential.
- apply stable_issueCredential.
- apply stable_validateCredential.
- apply stable_activatePolicy.
- apply stable_evaluateDecision.
- apply stable_evaluateDecision.
- apply stable_authorize.
- apply stable_canRead.
Qed.

(** What is loaded from a snapshot is what it was taken of, later, but for the
    statuses a recovery takes away. *)
Definition withdrawn s : Prop :=
  omap_all (λ _ x, RealmSession.status x = ExpiringStatus.revoked) (RealmState.sessions s) ∧
  omap_all (λ _ g, RealmCapabilityGrant.status g = ExpiringStatus.revoked) (RealmState.grants s) ∧
  RealmState.credentials s = [].

Lemma restored_grows {V} (R : V → V → Prop) `{!Reflexive R} new (b : bool) (f : V → V) m :
  (∀ v, R v (f v)) → grows R new m (restored b f m).
Proof. intros Hf. unfold restored. destruct b; [by apply grows_fmap|by apply grows_refl]. Qed.
Lemma restored_same {V} (b : bool) (f : V → V) k v m :
  omap_get k m = None → omap_get k (restored b f m) = Some v → False.
Proof. unfold restored. destruct b; [rewrite omap_get_fmap|]; intros ->; done. Qed.

Lemma restored_holds {V} (P : V → Prop) (f : V → V) m :
  (∀ v, P (f v)) → omap_all (λ _ v, P v) (restored true f m).
Proof. intros Hf k v. unfold restored. rewrite omap_get_fmap. intros (u & _ & ->)%fmap_Some. apply Hf. Qed.

(** A load that fails has done nothing, or fails on the clock of its audit event. *)
Lemma wp_restore_snapshot b snapshot w s : inv w s → inv w (loaded s snapshot) →
  let I w' s' := (w', s') = (w, s) ∨
    (next w (loaded s snapshot) w' s' ∧ (b = true → withdrawn s') ∧ lifetimes s' = lifetimes s) in
  wp (restore_snapshot b snapshot)
    (λ _ w' s', next w (loaded s snapshot) w' s' ∧ (b = true → withdrawn s') ∧ lifetimes s' = lifetimes s)
    (λ _ w' s', I w' s') w s.
Proof.
intros Hi Hl I. unfold restore_snapshot, loadSnapshot. wp_step. apply wp_get. wp_step. wp_step; [by left|].
wp_step. wp_step; [by left|]. wp_step. apply wp_get. cbv zeta. wp_step. wp_step. wp_step.
set (s1 := {| RealmState.realm := _ |}). assert (next w (loaded s snapshot) w s1 ∧ (b = true → withdrawn s1) ∧
  lifetimes s1 = lifetimes s) as (N & Hwd & Hlt).
{ split_and!; [|intros ->; split_and!; [by apply restored_holds..|done]|done].
  apply next_evolves; [done..| |].
  - split; simpl; try (apply grows_refl; apply _); try done.
    + unfold epoch. simpl. destruct b; lia.
    + apply restored_grows; [apply _|]. by split.
    + apply restored_grows; [apply _|]. by split.
  - split; simpl; intros k v H1 H2; try congruence; exfalso; by eapply restored_same. }
destruct b; [|by wp_steps].
apply wp_audit.
- intros w1 s2 Hw [e ->]. wp_steps. split_and!; [|done..].
  eapply next_trans; [exact N|]. by apply next_core; [apply N| |].
- intros w1 Hw. right. split_and!; [|done..]. eapply next_trans; [exact N|]. by apply next_passes; [apply N|].
Qed.

Lemma inv_without_credentials w s snapshot w' s' :
  inv w s → getRecoverySnapshot w s = (Ok snapshot, w', s') → inv w (loaded s snapshot).
Proof.
intros [I1 I2 I3 I4 _ _] [= <- _ _]. split; [|intros k v Hv..|constructor].
- intros k x Hx. destruct (I1 k x Hx) as (? & ? & ? & []). by split_and!.
- destruct (I2 k v Hv) as (? & ? & []). by split_and!.
- by destruct (I3 k v Hv) as (? & ? & ?).
- by apply I4.
- done.
Qed.

(** Every step keeps the invariant, and the snapshots and undos taken before are
    as good after it. *)
Lemma loaded_stays w w' s s' snapshot : passes w w' → lifetimes s' = lifetimes s →
  inv w (loaded s snapshot) → inv w' (loaded s' snapshot).
Proof.
intros Hw [= H1 H2] Hl. replace (loaded s' snapshot) with (loaded s snapshot); [by eapply inv_passes|].
unfold loaded. congruence.
Qed.
Lemma conf_ok_next c w' s' : conf_ok c → passes (host c) w' → inv w' s' → lifetimes s' = lifetimes (state c) →
  conf_ok (Conf w' s' (exports c) (undos c)).
Proof.
intros [Hi He Hu] Hw Hi' Hl. split; simpl; [done| |].
- intros snapshot Hin. destruct (He _ Hin) as [Hc Hs]. split; [done|]. by eapply loaded_stays.
- intros undo Hin. destruct (Hu _ Hin) as (before & -> & Hb & Hbl). exists before.
  split_and!; [done| |congruence]. by eapply inv_passes.
Qed.
Lemma next_lifetimes w s w' s' : next w s w' s' → lifetimes s' = lifetimes s.
Proof. intros [_ He _]. destruct (ev_lifetimes _ _ _ He). unfold lifetimes. congruence. Qed.
Lemma conf_ok_restore b c snapshot o w' s' : conf_ok c → snapshot ∈ exports c →
  restore_snapshot b snapshot (host c) (state c) = (o, w', s') → conf_ok (Conf w' s' (exports c) (undos c)).
Proof.
intros Hc Hin Hrun. pose proof Hc as [Hi He _]. destruct (He _ Hin) as [_ Hl].
pose proof (wp_run _ _ _ _ _ _ _ _ (wp_restore_snapshot b snapshot _ _ Hi Hl) Hrun) as H.
assert ((w', s') = (host c, state c) ∨ (next (host c) (loaded (state c) snapshot) w' s' ∧
  lifetimes s' = lifetimes (state c))) as [[= -> ->]|[N HL]].
{ destruct o as [r|e]; [destruct H as (? & _ & ?); by right|]. destruct H as [H|(? & _ & ?)]; [by left|by right]. }
- by apply conf_ok_next.
- by apply conf_ok_next; [|apply N..|].
Qed.

Lemma step_ok c c' : conf_ok c → step c c' → conf_ok c'.
Proof.
intros Hc Hs. destruct Hs as [w s es us A m o w' s' Hm Hrun|w s es us snapshot w' s' Hrun
  |w s es us undo w' s' Hrun|w s es us snapshot o w' s' Hin Hrun].
- pose proof (wp_run _ _ _ _ _ _ _ _ (method_stable _ Hm _ _ (cf_inv _ Hc)) Hrun) as N.
  assert (next w s w' s') as Hn by (by destruct o). apply (conf_ok_next _ _ _ Hc); [apply Hn..|by eapply next_lifetimes].
- injection Hrun as <- <- <-. destruct Hc as [Hi He Hu]. split; [done| |done].
  intros snapshot [->|Hin]%elem_of_cons; [|by apply He]. split; [done|]. by eapply inv_without_credentials.
- injection Hrun as <- <- <-. destruct Hc as [Hi He Hu]. split; [done..|].
  intros undo [->|Hin]%elem_of_cons; [|by apply Hu]. by exists s.
- by eapply (conf_ok_restore true (Conf w s es us)).
Qed.
Lemma hydrate_ok c c' : conf_ok c → hydrate c c' → conf_ok c'.
Proof.
intros Hc Hs. destruct Hs as [w s es us snapshot o w' s' Hin Hrun|w s es us undo o w' s' Hin Hrun].
- by eapply (conf_ok_restore false (Conf w s es us)).
- destruct (cf_undos _ Hc _ Hin) as (before & -> & Hb & Hl). injection Hrun as <- <- <-.
  by apply (conf_ok_next (Conf w s es us)).
Qed.

Lemma inv_opened w realm sl cl : inv w (initial realm sl cl).
Proof. split; try done. constructor. Qed.
Lemma inv_construct realmId name rp version sl cl w s w' s' :
  construct realmId name rp version sl cl w s = (Ok (), w', s') → inv w' s'.
Proof.
intros Hrun. assert (∀ i k (Q : RealmClient.t → World → RealmState.t → Prop) w s, inv w s →
  (∀ c w' s', next w s w' s' → Q c w' s') → wp (registerClient i k None None) Q (λ _ _ _, True) w s) as Hclient.
{ intros i k Q w1 s1 Hi HQ.
  eapply wp_mono; [by apply (keeps_stable _ (λ w0 s0, keeps_registerClient w0 s0 i k None None))|done..]. }
refine (wp_Ok _ (λ _ w' s', inv w' s') (λ _ _ _, True) _ _ _ _ _ _ Hrun). clear Hrun. unfold construct.
do 2 (wp_step; wp_step; [done|]). wp_step. apply wp_nowIso; [|done]. intros createdAt w1 _ _.
wp_step. assert (∀ Q, (∀ i w2, Q i w2 s) → wp (match realmId with Some id => mret id | None => opaqueId "realm" end :
  M RealmState.t failure string) Q (λ _ _ _, True) w1 s) as Hid.
{ intros Q HQ. destruct realmId; [by apply wp_ret|]. by apply wp_opaque. }
apply Hid. intros i w2. cbv zeta. wp_step. wp_step.
wp_step. apply Hclient; [apply inv_opened|]. intros _ w3 s3 N3.
wp_step. apply Hclient; [apply N3|]. intros _ w4 s4 N4.
wp_step. apply Hclient; [apply N4|]. intros _ w5 s5 N5. wp_step. apply N5.
Qed.

Lemma reachable_ok c : reachable c → conf_ok c.
Proof.
induction 1; [|by eapply step_ok|by eapply hydrate_ok].
split; simpl; [by eapply inv_construct|by intros ? ?%elem_of_nil..].
Qed.

(** * Delegation only takes away *)

Lemma derived_exists w s k p g : inv w s → rtc (derived s) k p → omap_get k (RealmState.grants s) = Some g →
  ∃ parent, omap_get p (RealmState.grants s) = Some parent ∧ authority_le g parent.
Proof.
intros Hi Hr. revert g. induction Hr as [k|k q p (g0 & Hg0 & Hq) _ IH]; intros g Hg; [by exists g|].
assert (g0 = g) as -> by congruence. destruct (inv_grants _ _ Hi _ _ Hg) as (_ & _ & Hok).
destruct (go_parent _ _ Hok _ Hq) as (parent & Hp & Hle & _). destruct (IH _ Hp) as (root & ? & ?).
exists root. split; [done|]. by etrans.
Qed.
Lemma delegated_exists w s k p x e : inv w s → rtc (delegated s) k p → omap_get k (RealmState.sessions s) = Some x →
  Date_parse (RealmSession.expiresAt x) = Some e →
  ∃ parent l, omap_get p (RealmState.sessions s) = Some parent ∧
    RealmSession.principalId x = RealmSession.principalId parent ∧
    Date_parse (RealmSession.expiresAt parent) = Some l ∧ (e ≤ l)%Z.
Proof.
intros Hi Hr. revert x e. induction Hr as [k|k q p (x0 & Hx0 & Hq) _ IH]; intros x e Hx He.
{ exists x, e. split_and!; [done..|lia]. }
assert (x0 = x) as -> by congruence. destruct (inv_sessions _ _ Hi _ _ Hx) as (_ & _ & _ & Hok).
destruct (so_parent _ _ _ Hok _ Hq) as (parent & l & Hp & Hpr & Hl & (e' & He' & Hle)).
destruct (IH _ _ Hp Hl) as (root & l' & ? & ? & ? & ?). exists root, l'.
simplify_eq. split_and!; [done|congruence|done|lia].
Qed.

(** C20: No session outlives the configured lifetime, counted from now, or any
    session it was delegated from, and no credential the configured lifetime or the
    Grant it was issued for, whose classes and resource it stays within. *)
Theorem lifetimes_bounded c : reachable c →
  omap_all (λ k x, ∃ e, Date_parse (RealmSession.expiresAt x) = Some e ∧
    (e ≤ time (clock_reads (host c)) + RealmState.sessionLifetimeMs (state c))%Z ∧
    ∀ p, rtc (delegated (state c)) k p → ∃ parent l,
      omap_get p (RealmState.sessions (state c)) = Some parent ∧
      RealmSession.principalId x = RealmSession.principalId parent ∧
      Date_parse (RealmSession.expiresAt parent) = Some l ∧ (e ≤ l)%Z) (RealmState.sessions (state c)) ∧
  omap_all (λ _ x, credential_ok (host c) (state c) x) (RealmState.credentials (state c)).
Proof.
intros Hc. pose proof (cf_inv _ (reachable_ok _ Hc)) as Hi. split; intros k x Hx.
- destruct (inv_sessions _ _ Hi _ _ Hx) as (_ & _ & _ & Hok).
  destruct (so_expiry _ _ _ Hok) as (e & He & Hle). exists e. split_and!; [done..|].
  intros p Hp. by eapply delegated_exists.
- by destruct (inv_credentials _ _ Hi _ _ Hx) as (_ & _ & Hok).
Qed.

(** * What is dead stays dead *)

(** A chain that is alive now was alive before. *)
Lemma chain_back {A} (C : chain_of A) t s s' :
  (∀ k x x', omap_get k (link_map C s) = Some x → omap_get k (link_map C s') = Some x' →
     link_parent C x' = link_parent C x ∧ (link_ok C t s' x' → link_ok C t s x)) →
  (∀ k x p, omap_get k (link_map C s) = Some x → link_parent C x = Some p →
     is_Some (omap_get p (link_map C s))) →
  ∀ k x x', omap_get k (link_map C s) = Some x → omap_get k (link_map C s') = Some x' →
    live C t s' x' → live C t s x.
Proof.
intros Hback Hpar k x x' Hx Hx' [n Hn]. exists n. revert k x Hx Hx'.
induction Hn as [x' Hl Hroot|n x' p parent' Hl Hp Hg _ IH]; intros k x Hx Hx';
  destruct (Hback _ _ _ Hx Hx') as [Hparent Hok]; rewrite Hparent in *.
- apply alive_root; [by apply Hok|congruence].
- destruct (Hpar _ _ p Hx) as [parent Hget]; [by apply truthy_opt_Some in Hp as [? _]|].
  by eapply alive_link; [apply Hok|..|eapply IH].
Qed.

Lemma agent_active_back s s' i : (∀ j, i = Some j → is_Some (omap_get j (RealmState.agents s))) →
  grows same_agent (λ _, True) (RealmState.agents s) (RealmState.agents s') →
  agent_active i s' = true → agent_active i s = true.
Proof.
intros Hi [Hk _ _]. unfold agent_active. destruct (truthy_opt i) as [j|] eqn:Hj; [simpl|done].
apply truthy_opt_Some in Hj as [-> _]. destruct (Hi j eq_refl) as [a Ha].
destruct (Hk _ _ Ha) as (a' & -> & _ & Hst). rewrite Ha, !bool_decide_eq_true. auto.
Qed.

Lemma live_session_back w s w' s' t k x x' : next w s w' s' → inv w s →
  omap_get k (RealmState.sessions s) = Some x → omap_get k (RealmState.sessions s') = Some x' →
  live session_chain t s' x' → live session_chain t s x.
Proof.
intros [_ He _] Hi. revert k x x'. apply (chain_back session_chain); simpl.
- intros k x x' Hx Hx'. destruct (gr_kept _ _ _ _ (ev_sessions _ _ _ He) _ _ Hx) as (? & ? & [Hs Ha]). simplify_eq.
  destruct (inv_sessions _ _ Hi _ _ Hx) as (_ & Hid & [a Hact] & Hok).
  destruct (gr_kept _ _ _ _ (ev_actors _ _ _ He) _ _ Hact) as (a' & Hact' & [Hsa Haa]).
  destruct (inv_actors _ _ Hi _ _ Hact) as (_ & _ & Hag).
  split; [by rewrite Hs|]. unfold link_ok. simpl. unfold actor_active. rewrite (ev_realm _ _ _ He), Hs. simpl.
  rewrite Hact, Hact', Hsa. simpl. conds. intros ([? ?] & [Hep%Z.eqb_eq [[[[? ?] ?] ?] Hkind]] & ?).
  split_and!; auto; [|by destruct Hkind; [left|right; eapply agent_active_back; [|apply He|]]].
  apply Z.eqb_eq. pose proof (so_epoch _ _ _ Hok). pose proof (ev_epoch _ _ _ He). lia.
- intros k x p Hx Hp. destruct (inv_sessions _ _ Hi _ _ Hx) as (_ & _ & _ & Hok).
  destruct (so_parent _ _ _ Hok _ Hp) as (parent & _ & ? & _). by exists parent.
Qed.
Lemma live_grant_back w s w' s' t k g g' : next w s w' s' → inv w s →
  omap_get k (RealmState.grants s) = Some g → omap_get k (RealmState.grants s') = Some g' →
  live grant_chain t s' g' → live grant_chain t s g.
Proof.
intros [_ He _] Hi. revert k g g'. apply (chain_back grant_chain); simpl.
- intros k g g' Hg Hg'. destruct (gr_kept _ _ _ _ (ev_grants _ _ _ He) _ _ Hg) as (? & ? & [Hs Ha]). simplify_eq.
  destruct (inv_grants _ _ Hi _ _ Hg) as (_ & _ & Hok).
  split; [by rewrite Hs|]. unfold link_ok. simpl. rewrite !bool_decide_eq_true, !Z.eqb_eq, Hs. simpl.
  intros (? & ? & ?). split_and!; auto. pose proof (go_epoch _ _ Hok). pose proof (ev_epoch _ _ _ He). lia.
- intros k g p Hg Hp. destruct (inv_grants _ _ Hi _ _ Hg) as (_ & _ & Hok).
  destruct (go_parent _ _ Hok _ Hp) as (parent & ? & _). by exists parent.
Qed.

(** An id that has been given, and whose record, if any, is not alive any more. *)
Definition dead_session (c : conf) (k : string) : Prop :=
  drawn "session" (host c) k ∧
  ∀ x t, omap_get k (RealmState.sessions (state c)) = Some x → (time (clock_reads (host c)) ≤ t)%Z →
    ¬ live session_chain t (state c) x.
Definition dead_grant (c : conf) (k : string) : Prop :=
  drawn "grant" (host c) k ∧
  ∀ g t, omap_get k (RealmState.grants (state c)) = Some g → (time (clock_reads (host c)) ≤ t)%Z →
    ¬ live grant_chain t (state c) g.

Lemma dead_next c w' s' : inv (host c) (state c) → next (host c) (state c) w' s' → ∀ es us k,
  (dead_session c k → dead_session (Conf w' s' es us) k) ∧ (dead_grant c k → dead_grant (Conf w' s' es us) k).
Proof.
intros Hi N es us k. pose proof (nx_passes _ _ _ _ N) as Hw. pose proof (passes_time _ _ Hw) as Ht.
split; intros [Hd Hno]; (split; simpl; [by eapply drawn_mono; [apply Hw|]|]); intros x' t Hx' Ht' Hlive.
- destruct (omap_get k (RealmState.sessions (state c))) as [x|] eqn:Hx.
  + eapply (Hno x t); [done|lia|]. by eapply live_session_back.
  + by apply (gr_new _ _ _ _ (ev_sessions _ _ _ (nx_evolves _ _ _ _ N)) _ _ Hx Hx').
- destruct (omap_get k (RealmState.grants (state c))) as [x|] eqn:Hx.
  + eapply (Hno x t); [done|lia|]. by eapply live_grant_back.
  + by apply (gr_new _ _ _ _ (ev_grants _ _ _ (nx_evolves _ _ _ _ N)) _ _ Hx Hx').
Qed.

(** Where everything is withdrawn, all is dead. *)
Lemma withdrawn_dead c : withdrawn (state c) → ∀ k,
  (drawn "session" (host c) k → dead_session c k) ∧ (drawn "grant" (host c) k → dead_grant c k).
Proof.
intros (Hs & Hg & _) k. split; intros Hd; (split; [done|]); intros x t Hx _ [n Hn].
- assert (link_ok session_chain t (state c) x) as ([_ Ha]%andb_true_iff & _) by (by destruct Hn).
  simpl in Ha. by rewrite (Hs _ _ Hx) in Ha.
- assert (link_ok grant_chain t (state c) x) as (Ha & _) by (by destruct Hn).
  simpl in Ha. by rewrite (Hg _ _ Hx) in Ha.
Qed.

Lemma dead_step c c' k : conf_ok c → step c c' →
  (dead_session c k → dead_session c' k) ∧ (dead_grant c k → dead_grant c' k).
Proof.
intros Hc Hs. destruct Hs as [w s es us A m o w' s' Hm Hrun|w s es us snapshot w' s' Hrun
  |w s es us undo w' s' Hrun|w s es us snapshot o w' s' Hin Hrun].
- pose proof (wp_run _ _ _ _ _ _ _ _ (method_stable _ Hm _ _ (cf_inv _ Hc)) Hrun) as N.
  assert (next w s w' s') as Hn by (by destruct o). by apply (dead_next (Conf w s es us)); [apply Hc|].
- injection Hrun as _ <- <-. apply (dead_next (Conf w s es us)); [apply Hc|by apply next_here, Hc].
- injection Hrun as _ <- <-. apply (dead_next (Conf w s es us)); [apply Hc|by apply next_here, Hc].
- pose proof Hc as [Hi He _]. destruct (He _ Hin) as [_ Hl]. simpl in *.
  pose proof (wp_run _ _ _ _ _ _ _ _ (wp_restore_snapshot true snapshot _ _ Hi Hl) Hrun) as H.
  assert ((w', s') = (w, s) ∨ (passes w w' ∧ withdrawn s')) as [[= -> ->]|[[Hw _] Hwd]].
  { destruct o as [r|e]; [destruct H as ([Hp _ _] & Hwd & _); auto|].
    destruct H as [H|([Hp _ _] & Hwd & _)]; auto. }
  + done.
  + destruct (withdrawn_dead (Conf w' s' es us) Hwd k) as [Ds Dg].
    split; intros [Hd _]; [apply Ds|apply Dg]; by eapply drawn_mono.
Qed.
(** * Revocation *)

Lemma alive_above {A} (C : chain_of A) t s (R : string → string → Prop) k p x :
  (∀ i j, R i j → ∃ y, omap_get i (link_map C s) = Some y ∧ truthy_opt (link_parent C y) = Some j) →
  rtc R k p → omap_get k (link_map C s) = Some x → live C t s x →
  ∃ y, omap_get p (link_map C s) = Some y ∧ live C t s y.
Proof.
intros HR Hr. revert x. induction Hr as [k|k q p Hkq _ IH]; intros x Hx Hlive; [by exists x|].
destruct (HR _ _ Hkq) as (y & Hy & Hp). destruct Hlive as [n Hn].
inversion Hn as [x' Hl Hroot|n' x' q' parent Hl Hq Hg Hpar]; subst; [congruence|].
assert (q' = q) as -> by congruence. apply (IH parent); [done|by exists n'].
Qed.
Lemma drawn_some p w k : drawn p w k → p ≠ "" → truthy_opt (Some k) = Some k.
Proof. intros (n & _ & ->) Hp. by destruct p. Qed.
Lemma sessions_above s w k p x t : inv w s → rtc (delegated s) k p → omap_get k (RealmState.sessions s) = Some x →
  live session_chain t s x → ∃ y, omap_get p (RealmState.sessions s) = Some y ∧ live session_chain t s y.
Proof.
intros Hi. apply (alive_above session_chain). intros i j (y & Hy & Hj). exists y. split; [done|]. simpl. rewrite Hj.
destruct (inv_sessions _ _ Hi _ _ Hy) as (_ & _ & _ & Hok).
destruct (so_parent _ _ _ Hok _ Hj) as (parent & _ & Hpar & _).
destruct (inv_sessions _ _ Hi _ _ Hpar) as (Hd & _). by eapply drawn_some.
Qed.
Lemma grants_above s w k p x t : inv w s → rtc (derived s) k p → omap_get k (RealmState.grants s) = Some x →
  live grant_chain t s x → ∃ y, omap_get p (RealmState.grants s) = Some y ∧ live grant_chain t s y.
Proof.
intros Hi. apply (alive_above grant_chain). intros i j (y & Hy & Hj). exists y. split; [done|]. simpl. rewrite Hj.
destruct (inv_grants _ _ Hi _ _ Hy) as (_ & _ & Hok).
destruct (go_parent _ _ Hok _ Hj) as (parent & Hpar & _).
destruct (inv_grants _ _ Hi _ _ Hpar) as (Hd & _). by eapply drawn_some.
Qed.
Lemma live_active_session t s x : live session_chain t s x → RealmSession.status x = ExpiringStatus.active.
Proof. intros [n Hn]. assert (link_ok session_chain t s x) as ([_ Ha%bool_decide_eq_true]%andb_true_iff & _) by (by destruct Hn). done. Qed.
Lemma live_active_grant t s x : live grant_chain t s x → active_grant x.
Proof. intros [n Hn]. assert (link_ok grant_chain t s x) as (Ha%bool_decide_eq_true & _) by (by destruct Hn). done. Qed.

(** Everything below a record that is not active is dead. *)
Lemma dead_below_session c k p y : inv (host c) (state c) → rtc (delegated (state c)) k p →
  omap_get p (RealmState.sessions (state c)) = Some y → RealmSession.status y ≠ ExpiringStatus.active → dead_session c k.
Proof.
intros Hi Hr Hy Hst. split.
- inversion Hr as [|? ? ? (x & Hx & _)]; subst; by edestruct (inv_sessions _ _ Hi) as (? & _).
- intros x t Hx _ Hlive. destruct (sessions_above _ _ _ _ _ _ Hi Hr Hx Hlive) as (y' & Hy' & Hl). simplify_eq.
  by apply Hst, (live_active_session t (state c)).
Qed.
Lemma dead_below_grant c k p y : inv (host c) (state c) → rtc (derived (state c)) k p →
  omap_get p (RealmState.grants (state c)) = Some y → ¬ active_grant y → dead_grant c k.
Proof.
intros Hi Hr Hy Hst. split.
- inversion Hr as [|? ? ? (x & Hx & _)]; subst; by edestruct (inv_grants _ _ Hi) as (? & _).
- intros x t Hx _ Hlive. destruct (grants_above _ _ _ _ _ _ Hi Hr Hx Hlive) as (y' & Hy' & Hl). simplify_eq.
  by apply Hst, (live_active_grant t (state c)).
Qed.

(** ** Delegation, once more *)

(** Each dimension that both budgets bound is bounded by the child as tightly. *)
Definition budget_within (child parent : omap BudgetValue.t) : Prop := ∀ d v l,
  omap_get d child = Some v → omap_get d parent = Some l →
  match l, v with
  | BudgetValue.number n, BudgetValue.number m => (m ≤ n)%Z
  | _, _ => v = l
  end.
Lemma budgetIsNarrower_within child parent : budgetIsNarrower child parent = true → budget_within child parent.
Proof.
unfold budgetIsNarrower. rewrite forallb_forall. intros H d v l Hv Hl.
apply omap_get_elem, list_elem_of_In, H in Hv. unfold dimension_narrower in Hv. simpl in Hv. rewrite Hl in Hv.
destruct l, v; rewrite ?bool_decide_eq_true in Hv; [done..|by apply Z.leb_le].
Qed.

(** C18: What a derived Grant takes from the Grants above it. However it was derived, it
    has the Principal of every one of them and no action, Source Space, effect,
    credential class or model provider that one of them has not, and it is alive only
    while they all are, whatever expiry is recorded in it. Its budget is within that of
    the Grant it was derived from, in each dimension that both bound. And the Grant of an
    agent is derived, holds none of the prohibited capabilities and stays within the
    agent's enrolment. The code bounds neither the resource of a Grant derived
    directly, nor the actions its parents deny, nor a dimension of the budget that it
    leaves out, so neither does this. *)
Theorem delegation_attenuates c k g : reachable c → omap_get k (RealmState.grants (state c)) = Some g →
  (∀ p, rtc (derived (state c)) k p → ∃ parent,
    omap_get p (RealmState.grants (state c)) = Some parent ∧ authority_le g parent ∧
    ∀ t, live grant_chain t (state c) g → live grant_chain t (state c) parent) ∧
  (∀ p, RealmCapabilityGrant.parentGrantId g = Some p → ∃ parent,
    omap_get p (RealmState.grants (state c)) = Some parent ∧
    budget_within (RealmCapabilityGrant.budget g) (RealmCapabilityGrant.budget parent)) ∧
  ∃ a, omap_get (RealmCapabilityGrant.actorId g) (RealmState.actors (state c)) = Some a ∧
    (RealmActor.kind a = ActorKind.agent → ∃ i agent, RealmActor.agentId a = Some i ∧
      omap_get i (RealmState.agents (state c)) = Some agent ∧ agent_bounded agent g).
Proof.
intros Hc Hg. pose proof (cf_inv _ (reachable_ok _ Hc)) as Hi.
destruct (inv_grants _ _ Hi _ _ Hg) as (_ & _ & Hok). split_and!; [| |apply (go_actor _ _ Hok)].
- intros p Hp. destruct (derived_exists _ _ _ _ _ Hi Hp Hg) as (parent & Hpar & Hle). exists parent. split_and!; [done..|].
  intros t Hl. destruct (grants_above _ _ _ _ _ _ Hi Hp Hg Hl) as (parent' & Hpar' & ?). by simplify_eq.
- intros p Hp. destruct (go_parent _ _ Hok _ Hp) as (parent & Hpar & _ & Hb). exists parent. split; [done|].
  by apply budgetIsNarrower_within.
Qed.

(** What each revocation ends, in the state it is called in: the sessions and the
    Grants that are revoked themselves or hang from one that is. *)
Definition under_session s (id k : string) : Prop := rtc (delegated s) k id.
Definition under_grant s (root : string → Prop) (k : string) : Prop := ∃ p, rtc (derived s) k p ∧ root p.
Definition held_under s (id k : string) : Prop :=
  ∃ g, omap_get k (RealmState.grants s) = Some g ∧ under_session s id (RealmCapabilityGrant.sessionId g).
Inductive ends (w : World) (s : RealmState.t) :
    ∀ {A : Type}, M RealmState.t failure A → (string → Prop) → (string → Prop) → Prop :=
| ends_session id : ends w s (revokeSession id) (under_session s id) (under_grant s (held_under s id))
| ends_grant id : ends w s (revokeGrant id) (λ _, False) (under_grant s (λ k, k = id))
| ends_agent id k a :
    omap_get k (RealmState.actors s) = Some a → RealmActor.agentId a = Some id →
    ends w s (revokeAgent id) (under_session s (RealmActor.sessionId a))
      (under_grant s (held_under s (RealmActor.sessionId a)))
| ends_recovery snapshot es us :
    reachable (Conf w s es us) → snapshot ∈ es →
    ends w s (restoreRecoverySnapshot snapshot) (drawn "session" w) (drawn "grant" w).

Lemma ended_dead c s id w : inv (host c) (state c) → next w s (host c) (state c) → ended s (state c) id → ∀ k,
  (under_session s id k → dead_session c k) ∧ (under_grant s (held_under s id) k → dead_grant c k).
Proof.
intros Hi N [(x & Hx & Hst) Hg] k. split.
- intros Hk. eapply dead_below_session; [done| |exact Hx|done]. by eapply delegated_next.
- intros (p & Hp & g & Hgp & Hu).
  destruct (gr_kept _ _ _ _ (ev_grants _ _ _ (nx_evolves _ _ _ _ N)) _ _ Hgp) as (g' & Hg' & Hs & _).
  eapply dead_below_grant; [done|by eapply derived_next|exact Hg'|]. apply (Hg p); [|by eexists|done]. by rewrite Hs.
Qed.

(** ** Going back no further than the revocation

    Any call, and the hydration of a snapshot or an undo that is not among the
    exports [es] and the undos [us] that there were before. *)
Inductive since (es : list RealmRecoverySnapshot.t) (us : list (M RealmState.t failure ())) : conf → conf → Prop :=
| since_step c c' : step c c' → since es us c c'
| since_hydrate w s later us' snapshot o w' s' :
    snapshot ∈ later → restoreOperationalSnapshot snapshot w s = (o, w', s') →
    since es us (Conf w s (later ++ es) us') (Conf w' s' (later ++ es) us')
| since_undo w s es' later undo o w' s' :
    undo ∈ later → undo w s = (o, w', s') →
    since es us (Conf w s es' (later ++ us)) (Conf w' s' es' (later ++ us)).

(** A session, or a Grant. *)
Definition dead (c : conf) (i : string + string) : Prop :=
  match i with inl k => dead_session c k | inr k => dead_grant c k end.
Lemma dead_moves c w' s' es us i : inv (host c) (state c) → next (host c) (state c) w' s' → dead c i →
  dead (Conf w' s' es us) i.
Proof. intros Hi N. destruct i as [k|k]; [apply (dead_next c _ _ Hi N es us k)|apply (dead_next c _ _ Hi N es us k)]. Qed.
Lemma dead_later w w' s es us es' us' i : passes w w' → dead (Conf w s es us) i → dead (Conf w' s es' us') i.
Proof.
intros Hw. pose proof (passes_time _ _ Hw) as Ht.
destruct i as [k|k]; intros [Hd Hno]; (split; simpl in *; [by eapply drawn_mono; [apply Hw|]|]); intros x t Hx Ht';
  apply Hno; [done|lia|done|lia].
Qed.
(** A snapshot holds what it was taken of. *)
Lemma live_same {A} (C : chain_of A) t s s' x : link_map C s' = link_map C s →
  (∀ y, link_ok C t s' y → link_ok C t s y) → live C t s' x → live C t s x.
Proof.
intros Hm Hok [n Hn]. exists n. induction Hn as [x Hl Hroot|n x p parent Hl Hp Hg _ IH].
- apply alive_root; [by apply Hok|done].
- eapply alive_link; [by apply Hok|done|by rewrite <-Hm|done].
Qed.
Lemma dead_loaded w s snapshot w' s' s0 es us es' us' i : getRecoverySnapshot w s = (Ok snapshot, w', s') →
  dead (Conf w s es us) i → dead (Conf w (loaded s0 snapshot) es' us') i.
Proof.
intros [= <- <- <-]. destruct i as [k|k]; intros [Hd Hno]; (split; [done|]); intros x t Hx Ht Hl; apply (Hno x t Hx Ht).
- by eapply (live_same session_chain); [..|exact Hl].
- by eapply (live_same grant_chain); [..|exact Hl].
Qed.

(** [i] is dead, and in every state that can be gone back to. *)
Record buried es us (i : string + string) (c : conf) : Prop := {
  bu_dead : dead c i;
  bu_exports : ∃ later, exports c = later ++ es ∧ ∀ snapshot s0, snapshot ∈ later →
    dead (Conf (host c) (loaded s0 snapshot) [] []) i;
  bu_undos : ∃ later, undos c = later ++ us ∧ ∀ undo, undo ∈ later →
    ∃ before, undo = modify (λ _, before) ∧ dead (Conf (host c) before [] []) i;
}.
Lemma buried_same es us i c w' s' : passes (host c) w' → dead (Conf w' s' (exports c) (undos c)) i →
  buried es us i c → buried es us i (Conf w' s' (exports c) (undos c)).
Proof.
intros Hw Hd [_ (es' & He & Hes) (us' & Hu & Hus)]. split; [done|exists es'; split; [done|]|exists us'; split; [done|]].
- intros snapshot s0 Hin. eapply dead_later; [exact Hw|by apply Hes].
- intros undo Hin. destruct (Hus _ Hin) as (before & -> & Hb). exists before. split; [done|]. by eapply dead_later.
Qed.
Lemma buried_step es us i c c' : conf_ok c → step c c' → buried es us i c → buried es us i c'.
Proof.
intros Hc Hst Hb. assert (dead c' i) as Hd.
{ destruct Hb as [Hd _ _], i as [k|k]; [by apply (dead_step _ _ k Hc Hst)|by apply (dead_step _ _ k Hc Hst)]. }
pose proof Hst as Hst'. destruct Hst as [w s e u A m o w' s' Hm Hrun|w s e u snapshot w' s' Hrun
  |w s e u undo w' s' Hrun|w s e u snapshot o w' s' Hin Hrun].
- pose proof (wp_run _ _ _ _ _ _ _ _ (method_stable _ Hm _ _ (cf_inv _ Hc)) Hrun) as N.
  assert (next w s w' s') as Hn by (by destruct o). by apply (buried_same _ _ _ (Conf w s e u)); [apply Hn|..].
- assert (w' = w ∧ s' = s) as [-> ->] by (by injection Hrun).
  destruct Hb as [Hd0 (es' & He & Hes) Hus]. simpl in *.
  split; simpl; [done| |done]. exists (snapshot :: es'). split; [by rewrite He|].
  intros snapshot' s0 [->|Hin]%elem_of_cons; [by eapply dead_loaded|by apply Hes].
- injection Hrun as <- <- <-. destruct Hb as [Hd0 Hes (us' & Hu & Hus)]. simpl in *.
  split; simpl; [done|done|]. exists (modify (λ _, s) :: us'). split; [by rewrite Hu|].
  intros undo [->|Hin]%elem_of_cons; [|by apply Hus]. exists s. split; [done|]. exact Hd0.
- pose proof Hc as [Hi He _]. destruct (He _ Hin) as [_ Hl]. simpl in *.
  pose proof (wp_run _ _ _ _ _ _ _ _ (wp_restore_snapshot true snapshot _ _ Hi Hl) Hrun) as H.
  assert (passes w w') as Hw.
  { destruct o as [r|x]; [by destruct H as ([Hp _ _] & _)|]. by destruct H as [[= -> ->]|([Hp _ _] & _)]. }
  by apply (buried_same _ _ _ (Conf w s e u)).
Qed.
Lemma buried_since es us i c c' : conf_ok c → since es us c c' → buried es us i c → conf_ok c' ∧ buried es us i c'.
Proof.
intros Hc Hst Hb. destruct Hst as [c c' Hst|w s later us' snapshot o w' s' Hin Hrun|w s es' later undo o w' s' Hin Hrun].
- split; [by eapply step_ok|by eapply buried_step].
- assert (snapshot ∈ later ++ es) as Hin' by (apply elem_of_app; by left).
  split; [by eapply (conf_ok_restore false (Conf w s (later ++ es) us'))|].
  pose proof Hc as [Hi He _]. destruct (He _ Hin') as [_ Hl]. simpl in *.
  pose proof (wp_run _ _ _ _ _ _ _ _ (wp_restore_snapshot false snapshot _ _ Hi Hl) Hrun) as H.
  assert ((w', s') = (w, s) ∨ next w (loaded s snapshot) w' s') as [[= -> ->]|N]; [|done|].
  { destruct o as [r|x]; [right; by destruct H|]. destruct H as [H|[H _]]; [by left|by right]. }
  apply (buried_same _ _ _ (Conf w s (later ++ es) us')); [apply N| |done].
  destruct (bu_exports _ _ _ _ Hb) as (later' & Heq & Hes). simpl in *. apply app_inv_tail in Heq as <-.
  eapply (dead_moves (Conf w (loaded s snapshot) [] [])); [done..|by apply Hes].
- split; [eapply hydrate_ok; [exact Hc|]; eapply hydrate_undo; [apply elem_of_app; by left|exact Hrun]|].
  destruct (bu_undos _ _ _ _ Hb) as (later' & Heq & Hus). simpl in *. apply app_inv_tail in Heq as <-.
  destruct (Hus _ Hin) as (before & -> & Hd). injection Hrun as _ <- <-.
  by apply (buried_same _ _ _ (Conf w s es' (later ++ us))).
Qed.
Lemma buried_forever es us i c c' : conf_ok c → rtc (since es us) c c' → buried es us i c → dead c' i.
Proof.
intros Hc Hs Hb. revert Hc Hb. induction Hs as [c|c c1 c' H1 _ IH]; intros Hc Hb; [apply Hb|].
destruct (buried_since _ _ _ _ _ Hc H1 Hb) as [Hc1 Hb1]. auto.
Qed.

(** C17: A revoked session, the sessions delegated from it, the Grants they hold and
    the Grants derived from those are dead after the call, and dead for ever, along all
    later calls ([since]), the restore of any recovery snapshot included; so with a
    revoked Grant and what is derived from it, with the sessions of a revoked agent and
    their Grants, and with every session and Grant ever issued when a recovery snapshot
    is restored. Only going back behind the revocation is left out: the hydration
    ([restoreOperationalSnapshot]) of a snapshot exported before it, and the undo of a
    [captureOperationalRollback] made before it. These do bring the revoked back to life
    ([hydrate_revives] and [undo_revives]); those of later snapshots and captures do not. *)
Theorem revocation_permanent w s es us A (m : M RealmState.t failure A) sessions grants r w' s' c :
  reachable (Conf w s es us) → ends w s m sessions grants → m w s = (Ok r, w', s') →
  rtc (since es us) (Conf w' s' es us) c →
  ∀ k, (sessions k → dead_session c k) ∧ (grants k → dead_grant c k).
Proof.
intros Hreach He Hrun Hsteps k. pose proof (reachable_ok _ Hreach) as Hok. pose proof (cf_inv _ Hok) as Hi. simpl in Hi.
enough (conf_ok (Conf w' s' es us) ∧ (sessions k → dead_session (Conf w' s' es us) k) ∧
  (grants k → dead_grant (Conf w' s' es us) k)) as (Hok' & Hs & Hg).
{ assert (∀ i, dead (Conf w' s' es us) i → dead c i) as Hdead.
  { intros i Hd. eapply buried_forever; [exact Hok'|exact Hsteps|]. split; [done|exists []; by split; [|intros ?? ?%elem_of_nil]|].
    exists []. by split; [|intros ? ?%elem_of_nil]. }
  split; intros Hk; [apply (Hdead (inl k)), Hs, Hk|apply (Hdead (inr k)), Hg, Hk]. }
destruct He as [id|id|id j a Hj Ha|snapshot es0 us0 Hr0 Hin].
- destruct (wp_Ok _ _ _ _ _ _ _ _ (wp_revokeSession id w s Hi) Hrun) as [N Hend].
  split; [by apply (conf_ok_next _ _ _ Hok); [apply N..|eapply next_lifetimes]|].
  by apply (ended_dead (Conf w' s' es us) s id w); [apply N|..].
- destruct (wp_Ok _ _ _ _ _ _ _ _ (wp_revokeGrant id w s Hi) Hrun) as [N (g & Hgid & Hna)].
  split; [by apply (conf_ok_next _ _ _ Hok); [apply N..|eapply next_lifetimes]|]. split; [done|].
  intros (p & Hp & ->). eapply dead_below_grant; [apply N|by eapply derived_next|done..].
- destruct (wp_Ok _ _ _ _ _ _ _ _ (wp_revokeAgent id w s Hi) Hrun) as [N Hend].
  split; [by apply (conf_ok_next _ _ _ Hok); [apply N..|eapply next_lifetimes]|].
  by apply (ended_dead (Conf w' s' es us) s _ w); [apply N|..|eapply Hend].
- destruct (cf_exports _ (reachable_ok _ Hr0) _ Hin) as [_ Hl]. simpl in Hl.
  destruct (wp_Ok _ _ _ _ _ _ _ _ (wp_restore_snapshot true snapshot w s Hi Hl) Hrun) as (N & Hwd & HL).
  split; [by apply (conf_ok_next _ _ _ Hok); [apply N..|]|].
  destruct (withdrawn_dead (Conf w' s' es us) (Hwd eq_refl) k) as [Ds Dg].
  split; intros Hd; [apply Ds|apply Dg]; eapply drawn_mono; [apply N|done|apply N|done].
Qed.

(** * Dead authority is refused *)

Lemma wp_known {A} (m : M RealmState.t failure A) (F : Prop) w s : F → wp m (λ _ _ _, F) (λ _ _ _, True) w s.
Proof. intros HF. unfold wp. by destruct (m w s) as [[[]]]. Qed.

(** The session and the Grant of a call that is accepted were alive when it was made. *)
Definition backed (t : Z) s (sid gid : string) : Prop :=
  (∃ x, omap_get sid (RealmState.sessions s) = Some x ∧ live session_chain t s x) ∧
  (∃ g, omap_get gid (RealmState.grants s) = Some g ∧ live grant_chain t s g).
Lemma backed_grant t w s sid gid x g w1 : ticks w w1 → t = time (clock_reads w) →
  omap_get sid (RealmState.sessions s) = Some x → live session_chain t s x →
  omap_get gid (RealmState.grants s) = Some g → live grant_chain (time (clock_reads w1)) s g → backed t s sid gid.
Proof.
intros Hw -> Hx Hl Hg Hlg. split; [by exists x|]. exists g. split; [done|].
eapply live_earlier; [by apply ticks_time|done].
Qed.

Lemma backed_evaluate input observe w s : inv w s →
  wp (evaluateDecision input observe) (λ d _ _, PolicyDecision.allowed d = true → ∃ gid,
      PolicyEvaluationInput.grantId input = Some gid ∧
      backed (time (clock_reads w)) s (PolicyEvaluationInput.sessionId input) gid) (λ _ _ _, True) w s.
Proof.
intros Hi. eapply wp_mono; [apply wp_evaluateDecision| |done].
- intros k x Hx. by destruct (inv_sessions _ _ Hi _ _ Hx) as (_ & ? & _).
- intros k x Hx. by destruct (inv_grants _ _ Hi _ _ Hx) as (_ & ? & _).
- intros d w' s' [(cap & _ & Hsound & _) _] Ha. destruct (Hsound Ha) as [_ _ _ _ Hx _ _ _ Hg _ _].
  destruct Hx as (x & ? & _ & _ & _ & ? & _). destruct Hg as (gid & tid & g & Hgid & _ & ? & _ & ? & _).
  apply truthy_opt_Some in Hgid as [? _]. exists gid. split; [done|]. split; [by exists x|by exists g].
Qed.

Lemma backed_issueCredential input w s : inv w s →
  wp (issueCredential input) (λ _ _ _, backed (time (clock_reads w)) s (IssueCredentialInput.sessionId input)
      (IssueCredentialInput.grantId input)) (λ _ _ _, True) w s.
Proof.
intros Hi. unfold issueCredential. wp_step. apply wp_requirePrincipal; [|done]. intros principal _ _.
wp_step. apply wp_requireSession; [done| |done]. intros x w1 Hw1 Hx _ Hl.
wp_step. apply wp_requireClient; [|done]. intros client _ _ _. wp_step. apply wp_get. cbv zeta.
wp_step. wp_step; [done|]. wp_step. wp_step; [done|]. wp_step. wp_step; [done|].
wp_step. apply wp_grantChainIsActive. intros b w2 (_ & Hw2 & Hlive & _). wp_step. wp_step; [done|].
apply negb_false_iff in H2. apply wp_known. by eapply backed_grant; [..|apply Hlive].
Qed.

Lemma backed_validateTaskGrant input w s : inv w s →
  wp (validateTaskGrant input) (λ r _ _, match r with
      | task_grant_valid _ => backed (time (clock_reads w)) s (TaskGrantValidationInput.sessionId input)
          (TaskGrantValidationInput.grantId input)
      | task_grant_refused _ _ _ => True
      end) (λ _ _ _, True) w s.
Proof.
intros Hi. unfold validateTaskGrant, validate_live. apply wp_try_catch.
wp_step. apply wp_requireSession; [done| |intros e w' s' _; destruct e; by apply wp_ret].
intros x w1 Hw1 Hx _ Hl. wp_step. apply wp_get. cbv zeta.
destruct (omap_get _ (RealmState.tasks s)) as [task|]; [|by apply wp_ret].
destruct (omap_get _ (RealmState.grants s)) as [g|] eqn:Hg; [|by apply wp_ret].
destruct (task_grant_chain _ _ _ _ _); [|by apply wp_ret]. wp_step. apply wp_get.
wp_step. apply wp_grantChainIsActive. intros b w2 (_ & Hw2 & Hlive & _). apply wp_ret.
destruct b; simpl; [|done]. repeat (case_match; try done). by eapply backed_grant; [..|apply Hlive].
Qed.

Lemma backed_validateCredential token input w s : inv w s →
  wp (validateCredential token input) (λ r _ _, match r with
      | credential_valid c => backed (time (clock_reads w)) s (IssuedCredentialRecord.sessionId c)
          (IssuedCredentialRecord.grantId c)
      | credential_refused _ => True
      end) (λ _ _ _, True) w s.
Proof.
intros Hi. eapply wp_mono; [by apply wp_validateCredential| |done]. intros [c|] w' s' [_ Hc]; [|done].
destruct (Hc c eq_refl) as (_ & _ & _ & _ & [Hg Hx _ _ _] & _). by split.
Qed.

Lemma dead_not_backed c sid gid : dead_session c sid ∨ dead_grant c gid →
  ¬ backed (time (clock_reads (host c))) (state c) sid gid.
Proof. intros [[_ Hno]|[_ Hno]] [(x & Hx & Hlx) (g & Hg & Hlg)]; by eapply Hno; [| |done]. Qed.

(** C19: Nothing is allowed, issued or validated in the name of a dead session or a
    dead Grant: the policy does not allow a request with it, no credential is issued for it, a delivery with it
    is refused, and no credential that rests on it is valid. *)
Theorem dead_authority_refused c sid gid : reachable c → dead_session c sid ∨ dead_grant c gid →
  (∀ input observe d w' s', PolicyEvaluationInput.sessionId input = sid →
     PolicyEvaluationInput.grantId input = Some gid →
     evaluateDecision input observe (host c) (state c) = (Ok d, w', s') → PolicyDecision.allowed d = false) ∧
  (∀ input r w' s', IssueCredentialInput.sessionId input = sid → IssueCredentialInput.grantId input = gid →
     issueCredential input (host c) (state c) ≠ (Ok r, w', s')) ∧
  (∀ input live w' s', TaskGrantValidationInput.sessionId input = sid →
     TaskGrantValidationInput.grantId input = gid →
     validateTaskGrant input (host c) (state c) ≠ (Ok (task_grant_valid live), w', s')) ∧
  (∀ token input record w' s', IssuedCredentialRecord.sessionId record = sid →
     IssuedCredentialRecord.grantId record = gid →
     validateCredential token input (host c) (state c) ≠ (Ok (credential_valid record), w', s')).
Proof.
intros Hc Hdead. pose proof (cf_inv _ (reachable_ok _ Hc)) as Hi. pose proof (dead_not_backed _ _ _ Hdead) as Hno.
split_and!.
- intros input observe d w' s' <- Hg Hrun. pose proof (wp_Ok _ _ _ _ _ _ _ _ (backed_evaluate _ _ _ _ Hi) Hrun) as Hb.
  simpl in Hb. destruct (PolicyDecision.allowed d); [|done]. destruct (Hb eq_refl) as (gid' & Hgid & Hback).
  by simplify_eq.
- intros input r w' s' <- <- Hrun. by apply Hno, (wp_Ok _ _ _ _ _ _ _ _ (backed_issueCredential _ _ _ Hi) Hrun).
- intros input l w' s' <- <- Hrun. by apply Hno, (wp_Ok _ _ _ _ _ _ _ _ (backed_validateTaskGrant _ _ _ Hi) Hrun).
- intros token input r w' s' <- <- Hrun.
  by apply Hno, (wp_Ok _ _ _ _ _ _ _ _ (backed_validateCredential _ _ _ _ Hi) Hrun).
Qed.
End life.

(** * A Realm for the witnesses *)

Module RealmDemo.
(** Dates are written in binary, lowest digit first. *)
Fixpoint digits (p : positive) : string :=
  match p with
  | xH => EmptyString
  | xO p => String.String (Ascii.ascii_of_nat 48) (digits p)
  | xI p => String.String (Ascii.ascii_of_nat 49) (digits p)
  end.
Fixpoint of_digits (s : string) : option positive :=
  match s with
  | EmptyString => Some xH
  | String.String c s =>
      match Ascii.nat_of_ascii c with
      | 48%nat => xO <$> of_digits s
      | 49%nat => xI <$> of_digits s
      | _ => None
      end
  end.
Lemma of_digits_digits p : of_digits (digits p) = Some p.
Proof. induction p as [p IH|p IH|]; simpl; [by rewrite IH..|done]. Qed.
Definition write_date (t : Z) : string :=
  match t with
  | Z0 => "zero"
  | Zpos p => String.String (Ascii.ascii_of_nat 43) (digits p)
  | Zneg p => String.String (Ascii.ascii_of_nat 45) (digits p)
  end.
Definition read_date (s : string) : option Z :=
  match s with
  | EmptyString => None
  | String.String c rest =>
      match Ascii.nat_of_ascii c with
      | 43%nat => Zpos <$> of_digits rest
      | 45%nat => Zneg <$> of_digits rest
      | _ => if String.eqb s "zero" then Some 0%Z else None
      end
  end.

#[local] Instance host : Host := {|
  randomUUID := pretty; clock := pretty; Date_parse := read_date; sha256 := λ s, s; normalizeNFKC := λ s, s;
  localeCompare := String.compare;
|}.
#[local] Instance realm_host : RealmHost := {|
  time := λ n, Z.of_nat n; toISOString := write_date; randomBytes := λ _ n, pretty n;
|}.
#[local] Instance demo_fresh : FreshUUIDs host.
Proof. intros x y. apply (inj pretty). Qed.
#[local] Instance demo_dates : IsoDates host realm_host.
Proof. intros [|p|p] _; [done|by simpl; rewrite of_digits_digits..]. Qed.
#[local] Instance demo_clock : MonotoneClock realm_host.
Proof. intros i j. simpl. lia. Qed.

(** Calls one after the other, each of them a step. *)
Record act := Act {
  act_result : Type;
  act_call : M RealmState.t failure act_result;
  act_method : method act_call;
}.
Fixpoint play (l : list act) (σ : World * RealmState.t) : World * RealmState.t :=
  match l with
  | [] => σ
  | a :: l => let r := act_call a σ.1 σ.2 in play l (r.1.2, r.2)
  end.
Lemma play_reachable l σ es us : reachable (Conf σ.1 σ.2 es us) → reachable (Conf (play l σ).1 (play l σ).2 es us).
Proof.
revert σ. induction l as [|a l IH]; intros σ Hr; [done|]. apply (IH (_, _)). simpl. eapply reachable_step; [done|].
destruct (act_call a σ.1 σ.2) as [[o w'] s'] eqn:Hc. eapply step_call; [apply (act_method a)|exact Hc].
Qed.
Abbreviation act_of H := (Act _ _ H).

Definition opened : World * RealmState.t := Eval vm_compute in
  let r := construct (Some "realm") None None None (Some 1000%Z) (Some 500%Z) (mkWorld 0 0)
    (initial (Realm.mk "" "" "" "" 0 "") 0 0) in (r.1.2, r.2).
Lemma opened_reachable : reachable (Conf opened.1 opened.2 [] []).
Proof.
apply (reachable_new (Some "realm") None None None (Some 1000%Z) (Some 500%Z) (mkWorld 0 0)
  (initial (Realm.mk "" "" "" "" 0 "") 0 0)). vm_compute. reflexivity.
Qed.

Definition whole : ResourceRef.t := ResourceRef.mk "realm" None None None None None None None None None.
Definition source : ResourceRef.t := whole <| ResourceRef.sourceSpaceId := Some "space" |>.
Definition enrolment : list act := [
  act_of (call_createPrincipal (Some "alice") "Alice");
  act_of (call_registerPasskey "alice" "key" None None);
  act_of (call_addRelationship "alice" RelationshipKind.organization_member "org" RealmRole.owner None None);
  act_of (call_setSourceSpacePolicy "space" SourceSpaceClassification.internal [Capability.source_read] None None None None);
  act_of (call_registerAgent "alice" "builder" "cli" "model" (Some "agent") None None);
  act_of (call_authenticate (by_passkey "key" None "challenge" true None None))].
Definition signed_in : World * RealmState.t := Eval vm_compute in play enrolment opened.
Definition human : string := Eval vm_compute in hd "" (omap_keys (RealmState.sessions signed_in.2)).
Definition human_actor : string := Eval vm_compute in hd "" (omap_keys (RealmState.actors signed_in.2)).
Definition tasked : World * RealmState.t := Eval vm_compute in
  play [act_of (call_createTask "alice" human_actor human "build" None None None)] signed_in.
Definition task : string := Eval vm_compute in hd "" (omap_keys (RealmState.tasks tasked.2)).
Definition grant_input : CreateTaskGrantInput.t := {|
  CreateTaskGrantInput.principalId := "alice"; CreateTaskGrantInput.actorId := human_actor;
  CreateTaskGrantInput.clientId := "client:anyam-web"; CreateTaskGrantInput.sessionId := human;
  CreateTaskGrantInput.taskId := task; CreateTaskGrantInput.resource := whole;
  CreateTaskGrantInput.sourceSpaceIds := ["space"];
  CreateTaskGrantInput.actions := [Capability.source_read; Capability.agent_delegate];
  CreateTaskGrantInput.effects := None; CreateTaskGrantInput.allowedModelProviders := None;
  CreateTaskGrantInput.allowedCredentialClasses := None; CreateTaskGrantInput.deniedActions := None;
  CreateTaskGrantInput.budget := Some [("runs", BudgetValue.number 3)]; CreateTaskGrantInput.expiresAt := None;
  CreateTaskGrantInput.parentGrantId := None; CreateTaskGrantInput.agentId := None;
  CreateTaskGrantInput.delegatedByActorId := None; CreateTaskGrantInput.delegatedBySessionId := None;
  CreateTaskGrantInput.consentAt := None;
|}.
Definition granted : World * RealmState.t := Eval vm_compute in play [act_of (call_createCapabilityGrant grant_input)] tasked.
Definition grant : string := Eval vm_compute in hd "" (omap_keys (RealmState.grants granted.2)).
Definition delegation_input : AgentDelegationInput.t := {|
  AgentDelegationInput.humanSessionId := human; AgentDelegationInput.parentGrantId := grant;
  AgentDelegationInput.agentId := "agent"; AgentDelegationInput.purpose := "read";
  AgentDelegationInput.resource := source; AgentDelegationInput.sourceSpaceIds := ["space"];
  AgentDelegationInput.actions := [Capability.source_read]; AgentDelegationInput.effects := None;
  AgentDelegationInput.allowedCredentialClasses := Some [CredentialClass.git];
  AgentDelegationInput.budget := Some [("runs", BudgetValue.number 2)]; AgentDelegationInput.expiresAt := None;
  AgentDelegationInput.workspaceId := None; AgentDelegationInput.changeId := None;
  AgentDelegationInput.consentAt := None;
|}.
Definition delegated_state : World * RealmState.t := Eval vm_compute in
  play [act_of (call_delegateAgent delegation_input)] granted.
Definition second_key {V} (m : omap V) : string := nth 1 (omap_keys m) "".
Definition agent_session : string := Eval vm_compute in second_key (RealmState.sessions delegated_state.2).
Definition agent_actor : string := Eval vm_compute in second_key (RealmState.actors delegated_state.2).
Definition agent_task : string := Eval vm_compute in second_key (RealmState.tasks delegated_state.2).
Definition agent_grant : string := Eval vm_compute in second_key (RealmState.grants delegated_state.2).
Definition credential_input : IssueCredentialInput.t := {|
  IssueCredentialInput.class := CredentialClass.git; IssueCredentialInput.principalId := "alice";
  IssueCredentialInput.actorId := agent_actor; IssueCredentialInput.clientId := "client:agent";
  IssueCredentialInput.sessionId := agent_session; IssueCredentialInput.taskId := agent_task;
  IssueCredentialInput.grantId := agent_grant; IssueCredentialInput.resource := source;
|}.
Definition issued : World * RealmState.t := Eval vm_compute in
  play [act_of (call_issueCredential credential_input)] delegated_state.
Lemma issued_reachable : reachable (Conf issued.1 issued.2 [] []).
Proof.
pose (all := enrolment ++ [act_of (call_createTask "alice" human_actor human "build" None None None);
  act_of (call_createCapabilityGrant grant_input); act_of (call_delegateAgent delegation_input);
  act_of (call_issueCredential credential_input)]).
pose proof (play_reachable all opened [] [] opened_reachable) as H.
replace (play all opened) with issued in H by (vm_compute; reflexivity). exact H.
Qed.

Definition request : PolicyEvaluationInput.t := {|
  PolicyEvaluationInput.operation := "agent.task"; PolicyEvaluationInput.capability := Some Capability.source_read;
  PolicyEvaluationInput.principalId := "alice"; PolicyEvaluationInput.actorId := agent_actor;
  PolicyEvaluationInput.clientId := "client:agent"; PolicyEvaluationInput.sessionId := agent_session;
  PolicyEvaluationInput.taskId := Some agent_task; PolicyEvaluationInput.grantId := Some agent_grant;
  PolicyEvaluationInput.resource := source; PolicyEvaluationInput.sourceSpaceId := None;
  PolicyEvaluationInput.effect := None; PolicyEvaluationInput.modelProvider := Some "model";
  PolicyEvaluationInput.requiredCredentialClass := Some CredentialClass.git;
  PolicyEvaluationInput.requiredAuthStrength := Some AuthenticationStrength.passkey;
  PolicyEvaluationInput.authorityClass := None; PolicyEvaluationInput.promotionId := None;
  PolicyEvaluationInput.approval := None; PolicyEvaluationInput.discoverable := None;
  PolicyEvaluationInput.protected := None;
|}.
Definition decided : outcome failure PolicyDecision.t * World * RealmState.t := Eval vm_compute in
  evaluateDecision request true issued.1 issued.2.
Lemma decided_eq : evaluateDecision request true issued.1 issued.2 = (decided.1.1, decided.1.2, decided.2).
Proof. vm_compute. reflexivity. Qed.
Definition verdict : option bool :=
  match decided.1.1 with Ok d => Some (PolicyDecision.allowed d) | Throw _ => None end.

(** The agent's request is allowed, so everything it needs held. *)
Lemma evaluate_exact_witness : verdict = Some true ∧
  permitted (time (clock_reads issued.1)) issued.2 request Capability.source_read.
Proof.
split; [vm_compute; reflexivity|].
assert (keyed session_chain issued.2) as Hs.
{ intros k x Hx. destruct (inv_sessions _ _ (cf_inv _ (reachable_ok _ issued_reachable)) k x Hx) as (_ & Hk & _). exact Hk. }
assert (keyed grant_chain issued.2) as Hg.
{ intros k x Hx. destruct (inv_grants _ _ (cf_inv _ (reachable_ok _ issued_reachable)) k x Hx) as (_ & Hk & _). exact Hk. }
pose proof (evaluate_exact request true issued.1 issued.2 decided.1.1 decided.1.2 decided.2 Hs Hg decided_eq) as [H _].
destruct decided.1.1 as [d|e] eqn:Hd; [|vm_compute in Hd; discriminate Hd].
destruct H as (cap & Hcap & Hsound & _). injection Hcap as <-. apply Hsound.
vm_compute in Hd. injection Hd as <-. reflexivity.
Defined.

Definition record_of {V} (k : string) (m : omap V) (P : V → Prop) : Prop :=
  match omap_get k m with Some v => P v | None => False end.
Lemma delegation_attenuates_witness : record_of agent_grant (RealmState.grants issued.2) (λ g,
  record_of grant (RealmState.grants issued.2) (λ parent, authority_le g parent ∧
    budget_within (RealmCapabilityGrant.budget g) (RealmCapabilityGrant.budget parent))).
Proof.
unfold record_of. destruct (omap_get agent_grant _) as [g|] eqn:Hg; [|vm_compute in Hg; discriminate Hg].
destruct (delegation_attenuates _ agent_grant g issued_reachable Hg) as (H & Hb & _).
destruct (H grant) as (parent & Hp & Hle & _).
{ apply rtc_once. exists g. split; [exact Hg|]. vm_compute in Hg. injection Hg as <-. reflexivity. }
destruct (Hb grant) as (parent' & Hp' & Hle').
{ vm_compute in Hg. injection Hg as <-. reflexivity. }
cbn [state] in Hp, Hp'. rewrite Hp in *. injection Hp' as <-. split; [exact Hle|exact Hle'].
Defined.

Lemma lifetimes_bounded_witness : length (RealmState.credentials issued.2) = 1%nat ∧
  omap_all (λ _ x, credential_ok issued.1 issued.2 x) (RealmState.credentials issued.2).
Proof. split; [reflexivity|]. exact (proj2 (lifetimes_bounded _ issued_reachable)). Defined.

(** The human signs out: the agent's session and Grant are dead, and stay so when
    the human signs in again. *)
Definition signed_out : outcome failure (list string * list string) * World * RealmState.t := Eval vm_compute in
  revokeSession human issued.1 issued.2.
Definition again : World * RealmState.t := Eval vm_compute in
  play [act_of (call_authenticate (by_passkey "key" None "challenge" true None None))] (signed_out.1.2, signed_out.2).
(** Going back behind the sign-out brings the agent back: by the snapshot exported, and
    by the undo captured, before it. *)
Definition before_sign_out : RealmRecoverySnapshot.t := Eval vm_compute in
  match getRecoverySnapshot issued.1 issued.2 with
  | (Ok snapshot, _, _) => snapshot
  | (Throw _, _, _) => RealmRecoverySnapshot.mk (Realm.mk "" "" "" "" 0 "") [] [] [] [] [] [] [] [] [] [] [] [] [] true
  end.
Definition allows (σ : World * RealmState.t) : option bool :=
  match evaluate request σ.1 σ.2 with
  | (Ok d, _, _) => Some (PolicyDecision.allowed d)
  | _ => None
  end.
Definition left_by {A} (m : M RealmState.t failure A) (σ : World * RealmState.t) : World * RealmState.t :=
  let r := m σ.1 σ.2 in (r.1.2, r.2).
Definition signed_out_state : World * RealmState.t := (signed_out.1.2, signed_out.2).
Example hydrate_revives :
  allows signed_out_state = Some false ∧
  allows (left_by (restoreOperationalSnapshot before_sign_out) signed_out_state) = Some true ∧
  allows (left_by (restoreRecoverySnapshot before_sign_out) signed_out_state) = Some false.
Proof. split_and!; vm_compute; reflexivity. Qed.
Example undo_revives :
  match captureOperationalRollback issued.1 issued.2 with
  | (Ok undo, _, _) => allows (left_by undo signed_out_state) = Some true
  | _ => False
  end.
Proof. vm_compute. reflexivity. Qed.

(** A snapshot exported after the sign-out brings nothing back. *)
Definition after_sign_out : RealmRecoverySnapshot.t := Eval vm_compute in
  match getRecoverySnapshot again.1 again.2 with (Ok snapshot, _, _) => snapshot | (Throw _, _, _) => before_sign_out end.
Definition hydrated : outcome failure Realm.t * World * RealmState.t := Eval vm_compute in
  restoreOperationalSnapshot after_sign_out again.1 again.2.
Definition hydrated_conf : conf := Conf hydrated.1.2 hydrated.2 [after_sign_out] [].
Lemma revocation_permanent_witness :
  dead_session hydrated_conf agent_session ∧ dead_grant hydrated_conf agent_grant.
Proof.
assert (rtc (since [] []) (Conf signed_out.1.2 signed_out.2 [] []) hydrated_conf) as Hsteps.
{ apply (rtc_l _ _ (Conf again.1 again.2 [] [])).
  { apply since_step. eapply step_call; [apply (call_authenticate (by_passkey "key" None "challenge" true None None))|].
    vm_compute. reflexivity. }
  apply (rtc_l _ _ (Conf again.1 again.2 [after_sign_out] [])).
  { apply since_step, step_export. vm_compute. reflexivity. }
  apply rtc_once. apply (since_hydrate [] [] again.1 again.2 [after_sign_out] [] after_sign_out hydrated.1.1); [left|].
  vm_compute. reflexivity. }
destruct signed_out.1.1 as [r|e] eqn:Hr; [|vm_compute in Hr; discriminate Hr].
assert (revokeSession human issued.1 issued.2 = (Ok r, signed_out.1.2, signed_out.2)) as Hrun.
{ vm_compute in Hr. injection Hr as <-. vm_compute. reflexivity. }
assert (under_session issued.2 human agent_session) as Hunder.
{ apply rtc_once. destruct (omap_get agent_session (RealmState.sessions issued.2)) as [x|] eqn:Hx;
    [|vm_compute in Hx; discriminate Hx].
  exists x. split; [exact Hx|]. vm_compute in Hx. injection Hx as <-. reflexivity. }
split.
- apply (revocation_permanent _ _ _ _ _ _ _ _ _ _ _ _ issued_reachable (ends_session _ _ human) Hrun Hsteps).
  exact Hunder.
- apply (revocation_permanent _ _ _ _ _ _ _ _ _ _ _ _ issued_reachable (ends_session _ _ human) Hrun Hsteps).
  exists agent_grant. split; [apply rtc_refl|].
  destruct (omap_get agent_grant (RealmState.grants issued.2)) as [g|] eqn:Hg; [|vm_compute in Hg; discriminate Hg].
  exists g. split; [exact Hg|]. vm_compute in Hg. injection Hg as <-. exact Hunder.
Defined.

Definition over : conf := Conf signed_out.1.2 signed_out.2 [] [].
Lemma over_reachable : reachable over.
Proof.
apply (reachable_step (Conf issued.1 issued.2 [] [])); [exact issued_reachable|].
eapply step_call; [apply (call_revokeSession human)|]. vm_compute. reflexivity.
Qed.
Lemma over_dead : dead_session over agent_session.
Proof.
destruct (omap_get human (RealmState.sessions signed_out.2)) as [y|] eqn:Hy; [|vm_compute in Hy; discriminate Hy].
eapply (dead_below_session over agent_session human y); [exact (cf_inv _ (reachable_ok _ over_reachable))| |exact Hy|].
- apply rtc_once. destruct (omap_get agent_session (RealmState.sessions signed_out.2)) as [x|] eqn:Hx;
    [|vm_compute in Hx; discriminate Hx].
  exists x. split; [exact Hx|]. vm_compute in Hx. injection Hx as <-. reflexivity.
- vm_compute in Hy. injection Hy as <-. discriminate.
Qed.
Lemma dead_authority_refused_witness :
  match (issueCredential credential_input (IdentityLife.host over) (state over)).1.1 with
  | Ok _ => False
  | Throw _ => True
  end.
Proof.
destruct (issueCredential credential_input _ _) as [[[r|e] w'] s'] eqn:Hrun; simpl; [|exact I].
destruct (dead_authority_refused over agent_session agent_grant over_reachable (or_introl over_dead)) as (_ & H & _).
exact (H credential_input r w' s' eq_refl eq_refl Hrun).
Defined.
End RealmDemo.
