(* ===== verification/PolicyService.v ===== *)
(** What a Realm's policy promises to the parts of the program that ask it, as
    an interface: [PolicyService] is what they call, [PolicyLaws] what they may
    rely on.  The Realm of identity/realm.ts discharges it at the end of the file;
    [Client] is the state of an object that holds such a service next to its own
    fields. *)

From S2P Require Import Prelude Contracts Identity IdentityPolicy IdentityFacts.

(** * The interface

    [evaluate(input)] answers with a decision or throws an Error, of which its
    clients read the message; [realm] is the record behind [realm.realm]. *)

Class PolicyService (R : Type) := {
  ps_realm : R → Realm.t;
  ps_evaluate : PolicyEvaluationInput.t → M R string PolicyDecision.t;
}.

(** [ps_next w r w' r']: the service can get from [r] to [r'], by its own methods
    called by anyone.  [ps_permits w r input]: its rules permit the request at the
    time of [w]. *)
Class PolicyLaws (R : Type) {P : PolicyService R} := {
  ps_ok : World → R → Prop;
  ps_next : World → R → World → R → Prop;
  ps_permits : World → R → PolicyEvaluationInput.t → Prop;
  ps_next_refl w r : ps_ok w r → ps_next w r w r;
  ps_next_trans w1 r1 w2 r2 w3 r3 : ps_next w1 r1 w2 r2 → ps_next w2 r2 w3 r3 → ps_next w1 r1 w3 r3;
  ps_next_ok w r w' r' : ps_next w r w' r' → ps_ok w' r';
  ps_next_passes w r w' r' : ps_next w r w' r' → passes w w';
  ps_next_realm w r w' r' : ps_next w r w' r' → Realm.id (ps_realm r') = Realm.id (ps_realm r);
  ps_next_draw w r w' : ps_ok w r → passes w w' → ps_next w r w' r;
  ps_evaluate_law input w r : ps_ok w r →
    wp (ps_evaluate input)
      (λ d w' r', ps_next w r w' r' ∧ (PolicyDecision.allowed d = true → ps_permits w r input))
      (λ _ w' r', ps_next w r w' r') w r;
}.

(** * Clients *)

(** An object with a policy service and fields of its own. *)
Record Client (R S : Type) := mkClient { policy : R; own : S }.
Arguments mkClient {R S} policy own.
Arguments policy {R S} _.
Arguments own {R S} _.

Section client.
Context `{HH : Host} `{DH : RealmHost} {R S E : Type}.

Definition get_own : M (Client R S) E S := gets own.
Definition modify_own (f : S → S) : M (Client R S) E () :=
  modify (λ c, mkClient (policy c) (f (own c))).
Definition get_policy : M (Client R S) E R := gets policy.
(** A call on the service; [bad] wraps the Error it throws. *)
Definition in_policy {A} (bad : string → E) (m : M R string A) : M (Client R S) E A := λ w c,
  match m w (policy c) with
  | (Ok a, w', r') => (Ok a, w', mkClient r' (own c))
  | (Throw e, w', r') => (Throw (bad e), w', mkClient r' (own c))
  end.

(** [now().toISOString()], and the message of its RangeError. *)
Definition invalid_time : string := "Invalid time value".
Definition nowIso (bad : string → E) : M (Client R S) E string := λ w c,
  let w' := mkWorld (uuids_drawn w) (1 + clock_reads w) in
  let t := time (clock_reads w) in
  if (Z.abs t <=? date_limit)%Z then (Ok (toISOString t), w', c) else (Throw (bad invalid_time), w', c).

Lemma wp_in_policy {A} bad (m : M R string A) (Q : A → World → Client R S → Prop) X w c :
  wp m (λ a w' r', Q a w' (mkClient r' (own c))) (λ e w' r', X (bad e) w' (mkClient r' (own c))) w (policy c) →
  wp (in_policy bad m) Q X w c.
Proof. unfold wp, in_policy. by destruct (m w (policy c)) as [[[a|e] w'] r']. Qed.
Lemma wp_get_own (Q : S → World → Client R S → Prop) (X : E → World → Client R S → Prop) w c :
  Q (own c) w c → wp get_own Q X w c.
Proof. done. Qed.
Lemma wp_get_policy (Q : R → World → Client R S → Prop) (X : E → World → Client R S → Prop) w c :
  Q (policy c) w c → wp get_policy Q X w c.
Proof. done. Qed.
Lemma wp_modify_own (f : S → S) (Q : () → World → Client R S → Prop) (X : E → World → Client R S → Prop) w c :
  Q () w (mkClient (policy c) (f (own c))) → wp (modify_own f) Q X w c.
Proof. done. Qed.
Lemma wp_nowIso_client bad (Q : string → World → Client R S → Prop) X w c :
  (∀ t w', ticks w w' → Q t w' c) → (∀ w', ticks w w' → X (bad invalid_time) w' c) → wp (nowIso bad) Q X w c.
Proof. intros HQ HX. unfold wp, nowIso. destruct (_ <=? _)%Z; [apply HQ|apply HX]; apply ticks_one. Qed.
End client.

(** [wp_step] with the steps of a client's own fields. *)
Ltac client_step :=
  lazymatch goal with
  | |- wp get_own _ _ _ _ => apply wp_get_own
  | |- wp get_policy _ _ _ _ => apply wp_get_policy
  | |- wp (modify_own _) _ _ _ _ => apply wp_modify_own
  | |- _ => wp_step
  end.

(** ** Asking the service *)

Section asking.
Context `{HH : Host} `{DH : RealmHost} {R S E : Type} `{PS : PolicyService R} `{PL : !PolicyLaws R}.
Implicit Types (w : World) (c : Client R S).

(** The policy permitted a request at some moment between two states. *)
Definition permits_during w c w' c' (input : PolicyEvaluationInput.t) : Prop :=
  ∃ w1 r1, ps_next w (policy c) w1 r1 ∧ ps_permits w1 r1 input ∧ ps_next w1 r1 w' (policy c').
(** The policy does not allow the request: it denies it, or throws. *)
Definition refuses w (r : R) (input : PolicyEvaluationInput.t) : Prop :=
  match ps_evaluate input w r with
  | (Ok d, _, _) => PolicyDecision.allowed d = false
  | (Throw _, _, _) => True
  end.
Definition refused_during w c w' c' (input : PolicyEvaluationInput.t) : Prop :=
  ∃ w1 r1, ps_next w (policy c) w1 r1 ∧ refuses w1 r1 input ∧ ps_next w1 r1 w' (policy c').

Lemma permits_later w c w1 c1 w2 c2 input :
  permits_during w c w1 c1 input → ps_next w1 (policy c1) w2 (policy c2) → permits_during w c w2 c2 input.
Proof. intros (w0 & r0 & ? & ? & ?) Hn. exists w0, r0. split_and!; [done..|]. by eapply ps_next_trans. Qed.
Lemma refused_later w c w1 c1 w2 c2 input :
  refused_during w c w1 c1 input → ps_next w1 (policy c1) w2 (policy c2) → refused_during w c w2 c2 input.
Proof. intros (w0 & r0 & ? & ? & ?) Hn. exists w0, r0. split_and!; [done..|]. by eapply ps_next_trans. Qed.
Lemma permits_now w c w1 c1 w2 c2 input : ps_next w (policy c) w1 (policy c1) →
  ps_permits w1 (policy c1) input → ps_next w1 (policy c1) w2 (policy c2) → permits_during w c w2 c2 input.
Proof. intros. by exists w1, (policy c1). Qed.
Lemma refused_now w c w1 c1 w2 c2 input : ps_next w (policy c) w1 (policy c1) →
  refuses w1 (policy c1) input → ps_next w1 (policy c1) w2 (policy c2) → refused_during w c w2 c2 input.
Proof. intros. by exists w1, (policy c1). Qed.

Lemma wp_ask (bad : string → E) input (Q : PolicyDecision.t → World → Client R S → Prop) X w c :
  ps_ok w (policy c) →
  (∀ d w' r', ps_next w (policy c) w' r' →
     (PolicyDecision.allowed d = true → ps_permits w (policy c) input) →
     (PolicyDecision.allowed d = false → refuses w (policy c) input) → Q d w' (mkClient r' (own c))) →
  (∀ e w' r', ps_next w (policy c) w' r' → refuses w (policy c) input → X (bad e) w' (mkClient r' (own c))) →
  wp (in_policy bad (ps_evaluate input)) Q X w c.
Proof.
intros Hc HQ HX. apply wp_in_policy. pose proof (ps_evaluate_law input w (policy c) Hc) as Hlaw.
unfold refuses in HQ, HX. unfold wp in Hlaw |- *. destruct (ps_evaluate input w (policy c)) as [[[d|e] w'] r'].
- destruct Hlaw. by apply HQ.
- by apply HX.
Qed.
End asking.

(** * The Realm as a service *)

Section realm.
Context `{HH : Host} `{DH : RealmHost}.

(** The message of what [evaluate] throws: a RangeError, or the error of an
    operation without a capability. *)
Definition evaluate_message (input : PolicyEvaluationInput.t) (e : failure) : string :=
  match e with
  | range_error => invalid_time
  | identity_error _ _ _ _ =>
      cat ["Operation "; PolicyEvaluationInput.operation input;
           " must declare a semantic capability before policy evaluation."]
  end.
#[export] Instance realm_policy : PolicyService RealmState.t := {
  ps_realm := RealmState.realm;
  ps_evaluate := λ input, map_err (evaluate_message input) (evaluate input);
}.

(** The rules of the Realm permit the request: the capability of its operation
    is granted, by [permitted]. *)
Definition realm_permits (w : World) (s : RealmState.t) (input : PolicyEvaluationInput.t) : Prop :=
  ∃ cap, capabilityForOperation (PolicyEvaluationInput.operation input)
           (PolicyEvaluationInput.capability input) = Ok cap ∧
    permitted (time (clock_reads w)) s input cap.

Context `{Mono : !MonotoneClock DH} `{Iso : !IsoDates HH DH} `{Fresh : !FreshUUIDs HH}.

Lemma realm_evaluate_law input w s : inv w s →
  wp (ps_evaluate input)
    (λ d w' s', next w s w' s' ∧ (PolicyDecision.allowed d = true → realm_permits w s input))
    (λ _ w' s', next w s w' s') w s.
Proof.
intros Hi. apply wp_map_err. assert (keyed session_chain s ∧ keyed grant_chain s) as [Hs Hg].
{ split; intros k x Hx; [apply (inv_sessions _ _ Hi _ _ Hx)|apply (inv_grants _ _ Hi _ _ Hx)]. }
eapply wp_mono; [apply wp_and; [by apply (stable_evaluateDecision input true)|by apply (wp_evaluateDecision input true)]|..].
- intros d w' s' [Hn [(cap & Hc & Ha & _) _]]. split; [done|]. intros Hd. exists cap. auto.
- by intros e w' s' [Hn _].
Qed.
#[export] Instance realm_laws : PolicyLaws RealmState.t.
Proof.
refine {| ps_ok := inv; ps_next := next; ps_permits := realm_permits; ps_evaluate_law := realm_evaluate_law |}.
- intros w s. apply next_here.
- intros *. apply next_trans.
- by intros w s w' s' [].
- by intros w s w' s' [].
- intros w s w' s' []. by eapply ev_realm.
- intros w s w' Hi Hw. apply next_passes; [by apply next_here|done].
Defined.
End realm.
