(* ===== verification/Extensions.v ===== *)
(** The extension registry, src/extensions/registry.ts: manifests of extension
    packages, their installation in a scope of the Realm, the lifecycle of an
    installation and its invocation, each authorised by the policy service.

    [Registry.t] is the state of an [ExtensionRegistry] next to its policy service
    ([Client]), and each method a computation over both.  An installation is
    reached through the map of the state only, so its mutation in place is an
    update of the map. *)

From S2P Require Import Prelude Contracts Identity IdentityPolicy PolicyService.

(** * Data of kernel/contracts.ts *)

Module ExtensionKind.
Inductive t :=
| repository_driver | action | verifier | target_adapter | project_experience | ide
| agent_skill | app.
#[global] Instance t_eq_dec : EqDecision t.
Proof. solve_decision. Defined.
Definition show (x : t) : string :=
  match x with
  | repository_driver => "repository-driver"
  | action => "action"
  | verifier => "verifier"
  | target_adapter => "target-adapter"
  | project_experience => "project-experience"
  | ide => "ide"
  | agent_skill => "agent-skill"
  | app => "app"
  end.
End ExtensionKind.

Module ExtensionTrust.
Inductive t :=
| first_party | verified | unverified.
#[global] Instance t_eq_dec : EqDecision t.
Proof. solve_decision. Defined.
Definition show (x : t) : string :=
  match x with
  | first_party => "first-party"
  | verified => "verified"
  | unverified => "unverified"
  end.
End ExtensionTrust.

Module ExtensionLifecycle.
Inductive t :=
| proposed | installed | enabled | suspended | deprecated | replaced | revoked | blocked.
#[global] Instance t_eq_dec : EqDecision t.
Proof. solve_decision. Defined.
Definition show (x : t) : string :=
  match x with
  | proposed => "proposed"
  | installed => "installed"
  | enabled => "enabled"
  | suspended => "suspended"
  | deprecated => "deprecated"
  | replaced => "replaced"
  | revoked => "revoked"
  | blocked => "blocked"
  end.
End ExtensionLifecycle.

Module ExtensionProvenance.
Record t := mk {
  source : string;
  publisher : string;
  signer : option string;
  attestation : option string;
  receipt : string;
}.
#[global] Instance eta : Eta t := fun r =>
  mk (source r) (publisher r) (signer r) (attestation r) (receipt r).
End ExtensionProvenance.

(** The protocol, the kind and the trust are checked when a manifest is registered:
    they are the strings the package declares. *)
Module ExtensionManifest.
Record t := mk {
  protocol : string;
  id : string;
  name : string;
  version : string;
  kind : string;
  trust : string;
  source : string;
  digest : string;
  requestedEffects : list string;
  requestedCapabilities : list string;
  lifecycle : ExtensionLifecycle.t;
  compatibility : list string;
  provenance : ExtensionProvenance.t;
  deprecationReason : option string;
}.
#[global] Instance eta : Eta t := fun r =>
  mk (protocol r) (id r) (name r) (version r) (kind r) (trust r) (source r) (digest r)
  (requestedEffects r) (requestedCapabilities r) (lifecycle r) (compatibility r) (provenance r)
  (deprecationReason r).
End ExtensionManifest.

Module ExtensionScope.
Inductive t :=
| realm (realmId : string)
| organization (realmId organizationId : string)
| project (realmId : string) (organizationId : option string) (projectId : string).
#[global] Instance t_eq_dec : EqDecision t.
Proof. solve_decision. Defined.
Definition realm_id (s : t) : string :=
  match s with realm r | organization r _ | project r _ _ => r end.
Definition kind (s : t) : string :=
  match s with
  | realm _ => "realm"
  | organization _ _ => "organization"
  | project _ _ _ => "project"
  end.
End ExtensionScope.

Module ExtensionInstallation.
Record t := mk {
  id : string;
  manifestId : string;
  manifestVersion : string;
  manifestDigest : string;
  scope : ExtensionScope.t;
  lifecycle : ExtensionLifecycle.t;
  grantedEffects : list string;
  grantedCapabilities : list string;
  grantId : string;
  policyVersion : string;
  authorizationEpoch : Z;
  installedBy : ActorRef.t;
  installedAt : string;
  lineageId : string;
  replacesInstallationId : option string;
  providerMigrationFrom : option string;
  receipt : string;
}.
#[global] Instance eta : Eta t := fun r =>
  mk (id r) (manifestId r) (manifestVersion r) (manifestDigest r) (scope r) (lifecycle r)
  (grantedEffects r) (grantedCapabilities r) (grantId r) (policyVersion r)
  (authorizationEpoch r) (installedBy r) (installedAt r) (lineageId r)
  (replacesInstallationId r) (providerMigrationFrom r) (receipt r).
End ExtensionInstallation.

Module ExtensionEventKind.
Inductive t :=
| registered | install_requested | installed | enabled | suspended | deprecated | replaced
| provider_migrated | revoked | blocked | invocation_proposed | invoked | invocation_blocked.
#[global] Instance t_eq_dec : EqDecision t.
Proof. solve_decision. Defined.
Definition show (x : t) : string :=
  match x with
  | registered => "registered"
  | install_requested => "install-requested"
  | installed => "installed"
  | enabled => "enabled"
  | suspended => "suspended"
  | deprecated => "deprecated"
  | replaced => "replaced"
  | provider_migrated => "provider-migrated"
  | revoked => "revoked"
  | blocked => "blocked"
  | invocation_proposed => "invocation-proposed"
  | invoked => "invoked"
  | invocation_blocked => "invocation-blocked"
  end.
End ExtensionEventKind.

Module ExtensionEvent.
Record t := mk {
  id : string;
  kind : ExtensionEventKind.t;
  installationId : option string;
  manifestId : string;
  previousInstallationId : option string;
  nextInstallationId : option string;
  actor : option ActorRef.t;
  occurredAt : string;
  reason : string;
  receipt : string;
}.
#[global] Instance eta : Eta t := fun r =>
  mk (id r) (kind r) (installationId r) (manifestId r) (previousInstallationId r)
  (nextInstallationId r) (actor r) (occurredAt r) (reason r) (receipt r).
End ExtensionEvent.

(** * Data of the registry *)

Module ExtensionAuthorization.
Record t := mk {
  principalId : string;
  actorId : string;
  clientId : string;
  sessionId : string;
  taskId : string;
  grantId : string;
  resource : ResourceRef.t;
  modelProvider : option string;
  requiredAuthStrength : option AuthenticationStrength.t;
  authorityClass : option AuthorityClass.t;
  promotionId : option string;
  approval : option Approval.t;
}.
#[global] Instance eta : Eta t := fun r =>
  mk (principalId r) (actorId r) (clientId r) (sessionId r) (taskId r) (grantId r) (resource r)
  (modelProvider r) (requiredAuthStrength r) (authorityClass r) (promotionId r) (approval r).
End ExtensionAuthorization.

Module RegisterExtensionInput.
Record t := mk {
  manifest : ExtensionManifest.t;
  packageDigest : string;
}.
#[global] Instance eta : Eta t := fun r =>
  mk (manifest r) (packageDigest r).
End RegisterExtensionInput.

Module InstallExtensionInput.
Record t := mk {
  manifestId : string;
  manifestVersion : string;
  packageDigest : string;
  scope : ExtensionScope.t;
  grantedEffects : list string;
  grantedCapabilities : list Capability.t;
  authorization : ExtensionAuthorization.t;
  receipt : option string;
  replacesInstallationId : option string;
  providerMigrationFrom : option string;
}.
#[global] Instance eta : Eta t := fun r =>
  mk (manifestId r) (manifestVersion r) (packageDigest r) (scope r) (grantedEffects r)
  (grantedCapabilities r) (authorization r) (receipt r) (replacesInstallationId r)
  (providerMigrationFrom r).
End InstallExtensionInput.

Module ExtensionTransitionInput.
Record t := mk {
  installationId : string;
  authorization : ExtensionAuthorization.t;
  reason : string;
}.
#[global] Instance eta : Eta t := fun r =>
  mk (installationId r) (authorization r) (reason r).
End ExtensionTransitionInput.

(** [replacement] is an [InstallExtensionInput] without its last two fields: they
    are overwritten. *)
Module ReplaceExtensionInput.
Record t := mk {
  installationId : string;
  replacement : InstallExtensionInput.t;
  authorization : ExtensionAuthorization.t;
  reason : string;
  providerMigration : option bool;
}.
#[global] Instance eta : Eta t := fun r =>
  mk (installationId r) (replacement r) (authorization r) (reason r) (providerMigration r).
End ReplaceExtensionInput.

Module InvokeExtensionInput.
Record t := mk {
  installationId : string;
  requestedEffects : list string;
  requestedCapabilities : list Capability.t;
  resource : ResourceRef.t;
  authorization : ExtensionAuthorization.t;
  operation : option string;
}.
#[global] Instance eta : Eta t := fun r =>
  mk (installationId r) (requestedEffects r) (requestedCapabilities r) (resource r)
  (authorization r) (operation r).
End InvokeExtensionInput.

Module ExtensionInvocationStatus.
Inductive t :=
| allowed | blocked | proposal.
#[global] Instance t_eq_dec : EqDecision t.
Proof. solve_decision. Defined.
Definition show (x : t) : string :=
  match x with
  | allowed => "allowed"
  | blocked => "blocked"
  | proposal => "proposal"
  end.
End ExtensionInvocationStatus.

Module ExtensionInvocationResult.
Record t := mk {
  status : ExtensionInvocationStatus.t;
  installationId : string;
  requestedEffects : list string;
  requestedCapabilities : list Capability.t;
  policyExplanations : list PolicyExplanation.t;
  nextAction : string;
  receipt : string;
}.
#[global] Instance eta : Eta t := fun r =>
  mk (status r) (installationId r) (requestedEffects r) (requestedCapabilities r)
  (policyExplanations r) (nextAction r) (receipt r).
End ExtensionInvocationResult.

Module ExtensionErrorCode.
Inductive t :=
| invalid_input | manifest_invalid | manifest_not_found | digest_mismatch
| compatibility_mismatch | trust_boundary | installation_not_found | scope_mismatch
| grant_widening | policy_denied | lifecycle_blocked | lineage_invalid.
#[global] Instance t_eq_dec : EqDecision t.
Proof. solve_decision. Defined.
Definition show (x : t) : string :=
  match x with
  | invalid_input => "invalid-input"
  | manifest_invalid => "manifest-invalid"
  | manifest_not_found => "manifest-not-found"
  | digest_mismatch => "digest-mismatch"
  | compatibility_mismatch => "compatibility-mismatch"
  | trust_boundary => "trust-boundary"
  | installation_not_found => "installation-not-found"
  | scope_mismatch => "scope-mismatch"
  | grant_widening => "grant-widening"
  | policy_denied => "policy-denied"
  | lifecycle_blocked => "lifecycle-blocked"
  | lineage_invalid => "lineage-invalid"
  end.
End ExtensionErrorCode.

Module ExtensionError.
Record t := mk {
  code : ExtensionErrorCode.t;
  message : string;
  affectedObject : string;
  recoveryAction : string;
  receipt : string;
  explanation : option PolicyExplanation.t;
}.
#[global] Instance eta : Eta t := fun r =>
  mk (code r) (message r) (affectedObject r) (recoveryAction r) (receipt r) (explanation r).
End ExtensionError.

(** What a method throws: an [ExtensionError], or another Error, of which the
    code reads the message. *)
Inductive failure := extension_error (e : ExtensionError.t) | other_error (message : string).

Module Registry.
Record t := mk {
  manifests : omap ExtensionManifest.t;
  installations : omap ExtensionInstallation.t;
  events : list ExtensionEvent.t;
  kernelCompatibility : list string;
}.
#[global] Instance eta : Eta t := fun r =>
  mk (manifests r) (installations r) (events r) (kernelCompatibility r).
End Registry.

(** The transitions of [Extract<ExtensionLifecycle, ...>]. *)
Module Retirement.
Inductive t := deprecated | suspended | revoked.
#[global] Instance t_eq_dec : EqDecision t.
Proof. solve_decision. Defined.
Definition lifecycle (x : t) : ExtensionLifecycle.t :=
  match x with
  | deprecated => ExtensionLifecycle.deprecated
  | suspended => ExtensionLifecycle.suspended
  | revoked => ExtensionLifecycle.revoked
  end.
Definition event (x : t) : ExtensionEventKind.t :=
  match x with
  | deprecated => ExtensionEventKind.deprecated
  | suspended => ExtensionEventKind.suspended
  | revoked => ExtensionEventKind.revoked
  end.
End Retirement.

(** * Constants and pure functions *)

Definition CONTRACT_VERSIONS_kernel : string := "anyam.kernel/v1".
Definition CONTRACT_VERSIONS_extension : string := "anyam.extension/v1".

Definition HIGH_RISK_EFFECTS : list string :=
  ["canonical.write"; "change.approve"; "identity.manage"; "policy.manage"; "secret.value.read";
   "target-promote"; "target.promote"].
Definition KERNEL_AUTHORITY_CAPABILITIES : list Capability.t :=
  [Capability.change_approve; Capability.landing_request; Capability.policy_manage;
   Capability.identity_manage; Capability.target_promote].
Definition ALL_EXTENSION_KINDS : list string :=
  ExtensionKind.show <$>
    [ExtensionKind.repository_driver; ExtensionKind.action; ExtensionKind.verifier;
     ExtensionKind.target_adapter; ExtensionKind.project_experience; ExtensionKind.ide;
     ExtensionKind.agent_skill; ExtensionKind.app].
Definition ALL_TRUST_LEVELS : list string :=
  ExtensionTrust.show <$> [ExtensionTrust.first_party; ExtensionTrust.verified; ExtensionTrust.unverified].

(** An [ExtensionError] with the message of [fail]. *)
Definition fail (code : ExtensionErrorCode.t) (affectedObject recoveryAction receipt : string) : failure :=
  extension_error (ExtensionError.mk code
    (cat [ExtensionErrorCode.show code; " for "; affectedObject; "; receipt="; receipt; "; fix=";
          recoveryAction; "."])
    affectedObject recoveryAction receipt None).
(** And one with a message of its own. *)
Definition error (code : ExtensionErrorCode.t) (message affectedObject recoveryAction receipt : string) : failure :=
  extension_error (ExtensionError.mk code message affectedObject recoveryAction receipt None).

Definition requireText (value field : string) (code : ExtensionErrorCode.t) : outcome failure () :=
  if blank value then
    Throw (error code (cat [field; " must not be empty."]) field
      (cat ["provide a non-empty "; field; " and retry"]) (cat ["field="; field; "; present=false"]))
  else Ok ().

(** [[...new Set(values)]] is [values] when nothing occurs twice. *)
Definition unique (values : list string) (field : string) : outcome failure (list string) :=
  if existsb blank values then
    Throw (error ExtensionErrorCode.invalid_input (cat [field; " contains an empty value."]) field
      (cat ["remove empty "; field; " entries and retry"])
      (cat ["field="; field; "; count="; pretty (length values)]))
  else if has_duplicates values then
    Throw (error ExtensionErrorCode.invalid_input (cat [field; " contains duplicate values."]) field
      (cat ["deduplicate "; field; " and retry"])
      (cat ["field="; field; "; count="; pretty (length values); "; unique=";
            pretty (length (remove_dups values))]))
  else Ok values.

Definition assertDigest (value field : string) : outcome failure () :=
  _ ← requireText value field ExtensionErrorCode.digest_mismatch;
  if negb (starts_with "sha256:" value) then
    Throw (error ExtensionErrorCode.digest_mismatch (cat [field; " must be an explicit sha256 digest."]) field
      "publish the package with a sha256 digest and retry" (cat ["field="; field; "; value="; value]))
  else Ok ().

Definition manifestKey (id version digest : string) : string := cat [id; "@"; version; "#"; digest].

Definition whole_realm (realmId : string) : ResourceRef.t :=
  ResourceRef.mk realmId None None None None None None None None None.
Definition scopeResource (scope : ExtensionScope.t) : ResourceRef.t :=
  match scope with
  | ExtensionScope.realm r => whole_realm r
  | ExtensionScope.organization r o => whole_realm r <| ResourceRef.organizationId := Some o |>
  | ExtensionScope.project r o p =>
      whole_realm r <| ResourceRef.organizationId := o |> <| ResourceRef.projectId := Some p |>
  end.

Definition scopeContains (scope : ExtensionScope.t) (resource : ResourceRef.t) : bool :=
  if negb (String.eqb (ExtensionScope.realm_id scope) (ResourceRef.realmId resource)) then false
  else match scope with
  | ExtensionScope.realm _ => true
  | ExtensionScope.organization _ o => bool_decide (ResourceRef.organizationId resource = Some o)
  | ExtensionScope.project _ o p =>
      if negb (bool_decide (ResourceRef.organizationId resource = o)) then false
      else bool_decide (ResourceRef.projectId resource = Some p)
  end.

Definition actorRef (authorization : ExtensionAuthorization.t) : ActorRef.t := {|
  ActorRef.principalId := ExtensionAuthorization.principalId authorization;
  ActorRef.actorId := ExtensionAuthorization.actorId authorization;
  ActorRef.sessionId := ExtensionAuthorization.sessionId authorization;
  ActorRef.clientId := ExtensionAuthorization.clientId authorization;
|}.

Definition highRisk (values : list string) : list string :=
  base.filter (λ v, v ∈ HIGH_RISK_EFFECTS) values.

Definition asPolicyInput (authorization : ExtensionAuthorization.t) (operation : string)
    (capability : Capability.t) (resource : ResourceRef.t) (effect : option string) :
    PolicyEvaluationInput.t := {|
  PolicyEvaluationInput.operation := operation;
  PolicyEvaluationInput.capability := Some capability;
  PolicyEvaluationInput.principalId := ExtensionAuthorization.principalId authorization;
  PolicyEvaluationInput.actorId := ExtensionAuthorization.actorId authorization;
  PolicyEvaluationInput.clientId := ExtensionAuthorization.clientId authorization;
  PolicyEvaluationInput.sessionId := ExtensionAuthorization.sessionId authorization;
  PolicyEvaluationInput.taskId := Some (ExtensionAuthorization.taskId authorization);
  PolicyEvaluationInput.grantId := Some (ExtensionAuthorization.grantId authorization);
  PolicyEvaluationInput.resource := resource;
  PolicyEvaluationInput.sourceSpaceId := truthy_opt (ResourceRef.sourceSpaceId resource);
  PolicyEvaluationInput.effect := truthy_opt effect;
  PolicyEvaluationInput.modelProvider := truthy_opt (ExtensionAuthorization.modelProvider authorization);
  PolicyEvaluationInput.requiredCredentialClass := None;
  PolicyEvaluationInput.requiredAuthStrength := ExtensionAuthorization.requiredAuthStrength authorization;
  PolicyEvaluationInput.authorityClass := ExtensionAuthorization.authorityClass authorization;
  PolicyEvaluationInput.promotionId := truthy_opt (ExtensionAuthorization.promotionId authorization);
  PolicyEvaluationInput.approval := ExtensionAuthorization.approval authorization;
  PolicyEvaluationInput.discoverable := None;
  PolicyEvaluationInput.protected := Some true;
|}.

(** [values.filter((value) => !l.includes(value))]. *)
Definition outside (l values : list string) : list string := base.filter (λ v, v ∉ l) values.

(** * The registry *)

Section registry.
Context `{HH : Host} `{DH : RealmHost} {R : Type} `{PS : PolicyService R}.
#[local] Abbreviation P := (M (Client R Registry.t) failure).

(** [new ExtensionRegistry({ realm, kernelCompatibility })]. *)
Definition construct (kernelCompatibility : option (list string)) : outcome failure Registry.t :=
  versions ← unique (default [CONTRACT_VERSIONS_kernel] kernelCompatibility) "kernelCompatibility";
  Ok (Registry.mk [] [] [] versions).

Record Snapshot := mkSnapshot {
  snapshot_manifests : list ExtensionManifest.t;
  snapshot_installations : list ExtensionInstallation.t;
  snapshot_events : list ExtensionEvent.t;
}.
Definition snapshot : P Snapshot :=
  s ← get_own;
  mret (mkSnapshot (omap_values (Registry.manifests s)) (omap_values (Registry.installations s))
          (Registry.events s)).

Definition find_manifest (id : string) (version digest : option string) (s : Registry.t) :
    option ExtensionManifest.t :=
  let candidates := base.filter (λ m, ExtensionManifest.id m = id) (omap_values (Registry.manifests s)) in
  let versioned := match truthy_opt version with
    | Some v => base.filter (λ m, ExtensionManifest.version m = v) candidates | None => candidates end in
  let digested := match truthy_opt digest with
    | Some d => base.filter (λ m, ExtensionManifest.digest m = d) versioned | None => versioned end in
  head digested.
Definition getManifest (id : string) (version digest : option string) : P (option ExtensionManifest.t) :=
  s ← get_own; mret (find_manifest id version digest s).
Definition getInstallation (installationId : string) : P (option ExtensionInstallation.t) :=
  s ← get_own; mret (omap_get installationId (Registry.installations s)).

(** The event of [input], with its id and its date. *)
Definition event (e : ExtensionEvent.t) : P () :=
  id ← opaqueId "extension-event";
  occurredAt ← nowIso other_error;
  modify_own (λ s, s <| Registry.events := Registry.events s ++
    [{| ExtensionEvent.id := id;
        ExtensionEvent.kind := ExtensionEvent.kind e;
        ExtensionEvent.installationId := truthy_opt (ExtensionEvent.installationId e);
        ExtensionEvent.manifestId := ExtensionEvent.manifestId e;
        ExtensionEvent.previousInstallationId := truthy_opt (ExtensionEvent.previousInstallationId e);
        ExtensionEvent.nextInstallationId := truthy_opt (ExtensionEvent.nextInstallationId e);
        ExtensionEvent.actor := ExtensionEvent.actor e;
        ExtensionEvent.occurredAt := occurredAt;
        ExtensionEvent.reason := ExtensionEvent.reason e;
        ExtensionEvent.receipt := ExtensionEvent.receipt e |}] |>).
Definition event_input (kind : ExtensionEventKind.t) (installationId : option string) (manifestId : string)
    (actor : option ActorRef.t) (reason receipt : string) : ExtensionEvent.t :=
  ExtensionEvent.mk "" kind installationId manifestId None None actor "" reason receipt.

Definition authorize (authorization : ExtensionAuthorization.t) (operation : string)
    (capability : Capability.t) (resource : ResourceRef.t) (effect : option string) :
    P PolicyExplanation.t :=
  result ← in_policy other_error (ps_evaluate (asPolicyInput authorization operation capability resource effect));
  let explanation := PolicyDecision.explanation result in
  let decision := PolicyDecisionKind.show (PolicyExplanation.decision explanation) in
  throw_if (negb (PolicyDecision.allowed result))
    (extension_error {|
       ExtensionError.code := ExtensionErrorCode.policy_denied;
       ExtensionError.message := cat ["Extension operation "; operation; " is "; decision;
                                      "; no protected operation was performed."];
       ExtensionError.affectedObject := default (ResourceRef.realmId resource) (ResourceRef.projectId resource);
       ExtensionError.recoveryAction := PolicyExplanation.remediation explanation;
       ExtensionError.receipt := cat ["policy="; PolicyExplanation.policyVersion explanation; "; epoch=";
                                      pretty (PolicyExplanation.authorizationEpoch explanation);
                                      "; decision="; decision];
       ExtensionError.explanation := Some explanation |}) ;;
  mret explanation.

Definition requireManifest (id version digest : string) : P ExtensionManifest.t :=
  manifest ← getManifest id (Some version) (Some digest);
  require manifest (fail ExtensionErrorCode.manifest_not_found id
    "restore the exact registered manifest before using this installation"
    (cat ["manifest="; id; "@"; version; "; digest="; digest])).
Definition requireInstallation (id : string) : P ExtensionInstallation.t :=
  installation ← getInstallation id;
  require installation (fail ExtensionErrorCode.installation_not_found id
    "inspect the active Extension Installation and retry"
    (cat ["installation="; id; "; present=false"])).

Definition validateScope (scope : ExtensionScope.t) : P () :=
  let text value field := lift (requireText value field ExtensionErrorCode.invalid_input) in
  text (ExtensionScope.realm_id scope) "scope.realmId" ;;
  match scope with
  | ExtensionScope.realm _ => mret ()
  | ExtensionScope.organization _ o => text o "scope.organizationId"
  | ExtensionScope.project _ o p =>
      text p "scope.projectId" ;;
      match o with Some o => text o "scope.organizationId" | None => mret () end
  end ;;
  realm ← get_policy;
  throw_if (negb (String.eqb (ExtensionScope.realm_id scope) (Realm.id (ps_realm realm))))
    (fail ExtensionErrorCode.scope_mismatch (ExtensionScope.realm_id scope)
       "install extensions only in the active Realm"
       (cat ["active-realm="; Realm.id (ps_realm realm); "; requested="; ExtensionScope.realm_id scope])).

(** ** Registration *)

(** The lifecycle a manifest is registered with, and the high-risk requests of an
    unverified one. *)
Definition unverified_high_risk (m : ExtensionManifest.t) : list string :=
  if String.eqb (ExtensionManifest.trust m) "unverified"
  then highRisk (ExtensionManifest.requestedEffects m ++ ExtensionManifest.requestedCapabilities m) else [].
Definition registered_lifecycle (m : ExtensionManifest.t) : ExtensionLifecycle.t :=
  match unverified_high_risk m with
  | _ :: _ => ExtensionLifecycle.blocked
  | [] => match ExtensionManifest.lifecycle m with
          | ExtensionLifecycle.deprecated => ExtensionLifecycle.deprecated
          | ExtensionLifecycle.revoked => ExtensionLifecycle.revoked
          | _ => ExtensionLifecycle.proposed
          end
  end.
Definition named (m : ExtensionManifest.t) : string :=
  cat [ExtensionManifest.id m; "@"; ExtensionManifest.version m].

(** The checks of the declaration, up to its kind and trust. *)
Definition check_declaration (m : ExtensionManifest.t) (packageDigest : string) : outcome failure () :=
  let text value field := requireText value field ExtensionErrorCode.invalid_input in
  let provenance := ExtensionManifest.provenance m in
  _ ← text (ExtensionManifest.id m) "manifest.id";
  _ ← text (ExtensionManifest.name m) "manifest.name";
  _ ← text (ExtensionManifest.version m) "manifest.version";
  _ ← text (ExtensionManifest.source m) "manifest.source";
  _ ← text (ExtensionProvenance.source provenance) "manifest.provenance.source";
  _ ← text (ExtensionProvenance.publisher provenance) "manifest.provenance.publisher";
  _ ← text (ExtensionProvenance.receipt provenance) "manifest.provenance.receipt";
  _ ← assertDigest (ExtensionManifest.digest m) "manifest.digest";
  _ ← assertDigest packageDigest "packageDigest";
  if negb (String.eqb (ExtensionManifest.digest m) packageDigest) then
    Throw (error ExtensionErrorCode.digest_mismatch
      (cat ["Extension package digest does not match the manifest pin for "; named m; "."])
      (ExtensionManifest.id m)
      "fetch the exact package named by the manifest digest or publish a new manifest"
      (cat ["manifest="; ExtensionManifest.digest m; "; package="; packageDigest]))
  else if negb (String.eqb (ExtensionManifest.protocol m) CONTRACT_VERSIONS_extension)
          || negb (list_includes ALL_EXTENSION_KINDS (ExtensionManifest.kind m)) then
    Throw (error ExtensionErrorCode.manifest_invalid
      (cat ["Extension "; ExtensionManifest.id m; " does not declare a supported anyam.extension/v1 kind."])
      (ExtensionManifest.id m) "publish a manifest with a supported extension kind and protocol"
      (cat ["protocol="; ExtensionManifest.protocol m; "; kind="; ExtensionManifest.kind m]))
  else if negb (list_includes ALL_TRUST_LEVELS (ExtensionManifest.trust m)) then
    Throw (error ExtensionErrorCode.manifest_invalid
      (cat ["Extension "; ExtensionManifest.id m; " declares an unknown trust level."])
      (ExtensionManifest.id m) "declare first-party, verified, or unverified trust"
      (cat ["trust="; ExtensionManifest.trust m]))
  else Ok ().

Definition check_compatibility (m : ExtensionManifest.t) (kernelCompatibility compatibility : list string) :
    outcome failure () :=
  let missing := outside compatibility kernelCompatibility in
  let speaks := list_includes compatibility CONTRACT_VERSIONS_extension in
  if negb (bool_decide (missing = [])) || negb speaks then
    Throw (error ExtensionErrorCode.compatibility_mismatch
      (cat ["Extension "; named m; " is not compatible with the active Anyam contracts."])
      (ExtensionManifest.id m)
      (cat ["publish a manifest compatible with ";
            join ", " (kernelCompatibility ++ [CONTRACT_VERSIONS_extension])])
      (cat ["missing="; join "," (missing ++ (if speaks then [] else [CONTRACT_VERSIONS_extension]))]))
  else Ok ().

Definition normalize (m : ExtensionManifest.t) : ExtensionManifest.t :=
  m <| ExtensionManifest.lifecycle := registered_lifecycle m |>
    <| ExtensionManifest.provenance := ExtensionManifest.provenance m
         <| ExtensionProvenance.source := ExtensionManifest.source m |> |>.

(** The id and version of [m] with another digest. *)
Definition other_pin (m candidate : ExtensionManifest.t) : bool :=
  String.eqb (ExtensionManifest.id candidate) (ExtensionManifest.id m)
  && String.eqb (ExtensionManifest.version candidate) (ExtensionManifest.version m)
  && negb (String.eqb (ExtensionManifest.digest candidate) (ExtensionManifest.digest m)).

Definition registerManifest (input : RegisterExtensionInput.t) : P ExtensionManifest.t :=
  let manifest := RegisterExtensionInput.manifest input in
  lift (check_declaration manifest (RegisterExtensionInput.packageDigest input)) ;;
  compatibility ← lift (unique (ExtensionManifest.compatibility manifest) "manifest.compatibility");
  s ← get_own;
  lift (check_compatibility manifest (Registry.kernelCompatibility s) compatibility) ;;
  _ ← lift (unique (ExtensionManifest.requestedEffects manifest) "manifest.requestedEffects");
  _ ← lift (unique (ExtensionManifest.requestedCapabilities manifest) "manifest.requestedCapabilities");
  let unverifiedHighRisk := unverified_high_risk manifest in
  let normalized := normalize manifest in
  let blocked := bool_decide (ExtensionManifest.lifecycle normalized = ExtensionLifecycle.blocked) in
  let key := manifestKey (ExtensionManifest.id normalized) (ExtensionManifest.version normalized)
               (ExtensionManifest.digest normalized) in
  match omap_get key (Registry.manifests s) with
  | Some existing => mret existing
  | None =>
      throw_if (existsb (other_pin normalized) (omap_values (Registry.manifests s)))
        (error ExtensionErrorCode.digest_mismatch
           (cat ["Extension "; named normalized; " is already registered with another digest."])
           (ExtensionManifest.id normalized)
           "publish a new version instead of mutating an existing package pin"
           "immutable extension version pin") ;;
      modify_own (λ s, s <| Registry.manifests := omap_set key normalized (Registry.manifests s) |>) ;;
      event (event_input
        (if blocked then ExtensionEventKind.blocked else ExtensionEventKind.registered)
        None (ExtensionManifest.id normalized) None
        (if blocked then cat ["unverified extension requests high-risk effects: "; join ", " unverifiedHighRisk]
         else "manifest accepted for review")
        (cat ["manifest="; named normalized; "; digest="; ExtensionManifest.digest normalized; "; trust=";
              ExtensionManifest.trust normalized])) ;;
      mret normalized
  end.

(** ** Installation *)

Definition set_installation (installation : ExtensionInstallation.t) : P () :=
  modify_own (λ s, s <| Registry.installations :=
    omap_set (ExtensionInstallation.id installation) installation (Registry.installations s) |>).

(** [values.find((candidate) => candidate === capability || candidate.replaceAll("-", ".") === capability)]. *)
Definition effect_of (capability : Capability.t) (effects : list string) : option string :=
  find_first (λ candidate, String.eqb candidate (Capability.show capability)
    || String.eqb (replace_char "-"%char "."%char candidate) (Capability.show capability)) effects.

Definition installable (lifecycle : ExtensionLifecycle.t) : bool :=
  match lifecycle with
  | ExtensionLifecycle.blocked | ExtensionLifecycle.deprecated | ExtensionLifecycle.revoked => false
  | _ => true
  end.

Definition install (input : InstallExtensionInput.t) : P ExtensionInstallation.t :=
  let authorization := InstallExtensionInput.authorization input in
  let scope := InstallExtensionInput.scope input in
  found ← getManifest (InstallExtensionInput.manifestId input)
            (Some (InstallExtensionInput.manifestVersion input))
            (Some (InstallExtensionInput.packageDigest input));
  manifest ← require found (fail ExtensionErrorCode.manifest_not_found (InstallExtensionInput.manifestId input)
    "install the exact registered manifest and package digest before granting it"
    (cat ["manifest="; InstallExtensionInput.manifestId input; "@"; InstallExtensionInput.manifestVersion input;
          "; digest="; InstallExtensionInput.packageDigest input]));
  throw_if (negb (installable (ExtensionManifest.lifecycle manifest)))
    (fail ExtensionErrorCode.lifecycle_blocked (ExtensionManifest.id manifest)
       "use an enabled, non-deprecated extension manifest or register a replacement"
       (cat ["lifecycle="; ExtensionLifecycle.show (ExtensionManifest.lifecycle manifest)])) ;;
  validateScope scope ;;
  throw_if (negb (scopeContains scope (ExtensionAuthorization.resource authorization)))
    (fail ExtensionErrorCode.scope_mismatch (ExtensionManifest.id manifest)
       "request installation against a Resource inside the declared Realm/Organization/Project scope"
       (cat ["scope="; ExtensionScope.kind scope; "; resource-project=";
             default "none" (ResourceRef.projectId (ExtensionAuthorization.resource authorization))])) ;;
  grantedEffects ← lift (unique (InstallExtensionInput.grantedEffects input) "grantedEffects");
  grantedCapabilities ← lift (unique (Capability.show <$> InstallExtensionInput.grantedCapabilities input)
                                "grantedCapabilities");
  let missingEffects := outside (ExtensionManifest.requestedEffects manifest) grantedEffects in
  let missingCapabilities := outside (ExtensionManifest.requestedCapabilities manifest) grantedCapabilities in
  throw_if (negb (bool_decide (missingEffects = [])) || negb (bool_decide (missingCapabilities = [])))
    (fail ExtensionErrorCode.grant_widening (ExtensionManifest.id manifest)
       "grant only effects and capabilities declared by the pinned manifest"
       (cat ["missing-effects="; join "," missingEffects; "; missing-capabilities=";
             join "," missingCapabilities])) ;;
  throw_if (list_includes grantedEffects "canonical.write"
            || list_includes grantedCapabilities "landing.request"
               && list_includes grantedEffects "canonical.write")
    (fail ExtensionErrorCode.trust_boundary (ExtensionManifest.id manifest)
       "extensions publish a proposal; trusted Landing authority performs canonical writes"
       (cat ["canonical-write="; if list_includes grantedEffects "canonical.write" then "true" else "false"])) ;;
  authorize authorization "extension.install" Capability.extension_install (scopeResource scope)
    (Some "extension.install") ;;
  for_each (InstallExtensionInput.grantedCapabilities input) (λ capability,
    authorize authorization (cat ["extension.grant."; Capability.show capability]) capability
      (ExtensionAuthorization.resource authorization)
      (Some (default (Capability.show capability) (effect_of capability grantedEffects))) ;;
    mret ()) ;;
  installedAt ← nowIso other_error;
  id ← opaqueId "extension-installation";
  realm ← get_policy;
  s ← get_own;
  let replaced := truthy_opt (InstallExtensionInput.replacesInstallationId input) in
  lineageId ← match ExtensionInstallation.lineageId <$>
                      (replaced ≫= λ i, omap_get i (Registry.installations s)) with
              | Some lineageId => mret lineageId
              | None => opaqueId "extension-lineage"
              end;
  let policyVersion := Realm.policyVersion (ps_realm realm) in
  let epoch := Realm.authorizationEpoch (ps_realm realm) in
  let installation := {|
    ExtensionInstallation.id := id;
    ExtensionInstallation.manifestId := ExtensionManifest.id manifest;
    ExtensionInstallation.manifestVersion := ExtensionManifest.version manifest;
    ExtensionInstallation.manifestDigest := ExtensionManifest.digest manifest;
    ExtensionInstallation.scope := scope;
    ExtensionInstallation.lifecycle := ExtensionLifecycle.enabled;
    ExtensionInstallation.grantedEffects := grantedEffects;
    ExtensionInstallation.grantedCapabilities := grantedCapabilities;
    ExtensionInstallation.grantId := ExtensionAuthorization.grantId authorization;
    ExtensionInstallation.policyVersion := policyVersion;
    ExtensionInstallation.authorizationEpoch := epoch;
    ExtensionInstallation.installedBy := actorRef authorization;
    ExtensionInstallation.installedAt := installedAt;
    ExtensionInstallation.lineageId := lineageId;
    ExtensionInstallation.replacesInstallationId := replaced;
    ExtensionInstallation.providerMigrationFrom :=
      truthy_opt (InstallExtensionInput.providerMigrationFrom input);
    ExtensionInstallation.receipt := default
      (cat ["manifest="; named manifest; "; digest="; ExtensionManifest.digest manifest; "; scope=";
            ExtensionScope.kind scope; "; policy="; policyVersion; "; epoch="; pretty epoch])
      (InstallExtensionInput.receipt input) |} in
  set_installation installation ;;
  let record kind reason receipt :=
    event (event_input kind (Some id) (ExtensionManifest.id manifest) (Some (actorRef authorization)) reason receipt) in
  record ExtensionEventKind.install_requested
    "extension installation authorized against current Capability Grant and policy"
    (cat ["installation="; id; "; grant=intersection"]) ;;
  record ExtensionEventKind.installed "exact package digest and scoped grant recorded"
    (ExtensionInstallation.receipt installation) ;;
  record ExtensionEventKind.enabled "installation enabled only after policy intersection"
    (cat ["installation="; id; "; lifecycle=enabled"]) ;;
  mret installation.

Definition replace (input : ReplaceExtensionInput.t) : P ExtensionInstallation.t :=
  let authorization := ReplaceExtensionInput.authorization input in
  let replacement := ReplaceExtensionInput.replacement input in
  let migration := bool_decide (ReplaceExtensionInput.providerMigration input = Some true) in
  current ← requireInstallation (ReplaceExtensionInput.installationId input);
  currentManifest ← requireManifest (ExtensionInstallation.manifestId current)
    (ExtensionInstallation.manifestVersion current) (ExtensionInstallation.manifestDigest current);
  let scope := ExtensionInstallation.scope current in
  throw_if (negb (scopeContains scope (ExtensionAuthorization.resource authorization)))
    (fail ExtensionErrorCode.scope_mismatch (ExtensionInstallation.id current)
       "replace an extension from the same or narrower installation scope"
       (cat ["current-scope="; ExtensionScope.kind scope; "; resource-project=";
             default "none" (ResourceRef.projectId (ExtensionAuthorization.resource authorization))])) ;;
  authorize authorization "extension.replace" Capability.extension_manage (scopeResource scope)
    (Some "extension.replace") ;;
  let kept := InstallExtensionInput.scope replacement in
  throw_if (negb (String.eqb (ExtensionScope.kind kept) (ExtensionScope.kind scope))
            || negb (String.eqb (ExtensionScope.realm_id kept) (ExtensionScope.realm_id scope)))
    (fail ExtensionErrorCode.scope_mismatch (ExtensionInstallation.id current)
       "replacement must remain in the same Realm and scope class"
       (cat ["current="; ExtensionScope.kind scope; "; replacement="; ExtensionScope.kind kept])) ;;
  next ← install (replacement
    <| InstallExtensionInput.authorization := authorization |>
    <| InstallExtensionInput.replacesInstallationId := Some (ExtensionInstallation.id current) |>
    <| InstallExtensionInput.providerMigrationFrom :=
         if migration then Some (ExtensionManifest.source currentManifest) else None |>);
  set_installation (current <| ExtensionInstallation.lifecycle := ExtensionLifecycle.replaced |>) ;;
  event (event_input
      (if migration then ExtensionEventKind.provider_migrated else ExtensionEventKind.replaced)
      (Some (ExtensionInstallation.id current)) (ExtensionInstallation.manifestId current)
      (Some (actorRef authorization)) (ReplaceExtensionInput.reason input)
      (cat ["previous="; ExtensionInstallation.id current; "; next="; ExtensionInstallation.id next;
            "; lineage="; ExtensionInstallation.lineageId next])
    <| ExtensionEvent.previousInstallationId := Some (ExtensionInstallation.id current) |>
    <| ExtensionEvent.nextInstallationId := Some (ExtensionInstallation.id next) |>) ;;
  mret next.
Definition migrateProvider (input : ReplaceExtensionInput.t) : P ExtensionInstallation.t :=
  replace (input <| ReplaceExtensionInput.providerMigration := Some true |>).

Definition transition (input : ExtensionTransitionInput.t) (to : Retirement.t) : P ExtensionInstallation.t :=
  let authorization := ExtensionTransitionInput.authorization input in
  let shown := ExtensionLifecycle.show (Retirement.lifecycle to) in
  installation ← requireInstallation (ExtensionTransitionInput.installationId input);
  authorize authorization (cat ["extension."; shown]) Capability.extension_manage
    (scopeResource (ExtensionInstallation.scope installation)) (Some (cat ["extension."; shown])) ;;
  throw_if (bool_decide (ExtensionInstallation.lifecycle installation = ExtensionLifecycle.replaced)
            || bool_decide (ExtensionInstallation.lifecycle installation = ExtensionLifecycle.revoked))
    (fail ExtensionErrorCode.lifecycle_blocked (ExtensionInstallation.id installation)
       "transition only an active installation and preserve its prior lineage"
       (cat ["lifecycle="; ExtensionLifecycle.show (ExtensionInstallation.lifecycle installation)])) ;;
  let installation := installation <| ExtensionInstallation.lifecycle := Retirement.lifecycle to |> in
  set_installation installation ;;
  event (event_input (Retirement.event to) (Some (ExtensionInstallation.id installation))
    (ExtensionInstallation.manifestId installation) (Some (actorRef authorization))
    (ExtensionTransitionInput.reason input)
    (cat ["installation="; ExtensionInstallation.id installation; "; lifecycle="; shown; "; lineage=";
          ExtensionInstallation.lineageId installation])) ;;
  mret installation.
Definition deprecate (input : ExtensionTransitionInput.t) : P ExtensionInstallation.t :=
  transition input Retirement.deprecated.
Definition suspend (input : ExtensionTransitionInput.t) : P ExtensionInstallation.t :=
  transition input Retirement.suspended.
Definition revoke (input : ExtensionTransitionInput.t) : P ExtensionInstallation.t :=
  transition input Retirement.revoked.

(** ** Invocation *)

Definition blockedInvocation (input : InvokeExtensionInput.t) (installation : ExtensionInstallation.t)
    (code : ExtensionErrorCode.t) (nextAction : string) (explanations : list PolicyExplanation.t) :
    P ExtensionInvocationResult.t :=
  let id := ExtensionInstallation.id installation in
  let effects := InvokeExtensionInput.requestedEffects input in
  let capabilities := InvokeExtensionInput.requestedCapabilities input in
  let receipt := cat ["installation="; id; "; status=blocked; code="; ExtensionErrorCode.show code;
    "; requested-effects="; join "," effects; "; requested-capabilities=";
    join "," (Capability.show <$> capabilities)] in
  event (event_input ExtensionEventKind.invocation_blocked (Some id)
    (ExtensionInstallation.manifestId installation)
    (Some (actorRef (InvokeExtensionInput.authorization input))) nextAction receipt) ;;
  mret (ExtensionInvocationResult.mk ExtensionInvocationStatus.blocked id effects capabilities explanations
          nextAction receipt).

(** The policy on each requested capability in turn: the explanations, up to the
    first that it denies, or whose evaluation throws. *)
Definition message_of (e : failure) : string :=
  match e with extension_error e => ExtensionError.message e | other_error m => m end.
Definition explanation_of (e : failure) : list PolicyExplanation.t :=
  match e with extension_error e => option_list (ExtensionError.explanation e) | other_error _ => [] end.
Fixpoint authorize_each (input : InvokeExtensionInput.t) (capabilities : list Capability.t)
    (explanations : list PolicyExplanation.t) :
    P (list PolicyExplanation.t + string * list PolicyExplanation.t) :=
  match capabilities with
  | [] => mret (inl explanations)
  | capability :: capabilities =>
      answer ← try_catch
        (explanation ← authorize (InvokeExtensionInput.authorization input)
           (default (cat ["extension.invoke."; Capability.show capability])
              (InvokeExtensionInput.operation input))
           capability (InvokeExtensionInput.resource input)
           (truthy_opt (effect_of capability (InvokeExtensionInput.requestedEffects input)));
         mret (inl explanation))
        (λ e, mret (inr e));
      match answer with
      | inl explanation => authorize_each input capabilities (explanations ++ [explanation])
      | inr e => mret (inr (message_of e, explanations ++ explanation_of e))
      end
  end.

Definition is_proposal (input : InvokeExtensionInput.t) : bool :=
  existsb (λ c, bool_decide (c ∈ KERNEL_AUTHORITY_CAPABILITIES))
    (InvokeExtensionInput.requestedCapabilities input).
Definition missing_effects (input : InvokeExtensionInput.t) (installation : ExtensionInstallation.t)
    (manifest : ExtensionManifest.t) : list string :=
  base.filter (λ e, e ∉ ExtensionInstallation.grantedEffects installation
                    ∨ e ∉ ExtensionManifest.requestedEffects manifest)
    (InvokeExtensionInput.requestedEffects input).
Definition missing_capabilities (input : InvokeExtensionInput.t) (installation : ExtensionInstallation.t)
    (manifest : ExtensionManifest.t) : list string :=
  base.filter (λ c, c ∉ ExtensionInstallation.grantedCapabilities installation
                    ∨ c ∉ ExtensionManifest.requestedCapabilities manifest)
    (Capability.show <$> InvokeExtensionInput.requestedCapabilities input).

Definition invoke (input : InvokeExtensionInput.t) : P ExtensionInvocationResult.t :=
  installation ← requireInstallation (InvokeExtensionInput.installationId input);
  manifest ← requireManifest (ExtensionInstallation.manifestId installation)
    (ExtensionInstallation.manifestVersion installation) (ExtensionInstallation.manifestDigest installation);
  requestedEffects ← lift (unique (InvokeExtensionInput.requestedEffects input) "requestedEffects");
  requestedCapabilities ← lift (unique (Capability.show <$> InvokeExtensionInput.requestedCapabilities input)
                                  "requestedCapabilities");
  let block code nextAction := blockedInvocation input installation code nextAction [] in
  if negb (scopeContains (ExtensionInstallation.scope installation) (InvokeExtensionInput.resource input)) then
    block ExtensionErrorCode.scope_mismatch "invoke only against a resource inside the installation scope"
  else if negb (bool_decide (ExtensionInstallation.lifecycle installation = ExtensionLifecycle.enabled)) then
    block ExtensionErrorCode.lifecycle_blocked
      (cat ["installation lifecycle is "; ExtensionLifecycle.show (ExtensionInstallation.lifecycle installation);
            "; use an enabled replacement"])
  else if list_includes requestedCapabilities "secret.value.read" then
    block ExtensionErrorCode.trust_boundary
      "Secret Use may invoke a brokered operation; extension processes never receive raw secret values"
  else
    let missingEffects := missing_effects input installation manifest in
    let missingCapabilities := missing_capabilities input installation manifest in
    if negb (bool_decide (missingEffects = [])) || negb (bool_decide (missingCapabilities = [])) then
      block ExtensionErrorCode.grant_widening
        (cat ["missing granted effects="; join "," missingEffects; "; capabilities="; join "," missingCapabilities])
    else
      answers ← authorize_each input (InvokeExtensionInput.requestedCapabilities input) [];
      match answers with
      | inr (message, explanations) =>
          blockedInvocation input installation ExtensionErrorCode.policy_denied message explanations
      | inl explanations =>
          realm ← get_policy;
          let proposal := is_proposal input in
          let status := if proposal then ExtensionInvocationStatus.proposal
                        else ExtensionInvocationStatus.allowed in
          let nextAction :=
            if proposal
            then "submit the normalized proposal to the trusted Anyam authority; the extension cannot apply the protected transition"
            else "execute only the declared effect inside the assigned Runner or provider boundary" in
          let receipt := cat ["installation="; ExtensionInstallation.id installation; "; manifest="; named manifest;
            "; digest="; ExtensionManifest.digest manifest; "; status="; ExtensionInvocationStatus.show status;
            "; policy="; Realm.policyVersion (ps_realm realm); "; epoch=";
            pretty (Realm.authorizationEpoch (ps_realm realm))] in
          event (event_input
            (if proposal then ExtensionEventKind.invocation_proposed else ExtensionEventKind.invoked)
            (Some (ExtensionInstallation.id installation)) (ExtensionManifest.id manifest)
            (Some (actorRef (InvokeExtensionInput.authorization input))) nextAction receipt) ;;
          mret (ExtensionInvocationResult.mk status (ExtensionInstallation.id installation) requestedEffects
            (InvokeExtensionInput.requestedCapabilities input) explanations nextAction receipt)
      end.
End registry.
