(* ===== verification/ExtensionsFacts.v ===== *)
(** What the extension registry guarantees, whatever policy service it is given
    ([PolicyLaws]): the consistency of its records along every sequence of calls,
    the conditions of an installation and of an invocation, and the lineage of a
    replacement. *)

From S2P Require Import Prelude Contracts Identity IdentityPolicy IdentityFacts PolicyService Extensions.

(** * Manifests and pins *)

(** The manifest is the one of the id, version and digest. *)
Definition pins (id version digest : string) (m : ExtensionManifest.t) : Prop :=
  ExtensionManifest.id m = id ∧ ExtensionManifest.version m = version ∧ ExtensionManifest.digest m = digest.

Record manifest_ok (k : string) (m : ExtensionManifest.t) : Prop := {
  mf_key : k = manifestKey (ExtensionManifest.id m) (ExtensionManifest.version m) (ExtensionManifest.digest m);
  mf_version : ExtensionManifest.version m ≠ "";
  mf_digest : ExtensionManifest.digest m ≠ "";
  mf_kind : ExtensionManifest.kind m ∈ ALL_EXTENSION_KINDS;
  mf_trust : ExtensionManifest.trust m ∈ ALL_TRUST_LEVELS;
  mf_risk : installable (ExtensionManifest.lifecycle m) = true → ExtensionManifest.trust m = "unverified" →
    ∀ e, e ∈ ExtensionManifest.requestedEffects m ++ ExtensionManifest.requestedCapabilities m →
    e ∉ HIGH_RISK_EFFECTS;
}.

(** What an installation took from its manifest, which was installable. *)
Record narrows (i : ExtensionInstallation.t) (m : ExtensionManifest.t) : Prop := {
  nr_pin : pins (ExtensionInstallation.manifestId i) (ExtensionInstallation.manifestVersion i)
             (ExtensionInstallation.manifestDigest i) m;
  nr_installable : installable (ExtensionManifest.lifecycle m) = true;
  nr_effects : ExtensionInstallation.grantedEffects i ⊆ ExtensionManifest.requestedEffects m;
  nr_capabilities : ExtensionInstallation.grantedCapabilities i ⊆ ExtensionManifest.requestedCapabilities m;
  nr_write : "canonical.write" ∉ ExtensionInstallation.grantedEffects i;
}.

Definition registered (s : Registry.t) (m : ExtensionManifest.t) : Prop :=
  omap_get (manifestKey (ExtensionManifest.id m) (ExtensionManifest.version m) (ExtensionManifest.digest m))
    (Registry.manifests s) = Some m.

Record installation_ok `{HH : Host} (realmId : string) (w : World) (s : Registry.t) (k : string)
    (i : ExtensionInstallation.t) : Prop := {
  in_id : ExtensionInstallation.id i = k;
  in_drawn : drawn "extension-installation" w k;
  in_realm : ExtensionScope.realm_id (ExtensionInstallation.scope i) = realmId;
  in_manifest : ∃ m, registered s m ∧ narrows i m;
}.

Record registry_ok `{HH : Host} (realmId : string) (w : World) (s : Registry.t) : Prop := {
  rg_wf : omap_wf (Registry.manifests s);
  rg_manifests : omap_all manifest_ok (Registry.manifests s);
  rg_digests : ∀ m m', registered s m → registered s m' →
    ExtensionManifest.id m = ExtensionManifest.id m' → ExtensionManifest.version m = ExtensionManifest.version m' →
    m = m';
  rg_installations : omap_all (installation_ok realmId w s) (Registry.installations s);
}.

Lemma lookup_registered k m s :
  omap_all manifest_ok (Registry.manifests s) → omap_get k (Registry.manifests s) = Some m → registered s m.
Proof. intros Hm Hk. unfold registered. by rewrite <-(mf_key _ _ (Hm _ _ Hk)). Qed.
Lemma value_registered m s : omap_wf (Registry.manifests s) → omap_all manifest_ok (Registry.manifests s) →
  m ∈ omap_values (Registry.manifests s) ↔ registered s m.
Proof.
intros Hwf Hm. split; [|by apply omap_get_value].
intros (k & Hk)%omap_value_get; [|done]. by eapply lookup_registered.
Qed.

Lemma find_manifest_spec id v d s m : find_manifest id v d s = Some m →
  m ∈ omap_values (Registry.manifests s) ∧ ExtensionManifest.id m = id ∧
  (∀ x, truthy_opt v = Some x → ExtensionManifest.version m = x) ∧
  (∀ x, truthy_opt d = Some x → ExtensionManifest.digest m = x).
Proof.
unfold find_manifest. intros [l Hl]%head_Some. assert (m ∈ m :: l) as Hin by left. rewrite <-Hl in Hin. clear Hl.
assert (∀ (o : option string) (f : ExtensionManifest.t → string) (l : list ExtensionManifest.t),
  m ∈ match o with Some x => base.filter (λ m, f m = x) l | None => l end →
  m ∈ l ∧ ∀ x, o = Some x → f m = x) as Hopt.
{ intros [x|] f l'; [rewrite list_elem_of_filter|]; naive_solver. }
apply Hopt in Hin as [Hin Hd]. apply Hopt in Hin as [Hin Hv]. apply list_elem_of_filter in Hin as [-> Hin]. done.
Qed.
(** An exact pin finds the registered manifest and no other. *)
Lemma find_pinned s m : omap_wf (Registry.manifests s) → omap_all manifest_ok (Registry.manifests s) →
  registered s m →
  find_manifest (ExtensionManifest.id m) (Some (ExtensionManifest.version m)) (Some (ExtensionManifest.digest m)) s = Some m.
Proof.
intros Hwf Hm Hr. destruct (Hm _ _ Hr) as [_ Hv Hd _ _ _].
destruct (find_manifest _ _ _ s) as [m'|] eqn:Hf.
- apply find_manifest_spec in Hf as (Hin & Hi & Hv' & Hd'). specialize (Hv' _ (truthy_Some _ Hv)). specialize (Hd' _ (truthy_Some _ Hd)).
  apply value_registered in Hin; [|done..]. unfold registered in *. rewrite Hi, Hv', Hd' in Hin. congruence.
- exfalso. unfold find_manifest in Hf. rewrite (truthy_Some _ Hv), (truthy_Some _ Hd), head_None in Hf.
  refine (not_elem_of_nil m _). rewrite <-Hf. rewrite !list_elem_of_filter. by apply omap_get_value in Hr.
Qed.
Lemma registered_extends s s' m : extends (Registry.manifests s) (Registry.manifests s') → registered s m → registered s' m.
Proof. intros He. apply He. Qed.

(** * One call

    Manifests and events are kept as they are, installations but for a lifecycle
    that ends; what is new comes under fresh ids. *)

Definition retired (l : ExtensionLifecycle.t) : Prop :=
  l = ExtensionLifecycle.suspended ∨ l = ExtensionLifecycle.deprecated ∨
  l = ExtensionLifecycle.replaced ∨ l = ExtensionLifecycle.revoked.
Definition same_installation (i i' : ExtensionInstallation.t) : Prop :=
  i' = i <| ExtensionInstallation.lifecycle := ExtensionInstallation.lifecycle i' |> ∧
  (ExtensionInstallation.lifecycle i' = ExtensionInstallation.lifecycle i ∨
   retired (ExtensionInstallation.lifecycle i')).
#[export] Instance same_installation_preorder : PreOrder same_installation.
Proof.
split; [intros []; split; [done|by left]|]. intros x y z [Hy Ay] [Hz Az]. split.
- etrans; [exact Hz|]. rewrite Hy. by destruct x.
- destruct Az as [->|]; auto.
Qed.

Record registry_evolves (s s' : Registry.t) : Prop := {
  re_manifests : extends (Registry.manifests s) (Registry.manifests s');
  re_installations : grows same_installation (λ _, True) (Registry.installations s) (Registry.installations s');
  re_events : Registry.events s `prefix_of` Registry.events s';
  re_kernel : Registry.kernelCompatibility s' = Registry.kernelCompatibility s;
}.
#[export] Instance registry_evolves_preorder : PreOrder registry_evolves.
Proof.
split; [intros s; split; [done| |done..]; apply grows_refl, _|].
intros s1 s2 s3 [] []. split; [by etrans| |by etrans|congruence]. eapply grows_trans; [apply _|done..].
Qed.

Section facts.
Context `{HH : Host} `{DH : RealmHost} {R : Type} `{PS : PolicyService R} `{PL : !PolicyLaws R}.
#[local] Abbreviation Sys := (Client R Registry.t).
#[local] Abbreviation P := (M Sys failure).
Implicit Types (w : World) (c : Sys).

Definition realm_of c : string := Realm.id (ps_realm (policy c)).
Record sys_ok w c : Prop := {
  so_policy : ps_ok w (policy c);
  so_registry : registry_ok (realm_of c) w (own c);
}.
Record sys_next w c w' c' : Prop := {
  sn_policy : ps_next w (policy c) w' (policy c');
  sn_evolves : registry_evolves (own c) (own c');
  sn_ok : sys_ok w' c';
}.
(** A stretch of a call that asks the policy and records events, and nothing else. *)
Record calm w c w' c' : Prop := {
  cm_policy : ps_next w (policy c) w' (policy c');
  cm_own : ∃ es, own c' = own c <| Registry.events := Registry.events (own c) ++ es |>;
}.

Lemma calm_refl w c : ps_ok w (policy c) → calm w c w c.
Proof. intros Hc. split; [by apply ps_next_refl|]. exists []. rewrite app_nil_r. by destruct (own c). Qed.
Lemma calm_trans w1 c1 w2 c2 w3 c3 : calm w1 c1 w2 c2 → calm w2 c2 w3 c3 → calm w1 c1 w3 c3.
Proof.
intros [P1 [e1 O1]] [P2 [e2 O2]]. split; [by eapply ps_next_trans|]. exists (e1 ++ e2). rewrite O2, O1.
simpl. by rewrite app_assoc.
Qed.
Lemma calm_ok w c w' c' : calm w c w' c' → ps_ok w' (policy c').
Proof. intros [Hp _]. by eapply ps_next_ok. Qed.
Lemma calm_passes w c w' c' : calm w c w' c' → passes w w'.
Proof. intros [Hp _]. by eapply ps_next_passes. Qed.
Lemma calm_draw w c w' : ps_ok w (policy c) → passes w w' → calm w c w' c.
Proof.
intros Hc Hw. split; [by apply ps_next_draw|]. exists []. rewrite app_nil_r. by destruct (own c).
Qed.
Lemma calm_registry w c w' c' : calm w c w' c' →
  Registry.manifests (own c') = Registry.manifests (own c) ∧
  Registry.installations (own c') = Registry.installations (own c) ∧
  Registry.kernelCompatibility (own c') = Registry.kernelCompatibility (own c).
Proof. intros [_ [es ->]]. done. Qed.

Lemma installation_ok_passes r w w' s s' k i :
  passes w w' → extends (Registry.manifests s) (Registry.manifests s') →
  installation_ok r w s k i → installation_ok r w' s' k i.
Proof.
intros [Hw _] He [Hi Hd Hr (m & Hm & Hn)]. split; [done|by eapply drawn_mono|done|].
exists m. split; [by eapply registered_extends|done].
Qed.
Lemma registry_ok_passes r w w' s : passes w w' → registry_ok r w s → registry_ok r w' s.
Proof.
intros Hw [H1 H2 H3 H4]. split; [done..|]. intros k i Hk. eapply installation_ok_passes; [done| |by apply H4]. done.
Qed.
Lemma next_refl_sys w c : sys_ok w c → sys_next w c w c.
Proof. intros Hc. split; [apply ps_next_refl, Hc|done|done]. Qed.
Lemma next_trans_sys w1 c1 w2 c2 w3 c3 : sys_next w1 c1 w2 c2 → sys_next w2 c2 w3 c3 → sys_next w1 c1 w3 c3.
Proof. intros [P1 E1 _] [P2 E2 O2]. split; [by eapply ps_next_trans|by etrans|done]. Qed.
Lemma next_calm w c w' c' : sys_ok w c → calm w c w' c' → sys_next w c w' c'.
Proof.
intros [Hp Hr] Hc. pose proof Hc as [Hn (es & Ho)]. split; [done| |].
- rewrite Ho. split; simpl; [done|apply grows_refl, _|by eexists|done].
- split; [by eapply ps_next_ok|]. unfold realm_of. rewrite (ps_next_realm _ _ _ _ Hn), Ho.
  eapply registry_ok_passes in Hr; [|by eapply calm_passes].
  destruct Hr as [H1 H2 H3 H4]. split; [done..|]. intros k i Hk. by eapply installation_ok_passes; [| |by apply H4].
Qed.

(** ** The shared steps *)

Lemma wp_event e Q X w c : ps_ok w (policy c) →
  (∀ w' c', calm w c w' c' → Q () w' c') →
  (∀ w', calm w c w' c → X (other_error invalid_time) w' c) → wp (event e : P ()) Q X w c.
Proof.
intros Hc HQ HX. unfold event. wp_step. apply wp_opaqueId. cbv beta. wp_step. apply wp_nowIso_client.
- intros t w' [Hu Ht]. simpl in *. client_step. apply HQ. split; simpl; [|by eexists].
  apply ps_next_draw; [done|split; simpl in *; lia].
- intros w' [Hu Ht]. apply HX, calm_draw; [done|split; simpl in *; lia].
Qed.

Lemma wp_permission_or a op cap res eff Q X w c : ps_ok w (policy c) →
  let request := asPolicyInput a op cap res eff in
  (∀ x w' c', calm w c w' c' → ps_permits w (policy c) request → Q x w' c') →
  (∀ e w' c', calm w c w' c' → refuses w (policy c) request → X e w' c') →
  wp (authorize a op cap res eff : P _) Q X w c.
Proof.
intros Hc request HQ HX. assert (∀ w' r', ps_next w (policy c) w' r' → calm w c w' (mkClient r' (own c))) as Hcalm.
{ intros w' r' Hn. split; [done|]. exists []. simpl. rewrite app_nil_r. by destruct (own c). }
unfold authorize. wp_step. apply wp_ask; [done| |by intros e w' r' Hn Hr; apply HX; [apply Hcalm|]].
intros d w' r' Hn Hp Hr. cbv zeta. wp_step.
wp_step; [apply HX; [by apply Hcalm|]; by apply Hr, negb_true_iff|].
wp_step. apply HQ; [by apply Hcalm|]. by apply Hp, negb_false_iff.
Qed.
Lemma wp_permission a op cap res eff Q X w c : ps_ok w (policy c) →
  (∀ x w' c', calm w c w' c' → ps_permits w (policy c) (asPolicyInput a op cap res eff) → Q x w' c') →
  (∀ e w' c', calm w c w' c' → X e w' c') → wp (authorize a op cap res eff : P _) Q X w c.
Proof. intros Hc HQ HX. apply wp_permission_or; [done|done|]. intros e w' c' Hcalm _. by apply HX. Qed.

Lemma wp_requireInstallation id Q X w c :
  (∀ i, omap_get id (Registry.installations (own c)) = Some i → Q i w c) → (∀ e, X e w c) →
  wp (requireInstallation id : P _) Q X w c.
Proof.
intros HQ HX. unfold requireInstallation, getInstallation. wp_step. wp_step. client_step. wp_step.
wp_step; [apply HX|auto].
Qed.
(** The manifest of an installation is always found. *)
Lemma wp_requireManifest r k i Q X w c :
  registry_ok r w (own c) → omap_get k (Registry.installations (own c)) = Some i →
  (∀ m, registered (own c) m → narrows i m → Q m w c) →
  wp (requireManifest (ExtensionInstallation.manifestId i) (ExtensionInstallation.manifestVersion i)
        (ExtensionInstallation.manifestDigest i) : P _) Q X w c.
Proof.
intros Hr Hi HQ. destruct (in_manifest _ _ _ _ _ (rg_installations _ _ _ Hr _ _ Hi)) as (m & Hm & Hn).
pose proof Hn as [(Hid & Hv & Hd) _ _ _ _].
unfold requireManifest, getManifest. wp_step. wp_step. client_step. wp_step. rewrite <-Hid, <-Hv, <-Hd.
rewrite find_pinned by (by try apply Hr). by apply HQ.
Qed.

(** ** Registration *)

Lemma not_blank s : blank s = false → s ≠ "".
Proof. by intros Hb ->. Qed.
Lemma requireText_Ok v f code : requireText v f code = Ok () → blank v = false.
Proof. unfold requireText. by destruct (blank v). Qed.
Lemma check_declaration_Ok m d : check_declaration m d = Ok () →
  ExtensionManifest.version m ≠ "" ∧ ExtensionManifest.digest m ≠ "" ∧ ExtensionManifest.digest m = d ∧
  ExtensionManifest.kind m ∈ ALL_EXTENSION_KINDS ∧ ExtensionManifest.trust m ∈ ALL_TRUST_LEVELS.
Proof.
unfold check_declaration, assertDigest. cbv zeta. intros Hc. bind_inv.
repeat match goal with u : () |- _ => destruct u | H : requireText _ _ _ = Ok _ |- _ => apply requireText_Ok in H end.
destruct (String.eqb_spec (ExtensionManifest.digest m) d); [|done]. simpl in Hc.
destruct (String.eqb (ExtensionManifest.protocol m) _); [|done].
destruct (list_includes ALL_EXTENSION_KINDS _) eqn:Hk; [|done].
destruct (list_includes ALL_TRUST_LEVELS _) eqn:Ht; [|done]. rewrite list_includes_spec in Hk, Ht.
split_and!; [by apply not_blank..|done|done|done].
Qed.
Lemma risk_of_registered m : installable (registered_lifecycle m) = true → ExtensionManifest.trust m = "unverified" →
  ∀ e, e ∈ ExtensionManifest.requestedEffects m ++ ExtensionManifest.requestedCapabilities m → e ∉ HIGH_RISK_EFFECTS.
Proof.
unfold registered_lifecycle, unverified_high_risk. intros Hi Ht e He Hrisk. rewrite Ht in Hi. simpl in Hi.
assert (e ∈ highRisk (ExtensionManifest.requestedEffects m ++ ExtensionManifest.requestedCapabilities m)) as Hin
  by (by apply list_elem_of_filter).
destruct (highRisk _) as [|x l]; [by apply elem_of_nil in Hin|done].
Qed.
Lemma normalize_ok m d : check_declaration m d = Ok () →
  manifest_ok (manifestKey (ExtensionManifest.id (normalize m)) (ExtensionManifest.version (normalize m))
    (ExtensionManifest.digest (normalize m))) (normalize m).
Proof. intros (? & ? & ? & ? & ?)%check_declaration_Ok. split; [done..|]. exact (risk_of_registered m). Qed.

Lemma registry_ok_manifest r w s m k : registry_ok r w s →
  k = manifestKey (ExtensionManifest.id m) (ExtensionManifest.version m) (ExtensionManifest.digest m) →
  manifest_ok k m → omap_get k (Registry.manifests s) = None →
  existsb (other_pin m) (omap_values (Registry.manifests s)) = false →
  registry_ok r w (s <| Registry.manifests := omap_set k m (Registry.manifests s) |>).
Proof.
intros [H1 H2 H3 H4] Hk Hm Hn Hpin. pose proof (proj1 (existsb_false_iff _ _) Hpin) as Hno.
assert (extends (Registry.manifests s) (omap_set k m (Registry.manifests s))) as He by (by apply extends_set_fresh).
assert (∀ m', registered s m' → ExtensionManifest.id m' = ExtensionManifest.id m →
  ExtensionManifest.version m' = ExtensionManifest.version m → False) as Hold.
{ intros m' Hm' Hid Hv. specialize (Hno m' (omap_get_value _ _ _ Hm')). unfold other_pin in Hno.
  rewrite Hid, Hv, !String.eqb_refl in Hno. simpl in Hno. apply negb_false_iff, String.eqb_eq in Hno.
  unfold registered in Hm'. rewrite Hid, Hv, Hno, <-Hk in Hm'. congruence. }
split; simpl; [by apply omap_set_wf|by apply omap_all_set| |].
- assert (∀ m', registered (s <| Registry.manifests := omap_set k m (Registry.manifests s) |>) m' →
    m' = m ∨ registered s m') as Hcase.
  { intros m'. unfold registered. simpl. rewrite omap_get_set. case_decide; [|auto]. intros [= ->]. by left. }
  intros m1 m2 [->|?]%Hcase [->|?]%Hcase Hid Hv; [done|exfalso; eauto..|by apply H3].
- intros k' i Hi. eapply installation_ok_passes; [|exact He|by apply H4]. done.
Qed.

Lemma wp_registerManifest input w c : sys_ok w c →
  wp (registerManifest input : P _) (λ m w' c', sys_next w c w' c' ∧ registered (own c') m)
    (λ _ w' c', sys_next w c w' c') w c.
Proof.
intros Hc. pose proof (next_refl_sys _ _ Hc) as Hrefl. unfold registerManifest. cbv zeta.
wp_step. wp_step; [|done]. wp_step. wp_step; [|done].
wp_step. client_step. do 3 (wp_step; wp_step; [|done]).
wp_step.
{ wp_step. split; [done|]. eapply lookup_registered; [apply Hc|done]. }
wp_step. wp_step; [done|]. destruct a. wp_step. client_step.
set (m := normalize _) in *. set (k := manifestKey _ _ _) in *.
assert (sys_next w c w (mkClient (policy c) (own c <| Registry.manifests :=
  omap_set k m (Registry.manifests (own c)) |>))) as Hn.
{ destruct Hc as [Hp Hr]. split; [by apply ps_next_refl| |].
  - split; simpl; [by apply extends_set_fresh|apply grows_refl, _|done..].
  - split; [done|]. apply registry_ok_manifest; [done..|by eapply normalize_ok|done|done]. }
wp_step. apply wp_event; [apply Hn| |].
- intros w' c' Hcalm. wp_step. split; [eapply next_trans_sys; [exact Hn|apply next_calm; [apply Hn|done]]|].
  unfold registered. rewrite (proj1 (calm_registry _ _ _ _ Hcalm)). apply omap_get_set_eq.
- intros w' Hcalm. eapply next_trans_sys; [exact Hn|apply next_calm; [apply Hn|done]].
Qed.

(** ** Installation *)

Lemma bool_decide_nil {A} (l : list A) `{Decision (l = [])} : negb (bool_decide (l = [])) = false ↔ l = [].
Proof. rewrite negb_false_iff. apply bool_decide_eq_true. Qed.
Lemma filter_empty {A} (P : A → Prop) `{∀ x, Decision (P x)} l : base.filter P l = [] ↔ ∀ x, x ∈ l → ¬ P x.
Proof.
split.
- intros Hf x Hx HP. by eapply (filter_nil_not_elem_of P l x).
- intros Hn. destruct (base.filter P l) as [|x k] eqn:Hf; [done|]. assert (x ∈ base.filter P l) as Hx by (rewrite Hf; left).
  apply list_elem_of_filter in Hx as [HP Hx]. by destruct (Hn x Hx).
Qed.
Lemma outside_nil l values : outside l values = [] ↔ values ⊆ l.
Proof.
unfold outside. rewrite filter_empty. split; intros Hs x Hx; [|by intros Hn; apply Hn, Hs].
destruct (decide (x ∈ l)) as [|Hn]; [done|]. by destruct (Hs x Hx).
Qed.
Lemma unique_accepts values field l : unique values field = Ok l → l = values ∧ NoDup values.
Proof.
unfold unique. destruct (existsb _ _); [done|]. destruct (has_duplicates values) eqn:Hd; [done|].
intros [= <-]. split; [done|by apply has_duplicates_spec].
Qed.

Lemma wp_validateScope scope Q X w c :
  (ExtensionScope.realm_id scope = realm_of c → Q () w c) → (∀ e, X e w c) →
  wp (validateScope scope : P ()) Q X w c.
Proof.
intros HQ HX. unfold validateScope. cbv zeta. wp_step. wp_step; [|apply HX]. wp_step.
match goal with |- wp _ ?K _ _ _ => set (cont := K) end.
assert (∀ u, cont u w c) as Hcont.
{ intros u. unfold cont. wp_step. client_step. wp_step; [apply HX|]. apply HQ. by apply String.eqb_eq, negb_false_iff. }
destruct scope as [r|r o|r [o|] p]; repeat wp_step; auto.
Qed.

(** The requests of an installation: to install in the scope, and one for each
    granted capability on the resource it names. *)
Definition install_request (input : InstallExtensionInput.t) : PolicyEvaluationInput.t :=
  asPolicyInput (InstallExtensionInput.authorization input) "extension.install" Capability.extension_install
    (scopeResource (InstallExtensionInput.scope input)) (Some "extension.install").
Definition grant_request (input : InstallExtensionInput.t) (cap : Capability.t) : PolicyEvaluationInput.t :=
  asPolicyInput (InstallExtensionInput.authorization input) (cat ["extension.grant."; Capability.show cap]) cap
    (ExtensionAuthorization.resource (InstallExtensionInput.authorization input))
    (Some (default (Capability.show cap) (effect_of cap (InstallExtensionInput.grantedEffects input)))).

(** The record an installation makes of its input, in registry [s]. *)
Record installs (s : Registry.t) (input : InstallExtensionInput.t) (i : ExtensionInstallation.t) : Prop := {
  is_pin : ExtensionInstallation.manifestId i = InstallExtensionInput.manifestId input ∧
    (InstallExtensionInput.manifestVersion input ≠ "" →
     ExtensionInstallation.manifestVersion i = InstallExtensionInput.manifestVersion input) ∧
    (InstallExtensionInput.packageDigest input ≠ "" →
     ExtensionInstallation.manifestDigest i = InstallExtensionInput.packageDigest input);
  is_scope : ExtensionInstallation.scope i = InstallExtensionInput.scope input;
  is_contains : scopeContains (InstallExtensionInput.scope input)
    (ExtensionAuthorization.resource (InstallExtensionInput.authorization input)) = true;
  is_enabled : ExtensionInstallation.lifecycle i = ExtensionLifecycle.enabled;
  is_effects : ExtensionInstallation.grantedEffects i = InstallExtensionInput.grantedEffects input;
  is_capabilities :
    ExtensionInstallation.grantedCapabilities i = Capability.show <$> InstallExtensionInput.grantedCapabilities input;
  is_grant : ExtensionInstallation.grantId i =
    ExtensionAuthorization.grantId (InstallExtensionInput.authorization input);
  is_actor : ExtensionInstallation.installedBy i = actorRef (InstallExtensionInput.authorization input);
  is_replaces : ExtensionInstallation.replacesInstallationId i =
    truthy_opt (InstallExtensionInput.replacesInstallationId input);
  is_lineage : ∀ j p, truthy_opt (InstallExtensionInput.replacesInstallationId input) = Some j →
    omap_get j (Registry.installations s) = Some p →
    ExtensionInstallation.lineageId i = ExtensionInstallation.lineageId p;
}.

Context `{Fresh : !FreshUUIDs HH}.

Lemma registry_ok_installation r w w' s i m : registry_ok r w s → passes w w' →
  ExtensionInstallation.id i = key "extension-installation" (uuids_drawn w) → (uuids_drawn w < uuids_drawn w')%nat →
  ExtensionScope.realm_id (ExtensionInstallation.scope i) = r → registered s m → narrows i m →
  omap_get (ExtensionInstallation.id i) (Registry.installations s) = None ∧
  registry_ok r w' (s <| Registry.installations := omap_set (ExtensionInstallation.id i) i (Registry.installations s) |>).
Proof.
intros Hr Hw Hid Hlt Hscope Hm Hn. split.
- destruct (omap_get _ _) as [j|] eqn:Hj; [|done]. destruct (in_drawn _ _ _ _ _ (rg_installations _ _ _ Hr _ _ Hj)) as (n & Hn' & He).
  rewrite Hid in He. apply key_inj in He; [lia|done].
- pose proof (registry_ok_passes _ _ _ _ Hw Hr) as [H1 H2 H3 H4]. split; simpl; [done..|]. apply omap_all_set.
  + intros k j Hj. by apply (installation_ok_passes r w' w' s); [| |apply H4].
  + split; [done| |done|by exists m]. rewrite Hid. by exists (uuids_drawn w).
Qed.

Lemma wp_grants input caps Q X w c w1 c1 : calm w c w1 c1 →
  (∀ w2 c2, calm w c w2 c2 → ps_next w1 (policy c1) w2 (policy c2) →
     (∀ cap, cap ∈ caps → permits_during w c w2 c2 (grant_request input cap)) → Q () w2 c2) →
  (∀ e w2 c2, calm w c w2 c2 → X e w2 c2) →
  wp (for_each caps (λ cap, authorize (InstallExtensionInput.authorization input)
        (cat ["extension.grant."; Capability.show cap]) cap
        (ExtensionAuthorization.resource (InstallExtensionInput.authorization input))
        (Some (default (Capability.show cap) (effect_of cap (InstallExtensionInput.grantedEffects input)))) ;;
      mret ()) : P ()) Q X w1 c1.
Proof.
intros Hc HQ HX. apply (wp_for_each (λ pre w2 c2, calm w c w2 c2 ∧ ps_next w1 (policy c1) w2 (policy c2) ∧
  ∀ cap, cap ∈ pre → permits_during w c w2 c2 (grant_request input cap))).
- intros pre cap post w2 c2 -> (H2 & H12 & Hpre). wp_step.
  apply wp_permission; [by eapply calm_ok| |intros e w3 c3 H3; apply HX; by eapply calm_trans].
  intros _ w3 c3 H3 Hpermit. wp_step. pose proof (cm_policy _ _ _ _ H3). split_and!; [by eapply calm_trans|by eapply ps_next_trans|].
  intros cap' [Hin| ->%list_elem_of_singleton]%elem_of_app; [by eapply permits_later; [apply Hpre|]|].
  by eapply permits_now; [apply H2| |].
- intros w2 c2 (? & ? & ?). by apply HQ.
- split_and!; [done| |by intros ? ?%elem_of_nil]. apply ps_next_refl. by eapply calm_ok.
Qed.

Lemma wp_lineage (o : option string) (Q : string → World → Sys → Prop) X w c :
  (∀ l w', passes w w' → (∀ l', o = Some l' → l = l') → Q l w' c) →
  wp (match o with Some l => mret l | None => opaqueId "extension-lineage" end : P string) Q X w c.
Proof.
intros HQ. destruct o as [l|]; [wp_step; apply HQ; [done|congruence]|].
apply wp_opaqueId, HQ; [split; simpl; lia|done].
Qed.

(** The record is stored and told of in three events. *)
Lemma wp_stored i e1 e2 e3 w c : sys_ok w c →
  omap_get (ExtensionInstallation.id i) (Registry.installations (own c)) = None →
  registry_ok (realm_of c) w (own c <| Registry.installations :=
    omap_set (ExtensionInstallation.id i) i (Registry.installations (own c)) |>) →
  wp (set_installation i ;; event e1 ;; event e2 ;; event e3 ;; mret i : P _)
    (λ j w' c', j = i ∧ sys_next w c w' c' ∧ Registry.manifests (own c') = Registry.manifests (own c) ∧
       Registry.installations (own c') = omap_set (ExtensionInstallation.id i) i (Registry.installations (own c)))
    (λ _ w' c', sys_next w c w' c') w c.
Proof.
intros [Hp Hr] Hnone Hok. set (s' := own c <| Registry.installations := _ |>) in *.
set (c5 := mkClient (policy c) s').
assert (sys_next w c w c5) as N5.
{ split; [by apply ps_next_refl| |by split]. split; simpl; [done|by apply grows_add; [apply _|..]|done..]. }
wp_step. unfold set_installation. client_step. fold s' c5.
assert (ps_ok w (policy c5)) as O5 by done.
assert (∀ w' c', calm w c5 w' c' → sys_next w c w' c') as Hend.
{ intros w' c' Hcalm. eapply next_trans_sys; [exact N5|]. by apply next_calm; [apply N5|]. }
wp_step. apply wp_event; [done| |intros w' Hcalm; by apply Hend]. intros w5 c6 H5.
wp_step. apply wp_event; [by eapply calm_ok| |intros w' Hcalm; apply Hend; by eapply calm_trans]. intros w6 c7 H6.
eapply calm_trans in H6; [|exact H5]. clear dependent c6.
wp_step. apply wp_event; [by eapply calm_ok| |intros w' Hcalm; apply Hend; by eapply calm_trans]. intros w7 c8 H7.
eapply calm_trans in H7; [|exact H6]. wp_step. destruct (calm_registry _ _ _ _ H7) as (Em & Ei & _).
split_and!; [done|by apply Hend|by rewrite Em|by rewrite Ei].
Qed.

Lemma wp_install input w c : sys_ok w c →
  wp (install input : P _)
    (λ i w' c', sys_next w c w' c' ∧ installs (own c) input i ∧
       permits_during w c w' c' (install_request input) ∧
       (∀ cap, cap ∈ InstallExtensionInput.grantedCapabilities input →
          permits_during w c w' c' (grant_request input cap)) ∧
       omap_get (ExtensionInstallation.id i) (Registry.installations (own c)) = None ∧
       Registry.manifests (own c') = Registry.manifests (own c) ∧
       Registry.installations (own c') = omap_set (ExtensionInstallation.id i) i (Registry.installations (own c)))
    (λ _ w' c', sys_next w c w' c') w c.
Proof.
intros Hc. pose proof (next_refl_sys _ _ Hc) as Hrefl. pose proof Hc as [Hp Hr].
unfold install, getManifest. cbv zeta. wp_step. wp_step. client_step. wp_step. wp_step. wp_step; [done|].
rename a into m, H into Hm. wp_step. wp_step; [done|]. wp_step. apply wp_validateScope; [|done].
intros Hrealm. wp_step. wp_step; [done|]. wp_step. wp_step; [|done]. wp_step. wp_step; [|done].
wp_step. wp_step; [done|]. wp_step. wp_step; [done|].
apply unique_accepts in H1 as [-> _]. apply unique_accepts in H2 as [-> _].
apply find_manifest_spec in Hm as (Hm & Hid & Hver & Hdig). apply value_registered in Hm; [|apply Hr..].
apply orb_false_iff in H3 as [He Hcap]. rewrite bool_decide_nil, outside_nil in He, Hcap.
apply orb_false_iff in H4 as [Hwrite _]. apply list_includes_false in Hwrite. apply negb_false_iff in H, H0.
wp_step. apply wp_permission; [done| |intros e w1 c1 H1; by apply next_calm].
intros _ w1 c1 H1 Hinstall. assert (permits_during w c w1 c1 (install_request input)) as Hi1.
{ eapply permits_now; [apply calm_refl|exact Hinstall|apply H1]; done. }
wp_step. apply (wp_grants input _ _ _ _ _ _ _ H1); [|intros e w2 c2 H2; by apply next_calm].
intros w2 c2 H2 H12 Hcaps. eapply permits_later in Hi1; [|exact H12]. clear dependent w1 c1.
wp_step. apply wp_nowIso_client; [|intros w3 H3; apply next_calm; [done|]; eapply calm_trans; [exact H2|];
  by apply calm_draw, ticks_passes; [by eapply calm_ok|]].
intros t w3 H3. wp_step. apply wp_opaqueId. cbv beta. wp_step. client_step. wp_step. client_step. wp_step.
apply wp_lineage. intros l w4 H4 Hl. cbv zeta. set (i := ExtensionInstallation.mk _ _ _ _ _ _ _ _ _ _ _ _ _ _ _ _ _).

pose proof (next_calm _ _ _ _ Hc H2) as N2. destruct (calm_registry _ _ _ _ H2) as (Em & Ei & _).
assert (passes w2 w4 ∧ (uuids_drawn w3 < uuids_drawn w4)%nat) as [H24 H34].
{ destruct H3, H4. simpl in *. split; [split|]; lia. }
assert (narrows i m) as Hn by (by split).
assert (registered (own c2) m) as Hm2 by (unfold registered; by rewrite Em).
assert (sys_next w c w4 c2) as N4.
{ eapply next_trans_sys; [exact N2|]. apply next_calm; [apply N2|]. by apply calm_draw; [eapply calm_ok|]. }
destruct (registry_ok_installation (realm_of c2) w3 w4 (own c2) i m) as [Hnone Hok];
  [by eapply registry_ok_passes, N2; apply ticks_passes|destruct H3, H4; split; simpl in *; lia|done|done| |done|done|].
{ simpl. rewrite Hrealm. symmetry. apply (ps_next_realm _ _ _ _ (cm_policy _ _ _ _ H2)). }
eapply wp_mono; [apply wp_stored; [apply N4|done|done]| |by intros e w5 c5 H5; eapply next_trans_sys].
intros j w5 c5 (-> & H5 & Em5 & Ei5).
assert (ps_next w2 (policy c2) w5 (policy c5)) as P25.
{ eapply ps_next_trans; [apply ps_next_draw; [by eapply calm_ok|exact H24]|apply H5]. }
rewrite <-Ei. split_and!.
- by eapply next_trans_sys.
- split; simpl; [|done..|].
  + split_and!; [done|intros Hx; by apply Hver, truthy_Some|intros Hx; by apply Hdig, truthy_Some].
  + intros j p Hj Hget. apply Hl. rewrite Hj. simpl. by rewrite Ei, Hget.
- by eapply permits_later.
- intros cap Hin. by eapply permits_later; [apply Hcaps|].
- done.
- by rewrite Em5.
- done.
Qed.

(** ** The end of an installation *)

Lemma registry_ok_lifecycle r w s i l : registry_ok r w s →
  omap_get (ExtensionInstallation.id i) (Registry.installations s) = Some i →
  registry_ok r w (s <| Registry.installations := omap_set (ExtensionInstallation.id i)
    (i <| ExtensionInstallation.lifecycle := l |>) (Registry.installations s) |>).
Proof.
intros [H1 H2 H3 H4] Hi. split; simpl; [done..|]. apply omap_all_set.
- intros k j Hj. by apply (installation_ok_passes r w w s); [| |apply H4].
- destruct (H4 _ _ Hi) as [A B C (m & D & [E F G I J])]. split; [done..|]. exists m. split; [done|by split].
Qed.
Definition retire (i : ExtensionInstallation.t) (l : ExtensionLifecycle.t) c : Sys :=
  mkClient (policy c) (own c <| Registry.installations := omap_set (ExtensionInstallation.id i)
    (i <| ExtensionInstallation.lifecycle := l |>) (Registry.installations (own c)) |>).
Lemma next_retire w c i l : sys_ok w c → retired l →
  omap_get (ExtensionInstallation.id i) (Registry.installations (own c)) = Some i → sys_next w c w (retire i l c).
Proof.
intros [Hp Hr] Hl Hi. split; [by apply ps_next_refl| |split; [done|by apply registry_ok_lifecycle]].
split; simpl; [done| |done..]. eapply grows_set; [apply _|done|]. split; [by destruct i|by right].
Qed.
(** The last lines of a transition: the new lifecycle, and its event. *)
Lemma wp_retire {A} i l e (a : A) w c : sys_ok w c → retired l →
  omap_get (ExtensionInstallation.id i) (Registry.installations (own c)) = Some i →
  wp (set_installation (i <| ExtensionInstallation.lifecycle := l |>) ;; event e ;; mret a : P A)
    (λ b w' c', b = a ∧ sys_next w c w' c' ∧ Registry.manifests (own c') = Registry.manifests (own c) ∧
       Registry.installations (own c') = omap_set (ExtensionInstallation.id i)
         (i <| ExtensionInstallation.lifecycle := l |>) (Registry.installations (own c)))
    (λ _ w' c', sys_next w c w' c') w c.
Proof.
intros Hc Hl Hi. pose proof (next_retire _ _ _ _ Hc Hl Hi) as N. wp_step. unfold set_installation. client_step.
change (mkClient _ _) with (retire i l c).
assert (∀ w' c', calm w (retire i l c) w' c' → sys_next w c w' c') as Hend.
{ intros w' c' Hcalm. eapply next_trans_sys; [exact N|]. by apply next_calm; [apply N|]. }
wp_step. apply wp_event; [apply N| |intros w' Hcalm; by apply Hend]. intros w' c' Hcalm. wp_step.
destruct (calm_registry _ _ _ _ Hcalm) as (Em & Ei & _). split_and!; [done|by apply Hend|by rewrite Em|by rewrite Ei].
Qed.

Definition manage_request (a : ExtensionAuthorization.t) (operation : string) (i : ExtensionInstallation.t) :
    PolicyEvaluationInput.t :=
  asPolicyInput a operation Capability.extension_manage (scopeResource (ExtensionInstallation.scope i)) (Some operation).

Lemma stored_id w c k i : sys_ok w c → omap_get k (Registry.installations (own c)) = Some i →
  ExtensionInstallation.id i = k ∧ k ≠ "".
Proof.
intros [_ Hr] Hk. destruct (rg_installations _ _ _ Hr _ _ Hk) as [Hid (n & _ & He) _ _]. split; [done|]. by rewrite He.
Qed.

Lemma wp_transition input to w c : sys_ok w c →
  wp (transition input to : P _)
    (λ j w' c', sys_next w c w' c' ∧ ∃ i,
       omap_get (ExtensionTransitionInput.installationId input) (Registry.installations (own c)) = Some i ∧
       ExtensionInstallation.lifecycle i ≠ ExtensionLifecycle.replaced ∧
       ExtensionInstallation.lifecycle i ≠ ExtensionLifecycle.revoked ∧
       permits_during w c w' c' (manage_request (ExtensionTransitionInput.authorization input)
         (cat ["extension."; ExtensionLifecycle.show (Retirement.lifecycle to)]) i) ∧
       j = i <| ExtensionInstallation.lifecycle := Retirement.lifecycle to |> ∧
       Registry.installations (own c') =
         omap_set (ExtensionInstallation.id i) j (Registry.installations (own c)))
    (λ _ w' c', sys_next w c w' c') w c.
Proof.
intros Hc. pose proof (next_refl_sys _ _ Hc) as Hrefl. unfold transition. cbv zeta.
wp_step. apply wp_requireInstallation; [|done]. intros i Hi. destruct (stored_id _ _ _ _ Hc Hi) as [Hid _].
wp_step. apply wp_permission; [apply Hc| |intros e w1 c1 H1; by apply next_calm]. intros _ w1 c1 H1 Hpermit.
pose proof (next_calm _ _ _ _ Hc H1) as N1. destruct (calm_registry _ _ _ _ H1) as (_ & Ei & _).
wp_step. wp_step; [done|]. apply orb_false_iff in H as [Hrep Hrev]. rewrite bool_decide_eq_false in Hrep, Hrev.
eapply wp_mono; [apply wp_retire; [apply N1|destruct to; unfold retired; simpl; tauto|by rewrite Ei, Hid]| |].
- intros j w2 c2 (-> & N2 & _ & Ei2). split; [by eapply next_trans_sys|]. exists i. split_and!; [done..| |done|congruence].
  eapply permits_now; [apply calm_refl, Hc|exact Hpermit|]. eapply ps_next_trans; [apply H1|apply N2].
- intros e w2 c2 N2. by eapply next_trans_sys.
Qed.

(** Two scopes of a kind and a Realm that contain the same resource. *)
Lemma scope_of_resource a b r : ExtensionScope.kind a = ExtensionScope.kind b →
  ExtensionScope.realm_id a = ExtensionScope.realm_id b → scopeContains a r = true → scopeContains b r = true → a = b.
Proof.
unfold scopeContains. intros Hk Hr Ha Hb.
destruct (negb (String.eqb (ExtensionScope.realm_id a) _)), (negb (String.eqb (ExtensionScope.realm_id b) _)); try done.
destruct a as [ra|ra oa|ra oa pa], b as [rb|rb ob|rb ob pb]; simpl in *; try done; subst; [done|..].
- apply bool_decide_eq_true in Ha, Hb. congruence.
- repeat case_bool_decide; simpl in *; try done. congruence.
Qed.

Lemma wp_replace input w c : sys_ok w c →
  wp (replace input : P _)
    (λ j w' c', sys_next w c w' c' ∧ ∃ i m,
       omap_get (ReplaceExtensionInput.installationId input) (Registry.installations (own c)) = Some i ∧
       registered (own c) m ∧ narrows i m ∧
       permits_during w c w' c' (manage_request (ReplaceExtensionInput.authorization input) "extension.replace" i) ∧
       ExtensionInstallation.scope j = ExtensionInstallation.scope i ∧
       ExtensionInstallation.lineageId j = ExtensionInstallation.lineageId i ∧
       ExtensionInstallation.replacesInstallationId j = Some (ExtensionInstallation.id i) ∧
       ExtensionInstallation.lifecycle j = ExtensionLifecycle.enabled ∧
       omap_get (ExtensionInstallation.id j) (Registry.installations (own c)) = None ∧
       Registry.installations (own c') =
         omap_set (ExtensionInstallation.id i)
           (i <| ExtensionInstallation.lifecycle := ExtensionLifecycle.replaced |>)
           (omap_set (ExtensionInstallation.id j) j (Registry.installations (own c))))
    (λ _ w' c', sys_next w c w' c') w c.
Proof.
intros Hc. pose proof (next_refl_sys _ _ Hc) as Hrefl. unfold replace. cbv zeta.
wp_step. apply wp_requireInstallation; [|done]. intros i Hi. destruct (stored_id _ _ _ _ Hc Hi) as [Hid Hne].
wp_step. eapply wp_requireManifest; [apply Hc|done|]. intros m Hm Hn.
wp_step. wp_step; [done|]. apply negb_false_iff in H. rename H into Hcontains.
wp_step. apply wp_permission; [apply Hc| |intros e w1 c1 H1; by apply next_calm]. intros _ w1 c1 H1 Hpermit.
pose proof (next_calm _ _ _ _ Hc H1) as N1. destruct (calm_registry _ _ _ _ H1) as (_ & Ei & _).
wp_step. wp_step; [done|]. apply orb_false_iff in H as [Hk Hr]. apply negb_false_iff, String.eqb_eq in Hk, Hr.
wp_step. eapply wp_mono; [apply wp_install, N1| |intros e w2 c2 N2; by eapply next_trans_sys].
intros j w2 c2 (N2 & [_ Hs Hin Hen _ _ _ _ Hrep Hlin] & _ & _ & Hnone & _ & Ei2). simpl in *.
assert (ExtensionInstallation.id j ≠ ExtensionInstallation.id i) as Hji by (intros He; rewrite He, Ei, Hid, Hi in Hnone; done).
assert (truthy_opt (Some (ExtensionInstallation.id i)) = Some (ExtensionInstallation.id i)) as Ht by (apply truthy_Some; congruence).
eapply wp_mono; [apply wp_retire; [apply N2|unfold retired; tauto|]| |intros e w3 c3 N3; by eapply next_trans_sys, next_trans_sys].
{ rewrite Ei2, omap_get_set_ne by done. by rewrite Ei, Hid. }
intros j' w3 c3 (-> & N3 & _ & Ei3). split; [by eapply next_trans_sys, next_trans_sys|]. exists i, m. split_and!; [done..| | | | | | |].
- eapply permits_now; [apply calm_refl, Hc|exact Hpermit|].
  eapply ps_next_trans; [apply H1|]. eapply ps_next_trans; [apply N2|apply N3].
- rewrite Hs. by eapply scope_of_resource.
- eapply Hlin; [exact Ht|]. by rewrite Ei, Hid.
- etrans; [exact Hrep|exact Ht].
- done.
- by rewrite <-Ei.
- by rewrite Ei3, Ei2, Ei.
Qed.

(** ** Invocation *)

(** The installation admits the request, before the policy is asked. *)
Record admits (input : InvokeExtensionInput.t) (i : ExtensionInstallation.t) : Prop := {
  ad_scope : scopeContains (ExtensionInstallation.scope i) (InvokeExtensionInput.resource input) = true;
  ad_enabled : ExtensionInstallation.lifecycle i = ExtensionLifecycle.enabled;
  ad_secret : Capability.secret_value_read ∉ InvokeExtensionInput.requestedCapabilities input;
  ad_effects : InvokeExtensionInput.requestedEffects input ⊆ ExtensionInstallation.grantedEffects i;
  ad_capabilities : Capability.show <$> InvokeExtensionInput.requestedCapabilities input
    ⊆ ExtensionInstallation.grantedCapabilities i;
}.
Definition invoke_request (input : InvokeExtensionInput.t) (cap : Capability.t) : PolicyEvaluationInput.t :=
  asPolicyInput (InvokeExtensionInput.authorization input)
    (default (cat ["extension.invoke."; Capability.show cap]) (InvokeExtensionInput.operation input)) cap
    (InvokeExtensionInput.resource input) (truthy_opt (effect_of cap (InvokeExtensionInput.requestedEffects input))).
Definition malformed (input : InvokeExtensionInput.t) : Prop :=
  existsb blank (InvokeExtensionInput.requestedEffects input) = true ∨
  ¬ NoDup (InvokeExtensionInput.requestedEffects input) ∨
  ¬ NoDup (InvokeExtensionInput.requestedCapabilities input).

#[local] Instance show_capability_inj : Inj (=) (=) Capability.show.
Proof. intros x y. by destruct x; destruct y. Qed.
Lemma unique_Throw values field e : unique values field = Throw e → existsb blank values = true ∨ ¬ NoDup values.
Proof.
unfold unique. destruct (existsb blank values); [by left|]. destruct (has_duplicates values) eqn:Hd; [|done].
intros _. right. rewrite <-has_duplicates_spec. congruence.
Qed.
Lemma unique_capabilities caps field e : unique (Capability.show <$> caps) field = Throw e → ¬ NoDup caps.
Proof.
intros [Hb|Hd]%unique_Throw Hc; [|by apply Hd, NoDup_fmap_2; [apply _|]].
assert (existsb blank (Capability.show <$> caps) = false); [|congruence].
apply existsb_false_iff. intros x (cap & -> & _)%list_elem_of_fmap. by destruct cap.
Qed.

Lemma wp_authorize_each input caps es w c w1 c1 : calm w c w1 c1 →
  wp (authorize_each input caps es : P _)
    (λ answer w2 c2, calm w c w2 c2 ∧ ps_next w1 (policy c1) w2 (policy c2) ∧ match answer with
       | inl _ => ∀ cap, cap ∈ caps → permits_during w c w2 c2 (invoke_request input cap)
       | inr _ => ∃ cap, cap ∈ caps ∧ refused_during w c w2 c2 (invoke_request input cap)
       end)
    (λ _ _ _, False) w1 c1.
Proof.
revert es w1 c1. induction caps as [|cap caps IH]; intros es w1 c1 H1; cbn [authorize_each].
{ wp_step. split_and!; [done|apply ps_next_refl; by eapply calm_ok|by intros ? ?%elem_of_nil]. }
wp_step. wp_step. wp_step. apply wp_permission_or; [by eapply calm_ok|..].
- intros x w2 c2 H2 Hpermit. wp_step. assert (calm w c w2 c2) as H12 by (by eapply calm_trans).
  eapply wp_mono; [by apply IH| |done]. intros answer w3 c3 (H3 & Hn & Ha).
  assert (ps_next w1 (policy c1) w3 (policy c3)) as Hn' by (eapply ps_next_trans; [apply H2|done]).
  split_and!; [done|done|]. destruct answer as [?|?].
  + intros cap' [->|Hin]%elem_of_cons; [|by apply Ha]. by eapply permits_now; [apply H1| |].
  + destruct Ha as (cap' & ? & ?). exists cap'. split; [by right|done].
- intros e w2 c2 H2 Hrefuse. wp_step. wp_step. split_and!; [by eapply calm_trans|apply H2|].
  exists cap. split; [left|]. eapply refused_now; [apply H1|exact Hrefuse|apply H2].
Qed.

Lemma wp_blocked input i code next es (Q : ExtensionInvocationResult.t → World → Sys → Prop) X w c w1 c1 :
  calm w c w1 c1 →
  (∀ r w' c', calm w c w' c' → ps_next w1 (policy c1) w' (policy c') →
     ExtensionInvocationResult.status r = ExtensionInvocationStatus.blocked → Q r w' c') →
  (∀ w' c', calm w c w' c' → X (other_error invalid_time) w' c') →
  wp (blockedInvocation input i code next es : P _) Q X w1 c1.
Proof.
intros H1 HQ HX. unfold blockedInvocation. cbv zeta. wp_step. apply wp_event; [by eapply calm_ok| |].
- intros w2 c2 H2. wp_step. apply HQ; [by eapply calm_trans|apply H2|done].
- intros w2 H2. apply HX. by eapply calm_trans.
Qed.

(** What an invocation did, [Some r] being what it returned. *)
Definition invoked (input : InvokeExtensionInput.t) w c w' c' (r : ExtensionInvocationResult.t) : Prop :=
  ∃ i, omap_get (InvokeExtensionInput.installationId input) (Registry.installations (own c)) = Some i ∧
  match ExtensionInvocationResult.status r with
  | ExtensionInvocationStatus.blocked =>
      ¬ admits input i ∨
      ∃ cap, cap ∈ InvokeExtensionInput.requestedCapabilities input ∧
        refused_during w c w' c' (invoke_request input cap)
  | status =>
      admits input i ∧
      (∀ cap, cap ∈ InvokeExtensionInput.requestedCapabilities input →
         permits_during w c w' c' (invoke_request input cap)) ∧
      (status = ExtensionInvocationStatus.proposal ↔
       ∃ cap, cap ∈ InvokeExtensionInput.requestedCapabilities input ∧ cap ∈ KERNEL_AUTHORITY_CAPABILITIES)
  end.

Lemma missing_nil {A} `{EqDecision A} (l granted declared : list A) : granted ⊆ declared →
  base.filter (λ e, e ∉ granted ∨ e ∉ declared) l = [] ↔ l ⊆ granted.
Proof.
intros Hg. rewrite filter_empty. split.
- intros Hn x Hx. destruct (decide (x ∈ granted)) as [|Hx']; [done|]. by destruct (Hn x Hx); left.
- intros Hs x Hx [Hn|Hn]; [by apply Hn, Hs|by apply Hn, Hg, Hs].
Qed.
Lemma is_proposal_spec input : is_proposal input = true ↔
  ∃ cap, cap ∈ InvokeExtensionInput.requestedCapabilities input ∧ cap ∈ KERNEL_AUTHORITY_CAPABILITIES.
Proof.
unfold is_proposal. rewrite existsb_exists. split; intros (cap & Hin & Hk); exists cap.
- apply bool_decide_eq_true in Hk. apply list_elem_of_In in Hin. done.
- rewrite bool_decide_eq_true. rewrite <-list_elem_of_In. done.
Qed.
Lemma secret_spec (caps : list Capability.t) :
  list_includes (Capability.show <$> caps) "secret.value.read" = false ↔ Capability.secret_value_read ∉ caps.
Proof.
rewrite list_includes_false. change "secret.value.read" with (Capability.show Capability.secret_value_read).
by rewrite (list_elem_of_fmap_inj Capability.show).
Qed.

Lemma wp_invoke input w c : sys_ok w c →
  wp (invoke input : P _) (λ r w' c', calm w c w' c' ∧ invoked input w c w' c' r)
    (λ e w' c', calm w c w' c' ∧ (e = other_error invalid_time ∨ malformed input ∨
       omap_get (InvokeExtensionInput.installationId input) (Registry.installations (own c)) = None)) w c.
Proof.
intros Hc. pose proof (calm_refl _ _ (so_policy _ _ Hc)) as Hrefl. unfold invoke. cbv zeta.
wp_step. unfold requireInstallation, getInstallation. wp_step. wp_step. client_step. wp_step.
wp_step; [by auto|]. rename a into i, H into Hi. destruct (stored_id _ _ _ _ Hc Hi) as [Hid _].
wp_step. eapply wp_requireManifest; [apply Hc|done|]. intros m Hm [_ _ Heff Hcap _].
wp_step. wp_step; [|split; [done|]; right; left; apply unique_Throw in H; unfold malformed; tauto].
wp_step. wp_step; [|split; [done|]; right; left; apply unique_capabilities in H0; unfold malformed; tauto].
apply unique_accepts in H as [-> _]. apply unique_accepts in H0 as [-> _].
assert (∀ code next, ¬ admits input i → wp (blockedInvocation input i code next [] : P _)
  (λ r w' c', calm w c w' c' ∧ invoked input w c w' c' r)
  (λ e w' c', calm w c w' c' ∧ (e = other_error invalid_time ∨ malformed input ∨
       omap_get (InvokeExtensionInput.installationId input) (Registry.installations (own c)) = None)) w c) as Hblock.
{ intros code next Hno. eapply wp_blocked; [exact Hrefl| |by auto]. intros r w' c' Hw _ Hst. split; [done|].
  exists i. split; [done|]. rewrite Hst. by left. }
wp_step; [apply Hblock; intros []; by apply negb_true_iff in Heqb; congruence|].
wp_step; [apply Hblock; intros []; by apply negb_true_iff, bool_decide_eq_false in Heqb0|].
wp_step; [apply Hblock; intros []; apply not_false_iff_true in Heqb1; by rewrite secret_spec in Heqb1|].
apply negb_false_iff in Heqb. apply negb_false_iff, bool_decide_eq_true in Heqb0. rewrite secret_spec in Heqb1.
pose proof (missing_nil (InvokeExtensionInput.requestedEffects input) _ _ Heff) as Hme.
pose proof (missing_nil (Capability.show <$> InvokeExtensionInput.requestedCapabilities input) _ _ Hcap) as Hmc.
wp_step.
{ apply Hblock. intros [_ _ _ He%Hme Hk%Hmc]. apply orb_true_iff in Heqb2 as [Hn|Hn];
    by apply negb_true_iff, bool_decide_eq_false in Hn. }
apply orb_false_iff in Heqb2 as [He Hk]. rewrite bool_decide_nil in He, Hk.
assert (admits input i) as Ha by (by split; [..|apply Hme|apply Hmc]). clear Hblock.
wp_step. eapply wp_mono; [by apply wp_authorize_each| |done]. intros answer w1 c1 (H1 & _ & Hanswer).
destruct answer as [es|[message es]].
- wp_step. client_step. wp_step. apply wp_event; [by eapply calm_ok| |].
  + intros w2 c2 H2. wp_step. split; [by eapply calm_trans|]. exists i. split; [done|].
    assert (∀ cap, cap ∈ InvokeExtensionInput.requestedCapabilities input →
      permits_during w c w2 c2 (invoke_request input cap)) as Hp.
    { intros cap Hin. eapply permits_later; [by apply Hanswer|apply H2]. }
    pose proof (is_proposal_spec input) as Hspec. cbn [ExtensionInvocationResult.status].
    destruct (is_proposal input); split_and!; try done; rewrite <-Hspec; by split.
  + intros w2 H2. split; [by eapply calm_trans|by left].
- eapply wp_blocked; [exact H1| |by auto]. intros r w2 c2 H2 Hn Hst. split; [done|]. exists i. split; [done|].
  rewrite Hst. right. destruct Hanswer as (cap & ? & ?). exists cap. split; [done|]. by eapply refused_later.
Qed.

(** * The life of a registry *)

(** The calls on the object, with any arguments. *)
Inductive call : ∀ {A : Type}, P A → Prop :=
| call_snapshot : call snapshot
| call_getManifest id v d : call (getManifest id v d)
| call_getInstallation id : call (getInstallation id)
| call_registerManifest input : call (registerManifest input)
| call_install input : call (install input)
| call_replace input : call (replace input)
| call_migrateProvider input : call (migrateProvider input)
| call_deprecate input : call (deprecate input)
| call_suspend input : call (suspend input)
| call_revoke input : call (revoke input)
| call_invoke input : call (invoke input).

(** A call, whether it returns or throws, or whatever the policy service does on
    its own between two calls. *)
Inductive lives : World * Sys → World * Sys → Prop :=
| lives_call w c A (m : P A) o w' c' : call m → m w c = (o, w', c') → lives (w, c) (w', c')
| lives_policy w c w' r' : ps_next w (policy c) w' r' → lives (w, c) (w', mkClient r' (own c)).

Inductive alive_registry : World * Sys → Prop :=
| alive_new w r versions s : ps_ok w r → construct versions = Ok s → alive_registry (w, mkClient r s)
| alive_lives σ σ' : alive_registry σ → lives σ σ' → alive_registry σ'.

Lemma registry_ok_new r w versions s : construct versions = Ok s → registry_ok r w s.
Proof. unfold construct. intros Hs. bind_inv. simplify_eq. split; try done. constructor. Qed.

Lemma call_next {A} (m : P A) w c : call m → sys_ok w c →
  wp m (λ _ w' c', sys_next w c w' c') (λ _ w' c', sys_next w c w' c') w c.
Proof.
intros Hm Hc. pose proof (next_refl_sys _ _ Hc) as Hrefl.
assert (∀ B (n : P B), readonly n → wp n (λ _ w' c', sys_next w c w' c') (λ _ w' c', sys_next w c w' c') w c) as Hro
  by (intros B n Hn; by apply wp_readonly).
destruct Hm.
1-3: apply Hro; unfold snapshot, getManifest, getInstallation, get_own; solve_readonly.
- eapply wp_mono; [by apply wp_registerManifest| |done]. by intros ? ? ? [].
- eapply wp_mono; [by apply wp_install| |done]. by intros ? ? ? [].
- eapply wp_mono; [by apply wp_replace| |done]. by intros ? ? ? [].
- unfold migrateProvider. eapply wp_mono; [by apply wp_replace| |done]. by intros ? ? ? [].
- unfold deprecate. eapply wp_mono; [by apply wp_transition| |done]. by intros ? ? ? [].
- unfold suspend. eapply wp_mono; [by apply wp_transition| |done]. by intros ? ? ? [].
- unfold revoke. eapply wp_mono; [by apply wp_transition| |done]. by intros ? ? ? [].
- eapply wp_mono; [by apply wp_invoke|..].
  + intros r w' c' [Hcalm _]. by apply next_calm.
  + intros e w' c' [Hcalm _]. by apply next_calm.
Qed.
Lemma lives_next σ σ' : sys_ok σ.1 σ.2 → lives σ σ' → sys_next σ.1 σ.2 σ'.1 σ'.2.
Proof.
intros Hc Hs. destruct Hs as [w c A m o w' c' Hm Hrun|w c w' r' Hn]; simpl in *.
- pose proof (wp_run _ _ _ _ _ _ _ _ (call_next _ _ _ Hm Hc) Hrun). by destruct o.
- apply next_calm; [done|]. split; [done|]. exists []. simpl. rewrite app_nil_r. by destruct (own c).
Qed.
Lemma alive_ok σ : alive_registry σ → sys_ok σ.1 σ.2.
Proof.
induction 1 as [w r versions s Hr Hs|σ σ' _ IH Hs]; [split; [done|by eapply registry_ok_new]|].
by apply (lives_next _ _ IH Hs).
Qed.
Lemma lives_star σ σ' : sys_ok σ.1 σ.2 → rtc lives σ σ' → sys_next σ.1 σ.2 σ'.1 σ'.2.
Proof.
intros Hc. induction 1 as [σ|σ τ υ Hs _ IH]; [by apply next_refl_sys|].
pose proof (lives_next _ _ Hc Hs) as N. eapply next_trans_sys; [exact N|apply IH, N].
Qed.

(** C22: Whatever is called, by anyone and in any order: an id and version name one
    registered manifest; every installation lies in the Realm and pins a registered,
    installable manifest that requests all it was granted, never canonical writes; and
    an unverified extension holds no high-risk effect or capability. *)
Theorem registry_consistent σ : alive_registry σ →
  (∀ m m', registered (own σ.2) m → registered (own σ.2) m' → ExtensionManifest.id m = ExtensionManifest.id m' →
     ExtensionManifest.version m = ExtensionManifest.version m' → m = m') ∧
  omap_all (λ k i, ExtensionInstallation.id i = k ∧
    ExtensionScope.realm_id (ExtensionInstallation.scope i) = realm_of σ.2 ∧
    ∃ m, registered (own σ.2) m ∧ narrows i m ∧
      (ExtensionManifest.trust m = "unverified" →
       ∀ e, e ∈ ExtensionInstallation.grantedEffects i ++ ExtensionInstallation.grantedCapabilities i →
       e ∉ HIGH_RISK_EFFECTS)) (Registry.installations (own σ.2)).
Proof.
intros Hr. destruct (alive_ok _ Hr) as [_ [_ Hm Hd Hi]]. split; [exact Hd|].
intros k i Hk. destruct (Hi k i Hk) as [Hid _ Hrealm (m & Hreg & Hn)]. split_and!; [done..|]. exists m.
split_and!; [done..|]. intros Ht e He. destruct (Hm _ _ Hreg) as [_ _ _ _ _ Hrisk].
apply Hrisk; [apply Hn|done|]. rewrite elem_of_app in *. destruct He; [left; by apply Hn|right; by apply Hn].
Qed.

(** C21: An invocation changes no manifest and no installation.  It is allowed or
    proposed only if the installation is enabled, its scope contains the resource, all
    that is requested was granted, no secret value is read, and the policy permits each
    capability at some moment of the call; a proposal is one that asks for an authority
    of the kernel.  It is blocked only if one of these fails, and throws only on a
    malformed request, an unknown installation or a clock out of range. *)
Theorem invoke_exact input w c o w' c' : sys_ok w c → invoke input w c = (o, w', c') →
  Registry.manifests (own c') = Registry.manifests (own c) ∧
  Registry.installations (own c') = Registry.installations (own c) ∧
  match o with
  | Ok r => invoked input w c w' c' r
  | Throw e => e = other_error invalid_time ∨ malformed input ∨
      omap_get (InvokeExtensionInput.installationId input) (Registry.installations (own c)) = None
  end.
Proof.
intros Hc Hrun. pose proof (wp_run _ _ _ _ _ _ _ _ (wp_invoke input w c Hc) Hrun) as H.
assert (calm w c w' c') as Hcalm by (by destruct o as [r|e], H).
destruct (calm_registry _ _ _ _ Hcalm) as (Em & Ei & _). split_and!; [done..|]. by destruct o as [r|e], H.
Qed.

(** C23: What was suspended, deprecated, replaced or revoked never acts again: an
    installation that is not enabled keeps its record but for the lifecycle, is not
    enabled whatever happens, and every invocation of it is blocked or throws. *)
Theorem retired_never_acts σ σ' k i input o w' c' : alive_registry σ →
  omap_get k (Registry.installations (own σ.2)) = Some i →
  ExtensionInstallation.lifecycle i ≠ ExtensionLifecycle.enabled → rtc lives σ σ' →
  InvokeExtensionInput.installationId input = k → invoke input σ'.1 σ'.2 = (o, w', c') →
  (∃ i', omap_get k (Registry.installations (own σ'.2)) = Some i' ∧
     i' = i <| ExtensionInstallation.lifecycle := ExtensionInstallation.lifecycle i' |> ∧
     ExtensionInstallation.lifecycle i' ≠ ExtensionLifecycle.enabled) ∧
  match o with Ok r => ExtensionInvocationResult.status r = ExtensionInvocationStatus.blocked | Throw _ => True end.
Proof.
intros Hr Hi Hl Hs <- Hrun. pose proof (lives_star _ _ (alive_ok _ Hr) Hs) as [_ He Hc].
destruct (gr_kept _ _ _ _ (re_installations _ _ He) _ _ Hi) as (i' & Hi' & Hsame & Hl').
assert (ExtensionInstallation.lifecycle i' ≠ ExtensionLifecycle.enabled) as Hne.
{ intros Hen. rewrite Hen in Hl'. destruct Hl' as [Hl'|Hret]; [by symmetry in Hl'|]. unfold retired in Hret. intuition congruence. }
split; [by exists i'|]. destruct o as [r|e]; [|done].
pose proof (wp_Ok _ _ _ _ _ _ _ _ (wp_invoke input _ _ Hc) Hrun) as [_ (j & Hj & H)]. assert (j = i') as -> by congruence.
destruct (ExtensionInvocationResult.status r); [|done|]; destruct H as [Ha _]; by destruct Hne, (ad_enabled _ _ Ha).
Qed.

(** An installation grants exactly what it was asked for, in the scope it was
    asked for, after the policy permitted to install there and permitted every granted
    capability to the caller, during the call; it touches no other record, and a call
    that throws breaks none. *)
Theorem install_authorized input w c o w' c' : sys_ok w c → install input w c = (o, w', c') →
  match o with
  | Ok i => installs (own c) input i ∧ permits_during w c w' c' (install_request input) ∧
      (∀ cap, cap ∈ InstallExtensionInput.grantedCapabilities input →
         permits_during w c w' c' (grant_request input cap)) ∧
      omap_get (ExtensionInstallation.id i) (Registry.installations (own c)) = None ∧
      Registry.manifests (own c') = Registry.manifests (own c) ∧
      Registry.installations (own c') = omap_set (ExtensionInstallation.id i) i (Registry.installations (own c))
  | Throw _ => registry_evolves (own c) (own c')
  end ∧ sys_ok w' c'.
Proof.
intros Hc Hrun. pose proof (wp_run _ _ _ _ _ _ _ _ (wp_install input w c Hc) Hrun) as H.
destruct o as [i|e]; [|split; apply H]. destruct H as (Hn & H). split; [exact H|apply Hn].
Qed.

(** A replacement, or a migration to another provider, has exactly the scope and
    the lineage of what it replaces, names it, and is enabled while the other becomes
    [replaced]; the policy permitted the caller to manage extensions in that scope. *)
Theorem replace_lineage input w c j w' c' : sys_ok w c → replace input w c = (Ok j, w', c') →
  ∃ i, omap_get (ReplaceExtensionInput.installationId input) (Registry.installations (own c)) = Some i ∧
    permits_during w c w' c' (manage_request (ReplaceExtensionInput.authorization input) "extension.replace" i) ∧
    ExtensionInstallation.scope j = ExtensionInstallation.scope i ∧
    ExtensionInstallation.lineageId j = ExtensionInstallation.lineageId i ∧
    ExtensionInstallation.replacesInstallationId j = Some (ExtensionInstallation.id i) ∧
    ExtensionInstallation.lifecycle j = ExtensionLifecycle.enabled ∧
    Registry.installations (own c') = omap_set (ExtensionInstallation.id i)
      (i <| ExtensionInstallation.lifecycle := ExtensionLifecycle.replaced |>)
      (omap_set (ExtensionInstallation.id j) j (Registry.installations (own c))).
Proof.
intros Hc Hrun. destruct (wp_Ok _ _ _ _ _ _ _ _ (wp_replace input w c Hc) Hrun)
  as (_ & i & m & Hi & _ & _ & Hp & Hs & Hl & Hrep & Hen & _ & He). by exists i.
Qed.
End facts.
