(* ===== verification/ExtensionsDemo.v ===== *)
(** The extension registry over a Realm: a run of both, which witnesses the
    theorems of ExtensionsFacts with the policy of IdentityPolicy as the service. *)

From S2P Require Import Prelude Contracts Identity IdentityPolicy IdentityFacts IdentityLife PolicyService Extensions ExtensionsFacts.

Module ExtensionDemo.
Import RealmDemo.
#[local] Existing Instances host realm_host demo_fresh demo_dates demo_clock.

(** * The Realm: an owner with a Grant for extensions *)

Definition manager_grant : CreateTaskGrantInput.t := {|
  CreateTaskGrantInput.principalId := "alice"; CreateTaskGrantInput.actorId := human_actor;
  CreateTaskGrantInput.clientId := "client:anyam-web"; CreateTaskGrantInput.sessionId := human;
  CreateTaskGrantInput.taskId := task; CreateTaskGrantInput.resource := whole;
  CreateTaskGrantInput.sourceSpaceIds := [];
  CreateTaskGrantInput.actions := [Capability.extension_install; Capability.extension_manage; Capability.run_invoke;
    Capability.landing_request];
  CreateTaskGrantInput.effects := Some ["extension.install"; "extension.replace"; "extension.revoked"; "run.invoke";
    "landing.request"];
  CreateTaskGrantInput.allowedModelProviders := None;
  CreateTaskGrantInput.allowedCredentialClasses := None; CreateTaskGrantInput.deniedActions := None;
  CreateTaskGrantInput.budget := None; CreateTaskGrantInput.expiresAt := None;
  CreateTaskGrantInput.parentGrantId := None; CreateTaskGrantInput.agentId := None;
  CreateTaskGrantInput.delegatedByActorId := None; CreateTaskGrantInput.delegatedBySessionId := None;
  CreateTaskGrantInput.consentAt := None;
|}.
Definition managed : World * RealmState.t := Eval vm_compute in
  play [act_of (call_createCapabilityGrant manager_grant)] tasked.
Definition managed_grant : string := Eval vm_compute in hd "" (omap_keys (RealmState.grants managed.2)).
Lemma managed_ok : inv managed.1 managed.2.
Proof.
pose (all := enrolment ++ [act_of (call_createTask "alice" human_actor human "build" None None None);
  act_of (call_createCapabilityGrant manager_grant)]).
pose proof (play_reachable all opened [] [] opened_reachable) as H.
replace (play all opened) with managed in H by (vm_compute; reflexivity). apply (cf_inv _ (reachable_ok _ H)).
Qed.

(** * The registry *)

Definition sys : Type := Client RealmState.t Registry.t.
Definition manifest (id trust : string) (effects capabilities : list string) : ExtensionManifest.t := {|
  ExtensionManifest.protocol := "anyam.extension/v1"; ExtensionManifest.id := id; ExtensionManifest.name := "Builder";
  ExtensionManifest.version := "1"; ExtensionManifest.kind := "action"; ExtensionManifest.trust := trust;
  ExtensionManifest.source := "git"; ExtensionManifest.digest := "sha256:abc";
  ExtensionManifest.requestedEffects := effects; ExtensionManifest.requestedCapabilities := capabilities;
  ExtensionManifest.lifecycle := ExtensionLifecycle.proposed;
  ExtensionManifest.compatibility := ["anyam.kernel/v1"; "anyam.extension/v1"];
  ExtensionManifest.provenance := ExtensionProvenance.mk "git" "team" None None "signed";
  ExtensionManifest.deprecationReason := None;
|}.
Definition builder : ExtensionManifest.t := manifest "builder" "unverified" ["run.invoke"] ["run.invoke"; "landing.request"].
Definition authorization : ExtensionAuthorization.t := {|
  ExtensionAuthorization.principalId := "alice"; ExtensionAuthorization.actorId := human_actor;
  ExtensionAuthorization.clientId := "client:anyam-web"; ExtensionAuthorization.sessionId := human;
  ExtensionAuthorization.taskId := task; ExtensionAuthorization.grantId := managed_grant;
  ExtensionAuthorization.resource := whole; ExtensionAuthorization.modelProvider := None;
  ExtensionAuthorization.requiredAuthStrength := None; ExtensionAuthorization.authorityClass := None;
  ExtensionAuthorization.promotionId := None; ExtensionAuthorization.approval := None;
|}.
Definition install_input : InstallExtensionInput.t := {|
  InstallExtensionInput.manifestId := "builder"; InstallExtensionInput.manifestVersion := "1";
  InstallExtensionInput.packageDigest := "sha256:abc"; InstallExtensionInput.scope := ExtensionScope.realm "realm";
  InstallExtensionInput.grantedEffects := ["run.invoke"];
  InstallExtensionInput.grantedCapabilities := [Capability.run_invoke; Capability.landing_request];
  InstallExtensionInput.authorization := authorization; InstallExtensionInput.receipt := None;
  InstallExtensionInput.replacesInstallationId := None; InstallExtensionInput.providerMigrationFrom := None;
|}.

Definition fresh_registry : Registry.t := Registry.mk [] [] [] ["anyam.kernel/v1"].
Definition begun : World * sys := (managed.1, mkClient managed.2 fresh_registry).
Lemma begun_alive : alive_registry begun.
Proof. apply (alive_new managed.1 managed.2 None fresh_registry); [exact managed_ok|]. vm_compute. reflexivity. Qed.

Definition after {A} (r : outcome failure A * World * sys) : World * sys := (r.1.2, r.2).
Lemma after_alive {A} (m : M sys failure A) σ : call m → alive_registry σ → alive_registry (after (m σ.1 σ.2)).
Proof.
intros Hm Hs. eapply alive_lives; [exact Hs|]. destruct σ as [w c]. simpl.
destruct (m w c) as [[o w'] c'] eqn:Hrun. by eapply lives_call.
Qed.
Definition answer {A} (r : outcome failure A * World * sys) : option A :=
  match r.1.1 with Ok a => Some a | Throw _ => None end.

Definition with_manifest : World * sys := Eval vm_compute in
  after (registerManifest (RegisterExtensionInput.mk builder "sha256:abc") begun.1 begun.2).
Definition installed : outcome failure ExtensionInstallation.t * World * sys := Eval vm_compute in
  install install_input with_manifest.1 with_manifest.2.
Lemma installed_eq : install install_input with_manifest.1 with_manifest.2 = (installed.1.1, installed.1.2, installed.2).
Proof. vm_compute. reflexivity. Qed.
Definition installation_id : string := Eval vm_compute in
  default "" (ExtensionInstallation.id <$> answer installed).
Lemma with_manifest_alive : alive_registry with_manifest.
Proof.
pose proof (after_alive _ begun (call_registerManifest (RegisterExtensionInput.mk builder "sha256:abc")) begun_alive) as H.
replace (after _) with with_manifest in H by (vm_compute; reflexivity). exact H.
Qed.
Lemma installed_alive : alive_registry (after installed).
Proof. eapply alive_lives; [exact with_manifest_alive|]. exact (lives_call _ _ _ _ _ _ _ (call_install install_input) installed_eq). Qed.

Definition invocation (capability : Capability.t) : InvokeExtensionInput.t := {|
  InvokeExtensionInput.installationId := installation_id; InvokeExtensionInput.requestedEffects := ["run.invoke"];
  InvokeExtensionInput.requestedCapabilities := [capability]; InvokeExtensionInput.resource := whole;
  InvokeExtensionInput.authorization := authorization; InvokeExtensionInput.operation := None;
|}.
Definition ran (capability : Capability.t) := invoke (invocation capability) installed.1.2 installed.2.
Definition status_of (r : outcome failure ExtensionInvocationResult.t * World * sys) : option ExtensionInvocationStatus.t :=
  ExtensionInvocationResult.status <$> answer r.
(** What the code says of a kernel authority, and of an effect not granted. *)
Example proposes : status_of (ran Capability.landing_request) = Some ExtensionInvocationStatus.proposal.
Proof. vm_compute. reflexivity. Qed.
Example refuses_more : status_of (ran Capability.policy_manage) = Some ExtensionInvocationStatus.blocked.
Proof. vm_compute. reflexivity. Qed.

(** An invocation that requests no capability never reaches the policy: a caller
    that nobody knows may use an effect that was granted. *)
Definition stranger : InvokeExtensionInput.t :=
  invocation Capability.run_invoke <| InvokeExtensionInput.requestedCapabilities := [] |>
    <| InvokeExtensionInput.authorization :=
         authorization <| ExtensionAuthorization.principalId := "nobody" |>
           <| ExtensionAuthorization.sessionId := "none" |> <| ExtensionAuthorization.grantId := "none" |> |>.
Example stranger_allowed :
  status_of (invoke stranger installed.1.2 installed.2) = Some ExtensionInvocationStatus.allowed.
Proof. vm_compute. reflexivity. Qed.

Definition replacement : ReplaceExtensionInput.t := {|
  ReplaceExtensionInput.installationId := installation_id; ReplaceExtensionInput.replacement := install_input;
  ReplaceExtensionInput.authorization := authorization; ReplaceExtensionInput.reason := "newer";
  ReplaceExtensionInput.providerMigration := None;
|}.
Definition replaced : outcome failure ExtensionInstallation.t * World * sys := Eval vm_compute in
  replace replacement installed.1.2 installed.2.
Lemma replaced_eq : replace replacement installed.1.2 installed.2 = (replaced.1.1, replaced.1.2, replaced.2).
Proof. vm_compute. reflexivity. Qed.

(** A revoked installation can still be replaced: its lineage goes on. *)
Definition revocation : ExtensionTransitionInput.t :=
  ExtensionTransitionInput.mk installation_id authorization "stop".
Example revoked_is_replaced :
  let σ := after (revoke revocation installed.1.2 installed.2) in
  ExtensionInstallation.lifecycle <$> answer (replace replacement σ.1 σ.2) = Some ExtensionLifecycle.enabled ∧
  (ExtensionInstallation.lifecycle <$> omap_get installation_id (Registry.installations (own σ.2))
    = Some ExtensionLifecycle.revoked) ∧
  (ExtensionInstallation.lifecycle <$> omap_get installation_id
     (Registry.installations (own (after (replace replacement σ.1 σ.2)).2)) = Some ExtensionLifecycle.replaced).
Proof. vm_compute. split_and!; reflexivity. Qed.

(** * Witnesses *)

Lemma registry_consistent_witness : length (Registry.installations (own installed.2)) = 1%nat ∧
  record_of installation_id (Registry.installations (own installed.2)) (λ i,
    ExtensionScope.realm_id (ExtensionInstallation.scope i) = "realm" ∧
    "target.promote" ∉ ExtensionInstallation.grantedEffects i ++ ExtensionInstallation.grantedCapabilities i).
Proof.
split; [reflexivity|]. destruct (registry_consistent _ installed_alive) as [_ H]. unfold record_of.
destruct (omap_get installation_id _) as [i|] eqn:Hi; [|vm_compute in Hi; discriminate Hi].
destruct (H _ _ Hi) as (_ & Hr & m & Hm & [(Hid & Hv & Hd) _ _ _ _] & Hrisk). split; [exact Hr|]. intros Hin.
assert (ExtensionManifest.trust m = "unverified") as Ht.
{ vm_compute in Hi. injection Hi as <-. unfold registered in Hm. rewrite Hid, Hv, Hd in Hm. vm_compute in Hm. by injection Hm as <-. }
apply (Hrisk Ht _ Hin). by vm_compute; repeat constructor.
Defined.

Lemma invoke_exact_witness : status_of (ran Capability.run_invoke) = Some ExtensionInvocationStatus.allowed ∧
  record_of installation_id (Registry.installations (own installed.2)) (λ i,
    admits (invocation Capability.run_invoke) i ∧
    permits_during installed.1.2 installed.2 (ran Capability.run_invoke).1.2 (ran Capability.run_invoke).2
      (invoke_request (invocation Capability.run_invoke) Capability.run_invoke)).
Proof.
split; [vm_compute; reflexivity|].
destruct (ran Capability.run_invoke) as [[o w'] c'] eqn:Hrun.
destruct (invoke_exact _ _ _ _ _ _ (alive_ok _ installed_alive) Hrun) as (_ & _ & H).
assert (status_of (ran Capability.run_invoke) = Some ExtensionInvocationStatus.allowed) as Hst by (vm_compute; reflexivity).
rewrite Hrun in Hst. destruct o as [r|e]; [|discriminate Hst]. injection Hst as Hst.
destruct H as (i & Hi & H). rewrite Hst in H. destruct H as (Ha & Hp & _). unfold record_of.
change (InvokeExtensionInput.installationId _) with installation_id in Hi. cbn [after fst snd] in Hi.
rewrite Hi. split; [exact Ha|]. apply Hp. by left.
Defined.

(** What is replaced stays replaced, and its invocation is blocked. *)
Definition late : outcome failure ExtensionInvocationResult.t * World * sys :=
  invoke (invocation Capability.run_invoke) replaced.1.2 replaced.2.
Lemma replaced_alive : alive_registry (after replaced).
Proof. eapply alive_lives; [exact installed_alive|]. exact (lives_call _ _ _ _ _ _ _ (call_replace replacement) replaced_eq). Qed.
Definition seen_later : World * sys := Eval vm_compute in after late.
Lemma seen_later_lives : rtc lives (after replaced) seen_later.
Proof.
apply rtc_once. destruct late as [[o w'] c'] eqn:Hl.
replace seen_later with (w', c') by (change (w', c') with (after (o, w', c')); rewrite <-Hl; vm_compute; reflexivity).
by eapply (lives_call _ _ _ _ _ _ _ (call_invoke (invocation Capability.run_invoke))).
Qed.
Lemma retired_never_acts_witness :
  status_of (invoke (invocation Capability.run_invoke) seen_later.1 seen_later.2) = Some ExtensionInvocationStatus.blocked.
Proof.
destruct (omap_get installation_id (Registry.installations (own replaced.2))) as [i|] eqn:Hi; [|vm_compute in Hi; discriminate Hi].
destruct (invoke _ _ _) as [[o w'] c'] eqn:Hrun.
assert (is_Some (answer (invoke (invocation Capability.run_invoke) seen_later.1 seen_later.2))) as Ho
  by (vm_compute; eexists; reflexivity).
rewrite Hrun in Ho. destruct o as [r|e]; [|destruct Ho as [? Ho]; discriminate Ho].
assert (ExtensionInstallation.lifecycle i ≠ ExtensionLifecycle.enabled) as Hne
  by (vm_compute in Hi; injection Hi as <-; discriminate).
destruct (retired_never_acts _ _ installation_id i (invocation Capability.run_invoke) _ _ _ replaced_alive Hi Hne seen_later_lives eq_refl Hrun) as [_ H].
unfold status_of. cbn. f_equal. exact H.
Defined.

Lemma install_authorized_witness : ExtensionInstallation.lifecycle <$> answer installed = Some ExtensionLifecycle.enabled ∧
  permits_during with_manifest.1 with_manifest.2 installed.1.2 installed.2
    (grant_request install_input Capability.landing_request).
Proof.
split; [reflexivity|]. pose proof (install_authorized _ _ _ _ _ _ (alive_ok _ with_manifest_alive) installed_eq) as [H _].
destruct installed.1.1 as [i|e] eqn:Hi; [|vm_compute in Hi; discriminate Hi].
apply H. right. left.
Defined.

Lemma replace_lineage_witness : record_of installation_id (Registry.installations (own installed.2)) (λ i,
  match answer replaced with
  | Some j => ExtensionInstallation.lineageId j = ExtensionInstallation.lineageId i ∧
      permits_during installed.1.2 installed.2 replaced.1.2 replaced.2
        (manage_request authorization "extension.replace" i)
  | None => False
  end).
Proof.
unfold answer. destruct replaced.1.1 as [j|e] eqn:Hj; [|vm_compute in Hj; discriminate Hj].
assert (replace replacement installed.1.2 installed.2 = (Ok j, replaced.1.2, replaced.2)) as Hrun.
{ rewrite <-Hj. exact replaced_eq. }
destruct (replace_lineage _ _ _ _ _ _ (alive_ok _ installed_alive) Hrun) as (i & Hi & Hp & _ & Hl & _).
unfold record_of. change (ReplaceExtensionInput.installationId replacement) with installation_id in Hi.
cbn [after fst snd] in Hi. rewrite Hi. split; [exact Hl|exact Hp].
Defined.
End ExtensionDemo.
