(* ===== verification/CredentialMaterial.v ===== *)
(** The scanner of credential material,
    packages/create-anyam/src/credential-material.ts: the walk over a value, its
    sensitive keys and its safe markers.  The expressions that recognise a token in
    a text ([textKind]) are a parameter. *)

From S2P Require Import Prelude Json.

Definition CREDENTIAL_MATERIAL_SCANNER_PROTOCOL : string := "anyam.credential-material-scanner/v1".

Module CredentialMaterialFindingKind.
Inductive t :=
| sensitive_key | bearer_header | basic_header | jwt | private_key | cloud_token | userinfo_url
| encoded_credential.
#[global] Instance t_eq_dec : EqDecision t.
Proof. solve_decision. Defined.
Definition show (x : t) : string :=
  match x with
  | sensitive_key => "sensitive-key"
  | bearer_header => "bearer-header"
  | basic_header => "basic-header"
  | jwt => "jwt"
  | private_key => "private-key"
  | cloud_token => "cloud-token"
  | userinfo_url => "userinfo-url"
  | encoded_credential => "encoded-credential"
  end.
End CredentialMaterialFindingKind.

Module CredentialMaterialFinding.
Record t := mk { path : string; kind : CredentialMaterialFindingKind.t }.
End CredentialMaterialFinding.

(** What the expressions make of a text, encodings included. *)
Class TextPatterns := textKind : string → option CredentialMaterialFindingKind.t.

Definition SAFE_MARKERS : list string :=
  ["not-printed"; "not-issued"; "not-returned"; "not-stored"; "not-present"; "redacted"; "redacted-only";
   "credential-free"; "credentials-none"; "none"; "missing"].
Definition SENSITIVE_KEYS : list string :=
  ["token"; "tokens"; "accesstoken"; "accesstokens"; "refreshtoken"; "refreshtokens"; "providertoken";
   "providertokens"; "githubtoken"; "githubtokens"; "secret"; "secrets"; "clientsecret"; "clientsecrets";
   "apikey"; "apikeys"; "password"; "passwords"; "authorization"; "privatekey"; "privatekeys";
   "webhooksecret"; "webhooksecrets"; "credential"; "credentials"; "jwt"; "jwts"; "bearer"].

(** [[A-Za-z0-9]]. *)
Definition alphanumeric (c : ascii) : bool :=
  let n := code c in
  ((48 <=? n) && (n <=? 57) || (65 <=? n) && (n <=? 90) || (97 <=? n) && (n <=? 122))%N.
Fixpoint string_filter (p : ascii → bool) (s : string) : string :=
  match s with
  | EmptyString => EmptyString
  | String c s => if p c then String c (string_filter p s) else string_filter p s
  end.

Section scanner.
Context `{HH : Host} `{TP : TextPatterns}.

Definition normalizedKey (key : string) : string :=
  toLowerCase (string_filter alphanumeric (normalizeNFKC key)).
Definition safeMarker (value : string) : bool := list_includes SAFE_MARKERS (toLowerCase (trim value)).
Definition keyKind (key : string) (value : json) : option CredentialMaterialFindingKind.t :=
  if negb (list_includes SENSITIVE_KEYS (normalizedKey key)) then None
  else match value with
  | JStr s => if safeMarker s then None else Some CredentialMaterialFindingKind.sensitive_key
  | _ => Some CredentialMaterialFindingKind.sensitive_key
  end.

(** A JSON value is a tree, so the set of the objects already seen never stops the
    walk. *)
Fixpoint scan (value : json) (path : string) : option CredentialMaterialFinding.t :=
  match value with
  | JStr s => (λ kind, CredentialMaterialFinding.mk path kind) <$> textKind s
  | JArr l =>
      (fix items (l : list json) (index : nat) : option CredentialMaterialFinding.t :=
         match l with
         | [] => None
         | item :: l =>
             match scan item (cat [path; "["; pretty index; "]"]) with
             | Some finding => Some finding
             | None => items l (S index)
             end
         end) l 0
  | JObj l =>
      (fix members (l : list (string * json)) : option CredentialMaterialFinding.t :=
         match l with
         | [] => None
         | (key, item) :: l =>
             let currentPath := cat [path; "."; key] in
             match keyKind key item with
             | Some kind => Some (CredentialMaterialFinding.mk currentPath kind)
             | None =>
                 match scan item currentPath with
                 | Some finding => Some finding
                 | None => members l
                 end
             end
         end) l
  | _ => None
  end.
Definition scanCredentialMaterial (value : json) (rootPath : option string) :
    option CredentialMaterialFinding.t := scan value (default "value" rootPath).
Definition isCredentialFree (value : json) : bool := bool_decide (scanCredentialMaterial value None = None).

(** ** What the scanner accepts *)

Fixpoint credential_free (value : json) : Prop :=
  match value with
  | JStr s => textKind s = None
  | JArr l => (fix items (l : list json) : Prop :=
      match l with [] => True | item :: l => credential_free item ∧ items l end) l
  | JObj l => (fix members (l : list (string * json)) : Prop :=
      match l with
      | [] => True
      | (key, item) :: l => keyKind key item = None ∧ credential_free item ∧ members l
      end) l
  | _ => True
  end.

(** Whatever the path reported, a value passes exactly when no text in it is
    recognised and no key of it is sensitive. *)
Lemma scan_None value path : scan value path = None ↔ credential_free value.
Proof.
revert path. induction value as [| | | |s|l IH|l IH] using json_ind'; intros path; simpl; try done.
- by destruct (textKind s).
- generalize 0 as n. induction IH as [|item l Hi _ IH]; intros n; [done|].
  specialize (Hi (cat [path; "["; pretty n; "]"])). destruct (scan item _); [naive_solver|].
  rewrite IH. naive_solver.
- induction IH as [|[key item] l Hi _ IH]; [done|]. destruct (keyKind key item); [naive_solver|].
  simpl in Hi. specialize (Hi (cat [path; "."; key])). destruct (scan item _); [naive_solver|].
  rewrite IH. naive_solver.
Qed.
End scanner.
