(* ===== verification/Governance.v ===== *)
(** Governance Profiles, src/governance/profiles.ts: versioned sets of controls,
    their activation in a scope of the Realm, the evaluation of observations against
    them, and the portable bundle that exports and replays an evaluation.

    [GovernanceRegistry.t] is the state of a [GovernanceProfileRegistry] next to its
    policy service ([Client]), and each method a computation over both.  A stored
    profile that a method mutates is updated in the map. *)

From S2P Require Import Prelude Json Contracts LocaleJson Identity IdentityPolicy PolicyService Extensions CredentialMaterial.

(** * Data of kernel/contracts.ts *)

#[export] Instance ExtensionProvenance_to_json : ToJson ExtensionProvenance.t := λ r, object
  [field "source" (ExtensionProvenance.source r);
   field "publisher" (ExtensionProvenance.publisher r);
   opt_field "signer" (ExtensionProvenance.signer r);
   opt_field "attestation" (ExtensionProvenance.attestation r);
   field "receipt" (ExtensionProvenance.receipt r)].

Module GovernanceScope.
Record t := mk {
  realmId : string;
  organizationId : option string;
  projectId : option string;
}.
#[global] Instance eta : Eta t := fun r =>
  mk (realmId r) (organizationId r) (projectId r).
End GovernanceScope.
#[export] Instance GovernanceScope_to_json : ToJson GovernanceScope.t := λ r, object
  [field "realmId" (GovernanceScope.realmId r);
   opt_field "organizationId" (GovernanceScope.organizationId r);
   opt_field "projectId" (GovernanceScope.projectId r)].

Module GovernanceControl.
Record t := mk {
  id : string;
  title : string;
  requirement : string;
  owner : string;
  required : bool;
  evidenceKinds : list string;
  customerResponsibility : option string;
}.
#[global] Instance eta : Eta t := fun r =>
  mk (id r) (title r) (requirement r) (owner r) (required r) (evidenceKinds r)
  (customerResponsibility r).
End GovernanceControl.
#[export] Instance GovernanceControl_to_json : ToJson GovernanceControl.t := λ r, object
  [field "id" (GovernanceControl.id r);
   field "title" (GovernanceControl.title r);
   field "requirement" (GovernanceControl.requirement r);
   field "owner" (GovernanceControl.owner r);
   field "required" (GovernanceControl.required r);
   field "evidenceKinds" (GovernanceControl.evidenceKinds r);
   opt_field "customerResponsibility" (GovernanceControl.customerResponsibility r)].

Module ProfileLifecycle.
Inductive t :=
| draft | active | retired.
#[global] Instance t_eq_dec : EqDecision t.
Proof. solve_decision. Defined.
Definition show (x : t) : string :=
  match x with
  | draft => "draft"
  | active => "active"
  | retired => "retired"
  end.
End ProfileLifecycle.
#[export] Instance ProfileLifecycle_to_json : ToJson ProfileLifecycle.t := λ x, JStr (ProfileLifecycle.show x).

Module GovernanceProfile.
Record t := mk {
  protocol : string;
  id : string;
  name : string;
  version : string;
  digest : string;
  scope : GovernanceScope.t;
  controls : list GovernanceControl.t;
  provenance : ExtensionProvenance.t;
  policyVersion : string;
  lifecycle : ProfileLifecycle.t;
  receipt : string;
}.
#[global] Instance eta : Eta t := fun r =>
  mk (protocol r) (id r) (name r) (version r) (digest r) (scope r) (controls r) (provenance r)
  (policyVersion r) (lifecycle r) (receipt r).
End GovernanceProfile.
#[export] Instance GovernanceProfile_to_json : ToJson GovernanceProfile.t := λ r, object
  [field "protocol" (GovernanceProfile.protocol r);
   field "id" (GovernanceProfile.id r);
   field "name" (GovernanceProfile.name r);
   field "version" (GovernanceProfile.version r);
   field "digest" (GovernanceProfile.digest r);
   field "scope" (GovernanceProfile.scope r);
   field "controls" (GovernanceProfile.controls r);
   field "provenance" (GovernanceProfile.provenance r);
   field "policyVersion" (GovernanceProfile.policyVersion r);
   field "lifecycle" (GovernanceProfile.lifecycle r);
   field "receipt" (GovernanceProfile.receipt r)].

Module ObservationStatus.
Inductive t :=
| satisfied | failed | indeterminate.
#[global] Instance t_eq_dec : EqDecision t.
Proof. solve_decision. Defined.
Definition show (x : t) : string :=
  match x with
  | satisfied => "satisfied"
  | failed => "failed"
  | indeterminate => "indeterminate"
  end.
End ObservationStatus.
#[export] Instance ObservationStatus_to_json : ToJson ObservationStatus.t := λ x, JStr (ObservationStatus.show x).

Module GovernanceControlObservation.
Record t := mk {
  controlId : string;
  status : ObservationStatus.t;
  evidenceRefs : list string;
  observedAt : string;
  owner : string;
  nextAction : string;
  disclosure : DisclosurePolicyRef.t;
  receipt : string;
}.
#[global] Instance eta : Eta t := fun r =>
  mk (controlId r) (status r) (evidenceRefs r) (observedAt r) (owner r) (nextAction r)
  (disclosure r) (receipt r).
End GovernanceControlObservation.
#[export] Instance GovernanceControlObservation_to_json : ToJson GovernanceControlObservation.t := λ r, object
  [field "controlId" (GovernanceControlObservation.controlId r);
   field "status" (GovernanceControlObservation.status r);
   field "evidenceRefs" (GovernanceControlObservation.evidenceRefs r);
   field "observedAt" (GovernanceControlObservation.observedAt r);
   field "owner" (GovernanceControlObservation.owner r);
   field "nextAction" (GovernanceControlObservation.nextAction r);
   field "disclosure" (GovernanceControlObservation.disclosure r);
   field "receipt" (GovernanceControlObservation.receipt r)].

(** [certificationClaim] is the literal [false]. *)
Module GovernanceControlEvidence.
Record t := mk {
  id : string;
  profileId : string;
  profileDigest : string;
  scope : GovernanceScope.t;
  controlId : string;
  status : ObservationStatus.t;
  evidenceRefs : list string;
  policyVersion : string;
  authorizationEpoch : Z;
  observedAt : string;
  owner : string;
  nextAction : string;
  disclosure : DisclosurePolicyRef.t;
  receipt : string;
}.
#[global] Instance eta : Eta t := fun r =>
  mk (id r) (profileId r) (profileDigest r) (scope r) (controlId r) (status r) (evidenceRefs r)
  (policyVersion r) (authorizationEpoch r) (observedAt r) (owner r) (nextAction r)
  (disclosure r) (receipt r).
End GovernanceControlEvidence.

Module EvaluationStatus.
Inductive t :=
| ready | blocked | indeterminate.
#[global] Instance t_eq_dec : EqDecision t.
Proof. solve_decision. Defined.
Definition show (x : t) : string :=
  match x with
  | ready => "ready"
  | blocked => "blocked"
  | indeterminate => "indeterminate"
  end.
End EvaluationStatus.
#[export] Instance EvaluationStatus_to_json : ToJson EvaluationStatus.t := λ x, JStr (EvaluationStatus.show x).

(** The protocol and [certificationClaim] are literals. *)
Module GovernanceEvaluation.
Record t := mk {
  id : string;
  profileId : string;
  profileDigest : string;
  scope : GovernanceScope.t;
  status : EvaluationStatus.t;
  evidenceIds : list string;
  blockers : list string;
  advisories : list string;
  policyVersion : string;
  authorizationEpoch : Z;
  receipt : string;
}.
#[global] Instance eta : Eta t := fun r =>
  mk (id r) (profileId r) (profileDigest r) (scope r) (status r) (evidenceIds r) (blockers r)
  (advisories r) (policyVersion r) (authorizationEpoch r) (receipt r).
End GovernanceEvaluation.
#[export] Instance GovernanceEvaluation_to_json : ToJson GovernanceEvaluation.t := λ r, object
  [field "protocol" ("anyam.governance-evaluation/v1" : string);
   field "certificationClaim" (false : bool);
   field "id" (GovernanceEvaluation.id r);
   field "profileId" (GovernanceEvaluation.profileId r);
   field "profileDigest" (GovernanceEvaluation.profileDigest r);
   field "scope" (GovernanceEvaluation.scope r);
   field "status" (GovernanceEvaluation.status r);
   field "evidenceIds" (GovernanceEvaluation.evidenceIds r);
   field "blockers" (GovernanceEvaluation.blockers r);
   field "advisories" (GovernanceEvaluation.advisories r);
   field "policyVersion" (GovernanceEvaluation.policyVersion r);
   field "authorizationEpoch" (GovernanceEvaluation.authorizationEpoch r);
   field "receipt" (GovernanceEvaluation.receipt r)].

Module GovernanceProfileExport.
Record t := mk {
  protocol : string;
  version : string;
  exportId : string;
  createdAt : string;
  profile : GovernanceProfile.t;
  observations : list GovernanceControlObservation.t;
  evaluation : GovernanceEvaluation.t;
  credentialFree : bool;
  integrityDigest : string;
  receipt : string;
}.
#[global] Instance eta : Eta t := fun r =>
  mk (protocol r) (version r) (exportId r) (createdAt r) (profile r) (observations r)
  (evaluation r) (credentialFree r) (integrityDigest r) (receipt r).
End GovernanceProfileExport.

(** The bundle without its digest. *)
Definition without_digest (b : GovernanceProfileExport.t) : json := object
  [field "protocol" (GovernanceProfileExport.protocol b);
   field "version" (GovernanceProfileExport.version b);
   field "exportId" (GovernanceProfileExport.exportId b);
   field "createdAt" (GovernanceProfileExport.createdAt b);
   field "profile" (GovernanceProfileExport.profile b);
   field "observations" (GovernanceProfileExport.observations b);
   field "evaluation" (GovernanceProfileExport.evaluation b);
   field "credentialFree" (GovernanceProfileExport.credentialFree b);
   field "receipt" (GovernanceProfileExport.receipt b)].

(** * Data of the registry *)

Abbreviation GovernanceProfileAuthorization := ExtensionAuthorization.t (only parsing).

Module CreateGovernanceProfileInput.
Record t := mk {
  id : string;
  name : string;
  version : string;
  scope : GovernanceScope.t;
  controls : list GovernanceControl.t;
  provenance : ExtensionProvenance.t;
  policyVersion : string;
  lifecycle : option ProfileLifecycle.t;
  receipt : string;
}.
#[global] Instance eta : Eta t := fun r =>
  mk (id r) (name r) (version r) (scope r) (controls r) (provenance r) (policyVersion r)
  (lifecycle r) (receipt r).
End CreateGovernanceProfileInput.

Module ActivateGovernanceProfileInput.
Record t := mk {
  profileId : string;
  scope : GovernanceScope.t;
  authorization : ExtensionAuthorization.t;
}.
#[global] Instance eta : Eta t := fun r =>
  mk (profileId r) (scope r) (authorization r).
End ActivateGovernanceProfileInput.

Module EvaluateGovernanceProfileInput.
Record t := mk {
  profileId : string;
  scope : GovernanceScope.t;
  observations : list GovernanceControlObservation.t;
  authorization : ExtensionAuthorization.t;
}.
#[global] Instance eta : Eta t := fun r =>
  mk (profileId r) (scope r) (observations r) (authorization r).
End EvaluateGovernanceProfileInput.

Module ReplayGovernanceProfileInput.
Record t := mk {
  scope : GovernanceScope.t;
  authorization : ExtensionAuthorization.t;
  observations : option (list GovernanceControlObservation.t);
}.
#[global] Instance eta : Eta t := fun r =>
  mk (scope r) (authorization r) (observations r).
End ReplayGovernanceProfileInput.

Module ApplicationStatus.
Inductive t :=
| active | retired.
#[global] Instance t_eq_dec : EqDecision t.
Proof. solve_decision. Defined.
Definition show (x : t) : string :=
  match x with
  | active => "active"
  | retired => "retired"
  end.
End ApplicationStatus.

Module GovernanceProfileApplication.
Record t := mk {
  id : string;
  profileId : string;
  profileDigest : string;
  scope : GovernanceScope.t;
  policyVersion : string;
  authorizationEpoch : Z;
  status : ApplicationStatus.t;
  activatedBy : string;
  activatedAt : string;
  receipt : string;
}.
#[global] Instance eta : Eta t := fun r =>
  mk (id r) (profileId r) (profileDigest r) (scope r) (policyVersion r) (authorizationEpoch r)
  (status r) (activatedBy r) (activatedAt r) (receipt r).
End GovernanceProfileApplication.

Module GovernanceErrorCode.
Inductive t :=
| invalid_input | profile_invalid | profile_not_found | profile_digest_mismatch | scope_mismatch
| profile_inactive | policy_denied | export_invalid.
#[global] Instance t_eq_dec : EqDecision t.
Proof. solve_decision. Defined.
Definition show (x : t) : string :=
  match x with
  | invalid_input => "invalid-input"
  | profile_invalid => "profile-invalid"
  | profile_not_found => "profile-not-found"
  | profile_digest_mismatch => "profile-digest-mismatch"
  | scope_mismatch => "scope-mismatch"
  | profile_inactive => "profile-inactive"
  | policy_denied => "policy-denied"
  | export_invalid => "export-invalid"
  end.
End GovernanceErrorCode.

Module GovernanceProfileError.
Record t := mk {
  code : GovernanceErrorCode.t;
  message : string;
  affectedObject : string;
  recoveryAction : string;
  receipt : string;
  explanation : option PolicyExplanation.t;
}.
#[global] Instance eta : Eta t := fun r =>
  mk (code r) (message r) (affectedObject r) (recoveryAction r) (receipt r) (explanation r).
End GovernanceProfileError.

(** What a method throws. *)
Inductive governance_failure :=
| governance_error (e : GovernanceProfileError.t)
| foreign_error (message : string).

Module GovernanceRegistry.
Record t := mk {
  profiles : omap GovernanceProfile.t;
  applications : omap GovernanceProfileApplication.t;
  evidence : omap GovernanceControlEvidence.t;
  evaluations : omap GovernanceEvaluation.t;
}.
#[global] Instance eta : Eta t := fun r =>
  mk (profiles r) (applications r) (evidence r) (evaluations r).
End GovernanceRegistry.

(** * Digests

    The keys of every object are sorted by localeCompare, then the value is written
    by JSON.stringify (the records here hold no [undefined] and no key that is an
    array index). *)

Section digests.
Context `{HH : Host}.

Definition stableStringify (value : json) : string := encode_plain "undefined" (stableValue value).
Definition digest (value : json) : string := digest_text (stableStringify value).

Definition profileDigestInput (profile : GovernanceProfile.t) : json := object
  [field "protocol" (GovernanceProfile.protocol profile);
   field "id" (GovernanceProfile.id profile);
   field "name" (GovernanceProfile.name profile);
   field "version" (GovernanceProfile.version profile);
   field "controls" (GovernanceProfile.controls profile);
   field "provenance" (GovernanceProfile.provenance profile)].
Definition governanceProfileDigest (profile : GovernanceProfile.t) : string :=
  digest (profileDigestInput profile).
Definition observationsDigest (observations : list GovernanceControlObservation.t) : string :=
  digest (to_json observations).
Definition exportDigest (bundle : GovernanceProfileExport.t) : string := digest (without_digest bundle).
End digests.

Definition CONTRACT_VERSIONS_governanceProfile : string := "anyam.governance-profile/v1".
Definition CONTRACT_VERSIONS_governanceProfileExport : string := "anyam.governance-profile-export/v1".

Definition createGovernanceProfile `{Host} (input : CreateGovernanceProfileInput.t) : GovernanceProfile.t :=
  let profileWithoutDigest := {|
    GovernanceProfile.protocol := CONTRACT_VERSIONS_governanceProfile;
    GovernanceProfile.id := CreateGovernanceProfileInput.id input;
    GovernanceProfile.name := CreateGovernanceProfileInput.name input;
    GovernanceProfile.version := CreateGovernanceProfileInput.version input;
    GovernanceProfile.digest := "";
    GovernanceProfile.scope := CreateGovernanceProfileInput.scope input;
    GovernanceProfile.controls := CreateGovernanceProfileInput.controls input;
    GovernanceProfile.provenance := CreateGovernanceProfileInput.provenance input;
    GovernanceProfile.policyVersion := CreateGovernanceProfileInput.policyVersion input;
    GovernanceProfile.lifecycle :=
      default ProfileLifecycle.draft (CreateGovernanceProfileInput.lifecycle input);
    GovernanceProfile.receipt := CreateGovernanceProfileInput.receipt input |} in
  profileWithoutDigest <| GovernanceProfile.digest := governanceProfileDigest profileWithoutDigest |>.

(** * Checks *)

Definition refuse (code : GovernanceErrorCode.t) (message affectedObject recoveryAction receipt : string) :
    governance_failure :=
  governance_error (GovernanceProfileError.mk code message affectedObject recoveryAction receipt None).

Definition requireText (value field : string) : outcome governance_failure () :=
  if blank value then
    Throw (refuse GovernanceErrorCode.invalid_input (cat [field; " must not be empty."]) field
      (cat ["provide a non-empty "; field; " and retry"]) (cat ["field="; field; "; present=false"]))
  else Ok ().
Definition unique (values : list string) (field : string) : outcome governance_failure (list string) :=
  if existsb blank values || has_duplicates values then
    Throw (refuse GovernanceErrorCode.invalid_input (cat [field; " must contain distinct non-empty values."]) field
      (cat ["deduplicate and populate "; field; " before retrying"])
      (cat ["field="; field; "; count="; pretty (length values); "; unique=";
            pretty (length (remove_dups values))]))
  else Ok values.

Definition validateScope (scope : GovernanceScope.t) (realmId : string) : outcome governance_failure () :=
  _ ← requireText (GovernanceScope.realmId scope) "scope.realmId";
  _ ← match GovernanceScope.organizationId scope with
      | Some o => requireText o "scope.organizationId" | None => Ok () end;
  _ ← match GovernanceScope.projectId scope with
      | Some p => requireText p "scope.projectId" | None => Ok () end;
  if negb (String.eqb (GovernanceScope.realmId scope) realmId) then
    Throw (refuse GovernanceErrorCode.scope_mismatch
      (cat ["Governance Profile scope "; GovernanceScope.realmId scope; " belongs to another Realm."])
      (GovernanceScope.realmId scope) (cat ["replay or activate the profile in Realm "; realmId])
      (cat ["active-realm="; realmId; "; requested-realm="; GovernanceScope.realmId scope]))
  else Ok ().

Definition scopeResource (scope : GovernanceScope.t) : ResourceRef.t :=
  whole_realm (GovernanceScope.realmId scope)
    <| ResourceRef.organizationId := GovernanceScope.organizationId scope |>
    <| ResourceRef.projectId := GovernanceScope.projectId scope |>.
Definition scopeKey (scope : GovernanceScope.t) : string :=
  cat [GovernanceScope.realmId scope; "|"; default "" (GovernanceScope.organizationId scope); "|";
       default "" (GovernanceScope.projectId scope)].

Definition check_control (control : GovernanceControl.t) : outcome governance_failure () :=
  let at_field f := cat ["control."; GovernanceControl.id control; f] in
  _ ← requireText (GovernanceControl.id control) "control.id";
  _ ← requireText (GovernanceControl.title control) (at_field ".title");
  _ ← requireText (GovernanceControl.requirement control) (at_field ".requirement");
  _ ← requireText (GovernanceControl.owner control) (at_field ".owner");
  _ ← unique (GovernanceControl.evidenceKinds control) (at_field ".evidenceKinds");
  Ok ().
Fixpoint add_controls (controls : list GovernanceControl.t) (result : omap GovernanceControl.t) :
    outcome governance_failure (omap GovernanceControl.t) :=
  match controls with
  | [] => Ok result
  | control :: controls =>
      _ ← check_control control;
      if omap_has (GovernanceControl.id control) result then
        Throw (refuse GovernanceErrorCode.profile_invalid
          (cat ["Governance Profile contains duplicate control "; GovernanceControl.id control; "."])
          (GovernanceControl.id control) "give every Governance Control a unique stable identifier"
          (cat ["control="; GovernanceControl.id control; "; duplicate=true"]))
      else add_controls controls (omap_set (GovernanceControl.id control) control result)
  end.
Definition controlMap (controls : list GovernanceControl.t) :
    outcome governance_failure (omap GovernanceControl.t) :=
  result ← add_controls controls [];
  match result with
  | [] => Throw (refuse GovernanceErrorCode.profile_invalid
            "Governance Profile must declare at least one control." "controls"
            "declare the first versioned control before activating the Profile" "controls=0")
  | _ => Ok result
  end.

Definition asPolicyInput (authorization : ExtensionAuthorization.t) (capability : Capability.t)
    (resource : ResourceRef.t) (operation : string) : PolicyEvaluationInput.t := {|
  PolicyEvaluationInput.operation := operation;
  PolicyEvaluationInput.capability := Some capability;
  PolicyEvaluationInput.principalId := ExtensionAuthorization.principalId authorization;
  PolicyEvaluationInput.actorId := ExtensionAuthorization.actorId authorization;
  PolicyEvaluationInput.clientId := ExtensionAuthorization.clientId authorization;
  PolicyEvaluationInput.sessionId := ExtensionAuthorization.sessionId authorization;
  PolicyEvaluationInput.taskId := Some (ExtensionAuthorization.taskId authorization);
  PolicyEvaluationInput.grantId := Some (ExtensionAuthorization.grantId authorization);
  PolicyEvaluationInput.resource := resource;
  PolicyEvaluationInput.sourceSpaceId := truthy_opt (ResourceRef.sourceSpaceId resource);
  PolicyEvaluationInput.effect := None;
  PolicyEvaluationInput.modelProvider := truthy_opt (ExtensionAuthorization.modelProvider authorization);
  PolicyEvaluationInput.requiredCredentialClass := None;
  PolicyEvaluationInput.requiredAuthStrength := ExtensionAuthorization.requiredAuthStrength authorization;
  PolicyEvaluationInput.authorityClass := None;
  PolicyEvaluationInput.promotionId := None;
  PolicyEvaluationInput.approval := None;
  PolicyEvaluationInput.discoverable := None;
  PolicyEvaluationInput.protected := Some true;
|}.

(** * Bundles *)

Section bundles.
Context `{HH : Host} `{TP : TextPatterns}.

Definition verifyGovernanceProfileExport (bundle : GovernanceProfileExport.t) :
    outcome governance_failure GovernanceProfileExport.t :=
  let profile := GovernanceProfileExport.profile bundle in
  let actual := exportDigest bundle in
  if negb (String.eqb (GovernanceProfileExport.protocol bundle) CONTRACT_VERSIONS_governanceProfileExport)
     || negb (String.eqb (GovernanceProfileExport.version bundle) "v1")
     || negb (GovernanceProfileExport.credentialFree bundle) then
    Throw (refuse GovernanceErrorCode.export_invalid
      "Governance Profile export is not a credential-free anyam.governance-profile-export/v1 bundle."
      (GovernanceProfileExport.exportId bundle)
      "regenerate the export with the supported protocol and without credential material"
      (cat ["protocol="; GovernanceProfileExport.protocol bundle; "; version=";
            GovernanceProfileExport.version bundle; "; credentialFree=";
            if GovernanceProfileExport.credentialFree bundle then "true" else "false"]))
  else if negb (String.eqb actual (GovernanceProfileExport.integrityDigest bundle)) then
    Throw (refuse GovernanceErrorCode.export_invalid
      "Governance Profile export digest does not match its contents."
      (GovernanceProfileExport.exportId bundle) "restore the owner-controlled bundle and rerun verification"
      (cat ["expected="; GovernanceProfileExport.integrityDigest bundle; "; actual="; actual]))
  else
    match truthy_opt (CredentialMaterialFinding.path <$> scanCredentialMaterial (without_digest bundle) None) with
    | Some credentialKey =>
        Throw (refuse GovernanceErrorCode.export_invalid
          (cat ["Governance Profile export contains credential-shaped field "; credentialKey; "."])
          (GovernanceProfileExport.exportId bundle)
          "remove credential material and regenerate the credential-free export"
          (cat ["credentialField="; credentialKey; "; scanner="; CREDENTIAL_MATERIAL_SCANNER_PROTOCOL;
                "; credentialFree=true required"]))
    | None =>
        if negb (String.eqb (governanceProfileDigest profile) (GovernanceProfile.digest profile)) then
          Throw (refuse GovernanceErrorCode.profile_digest_mismatch
            (cat ["Governance Profile "; GovernanceProfile.id profile; " has a stale digest inside the export."])
            (GovernanceProfile.id profile) "recreate the bundle from the immutable profile definition"
            (cat ["expected="; GovernanceProfile.digest profile; "; actual="; governanceProfileDigest profile]))
        else Ok bundle
    end.
End bundles.

(** * The registry *)

Section registry.
Context `{HH : Host} `{DH : RealmHost} `{TP : TextPatterns} {R : Type} `{PS : PolicyService R}.
#[local] Abbreviation P := (M (Client R GovernanceRegistry.t) governance_failure).

(** [new GovernanceProfileRegistry(realm)]. *)
Definition empty_registry : GovernanceRegistry.t := GovernanceRegistry.mk [] [] [] [].

Definition profile_key (profile : GovernanceProfile.t) : string :=
  cat [GovernanceProfile.id profile; "@"; GovernanceProfile.version profile; "#";
       GovernanceProfile.digest profile].
Definition application_key (profile : GovernanceProfile.t) (scope : GovernanceScope.t) : string :=
  cat [GovernanceProfile.id profile; "#"; GovernanceProfile.digest profile; "|"; scopeKey scope].
(** The first registered profile with the id. *)
Definition find_profile (profileId : string) (s : GovernanceRegistry.t) : option GovernanceProfile.t :=
  find_first (λ candidate, String.eqb (GovernanceProfile.id candidate) profileId)
    (omap_values (GovernanceRegistry.profiles s)).

Definition snapshot : P GovernanceRegistry.t := get_own.
Definition getProfile (profileId : string) : P (option GovernanceProfile.t) :=
  s ← get_own; mret (find_profile profileId s).
Definition listEvidence : P (list GovernanceControlEvidence.t) :=
  s ← get_own; mret (omap_values (GovernanceRegistry.evidence s)).
Definition listEvaluations : P (list GovernanceEvaluation.t) :=
  s ← get_own; mret (omap_values (GovernanceRegistry.evaluations s)).
Definition applicationFor (profile : GovernanceProfile.t) (scope : GovernanceScope.t) :
    P (option GovernanceProfileApplication.t) :=
  s ← get_own; mret (omap_get (application_key profile scope) (GovernanceRegistry.applications s)).

Definition requireProfile (profileId : string) : P GovernanceProfile.t :=
  profile ← getProfile profileId;
  require profile (refuse GovernanceErrorCode.profile_not_found
    (cat ["Governance Profile "; profileId; " is not registered in this Realm."]) profileId
    "register the owner-controlled profile export before activation"
    (cat ["profile="; profileId; "; present=false"])).

Definition authorize (authorization : ExtensionAuthorization.t) (capability : Capability.t)
    (resource : ResourceRef.t) (operation : string) : P PolicyExplanation.t :=
  result ← in_policy foreign_error (ps_evaluate (asPolicyInput authorization capability resource operation));
  let explanation := PolicyDecision.explanation result in
  let decision := PolicyDecisionKind.show (PolicyExplanation.decision explanation) in
  throw_if (negb (PolicyDecision.allowed result))
    (governance_error {|
       GovernanceProfileError.code := GovernanceErrorCode.policy_denied;
       GovernanceProfileError.message := cat ["Governance Profile operation "; operation; " is "; decision;
                                              "; no profile transition was performed."];
       GovernanceProfileError.affectedObject := default (ResourceRef.realmId resource) (ResourceRef.projectId resource);
       GovernanceProfileError.recoveryAction := PolicyExplanation.remediation explanation;
       GovernanceProfileError.receipt := cat ["policy="; PolicyExplanation.policyVersion explanation; "; epoch=";
                                              pretty (PolicyExplanation.authorizationEpoch explanation);
                                              "; decision="; decision];
       GovernanceProfileError.explanation := Some explanation |}) ;;
  mret explanation.

Definition realm_of_policy : P Realm.t := r ← get_policy; mret (ps_realm r).

(** The checks of [registerProfile], in its order. *)
Definition check_profile (profile : GovernanceProfile.t) (realmId : string) : outcome governance_failure () :=
  let provenance := GovernanceProfile.provenance profile in
  _ ← requireText (GovernanceProfile.id profile) "profile.id";
  _ ← requireText (GovernanceProfile.name profile) "profile.name";
  _ ← requireText (GovernanceProfile.version profile) "profile.version";
  _ ← requireText (GovernanceProfile.policyVersion profile) "profile.policyVersion";
  _ ← requireText (ExtensionProvenance.source provenance) "profile.provenance.source";
  _ ← requireText (ExtensionProvenance.publisher provenance) "profile.provenance.publisher";
  _ ← requireText (ExtensionProvenance.receipt provenance) "profile.provenance.receipt";
  _ ← validateScope (GovernanceProfile.scope profile) realmId;
  _ ← controlMap (GovernanceProfile.controls profile);
  let actualDigest := governanceProfileDigest profile in
  if negb (String.eqb (GovernanceProfile.protocol profile) CONTRACT_VERSIONS_governanceProfile) then
    Throw (refuse GovernanceErrorCode.profile_invalid
      (cat ["Governance Profile "; GovernanceProfile.id profile; " does not use anyam.governance-profile/v1."])
      (GovernanceProfile.id profile) "publish a versioned Governance Profile before registration"
      (cat ["protocol="; GovernanceProfile.protocol profile]))
  else if negb (String.eqb actualDigest (GovernanceProfile.digest profile)) then
    Throw (refuse GovernanceErrorCode.profile_digest_mismatch
      (cat ["Governance Profile "; GovernanceProfile.id profile; "@"; GovernanceProfile.version profile;
            " digest does not match its requirements."])
      (GovernanceProfile.id profile)
      "recreate the profile with createGovernanceProfile or publish the matching digest"
      (cat ["expected="; GovernanceProfile.digest profile; "; actual="; actualDigest]))
  else Ok ().
Definition registerProfile (profile : GovernanceProfile.t) : P GovernanceProfile.t :=
  realm ← realm_of_policy;
  lift (check_profile profile (Realm.id realm)) ;;
  s ← get_own;
  match omap_get (profile_key profile) (GovernanceRegistry.profiles s) with
  | Some existing => mret existing
  | None =>
      modify_own (λ s, s <| GovernanceRegistry.profiles :=
        omap_set (profile_key profile) profile (GovernanceRegistry.profiles s) |>) ;;
      mret profile
  end.

Definition activateProfile (input : ActivateGovernanceProfileInput.t) : P GovernanceProfileApplication.t :=
  let scope := ActivateGovernanceProfileInput.scope input in
  let authorization := ActivateGovernanceProfileInput.authorization input in
  profile ← requireProfile (ActivateGovernanceProfileInput.profileId input);
  throw_if (bool_decide (GovernanceProfile.lifecycle profile = ProfileLifecycle.retired))
    (refuse GovernanceErrorCode.profile_inactive
       (cat ["Governance Profile "; GovernanceProfile.id profile; " is retired and cannot be activated."])
       (GovernanceProfile.id profile)
       "publish a new versioned Governance Profile and activate that replacement"
       (cat ["profile="; GovernanceProfile.id profile; "; lifecycle=retired"])) ;;
  realm ← realm_of_policy;
  lift (validateScope scope (Realm.id realm)) ;;
  authorize authorization Capability.governance_profile_manage (scopeResource scope) "governance.profile.activate" ;;
  modify_own (λ s, s <| GovernanceRegistry.profiles := omap_set (profile_key profile)
    (profile <| GovernanceProfile.lifecycle := ProfileLifecycle.active |>) (GovernanceRegistry.profiles s) |>) ;;
  let key := application_key profile scope in
  s ← get_own;
  id ← match omap_get key (GovernanceRegistry.applications s) with
       | Some application => mret (GovernanceProfileApplication.id application)
       | None => opaqueId "governance-application"
       end;
  realm ← realm_of_policy;
  activatedAt ← nowIso foreign_error;
  let application := {|
    GovernanceProfileApplication.id := id;
    GovernanceProfileApplication.profileId := GovernanceProfile.id profile;
    GovernanceProfileApplication.profileDigest := GovernanceProfile.digest profile;
    GovernanceProfileApplication.scope := scope;
    GovernanceProfileApplication.policyVersion := Realm.policyVersion realm;
    GovernanceProfileApplication.authorizationEpoch := Realm.authorizationEpoch realm;
    GovernanceProfileApplication.status := ApplicationStatus.active;
    GovernanceProfileApplication.activatedBy := ExtensionAuthorization.principalId authorization;
    GovernanceProfileApplication.activatedAt := activatedAt;
    GovernanceProfileApplication.receipt :=
      cat ["profile="; GovernanceProfile.id profile; "@"; GovernanceProfile.version profile; "; digest=";
           GovernanceProfile.digest profile; "; scope="; scopeKey scope; "; policy=";
           Realm.policyVersion realm; "; epoch="; pretty (Realm.authorizationEpoch realm)] |} in
  modify_own (λ s, s <| GovernanceRegistry.applications :=
    omap_set key application (GovernanceRegistry.applications s) |>) ;;
  mret application.

(** ** Evaluation *)

Fixpoint observe (profileId : string) (controls : omap GovernanceControl.t)
    (observations : list GovernanceControlObservation.t) (observed : omap GovernanceControlObservation.t) :
    outcome governance_failure (omap GovernanceControlObservation.t) :=
  match observations with
  | [] => Ok observed
  | observation :: observations =>
      let controlId := GovernanceControlObservation.controlId observation in
      let at_field f := cat ["observation."; controlId; f] in
      if negb (omap_has controlId controls) then
        Throw (refuse GovernanceErrorCode.profile_invalid
          (cat ["Observation references unknown Governance Control "; controlId; "."]) controlId
          "record observations only for controls declared by the immutable profile"
          (cat ["profile="; profileId; "; control="; controlId; "; known=false"]))
      else if omap_has controlId observed then
        Throw (refuse GovernanceErrorCode.profile_invalid
          (cat ["Governance Control "; controlId; " has duplicate observations."]) controlId
          "publish one exact-context observation per control and retry"
          (cat ["profile="; profileId; "; control="; controlId; "; duplicate=true"]))
      else
        _ ← requireText (GovernanceControlObservation.owner observation) (at_field ".owner");
        _ ← requireText (GovernanceControlObservation.nextAction observation) (at_field ".nextAction");
        _ ← requireText (GovernanceControlObservation.receipt observation) (at_field ".receipt");
        _ ← requireText (GovernanceControlObservation.observedAt observation) (at_field ".observedAt");
        _ ← unique (GovernanceControlObservation.evidenceRefs observation) (at_field ".evidenceRefs");
        observe profileId controls observations (omap_set controlId observation observed)
  end.

(** What an evaluation has found so far. *)
Record Findings := mkFindings {
  blockers : list string;
  advisories : list string;
  evidenceIds : list string;
}.
Definition blocker (f : Findings) (message : string) : Findings :=
  mkFindings (blockers f ++ [message]) (advisories f) (evidenceIds f).
Definition advisory (f : Findings) (message : string) : Findings :=
  mkFindings (blockers f) (advisories f ++ [message]) (evidenceIds f).
Definition recorded (f : Findings) (id : string) : Findings :=
  mkFindings (blockers f) (advisories f) (evidenceIds f ++ [id]).

(** The verdict on an observed control. *)
Definition judge (control : GovernanceControl.t) (observation : GovernanceControlObservation.t) (f : Findings) :
    Findings :=
  let status := GovernanceControlObservation.status observation in
  let next := GovernanceControlObservation.nextAction observation in
  if bool_decide (status = ObservationStatus.failed) && GovernanceControl.required control then
    blocker f (cat ["Control "; GovernanceControl.id control; " failed; next="; next; "."])
  else if bool_decide (status = ObservationStatus.indeterminate) && GovernanceControl.required control then
    blocker f (cat ["Control "; GovernanceControl.id control; " is indeterminate; next="; next; "."])
  else if negb (bool_decide (status = ObservationStatus.satisfied)) then
    advisory f (cat ["Control "; GovernanceControl.id control; " is "; ObservationStatus.show status; "; next=";
                     next; "."])
  else f.

Definition evaluate_control (profile : GovernanceProfile.t) (scope : GovernanceScope.t)
    (observed : omap GovernanceControlObservation.t) (f : Findings) (control : GovernanceControl.t) : P Findings :=
  match omap_get (GovernanceControl.id control) observed with
  | None =>
      let message := cat ["Control "; GovernanceControl.id control; " is missing an observation; next=";
        if GovernanceControl.required control then "record exact-context control Evidence"
        else "record or explicitly defer the optional control"; "."] in
      mret (if GovernanceControl.required control then blocker f message else advisory f message)
  | Some observation =>
      id ← opaqueId "governance-evidence";
      realm ← realm_of_policy;
      let status := GovernanceControlObservation.status observation in
      let evidence := {|
        GovernanceControlEvidence.id := id;
        GovernanceControlEvidence.profileId := GovernanceProfile.id profile;
        GovernanceControlEvidence.profileDigest := GovernanceProfile.digest profile;
        GovernanceControlEvidence.scope := scope;
        GovernanceControlEvidence.controlId := GovernanceControl.id control;
        GovernanceControlEvidence.status := status;
        GovernanceControlEvidence.evidenceRefs := GovernanceControlObservation.evidenceRefs observation;
        GovernanceControlEvidence.policyVersion := Realm.policyVersion realm;
        GovernanceControlEvidence.authorizationEpoch := Realm.authorizationEpoch realm;
        GovernanceControlEvidence.observedAt := GovernanceControlObservation.observedAt observation;
        GovernanceControlEvidence.owner := GovernanceControlObservation.owner observation;
        GovernanceControlEvidence.nextAction := GovernanceControlObservation.nextAction observation;
        GovernanceControlEvidence.disclosure := GovernanceControlObservation.disclosure observation;
        GovernanceControlEvidence.receipt :=
          cat ["profile="; GovernanceProfile.id profile; "; control="; GovernanceControl.id control; "; status=";
               ObservationStatus.show status; "; source="; observationsDigest [observation]] |} in
      modify_own (λ s, s <| GovernanceRegistry.evidence :=
        omap_set id evidence (GovernanceRegistry.evidence s) |>) ;;
      mret (judge control observation (recorded f id))
  end.

Definition evaluate (input : EvaluateGovernanceProfileInput.t) : P GovernanceEvaluation.t :=
  let scope := EvaluateGovernanceProfileInput.scope input in
  profile ← requireProfile (EvaluateGovernanceProfileInput.profileId input);
  realm ← realm_of_policy;
  lift (validateScope scope (Realm.id realm)) ;;
  application ← applicationFor profile scope;
  throw_if (match application with
            | Some a => negb (bool_decide (GovernanceProfileApplication.status a = ApplicationStatus.active))
            | None => true
            end)
    (refuse GovernanceErrorCode.profile_inactive
       (cat ["Governance Profile "; GovernanceProfile.id profile; " is not active for the requested scope."])
       (GovernanceProfile.id profile)
       "activate the profile through an owner-authorized Governance Profile Change before evaluating it"
       (cat ["profile="; GovernanceProfile.id profile; "; scope="; scopeKey scope; "; active=false"])) ;;
  authorize (EvaluateGovernanceProfileInput.authorization input) Capability.governance_profile_evaluate
    (scopeResource scope) "governance.profile.evaluate" ;;
  controls ← lift (controlMap (GovernanceProfile.controls profile));
  observed ← lift (observe (GovernanceProfile.id profile) controls
                     (EvaluateGovernanceProfileInput.observations input) []);
  findings ← fold_each (omap_values controls) (evaluate_control profile scope observed) (mkFindings [] [] []);
  s ← get_own;
  let hasIndeterminate := existsb (λ id,
    match omap_get id (GovernanceRegistry.evidence s) with
    | Some e => bool_decide (GovernanceControlEvidence.status e = ObservationStatus.indeterminate)
    | None => false
    end) (evidenceIds findings) in
  let status := if negb (bool_decide (blockers findings = [])) then EvaluationStatus.blocked
                else if hasIndeterminate then EvaluationStatus.indeterminate
                else EvaluationStatus.ready in
  id ← opaqueId "governance-evaluation";
  realm ← realm_of_policy;
  let evaluation := {|
    GovernanceEvaluation.id := id;
    GovernanceEvaluation.profileId := GovernanceProfile.id profile;
    GovernanceEvaluation.profileDigest := GovernanceProfile.digest profile;
    GovernanceEvaluation.scope := scope;
    GovernanceEvaluation.status := status;
    GovernanceEvaluation.evidenceIds := evidenceIds findings;
    GovernanceEvaluation.blockers := blockers findings;
    GovernanceEvaluation.advisories := advisories findings;
    GovernanceEvaluation.policyVersion := Realm.policyVersion realm;
    GovernanceEvaluation.authorizationEpoch := Realm.authorizationEpoch realm;
    GovernanceEvaluation.receipt :=
      cat ["profile="; GovernanceProfile.id profile; "; digest="; GovernanceProfile.digest profile; "; status=";
           EvaluationStatus.show status; "; evidence="; pretty (length (evidenceIds findings));
           "; certificationClaim=false"] |} in
  modify_own (λ s, s <| GovernanceRegistry.evaluations :=
    omap_set id evaluation (GovernanceRegistry.evaluations s) |>) ;;
  mret evaluation.

(** ** Export and replay *)

Definition exportProfile (profileId : string) (input : EvaluateGovernanceProfileInput.t) :
    P GovernanceProfileExport.t :=
  throw_if (negb (String.eqb (EvaluateGovernanceProfileInput.profileId input) profileId))
    (refuse GovernanceErrorCode.profile_invalid "Export profile ID must match the evaluated profile ID." profileId
       "evaluate and export the same immutable profile definition"
       (cat ["export="; profileId; "; evaluated="; EvaluateGovernanceProfileInput.profileId input])) ;;
  profile ← requireProfile profileId;
  evaluation ← evaluate input;
  exportId ← opaqueId "governance-export";
  createdAt ← nowIso foreign_error;
  let withoutDigest := {|
    GovernanceProfileExport.protocol := CONTRACT_VERSIONS_governanceProfileExport;
    GovernanceProfileExport.version := "v1";
    GovernanceProfileExport.exportId := exportId;
    GovernanceProfileExport.createdAt := createdAt;
    GovernanceProfileExport.profile := profile;
    GovernanceProfileExport.observations := EvaluateGovernanceProfileInput.observations input;
    GovernanceProfileExport.evaluation := evaluation;
    GovernanceProfileExport.credentialFree := true;
    GovernanceProfileExport.integrityDigest := "";
    GovernanceProfileExport.receipt :=
      cat ["profile="; GovernanceProfile.id profile; "; digest="; GovernanceProfile.digest profile;
           "; evaluation="; GovernanceEvaluation.id evaluation; "; credentialFree=true"] |} in
  mret (withoutDigest <| GovernanceProfileExport.integrityDigest := exportDigest withoutDigest |>).

Definition replay (bundle : GovernanceProfileExport.t) (input : ReplayGovernanceProfileInput.t) :
    P GovernanceEvaluation.t :=
  let scope := ReplayGovernanceProfileInput.scope input in
  let authorization := ReplayGovernanceProfileInput.authorization input in
  verified ← lift (verifyGovernanceProfileExport bundle);
  realm ← realm_of_policy;
  lift (validateScope scope (Realm.id realm)) ;;
  let targetProfile := GovernanceProfileExport.profile verified
    <| GovernanceProfile.scope := scope |> <| GovernanceProfile.lifecycle := ProfileLifecycle.draft |> in
  registerProfile targetProfile ;;
  application ← applicationFor targetProfile scope;
  match application with
  | Some _ => mret ()
  | None =>
      activateProfile (ActivateGovernanceProfileInput.mk (GovernanceProfile.id targetProfile) scope authorization) ;;
      mret ()
  end ;;
  evaluate (EvaluateGovernanceProfileInput.mk (GovernanceProfile.id targetProfile) scope
    (default (GovernanceProfileExport.observations verified) (ReplayGovernanceProfileInput.observations input))
    authorization).
End registry.
