(* ===== verification/GovernanceFacts.v ===== *)
(** What Governance Profiles guarantee, whatever policy service answers: the digests
    bind what they cover, an evaluation says exactly what the observations say of the
    controls, and the records stay consistent along every sequence of calls. *)

From S2P Require Import Prelude Json Contracts ContractsJson LocaleJson Identity IdentityPolicy IdentityFacts PolicyService Extensions CredentialMaterial Governance.

(** * Digests *)

Lemma digest_binds `{HH : Host} v1 v2 : CollisionFree HH → keys_ok v1 = true → keys_ok v2 = true →
  digest v1 = digest v2 → normal v1 = normal v2.
Proof.
apply locale_digest_binds.
Qed.

(** ** The records *)

#[export] Instance ProfileLifecycle_json_inj : JsonInj ProfileLifecycle.t.
Proof. enum_inj. Qed.
#[export] Instance ProfileLifecycle_json_keys : JsonKeys ProfileLifecycle.t.
Proof. enum_def. Qed.
#[export] Instance ObservationStatus_json_inj : JsonInj ObservationStatus.t.
Proof. enum_inj. Qed.
#[export] Instance ObservationStatus_json_keys : JsonKeys ObservationStatus.t.
Proof. enum_def. Qed.
#[export] Instance EvaluationStatus_json_inj : JsonInj EvaluationStatus.t.
Proof. enum_inj. Qed.
#[export] Instance EvaluationStatus_json_keys : JsonKeys EvaluationStatus.t.
Proof. enum_def. Qed.
#[export] Instance DisclosureClassification_json_keys : JsonKeys DisclosureClassification.t.
Proof. enum_def. Qed.
#[export] Instance ExtensionProvenance_json_keys : JsonKeys ExtensionProvenance.t.
Proof. intros x. unfold to_json, ExtensionProvenance_to_json. json_keyed
  ["source"; "publisher"; "signer"; "attestation"; "receipt"]. Qed.
#[export] Instance ExtensionProvenance_json_inj : JsonInj ExtensionProvenance.t.
Proof.
intros [] [] H; unfold to_json, ExtensionProvenance_to_json in H. json_fields H
  ["source"; "publisher"; "signer"; "attestation"; "receipt"].
cbn in *. subst. reflexivity.
Qed.
#[export] Instance GovernanceScope_json_keys : JsonKeys GovernanceScope.t.
Proof. intros x. unfold to_json, GovernanceScope_to_json. json_keyed
  ["realmId"; "organizationId"; "projectId"]. Qed.
#[export] Instance GovernanceScope_json_inj : JsonInj GovernanceScope.t.
Proof.
intros [] [] H; unfold to_json, GovernanceScope_to_json in H. json_fields H
  ["realmId"; "organizationId"; "projectId"].
cbn in *. subst. reflexivity.
Qed.
#[export] Instance GovernanceControl_json_keys : JsonKeys GovernanceControl.t.
Proof. intros x. unfold to_json, GovernanceControl_to_json. json_keyed
  ["id"; "title"; "requirement";
    "owner"; "required"; "evidenceKinds"; "customerResponsibility"]. Qed.
#[export] Instance GovernanceControl_json_inj : JsonInj GovernanceControl.t.
Proof.
intros [] [] H; unfold to_json, GovernanceControl_to_json in H. json_fields H
  ["id"; "title"; "requirement";
    "owner"; "required"; "evidenceKinds"; "customerResponsibility"].
cbn in *. subst. reflexivity.
Qed.
#[export] Instance DisclosurePolicyRef_json_keys : JsonKeys DisclosurePolicyRef.t.
Proof. intros x. unfold to_json, DisclosurePolicyRef_to_json. json_keyed
  ["projectionId"; "classification"]. Qed.
#[export] Instance GovernanceProfile_json_keys : JsonKeys GovernanceProfile.t.
Proof. intros x. unfold to_json, GovernanceProfile_to_json. json_keyed
  ["protocol"; "id"; "name"; "version"; "digest";
    "scope"; "controls"; "provenance"; "policyVersion"; "lifecycle"; "receipt"]. Qed.
#[export] Instance GovernanceProfile_json_inj : JsonInj GovernanceProfile.t.
Proof.
intros [] [] H; unfold to_json, GovernanceProfile_to_json in H. json_fields H
  ["protocol"; "id"; "name"; "version"; "digest";
    "scope"; "controls"; "provenance"; "policyVersion"; "lifecycle"; "receipt"].
cbn in *. subst. reflexivity.
Qed.
#[export] Instance GovernanceControlObservation_json_keys : JsonKeys GovernanceControlObservation.t.
Proof. intros x. unfold to_json, GovernanceControlObservation_to_json. json_keyed
  ["controlId"; "status"; "evidenceRefs"; "observedAt";
    "owner"; "nextAction"; "disclosure"; "receipt"]. Qed.
#[export] Instance GovernanceControlObservation_json_inj : JsonInj GovernanceControlObservation.t.
Proof.
intros [] [] H; unfold to_json, GovernanceControlObservation_to_json in H. json_fields H
  ["controlId"; "status"; "evidenceRefs"; "observedAt";
    "owner"; "nextAction"; "disclosure"; "receipt"].
cbn in *. subst. reflexivity.
Qed.
#[export] Instance GovernanceEvaluation_json_keys : JsonKeys GovernanceEvaluation.t.
Proof. intros x. unfold to_json, GovernanceEvaluation_to_json. json_keyed
  ["protocol"; "certificationClaim"; "id"; "profileId"; "profileDigest"; "scope";
    "status"; "evidenceIds"; "blockers"; "advisories"; "policyVersion"; "authorizationEpoch"; "receipt"]. Qed.
#[export] Instance GovernanceEvaluation_json_inj : JsonInj GovernanceEvaluation.t.
Proof.
intros [] [] H; unfold to_json, GovernanceEvaluation_to_json in H. json_fields H
  ["protocol"; "certificationClaim"; "id"; "profileId"; "profileDigest"; "scope";
    "status"; "evidenceIds"; "blockers"; "advisories"; "policyVersion"; "authorizationEpoch"; "receipt"].
cbn in *. subst. reflexivity.
Qed.

Lemma profileDigestInput_keys p : keys_ok (profileDigestInput p) = true.
Proof. unfold profileDigestInput. json_keyed ["protocol"; "id"; "name"; "version"; "controls"; "provenance"]. Qed.
Lemma without_digest_keys b : keys_ok (without_digest b) = true.
Proof.
unfold without_digest. json_keyed
  ["protocol"; "version"; "exportId"; "createdAt"; "profile"; "observations"; "evaluation"; "credentialFree"; "receipt"].
Qed.
(** What a profile's digest covers: not its scope, policy version, lifecycle or
    receipt. *)
Lemma governanceProfileDigest_binds `{HH : Host} p q : CollisionFree HH →
  governanceProfileDigest p = governanceProfileDigest q →
  GovernanceProfile.protocol p = GovernanceProfile.protocol q ∧ GovernanceProfile.id p = GovernanceProfile.id q ∧
  GovernanceProfile.name p = GovernanceProfile.name q ∧ GovernanceProfile.version p = GovernanceProfile.version q ∧
  GovernanceProfile.controls p = GovernanceProfile.controls q ∧
  GovernanceProfile.provenance p = GovernanceProfile.provenance q.
Proof.
intros Hcf H%digest_binds; [|done|apply profileDigestInput_keys..]. unfold profileDigestInput in H.
json_fields H ["protocol"; "id"; "name"; "version"; "controls"; "provenance"]. by split_and!.
Qed.
Lemma exportDigest_binds `{HH : Host} a b : CollisionFree HH → exportDigest a = exportDigest b →
  a <| GovernanceProfileExport.integrityDigest := GovernanceProfileExport.integrityDigest b |> = b.
Proof.
intros Hcf H%digest_binds; [|done|apply without_digest_keys..]. unfold without_digest in H.
destruct a, b. cbn [GovernanceProfileExport.protocol GovernanceProfileExport.version GovernanceProfileExport.exportId
  GovernanceProfileExport.createdAt GovernanceProfileExport.profile GovernanceProfileExport.observations
  GovernanceProfileExport.evaluation GovernanceProfileExport.credentialFree GovernanceProfileExport.receipt] in H.
json_fields H ["protocol"; "version"; "exportId"; "createdAt"; "profile"; "observations"; "evaluation";
  "credentialFree"; "receipt"]. cbn in *. by subst.
Qed.

(** A bundle is accepted exactly when it declares the protocol, its digest is the one
    of its contents, nothing in it looks like a credential and its profile is the one
    its digest names. *)
Record sound_bundle `{HH : Host} `{TP : TextPatterns} (b : GovernanceProfileExport.t) : Prop := {
  sb_protocol : GovernanceProfileExport.protocol b = CONTRACT_VERSIONS_governanceProfileExport;
  sb_version : GovernanceProfileExport.version b = "v1";
  sb_free : GovernanceProfileExport.credentialFree b = true;
  sb_digest : exportDigest b = GovernanceProfileExport.integrityDigest b;
  sb_scanned : credential_free (without_digest b);
  sb_profile : governanceProfileDigest (GovernanceProfileExport.profile b) =
    GovernanceProfile.digest (GovernanceProfileExport.profile b);
}.

Lemma path_below p x : p ≠ "" → p +:+ x ≠ "".
Proof. destruct p; [done|]. by rewrite str_app_cons. Qed.
Lemma scan_path `{HH : Host} `{TP : TextPatterns} v p f : p ≠ "" → scan v p = Some f → CredentialMaterialFinding.path f ≠ "".
Proof.
revert p f. induction v as [| | | |s|l IH|l IH] using json_ind'; intros p f Hp; cbn [scan]; try done.
- destruct (textKind s); [|done]. by intros [= <-].
- generalize 0 as n. induction IH as [|item l Hi _ IH]; intros n; [done|].
  destruct (scan item _) eqn:Hs; [|by apply IH]. intros [= <-]. eapply Hi; [|exact Hs]. by apply path_below.
- induction IH as [|[key item] l Hi _ IH]; [done|]. destruct (keyKind key item).
  + intros [= <-]. by apply path_below.
  + destruct (scan item _) eqn:Hs; [|exact IH]. intros [= <-]. eapply Hi; [|exact Hs]. by apply path_below.
Qed.
Lemma verify_Ok `{HH : Host} `{TP : TextPatterns} b b' :
  verifyGovernanceProfileExport b = Ok b' ↔ b' = b ∧ sound_bundle b.
Proof.
unfold verifyGovernanceProfileExport. cbv zeta.
destruct (String.eqb_spec (GovernanceProfileExport.protocol b) CONTRACT_VERSIONS_governanceProfileExport);
  [|by simpl; split; [|intros [_ []]]].
destruct (String.eqb_spec (GovernanceProfileExport.version b) "v1"); [|by simpl; split; [|intros [_ []]]].
destruct (GovernanceProfileExport.credentialFree b) eqn:Hfree; [|by simpl; split; [|intros [_ []]; congruence]].
destruct (String.eqb_spec (exportDigest b) (GovernanceProfileExport.integrityDigest b)); [|by simpl; split; [|intros [_ []]]].
cbn [negb orb]. unfold scanCredentialMaterial. cbn [default].
destruct (scan (without_digest b) "value") as [f|] eqn:Hscan; cbn [fmap option_fmap option_map].
{ rewrite truthy_Some by (by eapply scan_path; [|exact Hscan]).
  split; [done|]. intros [_ []]. rewrite <-(scan_None _ "value") in *. congruence. }
cbn [truthy_opt]. destruct (String.eqb_spec (governanceProfileDigest (GovernanceProfileExport.profile b))
  (GovernanceProfile.digest (GovernanceProfileExport.profile b))); [|by simpl; split; [|intros [_ []]]].
simpl. apply scan_None in Hscan. split; [|by intros [-> _]]. intros [= <-]. split; [done|by split].
Qed.

(** * Controls and observations *)

Lemma add_controls_Ok cs m r : omap_wf m → add_controls cs m = Ok r →
  omap_values r = omap_values m ++ cs ∧ omap_keys r = omap_keys m ++ (GovernanceControl.id <$> cs) ∧ omap_wf r.
Proof.
revert m. induction cs as [|x cs IH]; intros m Hwf; simpl; [intros [= <-]; by rewrite !app_nil_r|].
intros Hr. bind_inv. destruct (omap_has _ m) eqn:Hh; [done|].
assert (GovernanceControl.id x ∉ omap_keys m) as Hn.
{ apply omap_get_None. destruct (omap_get _ m) eqn:Hg; [|done]. unfold omap_has in Hh. rewrite Hg in Hh.
  by apply bool_decide_eq_false in Hh; destruct Hh. }
apply IH in Hr as (Hv & Hk & Hw); [|by apply omap_set_wf]. rewrite omap_set_fresh in Hv, Hk by done.
unfold omap_values, omap_keys in *. rewrite fmap_app, <-app_assoc in Hv. rewrite fmap_app, <-app_assoc in Hk. by split_and!.
Qed.
Lemma controlMap_Ok cs m : controlMap cs = Ok m →
  omap_values m = cs ∧ omap_keys m = GovernanceControl.id <$> cs ∧ NoDup (GovernanceControl.id <$> cs) ∧ cs ≠ [].
Proof.
unfold controlMap. intros H. bind_inv. apply add_controls_Ok in H0 as (Hv & Hk & Hwf); [|by apply omap_nil_wf].
simpl in Hv, Hk. assert (m = a ∧ a ≠ []) as [-> Hne] by (by destruct a; simplify_eq).
split_and!; [done..|unfold omap_wf in Hwf; by rewrite <-Hk|]. rewrite <-Hv. by destruct a.
Qed.

(** The observation of a control. *)
Definition observation_of (observations : list GovernanceControlObservation.t) (id : string) :
    option GovernanceControlObservation.t :=
  find_first (λ o, String.eqb (GovernanceControlObservation.controlId o) id) observations.
Lemma observation_of_cons o os id : observation_of (o :: os) id =
  if decide (GovernanceControlObservation.controlId o = id) then Some o else observation_of os id.
Proof.
unfold observation_of, find_first. rewrite filter_cons. case_decide as H; case_decide as H'; try done.
- by apply String.eqb_eq in H.
- by apply String.eqb_eq in H'.
Qed.
Lemma observe_Ok p cs os m r : observe p cs os m = Ok r →
  (∀ o, o ∈ os → GovernanceControlObservation.controlId o ∈ omap_keys cs) ∧
  NoDup (GovernanceControlObservation.controlId <$> os) ∧
  (∀ o, o ∈ os → omap_get (GovernanceControlObservation.controlId o) m = None) ∧
  ∀ id, omap_get id r = match observation_of os id with Some o => Some o | None => omap_get id m end.
Proof.
revert m. induction os as [|o os IH]; intros m; simpl.
{ intros [= <-]. split_and!; [by intros ? ?%elem_of_nil|constructor|by intros ? ?%elem_of_nil|done]. }
destruct (omap_has _ cs) eqn:Hk; [|done]. destruct (omap_has _ m) eqn:Hm; [done|]. simpl. intros Hr. bind_inv.
apply IH in Hr as (Hin & Hnd & Hno & Hget). set (k := GovernanceControlObservation.controlId o) in *.
assert (omap_get k m = None) as Hkm.
{ destruct (omap_get k m) eqn:Hg; [|done]. unfold omap_has in Hm. rewrite Hg in Hm. by apply bool_decide_eq_false in Hm; destruct Hm. }
assert (∀ o', o' ∈ os → GovernanceControlObservation.controlId o' ≠ k) as Hne.
{ intros o' Ho' He. specialize (Hno o' Ho'). by rewrite He, omap_get_set_eq in Hno. }
split_and!.
- intros o' [->|Ho']%elem_of_cons; [|by apply Hin]. apply omap_has_spec in Hk. destruct (decide (k ∈ omap_keys cs)) as [|Hn]; [done|].
  apply omap_get_None in Hn. by rewrite Hn in Hk; destruct Hk.
- apply NoDup_cons. split; [|done]. intros (o' & He & Ho')%list_elem_of_fmap. by eapply Hne.
- intros o' [->|Ho']%elem_of_cons; [done|]. specialize (Hno o' Ho'). by rewrite omap_get_set_ne in Hno by (by intros He; eapply Hne).
- intros id. rewrite Hget, observation_of_cons. fold k. destruct (decide (k = id)) as [->|Hid].
  + destruct (observation_of os id) as [o'|] eqn:Ho'; [|by rewrite omap_get_set_eq].
    exfalso. unfold observation_of in Ho'. apply find_first_Some in Ho' as [Hin' He%String.eqb_eq]. by eapply Hne.
  + destruct (observation_of os id); [done|]. by rewrite omap_get_set_ne.
Qed.

(** * The records of the registry *)

Definition same_profile (p p' : GovernanceProfile.t) : Prop :=
  p' = p <| GovernanceProfile.lifecycle := GovernanceProfile.lifecycle p' |> ∧
  (GovernanceProfile.lifecycle p' = GovernanceProfile.lifecycle p ∨
   GovernanceProfile.lifecycle p' = ProfileLifecycle.active).
#[export] Instance same_profile_preorder : PreOrder same_profile.
Proof.
split; [intros []; split; [done|by left]|]. intros x y z [Hy Ay] [Hz Az]. split.
- etrans; [exact Hz|]. rewrite Hy. by destruct x.
- destruct Az as [->|]; auto.
Qed.
(** An application is renewed under its own id. *)
Definition same_application (a a' : GovernanceProfileApplication.t) : Prop :=
  GovernanceProfileApplication.id a' = GovernanceProfileApplication.id a.
#[export] Instance same_application_preorder : PreOrder same_application.
Proof. split; [done|]. intros x y z Hy Hz. unfold same_application in *. congruence. Qed.

Section facts.
Context `{HH : Host} `{DH : RealmHost} `{TP : TextPatterns} {R : Type} `{PS : PolicyService R} `{PL : !PolicyLaws R}.
#[local] Abbreviation Sys := (Client R GovernanceRegistry.t).
#[local] Abbreviation P := (M Sys governance_failure).
Implicit Types (w : World) (c : Sys) (s : GovernanceRegistry.t).

(** The profile is what its digest says, in the Realm, with distinct controls. *)
Record profile_ok (realmId k : string) (p : GovernanceProfile.t) : Prop := {
  po_key : k = profile_key p;
  po_digest : governanceProfileDigest p = GovernanceProfile.digest p;
  po_protocol : GovernanceProfile.protocol p = CONTRACT_VERSIONS_governanceProfile;
  po_realm : GovernanceScope.realmId (GovernanceProfile.scope p) = realmId;
  po_controls : ∃ m, controlMap (GovernanceProfile.controls p) = Ok m;
}.
(** A registered profile has the id and the digest. *)
Definition known s (id digest : string) (p : GovernanceProfile.t) : Prop :=
  omap_get (profile_key p) (GovernanceRegistry.profiles s) = Some p ∧
  GovernanceProfile.id p = id ∧ GovernanceProfile.digest p = digest.

Record governance_ok (realmId : string) w s : Prop := {
  gk_wf : omap_wf (GovernanceRegistry.profiles s);
  gk_profiles : omap_all (profile_ok realmId) (GovernanceRegistry.profiles s);
  gk_applications : omap_all (λ k a, GovernanceScope.realmId (GovernanceProfileApplication.scope a) = realmId ∧
    ∃ p, known s (GovernanceProfileApplication.profileId a) (GovernanceProfileApplication.profileDigest a) p ∧
      k = application_key p (GovernanceProfileApplication.scope a)) (GovernanceRegistry.applications s);
  gk_evidence : omap_all (λ k e, GovernanceControlEvidence.id e = k ∧ drawn "governance-evidence" w k ∧
    ∃ p, known s (GovernanceControlEvidence.profileId e) (GovernanceControlEvidence.profileDigest e) p ∧
      GovernanceControlEvidence.controlId e ∈ GovernanceControl.id <$> GovernanceProfile.controls p)
    (GovernanceRegistry.evidence s);
  gk_evaluations : omap_all (λ k v, GovernanceEvaluation.id v = k ∧ drawn "governance-evaluation" w k ∧
    (∃ p, known s (GovernanceEvaluation.profileId v) (GovernanceEvaluation.profileDigest v) p) ∧
    ∀ i, i ∈ GovernanceEvaluation.evidenceIds v → ∃ e,
      omap_get i (GovernanceRegistry.evidence s) = Some e ∧
      GovernanceControlEvidence.profileDigest e = GovernanceEvaluation.profileDigest v ∧
      GovernanceControlEvidence.scope e = GovernanceEvaluation.scope v) (GovernanceRegistry.evaluations s);
}.
Record governance_evolves s s' : Prop := {
  ge_profiles : grows same_profile (λ _, True) (GovernanceRegistry.profiles s) (GovernanceRegistry.profiles s');
  ge_applications : grows same_application (λ _, True) (GovernanceRegistry.applications s) (GovernanceRegistry.applications s');
  ge_evidence : extends (GovernanceRegistry.evidence s) (GovernanceRegistry.evidence s');
  ge_evaluations : extends (GovernanceRegistry.evaluations s) (GovernanceRegistry.evaluations s');
}.
#[local] Instance governance_evolves_preorder : PreOrder governance_evolves.
Proof.
split; [intros s; split; try done; apply grows_refl, _|]. intros s1 s2 s3 [] [].
split; [eapply grows_trans; [apply _|done..]|eapply grows_trans; [apply _|done..]|by etrans|by etrans].
Qed.

Definition realm_id_of c : string := Realm.id (ps_realm (policy c)).
Record gov_ok w c : Prop := {
  gv_policy : ps_ok w (policy c);
  gv_registry : governance_ok (realm_id_of c) w (own c);
}.
Record gov_next w c w' c' : Prop := {
  gn_policy : ps_next w (policy c) w' (policy c');
  gn_evolves : governance_evolves (own c) (own c');
  gn_ok : gov_ok w' c';
}.

Lemma profile_key_same p p' : same_profile p p' → profile_key p' = profile_key p.
Proof. intros [-> _]. done. Qed.
Lemma known_grows s s' id d p :
  grows same_profile (λ _, True) (GovernanceRegistry.profiles s) (GovernanceRegistry.profiles s') →
  known s id d p → ∃ p', known s' id d p' ∧ same_profile p p'.
Proof.
intros [Hk _ _] (Hp & Hid & Hd). destruct (Hk _ _ Hp) as (p' & Hp' & Hs). exists p'. split; [|done].
split; [by rewrite (profile_key_same _ _ Hs)|]. destruct Hs as [-> _]. done.
Qed.
(** Invariants of records that only refer to profiles, as profiles grow. *)
Lemma governance_ok_grows r w w' s s' : passes w w' → governance_ok r w s →
  grows same_profile (λ _, True) (GovernanceRegistry.profiles s) (GovernanceRegistry.profiles s') →
  omap_all (profile_ok r) (GovernanceRegistry.profiles s') →
  GovernanceRegistry.applications s' = GovernanceRegistry.applications s →
  GovernanceRegistry.evidence s' = GovernanceRegistry.evidence s →
  GovernanceRegistry.evaluations s' = GovernanceRegistry.evaluations s → governance_ok r w' s'.
Proof.
intros [Hw _] [H1 H2 H3 H4 H5] Hg Hp Ha He Hv. split; [by apply Hg|done|rewrite Ha|rewrite He|rewrite Hv].
- intros k a Hk. destruct (H3 k a Hk) as (? & p & Hp0 & ?). split; [done|].
  destruct (known_grows _ _ _ _ _ Hg Hp0) as (p' & ? & [Hs _]). exists p'. split; [done|]. rewrite Hs. done.
- intros k e Hk. destruct (H4 k e Hk) as (? & ? & p & Hp0 & ?). split_and!; [done|by eapply drawn_mono|].
  destruct (known_grows _ _ _ _ _ Hg Hp0) as (p' & ? & [Hs _]). exists p'. split; [done|]. rewrite Hs. done.
- intros k v Hk. destruct (H5 k v Hk) as (? & ? & (p & Hp0) & Hi). split_and!; [done|by eapply drawn_mono| |].
  + destruct (known_grows _ _ _ _ _ Hg Hp0) as (p' & ? & _). by exists p'.
  + intros i Hin. rewrite He. by apply Hi.
Qed.
Lemma governance_ok_passes r w w' s : passes w w' → governance_ok r w s → governance_ok r w' s.
Proof. intros Hw Hs. eapply governance_ok_grows; [done|exact Hs|apply grows_refl, _|apply Hs|done..]. Qed.

Lemma gov_next_refl w c : gov_ok w c → gov_next w c w c.
Proof. intros Hc. split; [apply ps_next_refl, Hc|done|done]. Qed.
Lemma gov_next_trans w1 c1 w2 c2 w3 c3 : gov_next w1 c1 w2 c2 → gov_next w2 c2 w3 c3 → gov_next w1 c1 w3 c3.
Proof. intros [P1 E1 _] [P2 E2 O2]. split; [by eapply ps_next_trans|by etrans|done]. Qed.
(** Only the policy moved. *)
Lemma gov_next_policy w c w' r' : gov_ok w c → ps_next w (policy c) w' r' → gov_next w c w' (mkClient r' (own c)).
Proof.
intros [Hp Hs] Hn. split; [done|done|]. split; [by eapply ps_next_ok|]. unfold realm_id_of. simpl.
rewrite (ps_next_realm _ _ _ _ Hn). eapply governance_ok_passes; [by eapply ps_next_passes|done].
Qed.
Lemma gov_next_draw w c w' : gov_ok w c → passes w w' → gov_next w c w' c.
Proof.
intros Hc Hw. pose proof (gov_next_policy w c w' (policy c) Hc) as H. destruct c as [r s]. apply H, ps_next_draw; [apply Hc|done].
Qed.

(** ** The shared steps *)

Lemma wp_realm_of Q X w c : Q (ps_realm (policy c)) w c → wp (realm_of_policy : P _) Q X w c.
Proof. done. Qed.
Lemma find_profile_known r w s id p : governance_ok r w s → find_profile id s = Some p →
  known s id (GovernanceProfile.digest p) p ∧ profile_ok r (profile_key p) p.
Proof.
intros Hs [Hin Hid%String.eqb_eq]%find_first_Some. apply omap_value_get in Hin as [k Hk]; [|apply Hs].
pose proof (gk_profiles _ _ _ Hs _ _ Hk) as Hp. destruct Hp as [Hkey ? ? ? ?]. subst k. by split_and!.
Qed.
Lemma wp_requireProfile id Q X w c : gov_ok w c →
  (∀ p, find_profile id (own c) = Some p → known (own c) id (GovernanceProfile.digest p) p →
     profile_ok (realm_id_of c) (profile_key p) p → Q p w c) → (∀ e, X e w c) →
  wp (requireProfile id : P _) Q X w c.
Proof.
intros Hc HQ HX. unfold requireProfile, getProfile. wp_step. wp_step. client_step. wp_step. wp_step; [apply HX|].
destruct (find_profile_known _ _ _ _ _ (gv_registry _ _ Hc) H) as [? ?]. by apply HQ.
Qed.
Lemma wp_allowed a cap res op Q X w c : gov_ok w c →
  (∀ x w' r', gov_next w c w' (mkClient r' (own c)) → ps_permits w (policy c) (asPolicyInput a cap res op) →
     Q x w' (mkClient r' (own c))) →
  (∀ e w' r', gov_next w c w' (mkClient r' (own c)) → X e w' (mkClient r' (own c))) →
  wp (authorize a cap res op : P _) Q X w c.
Proof.
intros Hc HQ HX. unfold authorize. wp_step.
apply wp_ask; [apply Hc| |by intros e w' r' Hn _; apply HX, gov_next_policy].
intros d w' r' Hn Hp _. cbv zeta. wp_step. wp_step; [by apply HX, gov_next_policy|].
wp_step. apply HQ; [by apply gov_next_policy|]. by apply Hp, negb_false_iff.
Qed.
Lemma validateScope_Ok scope r u : validateScope scope r = Ok u → GovernanceScope.realmId scope = r.
Proof.
unfold validateScope. intros H. bind_inv. by destruct (String.eqb_spec (GovernanceScope.realmId scope) r).
Qed.

(** ** Registration and activation *)

Lemma check_profile_Ok p r : check_profile p r = Ok () → profile_ok r (profile_key p) p.
Proof.
unfold check_profile. cbv zeta. intros H. bind_inv.
match goal with H : validateScope _ _ = Ok _ |- _ => apply validateScope_Ok in H as Hrealm end.
destruct (String.eqb_spec (GovernanceProfile.protocol p) CONTRACT_VERSIONS_governanceProfile); [|done].
cbn [negb] in H. destruct (String.eqb_spec (governanceProfileDigest p) (GovernanceProfile.digest p)); [|done].
split; [done..|]. eauto.
Qed.
(** The profile is registered: it was already, or it is added. *)
Definition registers (p : GovernanceProfile.t) s s' : Prop :=
  s' = s ∧ is_Some (omap_get (profile_key p) (GovernanceRegistry.profiles s)) ∨
  s' = s <| GovernanceRegistry.profiles := omap_set (profile_key p) p (GovernanceRegistry.profiles s) |>.
Lemma wp_registerProfile p w c : gov_ok w c →
  wp (registerProfile p : P _)
    (λ _ w' c', gov_next w c w' c' ∧ w' = w ∧ policy c' = policy c ∧ registers p (own c) (own c'))
    (λ _ w' c', gov_next w c w' c') w c.
Proof.
intros Hc. pose proof (gov_next_refl _ _ Hc) as Hrefl. unfold registerProfile. wp_step. apply wp_realm_of.
wp_step. wp_step; [|done]. destruct a. apply check_profile_Ok in H. wp_step. client_step.
wp_step; [wp_step; split_and!; [done..|]; left; by eauto|]. wp_step. client_step. wp_step. destruct Hc as [Hp Hs].
assert (grows same_profile (λ _, True) (GovernanceRegistry.profiles (own c))
  (omap_set (profile_key p) p (GovernanceRegistry.profiles (own c)))) as Hg by (by apply grows_add; [apply _|..]).
split; [|split_and!; [done..|by right]].
split; simpl; [by apply ps_next_refl|split; simpl; [done|apply grows_refl, _|done..]|].
split; [done|]. eapply governance_ok_grows; [done|exact Hs|done| |done..]. apply omap_all_set; [apply Hs|exact H].
Qed.

Lemma wp_renewed (o : option GovernanceProfileApplication.t) (Q : string → World → Sys → Prop) X w c :
  (∀ id w', passes w w' → (∀ a, o = Some a → id = GovernanceProfileApplication.id a) → Q id w' c) →
  wp (match o with Some a => mret (GovernanceProfileApplication.id a) | None => opaqueId "governance-application" end
    : P string) Q X w c.
Proof.
intros HQ. destruct o as [a|]; [wp_step; apply HQ; [done|congruence]|]. apply wp_opaqueId, HQ; [split; simpl; lia|done].
Qed.
Lemma next_activated w c p : gov_ok w c → omap_get (profile_key p) (GovernanceRegistry.profiles (own c)) = Some p →
  gov_next w c w (mkClient (policy c) (own c <| GovernanceRegistry.profiles := omap_set (profile_key p)
    (p <| GovernanceProfile.lifecycle := ProfileLifecycle.active |>) (GovernanceRegistry.profiles (own c)) |>)).
Proof.
intros [Hp Hs] Hk. set (p' := p <| GovernanceProfile.lifecycle := ProfileLifecycle.active |>).
assert (grows same_profile (λ _, True) (GovernanceRegistry.profiles (own c))
  (omap_set (profile_key p) p' (GovernanceRegistry.profiles (own c)))) as Hg.
{ eapply grows_set; [apply _|exact Hk|]. split; [by destruct p|by right]. }
split; simpl; [by apply ps_next_refl|split; simpl; [done|apply grows_refl, _|done..]|].
split; [done|]. eapply governance_ok_grows; [done|exact Hs|done| |done..].
apply omap_all_set; [apply Hs|]. destruct (gk_profiles _ _ _ Hs _ _ Hk) as [A B C D F]. by split.
Qed.
Lemma next_application w c p k a : gov_ok w c → known (own c) (GovernanceProfile.id p) (GovernanceProfile.digest p) p →
  GovernanceScope.realmId (GovernanceProfileApplication.scope a) = realm_id_of c →
  GovernanceProfileApplication.profileId a = GovernanceProfile.id p →
  GovernanceProfileApplication.profileDigest a = GovernanceProfile.digest p →
  k = application_key p (GovernanceProfileApplication.scope a) →
  (∀ b, omap_get k (GovernanceRegistry.applications (own c)) = Some b → same_application b a) →
  gov_next w c w (mkClient (policy c) (own c <| GovernanceRegistry.applications :=
    omap_set k a (GovernanceRegistry.applications (own c)) |>)).
Proof.
intros [Hp Hs] Hk Hr Hid Hd Hkey Hsame. split; simpl; [by apply ps_next_refl| |].
- split; simpl; [apply grows_refl, _| |done..]. destruct (omap_get k _) as [b|] eqn:Hb.
  + eapply grows_set; [apply _|exact Hb|by apply Hsame].
  + by apply grows_add; [apply _|..].
- split; [done|]. destruct Hs as [H1 H2 H3 H4 H5]. split; simpl; [done..| |done|done].
  apply omap_all_set; [done|]. split; [done|]. exists p. rewrite Hid, Hd. done.
Qed.

Definition activate_request (input : ActivateGovernanceProfileInput.t) : PolicyEvaluationInput.t :=
  asPolicyInput (ActivateGovernanceProfileInput.authorization input) Capability.governance_profile_manage
    (scopeResource (ActivateGovernanceProfileInput.scope input)) "governance.profile.activate".
(** What a call of [activateProfile] that returns has done. *)
Record activated (input : ActivateGovernanceProfileInput.t) w c (p : GovernanceProfile.t)
    (a : GovernanceProfileApplication.t) w' c' : Prop := {
  ac_profile : find_profile (ActivateGovernanceProfileInput.profileId input) (own c) = Some p;
  ac_lifecycle : GovernanceProfile.lifecycle p ≠ ProfileLifecycle.retired;
  ac_permitted : permits_during w c w' c' (activate_request input);
  ac_names : GovernanceProfileApplication.profileId a = GovernanceProfile.id p ∧
    GovernanceProfileApplication.profileDigest a = GovernanceProfile.digest p ∧
    GovernanceProfileApplication.scope a = ActivateGovernanceProfileInput.scope input ∧
    GovernanceProfileApplication.status a = ApplicationStatus.active ∧
    GovernanceProfileApplication.activatedBy a =
      ExtensionAuthorization.principalId (ActivateGovernanceProfileInput.authorization input);
  ac_policy : GovernanceProfileApplication.policyVersion a = Realm.policyVersion (ps_realm (policy c')) ∧
    GovernanceProfileApplication.authorizationEpoch a = Realm.authorizationEpoch (ps_realm (policy c'));
  ac_id : ∀ old, omap_get (application_key p (ActivateGovernanceProfileInput.scope input))
      (GovernanceRegistry.applications (own c)) = Some old →
    GovernanceProfileApplication.id a = GovernanceProfileApplication.id old;
  ac_own : own c' = own c
    <| GovernanceRegistry.profiles := omap_set (profile_key p)
         (p <| GovernanceProfile.lifecycle := ProfileLifecycle.active |>) (GovernanceRegistry.profiles (own c)) |>
    <| GovernanceRegistry.applications :=
         omap_set (application_key p (ActivateGovernanceProfileInput.scope input)) a
           (GovernanceRegistry.applications (own c)) |>;
}.
Lemma wp_activateProfile input w c : gov_ok w c →
  wp (activateProfile input : P _) (λ a w' c', gov_next w c w' c' ∧ ∃ p, activated input w c p a w' c')
    (λ _ w' c', gov_next w c w' c' ∧ GovernanceRegistry.applications (own c') = GovernanceRegistry.applications (own c)) w c.
Proof.
intros Hc. pose proof (gov_next_refl _ _ Hc) as Hrefl. unfold activateProfile. cbv zeta. wp_step.
apply wp_requireProfile; [done| |done]. intros p Hfind Hknown Hok. wp_step. wp_step; [done|].
match goal with H : bool_decide _ = false |- _ => apply bool_decide_eq_false in H as Hlive end.
wp_step. apply wp_realm_of. wp_step. wp_step; [|done]. apply validateScope_Ok in H0 as Hrealm.
wp_step. apply wp_allowed; [done| |by intros e w1 r1 N1]. intros _ w1 r1 N1 Hperm.
pose proof (next_activated w1 (mkClient r1 (own c)) p (gn_ok _ _ _ _ N1) (proj1 Hknown)) as N2.
wp_step. client_step. cbn [policy own] in *. set (c2 := mkClient r1 (set_field _ _ _)) in *. pose proof (gov_next_trans _ _ _ _ _ _ N1 N2) as N12.
wp_step. client_step. wp_step. apply wp_renewed. intros id w3 H3 Hold. wp_step. apply wp_realm_of.
assert (∀ w4, passes w1 w4 → gov_next w c w4 c2) as Hdraw.
{ intros w4 H4. eapply gov_next_trans; [exact N12|]. apply gov_next_draw; [apply N2|done]. }
wp_step. apply wp_nowIso_client; [|intros w4 H4; split; [|done]; apply Hdraw; etrans; [exact H3|by apply ticks_passes]].
intros t w4 H4. wp_step. client_step. wp_step.
assert (passes w1 w4) as H14 by (etrans; [exact H3|by apply ticks_passes]).
match goal with |- context [omap_set _ ?e _] => set (new := e) in * end.
assert (gov_next w c w4 (mkClient (policy c2) (own c2 <| GovernanceRegistry.applications := omap_set
  (application_key p (ActivateGovernanceProfileInput.scope input)) new (GovernanceRegistry.applications (own c2)) |>))) as N4;
  [|split; [exact N4|]; exists p; split; try done; by eapply permits_now; [apply ps_next_refl, Hc|done|apply N4]].
eapply gov_next_trans; [by apply Hdraw|].
apply (next_application w4 c2 (p <| GovernanceProfile.lifecycle := ProfileLifecycle.active |>)); [by apply (Hdraw w4)|..].
- split_and!; [|done..]. unfold c2. cbn [own]. apply omap_get_set_eq.
- unfold realm_id_of, c2. cbn. rewrite Hrealm. symmetry. apply (ps_next_realm _ _ _ _ (gn_policy _ _ _ _ N1)).
- done.
- done.
- done.
- intros b Hb. unfold same_application. cbn. by apply Hold.
Qed.
End facts.
