(* ===== verification/GovernanceLife.v ===== *)
(** Governance Profiles over time: what an evaluation answers, what a bundle proves,
    and what holds whatever is called, by anyone and in any order. *)

From S2P Require Import Prelude Json Contracts ContractsJson LocaleJson Identity IdentityPolicy IdentityFacts PolicyService Extensions CredentialMaterial Governance GovernanceFacts.

(** * The verdict on controls

    What the observations say of a list of controls, with no registry at all. *)

(** A control whose observation, if any, does not say satisfied. *)
Definition lacking (os : list GovernanceControlObservation.t) (x : GovernanceControl.t) : bool :=
  match observation_of os (GovernanceControl.id x) with
  | Some o => negb (bool_decide (GovernanceControlObservation.status o = ObservationStatus.satisfied))
  | None => true
  end.
Definition blocking os (x : GovernanceControl.t) : bool := GovernanceControl.required x && lacking os x.
Definition advising os (x : GovernanceControl.t) : bool := negb (GovernanceControl.required x) && lacking os x.
Definition observed_as (os : list GovernanceControlObservation.t) (status : ObservationStatus.t) (x : GovernanceControl.t) : bool :=
  match observation_of os (GovernanceControl.id x) with
  | Some o => bool_decide (GovernanceControlObservation.status o = status)
  | None => false
  end.
Definition is_observed (os : list GovernanceControlObservation.t) (x : GovernanceControl.t) : Prop :=
  is_Some (observation_of os (GovernanceControl.id x)).
#[export] Instance is_observed_dec os x : Decision (is_observed os x).
Proof. unfold is_observed. apply _. Defined.

Definition verdict (controls : list GovernanceControl.t) (os : list GovernanceControlObservation.t) : EvaluationStatus.t :=
  if existsb (blocking os) controls then EvaluationStatus.blocked
  else if existsb (observed_as os ObservationStatus.indeterminate) controls then EvaluationStatus.indeterminate
  else EvaluationStatus.ready.

(** How many of the controls satisfy a predicate. *)
Definition how_many {A} (p : A → bool) (l : list A) : nat := length (base.filter (λ x, p x = true) l).
Lemma how_many_snoc {A} (p : A → bool) l x : how_many p (l ++ [x]) = how_many p l + (if p x then 1 else 0).
Proof.
unfold how_many. rewrite filter_app, length_app, filter_cons, filter_nil. case_decide as Hp.
- by rewrite Hp.
- by destruct (p x).
Qed.
Lemma how_many_zero {A} (p : A → bool) l : how_many p l = 0 ↔ existsb p l = false.
Proof.
unfold how_many. rewrite existsb_false_iff, length_zero_iff_nil. split.
- intros Hf x Hx. destruct (p x) eqn:Hp; [|done].
  assert (x ∈ base.filter (λ x, p x = true) l) as Hin by (by apply list_elem_of_filter). rewrite Hf in Hin.
  by apply elem_of_nil in Hin.
- intros Hn. destruct (base.filter _ l) as [|x k] eqn:Hf; [done|].
  assert (x ∈ base.filter (λ x, p x = true) l) as Hin by (rewrite Hf; left).
  apply list_elem_of_filter in Hin as [Hp Hx]. by rewrite Hn in Hp.
Qed.

(** The verdict on one control moves the findings by one message. *)
Lemma judge_counts x o f os : observation_of os (GovernanceControl.id x) = Some o →
  evidenceIds (judge x o f) = evidenceIds f ∧
  length (blockers (judge x o f)) = length (blockers f) + (if blocking os x then 1 else 0) ∧
  length (advisories (judge x o f)) = length (advisories f) + (if advising os x then 1 else 0).
Proof.
intros Ho. unfold blocking, advising, lacking, judge. rewrite Ho. cbv zeta.
destruct (GovernanceControlObservation.status o), (GovernanceControl.required x);
  repeat (case_bool_decide; try done); cbn; rewrite ?length_app; cbn; (split_and!; [done|lia..]).
Qed.
Lemma missing_counts os x : observation_of os (GovernanceControl.id x) = None →
  blocking os x = GovernanceControl.required x ∧ advising os x = negb (GovernanceControl.required x).
Proof. intros Ho. unfold blocking, advising, lacking. rewrite Ho. by rewrite !andb_true_r. Qed.

Section facts.
Context `{HH : Host} `{DH : RealmHost} `{TP : TextPatterns} {R : Type} `{PS : PolicyService R} `{PL : !PolicyLaws R}.
#[local] Abbreviation Sys := (Client R GovernanceRegistry.t).
#[local] Abbreviation P := (M Sys governance_failure).
Implicit Types (w : World) (c : Sys) (s : GovernanceRegistry.t).
Context `{Fresh : !FreshUUIDs HH}.

(** * New records *)

Lemma fresh_record {V} (ok : string → V → Prop) prefix w (m : omap V) :
  omap_all ok m → (∀ k v, ok k v → drawn prefix w k) → omap_get (key prefix (uuids_drawn w)) m = None.
Proof.
intros Hall Hd. destruct (omap_get _ m) as [v|] eqn:Hv; [|done].
destruct (Hd _ _ (Hall _ _ Hv)) as (n & Hn & He). apply key_inj in He; [lia|done].
Qed.

Lemma next_evidence w w' c e p : gov_ok w c → passes w w' → (uuids_drawn w < uuids_drawn w')%nat →
  GovernanceControlEvidence.id e = key "governance-evidence" (uuids_drawn w) →
  known (own c) (GovernanceControlEvidence.profileId e) (GovernanceControlEvidence.profileDigest e) p →
  GovernanceControlEvidence.controlId e ∈ GovernanceControl.id <$> GovernanceProfile.controls p →
  let k := GovernanceControlEvidence.id e in
  omap_get k (GovernanceRegistry.evidence (own c)) = None ∧
  gov_next w c w' (mkClient (policy c) (own c <| GovernanceRegistry.evidence :=
    omap_set k e (GovernanceRegistry.evidence (own c)) |>)).
Proof.
intros [Hp Hs] Hw Hlt Hid Hk Hc k.
assert (omap_get k (GovernanceRegistry.evidence (own c)) = None) as Hn.
{ unfold k. rewrite Hid. eapply fresh_record; [apply Hs|]. by intros j x (_ & ? & _). }
assert (extends (GovernanceRegistry.evidence (own c)) (omap_set k e (GovernanceRegistry.evidence (own c)))) as He
  by (by apply extends_set_fresh).
split; [done|]. assert (ps_next w (policy c) w' (policy c)) as N by (by apply ps_next_draw). split; simpl; [done| |].
- split; simpl; [apply grows_refl, _..|done|done].
- split; [by eapply ps_next_ok|]. pose proof (governance_ok_passes _ _ _ _ Hw Hs) as [H1 H2 H3 H4 H5]. split; simpl; [done..| |].
  + apply omap_all_set; [done|]. split_and!; [done| |by exists p]. unfold k. rewrite Hid. by exists (uuids_drawn w).
  + intros j v Hj. destruct (H5 _ _ Hj) as (? & ? & ? & Hi). split_and!; [done..|].
    intros i Hin. destruct (Hi i Hin) as (e' & He' & ?). exists e'. split; [by apply He|done].
Qed.
Lemma next_evaluation w w' c v p : gov_ok w c → passes w w' → (uuids_drawn w < uuids_drawn w')%nat →
  GovernanceEvaluation.id v = key "governance-evaluation" (uuids_drawn w) →
  known (own c) (GovernanceEvaluation.profileId v) (GovernanceEvaluation.profileDigest v) p →
  (∀ i, i ∈ GovernanceEvaluation.evidenceIds v → ∃ e,
      omap_get i (GovernanceRegistry.evidence (own c)) = Some e ∧
      GovernanceControlEvidence.profileDigest e = GovernanceEvaluation.profileDigest v ∧
      GovernanceControlEvidence.scope e = GovernanceEvaluation.scope v) →
  gov_next w c w' (mkClient (policy c) (own c <| GovernanceRegistry.evaluations :=
    omap_set (GovernanceEvaluation.id v) v (GovernanceRegistry.evaluations (own c)) |>)).
Proof.
intros [Hp Hs] Hw Hlt Hid Hk Hi. set (k := GovernanceEvaluation.id v) in *.
assert (omap_get k (GovernanceRegistry.evaluations (own c)) = None) as Hn.
{ rewrite Hid. eapply fresh_record; [apply Hs|]. by intros j x (_ & ? & _). }
assert (ps_next w (policy c) w' (policy c)) as N by (by apply ps_next_draw). split; simpl; [done| |].
- split; simpl; [apply grows_refl, _..|done|by apply extends_set_fresh].
- split; [by eapply ps_next_ok|]. pose proof (governance_ok_passes _ _ _ _ Hw Hs) as [H1 H2 H3 H4 H5].
  split; simpl; [done..|]. apply omap_all_set; [done|]. split_and!; [done| |by exists p|done].
  rewrite Hid. by exists (uuids_drawn w).
Qed.

(** * One evaluation *)

(** Evidence [i] records the observation of control [x]. *)
Definition evidence_for (p : GovernanceProfile.t) (scope : GovernanceScope.t) (os : list GovernanceControlObservation.t) s
    (x : GovernanceControl.t) (i : string) : Prop :=
  ∃ o e, observation_of os (GovernanceControl.id x) = Some o ∧
    omap_get i (GovernanceRegistry.evidence s) = Some e ∧
    GovernanceControlEvidence.id e = i ∧
    GovernanceControlEvidence.profileId e = GovernanceProfile.id p ∧
    GovernanceControlEvidence.profileDigest e = GovernanceProfile.digest p ∧
    GovernanceControlEvidence.scope e = scope ∧
    GovernanceControlEvidence.controlId e = GovernanceControl.id x ∧
    GovernanceControlEvidence.status e = GovernanceControlObservation.status o ∧
    GovernanceControlEvidence.evidenceRefs e = GovernanceControlObservation.evidenceRefs o ∧
    GovernanceControlEvidence.observedAt e = GovernanceControlObservation.observedAt o ∧
    GovernanceControlEvidence.disclosure e = GovernanceControlObservation.disclosure o.
Lemma evidence_for_extends p scope os s s' x i :
  extends (GovernanceRegistry.evidence s) (GovernanceRegistry.evidence s') →
  evidence_for p scope os s x i → evidence_for p scope os s' x i.
Proof. intros He (o & e & Ho & Hi & H). exists o, e. split; [done|]. split; [by apply He|done]. Qed.

Lemma Forall2_right {A B} (P : A → B → Prop) l k y : Forall2 P l k → y ∈ k → ∃ x, x ∈ l ∧ P x y.
Proof.
intros HF (i & Hi)%list_elem_of_lookup. destruct (Forall2_lookup_r _ _ _ _ _ HF Hi) as (x & Hx & ?).
exists x. split; [by eapply list_elem_of_lookup_2|done].
Qed.
Lemma Forall2_left {A B} (P : A → B → Prop) l k x : Forall2 P l k → x ∈ l → ∃ y, y ∈ k ∧ P x y.
Proof. intros HF Hx. apply (Forall2_right (flip P) k l); [by apply Forall2_flip|done]. Qed.

(** What the loop over the controls has done after [pre]. *)
Record judged (p : GovernanceProfile.t) (scope : GovernanceScope.t) (os : list GovernanceControlObservation.t) c c'
    (pre : list GovernanceControl.t) (f : Findings) : Prop := {
  jd_own : ∃ ev, c' = mkClient (policy c) (own c <| GovernanceRegistry.evidence := ev |>);
  jd_blockers : length (blockers f) = how_many (blocking os) pre;
  jd_advisories : length (advisories f) = how_many (advising os) pre;
  jd_evidence : Forall2 (evidence_for p scope os (own c')) (base.filter (is_observed os) pre) (evidenceIds f);
  jd_nodup : NoDup (evidenceIds f);
  jd_fresh : ∀ i, i ∈ evidenceIds f → omap_get i (GovernanceRegistry.evidence (own c)) = None;
}.

Lemma judged_missing p scope os c c' pre f x message :
  observation_of os (GovernanceControl.id x) = None → judged p scope os c c' pre f →
  judged p scope os c c' (pre ++ [x]) (if GovernanceControl.required x then blocker f message else advisory f message).
Proof.
intros Hx [H1 H2 H3 H4 H5 H6].
assert (base.filter (is_observed os) (pre ++ [x]) = base.filter (is_observed os) pre) as Hf.
{ rewrite filter_app, filter_cons_False, filter_nil, app_nil_r; [done|]. unfold is_observed. rewrite Hx. by intros []. }
destruct (missing_counts os x Hx) as [Hb Ha].
split; [done|..]; rewrite ?how_many_snoc, ?Hf, ?Hb, ?Ha; destruct (GovernanceControl.required x); cbn;
  rewrite ?length_app; cbn; try done; lia.
Qed.
Lemma judged_observed p scope os c c' pre f x o e ev : observation_of os (GovernanceControl.id x) = Some o →
  judged p scope os c c' pre f → let k := GovernanceControlEvidence.id e in
  omap_get k (GovernanceRegistry.evidence (own c')) = None →
  extends (GovernanceRegistry.evidence (own c)) (GovernanceRegistry.evidence (own c')) →
  ev = omap_set k e (GovernanceRegistry.evidence (own c')) →
  evidence_for p scope os (own c' <| GovernanceRegistry.evidence := ev |>) x k →
  judged p scope os c (mkClient (policy c') (own c' <| GovernanceRegistry.evidence := ev |>)) (pre ++ [x]) (judge x o (recorded f k)).
Proof.
intros Hx [H1 H2 H3 H4 H5 H6] k Hk Hext Hev He. destruct (judge_counts x o (recorded f k) os Hx) as (Ji & Jb & Ja).
assert (extends (GovernanceRegistry.evidence (own c')) ev) as Hgrow by (by rewrite Hev; apply extends_set_fresh).
split; rewrite ?Ji, ?Jb, ?Ja, ?how_many_snoc.
- destruct H1 as [ev0 ->]. by exists ev.
- simpl. by rewrite H2.
- simpl. by rewrite H3.
- rewrite filter_app. cbn [evidenceIds recorded]. apply Forall2_app.
  + eapply Forall2_impl; [exact H4|]. intros y i. by apply evidence_for_extends.
  + rewrite filter_cons_True by (by exists o). rewrite filter_nil. by repeat constructor.
- simpl. apply NoDup_app. split_and!; [done| |by repeat constructor; apply not_elem_of_nil].
  intros i Hi ->%list_elem_of_singleton. destruct (Forall2_right _ _ _ _ H4 Hi) as (y & _ & ? & e' & _ & He' & _). congruence.
- simpl. intros i [Hi| ->%list_elem_of_singleton]%elem_of_app; [by apply H6|].
  destruct (omap_get k (GovernanceRegistry.evidence (own c))) as [e'|] eqn:Hold; [|done]. apply Hext in Hold. congruence.
Qed.

Lemma wp_controls p scope os observed Q X w c :
  gov_ok w c → known (own c) (GovernanceProfile.id p) (GovernanceProfile.digest p) p →
  (∀ id, omap_get id observed = observation_of os id) →
  (∀ f w' c', gov_next w c w' c' → judged p scope os c c' (GovernanceProfile.controls p) f → Q f w' c') →
  wp (fold_each (GovernanceProfile.controls p) (evaluate_control p scope observed) (mkFindings [] [] []) : P _) Q X w c.
Proof.
intros Hc Hp Hobs HQ.
apply (wp_fold_each (λ pre f w' c', gov_next w c w' c' ∧ judged p scope os c c' pre f)); [|naive_solver|].
2: { split; [by apply gov_next_refl|]. split; simpl; try done; [|constructor|by intros i ?%elem_of_nil].
  exists (GovernanceRegistry.evidence (own c)). destruct c as [r []]. reflexivity. }
clear HQ. intros pre x post f w1 c1 Hpre [N J]. unfold evaluate_control. rewrite Hobs.
destruct (observation_of os (GovernanceControl.id x)) as [o|] eqn:Ho; [|wp_step; split; [done|by apply judged_missing]].
wp_step. apply wp_opaqueId. cbv beta. wp_step. apply wp_realm_of. cbv zeta. wp_step. client_step. wp_step.
match goal with |- context [omap_set _ ?e _] => set (e1 := e) end.
set (w2 := mkWorld _ _) in *. pose proof (jd_own _ _ _ _ _ _ _ J) as [ev0 Hown].
destruct (next_evidence w1 w2 c1 e1 p) as [Hnew N2]; [apply N|by split; simpl; lia|simpl; lia|done|..].
{ rewrite Hown. exact Hp. }
{ apply list_elem_of_fmap. exists x. split; [done|]. rewrite Hpre, elem_of_app. right; left. }
split; [by eapply gov_next_trans|].
apply (judged_observed p scope os c c1 pre f x o e1); [done..|apply N|done|].
exists o, e1. split; [done|]. split; [apply omap_get_set_eq|]. by split_and!.
Qed.

Lemma indeterminate_seen p scope os s cs ids :
  Forall2 (evidence_for p scope os s) (base.filter (is_observed os) cs) ids →
  existsb (λ id, match omap_get id (GovernanceRegistry.evidence s) with
    | Some e => bool_decide (GovernanceControlEvidence.status e = ObservationStatus.indeterminate)
    | None => false end) ids = existsb (observed_as os ObservationStatus.indeterminate) cs.
Proof.
revert ids. induction cs as [|x cs IH]; intros ids; [by inversion 1|]. rewrite filter_cons. simpl. case_decide as Hx.
- intros (i & ids' & (o & e & Ho & He & H) & HF & ->)%Forall2_cons_inv_l. simpl. rewrite He, (IH _ HF).
  unfold observed_as at 2. rewrite Ho. by replace (GovernanceControlEvidence.status e) with (GovernanceControlObservation.status o)
    by (symmetry; apply H).
- intros HF. rewrite (IH _ HF). unfold observed_as at 2. unfold is_observed in Hx.
  destruct (observation_of os (GovernanceControl.id x)); [by destruct Hx|done].
Qed.
Lemma verdict_found controls os (l : list string) (b : bool) : length l = how_many (blocking os) controls →
  b = existsb (observed_as os ObservationStatus.indeterminate) controls →
  (if negb (bool_decide (l = [])) then EvaluationStatus.blocked
   else if b then EvaluationStatus.indeterminate else EvaluationStatus.ready) = verdict controls os.
Proof.
intros Hl ->. unfold verdict. destruct (existsb (blocking os) controls) eqn:Hb.
- destruct l; [|done]. symmetry in Hl. apply how_many_zero in Hl. congruence.
- apply how_many_zero in Hb. rewrite Hb in Hl. by destruct l.
Qed.

Definition evaluate_request (input : EvaluateGovernanceProfileInput.t) : PolicyEvaluationInput.t :=
  asPolicyInput (EvaluateGovernanceProfileInput.authorization input) Capability.governance_profile_evaluate
    (scopeResource (EvaluateGovernanceProfileInput.scope input)) "governance.profile.evaluate".

(** What a call of [evaluate] that returns has done. *)
Record evaluated (input : EvaluateGovernanceProfileInput.t) w c (p : GovernanceProfile.t) (v : GovernanceEvaluation.t) w' c' :
    Prop := {
  ev_profile : find_profile (EvaluateGovernanceProfileInput.profileId input) (own c) = Some p;
  ev_active : ∃ a, omap_get (application_key p (EvaluateGovernanceProfileInput.scope input))
      (GovernanceRegistry.applications (own c)) = Some a ∧
    GovernanceProfileApplication.status a = ApplicationStatus.active;
  ev_permitted : permits_during w c w' c' (evaluate_request input);
  ev_known : NoDup (GovernanceControlObservation.controlId <$> EvaluateGovernanceProfileInput.observations input) ∧
    ∀ o, o ∈ EvaluateGovernanceProfileInput.observations input →
      GovernanceControlObservation.controlId o ∈ GovernanceControl.id <$> GovernanceProfile.controls p;
  ev_names : GovernanceEvaluation.profileId v = GovernanceProfile.id p ∧
    GovernanceEvaluation.profileDigest v = GovernanceProfile.digest p ∧
    GovernanceEvaluation.scope v = EvaluateGovernanceProfileInput.scope input;
  ev_policy : GovernanceEvaluation.policyVersion v = Realm.policyVersion (ps_realm (policy c')) ∧
    GovernanceEvaluation.authorizationEpoch v = Realm.authorizationEpoch (ps_realm (policy c'));
  ev_status : GovernanceEvaluation.status v =
    verdict (GovernanceProfile.controls p) (EvaluateGovernanceProfileInput.observations input);
  ev_messages : length (GovernanceEvaluation.blockers v) =
      how_many (blocking (EvaluateGovernanceProfileInput.observations input)) (GovernanceProfile.controls p) ∧
    length (GovernanceEvaluation.advisories v) =
      how_many (advising (EvaluateGovernanceProfileInput.observations input)) (GovernanceProfile.controls p);
  ev_evidence : Forall2 (evidence_for p (EvaluateGovernanceProfileInput.scope input)
      (EvaluateGovernanceProfileInput.observations input) (own c'))
    (base.filter (is_observed (EvaluateGovernanceProfileInput.observations input)) (GovernanceProfile.controls p))
    (GovernanceEvaluation.evidenceIds v);
  ev_fresh : NoDup (GovernanceEvaluation.evidenceIds v) ∧
    ∀ i, i ∈ GovernanceEvaluation.evidenceIds v → omap_get i (GovernanceRegistry.evidence (own c)) = None;
  ev_stored : omap_get (GovernanceEvaluation.id v) (GovernanceRegistry.evaluations (own c')) = Some v;
  ev_kept : GovernanceRegistry.profiles (own c') = GovernanceRegistry.profiles (own c) ∧
    GovernanceRegistry.applications (own c') = GovernanceRegistry.applications (own c);
}.

Lemma wp_applicationFor p scope Q X w c :
  Q (omap_get (application_key p scope) (GovernanceRegistry.applications (own c))) w c →
  wp (applicationFor p scope : P _) Q X w c.
Proof. done. Qed.
Lemma active_application (o : option GovernanceProfileApplication.t) :
  match o with
  | Some a => negb (bool_decide (GovernanceProfileApplication.status a = ApplicationStatus.active))
  | None => true
  end = false → ∃ a, o = Some a ∧ GovernanceProfileApplication.status a = ApplicationStatus.active.
Proof. destruct o as [a|]; [|done]. intros Ha%negb_false_iff%bool_decide_eq_true. by exists a. Qed.

Lemma wp_evaluate input w c : gov_ok w c →
  wp (evaluate input : P _) (λ v w' c', gov_next w c w' c' ∧ ∃ p, evaluated input w c p v w' c')
    (λ _ w' c', gov_next w c w' c' ∧ own c' = own c) w c.
Proof.
intros Hc. pose proof (gov_next_refl _ _ Hc) as Hrefl. unfold evaluate. cbv zeta. set (os := EvaluateGovernanceProfileInput.observations input).
wp_step. apply wp_requireProfile; [done| |done]. intros p Hfind [Hreg _] Hok.
assert (known (own c) (GovernanceProfile.id p) (GovernanceProfile.digest p) p) as Hknown by done.
wp_step. apply wp_realm_of. wp_step. wp_step; [|done]. wp_step. apply wp_applicationFor.
wp_step. wp_step; [done|]. apply active_application in H0 as Hactive.
wp_step. apply wp_allowed; [done| |by intros e w1 r1 N1]. intros _ w1 r1 N1 Hperm.
wp_step. wp_step; [|done]. match goal with H : controlMap _ = Ok _ |- _ => apply controlMap_Ok in H as (Hvals & Hkeys & _ & _) end.
wp_step. wp_step; [|done]. match goal with H : observe _ _ _ _ = Ok _ |- _ => apply observe_Ok in H as (Hin & Hnd & _ & Hobs) end.
rewrite Hvals. wp_step. set (c1 := mkClient r1 (own c)) in *.
apply (wp_controls p (EvaluateGovernanceProfileInput.scope input) os); [apply N1|done| |].
{ intros id. rewrite Hobs. by destruct (observation_of os id). }
intros f w2 c2 N2 J. wp_step. client_step. wp_step. apply wp_opaqueId. cbv beta. wp_step. apply wp_realm_of.
wp_step. client_step. wp_step. set (w3 := mkWorld _ _). match goal with |- context [omap_set _ ?e _] => set (v := e) end.
pose proof (gov_next_trans _ _ _ _ _ _ N1 N2) as N12. pose proof J as [[ev0 Hown] Jb Ja Je Jn Jf].
assert (gov_next w2 c2 w3 (mkClient (policy c2) (own c2 <| GovernanceRegistry.evaluations :=
  omap_set (GovernanceEvaluation.id v) v (GovernanceRegistry.evaluations (own c2)) |>))) as N3.
{ apply (next_evaluation w2 w3 c2 v p); [apply N2|split; simpl; lia|simpl; lia|done|rewrite Hown; exact Hknown|].
  intros i Hi. destruct (Forall2_right _ _ _ _ Je Hi) as (x & _ & o & e & _ & He & _ & _ & Hd & Hs & _). by exists e. }
split; [by eapply gov_next_trans|]. exists p. split; try done.
- eapply permits_now; [by apply ps_next_refl, Hc|done|]. eapply ps_next_trans; [apply N12|apply N3].
- split; [done|]. intros o Ho. rewrite <-Hkeys. by apply Hin.
- simpl. apply verdict_found; [done|]. by eapply indeterminate_seen.
- apply omap_get_set_eq.
- simpl. by rewrite Hown.
Qed.

Lemma evaluated_later input w c p v w1 w2 c1 : passes w1 w2 → ps_ok w1 (policy c1) →
  evaluated input w c p v w1 c1 → evaluated input w c p v w2 c1.
Proof. intros Hw Hok []. split; try done. eapply permits_later; [done|by apply ps_next_draw]. Qed.

(** * Bundles *)

(** What a call of [exportProfile] that returns has done. *)
Record exported (input : EvaluateGovernanceProfileInput.t) w c (b : GovernanceProfileExport.t) w' c' : Prop := {
  ex_evaluated : evaluated input w c (GovernanceProfileExport.profile b) (GovernanceProfileExport.evaluation b) w' c';
  ex_profile : profile_ok (realm_id_of c) (profile_key (GovernanceProfileExport.profile b)) (GovernanceProfileExport.profile b);
  ex_observations : GovernanceProfileExport.observations b = EvaluateGovernanceProfileInput.observations input;
  ex_header : GovernanceProfileExport.protocol b = CONTRACT_VERSIONS_governanceProfileExport ∧
    GovernanceProfileExport.version b = "v1" ∧ GovernanceProfileExport.credentialFree b = true;
  ex_digest : exportDigest b = GovernanceProfileExport.integrityDigest b;
}.
Lemma exported_verifies input w c b w' c' : exported input w c b w' c' →
  verifyGovernanceProfileExport b = Ok b ↔ credential_free (without_digest b).
Proof.
intros [_ [_ Hd _ _ _] _ (H1 & H2 & H3) H4]. rewrite verify_Ok. split; [by intros [_ []]|]. intros Hf. by split.
Qed.

Lemma wp_exportProfile id input w c : gov_ok w c →
  wp (exportProfile id input : P _)
    (λ b w' c', gov_next w c w' c' ∧ EvaluateGovernanceProfileInput.profileId input = id ∧ exported input w c b w' c')
    (λ _ w' c', gov_next w c w' c') w c.
Proof.
intros Hc. pose proof (gov_next_refl _ _ Hc) as Hrefl. unfold exportProfile.
wp_step. wp_step; [done|]. apply negb_false_iff, String.eqb_eq in H as Hid.
wp_step. apply wp_requireProfile; [done| |done]. intros p Hfind _ Hok.
wp_step. eapply wp_mono; [by apply wp_evaluate| |by intros ? ? ? [? _]]. intros v w1 c1 [N (q & Hq)].
assert (q = p) as -> by (pose proof (ev_profile _ _ _ _ _ _ _ Hq); congruence).
wp_step. apply wp_opaqueId. cbv beta. set (w2 := mkWorld _ _). assert (passes w1 w2) as H12 by (by split; simpl; lia).
assert (∀ w3, passes w1 w3 → gov_next w c w3 c1) as Hdraw
  by (intros w3 H3; eapply gov_next_trans; [exact N|]; apply gov_next_draw; [apply N|done]).
wp_step. apply wp_nowIso_client; intros; [|apply Hdraw; etrans; [exact H12|by apply ticks_passes]].
wp_step. assert (passes w1 w') as H13 by (etrans; [exact H12|by apply ticks_passes]).
split; [by apply Hdraw|]. split; [done|]. split; [|exact Hok|done..].
eapply evaluated_later; [exact H13|apply N|exact Hq].
Qed.

(** Every registered profile with the id has the digest. *)
Definition names_only s (id digest : string) : Prop := ∀ q, q ∈ omap_values (GovernanceRegistry.profiles s) →
  GovernanceProfile.id q = id → GovernanceProfile.digest q = digest.
Lemma names_only_registers s s' p id d : registers p s s' → (GovernanceProfile.id p = id → GovernanceProfile.digest p = d) →
  names_only s id d → names_only s' id d.
Proof.
intros [[-> _]| ->] Hp Hs; [done|]. intros q [->|Hq]%omap_values_set; [done|by apply Hs].
Qed.
Lemma names_only_activated input w c p a w' c' id d : activated input w c p a w' c' →
  names_only (own c) id d → names_only (own c') id d.
Proof.
intros Ha Hs. rewrite (ac_own _ _ _ _ _ _ _ Ha). intros q [->|Hq]%omap_values_set; [|by apply Hs].
pose proof (ac_profile _ _ _ _ _ _ _ Ha) as [Hin _]%find_first_Some. simpl. by apply Hs.
Qed.

Definition replay_input (b : GovernanceProfileExport.t) (input : ReplayGovernanceProfileInput.t) :
    EvaluateGovernanceProfileInput.t :=
  EvaluateGovernanceProfileInput.mk (GovernanceProfile.id (GovernanceProfileExport.profile b))
    (ReplayGovernanceProfileInput.scope input)
    (default (GovernanceProfileExport.observations b) (ReplayGovernanceProfileInput.observations input))
    (ReplayGovernanceProfileInput.authorization input).
Lemma wp_replay b input w c : gov_ok w c →
  wp (replay b input : P _)
    (λ v w' c', gov_next w c w' c' ∧ sound_bundle b ∧ ∃ p w1 c1,
       gov_next w c w1 c1 ∧ evaluated (replay_input b input) w1 c1 p v w' c' ∧
       let q := GovernanceProfileExport.profile b in
       (names_only (own c) (GovernanceProfile.id q) (GovernanceProfile.digest q) →
        names_only (own c1) (GovernanceProfile.id q) (GovernanceProfile.digest q)))
    (λ _ w' c', gov_next w c w' c') w c.
Proof.
intros Hc. pose proof (gov_next_refl _ _ Hc) as Hrefl. unfold replay. cbv zeta.
wp_step. wp_step; [|done]. apply verify_Ok in H as [-> Hsound]. wp_step. apply wp_realm_of.
wp_step. wp_step; [|done]. wp_step. set (target := _ <| GovernanceProfile.lifecycle := _ |>).
eapply wp_mono; [by apply wp_registerProfile| |done]. intros _ w1 c1 (N1 & -> & _ & Hreg).
wp_step. apply wp_applicationFor. wp_step.
assert (∀ w2 c2, gov_next w c w2 c2 → (∀ id d, names_only (own c1) id d → names_only (own c2) id d) →
  wp (evaluate (replay_input b input) : P _)
    (λ v w' c', gov_next w c w' c' ∧ sound_bundle b ∧ ∃ p w1 c1,
       gov_next w c w1 c1 ∧ evaluated (replay_input b input) w1 c1 p v w' c' ∧
       let q := GovernanceProfileExport.profile b in
       (names_only (own c) (GovernanceProfile.id q) (GovernanceProfile.digest q) →
        names_only (own c1) (GovernanceProfile.id q) (GovernanceProfile.digest q)))
    (λ _ w' c', gov_next w c w' c') w2 c2) as Hlast.
{ intros w2 c2 N2 Hn. eapply wp_mono; [apply wp_evaluate, N2| |].
  - intros v w3 c3 [N3 (p & Hp)]. split; [by eapply gov_next_trans|]. split; [done|]. exists p, w2, c2.
    split_and!; [done..|]. cbv zeta. intros Hs. apply Hn. by eapply names_only_registers.
  - intros e w3 c3 [N3 _]. by eapply gov_next_trans. }
destruct (omap_get (application_key target _) _) as [app|]; [wp_step; by apply Hlast|]. wp_step.
eapply wp_mono; [apply wp_activateProfile, N1|..].
- intros app w2 c2 [N2 (p & Ha)]. wp_step. apply Hlast; [by eapply gov_next_trans|].
  intros id d. by eapply names_only_activated.
- intros e w2 c2 [N2 _]. by eapply gov_next_trans.
Qed.

(** * Every sequence of calls *)

Inductive gov_call : ∀ {A : Type}, P A → Prop :=
| call_governance_snapshot : gov_call snapshot
| call_getProfile id : gov_call (getProfile id)
| call_listEvidence : gov_call listEvidence
| call_listEvaluations : gov_call listEvaluations
| call_registerProfile p : gov_call (registerProfile p)
| call_activateProfile input : gov_call (activateProfile input)
| call_evaluate_profile input : gov_call (evaluate input)
| call_exportProfile id input : gov_call (exportProfile id input)
| call_replay b input : gov_call (replay b input).

(** The states of a registry and its policy: a call, or the policy moving on its own
    between two calls. *)
Inductive gov_lives : World * Sys → World * Sys → Prop :=
| gov_lives_call w c A (m : P A) o w' c' : gov_call m → m w c = (o, w', c') → gov_lives (w, c) (w', c')
| gov_lives_policy w c w' r' : ps_next w (policy c) w' r' → gov_lives (w, c) (w', mkClient r' (own c)).
Inductive governed : World * Sys → Prop :=
| governed_new w r : ps_ok w r → governed (w, mkClient r empty_registry)
| governed_lives σ σ' : governed σ → gov_lives σ σ' → governed σ'.

Lemma gov_call_next {A} (m : P A) w c : gov_call m → gov_ok w c →
  wp m (λ _ w' c', gov_next w c w' c') (λ _ w' c', gov_next w c w' c') w c.
Proof.
intros Hm Hc. pose proof (gov_next_refl _ _ Hc) as Hrefl. destruct Hm; [done..| | | | |].
- eapply wp_mono; [by apply wp_registerProfile|by intros ? ? ? [? _]|done].
- eapply wp_mono; [by apply wp_activateProfile|by intros ? ? ? [? _]..].
- eapply wp_mono; [by apply wp_evaluate|by intros ? ? ? [? _]..].
- eapply wp_mono; [by apply wp_exportProfile|by intros ? ? ? [? _]|done].
- eapply wp_mono; [by apply wp_replay|by intros ? ? ? [? _]|done].
Qed.
Lemma gov_lives_next σ σ' : gov_ok σ.1 σ.2 → gov_lives σ σ' → gov_next σ.1 σ.2 σ'.1 σ'.2.
Proof.
intros Hc Hs. destruct Hs as [w c A m o w' c' Hm Hrun|w c w' r' Hn]; simpl in *; [|by apply gov_next_policy].
pose proof (wp_run _ _ _ _ _ _ _ _ (gov_call_next _ _ _ Hm Hc) Hrun) as H. by destruct o.
Qed.
Lemma governed_ok σ : governed σ → gov_ok σ.1 σ.2.
Proof.
induction 1 as [w r Hr|σ σ' _ IH Hs]; [|by apply (gov_lives_next _ _ IH Hs)].
split; [done|]. by split; try constructor.
Qed.
Lemma gov_lives_star σ σ' : gov_ok σ.1 σ.2 → rtc gov_lives σ σ' → gov_next σ.1 σ.2 σ'.1 σ'.2.
Proof.
intros Hc. induction 1 as [σ|σ τ υ Hs _ IH]; [by apply gov_next_refl|].
pose proof (gov_lives_next _ _ Hc Hs) as N. eapply gov_next_trans; [exact N|apply IH, N].
Qed.

(** * The guarantees *)

(** C26: Whatever is called, by anyone and in any order: a registered profile is the
    one its digest was computed from, lies in the Realm and never changes again but
    for becoming active; evidence and evaluations are never altered or lost; and
    every record is anchored: an application, an item of evidence and an evaluation
    name a registered profile by id and digest, evidence names one of its controls,
    and an evaluation lists evidence of the same profile and scope that exists. *)
Theorem governance_consistent σ σ' : governed σ → rtc gov_lives σ σ' →
  omap_all (λ k p, k = profile_key p ∧ governanceProfileDigest p = GovernanceProfile.digest p ∧
    GovernanceScope.realmId (GovernanceProfile.scope p) = realm_id_of σ'.2) (GovernanceRegistry.profiles (own σ'.2)) ∧
  omap_all (λ k a, ∃ p, known (own σ'.2) (GovernanceProfileApplication.profileId a) (GovernanceProfileApplication.profileDigest a) p ∧
    k = application_key p (GovernanceProfileApplication.scope a) ∧
    GovernanceScope.realmId (GovernanceProfileApplication.scope a) = realm_id_of σ'.2) (GovernanceRegistry.applications (own σ'.2)) ∧
  omap_all (λ k e, ∃ p, known (own σ'.2) (GovernanceControlEvidence.profileId e) (GovernanceControlEvidence.profileDigest e) p ∧
    GovernanceControlEvidence.controlId e ∈ GovernanceControl.id <$> GovernanceProfile.controls p)
    (GovernanceRegistry.evidence (own σ'.2)) ∧
  omap_all (λ k v, (∃ p, known (own σ'.2) (GovernanceEvaluation.profileId v) (GovernanceEvaluation.profileDigest v) p) ∧
    ∀ i, i ∈ GovernanceEvaluation.evidenceIds v → ∃ e, omap_get i (GovernanceRegistry.evidence (own σ'.2)) = Some e ∧
      GovernanceControlEvidence.profileDigest e = GovernanceEvaluation.profileDigest v ∧
      GovernanceControlEvidence.scope e = GovernanceEvaluation.scope v) (GovernanceRegistry.evaluations (own σ'.2)) ∧
  governance_evolves (own σ.2) (own σ'.2).
Proof.
intros Hs Hstar. destruct (gov_lives_star _ _ (governed_ok _ Hs) Hstar) as [_ He [_ [H1 H2 H3 H4 H5]]].
split_and!; [..|exact He].
- intros k p Hk. by destruct (H2 _ _ Hk) as [? ? _ ? _].
- intros k a Hk. destruct (H3 _ _ Hk) as (? & p & ? & ?). by exists p.
- intros k e Hk. destruct (H4 _ _ Hk) as (_ & _ & p & ? & ?). by exists p.
- intros k v Hk. destruct (H5 _ _ Hk) as (_ & _ & ? & ?). done.
Qed.

(** C24: What an evaluation answers. It returns only if the profile is registered and
    active in exactly the requested scope, the policy permits it, and the
    observations are of distinct controls of the profile; then its status is the
    [verdict] of the observations on the controls, whatever the history of the
    registry: blocked with one blocker for each required control not observed to be
    satisfied, indeterminate when none blocks but one is observed indeterminate,
    ready otherwise; each observed control has exactly one new item of evidence, in
    the order of the controls, which repeats the observation.  If it throws, the
    registry is as it was. *)
Theorem evaluation_exact σ input o w' c' : governed σ → evaluate input σ.1 σ.2 = (o, w', c') →
  match o with
  | Ok v => ∃ p, evaluated input σ.1 σ.2 p v w' c'
  | Throw _ => own c' = own σ.2
  end.
Proof. intros Hs Hrun. pose proof (wp_run _ _ _ _ _ _ _ _ (wp_evaluate input _ _ (governed_ok _ Hs)) Hrun) as H. destruct o; apply H. Qed.

(** An activation needs a registered profile that is not retired, a scope in the
    Realm and the policy's permission to manage profiles there; it then records the
    profile's exact digest as active in that scope under the policy version and
    epoch of the Realm, keeps the id of an application it renews, and touches
    nothing else.  When it throws there is no new application. *)
Theorem activation_exact σ input o w' c' : governed σ → activateProfile input σ.1 σ.2 = (o, w', c') →
  match o with
  | Ok a => ∃ p, activated input σ.1 σ.2 p a w' c'
  | Throw _ => GovernanceRegistry.applications (own c') = GovernanceRegistry.applications (own σ.2)
  end.
Proof. intros Hs Hrun. pose proof (wp_run _ _ _ _ _ _ _ _ (wp_activateProfile input _ _ (governed_ok _ Hs)) Hrun) as H. destruct o; apply H. Qed.

(** C25: A bundle that a registry exports verifies exactly when nothing in it looks
    like a credential; otherwise any replay of it throws and changes nothing. And if it
    is replayed, with its own observations, in another registry of any Realm and scope,
    and that registry knows the bundle's profile id, if at all, only with the bundle's
    profile digest ([names_only]), then the answer is the exported status, on the
    exported profile digest, in the scope of the replay. Without the last condition the
    replay may evaluate another version ([replays_another_version]). *)
Theorem export_replays `{CF : !CollisionFree HH} σ id input b w' c' :
  governed σ → exportProfile id input σ.1 σ.2 = (Ok b, w', c') →
  (verifyGovernanceProfileExport b = Ok b ↔ credential_free (without_digest b)) ∧
  (¬ credential_free (without_digest b) → ∀ τ again, ∃ e, replay b again τ.1 τ.2 = (Throw e, τ.1, τ.2)) ∧
  ∀ τ scope authorization v w2 c2, governed τ →
    names_only (own τ.2) id (GovernanceProfile.digest (GovernanceProfileExport.profile b)) →
    replay b (ReplayGovernanceProfileInput.mk scope authorization None) τ.1 τ.2 = (Ok v, w2, c2) →
    GovernanceEvaluation.status v = GovernanceEvaluation.status (GovernanceProfileExport.evaluation b) ∧
    GovernanceEvaluation.profileDigest v = GovernanceEvaluation.profileDigest (GovernanceProfileExport.evaluation b) ∧
    GovernanceEvaluation.scope v = scope.
Proof.
intros Hs Hexp.
destruct (wp_Ok _ _ _ _ _ _ _ _ (wp_exportProfile id input _ _ (governed_ok _ Hs)) Hexp) as (_ & Hid & Hex).
split_and!; [by eapply exported_verifies| |].
{ intros Hcred τ again. unfold replay, mbind, M_bind, lift.
  destruct (verifyGovernanceProfileExport b) as [a|e] eqn:Hv; [|by exists e].
  destruct Hcred. apply verify_Ok in Hv as [_ []]. done. }
intros τ scope authorization v w2 c2 Ht Hnames Hrep.
destruct (wp_Ok _ _ _ _ _ _ _ _ (wp_replay b _ _ _ (governed_ok _ Ht)) Hrep) as (_ & _ & p & w1 & c1 & N1 & Hev & Honly).
pose proof Hex as [Hev0 Hok Hobs _ _].
set (q := GovernanceProfileExport.profile b) in *.
assert (GovernanceProfile.id q = id) as Hq.
{ rewrite <-Hid. by destruct (find_first_Some _ _ _ (ev_profile _ _ _ _ _ _ _ Hev0)) as [_ ?%String.eqb_eq]. }
pose proof (ev_profile _ _ _ _ _ _ _ Hev) as Hfind. cbn in Hfind.
destruct (find_profile_known _ _ _ _ _ (gv_registry _ _ (gn_ok _ _ _ _ N1)) Hfind) as [_ [_ Hd _ _ _]].
apply find_first_Some in Hfind as [Hin Hpid%String.eqb_eq].
assert (GovernanceProfile.digest p = GovernanceProfile.digest q) as Hdig by (apply Honly; [by rewrite Hq|done..]).
destruct (governanceProfileDigest_binds p q) as (_ & _ & _ & _ & Hcontrols & _); [done|rewrite Hd, Hdig; by destruct Hok|].
destruct (ev_names _ _ _ _ _ _ _ Hev) as (_ & Hvd & Hvs). destruct (ev_names _ _ _ _ _ _ _ Hev0) as (_ & Hed & _).
split_and!; [|congruence|done].
rewrite (ev_status _ _ _ _ _ _ _ Hev), (ev_status _ _ _ _ _ _ _ Hev0), Hcontrols, <-Hobs. done.
Qed.

(** Two accepted bundles with one integrity digest are the same bundle: nothing of
    an accepted bundle can be altered under its digest. *)
Theorem verified_bundle_binds `{CF : !CollisionFree HH} b1 b2 a1 a2 :
  verifyGovernanceProfileExport b1 = Ok a1 → verifyGovernanceProfileExport b2 = Ok a2 →
  GovernanceProfileExport.integrityDigest b1 = GovernanceProfileExport.integrityDigest b2 → a1 = b1 ∧ b1 = b2.
Proof.
intros [-> [_ _ _ H1 _ _]]%verify_Ok [_ [_ _ _ H2 _ _]]%verify_Ok Hd. split; [done|].
pose proof (exportDigest_binds b1 b2 _ (eq_trans H1 (eq_trans Hd (eq_sym H2)))) as H. rewrite <-Hd in H. by destruct b1.
Qed.
End facts.
