(* ===== verification/GovernanceDemo.v ===== *)
(** Governance Profiles over a Realm: a run which witnesses the theorems of
    GovernanceLife, and what becomes of a bundle where another version of its
    profile is registered. *)

From S2P Require Import Prelude Contracts LocaleJson Identity IdentityPolicy IdentityFacts IdentityLife PolicyService Extensions CredentialMaterial Governance GovernanceFacts GovernanceLife.

Module GovernanceDemo.
Import RealmDemo.
#[local] Existing Instances host realm_host demo_fresh demo_dates demo_clock.
Lemma host_collision_free : CollisionFree host.
Proof. intros x y Hxy. exact Hxy. Qed.
#[local] Existing Instance host_collision_free.
(** No text is a token. *)
#[local] Instance no_patterns : TextPatterns := λ _, None.

(** * The Realm *)

Definition officer_grant : CreateTaskGrantInput.t := {|
  CreateTaskGrantInput.principalId := "alice"; CreateTaskGrantInput.actorId := human_actor;
  CreateTaskGrantInput.clientId := "client:anyam-web"; CreateTaskGrantInput.sessionId := human;
  CreateTaskGrantInput.taskId := task; CreateTaskGrantInput.resource := whole;
  CreateTaskGrantInput.sourceSpaceIds := [];
  CreateTaskGrantInput.actions := [Capability.governance_profile_manage; Capability.governance_profile_evaluate];
  CreateTaskGrantInput.effects := None;
  CreateTaskGrantInput.allowedModelProviders := None;
  CreateTaskGrantInput.allowedCredentialClasses := None; CreateTaskGrantInput.deniedActions := None;
  CreateTaskGrantInput.budget := None; CreateTaskGrantInput.expiresAt := None;
  CreateTaskGrantInput.parentGrantId := None; CreateTaskGrantInput.agentId := None;
  CreateTaskGrantInput.delegatedByActorId := None; CreateTaskGrantInput.delegatedBySessionId := None;
  CreateTaskGrantInput.consentAt := None;
|}.
Definition officed : World * RealmState.t := Eval vm_compute in
  play [act_of (call_createCapabilityGrant officer_grant)] tasked.
Definition officer_grant_id : string := Eval vm_compute in hd "" (omap_keys (RealmState.grants officed.2)).
Lemma officed_ok : inv officed.1 officed.2.
Proof.
pose (all := enrolment ++ [act_of (call_createTask "alice" human_actor human "build" None None None);
  act_of (call_createCapabilityGrant officer_grant)]).
pose proof (play_reachable all opened [] [] opened_reachable) as H.
replace (play all opened) with officed in H by (vm_compute; reflexivity). apply (cf_inv _ (reachable_ok _ H)).
Qed.

(** * A profile, its activation and its evaluation *)

Definition sys : Type := Client RealmState.t GovernanceRegistry.t.
Definition control (id : string) (required : bool) : GovernanceControl.t :=
  GovernanceControl.mk id "Backups" "Keep backups" "operations" required ["report"] None.
Definition profile (version : string) (controls : list GovernanceControl.t) : GovernanceProfile.t :=
  createGovernanceProfile {|
    CreateGovernanceProfileInput.id := "baseline"; CreateGovernanceProfileInput.name := "Baseline";
    CreateGovernanceProfileInput.version := version;
    CreateGovernanceProfileInput.scope := GovernanceScope.mk "realm" None None;
    CreateGovernanceProfileInput.controls := controls;
    CreateGovernanceProfileInput.provenance := ExtensionProvenance.mk "git" "team" None None "signed";
    CreateGovernanceProfileInput.policyVersion := "1"; CreateGovernanceProfileInput.lifecycle := None;
    CreateGovernanceProfileInput.receipt := "published" |}.
Definition first_profile : GovernanceProfile.t := profile "1" [control "backup" true; control "drill" false].
Definition second_profile : GovernanceProfile.t := profile "2" [control "backup" true; control "drill" true].

Definition officer : ExtensionAuthorization.t := {|
  ExtensionAuthorization.principalId := "alice"; ExtensionAuthorization.actorId := human_actor;
  ExtensionAuthorization.clientId := "client:anyam-web"; ExtensionAuthorization.sessionId := human;
  ExtensionAuthorization.taskId := task; ExtensionAuthorization.grantId := officer_grant_id;
  ExtensionAuthorization.resource := whole; ExtensionAuthorization.modelProvider := None;
  ExtensionAuthorization.requiredAuthStrength := None; ExtensionAuthorization.authorityClass := None;
  ExtensionAuthorization.promotionId := None; ExtensionAuthorization.approval := None;
|}.
Definition realm_scope : GovernanceScope.t := GovernanceScope.mk "realm" None None.
Definition observation (id : string) (status : ObservationStatus.t) : GovernanceControlObservation.t := {|
  GovernanceControlObservation.controlId := id; GovernanceControlObservation.status := status;
  GovernanceControlObservation.evidenceRefs := ["report-1"]; GovernanceControlObservation.observedAt := "2026-01-01";
  GovernanceControlObservation.owner := "operations"; GovernanceControlObservation.nextAction := "rerun";
  GovernanceControlObservation.disclosure := DisclosurePolicyRef.mk "default" DisclosureClassification.public;
  GovernanceControlObservation.receipt := "seen" |}.
Definition observe_with (os : list GovernanceControlObservation.t) : EvaluateGovernanceProfileInput.t :=
  EvaluateGovernanceProfileInput.mk "baseline" realm_scope os officer.
Definition activation : ActivateGovernanceProfileInput.t := ActivateGovernanceProfileInput.mk "baseline" realm_scope officer.

Definition after {A} (r : outcome governance_failure A * World * sys) : World * sys := (r.1.2, r.2).
Definition answer {A} (r : outcome governance_failure A * World * sys) : option A :=
  match r.1.1 with Ok a => Some a | Throw _ => None end.
Lemma after_governed {A} (m : M sys governance_failure A) σ : gov_call m → governed σ → governed (after (m σ.1 σ.2)).
Proof.
intros Hm Hs. eapply governed_lives; [exact Hs|]. destruct σ as [w c]. simpl.
destruct (m w c) as [[o w'] c'] eqn:Hrun. by eapply gov_lives_call.
Qed.

Definition opened_registry : World * sys := (officed.1, mkClient officed.2 empty_registry).
Lemma opened_governed : governed opened_registry.
Proof. apply (governed_new officed.1 officed.2). exact officed_ok. Qed.
Definition with_profile (p : GovernanceProfile.t) : World * sys :=
  after (registerProfile p opened_registry.1 opened_registry.2).
Definition activating : outcome governance_failure GovernanceProfileApplication.t * World * sys :=
  activateProfile activation (with_profile first_profile).1 (with_profile first_profile).2.
Definition active_state : World * sys := Eval vm_compute in after activating.
Lemma with_profile_governed p : governed (with_profile p).
Proof. apply after_governed; [constructor|exact opened_governed]. Qed.
Lemma active_governed : governed active_state.
Proof.
replace active_state with (after activating) by (vm_compute; reflexivity).
apply after_governed; [constructor|apply with_profile_governed].
Qed.

(** An optional control may stay unobserved; a required one may not. *)
Definition status_with (os : list GovernanceControlObservation.t) : option EvaluationStatus.t :=
  GovernanceEvaluation.status <$> answer (evaluate (observe_with os) active_state.1 active_state.2).
Example backed_up : status_with [observation "backup" ObservationStatus.satisfied] = Some EvaluationStatus.ready.
Proof. vm_compute. reflexivity. Qed.
Example not_observed : status_with [observation "drill" ObservationStatus.satisfied] = Some EvaluationStatus.blocked.
Proof. vm_compute. reflexivity. Qed.
Example in_doubt : status_with [observation "backup" ObservationStatus.satisfied;
  observation "drill" ObservationStatus.indeterminate] = Some EvaluationStatus.indeterminate.
Proof. vm_compute. reflexivity. Qed.
Example observed_twice : status_with [observation "backup" ObservationStatus.satisfied;
  observation "backup" ObservationStatus.satisfied] = None.
Proof. vm_compute. reflexivity. Qed.

(** * Export and replay *)

Definition backup_input : EvaluateGovernanceProfileInput.t :=
  observe_with [observation "backup" ObservationStatus.satisfied; observation "drill" ObservationStatus.failed].
Definition exporting : outcome governance_failure GovernanceProfileExport.t * World * sys :=
  exportProfile "baseline" backup_input active_state.1 active_state.2.
Definition replaying (σ : World * sys) (b : GovernanceProfileExport.t) : outcome governance_failure GovernanceEvaluation.t * World * sys :=
  replay b (ReplayGovernanceProfileInput.mk realm_scope officer None) σ.1 σ.2.
(** The status and the profile digest of an evaluation. *)
Definition result_of (r : outcome governance_failure GovernanceEvaluation.t * World * sys) : option (EvaluationStatus.t * string) :=
  (λ v, (GovernanceEvaluation.status v, GovernanceEvaluation.profileDigest v)) <$> answer r.

Definition bundle : GovernanceProfileExport.t := Eval vm_compute in
  match exporting.1.1 with Ok b => b | Throw _ => GovernanceProfileExport.mk "" "" "" "" first_profile [] 
    (GovernanceEvaluation.mk "" "" "" realm_scope EvaluationStatus.ready [] [] [] "" 0 "") true "" "" end.
Definition export_state : World * sys := Eval vm_compute in after exporting.
Lemma exporting_eq : exportProfile "baseline" backup_input active_state.1 active_state.2 =
  (Ok bundle, export_state.1, export_state.2).
Proof. vm_compute. reflexivity. Qed.

(** Where another version of the profile was registered first, the replay evaluates
    that version, not the bundle's: [requireProfile] takes the first profile with
    the id.  What was ready is blocked there. *)
Example replays_another_version :
  GovernanceEvaluation.status (GovernanceProfileExport.evaluation bundle) = EvaluationStatus.ready ∧
  result_of (replaying (with_profile second_profile) bundle) =
    Some (EvaluationStatus.blocked, GovernanceProfile.digest second_profile).
Proof. vm_compute. split; reflexivity. Qed.

(** The digest does not cover the lifecycle or the scope, so a bundle of a retired
    profile is replayed as a draft. *)
Example digest_ignores_scope :
  governanceProfileDigest (first_profile <| GovernanceProfile.lifecycle := ProfileLifecycle.retired |>
    <| GovernanceProfile.scope := GovernanceScope.mk "elsewhere" None None |>) = GovernanceProfile.digest first_profile.
Proof. reflexivity. Qed.

(** * Witnesses *)

Lemma governance_consistent_witness : ∃ e, omap_get "governance-evidence:19" (GovernanceRegistry.evidence (own export_state.2)) = Some e ∧
  GovernanceControlEvidence.profileDigest e = GovernanceProfile.digest first_profile ∧
  ∃ p, known (own export_state.2) "baseline" (GovernanceControlEvidence.profileDigest e) p ∧
    GovernanceControlEvidence.controlId e ∈ GovernanceControl.id <$> GovernanceProfile.controls p.
Proof.
destruct (governance_consistent active_state export_state) as (_ & _ & H & _ & _).
{ exact active_governed. }
{ apply rtc_once. exact (gov_lives_call _ _ _ _ _ _ _ (call_exportProfile "baseline" backup_input) exporting_eq). }
destruct (omap_get "governance-evidence:19" (GovernanceRegistry.evidence (own export_state.2))) as [e|] eqn:He; [|vm_compute in He; discriminate He].
exists e. split; [reflexivity|]. destruct (H _ _ He) as (p & Hp & Hin).
assert (GovernanceControlEvidence.profileId e = "baseline" ∧ GovernanceControlEvidence.profileDigest e = GovernanceProfile.digest first_profile) as [Hi Hd].
{ clear H Hin Hp. vm_compute in He. injection He as <-. split; reflexivity. }
split; [exact Hd|]. exists p. rewrite <-Hi. split; [exact Hp|exact Hin].
Defined.

Definition evaluating : outcome governance_failure GovernanceEvaluation.t * World * sys :=
  evaluate backup_input active_state.1 active_state.2.
Lemma evaluation_exact_witness : (∃ v, evaluating.1.1 = Ok v ∧ GovernanceEvaluation.status v = EvaluationStatus.ready ∧
  length (GovernanceEvaluation.advisories v) = 1 ∧
  permits_during active_state.1 active_state.2 evaluating.1.2 evaluating.2 (evaluate_request backup_input)).
Proof.
destruct evaluating as [[o w'] c'] eqn:Hrun. pose proof (evaluation_exact _ _ _ _ _ active_governed Hrun) as H.
assert (∃ v, evaluating.1.1 = Ok v ∧ GovernanceEvaluation.status v = EvaluationStatus.ready ∧
  length (GovernanceEvaluation.advisories v) = 1) as (v & Hv & Hs & Ha)
  by (vm_compute; eexists; split; [reflexivity|split; reflexivity]).
rewrite Hrun in Hv. cbn in Hv. subst o. destruct H as [p [_ _ Hp _ _ _ _ _ _ _ _]].
exists v. split; [reflexivity|]. split; [exact Hs|]. split; [exact Ha|]. exact Hp.
Defined.

Lemma activation_exact_witness : (∃ a, activating.1.1 = Ok a ∧ GovernanceProfileApplication.activatedBy a = "alice" ∧
  permits_during (with_profile first_profile).1 (with_profile first_profile).2 activating.1.2 activating.2 (activate_request activation)).
Proof.
destruct activating as [[o w'] c'] eqn:Hrun. pose proof (activation_exact _ _ _ _ _ (with_profile_governed _) Hrun) as H.
assert (∃ a, activating.1.1 = Ok a) as (a & Ha) by (vm_compute; eexists; reflexivity).
rewrite Hrun in Ha. cbn in Ha. subst o. destruct H as [p [_ _ Hp (_ & _ & _ & _ & Hby) _ _ _]].
exists a. split; [reflexivity|]. split; [exact Hby|exact Hp].
Defined.

Definition replayed : outcome governance_failure GovernanceEvaluation.t * World * sys := replaying opened_registry bundle.
Lemma export_replays_witness : verifyGovernanceProfileExport bundle = Ok bundle ∧
  ∃ v, replayed.1.1 = Ok v ∧ GovernanceEvaluation.status v = EvaluationStatus.ready ∧
    GovernanceEvaluation.profileDigest v = GovernanceProfile.digest first_profile.
Proof.
destruct (export_replays active_state "baseline" backup_input bundle export_state.1 export_state.2
  active_governed exporting_eq) as (Hverifies & _ & Hreplays).
split; [apply Hverifies; vm_compute; repeat split|].
destruct replayed as [[o w2] c2] eqn:Hrun. assert (∃ v, replayed.1.1 = Ok v) as (v & Hv) by (vm_compute; eexists; reflexivity).
rewrite Hrun in Hv. cbn in Hv. subst o. exists v. split; [reflexivity|].
destruct (Hreplays opened_registry realm_scope officer v w2 c2 opened_governed) as (Hs & Hd & _).
- intros q Hq. apply elem_of_nil in Hq. destruct Hq.
- exact Hrun.
- split; [rewrite Hs; reflexivity|rewrite Hd; vm_compute; reflexivity].
Defined.

Lemma verified_bundle_binds_witness : verifyGovernanceProfileExport bundle = Ok bundle ∧
  ∀ b a, verifyGovernanceProfileExport b = Ok a →
    GovernanceProfileExport.integrityDigest b = GovernanceProfileExport.integrityDigest bundle → b = bundle.
Proof.
assert (verifyGovernanceProfileExport bundle = Ok bundle) as Hb by (vm_compute; reflexivity). split; [exact Hb|].
intros b a Ha Hd. apply (verified_bundle_binds b bundle a bundle Ha Hb Hd).
Defined.
End GovernanceDemo.
