(* ===== verification/Collaboration.v ===== *)
(** Collaboration, src/change-control/collaboration.ts: Integration Cohorts of exact
    Change Revisions, the conflicts that analyzers find in them, the reviews that
    ownership rules require, and the gate of a Landing.

    [Coordinator.t] is the state of a [CollaborationCoordinator] and each method a
    computation over it.  The two asynchronous methods are split where they wait:
    [createCohort] at the answer of each analyzer ([createCohort_start],
    [createCohort_answer]) and [land] at the answer of the Landing authority
    ([land_begin], [land_finish]); whatever runs in between sees and makes its own
    changes. *)

From S2P Require Import Prelude Json Contracts ContractsJson EvidenceLedger.

(** * Data *)

Module OwnershipScopeKind.
Inductive t :=
| module | source_space | target.
#[global] Instance t_eq_dec : EqDecision t.
Proof. solve_decision. Defined.
Definition show (x : t) : string :=
  match x with
  | module => "module"
  | source_space => "source-space"
  | target => "target"
  end.
End OwnershipScopeKind.

Module ReviewOwnershipRule.
Record t := mk {
  id : string;
  scopeKind : OwnershipScopeKind.t;
  scopeId : string;
  requiredReviewerPrincipalIds : list string;
  requiredReviewerTeamIds : list string;
  disclosure : DisclosureClassification.t;
  label : option string;
}.
#[global] Instance eta : Eta t := fun r =>
  mk (id r) (scopeKind r) (scopeId r) (requiredReviewerPrincipalIds r)
  (requiredReviewerTeamIds r) (disclosure r) (label r).
End ReviewOwnershipRule.

Module ReviewerDirectoryEntry.
Record t := mk {
  principalId : string;
  teamIds : list string;
  active : option bool;
}.
#[global] Instance eta : Eta t := fun r =>
  mk (principalId r) (teamIds r) (active r).
End ReviewerDirectoryEntry.

Module ReviewRequirement.
Record t := mk {
  id : string;
  ruleId : string;
  changeId : string;
  changeRevisionId : string;
  scopeKind : OwnershipScopeKind.t;
  scopeId : string;
  disclosure : DisclosureClassification.t;
  requiredReviewerPrincipalIds : list string;
  requiredReviewerTeamIds : list string;
  candidatePrincipalIds : list string;
  reason : string;
}.
#[global] Instance eta : Eta t := fun r =>
  mk (id r) (ruleId r) (changeId r) (changeRevisionId r) (scopeKind r) (scopeId r)
  (disclosure r) (requiredReviewerPrincipalIds r) (requiredReviewerTeamIds r)
  (candidatePrincipalIds r) (reason r).
End ReviewRequirement.

Module ReviewFindingKind.
Inductive t :=
| comment | request_changes | security | policy.
#[global] Instance t_eq_dec : EqDecision t.
Proof. solve_decision. Defined.
Definition show (x : t) : string :=
  match x with
  | comment => "comment"
  | request_changes => "request-changes"
  | security => "security"
  | policy => "policy"
  end.
End ReviewFindingKind.

Module ReviewFindingSeverity.
Inductive t :=
| info | warning | blocking.
#[global] Instance t_eq_dec : EqDecision t.
Proof. solve_decision. Defined.
Definition show (x : t) : string :=
  match x with
  | info => "info"
  | warning => "warning"
  | blocking => "blocking"
  end.
End ReviewFindingSeverity.

Module ReviewFindingState.
Inductive t :=
| open | resolved | dismissed.
#[global] Instance t_eq_dec : EqDecision t.
Proof. solve_decision. Defined.
Definition show (x : t) : string :=
  match x with
  | open => "open"
  | resolved => "resolved"
  | dismissed => "dismissed"
  end.
End ReviewFindingState.

Module ReviewScope.
Record t := mk {
  moduleId : option string;
  sourceSpaceId : option string;
  targetId : option string;
  path : option string;
  symbol : option string;
}.
#[global] Instance eta : Eta t := fun r =>
  mk (moduleId r) (sourceSpaceId r) (targetId r) (path r) (symbol r).
End ReviewScope.

Module ReviewFinding.
Record t := mk {
  id : string;
  projectId : string;
  cohortId : string;
  changeId : string;
  changeRevisionId : string;
  author : ActorRef.t;
  kind : ReviewFindingKind.t;
  severity : ReviewFindingSeverity.t;
  state : ReviewFindingState.t;
  summary : string;
  scope : option ReviewScope.t;
  disclosure : DisclosureClassification.t;
  createdAt : string;
  updatedAt : string;
  resolution : option string;
  resolvedBy : option ActorRef.t;
  receipt : string;
}.
#[global] Instance eta : Eta t := fun r =>
  mk (id r) (projectId r) (cohortId r) (changeId r) (changeRevisionId r) (author r) (kind r)
  (severity r) (state r) (summary r) (scope r) (disclosure r) (createdAt r) (updatedAt r)
  (resolution r) (resolvedBy r) (receipt r).
End ReviewFinding.

Module ReviewApproval.
Record t := mk {
  id : string;
  projectId : string;
  cohortId : string;
  requirementId : string;
  changeId : string;
  changeRevisionId : string;
  reviewer : ActorRef.t;
  authorActorId : option string;
  verifierActorIds : list string;
  evidenceIds : list string;
  policyVersion : string;
  approvedAt : string;
  receipt : string;
}.
#[global] Instance eta : Eta t := fun r =>
  mk (id r) (projectId r) (cohortId r) (requirementId r) (changeId r) (changeRevisionId r)
  (reviewer r) (authorActorId r) (verifierActorIds r) (evidenceIds r) (policyVersion r)
  (approvedAt r) (receipt r).
End ReviewApproval.

Module IntegrationCohortMember.
Record t := mk {
  changeId : string;
  changeRevisionId : string;
  baseProjectRevisionId : string;
  author : option ActorRef.t;
  authorActorId : option string;
  verifierActorIds : list string;
  affectedModuleIds : list string;
  affectedSourceSpaceIds : list string;
  affectedTargetIds : list string;
  declaredEffects : list string;
}.
#[global] Instance eta : Eta t := fun r =>
  mk (changeId r) (changeRevisionId r) (baseProjectRevisionId r) (author r) (authorActorId r)
  (verifierActorIds r) (affectedModuleIds r) (affectedSourceSpaceIds r) (affectedTargetIds r)
  (declaredEffects r).
End IntegrationCohortMember.

Module IntegrationConflictKind.
Inductive t :=
| textual | semantic | schema | dependency | policy | disclosure.
#[global] Instance t_eq_dec : EqDecision t.
Proof. solve_decision. Defined.
Definition show (x : t) : string :=
  match x with
  | textual => "textual"
  | semantic => "semantic"
  | schema => "schema"
  | dependency => "dependency"
  | policy => "policy"
  | disclosure => "disclosure"
  end.
End IntegrationConflictKind.
#[export] Instance IntegrationConflictKind_to_json : ToJson IntegrationConflictKind.t := λ x, JStr (IntegrationConflictKind.show x).

Module IntegrationConflictSeverity.
Inductive t :=
| blocking | warning.
#[global] Instance t_eq_dec : EqDecision t.
Proof. solve_decision. Defined.
Definition show (x : t) : string :=
  match x with
  | blocking => "blocking"
  | warning => "warning"
  end.
End IntegrationConflictSeverity.
#[export] Instance IntegrationConflictSeverity_to_json : ToJson IntegrationConflictSeverity.t := λ x, JStr (IntegrationConflictSeverity.show x).

Module IntegrationConflictState.
Inductive t :=
| open | resolved.
#[global] Instance t_eq_dec : EqDecision t.
Proof. solve_decision. Defined.
Definition show (x : t) : string :=
  match x with
  | open => "open"
  | resolved => "resolved"
  end.
End IntegrationConflictState.

Module IntegrationConflictCandidate.
Record t := mk {
  kind : IntegrationConflictKind.t;
  severity : IntegrationConflictSeverity.t;
  changeIds : list string;
  scopeIds : list string;
  description : string;
  disclosure : DisclosureClassification.t;
  receipt : string;
  recoveryAction : string;
}.
#[global] Instance eta : Eta t := fun r =>
  mk (kind r) (severity r) (changeIds r) (scopeIds r) (description r) (disclosure r) (receipt r)
  (recoveryAction r).
End IntegrationConflictCandidate.
#[export] Instance IntegrationConflictCandidate_to_json : ToJson IntegrationConflictCandidate.t := λ r, object
  [field "kind" (IntegrationConflictCandidate.kind r);
   field "severity" (IntegrationConflictCandidate.severity r);
   field "changeIds" (IntegrationConflictCandidate.changeIds r);
   field "scopeIds" (IntegrationConflictCandidate.scopeIds r);
   field "description" (IntegrationConflictCandidate.description r);
   field "disclosure" (IntegrationConflictCandidate.disclosure r);
   field "receipt" (IntegrationConflictCandidate.receipt r);
   field "recoveryAction" (IntegrationConflictCandidate.recoveryAction r)].

Module IntegrationConflict.
Record t := mk {
  id : string;
  projectId : string;
  cohortId : string;
  kind : IntegrationConflictKind.t;
  severity : IntegrationConflictSeverity.t;
  state : IntegrationConflictState.t;
  changeIds : list string;
  changeRevisionIds : list string;
  scopeIds : list string;
  analyzerId : string;
  description : string;
  disclosure : DisclosureClassification.t;
  createdAt : string;
  resolvedAt : option string;
  resolutionRevisionIds : option (list string);
  receipt : string;
  recoveryAction : string;
}.
#[global] Instance eta : Eta t := fun r =>
  mk (id r) (projectId r) (cohortId r) (kind r) (severity r) (state r) (changeIds r)
  (changeRevisionIds r) (scopeIds r) (analyzerId r) (description r) (disclosure r) (createdAt r)
  (resolvedAt r) (resolutionRevisionIds r) (receipt r) (recoveryAction r).
End IntegrationConflict.

Module IntegrationCohortState.
Inductive t :=
| proposed | blocked | ready | stale | landed.
#[global] Instance t_eq_dec : EqDecision t.
Proof. solve_decision. Defined.
Definition show (x : t) : string :=
  match x with
  | proposed => "proposed"
  | blocked => "blocked"
  | ready => "ready"
  | stale => "stale"
  | landed => "landed"
  end.
End IntegrationCohortState.

Module IntegrationCohort.
Record t := mk {
  id : string;
  projectId : string;
  baseProjectRevisionId : string;
  members : list IntegrationCohortMember.t;
  conflictIds : list string;
  state : IntegrationCohortState.t;
  createdBy : ActorRef.t;
  createdAt : string;
  updatedAt : string;
  receipt : string;
}.
#[global] Instance eta : Eta t := fun r =>
  mk (id r) (projectId r) (baseProjectRevisionId r) (members r) (conflictIds r) (state r)
  (createdBy r) (createdAt r) (updatedAt r) (receipt r).
End IntegrationCohort.

Module CollaborationPolicy.
Record t := mk {
  version : string;
  requiredEvidence : list EvidenceRequirement.t;
  requiredEvidenceByEffect : option (omap (list EvidenceRequirement.t));
}.
#[global] Instance eta : Eta t := fun r =>
  mk (version r) (requiredEvidence r) (requiredEvidenceByEffect r).
End CollaborationPolicy.

Module IntegrationAnalyzerInput.
Record t := mk {
  projectId : string;
  baseProjectRevisionId : string;
  members : list IntegrationCohortMember.t;
}.
#[global] Instance eta : Eta t := fun r =>
  mk (projectId r) (baseProjectRevisionId r) (members r).
End IntegrationAnalyzerInput.

Module CollaborationAuditRole.
Inductive t :=
| author | verifier | reviewer | landing | promotion | analyzer.
#[global] Instance t_eq_dec : EqDecision t.
Proof. solve_decision. Defined.
Definition show (x : t) : string :=
  match x with
  | author => "author"
  | verifier => "verifier"
  | reviewer => "reviewer"
  | landing => "landing"
  | promotion => "promotion"
  | analyzer => "analyzer"
  end.
End CollaborationAuditRole.

Module CollaborationAuditOutcome.
Inductive t :=
| observed | succeeded | denied.
#[global] Instance t_eq_dec : EqDecision t.
Proof. solve_decision. Defined.
Definition show (x : t) : string :=
  match x with
  | observed => "observed"
  | succeeded => "succeeded"
  | denied => "denied"
  end.
End CollaborationAuditOutcome.

Module CollaborationAuditEvent.
Record t := mk {
  id : string;
  projectId : string;
  cohortId : option string;
  changeId : option string;
  changeRevisionId : option string;
  role : CollaborationAuditRole.t;
  action : string;
  outcome : CollaborationAuditOutcome.t;
  actor : ActorRef.t;
  policyVersion : string;
  disclosure : DisclosureClassification.t;
  occurredAt : string;
  receipt : string;
}.
#[global] Instance eta : Eta t := fun r =>
  mk (id r) (projectId r) (cohortId r) (changeId r) (changeRevisionId r) (role r) (action r)
  (outcome r) (actor r) (policyVersion r) (disclosure r) (occurredAt r) (receipt r).
End CollaborationAuditEvent.

Module AppendAuditInput.
Record t := mk {
  projectId : string;
  cohortId : option string;
  changeId : option string;
  changeRevisionId : option string;
  role : CollaborationAuditRole.t;
  action : string;
  outcome : CollaborationAuditOutcome.t;
  actor : ActorRef.t;
  policyVersion : option string;
  disclosure : DisclosureClassification.t;
  receipt : string;
}.
#[global] Instance eta : Eta t := fun r =>
  mk (projectId r) (cohortId r) (changeId r) (changeRevisionId r) (role r) (action r)
  (outcome r) (actor r) (policyVersion r) (disclosure r) (receipt r).
End AppendAuditInput.

Module CollaborationBlockerKind.
Inductive t :=
| stale_base | open_conflict | open_finding | required_reviewer | stale_approval
| missing_evidence | stale_evidence | failed_evidence | separation_of_duty | invalid_state.
#[global] Instance t_eq_dec : EqDecision t.
Proof. solve_decision. Defined.
Definition show (x : t) : string :=
  match x with
  | stale_base => "stale-base"
  | open_conflict => "open-conflict"
  | open_finding => "open-finding"
  | required_reviewer => "required-reviewer"
  | stale_approval => "stale-approval"
  | missing_evidence => "missing-evidence"
  | stale_evidence => "stale-evidence"
  | failed_evidence => "failed-evidence"
  | separation_of_duty => "separation-of-duty"
  | invalid_state => "invalid-state"
  end.
End CollaborationBlockerKind.

Module CollaborationBlocker.
Record t := mk {
  kind : CollaborationBlockerKind.t;
  affectedObject : string;
  changeId : option string;
  scopeId : option string;
  disclosure : DisclosureClassification.t;
  message : string;
  recoveryAction : string;
  safeCommand : string;
}.
#[global] Instance eta : Eta t := fun r =>
  mk (kind r) (affectedObject r) (changeId r) (scopeId r) (disclosure r) (message r)
  (recoveryAction r) (safeCommand r).
End CollaborationBlocker.

Module CollaborationDecision.
Inductive t :=
| allow | deny | indeterminate.
#[global] Instance t_eq_dec : EqDecision t.
Proof. solve_decision. Defined.
Definition show (x : t) : string :=
  match x with
  | allow => "allow"
  | deny => "deny"
  | indeterminate => "indeterminate"
  end.
End CollaborationDecision.

Module CollaborationPolicyExplanation.
Record t := mk {
  id : string;
  projectId : string;
  cohortId : string;
  decision : CollaborationDecision.t;
  policyVersion : string;
  authorizationEpoch : option string;
  baseProjectRevisionId : string;
  currentCanonicalProjectRevisionId : string;
  blockers : list CollaborationBlocker.t;
  safeNextCommands : list string;
  receipt : string;
}.
#[global] Instance eta : Eta t := fun r =>
  mk (id r) (projectId r) (cohortId r) (decision r) (policyVersion r) (authorizationEpoch r)
  (baseProjectRevisionId r) (currentCanonicalProjectRevisionId r) (blockers r)
  (safeNextCommands r) (receipt r).
End CollaborationPolicyExplanation.

Module CollaborationErrorCode.
Inductive t :=
| invalid_input | project_mismatch | duplicate_member | change_revision_mismatch
| change_revision_not_latest | base_mismatch | cohort_not_found | conflict_not_found
| finding_not_found | requirement_not_found | reviewer_not_required | separation_of_duty
| idempotency_conflict | policy_blocked | landing_authority_unavailable
| landing_result_mismatch.
#[global] Instance t_eq_dec : EqDecision t.
Proof. solve_decision. Defined.
Definition show (x : t) : string :=
  match x with
  | invalid_input => "invalid-input"
  | project_mismatch => "project-mismatch"
  | duplicate_member => "duplicate-member"
  | change_revision_mismatch => "change-revision-mismatch"
  | change_revision_not_latest => "change-revision-not-latest"
  | base_mismatch => "base-mismatch"
  | cohort_not_found => "cohort-not-found"
  | conflict_not_found => "conflict-not-found"
  | finding_not_found => "finding-not-found"
  | requirement_not_found => "requirement-not-found"
  | reviewer_not_required => "reviewer-not-required"
  | separation_of_duty => "separation-of-duty"
  | idempotency_conflict => "idempotency-conflict"
  | policy_blocked => "policy-blocked"
  | landing_authority_unavailable => "landing-authority-unavailable"
  | landing_result_mismatch => "landing-result-mismatch"
  end.
End CollaborationErrorCode.

Module CollaborationError.
Record t := mk {
  code : CollaborationErrorCode.t;
  message : string;
  affectedObject : string;
  recoveryAction : string;
  receipt : string;
  explanation : option CollaborationPolicyExplanation.t;
}.
#[global] Instance eta : Eta t := fun r =>
  mk (code r) (message r) (affectedObject r) (recoveryAction r) (receipt r) (explanation r).
End CollaborationError.

(** * Inputs *)

(** An analyzer is known by its id here, its answers come with
    [createCohort_answer]; of the Landing authority only its presence matters. *)
Module CollaborationCoordinatorInput.
Record t := mk {
  projectId : string;
  canonicalRevision : ProjectRevision.t;
  policy : CollaborationPolicy.t;
  ownershipRules : option (list ReviewOwnershipRule.t);
  reviewerDirectory : option (list ReviewerDirectoryEntry.t);
  analyzers : option (list string);
  landingAuthority : bool;
  authorizationEpoch : option string;
}.
#[global] Instance eta : Eta t := fun r =>
  mk (projectId r) (canonicalRevision r) (policy r) (ownershipRules r) (reviewerDirectory r)
  (analyzers r) (landingAuthority r) (authorizationEpoch r).
End CollaborationCoordinatorInput.

Module CreateCohortMemberInput.
Record t := mk {
  change : Change.t;
  revision : ChangeRevision.t;
  verifierActors : option (list ActorRef.t);
}.
#[global] Instance eta : Eta t := fun r =>
  mk (change r) (revision r) (verifierActors r).
End CreateCohortMemberInput.

Module CreateCohortInput.
Record t := mk {
  members : list CreateCohortMemberInput.t;
  actor : ActorRef.t;
  baseProjectRevisionId : option string;
  id : option string;
}.
#[global] Instance eta : Eta t := fun r =>
  mk (members r) (actor r) (baseProjectRevisionId r) (id r).
End CreateCohortInput.

Module SubmitFindingInput.
Record t := mk {
  cohortId : string;
  changeId : string;
  changeRevisionId : string;
  author : ActorRef.t;
  kind : ReviewFindingKind.t;
  severity : ReviewFindingSeverity.t;
  summary : string;
  disclosure : option DisclosureClassification.t;
  scope : option ReviewScope.t;
  idempotencyKey : option string;
}.
#[global] Instance eta : Eta t := fun r =>
  mk (cohortId r) (changeId r) (changeRevisionId r) (author r) (kind r) (severity r) (summary r)
  (disclosure r) (scope r) (idempotencyKey r).
End SubmitFindingInput.

Module ResolveFindingInput.
Record t := mk {
  findingId : string;
  actor : ActorRef.t;
  resolution : string;
}.
#[global] Instance eta : Eta t := fun r =>
  mk (findingId r) (actor r) (resolution r).
End ResolveFindingInput.

Module ApproveInput.
Record t := mk {
  cohortId : string;
  requirementId : string;
  reviewer : ActorRef.t;
  evidenceIds : option (list string);
  idempotencyKey : option string;
}.
#[global] Instance eta : Eta t := fun r =>
  mk (cohortId r) (requirementId r) (reviewer r) (evidenceIds r) (idempotencyKey r).
End ApproveInput.

Module ResolveConflictInput.
Record t := mk {
  conflictId : string;
  resolutionRevisionIds : list string;
  actor : ActorRef.t;
}.
#[global] Instance eta : Eta t := fun r =>
  mk (conflictId r) (resolutionRevisionIds r) (actor r).
End ResolveConflictInput.

Module CollaborationEvaluationInput.
Record t := mk {
  cohortId : string;
  evidence : list Evidence.t;
  audience : option DisclosureClassification.t;
  visibleScopeIds : option (list string);
}.
#[global] Instance eta : Eta t := fun r =>
  mk (cohortId r) (evidence r) (audience r) (visibleScopeIds r).
End CollaborationEvaluationInput.

Module PromotionAuthorityInput.
Record t := mk {
  cohortId : option string;
  promotionId : string;
  targetId : string;
  releaseId : string;
  actor : ActorRef.t;
  receipt : string;
}.
#[global] Instance eta : Eta t := fun r =>
  mk (cohortId r) (promotionId r) (targetId r) (releaseId r) (actor r) (receipt r).
End PromotionAuthorityInput.

Module ProjectCohortInput.
Record t := mk {
  cohortId : string;
  audience : DisclosureClassification.t;
  visibleScopeIds : list string;
}.
#[global] Instance eta : Eta t := fun r =>
  mk (cohortId r) (audience r) (visibleScopeIds r).
End ProjectCohortInput.

(** What [projectCohort] returns. *)
Module CohortProjection.
Record t := mk {
  cohort : IntegrationCohort.t;
  conflicts : list IntegrationConflict.t;
  findings : list ReviewFinding.t;
  requirements : list ReviewRequirement.t;
}.
#[global] Instance eta : Eta t := fun r =>
  mk (cohort r) (conflicts r) (findings r) (requirements r).
End CohortProjection.

Module LandingMember.
Record t := mk {
  changeId : string;
  changeRevisionId : string;
}.
#[global] Instance eta : Eta t := fun r =>
  mk (changeId r) (changeRevisionId r).
End LandingMember.

(** What the Landing authority is asked. *)
Module LandingRequest.
Record t := mk {
  cohortId : string;
  members : list LandingMember.t;
  expectedCanonicalProjectRevisionId : string;
}.
#[global] Instance eta : Eta t := fun r =>
  mk (cohortId r) (members r) (expectedCanonicalProjectRevisionId r).
End LandingRequest.

Module CollaborationLandingResult.
Record t := mk {
  landing : Landing.t;
  explanation : CollaborationPolicyExplanation.t;
}.
#[global] Instance eta : Eta t := fun r =>
  mk (landing r) (explanation r).
End CollaborationLandingResult.

(** * The state *)

Module Coordinator.
Record t := mk {
  projectId : string;
  policy : CollaborationPolicy.t;
  ownershipRules : list ReviewOwnershipRule.t;
  reviewerDirectory : list ReviewerDirectoryEntry.t;
  analyzers : list string;
  landingAuthority : bool;
  authorizationEpoch : option string;
  canonicalRevision : ProjectRevision.t;
  cohorts : omap IntegrationCohort.t;
  conflicts : omap IntegrationConflict.t;
  findings : omap ReviewFinding.t;
  approvals : omap ReviewApproval.t;
  idempotency : omap string;
  audit : list CollaborationAuditEvent.t;
}.
#[global] Instance eta : Eta t := fun r =>
  mk (projectId r) (policy r) (ownershipRules r) (reviewerDirectory r) (analyzers r)
  (landingAuthority r) (authorizationEpoch r) (canonicalRevision r) (cohorts r) (conflicts r)
  (findings r) (approvals r) (idempotency r) (audit r).
End Coordinator.

(** A [createCohort] that waits for the first of the analyzers [waiting]. *)
Module Composition.
Record t := mk {
  input : CreateCohortInput.t;
  baseProjectRevisionId : string;
  members : list IntegrationCohortMember.t;
  cohortId : string;
  conflictIds : list string;
  waiting : list string;
}.
#[global] Instance eta : Eta t := fun r =>
  mk (input r) (baseProjectRevisionId r) (members r) (cohortId r) (conflictIds r) (waiting r).
End Composition.

(** A [land] that waits for the Landing authority. *)
Module PendingLanding.
Record t := mk {
  cohort : IntegrationCohort.t;
  explanation : CollaborationPolicyExplanation.t;
  actor : ActorRef.t;
}.
#[global] Instance eta : Eta t := fun r =>
  mk (cohort r) (explanation r) (actor r).
End PendingLanding.

(** * Helpers *)

Definition failure (code : CollaborationErrorCode.t) (message affectedObject recoveryAction receipt : string) :
    CollaborationError.t :=
  CollaborationError.mk code message affectedObject recoveryAction receipt None.

(** [prefix:] and 24 digits of the hash of the value. *)
Definition stableId `{Host} (prefix : string) (value : json) : string :=
  cat [prefix; ":"; slice_to 24 (sha256 (encode_plain "undefined" value))].

Definition nonEmpty (value field : string) : outcome CollaborationError.t () :=
  if blank value then
    Throw (failure CollaborationErrorCode.invalid_input (cat [field; " must not be empty."]) field
      (cat ["provide a non-empty "; field; " and retry"]) (cat ["field="; field; "; present=false"]))
  else Ok ().

Definition disclosureRank (value : DisclosureClassification.t) : nat :=
  match value with
  | DisclosureClassification.public => 0
  | DisclosureClassification.project => 1
  | DisclosureClassification.restricted => 2
  end.

Definition actorForId (actorId : string) (fallback : ActorRef.t) : ActorRef.t :=
  ActorRef.mk (ActorRef.principalId fallback) actorId (ActorRef.sessionId fallback) (ActorRef.clientId fallback).

(** ** The built-in analyzer *)

Definition classifyEffect (effect : string) : IntegrationConflictKind.t :=
  let normalized := toLowerCase effect in
  if starts_with "textual." normalized || includes "text-conflict" normalized then IntegrationConflictKind.textual
  else if starts_with "schema." normalized || includes "migration" normalized then IntegrationConflictKind.schema
  else if starts_with "dependency." normalized || includes "lockfile" normalized
  then IntegrationConflictKind.dependency
  else if starts_with "policy." normalized || includes "ownership" normalized then IntegrationConflictKind.policy
  else if starts_with "disclosure." normalized || includes "private" normalized
  then IntegrationConflictKind.disclosure
  else IntegrationConflictKind.semantic.

Definition declaredEffectOverlapAnalyzer_id : string := "analyzer:declared-effect-overlap/v1".

Definition member_scopes (member : IntegrationCohortMember.t) : list string :=
  IntegrationCohortMember.affectedModuleIds member ++ IntegrationCohortMember.affectedSourceSpaceIds member ++
  IntegrationCohortMember.affectedTargetIds member.
Definition overlap_candidate (left right : IntegrationCohortMember.t) (effect : string) :
    IntegrationConflictCandidate.t := {|
  IntegrationConflictCandidate.kind := classifyEffect effect;
  IntegrationConflictCandidate.severity := IntegrationConflictSeverity.blocking;
  IntegrationConflictCandidate.changeIds :=
    [IntegrationCohortMember.changeId left; IntegrationCohortMember.changeId right];
  IntegrationConflictCandidate.scopeIds := set_of (member_scopes left ++ member_scopes right);
  IntegrationConflictCandidate.description :=
    cat ["Changes "; IntegrationCohortMember.changeId left; " and "; IntegrationCohortMember.changeId right;
         " both declare effect "; effect; "."];
  IntegrationConflictCandidate.disclosure := DisclosureClassification.project;
  IntegrationConflictCandidate.receipt :=
    cat ["analyzer="; declaredEffectOverlapAnalyzer_id; "; effect="; effect; "; left=";
         IntegrationCohortMember.changeId left; "; right="; IntegrationCohortMember.changeId right];
  IntegrationConflictCandidate.recoveryAction :=
    "run a semantic analyzer or publish a new Change Revision that resolves the effect conflict" |}.
Definition overlap_pair (left right : IntegrationCohortMember.t) : list IntegrationConflictCandidate.t :=
  overlap_candidate left right <$>
    base.filter (λ effect, effect ∈ IntegrationCohortMember.declaredEffects right)
      (IntegrationCohortMember.declaredEffects left).
Fixpoint overlap_candidates (members : list IntegrationCohortMember.t) : list IntegrationConflictCandidate.t :=
  match members with
  | [] => []
  | member :: rest => (rest ≫= overlap_pair member) ++ overlap_candidates rest
  end.
Definition declaredEffectOverlapAnalyzer_analyze (input : IntegrationAnalyzerInput.t) :
    list IntegrationConflictCandidate.t :=
  overlap_candidates (IntegrationAnalyzerInput.members input).

(** ** The constructor *)

Definition construct (input : CollaborationCoordinatorInput.t) : outcome CollaborationError.t Coordinator.t :=
  let projectId := CollaborationCoordinatorInput.projectId input in
  let canonical := CollaborationCoordinatorInput.canonicalRevision input in
  _ ← nonEmpty projectId "projectId";
  if negb (String.eqb (ProjectRevision.projectId canonical) projectId) then
    Throw (failure CollaborationErrorCode.project_mismatch
      (cat ["Canonical Project Revision "; ProjectRevision.id canonical; " belongs to ";
            ProjectRevision.projectId canonical; ", not "; projectId; "."])
      (ProjectRevision.id canonical)
      "construct the collaboration coordinator with the Project's canonical revision"
      (cat ["canonicalProject="; ProjectRevision.projectId canonical; "; coordinatorProject="; projectId]))
  else
    _ ← nonEmpty (CollaborationPolicy.version (CollaborationCoordinatorInput.policy input)) "policy.version";
    Ok {|
      Coordinator.projectId := projectId;
      Coordinator.policy := CollaborationCoordinatorInput.policy input;
      Coordinator.ownershipRules := default [] (CollaborationCoordinatorInput.ownershipRules input);
      Coordinator.reviewerDirectory := default [] (CollaborationCoordinatorInput.reviewerDirectory input);
      Coordinator.analyzers :=
        default [declaredEffectOverlapAnalyzer_id] (CollaborationCoordinatorInput.analyzers input);
      Coordinator.landingAuthority := CollaborationCoordinatorInput.landingAuthority input;
      Coordinator.authorizationEpoch := CollaborationCoordinatorInput.authorizationEpoch input;
      Coordinator.canonicalRevision := canonical;
      Coordinator.cohorts := []; Coordinator.conflicts := []; Coordinator.findings := [];
      Coordinator.approvals := []; Coordinator.idempotency := []; Coordinator.audit := [];
    |}.

(** * The coordinator *)

Section coordinator.
Context `{HH : Host}.
#[local] Abbreviation C := (M Coordinator.t CollaborationError.t).

Definition canonicalProjectRevision : C ProjectRevision.t := gets Coordinator.canonicalRevision.

Definition setCanonicalProjectRevision (revision : ProjectRevision.t) : C () :=
  projectId ← gets Coordinator.projectId;
  throw_if (negb (String.eqb (ProjectRevision.projectId revision) projectId))
    (failure CollaborationErrorCode.project_mismatch
      (cat ["Canonical Project Revision "; ProjectRevision.id revision; " belongs to another Project."])
      (ProjectRevision.id revision) "update collaboration state with the owning Project's canonical revision"
      (cat ["revisionProject="; ProjectRevision.projectId revision; "; coordinatorProject="; projectId])) ;;
  modify (λ s, s <| Coordinator.canonicalRevision := revision |>).

Definition activatePolicy (policy : CollaborationPolicy.t) : C () :=
  let version := CollaborationPolicy.version policy in
  lift (nonEmpty version "policy.version") ;;
  active ← gets Coordinator.policy;
  throw_if (String.eqb version (CollaborationPolicy.version active))
    (failure CollaborationErrorCode.invalid_input (cat ["Policy "; version; " is already active."]) version
      "activate a new immutable policy version before re-evaluating approvals"
      (cat ["policy="; version; "; active=true"])) ;;
  modify (λ s, s <| Coordinator.policy := policy |>).

Definition appendAudit (input : AppendAuditInput.t) : C CollaborationAuditEvent.t :=
  id ← opaqueId "collaboration-audit";
  policy ← gets Coordinator.policy;
  occurredAt ← now;
  let event := {|
    CollaborationAuditEvent.id := id;
    CollaborationAuditEvent.projectId := AppendAuditInput.projectId input;
    CollaborationAuditEvent.cohortId := truthy_opt (AppendAuditInput.cohortId input);
    CollaborationAuditEvent.changeId := truthy_opt (AppendAuditInput.changeId input);
    CollaborationAuditEvent.changeRevisionId := truthy_opt (AppendAuditInput.changeRevisionId input);
    CollaborationAuditEvent.role := AppendAuditInput.role input;
    CollaborationAuditEvent.action := AppendAuditInput.action input;
    CollaborationAuditEvent.outcome := AppendAuditInput.outcome input;
    CollaborationAuditEvent.actor := AppendAuditInput.actor input;
    CollaborationAuditEvent.policyVersion :=
      default (CollaborationPolicy.version policy) (AppendAuditInput.policyVersion input);
    CollaborationAuditEvent.disclosure := AppendAuditInput.disclosure input;
    CollaborationAuditEvent.occurredAt := occurredAt;
    CollaborationAuditEvent.receipt := AppendAuditInput.receipt input |} in
  modify (λ s, s <| Coordinator.audit := Coordinator.audit s ++ [event] |>) ;;
  mret event.

(** ** Lookups *)

Definition unknown_cohort (cohortId : string) : CollaborationError.t :=
  failure CollaborationErrorCode.cohort_not_found (cat ["Integration Cohort "; cohortId; " is not known."]) cohortId
    "create or restore the Integration Cohort and retry" (cat ["cohort="; cohortId; "; known=false"]).
Definition requireCohort (cohortId : string) : C IntegrationCohort.t :=
  s ← get;
  require (omap_get cohortId (Coordinator.cohorts s)) (unknown_cohort cohortId).

Definition is_member (changeId changeRevisionId : string) (member : IntegrationCohortMember.t) : bool :=
  String.eqb (IntegrationCohortMember.changeId member) changeId &&
  String.eqb (IntegrationCohortMember.changeRevisionId member) changeRevisionId.
Definition requireMember (cohort : IntegrationCohort.t) (changeId changeRevisionId : string) :
    C IntegrationCohortMember.t :=
  require (find_first (is_member changeId changeRevisionId) (IntegrationCohort.members cohort))
    (failure CollaborationErrorCode.change_revision_mismatch
      (cat ["Change "; changeId; " Revision "; changeRevisionId; " is not a member of Cohort ";
            IntegrationCohort.id cohort; "."])
      changeId "select the exact Change Revision composed by the Integration Cohort"
      (cat ["cohort="; IntegrationCohort.id cohort; "; change="; changeId; "; revision="; changeRevisionId;
            "; member=false"])).

Definition getCohort (cohortId : string) : C (option IntegrationCohort.t) :=
  s ← get; mret (omap_get cohortId (Coordinator.cohorts s)).
Definition listCohorts : C (list IntegrationCohort.t) :=
  s ← get; mret (omap_values (Coordinator.cohorts s)).
Definition conflicts_of (cohortId : string) (s : Coordinator.t) : list IntegrationConflict.t :=
  base.filter (λ c, IntegrationConflict.cohortId c = cohortId) (omap_values (Coordinator.conflicts s)).
Definition listConflicts (cohortId : string) : C (list IntegrationConflict.t) :=
  s ← get; mret (conflicts_of cohortId s).
Definition findings_of (cohortId : string) (s : Coordinator.t) : list ReviewFinding.t :=
  base.filter (λ f, ReviewFinding.cohortId f = cohortId) (omap_values (Coordinator.findings s)).
Definition listFindings (cohortId : string) : C (list ReviewFinding.t) :=
  s ← get; mret (findings_of cohortId s).
Definition listApprovals (cohortId : string) : C (list ReviewApproval.t) :=
  s ← get;
  mret (base.filter (λ a, ReviewApproval.cohortId a = cohortId) (omap_values (Coordinator.approvals s))).
Definition listAuditEvents : C (list CollaborationAuditEvent.t) := gets Coordinator.audit.

(** ** Review requirements *)

Definition affects (member : IntegrationCohortMember.t) (rule : ReviewOwnershipRule.t) : bool :=
  match ReviewOwnershipRule.scopeKind rule with
  | OwnershipScopeKind.module =>
      list_includes (IntegrationCohortMember.affectedModuleIds member) (ReviewOwnershipRule.scopeId rule)
  | OwnershipScopeKind.source_space =>
      list_includes (IntegrationCohortMember.affectedSourceSpaceIds member) (ReviewOwnershipRule.scopeId rule)
  | OwnershipScopeKind.target =>
      list_includes (IntegrationCohortMember.affectedTargetIds member) (ReviewOwnershipRule.scopeId rule)
  end.
Definition candidate_reviewer (rule : ReviewOwnershipRule.t) (entry : ReviewerDirectoryEntry.t) : bool :=
  negb (bool_decide (ReviewerDirectoryEntry.active entry = Some false)) &&
  (list_includes (ReviewOwnershipRule.requiredReviewerPrincipalIds rule) (ReviewerDirectoryEntry.principalId entry)
   || existsb (list_includes (ReviewOwnershipRule.requiredReviewerTeamIds rule))
        (ReviewerDirectoryEntry.teamIds entry)).
Definition requirement_of (s : Coordinator.t) (cohort : IntegrationCohort.t) (member : IntegrationCohortMember.t)
    (rule : ReviewOwnershipRule.t) : ReviewRequirement.t :=
  let candidates := ReviewerDirectoryEntry.principalId <$>
    base.filter (λ entry, candidate_reviewer rule entry = true) (Coordinator.reviewerDirectory s) in {|
  ReviewRequirement.id := stableId "review-requirement" (object
    [field "cohortId" (IntegrationCohort.id cohort); field "ruleId" (ReviewOwnershipRule.id rule);
     field "changeId" (IntegrationCohortMember.changeId member);
     field "changeRevisionId" (IntegrationCohortMember.changeRevisionId member)]);
  ReviewRequirement.ruleId := ReviewOwnershipRule.id rule;
  ReviewRequirement.changeId := IntegrationCohortMember.changeId member;
  ReviewRequirement.changeRevisionId := IntegrationCohortMember.changeRevisionId member;
  ReviewRequirement.scopeKind := ReviewOwnershipRule.scopeKind rule;
  ReviewRequirement.scopeId := ReviewOwnershipRule.scopeId rule;
  ReviewRequirement.disclosure := ReviewOwnershipRule.disclosure rule;
  ReviewRequirement.requiredReviewerPrincipalIds := ReviewOwnershipRule.requiredReviewerPrincipalIds rule;
  ReviewRequirement.requiredReviewerTeamIds := ReviewOwnershipRule.requiredReviewerTeamIds rule;
  ReviewRequirement.candidatePrincipalIds := set_of candidates;
  ReviewRequirement.reason :=
    default (cat [OwnershipScopeKind.show (ReviewOwnershipRule.scopeKind rule); " owner review is required"])
      (ReviewOwnershipRule.label rule) |}.
Definition requirementsFor (cohort : IntegrationCohort.t) (s : Coordinator.t) : list ReviewRequirement.t :=
  IntegrationCohort.members cohort ≫= λ member,
    requirement_of s cohort member <$>
      base.filter (λ rule, affects member rule = true) (Coordinator.ownershipRules s).
Definition listReviewRequirements (cohortId : string) : C (list ReviewRequirement.t) :=
  cohort ← requireCohort cohortId; s ← get; mret (requirementsFor cohort s).
Definition requirementFor (cohort : IntegrationCohort.t) (requirementId : string) : C ReviewRequirement.t :=
  s ← get;
  require (find_first (λ r, String.eqb (ReviewRequirement.id r) requirementId) (requirementsFor cohort s))
    (failure CollaborationErrorCode.requirement_not_found
      (cat ["Review Requirement "; requirementId; " is not part of Integration Cohort ";
            IntegrationCohort.id cohort; "."])
      requirementId "refresh the Cohort and approve a currently required reviewer slot"
      (cat ["cohort="; IntegrationCohort.id cohort; "; requirement="; requirementId; "; known=false"])).

(** ** Cohorts *)

(** The checks on a member of a cohort, next to those already composed. *)
Definition compose_member (s : Coordinator.t) (baseProjectRevisionId : string)
    (members : list IntegrationCohortMember.t) (candidate : CreateCohortMemberInput.t) :
    outcome CollaborationError.t IntegrationCohortMember.t :=
  let change := CreateCohortMemberInput.change candidate in
  let revision := CreateCohortMemberInput.revision candidate in
  let revisionBase := default (ChangeRevision.projectRevisionId revision)
                        (ChangeRevision.baseProjectRevisionId revision) in
  let author := match ChangeRevision.author revision with Some a => Some a | None => Change.author change end in
  if negb (String.eqb (Change.projectId change) (Coordinator.projectId s)) then
    Throw (failure CollaborationErrorCode.project_mismatch
      (cat ["Change "; Change.id change; " or Revision "; ChangeRevision.id revision;
            " does not belong to Project "; Coordinator.projectId s; "."])
      (Change.id change) "select Change and Revision records from the coordinator's Project"
      (cat ["changeProject="; Change.projectId change;
            "; revisionProject=derived-from-change; coordinatorProject="; Coordinator.projectId s]))
  else if list_includes (IntegrationCohortMember.changeId <$> members) (Change.id change)
       || list_includes (IntegrationCohortMember.changeRevisionId <$> members) (ChangeRevision.id revision) then
    Throw (failure CollaborationErrorCode.duplicate_member
      (cat ["Integration Cohort cannot include Change "; Change.id change; " or Revision ";
            ChangeRevision.id revision; " more than once."])
      (Change.id change) "select one exact latest Change Revision per stable Change"
      (cat ["change="; Change.id change; "; revision="; ChangeRevision.id revision; "; duplicate=true"]))
  else if negb (String.eqb (ChangeRevision.changeId revision) (Change.id change)) then
    Throw (failure CollaborationErrorCode.change_revision_mismatch
      (cat ["Change Revision "; ChangeRevision.id revision; " belongs to "; ChangeRevision.changeId revision;
            ", not "; Change.id change; "."])
      (ChangeRevision.id revision) "select the Change Revision belonging to the requested Change"
      (cat ["change="; Change.id change; "; revisionChange="; ChangeRevision.changeId revision]))
  else if negb (bool_decide (Change.latestRevisionId change = Some (ChangeRevision.id revision))) then
    Throw (failure CollaborationErrorCode.change_revision_not_latest
      (cat ["Change "; Change.id change; " no longer names Revision "; ChangeRevision.id revision;
            " as its latest revision."])
      (Change.id change) "refresh the Change and compose its latest immutable Revision"
      (cat ["change="; Change.id change; "; latest="; default "none" (Change.latestRevisionId change);
            "; selected="; ChangeRevision.id revision]))
  else if negb (String.eqb revisionBase baseProjectRevisionId)
       || negb (String.eqb (Change.baseProjectRevisionId change) baseProjectRevisionId) then
    Throw (failure CollaborationErrorCode.base_mismatch
      (cat ["Change "; Change.id change; " is not based on the requested cohort base Project Revision."])
      (Change.id change)
      (cat ["rebase "; Change.id change; " onto "; baseProjectRevisionId;
            ", publish a new Revision, and refresh the cohort"])
      (cat ["changeBase="; Change.baseProjectRevisionId change; "; revisionBase="; revisionBase; "; cohortBase=";
            baseProjectRevisionId]))
  else Ok {|
    IntegrationCohortMember.changeId := Change.id change;
    IntegrationCohortMember.changeRevisionId := ChangeRevision.id revision;
    IntegrationCohortMember.baseProjectRevisionId := revisionBase;
    IntegrationCohortMember.author := author;
    IntegrationCohortMember.authorActorId := truthy_opt (ActorRef.actorId <$> author);
    IntegrationCohortMember.verifierActorIds :=
      ActorRef.actorId <$> default [] (CreateCohortMemberInput.verifierActors candidate);
    IntegrationCohortMember.affectedModuleIds := default [] (ChangeRevision.affectedModuleIds revision);
    IntegrationCohortMember.affectedSourceSpaceIds := default [] (ChangeRevision.affectedSourceSpaceIds revision);
    IntegrationCohortMember.affectedTargetIds := default [] (ChangeRevision.affectedTargetIds revision);
    IntegrationCohortMember.declaredEffects := ChangeRevision.declaredEffects revision |}.
Fixpoint compose_members (s : Coordinator.t) (baseProjectRevisionId : string)
    (candidates : list CreateCohortMemberInput.t) (members : list IntegrationCohortMember.t) :
    outcome CollaborationError.t (list IntegrationCohortMember.t) :=
  match candidates with
  | [] => Ok members
  | candidate :: candidates =>
      member ← compose_member s baseProjectRevisionId members candidate;
      compose_members s baseProjectRevisionId candidates (members ++ [member])
  end.

(** From the call to the first analyzer. *)
Definition createCohort_begin (input : CreateCohortInput.t) : C Composition.t :=
  s ← get;
  throw_if (bool_decide (CreateCohortInput.members input = []))
    (failure CollaborationErrorCode.invalid_input
      "An Integration Cohort requires at least one Change Revision." (Coordinator.projectId s)
      "select at least one submitted Change Revision and retry cohort composition" "members=0") ;;
  let baseProjectRevisionId := default (ProjectRevision.id (Coordinator.canonicalRevision s))
                                 (CreateCohortInput.baseProjectRevisionId input) in
  members ← lift (compose_members s baseProjectRevisionId (CreateCohortInput.members input) []);
  cohortId ← match CreateCohortInput.id input with
             | Some id => mret id
             | None => opaqueId "integration-cohort"
             end;
  mret (Composition.mk input baseProjectRevisionId members cohortId [] (Coordinator.analyzers s)).
(** What the first analyzer waited for is asked. *)
Definition analyzer_input (s : Coordinator.t) (p : Composition.t) : IntegrationAnalyzerInput.t :=
  IntegrationAnalyzerInput.mk (Coordinator.projectId s) (Composition.baseProjectRevisionId p) (Composition.members p).

(** One conflict of an analyzer's answer. *)
Definition detect (analyzerId : string) (p : Composition.t) (conflictIds : list string)
    (candidate : IntegrationConflictCandidate.t) : C (list string) :=
  let candidateChanges := set_of (IntegrationConflictCandidate.changeIds candidate) in
  let cohortId := Composition.cohortId p in
  throw_if ((length candidateChanges <? 1)%nat
            || existsb (λ changeId, negb (list_includes (IntegrationCohortMember.changeId <$> Composition.members p) changeId))
                 candidateChanges)
    (failure CollaborationErrorCode.invalid_input
      (cat ["Analyzer "; analyzerId; " returned a conflict outside the Integration Cohort."]) analyzerId
      "return only conflicts whose Change IDs belong to the analyzed cohort"
      (cat ["analyzer="; analyzerId; "; changeIds="; join "," candidateChanges])) ;;
  lift (nonEmpty (IntegrationConflictCandidate.description candidate) "conflict.description") ;;
  lift (nonEmpty (IntegrationConflictCandidate.receipt candidate) "conflict.receipt") ;;
  let revisionIds := IntegrationCohortMember.changeRevisionId <$>
    base.filter (λ m, IntegrationCohortMember.changeId m ∈ candidateChanges) (Composition.members p) in
  projectId ← gets Coordinator.projectId;
  createdAt ← now;
  let conflict := {|
    IntegrationConflict.id := stableId "integration-conflict" (object
      [field "cohortId" cohortId; field "analyzerId" analyzerId; field "candidate" candidate]);
    IntegrationConflict.projectId := projectId;
    IntegrationConflict.cohortId := cohortId;
    IntegrationConflict.kind := IntegrationConflictCandidate.kind candidate;
    IntegrationConflict.severity := IntegrationConflictCandidate.severity candidate;
    IntegrationConflict.state := IntegrationConflictState.open;
    IntegrationConflict.changeIds := candidateChanges;
    IntegrationConflict.changeRevisionIds := revisionIds;
    IntegrationConflict.scopeIds := IntegrationConflictCandidate.scopeIds candidate;
    IntegrationConflict.analyzerId := analyzerId;
    IntegrationConflict.description := IntegrationConflictCandidate.description candidate;
    IntegrationConflict.disclosure := IntegrationConflictCandidate.disclosure candidate;
    IntegrationConflict.createdAt := createdAt;
    IntegrationConflict.resolvedAt := None;
    IntegrationConflict.resolutionRevisionIds := None;
    IntegrationConflict.receipt := IntegrationConflictCandidate.receipt candidate;
    IntegrationConflict.recoveryAction := IntegrationConflictCandidate.recoveryAction candidate |} in
  modify (λ s, s <| Coordinator.conflicts :=
    omap_set (IntegrationConflict.id conflict) conflict (Coordinator.conflicts s) |>) ;;
  appendAudit {|
    AppendAuditInput.projectId := projectId; AppendAuditInput.cohortId := Some cohortId;
    AppendAuditInput.changeId := None; AppendAuditInput.changeRevisionId := None;
    AppendAuditInput.role := CollaborationAuditRole.analyzer;
    AppendAuditInput.action := "integration-conflict.detected";
    AppendAuditInput.outcome := CollaborationAuditOutcome.observed;
    AppendAuditInput.actor := CreateCohortInput.actor (Composition.input p);
    AppendAuditInput.policyVersion := None;
    AppendAuditInput.disclosure := IntegrationConflictCandidate.disclosure candidate;
    AppendAuditInput.receipt := cat [IntegrationConflictCandidate.receipt candidate; "; conflict=";
                                     IntegrationConflict.id conflict] |} ;;
  mret (conflictIds ++ [IntegrationConflict.id conflict]).

Definition is_blocking (s : Coordinator.t) (conflictId : string) : bool :=
  match omap_get conflictId (Coordinator.conflicts s) with
  | Some c => bool_decide (IntegrationConflict.severity c = IntegrationConflictSeverity.blocking)
  | None => false
  end.
Definition audit_author (cohort : IntegrationCohort.t) (actor : ActorRef.t) (member : IntegrationCohortMember.t) : C () :=
  match truthy_opt (IntegrationCohortMember.authorActorId member) with
  | Some authorActorId =>
      appendAudit {|
        AppendAuditInput.projectId := IntegrationCohort.projectId cohort;
        AppendAuditInput.cohortId := Some (IntegrationCohort.id cohort);
        AppendAuditInput.changeId := Some (IntegrationCohortMember.changeId member);
        AppendAuditInput.changeRevisionId := Some (IntegrationCohortMember.changeRevisionId member);
        AppendAuditInput.role := CollaborationAuditRole.author;
        AppendAuditInput.action := "change-revision.authored";
        AppendAuditInput.outcome := CollaborationAuditOutcome.observed;
        AppendAuditInput.actor := default (actorForId authorActorId actor) (IntegrationCohortMember.author member);
        AppendAuditInput.policyVersion := None;
        AppendAuditInput.disclosure := DisclosureClassification.project;
        AppendAuditInput.receipt :=
          cat ["change="; IntegrationCohortMember.changeId member; "; revision=";
               IntegrationCohortMember.changeRevisionId member; "; author="; authorActorId] |} ;;
      mret ()
  | None => mret ()
  end.
(** After the last analyzer. *)
Definition createCohort_finish (p : Composition.t) : C IntegrationCohort.t :=
  let members := Composition.members p in
  let actor := CreateCohortInput.actor (Composition.input p) in
  s ← get;
  createdAt ← now;
  updatedAt ← now;
  let cohort := {|
    IntegrationCohort.id := Composition.cohortId p;
    IntegrationCohort.projectId := Coordinator.projectId s;
    IntegrationCohort.baseProjectRevisionId := Composition.baseProjectRevisionId p;
    IntegrationCohort.members := members;
    IntegrationCohort.conflictIds := Composition.conflictIds p;
    IntegrationCohort.state := if existsb (is_blocking s) (Composition.conflictIds p)
                               then IntegrationCohortState.blocked else IntegrationCohortState.proposed;
    IntegrationCohort.createdBy := actor;
    IntegrationCohort.createdAt := createdAt;
    IntegrationCohort.updatedAt := updatedAt;
    IntegrationCohort.receipt :=
      cat ["cohort=created; project="; Coordinator.projectId s; "; base="; Composition.baseProjectRevisionId p;
           "; members="; join "," (IntegrationCohortMember.changeId <$> members); "; conflicts=";
           pretty (length (Composition.conflictIds p))] |} in
  modify (λ s, s <| Coordinator.cohorts := omap_set (IntegrationCohort.id cohort) cohort (Coordinator.cohorts s) |>) ;;
  for_each members (audit_author cohort actor) ;;
  mret cohort.
(** On to the next analyzer, or the end. *)
Definition createCohort_next (p : Composition.t) : C (Composition.t + IntegrationCohort.t) :=
  match Composition.waiting p with
  | [] => cohort ← createCohort_finish p; mret (inr cohort)
  | _ => mret (inl p)
  end.
Definition createCohort_start (input : CreateCohortInput.t) : C (Composition.t + IntegrationCohort.t) :=
  p ← createCohort_begin input; createCohort_next p.
(** The analyzer waited for has answered. *)
Definition createCohort_answer (p : Composition.t) (candidates : list IntegrationConflictCandidate.t) :
    C (Composition.t + IntegrationCohort.t) :=
  match Composition.waiting p with
  | [] => mret (inl p)
  | analyzerId :: waiting =>
      conflictIds ← fold_each candidates (detect analyzerId p) (Composition.conflictIds p);
      createCohort_next (p <| Composition.conflictIds := conflictIds |> <| Composition.waiting := waiting |>)
  end.

(** ** Review *)

Definition set_finding (finding : ReviewFinding.t) : C () :=
  modify (λ s, s <| Coordinator.findings :=
    omap_set (ReviewFinding.id finding) finding (Coordinator.findings s) |>).
Definition remember (idempotencyKey : option string) (id : string) : C () :=
  match truthy_opt idempotencyKey with
  | Some key => modify (λ s, s <| Coordinator.idempotency := omap_set key id (Coordinator.idempotency s) |>)
  | None => mret ()
  end.
(** The id an idempotency key stands for. *)
Definition remembered (idempotencyKey : option string) (s : Coordinator.t) : option (string * string) :=
  key ← truthy_opt idempotencyKey;
  existingId ← truthy_opt (omap_get key (Coordinator.idempotency s));
  Some (key, existingId).

Definition submitFinding (input : SubmitFindingInput.t) : C ReviewFinding.t :=
  let changeId := SubmitFindingInput.changeId input in
  let changeRevisionId := SubmitFindingInput.changeRevisionId input in
  cohort ← requireCohort (SubmitFindingInput.cohortId input);
  requireMember cohort changeId changeRevisionId ;;
  lift (nonEmpty (SubmitFindingInput.summary input) "review.summary") ;;
  s ← get;
  match remembered (SubmitFindingInput.idempotencyKey input) s with
  | Some (key, existingId) =>
      let reused := failure CollaborationErrorCode.idempotency_conflict
        (cat ["Review idempotency key "; key; " was already used for another Change Revision."]) key
        "use a new idempotency key for a different review finding"
        (cat ["idempotencyKey="; key; "; existingFinding="; existingId]) in
      existing ← require (omap_get existingId (Coordinator.findings s)) reused;
      throw_if (negb (String.eqb (ReviewFinding.changeId existing) changeId)
                || negb (String.eqb (ReviewFinding.changeRevisionId existing) changeRevisionId)) reused ;;
      mret existing
  | None =>
      id ← opaqueId "review-finding";
      createdAt ← now;
      updatedAt ← now;
      let finding := {|
        ReviewFinding.id := id;
        ReviewFinding.projectId := Coordinator.projectId s;
        ReviewFinding.cohortId := IntegrationCohort.id cohort;
        ReviewFinding.changeId := changeId;
        ReviewFinding.changeRevisionId := changeRevisionId;
        ReviewFinding.author := SubmitFindingInput.author input;
        ReviewFinding.kind := SubmitFindingInput.kind input;
        ReviewFinding.severity := SubmitFindingInput.severity input;
        ReviewFinding.state := ReviewFindingState.open;
        ReviewFinding.summary := SubmitFindingInput.summary input;
        ReviewFinding.scope := SubmitFindingInput.scope input;
        ReviewFinding.disclosure := default DisclosureClassification.project (SubmitFindingInput.disclosure input);
        ReviewFinding.createdAt := createdAt;
        ReviewFinding.updatedAt := updatedAt;
        ReviewFinding.resolution := None;
        ReviewFinding.resolvedBy := None;
        ReviewFinding.receipt :=
          cat ["finding=open; cohort="; IntegrationCohort.id cohort; "; change="; changeId; "; revision=";
               changeRevisionId; "; severity="; ReviewFindingSeverity.show (SubmitFindingInput.severity input)] |} in
      set_finding finding ;;
      remember (SubmitFindingInput.idempotencyKey input) id ;;
      appendAudit {|
        AppendAuditInput.projectId := Coordinator.projectId s;
        AppendAuditInput.cohortId := Some (IntegrationCohort.id cohort);
        AppendAuditInput.changeId := Some changeId; AppendAuditInput.changeRevisionId := Some changeRevisionId;
        AppendAuditInput.role := CollaborationAuditRole.reviewer;
        AppendAuditInput.action := "review.finding.submitted";
        AppendAuditInput.outcome := CollaborationAuditOutcome.observed;
        AppendAuditInput.actor := SubmitFindingInput.author input;
        AppendAuditInput.policyVersion := Some (CollaborationPolicy.version (Coordinator.policy s));
        AppendAuditInput.disclosure := ReviewFinding.disclosure finding;
        AppendAuditInput.receipt := ReviewFinding.receipt finding |} ;;
      mret finding
  end.

Definition resolveFinding (input : ResolveFindingInput.t) : C ReviewFinding.t :=
  let findingId := ResolveFindingInput.findingId input in
  s ← get;
  finding ← require (omap_get findingId (Coordinator.findings s))
    (failure CollaborationErrorCode.finding_not_found (cat ["Review Finding "; findingId; " is not known."]) findingId
      "refresh the Change review and resolve a known Finding" (cat ["finding="; findingId; "; known=false"]));
  lift (nonEmpty (ResolveFindingInput.resolution input) "review.resolution") ;;
  updatedAt ← now;
  let updated := finding
    <| ReviewFinding.state := ReviewFindingState.resolved |>
    <| ReviewFinding.resolution := Some (ResolveFindingInput.resolution input) |>
    <| ReviewFinding.resolvedBy := Some (ResolveFindingInput.actor input) |>
    <| ReviewFinding.updatedAt := updatedAt |>
    <| ReviewFinding.receipt := cat ["finding=resolved; id="; ReviewFinding.id finding; "; resolutionActor=";
                                     ActorRef.actorId (ResolveFindingInput.actor input)] |> in
  set_finding updated ;;
  appendAudit {|
    AppendAuditInput.projectId := Coordinator.projectId s;
    AppendAuditInput.cohortId := Some (ReviewFinding.cohortId finding);
    AppendAuditInput.changeId := Some (ReviewFinding.changeId finding);
    AppendAuditInput.changeRevisionId := Some (ReviewFinding.changeRevisionId finding);
    AppendAuditInput.role := CollaborationAuditRole.reviewer;
    AppendAuditInput.action := "review.finding.resolved";
    AppendAuditInput.outcome := CollaborationAuditOutcome.succeeded;
    AppendAuditInput.actor := ResolveFindingInput.actor input;
    AppendAuditInput.policyVersion := Some (CollaborationPolicy.version (Coordinator.policy s));
    AppendAuditInput.disclosure := ReviewFinding.disclosure finding;
    AppendAuditInput.receipt := ReviewFinding.receipt updated |} ;;
  mret updated.

(** The approval of the requirement by the reviewer under the policy. *)
Definition same_approval (requirement : ReviewRequirement.t) (reviewer : ActorRef.t) (policyVersion : string)
    (approval : ReviewApproval.t) : bool :=
  String.eqb (ReviewApproval.requirementId approval) (ReviewRequirement.id requirement) &&
  String.eqb (ReviewApproval.changeRevisionId approval) (ReviewRequirement.changeRevisionId requirement) &&
  String.eqb (ActorRef.actorId (ReviewApproval.reviewer approval)) (ActorRef.actorId reviewer) &&
  String.eqb (ReviewApproval.policyVersion approval) policyVersion.
Definition approve (input : ApproveInput.t) : C ReviewApproval.t :=
  let reviewer := ApproveInput.reviewer input in
  cohort ← requireCohort (ApproveInput.cohortId input);
  requirement ← requirementFor cohort (ApproveInput.requirementId input);
  member ← requireMember cohort (ReviewRequirement.changeId requirement) (ReviewRequirement.changeRevisionId requirement);
  let authorActorId := IntegrationCohortMember.authorActorId member in
  let verifierActorIds := IntegrationCohortMember.verifierActorIds member in
  throw_if (bool_decide (Some (ActorRef.actorId reviewer) = authorActorId)
            || list_includes verifierActorIds (ActorRef.actorId reviewer))
    (failure CollaborationErrorCode.separation_of_duty
      (cat ["Reviewer "; ActorRef.actorId reviewer; " cannot approve a Change it authored or verified."])
      (ReviewRequirement.id requirement)
      "use an independent reviewer Actor and re-evaluate the current Change Revision"
      (cat ["requirement="; ReviewRequirement.id requirement; "; reviewer="; ActorRef.actorId reviewer; "; author=";
            default "none" authorActorId; "; verifiers="; join "," verifierActorIds])) ;;
  throw_if (negb (list_includes (ReviewRequirement.candidatePrincipalIds requirement) (ActorRef.principalId reviewer)))
    (failure CollaborationErrorCode.reviewer_not_required
      (cat ["Actor "; ActorRef.actorId reviewer; " is not an eligible reviewer for requirement ";
            ReviewRequirement.id requirement; "."])
      (ReviewRequirement.id requirement)
      "request review from a configured module, Source Space, or Target owner"
      (cat ["requirement="; ReviewRequirement.id requirement; "; reviewer="; ActorRef.principalId reviewer;
            "; candidates="; join "," (ReviewRequirement.candidatePrincipalIds requirement)])) ;;
  s ← get;
  let policyVersion := CollaborationPolicy.version (Coordinator.policy s) in
  match remembered (ApproveInput.idempotencyKey input) s with
  | Some (key, existingId) =>
      let reused := failure CollaborationErrorCode.idempotency_conflict
        (cat ["Approval idempotency key "; key; " was already used for another review requirement."]) key
        "use a new idempotency key for a different approval"
        (cat ["idempotencyKey="; key; "; existingApproval="; existingId]) in
      existing ← require (omap_get existingId (Coordinator.approvals s)) reused;
      throw_if (negb (String.eqb (ReviewApproval.requirementId existing) (ReviewRequirement.id requirement))
                || negb (String.eqb (ReviewApproval.changeRevisionId existing)
                           (ReviewRequirement.changeRevisionId requirement))) reused ;;
      mret existing
  | None =>
      match find_first (same_approval requirement reviewer policyVersion) (omap_values (Coordinator.approvals s)) with
      | Some existingApproval => mret existingApproval
      | None =>
          id ← opaqueId "review-approval";
          approvedAt ← now;
          let approval := {|
            ReviewApproval.id := id;
            ReviewApproval.projectId := Coordinator.projectId s;
            ReviewApproval.cohortId := IntegrationCohort.id cohort;
            ReviewApproval.requirementId := ReviewRequirement.id requirement;
            ReviewApproval.changeId := ReviewRequirement.changeId requirement;
            ReviewApproval.changeRevisionId := ReviewRequirement.changeRevisionId requirement;
            ReviewApproval.reviewer := reviewer;
            ReviewApproval.authorActorId := truthy_opt authorActorId;
            ReviewApproval.verifierActorIds := verifierActorIds;
            ReviewApproval.evidenceIds := default [] (ApproveInput.evidenceIds input);
            ReviewApproval.policyVersion := policyVersion;
            ReviewApproval.approvedAt := approvedAt;
            ReviewApproval.receipt :=
              cat ["approval=approved; requirement="; ReviewRequirement.id requirement; "; change=";
                   ReviewRequirement.changeId requirement; "; revision=";
                   ReviewRequirement.changeRevisionId requirement; "; reviewer="; ActorRef.actorId reviewer] |} in
          modify (λ s, s <| Coordinator.approvals := omap_set id approval (Coordinator.approvals s) |>) ;;
          remember (ApproveInput.idempotencyKey input) id ;;
          appendAudit {|
            AppendAuditInput.projectId := Coordinator.projectId s;
            AppendAuditInput.cohortId := Some (IntegrationCohort.id cohort);
            AppendAuditInput.changeId := Some (ReviewApproval.changeId approval);
            AppendAuditInput.changeRevisionId := Some (ReviewApproval.changeRevisionId approval);
            AppendAuditInput.role := CollaborationAuditRole.reviewer;
            AppendAuditInput.action := "review.approved";
            AppendAuditInput.outcome := CollaborationAuditOutcome.succeeded;
            AppendAuditInput.actor := reviewer;
            AppendAuditInput.policyVersion := Some policyVersion;
            AppendAuditInput.disclosure := ReviewRequirement.disclosure requirement;
            AppendAuditInput.receipt := ReviewApproval.receipt approval |} ;;
          mret approval
      end
  end.

Definition resolveConflict (input : ResolveConflictInput.t) : C IntegrationConflict.t :=
  let conflictId := ResolveConflictInput.conflictId input in
  let resolutionRevisionIds := ResolveConflictInput.resolutionRevisionIds input in
  s ← get;
  conflict ← require (omap_get conflictId (Coordinator.conflicts s))
    (failure CollaborationErrorCode.conflict_not_found (cat ["Integration Conflict "; conflictId; " is not known."])
      conflictId "refresh the Integration Cohort and resolve a known Conflict"
      (cat ["conflict="; conflictId; "; known=false"]));
  cohort ← requireCohort (IntegrationConflict.cohortId conflict);
  let cohortRevisionIds := IntegrationCohortMember.changeRevisionId <$> IntegrationCohort.members cohort in
  throw_if (bool_decide (resolutionRevisionIds = [])
            || existsb (λ revisionId, negb (list_includes cohortRevisionIds revisionId)) resolutionRevisionIds)
    (failure CollaborationErrorCode.invalid_input
      (cat ["Conflict "; IntegrationConflict.id conflict; " must be resolved by exact Change Revisions in its Cohort."])
      (IntegrationConflict.id conflict)
      "publish the conflict-resolution Change Revision and attach its exact ID"
      (cat ["conflict="; IntegrationConflict.id conflict; "; resolutionRevisions=";
            join "," resolutionRevisionIds])) ;;
  resolvedAt ← now;
  let updated := conflict
    <| IntegrationConflict.state := IntegrationConflictState.resolved |>
    <| IntegrationConflict.resolvedAt := Some resolvedAt |>
    <| IntegrationConflict.resolutionRevisionIds := Some resolutionRevisionIds |>
    <| IntegrationConflict.receipt := cat ["conflict=resolved; id="; IntegrationConflict.id conflict; "; revisions=";
                                           join "," resolutionRevisionIds] |> in
  modify (λ s, s <| Coordinator.conflicts :=
    omap_set (IntegrationConflict.id updated) updated (Coordinator.conflicts s) |>) ;;
  appendAudit {|
    AppendAuditInput.projectId := Coordinator.projectId s;
    AppendAuditInput.cohortId := Some (IntegrationCohort.id cohort);
    AppendAuditInput.changeId := None; AppendAuditInput.changeRevisionId := None;
    AppendAuditInput.role := CollaborationAuditRole.reviewer;
    AppendAuditInput.action := "integration-conflict.resolved";
    AppendAuditInput.outcome := CollaborationAuditOutcome.succeeded;
    AppendAuditInput.actor := ResolveConflictInput.actor input;
    AppendAuditInput.policyVersion := Some (CollaborationPolicy.version (Coordinator.policy s));
    AppendAuditInput.disclosure := IntegrationConflict.disclosure conflict;
    AppendAuditInput.receipt := IntegrationConflict.receipt updated |} ;;
  mret updated.

(** ** The gate of a Landing *)

Definition blocker_at (kind : CollaborationBlockerKind.t) (affectedObject : string)
    (disclosure : DisclosureClassification.t) (message recoveryAction safeCommand : string) : CollaborationBlocker.t :=
  CollaborationBlocker.mk kind affectedObject None None disclosure message recoveryAction safeCommand.

Definition state_blockers (cohort : IntegrationCohort.t) : list CollaborationBlocker.t :=
  if bool_decide (IntegrationCohort.state cohort = IntegrationCohortState.landed) then
    [blocker_at CollaborationBlockerKind.invalid_state (IntegrationCohort.id cohort) DisclosureClassification.project
       (cat ["Integration Cohort "; IntegrationCohort.id cohort; " has already Landed."])
       "create a new Change for any further work"
       (cat ["anyam change create --from-cohort "; IntegrationCohort.id cohort])]
  else [].
Definition base_blockers (cohort : IntegrationCohort.t) (s : Coordinator.t) : list CollaborationBlocker.t :=
  let canonical := ProjectRevision.id (Coordinator.canonicalRevision s) in
  if negb (String.eqb canonical (IntegrationCohort.baseProjectRevisionId cohort)) then
    [blocker_at CollaborationBlockerKind.stale_base (IntegrationCohort.id cohort) DisclosureClassification.project
       (cat ["Integration Cohort "; IntegrationCohort.id cohort; " is based on ";
             IntegrationCohort.baseProjectRevisionId cohort; ", but canonical state is "; canonical; "."])
       "rebase every Change in the Cohort onto the current canonical Project Revision and reverify"
       (cat ["anyam change rebase --cohort "; IntegrationCohort.id cohort])]
  else [].

Definition blocks_open (conflict : IntegrationConflict.t) : bool :=
  bool_decide (IntegrationConflict.state conflict = IntegrationConflictState.open) &&
  bool_decide (IntegrationConflict.severity conflict = IntegrationConflictSeverity.blocking).
Definition conflict_blocker (cohort : IntegrationCohort.t) (conflict : IntegrationConflict.t) :
    CollaborationBlocker.t := {|
  CollaborationBlocker.kind := CollaborationBlockerKind.open_conflict;
  CollaborationBlocker.affectedObject := IntegrationConflict.id conflict;
  CollaborationBlocker.changeId := truthy_opt (head (IntegrationConflict.changeIds conflict));
  CollaborationBlocker.scopeId := truthy_opt (head (IntegrationConflict.scopeIds conflict));
  CollaborationBlocker.disclosure := IntegrationConflict.disclosure conflict;
  CollaborationBlocker.message := IntegrationConflict.description conflict;
  CollaborationBlocker.recoveryAction := IntegrationConflict.recoveryAction conflict;
  CollaborationBlocker.safeCommand := cat ["anyam cohort inspect "; IntegrationCohort.id cohort] |}.

Definition demands_change (finding : ReviewFinding.t) : bool :=
  bool_decide (ReviewFinding.state finding = ReviewFindingState.open) &&
  (bool_decide (ReviewFinding.severity finding = ReviewFindingSeverity.blocking)
   || bool_decide (ReviewFinding.kind finding = ReviewFindingKind.request_changes)).
(** [scope.sourceSpaceId ?? scope.moduleId ?? scope.targetId]. *)
Definition scope_id (scope : option ReviewScope.t) : option string :=
  scope ← scope;
  match ReviewScope.sourceSpaceId scope, ReviewScope.moduleId scope with
  | Some id, _ => Some id
  | None, Some id => Some id
  | None, None => ReviewScope.targetId scope
  end.
Definition finding_blocker (finding : ReviewFinding.t) : CollaborationBlocker.t := {|
  CollaborationBlocker.kind := CollaborationBlockerKind.open_finding;
  CollaborationBlocker.affectedObject := ReviewFinding.id finding;
  CollaborationBlocker.changeId := Some (ReviewFinding.changeId finding);
  CollaborationBlocker.scopeId := truthy_opt (scope_id (ReviewFinding.scope finding));
  CollaborationBlocker.disclosure := ReviewFinding.disclosure finding;
  CollaborationBlocker.message :=
    cat ["Review Finding "; ReviewFinding.id finding; " requests a new Change Revision before Landing."];
  CollaborationBlocker.recoveryAction :=
    "address the Finding, publish a new immutable Change Revision, and request review again";
  CollaborationBlocker.safeCommand := cat ["anyam change publish --fix "; ReviewFinding.changeId finding] |}.

(** The approvals of a requirement, and those of its revision under the policy. *)
Definition approvals_of (requirement : ReviewRequirement.t) (s : Coordinator.t) : list ReviewApproval.t :=
  base.filter (λ a, ReviewApproval.requirementId a = ReviewRequirement.id requirement)
    (omap_values (Coordinator.approvals s)).
Definition current_approvals (requirement : ReviewRequirement.t) (s : Coordinator.t) : list ReviewApproval.t :=
  base.filter (λ a, ReviewApproval.changeRevisionId a = ReviewRequirement.changeRevisionId requirement ∧
                    ReviewApproval.policyVersion a = CollaborationPolicy.version (Coordinator.policy s))
    (approvals_of requirement s).
Definition invalid_duty (approval : ReviewApproval.t) : bool :=
  let actorId := ActorRef.actorId (ReviewApproval.reviewer approval) in
  bool_decide (Some actorId = ReviewApproval.authorActorId approval)
  || list_includes (ReviewApproval.verifierActorIds approval) actorId.
Definition requirement_blocker (requirement : ReviewRequirement.t) (kind : CollaborationBlockerKind.t)
    (message recoveryAction : string) : CollaborationBlocker.t := {|
  CollaborationBlocker.kind := kind;
  CollaborationBlocker.affectedObject := ReviewRequirement.id requirement;
  CollaborationBlocker.changeId := Some (ReviewRequirement.changeId requirement);
  CollaborationBlocker.scopeId := Some (ReviewRequirement.scopeId requirement);
  CollaborationBlocker.disclosure := ReviewRequirement.disclosure requirement;
  CollaborationBlocker.message := message;
  CollaborationBlocker.recoveryAction := recoveryAction;
  CollaborationBlocker.safeCommand := cat ["anyam change review request "; ReviewRequirement.changeId requirement] |}.
Definition requirement_blockers (s : Coordinator.t) (requirement : ReviewRequirement.t) :
    list CollaborationBlocker.t :=
  let approvals := approvals_of requirement s in
  let current := current_approvals requirement s in
  let changeId := ReviewRequirement.changeId requirement in
  let changeRevisionId := ReviewRequirement.changeRevisionId requirement in
  if existsb invalid_duty current then
    [requirement_blocker requirement CollaborationBlockerKind.separation_of_duty
       (cat ["Requirement "; ReviewRequirement.id requirement; " has an approval from the Change author or verifier."])
       "obtain approval from an independent reviewer for the exact Change Revision"]
  else if bool_decide (current = []) then
    if negb (bool_decide (approvals = [])) then
      [requirement_blocker requirement CollaborationBlockerKind.stale_approval
         (cat ["Required review for "; changeId; " is stale for Change Revision "; changeRevisionId; "."])
         "review the latest immutable Change Revision and approve it again"]
    else
      [requirement_blocker requirement CollaborationBlockerKind.required_reviewer
         (if bool_decide (ReviewRequirement.candidatePrincipalIds requirement = [])
          then cat ["No active reviewer candidate is configured for "; changeId; " Revision "; changeRevisionId; "."]
          else cat ["An eligible reviewer has not approved "; changeId; " Revision "; changeRevisionId; "."])
         "request review from the configured module, Source Space, or Target owner"]
  else [].

(** *** Evidence *)

Definition demanded (s : Coordinator.t) (cohort : IntegrationCohort.t) : list EvidenceRequirement.t :=
  let policy := Coordinator.policy s in
  CollaborationPolicy.requiredEvidence policy ++
  (IntegrationCohort.members cohort ≫= λ member,
     IntegrationCohortMember.declaredEffects member ≫= λ effect,
       (λ requirement, match EvidenceRequirement.expectedChangeRevisionId requirement with
                       | None => requirement <| EvidenceRequirement.expectedChangeRevisionId :=
                                   Some (IntegrationCohortMember.changeRevisionId member) |>
                       | Some _ => requirement
                       end) <$>
         default [] (byEffect ← CollaborationPolicy.requiredEvidenceByEffect policy; omap_get effect byEffect)).
Definition evidence_key (requirement : EvidenceRequirement.t) : string :=
  cat [EvidenceRequirement.key requirement; ":"; EvidenceRequirement.currentValidityKey requirement; ":";
       default "" (EvidenceRequirement.expectedChangeRevisionId requirement); ":";
       default "" (EvidenceRequirement.expectedTargetId requirement)].
(** The first requirement of each key. *)
Fixpoint first_of_key (seen : list string) (requirements : list EvidenceRequirement.t) : list EvidenceRequirement.t :=
  match requirements with
  | [] => []
  | requirement :: requirements =>
      let key := evidence_key requirement in
      if list_includes seen key then first_of_key seen requirements
      else requirement :: first_of_key (key :: seen) requirements
  end.
Definition requiredEvidenceFor (s : Coordinator.t) (cohort : IntegrationCohort.t) : list EvidenceRequirement.t :=
  first_of_key [] (demanded s cohort).

Definition expected {A} `{EqDecision A} (o : option A) (a : option A) : bool :=
  match o with Some _ => bool_decide (a = o) | None => true end.
Definition matchesContext (requirement : EvidenceRequirement.t) (record : Evidence.t) : bool :=
  expected (EvidenceRequirement.expectedProjectRevisionId requirement) (Some (Evidence.projectRevisionId record)) &&
  expected (EvidenceRequirement.expectedProjectViewId requirement) (Some (Evidence.projectViewId record)) &&
  expected (EvidenceRequirement.expectedChangeRevisionId requirement) (Evidence.changeRevisionId record) &&
  expected (EvidenceRequirement.expectedTargetId requirement) (Evidence.targetId record) &&
  expected (EvidenceRequirement.expectedDisclosureClassification requirement)
    (Some (DisclosurePolicyRef.classification (Evidence.disclosure record))).
Definition select_record (requirement : EvidenceRequirement.t) (evidence : list Evidence.t) : option Evidence.t :=
  let records := base.filter (λ r, Evidence.key r = EvidenceRequirement.key requirement) evidence in
  match find_last (matchesContext requirement) records with
  | Some record => Some record
  | None => last records
  end.
Definition evidence_blockers (cohort : IntegrationCohort.t) (evidence : list Evidence.t)
    (requirement : EvidenceRequirement.t) : list CollaborationBlocker.t :=
  let key := EvidenceRequirement.key requirement in
  let cohortId := IntegrationCohort.id cohort in
  let refresh := cat ["anyam check --cohort "; cohortId; " --refresh"] in
  match select_record requirement evidence with
  | None =>
      [blocker_at CollaborationBlockerKind.missing_evidence key DisclosureClassification.project
         (cat ["Evidence "; key; " is missing for Integration Cohort "; cohortId; "."])
         "run the required Action or Verifier and attach its Evidence to the exact Change Revision"
         (cat ["anyam check --cohort "; cohortId])]
  | Some record =>
      let passed := bool_decide (Evidence.outcome record = EvidenceOutcome.passed) in
      let contextMismatch := negb (matchesContext requirement record)
        || negb (String.eqb (Evidence.validityKey record) (EvidenceRequirement.currentValidityKey requirement)) in
      if contextMismatch && passed then
        [blocker_at CollaborationBlockerKind.stale_evidence key DisclosureClassification.project
           (cat ["Evidence "; key; " is stale for the current Integration Cohort state."])
           "rerun the required Action or Verifier against the exact Change Revision and current policy" refresh]
      else if negb passed then
        [blocker_at (if bool_decide (Evidence.outcome record = EvidenceOutcome.failed)
                     then CollaborationBlockerKind.failed_evidence else CollaborationBlockerKind.stale_evidence)
           key DisclosureClassification.project
           (cat ["Evidence "; key; " is "; EvidenceOutcome.show (Evidence.outcome record);
                 " for Integration Cohort "; cohortId; "."])
           "inspect the Evidence receipt, repair the failing Action, and produce a fresh Evidence record" refresh]
      else []
  end.

(** One audit event for each actor of Evidence on a revision of the cohort. *)
Definition audit_verifier (cohort : IntegrationCohort.t) (seen : list string) (record : Evidence.t) : C (list string) :=
  match Evidence.changeRevisionId record with
  | None => mret seen
  | Some changeRevisionId =>
      let key := cat [changeRevisionId; ":"; ActorRef.actorId (Evidence.actor record)] in
      if negb (list_includes (IntegrationCohortMember.changeRevisionId <$> IntegrationCohort.members cohort) changeRevisionId)
         || list_includes seen key then mret seen
      else
        s ← get;
        appendAudit {|
          AppendAuditInput.projectId := Coordinator.projectId s;
          AppendAuditInput.cohortId := Some (IntegrationCohort.id cohort);
          AppendAuditInput.changeId := None; AppendAuditInput.changeRevisionId := Some changeRevisionId;
          AppendAuditInput.role := CollaborationAuditRole.verifier;
          AppendAuditInput.action := "evidence.observed";
          AppendAuditInput.outcome := if bool_decide (Evidence.outcome record = EvidenceOutcome.passed)
            then CollaborationAuditOutcome.succeeded else CollaborationAuditOutcome.denied;
          AppendAuditInput.actor := Evidence.actor record;
          AppendAuditInput.policyVersion := Some (Evidence.policyVersion record);
          AppendAuditInput.disclosure := DisclosurePolicyRef.classification (Evidence.disclosure record);
          AppendAuditInput.receipt := cat ["evidence="; Evidence.id record; "; key="; Evidence.key record;
                                           "; outcome="; EvidenceOutcome.show (Evidence.outcome record)] |} ;;
        mret (seen ++ [key])
  end.

(** *** Projections of an explanation *)

Definition blocker_visible (audience : DisclosureClassification.t) (visibleScopeIds : list string)
    (blocker : CollaborationBlocker.t) : bool :=
  (disclosureRank (CollaborationBlocker.disclosure blocker) <=? disclosureRank audience)%nat &&
  match CollaborationBlocker.scopeId blocker with
  | Some scopeId => list_includes visibleScopeIds scopeId
  | None => true
  end.
Definition redacted_blocker (cohortId : string) (blocker : CollaborationBlocker.t) : CollaborationBlocker.t :=
  blocker_at (CollaborationBlocker.kind blocker) cohortId (CollaborationBlocker.disclosure blocker)
    "A restricted review, Evidence, or conflict requirement blocks this operation."
    "request an authorized maintainer Review Projection for the next permitted action"
    (cat ["anyam cohort inspect "; cohortId]).
Definition projectExplanation (explanation : CollaborationPolicyExplanation.t)
    (audience : DisclosureClassification.t) (visibleScopeIds : list string) : CollaborationPolicyExplanation.t :=
  let blockers := (λ blocker, if blocker_visible audience visibleScopeIds blocker then blocker
      else redacted_blocker (CollaborationPolicyExplanation.cohortId explanation) blocker) <$>
    CollaborationPolicyExplanation.blockers explanation in
  explanation
    <| CollaborationPolicyExplanation.blockers := blockers |>
    <| CollaborationPolicyExplanation.safeNextCommands := set_of (CollaborationBlocker.safeCommand <$> blockers) |>.

(** The blockers that do not come from Evidence, then those that do. *)
Definition review_blockers (cohort : IntegrationCohort.t) (s : Coordinator.t) : list CollaborationBlocker.t :=
  state_blockers cohort ++ base_blockers cohort s ++
  (conflict_blocker cohort <$> base.filter (λ c, blocks_open c = true) (conflicts_of (IntegrationCohort.id cohort) s)) ++
  (finding_blocker <$> base.filter (λ f, demands_change f = true) (findings_of (IntegrationCohort.id cohort) s)) ++
  (requirementsFor cohort s ≫= requirement_blockers s).
Definition evaluateLanding (input : CollaborationEvaluationInput.t) : C CollaborationPolicyExplanation.t :=
  let evidence := CollaborationEvaluationInput.evidence input in
  cohort ← requireCohort (CollaborationEvaluationInput.cohortId input);
  s ← get;
  let reviews := review_blockers cohort s in
  fold_each evidence (audit_verifier cohort) [] ;;
  let blockers := reviews ++ (requiredEvidenceFor s cohort ≫= evidence_blockers cohort evidence) in
  let decision := if bool_decide (blockers = []) then CollaborationDecision.allow else CollaborationDecision.deny in
  id ← opaqueId "collaboration-policy-decision";
  let policyVersion := CollaborationPolicy.version (Coordinator.policy s) in
  let canonical := ProjectRevision.id (Coordinator.canonicalRevision s) in
  let explanation := {|
    CollaborationPolicyExplanation.id := id;
    CollaborationPolicyExplanation.projectId := Coordinator.projectId s;
    CollaborationPolicyExplanation.cohortId := IntegrationCohort.id cohort;
    CollaborationPolicyExplanation.decision := decision;
    CollaborationPolicyExplanation.policyVersion := policyVersion;
    CollaborationPolicyExplanation.authorizationEpoch := truthy_opt (Coordinator.authorizationEpoch s);
    CollaborationPolicyExplanation.baseProjectRevisionId := IntegrationCohort.baseProjectRevisionId cohort;
    CollaborationPolicyExplanation.currentCanonicalProjectRevisionId := canonical;
    CollaborationPolicyExplanation.blockers := blockers;
    CollaborationPolicyExplanation.safeNextCommands := set_of (CollaborationBlocker.safeCommand <$> blockers);
    CollaborationPolicyExplanation.receipt :=
      cat ["cohort="; IntegrationCohort.id cohort; "; decision="; CollaborationDecision.show decision; "; blockers=";
           pretty (length blockers); "; policy="; policyVersion; "; base=";
           IntegrationCohort.baseProjectRevisionId cohort; "; canonical="; canonical] |} in
  mret match CollaborationEvaluationInput.audience input, CollaborationEvaluationInput.visibleScopeIds input with
       | None, None => explanation
       | audience, visibleScopeIds =>
           projectExplanation explanation (default DisclosureClassification.project audience)
             (default [] visibleScopeIds)
       end.

(** ** Landing *)

(** From the call to the Landing authority. *)
Definition land_begin (input : CollaborationEvaluationInput.t) (actor : ActorRef.t) : C PendingLanding.t :=
  let cohortId := CollaborationEvaluationInput.cohortId input in
  explanation ← evaluateLanding input;
  throw_if (negb (bool_decide (CollaborationPolicyExplanation.decision explanation = CollaborationDecision.allow)))
    (CollaborationError.mk CollaborationErrorCode.policy_blocked
      (cat ["Landing is blocked for Integration Cohort "; cohortId; "."]) cohortId
      (default "inspect the Policy Explanation and resolve its blockers"
         (head (CollaborationPolicyExplanation.safeNextCommands explanation)))
      (CollaborationPolicyExplanation.receipt explanation) (Some explanation)) ;;
  configured ← gets Coordinator.landingAuthority;
  throw_if (negb configured)
    (failure CollaborationErrorCode.landing_authority_unavailable
      "No trusted Landing authority is configured for this collaboration coordinator." cohortId
      "connect the Project coordinator's Landing authority; developer tools and agents cannot perform Landing directly"
      (cat ["cohort="; cohortId; "; landingAuthority=configured=false"])) ;;
  cohort ← requireCohort cohortId;
  mret (PendingLanding.mk cohort explanation actor).
(** What the authority is asked. *)
Definition landing_request (p : PendingLanding.t) : LandingRequest.t :=
  let cohort := PendingLanding.cohort p in {|
  LandingRequest.cohortId := IntegrationCohort.id cohort;
  LandingRequest.members :=
    (λ m, LandingMember.mk (IntegrationCohortMember.changeId m) (IntegrationCohortMember.changeRevisionId m)) <$>
      IntegrationCohort.members cohort;
  LandingRequest.expectedCanonicalProjectRevisionId := IntegrationCohort.baseProjectRevisionId cohort |}.

Definition sameSet (l r : list string) : bool :=
  (length (set_of l) =? length (set_of r))%nat && forallb (list_includes r) (set_of l).
Definition landing_matches (projectId : string) (cohort : IntegrationCohort.t) (landing : Landing.t) : bool :=
  String.eqb (Landing.projectId landing) projectId &&
  bool_decide (Landing.cohortId landing = Some (IntegrationCohort.id cohort)) &&
  sameSet (default [] (Landing.changeIds landing))
    (IntegrationCohortMember.changeId <$> IntegrationCohort.members cohort) &&
  sameSet (default [] (Landing.changeRevisionIds landing))
    (IntegrationCohortMember.changeRevisionId <$> IntegrationCohort.members cohort).
(** The authority has answered: the cohort read before the call is written back. *)
Definition land_finish (p : PendingLanding.t) (landing : Landing.t) : C CollaborationLandingResult.t :=
  let cohort := PendingLanding.cohort p in
  let changeIds := set_of (IntegrationCohortMember.changeId <$> IntegrationCohort.members cohort) in
  let revisionIds := set_of (IntegrationCohortMember.changeRevisionId <$> IntegrationCohort.members cohort) in
  projectId ← gets Coordinator.projectId;
  throw_if (negb (landing_matches projectId cohort landing))
    (failure CollaborationErrorCode.landing_result_mismatch
      "Landing authority returned a result that does not identify the requested Integration Cohort."
      (IntegrationCohort.id cohort) "reconcile the Landing authority receipt before accepting canonical state"
      (cat ["cohort="; IntegrationCohort.id cohort; "; landingProject="; Landing.projectId landing;
            "; landingCohort="; default "none" (Landing.cohortId landing); "; landedChanges=";
            join "," (set_of (default [] (Landing.changeIds landing))); "; expectedChanges="; join "," changeIds;
            "; landedRevisions="; join "," (set_of (default [] (Landing.changeRevisionIds landing)));
            "; expectedRevisions="; join "," revisionIds])) ;;
  updatedAt ← now;
  modify (λ s, s <| Coordinator.cohorts := omap_set (IntegrationCohort.id cohort)
    (cohort <| IntegrationCohort.state := IntegrationCohortState.landed |>
            <| IntegrationCohort.updatedAt := updatedAt |>
            <| IntegrationCohort.receipt := cat ["cohort=landed; landing="; Landing.id landing; "; next=";
                                                 Landing.projectRevisionId landing] |>)
    (Coordinator.cohorts s) |>) ;;
  policy ← gets Coordinator.policy;
  appendAudit {|
    AppendAuditInput.projectId := projectId; AppendAuditInput.cohortId := Some (IntegrationCohort.id cohort);
    AppendAuditInput.changeId := None; AppendAuditInput.changeRevisionId := None;
    AppendAuditInput.role := CollaborationAuditRole.landing;
    AppendAuditInput.action := "landing.completed";
    AppendAuditInput.outcome := CollaborationAuditOutcome.succeeded;
    AppendAuditInput.actor := PendingLanding.actor p;
    AppendAuditInput.policyVersion := Some (CollaborationPolicy.version policy);
    AppendAuditInput.disclosure := DisclosureClassification.project;
    AppendAuditInput.receipt := Landing.receipt landing |} ;;
  mret (CollaborationLandingResult.mk landing (PendingLanding.explanation p)).

Definition recordPromotionAuthority (input : PromotionAuthorityInput.t) : C CollaborationAuditEvent.t :=
  lift (nonEmpty (PromotionAuthorityInput.promotionId input) "promotionId") ;;
  lift (nonEmpty (PromotionAuthorityInput.targetId input) "targetId") ;;
  lift (nonEmpty (PromotionAuthorityInput.releaseId input) "releaseId") ;;
  lift (nonEmpty (PromotionAuthorityInput.receipt input) "promotion.receipt") ;;
  s ← get;
  appendAudit {|
    AppendAuditInput.projectId := Coordinator.projectId s;
    AppendAuditInput.cohortId := truthy_opt (PromotionAuthorityInput.cohortId input);
    AppendAuditInput.changeId := None; AppendAuditInput.changeRevisionId := None;
    AppendAuditInput.role := CollaborationAuditRole.promotion;
    AppendAuditInput.action := "promotion.authority.observed";
    AppendAuditInput.outcome := CollaborationAuditOutcome.observed;
    AppendAuditInput.actor := PromotionAuthorityInput.actor input;
    AppendAuditInput.policyVersion := Some (CollaborationPolicy.version (Coordinator.policy s));
    AppendAuditInput.disclosure := DisclosureClassification.project;
    AppendAuditInput.receipt :=
      cat ["promotion="; PromotionAuthorityInput.promotionId input; "; target=";
           PromotionAuthorityInput.targetId input; "; release="; PromotionAuthorityInput.releaseId input; "; ";
           PromotionAuthorityInput.receipt input] |}.

(** ** Projections of a cohort *)

Section projection.
Context (audience : DisclosureClassification.t) (visibleScopeIds : list string).

Definition scopeVisible (scopeIds : list string) (disclosure : DisclosureClassification.t) : bool :=
  (disclosureRank disclosure <=? disclosureRank audience)%nat && forallb (list_includes visibleScopeIds) scopeIds.
Definition visible_scopes : list string → list string := base.filter (λ scopeId, scopeId ∈ visibleScopeIds).
Definition project_member (member : IntegrationCohortMember.t) : IntegrationCohortMember.t := member
  <| IntegrationCohortMember.affectedModuleIds := visible_scopes (IntegrationCohortMember.affectedModuleIds member) |>
  <| IntegrationCohortMember.affectedSourceSpaceIds :=
       visible_scopes (IntegrationCohortMember.affectedSourceSpaceIds member) |>
  <| IntegrationCohortMember.affectedTargetIds := visible_scopes (IntegrationCohortMember.affectedTargetIds member) |>.
Definition project_conflict (conflict : IntegrationConflict.t) : IntegrationConflict.t :=
  if scopeVisible (IntegrationConflict.scopeIds conflict) (IntegrationConflict.disclosure conflict) then conflict
  else conflict
    <| IntegrationConflict.changeIds := [] |>
    <| IntegrationConflict.changeRevisionIds := [] |>
    <| IntegrationConflict.scopeIds := [] |>
    <| IntegrationConflict.analyzerId := "" |>
    <| IntegrationConflict.description := "A restricted Integration Conflict requires maintainer review." |>
    <| IntegrationConflict.receipt :=
         cat ["conflict="; IntegrationConflict.id conflict; "; disclosure=projection-only"] |>.
Definition project_finding (finding : ReviewFinding.t) : ReviewFinding.t :=
  let scopeIds := match scope_id (ReviewFinding.scope finding) with Some id => [id] | None => [] end in
  if scopeVisible scopeIds (ReviewFinding.disclosure finding) then finding
  else finding
    <| ReviewFinding.summary := "A restricted Review Finding requires maintainer attention." |>
    <| ReviewFinding.receipt := cat ["finding="; ReviewFinding.id finding; "; disclosure=projection-only"] |>
    <| ReviewFinding.scope := None |>.
Definition project_requirement (requirement : ReviewRequirement.t) : ReviewRequirement.t :=
  if scopeVisible [ReviewRequirement.scopeId requirement] (ReviewRequirement.disclosure requirement) then requirement
  else requirement
    <| ReviewRequirement.ruleId := "" |>
    <| ReviewRequirement.scopeId := "" |>
    <| ReviewRequirement.reason := "An authorized owner Review is required." |>
    <| ReviewRequirement.requiredReviewerPrincipalIds := [] |>
    <| ReviewRequirement.requiredReviewerTeamIds := [] |>
    <| ReviewRequirement.candidatePrincipalIds := [] |>.
End projection.

Definition projectCohort (input : ProjectCohortInput.t) : C CohortProjection.t :=
  let audience := ProjectCohortInput.audience input in
  let visible := ProjectCohortInput.visibleScopeIds input in
  cohort ← requireCohort (ProjectCohortInput.cohortId input);
  s ← get;
  mret {|
    CohortProjection.cohort := cohort
      <| IntegrationCohort.members := project_member visible <$> IntegrationCohort.members cohort |>;
    CohortProjection.conflicts := project_conflict audience visible <$> conflicts_of (IntegrationCohort.id cohort) s;
    CohortProjection.findings := project_finding audience visible <$> findings_of (IntegrationCohort.id cohort) s;
    CohortProjection.requirements := project_requirement audience visible <$> requirementsFor cohort s;
  |}.
End coordinator.
