(* ===== verification/CollaborationFacts.v ===== *)
(** What collaboration guarantees: the records of the coordinator stay consistent
    whatever is called and however the two asynchronous methods interleave, and
    the gate of a Landing is the declarative reading of its checks. *)

From S2P Require Import Prelude Json Contracts ContractsJson EvidenceLedger Collaboration.

(** * The gate, declaratively *)

(** The approval is of the member's revision for the rule, under the policy in force. *)
Definition approves `{Host} (s : Coordinator.t) (cohort : IntegrationCohort.t) (m : IntegrationCohortMember.t)
    (r : ReviewOwnershipRule.t) (a : ReviewApproval.t) : Prop :=
  a ∈ omap_values (Coordinator.approvals s) ∧
  ReviewApproval.requirementId a = ReviewRequirement.id (requirement_of s cohort m r) ∧
  ReviewApproval.changeRevisionId a = IntegrationCohortMember.changeRevisionId m ∧
  ReviewApproval.policyVersion a = CollaborationPolicy.version (Coordinator.policy s).
(** Its reviewer neither wrote nor verified the revision. *)
Definition independent (a : ReviewApproval.t) : Prop :=
  ReviewApproval.authorActorId a ≠ Some (ActorRef.actorId (ReviewApproval.reviewer a)) ∧
  ActorRef.actorId (ReviewApproval.reviewer a) ∉ ReviewApproval.verifierActorIds a.

(** The rule is about something that the member touches. *)
Definition touched (m : IntegrationCohortMember.t) (r : ReviewOwnershipRule.t) : Prop :=
  ReviewOwnershipRule.scopeId r ∈ match ReviewOwnershipRule.scopeKind r with
    | OwnershipScopeKind.module => IntegrationCohortMember.affectedModuleIds m
    | OwnershipScopeKind.source_space => IntegrationCohortMember.affectedSourceSpaceIds m
    | OwnershipScopeKind.target => IntegrationCohortMember.affectedTargetIds m
    end.

(** ** Required Evidence *)

(** The Evidence was made where the requirement expects: whatever it names, the
    Evidence has. *)
Record in_context (q : EvidenceRequirement.t) (e : Evidence.t) : Prop := {
  ic_projectRevision : ∀ i, EvidenceRequirement.expectedProjectRevisionId q = Some i →
    Evidence.projectRevisionId e = i;
  ic_projectView : ∀ i, EvidenceRequirement.expectedProjectViewId q = Some i → Evidence.projectViewId e = i;
  ic_changeRevision : ∀ i, EvidenceRequirement.expectedChangeRevisionId q = Some i →
    Evidence.changeRevisionId e = Some i;
  ic_target : ∀ i, EvidenceRequirement.expectedTargetId q = Some i → Evidence.targetId e = Some i;
  ic_disclosure : ∀ d, EvidenceRequirement.expectedDisclosureClassification q = Some d →
    DisclosurePolicyRef.classification (Evidence.disclosure e) = d;
}.
(** The latest Evidence of the required key in the required context has passed with
    the required validity key. *)
Definition proven (evidence : list Evidence.t) (q : EvidenceRequirement.t) : Prop := ∃ before e after,
  evidence = before ++ e :: after ∧
  Evidence.key e = EvidenceRequirement.key q ∧ in_context q e ∧
  Evidence.validityKey e = EvidenceRequirement.currentValidityKey q ∧ Evidence.outcome e = EvidenceOutcome.passed ∧
  ∀ later, later ∈ after → Evidence.key later = EvidenceRequirement.key q → ¬ in_context q later.

(** What the policy requires of a declared effect, of the member that declares it:
    on the member's Change Revision, unless the requirement names another. *)
Definition for_effect (s : Coordinator.t) (effect : string) (l : list EvidenceRequirement.t) : Prop :=
  match CollaborationPolicy.requiredEvidenceByEffect (Coordinator.policy s) with
  | Some byEffect => l = default [] (omap_get effect byEffect)
  | None => l = []
  end.
Definition of_member (m : IntegrationCohortMember.t) (r q : EvidenceRequirement.t) : Prop :=
  q = r <| EvidenceRequirement.expectedChangeRevisionId :=
    Some (default (IntegrationCohortMember.changeRevisionId m) (EvidenceRequirement.expectedChangeRevisionId r)) |>.
Definition required_of (s : Coordinator.t) (m : IntegrationCohortMember.t) (effect : string) (q : EvidenceRequirement.t) : Prop :=
  ∃ l r, for_effect s effect l ∧ r ∈ l ∧ of_member m r q.
(** The coordinator takes two requirements for one when these agree, joined by colons. *)
Definition slot (q : EvidenceRequirement.t) : string :=
  join ":" [EvidenceRequirement.key q; EvidenceRequirement.currentValidityKey q;
            default "" (EvidenceRequirement.expectedChangeRevisionId q); default "" (EvidenceRequirement.expectedTargetId q)].
(** A requirement that must be proven: one of the policy, or one of an effect of a
    member, before which no other was required that is taken for the same. Required
    before it are those listed earlier in the policy, and for a requirement of an
    effect all of the policy, then those of the earlier members, of the earlier effects
    of the member and those listed earlier for the effect. *)
Inductive required (s : Coordinator.t) (cohort : IntegrationCohort.t) (q : EvidenceRequirement.t) : Prop :=
| required_by_policy before after :
    CollaborationPolicy.requiredEvidence (Coordinator.policy s) = before ++ q :: after →
    (∀ q', q' ∈ before → slot q' ≠ slot q) → required s cohort q
| required_by_effect ms m ms' effects effect effects' rs r rs' :
    IntegrationCohort.members cohort = ms ++ m :: ms' →
    IntegrationCohortMember.declaredEffects m = effects ++ effect :: effects' →
    for_effect s effect (rs ++ r :: rs') → of_member m r q →
    (∀ q', q' ∈ CollaborationPolicy.requiredEvidence (Coordinator.policy s) → slot q' ≠ slot q) →
    (∀ q' m' effect', m' ∈ ms → effect' ∈ IntegrationCohortMember.declaredEffects m' → required_of s m' effect' q' →
       slot q' ≠ slot q) →
    (∀ q' effect', effect' ∈ effects → required_of s m effect' q' → slot q' ≠ slot q) →
    (∀ q' r', r' ∈ rs → of_member m r' q' → slot q' ≠ slot q) → required s cohort q.

(** A cohort that may be landed, on the evidence given. *)
Record landable `{Host} (s : Coordinator.t) (cohort : IntegrationCohort.t) (evidence : list Evidence.t) : Prop := {
  ld_open : IntegrationCohort.state cohort ≠ IntegrationCohortState.landed;
  ld_base : ProjectRevision.id (Coordinator.canonicalRevision s) = IntegrationCohort.baseProjectRevisionId cohort;
  ld_conflicts : ∀ x, x ∈ omap_values (Coordinator.conflicts s) →
    IntegrationConflict.cohortId x = IntegrationCohort.id cohort →
    IntegrationConflict.state x = IntegrationConflictState.open →
    IntegrationConflict.severity x ≠ IntegrationConflictSeverity.blocking;
  ld_findings : ∀ f, f ∈ omap_values (Coordinator.findings s) →
    ReviewFinding.cohortId f = IntegrationCohort.id cohort → ReviewFinding.state f = ReviewFindingState.open →
    ReviewFinding.severity f ≠ ReviewFindingSeverity.blocking ∧
    ReviewFinding.kind f ≠ ReviewFindingKind.request_changes;
  ld_reviews : ∀ m r, m ∈ IntegrationCohort.members cohort → r ∈ Coordinator.ownershipRules s →
    touched m r →
    (∃ a, approves s cohort m r a) ∧ ∀ a, approves s cohort m r a → independent a;
  ld_evidence : ∀ q, required s cohort q → proven evidence q;
}.

(** ** Each kind of blocker *)

Lemma invalid_duty_spec a : invalid_duty a = false ↔ independent a.
Proof.
unfold invalid_duty, independent. cbv zeta. rewrite orb_false_iff, bool_decide_eq_false.
rewrite <-not_true_iff_false, list_includes_spec. split; intros [H1 H2]; (split; [congruence|done]).
Qed.
Lemma if_nil {A} (b : bool) (x : A) : (if b then [x] else []) = [] ↔ b = false.
Proof. by destruct b. Qed.
Lemma bind_nil {A B} (f : A → list B) l : l ≫= f = [] ↔ ∀ x, x ∈ l → f x = [].
Proof.
induction l as [|x l IH]; [by split; [intros _ ? ?%elem_of_nil|]|]. rewrite bind_cons, app_nil, IH. split.
- intros [Hx Hl] y [->|Hy]%elem_of_cons; auto.
- intros H. split; [apply H; left|]. intros y Hy. apply H. by right.
Qed.
Lemma fmap_filter_nil {A B} (f : A → B) (p : A → bool) l :
  f <$> base.filter (λ x, p x = true) l = [] ↔ ∀ x, x ∈ l → p x = false.
Proof.
assert (∀ k : list A, f <$> k = [] ↔ k = []) as -> by (by intros []). split.
- intros Hf x Hx. destruct (p x) eqn:Hp; [|done].
  assert (x ∈ base.filter (λ x, p x = true) l) as Hin by (by apply list_elem_of_filter).
  rewrite Hf in Hin. by apply elem_of_nil in Hin.
- intros Hn. destruct (base.filter _ l) as [|x k] eqn:Hf; [done|].
  assert (x ∈ base.filter (λ x, p x = true) l) as Hin by (rewrite Hf; left).
  apply list_elem_of_filter in Hin as [Hp Hx]. by rewrite Hn in Hp.
Qed.

Lemma col_requirement_blockers_nil `{Host} s cohort m r : requirement_blockers s (requirement_of s cohort m r) = [] ↔
  (∃ a, approves s cohort m r a) ∧ ∀ a, approves s cohort m r a → independent a.
Proof.
assert (∀ a, a ∈ current_approvals (requirement_of s cohort m r) s ↔ approves s cohort m r a) as Hin.
{ intros a. unfold current_approvals, approvals_of, approves. rewrite !list_elem_of_filter. simpl. tauto. }
unfold requirement_blockers. cbv zeta. destruct (existsb invalid_duty _) eqn:He.
- split; [done|]. intros [_ Hi]. exfalso. apply not_false_iff_true in He. apply He, existsb_false_iff.
  intros a Ha. by apply invalid_duty_spec, Hi, Hin.
- rewrite existsb_false_iff in He. case_bool_decide as Hc.
  + split; [by case_bool_decide|]. intros [(a & Ha%Hin) _]. rewrite Hc in Ha. by apply elem_of_nil in Ha.
  + split; [intros _|done]. split.
    * destruct (current_approvals _ s) as [|a l] eqn:Hl; [done|]. exists a. apply Hin. rewrite <-Hl. rewrite Hl. left.
    * intros a Ha%Hin. by apply invalid_duty_spec, He.
Qed.

Lemma affects_spec m r : affects m r = true ↔ touched m r.
Proof. unfold affects, touched. destruct (ReviewOwnershipRule.scopeKind r); apply list_includes_spec. Qed.
Lemma expected_spec {A} `{EqDecision A} (o a : option A) : expected o a = true ↔ (∀ x, o = Some x → a = Some x).
Proof.
unfold expected. destruct o as [x|]; [|done]. rewrite bool_decide_eq_true. split; [by intros -> y [= ->]|by intros H; apply H].
Qed.
Lemma matchesContext_spec q e : matchesContext q e = true ↔ in_context q e.
Proof.
unfold matchesContext. rewrite !andb_true_iff, !expected_spec. split.
- intros [[[[H1 H2] H3] H4] H5]. split; intros i Hi; [apply H1 in Hi|apply H2 in Hi|auto|auto|apply H5 in Hi]; congruence.
- intros []. split_and!; intros i Hi; try f_equal; auto.
Qed.
Lemma matchesContext_false q e : matchesContext q e = false ↔ ¬ in_context q e.
Proof. by rewrite <-matchesContext_spec, not_true_iff_false. Qed.

(** *** The requirements in their order *)

Lemma slot_spec q : slot q = evidence_key q.
Proof. unfold slot, evidence_key. by str_simpl. Qed.
Lemma elem_of_first_of_key seen qs q : q ∈ first_of_key seen qs ↔ ∃ before after,
  qs = before ++ q :: after ∧ (evidence_key q ∉ seen) ∧ ∀ q', q' ∈ before → evidence_key q' ≠ evidence_key q.
Proof.
revert seen. induction qs as [|x qs IH]; intros seen; simpl.
{ split; [by intros ?%elem_of_nil|]. by intros ([] & ? & ? & _). }
destruct (list_includes seen (evidence_key x)) eqn:Hx; [apply list_includes_spec in Hx|apply not_true_iff_false in Hx; rewrite list_includes_spec in Hx].
- rewrite IH. split.
  + intros (b & a & -> & Hq & Hb). exists (x :: b), a. split_and!; [done..|]. intros q' [->|?]%elem_of_cons; [congruence|auto].
  + intros ([|y b] & a & [= -> ->] & Hq & Hb); [done|]. exists b, a. split_and!; [done..|]. intros q' ?. apply Hb. by right.
- rewrite elem_of_cons, IH. split.
  + intros [->|(b & a & -> & Hq & Hb)]; [exists [], qs; split_and!; [done..|by intros ? ?%elem_of_nil]|].
    apply not_elem_of_cons in Hq as [Hne Hq]. exists (x :: b), a. split_and!; [done..|].
    intros q' [->|?]%elem_of_cons; [congruence|auto].
  + intros ([|y b] & a & [= -> ->] & Hq & Hb); [by left|right]. exists b, a. split_and!; [done| |].
    * apply not_elem_of_cons. split; [|done]. intros He. apply (Hb y); [left|done].
    * intros q' ?. apply Hb. by right.
Qed.
Lemma bind_split {A B} (f : A → list B) l before y after : l ≫= f = before ++ y :: after →
  ∃ l1 x l2 b a, l = l1 ++ x :: l2 ∧ f x = b ++ y :: a ∧ before = (l1 ≫= f) ++ b.
Proof.
revert before. induction l as [|x l IH]; intros before; simpl; [by destruct before|].
assert (∀ k, l ≫= f = k ++ y :: after → before = f x ++ k → ∃ l1 x' l2 b a,
  x :: l = l1 ++ x' :: l2 ∧ f x' = b ++ y :: a ∧ before = (l1 ≫= f) ++ b) as Hlater.
{ intros k (l1 & x' & l2 & b & a & -> & Hx & ->)%IH ->. exists (x :: l1), x', l2, b, a.
  split_and!; [done|done|]. simpl. by rewrite <-app_assoc. }
intros [([|z k] & H1 & H2)|(k & H1 & H2)]%app_eq_inv; simpl in *.
- apply (Hlater []); [by rewrite H2|]. by rewrite H1, !app_nil_r.
- injection H2 as <- ->. exists [], x, l, before, k. by split_and!.
- by apply (Hlater k).
Qed.

Definition effect_requirements (s : Coordinator.t) (effect : string) : list EvidenceRequirement.t :=
  default [] (byEffect ← CollaborationPolicy.requiredEvidenceByEffect (Coordinator.policy s); omap_get effect byEffect).
Lemma for_effect_spec s effect l : for_effect s effect l ↔ l = effect_requirements s effect.
Proof. unfold for_effect, effect_requirements. by destruct (CollaborationPolicy.requiredEvidenceByEffect _). Qed.
Definition member_requirement (m : IntegrationCohortMember.t) (r : EvidenceRequirement.t) : EvidenceRequirement.t :=
  match EvidenceRequirement.expectedChangeRevisionId r with
  | None => r <| EvidenceRequirement.expectedChangeRevisionId := Some (IntegrationCohortMember.changeRevisionId m) |>
  | Some _ => r
  end.
Lemma of_member_spec m r q : of_member m r q ↔ q = member_requirement m r.
Proof. unfold of_member, member_requirement. by destruct r as [? ? ? ? []]. Qed.
Lemma elem_of_effect_requirements s m effect q :
  q ∈ member_requirement m <$> effect_requirements s effect ↔ required_of s m effect q.
Proof.
rewrite list_elem_of_fmap. unfold required_of. split.
- intros (r & -> & Hr). exists (effect_requirements s effect), r. split_and!; [by apply for_effect_spec|done|by apply of_member_spec].
- intros (l & r & ->%for_effect_spec & Hr & ->%of_member_spec). by exists r.
Qed.

Definition effect_required (s : Coordinator.t) (m : IntegrationCohortMember.t) (effect : string) : list EvidenceRequirement.t :=
  member_requirement m <$> effect_requirements s effect.
Definition member_required (s : Coordinator.t) (m : IntegrationCohortMember.t) : list EvidenceRequirement.t :=
  IntegrationCohortMember.declaredEffects m ≫= effect_required s m.
Lemma demanded_eq s cohort : demanded s cohort = CollaborationPolicy.requiredEvidence (Coordinator.policy s) ++
  (IntegrationCohort.members cohort ≫= member_required s).
Proof. done. Qed.
Lemma elem_of_member_required s m q : q ∈ member_required s m ↔
  ∃ effect, effect ∈ IntegrationCohortMember.declaredEffects m ∧ required_of s m effect q.
Proof.
unfold member_required. rewrite list_elem_of_bind.
split; intros (effect & H1 & H2); exists effect; [split; [done|by apply elem_of_effect_requirements]|].
split; [by apply elem_of_effect_requirements|done].
Qed.

(** The first of its slot among the requirements of the members, none of the policy. *)
Lemma first_by_effect s cohort q before after :
  (IntegrationCohort.members cohort ≫= member_required s) = before ++ q :: after →
  (∀ q', q' ∈ CollaborationPolicy.requiredEvidence (Coordinator.policy s) → slot q' ≠ slot q) →
  (∀ q', q' ∈ before → slot q' ≠ slot q) → required s cohort q.
Proof.
intros (ms & m & ms' & b & a & Hms & Hm & ->)%bind_split Hp Hb.
apply bind_split in Hm as (es & e & es' & b' & a' & Hes & He & ->).
apply fmap_app_inv in He as (rs & rl & -> & Hr & Hrs). destruct rl as [|r rs']; [done|]. injection Hr as -> _.
eapply (required_by_effect s cohort _ ms m ms' es e es' rs r rs'); [done|done|by apply for_effect_spec|
  by apply of_member_spec|done|..].
- intros q' m' effect' Hm' He' Hq'. apply Hb, elem_of_app. left. apply list_elem_of_bind. exists m'. split; [|done].
  apply elem_of_member_required. eauto.
- intros q' effect' He' Hq'. apply Hb, elem_of_app. right. apply elem_of_app. left. apply list_elem_of_bind.
  exists effect'. split; [by apply elem_of_effect_requirements|done].
- intros q' r' Hr' ->%of_member_spec. apply Hb, elem_of_app. right. apply elem_of_app. right. by apply list_elem_of_fmap_2.
Qed.
Lemma by_effect_first s cohort q ms m ms' effects effect effects' rs r rs' :
  IntegrationCohort.members cohort = ms ++ m :: ms' →
  IntegrationCohortMember.declaredEffects m = effects ++ effect :: effects' →
  effect_requirements s effect = rs ++ r :: rs' → q = member_requirement m r →
  ∃ after, (IntegrationCohort.members cohort ≫= member_required s) =
    ((ms ≫= member_required s) ++ (effects ≫= effect_required s m) ++ (member_requirement m <$> rs)) ++ q :: after.
Proof.
intros -> He Hr ->. rewrite bind_app, bind_cons. unfold member_required at 2. rewrite He, bind_app, bind_cons.
unfold effect_required at 2. rewrite Hr, fmap_app, fmap_cons. eexists. rewrite <-!app_assoc. done.
Qed.

Lemma requiredEvidenceFor_spec s cohort q : q ∈ requiredEvidenceFor s cohort ↔ required s cohort q.
Proof.
unfold requiredEvidenceFor. rewrite elem_of_first_of_key, demanded_eq. split.
- intros (before & after & Hq & _ & Hb).
  assert (∀ q', q' ∈ before → slot q' ≠ slot q) as Hb' by (intros q'; rewrite !slot_spec; auto).
  assert (∀ k, (IntegrationCohort.members cohort ≫= member_required s) = k ++ q :: after →
    before = CollaborationPolicy.requiredEvidence (Coordinator.policy s) ++ k → required s cohort q) as Hmembers.
  { intros k Hk ->. eapply first_by_effect; [exact Hk|..]; intros q' Hq'; apply Hb', elem_of_app; auto. }
  apply app_eq_inv in Hq as [([|x k] & H1 & H2)|(k & H1 & H2)]; simpl in *.
  + apply (Hmembers []); [by rewrite H2|]. by rewrite H1, !app_nil_r.
  + injection H2 as <- _. by eapply required_by_policy.
  + by apply (Hmembers k).
- intros [before after Hp Hb|ms m ms' es e es' rs r rs' Hms Hes Hr%for_effect_spec Hq%of_member_spec Hp Hm He Hrs].
  + exists before, (after ++ (IntegrationCohort.members cohort ≫= member_required s)). rewrite Hp, <-app_assoc.
    split_and!; [done|by apply not_elem_of_nil|]. intros q' Hq'. rewrite <-!slot_spec. auto.
  + destruct (by_effect_first s cohort q ms m ms' es e es' rs r rs' Hms Hes (eq_sym Hr) Hq) as [after Heq].
    rewrite Heq, app_assoc. eexists _, after. split_and!; [done|by apply not_elem_of_nil|].
    intros q'. rewrite <-!slot_spec, !elem_of_app. intros [Hq'|[Hq'|[Hq'|Hq']]]; [auto|..].
    * apply list_elem_of_bind in Hq' as (m' & Hq' & Hm'). apply elem_of_member_required in Hq' as (effect' & ? & ?). eauto.
    * apply list_elem_of_bind in Hq' as (effect' & Hq'%elem_of_effect_requirements & ?). eauto.
    * apply list_elem_of_fmap in Hq' as (r' & -> & Hr'). eapply Hrs; [done|]. by apply of_member_spec.
Qed.

Definition proven_b (evidence : list Evidence.t) (q : EvidenceRequirement.t) : Prop := ∃ before e after,
  evidence = before ++ e :: after ∧
  Evidence.key e = EvidenceRequirement.key q ∧ matchesContext q e = true ∧
  Evidence.validityKey e = EvidenceRequirement.currentValidityKey q ∧ Evidence.outcome e = EvidenceOutcome.passed ∧
  ∀ later, later ∈ after → Evidence.key later = EvidenceRequirement.key q → matchesContext q later = false.
Lemma proven_bool evidence q : proven_b evidence q ↔ proven evidence q.
Proof. unfold proven_b, proven. by setoid_rewrite matchesContext_false; setoid_rewrite matchesContext_spec. Qed.
Lemma evidence_blockers_nil cohort evidence q : evidence_blockers cohort evidence q = [] ↔ proven evidence q.
Proof.
rewrite <-proven_bool. unfold evidence_blockers, select_record, proven_b. cbv zeta.
set (records := base.filter _ evidence).
assert (∀ x, find_last (matchesContext q) records = Some x ↔
  ∃ before after, evidence = before ++ x :: after ∧ Evidence.key x = EvidenceRequirement.key q ∧
    matchesContext q x = true ∧
    ∀ y, y ∈ after → Evidence.key y = EvidenceRequirement.key q → matchesContext q y = false) as Hlast.
{ intros x. assert (find_last (matchesContext q) records =
    find_last (λ e, matchesContext q e && bool_decide (Evidence.key e = EvidenceRequirement.key q)) evidence) as ->.
  { unfold find_last, records. rewrite list_filter_filter. f_equal. apply list_filter_iff. intros e.
    by rewrite andb_true_iff, bool_decide_eq_true. }
  rewrite find_last_split. split.
  - intros (b & a & -> & [? ?%bool_decide_eq_true]%andb_true_iff & Ha). exists b, a. split_and!; [done..|].
    intros y Hy Hk. apply Ha, andb_false_iff in Hy as [?|Hn%bool_decide_eq_false]; [done|by destruct Hn].
  - intros (b & a & -> & Hk & Hm & Ha). exists b, a. split_and!; [done|by rewrite Hm, bool_decide_eq_true_2|].
    intros y Hy. apply andb_false_iff. destruct (decide (Evidence.key y = EvidenceRequirement.key q)); [left; auto|right].
    by apply bool_decide_eq_false_2. }
destruct (find_last _ records) as [e|] eqn:Hf.
- pose proof (proj1 (Hlast e) eq_refl) as (b & a & He & Hk & Hm & Ha). rewrite Hm. simpl.
  destruct (String.eqb_spec (Evidence.validityKey e) (EvidenceRequirement.currentValidityKey q)) as [Hv|Hv];
    case_bool_decide as Hp; simpl.
  + split; [intros _|done]. exists b, e, a. by split_and!.
  + split; [done|]. intros (b' & e' & a' & He' & Hk' & Hm' & Hv' & Hp' & Ha').
    assert (Some e = Some e') as [= ->]; [|done]. apply Hlast. exists b', a'. by split_and!.
  + split; [done|]. intros (b' & e' & a' & He' & Hk' & Hm' & Hv' & Hp' & Ha').
    assert (Some e = Some e') as [= ->]; [|done]. apply Hlast. exists b', a'. by split_and!.
  + split; [done|]. intros (b' & e' & a' & He' & Hk' & Hm' & Hv' & Hp' & Ha').
    assert (Some e = Some e') as [= ->]; [|done]. apply Hlast. exists b', a'. by split_and!.
- assert (∀ P : Prop, proven_b evidence q → P) as Hno.
  { intros P (b & e & a & He & Hk & Hm & _ & _ & Ha). assert (None = Some e) as Hx; [|done].
    apply Hlast. exists b, a. by split_and!. }
  destruct (last records) as [e|] eqn:He; [|split; [done|apply Hno]].
  assert (matchesContext q e = false) as Hm.
  { destruct (matchesContext q e) eqn:Hm; [|done]. unfold find_last in Hf. apply last_None in Hf.
    assert (e ∈ base.filter (λ x, matchesContext q x = true) records) as Hin.
    { apply list_elem_of_filter. split; [done|]. by eapply last_Some_elem_of. }
    rewrite Hf in Hin. by apply elem_of_nil in Hin. }
  rewrite Hm. simpl. case_bool_decide; simpl; (split; [done|apply Hno]).
Qed.

(** No blocker is found exactly of a cohort that may be landed. *)
Lemma blockers_nil `{Host} s cohort evidence :
  review_blockers cohort s ++ (requiredEvidenceFor s cohort ≫= evidence_blockers cohort evidence) = [] ↔
  landable s cohort evidence.
Proof.
unfold review_blockers, state_blockers, base_blockers. rewrite !app_nil, !if_nil, !fmap_filter_nil, !bind_nil.
rewrite bool_decide_eq_false, negb_false_iff, String.eqb_eq.
assert ((∀ q, q ∈ requiredEvidenceFor s cohort → evidence_blockers cohort evidence q = []) ↔
  ∀ q, required s cohort q → proven evidence q) as ->.
{ split; intros Hq q Hin; by apply (evidence_blockers_nil cohort evidence q), Hq, requiredEvidenceFor_spec. }
assert ((∀ q, q ∈ requirementsFor cohort s → requirement_blockers s q = []) ↔
  ∀ m r, m ∈ IntegrationCohort.members cohort → r ∈ Coordinator.ownershipRules s → touched m r →
    (∃ a, approves s cohort m r a) ∧ ∀ a, approves s cohort m r a → independent a) as ->.
{ unfold requirementsFor. split.
  - intros Hq m r Hm Hr Ha. apply col_requirement_blockers_nil, Hq, list_elem_of_bind. exists m. split; [|done].
    apply list_elem_of_fmap. exists r. split; [done|]. apply list_elem_of_filter. by rewrite affects_spec.
  - intros Hq q (m & Hin & Hm)%list_elem_of_bind. apply list_elem_of_fmap in Hin as (r & -> & [Ha%affects_spec Hr]%list_elem_of_filter).
    by apply col_requirement_blockers_nil, Hq. }
unfold conflicts_of, findings_of. split.
- intros ((Hs & Hb & Hc & Hf & Hr) & He). split; [done..| | |done|done].
  + intros x Hx Hid Hst Hsev. specialize (Hc x). unfold blocks_open in Hc. rewrite list_elem_of_filter in Hc.
    specialize (Hc (conj Hid Hx)). by rewrite Hst, Hsev in Hc.
  + intros f Hin Hid Hst. specialize (Hf f). unfold demands_change in Hf. rewrite list_elem_of_filter in Hf.
    specialize (Hf (conj Hid Hin)). rewrite Hst in Hf.
    apply orb_false_iff in Hf as [?%bool_decide_eq_false ?%bool_decide_eq_false]. done.
- intros [Hs Hb Hc Hf Hr He]. split_and!; [done..| | |done|done].
  + intros x [Hid Hx]%list_elem_of_filter. unfold blocks_open. apply andb_false_iff.
    destruct (decide (IntegrationConflict.state x = IntegrationConflictState.open)) as [Ho|Ho];
      [right|left]; apply bool_decide_eq_false; auto.
  + intros f [Hid Hin]%list_elem_of_filter. unfold demands_change. apply andb_false_iff.
    destruct (decide (ReviewFinding.state f = ReviewFindingState.open)) as [Ho|Ho]; [right|left; by apply bool_decide_eq_false].
    destruct (Hf f Hin Hid Ho) as [? ?]. apply orb_false_iff. split; by apply bool_decide_eq_false.
Qed.

(** * The records *)

(** The world has moved on. *)
Definition later (w w' : World) : Prop := (uuids_drawn w ≤ uuids_drawn w')%nat.
#[export] Instance later_preorder : PreOrder later.
Proof. unfold later. split; [by intros w|]. intros w1 w2 w3. lia. Qed.

(** The members of a cohort are distinct Changes at distinct revisions on its base. *)
Record members_ok (base : string) (ms : list IntegrationCohortMember.t) : Prop := {
  mb_some : ms ≠ [];
  mb_changes : NoDup (IntegrationCohortMember.changeId <$> ms);
  mb_revisions : NoDup (IntegrationCohortMember.changeRevisionId <$> ms);
  mb_base : ∀ m, m ∈ ms → IntegrationCohortMember.baseProjectRevisionId m = base;
}.
Record cohort_ok (projectId k : string) (c : IntegrationCohort.t) : Prop := {
  co_id : IntegrationCohort.id c = k;
  co_project : IntegrationCohort.projectId c = projectId;
  co_members : members_ok (IntegrationCohort.baseProjectRevisionId c) (IntegrationCohort.members c);
}.
(** An approval is independent, by someone the directory names for the rule. *)
Record approval_ok `{Host} w (rules : list ReviewOwnershipRule.t) (directory : list ReviewerDirectoryEntry.t) (k : string) (a : ReviewApproval.t) : Prop := {
  ap_id : ReviewApproval.id a = k;
  ap_drawn : drawn "review-approval" w k;
  ap_independent : independent a;
  ap_eligible : ∃ r entry, r ∈ rules ∧ entry ∈ directory ∧
    candidate_reviewer r entry = true ∧
    ReviewerDirectoryEntry.principalId entry = ActorRef.principalId (ReviewApproval.reviewer a) ∧
    ReviewApproval.requirementId a = stableId "review-requirement" (object
      [field "cohortId" (ReviewApproval.cohortId a); field "ruleId" (ReviewOwnershipRule.id r);
       field "changeId" (ReviewApproval.changeId a); field "changeRevisionId" (ReviewApproval.changeRevisionId a)]);
}.
Record finding_ok `{Host} w (cohorts : omap IntegrationCohort.t) (k : string) (f : ReviewFinding.t) : Prop := {
  fi_id : ReviewFinding.id f = k;
  fi_drawn : drawn "review-finding" w k;
  fi_cohort : is_Some (omap_get (ReviewFinding.cohortId f) cohorts);
  fi_resolved : ReviewFinding.state f = ReviewFindingState.open ↔ ReviewFinding.resolvedBy f = None;
}.

Record collaboration_ok `{Host} w (s : Coordinator.t) : Prop := {
  ck_project : ProjectRevision.projectId (Coordinator.canonicalRevision s) = Coordinator.projectId s;
  ck_policy : blank (CollaborationPolicy.version (Coordinator.policy s)) = false;
  ck_cohorts : omap_all (cohort_ok (Coordinator.projectId s)) (Coordinator.cohorts s);
  ck_conflicts : omap_all (λ k x, IntegrationConflict.id x = k ∧
    IntegrationConflict.projectId x = Coordinator.projectId s) (Coordinator.conflicts s);
  ck_findings : omap_all (finding_ok w (Coordinator.cohorts s)) (Coordinator.findings s);
  ck_approvals : omap_all (approval_ok w (Coordinator.ownershipRules s) (Coordinator.reviewerDirectory s)) (Coordinator.approvals s);
  ck_wf : omap_wf (Coordinator.conflicts s) ∧ omap_wf (Coordinator.findings s) ∧ omap_wf (Coordinator.approvals s);
  ck_audit : NoDup (CollaborationAuditEvent.id <$> Coordinator.audit s) ∧
    ∀ e, e ∈ Coordinator.audit s → drawn "collaboration-audit" w (CollaborationAuditEvent.id e) ∧
      CollaborationAuditEvent.projectId e = Coordinator.projectId s;
}.

(** What a call may do: settings and approvals stay, the audit grows at its end, a
    finding changes by being resolved, cohorts keep their ids. *)
Definition same_finding (f f' : ReviewFinding.t) : Prop :=
  f' = f <| ReviewFinding.state := ReviewFinding.state f' |> <| ReviewFinding.resolution := ReviewFinding.resolution f' |>
         <| ReviewFinding.resolvedBy := ReviewFinding.resolvedBy f' |>
         <| ReviewFinding.updatedAt := ReviewFinding.updatedAt f' |> <| ReviewFinding.receipt := ReviewFinding.receipt f' |> ∧
  (ReviewFinding.state f ≠ ReviewFindingState.open → ReviewFinding.state f' ≠ ReviewFindingState.open).
#[export] Instance same_finding_preorder : PreOrder same_finding.
Proof.
split; [intros []; by split|]. intros x y z [Hy Sy] [Hz Sz]. split; [|auto].
etrans; [exact Hz|]. rewrite Hy. by destruct x.
Qed.
Definition kept {V} (R : V → V → Prop) (m m' : omap V) : Prop :=
  ∀ k v, omap_get k m = Some v → ∃ v', omap_get k m' = Some v' ∧ R v v'.
#[export] Instance kept_preorder {V} (R : V → V → Prop) `{!PreOrder R} : PreOrder (kept R).
Proof.
split; [by intros m k v Hv; exists v|]. intros m1 m2 m3 H1 H2 k v Hv.
destruct (H1 k v Hv) as (v2 & Hv2 & ?). destruct (H2 k v2 Hv2) as (v3 & ? & ?). exists v3. split; [done|by etrans].
Qed.
Lemma kept_set {V} (R : V → V → Prop) `{!PreOrder R} m k v :
  (∀ u, omap_get k m = Some u → R u v) → kept R m (omap_set k v m).
Proof.
intros Hu k' u Hk. rewrite omap_get_set. case_decide as He; [|by exists u]. subst. exists v. auto.
Qed.

Record collaboration_evolves (s s' : Coordinator.t) : Prop := {
  cv_project : Coordinator.projectId s' = Coordinator.projectId s;
  cv_rules : Coordinator.ownershipRules s' = Coordinator.ownershipRules s;
  cv_directory : Coordinator.reviewerDirectory s' = Coordinator.reviewerDirectory s;
  cv_analyzers : Coordinator.analyzers s' = Coordinator.analyzers s;
  cv_cohorts : kept (λ _ _, True) (Coordinator.cohorts s) (Coordinator.cohorts s');
  cv_findings : kept same_finding (Coordinator.findings s) (Coordinator.findings s');
  cv_approvals : extends (Coordinator.approvals s) (Coordinator.approvals s');
  cv_audit : Coordinator.audit s `prefix_of` Coordinator.audit s';
}.
#[export] Instance True_preorder {V} : PreOrder (λ _ _ : V, True).
Proof. by split. Qed.
#[export] Instance collaboration_evolves_preorder : PreOrder collaboration_evolves.
Proof. split; [by intros s|]. intros s1 s2 s3 [] []. split; [congruence..|by etrans|by etrans|by etrans|by etrans]. Qed.

Section facts.
Context `{HH : Host} `{Fresh : !FreshUUIDs HH}.
Implicit Types (w : World) (s : Coordinator.t).
#[local] Abbreviation C := (M Coordinator.t CollaborationError.t).

Record next w s w' s' : Prop := {
  nx_later : later w w';
  nx_evolves : collaboration_evolves s s';
  nx_ok : collaboration_ok w' s';
}.
Lemma col_next_trans w1 s1 w2 s2 w3 s3 : next w1 s1 w2 s2 → next w2 s2 w3 s3 → next w1 s1 w3 s3.
Proof. intros [L1 E1 _] [L2 E2 O2]. split; [by etrans|by etrans|done]. Qed.
Lemma finding_ok_later w w' cohorts cohorts' k f : later w w' → kept (λ _ _, True) cohorts cohorts' →
  finding_ok w cohorts k f → finding_ok w' cohorts' k f.
Proof.
intros Hw Hk [H1 H2 [c Hc] H4]. split; [done|by eapply drawn_mono| |done]. destruct (Hk _ _ Hc) as (c' & ? & _). by exists c'.
Qed.
Lemma approval_ok_later w w' rules directory k a : later w w' →
  approval_ok w rules directory k a → approval_ok w' rules directory k a.
Proof. intros Hw [H1 H2 H3 H4]. split; [done|by eapply drawn_mono|done..]. Qed.
Lemma ok_later w w' s : later w w' → collaboration_ok w s → collaboration_ok w' s.
Proof.
intros Hw [H1 H2 H3 H4 H5 H6 H7 [H8 H9]]. split; [done..| | |done|].
- intros k f Hk. eapply finding_ok_later; [done| |by apply H5]. reflexivity.
- intros k a Hk. by eapply approval_ok_later, H6.
- split; [done|]. intros e He. destruct (H9 e He). split; [by eapply drawn_mono|done].
Qed.
Lemma next_draw w s w' : collaboration_ok w s → later w w' → next w s w' s.
Proof. intros Hs Hw. split; [done|done|by eapply ok_later]. Qed.
Lemma col_next_refl w s : collaboration_ok w s → next w s w s.
Proof. intros Hs. by apply next_draw; [|unfold later]. Qed.

Lemma next_audit w s w' e : collaboration_ok w s →
  CollaborationAuditEvent.id e = key "collaboration-audit" (uuids_drawn w) → (uuids_drawn w < uuids_drawn w')%nat →
  CollaborationAuditEvent.projectId e = Coordinator.projectId s →
  next w s w' (s <| Coordinator.audit := Coordinator.audit s ++ [e] |>).
Proof.
intros Hs Hid Hlt Hp. assert (later w w') as Hw by (unfold later; lia). split; [done|split; simpl; try done; by exists [e]|].
pose proof (ok_later _ _ _ Hw Hs) as [H1 H2 H3 H4 H5 H6 H7 [H8 H9]]. split; simpl; [done..|]. split.
- apply NoDup_fmap_snoc. split; [done|]. intros (x & Hx & Hin)%list_elem_of_fmap.
  destruct (proj2 (ck_audit _ _ Hs) x Hin) as [(n & Hn & Hk) _]. rewrite <-Hx, Hid in Hk. apply key_inj in Hk; [lia|done].
- intros x [Hx| ->%list_elem_of_singleton]%elem_of_app; [by apply H9|]. split; [|done]. exists (uuids_drawn w). done.
Qed.
Lemma wp_appendAudit input (Q : CollaborationAuditEvent.t → World → Coordinator.t → Prop) X w s :
  collaboration_ok w s → AppendAuditInput.projectId input = Coordinator.projectId s →
  (∀ e w' , next w s w' (s <| Coordinator.audit := Coordinator.audit s ++ [e] |>) →
     Q e w' (s <| Coordinator.audit := Coordinator.audit s ++ [e] |>)) → wp (appendAudit input : C _) Q X w s.
Proof.
intros Hs Hp HQ. unfold appendAudit. wp_step. apply wp_opaqueId. cbv beta. wp_steps. apply HQ, next_audit; [done|done| |done].
simpl. lia.
Qed.

(** ** Settings *)

Lemma nonEmpty_Ok v f u : nonEmpty v f = Ok u → blank v = false.
Proof. unfold nonEmpty. by destruct (blank v). Qed.
Lemma wp_setCanonical r w s : collaboration_ok w s →
  wp (setCanonicalProjectRevision r : C ()) (λ _ w' s', next w s w' s') (λ _ w' s', next w s w' s') w s.
Proof.
intros Hs. unfold setCanonicalProjectRevision. wp_step. wp_step. wp_step. wp_step; [by apply col_next_refl|].
wp_step. apply negb_false_iff, String.eqb_eq in H. split; [by unfold later|done|]. by destruct Hs; split.
Qed.
Lemma wp_activatePolicy p w s : collaboration_ok w s →
  wp (activatePolicy p : C ()) (λ _ w' s', next w s w' s' ∧ Coordinator.policy s' = p) (λ _ w' s', next w s w' s') w s.
Proof.
intros Hs. unfold activatePolicy. cbv zeta. wp_step. wp_step; [|by apply col_next_refl]. apply nonEmpty_Ok in H.
wp_step. wp_step. wp_step. wp_step; [by apply col_next_refl|]. wp_step. split; [|done].
split; [by unfold later|done|]. by destruct Hs; split.
Qed.

(** ** Cohorts *)

Lemma compose_member_Ok s base ms x m : compose_member s base ms x = Ok m →
  let change := CreateCohortMemberInput.change x in let revision := CreateCohortMemberInput.revision x in
  Change.projectId change = Coordinator.projectId s ∧
  IntegrationCohortMember.changeId m = Change.id change ∧
  IntegrationCohortMember.changeRevisionId m = ChangeRevision.id revision ∧
  IntegrationCohortMember.baseProjectRevisionId m = base ∧
  (Change.id change ∉ IntegrationCohortMember.changeId <$> ms) ∧
  (ChangeRevision.id revision ∉ IntegrationCohortMember.changeRevisionId <$> ms) ∧
  ChangeRevision.changeId revision = Change.id change ∧
  Change.latestRevisionId change = Some (ChangeRevision.id revision) ∧ Change.baseProjectRevisionId change = base ∧
  IntegrationCohortMember.declaredEffects m = ChangeRevision.declaredEffects revision.
Proof.
unfold compose_member. cbv zeta. set (change := CreateCohortMemberInput.change x). set (revision := CreateCohortMemberInput.revision x).
destruct (String.eqb_spec (Change.projectId change) (Coordinator.projectId s)); [|done]. cbn [negb].
destruct (list_includes _ _ || _) eqn:Hd; [done|]. apply orb_false_iff in Hd as [H1 H2].
rewrite <-not_true_iff_false, list_includes_spec in H1, H2.
destruct (String.eqb_spec (ChangeRevision.changeId revision) (Change.id change)); [|done]. cbn [negb].
case_bool_decide as Hl; [|done]. cbn [negb].
set (rb := default _ _). destruct (String.eqb_spec rb base); [|done].
destruct (String.eqb_spec (Change.baseProjectRevisionId change) base); [|done]. cbn [negb orb]. intros [= <-].
simpl. by split_and!.
Qed.
(** The members of a cohort, in the order asked. *)
Definition composed s (base : string) (x : CreateCohortMemberInput.t) (m : IntegrationCohortMember.t) : Prop :=
  IntegrationCohortMember.changeId m = Change.id (CreateCohortMemberInput.change x) ∧
  IntegrationCohortMember.changeRevisionId m = ChangeRevision.id (CreateCohortMemberInput.revision x) ∧
  Change.latestRevisionId (CreateCohortMemberInput.change x) = Some (IntegrationCohortMember.changeRevisionId m) ∧
  Change.projectId (CreateCohortMemberInput.change x) = Coordinator.projectId s ∧
  Change.baseProjectRevisionId (CreateCohortMemberInput.change x) = base ∧
  IntegrationCohortMember.declaredEffects m = ChangeRevision.declaredEffects (CreateCohortMemberInput.revision x).
Lemma compose_members_Ok s base xs ms r : compose_members s base xs ms = Ok r →
  NoDup (IntegrationCohortMember.changeId <$> ms) → NoDup (IntegrationCohortMember.changeRevisionId <$> ms) →
  (∀ m, m ∈ ms → IntegrationCohortMember.baseProjectRevisionId m = base) →
  NoDup (IntegrationCohortMember.changeId <$> r) ∧ NoDup (IntegrationCohortMember.changeRevisionId <$> r) ∧
  (∀ m, m ∈ r → IntegrationCohortMember.baseProjectRevisionId m = base) ∧
  ∃ new, r = ms ++ new ∧ Forall2 (composed s base) xs new.
Proof.
revert ms. induction xs as [|x xs IH]; intros ms; simpl.
{ intros [= <-] ? ? ?. split_and!; [done..|]. exists []. by rewrite app_nil_r. }
intros H H1 H2 H3. bind_inv. apply compose_member_Ok in H0 as (Hp & Hc & Hr & Hb & Hnc & Hnr & Hrc & Hl & Hcb & He).
apply IH in H as (G1 & G2 & G3 & new & -> & HF); [|apply NoDup_fmap_snoc; by rewrite Hc|apply NoDup_fmap_snoc; by rewrite Hr|].
- split_and!; [done..|]. exists (a :: new). split; [by rewrite <-app_assoc|]. constructor; [|done].
  unfold composed. rewrite Hr. by split_and!.
- intros m [Hm| ->%list_elem_of_singleton]%elem_of_app; auto.
Qed.

Definition composition_ok (p : Composition.t) : Prop := members_ok (Composition.baseProjectRevisionId p) (Composition.members p).
Lemma wp_createCohort_begin input Q X w s : collaboration_ok w s →
  (∀ p w', next w s w' s → composition_ok p →
     Forall2 (composed s (Composition.baseProjectRevisionId p)) (CreateCohortInput.members input) (Composition.members p) →
     Composition.input p = input → Composition.conflictIds p = [] → Composition.waiting p = Coordinator.analyzers s →
     Composition.baseProjectRevisionId p = default (ProjectRevision.id (Coordinator.canonicalRevision s))
       (CreateCohortInput.baseProjectRevisionId input) → Q p w' s) →
  (∀ e, X e w s) → wp (createCohort_begin input : C _) Q X w s.
Proof.
intros Hs HQ HX. unfold createCohort_begin. wp_step. wp_step. wp_step. wp_step; [apply HX|].
apply bool_decide_eq_false in H. cbv zeta. wp_step. wp_step; [|apply HX].
match goal with H : compose_members _ _ _ _ = Ok _ |- _ =>
  apply compose_members_Ok in H as (H1 & H2 & H3 & new & Hn & HF) end; [|constructor|constructor|by intros ? ?%elem_of_nil].
simpl in Hn. subst a.
assert (composition_ok (Composition.mk input (default (ProjectRevision.id (Coordinator.canonicalRevision s))
  (CreateCohortInput.baseProjectRevisionId input)) new "" [] [])) as Hok.
{ split; [|done..]. simpl. intros ->. by inversion HF. }
wp_step. wp_step.
- wp_step. wp_step. apply HQ; [by apply col_next_refl|exact Hok|done..].
- apply wp_opaqueId. cbv beta. wp_step. apply HQ; [apply next_draw; [done|unfold later; simpl; lia]|exact Hok|done..].
Qed.

(** A store of one record that does not break what is said of it. *)
Lemma next_conflict w s w' k x : collaboration_ok w s → later w w' → IntegrationConflict.id x = k →
  IntegrationConflict.projectId x = Coordinator.projectId s →
  next w s w' (s <| Coordinator.conflicts := omap_set k x (Coordinator.conflicts s) |>).
Proof.
intros Hs Hw Hid Hp. apply (ok_later _ w') in Hs as [H1 H2 H3 H4 H5 H6 (W1 & W2 & W3) H8]; [|done].
split; [done|by split|]. split; simpl; try done.
- by apply omap_all_set.
- split_and!; [by apply omap_set_wf|done..].
Qed.
Lemma next_cohort w s w' k c : collaboration_ok w s → later w w' → cohort_ok (Coordinator.projectId s) k c →
  next w s w' (s <| Coordinator.cohorts := omap_set k c (Coordinator.cohorts s) |>).
Proof.
intros Hs Hw Hc. apply (ok_later _ w') in Hs as [H1 H2 H3 H4 H5 H6 H7 H8]; [|done].
assert (kept (λ _ _, True) (Coordinator.cohorts s) (omap_set k c (Coordinator.cohorts s))) as Hkept by (by apply kept_set; [apply _|]).
split; [done|by split|]. split; simpl; try done.
- by apply omap_all_set.
- intros j f Hj. by eapply finding_ok_later; [|exact Hkept|apply H5].
Qed.
Lemma next_finding w s w' k f : collaboration_ok w s → later w w' → finding_ok w' (Coordinator.cohorts s) k f →
  (∀ f', omap_get k (Coordinator.findings s) = Some f' → same_finding f' f) →
  next w s w' (s <| Coordinator.findings := omap_set k f (Coordinator.findings s) |>).
Proof.
intros Hs Hw Hf Hsame. apply (ok_later _ w') in Hs as [H1 H2 H3 H4 H5 H6 (W1 & W2 & W3) H8]; [|done].
split; [done|split; simpl; try done|].
- by apply kept_set; [apply _|].
- split; simpl; try done; [by apply omap_all_set|]. split_and!; [done|by apply omap_set_wf|done].
Qed.
Lemma next_approval w s w' k a : collaboration_ok w s → later w w' →
  approval_ok w' (Coordinator.ownershipRules s) (Coordinator.reviewerDirectory s) k a →
  omap_get k (Coordinator.approvals s) = None →
  next w s w' (s <| Coordinator.approvals := omap_set k a (Coordinator.approvals s) |>).
Proof.
intros Hs Hw Ha Hnew. apply (ok_later _ w') in Hs as [H1 H2 H3 H4 H5 H6 (W1 & W2 & W3) H8]; [|done].
split; [done|split; simpl; try done|].
- by apply extends_set_fresh.
- split; simpl; try done; [by apply omap_all_set|]. split_and!; [done|done|by apply omap_set_wf].
Qed.
Lemma next_idempotency w s k v : collaboration_ok w s →
  next w s w (s <| Coordinator.idempotency := omap_set k v (Coordinator.idempotency s) |>).
Proof. intros Hs. split; [by unfold later|by split|by destruct Hs; split]. Qed.
Lemma later_mk w n m : (uuids_drawn w ≤ n)%nat → later w (mkWorld n m).
Proof. done. Qed.

(** The conflict that [detect] records of a candidate. *)
Definition records_conflict analyzerId (p : Composition.t) (x : IntegrationConflictCandidate.t) (c : IntegrationConflict.t) : Prop :=
  IntegrationConflict.cohortId c = Composition.cohortId p ∧ IntegrationConflict.analyzerId c = analyzerId ∧
  IntegrationConflict.state c = IntegrationConflictState.open ∧
  IntegrationConflict.severity c = IntegrationConflictCandidate.severity x ∧
  IntegrationConflict.kind c = IntegrationConflictCandidate.kind x ∧
  IntegrationConflict.changeIds c = set_of (IntegrationConflictCandidate.changeIds x).
(** A candidate that [detect] takes. *)
Definition sound_candidate (p : Composition.t) (x : IntegrationConflictCandidate.t) : Prop :=
  IntegrationConflictCandidate.changeIds x ≠ [] ∧
  (∀ i, i ∈ IntegrationConflictCandidate.changeIds x → i ∈ IntegrationCohortMember.changeId <$> Composition.members p) ∧
  blank (IntegrationConflictCandidate.description x) = false ∧ blank (IntegrationConflictCandidate.receipt x) = false.
Lemma set_of_nil l : set_of l = [] ↔ l = [].
Proof. split; [|by intros ->]. destruct l; [done|]. by simpl. Qed.
Lemma outside_cohort (p : Composition.t) ids :
  (length (set_of ids) <? 1)%nat || existsb (λ i, negb (list_includes (IntegrationCohortMember.changeId <$> Composition.members p) i))
    (set_of ids) = false ↔ ids ≠ [] ∧ ∀ i, i ∈ ids → i ∈ (IntegrationCohortMember.changeId <$> Composition.members p).
Proof.
rewrite orb_false_iff, Nat.ltb_ge, existsb_false_iff. rewrite <-(set_of_nil ids). split.
- intros [Hl Hi]. split; [by intros Hn; rewrite Hn in Hl; simpl in Hl; lia|]. intros i Hin.
  apply elem_of_set_of, Hi in Hin. by apply negb_false_iff, list_includes_spec in Hin.
- intros [Hn Hi]. split; [destruct (set_of ids); [done|simpl; lia]|]. intros i Hin.
  by apply negb_false_iff, list_includes_spec, Hi, elem_of_set_of.
Qed.

Lemma wp_detect analyzerId p ids x Q X w s : collaboration_ok w s →
  (sound_candidate p x → ∀ c w' e, records_conflict analyzerId p x c →
     let s1 := s <| Coordinator.conflicts := omap_set (IntegrationConflict.id c) c (Coordinator.conflicts s) |> in
     let s' := s1 <| Coordinator.audit := Coordinator.audit s1 ++ [e] |> in
     next w s w' s' → Q (ids ++ [IntegrationConflict.id c]) w' s') →
  (¬ sound_candidate p x → ∀ e, X e w s) →
  wp (detect analyzerId p ids x : C _) Q X w s.
Proof.
intros Hs HQ HX. unfold detect. cbv zeta. wp_step. wp_step.
{ apply HX. intros (H1 & H2 & _). pose proof (proj2 (outside_cohort p _) (conj H1 H2)) as Hf. congruence. }
apply outside_cohort in H as [H1 H2]. wp_step. wp_step.
2: { apply HX. intros (_ & _ & Hd & _). unfold nonEmpty in H. by rewrite Hd in H. }
apply nonEmpty_Ok in H. wp_step. wp_step.
2: { apply HX. intros (_ & _ & _ & Hr). unfold nonEmpty in H0. by rewrite Hr in H0. }
apply nonEmpty_Ok in H0. wp_step. wp_step. wp_step. wp_step. wp_step. wp_step.
match goal with |- context [omap_set _ ?c _] => set (c0 := c) end.
set (w1 := mkWorld _ _).
assert (next w s w1 (s <| Coordinator.conflicts := omap_set (IntegrationConflict.id c0) c0 (Coordinator.conflicts s) |>)) as N1.
{ by apply next_conflict; [|apply later_mk|..]. }
wp_step. apply wp_appendAudit; [apply N1|done|]. intros e w' N2. wp_step. apply HQ; [by split_and!|by split_and!|].
by eapply col_next_trans.
Qed.

(** Nothing but audit events were recorded. *)
Definition audited s (es : list CollaborationAuditEvent.t) : Coordinator.t :=
  s <| Coordinator.audit := Coordinator.audit s ++ es |>.
Lemma audited_nil s : audited s [] = s.
Proof. unfold audited. rewrite app_nil_r. by destruct s. Qed.
Lemma audited_app s es es' : audited (audited s es) es' = audited s (es ++ es').
Proof. unfold audited. destruct s; simpl. by rewrite <-app_assoc. Qed.
Definition only_audited w s w' s' : Prop := next w s w' s' ∧ ∃ es, s' = audited s es.
Lemma only_audited_refl w s : collaboration_ok w s → only_audited w s w s.
Proof. intros Hs. split; [by apply col_next_refl|]. exists []. by rewrite audited_nil. Qed.
Lemma only_audited_trans w1 s1 w2 s2 w3 s3 :
  only_audited w1 s1 w2 s2 → only_audited w2 s2 w3 s3 → only_audited w1 s1 w3 s3.
Proof.
intros [N1 [es ->]] [N2 [es' ->]]. split; [by eapply col_next_trans|]. exists (es ++ es'). by rewrite audited_app.
Qed.

Lemma wp_audit_author cohort actor m X w s : collaboration_ok w s →
  IntegrationCohort.projectId cohort = Coordinator.projectId s →
  wp (audit_author cohort actor m : C ()) (λ _ w' s', only_audited w s w' s') X w s.
Proof.
intros Hs Hp. unfold audit_author. wp_step.
- wp_step. apply wp_appendAudit; [done|done|]. intros e w' N. wp_step. split; [done|by exists [e]].
- wp_step. by apply only_audited_refl.
Qed.
(** A run of steps that only record audit events. *)
Lemma wp_for_each_audited {A} (f : A → C ()) l X w s : collaboration_ok w s →
  (∀ x w1 s1, only_audited w s w1 s1 → wp (f x) (λ _ w2 s2, only_audited w1 s1 w2 s2) X w1 s1) →
  wp (for_each l f) (λ _ w' s', only_audited w s w' s') X w s.
Proof.
intros Hs Hf. apply (wp_for_each (λ _ w2 s2, only_audited w s w2 s2)); [|done|by apply only_audited_refl].
intros pre x post w1 s1 _ N. eapply wp_mono; [by apply Hf| |done]. intros b2 w2 s2 N2. by eapply only_audited_trans.
Qed.
Lemma wp_fold_each_audited {A B} (f : B → A → C B) l b X w s : collaboration_ok w s →
  (∀ b x w1 s1, only_audited w s w1 s1 → wp (f b x) (λ _ w2 s2, only_audited w1 s1 w2 s2) X w1 s1) →
  wp (fold_each l f b) (λ _ w' s', only_audited w s w' s') X w s.
Proof.
intros Hs Hf. apply (wp_fold_each (λ _ _ w2 s2, only_audited w s w2 s2)); [|done|by apply only_audited_refl].
intros pre x post b' w1 s1 _ N. eapply wp_mono; [by apply Hf| |done]. intros b2 w2 s2 N2. by eapply only_audited_trans.
Qed.

(** The cohort that the composition ends in. *)
Record composed_cohort s (p : Composition.t) (c : IntegrationCohort.t) : Prop := {
  cc_id : IntegrationCohort.id c = Composition.cohortId p;
  cc_members : IntegrationCohort.members c = Composition.members p;
  cc_base : IntegrationCohort.baseProjectRevisionId c = Composition.baseProjectRevisionId p;
  cc_conflicts : IntegrationCohort.conflictIds c = Composition.conflictIds p;
  cc_state : IntegrationCohort.state c = if existsb (is_blocking s) (Composition.conflictIds p)
    then IntegrationCohortState.blocked else IntegrationCohortState.proposed;
}.
Lemma wp_createCohort_finish p X w s : collaboration_ok w s → composition_ok p →
  wp (createCohort_finish p : C _) (λ c w' s', next w s w' s' ∧ composed_cohort s p c ∧
    ∃ es, s' = audited (s <| Coordinator.cohorts := omap_set (Composition.cohortId p) c (Coordinator.cohorts s) |>) es) X w s.
Proof.
intros Hs Hp. unfold createCohort_finish. cbv zeta. do 8 wp_step.
match goal with |- context [omap_set _ ?c _] => set (c0 := c) end. set (w1 := mkWorld _ _).
set (s1 := s <| Coordinator.cohorts := omap_set (IntegrationCohort.id c0) c0 (Coordinator.cohorts s) |>).
assert (next w s w1 s1) as N1.
{ apply next_cohort; [exact Hs|by apply later_mk|by split]. }
wp_step. eapply wp_mono; [apply wp_for_each_audited; [apply N1|]| |done].
- intros m w2 s2 [N2 [es Hes]]. apply wp_audit_author; [apply N2|by rewrite Hes].
- intros _ w2 s2 [N2 Hes]. wp_step. split; [by eapply col_next_trans|]. by split; [split|].
Qed.

Lemma wp_createCohort_next p w s X : collaboration_ok w s → composition_ok p →
  wp (createCohort_next p : C _) (λ r w' s', next w s w' s' ∧
    match r with
    | inl p' => p' = p ∧ s' = s
    | inr c => Composition.waiting p = [] ∧ composed_cohort s p c ∧
        omap_get (Composition.cohortId p) (Coordinator.cohorts s') = Some c
    end) X w s.
Proof.
intros Hs Hp. unfold createCohort_next. destruct (Composition.waiting p) eqn:Hw.
- wp_step. eapply wp_mono; [by apply wp_createCohort_finish| |done]. intros c w' s' (N & Hc & es & ->). wp_step.
  split_and!; [done..|]. simpl. by rewrite omap_get_set_eq.
- wp_step. split; [by apply col_next_refl|done].
Qed.
(** What stays of a composition while its analyzers answer. *)
Definition same_composition (p p' : Composition.t) : Prop :=
  Composition.input p' = Composition.input p ∧ Composition.members p' = Composition.members p ∧
  Composition.baseProjectRevisionId p' = Composition.baseProjectRevisionId p ∧ Composition.cohortId p' = Composition.cohortId p.
Lemma wp_detect_all analyzerId p xs ids w s : collaboration_ok w s →
  wp (fold_each xs (detect analyzerId p) ids : C _) (λ _ w' s', next w s w' s') (λ _ w' s', next w s w' s') w s.
Proof.
intros Hs. apply (wp_fold_each (λ _ _ w' s', next w s w' s')); [|done|by apply col_next_refl].
intros pre x post b w1 s1 _ N. apply wp_detect; [apply N| |done]. intros _ c w' e _. cbv zeta. intros N2.
by eapply col_next_trans.
Qed.
Lemma wp_createCohort_answer p xs w s : collaboration_ok w s → composition_ok p →
  wp (createCohort_answer p xs : C _) (λ r w' s', next w s w' s' ∧
    match r with
    | inl p' => same_composition p p' ∧ Composition.waiting p' = tail (Composition.waiting p)
    | inr c => omap_get (Composition.cohortId p) (Coordinator.cohorts s') = Some c ∧
        IntegrationCohort.members c = Composition.members p ∧
        IntegrationCohort.baseProjectRevisionId c = Composition.baseProjectRevisionId p
    end) (λ _ w' s', next w s w' s') w s.
Proof.
intros Hs Hp. unfold createCohort_answer. destruct (Composition.waiting p) eqn:Hw.
{ wp_step. split; [by apply col_next_refl|]. by rewrite Hw. }
wp_step. eapply wp_mono; [by apply wp_detect_all| |done]. intros ids w1 s1 N1. cbv beta in N1.
eapply wp_mono; [apply (wp_createCohort_next _ _ _ (λ _ _ _, False)); [apply N1|exact Hp]| |done]. intros [p'|c] w2 s2 [N2 H].
- destruct H as [-> ->]. split; [by eapply col_next_trans|by split_and!].
- destruct H as (_ & [] & Hc). split; [by eapply col_next_trans|by split_and!].
Qed.
Lemma wp_createCohort_start input w s : collaboration_ok w s →
  wp (createCohort_start input : C _) (λ r w' s', next w s w' s' ∧
    match r with
    | inl p => composition_ok p ∧ Composition.conflictIds p = [] ∧ Composition.waiting p = Coordinator.analyzers s ∧
        Composition.input p = input
    | inr c => Coordinator.analyzers s = []
    end) (λ _ w' s', w' = w ∧ s' = s) w s.
Proof.
intros Hs. unfold createCohort_start. wp_step. apply wp_createCohort_begin; [done| |done].
intros p w1 N1 Hp _ Hi Hc Hw _. eapply wp_mono; [apply (wp_createCohort_next _ _ _ (λ _ _ _, False)); [apply N1|exact Hp]| |done].
intros [p'|c] w2 s2 [N2 H]; (split; [by eapply col_next_trans|]).
- destruct H as [-> ->]. done.
- destruct H as [Hn _]. by rewrite <-Hw.
Qed.

(** ** Review *)

Lemma wp_requireCohort id Q X w s :
  (∀ c, omap_get id (Coordinator.cohorts s) = Some c → Q c w s) →
  (omap_get id (Coordinator.cohorts s) = None → X (unknown_cohort id) w s) → wp (requireCohort id : C _) Q X w s.
Proof. intros HQ HX. unfold requireCohort. wp_step. wp_step. wp_step; auto. Qed.
Lemma wp_remember k id Q X w s : collaboration_ok w s →
  (∀ s', next w s w s' → Coordinator.projectId s' = Coordinator.projectId s → Q () w s') →
  wp (remember k id : C ()) Q X w s.
Proof.
intros Hs HQ. unfold remember. wp_step; wp_step; apply HQ; [|done|by apply col_next_refl|done]. by apply next_idempotency.
Qed.

Lemma wp_submitFinding input w s : collaboration_ok w s →
  wp (submitFinding input : C _) (λ _ w' s', next w s w' s') (λ _ w' s', next w s w' s') w s.
Proof.
intros Hs. pose proof (col_next_refl _ _ Hs) as Hrefl. unfold submitFinding. cbv zeta. wp_step.
apply wp_requireCohort; [|done]. intros cohort Hc. wp_step. unfold requireMember. wp_step; [done|].
wp_step. wp_step; [|done]. wp_step. wp_step. wp_step.
{ wp_step. wp_step. wp_step; [done|]. wp_step. wp_step; [done|]. by wp_step. }
wp_step. apply wp_opaqueId. cbv beta. do 4 wp_step. wp_step. unfold set_finding. wp_step.
match goal with |- context [omap_set _ ?f _] => set (f0 := f) end. set (w1 := mkWorld _ _).
assert (omap_get (key "review-finding" (uuids_drawn w)) (Coordinator.findings s) = None) as Hfree.
{ apply eq_None_not_Some. intros [f Hf%(ck_findings _ _ Hs)]. by apply fi_drawn, drawn_fresh in Hf. }
assert (next w s w1 (s <| Coordinator.findings := omap_set (ReviewFinding.id f0) f0 (Coordinator.findings s) |>)) as N1.
{ apply next_finding; [done|apply later_mk; simpl; lia| |intros f; change (ReviewFinding.id f0) with (key "review-finding" (uuids_drawn w)); by rewrite Hfree].
  split; [done|by exists (uuids_drawn w); split; [simpl; lia|]| |done]. simpl.
  apply (ck_cohorts _ _ Hs) in Hc as Hok. rewrite (co_id _ _ _ Hok). by exists cohort. }
wp_step. apply wp_remember; [apply N1|]. intros s2 N2 Hp. wp_step. apply wp_appendAudit; [apply N2|by rewrite Hp|].
intros e w' N3. wp_step. eapply col_next_trans; [exact N1|]. by eapply col_next_trans.
Qed.
Lemma wp_resolveFinding input w s : collaboration_ok w s →
  wp (resolveFinding input : C _) (λ _ w' s', next w s w' s') (λ _ w' s', next w s w' s') w s.
Proof.
intros Hs. pose proof (col_next_refl _ _ Hs) as Hrefl. unfold resolveFinding. cbv zeta. wp_step. wp_step. wp_step. wp_step; [done|].
wp_step. wp_step; [|done]. wp_step. wp_step. wp_step. unfold set_finding. wp_step.
match goal with H : omap_get _ _ = Some ?f |- _ => pose proof (ck_findings _ _ Hs _ _ H) as [Hid Hdr Hco Hst]; rename f into f0, H into Hf end.
set (w1 := mkWorld _ _). match goal with |- context [omap_set _ ?f _] => set (f1 := f) end.
assert (next w s w1 (s <| Coordinator.findings := omap_set (ReviewFinding.id f1) f1 (Coordinator.findings s) |>)) as N1.
{ apply next_finding; [done|by apply later_mk| |].
  - split; [done|change (ReviewFinding.id f1) with (ReviewFinding.id f0); by rewrite Hid|done|by split].
  - intros f'. change (ReviewFinding.id f1) with (ReviewFinding.id f0). rewrite Hid, Hf. intros [= <-]. by split. }
wp_step. apply wp_appendAudit; [apply N1|done|]. intros e w' N2. wp_step. by eapply col_next_trans.
Qed.

Lemma elem_of_requirementsFor cohort s q : q ∈ requirementsFor cohort s ↔ ∃ m r,
  m ∈ IntegrationCohort.members cohort ∧ r ∈ Coordinator.ownershipRules s ∧ affects m r = true ∧ q = requirement_of s cohort m r.
Proof.
unfold requirementsFor. rewrite list_elem_of_bind. split.
- intros (m & (r & -> & [Ha Hr]%list_elem_of_filter)%list_elem_of_fmap & Hm). by exists m, r.
- intros (m & r & Hm & Hr & Ha & ->). exists m. split; [|done]. apply list_elem_of_fmap. exists r. split; [done|].
  by apply list_elem_of_filter.
Qed.

Lemma wp_approve input w s : collaboration_ok w s →
  wp (approve input : C _) (λ _ w' s', next w s w' s') (λ _ w' s', next w s w' s') w s.
Proof.
intros Hs. pose proof (col_next_refl _ _ Hs) as Hrefl. unfold approve. cbv zeta. wp_step.
apply wp_requireCohort; [|done]. intros cohort Hc. wp_step. unfold requirementFor. wp_step. wp_step. wp_step; [done|].
wp_step. unfold requireMember. wp_step; [done|]. wp_step. wp_step; [done|]. wp_step. wp_step; [done|]. wp_step. wp_step.
wp_step.
{ wp_step. wp_step. wp_step; [done|]. wp_step. wp_step; [done|]. by wp_step. }
wp_step; [by wp_step|]. wp_step. apply wp_opaqueId. cbv beta. do 4 wp_step.
match goal with |- context [omap_set _ ?x _] => set (ap := x) end. set (w1 := mkWorld _ _).
match goal with H : find_first _ (requirementsFor _ _) = Some _ |- _ => apply find_first_Some in H as [Hq Hqid] end.
match goal with H : _ || _ = false |- _ => apply orb_false_iff in H as [Ha%bool_decide_eq_false Hv] end.
match goal with H : negb (list_includes _ _) = false |- _ => apply negb_false_iff, list_includes_spec in H as Hcand end.
apply elem_of_requirementsFor in Hq as (m & r & Hm & Hr & Hma & ->).
assert (next w s w1 (s <| Coordinator.approvals := omap_set (ReviewApproval.id ap) ap (Coordinator.approvals s) |>)) as N1.
{ apply next_approval; [done|apply later_mk; simpl; lia| |].
  - split; [done|by exists (uuids_drawn w); split; [simpl; lia|]| |].
    + split; simpl; [|by rewrite <-list_includes_spec, Hv]. intros [He _]%truthy_opt_Some. by destruct Ha.
    + simpl in Hcand. apply elem_of_set_of, list_elem_of_fmap in Hcand as (entry & Hp & [He Hin]%list_elem_of_filter).
      exists r, entry. by split_and!.
  - apply eq_None_not_Some. intros [x Hx%(ck_approvals _ _ Hs)]. by apply ap_drawn, drawn_fresh in Hx. }
wp_step. apply wp_remember; [apply N1|]. intros s2 N2 Hp. wp_step. apply wp_appendAudit; [apply N2|by rewrite Hp|].
intros e w' N3. wp_step. eapply col_next_trans; [exact N1|]. by eapply col_next_trans.
Qed.
Lemma col_wp_resolveConflict input w s : collaboration_ok w s →
  wp (resolveConflict input : C _) (λ _ w' s', next w s w' s') (λ _ w' s', next w s w' s') w s.
Proof.
intros Hs. pose proof (col_next_refl _ _ Hs) as Hrefl. unfold resolveConflict. cbv zeta. wp_step. wp_step. wp_step. wp_step; [done|].
wp_step. apply wp_requireCohort; [|done]. intros cohort Hc. wp_step. wp_step; [done|]. wp_step. wp_step. wp_step. wp_step.
match goal with H : omap_get _ (Coordinator.conflicts s) = Some _ |- _ => pose proof (ck_conflicts _ _ Hs _ _ H) as [Hid Hp] end.
set (w1 := mkWorld _ _). match goal with |- context [omap_set _ ?x _] => set (x1 := x) end.
assert (next w s w1 (s <| Coordinator.conflicts := omap_set (IntegrationConflict.id x1) x1 (Coordinator.conflicts s) |>)) as N1.
{ by apply next_conflict; [|apply later_mk|..]. }
wp_step. apply wp_appendAudit; [apply N1|done|]. intros e w' N2. wp_step. by eapply col_next_trans.
Qed.

(** ** The gate *)

Lemma wp_audit_verifier cohort seen e X w s : collaboration_ok w s →
  wp (audit_verifier cohort seen e : C _) (λ _ w' s', only_audited w s w' s') X w s.
Proof.
intros Hs. pose proof (only_audited_refl _ _ Hs). unfold audit_verifier. cbv zeta. wp_step; [|by wp_step].
wp_step; [by wp_step|]. wp_step. wp_step. wp_step. apply wp_appendAudit; [done|done|]. intros x w' N. wp_step.
split; [done|by exists [x]].
Qed.
(** The answer of [evaluateLanding] on the cohort. *)
Record evaluated s (cohort : IntegrationCohort.t) (evidence : list Evidence.t) (x : CollaborationPolicyExplanation.t) : Prop := {
  ev_cohort : CollaborationPolicyExplanation.cohortId x = IntegrationCohort.id cohort;
  ev_policy : CollaborationPolicyExplanation.policyVersion x = CollaborationPolicy.version (Coordinator.policy s);
  ev_allow : CollaborationPolicyExplanation.decision x = CollaborationDecision.allow ↔ landable s cohort evidence;
  ev_deny : CollaborationPolicyExplanation.decision x = CollaborationDecision.deny ↔ ¬ landable s cohort evidence;
  ev_blockers : CollaborationPolicyExplanation.blockers x = [] ↔ landable s cohort evidence;
}.
Lemma wp_evaluateLanding input w s : collaboration_ok w s →
  wp (evaluateLanding input : C _)
    (λ x w' s', only_audited w s w' s' ∧ ∃ cohort,
       omap_get (CollaborationEvaluationInput.cohortId input) (Coordinator.cohorts s) = Some cohort ∧
       evaluated s cohort (CollaborationEvaluationInput.evidence input) x)
    (λ e w' s', w' = w ∧ s' = s ∧ e = unknown_cohort (CollaborationEvaluationInput.cohortId input) ∧
       omap_get (CollaborationEvaluationInput.cohortId input) (Coordinator.cohorts s) = None) w s.
Proof.
intros Hs. unfold evaluateLanding. cbv zeta. wp_step. apply wp_requireCohort; [|done]. intros cohort Hc.
wp_step. wp_step. wp_step. eapply wp_mono; [apply (wp_fold_each_audited _ _ _ (λ _ _ _, False)); [done|]| |done].
{ intros b x w1 s1 [N _]. apply wp_audit_verifier, N. }
intros seen w1 s1 N1. wp_step. apply wp_opaqueId. cbv beta. wp_step. split.
{ eapply only_audited_trans; [exact N1|]. split; [|by exists []; rewrite audited_nil].
  apply next_draw; [apply N1|unfold later; simpl; lia]. }
exists cohort. split; [done|]. set (bs := review_blockers cohort s ++ _).
pose proof (blockers_nil s cohort (CollaborationEvaluationInput.evidence input)) as Hb. fold bs in Hb.
assert (∀ x, CollaborationPolicyExplanation.cohortId x = IntegrationCohort.id cohort →
  CollaborationPolicyExplanation.policyVersion x = CollaborationPolicy.version (Coordinator.policy s) →
  CollaborationPolicyExplanation.decision x = (if bool_decide (bs = []) then CollaborationDecision.allow else CollaborationDecision.deny) →
  (CollaborationPolicyExplanation.blockers x = [] ↔ bs = []) →
  evaluated s cohort (CollaborationEvaluationInput.evidence input) x) as Hx.
{ intros x H1 H2 H3 H4. split; [done|done| | |by rewrite H4].
  all: rewrite H3, <-Hb; by case_bool_decide. }
assert (∀ a v x, CollaborationPolicyExplanation.blockers (projectExplanation x a v) = [] ↔
  CollaborationPolicyExplanation.blockers x = []) as Hp.
{ intros a v x. unfold projectExplanation. simpl. by destruct (CollaborationPolicyExplanation.blockers x). }
destruct (CollaborationEvaluationInput.audience input), (CollaborationEvaluationInput.visibleScopeIds input);
  (apply Hx; [done|done|done|]); [apply Hp..|done].
Qed.

(** ** Landing *)

(** The landing passed the gate in the state where it began. *)
Definition cleared s (evidence : list Evidence.t) (p : PendingLanding.t) : Prop :=
  let cohort := PendingLanding.cohort p in
  landable s cohort evidence ∧ omap_get (IntegrationCohort.id cohort) (Coordinator.cohorts s) = Some cohort ∧
  Coordinator.landingAuthority s = true ∧
  CollaborationPolicyExplanation.cohortId (PendingLanding.explanation p) = IntegrationCohort.id cohort.
Lemma wp_land_begin input actor w s : collaboration_ok w s →
  wp (land_begin input actor : C _)
    (λ p w' s', only_audited w s w' s' ∧ cleared s (CollaborationEvaluationInput.evidence input) p ∧
       IntegrationCohort.id (PendingLanding.cohort p) = CollaborationEvaluationInput.cohortId input)
    (λ _ w' s', only_audited w s w' s') w s.
Proof.
intros Hs. unfold land_begin. cbv zeta. wp_step. eapply wp_mono; [by apply wp_evaluateLanding| |].
2: { intros e w' s' (-> & -> & _). by apply only_audited_refl. }
intros x w1 s1 (N & cohort & Hc & Hx). pose proof N as [_ [es ->]]. wp_step. wp_step; [done|].
apply negb_false_iff, bool_decide_eq_true in H. wp_step. wp_step. wp_step. wp_step; [done|]. apply negb_false_iff in H0.
wp_step. apply wp_requireCohort; [|done]. intros cohort' Hc'. wp_step. simpl in Hc', H0. assert (cohort' = cohort) as -> by congruence.
apply (ck_cohorts _ _ Hs) in Hc as Hok. apply co_id in Hok. split; [done|]. split; [|done].
split_and!; simpl; [by apply Hx|by rewrite Hok|done|apply Hx].
Qed.

Lemma sameSet_spec l r : NoDup r → sameSet l r = true ↔ ∀ x, x ∈ l ↔ x ∈ r.
Proof.
intros Hr. unfold sameSet. rewrite andb_true_iff, Nat.eqb_eq, forallb_forall.
assert ((∀ x, In x (set_of l) → list_includes r x = true) ↔ set_of l ⊆ r) as ->.
{ split; intros Hx x Hin; [apply list_includes_spec, Hx, list_elem_of_In, Hin|].
  by apply list_includes_spec, Hx, list_elem_of_In. }
pose proof (NoDup_set_of l) as Hl. assert (NoDup (set_of r)) as Hr' by apply NoDup_set_of.
split.
- intros [Hlen Hsub] x. split; [intros Hx; by apply Hsub, elem_of_set_of|].
  assert (set_of l ≡ₚ set_of r) as Hperm.
  { apply submseteq_length_Permutation; [|lia]. apply NoDup_submseteq; [done|]. intros y Hy. by apply elem_of_set_of, Hsub. }
  intros Hx%elem_of_set_of. rewrite <-Hperm in Hx. by apply elem_of_set_of.
- intros He. split.
  + apply Permutation_length, NoDup_Permutation; [done..|]. intros x. by rewrite !elem_of_set_of.
  + intros x Hx. by apply He, elem_of_set_of.
Qed.
(** The authority's answer is about exactly the members asked for. *)
Record lands s (cohort : IntegrationCohort.t) (landing : Landing.t) : Prop := {
  la_project : Landing.projectId landing = Coordinator.projectId s;
  la_cohort : Landing.cohortId landing = Some (IntegrationCohort.id cohort);
  la_changes : ∀ i, i ∈ default [] (Landing.changeIds landing) ↔
    i ∈ (IntegrationCohortMember.changeId <$> IntegrationCohort.members cohort);
  la_revisions : ∀ i, i ∈ default [] (Landing.changeRevisionIds landing) ↔
    i ∈ (IntegrationCohortMember.changeRevisionId <$> IntegrationCohort.members cohort);
}.
Lemma landing_matches_spec s cohort landing k : cohort_ok (Coordinator.projectId s) k cohort →
  landing_matches (Coordinator.projectId s) cohort landing = true ↔ lands s cohort landing.
Proof.
intros [_ _ [_ H1 H2 _]]. unfold landing_matches. rewrite !andb_true_iff, String.eqb_eq, bool_decide_eq_true, !sameSet_spec by done.
split; [intros [[[]]]|intros []]; by split_and! || by split.
Qed.

(** The pending landing's cohort is one of the Project. *)
Definition pending_ok s (p : PendingLanding.t) : Prop :=
  cohort_ok (Coordinator.projectId s) (IntegrationCohort.id (PendingLanding.cohort p)) (PendingLanding.cohort p).
Definition landed_from (c c' : IntegrationCohort.t) : Prop :=
  c' = c <| IntegrationCohort.state := IntegrationCohortState.landed |>
         <| IntegrationCohort.updatedAt := IntegrationCohort.updatedAt c' |>
         <| IntegrationCohort.receipt := IntegrationCohort.receipt c' |>.
Lemma wp_land_finish p landing w s : collaboration_ok w s → pending_ok s p →
  wp (land_finish p landing : C _)
    (λ r w' s', next w s w' s' ∧ lands s (PendingLanding.cohort p) landing ∧
       r = CollaborationLandingResult.mk landing (PendingLanding.explanation p) ∧
       ∃ c es, landed_from (PendingLanding.cohort p) c ∧
         s' = audited (s <| Coordinator.cohorts := omap_set (IntegrationCohort.id c) c (Coordinator.cohorts s) |>) es)
    (λ _ w' s', w' = w ∧ s' = s ∧ ¬ lands s (PendingLanding.cohort p) landing) w s.
Proof.
intros Hs Hp. unfold land_finish. cbv zeta. wp_step. wp_step. wp_step. wp_step.
{ split_and!; [done..|]. rewrite <-(landing_matches_spec s _ landing _ Hp). by destruct (landing_matches _ _ _). }
apply negb_false_iff, (landing_matches_spec _ _ _ _ Hp) in H. wp_step. wp_step. wp_step. wp_step. wp_step. wp_step.
match goal with |- context [omap_set _ ?c _] => set (c0 := c) end. set (w1 := mkWorld _ _).
assert (next w s w1 (s <| Coordinator.cohorts := omap_set (IntegrationCohort.id c0) c0 (Coordinator.cohorts s) |>)) as N1.
{ apply next_cohort; [done|by apply later_mk|]. by destruct Hp as [H1 H2 H3]; split. }
wp_step. apply wp_appendAudit; [apply N1|done|]. intros e w' N2. wp_step. split; [by eapply col_next_trans|].
split_and!; [done..|]. by exists c0, [e].
Qed.
Lemma wp_recordPromotionAuthority input w s : collaboration_ok w s →
  wp (recordPromotionAuthority input : C _) (λ _ w' s', only_audited w s w' s') (λ _ w' s', only_audited w s w' s') w s.
Proof.
intros Hs. pose proof (only_audited_refl _ _ Hs). unfold recordPromotionAuthority. do 2 (wp_step; wp_step; [|done]).
do 2 (wp_step; wp_step; [|done]). wp_step. wp_step. apply wp_appendAudit; [done|done|]. intros e w' N. split; [done|by exists [e]].
Qed.

(** ** The constructor *)

Lemma construct_spec input s : construct input = Ok s →
  Coordinator.projectId s = CollaborationCoordinatorInput.projectId input ∧
  Coordinator.cohorts s = [] ∧ Coordinator.audit s = [] ∧ ∀ w, collaboration_ok w s.
Proof.
unfold construct. intros H. bind_inv. destruct (String.eqb_spec
  (ProjectRevision.projectId (CollaborationCoordinatorInput.canonicalRevision input)) (CollaborationCoordinatorInput.projectId input));
  [|done]. cbn [negb] in H. bind_inv. injection H as <-. split_and!; [done..|]. intros w.
split; simpl; try done; [by eapply nonEmpty_Ok|by split_and!; constructor|]. split; [constructor|].
by intros e0 ?%elem_of_nil.
Qed.
End facts.
