(* ===== verification/CollaborationLife.v ===== *)
(** Collaboration over time: what holds of every state that the coordinator
    reaches, whatever is called, whatever the analyzers and the Landing authority
    answer, and wherever the asynchronous methods are interrupted. *)

From S2P Require Import Prelude Json Contracts ContractsJson EvidenceLedger Collaboration CollaborationFacts.

(** * The system *)

Section system.
Context `{HH : Host}.
#[local] Abbreviation C := (M Coordinator.t CollaborationError.t).

(** The methods that run to their end. *)
Inductive col_call :=
| col_canonicalProjectRevision
| col_setCanonicalProjectRevision (revision : ProjectRevision.t)
| col_activatePolicy (policy : CollaborationPolicy.t)
| col_getCohort (cohortId : string)
| col_listCohorts
| col_listConflicts (cohortId : string)
| col_listFindings (cohortId : string)
| col_listApprovals (cohortId : string)
| col_listAuditEvents
| col_listReviewRequirements (cohortId : string)
| col_submitFinding (input : SubmitFindingInput.t)
| col_resolveFinding (input : ResolveFindingInput.t)
| col_approve (input : ApproveInput.t)
| col_resolveConflict (input : ResolveConflictInput.t)
| col_evaluateLanding (input : CollaborationEvaluationInput.t)
| col_recordPromotionAuthority (input : PromotionAuthorityInput.t)
| col_projectCohort (input : ProjectCohortInput.t).
Definition ran {A} (m : C A) : C () := m ;; mret ().
Definition col_run (c : col_call) : C () :=
  match c with
  | col_canonicalProjectRevision => ran canonicalProjectRevision
  | col_setCanonicalProjectRevision r => setCanonicalProjectRevision r
  | col_activatePolicy p => activatePolicy p
  | col_getCohort id => ran (getCohort id)
  | col_listCohorts => ran listCohorts
  | col_listConflicts id => ran (listConflicts id)
  | col_listFindings id => ran (listFindings id)
  | col_listApprovals id => ran (listApprovals id)
  | col_listAuditEvents => ran listAuditEvents
  | col_listReviewRequirements id => ran (listReviewRequirements id)
  | col_submitFinding input => ran (submitFinding input)
  | col_resolveFinding input => ran (resolveFinding input)
  | col_approve input => ran (approve input)
  | col_resolveConflict input => ran (resolveConflict input)
  | col_evaluateLanding input => ran (evaluateLanding input)
  | col_recordPromotionAuthority input => ran (recordPromotionAuthority input)
  | col_projectCohort input => ran (projectCohort input)
  end.

(** A coordinator, the [createCohort]s that wait for an analyzer and the [land]s
    that wait for the authority. *)
Record System := mkSystem {
  col_world : World;
  col_state : Coordinator.t;
  compositions : list Composition.t;
  landings : list PendingLanding.t;
}.
(** What a call leaves waiting. *)
Definition still_composing (o : outcome CollaborationError.t (Composition.t + IntegrationCohort.t)) : list Composition.t :=
  match o with Ok (inl p) => [p] | _ => [] end.
Definition still_landing (o : outcome CollaborationError.t PendingLanding.t) : list PendingLanding.t :=
  match o with Ok p => [p] | Throw _ => [] end.

Inductive col_step : System → System → Prop :=
| step_elsewhere w w' s ps ls : later w w' → col_step (mkSystem w s ps ls) (mkSystem w' s ps ls)
| step_call c w s ps ls o w' s' : col_run c w s = (o, w', s') →
    col_step (mkSystem w s ps ls) (mkSystem w' s' ps ls)
| step_create input w s ps ls o w' s' : createCohort_start input w s = (o, w', s') →
    col_step (mkSystem w s ps ls) (mkSystem w' s' (ps ++ still_composing o) ls)
| step_answer candidates w s ps p qs ls o w' s' : createCohort_answer p candidates w s = (o, w', s') →
    col_step (mkSystem w s (ps ++ p :: qs) ls) (mkSystem w' s' (ps ++ still_composing o ++ qs) ls)
| step_analyzer_fails w s ps p qs ls :
    col_step (mkSystem w s (ps ++ p :: qs) ls) (mkSystem w s (ps ++ qs) ls)
| step_land input actor w s ps ls o w' s' : land_begin input actor w s = (o, w', s') →
    col_step (mkSystem w s ps ls) (mkSystem w' s' ps (ls ++ still_landing o))
| step_landed landing w s ps ls p ks o w' s' : land_finish p landing w s = (o, w', s') →
    col_step (mkSystem w s ps (ls ++ p :: ks)) (mkSystem w' s' ps (ls ++ ks))
| step_landing_fails w s ps ls p ks :
    col_step (mkSystem w s ps (ls ++ p :: ks)) (mkSystem w s ps (ls ++ ks)).
(** A new coordinator. *)
Definition col_initial (input : CollaborationCoordinatorInput.t) (y : System) : Prop :=
  construct input = Ok (col_state y) ∧ compositions y = [] ∧ landings y = [].
Definition col_reachable input (y : System) : Prop := ∃ y0, col_initial input y0 ∧ rtc col_step y0 y.
End system.

(** * What holds *)

Section facts.
Context `{HH : Host} `{Fresh : !FreshUUIDs HH}.
Implicit Types (w : World) (s : Coordinator.t) (y : System).
#[local] Abbreviation C := (M Coordinator.t CollaborationError.t).

(** Every cohort that has landed had already. *)
Definition lands_nothing s s' : Prop := ∀ k c, omap_get k (Coordinator.cohorts s') = Some c →
  IntegrationCohort.state c = IntegrationCohortState.landed → omap_get k (Coordinator.cohorts s) = Some c.
Lemma lands_nothing_refl s : lands_nothing s s.
Proof. by intros k c. Qed.
Lemma lands_nothing_set s s' k c : lands_nothing s s' → IntegrationCohort.state c ≠ IntegrationCohortState.landed →
  lands_nothing s (s' <| Coordinator.cohorts := omap_set k c (Coordinator.cohorts s') |>).
Proof. intros Hs Hc j d. simpl. rewrite omap_get_set. case_decide; [by intros [= <-]|apply Hs]. Qed.

Section keeps.
Context (s0 : Coordinator.t).
#[local] Abbreviation I := (λ (_ : World) s, lands_nothing s0 s).
#[local] Hint Extern 1 (keeps _ (modify _)) => apply keeps_modify; by intros ? ? : anyam_keeps.

Lemma col_keeps_opaqueId p : keeps I (opaqueId p : C _).
Proof. unfold opaqueId. solve_keeps. Qed.
#[local] Hint Resolve col_keeps_opaqueId : anyam_keeps.
Lemma keeps_appendAudit input : keeps I (appendAudit input : C _).
Proof. unfold appendAudit. solve_keeps. Qed.
#[local] Hint Resolve keeps_appendAudit : anyam_keeps.
Lemma keeps_requireCohort id : keeps I (requireCohort id : C _).
Proof. unfold requireCohort. solve_keeps. Qed.
Lemma keeps_requireMember c i j : keeps I (requireMember c i j : C _).
Proof. unfold requireMember. solve_keeps. Qed.
Lemma keeps_requirementFor c i : keeps I (requirementFor c i : C _).
Proof. unfold requirementFor. solve_keeps. Qed.
Lemma keeps_remember k v : keeps I (remember k v : C _).
Proof. unfold remember. solve_keeps. Qed.
Lemma keeps_set_finding f : keeps I (set_finding f : C _).
Proof. unfold set_finding. solve_keeps. Qed.
#[local] Hint Resolve keeps_requireCohort keeps_requireMember keeps_requirementFor keeps_remember keeps_set_finding : anyam_keeps.
Lemma keeps_evaluateLanding input : keeps I (evaluateLanding input : C _).
Proof. unfold evaluateLanding, audit_verifier. solve_keeps. Qed.
#[local] Hint Resolve keeps_evaluateLanding : anyam_keeps.
Lemma keeps_col_run c : keeps I (col_run c).
Proof.
destruct c; simpl; unfold ran, canonicalProjectRevision, setCanonicalProjectRevision, activatePolicy, getCohort, listCohorts,
  listConflicts, listFindings, listApprovals, listAuditEvents, listReviewRequirements, submitFinding, resolveFinding, approve,
  resolveConflict, recordPromotionAuthority, projectCohort; solve_keeps.
Qed.
Lemma keeps_land_begin input actor : keeps I (land_begin input actor : C _).
Proof. unfold land_begin. solve_keeps. Qed.
Lemma keeps_createCohort_finish p : keeps I (createCohort_finish p : C _).
Proof.
unfold createCohort_finish, audit_author. cbv zeta. apply keeps_bind; [solve_keeps|intros s]. do 2 (apply keeps_bind; [solve_keeps|intros ?]).
apply keeps_bind; [|solve_keeps]. apply keeps_modify. intros w s' Hs'. apply lands_nothing_set; [done|]. simpl.
by destruct (existsb _ _).
Qed.
#[local] Hint Resolve keeps_createCohort_finish : anyam_keeps.
Lemma keeps_createCohort_start input : keeps I (createCohort_start input : C _).
Proof. unfold createCohort_start, createCohort_begin, createCohort_next. solve_keeps. Qed.
Lemma keeps_createCohort_answer p xs : keeps I (createCohort_answer p xs : C _).
Proof. unfold createCohort_answer, createCohort_next, detect. solve_keeps. Qed.
End keeps.

(** ** Every step moves the records on *)

Lemma wp_ran {A} (m : C A) (Q : World → Coordinator.t → Prop) w s :
  wp m (λ _ w' s', Q w' s') (λ _ w' s', Q w' s') w s → wp (ran m) (λ _ w' s', Q w' s') (λ _ w' s', Q w' s') w s.
Proof. intros Hm. unfold ran. wp_step. eapply wp_mono; [exact Hm| |done]. intros. by wp_step. Qed.
Lemma wp_col_run c w s : collaboration_ok w s →
  wp (col_run c) (λ _ w' s', next w s w' s') (λ _ w' s', next w s w' s') w s.
Proof.
intros Hs. pose proof (col_next_refl _ _ Hs) as Hrefl.
assert (∀ A (m : C A), readonly m → wp m (λ _ w' s', next w s w' s') (λ _ w' s', next w s w' s') w s) as Hro.
{ intros A m Hm. by apply wp_readonly. }
destruct c; simpl; try (apply wp_ran); try (by apply Hro; unfold canonicalProjectRevision, getCohort, listCohorts,
  listConflicts, listFindings, listApprovals, listAuditEvents, listReviewRequirements, projectCohort, requireCohort; solve_readonly).
- by apply wp_setCanonical.
- eapply wp_mono; [by apply wp_activatePolicy|by intros ? ? ? []|done].
- by apply wp_submitFinding.
- by apply wp_resolveFinding.
- by apply wp_approve.
- by apply col_wp_resolveConflict.
- eapply wp_mono; [by apply wp_evaluateLanding|by intros ? ? ? [[]]|]. by intros ? ? ? (-> & -> & _).
- eapply wp_mono; [by apply wp_recordPromotionAuthority|by intros ? ? ? []|by intros ? ? ? []].
Qed.

Record system_ok y : Prop := {
  so_state : collaboration_ok (col_world y) (col_state y);
  so_compositions : Forall composition_ok (compositions y);
  so_landings : Forall (pending_ok (col_state y)) (landings y);
}.
Definition system_moves y y' : Prop := next (col_world y) (col_state y) (col_world y') (col_state y') ∧ system_ok y'.

Lemma pending_ok_evolves s s' p : collaboration_evolves s s' → pending_ok s p → pending_ok s' p.
Proof. intros He. unfold pending_ok. by rewrite (cv_project _ _ He). Qed.
Lemma pendings_ok_evolves s s' ps : collaboration_evolves s s' → Forall (pending_ok s) ps → Forall (pending_ok s') ps.
Proof. intros He Hps. eapply Forall_impl; [exact Hps|]. intros p. by apply pending_ok_evolves. Qed.
Lemma Forall_middle {A} (P : A → Prop) l x k : Forall P (l ++ x :: k) ↔ P x ∧ Forall P (l ++ k).
Proof. rewrite !Forall_app, Forall_cons. tauto. Qed.

Lemma system_step y y' : system_ok y → col_step y y' → system_moves y y'.
Proof.
intros [Hs Hps Hls]. destruct 1 as [w w' s ps ls Hw|c w s ps ls o w' s' Hr|input w s ps ls o w' s' Hr|xs w s ps p qs ls o w' s' Hr|
  w s ps p qs ls|input actor w s ps ls o w' s' Hr|landing w s ps ls p ks o w' s' Hr|w s ps ls p ks]; simpl in *.
all: try (apply Forall_middle in Hps as [Hp Hps]); try (apply Forall_middle in Hls as [Hp Hls]).
- assert (next w s w' s) as N by (by apply next_draw). split; [done|]. split; [apply N|done..].
- assert (next w s w' s') as N by (eapply wp_run in Hr; [|by apply wp_col_run]; by destruct o).
  split; [done|]. split; [apply N|done|]. eapply pendings_ok_evolves; [apply N|done].
- eapply wp_run in Hr; [|by apply wp_createCohort_start].
  assert (next w s w' s' ∧ Forall composition_ok (still_composing o)) as [N Hnew].
  { destruct o as [[p|c]|e]; simpl; [|by split; [apply Hr|]|by destruct Hr as [-> ->]; split; [apply col_next_refl|]].
    destruct Hr as (N & Hp & _). split; [done|by apply Forall_singleton]. }
  split; [done|]. split; [apply N|by apply Forall_app|]. eapply pendings_ok_evolves; [apply N|done].
- eapply wp_run in Hr; [|by apply wp_createCohort_answer].
  assert (next w s w' s' ∧ Forall composition_ok (still_composing o)) as [N Hnew].
  { destruct o as [[q|c]|e]; simpl; [|by split; [apply Hr|]|by split].
    destruct Hr as (N & (_ & Hm & Hb & _) & _). split; [done|]. apply Forall_singleton. unfold composition_ok. by rewrite Hm, Hb. }
  split; [done|]. apply Forall_app in Hps as [? ?]. split; [apply N|by apply Forall_app; split; [|by apply Forall_app]|].
  eapply pendings_ok_evolves; [apply N|done].
- split; [by apply col_next_refl|by split].
- eapply wp_run in Hr; [|by apply wp_land_begin].
  assert (next w s w' s') as N by (destruct o; [apply Hr|apply Hr]).
  split; [done|]. split; [apply N|done|]. apply Forall_app. split; [eapply pendings_ok_evolves; [apply N|done]|].
  destruct o as [p|e]; [|done]. apply Forall_singleton. eapply pending_ok_evolves; [apply N|].
  destruct Hr as (_ & (_ & Hc & _) & _). by eapply (ck_cohorts _ _ Hs).
- eapply wp_run in Hr; [|by apply wp_land_finish].
  assert (next w s w' s') as N by (destruct o; [apply Hr|destruct Hr as (-> & -> & _); by apply col_next_refl]).
  split; [done|]. split; [apply N|done|]. eapply pendings_ok_evolves; [apply N|done].
- split; [by apply col_next_refl|by split].
Qed.
Lemma system_run y y' : system_ok y → rtc col_step y y' → system_moves y y'.
Proof.
intros Hy. induction 1 as [y|y1 y2 y3 H12 H23 IH]; [split; [apply col_next_refl, Hy|done]|].
apply system_step in H12 as [N2 H2]; [|done]. destruct (IH H2) as [N3 H3]. split; [by eapply col_next_trans|done].
Qed.
Lemma system_initial input y : col_initial input y → system_ok y.
Proof. intros (Hc & Hp & Hl). split; [by eapply construct_spec|by rewrite Hp|by rewrite Hl]. Qed.
Lemma system_reachable input y : col_reachable input y → system_ok y.
Proof. intros (y0 & Hi & Hr). apply (system_run y0); [by eapply system_initial|done]. Qed.

(** ** What has landed *)

(** The call [land i actor] in [y] asked the authority for [p], and left [y']. *)
Definition asked y (i : CollaborationEvaluationInput.t) (actor : ActorRef.t) (p : PendingLanding.t) y' : Prop :=
  land_begin i actor (col_world y) (col_state y) = (Ok p, col_world y', col_state y') ∧
  compositions y' = compositions y ∧ landings y' = landings y ++ [p].
(** The authority answered [landing] to [p] in [y], the call returned [r] and left [y']. *)
Definition answered y (p : PendingLanding.t) (landing : Landing.t) (r : CollaborationLandingResult.t) y' : Prop :=
  land_finish p landing (col_world y) (col_state y) = (Ok r, col_world y', col_state y') ∧
  compositions y' = compositions y ∧
  ∃ ls ks, landings y = ls ++ p :: ks ∧ landings y' = ls ++ ks.

(** The landing [p], pending in [y], passed the gate in the earlier state [y1], on the
    Evidence of the call that began it. *)
Definition passed_gate input y (p : PendingLanding.t) : Prop := ∃ y1 i actor y1',
  col_reachable input y1 ∧ asked y1 i actor p y1' ∧ rtc col_step y1' y ∧
  cleared (col_state y1) (CollaborationEvaluationInput.evidence i) p.
(** The cohort [c] is the cohort of a landing that passed the gate and was answered for
    its members. *)
Definition landed_through input y (c : IntegrationCohort.t) : Prop := ∃ y2 p landing r y3,
  passed_gate input y2 p ∧ answered y2 p landing r y3 ∧ rtc col_step y3 y ∧
  lands (col_state y2) (PendingLanding.cohort p) landing ∧ landed_from (PendingLanding.cohort p) c.
Record gated input y : Prop := {
  gt_landings : ∀ p, p ∈ landings y → passed_gate input y p;
  gt_landed : ∀ k c, omap_get k (Coordinator.cohorts (col_state y)) = Some c →
    IntegrationCohort.state c = IntegrationCohortState.landed → landed_through input y c;
}.

Lemma passed_gate_step input y y' p : col_step y y' → passed_gate input y p → passed_gate input y' p.
Proof.
intros Hst (y1 & i & actor & y1' & H1 & H2 & H3 & H4). exists y1, i, actor, y1'.
split_and!; [done|done|by eapply rtc_r|done].
Qed.
Lemma landed_through_step input y y' c : col_step y y' → landed_through input y c → landed_through input y' c.
Proof.
intros Hst (y2 & p & l & r & y3 & H1 & H2 & H3 & H). exists y2, p, l, r, y3.
split_and!; [done|done|by eapply rtc_r|apply H|apply H].
Qed.
(** A step that lands nothing and starts only landings that pass the gate. *)
Lemma gated_step input y y' : col_step y y' → gated input y →
  lands_nothing (col_state y) (col_state y') →
  (∀ p, p ∈ landings y' → p ∈ landings y ∨ passed_gate input y' p) → gated input y'.
Proof.
intros Hst [G1 G2] Hn Hl. split.
- intros p [Hp|Hp]%Hl; [|done]. by eapply passed_gate_step, G1.
- intros k c Hc Hs. eapply landed_through_step; [done|]. eapply G2; [|done]. by apply Hn.
Qed.
Lemma keeps_run {A} (m : C A) w s o w' s' : (∀ s0, keeps (λ _ s, lands_nothing s0 s) m) → m w s = (o, w', s') →
  lands_nothing s s'.
Proof.
intros Hm Hr. pose proof (Hm s w s (lands_nothing_refl s)) as Hw. eapply wp_run in Hr; [|exact Hw]. by destruct o.
Qed.

Lemma gated_landed input w s ps ls p ks landing w' s' o :
  system_ok (mkSystem w s ps (ls ++ p :: ks)) → gated input (mkSystem w s ps (ls ++ p :: ks)) →
  land_finish p landing w s = (o, w', s') → gated input (mkSystem w' s' ps (ls ++ ks)).
Proof.
intros Hok G Hr. pose proof (step_landed landing _ _ ps ls p ks _ _ _ Hr) as Hst. destruct Hok as [Hs _ Hls]. simpl in *.
pose proof Hr as Hrun. apply Forall_middle in Hls as [Hp _]. eapply wp_run in Hr; [|by apply wp_land_finish].
assert (∀ q, q ∈ ls ++ ks → q ∈ ls ++ p :: ks) as Hsub by set_solver. destruct o as [r|e].
- destruct Hr as (N & Hl & _ & c & es & Hc & Hs'). destruct G as [G1 G2]. split; simpl in *.
  + intros q Hq. eapply passed_gate_step; [exact Hst|]. by apply G1, Hsub.
  + intros k d. assert (Coordinator.cohorts s' = omap_set (IntegrationCohort.id c) c (Coordinator.cohorts s)) as ->
      by (by rewrite Hs'). rewrite omap_get_set. case_decide; [|intros Hd Hst'; by eapply landed_through_step, G2].
    intros [= <-] _. exists (mkSystem w s ps (ls ++ p :: ks)), p, landing, r, (mkSystem w' s' ps (ls ++ ks)). split; [apply G1; set_solver|].
    split; [split; [exact Hrun|split; [done|by exists ls, ks]]|]. by split_and!.
- destruct Hr as (-> & -> & _). eapply gated_step; [done|done|apply lands_nothing_refl|]. simpl. intros q Hq. left. auto.
Qed.
Lemma gated_step_any input y y' : system_ok y → col_reachable input y → gated input y → col_step y y' → gated input y'.
Proof.
intros Hok Hre G Hst. pose proof Hst as Hst0. destruct Hst as [w w' s ps ls Hw|c w s ps ls o w' s' Hr|i w s ps ls o w' s' Hr|xs w s ps p qs ls o w' s' Hr|
  w s ps p qs ls|i actor w s ps ls o w' s' Hr|landing w s ps ls p ks o w' s' Hr|w s ps ls p ks].
- eapply gated_step; [done|done|apply lands_nothing_refl|auto].
- eapply gated_step; [done|done| |auto]. eapply keeps_run; [|exact Hr]. intros s0. apply keeps_col_run.
- eapply gated_step; [done|done| |auto]. eapply keeps_run; [|exact Hr]. intros s0. apply keeps_createCohort_start.
- eapply gated_step; [done|done| |auto]. eapply keeps_run; [|exact Hr]. intros s0. apply keeps_createCohort_answer.
- eapply gated_step; [done|done|apply lands_nothing_refl|auto].
- eapply gated_step; [done|done| |].
  + eapply keeps_run; [|exact Hr]. intros s0. apply keeps_land_begin.
  + simpl. intros q [Hq|Hq]%elem_of_app; [by left|]. right. pose proof Hr as Hrun.
    eapply wp_run in Hr; [|apply wp_land_begin, Hok].
    destruct o as [p|e]; [|by apply elem_of_nil in Hq]. apply list_elem_of_singleton in Hq as ->.
    exists (mkSystem w s ps ls), i, actor, (mkSystem w' s' ps (ls ++ [p])). split; [exact Hre|]. split; [split; [exact Hrun|done]|]. split; [done|apply Hr].
- by eapply gated_landed.
- eapply gated_step; [done|done|apply lands_nothing_refl|]. simpl. intros q Hq. left. set_solver.
Qed.
Lemma gated_reachable input y : col_reachable input y → gated input y.
Proof.
intros (y0 & Hi & Hr).
assert (gated input y0) as G.
{ destruct Hi as (Hc & _ & Hl). apply construct_spec in Hc as (_ & Hc & _). split; [rewrite Hl|rewrite Hc; done].
  by intros p ?%elem_of_nil. }
assert (col_reachable input y0) as H0 by (by exists y0). clear Hi. revert H0 G.
induction Hr as [|y1 y2 y3 H12 H23 IH]; [done|]. intros R G. apply IH.
- destruct R as (yi & Hi & R). exists yi. split; [done|by eapply rtc_r].
- eapply gated_step_any; [by eapply system_reachable|done..].
Qed.

(** * The built-in analyzer *)

(** Two of the members, in different places, declare an effect in common. *)
Definition share_effect (effects : list (list string)) : Prop := ∃ i j l k e,
  (i < j)%nat ∧ effects !! i = Some l ∧ effects !! j = Some k ∧ e ∈ l ∧ e ∈ k.
Lemma share_effect_cons l ls : share_effect (l :: ls) ↔ (∃ k e, k ∈ ls ∧ e ∈ l ∧ e ∈ k) ∨ share_effect ls.
Proof.
split.
- intros ([|i] & [|j] & l' & k & e & Hij & Hl & Hk & H1 & H2); [lia| |lia|]; simpl in Hl, Hk.
  + injection Hl as ->. left. exists k, e. split_and!; [by eapply list_elem_of_lookup_2|done..].
  + right. exists i, j, l', k, e. split_and!; [lia|done..].
- intros [(k & e & Hk & H1 & H2)|(i & j & l' & k & e & Hij & Hl & Hk & H1 & H2)].
  + apply list_elem_of_lookup in Hk as [j Hj]. exists 0%nat, (S j), l, k, e. split_and!; [lia|done..].
  + exists (S i), (S j), l', k, e. split_and!; [lia|done..].
Qed.
Lemma elem_of_overlap_pair a b x : x ∈ overlap_pair a b ↔ ∃ e, x = overlap_candidate a b e ∧
  e ∈ IntegrationCohortMember.declaredEffects a ∧ e ∈ IntegrationCohortMember.declaredEffects b.
Proof.
unfold overlap_pair. rewrite list_elem_of_fmap. split.
- intros (e & -> & [H1 H2]%list_elem_of_filter). by exists e.
- intros (e & -> & H1 & H2). exists e. by rewrite list_elem_of_filter.
Qed.
Lemma overlap_candidates_some ms :
  (∃ x, x ∈ overlap_candidates ms) ↔ share_effect (IntegrationCohortMember.declaredEffects <$> ms).
Proof.
induction ms as [|m ms IH]; cbn [overlap_candidates].
{ split; [by intros (x & ?%elem_of_nil)|]. by intros (i & j & l & k & e & _ & ? & _). }
rewrite fmap_cons, share_effect_cons, <-IH. split.
- intros (x & [(b & Hx%elem_of_overlap_pair & Hb)%list_elem_of_bind|Hx]%elem_of_app); [left|right; by exists x].
  destruct Hx as (e & _ & H1 & H2). exists (IntegrationCohortMember.declaredEffects b), e.
  split; [by apply list_elem_of_fmap_2|done].
- intros [(k & e & (b & -> & Hb)%list_elem_of_fmap & H1 & H2)|[x Hx]].
  + exists (overlap_candidate m b e). apply elem_of_app. left. apply list_elem_of_bind. exists b. split; [|done].
    apply elem_of_overlap_pair. by exists e.
  + exists x. apply elem_of_app. by right.
Qed.
Lemma overlap_candidates_members ms x : x ∈ overlap_candidates ms → ∃ a b e, a ∈ ms ∧ b ∈ ms ∧ x = overlap_candidate a b e.
Proof.
induction ms as [|m ms IH]; simpl; [by intros ?%elem_of_nil|].
intros [(b & Hx%elem_of_overlap_pair & Hb)%list_elem_of_bind|Hx]%elem_of_app.
- destruct Hx as (e & -> & _). exists m, b, e. split_and!; [left|by right|done].
- destruct (IH Hx) as (a & b & e & ? & ? & ?). exists a, b, e. split_and!; [by right..|done].
Qed.
Lemma blank_visible c v : is_white c = false → blank (String c v) = false.
Proof.
intros Hc. unfold blank, trim. cbn [trim_start]. rewrite Hc. cbn [trim_end]. rewrite Hc. by destruct (trim_end v).
Qed.
Lemma overlap_sound p x : x ∈ overlap_candidates (Composition.members p) → sound_candidate p x.
Proof.
intros (a & b & e & Ha & Hb & ->)%overlap_candidates_members. split_and!; [done| |by apply blank_visible..].
intros i. simpl. intros [->|[->|[]%elem_of_nil]%elem_of_cons]%elem_of_cons; by apply list_elem_of_fmap_2.
Qed.

(** Sound blocking candidates are all recorded, as blocking conflicts. *)
Lemma is_blocking_set s k c id : IntegrationConflict.severity c = IntegrationConflictSeverity.blocking →
  id = k ∨ is_blocking s id = true →
  is_blocking (s <| Coordinator.conflicts := omap_set k c (Coordinator.conflicts s) |>) id = true.
Proof.
intros Hc Hid. unfold is_blocking. simpl. rewrite omap_get_set. case_decide as Hk; [by apply bool_decide_eq_true_2|].
by destruct Hid as [->|?].
Qed.
Lemma wp_detect_sound analyzerId p xs w s : collaboration_ok w s →
  (∀ x, x ∈ xs → sound_candidate p x ∧ IntegrationConflictCandidate.severity x = IntegrationConflictSeverity.blocking) →
  wp (fold_each xs (detect analyzerId p) [] : C _)
    (λ ids w' s', next w s w' s' ∧ length ids = length xs ∧ ∀ id, id ∈ ids → is_blocking s' id = true) (λ _ _ _, False) w s.
Proof.
intros Hs Hxs. apply (wp_fold_each (λ pre ids w' s', next w s w' s' ∧ length ids = length pre ∧
  ∀ id, id ∈ ids → is_blocking s' id = true)); [|done|split_and!; [by apply col_next_refl|done|by intros ? ?%elem_of_nil]].
intros pre x post ids w1 s1 Hl (N & Hlen & Hb). destruct (Hxs x) as [Hx Hsev]; [rewrite Hl, elem_of_app; right; left|].
apply wp_detect; [apply N| |done]. intros _ c w' e (_ & _ & _ & Hc & _). cbv zeta. intros N2.
split; [by eapply col_next_trans|]. split; [rewrite !length_app; simpl; lia|].
intros id Hid. apply (is_blocking_set s1 (IntegrationConflict.id c)); [congruence|].
apply elem_of_app in Hid as [Hid| ->%list_elem_of_singleton]; [right; by apply Hb|by left].
Qed.
Lemma wp_answer_sound p xs analyzerId w s : collaboration_ok w s → composition_ok p →
  Composition.waiting p = [analyzerId] → Composition.conflictIds p = [] →
  (∀ x, x ∈ xs → sound_candidate p x ∧ IntegrationConflictCandidate.severity x = IntegrationConflictSeverity.blocking) →
  wp (createCohort_answer p xs : C _)
    (λ r w' s', ∃ c, r = inr c ∧ next w s w' s' ∧ omap_get (Composition.cohortId p) (Coordinator.cohorts s') = Some c ∧
       IntegrationCohort.members c = Composition.members p ∧
       IntegrationCohort.state c = if bool_decide (xs = []) then IntegrationCohortState.proposed else IntegrationCohortState.blocked)
    (λ _ _ _, False) w s.
Proof.
intros Hs Hp Hw Hi Hxs. unfold createCohort_answer. rewrite Hw, Hi. wp_step.
eapply wp_mono; [by apply wp_detect_sound| |done]. intros ids w1 s1 (N1 & Hlen & Hb).
unfold createCohort_next. simpl. wp_step.
set (p' := p <| Composition.conflictIds := ids |> <| Composition.waiting := [] |>).
eapply wp_mono; [apply (wp_createCohort_finish p' (λ _ _ _, False)); [apply N1|exact Hp]| |done]. intros c w2 s2 (N2 & Hc & es & ->).
wp_step. exists c. split_and!; [done|by eapply col_next_trans|simpl; by rewrite omap_get_set_eq|apply Hc|].
rewrite (cc_state _ _ _ Hc). simpl. case_bool_decide as He.
- subst xs. by destruct ids.
- destruct ids as [|i ids]; [by destruct xs|]. simpl. rewrite Hb; [done|left].
Qed.

(** * The theorems *)

(** C6: A cohort has landed only through the gate: whatever is called in between and
    however the asynchronous methods interleave, of a cohort in the state [landed] the
    history holds the call of [land] that asked for it and the answer of the authority
    that landed it. Where the call began, in [y1], the cohort was known under its id,
    with the same members, and landable on the Evidence of that call (its base
    canonical, no blocking conflict or finding open, every required review approved by
    someone independent under the policy in force, all required Evidence passed); the
    answer, accepted in the later state [y2], is for its Project, its id and exactly
    its Changes and Change Revisions. *)
Theorem landed_was_landable input y k c : col_reachable input y →
  omap_get k (Coordinator.cohorts (col_state y)) = Some c →
  IntegrationCohort.state c = IntegrationCohortState.landed →
  ∃ y1 i actor p y1' y2 landing r y3,
    col_reachable input y1 ∧ asked y1 i actor p y1' ∧ rtc col_step y1' y2 ∧
    answered y2 p landing r y3 ∧ rtc col_step y3 y ∧
    let c1 := PendingLanding.cohort p in
    omap_get k (Coordinator.cohorts (col_state y1)) = Some c1 ∧ Coordinator.landingAuthority (col_state y1) = true ∧
    landable (col_state y1) c1 (CollaborationEvaluationInput.evidence i) ∧
    lands (col_state y2) c1 landing ∧ landed_from c1 c.
Proof.
intros Hy Hk Hl. apply system_reachable in Hy as Hok. destruct (gated_reachable _ _ Hy) as [_ G].
destruct (G k c Hk Hl) as (y2 & p & landing & r & y3 & (y1 & i & actor & y1' & R1 & R2 & R3 & Hc1 & Hc2 & Hc3 & _) &
  Ha & R4 & Hla & Hfrom).
exists y1, i, actor, p, y1', y2, landing, r, y3. cbv zeta. split_and!; try done.
apply (ck_cohorts _ _ (so_state _ Hok)), co_id in Hk. rewrite <-Hk, Hfrom. exact Hc2.
Qed.

(** C8: The records stay consistent along every interleaving. In every reachable
    state the cohorts are of the Project, each of distinct Changes at distinct
    revisions on one base; each finding is of a known cohort and resolved by someone
    exactly when it is not open; each approval is by an Actor that neither wrote nor
    verified the revision and whom the directory names for the rule; audit events
    have distinct ids. From there on, approvals stay as they are, findings only
    change by being resolved, cohorts keep their ids, the audit only grows at its
    end, and rules, directory and analyzers do not change. *)
Theorem collaboration_consistent input y y' : col_reachable input y → rtc col_step y y' →
  collaboration_ok (col_world y') (col_state y') ∧ collaboration_evolves (col_state y) (col_state y').
Proof.
intros Hy Hr. apply system_reachable in Hy. destruct (system_run _ _ Hy Hr) as [N H]. split; [apply H|apply N].
Qed.


(** C11: With the built-in analyzer alone, composing a cohort ends. Once its inputs are
    accepted, the answer of [declaredEffectOverlapAnalyzer] is taken whatever was
    called in the meantime, and the cohort it ends in holds the revisions asked for,
    in their order, and is blocked exactly when two of them declare an effect in
    common, and proposed otherwise. *)
Theorem createCohort_default_analyzer input w s p w1 s1 w2 s2 : collaboration_ok w s →
  Coordinator.analyzers s = [declaredEffectOverlapAnalyzer_id] →
  createCohort_start input w s = (Ok (inl p), w1, s1) → collaboration_ok w2 s2 →
  ∃ c w' s', createCohort_answer p (declaredEffectOverlapAnalyzer_analyze (analyzer_input s1 p)) w2 s2 = (Ok (inr c), w', s') ∧
    omap_get (Composition.cohortId p) (Coordinator.cohorts s') = Some c ∧
    Forall2 (composed s (Composition.baseProjectRevisionId p)) (CreateCohortInput.members input) (IntegrationCohort.members c) ∧
    let shared := share_effect ((λ x, ChangeRevision.declaredEffects (CreateCohortMemberInput.revision x)) <$> CreateCohortInput.members input) in
    (IntegrationCohort.state c = IntegrationCohortState.blocked ↔ shared) ∧
    (IntegrationCohort.state c = IntegrationCohortState.proposed ↔ ¬ shared).
Proof.
intros Hs Ha Hst Hs2.
assert (composition_ok p ∧ Composition.conflictIds p = [] ∧ Composition.waiting p = Coordinator.analyzers s ∧
  Forall2 (composed s (Composition.baseProjectRevisionId p)) (CreateCohortInput.members input) (Composition.members p))
  as (Hp & Hi & Hw & HF).
{ eapply (wp_run _ (λ r _ _, match r with inl p => composition_ok p ∧ Composition.conflictIds p = [] ∧
    Composition.waiting p = Coordinator.analyzers s ∧ Forall2 (composed s (Composition.baseProjectRevisionId p))
      (CreateCohortInput.members input) (Composition.members p) | inr _ => True end) (λ _ _ _, True)) in Hst; [exact Hst|].
  unfold createCohort_start. wp_step. apply wp_createCohort_begin; [done| |done]. intros q w3 _ Hq HF _ Hi Hw _.
  unfold createCohort_next. rewrite Hw, Ha. wp_step. by rewrite Hw. }
rewrite Ha in Hw. set (xs := declaredEffectOverlapAnalyzer_analyze _).
destruct (createCohort_answer p xs w2 s2) as [[o w'] s'] eqn:Hr.
eapply wp_run in Hr; [|apply (wp_answer_sound p xs declaredEffectOverlapAnalyzer_id); [done|done|exact Hw|done|]].
2: { intros x Hx. split; [by apply overlap_sound|]. by apply overlap_candidates_members in Hx as (a & b & e & _ & _ & ->). }
destruct o as [r|e]; [|done]. destruct Hr as (c & -> & _ & Hc & Hm & Hstate). exists c, w', s'. split_and!; [done|done|by rewrite Hm|].
cbv zeta.
assert ((λ x, ChangeRevision.declaredEffects (CreateCohortMemberInput.revision x)) <$> CreateCohortInput.members input =
  IntegrationCohortMember.declaredEffects <$> Composition.members p) as ->.
{ clear -HF. induction HF as [|x m xs ms Hx _ IH]; [done|]. rewrite !fmap_cons, IH. f_equal. symmetry. apply Hx. }
rewrite <-overlap_candidates_some, Hstate. fold (declaredEffectOverlapAnalyzer_analyze (analyzer_input s1 p)) in *.
change (overlap_candidates (Composition.members p)) with xs. destruct xs as [|x xs]; simpl.
- split; split; try done; [by intros (x & ?%elem_of_nil)|by intros _ (x & ?%elem_of_nil)].
- split; split; try done; [intros _; exists x; left|]. intros Hn. destruct Hn. exists x. left.
Qed.
End facts.
