(* ===== verification/CollaborationViews.v ===== *)
(** What a projection lets through: two coordinators that differ only in the fields
    that it blanks for an audience give that audience the same projection. *)

From S2P Require Import Prelude Json Contracts ContractsJson EvidenceLedger Collaboration.

(** * Alike to an audience

    What the audience may see is the same; of the rest only the fields that the
    projection blanks differ. *)

Section views.
Context (audience : DisclosureClassification.t) (visible : list string).

Definition same_visible (l k : list string) : Prop := visible_scopes visible l = visible_scopes visible k.
Record member_alike (x y : IntegrationCohortMember.t) : Prop := {
  ma_same : y = x <| IntegrationCohortMember.affectedModuleIds := IntegrationCohortMember.affectedModuleIds y |>
                  <| IntegrationCohortMember.affectedSourceSpaceIds := IntegrationCohortMember.affectedSourceSpaceIds y |>
                  <| IntegrationCohortMember.affectedTargetIds := IntegrationCohortMember.affectedTargetIds y |>;
  ma_modules : same_visible (IntegrationCohortMember.affectedModuleIds x) (IntegrationCohortMember.affectedModuleIds y);
  ma_spaces : same_visible (IntegrationCohortMember.affectedSourceSpaceIds x) (IntegrationCohortMember.affectedSourceSpaceIds y);
  ma_targets : same_visible (IntegrationCohortMember.affectedTargetIds x) (IntegrationCohortMember.affectedTargetIds y);
}.
Record cohort_alike (x y : IntegrationCohort.t) : Prop := {
  ca_same : y = x <| IntegrationCohort.members := IntegrationCohort.members y |>;
  ca_members : Forall2 member_alike (IntegrationCohort.members x) (IntegrationCohort.members y);
}.

(** Equal where [x] is seen; where it is not, neither is [y] and they differ as said. *)
Definition alike {A} (seen : A → bool) (hidden : A → A → Prop) (x y : A) : Prop :=
  if seen x then y = x else seen y = false ∧ hidden x y.
Definition conflict_seen (x : IntegrationConflict.t) : bool :=
  scopeVisible audience visible (IntegrationConflict.scopeIds x) (IntegrationConflict.disclosure x).
Definition conflict_alike : IntegrationConflict.t → IntegrationConflict.t → Prop := alike conflict_seen (λ x y,
  y = x <| IntegrationConflict.changeIds := IntegrationConflict.changeIds y |>
        <| IntegrationConflict.changeRevisionIds := IntegrationConflict.changeRevisionIds y |>
        <| IntegrationConflict.scopeIds := IntegrationConflict.scopeIds y |>
        <| IntegrationConflict.analyzerId := IntegrationConflict.analyzerId y |>
        <| IntegrationConflict.description := IntegrationConflict.description y |>
        <| IntegrationConflict.receipt := IntegrationConflict.receipt y |>).
Definition finding_seen (x : ReviewFinding.t) : bool :=
  scopeVisible audience visible (match scope_id (ReviewFinding.scope x) with Some id => [id] | None => [] end)
    (ReviewFinding.disclosure x).
Definition finding_alike : ReviewFinding.t → ReviewFinding.t → Prop := alike finding_seen (λ x y,
  y = x <| ReviewFinding.summary := ReviewFinding.summary y |>
        <| ReviewFinding.receipt := ReviewFinding.receipt y |>
        <| ReviewFinding.scope := ReviewFinding.scope y |>).
Definition requirement_seen (x : ReviewRequirement.t) : bool :=
  scopeVisible audience visible [ReviewRequirement.scopeId x] (ReviewRequirement.disclosure x).
Definition requirement_alike : ReviewRequirement.t → ReviewRequirement.t → Prop := alike requirement_seen (λ x y,
  y = x <| ReviewRequirement.ruleId := ReviewRequirement.ruleId y |>
        <| ReviewRequirement.scopeId := ReviewRequirement.scopeId y |>
        <| ReviewRequirement.reason := ReviewRequirement.reason y |>
        <| ReviewRequirement.requiredReviewerPrincipalIds := ReviewRequirement.requiredReviewerPrincipalIds y |>
        <| ReviewRequirement.requiredReviewerTeamIds := ReviewRequirement.requiredReviewerTeamIds y |>
        <| ReviewRequirement.candidatePrincipalIds := ReviewRequirement.candidatePrincipalIds y |>).
Definition blocker_alike : CollaborationBlocker.t → CollaborationBlocker.t → Prop :=
  alike (blocker_visible audience visible) (λ x y, CollaborationBlocker.kind y = CollaborationBlocker.kind x ∧
    CollaborationBlocker.disclosure y = CollaborationBlocker.disclosure x).
Record explanation_alike (x y : CollaborationPolicyExplanation.t) : Prop := {
  xa_same : y = x <| CollaborationPolicyExplanation.blockers := CollaborationPolicyExplanation.blockers y |>
                  <| CollaborationPolicyExplanation.safeNextCommands := CollaborationPolicyExplanation.safeNextCommands y |>;
  xa_blockers : Forall2 blocker_alike (CollaborationPolicyExplanation.blockers x) (CollaborationPolicyExplanation.blockers y);
}.

(** ** Alike records have the same projection *)

Lemma fmap_alike {A B} (f : A → B) (R : A → A → Prop) l k : (∀ x y, R x y → f x = f y) → Forall2 R l k → f <$> l = f <$> k.
Proof. intros Hf. induction 1 as [|x y l k Hx _ IH]; [done|]. rewrite !fmap_cons. f_equal; auto. Qed.
Lemma project_member_alike x y : member_alike x y → project_member visible x = project_member visible y.
Proof.
intros [He H1 H2 H3]. unfold project_member. unfold same_visible in *. rewrite H1, H2, H3. clear H1 H2 H3. rewrite He. by destruct x, y.
Qed.
Lemma project_conflict_alike x y : conflict_alike x y → project_conflict audience visible x = project_conflict audience visible y.
Proof.
unfold conflict_alike, alike, conflict_seen, project_conflict. destruct (scopeVisible _ _ _ _) eqn:Hx; [by intros ->; rewrite Hx|].
intros [-> He]. rewrite He. by destruct x, y.
Qed.
Lemma project_finding_alike x y : finding_alike x y → project_finding audience visible x = project_finding audience visible y.
Proof.
unfold finding_alike, alike, finding_seen, project_finding. cbv zeta.
destruct (scopeVisible _ _ _ _) eqn:Hx; [by intros ->; rewrite Hx|]. intros [-> He]. rewrite He. by destruct x, y.
Qed.
Lemma project_requirement_alike x y : requirement_alike x y →
  project_requirement audience visible x = project_requirement audience visible y.
Proof.
unfold requirement_alike, alike, requirement_seen, project_requirement.
destruct (scopeVisible _ _ _ _) eqn:Hx; [by intros ->; rewrite Hx|]. intros [-> He]. rewrite He. by destruct x, y.
Qed.
Lemma project_blocker_alike cohortId x y : blocker_alike x y →
  (if blocker_visible audience visible x then x else redacted_blocker cohortId x) =
  (if blocker_visible audience visible y then y else redacted_blocker cohortId y).
Proof.
unfold blocker_alike, alike. destruct (blocker_visible _ _ x) eqn:Hx; [by intros ->; rewrite Hx|]. intros (-> & Hk & Hd).
unfold redacted_blocker. by rewrite Hk, Hd.
Qed.
End views.

Section facts.
Context `{HH : Host}.
Implicit Types (w : World) (s : Coordinator.t).

(** The coordinators agree on the cohort, up to what the audience may not see. *)
Record views_alike (input : ProjectCohortInput.t) s s' : Prop := {
  va_cohort : ∃ c c', omap_get (ProjectCohortInput.cohortId input) (Coordinator.cohorts s) = Some c ∧
    omap_get (ProjectCohortInput.cohortId input) (Coordinator.cohorts s') = Some c' ∧
    let audience := ProjectCohortInput.audience input in let visible := ProjectCohortInput.visibleScopeIds input in
    cohort_alike visible c c' ∧
    Forall2 (conflict_alike audience visible) (conflicts_of (IntegrationCohort.id c) s) (conflicts_of (IntegrationCohort.id c') s') ∧
    Forall2 (finding_alike audience visible) (findings_of (IntegrationCohort.id c) s) (findings_of (IntegrationCohort.id c') s') ∧
    Forall2 (requirement_alike audience visible) (requirementsFor c s) (requirementsFor c' s');
}.

(** A projected cohort, and a projected explanation. *)
Lemma projectCohort_alike input w s w' s' : views_alike input s s' →
  ∃ view, projectCohort input w s = (Ok view, w, s) ∧ projectCohort input w' s' = (Ok view, w', s').
Proof.
intros [(c & c' & Hc & Hc' & [Hsame Hms] & Hx & Hf & Hr)].
unfold projectCohort, requireCohort, mbind, M_bind, get, require. rewrite Hc, Hc'. eexists. split; [reflexivity|].
do 3 f_equal. rewrite (fmap_alike _ _ _ _ (project_conflict_alike _ _) Hx), (fmap_alike _ _ _ _ (project_finding_alike _ _) Hf),
  (fmap_alike _ _ _ _ (project_requirement_alike _ _) Hr), (fmap_alike _ _ _ _ (project_member_alike _) Hms).
rewrite Hsame. by destruct c, c'.
Qed.
Lemma projectExplanation_alike audience visible x y : explanation_alike audience visible x y →
  projectExplanation x audience visible = projectExplanation y audience visible.
Proof.
intros [He Hb]. unfold projectExplanation. cbv zeta.
assert (CollaborationPolicyExplanation.cohortId y = CollaborationPolicyExplanation.cohortId x) as Hid by (by rewrite He).
rewrite Hid. rewrite <-(fmap_alike _ _ _ _ (project_blocker_alike audience visible (CollaborationPolicyExplanation.cohortId x)) Hb).
rewrite He. by destruct x, y.
Qed.

(** A projection depends on a hidden item only through the fields it keeps.  Take two
    coordinators that agree on a cohort up to the fields that the code blanks: the
    scopes of a member outside the visible ones; of a conflict, finding or requirement
    above the audience's disclosure or outside its scopes, the Changes, scopes,
    analyzer, description, summary, rule, reviewers, candidates and receipt. Then
    [projectCohort] returns the same to that audience from both; and two Policy
    Explanations whose blockers agree one by one, equal where the audience sees them
    and otherwise of the same kind and disclosure, have the same projection. The text
    and revision of the resolution of a hidden conflict or finding, who resolved or
    reviewed it, and its recovery action are not among the fields blanked: the audience
    sees them. *)
Theorem projections_noninterference input w s w' s' x y : views_alike input s s' →
  explanation_alike (ProjectCohortInput.audience input) (ProjectCohortInput.visibleScopeIds input) x y →
  (∃ view, projectCohort input w s = (Ok view, w, s) ∧ projectCohort input w' s' = (Ok view, w', s')) ∧
  projectExplanation x (ProjectCohortInput.audience input) (ProjectCohortInput.visibleScopeIds input) =
    projectExplanation y (ProjectCohortInput.audience input) (ProjectCohortInput.visibleScopeIds input).
Proof. intros Hv Hx. split; [by apply projectCohort_alike|by apply projectExplanation_alike]. Qed.
End facts.
