(* ===== verification/CollaborationLanding.v ===== *)
(** The local change control as the Landing authority of the collaboration
    coordinator, as src/qualification/team-simulation.ts connects them:
    [landingAuthority: { landCohort: (request) => control.landCohort(request) }]. *)

From S2P Require Import Prelude Json Contracts ContractsJson EvidenceLedger.
From S2P Require Import ChangeControl ChangeControlFacts.
From S2P Require Import Collaboration CollaborationFacts.

Section landing.
Context `{HH : Host} `{Fresh : !FreshUUIDs HH} `{FS : FileSystem}.
#[local] Abbreviation Control := ChangeControl.Coordinator.t.
Implicit Types (w : World) (s : Coordinator.t) (k : Control).

(** The request that [land] makes, as [landCohort] takes it. *)
Definition authority_request (p : PendingLanding.t) : LandCohortInput.t :=
  let r := landing_request p in
  LandCohortInput.mk (Some (LandingRequest.cohortId r))
    ((λ m, ChangeControl.LandingMember.mk (LandingMember.changeId m) (LandingMember.changeRevisionId m)) <$> LandingRequest.members r)
    (LandingRequest.expectedCanonicalProjectRevisionId r).
Definition authority (p : PendingLanding.t) : M Control thrown Landing.t := landCohort (authority_request p).

Lemma selected_ids root w k members selected : inv root w k → Forall2 (selectable k) members selected →
  Change.id ∘ fst <$> selected = ChangeControl.LandingMember.changeId <$> members ∧
  ChangeRevision.id ∘ snd <$> selected = ChangeControl.LandingMember.changeRevisionId <$> members.
Proof.
intros Hk. induction 1 as [|m x ms xs (Hc & Hr & _) _ [IH1 IH2]]; [done|]. rewrite !fmap_cons, IH1, IH2. simpl.
by rewrite (proj1 (inv_changes _ _ _ Hk _ _ Hc)), (proj1 (inv_revisions _ _ _ Hk _ _ Hr)).
Qed.
Lemma request_members p :
  ChangeControl.LandingMember.changeId <$> LandCohortInput.members (authority_request p) =
    IntegrationCohortMember.changeId <$> IntegrationCohort.members (PendingLanding.cohort p) ∧
  ChangeControl.LandingMember.changeRevisionId <$> LandCohortInput.members (authority_request p) =
    IntegrationCohortMember.changeRevisionId <$> IntegrationCohort.members (PendingLanding.cohort p).
Proof.
unfold authority_request, landing_request. simpl.
by induction (IntegrationCohort.members (PendingLanding.cohort p)) as [|m ms [IH1 IH2]]; [|rewrite !fmap_cons, IH1, IH2].
Qed.
Lemma authority_lands root p s w k : inv root w k → IntegrationCohort.id (PendingLanding.cohort p) ≠ "" →
  Project.id (ChangeControl.Coordinator.project k) = Coordinator.projectId s →
  wp (authority p)
    (λ landing w' k', lands s (PendingLanding.cohort p) landing ∧
       let base := IntegrationCohort.baseProjectRevisionId (PendingLanding.cohort p) in
       ProjectRevision.id (ChangeControl.Coordinator.canonical k) = base ∧
       ProjectRevision.id (ChangeControl.Coordinator.canonical k') = Landing.projectRevisionId landing ∧
       Landing.previousProjectRevisionId landing = base)
    (λ _ _ k', k' = k) w k.
Proof.
intros Hk Hid Hp. eapply wp_mono; [apply landCohort_spec| |by intros e w' k' (_ & -> & _)].
intros landing w' k' (selected & [_ _ Hsel Hexp _ _] & -> & (H1 & H2 & H3 & H4 & H5 & H6) & _).
destruct (selected_ids _ _ _ _ _ Hk Hsel) as [E1 E2]. destruct (request_members p) as [M1 M2]. split.
- split; [congruence| | |].
  + rewrite H2. simpl. unfold truthy_opt. simpl. destruct (truthy _) eqn:Ht; [done|].
    by destruct (IntegrationCohort.id (PendingLanding.cohort p)).
  + rewrite H5. simpl. by rewrite E1, M1.
  + rewrite H6. simpl. by rewrite E2, M2.
- by split_and!.
Qed.

(** C9: With the local change control as the Landing authority nothing is landed by
    halves. When a landing that waits for the authority is put to it, the authority
    either refuses and keeps its canonical state, or moves the canonical Project
    Revision from the base of the cohort to the one it reports; that answer is then
    accepted by the collaboration coordinator, in whatever consistent state it is by
    then, and marks the cohort as landed. (The cohort has a non-empty id: an
    empty one reads as no cohort to the authority.) *)
Theorem land_through_change_control root p w k w2 s : inv root w k → collaboration_ok w2 s → pending_ok s p →
  IntegrationCohort.id (PendingLanding.cohort p) ≠ "" →
  Project.id (ChangeControl.Coordinator.project k) = Coordinator.projectId s →
  match authority p w k with
  | (Ok landing, _, k') =>
      ProjectRevision.id (ChangeControl.Coordinator.canonical k) = IntegrationCohort.baseProjectRevisionId (PendingLanding.cohort p) ∧
      ProjectRevision.id (ChangeControl.Coordinator.canonical k') = Landing.projectRevisionId landing ∧
      ∃ r c w' s', land_finish p landing w2 s = (Ok r, w', s') ∧
        omap_get (IntegrationCohort.id (PendingLanding.cohort p)) (Coordinator.cohorts s') = Some c ∧
        landed_from (PendingLanding.cohort p) c ∧ CollaborationLandingResult.landing r = landing
  | (Throw _, _, k') => k' = k
  end.
Proof.
intros Hk Hs Hp Hid Hpr. pose proof (authority_lands root p s w k Hk Hid Hpr) as Hwp. unfold wp in Hwp.
destruct (authority p w k) as [[[landing|e] w1] k1]; [|exact Hwp]. destruct Hwp as (Hl & Hb & Hc & _). split_and!; [done..|].
pose proof (wp_land_finish p landing w2 s Hs Hp) as Hf. unfold wp in Hf.
destruct (land_finish p landing w2 s) as [[[r|e] w'] s']; [|by destruct Hf as (_ & _ & [])].
destruct Hf as (_ & _ & -> & c & es & Hc' & ->). eexists _, c, w', _. split; [done|]. split_and!; [|done|done].
assert (IntegrationCohort.id c = IntegrationCohort.id (PendingLanding.cohort p)) as Hci by (by rewrite Hc').
simpl. by rewrite Hci, omap_get_set_eq.
Qed.
End landing.
