(* ===== verification/CollaborationDemo.v ===== *)
(** Collaboration on a Project with two Changes: runs that witness the theorems,
    and what becomes of requirements, findings and cohorts at the edges. *)

From S2P Require Import Prelude Json Contracts ContractsJson EvidenceLedger.
From S2P Require Import ChangeControl ChangeControlFacts.
From S2P Require Import Collaboration CollaborationFacts CollaborationLife CollaborationViews CollaborationLanding.

Module CollaborationDemo.
#[local] Existing Instances example_host example_host_fresh Demo.fs.
#[local] Abbreviation Control := (World * ChangeControl.Coordinator.t)%type.

(** * The coordinator

    The Project, the Changes ["c1"] and ["c2"] and their Change Revisions are
    those of the run of ChangeControlFacts. *)

Definition actor (name : string) : ActorRef.t := ActorRef.mk name name "session" "client".
Definition rule : ReviewOwnershipRule.t := {|
  ReviewOwnershipRule.id := "rule:a"; ReviewOwnershipRule.scopeKind := OwnershipScopeKind.source_space;
  ReviewOwnershipRule.scopeId := "a"; ReviewOwnershipRule.requiredReviewerPrincipalIds := ["rita"];
  ReviewOwnershipRule.requiredReviewerTeamIds := []; ReviewOwnershipRule.disclosure := DisclosureClassification.restricted;
  ReviewOwnershipRule.label := None |}.
Definition requirement (view : option string) : EvidenceRequirement.t := {|
  EvidenceRequirement.key := "tests"; EvidenceRequirement.currentValidityKey := "k1";
  EvidenceRequirement.expectedProjectRevisionId := None; EvidenceRequirement.expectedProjectViewId := view;
  EvidenceRequirement.expectedChangeRevisionId := None; EvidenceRequirement.expectedTargetId := None;
  EvidenceRequirement.expectedDisclosureClassification := None |}.
Definition evidence (view : string) (outcome : EvidenceOutcome.t) : Evidence.t := {|
  Evidence.id := "evidence:1"; Evidence.key := "tests"; Evidence.criterion := "green"; Evidence.outcome := outcome;
  Evidence.validityKey := "k1"; Evidence.actionId := "action"; Evidence.verifierId := "verifier";
  Evidence.toolchainDigest := "t"; Evidence.dependencyDigest := "d"; Evidence.environmentDigest := "e";
  Evidence.inputDigests := []; Evidence.effectDigests := []; Evidence.outputDigest := "o"; Evidence.createdAt := "2026";
  Evidence.producer := EvidenceProducer.mk EvidenceProducerKind.run "runner" "1"; Evidence.projectRevisionId := "r0"; Evidence.projectViewId := view;
  Evidence.changeRevisionId := Some "change-revision:0"; Evidence.runId := "run"; Evidence.actor := actor "victor";
  Evidence.runnerId := "runner"; Evidence.policyVersion := "v1"; Evidence.authorizationEpoch := "1";
  Evidence.capabilityGrantId := "grant";
  Evidence.disclosure := DisclosurePolicyRef.mk "default" DisclosureClassification.project; Evidence.receipt := "ran";
  Evidence.invalidators := []; Evidence.owner := "team"; Evidence.residualRiskId := None;
  Evidence.sourceSpaceSnapshots := None; Evidence.actionContractDigest := None; Evidence.verifierContractDigest := None;
  Evidence.targetId := None; Evidence.workspaceId := None |}.
Definition passing : list Evidence.t := [evidence "v" EvidenceOutcome.passed].
Definition coordinator_input (required : list EvidenceRequirement.t) : CollaborationCoordinatorInput.t := {|
  CollaborationCoordinatorInput.projectId := "p"; CollaborationCoordinatorInput.canonicalRevision := Demo.root;
  CollaborationCoordinatorInput.policy := CollaborationPolicy.mk "v1" required None;
  CollaborationCoordinatorInput.ownershipRules := Some [rule];
  CollaborationCoordinatorInput.reviewerDirectory := Some [ReviewerDirectoryEntry.mk "rita" [] (Some true)];
  CollaborationCoordinatorInput.analyzers := None; CollaborationCoordinatorInput.landingAuthority := true;
  CollaborationCoordinatorInput.authorizationEpoch := None |}.
Definition member (id revision : string) (effects : list string) : option CreateCohortMemberInput.t :=
  change ← omap_get id (ChangeControl.Coordinator.changes Demo.prepared.2);
  r ← omap_get revision (ChangeControl.Coordinator.revisions Demo.prepared.2);
  Some (CreateCohortMemberInput.mk change (r <| ChangeRevision.declaredEffects := effects |>) (Some [actor "victor"])).
Definition cohort_input (effects1 effects2 : list string) : CreateCohortInput.t :=
  CreateCohortInput.mk
    (default [] (x ← member "c1" "change-revision:0" effects1; y ← member "c2" "change-revision:1" effects2; Some [x; y]))
    (actor "lea") None (Some "cohort").

(** * Runs *)

(** What a computation leaves, and what it returns. *)
Definition after {S E A} (r : outcome E A * World * S) : World * S := (r.1.2, r.2).
Definition answer {S E A} (r : outcome E A * World * S) : option A :=
  match r.1.1 with Ok a => Some a | Throw _ => None end.
Definition opened required : World * Coordinator.t :=
  (Demo.prepared.1, match construct (coordinator_input required) with Ok s => s | Throw _ =>
     Coordinator.mk "" (CollaborationPolicy.mk "" [] None) [] [] [] false None Demo.root [] [] [] [] [] [] end).
(** The composition of a cohort with the built-in analyzer. *)
Definition starting (input : CreateCohortInput.t) (σ : World * Coordinator.t) := createCohort_start input σ.1 σ.2.
Definition composition (input : CreateCohortInput.t) (σ : World * Coordinator.t) : Composition.t :=
  match answer (starting input σ) with
  | Some (inl p) => p
  | _ => Composition.mk input "" [] "" [] []
  end.
Definition composing (input : CreateCohortInput.t) (σ : World * Coordinator.t) :=
  let p := composition input σ in let σ1 := after (starting input σ) in
  createCohort_answer p (declaredEffectOverlapAnalyzer_analyze (analyzer_input σ1.2 p)) σ1.1 σ1.2.
Definition gate_input (evidence : list Evidence.t) : CollaborationEvaluationInput.t :=
  CollaborationEvaluationInput.mk "cohort" evidence None None.
Definition decision (evidence : list Evidence.t) (σ : World * Coordinator.t) : option CollaborationDecision.t :=
  CollaborationPolicyExplanation.decision <$> answer (evaluateLanding (gate_input evidence) σ.1 σ.2).
Definition blockers (evidence : list Evidence.t) (σ : World * Coordinator.t) : option (list CollaborationBlockerKind.t) :=
  fmap CollaborationBlocker.kind ∘ CollaborationPolicyExplanation.blockers <$> answer (evaluateLanding (gate_input evidence) σ.1 σ.2).
Definition slot (σ : World * Coordinator.t) : string :=
  default "" (ReviewRequirement.id <$> (l ← answer (listReviewRequirements "cohort" σ.1 σ.2); head l)).
Definition approval (who : string) (σ : World * Coordinator.t) : col_call :=
  col_approve (ApproveInput.mk "cohort" (slot σ) (ActorRef.mk "rita" who "session" "client") None None).
Definition called (c : col_call) (σ : World * Coordinator.t) : World * Coordinator.t := after (col_run c σ.1 σ.2).

Definition quiet : CreateCohortInput.t := cohort_input [] [].
Definition clashing : CreateCohortInput.t := cohort_input ["schema.users"; "ui.home"] ["schema.users"].
Definition plain_policy : list EvidenceRequirement.t := [requirement None].
Definition open_state : World * Coordinator.t := Eval vm_compute in opened plain_policy.
Definition composed_state : World * Coordinator.t := Eval vm_compute in after (composing quiet open_state).
Definition approved_state : World * Coordinator.t := Eval vm_compute in called (approval "rita" composed_state) composed_state.
Definition landing_state : World * Coordinator.t := Eval vm_compute in
  after (land_begin (gate_input passing) (actor "lea") approved_state.1 approved_state.2).

Example gate_before : blockers [] composed_state =
  Some [CollaborationBlockerKind.required_reviewer; CollaborationBlockerKind.missing_evidence].
Proof. vm_compute. reflexivity. Qed.
Example gate_after : decision passing approved_state = Some CollaborationDecision.allow.
Proof. vm_compute. reflexivity. Qed.
(** The verifier of the revision may not approve it. *)
Example verifier_refused : answer (approve (ApproveInput.mk "cohort" (slot composed_state)
    (ActorRef.mk "rita" "victor" "session" "client") None None) composed_state.1 composed_state.2) = None.
Proof. vm_compute. reflexivity. Qed.
Example clash : IntegrationConflict.kind <$> omap_values (Coordinator.conflicts (after (composing clashing open_state)).2) =
  [IntegrationConflictKind.schema].
Proof. vm_compute. reflexivity. Qed.

(** * A history

    Composed, approved, put to the authority and landed. *)

Definition first_composition : Composition.t := Eval vm_compute in composition quiet open_state.
Definition started_state : World * Coordinator.t := Eval vm_compute in after (starting quiet open_state).
Definition pending : PendingLanding.t := Eval vm_compute in
  match answer (land_begin (gate_input passing) (actor "lea") approved_state.1 approved_state.2) with
  | Some p => p
  | None => PendingLanding.mk (IntegrationCohort.mk "" "" "" [] [] IntegrationCohortState.proposed (actor "") "" "" "")
      (CollaborationPolicyExplanation.mk "" "" "" CollaborationDecision.deny "" None "" "" [] [] "") (actor "")
  end.
Definition authority_run := authority pending landing_state.1 Demo.prepared.2.
Definition landing : Landing.t := Eval vm_compute in
  match answer authority_run with
  | Some l => l
  | None => Landing.mk "" "" "" "" "" "" "" None None None
  end.
Definition landed_state : World * Coordinator.t := Eval vm_compute in
  after (land_finish pending landing landing_state.1 landing_state.2).
Definition system (σ : World * Coordinator.t) : System := mkSystem σ.1 σ.2 [] [].
Definition landing_system : System := mkSystem landing_state.1 landing_state.2 [] [pending].

Lemma open_initial : col_initial (coordinator_input plain_policy) (system open_state).
Proof. by vm_compute. Qed.
Lemma composed_reachable : col_reachable (coordinator_input plain_policy) (system composed_state).
Proof.
exists (system open_state). split; [exact open_initial|].
eapply rtc_l; [apply (step_create quiet _ _ [] [] (Ok (inl first_composition)) started_state.1 started_state.2); by vm_compute|].
apply rtc_once. apply (step_answer [] _ _ [] first_composition [] [] (composing quiet open_state).1.1 composed_state.1 composed_state.2).
vm_compute. reflexivity.
Qed.
Lemma approved_after : rtc col_step (system composed_state) (system approved_state).
Proof.
apply rtc_once. apply (step_call (approval "rita" composed_state) _ _ [] [] (Ok ()) approved_state.1 approved_state.2).
vm_compute. reflexivity.
Qed.
Lemma landing_after : rtc col_step (system approved_state) landing_system.
Proof.
apply rtc_once. apply (step_land (gate_input passing) (actor "lea") _ _ [] [] (Ok pending) landing_state.1 landing_state.2).
vm_compute. reflexivity.
Qed.
Lemma landed_after : rtc col_step landing_system (system landed_state).
Proof.
apply rtc_once. apply (step_landed landing _ _ [] [] pending []
  (land_finish pending landing landing_state.1 landing_state.2).1.1 landed_state.1 landed_state.2).
vm_compute. reflexivity.
Qed.
Lemma reachable_after input y y' : col_reachable input y → rtc col_step y y' → col_reachable input y'.
Proof. intros (y0 & Hi & H1) H2. exists y0. split; [done|by etrans]. Qed.
Lemma approved_reachable : col_reachable (coordinator_input plain_policy) (system approved_state).
Proof. eapply reachable_after; [exact composed_reachable|exact approved_after]. Qed.
Lemma landing_reachable : col_reachable (coordinator_input plain_policy) landing_system.
Proof. eapply reachable_after; [exact approved_reachable|exact landing_after]. Qed.
Lemma landed_reachable : col_reachable (coordinator_input plain_policy) (system landed_state).
Proof. eapply reachable_after; [exact landing_reachable|exact landed_after]. Qed.

(** ** Witnesses *)

Definition landed_cohort : IntegrationCohort.t := Eval vm_compute in
  default (PendingLanding.cohort pending) (omap_get "cohort" (Coordinator.cohorts landed_state.2)).
Lemma landed_was_landable_witness :
  omap_get "cohort" (Coordinator.cohorts landed_state.2) = Some landed_cohort ∧
  ∃ y1 i actor p y1' y2 l r y3, asked y1 i actor p y1' ∧ answered y2 p l r y3 ∧
    landable (col_state y1) (PendingLanding.cohort p) (CollaborationEvaluationInput.evidence i) ∧
    lands (col_state y2) (PendingLanding.cohort p) l.
Proof.
split; [vm_compute; reflexivity|].
destruct (landed_was_landable (coordinator_input plain_policy) (system landed_state) "cohort" landed_cohort) as
  (y1 & i & a & p & y1' & y2 & l & r & y3 & _ & H1 & _ & H2 & _ & _ & _ & H3 & H4 & _).
- exact landed_reachable.
- vm_compute. reflexivity.
- vm_compute. reflexivity.
- exists y1, i, a, p, y1', y2, l, r, y3. split; [exact H1|]. split; [exact H2|]. split; [exact H3|exact H4].
Defined.

Definition first_approval : ReviewApproval.t := Eval vm_compute in
  match omap_values (Coordinator.approvals approved_state.2) with
  | a :: _ => a
  | [] => ReviewApproval.mk "" "" "" "" "" "" (actor "") None [] [] "" "" ""
  end.
Lemma collaboration_consistent_witness :
  ReviewApproval.verifierActorIds first_approval = ["victor"] ∧ independent first_approval ∧
  omap_get (ReviewApproval.id first_approval) (Coordinator.approvals landed_state.2) = Some first_approval.
Proof.
pose proof (collaboration_consistent (coordinator_input plain_policy) (system approved_state) (system landed_state)
  approved_reachable (transitivity landing_after landed_after)) as [Hok He].
assert (omap_get (ReviewApproval.id first_approval) (Coordinator.approvals landed_state.2) = Some first_approval) as Ha.
{ apply (cv_approvals _ _ He). vm_compute. reflexivity. }
split; [vm_compute; reflexivity|]. split; [|exact Ha]. exact (ap_independent _ _ _ _ _ (ck_approvals _ _ Hok _ _ Ha)).
Defined.


Definition clash_composition : Composition.t := Eval vm_compute in composition clashing open_state.
Definition clash_started : World * Coordinator.t := Eval vm_compute in after (starting clashing open_state).
Lemma open_ok w : collaboration_ok w open_state.2.
Proof. apply (construct_spec (coordinator_input plain_policy)). by vm_compute. Qed.
(** The analyzer answers when the coordinator has moved on to a landed cohort. *)
Lemma createCohort_default_analyzer_witness : ∃ c w' s',
  createCohort_answer clash_composition
    (declaredEffectOverlapAnalyzer_analyze (analyzer_input clash_started.2 clash_composition)) landed_state.1 landed_state.2
    = (Ok (inr c), w', s') ∧ IntegrationCohort.state c = IntegrationCohortState.blocked.
Proof.
destruct (createCohort_default_analyzer clashing open_state.1 open_state.2 clash_composition clash_started.1 clash_started.2
  landed_state.1 landed_state.2) as (c & w' & s' & Hr & _ & _ & Hb & _).
- apply open_ok.
- vm_compute. reflexivity.
- vm_compute. reflexivity.
- exact (so_state _ (system_reachable _ _ landed_reachable)).
- exists c, w', s'. split; [exact Hr|]. apply Hb. exists 0%nat, 1%nat, ["schema.users"; "ui.home"], ["schema.users"], "schema.users".
  split_and!; [lia|reflexivity|reflexivity|left|left].
Defined.

(** ** Projections *)

Definition finding_input (summary : string) : SubmitFindingInput.t := {|
  SubmitFindingInput.cohortId := "cohort"; SubmitFindingInput.changeId := "c1";
  SubmitFindingInput.changeRevisionId := "change-revision:0"; SubmitFindingInput.author := actor "rita";
  SubmitFindingInput.kind := ReviewFindingKind.security; SubmitFindingInput.severity := ReviewFindingSeverity.blocking;
  SubmitFindingInput.summary := summary; SubmitFindingInput.disclosure := Some DisclosureClassification.restricted;
  SubmitFindingInput.scope := None; SubmitFindingInput.idempotencyKey := None |}.
Definition found (summary : string) : World * Coordinator.t := called (col_submitFinding (finding_input summary)) composed_state.
Definition found_key : World * Coordinator.t := Eval vm_compute in found "the key is in the log".
Definition found_hole : World * Coordinator.t := Eval vm_compute in found "the parser overflows".
Definition public_view : ProjectCohortInput.t := ProjectCohortInput.mk "cohort" DisclosureClassification.public [].
Definition seen_by (input : ProjectCohortInput.t) (σ : World * Coordinator.t) : option CohortProjection.t :=
  answer (projectCohort input σ.1 σ.2).
Definition public_explanation (σ : World * Coordinator.t) : CollaborationPolicyExplanation.t :=
  match answer (evaluateLanding (gate_input passing) σ.1 σ.2) with
  | Some x => x
  | None => CollaborationPolicyExplanation.mk "" "" "" CollaborationDecision.deny "" None "" "" [] [] ""
  end.
Definition explanation_before : CollaborationPolicyExplanation.t := Eval vm_compute in public_explanation found_key.
Definition explanation_after : CollaborationPolicyExplanation.t := Eval vm_compute in
  explanation_before <| CollaborationPolicyExplanation.blockers :=
    (λ b, b <| CollaborationBlocker.message := "hidden" |>) <$> CollaborationPolicyExplanation.blockers explanation_before |>.
Definition proposed_cohort : IntegrationCohort.t := Eval vm_compute in
  default landed_cohort (omap_get "cohort" (Coordinator.cohorts composed_state.2)).
Lemma same_views : views_alike public_view found_key.2 found_hole.2.
Proof.
split. exists proposed_cohort, proposed_cohort. split; [vm_compute; reflexivity|]. split; [vm_compute; reflexivity|].
cbv zeta. split; [split; [vm_compute; reflexivity|repeat constructor]|].
split; [vm_compute; constructor|]. split.
- vm_compute. constructor; [|constructor]. split; reflexivity.
- vm_compute. constructor; [|constructor]. split; reflexivity.
Qed.
Lemma projections_noninterference_witness :
  found_key.2 ≠ found_hole.2 ∧ explanation_before ≠ explanation_after ∧ seen_by public_view found_key = seen_by public_view found_hole ∧
  projectExplanation explanation_before DisclosureClassification.public [] =
    projectExplanation explanation_after DisclosureClassification.public [].
Proof.
split; [vm_compute; discriminate|]. split; [vm_compute; discriminate|].
destruct (projections_noninterference public_view found_key.1 found_key.2 found_hole.1 found_hole.2 explanation_before explanation_after)
  as [(v & H1 & H2) He].
- exact same_views.
- split; [vm_compute; reflexivity|]. vm_compute. repeat constructor.
- unfold seen_by. rewrite H1, H2. split; [reflexivity|exact He].
Defined.

(** ** With the local change control *)

Lemma control_run : rtc step (System.mk start Demo.initial []) (System.mk Demo.prepared.1 Demo.prepared.2 []).
Proof.
pose proof (Demo.run_steps Demo.prepare start Demo.initial []) as H.
assert (Demo.run Demo.prepare start Demo.initial = Demo.prepared) as Hr by (vm_compute; reflexivity). rewrite Hr in H. exact H.
Qed.
Lemma control_inv : inv Demo.root landing_state.1 Demo.prepared.2.
Proof.
destruct (good_steps Demo.root example_host_fresh ltac:(done) Demo.root_given _ _ control_run
  (construct_inv Demo.root (Project.mk "p" "realm" "n" ["a"; "b"]) [] start Demo.initial Demo.constructed)) as [[Hi _] _].
eapply (good_refl Demo.root Demo.prepared.1); [exact Hi|]. unfold w_le. vm_compute. lia.
Qed.
Lemma pending_landing_ok : pending_ok landing_state.2 pending.
Proof.
pose proof (so_landings _ (system_reachable _ _ landing_reachable)) as H.
exact (proj1 (Forall_singleton (pending_ok landing_state.2) pending) H).
Qed.
Lemma land_through_change_control_witness : ∃ l w k,
  authority pending landing_state.1 Demo.prepared.2 = (Ok l, w, k) ∧
  ProjectRevision.id (ChangeControl.Coordinator.canonical k) = Landing.projectRevisionId l ∧
  ∃ r c w' s', land_finish pending l landing_state.1 landing_state.2 = (Ok r, w', s') ∧
    omap_get "cohort" (Coordinator.cohorts s') = Some c ∧ landed_from (PendingLanding.cohort pending) c.
Proof.
pose proof (land_through_change_control Demo.root pending landing_state.1 Demo.prepared.2 landing_state.1 landing_state.2
  control_inv (so_state _ (system_reachable _ _ landing_reachable)) pending_landing_ok ltac:(vm_compute; discriminate)
  ltac:(vm_compute; reflexivity)) as H.
destruct (authority pending landing_state.1 Demo.prepared.2) as [[[l|e] w] k] eqn:Ha; [|vm_compute in Ha; discriminate Ha].
destruct H as (_ & Hc & r & c & w' & s' & Hf & Hk & Hl & _). exists l, w, k. split; [reflexivity|]. split; [exact Hc|].
exists r, c, w', s'. split; [exact Hf|]. split; [exact Hk|exact Hl].
Defined.

(** * At the edges *)

(** Requirements that differ only in the Project View they expect are one: the
    second is never checked. *)
Definition two_views : list EvidenceRequirement.t := [requirement (Some "v"); requirement (Some "w")].
Definition viewed_state : World * Coordinator.t := Eval vm_compute in
  let σ := after (composing quiet (opened two_views)) in called (approval "rita" σ) σ.
Example second_view_unchecked : decision passing viewed_state = Some CollaborationDecision.allow ∧
  decision [evidence "w" EvidenceOutcome.passed] viewed_state = Some CollaborationDecision.deny.
Proof. vm_compute. done. Qed.

(** The resolution of a hidden finding is in the public projection. *)
Definition resolved_state : World * Coordinator.t := Eval vm_compute in
  match omap_keys (Coordinator.findings found_key.2) with
  | k :: _ => called (col_resolveFinding (ResolveFindingInput.mk k (actor "rita") "rotated the leaked key")) found_key
  | [] => found_key
  end.
Example resolution_shown :
  fmap ReviewFinding.resolution ∘ CohortProjection.findings <$> seen_by public_view resolved_state =
    Some [Some "rotated the leaked key"].
Proof. vm_compute. reflexivity. Qed.

(** A cohort composed again under the id of one that has landed is proposed anew,
    and on the same base may land again. *)
Definition recomposed_state : World * Coordinator.t := Eval vm_compute in after (composing quiet landed_state).
Example landed_again : decision passing landed_state = Some CollaborationDecision.deny ∧
  decision passing recomposed_state = Some CollaborationDecision.allow.
Proof. vm_compute. done. Qed.

(** A blocking finding that arrives while the authority is asked does not stop the
    landing. *)
Example landed_over_a_finding :
  (IntegrationCohort.state <$> omap_get "cohort" (Coordinator.cohorts
     (let σ := called (col_submitFinding (finding_input "late")) landing_state in
      land_finish pending landing σ.1 σ.2).2)) = Some IntegrationCohortState.landed.
Proof. vm_compute. reflexivity. Qed.

(** A policy version that comes back brings its approvals back. *)
Definition activating (v : string) : col_call := col_activatePolicy (CollaborationPolicy.mk v plain_policy None).
Example approvals_revived :
  decision passing (called (activating "v2") approved_state) = Some CollaborationDecision.deny ∧
  decision passing (called (activating "v1") (called (activating "v2") approved_state)) = Some CollaborationDecision.allow.
Proof. vm_compute. done. Qed.

(** One principal may approve through another of its Actors what it verified. *)
Example other_actor : is_Some (answer (approve (ApproveInput.mk "cohort" (slot composed_state)
    (ActorRef.mk "rita" "rita-2" "session" "client") None None) composed_state.1 composed_state.2)).
Proof. vm_compute. by eexists. Qed.

(** The local change control lands a cohort with the empty id as no cohort at all:
    its answer is refused when its canonical revision has moved. *)
Definition nameless : PendingLanding.t :=
  PendingLanding.mk (PendingLanding.cohort pending <| IntegrationCohort.id := "" |>) (PendingLanding.explanation pending) (actor "lea").
Example nameless_refused :
  match authority nameless landing_state.1 Demo.prepared.2 with
  | (Ok l, _, k) => ProjectRevision.id (ChangeControl.Coordinator.canonical k) ≠ "r0" ∧
      answer (land_finish nameless l landing_state.1 landing_state.2) = None
  | _ => False
  end.
Proof. vm_compute. done. Qed.
End CollaborationDemo.
