(* ===== verification/Disclosure.v ===== *)
(** The hybrid disclosure boundary, src/disclosure/hybrid.ts: public projections of
    a Project and their identities, what an audience is told of Intents, Pull
    Requests and Changes, Sealed Verifiers, and Publication Changes.

    Functions that draw no id and read no clock are pure and return an [outcome];
    the others are computations.  [runSealedVerifier] is split where it waits for
    the private callback: [runSealedVerifier_begin] makes the checks that precede
    it, [runSealedVerifier_finish] takes its answer; the state of the latter is the
    Evidence ledger it is given. *)

From S2P Require Import Prelude Json Contracts Paths LocaleJson EvidenceLedger.

(** * Data *)

Module HybridDisclosureErrorCode.
Inductive t :=
| project_mismatch | duplicate_source_space | unknown_source_space | source_space_not_in_project
| public_source_space_required | missing_public_snapshot | source_snapshot_mismatch
| source_content_missing | public_file_invalid | public_file_collision
| public_destination_not_empty | repository_operation_failed | audience_not_authorized
| public_projection_required | private_input_mismatch | sealed_output_invalid
| sealed_side_channel | publication_state | publication_not_previewed | publication_not_landed.
#[global] Instance t_eq_dec : EqDecision t.
Proof. solve_decision. Defined.
Definition show (x : t) : string :=
  match x with
  | project_mismatch => "project-mismatch"
  | duplicate_source_space => "duplicate-source-space"
  | unknown_source_space => "unknown-source-space"
  | source_space_not_in_project => "source-space-not-in-project"
  | public_source_space_required => "public-source-space-required"
  | missing_public_snapshot => "missing-public-snapshot"
  | source_snapshot_mismatch => "source-snapshot-mismatch"
  | source_content_missing => "source-content-missing"
  | public_file_invalid => "public-file-invalid"
  | public_file_collision => "public-file-collision"
  | public_destination_not_empty => "public-destination-not-empty"
  | repository_operation_failed => "repository-operation-failed"
  | audience_not_authorized => "audience-not-authorized"
  | public_projection_required => "public-projection-required"
  | private_input_mismatch => "private-input-mismatch"
  | sealed_output_invalid => "sealed-output-invalid"
  | sealed_side_channel => "sealed-side-channel"
  | publication_state => "publication-state"
  | publication_not_previewed => "publication-not-previewed"
  | publication_not_landed => "publication-not-landed"
  end.
End HybridDisclosureErrorCode.

Module HybridDisclosureError.
Record t := mk {
  code : HybridDisclosureErrorCode.t;
  message : string;
  recoveryAction : string;
  receipt : string;
}.
#[global] Instance eta : Eta t := fun r =>
  mk (code r) (message r) (recoveryAction r) (receipt r).
End HybridDisclosureError.

(** ** Records of kernel/contracts.ts *)

Module IntentStatus.
Inductive t :=
| open | closed.
#[global] Instance t_eq_dec : EqDecision t.
Proof. solve_decision. Defined.
Definition show (x : t) : string :=
  match x with
  | open => "open"
  | closed => "closed"
  end.
End IntentStatus.

Module Intent.
Record t := mk {
  id : string;
  projectId : string;
  title : string;
  description : string;
  status : IntentStatus.t;
  author : ActorRef.t;
  assigneePrincipalIds : list string;
  labels : list string;
  disclosure : DisclosureClassification.t;
  createdAt : string;
  updatedAt : string;
  closedAt : option string;
  closedBy : option ActorRef.t;
  receipt : string;
}.
#[global] Instance eta : Eta t := fun r =>
  mk (id r) (projectId r) (title r) (description r) (status r) (author r)
  (assigneePrincipalIds r) (labels r) (disclosure r) (createdAt r) (updatedAt r) (closedAt r)
  (closedBy r) (receipt r).
End Intent.

Module IntentComment.
Record t := mk {
  id : string;
  intentId : string;
  projectId : string;
  author : ActorRef.t;
  body : string;
  disclosure : DisclosureClassification.t;
  createdAt : string;
  receipt : string;
}.
#[global] Instance eta : Eta t := fun r =>
  mk (id r) (intentId r) (projectId r) (author r) (body r) (disclosure r) (createdAt r)
  (receipt r).
End IntentComment.

Module PullRequestStatus.
Inductive t :=
| open | closed | merged | blocked.
#[global] Instance t_eq_dec : EqDecision t.
Proof. solve_decision. Defined.
Definition show (x : t) : string :=
  match x with
  | open => "open"
  | closed => "closed"
  | merged => "merged"
  | blocked => "blocked"
  end.
End PullRequestStatus.

Module PullRequestReviewState.
Inductive t :=
| pending | changes_requested | approved.
#[global] Instance t_eq_dec : EqDecision t.
Proof. solve_decision. Defined.
Definition show (x : t) : string :=
  match x with
  | pending => "pending"
  | changes_requested => "changes-requested"
  | approved => "approved"
  end.
End PullRequestReviewState.

Module PullRequestReview.
Record t := mk {
  id : string;
  pullRequestId : string;
  reviewer : ActorRef.t;
  state : PullRequestReviewState.t;
  headCommit : string;
  baseCommit : string;
  revisionSetDigest : string;
  reviewDigest : string;
  reviewedAt : string;
  receipt : string;
}.
#[global] Instance eta : Eta t := fun r =>
  mk (id r) (pullRequestId r) (reviewer r) (state r) (headCommit r) (baseCommit r)
  (revisionSetDigest r) (reviewDigest r) (reviewedAt r) (receipt r).
End PullRequestReview.

Module PullRequest.
Record t := mk {
  id : string;
  projectId : string;
  changeId : string;
  provider : string;
  externalKey : option string;
  remoteRepository : option string;
  sourceSpaceId : option string;
  headRef : string;
  baseRef : string;
  headCommit : string;
  baseCommit : string;
  title : string;
  description : string;
  status : PullRequestStatus.t;
  reviewState : PullRequestReviewState.t;
  reviewDigest : option string;
  reviewHeadCommit : option string;
  reviewBaseCommit : option string;
  reviewRevisionSetDigest : option string;
  reviewInvalidatedAt : option string;
  reviews : option (list PullRequestReview.t);
  revisionIds : list string;
  disclosure : DisclosureClassification.t;
  createdAt : string;
  updatedAt : string;
  closedAt : option string;
  mergedAt : option string;
  receipt : string;
}.
#[global] Instance eta : Eta t := fun r =>
  mk (id r) (projectId r) (changeId r) (provider r) (externalKey r) (remoteRepository r)
  (sourceSpaceId r) (headRef r) (baseRef r) (headCommit r) (baseCommit r) (title r)
  (description r) (status r) (reviewState r) (reviewDigest r) (reviewHeadCommit r)
  (reviewBaseCommit r) (reviewRevisionSetDigest r) (reviewInvalidatedAt r) (reviews r)
  (revisionIds r) (disclosure r) (createdAt r) (updatedAt r) (closedAt r) (mergedAt r)
  (receipt r).
End PullRequest.

(** ** Public projections *)

Module PublicProjectionSource.
Record t := mk {
  sourceSpaceId : string;
  snapshotId : string;
  files : omap string;
  mountPath : option string;
}.
#[global] Instance eta : Eta t := fun r =>
  mk (sourceSpaceId r) (snapshotId r) (files r) (mountPath r).
End PublicProjectionSource.

Module PublicProjectionInput.
Record t := mk {
  project : Project.t;
  canonicalRevision : ProjectRevision.t;
  sourceSpaces : list SourceSpace.t;
  publicSourceSpaceIds : list string;
  sources : list PublicProjectionSource.t;
  profileId : option string;
}.
#[global] Instance eta : Eta t := fun r =>
  mk (project r) (canonicalRevision r) (sourceSpaces r) (publicSourceSpaceIds r) (sources r)
  (profileId r).
End PublicProjectionInput.

Module PublicProjectionSourceDescriptor.
Record t := mk {
  id : string;
  name : string;
  snapshotId : string;
}.
#[global] Instance eta : Eta t := fun r =>
  mk (id r) (name r) (snapshotId r).
End PublicProjectionSourceDescriptor.
#[export] Instance PublicProjectionSourceDescriptor_to_json : ToJson PublicProjectionSourceDescriptor.t := λ r, object
  [field "id" (PublicProjectionSourceDescriptor.id r);
   field "name" (PublicProjectionSourceDescriptor.name r);
   field "snapshotId" (PublicProjectionSourceDescriptor.snapshotId r)].

(** What [projectionFiles] says of a selected Source Space. *)
Module MountDescriptor.
Record t := mk {
  sourceSpaceId : string;
  snapshotId : string;
  mountPath : string;
}.
#[global] Instance eta : Eta t := fun r =>
  mk (sourceSpaceId r) (snapshotId r) (mountPath r).
End MountDescriptor.

Module PublicProjectionRevision.
Record t := mk {
  projectId : string;
  projectName : string;
  profileId : string;
  classification : DisclosureClassification.t;
  lineageId : string;
  projectionRevisionId : string;
  publicSnapshotId : string;
  contentDigest : string;
  sourceSpaces : list PublicProjectionSourceDescriptor.t;
  sourceSpaceIds : list string;
  sourceSpaceSnapshots : omap string;
  filePaths : list string;
  files : omap string;
  receipt : string;
}.
#[global] Instance eta : Eta t := fun r =>
  mk (projectId r) (projectName r) (profileId r) (classification r) (lineageId r)
  (projectionRevisionId r) (publicSnapshotId r) (contentDigest r) (sourceSpaces r)
  (sourceSpaceIds r) (sourceSpaceSnapshots r) (filePaths r) (files r) (receipt r).
End PublicProjectionRevision.

(** ** Audience summaries *)

Module PublicChangeEffect.
Record t := mk {
  sourceSpaceId : string;
  publicLabel : string;
  internalLabel : option string;
}.
#[global] Instance eta : Eta t := fun r =>
  mk (sourceSpaceId r) (publicLabel r) (internalLabel r).
End PublicChangeEffect.

Module AudienceEvidenceProjection.
Record t := mk {
  id : string;
  outcome : EvidenceOutcome.t;
  disclosure : DisclosureClassification.t;
}.
#[global] Instance eta : Eta t := fun r =>
  mk (id r) (outcome r) (disclosure r).
End AudienceEvidenceProjection.

Module AudienceChangeSummary.
Record t := mk {
  audience : DisclosureClassification.t;
  projectId : string;
  changeId : string;
  revisionId : string;
  summary : string;
  affectedSourceSpaceIds : list string;
  declaredEffects : list string;
  evidence : list AudienceEvidenceProjection.t;
  receipt : string;
}.
#[global] Instance eta : Eta t := fun r =>
  mk (audience r) (projectId r) (changeId r) (revisionId r) (summary r)
  (affectedSourceSpaceIds r) (declaredEffects r) (evidence r) (receipt r).
End AudienceChangeSummary.

Module AudienceComment.
Record t := mk {
  id : string;
  body : string;
  disclosure : DisclosureClassification.t;
}.
#[global] Instance eta : Eta t := fun r =>
  mk (id r) (body r) (disclosure r).
End AudienceComment.

Module AudienceIntentSummary.
Record t := mk {
  audience : DisclosureClassification.t;
  projectId : string;
  intentId : string;
  title : string;
  description : string;
  status : IntentStatus.t;
  labels : list string;
  comments : list AudienceComment.t;
  receipt : string;
}.
#[global] Instance eta : Eta t := fun r =>
  mk (audience r) (projectId r) (intentId r) (title r) (description r) (status r) (labels r)
  (comments r) (receipt r).
End AudienceIntentSummary.

Module AudiencePullRequestSummary.
Record t := mk {
  audience : DisclosureClassification.t;
  projectId : string;
  pullRequestId : string;
  changeId : option string;
  title : string;
  description : string;
  status : PullRequestStatus.t;
  reviewState : PullRequestReviewState.t;
  headRef : string;
  baseRef : string;
  revisionCount : nat;
  receipt : string;
}.
#[global] Instance eta : Eta t := fun r =>
  mk (audience r) (projectId r) (pullRequestId r) (changeId r) (title r) (description r)
  (status r) (reviewState r) (headRef r) (baseRef r) (revisionCount r) (receipt r).
End AudiencePullRequestSummary.

Module SummarizeIntentInput.
Record t := mk {
  project : Project.t;
  intent : Intent.t;
  comments : option (list IntentComment.t);
  audience : DisclosureClassification.t;
}.
#[global] Instance eta : Eta t := fun r =>
  mk (project r) (intent r) (comments r) (audience r).
End SummarizeIntentInput.

Module SummarizePullRequestInput.
Record t := mk {
  project : Project.t;
  pullRequest : PullRequest.t;
  audience : DisclosureClassification.t;
}.
#[global] Instance eta : Eta t := fun r =>
  mk (project r) (pullRequest r) (audience r).
End SummarizePullRequestInput.

Module SummarizeChangeInput.
Record t := mk {
  project : Project.t;
  changeRevision : ChangeRevision.t;
  sourceSpaces : list SourceSpace.t;
  audience : DisclosureClassification.t;
  publicSummary : string;
  internalSummary : option string;
  publicProjection : option PublicProjectionRevision.t;
  effects : option (list PublicChangeEffect.t);
  evidence : option (list Evidence.t);
}.
#[global] Instance eta : Eta t := fun r =>
  mk (project r) (changeRevision r) (sourceSpaces r) (audience r) (publicSummary r)
  (internalSummary r) (publicProjection r) (effects r) (evidence r).
End SummarizeChangeInput.

(** ** Sealed Verifiers *)

Module SealedDisclosureClass.
Inductive t :=
| status | safe_summary | redacted_findings | authorized_detail.
#[global] Instance t_eq_dec : EqDecision t.
Proof. solve_decision. Defined.
Definition show (x : t) : string :=
  match x with
  | status => "status"
  | safe_summary => "safe-summary"
  | redacted_findings => "redacted-findings"
  | authorized_detail => "authorized-detail"
  end.
End SealedDisclosureClass.

Module AcceptedInput.
Inductive t :=
| public_project_view | public_change_revision.
#[global] Instance t_eq_dec : EqDecision t.
Proof. solve_decision. Defined.
Definition show (x : t) : string :=
  match x with
  | public_project_view => "public-project-view"
  | public_change_revision => "public-change-revision"
  end.
End AcceptedInput.

Module SideChannelPolicy.
Inductive t :=
| coarse | owner_controlled.
#[global] Instance t_eq_dec : EqDecision t.
Proof. solve_decision. Defined.
Definition show (x : t) : string :=
  match x with
  | coarse => "coarse"
  | owner_controlled => "owner-controlled"
  end.
End SideChannelPolicy.

Module AppealPolicy.
Inductive t :=
| maintainer_review | deterministic_rerun | none.
#[global] Instance t_eq_dec : EqDecision t.
Proof. solve_decision. Defined.
Definition show (x : t) : string :=
  match x with
  | maintainer_review => "maintainer-review"
  | deterministic_rerun => "deterministic-rerun"
  | none => "none"
  end.
End AppealPolicy.

Module SealedVerifierContract.
Record t := mk {
  version : string;
  id : string;
  name : string;
  actionId : string;
  actionContractDigest : string;
  contractDigest : string;
  acceptedInput : AcceptedInput.t;
  privateSourceSpaceIds : list string;
  allowedAudiences : list DisclosureClassification.t;
  disclosure : SealedDisclosureClass.t;
  sideChannelPolicy : SideChannelPolicy.t;
  appealPolicy : AppealPolicy.t;
}.
#[global] Instance eta : Eta t := fun r =>
  mk (version r) (id r) (name r) (actionId r) (actionContractDigest r) (contractDigest r)
  (acceptedInput r) (privateSourceSpaceIds r) (allowedAudiences r) (disclosure r)
  (sideChannelPolicy r) (appealPolicy r).
End SealedVerifierContract.

Module SealedVerifierPrivateInput.
Record t := mk {
  sourceSpaceIds : list string;
  files : omap string;
  inputDigests : list string;
}.
#[global] Instance eta : Eta t := fun r =>
  mk (sourceSpaceIds r) (files r) (inputDigests r).
End SealedVerifierPrivateInput.

Module SealedVerifierExecutionContext.
Record t := mk {
  publicProjection : PublicProjectionRevision.t;
  changeRevision : ChangeRevision.t;
  privateInput : SealedVerifierPrivateInput.t;
}.
#[global] Instance eta : Eta t := fun r =>
  mk (publicProjection r) (changeRevision r) (privateInput r).
End SealedVerifierExecutionContext.

Module SealedStatus.
Inductive t :=
| passed | failed | indeterminate.
#[global] Instance t_eq_dec : EqDecision t.
Proof. solve_decision. Defined.
Definition show (x : t) : string :=
  match x with
  | passed => "passed"
  | failed => "failed"
  | indeterminate => "indeterminate"
  end.
End SealedStatus.

Module SafeFinding.
Record t := mk {
  code : string;
  summary : string;
}.
#[global] Instance eta : Eta t := fun r =>
  mk (code r) (summary r).
End SafeFinding.
#[export] Instance SafeFinding_to_json : ToJson SafeFinding.t := λ r, object
  [field "code" (SafeFinding.code r);
   field "summary" (SafeFinding.summary r)].

Module SealedVerifierPrivateResult.
Record t := mk {
  status : SealedStatus.t;
  safeSummary : option string;
  safeFindings : option (list SafeFinding.t);
  outputDigest : string;
  privateReceipt : string;
}.
#[global] Instance eta : Eta t := fun r =>
  mk (status r) (safeSummary r) (safeFindings r) (outputDigest r) (privateReceipt r).
End SealedVerifierPrivateResult.

Module SealedEvidenceProjection.
Record t := mk {
  id : string;
  outcome : EvidenceOutcome.t;
  disclosure : DisclosureClassification.t;
  verifierId : string;
  projectViewId : string;
}.
#[global] Instance eta : Eta t := fun r =>
  mk (id r) (outcome r) (disclosure r) (verifierId r) (projectViewId r).
End SealedEvidenceProjection.

Module AppealStatus.
Inductive t :=
| eligible | not_available.
#[global] Instance t_eq_dec : EqDecision t.
Proof. solve_decision. Defined.
Definition show (x : t) : string :=
  match x with
  | eligible => "eligible"
  | not_available => "not-available"
  end.
End AppealStatus.

Module SealedVerificationAppeal.
Record t := mk {
  id : string;
  runId : string;
  status : AppealStatus.t;
  audience : DisclosureClassification.t;
  projectViewId : string;
  receipt : string;
}.
#[global] Instance eta : Eta t := fun r =>
  mk (id r) (runId r) (status r) (audience r) (projectViewId r) (receipt r).
End SealedVerificationAppeal.

Module SealedVerificationResult.
Record t := mk {
  id : string;
  runId : string;
  verifierId : string;
  audience : DisclosureClassification.t;
  status : SealedStatus.t;
  disclosure : SealedDisclosureClass.t;
  projectViewId : string;
  summary : option string;
  findings : option (list SafeFinding.t);
  evidence : SealedEvidenceProjection.t;
  appeal : SealedVerificationAppeal.t;
  contractDigest : string;
  receipt : string;
}.
#[global] Instance eta : Eta t := fun r =>
  mk (id r) (runId r) (verifierId r) (audience r) (status r) (disclosure r) (projectViewId r)
  (summary r) (findings r) (evidence r) (appeal r) (contractDigest r) (receipt r).
End SealedVerificationResult.

(** Of the callback and the ledger only whether a ledger is given is kept. *)
Module RunSealedVerifierInput.
Record t := mk {
  projectId : string;
  publicProjection : PublicProjectionRevision.t;
  changeRevision : ChangeRevision.t;
  contract : SealedVerifierContract.t;
  audience : DisclosureClassification.t;
  privateInput : SealedVerifierPrivateInput.t;
  ledger : bool;
  actor : ActorRef.t;
  runnerId : string;
  policyVersion : string;
  authorizationEpoch : string;
  capabilityGrantId : string;
  owner : string;
}.
#[global] Instance eta : Eta t := fun r =>
  mk (projectId r) (publicProjection r) (changeRevision r) (contract r) (audience r)
  (privateInput r) (ledger r) (actor r) (runnerId r) (policyVersion r) (authorizationEpoch r)
  (capabilityGrantId r) (owner r).
End RunSealedVerifierInput.

Module AppealInput.
Record t := mk {
  result : SealedVerificationResult.t;
  reason : string;
}.
#[global] Instance eta : Eta t := fun r =>
  mk (result r) (reason r).
End AppealInput.

(** ** Publication Changes *)

Module PublicationHistoryPolicy.
Inductive t :=
| curated | selected | full.
#[global] Instance t_eq_dec : EqDecision t.
Proof. solve_decision. Defined.
Definition show (x : t) : string :=
  match x with
  | curated => "curated"
  | selected => "selected"
  | full => "full"
  end.
End PublicationHistoryPolicy.

Module PublicationState.
Inductive t :=
| draft | previewed | approved | landed | revoked.
#[global] Instance t_eq_dec : EqDecision t.
Proof. solve_decision. Defined.
Definition show (x : t) : string :=
  match x with
  | draft => "draft"
  | previewed => "previewed"
  | approved => "approved"
  | landed => "landed"
  | revoked => "revoked"
  end.
End PublicationState.

Module MetadataDisclosure.
Inductive t :=
| none | safe.
#[global] Instance t_eq_dec : EqDecision t.
Proof. solve_decision. Defined.
Definition show (x : t) : string :=
  match x with
  | none => "none"
  | safe => "safe"
  end.
End MetadataDisclosure.

Module PublicationChange.
Record t := mk {
  id : string;
  projectId : string;
  publicSourceSpaceId : string;
  publicProjection : PublicProjectionRevision.t;
  historyPolicy : PublicationHistoryPolicy.t;
  metadataDisclosure : MetadataDisclosure.t;
  state : PublicationState.t;
  createdAt : string;
  landedAt : option string;
  revokedAt : option string;
  receipt : string;
}.
#[global] Instance eta : Eta t := fun r =>
  mk (id r) (projectId r) (publicSourceSpaceId r) (publicProjection r) (historyPolicy r)
  (metadataDisclosure r) (state r) (createdAt r) (landedAt r) (revokedAt r) (receipt r).
End PublicationChange.

Module PublicationPreview.
Record t := mk {
  change : PublicationChange.t;
  warnings : list string;
  receipt : string;
}.
#[global] Instance eta : Eta t := fun r =>
  mk (change r) (warnings r) (receipt r).
End PublicationPreview.

Module CreatePublicationChangeInput.
Record t := mk {
  projectId : string;
  publicProjection : PublicProjectionRevision.t;
  historyPolicy : option PublicationHistoryPolicy.t;
  metadataDisclosure : option MetadataDisclosure.t;
  id : option string;
  createdAt : option string;
}.
#[global] Instance eta : Eta t := fun r =>
  mk (projectId r) (publicProjection r) (historyPolicy r) (metadataDisclosure r) (id r)
  (createdAt r).
End CreatePublicationChangeInput.

(** * Helpers *)

#[local] Abbreviation out := (outcome HybridDisclosureError.t).
Definition fail {A} (code : HybridDisclosureErrorCode.t) (message recoveryAction receipt : string) : out A :=
  Throw (HybridDisclosureError.mk code message recoveryAction receipt).

(** A loop of checks, and one that builds a value. *)
Fixpoint check_each {A} (l : list A) (f : A → out ()) : out () :=
  match l with [] => Ok () | x :: l => _ ← f x; check_each l f end.
Fixpoint build_each {A B} (l : list A) (f : B → A → out B) (b : B) : out B :=
  match l with [] => Ok b | x :: l => b ← f b x; build_each l f b end.
Fixpoint gather {A B} (l : list A) (f : A → out B) : out (list B) :=
  match l with [] => Ok [] | x :: l => y ← f x; ys ← gather l f; Ok (y :: ys) end.

Definition disclosureRank (value : DisclosureClassification.t) : nat :=
  match value with
  | DisclosureClassification.public => 0
  | DisclosureClassification.project => 1
  | DisclosureClassification.restricted => 2
  end.

Definition normalizePublicPath (value : string) : out string :=
  let replaced := replace_char char_backslash char_slash value in
  let normalized := strip_dot_slash (posix_normalize replaced) in
  let segments := split char_slash replaced in
  if String.eqb replaced "" || String.eqb normalized "" || String.eqb normalized "." || starts_with "/" normalized
     || existsb (λ segment, String.eqb segment "..") segments || String.eqb normalized ".."
     || starts_with "../" normalized || includes "/../" normalized
     || string_exists (fun c => Ascii.eqb c char_nul) normalized || list_includes segments ".git" then
    fail HybridDisclosureErrorCode.public_file_invalid
      "Public projection contains an invalid file path; projection paths must be relative and outside Git metadata."
      "remove absolute, traversal, NUL, or .git paths and preview the Publication Change again"
      "rule=relative-no-traversal-no-git-metadata"
  else Ok normalized.

Definition catalogById (sourceSpaces : list SourceSpace.t) : out (omap SourceSpace.t) :=
  if has_duplicates (SourceSpace.id <$> sourceSpaces) then
    fail HybridDisclosureErrorCode.duplicate_source_space "The Source Space catalog contains duplicate identities."
      "provide one catalog entry per Source Space and retry" "rule=unique-source-space-catalog"
  else Ok (omap_from ((λ space, (SourceSpace.id space, space)) <$> sourceSpaces)).

Section disclosure.
Context `{HH : Host}.

(** [JSON.stringify(stableValue(value)) ?? "null"]. *)
Definition stableJson (value : json) : string :=
  match value with JUndefined => "null" | _ => encode_plain "undefined" (stableValue value) end.
Definition digest (value : json) : string := digest_text (stableJson value).

Definition sort_locale : list string → list string := sort_by localeCompare.
Definition sortedUnique (values : list string) (error : HybridDisclosureErrorCode.t) (message : string) :
    out (list string) :=
  let sorted := sort_locale values in
  if has_duplicates sorted then
    fail error message "remove duplicate Source Space entries and retry the disclosure operation"
      (cat ["rule=unique-source-space-identities; count="; pretty (length sorted)])
  else Ok sorted.

(** * Public projections *)

Definition check_public (project : Project.t) (revision : ProjectRevision.t) (catalog : omap SourceSpace.t)
    (id : string) : out () :=
  match omap_get id catalog with
  | None =>
      fail HybridDisclosureErrorCode.unknown_source_space
        "The requested Source Space is not in the authorized projection catalog."
        "refresh the Source Space catalog and retry with an authorized public Source Space" "rule=catalog-membership"
  | Some sourceSpace =>
      if negb (list_includes (Project.sourceSpaceIds project) id) then
        fail HybridDisclosureErrorCode.source_space_not_in_project
          "The requested Source Space is not owned by the Project."
          "select a Source Space declared by the Project" "rule=project-source-space-membership"
      else if negb (bool_decide (SourceSpace.classification sourceSpace = SourceSpaceClassification.public)) then
        fail HybridDisclosureErrorCode.public_source_space_required
          "A public projection can contain only public Source Spaces."
          "publish an explicit safe projection of a public Source Space; do not change visibility in place"
          "rule=public-classification-only"
      else if negb (omap_has id (ProjectRevision.sourceSpaceSnapshots revision)) then
        fail HybridDisclosureErrorCode.missing_public_snapshot
          "The Project Revision has no exact snapshot for one selected public Source Space."
          "refresh the canonical Project Revision before previewing publication" "rule=revision-snapshot-required"
      else Ok ()
  end.
Definition publicSourceSpaceIds (project : Project.t) (revision : ProjectRevision.t)
    (sourceSpaces : list SourceSpace.t) (requestedIds : list string) : out (list string) :=
  if negb (String.eqb (ProjectRevision.projectId revision) (Project.id project)) then
    fail HybridDisclosureErrorCode.project_mismatch "The Project Revision does not belong to the requested Project."
      "derive the public projection from the same Project and Project Revision" "rule=revision-project-equality"
  else
    catalog ← catalogById sourceSpaces;
    ids ← sortedUnique requestedIds HybridDisclosureErrorCode.duplicate_source_space
      "A public projection cannot disclose one Source Space more than once.";
    _ ← check_each ids (check_public project revision catalog);
    Ok ids.

Definition index_source (byId : omap PublicProjectionSource.t) (source : PublicProjectionSource.t) :
    out (omap PublicProjectionSource.t) :=
  if omap_has (PublicProjectionSource.sourceSpaceId source) byId then
    fail HybridDisclosureErrorCode.duplicate_source_space
      "Public projection content names one Source Space more than once."
      "provide exactly one content snapshot for each selected public Source Space" "rule=unique-source-content-inputs"
  else Ok (omap_set (PublicProjectionSource.sourceSpaceId source) source byId).
Definition mounted (mountPath path : string) : string :=
  if String.eqb mountPath "" then path else cat [mountPath; "/"; path].
Definition place_file (mountPath : string) (files : omap string) (entry : string * string) : out (omap string) :=
  path ← normalizePublicPath entry.1;
  let target := mounted mountPath path in
  if omap_has target files then
    fail HybridDisclosureErrorCode.public_file_collision "Two public Source Spaces map to the same projection path."
      "assign explicit non-overlapping public mount paths and preview again" "rule=collision-free-public-projection"
  else Ok (omap_set target entry.2 files).
Definition place_source (selectedIds : list string) (revision : ProjectRevision.t)
    (byId : omap PublicProjectionSource.t) (placed : omap string * list MountDescriptor.t) (id : string) :
    out (omap string * list MountDescriptor.t) :=
  match omap_get id byId with
  | None =>
      fail HybridDisclosureErrorCode.source_content_missing
        "Public projection content is missing for one selected Source Space."
        "load the exact authorized Source Space snapshot and retry preview"
        "rule=content-for-every-selected-source-space"
  | Some source =>
      if negb (bool_decide (Some (PublicProjectionSource.snapshotId source) =
                            omap_get id (ProjectRevision.sourceSpaceSnapshots revision))) then
        fail HybridDisclosureErrorCode.source_snapshot_mismatch
          "Public projection content does not match the exact Project Revision snapshot."
          "refresh the source content from the requested Project Revision" "rule=content-snapshot-equality"
      else
        mountPath ← match PublicProjectionSource.mountPath source with
                    | None => Ok (if (length selectedIds =? 1)%nat then "" else id)
                    | Some mountPath => normalizePublicPath mountPath
                    end;
        files ← build_each (PublicProjectionSource.files source) (place_file mountPath) placed.1;
        Ok (files, placed.2 ++ [MountDescriptor.mk id (PublicProjectionSource.snapshotId source) mountPath])
  end.
Definition locale_entry {A} (p q : string * A) : comparison := localeCompare p.1 q.1.
Definition projectionFiles (sources : list PublicProjectionSource.t) (selectedIds : list string)
    (revision : ProjectRevision.t) : out (omap string * list MountDescriptor.t) :=
  byId ← build_each sources index_source [];
  placed ← build_each selectedIds (place_source selectedIds revision byId) ([], []);
  Ok (omap_from (sort_by locale_entry placed.1), placed.2).

Definition CONTRACT_VERSIONS_publicProjection : string := "anyam.public-projection/v1".
Definition describe (revision : ProjectRevision.t) (catalog : omap SourceSpace.t) (id : string) :
    out PublicProjectionSourceDescriptor.t :=
  match omap_get id catalog with
  | None =>
      fail HybridDisclosureErrorCode.unknown_source_space
        "The public Source Space disappeared while constructing the projection."
        "refresh the Source Space catalog and retry" "rule=stable-catalog-during-projection"
  | Some space =>
      match omap_get id (ProjectRevision.sourceSpaceSnapshots revision) with
      | None =>
          fail HybridDisclosureErrorCode.missing_public_snapshot
            "A selected public Source Space has no snapshot in the Project Revision."
            "refresh the canonical Project Revision and retry" "rule=revision-snapshot-required"
      | Some snapshotId => Ok (PublicProjectionSourceDescriptor.mk id (SourceSpace.name space) snapshotId)
      end
  end.
(** The identities of a projection, from what it discloses. *)
Definition lineage_json (projectId profileId : string) (selectedIds : list string) : json := object
  [field "protocol" CONTRACT_VERSIONS_publicProjection; field "projectId" projectId;
   field "profileId" profileId; field "sourceSpaceIds" selectedIds].
Definition snapshot_json (lineageId : string) (sourceSpaces : list PublicProjectionSourceDescriptor.t)
    (files : omap string) : json := object
  [field "protocol" CONTRACT_VERSIONS_publicProjection; field "lineageId" lineageId;
   field "sourceSpaces" sourceSpaces; field "files" files].
Definition revision_json (lineageId publicSnapshotId : string) : json := object
  [field "protocol" CONTRACT_VERSIONS_publicProjection; field "lineageId" lineageId;
   field "publicSnapshotId" publicSnapshotId].
Definition public_image (projectId projectName profileId : string) (selectedIds : list string)
    (sourceSpaces : list PublicProjectionSourceDescriptor.t) (files : omap string) : PublicProjectionRevision.t :=
  let lineageId := digest (lineage_json projectId profileId selectedIds) in
  let contentDigest := digest (to_json files) in
  let publicSnapshotId := digest (snapshot_json lineageId sourceSpaces files) in
  let projectionRevisionId := digest (revision_json lineageId publicSnapshotId) in {|
    PublicProjectionRevision.projectId := projectId;
    PublicProjectionRevision.projectName := projectName;
    PublicProjectionRevision.profileId := profileId;
    PublicProjectionRevision.classification := DisclosureClassification.public;
    PublicProjectionRevision.lineageId := lineageId;
    PublicProjectionRevision.projectionRevisionId := projectionRevisionId;
    PublicProjectionRevision.publicSnapshotId := publicSnapshotId;
    PublicProjectionRevision.contentDigest := contentDigest;
    PublicProjectionRevision.sourceSpaces := sourceSpaces;
    PublicProjectionRevision.sourceSpaceIds := selectedIds;
    PublicProjectionRevision.sourceSpaceSnapshots :=
      omap_from ((λ space, (PublicProjectionSourceDescriptor.id space,
                            PublicProjectionSourceDescriptor.snapshotId space)) <$> sourceSpaces);
    PublicProjectionRevision.filePaths := omap_keys files;
    PublicProjectionRevision.files := files;
    PublicProjectionRevision.receipt :=
      cat ["public-lineage="; lineageId; "; projection-revision="; projectionRevisionId;
           "; canonical-revision=omitted"] |}.
Definition createPublicProjection (input : PublicProjectionInput.t) : out PublicProjectionRevision.t :=
  let project := PublicProjectionInput.project input in
  let revision := PublicProjectionInput.canonicalRevision input in
  selectedIds ← publicSourceSpaceIds project revision (PublicProjectionInput.sourceSpaces input)
                  (PublicProjectionInput.publicSourceSpaceIds input);
  catalog ← catalogById (PublicProjectionInput.sourceSpaces input);
  projected ← projectionFiles (PublicProjectionInput.sources input) selectedIds revision;
  sourceSpaces ← gather selectedIds (describe revision catalog);
  Ok (public_image (Project.id project) (Project.name project)
        (default "public" (PublicProjectionInput.profileId input)) selectedIds sourceSpaces projected.1).

(** * Audience summaries *)

Definition above (audience disclosure : DisclosureClassification.t) : bool :=
  (disclosureRank audience <? disclosureRank disclosure)%nat.

Definition by_creation (left right : IntentComment.t) : comparison :=
  match localeCompare (IntentComment.createdAt left) (IntentComment.createdAt right) with
  | Eq => localeCompare (IntentComment.id left) (IntentComment.id right)
  | c => c
  end.
Definition summarizeIntentForAudience (input : SummarizeIntentInput.t) : out (option AudienceIntentSummary.t) :=
  let project := SummarizeIntentInput.project input in
  let intent := SummarizeIntentInput.intent input in
  let audience := SummarizeIntentInput.audience input in
  if negb (String.eqb (Intent.projectId intent) (Project.id project)) then
    fail HybridDisclosureErrorCode.project_mismatch "The Intent does not belong to the requested Project."
      "derive the Intent summary from the same Project that owns the Intent" "rule=intent-project-equality"
  else if above audience (Intent.disclosure intent) then Ok None
  else
    let comments := (λ comment, AudienceComment.mk (IntentComment.id comment) (IntentComment.body comment)
                                  (IntentComment.disclosure comment)) <$>
      sort_by by_creation (base.filter (λ comment, IntentComment.intentId comment = Intent.id intent ∧
                                         above audience (IntentComment.disclosure comment) = false)
        (default [] (SummarizeIntentInput.comments input))) in
    Ok (Some {|
      AudienceIntentSummary.audience := audience;
      AudienceIntentSummary.projectId := Project.id project;
      AudienceIntentSummary.intentId := Intent.id intent;
      AudienceIntentSummary.title := Intent.title intent;
      AudienceIntentSummary.description := Intent.description intent;
      AudienceIntentSummary.status := Intent.status intent;
      AudienceIntentSummary.labels := Intent.labels intent;
      AudienceIntentSummary.comments := comments;
      AudienceIntentSummary.receipt :=
        cat ["audience="; DisclosureClassification.show audience; "; intent="; Intent.id intent;
             "; inaccessible-metadata=omitted; author=omitted; assignees=omitted"] |}).

Definition summarizePullRequestForAudience (input : SummarizePullRequestInput.t) :
    out (option AudiencePullRequestSummary.t) :=
  let project := SummarizePullRequestInput.project input in
  let pullRequest := SummarizePullRequestInput.pullRequest input in
  let audience := SummarizePullRequestInput.audience input in
  if negb (String.eqb (PullRequest.projectId pullRequest) (Project.id project)) then
    fail HybridDisclosureErrorCode.project_mismatch "The Pull Request does not belong to the requested Project."
      "derive the Pull Request summary from the same Project that owns it" "rule=pull-request-project-equality"
  else if above audience (PullRequest.disclosure pullRequest) then Ok None
  else Ok (Some {|
    AudiencePullRequestSummary.audience := audience;
    AudiencePullRequestSummary.projectId := Project.id project;
    AudiencePullRequestSummary.pullRequestId := PullRequest.id pullRequest;
    AudiencePullRequestSummary.changeId :=
      if bool_decide (audience = DisclosureClassification.public) then None else Some (PullRequest.changeId pullRequest);
    AudiencePullRequestSummary.title := PullRequest.title pullRequest;
    AudiencePullRequestSummary.description := PullRequest.description pullRequest;
    AudiencePullRequestSummary.status := PullRequest.status pullRequest;
    AudiencePullRequestSummary.reviewState := PullRequest.reviewState pullRequest;
    AudiencePullRequestSummary.headRef := PullRequest.headRef pullRequest;
    AudiencePullRequestSummary.baseRef := PullRequest.baseRef pullRequest;
    AudiencePullRequestSummary.revisionCount := length (PullRequest.revisionIds pullRequest);
    AudiencePullRequestSummary.receipt :=
      cat ["audience="; DisclosureClassification.show audience; "; pullRequest="; PullRequest.id pullRequest;
           "; provider-identity=omitted; remoteRepository=omitted; canonicalAuthority=anyam"] |}).

Definition check_effect (project : Project.t) (catalog : omap SourceSpace.t) (effect : PublicChangeEffect.t) : out () :=
  if negb (omap_has (PublicChangeEffect.sourceSpaceId effect) catalog) then
    fail HybridDisclosureErrorCode.unknown_source_space
      "A Change effect names a Source Space outside the disclosure catalog."
      "refresh the Project Source Space catalog and retry the audience projection"
      "rule=effect-source-space-catalog-membership"
  else if negb (list_includes (Project.sourceSpaceIds project) (PublicChangeEffect.sourceSpaceId effect)) then
    fail HybridDisclosureErrorCode.source_space_not_in_project
      "A Change effect names a Source Space outside the Project."
      "attach the effect to a Source Space owned by the Project" "rule=effect-project-membership"
  else Ok ().
Definition is_public (catalog : omap SourceSpace.t) (id : string) : bool :=
  bool_decide (SourceSpace.classification <$> omap_get id catalog = Some SourceSpaceClassification.public).
Definition summarizeChangeForAudience (input : SummarizeChangeInput.t) : out AudienceChangeSummary.t :=
  let project := SummarizeChangeInput.project input in
  let changeRevision := SummarizeChangeInput.changeRevision input in
  let audience := SummarizeChangeInput.audience input in
  let to_public := bool_decide (audience = DisclosureClassification.public) in
  catalog ← catalogById (SummarizeChangeInput.sourceSpaces input);
  _ ← (if to_public && bool_decide (SummarizeChangeInput.publicProjection input = None) then
         fail HybridDisclosureErrorCode.public_projection_required
           "A public Change summary requires the exact public Project View Revision it describes."
           "derive or load the public projection before rendering the public Change summary"
           "rule=public-summary-binds-to-public-projection"
       else Ok ());
  let effectInputs := default [] (SummarizeChangeInput.effects input) in
  _ ← check_each effectInputs (check_effect project catalog);
  let visibleEffects := base.filter (λ effect, is_public catalog (PublicChangeEffect.sourceSpaceId effect) = true)
                          effectInputs in
  let affected := default [] (ChangeRevision.affectedSourceSpaceIds changeRevision) in
  let affectedIds :=
    if to_public then
      sort_locale (set_of (base.filter (λ id, is_public catalog id = true) affected ++
                           (PublicChangeEffect.sourceSpaceId <$> visibleEffects)))
    else sort_locale (set_of (affected ++ (PublicChangeEffect.sourceSpaceId <$> effectInputs))) in
  let effects :=
    if to_public then PublicChangeEffect.publicLabel <$> visibleEffects
    else (λ effect, default (PublicChangeEffect.publicLabel effect) (PublicChangeEffect.internalLabel effect)) <$>
           effectInputs in
  let projectionId := default (cat ["project:"; Project.id project])
    (PublicProjectionRevision.projectionRevisionId <$> SummarizeChangeInput.publicProjection input) in
  let changeId :=
    if to_public then digest (object [field "domain" "public-change"; field "projectionId" projectionId;
                                      field "changeId" (ChangeRevision.changeId changeRevision)])
    else ChangeRevision.changeId changeRevision in
  let revisionId :=
    if to_public then digest (object [field "domain" "public-change-revision"; field "projectionId" projectionId;
                                      field "changeId" changeId; field "sequence" (ChangeRevision.sequence changeRevision)])
    else ChangeRevision.id changeRevision in
  let evidence := (λ record, {|
      AudienceEvidenceProjection.id :=
        if to_public then digest (object [field "domain" "public-evidence"; field "projectionId" projectionId;
                                          field "evidence" (Evidence.id record)])
        else Evidence.id record;
      AudienceEvidenceProjection.outcome := Evidence.outcome record;
      AudienceEvidenceProjection.disclosure :=
        if to_public then DisclosureClassification.public
        else DisclosurePolicyRef.classification (Evidence.disclosure record) |}) <$>
    base.filter (λ record, to_public = false ∨
        DisclosurePolicyRef.classification (Evidence.disclosure record) = DisclosureClassification.public)
      (default [] (SummarizeChangeInput.evidence input)) in
  Ok {|
    AudienceChangeSummary.audience := audience;
    AudienceChangeSummary.projectId := Project.id project;
    AudienceChangeSummary.changeId := changeId;
    AudienceChangeSummary.revisionId := revisionId;
    AudienceChangeSummary.summary :=
      if to_public then SummarizeChangeInput.publicSummary input
      else default (SummarizeChangeInput.publicSummary input) (SummarizeChangeInput.internalSummary input);
    AudienceChangeSummary.affectedSourceSpaceIds := affectedIds;
    AudienceChangeSummary.declaredEffects := effects;
    AudienceChangeSummary.evidence := evidence;
    AudienceChangeSummary.receipt :=
      cat ["audience="; DisclosureClassification.show audience; "; projection="; projectionId;
           "; inaccessible-metadata=omitted"] |}.


(** * Sealed Verifiers *)

(** ** The side-channel patterns, on lower-case text *)

Definition is_digit (c : ascii) : bool := ((48 <=? code c) && (code c <=? 57))%N.
(** [\w]. *)
Definition is_word (c : ascii) : bool :=
  (is_digit c || (65 <=? code c) && (code c <=? 90) || (97 <=? code c) && (code c <=? 122) || (code c =? 95))%N.
Definition starts (p : ascii → bool) (s : string) : bool :=
  match s with String c _ => p c | EmptyString => false end.
Fixpoint skip (p : ascii → bool) (s : string) : string :=
  match s with String c s' => if p c then skip p s' else s | EmptyString => s end.
Fixpoint after (prefix s : string) : option string :=
  match prefix, s with
  | EmptyString, _ => Some s
  | String c prefix, String d s => if Ascii.eqb c d then after prefix s else None
  | _, _ => None
  end.
(** [\s*[:=]], and [\s+] followed by [rest]. *)
Definition assigns (s : string) : bool :=
  starts (λ c, Ascii.eqb c ":" || Ascii.eqb c "=") (skip is_white s).
Definition spaced (rest : string → bool) (s : string) : bool := starts is_white s && rest (skip is_white s).
(** One of [words], then [rest]. *)
Definition one_of (words : list string) (rest : string → bool) (s : string) : bool :=
  existsb (λ word, match after word s with Some s => rest s | None => false end) words.
(** The five alternatives after their [\b]. *)
Definition exact_count (s : string) : bool :=
  starts is_digit s && spaced (one_of ["test"; "tests"] (λ s, negb (starts is_word s))) (skip is_digit s).
Definition side_channel_at (s : string) : bool :=
  exact_count s || one_of ["duration"; "elapsed"; "cache"] assigns s
  || one_of ["cpu"; "memory"; "resource"] (spaced (one_of ["usage"; "cost"] assigns)) s.
(** A match somewhere: every alternative starts with a word character, so [\b]
    before it asks that the character before, if any, is not one. *)
Fixpoint side_channel (before_word : bool) (s : string) : bool :=
  match s with
  | EmptyString => false
  | String c rest => negb before_word && side_channel_at s || side_channel (is_word c) rest
  end.

Definition restricted_markers (privateInput : SealedVerifierPrivateInput.t) : list string :=
  SealedVerifierPrivateInput.sourceSpaceIds privateInput ++ omap_keys (SealedVerifierPrivateInput.files privateInput)
  ++ SealedVerifierPrivateInput.inputDigests privateInput.
Definition containsRestrictedMarker (value : json) (privateInput : SealedVerifierPrivateInput.t) : bool :=
  let serialized := stableJson value in
  existsb (λ marker, truthy marker && includes marker serialized) (restricted_markers privateInput)
  || side_channel false (toLowerCase serialized).

Definition validatePrivateInput (contract : SealedVerifierContract.t) (privateInput : SealedVerifierPrivateInput.t) :
    out () :=
  expected ← sortedUnique (SealedVerifierContract.privateSourceSpaceIds contract)
    HybridDisclosureErrorCode.duplicate_source_space
    "A Sealed Verifier contract names a private Source Space more than once.";
  actual ← sortedUnique (SealedVerifierPrivateInput.sourceSpaceIds privateInput)
    HybridDisclosureErrorCode.duplicate_source_space
    "A Sealed Verifier invocation names a private Source Space more than once.";
  if negb (String.eqb (stableJson (to_json expected)) (stableJson (to_json actual))) then
    fail HybridDisclosureErrorCode.private_input_mismatch
      "The Sealed Verifier received private inputs outside its versioned contract."
      "invoke the verifier with the owner-selected private inputs for this exact contract"
      "rule=contract-private-input-equality"
  else Ok ().

(** ** [runSealedVerifier] *)

(** Up to the call of the private callback, which gets the context returned. *)
Definition runSealedVerifier_begin (input : RunSealedVerifierInput.t) : out SealedVerifierExecutionContext.t :=
  let contract := RunSealedVerifierInput.contract input in
  let audience := RunSealedVerifierInput.audience input in
  let projection := RunSealedVerifierInput.publicProjection input in
  if negb (bool_decide (audience ∈ SealedVerifierContract.allowedAudiences contract)) then
    fail HybridDisclosureErrorCode.audience_not_authorized
      "This Sealed Verifier is not published for the requested audience."
      "request an explicitly published verifier disclosure policy or use a maintainer audience"
      "rule=verifier-audience-allowlist"
  else if negb (String.eqb (PublicProjectionRevision.projectId projection) (RunSealedVerifierInput.projectId input))
       || negb (bool_decide (PublicProjectionRevision.classification projection = DisclosureClassification.public)) then
    fail HybridDisclosureErrorCode.public_projection_required
      "Sealed verification must bind to an exact public Project View Revision for this Project."
      "derive the public projection from the requested Project before invoking the verifier"
      "rule=public-project-view-input"
  else
    _ ← validatePrivateInput contract (RunSealedVerifierInput.privateInput input);
    if bool_decide (audience = DisclosureClassification.public)
       && bool_decide (SealedVerifierContract.disclosure contract = SealedDisclosureClass.authorized_detail) then
      fail HybridDisclosureErrorCode.audience_not_authorized
        "Authorized-detail Sealed Verifier output cannot be returned to a public audience."
        "publish a status, safe-summary, or redacted-findings verifier contract for public contributors"
        "rule=public-disclosure-side-channel-boundary"
    else Ok (SealedVerifierExecutionContext.mk projection (RunSealedVerifierInput.changeRevision input)
               (RunSealedVerifierInput.privateInput input)).

Definition safe_payload (result : SealedVerifierPrivateResult.t) : json := object
  [opt_field "safeSummary" (SealedVerifierPrivateResult.safeSummary result);
   opt_field "safeFindings" (SealedVerifierPrivateResult.safeFindings result)].
(** [!safeSummary || safeSummary.trim().length === 0], and the findings alike. *)
Definition no_feedback (result : SealedVerifierPrivateResult.t) : bool :=
  blank (default "" (SealedVerifierPrivateResult.safeSummary result))
  && (length (default [] (SealedVerifierPrivateResult.safeFindings result)) =? 0)%nat.
Definition check_private_result (contract : SealedVerifierContract.t) (audience : DisclosureClassification.t)
    (privateInput : SealedVerifierPrivateInput.t) (result : SealedVerifierPrivateResult.t) : out () :=
  let disclosure := SealedVerifierContract.disclosure contract in
  if blank (SealedVerifierPrivateResult.outputDigest result)
     || blank (SealedVerifierPrivateResult.privateReceipt result) then
    fail HybridDisclosureErrorCode.sealed_output_invalid
      "The Sealed Verifier did not return an output digest and private receipt."
      "return an immutable output digest and an owner-held receipt from the verifier"
      "rule=sealed-result-receipt-required"
  else if (bool_decide (audience = DisclosureClassification.public)
           || negb (bool_decide (disclosure = SealedDisclosureClass.authorized_detail)))
          && containsRestrictedMarker (safe_payload result) privateInput then
    fail HybridDisclosureErrorCode.sealed_side_channel
      "The Sealed Verifier safe result contains a restricted identifier or disallowed side-channel field."
      "replace private paths, identifiers, exact counts, timings, and resource details with an approved safe summary"
      "rule=disclosure-safe-result"
  else if (bool_decide (disclosure = SealedDisclosureClass.safe_summary)
           || bool_decide (disclosure = SealedDisclosureClass.redacted_findings))
          && no_feedback result then
    fail HybridDisclosureErrorCode.sealed_output_invalid
      "This Sealed Verifier contract promises disclosure-safe feedback but returned none."
      "return the contract's approved safe summary or redacted findings" "rule=approved-safe-feedback-required"
  else Ok ().

Definition outcome_of_status (status : SealedStatus.t) : EvidenceOutcome.t :=
  match status with
  | SealedStatus.passed => EvidenceOutcome.passed
  | SealedStatus.failed => EvidenceOutcome.failed
  | SealedStatus.indeterminate => EvidenceOutcome.indeterminate
  end.
Definition sealed_evidence_id (runId projectionId : string) : string :=
  digest (object [field "domain" "sealed-evidence"; field "runId" runId; field "projection" projectionId]).

Section finish.
Variable (input : RunSealedVerifierInput.t) (result : SealedVerifierPrivateResult.t) (runId : string).
#[local] Definition contract := RunSealedVerifierInput.contract input.
#[local] Definition projection := RunSealedVerifierInput.publicProjection input.
#[local] Definition projectionId := PublicProjectionRevision.projectionRevisionId projection.
#[local] Definition audience := RunSealedVerifierInput.audience input.
#[local] Definition privateDigests :=
  SealedVerifierPrivateInput.inputDigests (RunSealedVerifierInput.privateInput input).

(** The record that [ledger.append] gets. *)
Definition sealed_record : Evidence.t :=
  let revision := RunSealedVerifierInput.changeRevision input in
  let inputDigests := PublicProjectionRevision.contentDigest projection :: privateDigests in
  let contractDigest := SealedVerifierContract.contractDigest contract in {|
    Evidence.id := sealed_evidence_id runId projectionId;
    Evidence.key := cat ["sealed-verifier:"; SealedVerifierContract.id contract];
    Evidence.criterion := cat ["sealed-verifier:"; SealedVerifierContract.id contract];
    Evidence.outcome := outcome_of_status (SealedVerifierPrivateResult.status result);
    Evidence.validityKey := digest (object
      [field "projectViewId" projectionId; field "changeRevisionId" (ChangeRevision.id revision);
       field "verifierContractDigest" contractDigest; field "inputDigests" inputDigests]);
    Evidence.actionId := SealedVerifierContract.actionId contract;
    Evidence.verifierId := SealedVerifierContract.id contract;
    Evidence.toolchainDigest := SealedVerifierContract.actionContractDigest contract;
    Evidence.dependencyDigest := digest (to_json privateDigests);
    Evidence.environmentDigest := digest (object
      [field "runnerId" (RunSealedVerifierInput.runnerId input); field "contract" contractDigest]);
    Evidence.inputDigests := inputDigests;
    Evidence.effectDigests := [];
    Evidence.outputDigest := SealedVerifierPrivateResult.outputDigest result;
    Evidence.createdAt := "";
    Evidence.producer :=
      EvidenceProducer.mk EvidenceProducerKind.run runId (SealedVerifierContract.version contract);
    Evidence.projectRevisionId := ChangeRevision.projectRevisionId revision;
    Evidence.projectViewId := projectionId;
    Evidence.changeRevisionId := Some (ChangeRevision.id revision);
    Evidence.runId := runId;
    Evidence.actor := RunSealedVerifierInput.actor input;
    Evidence.runnerId := RunSealedVerifierInput.runnerId input;
    Evidence.policyVersion := RunSealedVerifierInput.policyVersion input;
    Evidence.authorizationEpoch := RunSealedVerifierInput.authorizationEpoch input;
    Evidence.capabilityGrantId := RunSealedVerifierInput.capabilityGrantId input;
    Evidence.disclosure := DisclosurePolicyRef.mk projectionId audience;
    Evidence.receipt := SealedVerifierPrivateResult.privateReceipt result;
    Evidence.invalidators :=
      ["project-view-revision"; "change-revision"; "sealed-verifier-contract"; "private-inputs"; "policy"];
    Evidence.owner := RunSealedVerifierInput.owner input;
    Evidence.residualRiskId := None;
    Evidence.sourceSpaceSnapshots := Some (PublicProjectionRevision.sourceSpaceSnapshots projection);
    Evidence.actionContractDigest := Some (SealedVerifierContract.actionContractDigest contract);
    Evidence.verifierContractDigest := Some contractDigest;
    Evidence.targetId := None;
    Evidence.workspaceId := None |}.

(** An identity of the contract, as the audience sees it. *)
Definition disclosed (domain own : string) : string :=
  if bool_decide (audience = DisclosureClassification.public) then
    digest (object [field "domain" domain; field "contractDigest" (SealedVerifierContract.contractDigest contract);
                    field "projection" projectionId])
  else own.
(** The value returned, from the ids and the time drawn on the way. *)
Definition sealed_result (appealId createdAt resultId : string) : SealedVerificationResult.t :=
  let disclosure := SealedVerifierContract.disclosure contract in
  let verifierId := disclosed "public-sealed-verifier" (SealedVerifierContract.id contract) in {|
    SealedVerificationResult.id := resultId;
    SealedVerificationResult.runId := runId;
    SealedVerificationResult.verifierId := verifierId;
    SealedVerificationResult.audience := audience;
    SealedVerificationResult.status := SealedVerifierPrivateResult.status result;
    SealedVerificationResult.disclosure := disclosure;
    SealedVerificationResult.projectViewId := projectionId;
    SealedVerificationResult.summary :=
      if bool_decide (disclosure = SealedDisclosureClass.status) then None
      else truthy_opt (SealedVerifierPrivateResult.safeSummary result);
    SealedVerificationResult.findings :=
      if bool_decide (disclosure = SealedDisclosureClass.redacted_findings)
         || bool_decide (disclosure = SealedDisclosureClass.authorized_detail)
      then SealedVerifierPrivateResult.safeFindings result else None;
    SealedVerificationResult.evidence := {|
      SealedEvidenceProjection.id := sealed_evidence_id runId projectionId;
      SealedEvidenceProjection.outcome := outcome_of_status (SealedVerifierPrivateResult.status result);
      SealedEvidenceProjection.disclosure := audience;
      SealedEvidenceProjection.verifierId := verifierId;
      SealedEvidenceProjection.projectViewId := projectionId |};
    SealedVerificationResult.appeal := {|
      SealedVerificationAppeal.id := appealId;
      SealedVerificationAppeal.runId := runId;
      SealedVerificationAppeal.status :=
        if bool_decide (SealedVerifierContract.appealPolicy contract = AppealPolicy.none)
        then AppealStatus.not_available else AppealStatus.eligible;
      SealedVerificationAppeal.audience := audience;
      SealedVerificationAppeal.projectViewId := projectionId;
      SealedVerificationAppeal.receipt :=
        cat ["appeal-policy="; AppealPolicy.show (SealedVerifierContract.appealPolicy contract);
             "; created-at="; createdAt] |};
    SealedVerificationResult.contractDigest :=
      disclosed "public-sealed-contract" (SealedVerifierContract.contractDigest contract);
    SealedVerificationResult.receipt :=
      cat ["sealed-run="; runId; "; projection="; projectionId; "; private-inputs=not-disclosed"] |}.
End finish.

(** A computation over an object nothing else refers to. *)
Definition scratch {S E A} (s0 : S) (m : M S E A) : M S E A := λ w s,
  match m w s0 with (r, w', _) => (r, w', s) end.
(** From the answer of the callback on. *)
Definition runSealedVerifier_finish (input : RunSealedVerifierInput.t) (result : SealedVerifierPrivateResult.t) :
    M (list Evidence.t) HybridDisclosureError.t SealedVerificationResult.t :=
  lift (check_private_result (RunSealedVerifierInput.contract input) (RunSealedVerifierInput.audience input)
          (RunSealedVerifierInput.privateInput input) result);;
  runId ← opaqueId "sealed-run";
  let record := sealed_record input result runId in
  let append_record := append (EvidenceAppendInput.mk record (Some (Evidence.id record)) None) in
  (if RunSealedVerifierInput.ledger input then append_record else scratch [] append_record);;
  appealId ← opaqueId "sealed-appeal";
  createdAt ← now;
  resultId ← opaqueId "sealed-result";
  mret (sealed_result input result runId appealId createdAt resultId).

Definition appealSealedVerification {S} (input : AppealInput.t) :
    M S HybridDisclosureError.t SealedVerificationAppeal.t :=
  let result := AppealInput.result input in
  let appeal := SealedVerificationResult.appeal result in
  if bool_decide (SealedVerificationAppeal.status appeal = AppealStatus.not_available) then
    lift (fail HybridDisclosureErrorCode.audience_not_authorized
      "This Sealed Verifier does not expose an appeal path for the requesting audience."
      "ask a maintainer to review the verifier contract or publish an appealable verifier"
      "rule=sealed-appeal-policy")
  else if blank (AppealInput.reason input) then
    lift (fail HybridDisclosureErrorCode.sealed_output_invalid
      "A Sealed Verifier appeal needs a non-empty reason."
      "describe the deterministic result or disclosure concern to review" "rule=appeal-reason-required")
  else
    id ← opaqueId "sealed-appeal";
    mret (appeal <| SealedVerificationAppeal.id := id |>
                 <| SealedVerificationAppeal.status := AppealStatus.eligible |>
                 <| SealedVerificationAppeal.receipt :=
                      cat ["appeal-for="; SealedVerificationResult.runId result; "; projection=";
                           SealedVerificationResult.projectViewId result;
                           "; reason=recorded-without-private-evidence"] |>).

(** * Publication Changes *)

Definition createPublicationChange {S} (input : CreatePublicationChangeInput.t) :
    M S HybridDisclosureError.t PublicationChange.t :=
  let projection := CreatePublicationChangeInput.publicProjection input in
  let projectId := CreatePublicationChangeInput.projectId input in
  if negb (String.eqb (PublicProjectionRevision.projectId projection) projectId)
     || negb (bool_decide (PublicProjectionRevision.classification projection = DisclosureClassification.public)) then
    lift (fail HybridDisclosureErrorCode.project_mismatch
      "A Publication Change must belong to the Project and public lineage it publishes."
      "derive a public projection from the requested Project and retry" "rule=publication-project-equality")
  else match truthy_opt (head (PublicProjectionRevision.sourceSpaceIds projection)) with
  | None =>
      lift (fail HybridDisclosureErrorCode.source_content_missing
        "A Publication Change needs at least one public Source Space lineage."
        "select an authorized public Source Space before creating the Publication Change"
        "rule=non-empty-public-lineage")
  | Some publicSourceSpaceId =>
      let historyPolicy :=
        default PublicationHistoryPolicy.curated (CreatePublicationChangeInput.historyPolicy input) in
      id ← match CreatePublicationChangeInput.id input with
           | Some id => mret id
           | None => opaqueId "publication-change"
           end;
      createdAt ← match CreatePublicationChangeInput.createdAt input with
                  | Some createdAt => mret createdAt
                  | None => now
                  end;
      mret {|
        PublicationChange.id := id;
        PublicationChange.projectId := projectId;
        PublicationChange.publicSourceSpaceId := publicSourceSpaceId;
        PublicationChange.publicProjection := projection;
        PublicationChange.historyPolicy := historyPolicy;
        PublicationChange.metadataDisclosure :=
          default MetadataDisclosure.none (CreatePublicationChangeInput.metadataDisclosure input);
        PublicationChange.state := PublicationState.draft;
        PublicationChange.createdAt := createdAt;
        PublicationChange.landedAt := None;
        PublicationChange.revokedAt := None;
        PublicationChange.receipt :=
          cat ["publication-change="; id; "; lineage="; PublicProjectionRevision.lineageId projection;
               "; history="; PublicationHistoryPolicy.show historyPolicy; "; private-parent=unreachable"] |}
  end.

Definition change_lineage (change : PublicationChange.t) : string :=
  PublicProjectionRevision.lineageId (PublicationChange.publicProjection change).
Definition in_state (change : PublicationChange.t) (state : PublicationState.t) : bool :=
  bool_decide (PublicationChange.state change = state).
Definition state_receipt (change : PublicationChange.t) (rule : string) : string :=
  cat ["state="; PublicationState.show (PublicationChange.state change); "; rule="; rule].

Definition previewPublicationChange (change : PublicationChange.t) : out PublicationPreview.t :=
  if negb (in_state change PublicationState.draft) && negb (in_state change PublicationState.previewed) then
    fail HybridDisclosureErrorCode.publication_state
      "Only a draft Publication Change can be previewed or refreshed."
      "create a new Publication Change for a new public lineage or inspect the existing landed lineage"
      (state_receipt change "draft-or-previewed-only")
  else Ok {|
    PublicationPreview.change := change <| PublicationChange.state := PublicationState.previewed |>;
    PublicationPreview.warnings :=
      ["This preview proves disclosure integrity only; it makes no universal claim that the public projection builds, works, or is functionally complete."];
    PublicationPreview.receipt :=
      cat ["publication-change="; PublicationChange.id change; "; preview=disclosure-only; lineage=";
           change_lineage change] |}.

Definition approvePublicationChange (change : PublicationChange.t) : out PublicationChange.t :=
  if negb (in_state change PublicationState.previewed) then
    fail HybridDisclosureErrorCode.publication_not_previewed
      "A Publication Change must have a disclosure preview before approval."
      "preview the Publication Change and resolve its structural disclosure findings"
      (state_receipt change "preview-before-approval")
  else Ok (change <| PublicationChange.state := PublicationState.approved |>).

(** A default of a parameter is evaluated before the body. *)
Definition landPublicationChange {S} (change : PublicationChange.t) (landedAt : option string) :
    M S HybridDisclosureError.t PublicationChange.t :=
  landedAt ← match landedAt with Some landedAt => mret landedAt | None => now end;
  if negb (in_state change PublicationState.approved) && negb (in_state change PublicationState.previewed) then
    lift (fail HybridDisclosureErrorCode.publication_not_previewed
      "A Publication Change must be previewed and approved before Landing."
      "preview and approve the Publication Change without changing its public projection"
      (state_receipt change "approved-publication-required"))
  else
    mret (change <| PublicationChange.state := PublicationState.landed |>
                 <| PublicationChange.landedAt := Some landedAt |>
                 <| PublicationChange.receipt :=
                      cat ["publication-change="; PublicationChange.id change; "; state=landed; lineage=";
                           change_lineage change; "; immutable=true"] |>).

Definition revokePublicationChange {S} (change : PublicationChange.t) (revokedAt : option string) :
    M S HybridDisclosureError.t PublicationChange.t :=
  revokedAt ← match revokedAt with Some revokedAt => mret revokedAt | None => now end;
  if negb (in_state change PublicationState.landed) then
    lift (fail HybridDisclosureErrorCode.publication_not_landed
      "Only a landed Publication Change has a disclosed lineage that can be revoked prospectively."
      "Land the Publication Change first or discard the unpublished draft"
      (state_receipt change "prospective-revocation-after-disclosure"))
  else
    mret (change <| PublicationChange.state := PublicationState.revoked |>
                 <| PublicationChange.revokedAt := Some revokedAt |>
                 <| PublicationChange.receipt :=
                      cat ["publication-change="; PublicationChange.id change;
                           "; state=revoked; lineage-retained=true; future-distribution=blocked"] |>).

End disclosure.
