(* ===== verification/DisclosureFacts.v ===== *)
(** What the hybrid disclosure boundary promises: a public projection is exactly the
    selected public Source Spaces, placed; it does not depend on anything private,
    and its identity changes exactly when what it discloses does. *)

From S2P Require Import Prelude Json Contracts ContractsJson Paths LocaleJson EvidenceLedger Disclosure.

#[local] Abbreviation out := (outcome HybridDisclosureError.t).

(** * Loops that may fail *)

Lemma guard_Ok {A} (b : bool) c m r s (k : out A) a :
  (if b then fail c m r s else k) = Ok a ↔ b = false ∧ k = Ok a.
Proof. unfold fail. destruct b; naive_solver. Qed.
Lemma guard_not_Ok {A} (b : bool) c m r s (k : out A) a :
  (if negb b then fail c m r s else k) = Ok a ↔ b = true ∧ k = Ok a.
Proof. rewrite guard_Ok, negb_false_iff. done. Qed.

Lemma check_each_Ok {A} (l : list A) (f : A → out ()) u :
  check_each l f = Ok u ↔ ∀ x, x ∈ l → f x = Ok ().
Proof.
induction l as [|x l IH]; simpl; [destruct u; split; [by intros _ ? ?%elem_of_nil|done]|].
rewrite bind_Ok. setoid_rewrite elem_of_cons. split.
- intros ([] & Hx & Hl) y [->|Hy]; [done|]. by apply IH.
- intros Hall. exists (). split; [auto|]. apply IH. auto.
Qed.
Lemma gather_Ok {A B} (l : list A) (f : A → out B) ys :
  gather l f = Ok ys ↔ Forall2 (λ x y, f x = Ok y) l ys.
Proof.
revert ys. induction l as [|x l IH]; intros ys; simpl.
- split; [by intros [= <-]|]. by intros ->%Forall2_nil_inv_l.
- rewrite bind_Ok. setoid_rewrite bind_Ok. split.
  + intros (y & Hy & ys' & Hys & [= <-]). constructor; [done|by apply IH].
  + intros (y & ys' & Hy & Hys & ->)%Forall2_cons_inv_l. exists y. split; [done|].
    exists ys'. split; [by apply IH|done].
Qed.
(** A loop that adds to what it is given, as long as the result stays well formed. *)
Section build.
Context {A B D : Type} (f : B → A → out B) (R : A → D → Prop) (add : B → D → B) (wf : B → Prop).
Hypothesis wf_prefix : ∀ b d, wf (add b d) → wf b.
Hypothesis f_Ok : ∀ x b c, wf b → f b x = Ok c ↔ ∃ d, R x d ∧ c = add b d ∧ wf c.
Lemma wf_foldl ds b : wf (foldl add b ds) → wf b.
Proof. revert b. induction ds as [|d ds IH]; simpl; eauto. Qed.
Lemma build_each_Ok l b c : wf b →
  build_each l f b = Ok c ↔ ∃ ds, Forall2 R l ds ∧ c = foldl add b ds ∧ wf c.
Proof.
revert b. induction l as [|x l IH]; intros b Hb; simpl.
- split; [intros [= <-]; by exists []|]. by intros (ds & ->%Forall2_nil_inv_l & -> & _).
- rewrite bind_Ok. split.
  + intros (b' & (d & Hd & -> & Hb')%f_Ok & Hc); [|done].
    apply IH in Hc as (ds & Hds & -> & Hc); [|done]. exists (d :: ds). auto.
  + intros (ds' & (d & ds & Hd & Hds & ->)%Forall2_cons_inv_l & -> & Hc). simpl in *.
    pose proof (wf_foldl _ _ Hc) as Hb'. exists (add b d). split; [apply f_Ok; eauto|].
    apply IH; eauto.
Qed.
End build.

Lemma foldl_snoc {A} (new m : list A) : foldl (λ m x, m ++ [x]) m new = m ++ new.
Proof. revert m. induction new as [|x new IH]; intros m; simpl; [by rewrite app_nil_r|]. by rewrite IH, <-app_assoc. Qed.
(** Entries appended to a map are new keys. *)
Lemma omap_set_new {V} k (v : V) (m c : omap V) : NoDup m.*1 →
  (if omap_has k m then None else Some (omap_set k v m)) = Some c ↔ c = m ++ [(k, v)] ∧ NoDup c.*1.
Proof.
intros Hm. assert (omap_has k m = true ↔ k ∈ m.*1) as Hk.
{ unfold omap_has. rewrite bool_decide_eq_true. rewrite <-(omap_from_nodup m) at 1 by done. apply omap_from_keys. }
assert (NoDup (m ++ [(k, v)]).*1 ↔ k ∉ m.*1) as Hn.
{ rewrite fmap_app, NoDup_app. simpl. setoid_rewrite list_elem_of_singleton. split; [naive_solver|].
  intros ?. split_and!; [done|naive_solver|apply NoDup_singleton]. }
destruct (omap_has k m).
- split; [done|]. intros [-> ?]. tauto.
- assert (k ∉ m.*1) as Hf by (intros ?; by apply Hk in H). rewrite omap_set_fresh by done.
  split; [intros [= <-]; tauto|]. by intros [-> _].
Qed.

(** Elements of a list are told apart by a key that is unique in it. *)
Lemma indexed_eq {A} (key : A → string) (l : list A) x y :
  NoDup (key <$> l) → x ∈ l → y ∈ l → key x = key y → x = y.
Proof.
intros Hnd Hx Hy Hk. assert (omap_get (key y) (omap_from ((λ x, (key x, x)) <$> l)) = Some x)
  as H1 by (by apply omap_from_index).
assert (omap_get (key y) (omap_from ((λ x, (key x, x)) <$> l)) = Some y)
  as H2 by (by apply omap_from_index). congruence.
Qed.

(** * The specification of a public projection *)

Section projection.
Context `{HH : Host} (input : PublicProjectionInput.t).
Let project := PublicProjectionInput.project input.
Let revision := PublicProjectionInput.canonicalRevision input.
Let snapshot id := omap_get id (ProjectRevision.sourceSpaceSnapshots revision).

(** A Source Space that may be disclosed, and what is said of it. *)
Record disclosable (id : string) (space : SourceSpace.t) (snapshotId : string) : Prop := {
  space_catalogued : space ∈ PublicProjectionInput.sourceSpaces input;
  space_id : SourceSpace.id space = id;
  space_owned : id ∈ Project.sourceSpaceIds project;
  space_public : SourceSpace.classification space = SourceSpaceClassification.public;
  space_snapshot : snapshot id = Some snapshotId;
}.
Definition described (id : string) (d : PublicProjectionSourceDescriptor.t) : Prop :=
  ∃ space snapshotId, disclosable id space snapshotId ∧
    d = PublicProjectionSourceDescriptor.mk id (SourceSpace.name space) snapshotId.

(** Where the files of a source go. *)
Definition mount_of (alone : bool) (source : PublicProjectionSource.t) : out string :=
  match PublicProjectionSource.mountPath source with
  | None => Ok (if alone then "" else PublicProjectionSource.sourceSpaceId source)
  | Some mountPath => normalizePublicPath mountPath
  end.
Definition below (mountPath path : string) : string :=
  join "/" (if decide (mountPath = "") then [path] else [mountPath; path]).
Definition placement (mountPath : string) (entry : string * string) : out (string * string) :=
  path ← normalizePublicPath entry.1; Ok (below mountPath path, entry.2).
Definition placed (alone : bool) (id : string) (files : omap string) : Prop :=
  ∃ source mountPath, source ∈ PublicProjectionInput.sources input ∧
    PublicProjectionSource.sourceSpaceId source = id ∧
    snapshot id = Some (PublicProjectionSource.snapshotId source) ∧
    mount_of alone source = Ok mountPath ∧
    Forall2 (λ entry file, placement mountPath entry = Ok file) (PublicProjectionSource.files source) files.

Definition joined : list (omap string) → omap string := @mjoin list _ (string * string).

(** The projections of an input. *)
Record projects (p : PublicProjectionRevision.t) : Prop := {
  one_project : ProjectRevision.projectId revision = Project.id project;
  one_space : NoDup (SourceSpace.id <$> PublicProjectionInput.sourceSpaces input);
  one_request : NoDup (PublicProjectionInput.publicSourceSpaceIds input);
  one_source : NoDup (PublicProjectionSource.sourceSpaceId <$> PublicProjectionInput.sources input);
  image_of : ∃ descriptors placements,
    let ids := sort_locale (PublicProjectionInput.publicSourceSpaceIds input) in
    Forall2 described ids descriptors ∧ Forall2 (placed (length ids =? 1)%nat) ids placements ∧
    NoDup (joined placements).*1 ∧
    p = public_image (Project.id project) (Project.name project)
          (default "public" (PublicProjectionInput.profileId input)) ids descriptors
          (sort_by locale_entry (joined placements));
}.

(** ** The code meets it *)

Lemma catalogById_Ok spaces catalog : catalogById spaces = Ok catalog ↔
  NoDup (SourceSpace.id <$> spaces) ∧ catalog = omap_from ((λ space, (SourceSpace.id space, space)) <$> spaces).
Proof. unfold catalogById. rewrite guard_Ok, has_duplicates_spec. naive_solver. Qed.
Lemma sortedUnique_Ok values c m ids : sortedUnique values c m = Ok ids ↔ NoDup values ∧ ids = sort_locale values.
Proof.
unfold sortedUnique. rewrite guard_Ok, has_duplicates_spec.
assert (NoDup (sort_locale values) ↔ NoDup values) as -> by (unfold sort_locale; by rewrite sort_by_Permutation).
naive_solver.
Qed.
Lemma check_public_Ok catalog id : 
  NoDup (SourceSpace.id <$> PublicProjectionInput.sourceSpaces input) →
  catalog = omap_from ((λ space, (SourceSpace.id space, space)) <$> PublicProjectionInput.sourceSpaces input) →
  check_public project revision catalog id = Ok () ↔ ∃ space snapshotId, disclosable id space snapshotId.
Proof.
intros Hnd ->. unfold check_public. destruct (omap_get _ _) as [space|] eqn:Hs.
- apply omap_from_index in Hs as [Hs <-]; [|done]. rewrite !guard_not_Ok, list_includes_spec, bool_decide_eq_true.
  unfold omap_has. rewrite bool_decide_eq_true. split.
  + intros (Ho & Hp & [n Hn] & _). exists space, n. by split.
  + intros (space' & n & [Hc Hi Ho Hp Hn]). assert (space' = space) as ->; [|eauto 10].
    by apply (indexed_eq SourceSpace.id (PublicProjectionInput.sourceSpaces input)).
- split; [done|]. intros (space & n & [Hc Hi _ _ _]).
  assert (omap_get id (omap_from ((λ space, (SourceSpace.id space, space)) <$> PublicProjectionInput.sourceSpaces input))
    = Some space); [by apply omap_from_index|congruence].
Qed.

Lemma describe_Ok catalog id d :
  NoDup (SourceSpace.id <$> PublicProjectionInput.sourceSpaces input) →
  catalog = omap_from ((λ space, (SourceSpace.id space, space)) <$> PublicProjectionInput.sourceSpaces input) →
  check_public project revision catalog id = Ok () →
  describe revision catalog id = Ok d ↔ described id d.
Proof.
intros Hnd Hc H. pose proof H as (space & n & Hd)%check_public_Ok; [|done..]. unfold describe.
assert (omap_get id catalog = Some space) as -> by (subst catalog; apply omap_from_index; [done|by destruct Hd]).
pose proof (space_snapshot _ _ _ Hd) as Hn. unfold snapshot in Hn. rewrite Hn. split.
- intros [= <-]. by exists space, n.
- intros (space' & n' & Hd' & ->). assert (space' = space) as ->.
  { destruct Hd, Hd'. by apply (indexed_eq SourceSpace.id (PublicProjectionInput.sourceSpaces input)); [|..|congruence]. }
  destruct Hd'. unfold snapshot in *. congruence.
Qed.

Lemma mounted_below mountPath path : mounted mountPath path = below mountPath path.
Proof.
unfold mounted, below. case_decide as Hm; [by subst|]. apply String.eqb_neq in Hm. rewrite Hm.
unfold cat. simpl. by rewrite str_app_nil_r.
Qed.

Lemma place_files_Ok mountPath entries files files' : NoDup files.*1 →
  build_each entries (place_file mountPath) files = Ok files' ↔
  ∃ new, Forall2 (λ entry file, placement mountPath entry = Ok file) entries new ∧
    files' = files ++ new ∧ NoDup files'.*1.
Proof.
intros Hnd. rewrite (build_each_Ok _ (λ entry file, placement mountPath entry = Ok file)
  (λ (files : omap string) file, files ++ [file]) (λ files, NoDup files.*1)); [|..|done].
- by setoid_rewrite foldl_snoc.
- intros b d. rewrite fmap_app, NoDup_app. naive_solver.
- clear files Hnd files' entries. intros [raw content] files files' Hnd. unfold place_file, placement. simpl.
  setoid_rewrite bind_Ok. split.
  + intros (path & Hp & Hq). rewrite mounted_below in Hq.
    destruct (omap_has _ _) eqn:Hh; [done|]. injection Hq as <-.
    exists (below mountPath path, content). split; [by exists path|].
    apply omap_set_new; [done|by rewrite Hh].
  + intros (file & (path & Hp & [= <-]) & Hq). exists path. split; [done|].
    rewrite mounted_below.
    apply omap_set_new in Hq; [|done]. destruct (omap_has _ _); [done|by injection Hq as ->].
Qed.

Lemma index_sources_Ok sources byId : build_each sources index_source [] = Ok byId ↔
  NoDup (PublicProjectionSource.sourceSpaceId <$> sources) ∧
  byId = omap_from ((λ source, (PublicProjectionSource.sourceSpaceId source, source)) <$> sources).
Proof.
rewrite (build_each_Ok _ (λ source entry, entry = (PublicProjectionSource.sourceSpaceId source, source))
  (λ (m : omap PublicProjectionSource.t) entry, m ++ [entry]) (λ m, NoDup m.*1)); [|..|constructor].
- set (f := λ source, (PublicProjectionSource.sourceSpaceId source, source)).
  assert ((f <$> sources).*1 = PublicProjectionSource.sourceSpaceId <$> sources) as Hf
    by (by rewrite <-list_fmap_compose).
  setoid_rewrite foldl_snoc.
  split.
  + intros (ds & Hds & -> & Hnd). assert (ds = f <$> sources) as ->.
    { clear -Hds. induction Hds as [|x y l k Hy _ IH]; [done|]. rewrite fmap_cons. by f_equal. }
    simpl in *. rewrite <-Hf. split; [done|]. by rewrite omap_from_nodup.
  + intros [Hnd ->]. exists (f <$> sources). rewrite <-Hf in Hnd. split_and!.
    * apply Forall2_fmap_r, Forall_Forall2_diag, Forall_true. done.
    * by rewrite omap_from_nodup.
    * by rewrite omap_from_nodup.
- intros b d. rewrite fmap_app, NoDup_app. naive_solver.
- intros source m m' Hnd. unfold index_source. set (k := PublicProjectionSource.sourceSpaceId source).
  pose proof (omap_set_new k source m m' Hnd) as Hn. 
  destruct (omap_has k m).
  + split; [done|]. intros (d & -> & Hd). by apply Hn in Hd.
  + assert (m' = omap_set k source m ↔ m' = m ++ [(k, source)] ∧ NoDup m'.*1) as Hn'
      by (rewrite <-Hn; split; [by intros ->|by intros [= ->]]).
    split; [intros [= <-]; exists (k, source); by rewrite <-Hn'|].
    intros (d & -> & Hd). apply Hn' in Hd. by subst.
Qed.

Lemma mount_of_Ok (selectedIds : list string) source id : PublicProjectionSource.sourceSpaceId source = id →
  match PublicProjectionSource.mountPath source with
  | None => Ok (if (length selectedIds =? 1)%nat then "" else id)
  | Some mountPath => normalizePublicPath mountPath
  end = mount_of (length selectedIds =? 1)%nat source.
Proof. by intros <-. Qed.

(** The row of a source: its files and its descriptor. *)
Definition placed_row (alone : bool) (id : string) (row : omap string * MountDescriptor.t) : Prop :=
  ∃ source mountPath, source ∈ PublicProjectionInput.sources input ∧
    PublicProjectionSource.sourceSpaceId source = id ∧
    snapshot id = Some (PublicProjectionSource.snapshotId source) ∧
    mount_of alone source = Ok mountPath ∧
    Forall2 (λ entry file, placement mountPath entry = Ok file) (PublicProjectionSource.files source) row.1 ∧
    row.2 = MountDescriptor.mk id (PublicProjectionSource.snapshotId source) mountPath.
Definition add_row (c : omap string * list MountDescriptor.t) (row : omap string * MountDescriptor.t) :
    omap string * list MountDescriptor.t := (c.1 ++ row.1, c.2 ++ [row.2]).
Lemma placed_rows alone ids placements : Forall2 (placed alone) ids placements ↔
  ∃ rows, Forall2 (placed_row alone) ids rows ∧ placements = rows.*1.
Proof.
split.
- induction 1 as [|id new ids news (source & mp & ? & ? & ? & ? & ?) _ (rows & Hr & ->)]; [by exists []|].
  exists ((new, MountDescriptor.mk id (PublicProjectionSource.snapshotId source) mp) :: rows).
  split; [|done]. constructor; [|done]. exists source, mp. done.
- intros (rows & Hr & ->). apply Forall2_fmap_r. eapply Forall2_impl; [done|]. simpl.
  intros id row (source & mp & ? & ? & ? & ? & ? & _). by exists source, mp.
Qed.
Lemma foldl_add_row rows c : (foldl add_row c rows).1 = c.1 ++ joined rows.*1.
Proof.
revert c. induction rows as [|row rows IH]; intros c; simpl; [by rewrite app_nil_r|].
rewrite IH. simpl. by rewrite <-app_assoc.
Qed.

Lemma foldl_add_row_descriptors rows c : (foldl add_row c rows).2 = c.2 ++ rows.*2.
Proof.
revert c. induction rows as [|row rows IH]; intros c; simpl; [by rewrite app_nil_r|].
rewrite IH. simpl. by rewrite <-app_assoc.
Qed.

Lemma place_source_Ok selectedIds byId id (files : omap string) ds (c : omap string * list MountDescriptor.t) :
  NoDup (PublicProjectionSource.sourceSpaceId <$> PublicProjectionInput.sources input) →
  byId = omap_from ((λ source, (PublicProjectionSource.sourceSpaceId source, source)) <$> PublicProjectionInput.sources input) →
  NoDup files.*1 →
  place_source selectedIds revision byId (files, ds) id = Ok c ↔
  ∃ row, placed_row (length selectedIds =? 1)%nat id row ∧ c = add_row (files, ds) row ∧ NoDup c.1.*1.
Proof.
intros Hns -> Hnd. unfold place_source. simpl. destruct (omap_get _ _) as [source|] eqn:Hs.
- apply omap_from_index in Hs as [Hs Hi]; [|done].
  rewrite guard_not_Ok, bool_decide_eq_true, (mount_of_Ok selectedIds source) by done.
  rewrite bind_Ok. setoid_rewrite bind_Ok. setoid_rewrite place_files_Ok; [|done]. split.
  + intros (Hn & mp & Hm & files' & (new & Hnew & -> & Hnd') & [= <-]).
    exists (new, MountDescriptor.mk id (PublicProjectionSource.snapshotId source) mp).
    split_and!; [|done|done]. exists source, mp. by split_and!.
  + intros ([new d] & (source' & mp & Hs' & Hi' & Hn & Hm & Hnew & Hd) & -> & Hnd'). simpl in *.
    assert (source' = source) as -> by (apply (indexed_eq PublicProjectionSource.sourceSpaceId (PublicProjectionInput.sources input)); congruence).
    split; [done|]. exists mp. split; [done|]. exists (files ++ new). split; [by exists new|].
    unfold add_row. simpl. by rewrite Hd.
- split; [done|]. intros (row & (source & mp & Hs' & Hi & _) & _).
  assert (omap_get id (omap_from ((λ source, (PublicProjectionSource.sourceSpaceId source, source)) <$>
    PublicProjectionInput.sources input)) = Some source); [by apply omap_from_index|congruence].
Qed.

Lemma projectionFiles_Ok selectedIds result :
  projectionFiles (PublicProjectionInput.sources input) selectedIds revision = Ok result ↔
  NoDup (PublicProjectionSource.sourceSpaceId <$> PublicProjectionInput.sources input) ∧
  ∃ rows, Forall2 (placed_row (length selectedIds =? 1)%nat) selectedIds rows ∧
    NoDup (joined rows.*1).*1 ∧ result = (sort_by locale_entry (joined rows.*1), rows.*2).
Proof.
unfold projectionFiles. rewrite bind_Ok. setoid_rewrite index_sources_Ok. setoid_rewrite bind_Ok.
assert (∀ byId placed, NoDup (PublicProjectionSource.sourceSpaceId <$> PublicProjectionInput.sources input) →
  byId = omap_from ((λ source, (PublicProjectionSource.sourceSpaceId source, source)) <$> PublicProjectionInput.sources input) →
  build_each selectedIds (place_source selectedIds revision byId) ([], []) = Ok placed ↔
  ∃ rows, Forall2 (placed_row (length selectedIds =? 1)%nat) selectedIds rows ∧
    NoDup (joined rows.*1).*1 ∧ placed = (joined rows.*1, rows.*2)) as Hb.
{ intros byId placed Hns Hby. rewrite (build_each_Ok _ (placed_row (length selectedIds =? 1)%nat) add_row (λ c, NoDup c.1.*1)).
  - split; intros (rows & Hr & H); exists rows; (split; [done|]).
    + destruct H as [-> H]. rewrite foldl_add_row in H. split; [done|].
      apply injective_projections; [by rewrite foldl_add_row|by rewrite foldl_add_row_descriptors].
    + destruct H as [H ->]. split; [|done].
      apply injective_projections; [by rewrite foldl_add_row|by rewrite foldl_add_row_descriptors].
  - intros [b bs] row. unfold add_row. simpl. rewrite fmap_app, NoDup_app. naive_solver.
  - intros id [b bs] c Hb. by apply place_source_Ok.
  - constructor. }
assert (∀ rows : list (omap string * MountDescriptor.t), NoDup (joined rows.*1).*1 →
  omap_from (sort_by locale_entry (joined rows.*1)) = sort_by locale_entry (joined rows.*1)) as Hs.
{ intros rows Hr. apply omap_from_nodup. by rewrite sort_by_Permutation. }
split.
- intros (byId & [Hns Hby] & placed & Hp & [= <-]). split; [done|].
  apply Hb in Hp as (rows & Hr & Hnd & ->); [|done..]. exists rows. simpl. by rewrite Hs.
- intros (Hns & rows & Hr & Hnd & ->). eexists. split; [by split|]. exists (joined rows.*1, rows.*2). 
  rewrite Hb by done. split; [by exists rows|]. simpl. by rewrite Hs.
Qed.

(** The projection of an input is the one it specifies. *)
Lemma createPublicProjection_projects p : createPublicProjection input = Ok p ↔ projects p.
Proof.
unfold createPublicProjection, publicSourceSpaceIds. fold project revision.
rewrite bind_Ok. setoid_rewrite guard_not_Ok. setoid_rewrite String.eqb_eq.
setoid_rewrite bind_Ok. setoid_rewrite catalogById_Ok. split.
- intros (ids & (Hpr & catalog & [Hns Hc] & Hids) & catalog' & [_ Hc'] & Hp).
  rewrite <-Hc in Hc'. subst catalog'.
  apply bind_Ok in Hids as (ids' & [Hnr ->]%sortedUnique_Ok & ([] & Hch & [= <-])%bind_Ok).
  rewrite check_each_Ok in Hch.
  apply bind_Ok in Hp as (projected & (Hnsrc & rows & Hr & Hnd & ->)%projectionFiles_Ok &
    (descriptors & Hd & [= <-])%bind_Ok).
  rewrite gather_Ok in Hd. split; [done..|]. exists descriptors, rows.*1. split_and!; [|by apply placed_rows; exists rows|done|done].
  apply Forall2_same_length_lookup. apply Forall2_same_length_lookup in Hd as [Hl Hd]. split; [done|].
  intros i id d Hi Hdi. eapply describe_Ok; [done|done|by eapply Hch, list_elem_of_lookup_2|by eapply Hd].
- intros [Hpr Hns Hnr Hnsrc (descriptors & placements & Hd & (rows & Hr & ->)%placed_rows & Hnd & ->)].
  set (catalog := omap_from ((λ space, (SourceSpace.id space, space)) <$> PublicProjectionInput.sourceSpaces input)).
  set (ids := sort_locale _) in *.
  assert (∀ id, id ∈ ids → check_public project revision catalog id = Ok ()) as Hch.
  { intros id Hid. apply check_public_Ok; [done..|].
    apply list_elem_of_lookup in Hid as [i Hi]. eapply Forall2_lookup_l in Hd as (d & _ & space & n & Hd & _); [|done].
    by exists space, n. }
  exists ids. split.
  { split; [done|]. exists catalog. split; [done|]. apply bind_Ok. exists ids. split; [by apply sortedUnique_Ok|].
    apply bind_Ok. exists (). split; [by apply check_each_Ok|done]. }
  exists catalog. split; [done|]. apply bind_Ok.
  exists (sort_by locale_entry (joined rows.*1), rows.*2). split; [apply projectionFiles_Ok; eauto|].
  apply bind_Ok. exists descriptors. split; [|done]. apply gather_Ok.
  apply Forall2_same_length_lookup. apply Forall2_same_length_lookup in Hd as [Hl Hd]. split; [done|].
  intros i id d Hi Hdi. eapply describe_Ok; [done|done|by eapply Hch, list_elem_of_lookup_2|by eapply Hd].
Qed.
End projection.

(** * What it does not depend on *)

(** The inputs a projection may be made of. *)
Record well_formed (input : PublicProjectionInput.t) : Prop := {
  wf_project : ProjectRevision.projectId (PublicProjectionInput.canonicalRevision input) =
    Project.id (PublicProjectionInput.project input);
  wf_spaces : NoDup (SourceSpace.id <$> PublicProjectionInput.sourceSpaces input);
  wf_sources : NoDup (PublicProjectionSource.sourceSpaceId <$> PublicProjectionInput.sources input);
}.
(** Inputs that agree on what is asked for; of the Project, the Project Revision, the
    catalogue and the content only the parts that concern it. *)
Record same_public (i j : PublicProjectionInput.t) : Prop := {
  same_project : Project.id (PublicProjectionInput.project i) = Project.id (PublicProjectionInput.project j);
  same_name : Project.name (PublicProjectionInput.project i) = Project.name (PublicProjectionInput.project j);
  same_profile : PublicProjectionInput.profileId i = PublicProjectionInput.profileId j;
  same_request : PublicProjectionInput.publicSourceSpaceIds i = PublicProjectionInput.publicSourceSpaceIds j;
  same_spaces : ∀ id name snapshotId, id ∈ PublicProjectionInput.publicSourceSpaceIds i →
    (∃ space, disclosable i id space snapshotId ∧ SourceSpace.name space = name) →
    ∃ space, disclosable j id space snapshotId ∧ SourceSpace.name space = name;
  same_sources : ∀ source,
    PublicProjectionSource.sourceSpaceId source ∈ PublicProjectionInput.publicSourceSpaceIds i →
    source ∈ PublicProjectionInput.sources i → source ∈ PublicProjectionInput.sources j;
}.

Section independence.
Context `{HH : Host}.

Lemma projects_same_public i j p : well_formed j → same_public i j → projects i p → projects j p.
Proof.
intros [Hp Hs Hn] [Ep En Epr Er Es Eo] [_ _ Hnr _ (descriptors & placements & Hd & Hpl & Hnd & ->)].
rewrite Er in Hnr. split; [done..|]. exists descriptors, placements. rewrite <-Er, Ep, En, Epr.
set (ids := sort_locale _) in *.
assert (∀ k id, ids !! k = Some id → id ∈ PublicProjectionInput.publicSourceSpaceIds i) as Hin.
{ intros k id Hk%list_elem_of_lookup_2. unfold ids, sort_locale in Hk. by rewrite sort_by_Permutation in Hk. }
apply Forall2_same_length_lookup in Hd as [Hdl Hd]. apply Forall2_same_length_lookup in Hpl as [Hpll Hpl].
split_and!; [| |done|done]; apply Forall2_same_length_lookup; (split; [done|]).
- intros k id d Hk Hdk. destruct (Hd k id d Hk Hdk) as (space & n & Hsp & ->).
  destruct (Es id (SourceSpace.name space) n) as (space' & Hsp' & <-); [eauto|by exists space|].
  by exists space', n.
- intros k id new Hk Hnew. destruct (Hpl k id new Hk Hnew) as (source & mp & Hsrc & Hi & Hsn & Hrest).
  exists source, mp. split_and!; [apply Eo; [by rewrite Hi; eauto|done]|done| |apply Hrest..].
  assert (∃ d, descriptors !! k = Some d) as [d Hdk] by (apply lookup_lt_is_Some; rewrite <-Hdl; by eapply lookup_lt_Some).
  destruct (Hd k id d Hk Hdk) as (space & n & Hsp & ->).
  destruct (Es id (SourceSpace.name space) n) as (space' & Hsp' & _); [eauto|by exists space|].
  destruct Hsp, Hsp'. congruence.
Qed.
End independence.

(** * What its identity binds *)

#[export] Instance PublicProjectionSourceDescriptor_json_keys : JsonKeys PublicProjectionSourceDescriptor.t.
Proof. intros x. unfold to_json, PublicProjectionSourceDescriptor_to_json. json_keyed ["id"; "name"; "snapshotId"]. Qed.
#[export] Instance PublicProjectionSourceDescriptor_json_inj : JsonInj PublicProjectionSourceDescriptor.t.
Proof.
intros [] [] H; unfold to_json, PublicProjectionSourceDescriptor_to_json in H. json_fields H ["id"; "name"; "snapshotId"].
cbn in *. subst. reflexivity.
Qed.
Lemma files_agree (m n : omap string) : normal (to_json m) = normal (to_json n) → m ≡ₚ n.
Proof.
set (back := λ p : string * json, (p.1, match p.2 with JStr s => s | _ => "" end)).
set (there := λ m : omap string, (λ p, (p.1, normal p.2)) <$> ((λ p, (p.1, to_json p.2)) <$> m)).
assert (∀ m, back <$> there m = m) as Hb.
{ intros l. unfold there. rewrite <-!list_fmap_compose. induction l as [|[k v] l IH]; [done|].
  rewrite fmap_cons, IH. done. }
intros H. assert (sort_by key_compare (there m) = sort_by key_compare (there n)) as H' by (by injection H).
rewrite <-(Hb m), <-(Hb n). apply fmap_Permutation.
by rewrite <-(sort_by_Permutation key_compare (there m)), <-(sort_by_Permutation key_compare (there n)), H'.
Qed.
Lemma files_keys (m : omap string) : NoDup m.*1 → keys_ok (to_json m) = true.
Proof.
intros Hnd. unfold to_json, omap_to_json. cbn [keys_ok]. apply andb_true_iff. split.
- apply bool_decide_eq_true. by rewrite <-list_fmap_compose.
- induction m as [|[k v] m IH]; [done|]. apply NoDup_cons in Hnd as [_ ?]. rewrite fmap_cons. simpl. auto.
Qed.

Section identity.
Context `{HH : Host}.
Lemma object_digest_binds fs gs : CollisionFree HH → keys_ok (object fs) = true → keys_ok (object gs) = true →
  digest (object fs) = digest (object gs) → normal (object fs) = normal (object gs).
Proof. apply (locale_digest_binds (object fs) (object gs)). Qed.

Lemma image_binds pid name profile ids ds files pid' name' profile' ids' ds' files' : CollisionFree HH →
  NoDup files.*1 → NoDup files'.*1 →
  PublicProjectionRevision.projectionRevisionId (public_image pid name profile ids ds files) =
  PublicProjectionRevision.projectionRevisionId (public_image pid' name' profile' ids' ds' files') →
  pid = pid' ∧ profile = profile' ∧ ids = ids' ∧ ds = ds' ∧ files ≡ₚ files'.
Proof.
intros Hcf Hf Hf' H. unfold public_image in H. cbv zeta in H. cbn [PublicProjectionRevision.projectionRevisionId] in H.
apply object_digest_binds in H; [|done|unfold revision_json; json_keyed ["protocol"; "lineageId"; "publicSnapshotId"]..].
json_fields H ["protocol"; "lineageId"; "publicSnapshotId"].
rename Hfield0 into Hl, Hfield1 into Hs.
apply object_digest_binds in Hl; [|done|unfold lineage_json; json_keyed ["protocol"; "projectId"; "profileId"; "sourceSpaceIds"]..].
json_fields Hl ["protocol"; "projectId"; "profileId"; "sourceSpaceIds"].
assert (∀ lineageId ds (files : omap string), NoDup files.*1 → keys_ok (snapshot_json lineageId ds files) = true) as Hk.
{ intros lineageId ds0 fs Hfs. apply (keys_ok_object ["protocol"; "lineageId"; "sourceSpaces"; "files"]).
  - repeat (constructor; [apply field_at_field|]). constructor.
  - done.
  - assert (forallb (λ p, keys_ok p.2) (field "files" (fs : omap string)) = true) as Hff
      by (unfold field; cbn [forallb snd]; by rewrite files_keys).
    cbn [forallb]. rewrite Hff, !field_keys. reflexivity. }
apply object_digest_binds in Hs; [|done|by apply Hk..].
json_fields Hs ["protocol"; "lineageId"; "sourceSpaces"; "files"].
split_and!; [done..|]. apply files_agree.
exact (f_equal (λ l : list (string * json), match l with [(_, v)] => v | _ => JNull end) Hfield7).
Qed.
End identity.

(** * Where files are placed *)

(** A relative path that stays where it starts and outside Git metadata. *)
Definition safe_path (p : string) : Prop := contained_path p ∧ ".git" ∉ split char_slash p.

Lemma normalizePublicPath_safe value p : normalizePublicPath value = Ok p → safe_path p.
Proof.
unfold normalizePublicPath. rewrite guard_Ok, !orb_false_iff, !String.eqb_neq.
set (replaced := replace_char char_backslash char_slash value).
intros [(((((((((Hr & Hn) & Hd) & Hs) & Hseg) & _) & _) & _) & Hnul) & Hgit) [= <-]].
apply existsb_false in Hseg.
destruct (posix_normalize_plain replaced) as [Hf He]; [done| |done..|].
{ eapply Forall_impl; [done|]. intros x. by rewrite String.eqb_neq. }
pose proof (filter_plain_Forall replaced) as Hp. split.
- exists (List.filter plain (split char_slash replaced)), (ends_with_slash replaced). by split_and!.
- rewrite He, split_canonical by done. intros [Hin|Hin]%elem_of_app.
  + apply list_elem_of_In, filter_In in Hin as [Hin _].
    apply not_true_iff_false in Hgit. rewrite list_includes_spec in Hgit. by apply Hgit, list_elem_of_In.
  + destruct (ends_with_slash replaced); [by apply list_elem_of_singleton in Hin|by apply elem_of_nil in Hin].
Qed.

Section placed_paths.
Context `{HH : Host} (input : PublicProjectionInput.t).

(** Where the files of a projection are: below the mount of their source, which was
    checked like a path unless it is the id of the Source Space. *)
Definition files_contained (p : PublicProjectionRevision.t) : Prop :=
  ∀ path content, (path, content) ∈ PublicProjectionRevision.files p →
    ∃ mountPath inner, path = below mountPath inner ∧ safe_path inner ∧
      (mountPath = "" ∨ safe_path mountPath ∨ mountPath ∈ PublicProjectionInput.publicSourceSpaceIds input).

Lemma mount_of_safe alone source mountPath : mount_of alone source = Ok mountPath →
  mountPath = "" ∨ safe_path mountPath ∨ mountPath = PublicProjectionSource.sourceSpaceId source.
Proof.
unfold mount_of. destruct (PublicProjectionSource.mountPath source) as [m|].
- intros Hm%normalizePublicPath_safe. auto.
- intros [= <-]. destruct alone; auto.
Qed.
Lemma projects_contained p : projects input p → files_contained p.
Proof.
intros [_ _ _ _ (ds & placements & _ & Hpl & _ & ->)] path content Hf. cbn in Hf.
rewrite sort_by_Permutation in Hf. apply list_elem_of_join in Hf as (new & Hf & Hnew).
apply list_elem_of_lookup in Hnew as [i Hnew].
eapply Forall2_lookup_r in Hpl as (id & Hid & source & mp & Hs & Hi & _ & Hm & Hfs); [|done].
apply list_elem_of_lookup in Hf as [j Hf].
eapply Forall2_lookup_r in Hfs as (entry & _ & Hp); [|done].
apply bind_Ok in Hp as (inner & Hin & [= <- <-]). exists mp, inner. split_and!; [done|by eapply normalizePublicPath_safe|].
apply mount_of_safe in Hm as [?|[?| ->]]; [auto|auto|]. right. right. rewrite Hi.
apply list_elem_of_lookup_2 in Hid. unfold sort_locale in Hid. by rewrite sort_by_Permutation in Hid.
Qed.
End placed_paths.

(** * The theorems *)

Section projection_theorems.
Context `{HH : Host}.

(** C12: [createPublicProjection] returns exactly the projection of its input: the
    Source Spaces asked for, each catalogued as public, owned by the Project and at
    the snapshot of the Project Revision, with the files of their sources under
    their mounts at distinct paths and nothing else; every path is a checked one
    below a checked mount, or below the id of a Source Space.  The bundle itself
    (its Git objects and the digests over them) is that of [public_image]. *)
Theorem public_projection_exact input p :
  createPublicProjection input = Ok p ↔ projects input p ∧ files_contained input p.
Proof.
rewrite createPublicProjection_projects. split; [|by intros [? _]].
intros Hp. split; [done|by apply projects_contained].
Qed.

(** C13: nothing else is seen: another well formed input (one that has a projection at
    all) with the same public parts, whatever its
    other Source Spaces, their snapshots, content and names, and its other history,
    has the same projection. *)
Theorem private_changes_invisible i j p : well_formed j → same_public i j →
  createPublicProjection i = Ok p → createPublicProjection j = Ok p.
Proof. rewrite !createPublicProjection_projects. apply projects_same_public. Qed.

(** C14: the identity of a projection binds what it discloses: the Project, the profile,
    the Source Spaces with their names and snapshots, and every file; the name of the
    Project is not part of it. *)
Theorem projection_identity_binds i j p q : CollisionFree HH →
  createPublicProjection i = Ok p → createPublicProjection j = Ok q →
  PublicProjectionRevision.projectionRevisionId p = PublicProjectionRevision.projectionRevisionId q →
  q = public_image (PublicProjectionRevision.projectId p) (PublicProjectionRevision.projectName q)
        (PublicProjectionRevision.profileId p) (PublicProjectionRevision.sourceSpaceIds p)
        (PublicProjectionRevision.sourceSpaces p) (PublicProjectionRevision.files q) ∧
  PublicProjectionRevision.files p ≡ₚ PublicProjectionRevision.files q.
Proof.
intros Hcf [_ _ _ _ (ds & fs & _ & _ & Hf & ->)]%createPublicProjection_projects
  [_ _ _ _ (ds' & fs' & _ & _ & Hf' & ->)]%createPublicProjection_projects H.
apply image_binds in H as (-> & -> & -> & -> & H); [by split|done|..]; by rewrite sort_by_Permutation.
Qed.
End projection_theorems.

(** * A Project with a public player and a private codec *)

Module ProjectionDemo.
#[local] Existing Instance example_host.
#[local] Existing Instance example_host_collision_free.

Definition project (name : string) (others : list string) : Project.t :=
  Project.mk "video" name "web" ("player" :: "theme" :: others).
Definition revision (codec : string) : ProjectRevision.t :=
  ProjectRevision.mk (cat ["revision:"; codec]) "video"
    [("codec", codec); ("player", "p1"); ("theme", "t1")] None None None None.
Definition space (id : string) (classification : SourceSpaceClassification.t) : SourceSpace.t :=
  SourceSpace.mk id id classification None.
Definition source (id snapshotId : string) (mountPath : option string) (files : omap string) : PublicProjectionSource.t :=
  PublicProjectionSource.mk id snapshotId files mountPath.
(** The two public spaces, with a codec at a snapshot, and with another. *)
Definition input (codec : string) (codec_sources : list PublicProjectionSource.t) : PublicProjectionInput.t := {|
  PublicProjectionInput.project := project "Video" ["codec"];
  PublicProjectionInput.canonicalRevision := revision codec;
  PublicProjectionInput.sourceSpaces :=
    [space "codec" SourceSpaceClassification.restricted; space "player" SourceSpaceClassification.public;
     space "theme" SourceSpaceClassification.public];
  PublicProjectionInput.publicSourceSpaceIds := ["theme"; "player"];
  PublicProjectionInput.sources :=
    codec_sources ++ [source "player" "p1" None [("src\main.ts", "play")];
                      source "theme" "t1" (Some "./themes/dark") [("a.css", "dark")]];
  PublicProjectionInput.profileId := None |}.
Definition with_codec : PublicProjectionInput.t := input "c1" [].
Definition other_codec : PublicProjectionInput.t :=
  input "c2" [source "codec" "c2" None [("../secret", "codec")]].

Definition projection : PublicProjectionRevision.t := Eval vm_compute in
  match createPublicProjection with_codec with Ok p => p | Throw _ => public_image "" "" "" [] [] [] end.
Example with_codec_projected : createPublicProjection with_codec = Ok projection.
Proof. vm_compute. reflexivity. Qed.
Example projection_files : PublicProjectionRevision.files projection =
  [("player/src/main.ts", "play"); ("themes/dark/a.css", "dark")].
Proof. reflexivity. Qed.

Example other_codec_well_formed : well_formed other_codec.
Proof. split; [done|..]; apply (bool_decide_unpack _); vm_compute; exact I. Qed.
Example codecs_same_public : same_public with_codec other_codec.
Proof.
split; try done.
- intros id name n Hid (space & [Hc Hi Ho Hp Hn] & Hname). exists space. split; [|done]. split; try done.
  cbn in Hid. rewrite !elem_of_cons in Hid. destruct Hid as [->|[->|[]%elem_of_nil]]; exact Hn.
- intros s _ Hs. cbn in *. set_solver.
Qed.

Lemma private_changes_invisible_witness : well_formed other_codec ∧ same_public with_codec other_codec ∧
  createPublicProjection with_codec = Ok projection ∧ createPublicProjection other_codec = Ok projection.
Proof.
split_and!; [apply other_codec_well_formed|apply codecs_same_public|apply with_codec_projected|].
apply (private_changes_invisible with_codec other_codec projection);
  [apply other_codec_well_formed|apply codecs_same_public|apply with_codec_projected].
Defined.

Example other_codec_projected : createPublicProjection other_codec = Ok projection.
Proof. vm_compute. reflexivity. Qed.
Lemma projection_identity_binds_witness : CollisionFree example_host ∧
  createPublicProjection with_codec = Ok projection ∧ createPublicProjection other_codec = Ok projection ∧
  PublicProjectionRevision.files projection ≡ₚ PublicProjectionRevision.files projection.
Proof.
split_and!; [apply example_host_collision_free|apply with_codec_projected|apply other_codec_projected|].
apply (projection_identity_binds with_codec other_codec projection projection
  example_host_collision_free with_codec_projected other_codec_projected eq_refl).
Defined.

(** With several Source Spaces and no mount path, the id is the mount, unchecked: a
    file leaves the directory the projection is written to. *)
Definition climbing : PublicProjectionInput.t := {|
  PublicProjectionInput.project := Project.mk "video" "Video" "web" ["../outside"; "player"];
  PublicProjectionInput.canonicalRevision :=
    ProjectRevision.mk "revision" "video" [("../outside", "o1"); ("player", "p1")] None None None None;
  PublicProjectionInput.sourceSpaces :=
    [space "../outside" SourceSpaceClassification.public; space "player" SourceSpaceClassification.public];
  PublicProjectionInput.publicSourceSpaceIds := ["../outside"; "player"];
  PublicProjectionInput.sources := [source "../outside" "o1" None [("a", "out")]; source "player" "p1" None []];
  PublicProjectionInput.profileId := None |}.
Example id_is_not_checked : ∃ p, createPublicProjection climbing = Ok p ∧
  PublicProjectionRevision.files p = [("../outside/a", "out")].
Proof. eexists. split; [vm_compute; reflexivity|reflexivity]. Qed.
(** A trailing slash makes two paths of one file. *)
Definition twice : PublicProjectionInput.t := {|
  PublicProjectionInput.project := Project.mk "video" "Video" "web" ["player"; "theme"];
  PublicProjectionInput.canonicalRevision :=
    ProjectRevision.mk "revision" "video" [("player", "p1"); ("theme", "t1")] None None None None;
  PublicProjectionInput.sourceSpaces :=
    [space "player" SourceSpaceClassification.public; space "theme" SourceSpaceClassification.public];
  PublicProjectionInput.publicSourceSpaceIds := ["player"; "theme"];
  PublicProjectionInput.sources :=
    [source "player" "p1" (Some "app") [("a", "one")]; source "theme" "t1" (Some "app/") [("a", "two")]];
  PublicProjectionInput.profileId := None |}.
Example one_file_two_paths : ∃ p, createPublicProjection twice = Ok p ∧
  PublicProjectionRevision.files p = [("app//a", "two"); ("app/a", "one")].
Proof. eexists. split; [vm_compute; reflexivity|reflexivity]. Qed.
End ProjectionDemo.
