(* ===== verification/DisclosureSealed.v ===== *)
(** What Sealed Verifiers disclose and how Publication Changes live, of the hybrid
    disclosure boundary. *)

From S2P Require Import Prelude Json Contracts Paths LocaleJson EvidenceLedger Disclosure.

(** * Substrings *)

Definition within (x s : string) : Prop := ∃ before after, s = before +:+ x +:+ after.

Lemma includes_within x s : includes x s = true ↔ within x s.
Proof.
induction s as [|c s IH]; cbn [includes].
- rewrite orb_false_r. change (String.prefix x "") with (starts_with x ""). rewrite starts_with_spec. split.
  + intros [rest Hr]. by exists "", rest.
  + intros (a & b & H). destruct a; [|done]. by exists b.
- rewrite orb_true_iff, IH. change (String.prefix x (String c s)) with (starts_with x (String c s)).
  rewrite starts_with_spec. split.
  + intros [[rest Hr]|(a & b & ->)]; [by exists "", rest|]. exists (String c a), b. by str_simpl.
  + intros (a & b & H). destruct a as [|d a]; [left; by exists b|]. right.
    rewrite str_app_cons in H. injection H as -> ->. by exists a, b.
Qed.
Lemma within_refl x : within x x.
Proof. exists "", "". by rewrite str_app_nil, str_app_nil_r. Qed.
Lemma within_app_l x s t : within x s → within x (t +:+ s).
Proof. intros (a & b & ->). exists (t +:+ a), b. by rewrite str_app_assoc. Qed.
Lemma within_app_r x s t : within x s → within x (s +:+ t).
Proof. intros (a & b & ->). exists a, (b +:+ t). by rewrite !str_app_assoc. Qed.
Lemma within_cat x s l : s ∈ l → within x s → within x (cat l).
Proof.
induction l as [|y l IH]; [by intros ?%elem_of_nil|]. rewrite cat_cons.
intros [->|Hl]%elem_of_cons Hx; [by apply within_app_r|by apply within_app_l, IH].
Qed.
Lemma within_join x s sep l : s ∈ l → within x s → within x (join sep l).
Proof.
induction l as [|y [|z l] IH]; [by intros ?%elem_of_nil|by intros ->%list_elem_of_singleton|].
rewrite join_cons. intros [->|Hl]%elem_of_cons Hx; [by apply within_app_r|by apply within_app_l, within_app_l, IH].
Qed.
Lemma within_trans x y z : within x y → within y z → within x z.
Proof. intros (a & b & ->) (c & d & ->). exists (c +:+ a), (b +:+ d). by rewrite !str_app_assoc. Qed.
Lemma escape_app s t : escape (s +:+ t) = escape s +:+ escape t.
Proof. induction s as [|c s IH]; [done|]. rewrite str_app_cons. cbn [escape]. by rewrite IH, str_app_assoc. Qed.
Lemma within_escape x s : within x s → within (escape x) (escape s).
Proof. intros (a & b & ->). exists (escape a), (escape b). by rewrite !escape_app. Qed.

(** * The texts of a JSON value *)

Inductive text_in (s : string) : json → Prop :=
| text_here : text_in s (JStr s)
| text_item v l : v ∈ l → text_in s v → text_in s (JArr l)
| text_field k v l : (k, v) ∈ l → text_in s v → text_in s (JObj l).

Lemma text_in_encoded s undef v : text_in s v → within (escape s) (encode_plain undef v).
Proof.
induction 1 as [|v l Hv _ IH|k v l Hv _ IH]; cbn [encode_plain].
- apply (within_cat _ (escape s)); [right; left|apply within_refl].
- apply (within_cat _ (join "," (encode_plain undef <$> l))); [right; left|].
  eapply within_join; [by apply list_elem_of_fmap_2|done].
- apply (within_cat _ (join "," ((λ p, member (p.1, encode_plain undef p.2)) <$> l))); [right; left|].
  eapply within_join; [by apply (list_elem_of_fmap_2 (λ p, member (p.1, encode_plain undef p.2)) l (k, v))|].
  unfold member. cbn [fst snd]. eapply (within_cat _ (encode_plain undef v)); [do 2 right; left|done].
Qed.
Lemma text_in_stableValue `{Host} s v : text_in s v → text_in s (stableValue v).
Proof.
induction 1 as [|v l Hv _ IH|k v l Hv _ IH]; cbn [stableValue].
- constructor.
- eapply text_item; [by apply list_elem_of_fmap_2|done].
- eapply text_field; [|done]. rewrite sort_by_Permutation.
  by apply (list_elem_of_fmap_2 (λ p, (p.1, stableValue p.2)) l (k, v)).
Qed.

(** * Sealed Verifiers *)

Section sealed.
Context `{HH : Host}.

(** What the finishing of a run returns and leaves, once the private result is accepted. *)
Lemma runSealedVerifier_finish_run input result w l :
  let runId := key "sealed-run" (uuids_drawn w) in
  let record := sealed_record input result runId <| Evidence.createdAt := clock (clock_reads w) |> in
  check_private_result (RunSealedVerifierInput.contract input) (RunSealedVerifierInput.audience input)
    (RunSealedVerifierInput.privateInput input) result = Ok () →
  runSealedVerifier_finish input result w l =
    (Ok (sealed_result input result runId (key "sealed-appeal" (1 + uuids_drawn w))
           (clock (1 + clock_reads w)) (key "sealed-result" (2 + uuids_drawn w))),
     mkWorld (3 + uuids_drawn w) (2 + clock_reads w),
     if RunSealedVerifierInput.ledger input then l ++ [record] else l).
Proof.
intros runId record Hc. unfold runSealedVerifier_finish. rewrite Hc. subst runId record.
destruct input as [pid pp cr con aud pi [] act rn pv ae cg ow]; reflexivity.
Qed.
Lemma runSealedVerifier_finish_Ok input result w l a w' l' :
  runSealedVerifier_finish input result w l = (Ok a, w', l') →
  check_private_result (RunSealedVerifierInput.contract input) (RunSealedVerifierInput.audience input)
    (RunSealedVerifierInput.privateInput input) result = Ok ().
Proof.
unfold runSealedVerifier_finish. unfold mbind at 1. unfold M_bind at 1. unfold lift.
by destruct (check_private_result _ _ _ _) as [[]|].
Qed.

(** The texts a result shows, and those of a private result that may become so. *)
Definition shown_texts (summary : option string) (findings : option (list SafeFinding.t)) (text : string) : Prop :=
  summary = Some text ∨
  ∃ finding, finding ∈ default [] findings ∧ (text = SafeFinding.code finding ∨ text = SafeFinding.summary finding).
Definition shown (r : SealedVerificationResult.t) : string → Prop :=
  shown_texts (SealedVerificationResult.summary r) (SealedVerificationResult.findings r).

Lemma text_in_object s k v fs : [(k, v)] ∈ fs → text_in s v → text_in s (object fs).
Proof.
intros Hf Hv. unfold object. eapply text_field; [|done]. apply list_elem_of_join. exists [(k, v)]. split; [left|done].
Qed.
Lemma safe_payload_text result text :
  shown_texts (SealedVerifierPrivateResult.safeSummary result) (SealedVerifierPrivateResult.safeFindings result) text →
  text_in text (safe_payload result).
Proof.
unfold safe_payload. intros [Hs|(f & Hf & Ht)].
- rewrite Hs. eapply (text_in_object _ "safeSummary"); [left|constructor].
- destruct (SealedVerifierPrivateResult.safeFindings result) as [fs|]; [|by apply elem_of_nil in Hf].
  eapply (text_in_object _ "safeFindings"); [right; left|].
  eapply text_item; [by apply list_elem_of_fmap_2|]. destruct Ht as [->| ->].
  + eapply (text_in_object _ "code"); [left|constructor].
  + eapply (text_in_object _ "summary"); [right; left|constructor].
Qed.
Lemma sealed_result_shown input result runId appealId createdAt resultId text :
  shown (sealed_result input result runId appealId createdAt resultId) text →
  shown_texts (SealedVerifierPrivateResult.safeSummary result) (SealedVerifierPrivateResult.safeFindings result) text.
Proof.
unfold shown, sealed_result. cbn. intros [Hs|(f & Hf & Ht)].
- left. case_bool_decide; [done|]. by apply truthy_opt_Some in Hs as [? _].
- right. exists f. split; [|done]. by destruct (_ || _); [|apply elem_of_nil in Hf].
Qed.

(** A private result accepted for the public holds no marker that JSON writes as it is. *)
Lemma check_private_result_public contract privateInput result marker text :
  check_private_result contract DisclosureClassification.public privateInput result = Ok () →
  marker ∈ restricted_markers privateInput → marker ≠ "" → escape marker = marker →
  shown_texts (SealedVerifierPrivateResult.safeSummary result) (SealedVerifierPrivateResult.safeFindings result) text →
  ¬ within marker text.
Proof.
unfold check_private_result. destruct (_ || _); [done|]. rewrite bool_decide_eq_true_2 by done. cbn [orb andb].
destruct (containsRestrictedMarker _ _) eqn:Hc; [done|]. intros _ Hm Hne Hesc Ht Hw.
unfold containsRestrictedMarker in Hc. apply orb_false_iff in Hc as [Hc _].
apply not_true_iff_false in Hc. apply Hc, existsb_exists. exists marker. split; [by apply list_elem_of_In|].
apply andb_true_iff. split; [by apply truthy_spec|]. apply includes_within.
eapply within_trans; [rewrite <-Hesc; by apply within_escape|].
change (within (escape text) (encode_plain "undefined" (stableValue (safe_payload result)))).
by apply text_in_encoded, text_in_stableValue, safe_payload_text.
Qed.

(** Two runs for the public that agree on what may be disclosed. *)
Record alike (i j : RunSealedVerifierInput.t) (r s : SealedVerifierPrivateResult.t) : Prop := {
  public_i : RunSealedVerifierInput.audience i = DisclosureClassification.public;
  public_j : RunSealedVerifierInput.audience j = DisclosureClassification.public;
  alike_projection :
    PublicProjectionRevision.projectionRevisionId (RunSealedVerifierInput.publicProjection i) =
    PublicProjectionRevision.projectionRevisionId (RunSealedVerifierInput.publicProjection j);
  alike_contract :
    SealedVerifierContract.contractDigest (RunSealedVerifierInput.contract i) =
    SealedVerifierContract.contractDigest (RunSealedVerifierInput.contract j);
  alike_disclosure :
    SealedVerifierContract.disclosure (RunSealedVerifierInput.contract i) =
    SealedVerifierContract.disclosure (RunSealedVerifierInput.contract j);
  alike_appeal :
    SealedVerifierContract.appealPolicy (RunSealedVerifierInput.contract i) =
    SealedVerifierContract.appealPolicy (RunSealedVerifierInput.contract j);
  alike_status : SealedVerifierPrivateResult.status r = SealedVerifierPrivateResult.status s;
  alike_summary :
    SealedVerifierContract.disclosure (RunSealedVerifierInput.contract i) ≠ SealedDisclosureClass.status →
    SealedVerifierPrivateResult.safeSummary r = SealedVerifierPrivateResult.safeSummary s;
  alike_findings :
    SealedVerifierContract.disclosure (RunSealedVerifierInput.contract i) = SealedDisclosureClass.redacted_findings ∨
    SealedVerifierContract.disclosure (RunSealedVerifierInput.contract i) = SealedDisclosureClass.authorized_detail →
    SealedVerifierPrivateResult.safeFindings r = SealedVerifierPrivateResult.safeFindings s;
}.
Lemma sealed_result_alike i j r s runId appealId createdAt resultId : alike i j r s →
  sealed_result i r runId appealId createdAt resultId = sealed_result j s runId appealId createdAt resultId.
Proof.
intros [Hi Hj Hp Hc Hd Ha Hs Hsum Hf]. unfold sealed_result, disclosed, Disclosure.audience, Disclosure.projectionId, Disclosure.projection, Disclosure.contract.
rewrite Hi, Hj, Hp, Hc, Ha, Hs, <-Hd. cbv zeta. f_equal.
- case_bool_decide; [done|]. by rewrite Hsum.
- destruct (_ || _) eqn:Hb; [|done]. apply Hf. apply orb_true_iff in Hb. by rewrite !bool_decide_eq_true in Hb.
Qed.

(** C15: what a Sealed Verifier returns to the public depends on nothing private: two
    runs on the same projection and contract whose private results have the same
    status and approved feedback return the same result, whatever their private
    inputs, receipts, output digests and ledgers, and the runner, actor, policy and
    Change they ran with; and no non-empty private identifier, path or digest that
    JSON writes as it is occurs in a text of the result. *)
Theorem sealed_private_inputs_hidden i j r s w l k a b w1 w2 l' k' : alike i j r s →
  runSealedVerifier_finish i r w l = (Ok a, w1, l') →
  runSealedVerifier_finish j s w k = (Ok b, w2, k') →
  a = b ∧ w1 = w2 ∧
  ∀ marker text, marker ∈ restricted_markers (RunSealedVerifierInput.privateInput i) → marker ≠ "" →
    escape marker = marker → shown a text → ¬ within marker text.
Proof.
intros Hal Hi Hj. pose proof (runSealedVerifier_finish_Ok _ _ _ _ _ _ _ Hi) as Hci.
pose proof (runSealedVerifier_finish_Ok _ _ _ _ _ _ _ Hj) as Hcj.
rewrite runSealedVerifier_finish_run in Hi, Hj by done. injection Hi as <- <- <-. injection Hj as <- <- <-.
split_and!; [by apply sealed_result_alike|done|].
intros marker text Hm Hne Hesc Ht%sealed_result_shown. rewrite (public_i _ _ _ _ Hal) in Hci.
by eapply check_private_result_public.
Qed.
End sealed.

(** * Publication Changes *)

Section publication.
Context `{HH : Host}.

(** A call that returns a Publication Change, from the one it is given. *)
Inductive publishes (c : PublicationChange.t) : PublicationChange.t → Prop :=
| publish_preview p : previewPublicationChange c = Ok p → publishes c (PublicationPreview.change p)
| publish_approve c' : approvePublicationChange c = Ok c' → publishes c c'
| publish_land landedAt w w' c' :
    landPublicationChange c landedAt w () = (Ok c', w', ()) → publishes c c'
| publish_revoke revokedAt w w' c' :
    revokePublicationChange c revokedAt w () = (Ok c', w', ()) → publishes c c'.

(** The history of a Publication Change, the last value first. *)
Inductive history : list PublicationChange.t → Prop :=
| history_created input w w' c :
    createPublicationChange input w () = (Ok c, w', ()) → history [c]
| history_grown c cs c' : history (c :: cs) → publishes c c' → history (c' :: c :: cs).

(** What no call changes. *)
Definition publication (c : PublicationChange.t) :=
  (PublicationChange.id c, PublicationChange.projectId c, PublicationChange.publicSourceSpaceId c,
   PublicationChange.publicProjection c, PublicationChange.historyPolicy c,
   PublicationChange.metadataDisclosure c, PublicationChange.createdAt c).
(** The calls as edges between states, with the dates they set. *)
Definition edge (c c' : PublicationChange.t) : Prop :=
  match PublicationChange.state c, PublicationChange.state c' with
  | PublicationState.draft, PublicationState.previewed
  | PublicationState.previewed, PublicationState.previewed
  | PublicationState.previewed, PublicationState.approved =>
      PublicationChange.landedAt c' = PublicationChange.landedAt c ∧ PublicationChange.revokedAt c' = PublicationChange.revokedAt c
  | PublicationState.previewed, PublicationState.landed
  | PublicationState.approved, PublicationState.landed =>
      is_Some (PublicationChange.landedAt c') ∧ PublicationChange.revokedAt c' = PublicationChange.revokedAt c
  | PublicationState.landed, PublicationState.revoked =>
      PublicationChange.landedAt c' = PublicationChange.landedAt c ∧ is_Some (PublicationChange.revokedAt c')
  | _, _ => False
  end.
Lemma publishes_edge c c' : publishes c c' → publication c' = publication c ∧ edge c c'.
Proof.
destruct c as [id pid sp proj pol md st cr la ra rec].
intros [p H|c2 H|[date|] w w' c2 H|[date|] w w' c2 H]; destruct st; vm_compute in H; try discriminate H;
  injection H as <-; try (split; [done|]); unfold edge; simpl; eauto.
Qed.

(** The dates and the past of a state. *)
Record consistent_history (c : PublicationChange.t) (past : list PublicationChange.t) : Prop := {
  ch_same : ∀ c', c' ∈ past → publication c' = publication c;
  ch_landed : is_Some (PublicationChange.landedAt c) ↔
    PublicationChange.state c = PublicationState.landed ∨ PublicationChange.state c = PublicationState.revoked;
  ch_revoked : is_Some (PublicationChange.revokedAt c) ↔ PublicationChange.state c = PublicationState.revoked;
  ch_previewed : PublicationChange.state c ≠ PublicationState.draft →
    ∃ c', c' ∈ c :: past ∧ PublicationChange.state c' = PublicationState.previewed;
  ch_was_landed : PublicationChange.state c = PublicationState.revoked → ∃ c', c' ∈ past ∧
    PublicationChange.state c' = PublicationState.landed ∧ PublicationChange.landedAt c' = PublicationChange.landedAt c;
}.
Lemma history_consistent c past : history (c :: past) → consistent_history c past.
Proof.
remember (c :: past) as l eqn:Hl. intros H. revert c past Hl.
induction H as [input w w' c H|c cs c' H IH Hp]; intros c0 past [= <- <-].
- unfold createPublicationChange in H. destruct (_ || _); [done|]. destruct (truthy_opt _); [|done].
  destruct (CreatePublicationChangeInput.id input), (CreatePublicationChangeInput.createdAt input);
    unfold mbind, M_bind, mret, M_ret, opaqueId, now, uuid in H; simpl in H; injection H as <- <-;
    (split; simpl; [by intros ? ?%elem_of_nil|split; [by intros []|by intros [|]]|split; [by intros []|done]|done|done]).
- destruct (IH c cs eq_refl) as [Hs Hl Hr Hpv Hw]. apply publishes_edge in Hp as [He Hd].
  assert (∀ d, d ∈ c :: cs → publication d = publication c') as Hsame.
  { intros d [->|Hd']%elem_of_cons; [done|]. rewrite He. auto. }
  assert (PublicationChange.state c' ≠ PublicationState.draft → ∃ d, d ∈ c' :: c :: cs ∧
    PublicationChange.state d = PublicationState.previewed) as Hpv'.
  { intros _. destruct (decide (PublicationChange.state c' = PublicationState.previewed)) as [Hc0|Hc0]; [exists c'; split; [left|done]|].
    destruct Hpv as (d & Hd' & Hst); [|exists d; split; [by right|done]].
    intros Hst. unfold edge in Hd. rewrite Hst in Hd. by destruct (PublicationChange.state c'). }
  split; [done| | |done|].
  + clear -Hd Hl. unfold edge in Hd.
    destruct (PublicationChange.state c), (PublicationChange.state c'); try done; destruct Hd as [-> _] || destruct Hd as [? _]; naive_solver.
  + clear -Hd Hr. unfold edge in Hd.
    destruct (PublicationChange.state c), (PublicationChange.state c'); try done; destruct Hd as [_ Hd]; rewrite ?Hd; naive_solver.
  + intros Hst. unfold edge in Hd. rewrite Hst in Hd. exists c.
    destruct (PublicationChange.state c); try done. split_and!; [left|done|by destruct Hd].
Qed.
End publication.

Section publication_theorem.
Context `{HH : Host}.

(** The life of a Publication Change: what it publishes never changes, every
    Landing was previewed and every revocation landed before it, its dates say its
    state, every call is an edge of its state machine, and a revoked one is final. *)
Theorem publication_lifecycle c past : history (c :: past) →
  consistent_history c past ∧ (∀ c', publishes c c' → publication c' = publication c ∧ edge c c') ∧
  (PublicationChange.state c = PublicationState.revoked → ∀ c', ¬ publishes c c').
Proof.
intros H. split_and!; [by apply history_consistent|apply publishes_edge|].
intros Hst c' [_ Hd]%publishes_edge. unfold edge in Hd. by rewrite Hst in Hd.
Qed.
End publication_theorem.

(** * A sealed compatibility verifier, and its publication *)

Module SealedDemo.
#[local] Existing Instance example_host.

Definition projection : PublicProjectionRevision.t := Eval vm_compute in
  public_image "video" "Video" "public" ["player"] [PublicProjectionSourceDescriptor.mk "player" "Player" "p1"]
    [("src/main.ts", "play")].
Definition contract : SealedVerifierContract.t := {|
  SealedVerifierContract.version := "v1"; SealedVerifierContract.id := "verifier:codec";
  SealedVerifierContract.name := "Codec compatibility"; SealedVerifierContract.actionId := "action:codec";
  SealedVerifierContract.actionContractDigest := "sha256:action";
  SealedVerifierContract.contractDigest := "sha256:contract";
  SealedVerifierContract.acceptedInput := AcceptedInput.public_project_view;
  SealedVerifierContract.privateSourceSpaceIds := ["space:codec"];
  SealedVerifierContract.allowedAudiences := [DisclosureClassification.public];
  SealedVerifierContract.disclosure := SealedDisclosureClass.redacted_findings;
  SealedVerifierContract.sideChannelPolicy := SideChannelPolicy.coarse;
  SealedVerifierContract.appealPolicy := AppealPolicy.maintainer_review |}.
Definition revision (id : string) : ChangeRevision.t :=
  ChangeRevision.mk id "change" "revision:1" "view:1" 1 None [] None None None None None None None None None None None.
Definition run (file digest runner : string) : RunSealedVerifierInput.t := {|
  RunSealedVerifierInput.projectId := "video"; RunSealedVerifierInput.publicProjection := projection;
  RunSealedVerifierInput.changeRevision := revision "change:1:1"; RunSealedVerifierInput.contract := contract;
  RunSealedVerifierInput.audience := DisclosureClassification.public;
  RunSealedVerifierInput.privateInput :=
    SealedVerifierPrivateInput.mk ["space:codec"] [(file, "decode")] [digest];
  RunSealedVerifierInput.ledger := true;
  RunSealedVerifierInput.actor := ActorRef.mk "alice" "alice" "session" "client";
  RunSealedVerifierInput.runnerId := runner; RunSealedVerifierInput.policyVersion := "1";
  RunSealedVerifierInput.authorizationEpoch := "1"; RunSealedVerifierInput.capabilityGrantId := "grant";
  RunSealedVerifierInput.owner := "team" |}.
Definition answer (safe receipt : string) : SealedVerifierPrivateResult.t := {|
  SealedVerifierPrivateResult.status := SealedStatus.failed;
  SealedVerifierPrivateResult.safeSummary := Some safe;
  SealedVerifierPrivateResult.safeFindings := Some [SafeFinding.mk "CODEC" "A frame is late"];
  SealedVerifierPrivateResult.outputDigest := cat ["sha256:"; receipt];
  SealedVerifierPrivateResult.privateReceipt := receipt |}.
Definition one : RunSealedVerifierInput.t := run "codec/decode.c" "sha256:d1" "runner:1".
Definition two : RunSealedVerifierInput.t := run "codec/other.c" "sha256:d2" "runner:2".

Example one_begins : ∃ context, runSealedVerifier_begin one = Ok context.
Proof. eexists. vm_compute. reflexivity. Qed.
Definition finished (input : RunSealedVerifierInput.t) (receipt : string) :=
  runSealedVerifier_finish input (answer "Playback stalls" receipt) start [].
Definition shown_to_all : SealedVerificationResult.t :=
  Eval vm_compute in match (finished one "kept").1.1 with Ok r => r | Throw _ => sealed_result one (answer "" "") "" "" "" "" end.
Definition ledger_one : list Evidence.t := Eval vm_compute in (finished one "kept").2.
Definition ledger_two : list Evidence.t := Eval vm_compute in (finished two "other").2.
Definition later : World := Eval vm_compute in (finished one "kept").1.2.
Example one_finishes : finished one "kept" = (Ok shown_to_all, later, ledger_one).
Proof. vm_compute. reflexivity. Qed.
Example two_finishes : finished two "other" = (Ok shown_to_all, later, ledger_two).
Proof. vm_compute. reflexivity. Qed.
Example one_two_alike : alike one two (answer "Playback stalls" "kept") (answer "Playback stalls" "other").
Proof. by split. Qed.

Lemma sealed_private_inputs_hidden_witness :
  alike one two (answer "Playback stalls" "kept") (answer "Playback stalls" "other") ∧
  finished one "kept" = (Ok shown_to_all, later, ledger_one) ∧
  finished two "other" = (Ok shown_to_all, later, ledger_two) ∧
  ¬ within "codec/decode.c" "Playback stalls".
Proof.
split_and!; [apply one_two_alike|apply one_finishes|apply two_finishes|].
apply (sealed_private_inputs_hidden one two _ _ start [] [] shown_to_all shown_to_all later later ledger_one ledger_two
  one_two_alike one_finishes two_finishes).
- right. left.
- discriminate.
- vm_compute. reflexivity.
- left. reflexivity.
Defined.

(** Side channels are refused, and so are the names of private files; a name that JSON
    escapes is not seen. *)
Definition refusal (file safe : string) : option HybridDisclosureErrorCode.t :=
  match (runSealedVerifier_finish (run file "sha256:d1" "runner:1") (answer safe "kept") start []).1.1 with
  | Ok _ => None
  | Throw e => Some (HybridDisclosureError.code e)
  end.
Example refusals : refusal "codec/decode.c" <$> ["see codec/decode.c"; "17 tests failed"; "CPU usage: high"; "Duration = 3"; "17 testers"]
  = [Some HybridDisclosureErrorCode.sealed_side_channel; Some HybridDisclosureErrorCode.sealed_side_channel;
     Some HybridDisclosureErrorCode.sealed_side_channel; Some HybridDisclosureErrorCode.sealed_side_channel; None].
Proof. vm_compute. reflexivity. Qed.
Example escaped_marker_disclosed : refusal "codec\decode.c" "see codec\decode.c" = None.
Proof. vm_compute. reflexivity. Qed.
(** The private receipt is in Evidence that is classified public. *)
Example receipt_in_public_evidence :
  (λ e, (Evidence.receipt e, DisclosurePolicyRef.classification (Evidence.disclosure e))) <$> ledger_one =
  [("kept", DisclosureClassification.public)].
Proof. reflexivity. Qed.

Definition drafted : PublicationChange.t := Eval vm_compute in
  match (createPublicationChange (CreatePublicationChangeInput.mk "video" projection None None None None) start ()).1.1 with
  | Ok c => c
  | Throw _ => PublicationChange.mk "" "" "" projection PublicationHistoryPolicy.full MetadataDisclosure.none PublicationState.draft "" None None ""
  end.
Definition previewed : PublicationChange.t := drafted <| PublicationChange.state := PublicationState.previewed |>.
Definition landed : PublicationChange.t := Eval vm_compute in
  match (landPublicationChange previewed (Some "t1") start ()).1.1 with Ok c => c | Throw _ => drafted end.
(** A Publication Change that nobody approved is landed. *)
Lemma landed_unapproved : history [landed; previewed; drafted].
Proof.
eapply history_grown; [eapply history_grown; [eapply (history_created (CreatePublicationChangeInput.mk "video" projection None None None None) start)|]|].
- vm_compute. reflexivity.
- eapply (publish_preview drafted (PublicationPreview.mk previewed _ _)). vm_compute. reflexivity.
- eapply (publish_land previewed (Some "t1") start). vm_compute. reflexivity.
Qed.
Lemma publication_lifecycle_witness : history [landed; previewed; drafted] ∧
  consistent_history landed [previewed; drafted].
Proof. split; [apply landed_unapproved|apply (publication_lifecycle landed [previewed; drafted] landed_unapproved)]. Defined.
End SealedDemo.
