(* ===== verification/PublicIntake.v ===== *)
(** Public contributions to a Realm, src/disclosure/public-intake.ts: a policy, its
    counters and the decision on every submission; the invariants of its life.

    The state of a method is the object's fields; [validatePolicy] and the methods
    throw [PublicIntakeError]s, kept to the letter.  The limit is an integer. *)

From S2P Require Import Prelude Contracts.

(** * Data *)

Module PublicIntakeStatus.
Inductive t := closed | open | suspended.
#[global] Instance t_eq_dec : EqDecision t.
Proof. solve_decision. Defined.
Definition show (x : t) : string :=
  match x with closed => "closed" | open => "open" | suspended => "suspended" end.
End PublicIntakeStatus.

Module PublicIntakePolicyMode.
Inductive t := rate_limited | approval_only.
#[global] Instance t_eq_dec : EqDecision t.
Proof. solve_decision. Defined.
End PublicIntakePolicyMode.

Module PublicIntakeActorRole.
Inductive t := owner | moderator.
#[global] Instance t_eq_dec : EqDecision t.
Proof. solve_decision. Defined.
End PublicIntakeActorRole.

Module PublicIntakeMeasuredLimit.
Record t := mk {
  value : Z;
  unit : string;
  measuredAt : string;
  method : string;
  receipt : string;
}.
End PublicIntakeMeasuredLimit.

Module PublicIntakePolicy.
Record t := mk {
  id : string;
  realmId : string;
  projectId : string;
  publicSourceSpaceId : string;
  mode : PublicIntakePolicyMode.t;
  window : string;
  configuredLimit : option PublicIntakeMeasuredLimit.t;
  owner : string;
  receipt : string;
}.
End PublicIntakePolicy.

Module PublicIntakeOutcome.
Inductive t := accepted | denied | approval_required.
#[global] Instance t_eq_dec : EqDecision t.
Proof. solve_decision. Defined.
End PublicIntakeOutcome.

Module PublicIntakeDisposition.
Inductive t := quarantined | not_materialized | awaiting_owner_review.
#[global] Instance t_eq_dec : EqDecision t.
Proof. solve_decision. Defined.
End PublicIntakeDisposition.

(** [record] spreads the submission into the decision, [contributionId] included. *)
Module PublicIntakeDecision.
Record t := mk {
  id : string;
  requestId : string;
  actorId : string;
  contributionId : string;
  projectId : string;
  publicSourceSpaceId : string;
  status : PublicIntakeOutcome.t;
  disposition : PublicIntakeDisposition.t;
  requested : Z;
  consumed : Z;
  configuredLimit : option PublicIntakeMeasuredLimit.t;
  nextAction : string;
  receipt : string;
}.
End PublicIntakeDecision.

Module PublicIntakeErrorCode.
Inductive t := invalid_policy | invalid_request | forbidden | invalid_state.
#[global] Instance t_eq_dec : EqDecision t.
Proof. solve_decision. Defined.
End PublicIntakeErrorCode.

Module PublicIntakeError.
Record t := mk {
  code : PublicIntakeErrorCode.t;
  message : string;
  recoveryAction : string;
  receipt : string;
}.
End PublicIntakeError.

Module SubmitInput.
Record t := mk {
  requestId : string;
  actorId : string;
  contributionId : string;
}.
End SubmitInput.

Module IntakeActor.
Record t := mk {
  id : string;
  role : PublicIntakeActorRole.t;
}.
End IntakeActor.

(** The fields of [PublicIntakeController], which are also its snapshot. *)
Module PublicIntakeController.
Record t := mk {
  policy : PublicIntakePolicy.t;
  status : PublicIntakeStatus.t;
  requests : Z;
  accepted : Z;
  denied : Z;
  pendingReview : Z;
  preservedContributionIds : list string;
  lastDecision : option PublicIntakeDecision.t;
}.
#[global] Instance eta : Eta t := fun r =>
  mk (policy r) (status r) (requests r) (accepted r) (denied r) (pendingReview r)
    (preservedContributionIds r) (lastDecision r).
End PublicIntakeController.

(** * Validation *)

Definition required (value field : string) : outcome PublicIntakeError.t () :=
  if blank value then
    Throw (PublicIntakeError.mk PublicIntakeErrorCode.invalid_request
      (cat [field; " is required for public intake."]) (cat ["provide a non-empty "; field; " and retry"])
      (cat ["field="; field; "; present=false"]))
  else Ok ().

Definition validate_limit (policyId : string) (limit : PublicIntakeMeasuredLimit.t) : outcome PublicIntakeError.t () :=
  if (PublicIntakeMeasuredLimit.value limit <? 1)%Z then
    Throw (PublicIntakeError.mk PublicIntakeErrorCode.invalid_policy
      "The public-intake configured limit must be a positive measured value."
      "remeasure a healthy workload and provide a positive configured limit"
      (cat ["policy="; policyId; "; configuredLimit="; pretty (PublicIntakeMeasuredLimit.value limit); "; valid=false"]))
  else
    _ ← required (PublicIntakeMeasuredLimit.unit limit) "configuredLimit.unit";
    _ ← required (PublicIntakeMeasuredLimit.measuredAt limit) "configuredLimit.measuredAt";
    _ ← required (PublicIntakeMeasuredLimit.method limit) "configuredLimit.method";
    required (PublicIntakeMeasuredLimit.receipt limit) "configuredLimit.receipt".
Definition validatePolicy (policy : PublicIntakePolicy.t) : outcome PublicIntakeError.t PublicIntakePolicy.t :=
  _ ← required (PublicIntakePolicy.id policy) "policy.id";
  _ ← required (PublicIntakePolicy.realmId policy) "policy.realmId";
  _ ← required (PublicIntakePolicy.projectId policy) "policy.projectId";
  _ ← required (PublicIntakePolicy.publicSourceSpaceId policy) "policy.publicSourceSpaceId";
  _ ← required (PublicIntakePolicy.window policy) "policy.window";
  _ ← required (PublicIntakePolicy.owner policy) "policy.owner";
  _ ← required (PublicIntakePolicy.receipt policy) "policy.receipt";
  _ ← match PublicIntakePolicy.mode policy, PublicIntakePolicy.configuredLimit policy with
      | PublicIntakePolicyMode.approval_only, _ => Ok ()
      | PublicIntakePolicyMode.rate_limited, None =>
          Throw (PublicIntakeError.mk PublicIntakeErrorCode.invalid_policy
            "Rate-limited public intake requires a measured configured limit; no public quota was activated."
            "record a workload measurement with its receipt, or choose approval-only intake"
            (cat ["policy="; PublicIntakePolicy.id policy; "; configuredLimit=missing; publicIntake=closed"]))
      | PublicIntakePolicyMode.rate_limited, Some limit => validate_limit (PublicIntakePolicy.id policy) limit
      end;
  Ok policy.

(** [new PublicIntakeController(policy)]. *)
Definition construct (policy : PublicIntakePolicy.t) : outcome PublicIntakeError.t PublicIntakeController.t :=
  policy ← validatePolicy policy;
  Ok (PublicIntakeController.mk policy PublicIntakeStatus.closed 0 0 0 0 [] None).

(** * The methods *)

#[local] Abbreviation I := (M PublicIntakeController.t PublicIntakeError.t).

Definition snapshot : I PublicIntakeController.t := get.
Definition set_status (status : PublicIntakeStatus.t) : I () :=
  modify (λ s, s <| PublicIntakeController.status := status |>).
Definition invalid_transition (transition message recoveryAction : string) (s : PublicIntakeController.t) :
    PublicIntakeError.t :=
  PublicIntakeError.mk PublicIntakeErrorCode.invalid_state message recoveryAction
    (cat ["policy="; PublicIntakePolicy.id (PublicIntakeController.policy s); "; state=";
          PublicIntakeStatus.show (PublicIntakeController.status s); "; transition="; transition; "=denied"]).

Definition open (actor : IntakeActor.t) : I PublicIntakeController.t :=
  lift (required (IntakeActor.id actor) "actor.id");;
  s ← get;
  throw_if (bool_decide (PublicIntakeController.status s = PublicIntakeStatus.suspended))
    (invalid_transition "open"
      "Suspended public intake cannot be reopened without an explicit review decision."
      "call reopen after owner or moderator review and record the review receipt" s);;
  set_status PublicIntakeStatus.open;;
  snapshot.

(** What differs between the decisions of [submit]. *)
Definition record (input : SubmitInput.t) (status : PublicIntakeOutcome.t) (disposition : PublicIntakeDisposition.t)
    (requested consumed : Z) (configuredLimit : option PublicIntakeMeasuredLimit.t) (nextAction receipt : string) :
    I PublicIntakeDecision.t :=
  s ← get;
  let policy := PublicIntakeController.policy s in
  let decision := {|
    PublicIntakeDecision.id := cat ["public-intake-decision:"; pretty (PublicIntakeController.requests s)];
    PublicIntakeDecision.requestId := SubmitInput.requestId input;
    PublicIntakeDecision.actorId := SubmitInput.actorId input;
    PublicIntakeDecision.contributionId := SubmitInput.contributionId input;
    PublicIntakeDecision.projectId := PublicIntakePolicy.projectId policy;
    PublicIntakeDecision.publicSourceSpaceId := PublicIntakePolicy.publicSourceSpaceId policy;
    PublicIntakeDecision.status := status;
    PublicIntakeDecision.disposition := disposition;
    PublicIntakeDecision.requested := requested;
    PublicIntakeDecision.consumed := consumed;
    PublicIntakeDecision.configuredLimit := configuredLimit;
    PublicIntakeDecision.nextAction := nextAction;
    PublicIntakeDecision.receipt := receipt |} in
  modify (λ s, s <| PublicIntakeController.lastDecision := Some decision |>);;
  mret decision.

Definition recordDenied (input : SubmitInput.t) (requested : Z) (limitName nextAction : string)
    (configuredLimit : option PublicIntakeMeasuredLimit.t) : I PublicIntakeDecision.t :=
  modify (λ s, s <| PublicIntakeController.denied := (PublicIntakeController.denied s + 1)%Z |>);;
  s ← get;
  record input PublicIntakeOutcome.denied PublicIntakeDisposition.not_materialized requested
    (PublicIntakeController.accepted s) configuredLimit nextAction
    (cat ["policy="; PublicIntakePolicy.id (PublicIntakeController.policy s); "; limit="; limitName; "; configured=";
          match configuredLimit with
          | Some limit => pretty (PublicIntakeMeasuredLimit.value limit)
          | None => "state-boundary"
          end; "; requested="; pretty requested; "; contribution="; SubmitInput.contributionId input;
          "; materialized=false"]).

(** A request that awaits its review, and one that is accepted. *)
Definition ask_review (input : SubmitInput.t) (requested : Z) : I PublicIntakeDecision.t :=
  modify (λ s, s <| PublicIntakeController.pendingReview := (PublicIntakeController.pendingReview s + 1)%Z |>);;
  s ← get;
  record input PublicIntakeOutcome.approval_required PublicIntakeDisposition.awaiting_owner_review requested
    (PublicIntakeController.accepted s) None
    "owner reviews the public Change envelope before it becomes an accepted quarantined input"
    (cat ["policy="; PublicIntakePolicy.id (PublicIntakeController.policy s); "; mode=approval-only; request=";
          SubmitInput.requestId input; "; materialized=false"]).
Definition accept (input : SubmitInput.t) (requested : Z) (limit : PublicIntakeMeasuredLimit.t) : I PublicIntakeDecision.t :=
  modify (λ s, s <| PublicIntakeController.accepted := (PublicIntakeController.accepted s + 1)%Z |>
                 <| PublicIntakeController.preservedContributionIds :=
                      PublicIntakeController.preservedContributionIds s ++ [SubmitInput.contributionId input] |>);;
  s ← get;
  record input PublicIntakeOutcome.accepted PublicIntakeDisposition.quarantined requested
    (PublicIntakeController.accepted s) (Some limit)
    "run disclosure checks and create a Change Revision; Landing remains a separate authorized operation"
    (cat ["policy="; PublicIntakePolicy.id (PublicIntakeController.policy s); "; request="; SubmitInput.requestId input;
          "; contribution="; SubmitInput.contributionId input; "; privateSourceSpace=not-materialized"]).

(** [configuredLimit!] of a rate-limited policy, which [validatePolicy] left no other
    way: a policy without one would be a TypeError, modelled as a denial by no limit. *)
Definition submit (input : SubmitInput.t) : I PublicIntakeDecision.t :=
  lift (required (SubmitInput.requestId input) "requestId");;
  lift (required (SubmitInput.actorId input) "actorId");;
  lift (required (SubmitInput.contributionId input) "contributionId");;
  modify (λ s, s <| PublicIntakeController.requests := (PublicIntakeController.requests s + 1)%Z |>);;
  s ← get;
  let requested := PublicIntakeController.requests s in
  let policy := PublicIntakeController.policy s in
  match PublicIntakeController.status s with
  | PublicIntakeStatus.suspended =>
      recordDenied input requested "public-intake-suspended"
        "owner or moderator reviews the suspension before reopening public intake" None
  | PublicIntakeStatus.closed =>
      recordDenied input requested "public-intake-closed"
        "an owner explicitly opens the destination-Realm public projection before accepting contributions" None
  | PublicIntakeStatus.open =>
      match PublicIntakePolicy.mode policy, PublicIntakePolicy.configuredLimit policy with
      | PublicIntakePolicyMode.approval_only, _ => ask_review input requested
      | PublicIntakePolicyMode.rate_limited, limit =>
          let limit := default (PublicIntakeMeasuredLimit.mk 0 "" "" "" "") limit in
          if (PublicIntakeMeasuredLimit.value limit <? requested)%Z then
            recordDenied input requested (cat ["public-contribution-"; PublicIntakeMeasuredLimit.unit limit])
              "wait for the configured window to reset, authenticate for a higher-grant path, or ask the owner to review the policy"
              (Some limit)
          else accept input requested limit
      end
  end.

Definition suspend (actor : IntakeActor.t) (reason receipt : string) : I PublicIntakeController.t :=
  lift (required (IntakeActor.id actor) "actor.id");;
  lift (required reason "reason");;
  lift (required receipt "receipt");;
  set_status PublicIntakeStatus.suspended;;
  snapshot.

Definition reopen (actor : IntakeActor.t) (reviewReceipt : string) : I PublicIntakeController.t :=
  lift (required (IntakeActor.id actor) "actor.id");;
  lift (required reviewReceipt "reviewReceipt");;
  s ← get;
  throw_if (negb (bool_decide (PublicIntakeController.status s = PublicIntakeStatus.suspended)))
    (invalid_transition "reopen" "Only suspended public intake can be reopened."
      "inspect the current public-intake state and retry the matching transition" s);;
  set_status PublicIntakeStatus.open;;
  snapshot.

Definition cleanup (actor : IntakeActor.t) (cleanupReceipt : string) : I PublicIntakeController.t :=
  lift (required (IntakeActor.id actor) "actor.id");;
  lift (required cleanupReceipt "cleanupReceipt");;
  modify (λ s, s <| PublicIntakeController.status := PublicIntakeStatus.closed |>
                 <| PublicIntakeController.pendingReview := 0%Z |>);;
  snapshot.

(** * What a controller promises *)

(** A call, whatever it answers. *)
Inductive intake_step (s s' : PublicIntakeController.t) : Prop :=
| step_open actor w o w' : open actor w s = (o, w', s') → intake_step s s'
| step_submit input w o w' : submit input w s = (o, w', s') → intake_step s s'
| step_suspend actor reason receipt w o w' : suspend actor reason receipt w s = (o, w', s') → intake_step s s'
| step_reopen actor receipt w o w' : reopen actor receipt w s = (o, w', s') → intake_step s s'
| step_cleanup actor receipt w o w' : cleanup actor receipt w s = (o, w', s') → intake_step s s'.
Inductive reachable (policy : PublicIntakePolicy.t) : PublicIntakeController.t → Prop :=
| reach_new s : construct policy = Ok s → reachable policy s
| reach_step s s' : reachable policy s → intake_step s s' → reachable policy s'.

(** The most a policy lets in. *)
Definition cap (policy : PublicIntakePolicy.t) : Z :=
  match PublicIntakePolicy.mode policy, PublicIntakePolicy.configuredLimit policy with
  | PublicIntakePolicyMode.rate_limited, Some limit => PublicIntakeMeasuredLimit.value limit
  | _, _ => 0
  end.
Record counted (policy : PublicIntakePolicy.t) (s : PublicIntakeController.t) : Prop := {
  ct_policy : PublicIntakeController.policy s = policy;
  ct_preserved : Z.of_nat (length (PublicIntakeController.preservedContributionIds s)) = PublicIntakeController.accepted s;
  ct_cap : (PublicIntakeController.accepted s ≤ cap policy)%Z;
  ct_signs : (0 ≤ PublicIntakeController.accepted s ∧ 0 ≤ PublicIntakeController.denied s ∧
    0 ≤ PublicIntakeController.pendingReview s)%Z;
  ct_requests : (PublicIntakeController.accepted s + PublicIntakeController.denied s
    + PublicIntakeController.pendingReview s ≤ PublicIntakeController.requests s)%Z;
}.

Section intake.
Context (policy : PublicIntakePolicy.t).

Lemma validatePolicy_same p : validatePolicy policy = Ok p → p = policy ∧ (0 ≤ cap policy)%Z ∧
  (PublicIntakePolicy.mode policy = PublicIntakePolicyMode.rate_limited → is_Some (PublicIntakePolicy.configuredLimit policy)).
Proof.
unfold validatePolicy, cap. rewrite !bind_Ok. intros (_ & _ & H). rewrite !bind_Ok in H. 
destruct H as (_ & _ & H). rewrite bind_Ok in H. destruct H as (_ & _ & H). rewrite bind_Ok in H. destruct H as (_ & _ & H).
rewrite bind_Ok in H. destruct H as (_ & _ & H). rewrite bind_Ok in H. destruct H as (_ & _ & H).
rewrite bind_Ok in H. destruct H as (_ & _ & H). rewrite bind_Ok in H. destruct H as ([] & Hl & [= <-]).
destruct (PublicIntakePolicy.mode policy), (PublicIntakePolicy.configuredLimit policy) as [limit|]; try done.
split_and!; [done| |by eexists]. unfold validate_limit in Hl.
destruct (Z.ltb_spec (PublicIntakeMeasuredLimit.value limit) 1); [done|lia].
Qed.

#[local] Abbreviation kept m := (∀ w s, counted policy s → wp m (λ _ _ s', counted policy s') (λ _ _ s', counted policy s') w s).

Lemma open_counted actor : kept (open actor).
Proof. intros w s [Hp Hpr Hc Hs Hr]. unfold open, set_status, snapshot. wp_steps; by split. Qed.
Lemma suspend_counted actor reason receipt : kept (suspend actor reason receipt).
Proof. intros w s [Hp Hpr Hc Hs Hr]. unfold suspend, set_status, snapshot. wp_steps; by split. Qed.
Lemma reopen_counted actor receipt : kept (reopen actor receipt).
Proof. intros w s [Hp Hpr Hc Hs Hr]. unfold reopen, set_status, snapshot. wp_steps; by split. Qed.
Lemma cleanup_counted actor receipt : kept (cleanup actor receipt).
Proof. intros w s [Hp Hpr Hc Hs Hr]. unfold cleanup, snapshot. wp_steps; split; simpl; by lia || done. Qed.
Lemma submit_counted input :
  (PublicIntakePolicy.mode policy = PublicIntakePolicyMode.rate_limited → is_Some (PublicIntakePolicy.configuredLimit policy)) →
  kept (submit input).
Proof.
intros Hlim w s [Hp Hpr Hc Hs Hr].
set (s1 := s <| PublicIntakeController.requests := (PublicIntakeController.requests s + 1)%Z |>).
assert (∀ name next limit, wp (recordDenied input (PublicIntakeController.requests s1) name next limit)
  (λ _ _ s', counted policy s') (λ _ _ s', counted policy s') w s1) as Hd.
{ intros. unfold recordDenied, record. wp_steps. split; simpl; try done; lia. }
unfold cap in Hc. unfold submit. wp_steps; try (by split); [apply Hd|apply Hd| | |apply Hd].
all: match goal with H : PublicIntakePolicy.mode _ = _ |- _ => rename H into Hm end; cbn in Hm; rewrite Hp in Hm.
- destruct (Hlim Hm) as [limit Hl].
  match goal with H : (_ <? _)%Z = false |- _ => rename H into Hle end. cbn in Hle. rewrite Hp, Hl in Hle.
  unfold accept, record. wp_steps. rewrite Hm, Hl in Hc. simpl in *. split; simpl; [done|rewrite length_app; simpl; lia| |lia|lia].
  unfold cap. rewrite Hm, Hl. apply Z.ltb_ge in Hle. lia.
- unfold ask_review, record. wp_steps. rewrite Hm in Hc. split; simpl; try done; try lia. unfold cap. by rewrite Hm.
Qed.

Lemma kept_run {A} (m : M PublicIntakeController.t PublicIntakeError.t A) w s o w' s' :
  kept m → counted policy s → m w s = (o, w', s') → counted policy s'.
Proof. intros Hm Hs H. apply (wp_run _ _ _ _ _ _ _ _ (Hm w s Hs)) in H. by destruct o. Qed.

Lemma reachable_counted s : reachable policy s → counted policy s ∧
  (PublicIntakePolicy.mode policy = PublicIntakePolicyMode.rate_limited → is_Some (PublicIntakePolicy.configuredLimit policy)).
Proof.
induction 1 as [s H|s s' _ [IH Hlim] Hst].
- apply bind_Ok in H as (p & (-> & Hcap & Hlim)%validatePolicy_same & [= <-]). split; [|done]. by split.
- split; [|done]. destruct Hst; (eapply kept_run; [|done..]);
    auto using open_counted, submit_counted, suspend_counted, reopen_counted, cleanup_counted.
Qed.
End intake.

(** Runs [submit] on a state whose branch is known after [rewrites]. *)
#[local] Ltac exec rewrites :=
  eexists _, _; split;
  [cbv [mbind M_bind lift modify get mret M_ret recordDenied record ask_review accept]; simpl; rewrites; simpl; reflexivity|simpl].

(** Along every sequence of calls a controller keeps the policy it was made with,
    lets in no more than its limit, in approval-only mode nothing, and preserves one
    contribution for each it let in; and a submission is accepted, counted and preserved
    exactly when the intake is open, rate-limited and within its limit. *)
Theorem intake_bounded policy s input w : reachable policy s →
  blank (SubmitInput.requestId input) = false → blank (SubmitInput.actorId input) = false →
  blank (SubmitInput.contributionId input) = false →
  counted policy s ∧
  ∃ decision s', submit input w s = (Ok decision, w, s') ∧
    PublicIntakeController.lastDecision s' = Some decision ∧
    PublicIntakeController.requests s' = (PublicIntakeController.requests s + 1)%Z ∧
    PublicIntakeController.status s' = PublicIntakeController.status s ∧
    (PublicIntakeDecision.status decision = PublicIntakeOutcome.accepted ↔
      PublicIntakeController.status s = PublicIntakeStatus.open ∧
      PublicIntakePolicy.mode policy = PublicIntakePolicyMode.rate_limited ∧
      (PublicIntakeController.requests s < cap policy)%Z) ∧
    PublicIntakeController.preservedContributionIds s' = PublicIntakeController.preservedContributionIds s ++
      (if bool_decide (PublicIntakeDecision.status decision = PublicIntakeOutcome.accepted)
       then [SubmitInput.contributionId input] else []).
Proof.
intros [Hc Hlim]%reachable_counted H1 H2 H3. split; [done|].
unfold submit, required. rewrite H1, H2, H3. destruct (ct_policy _ _ Hc).
destruct s as [p st rq ac dn pr ids ld]; simpl in *. unfold cap.
destruct st; [exec idtac; rewrite app_nil_r; naive_solver| |exec idtac; rewrite app_nil_r; naive_solver].
destruct (PublicIntakePolicy.mode p) eqn:Hm; [|exec ltac:(rewrite Hm); rewrite app_nil_r; naive_solver].
destruct (Hlim eq_refl) as [limit Hl]. rewrite Hl.
destruct (PublicIntakeMeasuredLimit.value limit <? rq + 1)%Z eqn:Hlt.
- exec ltac:(rewrite Hm, Hl; simpl; rewrite Hlt). rewrite app_nil_r. apply Z.ltb_lt in Hlt.
  split_and!; try done. split; [done|lia].
- exec ltac:(rewrite Hm, Hl; simpl; rewrite Hlt). apply Z.ltb_ge in Hlt.
  split_and!; try done. split; [intros _; split_and!; [done|done|lia]|done].
Qed.

Module IntakeDemo.
Definition limited : PublicIntakePolicy.t := {|
  PublicIntakePolicy.id := "policy"; PublicIntakePolicy.realmId := "realm"; PublicIntakePolicy.projectId := "video";
  PublicIntakePolicy.publicSourceSpaceId := "player"; PublicIntakePolicy.mode := PublicIntakePolicyMode.rate_limited;
  PublicIntakePolicy.window := "1d";
  PublicIntakePolicy.configuredLimit := Some (PublicIntakeMeasuredLimit.mk 2 "contributions" "t0" "load" "receipt");
  PublicIntakePolicy.owner := "alice"; PublicIntakePolicy.receipt := "receipt" |}.
Definition alice : IntakeActor.t := IntakeActor.mk "alice" PublicIntakeActorRole.owner.
Definition send (contributionId : string) : M PublicIntakeController.t PublicIntakeError.t PublicIntakeOutcome.t :=
  decision ← submit (SubmitInput.mk (cat ["request:"; contributionId]) "bob" contributionId);
  mret (PublicIntakeDecision.status decision).
Definition runs {A} (m : M PublicIntakeController.t PublicIntakeError.t A) : option A :=
  match construct limited with
  | Ok s => match m start s with (Ok a, _, _) => Some a | _ => None end
  | Throw _ => None
  end.
Example within_limit : runs (open alice;; a ← send "a"; b ← send "b"; c ← send "c"; mret [a; b; c]) =
  Some [PublicIntakeOutcome.accepted; PublicIntakeOutcome.accepted; PublicIntakeOutcome.denied].
Proof. reflexivity. Qed.
(** Submissions that were denied because the intake was closed use up the limit. *)
Example closed_requests_count : runs (a ← send "a"; b ← send "b"; open alice;; c ← send "c"; mret [a; b; c]) =
  Some [PublicIntakeOutcome.denied; PublicIntakeOutcome.denied; PublicIntakeOutcome.denied].
Proof. reflexivity. Qed.
(** A suspended intake is open again without a review, by way of a cleanup. *)
Example reopened_without_review : runs (open alice;; suspend alice "abuse" "r";; cleanup alice "c";; open alice;; send "a") =
  Some PublicIntakeOutcome.accepted.
Proof. reflexivity. Qed.
End IntakeDemo.
